(* ===== verification/_CoqProject ===== *)
-Q . S2P
Prelude.v
Net.v
Checksum.v
Str.v
Addr.v
SipHash.v
SipTest.v
ShmMessage.v
Shm.v
Startup.v
Transport.v
Queues.v
Icmp.v
Udp.v
Arp.v
Ip4In.v
Reassembly.v
Ip4Out.v
Ip4.v
TcpWire.v
TcpData.v
Tcp.v
TcpMeta.v
TcpSafe.v
TcpFlow.v
TcpClient.v
Tests.v
TcpSegments.v
TcpStream.v
Link.v
Exchange.v
Ntp.v
L7.v
L7Safe.v
L7Sessions.v
L7Stream.v
System.v
HostFlow.v
HostArp.v
HostTcp.v
HostSend.v
Http.v
HttpTls.v
Gopher.v
Font.v
VncFb.v
Vnc.v
Log.v
Config.v
Device.v
Mains.v
Boot.v
HostBoot.v
