(* ===== verification/Prelude.v ===== *)
(** * MyIP-NG: a user-space IPv4 stack, verified in Rocq

    ** The program

    MyIP-NG ([src/]) is an IP stack in user space.  Every protocol is a process
    of its own: the link layer ([tap_server.cpp], [promisc_server.cpp]), ARP, IPv4, ICMP, UDP and
    TCP, and the services on top of them, NTP, time, HTTP, Gopher and VNC.  The processes talk
    through message queues in shared memory ([utils/shm.cpp]); a message
    carries the bytes of a packet and the addresses of the layer below
    ([utils/shm_message.cpp]).  A process has one thread per direction, each a loop around
    [wait_for_message]: [run_in] takes messages from below, [run_out] from
    above, [run_meta] requests of a text protocol.  The servers on top of TCP have a
    thread per connection, which reads from a queue that [run_in] fills.

    ** The model

    A handler of the code (the body of such a loop, for one message) is a function
    that threads the state of its server explicitly; the threads of a server that share
    state hold a lock for the whole body, so that a server is a sequence of such
    steps in any order ([TcpStream.server_step] for TCP).  Reads and writes outside a buffer, double
    frees, failed assertions, uncaught exceptions and loops without end are values of
    [outcome] (below), so a theorem that a handler returns excludes them.  A pointer is
    the suffix of the buffer it points at; memory the code does not initialise is a
    function [junk]; machine integers are [Z] with their wrap-around ([u8], [u16], [u32],
    [u64]) written out.  Sending is the class [Transport]: the handlers are verified
    against its laws, for every sequence of successes and failures, and the
    segments of [Shm] implement it.  A session's thread (layer 7) is a [proc], a
    tree of the operations on its queue, run in an environment that pushes data,
    closes and stops at any moment.

    ** Files

    - [Prelude]: outcomes, programs that send, buffers, bytes, automation.
    - [Net], [Checksum], [Str], [Addr], [SipHash]: [utils/net.cpp], [utils/checksum.cpp],
      [utils/str.cpp] and [utils/stoi.cpp], [utils/addresses.h], [3dparty/SipHash/siphash.c];
      [SipTest]: [halfsiphash.c] and [test.c] with the tables of [vectors.h].
    - [ShmMessage], [Shm], [Transport]: [utils/shm_message.cpp], [utils/shm.cpp], and the
      interface between servers and queues with its implementation.  [Queues]: the segments by name, as the
      queues of several processes.
    - [Startup]: [common.cpp], [begin] of [utils/shm.cpp] and [load_mappings] of [ip4_server.cpp].
    - [Log], [Config], [Device], [Mains], [Boot]: [utils/log.cpp]; [main] of the servers: its common
      beginning, the network devices, the twelve [main] functions, and what they do.
    - [Icmp], [Udp], [Arp], [Link], [Ntp]: [icmp_server.cpp], [udp_server.cpp], [arp_server.cpp],
      [tap_server.cpp] and [promisc_server.cpp], [ntp_server.cpp] and [time_server.cpp].
    - [Ip4In], [Reassembly], [Ip4Out], [Ip4]: [ip4_server.cpp]: receiving, the theory of the
      fragment store, sending, and the theorems.
    - [TcpWire], [TcpData], [Tcp], [TcpMeta]: the definitions for [tcp_server.cpp]: segments,
      data structures, handlers, client requests.  [TcpSafe], [TcpFlow], [TcpClient],
      [TcpSegments], [TcpStream]: the theorems.  [Tests]: the programs of [tests/].
    - [Exchange]: the requests for addresses at the start ([cfg_runtime] of [arp_server.cpp] and
      [tcp_server.cpp]) and the threads that answer them.
    - [System], [HostFlow], [HostArp], [HostTcp], [HostSend], [HostBoot]: the servers as threads on shared segments
      under any schedule; packets through all of them; ARP; connections and what comes over them; what goes
      over them; from the configuration files to such a host.
    - [L7]: [utils/queue.h] and [utils/tcp-helpers.cpp]; [L7Safe]: what the thread of a
      session may do; [L7Sessions]: [run_in] and [run_meta] of [http_server.cpp],
      [gopher_server.cpp] and [vnc_server.cpp]; [L7Stream]: TCP and sessions together.
    - [Http], [HttpTls], [Gopher], [Font], [VncFb], [Vnc]: the threads of [http_server.cpp] (without and
      with TLS), [gopher_server.cpp] and [vnc_server.cpp], and [font.cpp].

    ** What the theorems show

    - Queues: sending and receiving refine a queue with selective receive
      ([Shm.send_message_refines], [Shm.wait_for_message_refines]), and the servers' interface is
      implemented by them ([Transport.shm_send_delivers]); a failed wait keeps the
      mutex ([Shm.wait_error_keeps_mutex]).  From its creation on a queue does what a list does, for
      any sends, blocked senders and selective receives ([Startup.created_queue_fifo]); the tables of the configuration
      ([Startup.mappings_loaded]); [Tests.shm_dump_prints].
    - Checksums are those of RFC 1071 and verify where they were filled in.
    - A host: the servers together answer a "ping" ([HostFlow.ping_answered]), a request for the time
      ([HostFlow.time_served]) and ARP ([HostArp.arp_served]) on the wire, whichever thread is next; they
      answer a SYN, or not, as the connection demands, open the session of TCP and of the application for a valid acknowledgement, and bring data
      to the application while they acknowledge it ([HostTcp.syn_answered], [HostTcp.connection_opened],
      [HostTcp.data_served]).  What the application hands over goes out in segments, one for every
      acknowledgement, until all is sent ([HostSend.app_data_sent], [HostSend.data_transferred]).
      [System.inevitable] is the statement: some thread has something to do until the goal is reached,
      and none can leave the way to it; the agents are the threads that read queues, or those and TCP's sender
      ([System.Scheduler]).
    - Starting: a [main] refuses an incomplete configuration before it does anything
      ([Boot.mains_refuse]); a complete one gives the queues of the server's table
      ([Boot.mains_start]), and those are the segments of a host that is ready
      ([HostBoot.booted_ready]; with the mended files of [src/examples] also wired).  Under every schedule
      the ARP and the TCP server learn the right addresses and no others ([Exchange.exchange_safe],
      [Exchange.exchange_done], [HostBoot.booted_addresses]).  What is
      wrong in the examples is in [Boot.examples_wired]; negative sizes in [Boot.negative_queue].
    - IPv4: fragments in any order give the payload back, also those the sender
      produces ([Ip4.ip4_reassembly], [Ip4.ip4_end_to_end]); the table of waiting packets;
      routing by prefix.
    - TCP: every handler returns and keeps the sessions well-formed ([TcpSafe.tcp_run_in_safe]);
      the application sees the peer's stream in order, but for the byte that a FIN which comes early costs
      ([TcpFlow.tcp_receive_in_order]); what is
      sent at a sequence number is what the application handed over for it, in every
      interleaving of the server's threads ([TcpStream.tcp_stream]); handshakes of server and client.
    - Layer 7: the queue of a session and its helpers neither lose nor double a byte
      ([L7.recv_func_stream]); sessions do not mix, from the announcement of a connection to the turn that removes
      the session ([L7Sessions.l7_sessions_separate]); segments end up in the right session's
      queue ([L7Stream.tcp_feeds_session]).  HTTP, Gopher and VNC answer as specified however the
      peer's bytes are cut ([Http.http_serves], [Gopher.gopher_serves], [Vnc.vnc_session],
      [Vnc.vnc_chunks_irrelevant]), and over TLS as without ([HttpTls.https_serves]); the threads end without faults or wait
      ([Http.http_session_ends]); HTTP stays below its directory ([Http.http_confined]).
    - Drawing and encoding: [VncFb.run_fb_inside] and the sizes of updates against
      the buffers they are built in ([VncFb.vnc_update_raw], [VncFb.vnc_update_hextile]).
    - ARP, ICMP, UDP, NTP and the link layer: the handlers on every branch, and a
      packet from one host to the other.
    - Where the code fails, a theorem says when: the assertion a neighbour can fail
      ([Arp.arp_run_in_spec]) or a VNC client ([Vnc.vnc_cut_text_aborts]), the close request that ends the
      TCP server ([TcpClient.tcp_client_close]) or never returns in HTTP
      ([Http.http_close_waits]), acknowledgements at the wrap ([TcpStream.tcp_ack_window]), the
      hextile update that exceeds its buffer.

    ** Fuel

    Loops that are not structural have fuel, and running out of it is the fault
    [Diverges].  [send_tcp_loop] has the number of bytes to send, each turn sends at least one;
    [recv_loop] has [l7_work], the elements queued and to be queued and the moments of the environment,
    of which each turn uses one; the loops that send files have the number of pieces.  The
    loops of session threads take their fuel as an argument: [http_session_ends] has it exceed
    [L7Safe.budget], the number of waits that can succeed; [vnc_session] the number of
    commands.  [HttpTls.https_receive] reads a byte a turn and gives up behind 32768 of them, which bounds its fuel.  In all of
    these theorems [Diverges] is excluded.

    ** Not modelled

    - wolfSSL (a class of functions that call back, [HttpTls.WolfSSL]), zlib and libjpeg-turbo (parameters of [VncFb]),
      the file system (a parameter of [Http] and [Gopher]), the clock and random numbers (inputs).
    - iniparser (a class of functions, [Config.Iniparser]), the formatting of log messages, signals.
      The results of system calls ([shm_open], [mmap], [ioctl], [getrandom]) are inputs; so are, in [Mains], the
      replies to the questions at the start of the ARP and TCP servers, which [Exchange] accounts for.
    - In the host of [System]: the threads that clean up by time, those that answer "get-mac" and "get-ip4",
      and the threads of the sessions, whose messages the environment sends.  They are verified on their own.  The sender
      of TCP is idle there until a session has something to send; the code wakes it by a condition variable and, without
      one, every 100 ms, and a round with nothing to send changes nothing ([HostSend.loop_idle]).
    - Interleavings inside a handler: the lock that the code holds makes a handler a step.  The
      drawing thread of VNC holds none; the model gives the protocol thread an arbitrary frame
      buffer for every update.
    - [dump_sessions] of [tcp_server.cpp], which only writes to the log; the endless random test and the
      latency measurement of [tests/] (floating point statistics). *)

From Stdlib Require Export ZArith Lia.
From stdpp Require sorting.
From stdpp Require Export base list gmap strings numbers.

Open Scope Z_scope.

(** ** Faults and results *)

(** What a C++ handler can do instead of returning: read or write outside a
    buffer, free memory twice, fail an [assert] (the build type is Debug, so
    asserts are live), let an exception escape the thread, or loop longer than
    the fuel of the model (the theorems that a handler returns exclude it). *)
Inductive fault : Set :=
| OutOfBounds
| DoubleFree
| AssertFailed
| UncaughtException
| Diverges.

Inductive outcome (A : Type) : Type :=
| Ret (a : A)
| Fault (f : fault).
Arguments Ret {A} a.
Arguments Fault {A} f.

#[global] Instance outcome_ret : MRet outcome := fun A a => Ret a.
#[global] Instance outcome_bind : MBind outcome := fun A B f m =>
  match m with
  | Ret a => f a
  | Fault e => Fault e
  end.
#[global] Instance fault_eq_dec : EqDecision fault.
Proof. solve_decision. Defined.
#[global] Instance outcome_eq_dec `{EqDecision A} : EqDecision (outcome A).
Proof. solve_decision. Defined.

(** State passing on top of [outcome]: the shape of every handler that sends
    messages. [W] is the state of the message transport. *)
Definition prog (W A : Type) : Type := W -> outcome (A * W).

#[global] Instance prog_ret {W} : MRet (prog W) := fun A a w => Ret (a, w).
#[global] Instance prog_bind {W} : MBind (prog W) := fun A B f m w =>
  match m w with
  | Ret (a, w') => f a w'
  | Fault e => Fault e
  end.

Definition lift {W A} (m : outcome A) : prog W A := fun w =>
  match m with
  | Ret a => Ret (a, w)
  | Fault e => Fault e
  end.

(** [assert(b)] *)
Definition assertb (b : bool) : outcome unit :=
  if b then Ret tt else Fault AssertFailed.

(** ** Machine integers and byte buffers *)

(** Unsigned integers of [w] bits are integers in [0, 2^w); [wrap w] is the
    conversion to such a type. *)
Definition wrap (w z : Z) : Z := z mod 2 ^ w.
Abbreviation u8 := (wrap 8).
Abbreviation u16 := (wrap 16).
Abbreviation u32 := (wrap 32).
Abbreviation u64 := (wrap 64).

Definition is_u (w z : Z) : Prop := 0 <= z < 2 ^ w.
Definition is_byte (b : Z) : Prop := 0 <= b < 256.
Definition bytes (l : list Z) : Prop := Forall is_byte l.

(** Lengths and offsets are integers, as [size_t] is. *)
Definition zlen {A} (l : list A) : Z := Z.of_nat (length l).

(** The [n] bytes at offset [off]. *)
Definition sub {A} (l : list A) (off n : Z) : list A :=
  take (Z.to_nat n) (drop (Z.to_nat off) l).

(** A pointer into a buffer is the suffix of the buffer it points at:
    [p + n]. *)
Definition padd {A} (p : list A) (n : Z) : list A := drop (Z.to_nat n) p.

(** [p[i]] *)
Definition rd (p : list Z) (i : Z) : outcome Z :=
  if (0 <=? i) && (i <? zlen p)
  then match p !! Z.to_nat i with
       | Some b => Ret b
       | None => Fault OutOfBounds
       end
  else Fault OutOfBounds.

(** [memcpy(..., &p[off], n)], as the bytes read. *)
Definition rdn (p : list Z) (off n : Z) : outcome (list Z) :=
  if (0 <=? off) && (0 <=? n) && (off + n <=? zlen p)
  then Ret (sub p off n)
  else Fault OutOfBounds.

(** [l] with the bytes [bs] stored at offset [off]. *)
Definition splice {A} (l : list A) (off : Z) (bs : list A) : list A :=
  take (Z.to_nat off) l ++ bs ++ drop (Z.to_nat off + length bs) l.

(** [memcpy(&p[off], bs, len(bs))] *)
Definition wr (p : list Z) (off : Z) (bs : list Z) : outcome (list Z) :=
  if (0 <=? off) && (off + zlen bs <=? zlen p)
  then Ret (splice p off bs)
  else Fault OutOfBounds.

(** A zero-initialised buffer, [new uint8_t[n]()]. *)
Definition zeros (n : Z) : list Z := replicate (Z.to_nat n) 0.

(** [new uint8_t[n]]: the contents of the fresh allocation are arbitrary. *)
Definition fresh (junk : nat -> Z) (n : Z) : list Z := map junk (seq 0 (Z.to_nat n)).

(** Little-endian value of a byte list and its inverse at [n] bytes: how the
    (x86) host stores an integer in a packed struct. *)
Fixpoint le_val (l : list Z) : Z :=
  match l with
  | [] => 0
  | b :: r => b + 256 * le_val r
  end.

Fixpoint le_bytes (n : nat) (z : Z) : list Z :=
  match n with
  | O => []
  | S n' => z mod 256 :: le_bytes n' (z / 256)
  end.

(** [std::string] as its bytes; [str] converts a literal. *)
Fixpoint str (s : string) : list Z :=
  match s with
  | EmptyString => []
  | String c r => Z.of_N (Ascii.N_of_ascii c) :: str r
  end.

(** A [std::map] with integer keys is a [gmap]; iteration is in key order. *)
Definition key_le {A} (a b : Z * A) : Prop := a.1 <= b.1.
#[global] Instance key_le_dec {A} : RelDecision (@key_le A).
Proof. intros a b. unfold key_le. solve_decision. Defined.

Definition entries {A} (m : gmap Z A) : list (Z * A) := sorting.merge_sort key_le (map_to_list m).

(** Boolean equality of byte strings, [memcmp(...) == 0] at equal lengths. *)
Definition beq (a b : list Z) : bool := bool_decide (a = b).

(** ** Automation *)

Create HintDb myip discriminated.
Create Rewrite HintDb zlen.

(** Expand binds of the [outcome] and [prog] monads that have a known head. *)
Ltac mcbn := cbn [mbind mret outcome_bind outcome_ret prog_bind prog_ret lift].

(** Case analysis on the [if]s and [match]es that block a handler. *)
Ltac mcase :=
  match goal with
  | |- context [if ?b then _ else _] => destruct b eqn:?
  | |- context [match ?o with _ => _ end] => destruct o eqn:?
  end.

(** Goals on lengths. *)
Ltac zl := autorewrite with zlen in *; unfold zlen in *; cbn [length] in *; try lia.

(** The same, touching the goal only. *)
Ltac zlc :=
  autorewrite with zlen;
  repeat match goal with |- context [@zlen ?A []] => change (@zlen A []) with 0 end;
  lia.

(** Goals [x = true], [x = false] on comparisons of integers. *)
Ltac zb := first [ lia | apply bool_decide_eq_true_2; lia | apply bool_decide_eq_false_2; lia ].

(** ** Lemmas on results *)

Lemma bind_Ret_inv {A B} (m : outcome A) (f : A -> outcome B) b :
  m ≫= f = Ret b <-> exists a, m = Ret a /\ f a = Ret b.
Proof.
  destruct m as [a|e]; cbn; split.
  - intros H. by exists a.
  - intros (a' & [= ->] & H). done.
  - discriminate.
  - by intros (? & ? & ?).
Qed.

Lemma prog_bind_Ret_inv {W A B} (m : prog W A) (f : A -> prog W B) w b w' :
  (m ≫= f) w = Ret (b, w') <-> exists a w1, m w = Ret (a, w1) /\ f a w1 = Ret (b, w').
Proof.
  unfold mbind, prog_bind. destruct (m w) as [[a w1]|e]; split.
  - intros H. by exists a, w1.
  - intros (a' & w1' & [= -> ->] & H). done.
  - discriminate.
  - by intros (? & ? & ? & ?).
Qed.

(** Running a handler: a pure step that returns, and a final return. *)
Lemma lift_bind {W A B} (m : outcome A) (k : A -> prog W B) w a :
  m = Ret a -> (x ← lift m; k x) w = k a w.
Proof. by intros ->. Qed.

Lemma lift_bind_Fault {W A B} (m : outcome A) (k : A -> prog W B) w e :
  m = Fault e -> (x ← lift m; k x) w = Fault e.
Proof. by intros ->. Qed.

Lemma prog_bind_step {W A B} (m : prog W A) (k : A -> prog W B) w a w1 :
  m w = Ret (a, w1) -> (x ← m; k x) w = k a w1.
Proof. unfold mbind, prog_bind. by intros ->. Qed.

Lemma assertb_true b : assertb b = Ret tt <-> b = true.
Proof. destruct b; cbn; split; congruence. Qed.

(** ** Lemmas on machine integers *)

Lemma wrap_small w z : is_u w z -> wrap w z = z.
Proof. intros H. unfold wrap. apply Z.mod_small. exact H. Qed.

Lemma wrap_range w z : 0 <= w -> is_u w (wrap w z).
Proof. intros H. unfold is_u, wrap. apply Z.mod_pos_bound. lia. Qed.

Lemma wrap_wrap w z : 0 <= w -> wrap w (wrap w z) = wrap w z.
Proof. intros H. apply wrap_small, wrap_range, H. Qed.

Lemma wrap_add_l w a b : wrap w (wrap w a + b) = wrap w (a + b).
Proof. unfold wrap. apply Zplus_mod_idemp_l. Qed.

Lemma wrap_add_r w a b : wrap w (a + wrap w b) = wrap w (a + b).
Proof. unfold wrap. apply Zplus_mod_idemp_r. Qed.

Lemma wrap_sub_l w a b : wrap w (wrap w a - b) = wrap w (a - b).
Proof. unfold wrap. apply Zminus_mod_idemp_l. Qed.

Lemma u8_byte z : is_byte (u8 z).
Proof. unfold is_byte, wrap. apply Z.mod_pos_bound. lia. Qed.

Lemma is_byte_u8 b : is_byte b -> u8 b = b.
Proof. intros H. apply wrap_small. exact H. Qed.

(** ** Lemmas on lengths *)

Lemma zlen_nonneg {A} (l : list A) : 0 <= zlen l.
Proof. unfold zlen. lia. Qed.

Lemma zlen_app {A} (l k : list A) : zlen (l ++ k) = zlen l + zlen k.
Proof. unfold zlen. rewrite length_app. lia. Qed.

Lemma zlen_cons {A} (x : A) l : zlen (x :: l) = 1 + zlen l.
Proof. unfold zlen. cbn [length]. lia. Qed.

Lemma zlen_zeros n : 0 <= n -> zlen (zeros n) = n.
Proof. intros H. unfold zlen, zeros. rewrite length_replicate. lia. Qed.

Lemma zlen_fresh junk n : 0 <= n -> zlen (fresh junk n) = n.
Proof. intros H. unfold zlen, fresh. rewrite length_map, length_seq. lia. Qed.

Lemma zlen_drop {A} (l : list A) n : zlen (drop n l) = Z.max 0 (zlen l - Z.of_nat n).
Proof. unfold zlen. rewrite length_drop. lia. Qed.

Lemma zlen_take {A} (l : list A) n : zlen (take n l) = Z.min (Z.of_nat n) (zlen l).
Proof. unfold zlen. rewrite length_take. lia. Qed.

#[export] Hint Rewrite @length_app @length_cons @length_nil @length_drop @length_take
  @length_replicate @zlen_app @zlen_cons @zlen_drop @zlen_take : zlen.

Lemma zlen_sub {A} (l : list A) off n :
  0 <= off -> 0 <= n -> off + n <= zlen l -> zlen (sub l off n) = n.
Proof. intros. unfold sub. zl. Qed.

Lemma zlen_splice {A} (l : list A) off bs :
  0 <= off -> off + zlen bs <= zlen l -> zlen (splice l off bs) = zlen l.
Proof. intros. unfold splice. zl. Qed.

(** Lengths of buffers that were written to. *)
Ltac zls := first [ zlc | rewrite zlen_zeros by lia; zls | rewrite zlen_splice by zls; zls ].

(** ** Lemmas on buffer accesses *)

Lemma rd_ok p i b : 0 <= i -> p !! Z.to_nat i = Some b -> rd p i = Ret b.
Proof.
  intros Hi Hb. unfold rd. pose proof (lookup_lt_Some _ _ _ Hb).
  replace ((0 <=? i) && (i <? zlen p)) with true by (unfold zlen; lia).
  by rewrite Hb.
Qed.

Lemma rd_in p i : 0 <= i < zlen p -> exists b, p !! Z.to_nat i = Some b /\ rd p i = Ret b.
Proof.
  intros Hi. destruct (p !! Z.to_nat i) as [b|] eqn:E.
  - exists b. split; [done|]. apply rd_ok; [lia|done].
  - apply lookup_ge_None in E. zl.
Qed.

Lemma rd_oob p i : zlen p <= i -> rd p i = Fault OutOfBounds.
Proof.
  intros Hi. unfold rd.
  replace ((0 <=? i) && (i <? zlen p)) with false by lia. done.
Qed.

Lemma rdn_ok p off n :
  0 <= off -> 0 <= n -> off + n <= zlen p -> rdn p off n = Ret (sub p off n).
Proof.
  intros. unfold rdn.
  replace ((0 <=? off) && (0 <=? n) && (off + n <=? zlen p)) with true by lia. done.
Qed.

Lemma rdn_Ret_inv p off n bs :
  rdn p off n = Ret bs -> 0 <= off /\ 0 <= n /\ off + n <= zlen p /\ bs = sub p off n.
Proof. unfold rdn. destruct (_ && _) eqn:E; [|done]. intros [= <-]. repeat split; lia. Qed.

Lemma rdn_oob p off n : 0 <= n -> zlen p < off + n -> rdn p off n = Fault OutOfBounds.
Proof.
  intros. unfold rdn.
  replace ((0 <=? off) && (0 <=? n) && (off + n <=? zlen p)) with false by lia. done.
Qed.

Lemma wr_ok p off bs :
  0 <= off -> off + zlen bs <= zlen p -> wr p off bs = Ret (splice p off bs).
Proof.
  intros. unfold wr.
  replace ((0 <=? off) && (off + zlen bs <=? zlen p)) with true by lia. done.
Qed.

Lemma wr_oob p off bs : zlen p < off + zlen bs -> wr p off bs = Fault OutOfBounds.
Proof.
  intros. unfold wr.
  replace ((0 <=? off) && (off + zlen bs <=? zlen p)) with false by lia. done.
Qed.

Lemma sub_app_mid {A} (a b c : list A) off n :
  off = zlen a -> n = zlen b -> sub (a ++ b ++ c) off n = b.
Proof.
  intros -> ->. unfold sub, zlen. rewrite !Nat2Z.id.
  rewrite drop_app_length, take_app_length. done.
Qed.

Lemma sub_app_l {A} (a c : list A) n : n = zlen a -> sub (a ++ c) 0 n = a.
Proof. intros ->. unfold sub, zlen. rewrite Nat2Z.id. apply take_app_length. Qed.

Lemma sub_all {A} (a : list A) n : n = zlen a -> sub a 0 n = a.
Proof. intros ->. unfold sub, zlen. rewrite Nat2Z.id. apply firstn_all. Qed.

Lemma splice_mid {A} (x y z bs : list A) off :
  off = zlen x -> zlen bs = zlen y -> splice (x ++ y ++ z) off bs = x ++ bs ++ z.
Proof.
  intros -> H. unfold splice, zlen in *. rewrite Nat2Z.id, take_app_length.
  replace (length bs) with (length y) by lia. rewrite drop_app_add, drop_app_length. done.
Qed.

Lemma wr_mid x y z bs off : off = zlen x -> zlen bs = zlen y -> wr (x ++ y ++ z) off bs = Ret (x ++ bs ++ z).
Proof.
  intros -> H. pose proof (zlen_nonneg x). pose proof (zlen_nonneg z). rewrite wr_ok by (rewrite ?zlen_app; lia).
  by rewrite splice_mid.
Qed.

(** Writing one byte. *)
Lemma wr_set p i v : 0 <= i < zlen p -> wr p i [v] = Ret (<[Z.to_nat i := v]> p).
Proof.
  intros Hi. rewrite wr_ok; [|lia|change (zlen [v]) with 1; lia]. f_equal.
  destruct (nth_split p 0 (n := Z.to_nat i)) as (a & b & Hp & Ha); [unfold zlen in *; lia|].
  rewrite Hp. rewrite (splice_mid a [nth (Z.to_nat i) p 0] b [v]); [|unfold zlen; lia|done].
  rewrite <- Ha. rewrite list_insert_alter. rewrite (alter_app_r_alt _ a _ (length a)) by lia.
  by rewrite Nat.sub_diag.
Qed.

(** One-byte writes into a buffer whose first bytes are listed. *)
Ltac wr_cells :=
  repeat (
    rewrite wr_set by zlc; mcbn;
    match goal with |- context [<[?n := ?v]> ?l] =>
      let r := eval cbv [insert list_insert Z.to_nat Pos.to_nat Pos.iter_op Nat.add] in (<[n := v]> l) in
      change (<[n := v]> l) with r
    end).

Lemma split3 {A} (l : list A) a n :
  0 <= a -> 0 <= n -> l = sub l 0 a ++ sub l a n ++ padd l (a + n).
Proof.
  intros. unfold sub, padd. change (Z.to_nat 0) with 0%nat. rewrite drop_0.
  replace (Z.to_nat (a + n)) with (Z.to_nat a + Z.to_nat n)%nat by lia.
  rewrite <- drop_drop, take_drop, take_drop. done.
Qed.

Lemma padd_app {A} (a b : list A) n : n = zlen a -> padd (a ++ b) n = b.
Proof. intros ->. unfold padd, zlen. rewrite Nat2Z.id. apply drop_app_length. Qed.

Lemma padd_padd {A} (p : list A) a b : 0 <= a -> 0 <= b -> padd (padd p a) b = padd p (a + b).
Proof. intros. unfold padd. rewrite drop_drop. f_equal. lia. Qed.

Lemma rdn_app_l a c n : n = zlen a -> rdn (a ++ c) 0 n = Ret a.
Proof.
  intros ->. rewrite rdn_ok; [by rewrite sub_app_l|lia|apply zlen_nonneg|].
  rewrite zlen_app. pose proof (zlen_nonneg c). lia.
Qed.

Lemma rdn_app_mid a b c off n : off = zlen a -> n = zlen b -> rdn (a ++ b ++ c) off n = Ret b.
Proof.
  intros -> ->. pose proof (zlen_nonneg a). pose proof (zlen_nonneg b). pose proof (zlen_nonneg c).
  rewrite rdn_ok; [by rewrite sub_app_mid|lia|lia|]. rewrite !zlen_app. lia.
Qed.

Lemma rdn_all a n : n = zlen a -> rdn a 0 n = Ret a.
Proof.
  intros ->. pose proof (zlen_nonneg a).
  rewrite rdn_ok; [by rewrite sub_all|lia|lia|lia].
Qed.

Lemma rdn_prefix p rest n : 0 <= n <= zlen p -> rdn (p ++ rest) 0 n = Ret (sub p 0 n).
Proof.
  intros Hn. pose proof (zlen_nonneg rest). rewrite rdn_ok by (rewrite ?zlen_app; lia).
  unfold sub. rewrite !drop_0. rewrite take_app_le by (unfold zlen in *; lia). done.
Qed.

Lemma rd_prefix p rest i : 0 <= i < zlen p -> rd (p ++ rest) i = rd p i.
Proof.
  intros Hi. destruct (rd_in p i Hi) as (b & Hb & ->). apply rd_ok; [lia|].
  rewrite lookup_app_l; [done|]. by apply lookup_lt_Some in Hb.
Qed.

Lemma bytes_app l k : bytes (l ++ k) <-> bytes l /\ bytes k.
Proof. apply Forall_app. Qed.

Lemma bytes_cons b l : bytes (b :: l) <-> is_byte b /\ bytes l.
Proof. apply Forall_cons_iff. Qed.

Lemma bytes_bool l : forallb (fun b => (0 <=? b) && (b <? 256)) l = true -> bytes l.
Proof. intros H. apply Forall_forall. intros b Hb. eapply forallb_forall in H; [|done]. unfold is_byte. lia. Qed.

(** Concrete byte strings. *)
Ltac concrete_bytes := apply bytes_bool; vm_compute; reflexivity.

Lemma bytes_sub l off n : bytes l -> bytes (sub l off n).
Proof. intros H. unfold sub. by apply Forall_take, Forall_drop. Qed.

Lemma bytes_zeros n : bytes (zeros n).
Proof. apply Forall_replicate. unfold is_byte. lia. Qed.

Lemma bytes_fresh junk n : (forall i, is_byte (junk i)) -> bytes (fresh junk n).
Proof. intros H. apply Forall_forall. by intros x (i & <- & _)%in_map_iff. Qed.

Lemma bytes_splice l off bs : bytes l -> bytes bs -> bytes (splice l off bs).
Proof.
  intros Hl Hb. unfold splice. rewrite !bytes_app.
  repeat split; [by apply Forall_take|done|by apply Forall_drop].
Qed.

Lemma bytes_lookup l i b : bytes l -> l !! i = Some b -> is_byte b.
Proof. intros H Hi. by eapply Forall_lookup_1. Qed.

(** ** Chunks *)

(** [l] cut into chunks of [u] bytes. *)
Fixpoint chunk (fuel u : nat) (l : list Z) : list (list Z) :=
  match fuel, l with
  | O, _ => []
  | _, [] => []
  | S f, _ => take u l :: chunk f u (drop u l)
  end.

Definition chunks (u : Z) (l : list Z) : list (list Z) := chunk (length l) (Z.to_nat u) l.

Lemma chunk_concat fuel u l : (length l <= fuel)%nat -> (0 < u)%nat -> concat (chunk fuel u l) = l.
Proof.
  revert l. induction fuel as [|f IH]; intros l Hf Hu.
  - destruct l; [done|cbn in Hf; lia].
  - destruct l as [|x l]; [done|]. cbn [chunk concat]. rewrite IH; [apply take_drop| |done].
    rewrite length_drop. cbn [length] in *. lia.
Qed.

Lemma chunk_sizes fuel u l :
  (0 < u)%nat -> Forall (fun p => 0 < zlen p <= Z.of_nat u) (chunk fuel u l).
Proof.
  intros Hu. revert l. induction fuel as [|f IH]; intros l; [constructor|].
  destruct l as [|x l]; [constructor|]. cbn [chunk]. constructor; [|apply IH].
  rewrite zlen_take, zlen_cons. pose proof (zlen_nonneg l). lia.
Qed.

Lemma chunk_fuel f1 f2 u l :
  (0 < u)%nat -> (length l <= f1)%nat -> (length l <= f2)%nat -> chunk f1 u l = chunk f2 u l.
Proof.
  intros Hu. revert f2 l. induction f1 as [|f1 IH]; intros f2 l H1 H2.
  - destruct l; [|cbn in H1; lia]. by destruct f2.
  - destruct l as [|x l]; [by destruct f2|]. destruct f2 as [|f2]; [cbn in H2; lia|]. cbn [chunk]. f_equal.
    apply IH; rewrite length_drop; cbn [length] in *; lia.
Qed.

Lemma chunks_cons u l :
  0 < u -> l <> [] -> chunks u l = take (Z.to_nat u) l :: chunks u (drop (Z.to_nat u) l).
Proof.
  intros Hu Hl. unfold chunks. destruct l as [|x l]; [done|]. cbn [length chunk]. f_equal.
  apply chunk_fuel; [lia| |done]. rewrite length_drop. cbn [length]. lia.
Qed.

(** ** Lemmas on little-endian integers *)

Lemma length_le_bytes n z : length (le_bytes n z) = n.
Proof. revert z. induction n; intros z; cbn [le_bytes length]; auto. Qed.

Lemma zlen_le_bytes n z : zlen (le_bytes n z) = Z.of_nat n.
Proof. unfold zlen. by rewrite length_le_bytes. Qed.

#[export] Hint Rewrite length_le_bytes zlen_le_bytes : zlen.

Lemma le_val_le_bytes n z : le_val (le_bytes n z) = z mod 2 ^ (8 * Z.of_nat n).
Proof.
  revert z. induction n as [|n IH]; intros z.
  - cbn. by rewrite Z.mod_1_r.
  - cbn [le_bytes le_val]. rewrite IH.
    replace (8 * Z.of_nat (S n)) with (8 + 8 * Z.of_nat n) by lia.
    rewrite Z.pow_add_r by lia. change (2 ^ 8) with 256.
    pose proof (Z.pow_pos_nonneg 2 (8 * Z.of_nat n)).
    rewrite Z.rem_mul_r by lia. done.
Qed.

Lemma le_val_le_bytes_small n z : 0 <= z < 2 ^ (8 * Z.of_nat n) -> le_val (le_bytes n z) = z.
Proof. intros H. rewrite le_val_le_bytes. by apply Z.mod_small. Qed.

Lemma le_val_range l : bytes l -> 0 <= le_val l < 2 ^ (8 * zlen l).
Proof.
  induction 1 as [|b l Hb Hl IH]; [split; [done|reflexivity]|].
  rewrite zlen_cons. cbn [le_val]. pose proof (zlen_nonneg l).
  replace (8 * (1 + zlen l)) with (8 + 8 * zlen l) by lia.
  rewrite Z.pow_add_r by lia. change (2 ^ 8) with 256. unfold is_byte in Hb. lia.
Qed.

Lemma le_bytes_le_val l : bytes l -> le_bytes (length l) (le_val l) = l.
Proof.
  induction 1 as [|b l Hb Hl IH]; [done|].
  cbn [length le_bytes le_val]. unfold is_byte in Hb. f_equal.
  - rewrite (Z.mul_comm 256), Z.mod_add, Z.mod_small by lia. done.
  - rewrite (Z.mul_comm 256), Z.div_add, Z.div_small, Z.add_0_l by lia. done.
Qed.

Lemma bytes_le_bytes n z : bytes (le_bytes n z).
Proof.
  revert z. induction n as [|n IH]; intros z; cbn [le_bytes]; [constructor|].
  constructor; [|apply IH]. unfold is_byte. apply Z.mod_pos_bound. lia.
Qed.

(** ** Lemmas on iteration *)

Lemma elem_of_entries {A} (m : gmap Z A) k x : (k, x) ∈ entries m <-> m !! k = Some x.
Proof. unfold entries. rewrite sorting.merge_sort_Permutation. apply elem_of_map_to_list. Qed.

Lemma NoDup_entries {A} (m : gmap Z A) : NoDup (map fst (entries m)).
Proof. unfold entries. rewrite sorting.merge_sort_Permutation. apply NoDup_fst_map_to_list. Qed.

(** ** Lemmas on strings *)

Lemma str_bytes s : bytes (str s).
Proof.
  induction s as [|c s IH]; cbn [str]; constructor; [|done].
  unfold is_byte. pose proof (Ascii.N_ascii_bounded c). lia.
Qed.

Lemma beq_true a b : beq a b = true <-> a = b.
Proof. unfold beq. apply bool_decide_eq_true. Qed.

Lemma beq_refl a : beq a a = true.
Proof. by apply beq_true. Qed.

Lemma beq_false a b : beq a b = false <-> a <> b.
Proof. unfold beq. apply bool_decide_eq_false. Qed.

#[export] Hint Resolve u8_byte bytes_sub bytes_zeros bytes_splice bytes_le_bytes str_bytes : myip.
#[export] Hint Resolve <- bytes_app : myip.
