(* ===== verification/Net.v ===== *)
(** * Network byte order: [src/utils/net.cpp], and [htons]/[htonl]

    Big-endian loads and stores at 16 and 32 bits.  A pointer is the suffix of
    the buffer it points at (see [Prelude]); a store names the buffer, the
    offset and the value. *)

From S2P Require Import Prelude.

(** [get_uint16(from)]: [(from[0] << 8) | from[1]] as a [uint16_t]. *)
Definition get_uint16 (from : list Z) : outcome Z :=
  a ← rd from 0; b ← rd from 1;
  Ret (u16 (Z.lor (Z.shiftl a 8) b)).

(** [get_uint32(from)] *)
Definition get_uint32 (from : list Z) : outcome Z :=
  a ← rd from 0; b ← rd from 1; c ← rd from 2; d ← rd from 3;
  Ret (u32 (Z.lor (Z.lor (Z.lor (Z.shiftl a 24) (Z.shiftl b 16)) (Z.shiftl c 8)) d)).

(** The two bytes [put_uint16] stores for the [uint16_t] value [from]. *)
Definition be16 (from : Z) : list Z := [u8 (Z.shiftr from 8); u8 from].

Definition be32 (from : Z) : list Z :=
  [u8 (Z.shiftr from 24); u8 (Z.shiftr from 16); u8 (Z.shiftr from 8); u8 from].

(** [put_uint16(&to[off], from)]; the parameter is converted to [uint16_t]. *)
Definition put_uint16 (to : list Z) (off from : Z) : outcome (list Z) :=
  wr to off (be16 (u16 from)).

Definition put_uint32 (to : list Z) (off from : Z) : outcome (list Z) :=
  wr to off (be32 (u32 from)).

(** [htons] on a little-endian host: swap the two bytes. *)
Definition htons (x : Z) : Z := u16 (Z.lor (Z.shiftl x 8) (Z.shiftr x 8)).

(** A native (little-endian) [uint16_t] load, [reinterpret_cast<const uint16_t *>(p)[0]]. *)
Definition load16 (p : list Z) : outcome Z :=
  bs ← rdn p 0 2; Ret (le_val bs).

(** The bytes in memory of [htonl(x)] stored natively: big-endian [x]. *)
Definition htonl_bytes (x : Z) : list Z := be32 (u32 x).

(** ** Lemmas *)

Lemma shiftl_lor_add a b w : 0 <= w -> is_u w b -> Z.lor (Z.shiftl a w) b = a * 2 ^ w + b.
Proof.
  intros Hw [Hb0 Hb]. rewrite <- Z.shiftl_mul_pow2 by done.
  destruct (Z.eq_dec b 0) as [->|Hnz]; [rewrite Z.lor_0_r; lia|].
  assert (Hdisj : Z.land (Z.shiftl a w) b = 0).
  { apply Z.bits_inj'. intros i Hi. rewrite Z.land_spec, Z.bits_0.
    destruct (Z.ltb_spec i w) as [Hiw|Hiw].
    - by rewrite Z.shiftl_spec_low by done.
    - rewrite (Z.bits_above_log2 b), andb_false_r; [done|done|].
      apply Z.log2_lt_pow2; [lia|].
      eapply Z.lt_le_trans; [exact Hb|apply Z.pow_le_mono_r; lia]. }
  rewrite <- Z.lxor_lor by done. symmetry. by apply Z.add_nocarry_lxor.
Qed.

Lemma be16_join a b : is_byte a -> is_byte b -> u16 (Z.lor (Z.shiftl a 8) b) = 256 * a + b.
Proof.
  unfold is_byte. intros Ha Hb. rewrite shiftl_lor_add by (unfold is_u; lia).
  rewrite wrap_small; [lia|]. unfold is_u. lia.
Qed.

Lemma get_uint16_cons a b p :
  is_byte a -> is_byte b -> get_uint16 (a :: b :: p) = Ret (256 * a + b).
Proof.
  intros Ha Hb. unfold get_uint16.
  rewrite (rd_ok _ 0 a), (rd_ok _ 1 b) by done. mcbn. by rewrite be16_join.
Qed.

Lemma get_uint32_cons a b c d p :
  is_byte a -> is_byte b -> is_byte c -> is_byte d ->
  get_uint32 (a :: b :: c :: d :: p) = Ret (256 * (256 * (256 * a + b) + c) + d).
Proof.
  unfold is_byte. intros Ha Hb Hc Hd. unfold get_uint32.
  rewrite (rd_ok _ 0 a), (rd_ok _ 1 b), (rd_ok _ 2 c), (rd_ok _ 3 d) by done. mcbn.
  do 2 f_equal.
  rewrite (shiftl_lor_add a) by (try (rewrite Z.shiftl_mul_pow2; unfold is_u); lia).
  rewrite (Z.shiftl_mul_pow2 b) by lia.
  replace (a * 2 ^ 24 + b * 2 ^ 16) with (Z.shiftl (a * 256 + b) 16)
    by (rewrite Z.shiftl_mul_pow2; lia).
  rewrite shiftl_lor_add by (try (rewrite Z.shiftl_mul_pow2; unfold is_u); lia).
  rewrite (Z.shiftl_mul_pow2 c) by lia.
  replace ((a * 256 + b) * 2 ^ 16 + c * 2 ^ 8) with (Z.shiftl ((a * 256 + b) * 256 + c) 8)
    by (rewrite Z.shiftl_mul_pow2; lia).
  rewrite shiftl_lor_add by (unfold is_u; lia).
  rewrite wrap_small; [lia|]. unfold is_u. lia.
Qed.

Lemma be16_bytes v : bytes (be16 v).
Proof. unfold be16. repeat constructor; apply u8_byte. Qed.

Lemma be32_bytes v : bytes (be32 v).
Proof. unfold be32. repeat constructor; apply u8_byte. Qed.

Lemma be16_div v : be16 v = [v / 256 mod 256; v mod 256].
Proof. unfold be16, wrap. by rewrite Z.shiftr_div_pow2. Qed.

Lemma be16_val v : is_u 16 v -> 256 * (v / 256 mod 256) + v mod 256 = v.
Proof.
  unfold is_u. intros H. pose proof (Z.div_mod v 256).
  rewrite (Z.mod_small (v / 256)); [lia|].
  split; [apply Z.div_pos; lia|apply Z.div_lt_upper_bound; lia].
Qed.

Lemma be16_u8 v : is_u 16 v -> 256 * u8 (Z.shiftr v 8) + u8 v = v.
Proof. intros Hv. rewrite Z.shiftr_div_pow2 by lia. apply (be16_val v Hv). Qed.

Lemma be32_div v : be32 v = [v / 2 ^ 24 mod 256; v / 2 ^ 16 mod 256; v / 256 mod 256; v mod 256].
Proof. unfold be32, wrap. by rewrite !Z.shiftr_div_pow2. Qed.

Lemma be32_val v : is_u 32 v ->
  256 * (256 * (256 * (v / 2 ^ 24 mod 256) + v / 2 ^ 16 mod 256) + v / 256 mod 256) + v mod 256 = v.
Proof. unfold is_u. intros H. change (2 ^ 24) with 16777216. change (2 ^ 16) with 65536.
  Z.div_mod_to_equations. lia.
Qed.

Lemma zlen_be16 v : zlen (be16 v) = 2.
Proof. done. Qed.

Lemma zlen_be32 v : zlen (be32 v) = 4.
Proof. done. Qed.

#[export] Hint Rewrite zlen_be16 zlen_be32 : zlen.
#[export] Hint Resolve be16_bytes be32_bytes : myip.

(** A value stored in network order is read back: at 16 bits... *)
Lemma get_put_uint16 v p : is_u 16 v -> get_uint16 (be16 v ++ p) = Ret v.
Proof.
  intros H. rewrite be16_div. cbn [app].
  rewrite get_uint16_cons, be16_val by (try apply Z.mod_pos_bound; done). done.
Qed.

(** ... and at 32 bits. *)
Lemma get_put_uint32 v p : is_u 32 v -> get_uint32 (be32 v ++ p) = Ret v.
Proof.
  intros H. rewrite be32_div. cbn [app].
  rewrite get_uint32_cons, be32_val by (try apply Z.mod_pos_bound; done). done.
Qed.

Lemma get_uint16_range p v : get_uint16 p = Ret v -> is_u 16 v.
Proof.
  unfold get_uint16. intros (a & _ & (b & _ & [= <-])%bind_Ret_inv)%bind_Ret_inv.
  apply wrap_range. lia.
Qed.

Lemma get_uint32_range p v : get_uint32 p = Ret v -> is_u 32 v.
Proof.
  unfold get_uint32.
  intros (a & _ & (b & _ & (c & _ & (d & _ & [= <-])%bind_Ret_inv)%bind_Ret_inv)%bind_Ret_inv)%bind_Ret_inv.
  apply wrap_range. lia.
Qed.

(** [htons] of a native load is the big-endian value of the two bytes. *)
Lemma htons_load16 a b p :
  is_byte a -> is_byte b -> (w ← load16 (a :: b :: p); Ret (htons w)) = Ret (256 * a + b).
Proof.
  unfold is_byte. intros Ha Hb. unfold load16. rewrite rdn_ok by (zl). mcbn.
  do 2 f_equal. change (sub (a :: b :: p) 0 2) with [a; b]. cbn [le_val].
  replace (a + 256 * (b + 256 * 0)) with (a + 256 * b) by lia.
  unfold htons. rewrite Z.shiftr_div_pow2 by lia. change (2 ^ 8) with 256.
  replace ((a + 256 * b) / 256) with b by (Z.div_mod_to_equations; lia).
  rewrite shiftl_lor_add by (unfold is_u; lia).
  unfold wrap. change (2 ^ 16) with 65536. change (2 ^ 8) with 256.
  Z.div_mod_to_equations. lia.
Qed.

(** [p[k] = c >> 8; p[k + 1] = c;] *)
Definition store16 (p : list Z) (k c : Z) : outcome (list Z) :=
  p ← wr p k [u8 (Z.shiftr c 8)];
  wr p (k + 1) [u8 c].

Lemma splice_lookup {A} (l bs : list A) off i :
  0 <= off -> off + zlen bs <= zlen l ->
  splice l off bs !! i =
  if decide (Z.of_nat i < off) then l !! i
  else if decide (Z.of_nat i < off + zlen bs) then bs !! (i - Z.to_nat off)%nat
  else l !! i.
Proof.
  intros Ho Hl. unfold splice, zlen in *. case_decide; [|case_decide].
  - rewrite lookup_app_l by (rewrite length_take; lia). by rewrite lookup_take_lt by lia.
  - rewrite lookup_app_r by (rewrite length_take; lia).
    rewrite lookup_app_l by (rewrite length_take; lia). f_equal. rewrite length_take. lia.
  - rewrite lookup_app_r by (rewrite length_take; lia).
    rewrite lookup_app_r by (rewrite length_take; lia).
    rewrite lookup_drop. f_equal. rewrite length_take. lia.
Qed.

Lemma store16_ok p k c : 0 <= k -> k + 2 <= zlen p -> store16 p k c = Ret (splice p k (be16 c)).
Proof.
  intros Hk Hp. unfold store16. rewrite wr_ok by zlc. mcbn.
  assert (Hl : zlen (splice p k [u8 (Z.shiftr c 8)]) = zlen p)
    by (apply zlen_splice; zlc).
  rewrite wr_ok by (rewrite ?Hl; zlc). f_equal.
  apply list_eq. intros i. rewrite !splice_lookup by (rewrite ?Hl; zlc).
  rewrite zlen_be16, !zlen_cons. change (zlen []) with 0. unfold be16.
  repeat case_decide; try lia; try done.
  - replace (i - Z.to_nat k)%nat with 0%nat by lia. done.
  - replace (i - Z.to_nat k)%nat with 1%nat by lia. replace (i - Z.to_nat (k + 1))%nat with 0%nat by lia. done.
Qed.
