(* ===== verification/Checksum.v ===== *)
(** * Internet checksums: [src/utils/checksum.cpp]

    [ip_checksum] and [tcp_udp_checksum] with their [uint32_t] accumulator,
    against the one's complement sum of RFC 1071, and the fact every protocol
    of the stack relies on: a packet whose checksum field was zero and is
    filled with the checksum passes the receiver's test ([== 0x0000]). *)

From S2P Require Import Prelude Net.

(** ** The code *)

(** [for(size_t i=0; i<n / 2; i++) cksum += htons(p[i]);] with [k] iterations
    left. *)
Fixpoint cksum_loop (k : nat) (p : list Z) (cksum : Z) : outcome Z :=
  match k with
  | O => Ret cksum
  | S k' => w ← load16 p; cksum_loop k' (padd p 2) (u32 (cksum + htons w))
  end.

(** The word loop and the trailing odd byte. *)
Definition cksum_body (p : list Z) (n cksum : Z) : outcome Z :=
  c ← cksum_loop (Z.to_nat (n / 2)) p cksum;
  if Z.testbit n 0
  then b ← rd p (n - 1); Ret (u32 (c + Z.shiftl b 8))
  else Ret c.

(** Folding the carries, and the complement. *)
Definition cksum_fold (cksum : Z) : Z :=
  let cksum := u32 (Z.shiftr cksum 16 + Z.land cksum 0xffff) in
  let cksum := u32 (cksum + Z.shiftr cksum 16) in
  u16 (Z.lnot cksum).

Definition ip_checksum (p : list Z) (n : Z) : outcome Z :=
  cksum ← cksum_body p n 0;
  Ret (cksum_fold cksum).

(** [from] and [to] are the byte pointers the two addresses' [get()] return. *)
Definition tcp_udp_checksum (from to p : list Z) (n protocol_number : Z) : outcome Z :=
  let cksum := 0 in
  w ← load16 from; let cksum := u32 (cksum + htons w) in
  w ← load16 (padd from 2); let cksum := u32 (cksum + htons w) in
  w ← load16 to; let cksum := u32 (cksum + htons w) in
  w ← load16 (padd to 2); let cksum := u32 (cksum + htons w) in
  let cksum := u32 (cksum + u8 protocol_number) in
  let cksum := u32 (cksum + n) in
  cksum ← cksum_body p n cksum;
  Ret (cksum_fold cksum).

(** ** The specification: RFC 1071 *)

(** 16-bit words of a byte string, the last one padded with a zero byte. *)
Fixpoint words16 (p : list Z) : list Z :=
  match p with
  | a :: b :: r => 256 * a + b :: words16 r
  | [a] => [256 * a]
  | [] => []
  end.

(** One's complement addition with end-around carry. *)
Definition onec_add (a b : Z) : Z := (a + b) mod 65536 + (a + b) / 65536.

Definition rfc1071 (ws : list Z) : Z := 65535 - fold_left onec_add ws 0.

(** The pseudo header of TCP and UDP. *)
Definition pseudo_words (from to : list Z) (n protocol_number : Z) : list Z :=
  words16 (take 4 from) ++ words16 (take 4 to) ++ [protocol_number; n].

(** ** Lemmas *)

Definition zsum (l : list Z) : Z := foldr Z.add 0 l.

(** The class of [s] modulo [65535], with the representative one's complement
    arithmetic uses: [0] only for [0]. *)
Definition norm (s : Z) : Z := if s =? 0 then 0 else 1 + (s - 1) mod 65535.

Lemma zsum_app l k : zsum (l ++ k) = zsum l + zsum k.
Proof. unfold zsum. induction l as [|x l IH]; cbn in *; lia. Qed.

Lemma norm_range s : 0 <= s -> 0 <= norm s <= 65535.
Proof. intros. unfold norm. destruct (Z.eqb_spec s 0); Z.div_mod_to_equations; lia. Qed.

Lemma norm_norm_add a w : 0 <= a -> 0 <= w -> norm (norm a + w) = norm (a + w).
Proof.
  intros. unfold norm. destruct (Z.eqb_spec a 0) as [->|]; [done|].
  pose proof (Z.mod_pos_bound (a - 1) 65535).
  destruct (Z.eqb_spec (1 + (a - 1) mod 65535 + w) 0), (Z.eqb_spec (a + w) 0); try lia.
  f_equal. replace (1 + (a - 1) mod 65535 + w - 1) with ((a - 1) mod 65535 + w) by lia.
  rewrite Zplus_mod_idemp_l. f_equal. lia.
Qed.

Lemma onec_add_norm a b : 0 <= a <= 65535 -> 0 <= b <= 65535 -> onec_add a b = norm (a + b).
Proof.
  intros. unfold onec_add, norm. destruct (Z.eqb_spec (a + b) 0) as [->|]; [done|].
  Z.div_mod_to_equations. lia.
Qed.

Lemma fold_onec_norm ws a :
  0 <= a -> Forall (fun w => 0 <= w <= 65535) ws ->
  fold_left onec_add ws (norm a) = norm (a + zsum ws).
Proof.
  intros Ha H. revert a Ha. induction H as [|w ws Hw Hws IH]; intros a Ha; cbn [fold_left].
  - f_equal. unfold zsum. cbn [foldr]. lia.
  - rewrite onec_add_norm by (try apply norm_range; lia).
    rewrite norm_norm_add, IH by lia. f_equal. unfold zsum. cbn [foldr]. lia.
Qed.

Lemma rfc1071_norm ws :
  Forall (fun w => 0 <= w <= 65535) ws -> rfc1071 ws = 65535 - norm (zsum ws).
Proof. intros H. unfold rfc1071. change 0 with (norm 0) at 1. by rewrite fold_onec_norm. Qed.

Lemma cksum_fold_norm s : is_u 32 s -> cksum_fold s = 65535 - norm s.
Proof.
  unfold is_u. change (2 ^ 32) with 4294967296. intros Hs. unfold cksum_fold.
  rewrite !Z.shiftr_div_pow2 by lia. change 0xffff with (Z.ones 16).
  rewrite Z.land_ones by lia. change (Z.ones 16) with 65535. unfold wrap, Z.lnot, norm.
  change (2 ^ 32) with 4294967296. change (2 ^ 16) with 65536.
  set (c1 := (s / 65536 + s mod 65536) mod 4294967296).
  assert (Hc1 : c1 = s / 65536 + s mod 65536).
  { unfold c1. apply Z.mod_small. Z.div_mod_to_equations. lia. }
  rewrite Hc1. set (c2 := s / 65536 + s mod 65536).
  assert (0 <= c2 <= 131070) by (unfold c2; Z.div_mod_to_equations; lia).
  rewrite (Z.mod_small (c2 + c2 / 65536)) by (Z.div_mod_to_equations; lia).
  destruct (Z.eqb_spec s 0) as [->|]; [reflexivity|].
  assert (Hs2 : (s - 1) mod 65535 = (c2 - 1) mod 65535).
  { replace (s - 1) with (c2 - 1 + (s / 65536) * 65535) by (unfold c2; Z.div_mod_to_equations; lia).
    by rewrite Z.mod_add. }
  rewrite Hs2. assert (c2 <> 0) by (unfold c2; Z.div_mod_to_equations; lia).
  clearbody c2. destruct (Z.ltb_spec c2 65536).
  - rewrite (Z.div_small c2), (Z.mod_small (c2 - 1)) by lia.
    symmetry. apply (Z.mod_unique _ _ (-1)); lia.
  - replace (c2 / 65536) with 1 by (Z.div_mod_to_equations; lia).
    replace (c2 - 1) with (c2 - 65536 + 1 * 65535) by lia.
    rewrite Z.mod_add, (Z.mod_small (c2 - 65536)) by lia.
    symmetry. apply (Z.mod_unique _ _ (-2)); lia.
Qed.

Lemma words16_bounds p : bytes p -> Forall (fun w => 0 <= w <= 65535) (words16 p).
Proof.
  unfold bytes, is_byte. induction p as [p IH] using (induction_ltof1 _ length).
  destruct p as [|a [|b r]]; intros H; cbn [words16]; [done| |].
  - apply Forall_cons_iff in H as [? _]. repeat constructor; lia.
  - apply Forall_cons_iff in H as [? [? ?]%Forall_cons_iff]. constructor; [lia|].
    apply IH; [|done]. unfold ltof. cbn. lia.
Qed.

Lemma zsum_words16_bound p : bytes p -> 0 <= zsum (words16 p) <= 65535 * ((zlen p + 1) / 2).
Proof.
  unfold bytes, is_byte. induction p as [p IH] using (induction_ltof1 _ length).
  destruct p as [|a [|b r]]; intros H; cbn [words16].
  - change ((zlen [] + 1) / 2) with 0. unfold zsum. cbn [foldr]. lia.
  - apply Forall_cons_iff in H as [? _]. change ((zlen [a] + 1) / 2) with 1.
    unfold zsum. cbn [foldr]. lia.
  - apply Forall_cons_iff in H as [? [? H]%Forall_cons_iff].
    assert (ltof _ length r (a :: b :: r)) as Hlt by (unfold ltof; cbn; lia).
    specialize (IH r Hlt H). unfold zsum in *. cbn [foldr].
    rewrite !zlen_cons. replace (1 + (1 + zlen r) + 1) with (zlen r + 1 + 1 * 2) by lia.
    rewrite Z.div_add by lia. lia.
Qed.

Lemma words16_app a b : Z.even (zlen a) = true -> words16 (a ++ b) = words16 a ++ words16 b.
Proof.
  induction a as [a IH] using (induction_ltof1 _ length).
  destruct a as [|x [|y r]]; intros H; cbn [words16 app]; [done|done|].
  rewrite IH; [done| |].
  - unfold ltof. cbn. lia.
  - rewrite !zlen_cons in H. replace (1 + (1 + zlen r)) with (zlen r + 2) in H by lia.
    rewrite Z.even_add in H. by destruct (Z.even (zlen r)).
Qed.

Lemma cksum_loop_spec k p c :
  bytes p -> 2 * Z.of_nat k <= zlen p -> is_u 32 c ->
  cksum_loop k p c = Ret (u32 (c + zsum (words16 (take (2 * k) p)))).
Proof.
  revert p c. induction k as [|k IH]; intros p c Hp Hk Hc.
  - cbn. rewrite Z.add_0_r, wrap_small; done.
  - destruct p as [|a [|b r]]; [zl|zl|].
    apply bytes_cons in Hp as [Ha [Hb Hr]%bytes_cons].
    cbn [cksum_loop]. pose proof (htons_load16 a b r Ha Hb) as Hh.
    destruct (load16 (a :: b :: r)) as [w|]; [|discriminate]. injection Hh as Hh.
    cbn [mbind outcome_bind].
    change (padd (a :: b :: r) 2) with r. rewrite Hh, IH; [|done|zl|apply wrap_range; lia].
    rewrite wrap_add_l. replace (2 * S k)%nat with (S (S (2 * k))) by lia.
    change (take (S (S (2 * k))) (a :: b :: r)) with (a :: b :: take (2 * k) r).
    cbn [words16 zsum foldr]. fold (zsum (words16 (take (2 * k) r))).
    do 2 f_equal. lia.
Qed.

Lemma cksum_body_spec p c :
  bytes p -> is_u 32 c ->
  cksum_body p (zlen p) c = Ret (u32 (c + zsum (words16 p))).
Proof.
  intros Hp Hc. unfold cksum_body. pose proof (zlen_nonneg p).
  rewrite cksum_loop_spec; [|done|Z.div_mod_to_equations; lia|done].
  cbn [mbind outcome_bind]. rewrite Z.bit0_odd.
  destruct (Z.odd (zlen p)) eqn:Hodd.
  - apply Z.odd_spec in Hodd as [q Hq].
    destruct p as [|b0 p0 _] using rev_ind; [change (zlen []) with 0 in Hq; lia|].
    rewrite zlen_app in *. change (zlen [b0]) with 1 in *.
    assert (Hlen : length p0 = (2 * Z.to_nat q)%nat) by (unfold zlen in *; lia).
    replace ((zlen p0 + 1) / 2) with q by (Z.div_mod_to_equations; lia).
    rewrite <- Hlen, take_app_length.
    rewrite (rd_ok _ _ b0); [|lia|].
    2: { rewrite list_lookup_middle; [done|]. unfold zlen in *. lia. }
    cbn [mbind outcome_bind]. rewrite wrap_add_l, words16_app, zsum_app.
    + do 2 f_equal. rewrite Z.shiftl_mul_pow2 by lia. cbn. lia.
    + rewrite Z.even_spec. exists q. lia.
  - assert (Hev : Z.even (zlen p) = true) by (by rewrite <- Z.negb_odd, Hodd).
    apply Z.even_spec in Hev as [q Hq].
    rewrite take_ge; [done|]. rewrite Hq, Z.mul_comm, Z.div_mul by lia. unfold zlen in *. lia.
Qed.

(** The functional behaviour of [ip_checksum] on the bytes of its buffer. *)
Lemma ip_checksum_spec p :
  bytes p -> zlen p <= 131072 -> ip_checksum p (zlen p) = Ret (65535 - norm (zsum (words16 p))).
Proof.
  intros Hp Hn. unfold ip_checksum. rewrite cksum_body_spec by done. cbn [mbind outcome_bind].
  pose proof (zsum_words16_bound p Hp).
  rewrite cksum_fold_norm by (apply wrap_range; lia). rewrite Z.add_0_l, wrap_small; [done|].
  unfold is_u. change (2 ^ 32) with 4294967296. Z.div_mod_to_equations. lia.
Qed.

(** The sum over a buffer in which a zero word at an even offset is filled. *)
Lemma words16_fill p k v :
  bytes p -> 0 <= k -> k + 2 <= zlen p -> Z.even k = true -> sub p k 2 = [0; 0] -> is_u 16 v ->
  zsum (words16 (splice p k (be16 v))) = zsum (words16 p) + v.
Proof.
  intros Hp Hk Hk2 Hev Hsub Hv. unfold splice. cbn [length].
  assert (Hsplit : p = take (Z.to_nat k) p ++ [0; 0] ++ drop (Z.to_nat k + 2) p).
  { rewrite <- Hsub. unfold sub. change (Z.to_nat 2) with 2%nat.
    rewrite <- (take_drop (Z.to_nat k) p) at 1. f_equal.
    rewrite <- (take_drop 2 (drop (Z.to_nat k) p)) at 1. by rewrite drop_drop. }
  assert (Hz : Z.even (zlen (take (Z.to_nat k) p)) = true).
  { rewrite zlen_take, Z.min_l, Z2Nat.id; [done|lia|unfold zlen in *; lia]. }
  rewrite Hsplit at 3. rewrite !words16_app, !zsum_app by done.
  rewrite be16_div. cbn. fold (zsum (words16 (drop (Z.to_nat k + 2) p))).
  pose proof (be16_val v Hv). lia.
Qed.

Lemma norm_complete s : 0 <= s -> norm (s + (65535 - norm s)) = 65535.
Proof.
  intros Hs. pose proof (norm_range s Hs). unfold norm in *.
  destruct (Z.eqb_spec s 0) as [->|]; [done|].
  destruct (Z.eqb_spec (s + (65535 - (1 + (s - 1) mod 65535))) 0);
    Z.div_mod_to_equations; lia.
Qed.

Lemma norm_zero_iff s : 0 <= s -> 65535 - norm s = 0 <-> s mod 65535 = 0 /\ s <> 0.
Proof.
  intros Hs. unfold norm. destruct (Z.eqb_spec s 0) as [->|]; [naive_solver lia|].
  Z.div_mod_to_equations. lia.
Qed.

(** The first two words of an address of at least four bytes. *)
Lemma load16_addr from :
  bytes from -> 4 <= zlen from ->
  exists w1 w2,
    load16 from = Ret w1 /\ load16 (padd from 2) = Ret w2 /\
    words16 (take 4 from) = [htons w1; htons w2].
Proof.
  intros Hb Hl. destruct from as [|a [|b [|c [|d r]]]]; try zl.
  apply bytes_cons in Hb as [Ha [Hb [Hc [Hd Hr]%bytes_cons]%bytes_cons]%bytes_cons].
  pose proof (htons_load16 a b (c :: d :: r) Ha Hb) as H1.
  pose proof (htons_load16 c d r Hc Hd) as H2.
  change (padd (a :: b :: c :: d :: r) 2) with (c :: d :: r).
  destruct (load16 (a :: b :: c :: d :: r)) as [w1|]; [|discriminate].
  destruct (load16 (c :: d :: r)) as [w2|]; [|discriminate].
  injection H1 as E1. injection H2 as E2. exists w1, w2. rewrite E1, E2. done.
Qed.

Definition pseudo_sum (from to : list Z) (n protocol_number : Z) : Z :=
  zsum (pseudo_words from to n protocol_number).

Lemma pseudo_bounds from to n proto :
  bytes from -> bytes to -> is_byte proto -> 0 <= n <= 65535 ->
  Forall (fun w => 0 <= w <= 65535) (pseudo_words from to n proto).
Proof.
  intros. unfold pseudo_words. rewrite !Forall_app.
  split; [|split]; [apply words16_bounds; by apply Forall_take..|].
  unfold is_byte in *. repeat constructor; lia.
Qed.

Lemma pseudo_sum_bound from to n proto :
  bytes from -> bytes to -> is_byte proto -> 0 <= n ->
  0 <= pseudo_sum from to n proto <= 4 * 65535 + 255 + n.
Proof.
  intros Hf Ht Hp Hn. unfold pseudo_sum, pseudo_words. rewrite !zsum_app.
  pose proof (zsum_words16_bound (take 4 from) (Forall_take _ _ _ Hf)) as B1.
  pose proof (zsum_words16_bound (take 4 to) (Forall_take _ _ _ Ht)) as B2.
  rewrite zlen_take in B1, B2. unfold is_byte in Hp. unfold zsum in *. cbn [foldr].
  assert (forall x, 0 <= x -> (Z.min (Z.of_nat 4) x + 1) / 2 <= 2)
    as Hmin by (intros; Z.div_mod_to_equations; lia).
  pose proof (Hmin (zlen from) (zlen_nonneg from)). pose proof (Hmin (zlen to) (zlen_nonneg to)). lia.
Qed.

Lemma tcp_udp_checksum_spec from to p proto :
  bytes from -> bytes to -> bytes p -> 4 <= zlen from -> 4 <= zlen to -> is_byte proto ->
  zlen p <= 131000 ->
  tcp_udp_checksum from to p (zlen p) proto =
  Ret (65535 - norm (pseudo_sum from to (zlen p) proto + zsum (words16 p))).
Proof.
  intros Hf Ht Hp Lf Lt Hproto Ln. unfold tcp_udp_checksum.
  pose proof (pseudo_sum_bound from to (zlen p) proto Hf Ht Hproto (zlen_nonneg p)) as B.
  pose proof (zsum_words16_bound p Hp) as Bp.
  destruct (load16_addr from Hf Lf) as (f1 & f2 & -> & -> & Ef).
  destruct (load16_addr to Ht Lt) as (t1 & t2 & -> & -> & Et). mcbn.
  rewrite cksum_body_spec by (try apply wrap_range; done || lia). mcbn.
  repeat (rewrite <- ?Z.add_assoc; rewrite wrap_add_l).
  rewrite (is_byte_u8 proto), cksum_fold_norm by (try apply wrap_range; done || lia).
  rewrite wrap_small.
  - do 3 f_equal. unfold pseudo_sum, pseudo_words. rewrite Ef, Et. unfold zsum. cbn [app foldr]. lia.
  - unfold is_u. change (2 ^ 32) with 4294967296.
    unfold pseudo_sum, pseudo_words in B. rewrite Ef, Et in B. unfold zsum in *. cbn [app foldr] in *.
    Z.div_mod_to_equations. lia.
Qed.

Lemma zsum_nonneg l : Forall (fun w => 0 <= w <= 65535) l -> 0 <= zsum l.
Proof. unfold zsum. induction 1; cbn [foldr]; lia. Qed.

Lemma zsum_words16_nonneg p : bytes p -> 0 <= zsum (words16 p).
Proof. intros H. apply zsum_nonneg, words16_bounds, H. Qed.

(** The checksum only reads the [n] bytes it is given. *)
Lemma cksum_loop_prefix k p rest c :
  2 * Z.of_nat k <= zlen p -> cksum_loop k (p ++ rest) c = cksum_loop k p c.
Proof.
  revert p c. induction k as [|k IH]; intros p c Hk; cbn [cksum_loop]; [done|].
  destruct p as [|a [|b p]]; [zl|zl|]. unfold load16.
  rewrite !rdn_ok by (zl). change (padd ((a :: b :: p) ++ rest) 2) with (p ++ rest).
  change (padd (a :: b :: p) 2) with p. mcbn. rewrite IH by (zl). done.
Qed.

Lemma cksum_body_prefix p rest c : cksum_body (p ++ rest) (zlen p) c = cksum_body p (zlen p) c.
Proof.
  unfold cksum_body. pose proof (zlen_nonneg p).
  rewrite cksum_loop_prefix by (Z.div_mod_to_equations; lia).
  destruct (cksum_loop _ p c); mcbn; [|done].
  destruct (Z.testbit (zlen p) 0) eqn:Hodd; [|done]. rewrite rd_prefix; [done|].
  destruct (Z.eq_dec (zlen p) 0) as [E|]; [rewrite E in Hodd; discriminate|lia].
Qed.

Lemma ip_checksum_prefix p rest : ip_checksum (p ++ rest) (zlen p) = ip_checksum p (zlen p).
Proof. unfold ip_checksum. by rewrite cksum_body_prefix. Qed.

Lemma tcp_udp_checksum_prefix from to p rest proto :
  tcp_udp_checksum from to (p ++ rest) (zlen p) proto = tcp_udp_checksum from to p (zlen p) proto.
Proof.
  unfold tcp_udp_checksum.
  destruct (load16 from); mcbn; [|done]. destruct (load16 (padd from 2)); mcbn; [|done].
  destruct (load16 to); mcbn; [|done]. destruct (load16 (padd to 2)); mcbn; [|done].
  by rewrite cksum_body_prefix.
Qed.

(** Filling a zeroed checksum field makes a buffer verify (helper forms of the
    properties below, for the components). *)
Lemma ip_checksum_fill_aux p k c :
  bytes p -> 0 <= k -> k + 2 <= zlen p -> Z.even k = true -> sub p k 2 = [0; 0] -> zlen p <= 131070 ->
  ip_checksum p (zlen p) = Ret c -> ip_checksum (splice p k (be16 c)) (zlen p) = Ret 0.
Proof.
  intros Hp Hk Hk2 Hev Hz Hn Hc.
  pose proof (zsum_words16_nonneg p Hp) as Hs0. pose proof (norm_range _ Hs0).
  rewrite ip_checksum_spec in Hc by (done || lia). injection Hc as <-.
  assert (zlen (splice p k (be16 (65535 - norm (zsum (words16 p))))) = zlen p) as Hlen
    by (apply zlen_splice; rewrite ?zlen_be16; lia).
  rewrite <- Hlen, ip_checksum_spec by (auto with myip || lia).
  rewrite words16_fill by (done || (unfold is_u; lia)).
  rewrite norm_complete by done. done.
Qed.

Lemma tcp_udp_checksum_fill_aux from to p proto k c :
  bytes from -> bytes to -> bytes p -> zlen from = 4 -> zlen to = 4 -> is_byte proto ->
  0 <= k -> k + 2 <= zlen p -> Z.even k = true -> sub p k 2 = [0; 0] -> zlen p <= 130000 ->
  tcp_udp_checksum from to p (zlen p) proto = Ret c ->
  tcp_udp_checksum from to (splice p k (be16 c)) (zlen p) proto = Ret 0.
Proof.
  intros Hf Ht Hp Lf Lt Hproto Hk Hk2 Hev Hz Hn Hc.
  pose proof (zsum_words16_nonneg p Hp) as Hs0.
  pose proof (pseudo_sum_bound from to (zlen p) proto Hf Ht Hproto (zlen_nonneg p)).
  rewrite tcp_udp_checksum_spec in Hc by (done || lia). injection Hc as <-.
  set (s := pseudo_sum from to (zlen p) proto + zsum (words16 p)).
  assert (0 <= s) as Hs by lia. pose proof (norm_range s Hs).
  assert (zlen (splice p k (be16 (65535 - norm s))) = zlen p) as Hlen
    by (apply zlen_splice; rewrite ?zlen_be16; lia).
  rewrite <- Hlen, tcp_udp_checksum_spec by (auto with myip || lia).
  rewrite words16_fill, Hlen, Z.add_assoc by (done || (unfold is_u; lia)).
  rewrite norm_complete by done. done.
Qed.

(** ** Properties *)

(** For every byte buffer of at most 131070 bytes, [ip_checksum] (32-bit
    accumulator, two carry folds) returns exactly the RFC 1071 checksum: the
    complement of the one's complement sum of the big-endian 16-bit words,
    an odd last byte being padded with zero.  When a zeroed, 16-bit aligned
    field of the buffer is filled with it, the buffer passes the receiver's test: its
    checksum is [0x0000]. *)
Theorem ip_checksum_correct (p : list Z) (Hp : bytes p) (Hn : zlen p <= 131070) :
  ip_checksum p (zlen p) = Ret (rfc1071 (words16 p)) /\
  forall k, 0 <= k -> k + 2 <= zlen p -> Z.even k = true -> sub p k 2 = [0; 0] ->
    ip_checksum (splice p k (be16 (rfc1071 (words16 p)))) (zlen p) = Ret 0.
Proof.
  assert (E : ip_checksum p (zlen p) = Ret (rfc1071 (words16 p))).
  { rewrite ip_checksum_spec, rfc1071_norm by (try apply words16_bounds; done || lia). done. }
  split; [exact E|]. intros k Hk Hk2 Hev Hz. by apply ip_checksum_fill_aux.
Qed.

Lemma ip_checksum_correct_witness :
  ip_checksum [0x45; 0; 0; 0x14; 0; 0; 1; 2; 0xff] 9 = Ret 0xbae8 /\
  ip_checksum (splice [0x45; 0; 0; 0x14; 0; 0; 1; 2; 0xff] 4 (be16 0xbae8)) 9 = Ret 0.
Proof.
  destruct (ip_checksum_correct [0x45; 0; 0; 0x14; 0; 0; 1; 2; 0xff]) as [E F].
  - repeat constructor; unfold is_byte; lia.
  - vm_compute. discriminate.
  - split; [exact E|]. apply (F 4); try reflexivity; vm_compute; discriminate.
Defined.

(** C40: [tcp_udp_checksum] returns the RFC 1071 checksum of the pseudo header
    (source, destination, protocol, length) followed by the segment, and a
    segment built with a zero checksum field and then filled verifies under the same pseudo header:
    the contract between [send_tcp_packet] and UDP [run_out] and the
    checks in the [run_in] loops. *)
Theorem tcp_udp_checksum_correct (from to p : list Z) (proto : Z)
  (Hf : bytes from) (Ht : bytes to) (Hp : bytes p) (Lf : zlen from = 4) (Lt : zlen to = 4)
  (Hproto : is_byte proto) (Hn : zlen p <= 65535) :
  let c := rfc1071 (pseudo_words from to (zlen p) proto ++ words16 p) in
  tcp_udp_checksum from to p (zlen p) proto = Ret c /\
  forall k, 0 <= k -> k + 2 <= zlen p -> Z.even k = true -> sub p k 2 = [0; 0] ->
    tcp_udp_checksum from to (splice p k (be16 c)) (zlen p) proto = Ret 0.
Proof.
  intros c. pose proof (zlen_nonneg p). assert (E : tcp_udp_checksum from to p (zlen p) proto = Ret c).
  { unfold c. rewrite tcp_udp_checksum_spec, rfc1071_norm, zsum_app; try done; try lia.
    apply Forall_app. split; [apply pseudo_bounds; done || lia|by apply words16_bounds]. }
  split; [exact E|]. intros k Hk Hk2 Hev Hz. apply tcp_udp_checksum_fill_aux; (done || lia).
Qed.

Lemma tcp_udp_checksum_correct_witness :
  tcp_udp_checksum [10; 0; 0; 1] [10; 0; 0; 2] [0; 80; 0; 0; 7] 5 6 = Ret 0xe4a1 /\
  tcp_udp_checksum [10; 0; 0; 1] [10; 0; 0; 2] (splice [0; 80; 0; 0; 7] 2 (be16 0xe4a1)) 5 6 = Ret 0.
Proof.
  destruct (tcp_udp_checksum_correct [10; 0; 0; 1] [10; 0; 0; 2] [0; 80; 0; 0; 7] 6) as [E F].
  1-6: try reflexivity; repeat constructor; unfold is_byte; lia.
  - vm_compute. discriminate.
  - split; [exact E|]. apply (F 2); try reflexivity; vm_compute; discriminate.
Defined.
