(* ===== verification/Str.v ===== *)
(** * Strings: [src/utils/str.cpp] and [src/utils/stoi.cpp]

    [split], the [std::stoi]/[std::stoull] conversions the stack uses, and the
    printing functions ([std::to_string], [std::format]) they are inverse to.
    A [std::string] is the list of its bytes. *)

From S2P Require Import Prelude.

(** ** Code *)

Fixpoint has_prefix (pat s : list Z) : bool :=
  match pat, s with
  | [], _ => true
  | p :: pat', c :: s' => (p =? c) && has_prefix pat' s'
  | _ :: _, [] => false
  end.

(** [s.find(pat)]; [None] is [npos]. *)
Fixpoint find_sub (pat s : list Z) : option nat :=
  if has_prefix pat s then Some O
  else match s with
       | [] => None
       | _ :: r => S <$> find_sub pat r
       end.

(** [s.find(pat) != npos] *)
Definition contains (pat s : list Z) : bool := match find_sub pat s with Some _ => true | None => false end.

(** [s.rfind(c)] *)
Fixpoint rfind (c : Z) (s : list Z) : option nat :=
  match s with
  | [] => None
  | x :: r =>
    match rfind c r with
    | Some i => Some (S i)
    | None => if x =? c then Some O else None
    end
  end.

(** The [for(;;)] loop of [split].  Each turn drops the part up to and
    including a splitter, so for a non-empty splitter [S (length in)] turns are
    enough ([split_loop_char] below). *)
Fixpoint split_loop (fuel : nat) (inp splitter : list Z) (out : list (list Z)) : list (list Z) :=
  match fuel with
  | O => out
  | S f =>
    match find_sub splitter inp with
    | None => if zlen inp >? 0 then out ++ [inp] else out
    | Some pos =>
      let out := out ++ [take pos inp] in
      let bytes_left := zlen inp - (Z.of_nat pos + zlen splitter) in
      if bytes_left =? 0 then out ++ [[]]
      else split_loop f (drop (pos + length splitter) inp) splitter out
    end
  end.

Definition split (inp splitter : list Z) : list (list Z) :=
  split_loop (S (length inp)) inp splitter [].

(** The outcome of a numeric conversion: a value, [std::invalid_argument] or
    [std::out_of_range]. *)
Inductive num_res : Set :=
| NVal (z : Z)
| NInvalid
| NRange.

Definition is_space (c : Z) : bool := (c =? 32) || ((9 <=? c) && (c <=? 13)).

Definition digit_val (base c : Z) : option Z :=
  let v := if (48 <=? c) && (c <=? 57) then c - 48
           else if (97 <=? c) && (c <=? 122) then c - 87
           else if (65 <=? c) && (c <=? 90) then c - 55
           else base in
  if v <? base then Some v else None.

Fixpoint skip_space (s : list Z) : list Z :=
  match s with
  | c :: r => if is_space c then skip_space r else s
  | [] => []
  end.

(** The digits at the head of [s], accumulated; [None] when there is none. *)
Fixpoint digits_val (base : Z) (acc : option Z) (s : list Z) : option Z :=
  match s with
  | c :: r =>
    match digit_val base c with
    | Some v => digits_val base (Some (default 0 acc * base + v)) r
    | None => acc
    end
  | [] => acc
  end.

(** [strtol]'s view of a string: white space, a sign, an optional [0x] in base
    16, digits.  The result is the signed value, [None] when no digit was read. *)
Definition strtol (base : Z) (s : list Z) : option Z :=
  let s := skip_space s in
  let '(neg, s) := match s with
                   | c :: r => if c =? 45 then (true, r) else if c =? 43 then (false, r) else (false, s)
                   | [] => (false, s)
                   end in
  let s := match s with
           | z :: x :: d :: r =>
             if (base =? 16) && (z =? 48) && ((x =? 120) || (x =? 88)) && bool_decide (is_Some (digit_val 16 d))
             then d :: r else s
           | _ => s
           end in
  (fun v => if neg then - v else v) <$> digits_val base None s.

(** [std::stoi(s, nullptr, base)] *)
Definition stoi (base : Z) (s : list Z) : num_res :=
  match strtol base s with
  | None => NInvalid
  | Some v => if (- 2 ^ 31 <=? v) && (v <? 2 ^ 31) then NVal v else NRange
  end.

(** [std::stoull(s, nullptr, 16)]: a minus sign negates modulo [2^64]. *)
Definition stoull (base : Z) (s : list Z) : num_res :=
  match strtol base s with
  | None => NInvalid
  | Some v => if (- 2 ^ 64 <? v) && (v <? 2 ^ 64) then NVal (u64 v) else NRange
  end.

(** [std::invalid_argument] is caught, [std::out_of_range] is not. *)
Definition catch_invalid (r : num_res) : outcome (option Z) :=
  match r with
  | NVal v => Ret (Some v)
  | NInvalid => Ret None
  | NRange => Fault UncaughtException
  end.

Definition my_stoi_dec (s : list Z) : outcome (option Z) := catch_invalid (stoi 10 s).
Definition my_stoi_hex (s : list Z) : outcome (option Z) := catch_invalid (stoi 16 s).
Definition my_stoull_hex (s : list Z) : outcome (option Z) := catch_invalid (stoull 16 s).

Definition digit_char (d : Z) : Z := if d <? 10 then 48 + d else 87 + d.

(** Digits of a non-negative number, most significant first. *)
Fixpoint digits_of (fuel : nat) (base z : Z) (acc : list Z) : list Z :=
  match fuel with
  | O => acc
  | S f =>
    let acc := digit_char (z mod base) :: acc in
    if z / base =? 0 then acc else digits_of f base (z / base) acc
  end.

Definition to_base (base z : Z) : list Z := digits_of (S (Z.to_nat (Z.log2 z))) base z [].

(** [std::to_string(z)] for an unsigned value, [std::format("{:x}", z)] and
    [std::format("{0:02x}", z)]. *)
Definition to_string (z : Z) : list Z := to_base 10 z.
Definition format_x (z : Z) : list Z := to_base 16 z.
Definition format_02x (z : Z) : list Z :=
  let d := to_base 16 z in if zlen d <? 2 then 48 :: d else d.

(** [dump]: printable characters, a bar, hexadecimal bytes. The [char] is signed. *)
Definition dump (bs : list Z) : list Z :=
  map (fun b => let c := if b <? 128 then b else b - 256 in
                if (32 <? c) && (c <? 127) then c else 32) bs
  ++ str "|" ++ concat (map (fun b => str " " ++ format_02x b) bs).

(** ** Specification of [split] at a one-character splitter *)

Fixpoint split_ref (c : Z) (s : list Z) : list (list Z) :=
  match s with
  | [] => [[]]
  | x :: r =>
    if x =? c then [] :: split_ref c r
    else match split_ref c r with
         | h :: t => (x :: h) :: t
         | [] => [[x]]
         end
  end.

(** The inverse: parts joined by the splitter. *)
Fixpoint join (c : Z) (parts : list (list Z)) : list Z :=
  match parts with
  | [] => []
  | [p] => p
  | p :: r => p ++ c :: join c r
  end.

(** ** Lemmas *)

Lemma find_char_app (c : Z) (p r : list Z) : c ∉ p -> find_sub [c] (p ++ c :: r) = Some (length p).
Proof.
  induction p as [|x p IH]; cbn [app find_sub has_prefix length].
  - intros _. by rewrite Z.eqb_refl.
  - intros [Hne Hp]%not_elem_of_cons. replace (c =? x) with false by lia. cbn [andb].
    by rewrite IH.
Qed.

Lemma find_char_none (c : Z) (s : list Z) : c ∉ s -> find_sub [c] s = None.
Proof.
  induction s as [|x s IH]; cbn [find_sub has_prefix]; [done|].
  intros [Hne Hs]%not_elem_of_cons. replace (c =? x) with false by lia. cbn [andb].
  by rewrite IH.
Qed.

(** First occurrence of a character, or none. *)
Lemma split_at_char (c : Z) (s : list Z) : c ∉ s \/ exists p r : list Z, s = p ++ c :: r /\ c ∉ p.
Proof.
  induction s as [|x s IH]; [left; apply not_elem_of_nil|].
  destruct (Z.eq_dec x c) as [->|Hne].
  - right. exists [], s. split; [done|apply not_elem_of_nil].
  - destruct IH as [Hs|(p & r & -> & Hp)].
    + left. apply not_elem_of_cons. done.
    + right. exists (x :: p), r. split; [done|]. apply not_elem_of_cons. done.
Qed.

Lemma split_ref_notin (c : Z) (s : list Z) : c ∉ s -> split_ref c s = [s].
Proof.
  induction s as [|x s IH]; cbn [split_ref]; [done|].
  intros [Hne Hs]%not_elem_of_cons. replace (x =? c) with false by lia. by rewrite IH.
Qed.

Lemma split_ref_app (c : Z) (p r : list Z) : c ∉ p -> split_ref c (p ++ c :: r) = p :: split_ref c r.
Proof.
  induction p as [|x p IH]; cbn [split_ref app].
  - intros _. by rewrite Z.eqb_refl.
  - intros [Hne Hp]%not_elem_of_cons. replace (x =? c) with false by lia. by rewrite IH.
Qed.

Lemma split_loop_char fuel c s out :
  (length s < fuel)%nat -> s <> [] ->
  split_loop fuel s [c] out = out ++ split_ref c s.
Proof.
  revert s out. induction fuel as [|f IH]; intros s out Hf Hs; [lia|]. cbn [split_loop].
  destruct (split_at_char c s) as [Hn|(p & r & -> & Hp)].
  - rewrite find_char_none, split_ref_notin by done.
    destruct s; [done|]. rewrite zlen_cons. pose proof (zlen_nonneg s).
    by replace (1 + zlen s >? 0) with true by lia.
  - rewrite find_char_app, split_ref_app by done. rewrite length_app in Hf. cbn [length] in Hf.
    rewrite take_app_length. rewrite zlen_app, zlen_cons. change (zlen [c]) with 1. cbn [length].
    change (Z.of_nat (length p)) with (zlen p).
    replace (zlen p + (1 + zlen r) - (zlen p + 1)) with (zlen r) by lia.
    replace (drop (length p + 1) (p ++ c :: r)) with r
      by (rewrite drop_app_add; done).
    destruct r as [|y r].
    + cbn [zlen length split_ref]. by rewrite <- app_assoc.
    + rewrite zlen_cons. pose proof (zlen_nonneg r). replace (1 + zlen r =? 0) with false by lia.
      rewrite IH by (done || lia). by rewrite <- app_assoc.
Qed.

Lemma split_char c s : s <> [] -> split s [c] = split_ref c s.
Proof. intros. unfold split. rewrite split_loop_char by (done || lia). done. Qed.

Lemma split_ref_nonempty c s : split_ref c s <> [].
Proof.
  destruct s as [|x r]; cbn [split_ref]; [done|].
  destruct (x =? c); [done|]. by destruct (split_ref c r).
Qed.

Lemma join_split_ref c s : join c (split_ref c s) = s.
Proof.
  induction s as [|x s IH]; [done|]. cbn [split_ref].
  destruct (Z.eqb_spec x c) as [->|].
  - pose proof (split_ref_nonempty c s). destruct (split_ref c s); [done|].
    cbn [join app] in *. by f_equal.
  - destruct (split_ref c s) as [|h [|h' t]]; cbn [join app] in *; by subst.
Qed.

Lemma split_ref_join (c : Z) (parts : list (list Z)) :
  parts <> [] -> Forall (fun p => c ∉ p) parts -> split_ref c (join c parts) = parts.
Proof.
  intros Hn H. induction H as [|p parts Hp Hps IH]; [done|].
  destruct parts as [|q parts].
  - by apply split_ref_notin.
  - change (join c (p :: q :: parts)) with (p ++ c :: join c (q :: parts)).
    rewrite split_ref_app by done. by rewrite IH.
Qed.

(** Digits. *)

Lemma digit_val_char base d :
  2 <= base <= 16 -> 0 <= d < base -> digit_val base (digit_char d) = Some d.
Proof.
  intros Hb Hd. unfold digit_val, digit_char. destruct (Z.ltb_spec d 10).
  - replace ((48 <=? 48 + d) && (48 + d <=? 57)) with true by lia.
    replace (48 + d - 48 <? base) with true by lia. f_equal. lia.
  - replace ((48 <=? 87 + d) && (87 + d <=? 57)) with false by lia.
    replace ((97 <=? 87 + d) && (87 + d <=? 122)) with true by lia.
    replace (87 + d - 87 <? base) with true by lia. f_equal. lia.
Qed.

Lemma digits_of_val base fuel z acc v0 :
  2 <= base <= 16 -> 0 <= z < base ^ Z.of_nat fuel -> (0 < fuel)%nat ->
  exists k, 0 <= k /\
    digits_val base v0 (digits_of fuel base z acc) =
    digits_val base (Some (default 0 v0 * base ^ k + z)) acc.
Proof.
  intros Hb. revert z acc. induction fuel as [|f IH]; intros z acc Hz Hf; [lia|].
  cbn [digits_of].
  pose proof (Z.mod_pos_bound z base). pose proof (Z.div_mod z base).
  destruct (Z.eqb_spec (z / base) 0) as [E|E].
  - exists 1. split; [lia|]. cbn [digits_val]. rewrite digit_val_char by lia.
    f_equal. f_equal. rewrite Z.pow_1_r. lia.
  - assert (0 <= z / base < base ^ Z.of_nat f) as Hq.
    { split; [apply Z.div_pos; lia|]. apply Z.div_lt_upper_bound; [lia|].
      rewrite <- Z.pow_succ_r by lia. replace (Z.succ (Z.of_nat f)) with (Z.of_nat (S f)) by lia. lia. }
    assert (0 < f)%nat.
    { destruct f; [|lia]. change (base ^ Z.of_nat 0) with 1 in Hq. lia. }
    destruct (IH (z / base) (digit_char (z mod base) :: acc) Hq) as (k & Hk & ->); [done|].
    exists (k + 1). split; [lia|]. cbn [digits_val]. rewrite digit_val_char by lia.
    f_equal. f_equal. cbn [default id]. rewrite Z.pow_add_r, Z.pow_1_r by lia. lia.
Qed.

Lemma to_base_fuel base z : 2 <= base -> 0 <= z -> z < base ^ Z.of_nat (S (Z.to_nat (Z.log2 z))).
Proof.
  intros Hb Hz. destruct (Z.eq_dec z 0) as [->|]; [change (Z.log2 0) with 0; cbn; lia|].
  pose proof (Z.log2_spec z). pose proof (Z.log2_nonneg z).
  replace (Z.of_nat (S (Z.to_nat (Z.log2 z)))) with (Z.succ (Z.log2 z)) by lia.
  eapply Z.lt_le_trans; [apply Z.log2_spec; lia|]. apply Z.pow_le_mono_l. lia.
Qed.

Lemma digits_val_to_base base z :
  2 <= base <= 16 -> 0 <= z -> digits_val base None (to_base base z) = Some z.
Proof.
  intros Hb Hz. unfold to_base.
  destruct (digits_of_val base (S (Z.to_nat (Z.log2 z))) z [] None) as (k & Hk & ->).
  - done.
  - split; [done|]. apply to_base_fuel; lia.
  - lia.
  - done.
Qed.

Lemma digit_char_not_special d : 0 <= d < 16 ->
  is_space (digit_char d) = false /\ digit_char d <> 45 /\ digit_char d <> 43 /\
  digit_char d <> 120 /\ digit_char d <> 88 /\ digit_char d <> 46 /\ digit_char d <> 58 /\
  digit_char d <> 61 /\ digit_char d <> 10.
Proof. intros. unfold is_space, digit_char. destruct (Z.ltb_spec d 10); lia. Qed.

(** Every character of a printed number is a digit. *)
Lemma digits_of_chars base fuel z acc :
  2 <= base <= 16 ->
  exists ds, digits_of fuel base z acc = map digit_char ds ++ acc /\ Forall (fun d => 0 <= d < 16) ds.
Proof.
  intros Hb. revert z acc. induction fuel as [|f IH]; intros z acc; cbn [digits_of].
  { by exists []. }
  pose proof (Z.mod_pos_bound z base).
  destruct (z / base =? 0).
  - exists [z mod base]. split; [done|]. repeat constructor; lia.
  - destruct (IH (z / base) (digit_char (z mod base) :: acc)) as (ds & -> & Hds).
    exists (ds ++ [z mod base]). split.
    + rewrite map_app, <- app_assoc. done.
    + apply Forall_app. split; [done|]. repeat constructor; lia.
Qed.

Lemma to_base_chars base z :
  2 <= base <= 16 -> exists ds, to_base base z = map digit_char ds /\ Forall (fun d => 0 <= d < 16) ds.
Proof.
  intros Hb. destruct (digits_of_chars base (S (Z.to_nat (Z.log2 z))) z [] Hb) as (ds & H & ?).
  exists ds. unfold to_base. by rewrite H, app_nil_r.
Qed.

(** [strtol] reads a string of digit characters as its digits. *)
Lemma strtol_digits base ds :
  Forall (fun d => 0 <= d < 16) ds ->
  strtol base (map digit_char ds) = digits_val base None (map digit_char ds).
Proof.
  intros Hds. unfold strtol.
  assert (Hs : skip_space (map digit_char ds) = map digit_char ds).
  { destruct Hds as [|d ds Hd]; cbn [map skip_space]; [done|].
    by destruct (digit_char_not_special d Hd) as (-> & _). }
  rewrite Hs. destruct Hds as [|d ds Hd Hds]; cbn [map]; [done|].
  destruct (digit_char_not_special d Hd) as (_ & H45 & H43 & _).
  replace (digit_char d =? 45) with false by lia. replace (digit_char d =? 43) with false by lia.
  destruct Hds as [|d2 ds Hd2 Hds]; cbn [map].
  { by destruct (digits_val base None [digit_char d]). }
  destruct (digit_char_not_special d2 Hd2) as (_ & _ & _ & H120 & H88 & _).
  destruct Hds as [|d3 ds Hd3 Hds]; cbn [map].
  { by destruct (digits_val base None [digit_char d; digit_char d2]). }
  replace (digit_char d2 =? 120) with false by lia. replace (digit_char d2 =? 88) with false by lia.
  cbn [orb]. rewrite andb_false_r. cbn [andb].
  by destruct (digits_val base None (digit_char d :: digit_char d2 :: digit_char d3 :: map digit_char ds)).
Qed.

Lemma strtol_to_base base z : 2 <= base <= 16 -> 0 <= z -> strtol base (to_base base z) = Some z.
Proof.
  intros Hb Hz. pose proof (digits_val_to_base base z Hb Hz) as Hv.
  destruct (to_base_chars base z Hb) as (ds & E & Hds). rewrite E in *.
  by rewrite strtol_digits.
Qed.

Lemma stoi_to_string z : 0 <= z < 2 ^ 31 -> stoi 10 (to_string z) = NVal z.
Proof.
  intros Hz. unfold stoi, to_string. rewrite strtol_to_base by lia.
  by replace ((- 2 ^ 31 <=? z) && (z <? 2 ^ 31)) with true by lia.
Qed.

Lemma format_02x_strtol z : 0 <= z -> strtol 16 (format_02x z) = Some z.
Proof.
  intros Hz. unfold format_02x. pose proof (digits_val_to_base 16 z ltac:(lia) Hz) as Hv.
  destruct (to_base_chars 16 z ltac:(lia)) as (ds & E & Hds). rewrite E in *.
  destruct (zlen (map digit_char ds) <? 2) eqn:El; [|by rewrite strtol_digits].
  change (48 :: map digit_char ds) with (map digit_char (0 :: ds)).
  rewrite strtol_digits by (constructor; [lia|done]).
  cbn [map]. change (digit_char 0) with 48. cbn [digits_val]. change (digit_val 16 48) with (Some 0).
  destruct ds as [|d ds]; [discriminate Hv|]. apply Forall_cons_iff in Hds as [Hd _].
  cbn [map digits_val fmap option_fmap option_map] in *. rewrite digit_val_char in * by lia.
  cbn [default id] in *. change (0 * 16 + 0) with 0. by rewrite Hv.
Qed.

Lemma digits_of_nonempty fuel base z acc : acc <> [] -> digits_of fuel base z acc <> [].
Proof.
  revert z acc. induction fuel as [|f IH]; intros z acc H; cbn [digits_of]; [done|].
  destruct (z / base =? 0); [done|by apply IH].
Qed.

Lemma to_base_nonempty base z : to_base base z <> [].
Proof.
  unfold to_base. cbn [digits_of]. destruct (z / base =? 0); [done|by apply digits_of_nonempty].
Qed.

Lemma to_base_no_char (c : Z) base z :
  2 <= base <= 16 -> (forall d, 0 <= d < 16 -> digit_char d <> c) -> c ∉ to_base base z.
Proof.
  intros Hb Hc. destruct (to_base_chars base z Hb) as (ds & -> & Hds).
  intros (d & -> & Hd)%list_elem_of_fmap. rewrite Forall_forall in Hds.
  apply (Hc d); [by apply Hds, list_elem_of_In|done].
Qed.

(** A text [a c b] with [c] in neither part splits into the two. *)
Lemma split_pair (c : Z) (a b : list Z) : c ∉ a -> c ∉ b -> split (a ++ c :: b) [c] = [a; b].
Proof.
  intros Ha Hb. rewrite split_char by (by destruct a). rewrite split_ref_app by done. by rewrite split_ref_notin.
Qed.

(** Literals without a character. *)
Lemma str_no_char (c : Z) s : forallb (fun x => negb (x =? c)) (str s) = true -> c ∉ str s.
Proof.
  intros H Hin. apply list_elem_of_In in Hin. eapply forallb_forall in H; [|exact Hin]. by rewrite Z.eqb_refl in H.
Qed.

(** Numbers survive the text protocols: [std::stoi] reads back every printed
    31-bit decimal number, and [std::stoull(..., 16)] every printed 64-bit
    session id. *)
Lemma number_roundtrip (n id : Z) : 0 <= n < 2 ^ 31 -> is_u 64 id ->
  my_stoi_dec (to_string n) = Ret (Some n) /\ my_stoull_hex (format_x id) = Ret (Some id).
Proof.
  intros Hn Hid. unfold my_stoi_dec, my_stoull_hex. rewrite stoi_to_string by done. split; [done|].
  unfold stoull, format_x. unfold is_u in Hid. rewrite strtol_to_base by lia.
  replace ((- 2 ^ 64 <? id) && (id <? 2 ^ 64)) with true by lia. cbn [catch_invalid].
  by rewrite wrap_small.
Qed.

(** [my_stoi_hex] is not a parser of 64-bit session ids: its result is an
    [int], and an id of [2^31] or more makes [std::stoi] throw
    [std::out_of_range], which is not caught. *)
Lemma my_stoi_hex_session_id (id : Z) : 0 <= id ->
  my_stoi_hex (format_x id) = if 2 ^ 31 <=? id then Fault UncaughtException else Ret (Some id).
Proof.
  intros Hid. unfold my_stoi_hex, stoi, format_x. rewrite strtol_to_base by lia.
  destruct (Z.leb_spec (2 ^ 31) id); [by replace ((- 2 ^ 31 <=? id) && (id <? 2 ^ 31)) with false by lia|].
  by replace ((- 2 ^ 31 <=? id) && (id <? 2 ^ 31)) with true by lia.
Qed.

(** Substrings and lengths. *)

Lemma has_prefix_refl pat r : has_prefix pat (pat ++ r) = true.
Proof. induction pat as [|c pat IH]; cbn; [done|]. by rewrite Z.eqb_refl. Qed.

Lemma find_sub_skip c pat p r : c ∉ p -> find_sub (c :: pat) (p ++ r) = (fun i => (length p + i)%nat) <$> find_sub (c :: pat) r.
Proof.
  intros Hc. induction p as [|x p IH].
  - cbn [app length]. by destruct (find_sub (c :: pat) r).
  - apply not_elem_of_cons in Hc as [Hx Hp]. cbn [app find_sub has_prefix]. replace (c =? x) with false by lia. cbn [andb].
    rewrite (IH Hp). by destruct (find_sub (c :: pat) r).
Qed.

Lemma has_prefix_app pat p q : has_prefix pat p = true -> has_prefix pat (p ++ q) = true.
Proof.
  revert p. induction pat as [|c pat IH]; intros [|x p]; cbn; try done. intros [H1 H2]%andb_true_iff. rewrite H1. by apply IH.
Qed.

Lemma find_sub_app_None pat p q : find_sub pat (p ++ q) = None -> find_sub pat p = None.
Proof.
  induction p as [|x p IH].
  - cbn. destruct pat as [|c pat]; [|done]. by destruct q.
  - change ((x :: p) ++ q) with (x :: p ++ q). cbn [find_sub]. destruct (has_prefix pat (x :: p)) eqn:E.
    + apply (has_prefix_app _ _ q) in E. cbn [app] in E. by rewrite E.
    + destruct (has_prefix pat (x :: p ++ q)); [done|]. destruct (find_sub pat (p ++ q)) eqn:E2; [done|]. intros _. by rewrite IH.
Qed.

Lemma contains_app_false pat p q : contains pat (p ++ q) = false -> contains pat p = false.
Proof.
  unfold contains. destruct (find_sub pat (p ++ q)) eqn:E; [done|]. by rewrite (find_sub_app_None pat p q E).
Qed.

Lemma contains_cons_false pat x p : contains pat (x :: p) = false -> contains pat p = false.
Proof. unfold contains. cbn. destruct (has_prefix pat (x :: p)); [done|]. by destruct (find_sub pat p). Qed.

Lemma digits_of_length fuel base z acc : (length (digits_of fuel base z acc) <= fuel + length acc)%nat.
Proof.
  revert z acc. induction fuel as [|f IH]; intros z acc; cbn [digits_of]; [lia|].
  destruct (z / base =? 0); cbn [length]; [lia|]. etransitivity; [apply IH|]. cbn [length]. lia.
Qed.

Lemma zlen_to_string z : 0 <= z < 2 ^ 63 -> zlen (to_string z) <= 64.
Proof.
  intros Hz. unfold to_string, to_base. pose proof (digits_of_length (S (Z.to_nat (Z.log2 z))) 10 z []) as H. cbn [length] in H.
  assert (Z.log2 z <= Z.log2 (2 ^ 63)) by (apply Z.log2_le_mono; lia). rewrite Z.log2_pow2 in H0 by lia. unfold zlen. lia.
Qed.

(** ** Properties *)

(** [split] on a single-character separator and joining with it are inverse
    to each other.  Splitting loses nothing: joining the parts gives the input
    back and no part contains the separator (so the loop of [split] terminates
    within its fuel); and splitting a joined string returns exactly the parts it
    was joined from, unless the string is empty.  The meta and resolver
    protocols ([key=value], dotted and colon addresses) rest on this. *)
Theorem split_join_inverse (c : Z) (s : list Z) (parts : list (list Z))
  (Hne : join c parts <> []) (Hc : Forall (fun p : list Z => c ∉ p) parts) :
  join c (split s [c]) = s /\ Forall (fun p : list Z => c ∉ p) (split s [c]) /\ split (join c parts) [c] = parts.
Proof.
  assert (Hs : join c (split s [c]) = s /\ Forall (fun p : list Z => c ∉ p) (split s [c])).
  { destruct s as [|x s]; [done|]. rewrite split_char by done. split; [apply join_split_ref|].
    generalize (x :: s). intros t. induction t as [|y t IH]; cbn [split_ref].
    - repeat constructor. apply not_elem_of_nil.
    - destruct (Z.eqb_spec y c); [constructor; [apply not_elem_of_nil|done]|].
      destruct (split_ref c t) as [|h k]; inversion_clear IH; repeat constructor;
        rewrite ?not_elem_of_cons; try done. split; [done|apply not_elem_of_nil]. }
  destruct Hs as [Hs1 Hs2]. split; [done|]. split; [done|].
  rewrite split_char by done. apply split_ref_join; [|done]. by intros ->.
Qed.

Lemma split_join_inverse_witness :
  join 61 (split (str "a==b=") [61]) = str "a==b=" /\ Forall (fun p : list Z => (61 : Z) ∉ p) (split (str "a==b=") [61]) /\
  split (str "search-mac=192.168.1.1") [61] = [str "search-mac"; str "192.168.1.1"].
Proof.
  apply (split_join_inverse 61 (str "a==b=") [str "search-mac"; str "192.168.1.1"]); [discriminate|].
  repeat constructor; apply (bool_decide_eq_true_1 (_ ∉ _)); reflexivity.
Defined.
