(* ===== verification/Addr.v ===== *)
(** * Addresses: [struct addr] of [src/utils/addresses.h]

    An address is its byte array; [a_len] is the length of the list (the
    default constructor gives the empty one).  The constructor from a string
    leaves bytes uninitialised when a part is not a number: [junk] stands for
    the contents of the fresh allocation. *)

From S2P Require Import Prelude Str.

(** ** Code *)

Definition addr : Type := list Z.

(** [addr(const size_t len_in)] *)
Definition addr_zero (len_in : Z) : addr := zeros len_in.

(** [addr(const uint8_t data[], const size_t data_len)] *)
Definition addr_of_data (data : list Z) (data_len : Z) : outcome addr := rdn data 0 data_len.

(** The conversion loop from index [i] on. *)
Fixpoint addr_fill (base : Z) (junk : nat -> Z) (i : nat) (parts : list (list Z)) : outcome addr :=
  match parts with
  | [] => Ret []
  | p :: r =>
    match stoi base p with
    | NVal v => t ← addr_fill base junk (S i) r; Ret (u8 v :: t)
    | NInvalid => Ret (map junk (seq i (length parts)))
    | NRange => Fault UncaughtException
    end
  end.

(** [addr(const std::string & what, const std::string & seperator, const bool is_hex)] *)
Definition addr_of_string (junk : nat -> Z) (what seperator : list Z) (is_hex : bool) : outcome addr :=
  addr_fill (if is_hex then 16 else 10) junk 0 (split what seperator).

(** [operator==]: [memcmp] over the left operand's length; [!=] is its negation. *)
Definition addr_eq (a input : addr) : outcome bool :=
  x ← rdn a 0 (zlen a); y ← rdn input 0 (zlen a); Ret (beq x y).

(** [memcmp(x, y, n) < 0] on byte strings of equal length. *)
Fixpoint bytes_lt (x y : list Z) : bool :=
  match x, y with
  | a :: x', b :: y' => (a <? b) || ((a =? b) && bytes_lt x' y')
  | _, _ => false
  end.

(** [operator()], the comparator of [std::map<addr, ..., addr>]. *)
Definition addr_less (a b : addr) : outcome bool :=
  x ← rdn a 0 (zlen a); y ← rdn b 0 (zlen a); Ret (bytes_lt x y).

(** [to_str(splitter, hex)] *)
Definition to_str (splitter : Z) (hex : bool) (a : addr) : list Z :=
  join splitter (map (if hex then format_02x else to_string) a).

(** [get(uint8_t *const p)] at offset [off] of the buffer [p]. *)
Definition addr_get (a : addr) (p : list Z) (off : Z) : outcome (list Z) :=
  _ ← assertb (negb (zlen a =? 0)); wr p off a.

Definition bc_addr : addr := [0xff; 0xff; 0xff; 0xff; 0xff; 0xff].

(** [std::map<addr, V, addr>]: nodes in comparator order.  [find] is
    [lower_bound] (first node not less than the key) followed by one
    comparison of the key with that node. *)
Fixpoint amap_find {V} (m : list (addr * V)) (k : addr) : outcome (option V) :=
  match m with
  | [] => Ret None
  | (k', v) :: r =>
    lt ← addr_less k' k;
    if (lt : bool) then amap_find r k
    else gt ← addr_less k k'; Ret (if (gt : bool) then None else Some v)
  end.

(** [insert]: does nothing when the key is present. *)
Fixpoint amap_insert {V} (m : list (addr * V)) (k : addr) (v : V) : outcome (list (addr * V)) :=
  match m with
  | [] => Ret [(k, v)]
  | (k', v') :: r =>
    lt ← addr_less k' k;
    if (lt : bool) then t ← amap_insert r k v; Ret ((k', v') :: t)
    else gt ← addr_less k k'; Ret (if (gt : bool) then (k, v) :: (k', v') :: r else (k', v') :: r)
  end.

(** ** Lemmas *)

Lemma addr_fill_fmt base junk i fmt a :
  (forall b, b ∈ a -> stoi base (fmt b) = NVal b) -> bytes a ->
  addr_fill base junk i (map fmt a) = Ret a.
Proof.
  intros Hf Ha. revert i. induction Ha as [|b a Hb Ha IH]; intros i; [done|].
  cbn [map addr_fill]. rewrite Hf by (left; done).
  rewrite IH by (intros; apply Hf; by right). mcbn. by rewrite is_byte_u8.
Qed.

Lemma to_string_stoi b : is_byte b -> stoi 10 (to_string b) = NVal b.
Proof. unfold is_byte. intros. apply stoi_to_string. lia. Qed.

Lemma format_02x_stoi b : is_byte b -> stoi 16 (format_02x b) = NVal b.
Proof.
  unfold is_byte. intros. unfold stoi. rewrite format_02x_strtol by lia.
  by replace ((- 2 ^ 31 <=? b) && (b <? 2 ^ 31)) with true by lia.
Qed.

Lemma to_string_no_sep (c : Z) b : c = 46 \/ c = 58 \/ c = 61 \/ c = 10 -> c ∉ to_string b.
Proof.
  intros Hc. apply to_base_no_char; [lia|]. intros d Hd.
  pose proof (digit_char_not_special d Hd). lia.
Qed.

Lemma format_02x_no_sep (c : Z) b : c = 46 \/ c = 58 \/ c = 61 \/ c = 10 -> c ∉ format_02x b.
Proof.
  intros Hc. unfold format_02x. assert (c ∉ to_base 16 b).
  { apply to_base_no_char; [lia|]. intros d Hd. pose proof (digit_char_not_special d Hd). lia. }
  destruct (_ <? 2); [|done]. apply not_elem_of_cons. split; [lia|done].
Qed.

Lemma join_nonempty c x l : x <> [] -> join c (x :: l) <> [].
Proof. intros Hx. cbn [join]. destruct l; [done|]. by destruct x. Qed.

Lemma split_to_str c hex a :
  c = 46 \/ c = 58 -> split (to_str c hex a) [c] = map (if hex then format_02x else to_string) a.
Proof.
  intros Hc. unfold to_str. destruct a as [|b a]; [done|].
  rewrite split_char.
  - apply split_ref_join; [done|]. apply Forall_forall. intros x (b' & <- & _)%in_map_iff.
    destruct hex; [apply format_02x_no_sep|apply to_string_no_sep]; lia.
  - cbn [map]. apply join_nonempty. destruct hex; [|apply to_base_nonempty].
    unfold format_02x. destruct (_ <? 2); [done|apply to_base_nonempty].
Qed.

Lemma beq_spec a b : reflect (a = b) (beq a b).
Proof. unfold beq. apply bool_decide_reflect. Qed.

Lemma addr_eq_same_len a b : zlen a = zlen b -> addr_eq a b = Ret (beq a b).
Proof. intros H. unfold addr_eq. by rewrite !rdn_all by done. Qed.

Lemma addr_less_same_len a b : zlen a = zlen b -> addr_less a b = Ret (bytes_lt a b).
Proof. intros H. unfold addr_less. by rewrite !rdn_all by done. Qed.

Lemma bytes_lt_irrefl a : bytes_lt a a = false.
Proof.
  induction a as [|x a IH]; cbn [bytes_lt]; [done|]. rewrite IH, andb_false_r. lia.
Qed.

Lemma bytes_lt_trichotomy a b :
  length a = length b -> bytes_lt a b = false -> bytes_lt b a = false -> a = b.
Proof.
  revert b. induction a as [|x a IH]; intros [|y b] Hl; cbn [bytes_lt length] in *; try done.
  intros H1 H2. apply orb_false_iff in H1 as [H1 H1'], H2 as [H2 H2'].
  assert (x = y) as -> by lia. rewrite Z.eqb_refl in *. cbn [andb] in *.
  f_equal. apply IH; [lia|done|done].
Qed.

Lemma bytes_lt_trans a b c :
  length a = length b -> length b = length c ->
  bytes_lt a b = true -> bytes_lt b c = true -> bytes_lt a c = true.
Proof.
  revert b c. induction a as [|x a IH]; intros [|y b] [|z c] L1 L2; cbn [bytes_lt length] in *; try done.
  intros H1 H2. apply orb_true_iff in H1, H2. apply orb_true_iff.
  destruct H1 as [H1|[H1 H1']%andb_true_iff], H2 as [H2|[H2 H2']%andb_true_iff]; try (left; lia).
  right. apply andb_true_iff. split; [lia|]. apply (IH b); [lia|lia|done|done].
Qed.

Lemma bytes_lt_asym a b : length a = length b -> bytes_lt a b = true -> bytes_lt b a = false.
Proof.
  intros L H. destruct (bytes_lt b a) eqn:E; [|done].
  symmetry. rewrite <- (bytes_lt_irrefl a). by apply (bytes_lt_trans a b a).
Qed.

(** A map whose keys all have [n] bytes and increase in the comparator order. *)
Inductive amap_wf {V} (n : Z) : list (addr * V) -> Prop :=
| amap_wf_nil : amap_wf n []
| amap_wf_cons k v m :
    zlen k = n -> Forall (fun kv => bytes_lt k (fst kv) = true) m -> amap_wf n m ->
    amap_wf n ((k, v) :: m).

(** Association-list lookup: what the map denotes. *)
Fixpoint amap_get {V} (m : list (addr * V)) (k : addr) : option V :=
  match m with
  | [] => None
  | (k', v) :: r => if beq k' k then Some v else amap_get r k
  end.

Lemma zlen_eq_length {A} (a b : list A) : zlen a = zlen b -> length a = length b.
Proof. unfold zlen. lia. Qed.

Lemma amap_keys_len {V} n (m : list (addr * V)) :
  amap_wf n m -> Forall (fun kv => zlen (fst kv) = n) m.
Proof. induction 1; by constructor. Qed.

Lemma amap_get_below {V} n (m : list (addr * V)) k :
  amap_wf n m -> zlen k = n -> Forall (fun kv => bytes_lt k (fst kv) = true) m -> amap_get m k = None.
Proof.
  intros Hwf Hk H. induction Hwf as [|k' v m Hk' Hlt Hwf IH]; [done|]. cbn [amap_get].
  apply Forall_cons_iff in H as [Hlt' H]. cbn [fst] in Hlt'.
  destruct (beq_spec k' k) as [->|]; [by rewrite bytes_lt_irrefl in Hlt'|by apply IH].
Qed.

Lemma amap_below_trans {V} n (m : list (addr * V)) k k' :
  amap_wf n m -> zlen k = n -> zlen k' = n -> bytes_lt k k' = true ->
  Forall (fun kv => bytes_lt k' (fst kv) = true) m -> Forall (fun kv => bytes_lt k (fst kv) = true) m.
Proof.
  intros Hwf Hk Hk' Hlt H. pose proof (amap_keys_len n m Hwf) as Hlen.
  eapply List.Forall_impl; [|exact (List.Forall_and H Hlen)].
  intros [x v] [Hx Hl]. cbn [fst] in *.
  apply (bytes_lt_trans k k'); [apply zlen_eq_length; lia|apply zlen_eq_length; lia|done|done].
Qed.

Lemma amap_find_spec {V} n (m : list (addr * V)) k :
  amap_wf n m -> zlen k = n -> amap_find m k = Ret (amap_get m k).
Proof.
  intros Hwf Hk. induction Hwf as [|k' v m Hk' Hlt Hwf IH]; [done|]. cbn [amap_find amap_get].
  rewrite (addr_less_same_len k' k) by lia. mcbn. destruct (bytes_lt k' k) eqn:E.
  - rewrite IH. destruct (beq_spec k' k) as [->|]; [by rewrite bytes_lt_irrefl in E|done].
  - rewrite (addr_less_same_len k k') by lia. mcbn. destruct (bytes_lt k k') eqn:E'.
    + destruct (beq_spec k' k) as [->|]; [by rewrite bytes_lt_irrefl in E'|].
      rewrite (amap_get_below n m k); [done|done|done|].
      by apply (amap_below_trans n m k k').
    + assert (k' = k) as -> by (apply bytes_lt_trichotomy; [apply zlen_eq_length; lia|done|done]).
      by rewrite beq_refl.
Qed.

(** [insert] keeps the map well formed, adds the binding when the key is new
    and never changes an existing one. *)
Lemma amap_insert_spec {V} n (m : list (addr * V)) k v :
  amap_wf n m -> zlen k = n ->
  exists m', amap_insert m k v = Ret m' /\ amap_wf n m' /\
    (forall x, amap_get m' x = if beq k x then (match amap_get m k with Some w => Some w | None => Some v end)
                               else amap_get m x) /\
    (forall P : addr -> Prop, P k -> Forall (fun kv => P (fst kv)) m -> Forall (fun kv => P (fst kv)) m').
Proof.
  intros Hwf Hk. induction Hwf as [|k' v' m Hk' Hlt Hwf (m' & Hm' & Hwf' & Hget & Hall)]; cbn [amap_insert].
  { exists [(k, v)]. repeat split; [by constructor; [|constructor|constructor]|].
    intros P HP _. by constructor. }
  rewrite (addr_less_same_len k' k) by lia. mcbn. destruct (bytes_lt k' k) eqn:E.
  - rewrite Hm'. mcbn. exists ((k', v') :: m'). repeat split.
    + constructor; [done| |done]. by apply (Hall (fun x => bytes_lt k' x = true)).
    + intros x. cbn [amap_get]. rewrite Hget.
      destruct (beq_spec k' x) as [->|Hne], (beq_spec k x) as [->|Hne']; try done.
      * by rewrite bytes_lt_irrefl in E.
      * by destruct (beq_spec k' x) as [->|].
    + intros P HP [Hf Hr]%Forall_cons_iff. constructor; [done|]. by apply Hall.
  - rewrite (addr_less_same_len k k') by lia. mcbn. destruct (bytes_lt k k') eqn:E'.
    + exists ((k, v) :: (k', v') :: m). repeat split.
      * constructor; [done| |by constructor]. constructor; [done|].
        by apply (amap_below_trans n m k k').
      * intros x. cbn [amap_get]. destruct (beq_spec k x) as [->|]; [|done].
        destruct (beq_spec k' x) as [->|]; [by rewrite bytes_lt_irrefl in E'|].
        rewrite (amap_get_below n m x); [done|done|done|by apply (amap_below_trans n m x k')].
      * intros P HP H. by constructor.
    + assert (k' = k) as -> by (apply bytes_lt_trichotomy; [apply zlen_eq_length; lia|done|done]).
      exists ((k, v') :: m). repeat split; [by constructor| |done].
      intros x. cbn [amap_get]. rewrite beq_refl. by destruct (beq_spec k x).
Qed.

(** Printing and parsing an address, for the users of both. *)
Lemma addr_of_to_str junk (a : addr) :
  bytes a ->
  addr_of_string junk (to_str 46 false a) [46] false = Ret a /\
  addr_of_string junk (to_str 58 true a) [58] true = Ret a.
Proof.
  intros Ha. unfold addr_of_string. rewrite !split_to_str by lia.
  split; apply addr_fill_fmt; try done; intros b Hb%list_elem_of_In.
  - apply to_string_stoi. by eapply Forall_forall in Ha.
  - apply format_02x_stoi. by eapply Forall_forall in Ha.
Qed.

(** The length of a printed address. *)
Lemma zlen_join_bound sep (parts : list (list Z)) k :
  Forall (fun p => zlen p <= k) parts -> 0 <= k -> zlen (join sep parts) <= (k + 1) * zlen parts.
Proof.
  induction 1 as [|p ps Hp Hps IH]; intros Hk; cbn [join]; [by rewrite Z.mul_0_r|].
  pose proof (zlen_nonneg ps). destruct ps as [|q ps]; [rewrite zlen_cons; change (zlen []) with 0; lia|].
  specialize (IH Hk). rewrite zlen_app, zlen_cons. rewrite (zlen_cons p). nia.
Qed.

Lemma zlen_to_base_byte base b : 2 <= base -> 0 <= b < 256 -> zlen (to_base base b) <= 9.
Proof.
  intros Hb H. unfold to_base.
  assert (Z.log2 b <= 7).
  { destruct (Z.eq_dec b 0) as [->|]; [done|]. apply Z.lt_succ_r, Z.log2_lt_pow2; lia. }
  assert (Hg : forall f z acc, zlen (digits_of f base z acc) <= Z.of_nat f + zlen acc).
  { clear. induction f as [|f IH]; intros z acc; cbn [digits_of]; [lia|].
    destruct (z / base =? 0); [rewrite zlen_cons; lia|].
    specialize (IH (z / base) (digit_char (z mod base) :: acc)). rewrite zlen_cons in IH. lia. }
  specialize (Hg (S (Z.to_nat (Z.log2 b))) b []). change (zlen []) with 0 in Hg.
  pose proof (Z.log2_nonneg b). lia.
Qed.

Lemma zlen_to_str sep hex (a : addr) : bytes a -> zlen (to_str sep hex a) <= 11 * zlen a.
Proof.
  intros Ha. unfold to_str.
  replace (zlen a) with (zlen (map (if hex then format_02x else to_string) a)) by (unfold zlen; by rewrite length_map).
  apply (zlen_join_bound _ _ 10); [|lia]. apply Forall_map. eapply List.Forall_impl; [|exact Ha].
  intros b Hb. unfold is_byte in Hb. cbn. destruct hex; [|unfold to_string].
  - unfold format_02x. pose proof (zlen_to_base_byte 16 b). destruct (_ <? 2); [rewrite zlen_cons|]; lia.
  - pose proof (zlen_to_base_byte 10 b). lia.
Qed.

(** A printed address contains no separator of a command. *)
Lemma to_str_no_char (c sep : Z) hex (a : addr) :
  c = 61 \/ c = 10 -> sep = 46 \/ sep = 58 -> c ∉ to_str sep hex a.
Proof.
  intros Hc Hs. unfold to_str. induction a as [|b a IH]; cbn [map join]; [apply not_elem_of_nil|].
  assert (Hb : c ∉ (if hex then format_02x else to_string) b).
  { destruct hex; [apply format_02x_no_sep|apply to_string_no_sep]; lia. }
  destruct a as [|b' a]; [done|]. cbn [map] in *. rewrite not_elem_of_app, not_elem_of_cons.
  split; [done|]. split; [lia|done].
Qed.

(** ** Properties *)

(** An address printed by [to_str] and parsed by the string constructor is
    the same address, both for dotted decimal and for colon hexadecimal form,
    for any number of bytes and whatever the fresh memory held. *)
Theorem addr_text_roundtrip (junk : nat -> Z) (a : addr) (Ha : bytes a) :
  addr_of_string junk (to_str 46 false a) [46] false = Ret a /\
  addr_of_string junk (to_str 58 true a) [58] true = Ret a.
Proof. by apply addr_of_to_str. Qed.

Lemma addr_text_roundtrip_witness :
  addr_of_string (fun _ => 7) (str "192.168.1.2") [46] false = Ret [192; 168; 1; 2] /\
  addr_of_string (fun _ => 7) (str "c0:a8:01:02") [58] true = Ret [192; 168; 1; 2].
Proof.
  apply (addr_text_roundtrip (fun _ => 7) [192; 168; 1; 2]).
  repeat constructor; unfold is_byte; lia.
Defined.

(** The comparator of [addr] makes [std::map<addr_ip4, addr_mac, addr>] a
    map on addresses of equal length: after [insert] a lookup finds the old
    binding of the key if there was one and the new one otherwise, every other
    key is unaffected, and no comparison reads outside an address. *)
Theorem addr_map_insert_find {V} (n : Z) (m : list (addr * V)) (k x : addr) (v : V)
  (Hm : amap_wf n m) (Hk : zlen k = n) (Hx : zlen x = n) :
  exists m', amap_insert m k v = Ret m' /\ amap_wf n m' /\
    amap_find m' x = (if beq k x then old ← amap_find m k; Ret (Some (default v old))
                      else amap_find m x).
Proof.
  destruct (amap_insert_spec n m k v Hm Hk) as (m' & Hins & Hwf & Hget & _).
  exists m'. split; [done|]. split; [done|].
  rewrite !(amap_find_spec n) by done. mcbn. rewrite Hget.
  destruct (beq k x); [|done]. by destruct (amap_get m k).
Qed.

Lemma addr_map_insert_find_witness :
  exists m', amap_insert [([10; 0; 0; 1], 5); ([10; 0; 0; 9], 6)] [10; 0; 0; 2] 7 = Ret m' /\ amap_wf 4 m' /\
    amap_find m' [10; 0; 0; 9] = Ret (Some 6).
Proof.
  apply (addr_map_insert_find 4 [([10; 0; 0; 1], 5); ([10; 0; 0; 9], 6)] [10; 0; 0; 2] [10; 0; 0; 9] 7).
  all: try reflexivity. repeat constructor.
Defined.
