(* ===== verification/SipHash.v ===== *)
(** * SipHash-2-4: [src/3dparty/SipHash/siphash.c]

    The reference implementation the TCP and IP servers key their session ids
    and SYN cookies with.  Sixty-four bit words are integers; the model is
    executable; [SipTest] runs the repository's own test of it. *)

From S2P Require Import Prelude.

Record sipstate := { v0 : Z; v1 : Z; v2 : Z; v3 : Z }.

(** [ROTL(x, b)] *)
Definition rotl (x b : Z) : Z := Z.lor (u64 (Z.shiftl x b)) (Z.shiftr x (64 - b)).

(** [SIPROUND] *)
Definition sipround (s : sipstate) : sipstate :=
  let a := u64 (v0 s + v1 s) in
  let b := rotl (v1 s) 13 in
  let b := Z.lxor b a in
  let a := rotl a 32 in
  let c := u64 (v2 s + v3 s) in
  let d := rotl (v3 s) 16 in
  let d := Z.lxor d c in
  let a := u64 (a + d) in
  let d := rotl d 21 in
  let d := Z.lxor d a in
  let c := u64 (c + b) in
  let b := rotl b 17 in
  let b := Z.lxor b c in
  let c := rotl c 32 in
  {| v0 := a; v1 := b; v2 := c; v3 := d |}.

(** [U8TO64_LE] and [U64TO8_LE]. *)
Definition u8to64_le (p : list Z) : Z := le_val (take 8 p).
Definition u64to8_le (v : Z) : list Z := le_bytes 8 v.

(** One message word: [v3 ^= m; cROUNDS rounds; v0 ^= m]. *)
Definition absorb (s : sipstate) (m : Z) : sipstate :=
  let s := {| v0 := v0 s; v1 := v1 s; v2 := v2 s; v3 := Z.lxor (v3 s) m |} in
  let s := sipround (sipround s) in
  {| v0 := Z.lxor (v0 s) m; v1 := v1 s; v2 := v2 s; v3 := v3 s |}.

(** The [for (; ni != end; ni += 8)] loop over [k] whole words; the rest of
    the input is returned with the state. *)
Fixpoint sip_loop (k : nat) (ni : list Z) (s : sipstate) : sipstate * list Z :=
  match k with
  | O => (s, ni)
  | S k' => sip_loop k' (drop 8 ni) (absorb s (u8to64_le ni))
  end.

Definition set_v1 (s : sipstate) (x : Z) : sipstate := {| v0 := v0 s; v1 := Z.lxor (v1 s) x; v2 := v2 s; v3 := v3 s |}.
Definition set_v2 (s : sipstate) (x : Z) : sipstate := {| v0 := v0 s; v1 := v1 s; v2 := Z.lxor (v2 s) x; v3 := v3 s |}.

(** [dROUNDS] rounds, and the word read off the state. *)
Definition sip_finish (s : sipstate) : sipstate := sipround (sipround (sipround (sipround s))).
Definition sip_word (s : sipstate) : list Z := u64to8_le (Z.lxor (Z.lxor (Z.lxor (v0 s) (v1 s)) (v2 s)) (v3 s)).

(** [siphash(in, inlen, k, out, outlen)] behind its assertion: the output bytes, eight or sixteen. *)
Definition siphash_out (outlen : Z) (inp k : list Z) : list Z :=
  let k0 := u8to64_le k in
  let k1 := u8to64_le (drop 8 k) in
  let inlen := zlen inp in
  let b := u64 (Z.shiftl inlen 56) in
  let s := {| v0 := Z.lxor 0x736f6d6570736575 k0;
              v1 := Z.lxor 0x646f72616e646f6d k1;
              v2 := Z.lxor 0x6c7967656e657261 k0;
              v3 := Z.lxor 0x7465646279746573 k1 |} in
  let s := if outlen =? 16 then set_v1 s 0xee else s in
  let '(s, ni) := sip_loop (Z.to_nat (inlen / 8)) inp s in
  (* the switch: the [left] trailing bytes, little-endian, below the length byte *)
  let b := Z.lor b (le_val ni) in
  let s := absorb s b in
  let s := set_v2 s (if outlen =? 16 then 0xee else 0xff) in
  let s := sip_finish s in
  if outlen =? 8 then sip_word s
  else sip_word s ++ sip_word (sip_finish (set_v1 s 0xdd)).

Definition siphash_to (outlen : Z) (inp k : list Z) : outcome (list Z) :=
  _ ← assertb ((outlen =? 8) || (outlen =? 16)); Ret (siphash_out outlen inp k).

(** The stack only asks for 64-bit outputs. *)
Definition siphash (inp k : list Z) : list Z := siphash_out 8 inp k.

Definition iota (n : nat) : list Z := map Z.of_nat (seq 0 n).

Lemma length_siphash inp k : length (siphash inp k) = 8%nat.
Proof. unfold siphash, siphash_out. destruct (sip_loop _ _ _). apply length_le_bytes. Qed.

Lemma bytes_siphash inp k : bytes (siphash inp k).
Proof. unfold siphash, siphash_out. destruct (sip_loop _ _ _). apply bytes_le_bytes. Qed.

(** The two [uint32_t] halves the callers read the output as. *)
Definition sip_out (inp k : list Z) (i : Z) : Z := le_val (sub (siphash inp k) (4 * i) 4).

Lemma sip_out_range inp k i : is_u 32 (sip_out inp k i).
Proof.
  unfold sip_out, is_u. pose proof (le_val_range (sub (siphash inp k) (4 * i) 4)
    (bytes_sub _ _ _ (bytes_siphash inp k))) as H.
  assert (zlen (sub (siphash inp k) (4 * i) 4) <= 4) by (unfold sub; rewrite zlen_take; lia).
  pose proof (zlen_nonneg (sub (siphash inp k) (4 * i) 4)).
  split; [lia|]. eapply Z.lt_le_trans; [apply H|]. apply Z.pow_le_mono_r; lia.
Qed.
