(* ===== verification/ShmMessage.v ===== *)
(** * Messages between the servers: [src/utils/shm_message.cpp], and
    [struct message] of [src/utils/shm.h]

    The packed structs [wrapped_up], [wrapped_up_tcp] and [wrapped_down] are
    byte layouts on a little-endian host.  Unwrapping returns pointers into
    the message: a pointer is the suffix of the message data it points at, so
    what lies behind a field is part of the model. *)

From S2P Require Import Prelude.

(** ** Code *)

Definition max_id_length : Z := 32.

(** [enum msg_type]; [msg_any] is only a search criterion. *)
Definition msg_any : Z := 0.
Definition msg_new : Z := 1.
Definition msg_reply : Z := 2.

Record message := {
  m_id : Z;
  m_sent_at : Z;
  m_size : Z;
  m_type : Z;
  m_msg_nr : Z;
  m_sender : list Z;
  m_data : list Z }.

(** [m->sender] as the C string the code reads: up to the first zero. *)
Fixpoint c_str (s : list Z) : list Z :=
  match s with
  | c :: r => if c =? 0 then [] else c :: c_str r
  | [] => []
  end.

Definition sender_of (m : message) : list Z := c_str (m_sender m).

(** [allocate_shm_message(size)]: a zeroed message with its size set. *)
Definition allocate_shm_message (size : Z) : message :=
  {| m_id := 0; m_sent_at := 0; m_size := u32 size; m_type := 0; m_msg_nr := 0;
     m_sender := zeros max_id_length; m_data := zeros size |}.

(** [memcpy(m->data, data, m->size)] into an allocated message, with its type. *)
Definition fill_message (m : message) (type msg_nr : Z) (data : list Z) : message :=
  {| m_id := m_id m; m_sent_at := m_sent_at m; m_size := m_size m; m_type := type;
     m_msg_nr := msg_nr; m_sender := m_sender m; m_data := data |}.

(** [m->id = id] *)
Definition with_id (m : message) (id : Z) : message :=
  {| m_id := id; m_sent_at := m_sent_at m; m_size := m_size m; m_type := m_type m;
     m_msg_nr := m_msg_nr m; m_sender := m_sender m; m_data := m_data m |}.

(** Packed struct fields. *)
Definition sz (n : Z) : list Z := le_bytes 8 n.
Definition magic_up : Z := 0xdeadbeef.
Definition magic_down : Z := 0xbeefdead.

(** [wrap_message_up] returning the encoded bytes. *)
Definition wrap_up_bytes (full_pkt_len : Z) (full_pkt : list Z) (from_len : Z) (from : list Z)
  (to_len : Z) (to : list Z) (pl_len : Z) (pl : list Z) : outcome (list Z) :=
  f ← rdn from 0 from_len;
  t ← rdn to 0 to_len;
  p ← rdn pl 0 pl_len;
  k ← rdn full_pkt 0 full_pkt_len;
  Ret (le_bytes 4 magic_up ++ sz full_pkt_len ++ sz from_len ++ sz to_len ++ sz pl_len
       ++ f ++ t ++ p ++ k).

(** A message for the encoded bytes, a reply when [reply_to] is set. *)
Definition message_of (encoded : list Z) (reply_to : option Z) : message :=
  let msg := allocate_shm_message (zlen encoded) in
  match reply_to with
  | Some nr => fill_message msg msg_reply nr encoded
  | None => fill_message msg msg_new 0 encoded
  end.

Definition wrap_message_up (full_pkt_len : Z) (full_pkt : list Z) (from_len : Z) (from : list Z)
  (to_len : Z) (to : list Z) (pl_len : Z) (pl : list Z) (reply_to : option Z) : outcome message :=
  encoded ← wrap_up_bytes full_pkt_len full_pkt from_len from to_len to pl_len pl;
  Ret (message_of encoded reply_to).

(** [wrap_message_up_tcp]: the type of the message stays 0. *)
Definition wrap_message_up_tcp (session_id from_len : Z) (from : list Z) (from_port to_len : Z)
  (to : list Z) (to_port flags pl_len : Z) (pl : list Z) : outcome message :=
  f ← rdn from 0 from_len;
  t ← rdn to 0 to_len;
  p ← (if pl_len =? 0 then Ret [] else rdn pl 0 pl_len);
  let data := le_bytes 4 magic_up ++ le_bytes 8 session_id ++ sz from_len ++ le_bytes 2 from_port
              ++ sz to_len ++ le_bytes 2 to_port ++ le_bytes 4 flags ++ sz pl_len ++ f ++ t ++ p in
  Ret (fill_message (allocate_shm_message (zlen data)) 0 0 data).

Definition wrap_down_bytes (from_len : Z) (from : list Z) (to_len : Z) (to : list Z)
  (pl_len : Z) (pl : list Z) : outcome (list Z) :=
  f ← rdn from 0 from_len;
  t ← rdn to 0 to_len;
  p ← rdn pl 0 pl_len;
  Ret (le_bytes 4 magic_down ++ sz from_len ++ sz to_len ++ sz pl_len ++ f ++ t ++ p).

Definition wrap_message_down (from_len : Z) (from : list Z) (to_len : Z) (to : list Z)
  (pl_len : Z) (pl : list Z) (reply_to : option Z) : outcome message :=
  encoded ← wrap_down_bytes from_len from to_len to pl_len pl;
  Ret (message_of encoded reply_to).

(** A little-endian field of [n] bytes at offset [off] of the message data. *)
Definition field (data : list Z) (off n : Z) : outcome Z :=
  bs ← rdn data off n; Ret (le_val bs).

(** What [unwrap_message_up] stores through its out parameters. *)
Record up_view := {
  u_full_pkt_len : Z; u_full_pkt : list Z;
  u_from_len : Z; u_from : list Z;
  u_to_len : Z; u_to : list Z;
  u_pl_len : Z; u_pl : list Z }.

Definition unwrap_message_up (m : message) : outcome up_view :=
  let p := m_data m in
  type ← field p 0 4;
  _ ← assertb (type =? magic_up);
  full_pkt_len ← field p 4 8;
  from_len ← field p 12 8;
  to_len ← field p 20 8;
  pl_len ← field p 28 8;
  let data := padd p 36 in
  Ret {| u_full_pkt_len := full_pkt_len; u_full_pkt := padd data (from_len + to_len + pl_len);
         u_from_len := from_len; u_from := data;
         u_to_len := to_len; u_to := padd data from_len;
         u_pl_len := pl_len; u_pl := padd data (from_len + to_len) |}.

Record up_tcp_view := {
  t_session_id : Z;
  t_from_len : Z; t_from : list Z; t_from_port : Z;
  t_to_len : Z; t_to : list Z; t_to_port : Z;
  t_flags : Z;
  t_pl_len : Z; t_pl : list Z }.

Definition unwrap_message_up_tcp (m : message) : outcome up_tcp_view :=
  let p := m_data m in
  type ← field p 0 4;
  _ ← assertb (type =? magic_up);
  session_id ← field p 4 8;
  from_len ← field p 12 8;
  from_port ← field p 20 2;
  to_len ← field p 22 8;
  to_port ← field p 30 2;
  flags ← field p 32 4;
  pl_len ← field p 36 8;
  let data := padd p 44 in
  Ret {| t_session_id := session_id;
         t_from_len := from_len; t_from := data; t_from_port := from_port;
         t_to_len := to_len; t_to := padd data from_len; t_to_port := to_port;
         t_flags := flags;
         t_pl_len := pl_len; t_pl := padd data (from_len + to_len) |}.

Record down_view := {
  d_from_len : Z; d_from : list Z;
  d_to_len : Z; d_to : list Z;
  d_pl_len : Z; d_pl : list Z }.

Definition unwrap_message_down (m : message) : outcome down_view :=
  let p := m_data m in
  type ← field p 0 4;
  _ ← assertb (type =? magic_down);
  from_len ← field p 4 8;
  to_len ← field p 12 8;
  pl_len ← field p 20 8;
  let data := padd p 28 in
  Ret {| d_from_len := from_len; d_from := data;
         d_to_len := to_len; d_to := padd data from_len;
         d_pl_len := pl_len; d_pl := padd data (from_len + to_len) |}.

(** ** Lemmas *)

(** C strings. *)

Lemma c_str_app a b : 0 ∉ a -> c_str (a ++ b) = a ++ c_str b.
Proof.
  intros Ha. induction a as [|x a IH]; [done|]. apply not_elem_of_cons in Ha as [Hx Ha]. cbn.
  replace (x =? 0) with false by lia. by rewrite (IH Ha).
Qed.

Lemma c_str_prefix u : exists r, u = c_str u ++ r /\ 0 ∉ c_str u.
Proof.
  induction u as [|x u (r & E & Hn)]; cbn; [exists []; split; [done|apply not_elem_of_nil]|].
  destruct (Z.eqb_spec x 0) as [->|]; [eexists; split; [done|apply not_elem_of_nil]|].
  exists r. rewrite E at 1. split; [done|]. apply not_elem_of_cons. auto.
Qed.

(** The data of a message that carries the four byte strings upwards. *)
Definition up_data (full from to pl : list Z) : list Z :=
  le_bytes 4 magic_up ++ sz (zlen full) ++ sz (zlen from) ++ sz (zlen to) ++ sz (zlen pl)
  ++ from ++ to ++ pl ++ full.

Definition down_data (from to pl : list Z) : list Z :=
  le_bytes 4 magic_down ++ sz (zlen from) ++ sz (zlen to) ++ sz (zlen pl) ++ from ++ to ++ pl.

Definition up_tcp_data (session_id : Z) (from : list Z) (from_port : Z) (to : list Z)
  (to_port flags : Z) (pl : list Z) : list Z :=
  le_bytes 4 magic_up ++ le_bytes 8 session_id ++ sz (zlen from) ++ le_bytes 2 from_port
  ++ sz (zlen to) ++ le_bytes 2 to_port ++ le_bytes 4 flags ++ sz (zlen pl) ++ from ++ to ++ pl.

(** Lengths that fit a [size_t]. *)
Definition fits (l : list Z) : Prop := zlen l < 2 ^ 64.

Lemma le_val_sz l : fits l -> le_val (sz (zlen l)) = zlen l.
Proof.
  intros H. unfold sz. apply le_val_le_bytes_small. split; [apply zlen_nonneg|exact H].
Qed.

Lemma field_hd k v c off n :
  off = 0 -> n = Z.of_nat k -> field (le_bytes k v ++ c) off n = Ret (v mod 2 ^ (8 * n)).
Proof.
  intros -> ->. unfold field. rewrite rdn_app_l by (by rewrite zlen_le_bytes). mcbn.
  by rewrite le_val_le_bytes.
Qed.

Lemma field_skip k v c off n :
  Z.of_nat k <= off -> field (le_bytes k v ++ c) off n = field c (off - Z.of_nat k) n.
Proof.
  intros H. unfold field, rdn. rewrite zlen_app, zlen_le_bytes.
  replace ((0 <=? off) && (0 <=? n) && (off + n <=? Z.of_nat k + zlen c))
    with ((0 <=? off - Z.of_nat k) && (0 <=? n) && (off - Z.of_nat k + n <=? zlen c)) by lia.
  destruct (_ && _); [|done]. unfold sub.
  rewrite drop_app_ge by (rewrite length_le_bytes; lia). rewrite length_le_bytes.
  do 4 f_equal. lia.
Qed.

Lemma padd_skip k v c off :
  Z.of_nat k <= off -> padd (le_bytes k v ++ c) off = padd c (off - Z.of_nat k).
Proof.
  intros H. unfold padd. rewrite drop_app_ge by (rewrite length_le_bytes; lia).
  rewrite length_le_bytes. f_equal. lia.
Qed.

Lemma padd_0 {A} (p : list A) n : n = 0 -> padd p n = p.
Proof. by intros ->. Qed.

(** Read the fields of a packed struct one after the other. *)
Ltac read_fields :=
  repeat first
    [ rewrite field_hd by reflexivity
    | rewrite field_skip by (vm_compute; discriminate)
    | progress mcbn
    | match goal with |- context [assertb ?b] => change (assertb b) with (Ret tt) end ];
  rewrite ?padd_skip by (vm_compute; discriminate);
  rewrite (padd_0 _ (_ - _)) by reflexivity.

Lemma wrap_message_up_ok full from to pl reply_to :
  wrap_message_up (zlen full) full (zlen from) from (zlen to) to (zlen pl) pl reply_to =
  Ret (message_of (up_data full from to pl) reply_to).
Proof. unfold wrap_message_up, wrap_up_bytes. by rewrite !rdn_all by done. Qed.

Lemma wrap_message_up_gen full_pkt_len full_pkt from_len from to_len to pl_len pl reply_to f t p k :
  rdn from 0 from_len = Ret f -> rdn to 0 to_len = Ret t -> rdn pl 0 pl_len = Ret p ->
  rdn full_pkt 0 full_pkt_len = Ret k -> from_len = zlen f -> to_len = zlen t -> pl_len = zlen p ->
  full_pkt_len = zlen k ->
  wrap_message_up full_pkt_len full_pkt from_len from to_len to pl_len pl reply_to =
  Ret (message_of (up_data k f t p) reply_to).
Proof.
  intros Hf Ht Hp Hk -> -> -> ->. unfold wrap_message_up, wrap_up_bytes.
  by rewrite Hf, Ht, Hp, Hk.
Qed.

Lemma wrap_message_down_gen from_len from to_len to pl_len pl reply_to f t p :
  rdn from 0 from_len = Ret f -> rdn to 0 to_len = Ret t -> rdn pl 0 pl_len = Ret p ->
  from_len = zlen f -> to_len = zlen t -> pl_len = zlen p ->
  wrap_message_down from_len from to_len to pl_len pl reply_to =
  Ret (message_of (down_data f t p) reply_to).
Proof.
  intros Hf Ht Hp -> -> ->. unfold wrap_message_down, wrap_down_bytes. by rewrite Hf, Ht, Hp.
Qed.

Lemma wrap_message_down_ok from to pl reply_to :
  wrap_message_down (zlen from) from (zlen to) to (zlen pl) pl reply_to =
  Ret (message_of (down_data from to pl) reply_to).
Proof. unfold wrap_message_down, wrap_down_bytes. by rewrite !rdn_all by done. Qed.

Lemma wrap_message_up_tcp_ok session_id from from_port to to_port flags pl :
  wrap_message_up_tcp session_id (zlen from) from from_port (zlen to) to to_port flags (zlen pl) pl =
  Ret (fill_message (allocate_shm_message (zlen (up_tcp_data session_id from from_port to to_port flags pl)))
         0 0 (up_tcp_data session_id from from_port to to_port flags pl)).
Proof.
  unfold wrap_message_up_tcp. rewrite !rdn_all by done. mcbn.
  destruct (zlen pl =? 0) eqn:E; [|done]. assert (pl = []) as ->; [|done].
  destruct pl; [done|]. rewrite zlen_cons in E. pose proof (zlen_nonneg pl). lia.
Qed.

Lemma m_data_message_of d r : m_data (message_of d r) = d.
Proof. by destruct r. Qed.

(** Unwrapping a well-formed message (followed by whatever padding the queue
    added) gives pointers to its parts; behind the payload lies the full packet. *)
Lemma unwrap_message_up_data m full from to pl pad :
  m_data m = up_data full from to pl ++ pad -> fits full -> fits from -> fits to -> fits pl ->
  unwrap_message_up m =
  Ret {| u_full_pkt_len := zlen full; u_full_pkt := full ++ pad;
         u_from_len := zlen from; u_from := from ++ to ++ pl ++ full ++ pad;
         u_to_len := zlen to; u_to := to ++ pl ++ full ++ pad;
         u_pl_len := zlen pl; u_pl := pl ++ full ++ pad |}.
Proof.
  intros Hm Hk Hf Ht Hp. unfold unwrap_message_up. rewrite Hm. unfold up_data, sz.
  rewrite <- !app_assoc. set (rest := from ++ to ++ pl ++ full ++ pad).
  read_fields.
  pose proof (zlen_nonneg full). pose proof (zlen_nonneg from). pose proof (zlen_nonneg to).
  pose proof (zlen_nonneg pl). unfold fits in *. change (8 * Z.of_nat 8) with 64.
  rewrite !Z.mod_small by lia. unfold rest. do 2 f_equal.
  - rewrite <- !padd_padd by lia. by rewrite !padd_app.
  - by rewrite padd_app.
  - rewrite <- padd_padd by lia. by rewrite !padd_app.
Qed.

Lemma unwrap_message_down_data m from to pl pad :
  m_data m = down_data from to pl ++ pad -> fits from -> fits to -> fits pl ->
  unwrap_message_down m =
  Ret {| d_from_len := zlen from; d_from := from ++ to ++ pl ++ pad;
         d_to_len := zlen to; d_to := to ++ pl ++ pad;
         d_pl_len := zlen pl; d_pl := pl ++ pad |}.
Proof.
  intros Hm Hf Ht Hp. unfold unwrap_message_down. rewrite Hm. unfold down_data, sz.
  rewrite <- !app_assoc. set (rest := from ++ to ++ pl ++ pad).
  read_fields.
  pose proof (zlen_nonneg from). pose proof (zlen_nonneg to).
  pose proof (zlen_nonneg pl). unfold fits in *. change (8 * Z.of_nat 8) with 64.
  rewrite !Z.mod_small by lia. unfold rest. do 2 f_equal.
  - by rewrite padd_app.
  - rewrite <- padd_padd by lia. by rewrite !padd_app.
Qed.

Lemma unwrap_message_up_tcp_data m session_id from from_port to to_port flags pl pad :
  m_data m = up_tcp_data session_id from from_port to to_port flags pl ++ pad ->
  fits from -> fits to -> fits pl -> is_u 64 session_id -> is_u 16 from_port -> is_u 16 to_port ->
  is_u 32 flags ->
  unwrap_message_up_tcp m =
  Ret {| t_session_id := session_id;
         t_from_len := zlen from; t_from := from ++ to ++ pl ++ pad; t_from_port := from_port;
         t_to_len := zlen to; t_to := to ++ pl ++ pad; t_to_port := to_port;
         t_flags := flags;
         t_pl_len := zlen pl; t_pl := pl ++ pad |}.
Proof.
  intros Hm Hf Ht Hp Hs Hfp Htp Hfl. unfold unwrap_message_up_tcp. rewrite Hm. unfold up_tcp_data, sz.
  rewrite <- !app_assoc. set (rest := from ++ to ++ pl ++ pad).
  read_fields.
  pose proof (zlen_nonneg from). pose proof (zlen_nonneg to).
  pose proof (zlen_nonneg pl). unfold fits, is_u in *.
  change (8 * Z.of_nat 8) with 64. change (8 * Z.of_nat 4) with 32. change (8 * Z.of_nat 2) with 16.
  rewrite !Z.mod_small by lia. unfold rest. do 2 f_equal.
  - by rewrite padd_app.
  - rewrite <- padd_padd by lia. by rewrite !padd_app.
Qed.

(** The bytes the out parameters of the three unwrap functions denote. *)
Definition read_up (v : up_view) : outcome (list Z * list Z * list Z * list Z) :=
  k ← rdn (u_full_pkt v) 0 (u_full_pkt_len v);
  f ← rdn (u_from v) 0 (u_from_len v);
  t ← rdn (u_to v) 0 (u_to_len v);
  p ← rdn (u_pl v) 0 (u_pl_len v);
  Ret (k, f, t, p).

Definition read_down (v : down_view) : outcome (list Z * list Z * list Z) :=
  f ← rdn (d_from v) 0 (d_from_len v);
  t ← rdn (d_to v) 0 (d_to_len v);
  p ← rdn (d_pl v) 0 (d_pl_len v);
  Ret (f, t, p).

(** ** Properties *)

(** [unwrap_message_up] inverts [wrap_message_up]: whatever four byte
    strings (with lengths that fit a [size_t]) are wrapped, unwrapping returns
    their lengths and pointers at which exactly these bytes are found; the
    magic-number assertion holds and no read leaves the message. *)
Theorem wrap_unwrap_up (full from to pl : list Z) (reply_to : option Z)
  (Hk : fits full) (Hf : fits from) (Ht : fits to) (Hp : fits pl) :
  (m ← wrap_message_up (zlen full) full (zlen from) from (zlen to) to (zlen pl) pl reply_to;
   v ← unwrap_message_up m; read_up v) = Ret (full, from, to, pl).
Proof.
  rewrite wrap_message_up_ok. mcbn.
  rewrite (unwrap_message_up_data _ full from to pl []) by (rewrite ?m_data_message_of, ?app_nil_r; done).
  mcbn. unfold read_up. cbn. by rewrite !rdn_app_l.
Qed.

Lemma wrap_unwrap_up_witness :
  (m ← wrap_message_up 3 [1; 2; 3] 1 [4] 2 [5; 6] 0 [] None;
   v ← unwrap_message_up m; read_up v) = Ret ([1; 2; 3], [4], [5; 6], []).
Proof.
  apply (wrap_unwrap_up [1; 2; 3] [4] [5; 6] [] None); reflexivity.
Defined.

(** The same round trip for the downward messages and for the messages to
    the TCP applications, whose session id, ports and flags also survive. *)
Theorem wrap_unwrap_down_tcp (from to pl : list Z) (reply_to : option Z)
  (session_id from_port to_port flags : Z)
  (Hf : fits from) (Ht : fits to) (Hp : fits pl) (Hs : is_u 64 session_id)
  (Hfp : is_u 16 from_port) (Htp : is_u 16 to_port) (Hfl : is_u 32 flags) :
  (m ← wrap_message_down (zlen from) from (zlen to) to (zlen pl) pl reply_to;
   v ← unwrap_message_down m; read_down v) = Ret (from, to, pl) /\
  (m ← wrap_message_up_tcp session_id (zlen from) from from_port (zlen to) to to_port flags (zlen pl) pl;
   v ← unwrap_message_up_tcp m;
   f ← rdn (t_from v) 0 (t_from_len v); t ← rdn (t_to v) 0 (t_to_len v); p ← rdn (t_pl v) 0 (t_pl_len v);
   Ret (t_session_id v, f, t_from_port v, t, t_to_port v, t_flags v, p)) =
  Ret (session_id, from, from_port, to, to_port, flags, pl).
Proof.
  split.
  - rewrite wrap_message_down_ok. mcbn.
    rewrite (unwrap_message_down_data _ from to pl []) by (rewrite ?m_data_message_of, ?app_nil_r; done).
    mcbn. unfold read_down. cbn. by rewrite !rdn_app_l.
  - rewrite wrap_message_up_tcp_ok. mcbn.
    rewrite (unwrap_message_up_tcp_data _ session_id from from_port to to_port flags pl [])
      by (cbn [fill_message m_data]; rewrite ?app_nil_r; done).
    mcbn. cbn [t_from t_from_len t_to t_to_len t_pl t_pl_len]. by rewrite !rdn_app_l.
Qed.

Lemma wrap_unwrap_down_tcp_witness :
  (m ← wrap_message_down 1 [4] 2 [5; 6] 1 [9] (Some 77);
   v ← unwrap_message_down m; read_down v) = Ret ([4], [5; 6], [9]) /\
  (m ← wrap_message_up_tcp 0xfeedfacecafebeef 1 [4] 80 2 [5; 6] 4321 2 1 [9];
   v ← unwrap_message_up_tcp m;
   f ← rdn (t_from v) 0 (t_from_len v); t ← rdn (t_to v) 0 (t_to_len v); p ← rdn (t_pl v) 0 (t_pl_len v);
   Ret (t_session_id v, f, t_from_port v, t, t_to_port v, t_flags v, p)) =
  Ret (0xfeedfacecafebeef, [4], 80, [5; 6], 4321, 2, [9]).
Proof.
  apply (wrap_unwrap_down_tcp [4] [5; 6] [9] (Some 77) 0xfeedfacecafebeef 80 4321 2).
  all: first [reflexivity | vm_compute; split; congruence].
Defined.
