(* ===== verification/Shm.v ===== *)
(** * The shared-memory message queue: [src/utils/shm.cpp]

    Byte-level model of a segment: [data] holds [filled] bytes of packed
    messages, each padded to eight bytes.  [send_message] appends,
    [wait_for_message] scans for the first message of the wanted type and
    number, copies it out and closes the gap.  A condition-variable wait
    releases the mutex, so what it returns with is an input: a [wake] carries
    the segment as the other processes left it.

    The specification is a queue of messages with selective receive;
    [seg_rep] relates a segment to the queue it stores. *)

From S2P Require Import Prelude ShmMessage.

(** ** Code *)

Definition sizeof_message : Z := 64.

Definition PAD8 (x : Z) : Z :=
  if negb (Z.land x 7 =? 0) then x + 8 - Z.land x 7 else x.

Record segment := {
  s_total_size : Z;
  s_filled : Z;
  s_most_recent : Z;
  s_data : list Z;
  s_locked : bool }.

(** A message as the bytes of the packed struct. *)
Definition header_bytes (m : message) : list Z :=
  le_bytes 8 (m_id m) ++ le_bytes 8 (m_sent_at m) ++ le_bytes 4 (m_size m) ++ le_bytes 4 (m_type m)
  ++ le_bytes 8 (m_msg_nr m) ++ m_sender m.

Definition enc (m : message) : list Z := header_bytes m ++ m_data m.

(** The message in [bs]: the copy [wait_for_message] returns keeps the padding
    behind its data. *)
Definition dec (bs : list Z) : outcome message :=
  id ← field bs 0 8; sent_at ← field bs 8 8; size ← field bs 16 4; type ← field bs 20 4;
  msg_nr ← field bs 24 8; sender ← rdn bs 32 32;
  Ret {| m_id := id; m_sent_at := sent_at; m_size := size; m_type := type; m_msg_nr := msg_nr;
         m_sender := sender; m_data := padd bs 64 |}.

(** The condition under which the scan stops at a message. *)
Definition wanted (search_type : Z) (msg_nr : option Z) (type cur_msg_nr : Z) : bool :=
  ((type =? search_type) || (search_type =? msg_any)) &&
  match msg_nr with Some n => n =? cur_msg_nr | None => true end.

(** The inner [while] of [wait_for_message] from offset [cur]; the result is
    the offset of the message found. *)
Fixpoint scan (fuel : nat) (s : segment) (search_type : Z) (msg_nr : option Z) (cur : Z) : outcome (option Z) :=
  match fuel with
  | O => Ret None
  | S f =>
    if s_filled s - cur >=? sizeof_message then
      let p := padd (s_data s) cur in
      length ← field p 16 4;
      let total_length := PAD8 (sizeof_message + length) in
      cur_msg_nr ← field p 24 8;
      _ ← assertb (length >? 0);
      type ← field p 20 4;
      if wanted search_type msg_nr type cur_msg_nr then Ret (Some cur)
      else
        _ ← assertb (Z.land (cur + total_length) 7 =? 0);
        scan f s search_type msg_nr (cur + total_length)
    else Ret None
  end.

(** A message occupies at least 72 bytes, so this many turns reach the end. *)
Definition scan_fuel (s : segment) : nat := S (Z.to_nat (s_filled s / sizeof_message)).

(** Copy the message at [cur] out and move the rest down over it. *)
Definition take_message (s : segment) (cur : Z) : outcome (message * segment) :=
  let p := padd (s_data s) cur in
  length ← field p 16 4;
  let total_length := PAD8 (sizeof_message + length) in
  copy ← rdn p 0 total_length;
  _ ← assertb (s_filled s - cur >=? total_length);
  _ ← assertb (Z.land cur 7 =? 0);
  _ ← assertb (Z.land total_length 7 =? 0);
  let left := s_filled s - cur - total_length in
  rest ← rdn (s_data s) (cur + total_length) left;
  data ← wr (s_data s) cur rest;
  _ ← assertb (s_filled s >=? total_length);
  m ← dec copy;
  Ret (m, {| s_total_size := s_total_size s; s_filled := s_filled s - total_length;
             s_most_recent := s_most_recent s; s_data := data; s_locked := s_locked s |}).

Definition set_locked (b : bool) (s : segment) : segment :=
  {| s_total_size := s_total_size s; s_filled := s_filled s; s_most_recent := s_most_recent s;
     s_data := s_data s; s_locked := b |}.

(** What [pthread_cond_wait]/[pthread_cond_timedwait] comes back with. *)
Inductive wake :=
| Woken (s : segment)
| TimedOut
| WaitError.

(** What [pthread_mutex_lock] returns: success, [EOWNERDEAD] (repaired with
    [pthread_mutex_consistent]) or another error. *)
Inductive lock_result := LockOk | LockOwnerDead | LockError.

Inductive wait_result :=
| Got (m : message)
| Null
| Blocked.

(** The outer [for(;;)]; the mutex is held on entry.  [Blocked] is a thread
    still waiting when the supply of wake-ups ends. *)
Fixpoint wait_loop (timeout search_type : Z) (msg_nr : option Z) (wakes : list wake) (s : segment)
  : outcome (wait_result * segment) :=
  found ← scan (scan_fuel s) s search_type msg_nr 0;
  match found with
  | Some cur => '(m, s') ← take_message s cur; Ret (Got m, set_locked false s')
  | None =>
    match wakes with
    | [] => Ret (Blocked, set_locked false s)
    | Woken s' :: ws => wait_loop timeout search_type msg_nr ws (set_locked true s')
    | TimedOut :: _ => Ret (Null, set_locked (timeout <? 0) s)
    | WaitError :: _ => Ret (Null, s)
    end
  end.

Definition wait_for_message (lock : lock_result) (timeout search_type : Z) (msg_nr : option Z)
  (wakes : list wake) (s : segment) : outcome (wait_result * segment) :=
  match lock with
  | LockError => Ret (Null, s)
  | LockOk | LockOwnerDead => wait_loop timeout search_type msg_nr wakes (set_locked true s)
  end.

(** The message with the fields [send_message] sets. *)
Definition stamp (local_identifier : list Z) (now nr : Z) (m : message) : message :=
  {| m_id := m_id m; m_sent_at := now; m_size := m_size m; m_type := m_type m;
     m_msg_nr := nr;
     m_sender := local_identifier ++ zeros (max_id_length - zlen local_identifier);
     m_data := m_data m |}.

Definition set_sent_at (now : Z) (m : message) : message :=
  {| m_id := m_id m; m_sent_at := now; m_size := m_size m; m_type := m_type m;
     m_msg_nr := m_msg_nr m; m_sender := m_sender m; m_data := m_data m |}.

(** The [for(;;)] of [send_message]; the mutex is held on entry, and released. *)
Fixpoint put_loop (blocking : bool) (wakes : list wake) (m : message) (s : segment)
  : outcome (option bool * segment) :=
  let total_msg_length := sizeof_message + m_size m in
  let padded_msg_length := PAD8 total_msg_length in
  if s_total_size s >=? s_filled s + padded_msg_length then
    bs ← rdn (enc m) 0 total_msg_length;
    data ← wr (s_data s) (s_filled s) bs;
    Ret (Some true, {| s_total_size := s_total_size s; s_filled := s_filled s + padded_msg_length;
                       s_most_recent := s_most_recent s; s_data := data; s_locked := false |})
  else if negb blocking then Ret (Some false, set_locked false s)
  else match wakes with
       | [] => Ret (None, set_locked false s)
       | Woken s' :: ws => put_loop blocking ws m (set_locked true s')
       | TimedOut :: _ | WaitError :: _ => Ret (Some false, set_locked false s)
       end.

(** [send_message] into the segment of the remote ([None]: [shm_open] failed).
    Returns the result ([None]: still blocked), the message as the caller sees
    it afterwards, and the segment. *)
Definition send_message (local_identifier : list Z) (now : Z) (lock : lock_result) (blocking : bool)
  (wakes : list wake) (m : message) (remote : option segment)
  : outcome (option bool * message * option segment) :=
  _ ← assertb (m_size m >? 0);
  match remote with
  | None => Ret (Some false, set_sent_at now m, None)
  | Some s =>
    match lock with
    | LockError => Ret (Some false, set_sent_at now m, Some s)
    | LockOk | LockOwnerDead =>
      let nr := if negb (m_type m =? msg_reply) then u64 (s_most_recent s + 1) else m_msg_nr m in
      let s := {| s_total_size := s_total_size s; s_filled := s_filled s;
                  s_most_recent := if negb (m_type m =? msg_reply) then nr else s_most_recent s;
                  s_data := s_data s; s_locked := true |} in
      let m' := stamp local_identifier now nr m in
      '(rc, s') ← put_loop blocking wakes m' s;
      Ret (rc, m', Some s')
    end
  end.

(** ** Specification: a bounded queue with selective receive *)

(** A message as it lies in a queue: its data padded to a multiple of eight. *)
Definition slot (m : message) : Prop :=
  is_u 64 (m_id m) /\ is_u 64 (m_sent_at m) /\ 0 < m_size m < 2 ^ 32 /\ is_u 32 (m_type m) /\
  is_u 64 (m_msg_nr m) /\ zlen (m_sender m) = 32 /\
  zlen (m_data m) = PAD8 (sizeof_message + m_size m) - sizeof_message.

Definition encs (q : list message) : list Z := concat (map enc q).

(** The segment stores the queue [q]. *)
Definition seg_rep (s : segment) (q : list message) : Prop :=
  exists free,
    s_data s = encs q ++ free /\ s_filled s = zlen (encs q) /\
    zlen (s_data s) = s_total_size s /\ Forall slot q.

(** Removing the first wanted message. *)
Fixpoint take_first (P : message -> bool) (q : list message) : option (message * list message) :=
  match q with
  | [] => None
  | m :: r => if P m then Some (m, r)
              else match take_first P r with
                   | Some (x, r') => Some (x, m :: r')
                   | None => None
                   end
  end.

Definition want (search_type : Z) (msg_nr : option Z) (m : message) : bool :=
  wanted search_type msg_nr (m_type m) (m_msg_nr m).

(** The slot a sent message becomes: its data, then padding. *)
Definition padded (m : message) (pad : list Z) : message :=
  {| m_id := m_id m; m_sent_at := m_sent_at m; m_size := m_size m; m_type := m_type m;
     m_msg_nr := m_msg_nr m; m_sender := m_sender m; m_data := m_data m ++ pad |}.

(** ** Lemmas *)

Lemma land7 x : Z.land x 7 = x mod 8.
Proof. change 7 with (Z.ones 3). by rewrite Z.land_ones. Qed.

Lemma PAD8_spec x : x <= PAD8 x < x + 8 /\ PAD8 x mod 8 = 0.
Proof.
  unfold PAD8. rewrite land7. destruct (Z.eqb_spec (x mod 8) 0); cbn [negb];
    Z.div_mod_to_equations; lia.
Qed.

Lemma PAD8_land x : Z.land (PAD8 x) 7 = 0.
Proof. rewrite land7. apply PAD8_spec. Qed.

Lemma zlen_header m : zlen (m_sender m) = 32 -> zlen (header_bytes m) = 64.
Proof. intros H. unfold header_bytes. autorewrite with zlen. lia. Qed.

Lemma zlen_enc m : slot m -> zlen (enc m) = PAD8 (sizeof_message + m_size m).
Proof.
  intros (_ & _ & Hs & _ & _ & Hsn & Hd). unfold enc. rewrite zlen_app, zlen_header, Hd by done.
  unfold sizeof_message. lia.
Qed.

Lemma zlen_enc_bounds m : slot m -> sizeof_message < zlen (enc m) /\ Z.land (zlen (enc m)) 7 = 0.
Proof.
  intros Hm. rewrite zlen_enc, PAD8_land by done. destruct Hm as (_ & _ & Hs & _).
  pose proof (PAD8_spec (sizeof_message + m_size m)). unfold sizeof_message in *. lia.
Qed.

Lemma encs_app q r : encs (q ++ r) = encs q ++ encs r.
Proof. unfold encs. by rewrite map_app, concat_app. Qed.

Lemma encs_cons m q : encs (m :: q) = enc m ++ encs q.
Proof. done. Qed.

Lemma encs_aligned q : Forall slot q -> zlen (encs q) mod 8 = 0.
Proof.
  induction 1 as [|m q Hm Hq IH]; [done|]. rewrite encs_cons, zlen_app.
  destruct (zlen_enc_bounds m Hm) as [_ Ha]. rewrite land7 in Ha.
  rewrite Z.add_mod, Ha, IH by lia. done.
Qed.

Lemma padd_app_le {A} (a b : list A) n : n = zlen a -> padd (a ++ b) n = b.
Proof. apply padd_app. Qed.

(** The fields of an encoded slot. *)
Lemma enc_fields m rest : slot m ->
  field (enc m ++ rest) 16 4 = Ret (m_size m) /\
  field (enc m ++ rest) 20 4 = Ret (m_type m) /\
  field (enc m ++ rest) 24 8 = Ret (m_msg_nr m).
Proof.
  intros (Hid & Hsa & Hs & Ht & Hn & Hsn & Hd). unfold enc, header_bytes. rewrite <- !app_assoc.
  repeat first [rewrite field_hd by reflexivity | rewrite field_skip by (vm_compute; discriminate)].
  unfold is_u in *. rewrite !Z.mod_small by lia. done.
Qed.

Lemma dec_enc m : slot m -> dec (enc m) = Ret m.
Proof.
  intros (Hid & Hsa & Hs & Ht & Hn & Hsn & Hd). unfold dec, enc, header_bytes. rewrite <- !app_assoc.
  repeat first [rewrite field_hd by reflexivity | rewrite field_skip by (vm_compute; discriminate) | progress mcbn].
  rewrite !app_assoc. rewrite <- (app_assoc _ (m_sender m)).
  rewrite (rdn_app_mid _ (m_sender m)) by (autorewrite with zlen; lia). mcbn.
  rewrite !app_assoc. rewrite padd_app by (autorewrite with zlen; lia).
  unfold is_u in *. rewrite !Z.mod_small by lia. by destruct m.
Qed.

(** The scan finds the first wanted message: from the end of a prefix of
    unwanted ones it walks over the rest of the queue. *)
Lemma scan_spec fuel s type nr pre q free :
  s_data s = encs pre ++ encs q ++ free -> s_filled s = zlen (encs pre) + zlen (encs q) ->
  Forall slot pre -> Forall slot q -> (length q < fuel)%nat ->
  match scan fuel s type nr (zlen (encs pre)) with
  | Ret None => Forall (fun m => want type nr m = false) q
  | Ret (Some cur) => exists l1 m l2, q = l1 ++ m :: l2 /\ cur = zlen (encs (pre ++ l1)) /\
                        want type nr m = true /\ Forall (fun m => want type nr m = false) l1
  | Fault _ => False
  end.
Proof.
  revert pre q. induction fuel as [|f IH]; intros pre q Hdata Hfill Hpre Hq Hf; [lia|]. cbn [scan].
  destruct q as [|m q].
  { rewrite Hfill. replace (zlen (encs pre) + zlen (encs []) - zlen (encs pre) >=? sizeof_message)
      with false by (change (zlen (encs [])) with 0; unfold sizeof_message; lia). done. }
  apply Forall_cons_iff in Hq as [Hm Hq]. destruct (zlen_enc_bounds m Hm) as [Hlen Hal].
  rewrite encs_cons, zlen_app in Hfill. pose proof (zlen_nonneg (encs q)).
  replace (s_filled s - zlen (encs pre) >=? sizeof_message) with true by lia.
  assert (Hp : padd (s_data s) (zlen (encs pre)) = enc m ++ encs q ++ free).
  { rewrite Hdata, padd_app by done. by rewrite encs_cons, app_assoc. }
  rewrite Hp. destruct (enc_fields m (encs q ++ free) Hm) as (-> & -> & ->). mcbn.
  pose proof Hm as (_ & _ & Hs & _). replace (m_size m >? 0) with true by lia. mcbn.
  change (wanted type nr (m_type m) (m_msg_nr m)) with (want type nr m).
  destruct (want type nr m) eqn:Hw.
  { exists [], m, q. rewrite app_nil_r. done. }
  rewrite <- zlen_enc by done.
  assert (Z.land (zlen (encs pre) + zlen (enc m)) 7 =? 0 = true) as ->.
  { rewrite land7 in *. rewrite Z.add_mod, (encs_aligned pre), Hal by (done || lia). done. }
  mcbn. specialize (IH (pre ++ [m]) q). rewrite encs_app, zlen_app in IH.
  change (encs [m]) with (enc m ++ []) in IH. rewrite app_nil_r in IH.
  cbn [length] in Hf.
  assert (Hd' : s_data s = (encs pre ++ enc m) ++ encs q ++ free)
    by (rewrite Hdata, encs_cons, <- !app_assoc; done).
  specialize (IH Hd' ltac:(lia) ltac:(apply Forall_app; split; [done|by constructor]) Hq ltac:(lia)).
  destruct (scan f s type nr (zlen (encs pre) + zlen (enc m))) as [[cur|]|]; [|by constructor|done].
  destruct IH as (l1 & m' & l2 & -> & -> & Hw' & Hall).
  exists (m :: l1), m', l2. rewrite <- app_assoc. repeat split; [done|]. by constructor.
Qed.

Lemma take_first_split P q l1 m l2 :
  q = l1 ++ m :: l2 -> P m = true -> Forall (fun m => P m = false) l1 ->
  take_first P q = Some (m, l1 ++ l2).
Proof.
  intros -> Hm. induction 1 as [|x l1 Hx Hl IH]; cbn [app take_first]; [by rewrite Hm|].
  by rewrite Hx, IH.
Qed.

Lemma take_first_none P q : Forall (fun m => P m = false) q -> take_first P q = None.
Proof. induction 1 as [|x q Hx Hq IH]; cbn [take_first]; [done|]. by rewrite Hx, IH. Qed.

(** Taking a message out closes the gap and keeps everything else. *)
Lemma take_message_spec s l1 m l2 :
  seg_rep s (l1 ++ m :: l2) ->
  exists s', take_message s (zlen (encs l1)) = Ret (m, s') /\ seg_rep s' (l1 ++ l2) /\
    s_total_size s' = s_total_size s /\ s_most_recent s' = s_most_recent s /\ s_locked s' = s_locked s.
Proof.
  intros (free & Hdata & Hfill & Htot & Hslots).
  apply Forall_app in Hslots as [Hl1 [Hm Hl2]%Forall_cons_iff].
  destruct (zlen_enc_bounds m Hm) as [Hlen Hal]. rewrite encs_app, encs_cons in Hdata, Hfill.
  rewrite !zlen_app in Hfill. rewrite <- !app_assoc in Hdata.
  pose proof (zlen_nonneg (encs l1)). pose proof (zlen_nonneg (encs l2)). pose proof (zlen_nonneg free).
  pose proof (zlen_nonneg (enc m)).
  assert (Hd : zlen (s_data s) = zlen (encs l1) + (zlen (enc m) + (zlen (encs l2) + zlen free)))
    by (rewrite Hdata, !zlen_app; lia).
  unfold take_message.
  assert (Hp : padd (s_data s) (zlen (encs l1)) = enc m ++ encs l2 ++ free) by (by rewrite Hdata, padd_app).
  rewrite Hp. destruct (enc_fields m (encs l2 ++ free) Hm) as (-> & _ & _). mcbn.
  rewrite <- zlen_enc, rdn_app_l by done. mcbn.
  replace (s_filled s - zlen (encs l1) >=? zlen (enc m)) with true by lia. mcbn.
  rewrite Hal. rewrite land7, (encs_aligned l1) by done. mcbn.
  assert (Hrest : rdn (s_data s) (zlen (encs l1) + zlen (enc m))
                    (s_filled s - zlen (encs l1) - zlen (enc m)) = Ret (encs l2)).
  { rewrite Hdata, app_assoc. apply rdn_app_mid; [by rewrite zlen_app|lia]. }
  rewrite Hrest. mcbn. rewrite wr_ok by lia. mcbn.
  replace (s_filled s >=? zlen (enc m)) with true by lia. mcbn. rewrite dec_enc by done. mcbn.
  eexists. split; [reflexivity|]. split; [|done].
  set (free' := drop (Z.to_nat (zlen (encs l1)) + length (encs l2)) (s_data s)).
  exists free'. cbn [s_data s_filled s_total_size]. unfold splice. fold free'. repeat split.
  - rewrite Hdata at 1. unfold zlen. rewrite Nat2Z.id, take_app_length, encs_app. by rewrite <- app_assoc.
  - rewrite encs_app, zlen_app. lia.
  - change (zlen (splice (s_data s) (zlen (encs l1)) (encs l2)) = s_total_size s).
    rewrite zlen_splice; lia.
  - by apply Forall_app.
Qed.

Lemma seg_rep_locked b s q : seg_rep s q -> seg_rep (set_locked b s) q.
Proof. intros (free & H). exists free. exact H. Qed.

Lemma length_encs q : Forall slot q -> 64 * Z.of_nat (length q) <= zlen (encs q).
Proof.
  induction 1 as [|m q Hm Hq IH]; [done|]. rewrite encs_cons, zlen_app.
  destruct (zlen_enc_bounds m Hm) as [H _]. unfold sizeof_message in H. cbn [length]. lia.
Qed.

(** One pass over the queue: the first wanted message is taken, or nothing is. *)
Lemma scan_take s q type nr :
  seg_rep s q ->
  match take_first (want type nr) q with
  | Some (m, q') => exists cur s', scan (scan_fuel s) s type nr 0 = Ret (Some cur) /\
      take_message s cur = Ret (m, s') /\ seg_rep s' q' /\
      s_total_size s' = s_total_size s /\ s_most_recent s' = s_most_recent s
  | None => scan (scan_fuel s) s type nr 0 = Ret None
  end.
Proof.
  intros Hrep. pose proof Hrep as (free & Hdata & Hfill & Htot & Hslots).
  pose proof (length_encs q Hslots) as Hlen.
  assert (Hfuel : (length q < scan_fuel s)%nat).
  { unfold scan_fuel, sizeof_message. rewrite Hfill. Z.div_mod_to_equations. lia. }
  pose proof (scan_spec (scan_fuel s) s type nr [] q free Hdata ltac:(done) ltac:(done) Hslots Hfuel) as Hs.
  change (zlen (encs [])) with 0 in Hs.
  destruct (scan (scan_fuel s) s type nr 0) as [[cur|]|]; [|by rewrite take_first_none|done].
  destruct Hs as (l1 & m & l2 & -> & -> & Hw & Hall).
  rewrite (take_first_split _ _ l1 m l2) by done.
  destruct (take_message_spec s l1 m l2 Hrep) as (s' & Ht & Hr & H1 & H2 & _).
  by exists (zlen (encs l1)), s'.
Qed.

(** A message a server hands to [send_message]. *)
Definition sendable (m : message) : Prop :=
  is_u 64 (m_id m) /\ 0 < m_size m < 2 ^ 32 /\ is_u 32 (m_type m) /\ is_u 64 (m_msg_nr m) /\
  zlen (m_data m) = m_size m.

(** One turn of the two loops. *)
Lemma put_loop_eq blocking wakes m s :
  put_loop blocking wakes m s =
  if s_total_size s >=? s_filled s + PAD8 (sizeof_message + m_size m) then
    bs ← rdn (enc m) 0 (sizeof_message + m_size m);
    data ← wr (s_data s) (s_filled s) bs;
    Ret (Some true, {| s_total_size := s_total_size s;
                       s_filled := s_filled s + PAD8 (sizeof_message + m_size m);
                       s_most_recent := s_most_recent s; s_data := data; s_locked := false |})
  else if negb blocking then Ret (Some false, set_locked false s)
  else match wakes with
       | [] => Ret (None, set_locked false s)
       | Woken s' :: ws => put_loop blocking ws m (set_locked true s')
       | TimedOut :: _ | WaitError :: _ => Ret (Some false, set_locked false s)
       end.
Proof. by destruct wakes. Qed.

Lemma wait_loop_eq timeout type nr wakes s :
  wait_loop timeout type nr wakes s =
  found ← scan (scan_fuel s) s type nr 0;
  match found with
  | Some cur => '(m, s') ← take_message s cur; Ret (Got m, set_locked false s')
  | None =>
    match wakes with
    | [] => Ret (Blocked, set_locked false s)
    | Woken s' :: ws => wait_loop timeout type nr ws (set_locked true s')
    | TimedOut :: _ => Ret (Null, set_locked (timeout <? 0) s)
    | WaitError :: _ => Ret (Null, s)
    end
  end.
Proof. by destruct wakes. Qed.

(** Appending to a segment that has room. *)
Lemma put_loop_room s q m blocking wakes :
  seg_rep s q -> sendable m -> is_u 64 (m_sent_at m) -> zlen (m_sender m) = 32 ->
  zlen (encs q) + PAD8 (sizeof_message + m_size m) <= s_total_size s ->
  exists s' pad, put_loop blocking wakes m s = Ret (Some true, s') /\ zlen pad < 8 /\
    seg_rep s' (q ++ [padded m pad]) /\ s_total_size s' = s_total_size s /\
    s_most_recent s' = s_most_recent s /\ s_locked s' = false.
Proof.
  intros (free & Hdata & Hfill & Htot & Hslots) (Hid & Hsz & Hty & Hnr & Hdl) Hsa Hsn Hroom.
  pose proof (PAD8_spec (sizeof_message + m_size m)) as [HP _].
  pose proof (zlen_nonneg (encs q)).
  assert (Henc : zlen (enc m) = sizeof_message + m_size m)
    by (unfold enc; rewrite zlen_app, zlen_header, Hdl by done; done).
  assert (Hfree : zlen free = s_total_size s - zlen (encs q)) by (rewrite <- Htot, Hdata, zlen_app; lia).
  set (n := PAD8 (sizeof_message + m_size m)) in *.
  set (pad := sub free (zlen (enc m)) (n - zlen (enc m))).
  assert (Hpad : zlen pad = n - zlen (enc m)) by (apply zlen_sub; pose proof (zlen_nonneg (enc m)); lia).
  pose proof (zlen_nonneg (enc m)).
  assert (Hout : splice (s_data s) (s_filled s) (enc m) = encs (q ++ [padded m pad]) ++ padd free n).
  { rewrite Hdata. rewrite (split3 free (zlen (enc m)) (n - zlen (enc m))) at 1 by lia. fold pad.
    rewrite Hfill, splice_mid by (try rewrite zlen_sub; lia).
    rewrite encs_app, <- !app_assoc. f_equal.
    change (encs [padded m pad]) with ((header_bytes m ++ m_data m ++ pad) ++ []).
    rewrite app_nil_r. unfold enc. rewrite <- !app_assoc. do 4 f_equal.
    unfold enc in *. lia. }
  rewrite put_loop_eq. fold n. replace (s_total_size s >=? s_filled s + n) with true by lia.
  rewrite rdn_all by done. mcbn. rewrite wr_ok by lia. mcbn.
  eexists _, pad. split; [reflexivity|]. split; [lia|]. split; [|done].
  exists (padd free n). cbn [s_data s_filled s_total_size]. split; [done|]. split; [|split].
  - rewrite encs_app, zlen_app. change (encs [padded m pad]) with (enc (padded m pad) ++ []).
    rewrite app_nil_r. unfold enc in *. change (header_bytes (padded m pad)) with (header_bytes m).
    cbn [padded m_data]. rewrite !zlen_app in *. lia.
  - rewrite zlen_splice; lia.
  - apply Forall_app. split; [done|]. constructor; [|done].
    unfold slot. cbn [padded m_id m_sent_at m_size m_type m_msg_nr m_sender m_data].
    rewrite zlen_app. fold n. unfold enc in Henc, Hpad. rewrite zlen_app, zlen_header in Henc by done.
    unfold sizeof_message in *. rewrite zlen_app, zlen_header in Hpad by done.
    repeat split; try done; try apply Hid; try apply Hsa; try apply Hty; try apply Hnr; lia.
Qed.

Lemma zlen_stamp_sender id now nr m : zlen id < 32 -> zlen (m_sender (stamp id now nr m)) = 32.
Proof.
  intros H. cbn [stamp m_sender]. rewrite zlen_app, zlen_zeros; unfold max_id_length; lia.
Qed.

(** What [send_message] comes to when nobody makes room: a blocking send ([b]) goes on waiting. *)
Definition send_rc (b room : bool) : option bool := if room then Some true else if b then None else Some false.

(** A turn: append when there is room, leave the queue otherwise. *)
Lemma put_loop_turn s q m wakes b :
  seg_rep s q -> sendable m -> is_u 64 (m_sent_at m) -> zlen (m_sender m) = 32 -> (b = true -> wakes = []) ->
  let room := s_filled s + PAD8 (sizeof_message + m_size m) <=? s_total_size s in
  exists s', put_loop b wakes m s = Ret (send_rc b room, s') /\
    s_locked s' = false /\ s_total_size s' = s_total_size s /\ s_most_recent s' = s_most_recent s /\
    (if room then exists pad, zlen pad < 8 /\ seg_rep s' (q ++ [padded m pad]) else seg_rep s' q).
Proof.
  intros Hrep Hm Hsa Hsn Hb room. destruct room eqn:Hroom; unfold room in Hroom.
  - destruct (put_loop_room s q m b wakes) as (s' & pad & H1 & H2 & H3 & H4 & H5 & H6); try done.
    + destruct Hrep as (free & _ & Hfill & _). lia.
    + exists s'. rewrite H1. eauto 10.
  - rewrite put_loop_eq.
    replace (s_total_size s >=? s_filled s + PAD8 (sizeof_message + m_size m)) with false by lia.
    exists (set_locked false s). split; [destruct b; [by rewrite Hb|done]|]. repeat (split; [done|]). by apply seg_rep_locked.
Qed.

(** The behaviour of a send, for the users of the queue. *)
Lemma send_message_turn (b : bool) (s : segment) (q : list message) (m : message)
  (id : list Z) (now : Z) (lock : lock_result) (wakes : list wake)
  (Hrep : seg_rep s q) (Hm : sendable m) (Hid : zlen id < max_id_length) (Hnow : is_u 64 now)
  (Hlock : lock <> LockError) (Hb : b = true -> wakes = []) :
  let nr := if m_type m =? msg_reply then m_msg_nr m else u64 (s_most_recent s + 1) in
  let room := s_filled s + PAD8 (sizeof_message + m_size m) <=? s_total_size s in
  exists s', send_message id now lock b wakes m (Some s) = Ret (send_rc b room, stamp id now nr m, Some s') /\
    s_locked s' = false /\ s_total_size s' = s_total_size s /\
    s_most_recent s' = (if m_type m =? msg_reply then s_most_recent s else nr) /\
    (if room then exists pad, zlen pad < 8 /\ seg_rep s' (q ++ [padded (stamp id now nr m) pad])
     else seg_rep s' q).
Proof.
  intros nr room. pose proof Hm as (Hmid & Hsz & Hty & Hnr & Hdl).
  unfold send_message. replace (m_size m >? 0) with true by lia. mcbn.
  set (s1 := {| s_total_size := _ |}).
  assert (Hnr' : (if negb (m_type m =? msg_reply) then u64 (s_most_recent s + 1) else m_msg_nr m) = nr)
    by (unfold nr; by destruct (m_type m =? msg_reply)).
  assert (Hrep1 : seg_rep s1 q) by (destruct Hrep as (free & H); exists free; exact H).
  assert (Hmr : s_most_recent s1 = (if m_type m =? msg_reply then s_most_recent s else nr))
    by (unfold s1, nr; cbn; by destruct (m_type m =? msg_reply)).
  assert (Hst : sendable (stamp id now nr m)).
  { unfold sendable. cbn. repeat split; try done; try lia; try apply Hmid; try apply Hty.
    - unfold nr. destruct (_ =? _); [apply Hnr|]. by apply wrap_range.
    - unfold nr. destruct (_ =? _); [apply Hnr|]. by apply wrap_range. }
  destruct (put_loop_turn s1 q (stamp id now nr m) wakes b) as (s' & Hp & H2 & H3 & H4 & H5);
    [done|done|done|by apply zlen_stamp_sender|done|].
  change (s_total_size s1) with (s_total_size s) in *. change (s_filled s1) with (s_filled s) in *.
  cbn [stamp m_size] in Hp, H5. fold room in Hp, H5. exists s'.
  rewrite <- Hmr, <- H4. destruct lock; [| |done]; rewrite Hnr', Hp; done.
Qed.

Lemma send_message_spec (s : segment) (q : list message) (m : message)
  (id : list Z) (now : Z) (lock : lock_result) (wakes : list wake)
  (Hrep : seg_rep s q) (Hm : sendable m) (Hid : zlen id < max_id_length) (Hnow : is_u 64 now)
  (Hlock : lock <> LockError) :
  let nr := if m_type m =? msg_reply then m_msg_nr m else u64 (s_most_recent s + 1) in
  let room := s_filled s + PAD8 (sizeof_message + m_size m) <=? s_total_size s in
  exists s', send_message id now lock false wakes m (Some s) = Ret (Some room, stamp id now nr m, Some s') /\
    s_locked s' = false /\ s_total_size s' = s_total_size s /\
    s_most_recent s' = (if m_type m =? msg_reply then s_most_recent s else nr) /\
    (if room then exists pad, zlen pad < 8 /\ seg_rep s' (q ++ [padded (stamp id now nr m) pad])
     else seg_rep s' q).
Proof.
  intros nr room. destruct (send_message_turn false s q m id now lock wakes Hrep Hm Hid Hnow Hlock) as (s' & E & H); [done|].
  exists s'. cbv zeta in E, H. fold nr room in E, H. rewrite E. by destruct room.
Qed.

Lemma wait_for_message_spec (s : segment) (q : list message) (timeout type : Z) (nr : option Z)
  (lock : lock_result) (wakes : list wake)
  (Hrep : seg_rep s q) (Hlock : lock <> LockError) (Ht : 0 <= timeout) :
  match take_first (want type nr) q, wakes with
  | Some (m, q'), _ =>
      exists s', wait_for_message lock timeout type nr wakes s = Ret (Got m, s') /\ seg_rep s' q' /\
        s_locked s' = false /\ s_total_size s' = s_total_size s /\ s_most_recent s' = s_most_recent s
  | None, [] => wait_for_message lock timeout type nr wakes s = Ret (Blocked, set_locked false s)
  | None, TimedOut :: _ =>
      wait_for_message lock timeout type nr wakes s = Ret (Null, set_locked false s)
  | None, Woken s2 :: ws =>
      wait_for_message lock timeout type nr wakes s = wait_for_message lock timeout type nr ws s2
  | None, WaitError :: _ => True
  end.
Proof.
  assert (Hw : wait_for_message lock timeout type nr wakes s =
               wait_loop timeout type nr wakes (set_locked true s)) by (by destruct lock).
  rewrite Hw, wait_loop_eq.
  pose proof (scan_take _ q type nr (seg_rep_locked true s q Hrep)) as Hs.
  destruct (take_first (want type nr) q) as [[m q']|].
  - destruct Hs as (cur & s' & -> & Htk & Hr & H1 & H2). mcbn. rewrite Htk. mcbn.
    exists (set_locked false s'). split; [done|]. split; [by apply seg_rep_locked|]. done.
  - rewrite Hs. mcbn. destruct wakes as [|[s2| |] ws]; try done.
    + by destruct lock.
    + by replace (timeout <? 0) with false by lia.
Qed.

(** ** Properties *)

(** C17: [send_message] implements an append to the bounded queue.  On a
    segment storing the queue [q], a non-blocking send of any well-formed
    message returns [true] exactly when the padded message fits; then the
    segment stores [q] followed by the message (its number, time and sender
    filled in, its data followed by fewer than eight padding bytes), and
    otherwise it still stores [q].  Every message that is not a reply gets the
    next message number, the mutex is released, and nothing is written outside
    the segment. *)
Theorem send_message_refines (s : segment) (q : list message) (m : message)
  (id : list Z) (now : Z) (lock : lock_result) (wakes : list wake)
  (Hrep : seg_rep s q) (Hm : sendable m) (Hid : zlen id < max_id_length) (Hnow : is_u 64 now)
  (Hlock : lock <> LockError) :
  let nr := if m_type m =? msg_reply then m_msg_nr m else u64 (s_most_recent s + 1) in
  let room := s_filled s + PAD8 (sizeof_message + m_size m) <=? s_total_size s in
  exists s', send_message id now lock false wakes m (Some s) = Ret (Some room, stamp id now nr m, Some s') /\
    s_locked s' = false /\ s_total_size s' = s_total_size s /\
    s_most_recent s' = (if m_type m =? msg_reply then s_most_recent s else nr) /\
    (if room then exists pad, zlen pad < 8 /\ seg_rep s' (q ++ [padded (stamp id now nr m) pad])
     else seg_rep s' q).
Proof. exact (send_message_spec s q m id now lock wakes Hrep Hm Hid Hnow Hlock). Qed.

(** A segment of 256 bytes holding one 5-byte message. *)
Definition ex_message (n : Z) : message :=
  {| m_id := 0; m_sent_at := 0; m_size := 5; m_type := msg_new; m_msg_nr := n;
     m_sender := zeros 32; m_data := [1; 2; 3; 4; 5] |}.
Definition ex_slot (n : Z) : message := padded (ex_message n) [0; 0; 0].
Definition ex_segment : segment :=
  {| s_total_size := 256; s_filled := 72; s_most_recent := 1;
     s_data := enc (ex_slot 1) ++ zeros 184; s_locked := false |}.

Lemma ex_segment_rep : seg_rep ex_segment [ex_slot 1].
Proof.
  exists (zeros 184). repeat (split; [reflexivity|]). constructor; [|constructor].
  unfold slot, is_u. cbn [m_id m_sent_at m_size m_type m_msg_nr ex_slot padded ex_message].
  unfold msg_new. repeat split; try lia; reflexivity.
Qed.

Lemma send_message_refines_witness :
  exists s', send_message [97] 7 LockOk false [] (ex_message 0) (Some ex_segment) =
               Ret (Some true, stamp [97] 7 2 (ex_message 0), Some s') /\
    s_locked s' = false /\ s_total_size s' = 256 /\ s_most_recent s' = 2 /\
    exists pad, zlen pad < 8 /\ seg_rep s' ([ex_slot 1] ++ [padded (stamp [97] 7 2 (ex_message 0)) pad]).
Proof.
  apply (send_message_refines ex_segment [ex_slot 1] (ex_message 0) [97] 7 LockOk []).
  - exact ex_segment_rep.
  - unfold sendable, is_u. cbn [m_id m_size m_type m_msg_nr ex_message]. unfold msg_new.
    repeat split; try lia; reflexivity.
  - reflexivity.
  - unfold is_u. lia.
  - discriminate.
Defined.

(** C18: [wait_for_message] implements selective receive.  On a segment storing
    [q] it returns the first message of the wanted type and number, and the
    segment then stores [q] without it, the others in their order, with the
    mutex released; when no message is wanted it changes nothing and waits, a
    wake-up rescans the segment as it then is, and a timeout returns null with
    the mutex released.  No assertion fails and no access leaves the segment. *)
Theorem wait_for_message_refines (s : segment) (q : list message) (timeout type : Z) (nr : option Z)
  (lock : lock_result) (wakes : list wake)
  (Hrep : seg_rep s q) (Hlock : lock <> LockError) (Ht : 0 <= timeout) :
  match take_first (want type nr) q, wakes with
  | Some (m, q'), _ =>
      exists s', wait_for_message lock timeout type nr wakes s = Ret (Got m, s') /\ seg_rep s' q' /\
        s_locked s' = false /\ s_total_size s' = s_total_size s /\ s_most_recent s' = s_most_recent s
  | None, [] => wait_for_message lock timeout type nr wakes s = Ret (Blocked, set_locked false s)
  | None, TimedOut :: _ =>
      wait_for_message lock timeout type nr wakes s = Ret (Null, set_locked false s)
  | None, Woken s2 :: ws =>
      wait_for_message lock timeout type nr wakes s = wait_for_message lock timeout type nr ws s2
  | None, WaitError :: _ => True
  end.
Proof. exact (wait_for_message_spec s q timeout type nr lock wakes Hrep Hlock Ht). Qed.

Lemma wait_for_message_refines_witness :
  exists s', wait_for_message LockOk 100 msg_new None [] ex_segment = Ret (Got (ex_slot 1), s') /\
    seg_rep s' [] /\ s_locked s' = false /\ s_total_size s' = 256 /\ s_most_recent s' = 1.
Proof.
  apply (wait_for_message_refines ex_segment [ex_slot 1] 100 msg_new None LockOk []).
  - exact ex_segment_rep.
  - discriminate.
  - discriminate.
Defined.

(** When the wait on the condition variable fails with anything but a
    timeout, [wait_for_message] returns null and leaves the mutex of the
    segment locked: only the [ETIMEDOUT] branch unlocks. *)
Theorem wait_error_keeps_mutex (s : segment) (q : list message) (timeout type : Z) (nr : option Z)
  (ws : list wake) (Hrep : seg_rep s q) (Hnone : take_first (want type nr) q = None) :
  wait_for_message LockOk timeout type nr (WaitError :: ws) s = Ret (Null, set_locked true s).
Proof.
  cbn [wait_for_message]. rewrite wait_loop_eq.
  pose proof (scan_take _ q type nr (seg_rep_locked true s q Hrep)) as Hs. rewrite Hnone in Hs.
  by rewrite Hs.
Qed.

Lemma wait_error_keeps_mutex_witness :
  wait_for_message LockOk 100 msg_reply None [WaitError] ex_segment = Ret (Null, set_locked true ex_segment).
Proof.
  apply (wait_error_keeps_mutex ex_segment [ex_slot 1] 100 msg_reply None []).
  - exact ex_segment_rep.
  - reflexivity.
Defined.
