(* ===== verification/Startup.v ===== *)
(** * Start-up: [src/common.cpp], and [begin] of [src/utils/shm.cpp]

    How a server makes its queue, and how it reads its tables from the configuration
    file.  What [shm_open], [fstat], [ftruncate], [mmap] and [pthread_mutex_lock] return is
    an input, as are the entries iniparser finds. *)

From S2P Require Import Prelude Str ShmMessage Shm.

(** ** Code *)

(** [struct shared_memory] up to [data]: a mutex (40 bytes), two condition
    variables (48 each), [total_size], [filled], [most_recent_msg_nr]. *)
Definition sizeof_shared_memory : Z := 40 + 2 * 48 + 8 + 8 + 8.
Definition offset_most_recent : Z := 40 + 2 * 48 + 8 + 8.

(** What the system calls of [begin] come back with. *)
Record sys_results := { shm_open_ok : bool; fstat_ok : bool; ftruncate_ok : bool; mmap_ok : bool; lock_rc : lock_result }.

Definition ftruncate (n : Z) (bytes : list Z) : list Z := take (Z.to_nat n) bytes ++ zeros (n - zlen bytes).

(** [begin] of a queue of [size] bytes that has not begun before: [existing] are the bytes of
    the object of that name, empty when [shm_open] has just created it.  [None]: [false]. *)
Definition begin_ (size : Z) (sys : sys_results) (existing : list Z) : option segment :=
  if negb (shm_open_ok sys) then None
  else if negb (fstat_ok sys) then None
  else
    let total_segment_size := u64 (size + sizeof_shared_memory) in
    let is_new := negb (zlen existing =? total_segment_size) in
    if is_new && negb (ftruncate_ok sys) then None
    else
      let bytes := if is_new then ftruncate total_segment_size existing else existing in
      if negb (mmap_ok sys) then None
      else match lock_rc sys with
           | LockError => None
           | LockOk | LockOwnerDead =>
             Some {| s_total_size := size; s_filled := 0; s_most_recent := le_val (sub bytes offset_most_recent 8);
                     s_data := padd bytes sizeof_shared_memory; s_locked := false |}
           end.

Definition create_shm (name : list Z) (size : Z) (sys : sys_results) (existing : list Z) : outcome (option segment) :=
  if zlen name >=? max_id_length then Ret None
  else if size <? sizeof_message then Ret None
  else
    _ ← assertb (zlen name <? max_id_length);
    Ret (begin_ size sys existing).

(** [std::map::insert] keeps the entry there is. *)
Definition map_insert `{Countable K} {V} (k : K) (v : V) (m : gmap K V) : gmap K V :=
  match m !! k with
  | Some _ => m
  | None => <[k := v]> m
  end.

(** [strchr(key, ':') + 1] *)
Definition behind_colon (key : list Z) : outcome (list Z) :=
  match find_sub [58] key with
  | Some i => Ret (drop (S i) key)
  | None => Fault OutOfBounds
  end.

(** One entry; [None]: [exit(1)]. *)
Definition load_entry (parse : list Z -> outcome (option Z)) (entry : list Z * list Z) : outcome (option Z) :=
  let '(key, v) := entry in
  if zlen v =? 0 then Ret None else
  col ← behind_colon key;
  parse col.

(** [load_mappings_single]; the keys of the map are [uint16_t]. *)
Fixpoint load_mappings_single (entries : list (list Z * list Z)) (mappings_in : gmap Z (list Z)) : outcome (option (gmap Z (list Z))) :=
  match entries with
  | [] => Ret (Some mappings_in)
  | entry :: entries =>
    k ← load_entry my_stoi_dec entry;
    match k with
    | None => Ret None
    | Some k => load_mappings_single entries (map_insert (u16 k) entry.2 mappings_in)
    end
  end.

(** The loop of [load_mappings_duo] and of [load_mappings]. *)
Fixpoint load_both (parse : list Z -> outcome (option Z)) (w : Z) (entries : list (list Z * list Z))
  (mappings_in : gmap Z (list Z)) (mappings_out : gmap (list Z) Z) : outcome (option (gmap Z (list Z) * gmap (list Z) Z)) :=
  match entries with
  | [] => Ret (Some (mappings_in, mappings_out))
  | entry :: entries =>
    k ← load_entry parse entry;
    match k with
    | None => Ret None
    | Some k => load_both parse w entries (map_insert (wrap w k) entry.2 mappings_in) (map_insert entry.2 (wrap w k) mappings_out)
    end
  end.

(** Of the link layer: hexadecimal, [uint16_t]. *)
Definition load_mappings_duo (entries : list (list Z * list Z)) : outcome (option (gmap Z (list Z) * gmap (list Z) Z)) :=
  load_both my_stoi_hex 16 entries ∅ ∅.

(** Of the IPv4 server: decimal, [uint8_t]. *)
Definition load_mappings (entries : list (list Z * list Z)) : outcome (option (gmap Z (list Z) * gmap (list Z) Z)) :=
  load_both my_stoi_dec 8 entries ∅ ∅.

(** ** Lemmas *)

Lemma sub_app_le (a b : list Z) o n : 0 <= o -> 0 <= n -> o + n <= zlen a -> sub (a ++ b) o n = sub a o n.
Proof. intros Ho Hn Hl. unfold sub, zlen in *. rewrite drop_app_le by lia. apply take_app_le. rewrite length_drop. lia. Qed.

Lemma zlen_ftruncate n bytes : 0 <= n -> zlen (ftruncate n bytes) = n.
Proof.
  intros Hn. unfold ftruncate. rewrite zlen_app, zlen_take. destruct (Z.le_ge_cases (zlen bytes) n).
  - rewrite zlen_zeros by lia. lia.
  - replace (zeros (n - zlen bytes)) with (@nil Z) by (unfold zeros; by replace (Z.to_nat (n - zlen bytes)) with 0%nat by lia).
    change (zlen []) with 0. lia.
Qed.

Lemma begin_ok size sys existing :
  shm_open_ok sys = true -> fstat_ok sys = true -> ftruncate_ok sys = true -> mmap_ok sys = true -> lock_rc sys <> LockError ->
  0 <= size -> size + sizeof_shared_memory < 2 ^ 64 ->
  exists s, begin_ size sys existing = Some s /\ seg_rep s [] /\ s_total_size s = size /\ s_locked s = false /\
    (sizeof_shared_memory <= zlen existing -> s_most_recent s = le_val (sub existing offset_most_recent 8)).
Proof.
  intros H1 H2 H3 H4 H5 Hs Hb. unfold begin_. rewrite H1, H2, H3, H4. cbn [negb]. rewrite andb_false_r.
  unfold sizeof_shared_memory, offset_most_recent in *. rewrite wrap_small by (unfold is_u; lia).
  set (n := size + _) in *. set (bytes := if negb (zlen existing =? n) then _ else _).
  assert (Hlen : zlen bytes = n).
  { unfold bytes. destruct (Z.eqb_spec (zlen existing) n) as [E|E]; cbn [negb]; [done|]. apply zlen_ftruncate. lia. }
  eexists. split; [by destruct (lock_rc sys)|]. cbn [s_total_size s_locked s_most_recent s_data s_filled].
  split; [|split; [done|split; [done|]]].
  - exists (padd bytes (40 + 2 * 48 + 8 + 8 + 8)). cbn [s_total_size s_data s_filled]. split; [done|]. split; [done|]. split; [|constructor].
    unfold padd. rewrite zlen_drop. lia.
  - intros Hl. unfold bytes. destruct (Z.eqb_spec (zlen existing) n) as [E|E]; cbn [negb]; [done|]. f_equal. unfold ftruncate.
    rewrite sub_app_le by (rewrite ?zlen_take; lia). rewrite <- (take_drop (Z.to_nat n) existing) at 2. symmetry. apply sub_app_le; rewrite ?zlen_take; lia.
Qed.

(** *** Messages through a queue *)

(** What the threads of processes do to a queue, one with the mutex at a time: send, blocking or not; go on with a blocking send that found the queue
    full, the [i]-th of those waiting; take the first message of a type or the reply with a number. A thread that waits for a message is here at the moments it looks. *)
Inductive queue_op : Type :=
| QSend (local_identifier : list Z) (now : Z) (lock : lock_result) (blocking : bool) (m : message)
| QWake (i : nat)
| QReceive (lock : lock_result) (timeout search_type : Z) (msg_nr : option Z).

Definition queue_op_ok (op : queue_op) : Prop :=
  match op with
  | QSend local_identifier now lock _ m => zlen local_identifier < max_id_length /\ is_u 64 now /\ lock <> LockError /\ sendable m
  | QWake _ => True
  | QReceive lock timeout _ _ => lock <> LockError /\ 0 <= timeout
  end.

(** The segment, and the messages of the senders that wait for room. *)
Definition queue_state : Type := segment * list message.

(** The messages that come into the queue, and those received. *)
Definition queue_step (op : queue_op) (st : queue_state) : outcome (list message * list message * queue_state) :=
  let '(s, waiting) := st in
  match op with
  | QSend local_identifier now lock blocking m =>
    r ← send_message local_identifier now lock blocking [] m (Some s);
    let '(rc, m', s') := r in
    Ret (if bool_decide (rc = Some true) then [m'] else [], [],
         (default s s', if bool_decide (rc = None) then waiting ++ [m'] else waiting))
  | QWake i =>
    match waiting !! i with
    | None => Ret ([], [], st)
    | Some m =>
      r ← put_loop true [] m (set_locked true s);
      Ret (if bool_decide (r.1 = Some true) then [m] else [], [],
           (r.2, if bool_decide (r.1 = Some true) then delete i waiting else waiting))
    end
  | QReceive lock timeout search_type msg_nr =>
    r ← wait_for_message lock timeout search_type msg_nr [TimedOut] s;
    Ret ([], match r.1 with Got m => [m] | _ => [] end, (r.2, waiting))
  end.

Fixpoint run_queue (ops : list queue_op) (st : queue_state) : outcome (list message * list message * queue_state) :=
  match ops with
  | [] => Ret ([], [], st)
  | op :: ops =>
    r ← queue_step op st;
    let '(sent1, got1, st) := r in
    r ← run_queue ops st;
    let '(sent, got, st) := r in
    Ret (sent1 ++ sent, got1 ++ got, st)
  end.

(** *** The reference: lists of messages *)

Record queue_ref := { r_queue : list message; r_waiting : list message; r_nr : Z }.

Definition room_for (m : message) : Z := PAD8 (sizeof_message + m_size m).
Definition used (q : list message) : Z := foldr (fun m n => room_for m + n) 0 q.

Definition ref_step (cap : Z) (op : queue_op) (r : queue_ref) : list message * list message * queue_ref :=
  match op with
  | QSend id now _ blocking m =>
    let nr := if m_type m =? msg_reply then m_msg_nr m else u64 (r_nr r + 1) in
    let m' := stamp id now nr m in
    let last := if m_type m =? msg_reply then r_nr r else u64 (r_nr r + 1) in
    if used (r_queue r) + room_for m <=? cap
    then ([m'], [], {| r_queue := r_queue r ++ [m']; r_waiting := r_waiting r; r_nr := last |})
    else ([], [], {| r_queue := r_queue r; r_waiting := if blocking : bool then r_waiting r ++ [m'] else r_waiting r; r_nr := last |})
  | QWake i =>
    match r_waiting r !! i with
    | Some m =>
      if used (r_queue r) + room_for m <=? cap
      then ([m], [], {| r_queue := r_queue r ++ [m]; r_waiting := delete i (r_waiting r); r_nr := r_nr r |})
      else ([], [], r)
    | None => ([], [], r)
    end
  | QReceive _ _ search_type msg_nr =>
    match take_first (want search_type msg_nr) (r_queue r) with
    | Some (m, q) => ([], [m], {| r_queue := q; r_waiting := r_waiting r; r_nr := r_nr r |})
    | None => ([], [], r)
    end
  end.

Fixpoint ref_run (cap : Z) (ops : list queue_op) (r : queue_ref) : list message * list message * queue_ref :=
  match ops with
  | [] => ([], [], r)
  | op :: ops =>
    let '(sent1, got1, r) := ref_step cap op r in
    let '(sent, got, r) := ref_run cap ops r in
    (sent1 ++ sent, got1 ++ got, r)
  end.

(** A message as it comes out: its data followed by less than eight bytes. *)
Definition comes_out (m x : message) : Prop := exists pad, zlen pad < 8 /\ x = padded m pad.

(** A sender that waits. *)
Definition may_wait (m : message) : Prop := sendable m /\ is_u 64 (m_sent_at m) /\ zlen (m_sender m) = 32.

Record queue_inv (cap : Z) (st : queue_state) (r : queue_ref) (q : list message) : Prop := {
  qi_rep : seg_rep st.1 q;
  qi_cap : s_total_size st.1 = cap;
  qi_nr : s_most_recent st.1 = r_nr r;
  qi_queue : Forall2 comes_out (r_queue r) q;
  qi_waiting : st.2 = r_waiting r /\ Forall may_wait (r_waiting r) }.

Lemma used_filled s q qr : seg_rep s q -> Forall2 comes_out qr q -> s_filled s = used qr.
Proof.
  intros (free & _ & -> & _ & Hs). induction 1 as [|m x qr q (pad & _ & ->) _ IH] in Hs |- *; [done|].
  apply list.Forall_cons in Hs as [Hx Hs]. rewrite encs_cons, zlen_app, (zlen_enc _ Hx), IH by done. done.
Qed.

Lemma take_first_out P qr q : (forall m x, comes_out m x -> P x = P m) -> Forall2 comes_out qr q ->
  match take_first P qr with
  | Some (m, qr') => exists x q', take_first P q = Some (x, q') /\ comes_out m x /\ Forall2 comes_out qr' q'
  | None => take_first P q = None
  end.
Proof.
  intros HP. induction 1 as [|m x qr q Hx Hq IH]; [done|]. cbn [take_first]. rewrite (HP m x Hx). destruct (P m); [by exists x, q|].
  destruct (take_first P qr) as [[m' qr']|]; [|by rewrite IH]. destruct IH as (x' & q' & -> & Hx' & Hq'). exists x', (x :: q'). by repeat constructor.
Qed.

Lemma want_out t nr m x : comes_out m x -> want t nr x = want t nr m.
Proof. by intros (pad & _ & ->). Qed.

(** One step does to the segment what the reference does to the list. *)
Lemma queue_step_spec cap op st r q : queue_op_ok op -> queue_inv cap st r q ->
  let '(sent, got, r') := ref_step cap op r in
  exists got' st' q', queue_step op st = Ret (sent, got', st') /\ Forall2 comes_out got got' /\ queue_inv cap st' r' q'.
Proof.
  destruct st as [s waiting]. intros Hop [Hq Hcap Hnr Hqr [Hw Hmw]]. cbn [fst snd] in *. subst waiting. pose proof (used_filled s q _ Hq Hqr) as Hu.
  destruct op as [id now lock b m|i|lock timeout t nr]; cbn [ref_step queue_step].
  - destruct Hop as (Hid & Hnow & Hlock & Hm). destruct (send_message_turn b s q m id now lock [] Hq Hm Hid Hnow Hlock) as (s1 & E & _ & Ht & Hr & Hrest); [done|].
    cbn zeta in E, Hrest. rewrite Hu, Hcap in E, Hrest. rewrite Hnr in *.
    assert (Hr' : s_most_recent s1 = if m_type m =? msg_reply then r_nr r else u64 (r_nr r + 1)) by (rewrite Hr; by destruct (m_type m =? msg_reply)). clear Hr.
    rewrite E. mcbn. change (default s (Some s1)) with s1. fold (room_for m) in *.
    set (m' := stamp _ _ _ _) in *. assert (Hmay : may_wait m').
    { split; [|split; [done|by apply zlen_stamp_sender]]. destruct Hm as (M1 & M2 & M3 & M4 & M5). repeat (split; [done|]). split; [|done].
      cbn [m' stamp m_msg_nr]. destruct (_ =? _); [done|]. apply wrap_range. lia. }
    destruct (used (r_queue r) + room_for m <=? cap).
    + destruct Hrest as (pad & Hpad & Hrep). rewrite bool_decide_eq_true_2, bool_decide_eq_false_2 by done.
      exists [], (s1, r_waiting r), (q ++ [padded m' pad]). split; [done|]. split; [constructor|]. split; cbn; [exact Hrep|congruence|exact Hr'| |done].
      apply Forall2_app; [done|]. constructor; [by exists pad|constructor].
    + rewrite bool_decide_eq_false_2 by (by destruct b). destruct b; cbn [send_rc].
      * rewrite bool_decide_eq_true_2 by done. exists [], (s1, r_waiting r ++ [m']), q. split; [done|]. split; [constructor|].
        split; cbn; [exact Hrest|congruence|done|done|]. split; [done|]. apply list.Forall_app. split; [done|]. constructor; [done|constructor].
      * rewrite bool_decide_eq_false_2 by done. exists [], (s1, r_waiting r), q. split; [done|]. split; [constructor|]. split; cbn; (done || congruence).
  - destruct (r_waiting r !! i) as [m|] eqn:Ei; [|by exists [], (s, r_waiting r), q].
    destruct (Forall_lookup_1 _ _ _ _ Hmw Ei) as (Hm & Hsa & Hsn).
    destruct (put_loop_turn (set_locked true s) q m [] true) as (s1 & E & _ & Ht & Hr & Hrest); [by apply seg_rep_locked|done..|].
    cbn zeta in E, Hrest. change (s_filled (set_locked true s)) with (s_filled s) in *. change (s_total_size (set_locked true s)) with (s_total_size s) in *.
    change (s_most_recent (set_locked true s)) with (s_most_recent s) in *. rewrite Hu, Hcap in E, Hrest. fold (room_for m) in *. rewrite E. mcbn. cbn [fst snd].
    destruct (used (r_queue r) + room_for m <=? cap); cbn [send_rc].
    + destruct Hrest as (pad & Hpad & Hrep). rewrite bool_decide_eq_true_2 by done. eexists [], _, (q ++ [padded m pad]). split; [done|]. split; [constructor|].
      split; cbn; [exact Hrep|congruence|congruence| |split; [done|by apply list.Forall_delete]]. apply Forall2_app; [done|]. constructor; [by exists pad|constructor].
    + rewrite bool_decide_eq_false_2 by done. exists [], (s1, r_waiting r), q. split; [done|]. split; [constructor|]. split; cbn; (done || congruence).
  - destruct Hop as [Hlock Hto]. pose proof (wait_for_message_spec s q timeout t nr lock [TimedOut] Hq Hlock Hto) as Hw.
    pose proof (take_first_out (want t nr) _ _ (want_out t nr) Hqr) as Htf. destruct (take_first (want t nr) (r_queue r)) as [[m qr']|].
    + destruct Htf as (x & q' & E & Hx & Hq'). rewrite E in Hw. destruct Hw as (s1 & -> & Hrep & _ & Ht & Hr). mcbn. cbn [fst snd].
      exists [x], (s1, r_waiting r), q'. split; [done|]. split; [by repeat constructor|]. split; cbn; (done || congruence).
    + rewrite Htf in Hw. rewrite Hw. mcbn. cbn [fst snd]. exists [], (set_locked false s, r_waiting r), q. split; [done|]. split; [constructor|].
      by split.
Qed.

Lemma run_queue_spec cap ops st r q : Forall queue_op_ok ops -> queue_inv cap st r q ->
  let '(sent, got, r') := ref_run cap ops r in
  exists got' st' q', run_queue ops st = Ret (sent, got', st') /\ Forall2 comes_out got got' /\ queue_inv cap st' r' q'.
Proof.
  intros Hops. revert st r q. induction Hops as [|op ops Hop _ IH]; intros st r q Hq; cbn [ref_run run_queue].
  - by exists [], st, q.
  - pose proof (queue_step_spec cap op st r q Hop Hq) as Hs. destruct (ref_step cap op r) as [[sent1 got1] r1].
    destruct Hs as (got1' & st1 & q1 & -> & Hg1 & Hq1). mcbn. specialize (IH st1 r1 q1 Hq1). destruct (ref_run cap ops r1) as [[sent got] r2].
    destruct IH as (got' & st2 & q2 & -> & Hg & Hq2). mcbn. exists (got1' ++ got'), st2, q2. split; [done|]. split; [by apply Forall2_app|done].
Qed.

(** Order among messages: all of a class [C] or none of it are wanted. *)
Definition uniform (C : message -> bool) (op : queue_op) : Prop :=
  match op with
  | QReceive _ _ t nr => (forall m, C m = true -> want t nr m = true) \/ (forall m, C m = true -> want t nr m = false)
  | _ => True
  end.

Lemma take_first_split_inv P q m q' : take_first P q = Some (m, q') ->
  exists l1 l2, q = l1 ++ m :: l2 /\ q' = l1 ++ l2 /\ P m = true /\ Forall (fun x => P x = false) l1.
Proof.
  revert m q'. induction q as [|x q IH]; intros m q'; cbn [take_first]; [done|]. destruct (P x) eqn:Ex; [intros [= <- <-]; by exists [], q|].
  destruct (take_first P q) as [[y r]|]; [|done]. intros [= <- <-]. destruct (IH y r eq_refl) as (l1 & l2 & -> & -> & Hy & Hl).
  exists (x :: l1), l2. by repeat constructor.
Qed.

Lemma filter_none (C : message -> bool) l : Forall (fun x => C x = false) l -> List.filter C l = [].
Proof. induction 1 as [|x l Hx _ IH]; [done|]. cbn. by rewrite Hx. Qed.

Lemma ref_step_keeps cap op r : let '(sent, got, r') := ref_step cap op r in
  r_queue r ++ sent ≡ₚ got ++ r_queue r' /\
  (forall C, uniform C op -> List.filter C (r_queue r ++ sent) = List.filter C (got ++ r_queue r')) /\
  Forall (fun m => room_for m <= cap - used (r_queue r)) sent.
Proof.
  destruct op as [id now lock b m|i|lock timeout t nr]; cbn [ref_step].
  - set (m' := stamp _ _ _ _). destruct (Z.leb_spec (used (r_queue r) + room_for m) cap); [|by rewrite app_nil_r].
    split; [done|]. split; [done|]. constructor; [|constructor]. change (room_for m') with (room_for m). lia.
  - destruct (r_waiting r !! i) as [m|]; [|by rewrite app_nil_r]. destruct (Z.leb_spec (used (r_queue r) + room_for m) cap); [|by rewrite app_nil_r].
    split; [done|]. split; [done|]. constructor; [lia|constructor].
  - destruct (take_first _ _) as [[m q]|] eqn:E; [|by rewrite app_nil_r]. rewrite app_nil_r. cbn [r_queue app].
    apply take_first_split_inv in E as (l1 & l2 & -> & -> & Hm & Hl). split; [by rewrite Permutation_middle|]. split; [|constructor].
    intros C [HC|HC].
    + assert (Hl1 : List.filter C l1 = []).
      { apply filter_none. revert Hl. apply List.Forall_impl. intros x Hx. destruct (C x) eqn:Cx; [|done]. rewrite (HC x Cx) in Hx. done. }
      rewrite List.filter_app, Hl1. cbn [List.filter app]. rewrite List.filter_app, Hl1. done.
    + rewrite List.filter_app. cbn [List.filter]. destruct (C m) eqn:Cm; [rewrite (HC m Cm) in Hm; done|]. by rewrite List.filter_app.
Qed.

Lemma ref_run_keeps cap ops r : let '(sent, got, r') := ref_run cap ops r in
  r_queue r ++ sent ≡ₚ got ++ r_queue r' /\
  (forall C, Forall (uniform C) ops -> List.filter C (r_queue r ++ sent) = List.filter C (got ++ r_queue r')).
Proof.
  revert r. induction ops as [|op ops IH]; intros r; cbn [ref_run]; [by rewrite app_nil_r|].
  pose proof (ref_step_keeps cap op r) as H1. destruct (ref_step cap op r) as [[sent1 got1] r1]. destruct H1 as (P1 & F1 & _).
  specialize (IH r1). destruct (ref_run cap ops r1) as [[sent got] r2]. destruct IH as [P2 F2]. split.
  - by rewrite app_assoc, P1, <- !app_assoc, P2.
  - intros C [HC HCs]%list.Forall_cons. specialize (F1 C HC). specialize (F2 C HCs). rewrite app_assoc, filter_app, F1, filter_app, <- app_assoc, <- filter_app, F2.
    by rewrite <- filter_app, app_assoc.
Qed.

(** A message takes at least 72 bytes. *)
Lemma room_for_min m : 0 < m_size m -> 72 <= room_for m.
Proof. intros Hm. unfold room_for, sizeof_message. destruct (PAD8_spec (64 + m_size m)). Z.div_mod_to_equations. lia. Qed.

Lemma ref_step_small cap op r : queue_op_ok op -> cap < 72 -> r_queue r = [] -> Forall (fun m => 0 < m_size m) (r_waiting r) ->
  exists r', ref_step cap op r = ([], [], r') /\ r_queue r' = [] /\ Forall (fun m => 0 < m_size m) (r_waiting r').
Proof.
  intros Hop Hcap Hq Hw. destruct op as [id now lock b m|i|lock timeout t nr]; cbn [ref_step]; rewrite Hq; cbn [used foldr take_first].
  - destruct Hop as (_ & _ & _ & (_ & Hm & _)). pose proof (room_for_min m ltac:(lia)). replace (0 + room_for m <=? cap) with false by lia.
    eexists. split; [done|]. split; [done|]. cbn [r_waiting]. destruct b; [|done]. apply list.Forall_app. split; [done|]. constructor; [cbn; lia|constructor].
  - destruct (r_waiting r !! i) as [m|] eqn:Ei; [|by exists r]. pose proof (room_for_min m (Forall_lookup_1 _ _ _ _ Hw Ei)).
    replace (0 + room_for m <=? cap) with false by lia. by exists r.
  - by exists r.
Qed.

Lemma ref_run_small cap ops r : Forall queue_op_ok ops -> cap < 72 -> r_queue r = [] -> Forall (fun m => 0 < m_size m) (r_waiting r) ->
  let '(sent, _, _) := ref_run cap ops r in sent = [].
Proof.
  intros Hops Hcap. revert r. induction Hops as [|op ops Hop _ IH]; intros r Hq Hw; cbn [ref_run]; [done|].
  destruct (ref_step_small cap op r Hop Hcap Hq Hw) as (r' & -> & Hq' & Hw'). specialize (IH r' Hq' Hw'). destruct (ref_run cap ops r') as [[sent got] r2]. by rewrite IH.
Qed.

(** *** Mappings *)

(** The entry for a number and a name in the section "mappings". *)
Definition mapping_entry (fmt : Z -> list Z) (e : Z * list Z) : list Z * list Z := (str "mappings:" ++ fmt e.1, e.2).

Lemma load_entry_ok parse fmt e : parse (fmt e.1) = Ret (Some e.1) -> e.2 <> [] -> load_entry parse (mapping_entry fmt e) = Ret (Some e.1).
Proof.
  intros Hp Hv. unfold load_entry, mapping_entry. destruct e as [k v]. cbn [fst snd] in *.
  replace (zlen v =? 0) with false by (destruct v as [|x v]; [done|rewrite zlen_cons; pose proof (zlen_nonneg v); lia]).
  unfold behind_colon. change (str "mappings:" ++ fmt k) with (str "mappings" ++ 58 :: fmt k).
  rewrite find_char_app by (by apply str_no_char). exact Hp.
Qed.

Lemma map_insert_lookup `{Countable K} {V} (k i : K) (v : V) m :
  map_insert k v m !! i = match m !! i with Some x => Some x | None => if decide (k = i) then Some v else None end.
Proof.
  unfold map_insert. destruct (m !! k) as [x|] eqn:E.
  - destruct (m !! i) eqn:Ei; [done|]. destruct (decide (k = i)); [congruence|done].
  - destruct (decide (k = i)) as [<-|Hne]; [by rewrite lookup_insert_eq, E|]. rewrite lookup_insert_ne by done. by destruct (m !! i).
Qed.

(** The first entry with a number, and with a name. *)
Definition first_name (w : Z) (es : list (Z * list Z)) (p : Z) : option (list Z) := snd <$> List.find (fun e => wrap w e.1 =? p) es.
Definition first_number (w : Z) (es : list (Z * list Z)) (v : list Z) : option Z := (fun e => wrap w e.1) <$> List.find (fun e => bool_decide (e.2 = v)) es.

Definition or_else {A} (a b : option A) : option A := match a with Some x => Some x | None => b end.

Lemma first_name_step (w : Z) (e : Z * list Z) (es : list (Z * list Z)) (p : Z) (m : gmap Z (list Z)) :
  or_else (map_insert (wrap w e.1) e.2 m !! p) (first_name w es p) = or_else (m !! p) (first_name w (e :: es) p).
Proof.
  rewrite map_insert_lookup. unfold first_name. cbn [List.find]. destruct (m !! p); [done|]. cbn [or_else].
  destruct (decide (wrap w e.1 = p)) as [<-|Hne]; [by rewrite Z.eqb_refl|]. by replace (wrap w e.1 =? p) with false by lia.
Qed.

Lemma first_number_step (w : Z) (e : Z * list Z) (es : list (Z * list Z)) (v : list Z) (m : gmap (list Z) Z) :
  or_else (map_insert e.2 (wrap w e.1) m !! v) (first_number w es v) = or_else (m !! v) (first_number w (e :: es) v).
Proof.
  rewrite map_insert_lookup. unfold first_number. cbn [List.find]. destruct (m !! v); [done|]. cbn [or_else].
  destruct (decide (e.2 = v)) as [<-|Hne]; [by rewrite bool_decide_eq_true_2|]. by rewrite bool_decide_eq_false_2.
Qed.

Section Mappings.
Context (parse : list Z -> outcome (option Z)) (fmt : Z -> list Z).
Context (Hparse : forall k, 0 <= k < 2 ^ 31 -> parse (fmt k) = Ret (Some k)).

Definition mappings_ok (es : list (Z * list Z)) : Prop := Forall (fun e => 0 <= e.1 < 2 ^ 31 /\ e.2 <> []) es.

Lemma load_both_spec w es mi mo : mappings_ok es ->
  exists mi' mo', load_both parse w (map (mapping_entry fmt) es) mi mo = Ret (Some (mi', mo')) /\
    (forall p, mi' !! p = or_else (mi !! p) (first_name w es p)) /\ (forall v, mo' !! v = or_else (mo !! v) (first_number w es v)).
Proof.
  intros Hes. revert mi mo. induction Hes as [|e es [Hk Hv] _ IH]; intros mi mo.
  - exists mi, mo. split; [done|]. split; intros x; [by destruct (mi !! x)|by destruct (mo !! x)].
  - cbn [map load_both]. rewrite (load_entry_ok parse fmt e) by auto. mcbn.
    destruct (IH (map_insert (wrap w e.1) e.2 mi) (map_insert e.2 (wrap w e.1) mo)) as (mi' & mo' & E & Hi & Ho).
    exists mi', mo'. split; [exact E|]. split; intros x; [by rewrite Hi, first_name_step|by rewrite Ho, first_number_step].
Qed.

End Mappings.

Lemma load_single_spec es mi : mappings_ok es ->
  exists mi', load_mappings_single (map (mapping_entry to_string) es) mi = Ret (Some mi') /\
    (forall p, mi' !! p = or_else (mi !! p) (first_name 16 es p)).
Proof.
  intros Hes. revert mi. induction Hes as [|e es [Hk Hv] _ IH]; intros mi.
  - exists mi. split; [done|]. intros x. by destruct (mi !! x).
  - cbn [map load_mappings_single]. rewrite (load_entry_ok my_stoi_dec to_string e) by (done || by apply (number_roundtrip e.1 0)). mcbn.
    destruct (IH (map_insert (u16 e.1) e.2 mi)) as (mi' & E & Hi). exists mi'. split; [exact E|]. intros x. by rewrite Hi, first_name_step.
Qed.

(** Without repetitions and with numbers of the width, the two tables are inverse to each other. *)
Lemma first_inverse w es p v : NoDup es.*1 -> NoDup es.*2 -> Forall (fun e => is_u w e.1) es -> 0 <= w ->
  (first_name w es p = Some v <-> (p, v) ∈ es) /\ (first_number w es v = Some p <-> (p, v) ∈ es).
Proof.
  intros H1 H2 Hw H0. unfold first_name, first_number. induction es as [|[k x] es IH]; cbn [List.find fmap list_fmap option_fmap option_map fst snd].
  - split; (split; [done|intros Hin; by apply not_elem_of_nil in Hin]).
  - change (NoDup (k :: es.*1)) in H1. change (NoDup (x :: es.*2)) in H2. apply list.NoDup_cons in H1 as [N1 H1]. apply list.NoDup_cons in H2 as [N2 H2].
    apply list.Forall_cons in Hw as [Hk Hw]. cbn [fst] in Hk. destruct (IH H1 H2 Hw) as [I1 I2].
    rewrite (wrap_small w k) by done. rewrite elem_of_cons. split.
    + destruct (Z.eqb_spec k p) as [->|Hne]; cbn [fmap option_fmap option_map snd].
      * split; [intros [= ->]; by left|]. intros [[= ->]|Hin]; [done|]. apply (list_elem_of_fmap_2 fst) in Hin. done.
      * rewrite I1. split; [by right|]. intros [[= -> ->]|Hin]; [done|exact Hin].
    + destruct (bool_decide_reflect (x = v)) as [->|Hne]; cbn [fmap option_fmap option_map fst].
      * rewrite (wrap_small w k) by done. split; [intros [= ->]; by left|]. intros [[= ->]|Hin]; [done|]. apply (list_elem_of_fmap_2 snd) in Hin. done.
      * rewrite I2. split; [by right|]. intros [[= -> ->]|Hin]; [done|exact Hin].
Qed.

(** ** Properties *)

(** C19: a queue from its creation.  Whatever object of that name there was before, [create_shm]
    makes a queue that is empty.  From then on threads send, blocking or not,
    blocked senders look again for room, and receivers take the first message there is of
    a type or the reply with a number (or wait, with a time limit, and look again later), in any order. The
    bytes of the segment then hold what the reference [ref_run], on lists of messages, says: a message enters at the end when
    there is room for it, otherwise its sender is refused or waits; a receiver gets the earliest message it wants.
    Every message that entered has come out or is still there, once, with its data followed
    by less than eight bytes; and the messages of a class [C] come out in the order they entered, if no receive wants some
    messages of [C] and not others: those of one type, for receivers that ask by type.  Messages of
    different classes can overtake each other.  A queue of less than 72 bytes, which
    [create_shm] accepts from 64 on, never takes a message.  The system calls of [begin] succeed, the mutex can be
    had, and waiting on the condition variables does not fail. *)
Theorem created_queue_fifo (name : list Z) (size : Z) (sys : sys_results) (existing : list Z) (ops : list queue_op)
  (Hname : zlen name < max_id_length) (Hsize : sizeof_message <= size) (Hbig : size + sizeof_shared_memory < 2 ^ 64)
  (H1 : shm_open_ok sys = true) (H2 : fstat_ok sys = true) (H3 : ftruncate_ok sys = true) (H4 : mmap_ok sys = true)
  (H5 : lock_rc sys <> LockError) (Hops : Forall queue_op_ok ops) :
  exists s, create_shm name size sys existing = Ret (Some s) /\ seg_rep s [] /\ s_total_size s = size /\ s_locked s = false /\
    let '(sent, got, r) := ref_run size ops {| r_queue := []; r_waiting := []; r_nr := s_most_recent s |} in
    exists got' s' q', run_queue ops (s, []) = Ret (sent, got', (s', r_waiting r)) /\
      Forall2 comes_out got got' /\ seg_rep s' q' /\ Forall2 comes_out (r_queue r) q' /\ s_most_recent s' = r_nr r /\
      sent ≡ₚ got ++ r_queue r /\
      (forall C, Forall (uniform C) ops -> List.filter C sent = List.filter C (got ++ r_queue r)) /\
      (size < 72 -> sent = []).
Proof.
  assert (H0 : 0 <= size) by (unfold sizeof_message in *; lia).
  destruct (begin_ok size sys existing H1 H2 H3 H4 H5 H0 Hbig) as (s & E & Hs & Ht & Hl & _).
  exists s. split; [|split; [done|split; [done|split; [done|]]]].
  { unfold create_shm. replace (zlen name >=? max_id_length) with false by lia. replace (size <? sizeof_message) with false by lia.
    replace (zlen name <? max_id_length) with true by lia. mcbn. by rewrite E. }
  set (r0 := {| r_queue := []; r_waiting := []; r_nr := _ |}).
  assert (Hinv : queue_inv size (s, []) r0 []) by (split; cbn; [done|done|done|constructor|split; [done|constructor]]).
  pose proof (run_queue_spec size ops (s, []) r0 [] Hops Hinv) as Hrun.
  pose proof (ref_run_keeps size ops r0) as Hkeep. pose proof (fun H72 => ref_run_small size ops r0 Hops H72 eq_refl (Forall_nil_2 _)) as Hsmall.
  destruct (ref_run size ops r0) as [[sent got] r]. destruct Hrun as (got' & [s' w'] & q' & Er & Hg & [Hq _ Hnr Hqr [Hw _]]).
  cbn [fst snd] in *. subst w'. destruct Hkeep as [Hp Hf]. exists got', s', q'.
  split; [done|]. split; [done|]. split; [done|]. split; [done|]. split; [done|]. split; [exact Hp|]. split; [exact Hf|]. intros H72. by apply Hsmall.
Qed.

(** The tables of a configuration file.  For entries with numbers (decimal, in the link layer
    hexadecimal) and names, a number is mapped to the name of its first entry and a name to the
    number of its first entry, where numbers count modulo 2^16, in the IPv4 server modulo 2^8: larger ones are taken for others.
    If no number or name repeats and all have the width, the two tables of the link layer are inverse to each other, and so are those of
    the IPv4 server. *)
Theorem mappings_loaded (es : list (Z * list Z)) (Hes : mappings_ok es) :
  (exists mi, load_mappings_single (map (mapping_entry to_string) es) ∅ = Ret (Some mi) /\ forall p, mi !! p = first_name 16 es p) /\
  (exists mi mo, load_mappings_duo (map (mapping_entry format_x) es) = Ret (Some (mi, mo)) /\
     (forall p, mi !! p = first_name 16 es p) /\ (forall v, mo !! v = first_number 16 es v) /\
     (NoDup es.*1 -> NoDup es.*2 -> Forall (fun e => is_u 16 e.1) es -> forall p v, mi !! p = Some v <-> mo !! v = Some p)) /\
  (exists mi mo, load_mappings (map (mapping_entry to_string) es) = Ret (Some (mi, mo)) /\
     (forall p, mi !! p = first_name 8 es p) /\ (forall v, mo !! v = first_number 8 es v) /\
     (NoDup es.*1 -> NoDup es.*2 -> Forall (fun e => is_u 8 e.1) es -> forall p v, mi !! p = Some v <-> mo !! v = Some p)).
Proof.
  assert (Hdec : forall k, 0 <= k < 2 ^ 31 -> my_stoi_dec (to_string k) = Ret (Some k)) by (intros k Hk; by apply (number_roundtrip k 0)).
  assert (Hhex : forall k, 0 <= k < 2 ^ 31 -> my_stoi_hex (format_x k) = Ret (Some k)).
  { intros k Hk. rewrite my_stoi_hex_session_id by lia. by replace (2 ^ 31 <=? k) with false by lia. }
  split; [|split].
  - destruct (load_single_spec es ∅ Hes) as (mi & E & Hi). exists mi. split; [exact E|]. intros p. by rewrite Hi, lookup_empty.
  - destruct (load_both_spec my_stoi_hex format_x Hhex 16 es ∅ ∅ Hes) as (mi & mo & E & Hi & Ho). exists mi, mo. setoid_rewrite lookup_empty in Hi. setoid_rewrite lookup_empty in Ho.
    split; [exact E|]. split; [exact Hi|]. split; [exact Ho|]. intros N1 N2 Hw p v. rewrite Hi, Ho. cbn [or_else].
    destruct (first_inverse 16 es p v N1 N2 Hw ltac:(lia)) as [-> ->]. done.
  - destruct (load_both_spec my_stoi_dec to_string Hdec 8 es ∅ ∅ Hes) as (mi & mo & E & Hi & Ho). exists mi, mo. setoid_rewrite lookup_empty in Hi. setoid_rewrite lookup_empty in Ho.
    split; [exact E|]. split; [exact Hi|]. split; [exact Ho|]. intros N1 N2 Hw p v. rewrite Hi, Ho. cbn [or_else].
    destruct (first_inverse 8 es p v N1 N2 Hw ltac:(lia)) as [-> ->]. done.
Qed.

(** ** Examples *)

Definition ex_sys : sys_results := {| shm_open_ok := true; fstat_ok := true; ftruncate_ok := true; mmap_ok := true; lock_rc := LockOwnerDead |}.

(** A queue for three messages; the fourth is refused, the fifth waits until a message has been taken. The third overtakes the second. *)
Definition ex_ops : list queue_op :=
  let send n b := QSend (str "tcp") n LockOk b (ex_message 0) in
  [send 1 false; send 2 true; send 3 false; send 4 false; send 5 true; QWake 0; QReceive LockOk 0 msg_any None; QWake 0; QReceive LockOk 0 msg_new (Some 3)].

Lemma ex_ops_ok : Forall queue_op_ok ex_ops.
Proof. unfold ex_ops. repeat constructor; try discriminate. Qed.

Lemma created_queue_fifo_witness :
  exists s, create_shm (str "ip4") 223 ex_sys (repeat 7 100) = Ret (Some s) /\
    exists sent got s', run_queue ex_ops (s, []) = Ret (sent, got, (s', [])) /\ map m_sent_at sent = [1; 2; 3; 5] /\ map m_sent_at got = [1; 3].
Proof.
  destruct (created_queue_fifo (str "ip4") 223 ex_sys (repeat 7 100) ex_ops) as (s & E & _ & _ & _ & Hr).
  - reflexivity.
  - unfold sizeof_message. lia.
  - reflexivity.
  - reflexivity.
  - reflexivity.
  - reflexivity.
  - reflexivity.
  - discriminate.
  - exact ex_ops_ok.
  - exists s. split; [exact E|]. vm_compute in E. injection E as <-.
    match type of Hr with context [ref_run ?a ?b ?c] => set (x := ref_run a b c) in Hr; vm_compute in x end.
    subst x. destruct Hr as (got' & s' & q' & Er & Hg & _).
    eexists _, got', s'. split; [exact Er|]. split; [reflexivity|].
    vm_compute in Er. injection Er as <- _. reflexivity.
Defined.

Definition ex_mappings : list (Z * list Z) := [(0x800, str "ip4"); (0x806, str "arp"); (0x10800, str "other")].

Lemma mappings_loaded_witness :
  exists mi mo, load_mappings_duo [(str "mappings:800", str "ip4"); (str "mappings:806", str "arp"); (str "mappings:10800", str "other")] = Ret (Some (mi, mo)) /\
    mi !! 0x800 = Some (str "ip4") /\ mo !! str "other" = Some 0x800.
Proof.
  destruct (mappings_loaded ex_mappings) as (_ & (mi & mo & E & Hi & Ho & _) & _).
  - unfold mappings_ok, ex_mappings. repeat constructor; cbn; (lia || discriminate).
  - exists mi, mo. split; [exact E|]. rewrite Hi, Ho. split; vm_compute; reflexivity.
Defined.
