(* ===== verification/Transport.v ===== *)
(** * The interface between the servers and the message queues

    A server sends through [shm_message_queue::send_message].  [Transport]
    states what the servers rely on: a send either hands the message over to
    the named queue or fails, and the log of messages handed over grows by
    exactly that message.  The handlers are defined and verified against this
    class; [shm_transport] implements it with the segments of [Shm], and
    [oracle_transport] with a scripted sequence of results (any behaviour of
    the other processes). *)

From S2P Require Import Prelude ShmMessage Shm.

(** A message handed over: destination, id, type, number of the request it
    replies to, data. *)
Record sent := {
  sent_to : list Z;
  sent_id : Z;
  sent_type : Z;
  sent_reply_nr : option Z;
  sent_data : list Z }.

Definition sent_of (dst : list Z) (m : message) : sent :=
  {| sent_to := dst; sent_id := m_id m; sent_type := m_type m;
     sent_reply_nr := if m_type m =? msg_reply then Some (m_msg_nr m) else None;
     sent_data := m_data m |}.

Class Transport (W : Type) := {
  (** [send_message(dst, m, blocking)]: the result and [m->msg_nr] afterwards. *)
  t_send : list Z -> message -> bool -> W -> (bool * Z) * W;
  t_log : W -> list sent;
  t_send_log : forall dst m blocking w,
    t_log (t_send dst m blocking w).2 =
    t_log w ++ (if (t_send dst m blocking w).1.1 then [sent_of dst m] else []) }.

(** A send as the handlers perform it: an empty message fails the assertion in
    [send_message]. *)
Definition send `{Transport W} (dst : list Z) (m : message) (blocking : bool) : prog W (bool * Z) := fun w =>
  if m_size m >? 0 then Ret (t_send dst m blocking w) else Fault AssertFailed.

Lemma send_ok `{Transport W} dst m blocking w :
  0 < m_size m -> send dst m blocking w = Ret (t_send dst m blocking w).
Proof. intros Hm. unfold send. by replace (m_size m >? 0) with true by lia. Qed.

(** The last use of a send's result: only the log matters. *)
Lemma send_log `{Transport W} dst m blocking w r w' :
  send dst m blocking w = Ret (r, w') ->
  t_log w' = t_log w ++ (if r.1 then [sent_of dst m] else []).
Proof.
  unfold send. destruct (m_size m >? 0); [|done]. intros [= E].
  pose proof (t_send_log dst m blocking w) as Hl. by rewrite E in Hl.
Qed.

(** The world after a non-blocking send. *)
Definition after_send `{Transport W} (dst : list Z) (m : message) (w : W) : W := (t_send dst m false w).2.

(** ... and whether it succeeded. *)
Definition send_ok_b `{Transport W} (dst : list Z) (m : message) (w : W) : bool := (t_send dst m false w).1.1.

Lemma send_after `{Transport W} {A} dst m (k : bool * Z -> prog W A) w :
  0 < m_size m ->
  (r ← send dst m false; k r) w = k (t_send dst m false w).1 (after_send dst m w).
Proof.
  intros Hm. unfold mbind, prog_bind. rewrite send_ok by done. unfold after_send.
  by destruct (t_send dst m false w).
Qed.

Lemma after_send_log `{Transport W} dst m w :
  t_log (after_send dst m w) = t_log w ++ (if send_ok_b dst m w then [sent_of dst m] else []).
Proof. apply t_send_log. Qed.

(** Sends until the first one fails. *)
Fixpoint send_until `{Transport W} (dst : list Z) (ms : list message) (w : W) : W :=
  match ms with
  | [] => w
  | m :: r => if send_ok_b dst m w then send_until dst r (after_send dst m w) else after_send dst m w
  end.

(** A non-empty message built by [message_of]. *)
Lemma message_of_size d r : 0 < zlen d < 2 ^ 32 -> m_size (message_of d r) = zlen d.
Proof.
  intros Hd. destruct r; cbn [message_of fill_message allocate_shm_message m_size];
    apply wrap_small; unfold is_u; lia.
Qed.

Lemma m_id_message_of d r : m_id (message_of d r) = 0.
Proof. by destruct r. Qed.

Lemma sent_of_new dst d : sent_of dst (message_of d None) =
  {| sent_to := dst; sent_id := 0; sent_type := msg_new; sent_reply_nr := None; sent_data := d |}.
Proof. done. Qed.

Lemma zlen_down_data from to pl :
  zlen (down_data from to pl) = 28 + zlen from + zlen to + zlen pl.
Proof. unfold down_data, sz. autorewrite with zlen. lia. Qed.

Lemma zlen_up_data full from to pl :
  zlen (up_data full from to pl) = 36 + zlen from + zlen to + zlen pl + zlen full.
Proof. unfold up_data, sz. autorewrite with zlen. lia. Qed.

(** A message carrying a payload of moderate size is not empty. *)
Lemma down_message_size from to pl r :
  zlen from + zlen to + zlen pl < 2 ^ 31 -> 0 < m_size (message_of (down_data from to pl) r).
Proof.
  intros H. pose proof (zlen_nonneg from). pose proof (zlen_nonneg to). pose proof (zlen_nonneg pl).
  rewrite message_of_size; rewrite zlen_down_data; lia.
Qed.

Lemma up_message_size full from to pl r :
  zlen from + zlen to + zlen pl + zlen full < 2 ^ 31 ->
  0 < m_size (message_of (up_data full from to pl) r).
Proof.
  intros H. pose proof (zlen_nonneg from). pose proof (zlen_nonneg to). pose proof (zlen_nonneg pl).
  pose proof (zlen_nonneg full). rewrite message_of_size; rewrite zlen_up_data; lia.
Qed.

(** ** Running a handler

    [runs E m Q]: whatever the results of its sends, [m] returns, its result
    satisfies [Q], and every message it hands over satisfies [E]. *)
Definition runs `{Transport W} {A} (E : sent -> Prop) (m : prog W A) (Q : A -> Prop) : Prop :=
  forall w, exists a w' l, m w = Ret (a, w') /\ t_log w' = t_log w ++ l /\ Forall E l /\ Q a.

Lemma runs_ret `{Transport W} {A} E (a : A) (Q : A -> Prop) : Q a -> runs E (mret a) Q.
Proof. intros HQ w. exists a, w, []. rewrite app_nil_r. by repeat split. Qed.

Lemma runs_bind `{Transport W} {A B} E (m : prog W A) (k : A -> prog W B) (P : A -> Prop) (Q : B -> Prop) :
  runs E m P -> (forall a, P a -> runs E (k a) Q) -> runs E (x ← m; k x) Q.
Proof.
  intros Hm Hk w. destruct (Hm w) as (a & w1 & l1 & E1 & L1 & F1 & HP).
  destruct (Hk a HP w1) as (b & w2 & l2 & E2 & L2 & F2 & HQ).
  exists b, w2, (l1 ++ l2). rewrite (prog_bind_step _ _ _ _ _ E1), E2, L2, L1, app_assoc.
  repeat split; [|done]. by apply Forall_app.
Qed.

Lemma runs_lift `{Transport W} {A B} E (m : outcome A) a (k : A -> prog W B) (Q : B -> Prop) :
  m = Ret a -> runs E (k a) Q -> runs E (x ← lift m; k x) Q.
Proof. intros Hm Hk w. rewrite (lift_bind m k w a Hm). apply Hk. Qed.

Lemma runs_mono `{Transport W} {A} E E' (m : prog W A) (P Q : A -> Prop) :
  (forall x, E x -> E' x) -> (forall a, P a -> Q a) -> runs E m P -> runs E' m Q.
Proof.
  intros HE HPQ Hm w. destruct (Hm w) as (a & w' & l & E1 & L & F & HP).
  exists a, w', l. repeat split; auto. by eapply Forall_impl.
Qed.

Lemma runs_send `{Transport W} E dst m (Q : bool * Z -> Prop) :
  0 < m_size m -> E (sent_of dst m) -> (forall r, Q r) -> runs E (send dst m false) Q.
Proof.
  intros Hm HE HQ w. rewrite send_ok by done. destruct (t_send dst m false w) as [r w'] eqn:Er.
  pose proof (t_send_log dst m false w) as Hl. rewrite Er in Hl. cbn in Hl.
  exists r, w', (if r.1 then [sent_of dst m] else []). repeat split; [done| |auto].
  destruct r.1; by repeat constructor.
Qed.

(** ** Scripted transport: the results of the sends are given in advance, and
    sends succeed when the script is used up. *)
Record oracle := { o_script : list bool; o_next_nr : Z; o_log : list sent }.

Definition oracle_send (dst : list Z) (m : message) (blocking : bool) (w : oracle) : (bool * Z) * oracle :=
  let ok := match o_script w with b :: _ => b | [] => true end in
  let nr := if m_type m =? msg_reply then m_msg_nr m else o_next_nr w in
  ((ok, nr), {| o_script := tail (o_script w); o_next_nr := o_next_nr w + 1;
                o_log := o_log w ++ (if ok then [sent_of dst m] else []) |}).

#[export] Instance oracle_transport : Transport oracle := {|
  t_send := oracle_send; t_log := o_log; t_send_log := fun dst m blocking w => eq_refl |}.

Definition oracle_ok : oracle := {| o_script := []; o_next_nr := 1; o_log := [] |}.

(** ** Shared-memory transport: the segments of all servers, seen by the server
    named [sw_name].  Sends that block are given no wake-up. *)
Record shm_world := {
  sw_name : list Z;
  sw_now : Z;
  sw_segments : gmap (list Z) segment;
  sw_log : list sent }.

Definition shm_send (dst : list Z) (m : message) (blocking : bool) (w : shm_world) : (bool * Z) * shm_world :=
  match send_message (sw_name w) (sw_now w) LockOk blocking [] m (sw_segments w !! dst) with
  | Ret (Some ok, m', Some s') =>
      ((ok, m_msg_nr m'),
       {| sw_name := sw_name w; sw_now := sw_now w; sw_segments := <[dst := s']> (sw_segments w);
          sw_log := sw_log w ++ (if ok then [sent_of dst m] else []) |})
  | _ => ((false, m_msg_nr m), w)
  end.

Lemma shm_send_log dst m blocking w :
  sw_log (shm_send dst m blocking w).2 =
  sw_log w ++ (if (shm_send dst m blocking w).1.1 then [sent_of dst m] else []).
Proof.
  unfold shm_send.
  destruct (send_message _ _ _ _ _ _ _) as [[[[ok|] m'] [s'|]]|]; cbn; by rewrite ?app_nil_r.
Qed.

#[export] Instance shm_transport : Transport shm_world := {|
  t_send := shm_send; t_log := sw_log; t_send_log := shm_send_log |}.

(** Every segment of the world stores some queue. *)
Definition world_rep (w : shm_world) (qs : gmap (list Z) (list message)) : Prop :=
  zlen (sw_name w) < max_id_length /\ is_u 64 (sw_now w) /\
  forall name, match sw_segments w !! name, qs !! name with
               | Some s, Some q => seg_rep s q
               | None, None => True
               | _, _ => False
               end.

Definition fits_queue (w : shm_world) (dst : list Z) (m : message) : bool :=
  match sw_segments w !! dst with
  | Some s => s_filled s + PAD8 (sizeof_message + m_size m) <=? s_total_size s
  | None => false
  end.

(** ** Properties *)

(** C25: over the shared-memory segments a non-blocking [send] does what the
    servers rely on: when the destination exists and has room the call returns
    true and the message (its data intact, padded) is the last of the
    destination's queue; otherwise it returns false.  In both cases all other
    queues, and the order within the destination's, are unchanged, and every
    segment still stores a queue. *)
Theorem shm_send_delivers (w : shm_world) (qs : gmap (list Z) (list message)) (dst : list Z) (m : message)
  (Hw : world_rep w qs) (Hm : sendable m) :
  exists nr w', send dst m false w = Ret ((fits_queue w dst m, nr), w') /\
    if fits_queue w dst m then
      exists q slot, qs !! dst = Some q /\ world_rep w' (<[dst := q ++ [slot]]> qs) /\
        m_type slot = m_type m /\ m_size slot = m_size m /\ m_id slot = m_id m /\
        exists pad, zlen pad < 8 /\ m_data slot = m_data m ++ pad
    else world_rep w' qs.
Proof.
  destruct Hw as (Hname & Hnow & Hsegs). pose proof Hm as (_ & Hsz & _).
  rewrite send_ok by lia. cbn [t_send shm_transport]. unfold shm_send, fits_queue.
  pose proof (Hsegs dst) as Hd. destruct (sw_segments w !! dst) as [s|] eqn:Es.
  2: { unfold send_message. replace (m_size m >? 0) with true by lia. cbn.
       eexists _, _. split; [reflexivity|]. exact (conj Hname (conj Hnow Hsegs)). }
  destruct (qs !! dst) as [q|] eqn:Eq; [|done].
  destruct (send_message_spec s q m (sw_name w) (sw_now w) LockOk [] Hd Hm Hname Hnow ltac:(done))
    as (s' & Hs & _ & _ & _ & Hr). rewrite Hs.
  eexists _, _. split; [reflexivity|].
  destruct (_ <=? _).
  - destruct Hr as (pad & Hpad & Hr). eexists q, _. split; [done|]. split.
    + split; [done|]. split; [done|]. intros name. cbn [sw_segments].
      destruct (decide (name = dst)) as [->|Hne].
      * rewrite !lookup_insert_eq. exact Hr.
      * rewrite !lookup_insert_ne by done. apply Hsegs.
    + repeat (split; [done|]). by exists pad.
  - split; [done|]. split; [done|]. intros name. cbn [sw_segments].
    destruct (decide (name = dst)) as [->|Hne].
    + by rewrite lookup_insert_eq, Eq.
    + rewrite lookup_insert_ne by done. apply Hsegs.
Qed.

Definition ex_world : shm_world :=
  {| sw_name := [98]; sw_now := 5; sw_segments := {[ [97] := ex_segment ]}; sw_log := [] |}.

Lemma ex_world_rep : world_rep ex_world {[ [97] := [ex_slot 1] ]}.
Proof.
  split; [reflexivity|]. split; [unfold is_u; cbn; lia|]. intros name. cbn [ex_world sw_segments].
  destruct (decide (name = [97])) as [->|Hne].
  - rewrite !lookup_singleton_eq. exact ex_segment_rep.
  - by rewrite !lookup_singleton_ne by done.
Qed.

Lemma ex_message_sendable n : is_u 64 n -> sendable (ex_message n).
Proof. intros Hn. unfold sendable, is_u in *. cbn. unfold msg_new. repeat split; try lia; reflexivity. Qed.

Lemma shm_send_delivers_witness :
  exists nr w', send [97] (ex_message 0) false ex_world = Ret ((true, nr), w') /\
    exists q slot, ({[ [97] := [ex_slot 1] ]} : gmap (list Z) (list message)) !! [97] = Some q /\
      world_rep w' (<[ [97] := q ++ [slot] ]> {[ [97] := [ex_slot 1] ]}) /\
      m_type slot = msg_new /\ m_size slot = 5 /\ m_id slot = 0 /\
      exists pad, zlen pad < 8 /\ m_data slot = [1; 2; 3; 4; 5] ++ pad.
Proof.
  apply (shm_send_delivers ex_world {[ [97] := [ex_slot 1] ]} [97] (ex_message 0)).
  - exact ex_world_rep.
  - apply ex_message_sendable. unfold is_u. lia.
Defined.
