(* ===== verification/Queues.v ===== *)
(** * Shared-memory segments as the queues of several processes

    The segments of [Shm] by name, as the transport of a process ([net]): what a send does to the queue of its
    destination.  Used by [System] (the running servers) and [Exchange] (their start). *)

From S2P Require Import Prelude ShmMessage Shm Transport.

(** ** Code *)

(** The shared-memory segments, as one thread sends into them. *)
Record net := {
  n_ident : list Z -> list Z;
  n_now : Z;
  n_segs : gmap (list Z) segment;
  n_log : list sent }.

Definition net_send (dst : list Z) (m : message) (blocking : bool) (w : net) : (bool * Z) * net :=
  match send_message (n_ident w dst) (n_now w) LockOk blocking [] m (n_segs w !! dst) with
  | Ret (Some ok, m', Some s') =>
      ((ok, m_msg_nr m'),
       {| n_ident := n_ident w; n_now := n_now w; n_segs := <[dst := s']> (n_segs w);
          n_log := n_log w ++ (if ok then [sent_of dst m] else []) |})
  | _ => ((false, m_msg_nr m), w)
  end.

Lemma net_send_log dst m blocking w :
  n_log (net_send dst m blocking w).2 = n_log w ++ (if (net_send dst m blocking w).1.1 then [sent_of dst m] else []).
Proof.
  unfold net_send. destruct (send_message _ _ _ _ _ _ _) as [[[[ok|] m'] [s'|]]|]; cbn; by rewrite ?app_nil_r.
Qed.

#[export] Instance net_transport : Transport net := {|
  t_send := net_send; t_log := n_log; t_send_log := net_send_log |}.

(** ** Specification: one queue for each reader *)

Section Queues.
Context {T : Type} `{EqDecision T} (name : T -> list Z).

Definition hold (cap : T -> Z) (q : T -> list message) (segs : gmap (list Z) segment) : Prop :=
  forall t, exists s, segs !! name t = Some s /\ seg_rep s (q t) /\ s_total_size s = cap t.

Definition nothing : T -> list message := fun _ => [].
Definition upd (q : T -> list message) (t : T) (l : list message) : T -> list message := fun t' => if decide (t' = t) then l else q t'.

(** Names as [create_shm] accepts them. *)
Definition id_ok (id : list Z) : Prop := zlen id < max_id_length /\ 0 ∉ id.

(** A queue for each reader. *)
Definition names_good : Prop := (forall t1 t2, name t1 = name t2 -> t1 = t2) /\ (forall t, id_ok (name t)).

(** ** Lemmas *)

Lemma upd_eq q t l : upd q t l t = l.
Proof. unfold upd. by rewrite decide_True. Qed.

Lemma upd_ne q t l t' : t' <> t -> upd q t l t' = q t'.
Proof. intros. unfold upd. by rewrite decide_False. Qed.

Lemma hold_ext cap q q' segs : (forall t, q t = q' t) -> hold cap q segs -> hold cap q' segs.
Proof. intros E H t. destruct (H t) as (s & ? & ? & ?). exists s. by rewrite <- E. Qed.

Lemma hold_set cap q segs t s l :
  names_good -> hold cap q segs -> seg_rep s l -> s_total_size s = cap t ->
  hold cap (upd q t l) (<[name t := s]> segs).
Proof.
  intros [Hinj _] Hq Hs Ht t'. destruct (decide (t' = t)) as [->|Hne].
  - exists s. by rewrite lookup_insert_eq, upd_eq.
  - destruct (Hq t') as (s' & E & ?). exists s'. rewrite upd_ne by done. rewrite lookup_insert_ne; [done|]. intros E'. by apply Hne, Hinj.
Qed.

Lemma hold_slot cap q segs t m : hold cap q segs -> m ∈ q t -> slot m.
Proof. intros Hq Hm. destruct (Hq t) as (s & _ & (fr & _ & _ & _ & Hs) & _). by eapply list.Forall_forall. Qed.

(** Names from a list of all readers. *)
Lemma names_good_bool ts : (forall t, t ∈ ts) -> NoDup (name <$> ts) ->
  forallb (fun t => (zlen (name t) <? max_id_length) && negb (bool_decide (0 ∈ name t))) ts = true -> names_good.
Proof.
  intros Hin Hnd Hall. split.
  - intros t1 t2 E. destruct (list_elem_of_lookup_1 _ _ (Hin t1)) as (i & Hi). destruct (list_elem_of_lookup_1 _ _ (Hin t2)) as (j & Hj).
    assert (i = j) as ->; [|congruence]. eapply (NoDup_lookup _ i j (name t1) Hnd); rewrite list_lookup_fmap; [by rewrite Hi|by rewrite Hj, E].
  - intros t. rewrite forallb_forall in Hall. specialize (Hall t (proj1 (list_elem_of_In _ _) (Hin t))).
    apply andb_prop in Hall as [H1 H2]. split; [lia|]. apply negb_true_iff, bool_decide_eq_false_1 in H2. done.
Qed.

(** Segments without messages. *)
Definition empty_segment (size : Z) : segment :=
  {| s_total_size := size; s_filled := 0; s_most_recent := 0; s_data := zeros size; s_locked := false |}.

Definition new_segs (ts : list T) (cap : T -> Z) : gmap (list Z) segment := list_to_map ((fun t => (name t, empty_segment (cap t))) <$> ts).

Lemma new_hold ts cap : (forall t, t ∈ ts) -> NoDup (name <$> ts) -> (forall t, 0 <= cap t) -> hold cap nothing (new_segs ts cap).
Proof.
  intros Hin Hnd Hcap t. exists (empty_segment (cap t)). split; [|split; [|done]].
  - apply elem_of_list_to_map; [by rewrite <- list_fmap_compose|]. apply list_elem_of_fmap. by exists t.
  - exists (zeros (cap t)). cbn. split; [done|]. split; [done|]. split; [by apply zlen_zeros|constructor].
Qed.

End Queues.

(** A message that came through a queue: what was sent, from whom, its data followed by padding. *)
Record arrived (id : list Z) (m0 m : message) : Prop := {
  ar_sender : sender_of m = id;
  ar_type : m_type m = m_type m0;
  ar_size : m_size m = m_size m0;
  ar_data : exists pad, m_data m = m_data m0 ++ pad;
  ar_nr : m_type m0 = msg_reply -> m_msg_nr m = m_msg_nr m0 }.

Lemma c_str_zeros n : c_str (zeros n) = [].
Proof. unfold zeros. by destruct (Z.to_nat n). Qed.

Lemma arrived_slot id now nr m pad : 0 ∉ id -> (m_type m = msg_reply -> nr = m_msg_nr m) ->
  arrived id m (padded (stamp id now nr m) pad).
Proof.
  intros Hid Hnr. split; try done.
  - unfold sender_of. cbn [padded stamp m_sender]. by rewrite c_str_app, c_str_zeros, app_nil_r.
  - by exists pad.
Qed.

(** The worlds handlers run in. *)
Definition net_good {T} (name : T -> list Z) (cap : T -> Z) (q : T -> list message) (w : net) : Prop :=
  names_good name /\ (forall dst, id_ok (n_ident w dst)) /\ is_u 64 (n_now w) /\ hold name cap q (n_segs w).

(** A send: into a queue with room, or without. *)
Lemma net_send_turn {T} `{EqDecision T} (name : T -> list Z) cap q w t m b :
  net_good name cap q w -> sendable m ->
  let room := zlen (encs (q t)) + PAD8 (sizeof_message + m_size m) <=? cap t in
  exists s, n_segs w !! name t = Some s /\
  let nr := if m_type m =? msg_reply then m_msg_nr m else u64 (s_most_recent s + 1) in
  exists w', net_send (name t) m b w = ((room, if room || negb b then nr else m_msg_nr m), w') /\ n_ident w' = n_ident w /\ n_now w' = n_now w /\
    if room then exists m' s', net_good name cap (upd q t (q t ++ [m'])) w' /\
      arrived (n_ident w (name t)) m m' /\ m_msg_nr m' = nr /\ zlen (enc m') = PAD8 (sizeof_message + m_size m) /\
      n_segs w' !! name t = Some s' /\ (m_type m <> msg_reply -> s_most_recent s' = nr)
    else net_good name cap q w'.
Proof.
  intros (Hn & Hid & Hnow & Hq) Hm room. destruct (Hq t) as (s & Es & Hs & Ht). exists s. split; [done|]. intros nr.
  destruct (Hid (name t)) as [Hil Hi0]. set (id := n_ident w (name t)) in *.
  destruct (send_message_turn b s (q t) m id (n_now w) LockOk [] Hs Hm Hil Hnow ltac:(done) ltac:(done)) as (s' & E & _ & Htot & Hmr & Hr).
  cbn zeta in E, Hmr, Hr. fold nr in E, Hmr, Hr. destruct Hs as (fr & Hs1 & Hs2 & Hs3 & Hs4).
  replace (s_filled s + PAD8 (sizeof_message + m_size m) <=? s_total_size s) with room in E, Hr by (unfold room; by rewrite Hs2, Ht).
  unfold net_send. fold id. rewrite Es, E. cbn [stamp m_msg_nr]. destruct room; cbn [send_rc].
  - eexists. split; [reflexivity|]. cbn [n_ident n_now n_segs]. split; [done|]. split; [done|].
    destruct Hr as (pad & Hpad & Hr). exists (padded (stamp id (n_now w) nr m) pad), s'. split.
    { split; [done|]. split; [done|]. split; [done|]. apply hold_set; [done..|congruence]. }
    split. { apply arrived_slot; [done|]. intros Er. unfold nr. by rewrite Er. }
    split; [done|]. split.
    { destruct Hr as (fr' & _ & _ & _ & Hsl). apply list.Forall_app in Hsl as [_ [Hsl _]%list.Forall_cons]. by rewrite zlen_enc. }
    split; [by rewrite lookup_insert_eq|]. intros Hne. rewrite Hmr. by replace (m_type m =? msg_reply) with false by lia.
  - destruct b; (eexists; split; [reflexivity|]; cbn [n_ident n_now n_segs]; split; [done|]; split; [done|];
      split; [done|split; [done|split; [done|]]]); [done|].
    intros t'. cbn [n_segs]. destruct (decide (t' = t)) as [->|Hne].
    + exists s'. rewrite lookup_insert_eq. split; [done|]. split; [done|]. congruence.
    + destruct (Hq t') as (s'' & E'' & ?). exists s''. rewrite lookup_insert_ne; [done|]. intros E3. by apply Hne, (proj1 Hn).
Qed.

(** Messages the servers build. *)
Lemma sendable_of d r : 0 < zlen d < 2 ^ 32 -> match r with Some nr => is_u 64 nr | None => True end -> sendable (message_of d r).
Proof.
  intros Hd Hr. unfold sendable. rewrite message_of_size, m_data_message_of by done.
  unfold is_u in *. destruct r; cbn; unfold msg_new, msg_reply; repeat split; lia.
Qed.

Lemma sendable_id m id : sendable m -> is_u 64 id -> sendable (with_id m id).
Proof. intros (_ & H) Hid. exact (conj Hid H). Qed.

Lemma sendable_fill d type nr : 0 < zlen d < 2 ^ 32 -> is_u 32 type -> is_u 64 nr ->
  sendable (fill_message (allocate_shm_message (zlen d)) type nr d).
Proof.
  intros Hd Ht Hr. unfold sendable. cbn [fill_message allocate_shm_message m_id m_size m_type m_msg_nr m_data].
  rewrite wrap_small by (unfold is_u; lia). unfold is_u in *. repeat split; lia.
Qed.

Lemma fill_size d type nr : 0 <= zlen d < 2 ^ 32 -> m_size (fill_message (allocate_shm_message (zlen d)) type nr d) = zlen d.
Proof. intros Hd. cbn [fill_message allocate_shm_message m_size]. apply wrap_small. exact Hd. Qed.

Lemma PAD8_le x : PAD8 x <= x + 7.
Proof. pose proof (PAD8_spec x). lia. Qed.
