(* ===== verification/Icmp.v ===== *)
(** * The ICMP server: [src/icmp_server.cpp]

    [run_in] answers echo requests, [run_err] turns an error notification of
    another server into an ICMP error message.  Each definition is the body of
    the server's loop for one received message; [send_icmp_error] is the
    helper with which the IP, UDP and TCP servers produce the notification. *)

From S2P Require Import Prelude Net Checksum Addr ShmMessage Transport.

Section Icmp.
Context `{Transport W}.

(** ** Code *)

(** [send_icmp_error(shm, icmp_error_name, type, code, payload, to, me)] *)
Definition send_icmp_error (icmp_error_name : list Z) (type code : Z) (payload : list Z) (payload_len : Z)
  (to me : addr) : prog W unit :=
  let extra_data := [u8 type; u8 code] in
  wrapped ← lift (wrap_message_up payload_len payload (zlen me) me (zlen to) to 2 extra_data None);
  _ ← send icmp_error_name wrapped false;
  mret tt.

(** The IPv4 server has the same function; so has the TCP server, which does not call it. *)
Definition ip4_send_icmp_error := send_icmp_error.

(** The reply to an echo request: type, code and checksum rewritten. *)
Definition echo_reply (pl : list Z) (pl_len : Z) : outcome (list Z) :=
  reply ← rdn pl 0 pl_len;
  reply ← wr reply 0 [0];
  reply ← wr reply 1 [0];
  reply ← wr reply 2 [0];
  reply ← wr reply 3 [0];
  checksum_reply ← ip_checksum reply pl_len;
  store16 reply 2 checksum_reply.

(** Body of [run_in]. The age of the request is only logged; the read of its
    time stamp is kept. *)
Definition icmp_run_in (out_name : list Z) (m : message) : prog W unit :=
  v ← lift (unwrap_message_up m);
  let pl := u_pl v in
  let pl_len := u_pl_len v in
  if pl_len <? 8 then mret tt else
  type ← lift (rd pl 0);
  code ← lift (rd pl 1);
  checksum ← lift (ip_checksum pl pl_len);
  if negb (checksum =? 0) then mret tt else
  if (type =? 8) && (code =? 0) then
    from_ip4 ← lift (addr_of_data (u_from v) (u_from_len v));
    _ ← lift (if pl_len >=? 24 then rdn pl 8 16 else Ret []);
    reply ← lift (echo_reply pl pl_len);
    wrapped ← lift (wrap_message_down (u_to_len v) (u_to v) (u_from_len v) (u_from v) pl_len reply None);
    _ ← send out_name wrapped false;
    mret tt
  else mret tt.

(** The ICMP message for an error notification: eight bytes of header and the
    IP header plus 64 bits of the offending packet.  [pl] is read at index 2,
    one past its two bytes: that is the first byte of the full packet. *)
Definition icmp_error_message (pl full_pkt : list Z) (full_pkt_len : Z) : outcome (list Z) :=
  type ← rd pl 0;
  code ← rd pl 1;
  b ← rd pl 2;
  let ip_header_size := Z.land b 15 * 4 in
  let copy_n := Z.min full_pkt_len (ip_header_size + 64 / 8) in
  let icmp_message_size := 8 + copy_n in
  m_out ← wr (zeros icmp_message_size) 0 [type];
  m_out ← wr m_out 1 [code];
  bs ← rdn full_pkt 0 copy_n;
  m_out ← wr m_out 8 bs;
  checksum_msg ← ip_checksum m_out icmp_message_size;
  store16 m_out 2 checksum_msg.

(** Body of [run_err]. *)
Definition icmp_run_err (out_name : list Z) (m_in : message) : prog W unit :=
  v ← lift (unwrap_message_up m_in);
  if u_full_pkt_len v <? 20 then mret tt else
  m_out ← lift (icmp_error_message (u_pl v) (u_full_pkt v) (u_full_pkt_len v));
  wrapped ← lift (wrap_message_down (u_from_len v) (u_from v) (u_to_len v) (u_to v) (zlen m_out) m_out None);
  _ ← send out_name wrapped false;
  mret tt.

(** ** Lemmas *)

(** The echo reply: same length, type and code zero, a valid checksum, and
    everything from the identifier on unchanged. *)
Lemma echo_reply_spec pl rest :
  bytes pl -> 8 <= zlen pl <= 131070 ->
  exists reply, echo_reply (pl ++ rest) (zlen pl) = Ret reply /\ zlen reply = zlen pl /\
    bytes reply /\ take 2 reply = [0; 0] /\ drop 4 reply = drop 4 pl /\
    ip_checksum reply (zlen reply) = Ret 0.
Proof.
  intros Hb Hl. unfold echo_reply. rewrite rdn_app_l by done. mcbn.
  destruct pl as [|b0 [|b1 [|b2 [|b3 r]]]]; try solve [zl].
  rewrite !zlen_cons in Hl. pose proof (zlen_nonneg r).
  rewrite wr_ok by zlc. mcbn.
  change (splice (b0 :: b1 :: b2 :: b3 :: r) 0 [0]) with (0 :: b1 :: b2 :: b3 :: r).
  rewrite wr_ok by zlc. mcbn.
  change (splice (0 :: b1 :: b2 :: b3 :: r) 1 [0]) with (0 :: 0 :: b2 :: b3 :: r).
  rewrite wr_ok by zlc. mcbn.
  change (splice (0 :: 0 :: b2 :: b3 :: r) 2 [0]) with (0 :: 0 :: 0 :: b3 :: r).
  rewrite wr_ok by zlc. mcbn.
  change (splice (0 :: 0 :: 0 :: b3 :: r) 3 [0]) with (0 :: 0 :: 0 :: 0 :: r).
  set (z := 0 :: 0 :: 0 :: 0 :: r).
  assert (Hz : zlen (b0 :: b1 :: b2 :: b3 :: r) = zlen z) by done. rewrite Hz.
  assert (Hzl : zlen z = 4 + zlen r) by (unfold z; rewrite !zlen_cons; lia).
  assert (Hzb : bytes z).
  { unfold z. rewrite !bytes_cons in *. unfold is_byte in *. repeat split; try lia. tauto. }
  rewrite ip_checksum_spec by (done || lia). mcbn.
  set (c := 65535 - norm (zsum (words16 z))).
  rewrite store16_ok by lia. eexists. split; [reflexivity|].
  assert (Hs : zlen (splice z 2 (be16 c)) = zlen z) by (apply zlen_splice; rewrite ?zlen_be16; lia).
  split; [done|]. split; [auto with myip|]. split; [done|]. split; [done|].
  rewrite Hs. apply (ip_checksum_fill_aux z 2 c); try done; try lia.
  rewrite ip_checksum_spec by (done || lia). done.
Qed.

(** A valid echo request. *)
Definition echo_request (pl : list Z) : bool :=
  (8 <=? zlen pl) && bool_decide (ip_checksum pl (zlen pl) = Ret 0)
  && bool_decide (take 2 pl = [8; 0]).

Lemma echo_request_head pl rest a b :
  rd (pl ++ rest) 0 = Ret a -> rd (pl ++ rest) 1 = Ret b -> 2 <= zlen pl ->
  bool_decide (take 2 pl = [8; 0]) = (a =? 8) && (b =? 0).
Proof.
  destruct pl as [|x [|y pl]]; intros Ha Hb Hl; [zl|zl|].
  assert (x = a) as -> by (rewrite (rd_ok _ 0 x) in Ha by done; congruence).
  assert (y = b) as -> by (rewrite (rd_ok _ 1 y) in Hb by done; congruence).
  change (take 2 (a :: b :: pl)) with [a; b]. destruct (Z.eqb_spec a 8), (Z.eqb_spec b 0); cbn [andb];
    first [apply bool_decide_eq_true_2; congruence | apply bool_decide_eq_false_2; congruence].
Qed.

Lemma icmp_run_in_aux out_name m w full from to pl pad :
  m_data m = up_data full from to pl ++ pad -> bytes pl ->
  zlen full <= 65535 -> zlen from <= 255 -> zlen to <= 255 -> zlen pl <= 65535 ->
  if echo_request pl then
    exists reply, icmp_run_in out_name m w =
                    Ret (tt, after_send out_name (message_of (down_data to from reply) None) w) /\
      bytes reply /\ zlen reply = zlen pl /\ take 2 reply = [0; 0] /\ drop 4 reply = drop 4 pl /\
      ip_checksum reply (zlen reply) = Ret 0
  else icmp_run_in out_name m w = Ret (tt, w).
Proof.
  intros Hm Hb Hk Hf Ht Hp.
  assert (fits full /\ fits from /\ fits to /\ fits pl) as (F1 & F2 & F3 & F4) by (unfold fits; lia).
  unfold icmp_run_in. erewrite lift_bind by (by eapply unwrap_message_up_data).
  cbn [u_pl u_pl_len u_from u_from_len u_to u_to_len]. unfold echo_request.
  destruct (Z.ltb_spec (zlen pl) 8) as [|Hge]; [by replace (8 <=? zlen pl) with false by lia|].
  replace (8 <=? zlen pl) with true by lia. cbn [andb].
  destruct (rd_in (pl ++ full ++ pad) 0) as (b0 & _ & H0); [zl|].
  destruct (rd_in (pl ++ full ++ pad) 1) as (b1 & _ & H1); [zl|].
  erewrite lift_bind by exact H0. erewrite lift_bind by exact H1.
  pose proof (ip_checksum_spec pl Hb ltac:(lia)) as Hc. rewrite <- (ip_checksum_prefix pl (full ++ pad)) in *.
  erewrite lift_bind by exact Hc. rewrite Hc. set (c := 65535 - _).
  destruct (Z.eqb_spec c 0) as [->|Hne]; cbn [negb].
  2: { by rewrite bool_decide_eq_false_2 by congruence. }
  rewrite bool_decide_eq_true_2 by done. rewrite (echo_request_head _ _ _ _ H0 H1) by lia. cbn [andb].
  destruct ((b0 =? 8) && (b1 =? 0)); [|done].
  unfold addr_of_data. erewrite lift_bind by (by apply rdn_app_l).
  assert (exists x, (if zlen pl >=? 24 then rdn (pl ++ full ++ pad) 8 16 else Ret []) = Ret x) as (x & Hx).
  { destruct (Z.geb_spec (zlen pl) 24); [|by eexists]. eexists. apply rdn_ok; zl. }
  erewrite lift_bind by exact Hx.
  destruct (echo_reply_spec pl (full ++ pad) Hb ltac:(lia)) as (reply & Hr & Hl & Hbr & Hrest).
  erewrite lift_bind by exact Hr.
  erewrite lift_bind.
  2: { eapply wrap_message_down_gen; [by apply rdn_app_l|by apply rdn_app_l|by apply rdn_all|done|done|done]. }
  rewrite send_after by (apply down_message_size; lia).
  exists reply. split; [done|]. split; [done|]. by split.
Qed.

(** Which part of an offending packet is quoted. *)
Definition quoted (full : list Z) : list Z :=
  take (Z.to_nat (Z.land (nth 0 full 0) 15 * 4 + 8)) full.

Lemma land15_range b : 0 <= b -> 0 <= Z.land b 15 <= 15.
Proof.
  intros Hb. change 15 with (Z.ones 4) at 1 2. rewrite Z.land_ones by lia.
  change (2 ^ 4) with 16. pose proof (Z.mod_pos_bound b 16). lia.
Qed.

(** The message built for an error notification [type; code] about [full]. *)
Lemma icmp_error_message_spec type code full pad :
  is_byte type -> is_byte code -> bytes full -> 20 <= zlen full <= 65535 ->
  exists m_out, icmp_error_message ([type; code] ++ full ++ pad) (full ++ pad) (zlen full) = Ret m_out /\
    bytes m_out /\ zlen m_out = 8 + zlen (quoted full) /\
    take 2 m_out = [type; code] /\ sub m_out 4 4 = [0; 0; 0; 0] /\ drop 8 m_out = quoted full /\
    ip_checksum m_out (zlen m_out) = Ret 0.
Proof.
  intros Ht Hc Hb Hl. unfold icmp_error_message.
  rewrite (rd_ok _ 0 type), (rd_ok _ 1 code) by done. mcbn.
  destruct full as [|b f]; [zl|]. rewrite (rd_ok _ 2 b) by done. mcbn.
  pose proof Hb as [Hb0 _]%bytes_cons. unfold quoted. cbn [nth].
  pose proof (land15_range b ltac:(unfold is_byte in Hb0; lia)) as Hland.
  change (64 / 8) with 8. set (full := b :: f) in *. set (n := Z.land b 15 * 4 + 8) in *.
  set (q := take (Z.to_nat n) full).
  assert (Hq : zlen q = Z.min (zlen full) n) by (unfold q; rewrite zlen_take; lia).
  assert (Hq8 : 8 <= zlen q) by lia. rewrite <- Hq.
  assert (Hbq : bytes q) by (by apply Forall_take).
  assert (Hzz : zeros (8 + zlen q) = repeat 0 8 ++ zeros (zlen q)).
  { unfold zeros. rewrite Z2Nat.inj_add by lia. by rewrite replicate_add. }
  rewrite Hzz. cbn [repeat].
  assert (Hzl : zlen (zeros (zlen q)) = zlen q) by (apply zlen_zeros; lia).
  rewrite wr_ok by (autorewrite with zlen; zl). mcbn.
  match goal with |- context [splice ?x 0 [type]] =>
    change (splice x 0 [type]) with (type :: repeat 0 7 ++ zeros (zlen q)) end. cbn [repeat].
  rewrite wr_ok by (autorewrite with zlen; zl). mcbn.
  match goal with |- context [splice ?x 1 [code]] =>
    change (splice x 1 [code]) with ((type :: code :: repeat 0 6) ++ zeros (zlen q)) end. cbn [repeat].
  assert (Hr : rdn (full ++ pad) 0 (zlen q) = Ret q).
  { rewrite rdn_prefix by lia. f_equal. unfold sub, q. rewrite drop_0.
    fold q. rewrite Hq. unfold q. destruct (Z.min_spec (zlen full) n) as [[? ->]|[? ->]]; [|done].
    rewrite !take_ge by (unfold zlen in *; lia). done. }
  rewrite Hr. mcbn. rewrite wr_ok by (autorewrite with zlen; zl). mcbn.
  rewrite <- (app_nil_r (zeros (zlen q))), splice_mid by (done || zl). rewrite app_nil_r.
  set (z := [type; code; 0; 0; 0; 0; 0; 0] ++ q).
  assert (Hz : zlen z = 8 + zlen q) by (unfold z; zl).
  assert (Hzb : bytes z).
  { unfold z. rewrite bytes_app, !bytes_cons. unfold is_byte in *. repeat split; try lia; [constructor|done]. }
  rewrite <- Hz. rewrite ip_checksum_spec by (done || lia). mcbn.
  set (c := 65535 - norm (zsum (words16 z))).
  rewrite store16_ok by lia. eexists. split; [reflexivity|].
  assert (Hs : zlen (splice z 2 (be16 c)) = zlen z) by (apply zlen_splice; rewrite ?zlen_be16; lia).
  split; [auto with myip|]. split; [lia|]. split; [done|]. split; [done|]. split; [done|].
  rewrite Hs. apply (ip_checksum_fill_aux z 2 c); try done; try lia.
  rewrite ip_checksum_spec by (done || lia). done.
Qed.

Lemma icmp_run_err_aux out_name m w type code full me to pad :
  m_data m = up_data full me to [type; code] ++ pad -> is_byte type -> is_byte code -> bytes full ->
  20 <= zlen full <= 65535 -> zlen me <= 255 -> zlen to <= 255 ->
  exists m_out, icmp_run_err out_name m w =
                  Ret (tt, after_send out_name (message_of (down_data me to m_out) None) w) /\
    zlen m_out = 8 + zlen (quoted full) /\
    take 2 m_out = [type; code] /\ sub m_out 4 4 = [0; 0; 0; 0] /\ drop 8 m_out = quoted full /\
    ip_checksum m_out (zlen m_out) = Ret 0.
Proof.
  intros Hm Ht Hc Hb Hk Hf Hto.
  assert (fits full /\ fits me /\ fits to) as (F1 & F2 & F3) by (unfold fits; lia).
  unfold icmp_run_err. erewrite lift_bind by (by eapply unwrap_message_up_data).
  cbn [u_pl u_pl_len u_from u_from_len u_to u_to_len u_full_pkt u_full_pkt_len].
  replace (zlen full <? 20) with false by lia.
  destruct (icmp_error_message_spec type code full pad Ht Hc Hb Hk) as (m_out & He & Hmb & Hl & Hrest).
  erewrite lift_bind by exact He.
  erewrite lift_bind.
  2: { eapply wrap_message_down_gen; [by apply rdn_app_l|by apply rdn_app_l|by apply rdn_all|done|done|done]. }
  assert (zlen (quoted full) <= zlen full) by (unfold quoted; rewrite zlen_take; lia).
  rewrite send_after by (apply down_message_size; lia).
  exists m_out. split; [done|]. by split.
Qed.

(** What the notifying server sends. *)
Lemma send_icmp_error_spec icmp_error_name type code payload rest to me w :
  0 < zlen payload <= 65535 -> zlen to <= 255 -> zlen me <= 255 ->
  send_icmp_error icmp_error_name type code (payload ++ rest) (zlen payload) to me w =
  Ret (tt, after_send icmp_error_name
             (message_of (up_data payload me to [u8 type; u8 code]) None) w).
Proof.
  intros Hp Ht Hm. unfold send_icmp_error.
  erewrite lift_bind.
  2: { eapply wrap_message_up_gen; [by apply rdn_all|by apply rdn_all|by apply rdn_all|by apply rdn_app_l|done..]. }
  rewrite send_after; [done|]. apply up_message_size. change (zlen [u8 type; u8 code]) with 2. lia.
Qed.

End Icmp.

(** ** Properties *)

(** The echo server.  For every message carrying a payload [pl] from
    [from] to [to], however it is padded: if [pl] is an echo request with a
    valid checksum, exactly one message is handed to [out_name], from [to] to
    [from], whose payload has the same length, type and code 0, the request's
    identifier, sequence number and data, and a valid checksum; otherwise
    nothing is sent.  In no case is there an access outside the message or a
    failing assertion. *)
Theorem icmp_run_in_echo `{Transport W} (out_name : list Z) (m : message) (w : W)
  (full from to pl pad : list Z)
  (Hm : m_data m = up_data full from to pl ++ pad) (Hb : bytes pl) (Hk : zlen full <= 65535)
  (Hf : zlen from <= 255) (Ht : zlen to <= 255) (Hp : zlen pl <= 65535) :
  if echo_request pl then
    exists reply, icmp_run_in out_name m w =
                    Ret (tt, after_send out_name (message_of (down_data to from reply) None) w) /\
      zlen reply = zlen pl /\ take 2 reply = [0; 0] /\ drop 4 reply = drop 4 pl /\
      ip_checksum reply (zlen reply) = Ret 0
  else icmp_run_in out_name m w = Ret (tt, w).
Proof.
  pose proof (icmp_run_in_aux out_name m w full from to pl pad Hm Hb Hk Hf Ht Hp) as Hr. destruct (echo_request pl); [|done].
  destruct Hr as (reply & E & _ & Hrest). by exists reply.
Qed.

Definition ex_echo : list Z := [8; 0; 0xb7; 0xfb; 0; 1; 0; 2; 0x40; 1].

Lemma icmp_run_in_echo_witness :
  exists reply,
    icmp_run_in (W := oracle) (str "ip4") (message_of (up_data [] [10; 0; 0; 1] [10; 0; 0; 2] ex_echo) None) oracle_ok =
      Ret (tt, after_send (str "ip4") (message_of (down_data [10; 0; 0; 2] [10; 0; 0; 1] reply) None) oracle_ok) /\
    zlen reply = 10 /\ take 2 reply = [0; 0] /\ drop 4 reply = [0; 1; 0; 2; 0x40; 1] /\
    ip_checksum reply (zlen reply) = Ret 0.
Proof.
  apply (icmp_run_in_echo (W := oracle) (str "ip4")
           (message_of (up_data [] [10; 0; 0; 1] [10; 0; 0; 2] ex_echo) None) oracle_ok
           [] [10; 0; 0; 1] [10; 0; 0; 2] ex_echo []).
  all: try (vm_compute; congruence). repeat constructor; unfold is_byte; lia.
Defined.

(** ICMP errors, from the notifying server to the wire.  [send_icmp_error]
    with a type, a code and the offending packet hands one message to the ICMP
    server; whatever padding the queue adds, [run_err] turns the delivered
    message into exactly one packet from [me] to [to] with that type and code,
    four unused zero bytes, the first [IHL * 4 + 8] bytes of the packet (all
    of it if shorter), and a valid checksum, without any access outside the
    message. *)
Theorem icmp_error_end_to_end `{Transport W} (icmp_error_name out_name : list Z) (type code : Z)
  (payload rest to me pad : list Z) (w1 w2 : W) (m : message)
  (Hp : 20 <= zlen payload <= 65535) (Hb : bytes payload) (Ht : zlen to <= 255) (Hme : zlen me <= 255) :
  let notification := message_of (up_data payload me to [u8 type; u8 code]) None in
  send_icmp_error icmp_error_name type code (payload ++ rest) (zlen payload) to me w1 =
    Ret (tt, after_send icmp_error_name notification w1) /\
  (m_data m = m_data notification ++ pad ->
   exists m_out, icmp_run_err out_name m w2 =
                   Ret (tt, after_send out_name (message_of (down_data me to m_out) None) w2) /\
     zlen m_out = 8 + zlen (quoted payload) /\
     take 2 m_out = [u8 type; u8 code] /\ sub m_out 4 4 = [0; 0; 0; 0] /\ drop 8 m_out = quoted payload /\
     ip_checksum m_out (zlen m_out) = Ret 0).
Proof.
  intros notification. split; [apply send_icmp_error_spec; lia|].
  unfold notification. rewrite m_data_message_of. intros Hm.
  apply (icmp_run_err_aux _ _ _ _ _ payload me to pad); auto with myip.
Qed.

Definition ex_packet : list Z := 0x45 :: repeat 7 27.

Lemma icmp_error_end_to_end_witness :
  exists m_out,
    icmp_run_err (W := oracle) (str "ip4")
      (message_of (up_data ex_packet [10; 0; 0; 2] [10; 0; 0; 1] [3; 1]) None) oracle_ok =
      Ret (tt, after_send (str "ip4") (message_of (down_data [10; 0; 0; 2] [10; 0; 0; 1] m_out) None) oracle_ok) /\
    zlen m_out = 36 /\ take 2 m_out = [3; 1] /\ sub m_out 4 4 = [0; 0; 0; 0] /\
    drop 8 m_out = ex_packet /\ ip_checksum m_out (zlen m_out) = Ret 0.
Proof.
  apply (icmp_error_end_to_end (W := oracle) (str "icmp-err") (str "ip4") 3 1 ex_packet []
           [10; 0; 0; 1] [10; 0; 0; 2] [] oracle_ok oracle_ok
           (message_of (up_data ex_packet [10; 0; 0; 2] [10; 0; 0; 1] [3; 1]) None)).
  all: try (vm_compute; try split; congruence). repeat constructor; unfold is_byte; lia.
Defined.
