(* ===== verification/Udp.v ===== *)
(** * The UDP server: [src/udp_server.cpp]

    [run_in] verifies a datagram and hands ports and data to the application
    mapped to the destination port, or answers with an ICMP "port
    unreachable"; [run_out] builds datagrams.  Each definition is the body of
    a loop for one received message. *)

From S2P Require Import Prelude Net Checksum Addr ShmMessage Transport Icmp.

Section Udp.
Context `{Transport W}.

(** ** Code *)

(** Body of [run_in]: ip -> udp.  The copy of [length] bytes from [&pl[8]]
    is written as in the code: [length] includes the eight header bytes. *)
Definition udp_run_in (mappings_in : gmap Z (list Z)) (icmp_error_name : list Z) (m : message) : prog W unit :=
  v ← lift (unwrap_message_up m);
  let pl := u_pl v in
  let pl_len := u_pl_len v in
  if pl_len <? 8 then mret tt else
  length ← lift (get_uint16 (padd pl 4));
  if length >? pl_len then mret tt else
  a_from ← lift (addr_of_data (u_from v) (u_from_len v));
  a_to ← lift (addr_of_data (u_to v) (u_to_len v));
  checksum ← lift (tcp_udp_checksum a_from a_to pl pl_len 17);
  if negb (checksum =? 0) then mret tt else
  source_port ← lift (get_uint16 pl);
  destination_port ← lift (get_uint16 (padd pl 2));
  match mappings_in !! destination_port with
  | None => send_icmp_error icmp_error_name 3 3 (u_full_pkt v) (u_full_pkt_len v) a_from a_to
  | Some dst =>
    let udp_message_size := 4 + length in
    ports ← lift (rdn pl 0 4);
    data ← lift (rdn pl 8 length);
    let m_out := ports ++ data in
    wrapped ← lift (wrap_message_up (u_full_pkt_len v) (u_full_pkt v) (u_from_len v) (u_from v)
                      (u_to_len v) (u_to v) udp_message_size m_out None);
    _ ← send dst wrapped false;
    mret tt
  end.

(** The datagram [run_out] builds: eight bytes longer than its input, of which
    the last four are never written; [junk] is what they hold. *)
Definition udp_datagram (junk : nat -> Z) (a_from a_to : addr) (pl : list Z) (pl_len : Z) : outcome (list Z) :=
  let udp_packet_len := u64 (8 + pl_len) in
  let udp_packet := fresh junk udp_packet_len in
  ports ← rdn pl 0 4;
  udp_packet ← wr udp_packet 0 ports;
  udp_packet ← wr udp_packet 4 [u8 (Z.shiftr udp_packet_len 8)];
  udp_packet ← wr udp_packet 5 [u8 udp_packet_len];
  udp_packet ← wr udp_packet 6 [0];
  udp_packet ← wr udp_packet 7 [0];
  data ← rdn pl 4 (u64 (pl_len - 4));
  udp_packet ← wr udp_packet 8 data;
  _ ← assertb (Z.land udp_packet_len 1 =? 0);
  checksum ← tcp_udp_checksum a_from a_to udp_packet udp_packet_len 17;
  store16 udp_packet 6 checksum.

(** Body of [run_out]: application -> udp -> ip. *)
Definition udp_run_out (junk : nat -> Z) (out_name : list Z) (m : message) : prog W unit :=
  v ← lift (unwrap_message_down m);
  a_from ← lift (addr_of_data (d_from v) (d_from_len v));
  a_to ← lift (addr_of_data (d_to v) (d_to_len v));
  udp_packet ← lift (udp_datagram junk a_from a_to (d_pl v) (d_pl_len v));
  wrapped ← lift (wrap_message_down (d_from_len v) (d_from v) (d_to_len v) (d_to v)
                    (u64 (8 + d_pl_len v)) udp_packet None);
  _ ← send out_name wrapped false;
  mret tt.

(** ** Lemmas *)

(** What the destination port of a datagram is, and when it is accepted. *)
Definition udp_length (pl : list Z) : Z := 256 * nth 4 pl 0 + nth 5 pl 0.
Definition udp_dport (pl : list Z) : Z := 256 * nth 2 pl 0 + nth 3 pl 0.

Definition udp_valid (from to pl : list Z) : bool :=
  (8 <=? zlen pl) && (udp_length pl <=? zlen pl)
  && bool_decide (tcp_udp_checksum from to pl (zlen pl) 17 = Ret 0).

Lemma udp_fields pl rest :
  bytes pl -> 8 <= zlen pl ->
  get_uint16 (padd (pl ++ rest) 4) = Ret (udp_length pl) /\
  (exists s, get_uint16 (pl ++ rest) = Ret s) /\
  get_uint16 (padd (pl ++ rest) 2) = Ret (udp_dport pl) /\
  is_u 16 (udp_length pl).
Proof.
  intros Hb Hl. destruct pl as [|p0 [|p1 [|p2 [|p3 [|p4 [|p5 pl]]]]]]; try solve [zl].
  rewrite !bytes_cons in Hb. destruct Hb as (B0 & B1 & B2 & B3 & B4 & B5 & _).
  change (padd ((p0 :: p1 :: p2 :: p3 :: p4 :: p5 :: pl) ++ rest) 4) with (p4 :: p5 :: pl ++ rest).
  change (padd ((p0 :: p1 :: p2 :: p3 :: p4 :: p5 :: pl) ++ rest) 2) with (p2 :: p3 :: p4 :: p5 :: pl ++ rest).
  cbn [app]. rewrite !get_uint16_cons by done. unfold udp_length, udp_dport, is_byte, is_u in *. cbn [nth].
  split; [done|]. split; [by eexists|]. split; [done|]. lia.
Qed.

(** What is handed to the application: ports, then [length] bytes from the
    eighth byte on, of which the last eight lie behind the datagram. *)
Definition udp_delivered (pl full : list Z) : list Z := take 4 pl ++ sub (pl ++ full) 8 (udp_length pl).

Lemma udp_run_in_aux mappings_in icmp_error_name m w full from to pl pad :
  m_data m = up_data full from to pl ++ pad -> bytes full -> bytes from -> bytes to -> bytes pl ->
  20 <= zlen full <= 65535 -> 4 <= zlen from <= 255 -> 4 <= zlen to <= 255 -> zlen pl <= 65535 ->
  udp_run_in mappings_in icmp_error_name m w =
  Ret (tt,
    if udp_valid from to pl then
      match mappings_in !! udp_dport pl with
      | Some dst => after_send dst (message_of (up_data full from to (udp_delivered pl full)) None) w
      | None => after_send icmp_error_name (message_of (up_data full to from [3; 3]) None) w
      end
    else w).
Proof.
  intros Hm Bk Bf Bt Bp Hk Hf Ht Hp.
  assert (fits full /\ fits from /\ fits to /\ fits pl) as (F1 & F2 & F3 & F4) by (unfold fits; lia).
  unfold udp_run_in. erewrite lift_bind by (by eapply unwrap_message_up_data).
  cbn [u_pl u_pl_len u_from u_from_len u_to u_to_len u_full_pkt u_full_pkt_len]. unfold udp_valid.
  destruct (Z.ltb_spec (zlen pl) 8); [by replace (8 <=? zlen pl) with false by lia|].
  replace (8 <=? zlen pl) with true by lia. cbn [andb].
  destruct (udp_fields pl (full ++ pad) Bp ltac:(lia)) as (L & (s & S) & D & Hu).
  erewrite lift_bind by exact L.
  destruct (Z.leb_spec (udp_length pl) (zlen pl)) as [Hlen|]; [|by replace (_ >? _) with true by lia].
  replace (udp_length pl >? zlen pl) with false by lia. cbn [andb]. unfold addr_of_data.
  erewrite lift_bind by (by apply rdn_app_l). erewrite lift_bind by (by apply rdn_app_l).
  rewrite tcp_udp_checksum_prefix.
  rewrite (tcp_udp_checksum_spec from to pl 17) by (done || lia || (unfold is_byte; lia)).
  set (c := 65535 - _). rewrite (lift_bind _ _ _ c) by done.
  destruct (Z.eqb_spec c 0) as [E|E]; cbn [negb].
  2: by rewrite bool_decide_eq_false_2 by congruence.
  rewrite E, bool_decide_eq_true_2 by done.
  erewrite lift_bind by exact S. erewrite lift_bind by exact D.
  destruct (mappings_in !! udp_dport pl) as [dst|].
  2: { rewrite send_icmp_error_spec by lia. done. }
  erewrite lift_bind by (apply rdn_prefix; lia).
  unfold is_u in Hu. assert (Hd : zlen (sub (pl ++ full) 8 (udp_length pl)) = udp_length pl)
    by (apply zlen_sub; zl).
  assert (Hr : rdn (pl ++ full ++ pad) 8 (udp_length pl) = Ret (sub (pl ++ full) 8 (udp_length pl))).
  { rewrite rdn_ok by zl. unfold sub. rewrite app_assoc, drop_app_le, take_app_le by zl. done. }
  erewrite lift_bind by exact Hr.
  assert (Hs4 : sub pl 0 4 = take 4 pl) by (unfold sub; by rewrite drop_0).
  assert (Hl4 : zlen (take 4 pl) = 4) by (rewrite zlen_take; lia).
  rewrite Hs4. fold (udp_delivered pl full).
  assert (Hdl : zlen (udp_delivered pl full) = 4 + udp_length pl) by (unfold udp_delivered; rewrite zlen_app; lia).
  erewrite lift_bind.
  2: { eapply wrap_message_up_gen; [by apply rdn_app_l|by apply rdn_app_l|by apply rdn_all|by apply rdn_app_l|done..]. }
  by rewrite send_after by (apply up_message_size; lia).
Qed.

(** A datagram whose length field covers all of it: the application gets the
    ports, the data, and the first eight bytes of the IP packet as well. *)
Lemma udp_delivered_full pl full :
  udp_length pl = zlen pl -> 8 <= zlen pl -> 8 <= zlen full ->
  udp_delivered pl full = take 4 pl ++ drop 8 pl ++ take 8 full.
Proof.
  intros E Hp Hf. unfold udp_delivered, sub. rewrite E. change (Z.to_nat 8) with 8%nat.
  rewrite drop_app_le by zl. rewrite take_app_ge by zl. do 3 f_equal. zl.
Qed.

(** The datagram before its checksum is computed: the last four bytes are
    whatever the allocation held. *)
Lemma udp_datagram_filled junk from to ports data rest :
  (forall i, is_byte (junk i)) -> zlen ports = 4 -> zlen data <= 65000 ->
  let n := 12 + zlen data in
  exists tail, zlen tail = 4 /\ bytes tail /\
    let p := ((ports ++ be16 n) ++ [0; 0]) ++ data ++ tail in
    udp_datagram junk from to ((ports ++ data) ++ rest) (zlen (ports ++ data)) =
    (_ ← assertb (Z.land n 1 =? 0); checksum ← tcp_udp_checksum from to p n 17; store16 p 6 checksum).
Proof.
  intros Hj Lp Ld n.
  assert (Hpd : zlen (ports ++ data) = 4 + zlen data) by zlc. pose proof (zlen_nonneg data) as Hd0.
  unfold udp_datagram. rewrite Hpd.
  replace (u64 (8 + (4 + zlen data))) with n by (unfold n; rewrite wrap_small by (unfold is_u; lia); lia).
  replace (u64 (4 + zlen data - 4)) with (zlen data) by (rewrite wrap_small by (unfold is_u; lia); lia).
  assert (Hfr : zlen (fresh junk n) = n) by (apply zlen_fresh; lia).
  assert (Bfr : bytes (fresh junk n)).
  { by apply bytes_fresh. }
  pose proof (split3 (fresh junk n) 8 (zlen data) ltac:(lia) ltac:(lia)) as Hsp.
  set (h := sub (fresh junk n) 0 8) in *. set (mid := sub (fresh junk n) 8 (zlen data)) in *.
  set (tail := padd (fresh junk n) (8 + zlen data)) in *.
  assert (Hh : zlen h = 8) by (apply zlen_sub; lia).
  assert (Hmid : zlen mid = zlen data) by (apply zlen_sub; lia).
  assert (Htail : zlen tail = 4) by (unfold tail, padd; zl).
  assert (Btail : bytes tail) by (by apply Forall_drop). rewrite Hsp. clearbody h mid tail. clear Hsp Hfr Bfr.
  destruct h as [|h0 [|h1 [|h2 [|h3 [|h4 [|h5 [|h6 [|h7 [|]]]]]]]]]; try solve [zl]. clear Hh.
  destruct ports as [|q0 [|q1 [|q2 [|q3 [|]]]]]; try solve [zl].
  rewrite <- app_assoc. rewrite rdn_app_l by done. mcbn.
  rewrite wr_ok by (autorewrite with zlen; zl). mcbn. cbn [app].
  match goal with |- context [splice ?x 0 ?y] =>
    change (splice x 0 y) with (q0 :: q1 :: q2 :: q3 :: h4 :: h5 :: h6 :: h7 :: mid ++ tail) end.
  rewrite wr_ok by (autorewrite with zlen; zl). mcbn.
  rewrite wr_ok by zls. mcbn.
  match goal with |- context [splice (splice ?x 4 [?a]) 5 [?b]] =>
    change (splice (splice x 4 [a]) 5 [b]) with (q0 :: q1 :: q2 :: q3 :: a :: b :: h6 :: h7 :: mid ++ tail) end.
  rewrite wr_ok by (autorewrite with zlen; zl). mcbn.
  rewrite wr_ok by zls. mcbn.
  match goal with |- context [splice (splice (?a :: ?b :: ?c :: ?d :: ?e :: ?f :: ?r) 6 [0]) 7 [0]] =>
    change (splice (splice (a :: b :: c :: d :: e :: f :: r) 6 [0]) 7 [0])
      with ([a; b; c; d; e; f; 0; 0] ++ mid ++ tail) end.
  rewrite (rdn_app_mid [q0; q1; q2; q3] data rest) by done. mcbn.
  rewrite wr_ok by (autorewrite with zlen; zl). mcbn. rewrite splice_mid by done.
  exists tail. fold (be16 n). done.
Qed.

(** The built datagram. *)
Lemma udp_datagram_spec junk from to ports data rest :
  (forall i, is_byte (junk i)) -> bytes from -> bytes to -> bytes (ports ++ data) ->
  zlen from = 4 -> zlen to = 4 -> zlen ports = 4 -> zlen data <= 65000 ->
  Z.even (zlen data) = true ->
  let n := 12 + zlen data in
  exists c tail, udp_datagram junk from to ((ports ++ data) ++ rest) (zlen (ports ++ data)) =
              Ret (ports ++ be16 n ++ be16 c ++ data ++ tail) /\
    zlen tail = 4 /\ bytes tail /\
    tcp_udp_checksum from to (ports ++ be16 n ++ be16 c ++ data ++ tail) n 17 = Ret 0.
Proof.
  intros Hj Bf Bt Bpd Lf Lt Lp Ld Hev n. apply bytes_app in Bpd as [Bp Bd]. pose proof (zlen_nonneg data).
  destruct (udp_datagram_filled junk from to ports data rest Hj Lp Ld) as (tail & Htail & Btail & ->).
  fold n. set (p := ((ports ++ be16 n) ++ [0; 0]) ++ data ++ tail).
  rewrite Z.land_ones with (n := 1) by lia. change (2 ^ 1) with 2.
  replace (n mod 2) with 0 by (apply Z.even_spec in Hev as (k & Hk); unfold n; Z.div_mod_to_equations; lia).
  cbn [Z.eqb assertb]. mcbn.
  assert (Hn : zlen p = n) by (unfold p; autorewrite with zlen; zl). rewrite <- Hn.
  assert (Hpb : bytes p).
  { unfold p. rewrite !bytes_app. repeat split; auto with myip. repeat constructor; unfold is_byte; lia. }
  pose proof (tcp_udp_checksum_spec from to p 17 Bf Bt Hpb ltac:(lia) ltac:(lia) ltac:(unfold is_byte; lia) ltac:(lia)) as Hc.
  rewrite Hc. mcbn. set (c := 65535 - _) in Hc |- *. clearbody c.
  rewrite store16_ok by lia. exists c, tail.
  assert (Hsp : splice p 6 (be16 c) = ports ++ be16 (zlen p) ++ be16 c ++ data ++ tail).
  { rewrite Hn. unfold p. rewrite <- app_assoc, splice_mid by zl. by rewrite <- app_assoc. }
  rewrite <- Hsp. split; [done|]. split; [done|]. split; [done|].
  apply (tcp_udp_checksum_fill_aux from to p 17 6 c); try done; try lia.
  unfold p. rewrite <- app_assoc. apply sub_app_mid; zl.
Qed.

Lemma udp_datagram_odd junk from to ports data rest :
  (forall i, is_byte (junk i)) -> zlen ports = 4 -> zlen data <= 65000 -> Z.even (zlen data) = false ->
  udp_datagram junk from to ((ports ++ data) ++ rest) (zlen (ports ++ data)) = Fault AssertFailed.
Proof.
  intros Hj Lp Ld Hev.
  destruct (udp_datagram_filled junk from to ports data rest Hj Lp Ld) as (tail & _ & _ & ->).
  rewrite Z.land_ones with (n := 1) by lia. change (2 ^ 1) with 2.
  replace ((12 + zlen data) mod 2) with 1; [done|].
  rewrite <- Z.negb_odd in Hev. apply negb_false_iff, Z.odd_spec in Hev as (k & Hk).
  Z.div_mod_to_equations; lia.
Qed.

(** Less than the two ports: the payload length underflows. *)
Lemma udp_datagram_short junk from to pl rest :
  zlen pl < 4 -> fits (pl ++ rest) -> zlen (pl ++ rest) < 2 ^ 63 ->
  udp_datagram junk from to (pl ++ rest) (zlen pl) = Fault OutOfBounds.
Proof.
  intros Hl Hf Hs. pose proof (zlen_nonneg pl). unfold udp_datagram.
  destruct (Z.le_gt_cases 4 (zlen (pl ++ rest))) as [E|E].
  2: { rewrite (rdn_oob _ 0 4) by lia. done. }
  rewrite (rdn_ok _ 0 4) by lia. mcbn.
  assert (E8 : u64 (8 + zlen pl) = 8 + zlen pl) by (apply wrap_small; unfold is_u; lia). rewrite E8.
  assert (Hfr : zlen (fresh junk (8 + zlen pl)) = 8 + zlen pl) by (apply zlen_fresh; lia).
  assert (Hs4 : zlen (sub (pl ++ rest) 0 4) = 4) by (apply zlen_sub; lia).
  repeat (rewrite wr_ok by zls; mcbn).
  rewrite rdn_oob; [done| |].
  - apply wrap_range. lia.
  - unfold wrap. replace (zlen pl - 4) with (2 ^ 64 + (zlen pl - 4) + (-1) * 2 ^ 64) by lia.
    rewrite Z.mod_add, Z.mod_small by lia. lia.
Qed.

Lemma udp_run_out_aux junk out_name m w from to ports data pad :
  m_data m = down_data from to (ports ++ data) ++ pad -> (forall i, is_byte (junk i)) ->
  bytes from -> bytes to -> bytes (ports ++ data) ->
  zlen from = 4 -> zlen to = 4 -> zlen ports = 4 -> zlen data <= 65000 -> Z.even (zlen data) = true ->
  let n := 12 + zlen data in
  exists c tail,
    let udp := ports ++ be16 n ++ be16 c ++ data ++ tail in
    udp_run_out junk out_name m w = Ret (tt, after_send out_name (message_of (down_data from to udp) None) w) /\
    zlen udp = n /\ zlen tail = 4 /\ bytes udp /\ tcp_udp_checksum from to udp n 17 = Ret 0.
Proof.
  intros Hm Hj Bf Bt Bpd Lf Lt Lp Ld Hev n. pose proof (zlen_nonneg data). assert (Hn : n = 12 + zlen data) by done.
  assert (Hpd : zlen (ports ++ data) = 4 + zlen data) by zlc.
  assert (fits from /\ fits to /\ fits (ports ++ data)) as (F1 & F2 & F3) by (unfold fits; lia).
  destruct (udp_datagram_spec junk from to ports data pad Hj Bf Bt Bpd Lf Lt Lp Ld Hev)
    as (c & tail & Hd & Ht & Btail & Hc). fold n in Hd, Hc. exists c, tail. intros udp. fold udp in Hd, Hc.
  assert (Hudp : zlen udp = n) by (unfold udp; autorewrite with zlen; zl).
  unfold udp_run_out. erewrite lift_bind by (by eapply unwrap_message_down_data).
  cbn [d_pl d_pl_len d_from d_from_len d_to d_to_len]. unfold addr_of_data.
  erewrite lift_bind by (by apply rdn_app_l). erewrite lift_bind by (by apply rdn_app_l).
  erewrite lift_bind by exact Hd.
  replace (u64 (8 + zlen (ports ++ data))) with (zlen udp) by (rewrite wrap_small by (unfold is_u; lia); lia).
  erewrite lift_bind.
  2: { eapply wrap_message_down_gen; [by apply rdn_app_l|by apply rdn_app_l|by apply rdn_all|done..]. }
  rewrite send_after by (apply down_message_size; lia).
  repeat (split; [done|]). split; [|done].
  apply bytes_app in Bpd as [? ?]. unfold udp. rewrite !bytes_app. repeat split; auto with myip.
Qed.

Lemma udp_run_out_fault junk out_name m w from to pl pad :
  m_data m = down_data from to pl ++ pad -> (forall i, is_byte (junk i)) -> zlen pad < 8 ->
  zlen from = 4 -> zlen to = 4 -> zlen pl <= 65000 -> zlen pl < 4 \/ Z.even (zlen pl) = false ->
  udp_run_out junk out_name m w = Fault (if zlen pl <? 4 then OutOfBounds else AssertFailed).
Proof.
  intros Hm Hj Hpad Lf Lt Lp Hbad. pose proof (zlen_nonneg pl).
  assert (fits from /\ fits to /\ fits pl) as (F1 & F2 & F3) by (unfold fits; lia).
  unfold udp_run_out. erewrite lift_bind by (by eapply unwrap_message_down_data).
  cbn [d_pl d_pl_len d_from d_from_len d_to d_to_len]. unfold addr_of_data.
  erewrite lift_bind by (by apply rdn_app_l). erewrite lift_bind by (by apply rdn_app_l).
  erewrite lift_bind_Fault; [done|]. destruct (Z.ltb_spec (zlen pl) 4).
  - apply udp_datagram_short; unfold fits; rewrite ?zlen_app; lia.
  - destruct Hbad as [|Hev]; [lia|]. rewrite <- (take_drop 4 pl).
    assert (Hd : zlen (drop 4 pl) = zlen pl - 4) by (rewrite zlen_drop; lia).
    apply udp_datagram_odd; [done|rewrite zlen_take; lia|lia|]. rewrite Hd, Z.even_sub, Hev. done.
Qed.

End Udp.

(** ** Properties *)

(** Receiving UDP.  For every packet [full] with payload [pl] from [from]
    to [to] the handler returns without fault, and: a datagram that is shorter
    than its header or its length field, or whose checksum over the pseudo
    header is wrong, is dropped; one whose destination port has no mapping
    makes the ICMP server send "port unreachable" (3, 3) about [full] to the
    sender; any other is handed, exactly once, to the application mapped to
    its destination port.  What the application gets are the ports and
    [length] bytes from the start of the data: when the length field covers
    the datagram, the data followed by the first eight bytes of [full]. *)
Theorem udp_run_in_delivers `{Transport W} (mappings_in : gmap Z (list Z)) (icmp_error_name : list Z)
  (m : message) (w : W) (full from to pl pad : list Z)
  (Hm : m_data m = up_data full from to pl ++ pad)
  (Bk : bytes full) (Bf : bytes from) (Bt : bytes to) (Bp : bytes pl)
  (Hk : 20 <= zlen full <= 65535) (Hf : 4 <= zlen from <= 255) (Ht : 4 <= zlen to <= 255)
  (Hp : zlen pl <= 65535) :
  udp_run_in mappings_in icmp_error_name m w =
  Ret (tt,
    if udp_valid from to pl then
      match mappings_in !! udp_dport pl with
      | Some dst => after_send dst (message_of (up_data full from to (udp_delivered pl full)) None) w
      | None => after_send icmp_error_name (message_of (up_data full to from [3; 3]) None) w
      end
    else w) /\
  (udp_length pl = zlen pl -> 8 <= zlen pl ->
   udp_delivered pl full = take 4 pl ++ drop 8 pl ++ take 8 full).
Proof.
  split; [by apply (udp_run_in_aux _ _ m w full from to pl pad)|].
  intros. apply udp_delivered_full; lia.
Qed.

Definition ex_ip1 : addr := [10; 0; 0; 1].
Definition ex_ip2 : addr := [10; 0; 0; 2].
(** Port 4321 to port 123, two data bytes. *)
Definition ex_udp : list Z := [0x10; 0xe1; 0; 123; 0; 10; 0xd9; 0x79; 1; 2].

Lemma udp_run_in_delivers_witness :
  udp_run_in (W := oracle) {[ 123 := str "ntp" ]} (str "icmp")
    (message_of (up_data ex_packet ex_ip1 ex_ip2 ex_udp) None) oracle_ok =
  Ret (tt, after_send (str "ntp")
             (message_of (up_data ex_packet ex_ip1 ex_ip2
                            [0x10; 0xe1; 0; 123; 1; 2; 0x45; 7; 7; 7; 7; 7; 7; 7]) None) oracle_ok) /\
  (udp_length ex_udp = zlen ex_udp -> 8 <= zlen ex_udp ->
   udp_delivered ex_udp ex_packet = take 4 ex_udp ++ drop 8 ex_udp ++ take 8 ex_packet).
Proof.
  opose proof* (udp_run_in_delivers (W := oracle) {[ 123 := str "ntp" ]} (str "icmp")
    (message_of (up_data ex_packet ex_ip1 ex_ip2 ex_udp) None) oracle_ok
    ex_packet ex_ip1 ex_ip2 ex_udp []) as [T1 T2]; [..|split; [vm_cast_no_check T1|exact T2]].
  all: try (vm_compute; try split; congruence).
  all: try concrete_bytes; by repeat constructor.
Defined.

(** Sending UDP.  [run_out] answers a message of ports and data of even
    length with exactly one datagram for the same addresses: the ports, a
    length field equal to the datagram's length, a checksum that verifies over
    the pseudo header, the data, and four trailing bytes the code never
    writes.  A message of odd length fails the assertion, and one too short
    for the ports underflows the payload length. *)
Theorem udp_run_out_builds `{Transport W} (junk : nat -> Z) (out_name : list Z) (m : message) (w : W)
  (from to pl pad : list Z)
  (Hm : m_data m = down_data from to pl ++ pad) (Hj : forall i, is_byte (junk i)) (Hpad : zlen pad < 8)
  (Bf : bytes from) (Bt : bytes to) (Bp : bytes pl) (Lf : zlen from = 4) (Lt : zlen to = 4)
  (Lp : zlen pl <= 65000) :
  if (4 <=? zlen pl) && Z.even (zlen pl) then
    exists c tail,
      let udp := take 4 pl ++ be16 (8 + zlen pl) ++ be16 c ++ drop 4 pl ++ tail in
      udp_run_out junk out_name m w =
        Ret (tt, after_send out_name (message_of (down_data from to udp) None) w) /\
      zlen udp = 8 + zlen pl /\ zlen tail = 4 /\ tcp_udp_checksum from to udp (8 + zlen pl) 17 = Ret 0
  else udp_run_out junk out_name m w = Fault (if zlen pl <? 4 then OutOfBounds else AssertFailed).
Proof.
  destruct (_ && _) eqn:E.
  - apply andb_prop in E as [E Hev]. rewrite <- (take_drop 4 pl) in Hm, Bp.
    assert (zlen (take 4 pl) = 4) by (rewrite zlen_take; lia).
    assert (Hd : zlen (drop 4 pl) = zlen pl - 4) by (rewrite zlen_drop; lia).
    destruct (udp_run_out_aux junk out_name m w from to (take 4 pl) (drop 4 pl) pad Hm Hj)
      as (c & tail & Hr & Hz & Ht & _ & Hc); try done; try lia.
    { rewrite Hd, Z.even_sub, Hev. done. }
    replace (12 + zlen (drop 4 pl)) with (8 + zlen pl) in * by lia. by exists c, tail.
  - apply (udp_run_out_fault junk out_name m w from to pl pad); try done.
    apply andb_false_iff in E as [E|E]; [left; lia|by right].
Qed.

Lemma udp_run_out_builds_witness :
  exists c tail,
    let udp := [0; 123; 0x10; 0xe1] ++ be16 14 ++ be16 c ++ [1; 2] ++ tail in
    udp_run_out (W := oracle) (fun _ => 7) (str "ip4")
      (message_of (down_data ex_ip2 ex_ip1 [0; 123; 0x10; 0xe1; 1; 2]) None) oracle_ok =
      Ret (tt, after_send (str "ip4") (message_of (down_data ex_ip2 ex_ip1 udp) None) oracle_ok) /\
    zlen udp = 14 /\ zlen tail = 4 /\ tcp_udp_checksum ex_ip2 ex_ip1 udp 14 17 = Ret 0.
Proof.
  apply (udp_run_out_builds (W := oracle) (fun _ => 7) (str "ip4")
      (message_of (down_data ex_ip2 ex_ip1 [0; 123; 0x10; 0xe1; 1; 2]) None) oracle_ok
      ex_ip2 ex_ip1 [0; 123; 0x10; 0xe1; 1; 2] []).
  all: try (vm_compute; try split; congruence).
  all: first [concrete_bytes | intros ?; unfold is_byte; lia].
Defined.

(** UDP end to end.  Whatever [pl] (ports and data, of even length) an
    application sends from [from] to [to]: the datagram its UDP server builds,
    received by another UDP server inside any IP packet [full], is accepted
    and delivered to the application mapped to the destination port with the
    same ports and the same data, followed by twelve further bytes. *)
Theorem udp_end_to_end `{Transport W} (junk : nat -> Z) (out_name icmp_error_name dst : list Z)
  (mappings_in : gmap Z (list Z)) (m : message) (w : W) (from to pl pad full : list Z)
  (Hm : m_data m = down_data from to pl ++ pad) (Hj : forall i, is_byte (junk i))
  (Bf : bytes from) (Bt : bytes to) (Bp : bytes pl) (Bk : bytes full)
  (Lf : zlen from = 4) (Lt : zlen to = 4) (Lp : 4 <= zlen pl <= 65000) (Hev : Z.even (zlen pl) = true)
  (Lk : 20 <= zlen full <= 65535) (Hdst : mappings_in !! udp_dport pl = Some dst) :
  exists udp tail,
    udp_run_out junk out_name m w =
      Ret (tt, after_send out_name (message_of (down_data from to udp) None) w) /\
    zlen tail = 12 /\
    forall m2 pad2 w2, m_data m2 = up_data full from to udp ++ pad2 ->
      udp_run_in mappings_in icmp_error_name m2 w2 =
      Ret (tt, after_send dst (message_of (up_data full from to (pl ++ tail)) None) w2).
Proof.
  pose proof (take_drop 4 pl) as Hpl. set (ports := take 4 pl) in *. set (data := drop 4 pl) in *.
  assert (Hports : zlen ports = 4) by (unfold ports; rewrite zlen_take; lia).
  assert (Hd : zlen data = zlen pl - 4) by (unfold data; rewrite zlen_drop; lia).
  rewrite <- Hpl in Hm, Bp.
  destruct (udp_run_out_aux junk out_name m w from to ports data pad Hm Hj)
    as (c & tail & Hr & Hz & Ht & Bu & Hc); try done; try lia.
  { rewrite Hd, Z.even_sub, Hev. done. }
  set (n := 12 + zlen data) in *. set (udp := ports ++ be16 n ++ be16 c ++ data ++ tail) in *.
  exists udp, (tail ++ take 8 full). split; [done|].
  split; [rewrite zlen_app, zlen_take; lia|]. intros m2 pad2 w2 Hm2.
  rewrite (udp_run_in_aux mappings_in icmp_error_name m2 w2 full from to udp pad2) by (done || lia).
  assert (Hports' : exists a b d e, ports = [a; b; d; e]).
  { destruct ports as [|a [|b [|d [|e [|]]]]]; try zl. by eexists _, _, _, _. }
  destruct Hports' as (p0 & p1 & p2 & p3 & Hp4).
  assert (Hlen : udp_length udp = zlen udp).
  { rewrite Hz. unfold udp, udp_length. rewrite Hp4, be16_div. cbn [app nth].
    apply be16_val. unfold is_u. lia. }
  assert (Hport : udp_dport udp = udp_dport pl).
  { rewrite <- Hpl. unfold udp, udp_dport. by rewrite Hp4. }
  unfold udp_valid. rewrite Hlen, Hport, Hdst, Z.leb_refl. replace (8 <=? zlen udp) with true by lia.
  rewrite Hz, bool_decide_eq_true_2 by done. cbn [andb].
  rewrite udp_delivered_full by lia. do 5 f_equal.
  rewrite <- Hpl at 1. unfold udp. rewrite Hp4, !be16_div. cbn.
  by rewrite drop_0, <- app_assoc.
Qed.

Lemma udp_end_to_end_witness :
  exists udp tail,
    udp_run_out (W := oracle) (fun _ => 7) (str "ip4")
      (message_of (down_data ex_ip2 ex_ip1 [0; 123; 0x10; 0xe1; 1; 2]) None) oracle_ok =
      Ret (tt, after_send (str "ip4") (message_of (down_data ex_ip2 ex_ip1 udp) None) oracle_ok) /\
    zlen tail = 12 /\
    forall m2 pad2 w2, m_data m2 = up_data ex_packet ex_ip2 ex_ip1 udp ++ pad2 ->
      udp_run_in (W := oracle) {[ 4321 := str "client" ]} (str "icmp") m2 w2 =
      Ret (tt, after_send (str "client")
                 (message_of (up_data ex_packet ex_ip2 ex_ip1 ([0; 123; 0x10; 0xe1; 1; 2] ++ tail)) None) w2).
Proof.
  apply (udp_end_to_end (W := oracle) (fun _ => 7) (str "ip4") (str "icmp") (str "client") {[ 4321 := str "client" ]}
      (message_of (down_data ex_ip2 ex_ip1 [0; 123; 0x10; 0xe1; 1; 2]) None) oracle_ok
      ex_ip2 ex_ip1 [0; 123; 0x10; 0xe1; 1; 2] [] ex_packet).
  all: try (vm_compute; try split; congruence).
  all: first [concrete_bytes | intros ?; unfold is_byte; lia].
Defined.
