(* ===== verification/Arp.v ===== *)
(** * The ARP server: [src/arp_server.cpp]

    Two threads share the cache and the list of pending requests: [run_in]
    answers ARP requests and learns from ARP replies, [run_resolver] answers
    the other servers' address searches from the cache or by broadcasting an
    ARP request.  A handler is the body of a loop for one message, as a
    function of the shared state ([arp_state]); the two are taken to run one
    after the other.  [cfg_runtime] asks the link and IP servers for the
    addresses at start-up. *)

From S2P Require Import Prelude Net Str Addr ShmMessage Transport.

(** ** Code *)

(** [struct request]; [r_msg_nr] is never assigned by the code. *)
Record request := {
  r_mac : option addr;
  r_ip4 : option addr;
  r_searched_by : list Z;
  r_msg_nr : Z }.

Record arp_state := {
  requests : list request;
  arp_cache : list (addr * addr) }.

Section Arp.
Context `{Transport W}.

Definition push_resolver_reply (to reply : list Z) (msg_nr : Z) : prog W unit :=
  let m_reply := fill_message (allocate_shm_message (zlen reply)) msg_reply msg_nr reply in
  _ ← send to m_reply false;
  mret tt.

(** The texts of the two kinds of answers. *)
Definition mac_answer (ip4 mac : addr) : list Z :=
  str "ip4:" ++ to_str 46 false ip4 ++ str "=mac:" ++ to_str 58 true mac.
Definition ip4_answer (mac ip4 : addr) : list Z :=
  str "mac:" ++ to_str 58 true mac ++ str "=ip4:" ++ to_str 46 false ip4.

(** The [request[44]] array of [run_resolver]. *)
Definition arp_request_bytes (SHA SPA THA TPA : addr) : outcome (list Z) :=
  let request := zeros 44 in
  request ← wr request 1 [1];
  request ← wr request 2 [0x08];
  request ← wr request 3 [0x00];
  request ← wr request 4 [6];
  request ← wr request 5 [4];
  request ← wr request 6 [0x00];
  request ← wr request 7 [1];
  let sha_offset := 8 in
  let spa_offset := 8 + 6 in
  let tha_offset := spa_offset + 4 in
  let tpa_offset := tha_offset + 6 in
  request ← addr_get SHA request sha_offset;
  request ← addr_get SPA request spa_offset;
  request ← addr_get THA request tha_offset;
  addr_get TPA request tpa_offset.

(** The tail of [run_resolver]: register the request and broadcast. *)
Definition resolver_ask (out_name : list Z) (r : request) (SHA SPA TPA : addr) (st : arp_state) : prog W arp_state :=
  let st := {| requests := requests st ++ [r]; arp_cache := arp_cache st |} in
  request ← lift (arp_request_bytes SHA SPA bc_addr TPA);
  m_out ← lift (wrap_message_down (zlen SHA) SHA (zlen bc_addr) bc_addr (zlen request) request None);
  _ ← send out_name m_out false;
  mret st.

(** Body of [run_resolver]. [junk] is fresh memory, [junk_nr] the indeterminate
    [msg_nr] of the new [request]. *)
Definition arp_run_resolver (ip4_addr mac : addr) (out_name : list Z) (junk : nat -> Z) (junk_nr : Z)
  (m : message) (st : arp_state) : prog W arp_state :=
  kv ← lift (rdn (m_data m) 0 (m_size m));
  match split kv (str "=") with
  | [command; value] =>
    if beq command (str "search-mac") then
      ip4 ← lift (addr_of_string junk value (str ".") false);
      me ← lift (addr_eq ip4 ip4_addr);
      if (me : bool) then
        _ ← push_resolver_reply (sender_of m) (mac_answer ip4 mac) (m_msg_nr m);
        mret st
      else
      it ← lift (amap_find (arp_cache st) ip4);
      match it with
      | Some hit =>
        _ ← push_resolver_reply (sender_of m) (mac_answer ip4 hit) (m_msg_nr m);
        mret st
      | None =>
        resolver_ask out_name {| r_mac := None; r_ip4 := Some ip4; r_searched_by := sender_of m; r_msg_nr := junk_nr |}
          mac ip4_addr ip4 st
      end
    else if beq command (str "search-ip4") then
      a ← lift (addr_of_string junk value (str ":") true);
      resolver_ask out_name {| r_mac := Some a; r_ip4 := None; r_searched_by := sender_of m; r_msg_nr := junk_nr |}
        a (addr_zero 4) (addr_zero 4) st
    else mret st
  | _ => mret st
  end.

(** The answer [register_resolve_reply] computes for one pending request, the
    empty string when it does not match. *)
Definition resolve_text (item : request) (SHA SPA : addr) : outcome (list Z) :=
  by_mac ← match r_mac item with Some a => addr_eq a SHA | None => Ret false end;
  if (by_mac : bool) then Ret (ip4_answer (default [] (r_mac item)) SPA) else
  by_ip4 ← match r_ip4 item with Some a => addr_eq a SPA | None => Ret false end;
  if (by_ip4 : bool) then Ret (mac_answer (default [] (r_ip4 item)) SHA) else Ret [].

(** [register_resolve_reply]: the loop over [requests] with [erase]. *)
Fixpoint register_resolve_reply (SHA SPA : addr) (rs : list request) : prog W (list request) :=
  match rs with
  | [] => mret []
  | item :: r =>
    reply ← lift (resolve_text item SHA SPA);
    if negb (zlen reply =? 0) then
      _ ← push_resolver_reply (r_searched_by item) reply (r_msg_nr item);
      register_resolve_reply SHA SPA r
    else
      kept ← register_resolve_reply SHA SPA r;
      mret (item :: kept)
  end.

(** [payload_out] of the answer to an ARP request. *)
Definition arp_answer (mac_addr SHA SPA TPA pl : list Z) : outcome (list Z) :=
  payload_out ← rdn pl 0 28;
  payload_out ← addr_get SHA payload_out 18;
  payload_out ← wr payload_out 6 [0];
  payload_out ← wr payload_out 7 [2];
  payload_out ← addr_get mac_addr payload_out 8;
  payload_out ← addr_get SPA payload_out 24;
  payload_out ← addr_get TPA payload_out 14;
  same ← addr_eq SPA TPA;
  _ ← assertb (negb same);
  Ret payload_out.

(** Body of [run_in]. *)
Definition arp_run_in (mac_addr ip4_addr : addr) (m : message) (st : arp_state) : prog W arp_state :=
  v ← lift (unwrap_message_up m);
  let pl := u_pl v in
  if negb (u_from_len v =? 6) || negb (u_to_len v =? 6) then mret st else
  if u_pl_len v <? 28 then mret st else
  hw_type ← lift (get_uint16 pl);
  if negb (hw_type =? 1) then mret st else
  proto_type ← lift (get_uint16 (padd pl 2));
  if negb (proto_type =? 0x0800) then mret st else
  hw_length ← lift (rd pl 4);
  if negb (hw_length =? 6) then mret st else
  proto_length ← lift (rd pl 5);
  if negb (proto_length =? 4) then mret st else
  SHA ← lift (addr_of_data (padd pl 8) 6);
  SPA ← lift (addr_of_data (padd pl 14) 4);
  THA ← lift (addr_of_data (padd pl 18) 6);
  TPA ← lift (addr_of_data (padd pl 24) 4);
  operation ← lift (get_uint16 (padd pl 6));
  if operation =? 1 then
    me ← lift (addr_eq TPA ip4_addr);
    if (me : bool) then
      payload_out ← lift (arp_answer mac_addr SHA SPA TPA pl);
      from ← lift (addr_get mac_addr (zeros 6) 0);
      to ← lift (addr_get SHA (zeros 6) 0);
      m_out ← lift (wrap_message_down 6 from 6 to 28 payload_out (Some (m_msg_nr m)));
      _ ← send (sender_of m) m_out false;
      mret st
    else mret st
  else if operation =? 2 then
    cache ← lift (amap_insert (arp_cache st) SPA SHA);
    rs ← register_resolve_reply SHA SPA (requests st);
    mret {| requests := rs; arp_cache := cache |}
  else mret st.

(** [send_meta_request] *)
Definition send_meta_request (peer_name request : list Z) : prog W (option Z) :=
  let meta_request_msg := fill_message (allocate_shm_message (zlen request)) msg_new 0 request in
  r ← send peer_name meta_request_msg true;
  mret (if (r.1 : bool) then Some r.2 else None).

(** What [cfg_runtime] takes from a reply. *)
Definition cfg_got (junk : nat -> Z) (key sep : list Z) (hex : bool) (r : message) : outcome (option addr) :=
  reply_str ← rdn (m_data r) 0 (m_size r);
  if beq (take 4 reply_str) key
  then a ← addr_of_string junk (drop 4 reply_str) sep hex; Ret (Some a)
  else Ret None.

(** One address of [cfg_runtime]'s loop: ask, and parse the reply that
    [wait_for_message] returned, if any. *)
Definition cfg_ask (junk : nat -> Z) (meta_name request key sep : list Z) (hex : bool)
  (reply : option message) (known : option addr) : prog W (option addr) :=
  match known with
  | Some a => mret (Some a)
  | None =>
    msg_nr ← send_meta_request meta_name request;
    match msg_nr, reply with
    | Some _, Some r => lift (cfg_got junk key sep hex r)
    | _, _ => mret None
    end
  end.

(** [cfg_runtime]: one round per pair of replies, [None] when the replies are
    used up before both addresses are known. *)
Fixpoint cfg_runtime (junk : nat -> Z) (meta_name_Ethernet_server meta_name_ip4_server : list Z)
  (rounds : list (option message * option message)) (mac_addr ip4_addr : option addr)
  : prog W (option (addr * addr)) :=
  match rounds with
  | [] => mret None
  | (r1, r2) :: rest =>
    mac_addr ← cfg_ask junk meta_name_Ethernet_server (str "get-mac") (str "mac=") (str ":") true r1 mac_addr;
    ip4_addr ← cfg_ask junk meta_name_ip4_server (str "get-ip4") (str "ip4=") (str ".") false r2 ip4_addr;
    match mac_addr, ip4_addr with
    | Some a, Some b => mret (Some (a, b))
    | _, _ => cfg_runtime junk meta_name_Ethernet_server meta_name_ip4_server rest mac_addr ip4_addr
    end
  end.

(** ** Lemmas *)

(** An ARP packet for Ethernet and IPv4. *)
Definition arp_packet (op : Z) (sha spa tha tpa : addr) : list Z :=
  [0; 1; 8; 0; 6; 4] ++ be16 op ++ sha ++ spa ++ tha ++ tpa.

(** What the checks at the start of [run_in] accept. *)
Definition arp_parse (pl : list Z) : option (Z * addr * addr * addr * addr) :=
  if (28 <=? zlen pl) && beq (take 6 pl) [0; 1; 8; 0; 6; 4]
  then Some (256 * nth 6 pl 0 + nth 7 pl 0, sub pl 8 6, sub pl 14 4, sub pl 18 6, sub pl 24 4)
  else None.

(** The pending requests an answer (SHA, SPA) settles, and with what text. *)
Definition resolves (sha spa : addr) (r : request) : option (list Z) :=
  if bool_decide (r_mac r = Some sha) then Some (ip4_answer sha spa)
  else if bool_decide (r_ip4 r = Some spa) then Some (mac_answer spa sha)
  else None.

Definition reply_message (text : list Z) (nr : Z) : message :=
  fill_message (allocate_shm_message (zlen text)) msg_reply nr text.

(** The replies sent, in the order of the requests. *)
Fixpoint answered (sha spa : addr) (rs : list request) (w : W) : W :=
  match rs with
  | [] => w
  | r :: rest =>
    answered sha spa rest
      (match resolves sha spa r with
       | Some text => after_send (r_searched_by r) (reply_message text (r_msg_nr r)) w
       | None => w
       end)
  end.

Definition unresolved (sha spa : addr) (rs : list request) : list request :=
  filter (fun r => resolves sha spa r = None) rs.

(** The invariant of the server's state: addresses of the right size, and a
    cache that is a map. *)
Definition request_wf (r : request) : Prop :=
  match r_mac r with Some a => zlen a = 6 | None => True end /\
  match r_ip4 r with Some a => zlen a = 4 | None => True end.

Definition arp_wf (st : arp_state) : Prop :=
  Forall request_wf (requests st) /\ amap_wf 4 (arp_cache st) /\
  Forall (fun kv => zlen kv.2 = 6 /\ bytes kv.2) (arp_cache st).

Lemma zlen_mac_answer spa sha :
  bytes spa -> bytes sha -> zlen spa = 4 -> zlen sha = 6 -> 0 < zlen (mac_answer spa sha) < 1000.
Proof.
  intros B1 B2 L1 L2. unfold mac_answer. autorewrite with zlen.
  change (zlen (str "ip4:")) with 4. change (zlen (str "=mac:")) with 5.
  pose proof (zlen_to_str 46 false spa B1). pose proof (zlen_to_str 58 true sha B2).
  pose proof (zlen_nonneg (to_str 46 false spa)). pose proof (zlen_nonneg (to_str 58 true sha)). lia.
Qed.

Lemma zlen_ip4_answer spa sha :
  bytes spa -> bytes sha -> zlen spa = 4 -> zlen sha = 6 -> 0 < zlen (ip4_answer sha spa) < 1000.
Proof.
  intros B1 B2 L1 L2. unfold ip4_answer. autorewrite with zlen.
  change (zlen (str "mac:")) with 4. change (zlen (str "=ip4:")) with 5.
  pose proof (zlen_to_str 46 false spa B1). pose proof (zlen_to_str 58 true sha B2).
  pose proof (zlen_nonneg (to_str 46 false spa)). pose proof (zlen_nonneg (to_str 58 true sha)). lia.
Qed.

Lemma push_resolver_reply_ok to text nr w :
  0 < zlen text < 1000 ->
  push_resolver_reply to text nr w = Ret (tt, after_send to (reply_message text nr) w).
Proof.
  intros Hl. unfold push_resolver_reply. rewrite send_after; [done|].
  cbn [fill_message allocate_shm_message m_size]. rewrite wrap_small; unfold is_u; lia.
Qed.

Lemma beq_some (o : option addr) a : match o with Some b => beq b a | None => false end = bool_decide (o = Some a).
Proof.
  destruct o as [b|]; [|by rewrite bool_decide_eq_false_2]. unfold beq.
  apply bool_decide_ext. naive_solver.
Qed.

Lemma resolve_text_spec r sha spa :
  request_wf r -> zlen sha = 6 -> zlen spa = 4 ->
  resolve_text r sha spa = Ret (default [] (resolves sha spa r)).
Proof.
  intros [Hm Hi] Hs Hp. unfold resolve_text, resolves.
  assert (match r_mac r with Some a => addr_eq a sha | None => Ret false end = Ret (bool_decide (r_mac r = Some sha))) as ->.
  { rewrite <- beq_some. destruct (r_mac r); [|done]. apply addr_eq_same_len. lia. }
  mcbn. case_bool_decide as E; [by rewrite E, bool_decide_eq_true_2|].
  rewrite (bool_decide_eq_false_2 (r_mac r = Some sha)) by done.
  assert (match r_ip4 r with Some a => addr_eq a spa | None => Ret false end = Ret (bool_decide (r_ip4 r = Some spa))) as ->.
  { rewrite <- beq_some. destruct (r_ip4 r); [|done]. apply addr_eq_same_len. lia. }
  mcbn. case_bool_decide as E'; [by rewrite E', bool_decide_eq_true_2|by rewrite bool_decide_eq_false_2].
Qed.

Lemma resolves_text r sha spa text :
  bytes sha -> bytes spa -> zlen sha = 6 -> zlen spa = 4 -> resolves sha spa r = Some text ->
  0 < zlen text < 1000.
Proof.
  intros B1 B2 L1 L2. unfold resolves. destruct (bool_decide _).
  - intros [= <-]. by apply zlen_ip4_answer.
  - destruct (bool_decide _); [|done]. intros [= <-]. by apply zlen_mac_answer.
Qed.

(** The registration loop answers and removes exactly the pending requests the
    reply settles, in order. *)
Lemma register_resolve_reply_spec sha spa rs w :
  Forall request_wf rs -> bytes sha -> bytes spa -> zlen sha = 6 -> zlen spa = 4 ->
  register_resolve_reply sha spa rs w = Ret (unresolved sha spa rs, answered sha spa rs w).
Proof.
  intros Hrs B1 B2 L1 L2. revert w.
  induction Hrs as [|r rs Hr Hrs IH]; intros w; [done|]. cbn [register_resolve_reply answered].
  erewrite lift_bind by (by apply resolve_text_spec). unfold unresolved. rewrite filter_cons.
  destruct (resolves sha spa r) as [text|] eqn:E; cbn [default from_option id].
  - pose proof (resolves_text r sha spa text B1 B2 L1 L2 E) as Ht.
    replace (zlen text =? 0) with false by lia. cbn [negb].
    rewrite decide_False by done.
    erewrite prog_bind_step by (by apply push_resolver_reply_ok). apply IH.
  - change (zlen [] =? 0) with true. cbn [negb]. rewrite decide_True by done.
    erewrite prog_bind_step by apply IH. done.
Qed.

Lemma unresolved_wf sha spa rs : Forall request_wf rs -> Forall request_wf (unresolved sha spa rs).
Proof.
  induction 1 as [|r rs Hr Hrs IH]; [constructor|]. unfold unresolved. rewrite filter_cons.
  case_decide; [by constructor|done].
Qed.

(** An accepted packet is its parsed fields, and bytes behind them. *)
Lemma arp_parse_inv pl op sha spa tha tpa :
  bytes pl -> arp_parse pl = Some (op, sha, spa, tha, tpa) ->
  is_u 16 op /\ zlen sha = 6 /\ zlen spa = 4 /\ zlen tha = 6 /\ zlen tpa = 4 /\
  bytes sha /\ bytes spa /\ bytes tha /\ bytes tpa /\
  exists extra, pl = arp_packet op sha spa tha tpa ++ extra.
Proof.
  intros Hb. unfold arp_parse. destruct (Z.leb_spec 28 (zlen pl)) as [Hl|]; [|done]. cbn [andb].
  destruct (beq_spec (take 6 pl) [0; 1; 8; 0; 6; 4]) as [Ht|]; [|done]. intros [= <- <- <- <- <-].
  rewrite !zlen_sub by lia. rewrite <- (take_drop 6 pl), Ht in Hb |- *.
  assert (Hl' : 22 <= zlen (drop 6 pl)) by zl.
  set (r := drop 6 pl) in *. clearbody r. clear Ht Hl pl.
  destruct r as [|o1 [|o0 r]]; try solve [zl]. rewrite !zlen_cons in Hl'.
  apply bytes_app in Hb as [_ [B1 [B0 Hb]%bytes_cons]%bytes_cons]. unfold is_byte in B1, B0.
  change (nth 6 _ 0) with o1. change (nth 7 _ 0) with o0.
  set (pre := [0; 1; 8; 0; 6; 4; o1; o0]).
  change ([0; 1; 8; 0; 6; 4] ++ o1 :: o0 :: r) with (pre ++ r).
  assert (Hsub : forall off n, 8 <= off -> sub (pre ++ r) off n = sub r (off - 8) n).
  { intros off n Ho. unfold sub. rewrite drop_app_ge by (change (length pre) with 8%nat; lia).
    change (length pre) with 8%nat. do 2 f_equal. lia. }
  rewrite !Hsub by lia. change (8 - 8) with 0. change (14 - 8) with 6. change (18 - 8) with 10. change (24 - 8) with 16.
  split; [unfold is_u; lia|]. do 4 (split; [done|]). do 4 (split; [auto with myip|]).
  exists (padd r 20). unfold arp_packet. rewrite be16_div.
  replace ((256 * o1 + o0) / 256 mod 256) with o1 by (Z.div_mod_to_equations; lia).
  replace ((256 * o1 + o0) mod 256) with o0 by (Z.div_mod_to_equations; lia).
  change (pre ++ r) with ([0; 1; 8; 0; 6; 4] ++ [o1; o0] ++ r). rewrite <- !app_assoc. do 2 f_equal.
  rewrite (split3 r 6 4) at 1 by lia. f_equal. f_equal.
  rewrite (split3 (padd r (6 + 4)) 6 4) at 1 by lia. rewrite padd_padd by lia.
  unfold sub, padd. rewrite !drop_drop. done.
Qed.

(** The four header checks accept exactly one six-byte header. *)
Lemma arp_checks {A} pl rest (st : A) (k : prog W A) w :
  bytes pl -> 28 <= zlen pl ->
  (hw_type ← lift (get_uint16 (pl ++ rest));
   if negb (hw_type =? 1) then mret st else
   proto_type ← lift (get_uint16 (padd (pl ++ rest) 2));
   if negb (proto_type =? 0x0800) then mret st else
   hw_length ← lift (rd (pl ++ rest) 4);
   if negb (hw_length =? 6) then mret st else
   proto_length ← lift (rd (pl ++ rest) 5);
   if negb (proto_length =? 4) then mret st else k) w =
  if beq (take 6 pl) [0; 1; 8; 0; 6; 4] then k w else Ret (st, w).
Proof.
  intros Hb Hl. destruct pl as [|p0 [|p1 [|p2 [|p3 [|p4 [|p5 r]]]]]]; try solve [zl].
  rewrite !bytes_cons in Hb. destruct Hb as (B0 & B1 & B2 & B3 & B4 & B5 & _). unfold is_byte in *.
  cbn [app].
  change (take 6 _) with [p0; p1; p2; p3; p4; p5].
  erewrite lift_bind by (by apply get_uint16_cons).
  change (padd (p0 :: p1 :: p2 :: p3 :: p4 :: p5 :: r ++ rest) 2) with (p2 :: p3 :: p4 :: p5 :: r ++ rest).
  destruct (Z.eqb_spec (256 * p0 + p1) 1); cbn [negb].
  2: { replace (beq _ _) with false; [done|]. symmetry. apply beq_false. intros [=]. lia. }
  erewrite lift_bind by (by apply get_uint16_cons).
  destruct (Z.eqb_spec (256 * p2 + p3) 0x0800); cbn [negb].
  2: { replace (beq _ _) with false; [done|]. symmetry. apply beq_false. intros [=]. lia. }
  erewrite lift_bind by (apply rd_ok; [lia|reflexivity]). destruct (Z.eqb_spec p4 6); cbn [negb].
  2: { replace (beq _ _) with false; [done|]. symmetry. apply beq_false. intros [=]. lia. }
  erewrite lift_bind by (apply rd_ok; [lia|reflexivity]). destruct (Z.eqb_spec p5 4); cbn [negb].
  2: { replace (beq _ _) with false; [done|]. symmetry. apply beq_false. intros [=]. lia. }
  replace (beq _ _) with true; [done|]. symmetry. apply beq_true.
  repeat f_equal; lia.
Qed.

Lemma zlen_arp_packet op sha spa tha tpa :
  zlen sha = 6 -> zlen spa = 4 -> zlen tha = 6 -> zlen tpa = 4 -> zlen (arp_packet op sha spa tha tpa) = 28.
Proof. intros. unfold arp_packet. autorewrite with zlen. change (zlen []) with 0. lia. Qed.

Lemma list4 {A} (l : list A) : zlen l = 4 -> exists a b c d, l = [a; b; c; d].
Proof. destruct l as [|a [|b [|c [|d [|]]]]]; intros Hl; try solve [zl]. by exists a, b, c, d. Qed.

Lemma list6 {A} (l : list A) : zlen l = 6 -> exists a b c d e f, l = [a; b; c; d; e; f].
Proof.
  destruct l as [|a [|b [|c [|d [|e [|f [|]]]]]]]; intros Hl; try solve [zl].
  by exists a, b, c, d, e, f.
Qed.

(** The answer to a request: sender and target exchanged, the own address
    filled in; a request from the own IP address fails the assertion. *)
Lemma arp_answer_spec mac sha spa tha tpa rest :
  zlen mac = 6 -> zlen sha = 6 -> zlen spa = 4 -> zlen tha = 6 -> zlen tpa = 4 ->
  arp_answer mac sha spa tpa (arp_packet 1 sha spa tha tpa ++ rest) =
  if beq spa tpa then Fault AssertFailed else Ret (arp_packet 2 mac tpa sha spa).
Proof.
  intros L1 L2 L3 L4 L5. unfold arp_answer.
  rewrite rdn_app_l by (by rewrite zlen_arp_packet). mcbn.
  destruct (list6 mac L1) as (m0 & m1 & m2 & m3 & m4 & m5 & ->).
  destruct (list6 sha L2) as (s0 & s1 & s2 & s3 & s4 & s5 & ->).
  destruct (list6 tha L4) as (t0 & t1 & t2 & t3 & t4 & t5 & ->).
  destruct (list4 spa L3) as (i0 & i1 & i2 & i3 & ->).
  destruct (list4 tpa L5) as (j0 & j1 & j2 & j3 & ->).
  rewrite addr_eq_same_len by done. by destruct (beq _ _).
Qed.

Lemma fields_of_arp_packet op sha spa tha tpa rest :
  is_u 16 op -> zlen sha = 6 -> zlen spa = 4 -> zlen tha = 6 -> zlen tpa = 4 ->
  let p := arp_packet op sha spa tha tpa ++ rest in
  addr_of_data (padd p 8) 6 = Ret sha /\ addr_of_data (padd p 14) 4 = Ret spa /\
  addr_of_data (padd p 18) 6 = Ret tha /\ addr_of_data (padd p 24) 4 = Ret tpa /\
  get_uint16 (padd p 6) = Ret op.
Proof.
  intros Hop L1 L2 L3 L4 p.
  assert (E8 : padd p 8 = sha ++ spa ++ tha ++ tpa ++ rest).
  { unfold p, arp_packet. rewrite be16_div. cbn [app]. unfold padd. cbn [Z.to_nat Pos.to_nat Pos.iter_op Nat.add drop].
    by rewrite <- !app_assoc. }
  assert (E14 : padd p 14 = spa ++ tha ++ tpa ++ rest).
  { change 14 with (8 + 6). rewrite <- padd_padd, E8 by lia. by apply padd_app. }
  assert (E18 : padd p 18 = tha ++ tpa ++ rest).
  { change 18 with (14 + 4). rewrite <- padd_padd, E14 by lia. by apply padd_app. }
  assert (E24 : padd p 24 = tpa ++ rest).
  { change 24 with (18 + 6). rewrite <- padd_padd, E18 by lia. by apply padd_app. }
  rewrite E8, E14, E18, E24. unfold addr_of_data. rewrite !rdn_app_l by done.
  do 4 (split; [done|]). change (padd p 6) with ((be16 op ++ sha ++ spa ++ tha ++ tpa) ++ rest).
  rewrite <- app_assoc. by apply get_put_uint16.
Qed.

(** An ARP reply: the cache learns, the pending requests are answered. *)
Definition learned (sha spa : addr) (cache cache' : list (addr * addr)) : Prop :=
  forall x, amap_get cache' x =
    if beq spa x then Some (default sha (amap_get cache x)) else amap_get cache x.

Lemma arp_cache_insert (cache : list (addr * addr)) sha spa :
  amap_wf 4 cache -> Forall (fun kv => zlen kv.2 = 6 /\ bytes kv.2) cache ->
  zlen spa = 4 -> zlen sha = 6 -> bytes sha ->
  exists cache', amap_insert cache spa sha = Ret cache' /\ amap_wf 4 cache' /\
    Forall (fun kv => zlen kv.2 = 6 /\ bytes kv.2) cache' /\ learned sha spa cache cache'.
Proof.
  intros Hwf Hv Hk Hs Hbs. destruct (amap_insert_spec 4 cache spa sha Hwf Hk) as (c' & Hi & Hwf' & Hget & _).
  exists c'. split; [done|]. split; [done|]. split.
  - clear Hwf Hwf' Hget. revert c' Hi.
    induction Hv as [|[k v] r Hv Hr IH]; intros c' Hi; cbn [amap_insert] in Hi.
    { injection Hi as <-. constructor; [done|constructor]. }
    apply bind_Ret_inv in Hi as ([] & _ & Hi).
    + apply bind_Ret_inv in Hi as (t & Ht & [= <-]). constructor; [done|by apply IH].
    + apply bind_Ret_inv in Hi as ([] & _ & [= <-]); (constructor; [done|]); [by constructor|done].
  - intros x. rewrite Hget. destruct (beq_spec spa x) as [->|]; [|done]. by destruct (amap_get cache x).
Qed.

Lemma arp_run_in_aux mac ip m st w full from to pl pad :
  m_data m = up_data full from to pl ++ pad -> bytes pl ->
  zlen full <= 65535 -> zlen from <= 255 -> zlen to <= 255 -> zlen pl <= 65535 ->
  zlen mac = 6 -> zlen ip = 4 -> arp_wf st ->
  match (if (zlen from =? 6) && (zlen to =? 6) then arp_parse pl else None) with
  | Some (op, sha, spa, tha, tpa) =>
    if (op =? 1) && beq tpa ip then
      arp_run_in mac ip m st w =
      if beq spa tpa then Fault AssertFailed else
      Ret (st, after_send (sender_of m)
                 (message_of (down_data mac sha (arp_packet 2 mac ip sha spa)) (Some (m_msg_nr m))) w)
    else if op =? 2 then
      exists st', arp_run_in mac ip m st w = Ret (st', answered sha spa (requests st) w) /\ arp_wf st' /\
        requests st' = unresolved sha spa (requests st) /\ learned sha spa (arp_cache st) (arp_cache st')
    else arp_run_in mac ip m st w = Ret (st, w)
  | None => arp_run_in mac ip m st w = Ret (st, w)
  end.
Proof.
  intros Hm Hb Hk Hf Ht Hp Lm Li (Hrs & Hc & Hv).
  assert (fits full /\ fits from /\ fits to /\ fits pl) as (F1 & F2 & F3 & F4) by (unfold fits; lia).
  unfold arp_run_in. erewrite lift_bind by (by eapply unwrap_message_up_data).
  cbn [u_pl u_pl_len u_from u_from_len u_to u_to_len].
  destruct (Z.eqb_spec (zlen from) 6) as [Lf|]; [|done].
  destruct (Z.eqb_spec (zlen to) 6) as [Lt|]; [|done]. cbn [negb orb andb].
  destruct (Z.ltb_spec (zlen pl) 28) as [|Hl].
  { unfold arp_parse. by replace (28 <=? zlen pl) with false by lia. }
  rewrite arp_checks by done.
  destruct (arp_parse pl) as [[[[[op sha] spa] tha] tpa]|] eqn:E.
  2: { unfold arp_parse in E. replace (28 <=? zlen pl) with true in E by lia. cbn [andb] in E.
       by destruct (beq _ _). }
  replace (beq (take 6 pl) [0; 1; 8; 0; 6; 4]) with true.
  2: { unfold arp_parse in E. replace (28 <=? zlen pl) with true in E by lia. cbn [andb] in E.
       by destruct (beq _ _). }
  destruct (arp_parse_inv pl op sha spa tha tpa Hb E)
    as (Hop & L1 & L2 & L3 & L4 & B1 & B2 & B3 & B4 & extra & Hpl).
  set (rest := full ++ pad). rewrite Hpl, <- app_assoc.
  destruct (fields_of_arp_packet op sha spa tha tpa (extra ++ rest) Hop L1 L2 L3 L4)
    as (E1 & E2 & E3 & E4 & E5).
  erewrite lift_bind by exact E1. erewrite lift_bind by exact E2. erewrite lift_bind by exact E3.
  erewrite lift_bind by exact E4. erewrite lift_bind by exact E5.
  destruct (Z.eqb_spec op 1) as [->|Hop1]; cbn [andb].
  - erewrite lift_bind by (apply addr_eq_same_len; lia).
    destruct (beq_spec tpa ip) as [->|]; [|done].
    pose proof (arp_answer_spec mac sha spa tha ip (extra ++ rest) Lm L1 L2 L3 L4) as Ha.
    destruct (beq spa ip).
    { by erewrite lift_bind_Fault by exact Ha. }
    erewrite lift_bind by exact Ha.
    assert (forall a, zlen a = 6 -> addr_get a (zeros 6) 0 = Ret a) as Hget.
    { intros a La. destruct (list6 a La) as (a0 & a1 & a2 & a3 & a4 & a5 & ->). done. }
    erewrite lift_bind by (by apply Hget). erewrite lift_bind by (by apply Hget).
    erewrite lift_bind.
    2: { eapply wrap_message_down_gen; [by apply rdn_all|by apply rdn_all| |done|done|].
         - apply rdn_all. by rewrite zlen_arp_packet.
         - by rewrite zlen_arp_packet. }
    rewrite send_after; [done|]. apply down_message_size. rewrite zlen_arp_packet by done. lia.
  - destruct (Z.eqb_spec op 2) as [->|]; [|done].
    destruct (arp_cache_insert (arp_cache st) sha spa Hc Hv L2 L1 B1) as (c' & Hi & Hwf' & Hv' & Hlearn).
    erewrite lift_bind by exact Hi.
    erewrite prog_bind_step by (by apply register_resolve_reply_spec).
    eexists. split; [done|]. split; [|done].
    split; [by apply unresolved_wf|done].
Qed.

Lemma addr_get_ok (a : addr) p off :
  0 < zlen a -> 0 <= off -> off + zlen a <= zlen p -> addr_get a p off = Ret (splice p off a).
Proof.
  intros Ha Ho Hp. unfold addr_get. replace (zlen a =? 0) with false by lia. mcbn. cbn [negb assertb].
  by apply wr_ok.
Qed.

Lemma arp_request_bytes_ok mac ip tpa :
  zlen mac = 6 -> zlen ip = 4 -> zlen tpa = 4 ->
  arp_request_bytes mac ip bc_addr tpa = Ret (arp_packet 1 mac ip bc_addr tpa ++ zeros 16).
Proof.
  intros L1 L2 L3.
  destruct (list6 mac L1) as (m0 & m1 & m2 & m3 & m4 & m5 & ->).
  destruct (list4 ip L2) as (i0 & i1 & i2 & i3 & ->).
  by destruct (list4 tpa L3) as (j0 & j1 & j2 & j3 & ->).
Qed.

(** A search for the MAC address of [ip4]. *)
Definition search_mac (ip4 : addr) : list Z := str "search-mac" ++ 61 :: to_str 46 false ip4.

Lemma arp_run_resolver_aux ip mac out_name junk junk_nr m st w target pad :
  m_data m = search_mac target ++ pad -> m_size m = zlen (search_mac target) ->
  bytes target -> zlen target = 4 -> bytes ip -> zlen ip = 4 -> bytes mac -> zlen mac = 6 -> arp_wf st ->
  let me := sender_of m in
  arp_run_resolver ip mac out_name junk junk_nr m st w =
  Ret (match (if beq target ip then Some mac else amap_get (arp_cache st) target) with
       | Some hw => (st, after_send me (reply_message (mac_answer target hw) (m_msg_nr m)) w)
       | None =>
         ({| requests := requests st ++ [ {| r_mac := None; r_ip4 := Some target;
                                             r_searched_by := me; r_msg_nr := junk_nr |} ];
             arp_cache := arp_cache st |},
          after_send out_name
            (message_of (down_data mac bc_addr (arp_packet 1 mac ip bc_addr target ++ zeros 16)) None) w)
       end).
Proof.
  intros Hm Hs Bt Lt Bi Li Bm Lm (Hrs & Hc & Hv) me. unfold arp_run_resolver.
  rewrite Hm, Hs. erewrite lift_bind by (by apply rdn_app_l).
  unfold search_mac. rewrite (split_pair 61); [|by apply str_no_char|apply to_str_no_char; lia].
  rewrite beq_refl.
  erewrite lift_bind by apply (addr_of_to_str junk target Bt).
  erewrite lift_bind by (apply addr_eq_same_len; lia).
  destruct (beq_spec target ip) as [->|Hne].
  { by erewrite prog_bind_step by (apply push_resolver_reply_ok; by apply zlen_mac_answer). }
  erewrite lift_bind by (by apply (amap_find_spec 4)).
  destruct (amap_get (arp_cache st) target) as [hw|] eqn:E.
  { assert (zlen hw = 6 /\ bytes hw) as [Lh Bh].
    { clear -E Hv. induction (arp_cache st) as [|[k v] r IH]; cbn [amap_get] in E; [done|].
      apply Forall_cons_iff in Hv as [[? ?] ?].
      destruct (beq k target); [by injection E as <-|by apply IH]. }
    by erewrite prog_bind_step by (apply push_resolver_reply_ok; by apply zlen_mac_answer). }
  unfold resolver_ask. erewrite lift_bind by (by apply arp_request_bytes_ok).
  erewrite lift_bind.
  2: { eapply wrap_message_down_gen; [by apply rdn_all|by apply rdn_all|by apply rdn_all|done..]. }
  rewrite send_after; [done|]. apply down_message_size.
  rewrite zlen_app, zlen_arp_packet by done. rewrite Lm. change (zlen (zeros 16)) with 16.
  change (zlen bc_addr) with 6. lia.
Qed.

End Arp.

(** ** Properties *)

(** C39: the ARP handler on any packet from the link.  Packets that are too
    short, not Ethernet/IPv4 or of another operation change nothing.  A request
    for the own address is answered, to the process the packet came from and
    with the number of its message, by one ARP reply with sender and target
    exchanged and the own MAC address filled in; only a request whose sender
    claims the own IP address makes the assertion fail.  A reply enters the
    cache unless the address is already known, and settles exactly the pending
    requests it answers, in order.  The well-formedness of the state is
    preserved and nothing is read or written outside a buffer. *)
Theorem arp_run_in_spec `{Transport W} (mac ip : addr) (m : message) (st : arp_state) (w : W)
  (full from to pl pad : list Z)
  (Hm : m_data m = up_data full from to pl ++ pad) (Hb : bytes pl)
  (Hk : zlen full <= 65535) (Hf : zlen from <= 255) (Ht : zlen to <= 255) (Hp : zlen pl <= 65535)
  (Lm : zlen mac = 6) (Li : zlen ip = 4) (Hst : arp_wf st) :
  match (if (zlen from =? 6) && (zlen to =? 6) then arp_parse pl else None) with
  | Some (op, sha, spa, tha, tpa) =>
    if (op =? 1) && beq tpa ip then
      arp_run_in mac ip m st w =
      if beq spa tpa then Fault AssertFailed else
      Ret (st, after_send (sender_of m)
                 (message_of (down_data mac sha (arp_packet 2 mac ip sha spa)) (Some (m_msg_nr m))) w)
    else if op =? 2 then
      exists st', arp_run_in mac ip m st w = Ret (st', answered sha spa (requests st) w) /\ arp_wf st' /\
        requests st' = unresolved sha spa (requests st) /\ learned sha spa (arp_cache st) (arp_cache st')
    else arp_run_in mac ip m st w = Ret (st, w)
  | None => arp_run_in mac ip m st w = Ret (st, w)
  end.
Proof. by apply (arp_run_in_aux mac ip m st w full from to pl pad). Qed.

Definition ex_mac : addr := [2; 0; 0; 0; 0; 1].
Definition ex_mac2 : addr := [2; 0; 0; 0; 0; 2].
Definition ex_ip : addr := [10; 0; 0; 1].
Definition ex_ip_b : addr := [10; 0; 0; 2].
Definition ex_arp_state : arp_state := {| requests := []; arp_cache := [] |}.

Lemma arp_run_in_spec_witness :
  exists st', arp_run_in (W := oracle) ex_mac ex_ip
      (message_of (up_data [] ex_mac2 ex_mac (arp_packet 2 ex_mac2 ex_ip_b ex_mac ex_ip)) None) ex_arp_state oracle_ok =
    Ret (st', oracle_ok) /\ arp_wf st' /\ requests st' = [] /\ learned ex_mac2 ex_ip_b [] (arp_cache st').
Proof.
  apply (arp_run_in_spec (W := oracle) ex_mac ex_ip
      (message_of (up_data [] ex_mac2 ex_mac (arp_packet 2 ex_mac2 ex_ip_b ex_mac ex_ip)) None) ex_arp_state oracle_ok
      [] ex_mac2 ex_mac (arp_packet 2 ex_mac2 ex_ip_b ex_mac ex_ip) []).
  all: try (vm_compute; congruence).
  - concrete_bytes.
  - repeat constructor.
Defined.

(** Address resolution from the search to the cached answer.  When a
    process searches the MAC address of [target], which is neither the own
    address nor cached, one ARP request for [target] is broadcast and the
    search is kept pending; when later an ARP reply of [target] with address
    [sha] comes in, the searcher (and nobody else, if no other search was
    pending) gets the answer "ip4:target=mac:sha", no search is left pending,
    and the next search for [target] is answered at once from the cache with
    the same text.  The late answer carries [junk_nr], the value the code never
    initialises, instead of the number of the search's message. *)
Theorem arp_resolution `{Transport W} (ip mac : addr) (out_name : list Z) (junk : nat -> Z) (junk_nr : Z)
  (st : arp_state) (m1 m2 m3 : message) (w1 w2 w3 : W) (target sha tha tpa pad1 full pad2 pad3 : list Z)
  (Hst : arp_wf st) (Hpend : requests st = []) (Bi : bytes ip) (Li : zlen ip = 4)
  (Bm : bytes mac) (Lm : zlen mac = 6) (Bt : bytes target) (Lt : zlen target = 4) (Hne : target <> ip)
  (Hnew : amap_get (arp_cache st) target = None)
  (Hm1 : m_data m1 = search_mac target ++ pad1) (Hs1 : m_size m1 = zlen (search_mac target))
  (Bs : bytes sha) (Ls : zlen sha = 6) (Ltha : zlen tha = 6) (Btha : bytes tha)
  (Ltpa : zlen tpa = 4) (Btpa : bytes tpa) (Hfull : zlen full <= 65535)
  (Hm2 : m_data m2 = up_data full sha tha (arp_packet 2 sha target tha tpa) ++ pad2)
  (Hm3 : m_data m3 = search_mac target ++ pad3) (Hs3 : m_size m3 = zlen (search_mac target)) :
  let answer := mac_answer target sha in
  exists st1 st2,
    arp_run_resolver ip mac out_name junk junk_nr m1 st w1 =
      Ret (st1, after_send out_name
                  (message_of (down_data mac bc_addr (arp_packet 1 mac ip bc_addr target ++ zeros 16)) None) w1) /\
    zlen (requests st1) = 1 /\
    arp_run_in mac ip m2 st1 w2 = Ret (st2, after_send (sender_of m1) (reply_message answer junk_nr) w2) /\
    requests st2 = [] /\ arp_wf st2 /\
    arp_run_resolver ip mac out_name junk junk_nr m3 st2 w3 =
      Ret (st2, after_send (sender_of m3) (reply_message answer (m_msg_nr m3)) w3).
Proof.
  intros answer. pose proof Hst as (Hrs & Hc & Hv).
  assert (Hbeq : beq target ip = false) by (by apply beq_false).
  assert (Hp : arp_parse (arp_packet 2 sha target tha tpa) = Some (2, sha, target, tha, tpa)).
  { destruct (list6 sha Ls) as (a0 & a1 & a2 & a3 & a4 & a5 & ->).
    destruct (list6 tha Ltha) as (b0 & b1 & b2 & b3 & b4 & b5 & ->).
    destruct (list4 target Lt) as (c0 & c1 & c2 & c3 & ->).
    by destruct (list4 tpa Ltpa) as (d0 & d1 & d2 & d3 & ->). }
  set (r := {| r_mac := None; r_ip4 := Some target; r_searched_by := sender_of m1; r_msg_nr := junk_nr |}).
  set (st1 := {| requests := [r]; arp_cache := arp_cache st |}).
  assert (Hst1 : arp_wf st1) by (split; [by repeat constructor|done]).
  assert (Hr : resolves sha target r = Some answer).
  { unfold resolves. cbn [r_mac r_ip4 r]. by rewrite bool_decide_eq_false_2, bool_decide_eq_true_2. }
  pose proof (arp_run_in_aux mac ip m2 st1 w2 full sha tha (arp_packet 2 sha target tha tpa) pad2 Hm2) as Hin.
  rewrite Ls, Ltha, Hp in Hin. cbn [Z.eqb andb Pos.eqb] in Hin.
  destruct Hin as (st2 & Hin & Hwf2 & Hreq & Hlearn); try done; try lia.
  { unfold arp_packet. rewrite !bytes_app. repeat split; auto with myip. repeat constructor; unfold is_byte; lia. }
  { rewrite zlen_arp_packet; done || lia. }
  exists st1, st2. split.
  { rewrite (arp_run_resolver_aux ip mac out_name junk junk_nr m1 st w1 target pad1) by done.
    rewrite Hbeq, Hnew, Hpend. done. }
  split; [done|]. split.
  { rewrite Hin. cbn [st1 requests answered]. by rewrite Hr. }
  assert (Hreq2 : requests st2 = []).
  { rewrite Hreq. unfold unresolved. cbn [st1 requests]. rewrite filter_cons, Hr. by rewrite decide_False. }
  split; [done|]. split; [done|].
  rewrite (arp_run_resolver_aux ip mac out_name junk junk_nr m3 st2 w3 target pad3) by done.
  rewrite Hbeq, Hlearn, beq_refl. cbn [st1 arp_cache]. by rewrite Hnew.
Qed.

Definition ex_search : message :=
  fill_message (allocate_shm_message (zlen (search_mac ex_ip_b))) msg_new 7 (search_mac ex_ip_b).

Lemma arp_resolution_witness :
  exists st1 st2,
    arp_run_resolver (W := oracle) ex_ip ex_mac (str "eth") (fun _ => 0) 99 ex_search ex_arp_state oracle_ok =
      Ret (st1, after_send (str "eth")
                  (message_of (down_data ex_mac bc_addr (arp_packet 1 ex_mac ex_ip bc_addr ex_ip_b ++ zeros 16)) None) oracle_ok) /\
    zlen (requests st1) = 1 /\
    arp_run_in (W := oracle) ex_mac ex_ip
      (message_of (up_data [] ex_mac2 ex_mac (arp_packet 2 ex_mac2 ex_ip_b ex_mac ex_ip)) None) st1 oracle_ok =
      Ret (st2, after_send [] (reply_message (mac_answer ex_ip_b ex_mac2) 99) oracle_ok) /\
    requests st2 = [] /\ arp_wf st2 /\
    arp_run_resolver (W := oracle) ex_ip ex_mac (str "eth") (fun _ => 0) 99 ex_search st2 oracle_ok =
      Ret (st2, after_send [] (reply_message (mac_answer ex_ip_b ex_mac2) 7) oracle_ok).
Proof.
  apply (arp_resolution (W := oracle) ex_ip ex_mac (str "eth") (fun _ => 0) 99 ex_arp_state
    ex_search (message_of (up_data [] ex_mac2 ex_mac (arp_packet 2 ex_mac2 ex_ip_b ex_mac ex_ip)) None) ex_search
    oracle_ok oracle_ok oracle_ok ex_ip_b ex_mac2 ex_mac ex_ip [] [] [] []).
  all: try (vm_compute; congruence).
  all: try concrete_bytes; by repeat constructor.
Defined.
