(* ===== verification/Ip4In.v ===== *)
(** * The IPv4 server, receiving side: [src/ip4_server.cpp] [run_in]

    [ip4_run_in] is the body of the receive loop for one message: header
    checks, ICMP errors, the store of fragments, and the hand-over to the
    upper protocol.  [packets] is the map [run_in] and its cleaner thread
    share; both are functions of it (they hold [packets_lock]). *)

From S2P Require Import Prelude Net Checksum Str Addr SipHash ShmMessage Transport Icmp.

(** ** Code *)

Definition packet_fragmentation_timeout : Z := 5000000.

Definition session_id_salt : list Z := [0x01; 0x02; 0x03; 0x04; 0x05; 0x06; 0x08; 0x09; 0x0a; 0x0b; 0x0c; 0x0d; 0x0e; 0x0f; 0x10; 0].

(** [calc_session_id(from, to, protocol, id)] *)
Definition ip4_calc_session_id (from to : addr) (protocol id : Z) : outcome Z :=
  let from_len := zlen from in
  let session_id_buffer_len := 2 + 2 + from_len + zlen to in
  let session_id_buffer := zeros session_id_buffer_len in
  session_id_buffer ← wr session_id_buffer 0 (le_bytes 2 (u16 protocol));
  session_id_buffer ← wr session_id_buffer 2 (le_bytes 2 (u16 id));
  session_id_buffer ← addr_get from session_id_buffer 4;
  session_id_buffer ← addr_get to session_id_buffer (4 + from_len);
  Ret (Z.lor (u64 (Z.shiftl (sip_out session_id_buffer session_id_salt 0) 32))
             (sip_out session_id_buffer session_id_salt 1)).

(** [struct packet]: a packet under reassembly. *)
Record packet := {
  p_latest_ts : Z;
  p_data : list Z;
  p_len : Z;
  p_full_size_known : bool;
  p_fragments : list (Z * Z) }.

(** [std::sort] by [first]; for pairs with equal [first] the order is that of
    the library's insertion sort. *)
Fixpoint insert_fragment (f : Z * Z) (l : list (Z * Z)) : list (Z * Z) :=
  match l with
  | [] => [f]
  | g :: r => if f.1 <=? g.1 then f :: l else g :: insert_fragment f r
  end.

Definition sort_fragments (l : list (Z * Z)) : list (Z * Z) := foldr insert_fragment [] l.

(** The loop of [is_complete] over the sorted fragments. *)
Fixpoint contiguous (prev_end : Z) (l : list (Z * Z)) : bool :=
  match l with
  | [] => true
  | fragment :: r =>
    if negb (fragment.1 =? prev_end) then false
    else contiguous (u16 (fragment.1 + fragment.2)) r
  end.

(** [is_complete(p)]: the result, and [p] with its fragments sorted. *)
Definition is_complete (p : packet) : bool * packet :=
  if negb (p_full_size_known p) then (false, p) else
  let fragments := sort_fragments (p_fragments p) in
  (contiguous 0 fragments,
   {| p_latest_ts := p_latest_ts p; p_data := p_data p; p_len := p_len p;
      p_full_size_known := p_full_size_known p; p_fragments := fragments |}).

(** The fragment store: lines 230 to 254. [junk] is what [realloc] leaves in
    the bytes it adds. The packet is returned when it is complete. *)
Definition store_fragment (junk : nat -> Z) (now : Z) (packets : gmap Z packet) (frag_session : Z)
  (offset flags : Z) (payload : list Z) : outcome (gmap Z packet * option packet) :=
  let it := match packets !! frag_session with
            | Some p => p
            | None => {| p_latest_ts := 0; p_data := []; p_len := 0; p_full_size_known := false; p_fragments := [] |}
            end in
  let current_fragment_end := offset + zlen payload in
  let grown := current_fragment_end >? p_len it in
  let data := if grown then p_data it ++ fresh junk (current_fragment_end - zlen (p_data it)) else p_data it in
  let len := if grown then current_fragment_end else p_len it in
  data ← wr data offset payload;
  let fragments := p_fragments it ++ [(offset, u16 (zlen payload))] in
  let p := {| p_latest_ts := now; p_data := data; p_len := len;
              p_full_size_known := p_full_size_known it || (Z.land flags 1 =? 0);
              p_fragments := fragments |} in
  let '(complete, p) := is_complete p in
  Ret (if complete then (delete frag_session packets, Some p) else (<[frag_session := p]> packets, None)).

Section Ip4In.
Context `{Transport W}.

(** Body of [run_in]. [now] is [get_us()]. *)
Definition ip4_run_in (listen_addr : addr) (mappings_in : gmap Z (list Z)) (icmp_error_name : list Z)
  (junk : nat -> Z) (now : Z) (m : message) (packets : gmap Z packet) : prog W (gmap Z packet) :=
  v ← lift (unwrap_message_up m);
  let pl := u_pl v in
  let pl_len := u_pl_len v in
  if pl_len <? 20 then mret packets else
  ip4_src ← lift (addr_of_data (padd pl 12) 4);
  ip4_dst ← lift (addr_of_data (padd pl 16) 4);
  b0 ← lift (rd pl 0);
  let header_size := Z.land b0 15 * 4 in
  b2 ← lift (rd pl 2);
  b3 ← lift (rd pl 3);
  let ip_size := Z.lor (Z.shiftl b2 8) b3 in
  protocol ← lift (rd pl 9);
  b6 ← lift (rd pl 6);
  let flags := Z.shiftr b6 5 in
  let it := mappings_in !! protocol in
  if negb (Z.shiftr b0 4 =? 0x04) then mret packets else
  for_me ← lift (addr_eq ip4_dst listen_addr);
  if negb for_me then mret packets else
  if header_size >? ip_size then
    _ ← ip4_send_icmp_error icmp_error_name 12 2 pl pl_len ip4_src ip4_dst; mret packets
  else if ip_size >? pl_len then
    _ ← ip4_send_icmp_error icmp_error_name 12 2 pl pl_len ip4_src ip4_dst; mret packets
  else
  ttl ← lift (rd pl 8);
  if ttl =? 0 then
    _ ← ip4_send_icmp_error icmp_error_name 11 0 pl pl_len ip4_src ip4_dst; mret packets
  else
  match it with
  | None => _ ← ip4_send_icmp_error icmp_error_name 3 2 pl pl_len ip4_src ip4_dst; mret packets
  | Some upper =>
    checksum ← lift (ip_checksum pl header_size);
    if negb (checksum =? 0) then mret packets else
    let pl_without_header_len := ip_size - header_size in
    b4 ← lift (rd pl 4);
    b5 ← lift (rd pl 5);
    let id := Z.lor (Z.shiftl b4 8) b5 in
    b7 ← lift (rd pl 7);
    let offset := u16 (Z.lor (Z.shiftl (Z.land b6 31) 8) b7 * 8) in
    msg_id ← lift (ip4_calc_session_id ip4_src ip4_dst protocol id);
    if (offset >? 0) || negb (Z.land flags 1 =? 0) then
      payload ← lift (rdn pl header_size pl_without_header_len);
      r ← lift (store_fragment junk now packets msg_id offset flags payload);
      match r.2 with
      | Some p =>
        wrapped ← lift (wrap_message_up ip_size pl 4 (padd pl 12) 4 (padd pl 16) (p_len p) (p_data p) None);
        _ ← send upper (with_id wrapped msg_id) false;
        mret r.1
      | None => mret r.1
      end
    else
      wrapped ← lift (wrap_message_up ip_size pl 4 (padd pl 12) 4 (padd pl 16)
                        pl_without_header_len (padd pl header_size) None);
      _ ← send upper (with_id wrapped msg_id) false;
      mret packets
  end.

End Ip4In.

(** One round of the cleaner thread of [run_in]. *)
Definition ip4_clean_packets (now : Z) (packets : gmap Z packet) : gmap Z packet :=
  filter (fun kv => u64 (now - p_latest_ts kv.2) < packet_fragmentation_timeout) packets.

(** ** Lemmas: the header *)

(** The fields of a header, as numbers. *)
Definition ip4_hl (pl : list Z) : Z := nth 0 pl 0 mod 16 * 4.
Definition ip4_version (pl : list Z) : Z := nth 0 pl 0 / 16.
Definition ip4_size (pl : list Z) : Z := 256 * nth 2 pl 0 + nth 3 pl 0.
Definition ip4_id (pl : list Z) : Z := 256 * nth 4 pl 0 + nth 5 pl 0.
Definition ip4_more (pl : list Z) : bool := Z.odd (nth 6 pl 0 / 32).
Definition ip4_offset (pl : list Z) : Z := (256 * (nth 6 pl 0 mod 32) + nth 7 pl 0) * 8.
Definition ip4_ttl (pl : list Z) : Z := nth 8 pl 0.
Definition ip4_protocol (pl : list Z) : Z := nth 9 pl 0.
Definition ip4_src (pl : list Z) : addr := sub pl 12 4.
Definition ip4_dst (pl : list Z) : addr := sub pl 16 4.
Definition ip4_payload (pl : list Z) : list Z := sub pl (ip4_hl pl) (ip4_size pl - ip4_hl pl).

(** What [run_in] does with a packet. *)
Inductive ip4_verdict : Type :=
| IDrop
| IError (type code : Z)
| IAccept (upper : list Z).

Definition ip4_judge (listen_addr : addr) (mappings_in : gmap Z (list Z)) (pl : list Z) : ip4_verdict :=
  if zlen pl <? 20 then IDrop else
  if negb (ip4_version pl =? 4) then IDrop else
  if negb (beq (ip4_dst pl) listen_addr) then IDrop else
  if (ip4_size pl <? ip4_hl pl) || (zlen pl <? ip4_size pl) then IError 12 2 else
  if ip4_ttl pl =? 0 then IError 11 0 else
  match mappings_in !! ip4_protocol pl with
  | None => IError 3 2
  | Some upper =>
    if bool_decide (ip_checksum (take (Z.to_nat (ip4_hl pl)) pl) (ip4_hl pl) = Ret 0) then IAccept upper else IDrop
  end.

Lemma byte_land15 b : is_byte b -> Z.land b 15 = b mod 16.
Proof. intros _. change 15 with (Z.ones 4). rewrite Z.land_ones by lia. done. Qed.

Lemma byte_join a b : is_byte b -> Z.lor (Z.shiftl a 8) b = 256 * a + b.
Proof. intros Hb. rewrite shiftl_lor_add; [|lia|unfold is_u, is_byte in *; lia]. change (2 ^ 8) with 256. lia. Qed.

Lemma byte_flag b : is_byte b -> negb (Z.land (Z.shiftr b 5) 1 =? 0) = Z.odd (b / 32).
Proof.
  intros _. rewrite Z.shiftr_div_pow2 by lia. change (2 ^ 5) with 32. set (x := b / 32).
  change 1 with (Z.ones 1) at 1. rewrite Z.land_ones by lia. change (2 ^ 1) with 2.
  rewrite Zmod_odd. by destruct (Z.odd x).
Qed.

Lemma ip4_offset_code b6 b7 :
  is_byte b6 -> is_byte b7 ->
  u16 (Z.lor (Z.shiftl (Z.land b6 31) 8) b7 * 8) = (256 * (b6 mod 32) + b7) * 8.
Proof.
  unfold is_byte. intros H6 H7. rewrite byte_join by done.
  change 31 with (Z.ones 5). rewrite Z.land_ones by lia. change (2 ^ 5) with 32.
  apply wrap_small. unfold is_u. pose proof (Z.mod_pos_bound b6 32). lia.
Qed.

(** The session id is defined for addresses of four bytes. *)
Lemma ip4_calc_session_id_ok from to protocol id :
  zlen from = 4 -> zlen to = 4 -> exists sid, ip4_calc_session_id from to protocol id = Ret sid.
Proof.
  intros Lf Lt. unfold ip4_calc_session_id. rewrite Lf, Lt. change (2 + 2 + 4 + 4) with 12.
  rewrite wr_ok by zls. mcbn. rewrite wr_ok by zls. mcbn.
  unfold addr_get. rewrite Lf, Lt. cbn [Z.eqb negb assertb]. mcbn.
  rewrite wr_ok by zls. mcbn. rewrite wr_ok by zls. mcbn. by eexists.
Qed.

Lemma ip4_calc_session_id_u64 from to protocol id sid : ip4_calc_session_id from to protocol id = Ret sid -> is_u 64 sid.
Proof.
  unfold ip4_calc_session_id.
  intros (b1 & _ & (b2 & _ & (b3 & _ & (b4 & _ & [= <-])%bind_Ret_inv)%bind_Ret_inv)%bind_Ret_inv)%bind_Ret_inv.
  pose proof (sip_out_range b4 session_id_salt 1) as R1. pose proof (sip_out_range b4 session_id_salt 0) as R0.
  unfold is_u in R1, R0. rewrite (wrap_small 64) by (rewrite Z.shiftl_mul_pow2 by lia; unfold is_u; lia).
  rewrite shiftl_lor_add by (unfold is_u; lia). unfold is_u. lia.
Qed.

(** The invariant of the fragment store. *)
Definition packets_wf (packets : gmap Z packet) : Prop :=
  map_Forall (fun _ p => p_len p = zlen (p_data p) /\ p_len p <= 131072) packets.

Lemma is_complete_data p : p_len (is_complete p).2 = p_len p /\ p_data (is_complete p).2 = p_data p.
Proof. unfold is_complete. by destruct (negb _). Qed.

Lemma store_fragment_ok junk now packets sid offset flags payload :
  packets_wf packets -> 0 <= offset <= 65535 -> zlen payload <= 65535 ->
  exists packets' o, store_fragment junk now packets sid offset flags payload = Ret (packets', o) /\
    packets_wf packets' /\
    match o with Some p => p_len p = zlen (p_data p) /\ p_len p <= 131072 | None => True end.
Proof.
  intros Hwf Ho Hl. unfold store_fragment. pose proof (zlen_nonneg payload).
  set (it := match packets !! sid with Some p => p | None => _ end).
  assert (Hit : p_len it = zlen (p_data it) /\ p_len it <= 131072).
  { unfold it. destruct (packets !! sid) as [p|] eqn:E; [by apply (Hwf sid)|by split]. }
  destruct Hit as [Hlen Hmax]. clearbody it. rewrite Hlen in *.
  assert (Hd : forall d n, d = (if offset + zlen payload >? zlen (p_data it)
      then p_data it ++ fresh junk (offset + zlen payload - zlen (p_data it)) else p_data it) ->
      n = (if offset + zlen payload >? zlen (p_data it) then offset + zlen payload else zlen (p_data it)) ->
      zlen d = n /\ offset + zlen payload <= n <= 131072).
  { intros d n -> ->. destruct (Z.gtb_spec (offset + zlen payload) (zlen (p_data it))); [|lia].
    rewrite zlen_app, zlen_fresh by lia. lia. }
  set (d := if _ >? _ then _ ++ _ else _) in *. set (n := if _ >? _ then _ + _ else _) in *.
  destruct (Hd d n eq_refl eq_refl) as [Hdl Hn]. clearbody d n.
  rewrite wr_ok by lia. mcbn. set (p := {| p_latest_ts := now |}).
  assert (Hp : p_len p = zlen (p_data p)) by (cbn; rewrite zlen_splice; lia).
  destruct (is_complete_data p) as [E1 E2]. destruct (is_complete p) as [complete q]. cbn [snd] in *.
  assert (Hq : p_len q = zlen (p_data q) /\ p_len q <= 131072) by (rewrite E1, E2; split; [done|cbn; lia]).
  destruct complete; (eexists _, _; split; [done|]; split; [|done]).
  - by apply map_Forall_delete.
  - by apply map_Forall_insert_2.
Qed.

(** The behaviour of the handler on every packet. *)
Section Ip4InLemmas.
Context `{Transport W}.

Definition ip4_deliver (upper : list Z) (sid : Z) (pl payload : list Z) (w : W) : W :=
  after_send upper
    (with_id (message_of (up_data (take (Z.to_nat (ip4_size pl)) pl) (ip4_src pl) (ip4_dst pl) payload) None) sid) w.

Lemma ip4_fields_ok pl rest :
  bytes pl -> 20 <= zlen pl ->
  let p := pl ++ rest in
  addr_of_data (padd p 12) 4 = Ret (ip4_src pl) /\ addr_of_data (padd p 16) 4 = Ret (ip4_dst pl) /\
  rd p 0 = Ret (nth 0 pl 0) /\ rd p 2 = Ret (nth 2 pl 0) /\ rd p 3 = Ret (nth 3 pl 0) /\
  rd p 4 = Ret (nth 4 pl 0) /\ rd p 5 = Ret (nth 5 pl 0) /\ rd p 6 = Ret (nth 6 pl 0) /\
  rd p 7 = Ret (nth 7 pl 0) /\ rd p 8 = Ret (nth 8 pl 0) /\ rd p 9 = Ret (nth 9 pl 0) /\
  (forall i, is_byte (nth i pl 0)) /\ zlen (ip4_src pl) = 4 /\ zlen (ip4_dst pl) = 4.
Proof.
  intros Hb Hl p.
  assert (Hsub : forall off, 0 <= off -> off + 4 <= zlen pl -> addr_of_data (padd p off) 4 = Ret (sub pl off 4)).
  { intros off Ho Hp. unfold addr_of_data. pose proof (zlen_nonneg rest).
    rewrite rdn_ok by (unfold p, padd; zl). unfold sub, padd, p. rewrite drop_0.
    rewrite drop_app_le, take_app_le by zl. done. }
  assert (Hrd : forall i, 0 <= i < zlen pl -> rd p i = Ret (nth (Z.to_nat i) pl 0)).
  { intros i Hi. unfold p. rewrite rd_prefix by lia. destruct (rd_in pl i Hi) as (b & Hb' & ->).
    f_equal. by rewrite (nth_lookup_Some _ _ 0 _ Hb'). }
  assert (Hby : forall i, is_byte (nth i pl 0)).
  { intros i. rewrite nth_lookup. destruct (pl !! i) as [b|] eqn:E; [by eapply bytes_lookup|unfold is_byte; cbn; lia]. }
  unfold ip4_src, ip4_dst. rewrite !zlen_sub by lia.
  split; [apply Hsub; lia|]. split; [apply Hsub; lia|].
  do 9 (split; [match goal with |- rd p ?i = _ => apply (Hrd i); lia end|]). done.
Qed.

Lemma ip4_run_in_aux listen_addr mappings_in icmp_error_name junk now m packets w full from to pl pad :
  m_data m = up_data full from to pl ++ pad -> bytes pl ->
  zlen full <= 65535 -> zlen from <= 255 -> zlen to <= 255 -> zlen pl <= 65535 ->
  zlen listen_addr = 4 -> packets_wf packets ->
  let run := ip4_run_in listen_addr mappings_in icmp_error_name junk now m packets w in
  match ip4_judge listen_addr mappings_in pl with
  | IDrop => run = Ret (packets, w)
  | IError type code =>
    run = Ret (packets, after_send icmp_error_name
                          (message_of (up_data pl (ip4_dst pl) (ip4_src pl) [type; code]) None) w)
  | IAccept upper =>
    exists sid, ip4_calc_session_id (ip4_src pl) (ip4_dst pl) (ip4_protocol pl) (ip4_id pl) = Ret sid /\
    if (0 <? ip4_offset pl) || ip4_more pl then
      exists packets' o,
        store_fragment junk now packets sid (ip4_offset pl) (nth 6 pl 0 / 32) (ip4_payload pl) = Ret (packets', o) /\
        packets_wf packets' /\
        run = Ret (packets', match o with Some p => ip4_deliver upper sid pl (p_data p) w | None => w end)
    else run = Ret (packets, ip4_deliver upper sid pl (ip4_payload pl) w)
  end.
Proof.
  intros Hm Hb Hk Hf Ht Hp Ll Hwf run.
  assert (fits full /\ fits from /\ fits to /\ fits pl) as (F1 & F2 & F3 & F4) by (unfold fits; lia).
  unfold run, ip4_run_in. erewrite lift_bind by (by eapply unwrap_message_up_data).
  cbn [u_pl u_pl_len]. unfold ip4_judge.
  destruct (Z.ltb_spec (zlen pl) 20) as [|Hl]; [done|].
  set (rest := full ++ pad).
  destruct (ip4_fields_ok pl rest Hb Hl) as
    (Hs & Hd & R0 & R2 & R3 & R4 & R5 & R6 & R7 & R8 & R9 & By & Ls & Ld).
  erewrite lift_bind by exact Hs. erewrite lift_bind by exact Hd.
  erewrite lift_bind by exact R0. erewrite lift_bind by exact R2. erewrite lift_bind by exact R3.
  erewrite lift_bind by exact R9. erewrite lift_bind by exact R6.
  rewrite (byte_join _ _ (By 3%nat)), (byte_land15 _ (By 0%nat)).
  rewrite (Z.shiftr_div_pow2 (nth 0 pl 0)) by lia. change (2 ^ 4) with 16.
  fold (ip4_hl pl) (ip4_version pl) (ip4_size pl) (ip4_protocol pl).
  destruct (ip4_version pl =? 4); cbn [negb]; [|done].
  erewrite lift_bind by (apply addr_eq_same_len; lia).
  destruct (beq (ip4_dst pl) listen_addr); cbn [negb]; [|done].
  assert (Herr : forall type code, is_byte type -> is_byte code ->
    (_ ← ip4_send_icmp_error icmp_error_name type code (pl ++ rest) (zlen pl) (ip4_src pl) (ip4_dst pl); mret packets) w
    = Ret (packets, after_send icmp_error_name (message_of (up_data pl (ip4_dst pl) (ip4_src pl) [type; code]) None) w)).
  { intros type code Bt Bc. erewrite prog_bind_step; [done|]. unfold ip4_send_icmp_error. rewrite send_icmp_error_spec by lia.
    by rewrite !is_byte_u8 by done. }
  rewrite Z.gtb_ltb. destruct (Z.ltb_spec (ip4_size pl) (ip4_hl pl)); cbn [orb].
  { apply Herr; unfold is_byte; lia. }
  rewrite Z.gtb_ltb. destruct (Z.ltb_spec (zlen pl) (ip4_size pl)).
  { apply Herr; unfold is_byte; lia. }
  erewrite lift_bind by exact R8. fold (ip4_ttl pl).
  destruct (ip4_ttl pl =? 0); [apply Herr; unfold is_byte; lia|].
  destruct (mappings_in !! ip4_protocol pl) as [upper|]; [|apply Herr; unfold is_byte; lia].
  assert (Hhl : 0 <= ip4_hl pl <= 60).
  { unfold ip4_hl. pose proof (Z.mod_pos_bound (nth 0 pl 0) 16). lia. }
  assert (Hth : zlen (take (Z.to_nat (ip4_hl pl)) pl) = ip4_hl pl) by (rewrite zlen_take; lia).
  assert (Hck : ip_checksum (pl ++ rest) (ip4_hl pl) = ip_checksum (take (Z.to_nat (ip4_hl pl)) pl) (ip4_hl pl)).
  { pose proof (ip_checksum_prefix (take (Z.to_nat (ip4_hl pl)) pl) (drop (Z.to_nat (ip4_hl pl)) pl ++ rest)) as P.
    by rewrite Hth, app_assoc, take_drop in P. }
  rewrite Hck. pose proof (ip_checksum_spec (take (Z.to_nat (ip4_hl pl)) pl) (Forall_take _ _ _ Hb) ltac:(lia)) as Hc.
  rewrite Hth in Hc. erewrite lift_bind by exact Hc. rewrite Hc. set (c := 65535 - _).
  destruct (Z.eqb_spec c 0) as [E|E]; cbn [negb].
  2: by rewrite bool_decide_eq_false_2 by congruence.
  rewrite bool_decide_eq_true_2 by congruence.
  erewrite lift_bind by exact R4. erewrite lift_bind by exact R5. erewrite lift_bind by exact R7.
  rewrite (byte_join _ _ (By 5%nat)), (ip4_offset_code _ _ (By 6%nat) (By 7%nat)).
  fold (ip4_id pl) (ip4_offset pl).
  destruct (ip4_calc_session_id_ok (ip4_src pl) (ip4_dst pl) (ip4_protocol pl) (ip4_id pl) Ls Ld) as (sid & Hsid).
  exists sid. split; [done|]. erewrite lift_bind by exact Hsid.
  rewrite (byte_flag _ (By 6%nat)). fold (ip4_more pl). rewrite Z.gtb_ltb.
  assert (Hsz : zlen (ip4_payload pl) = ip4_size pl - ip4_hl pl) by (unfold ip4_payload; apply zlen_sub; lia).
  assert (Htk : rdn (pl ++ rest) 0 (ip4_size pl) = Ret (take (Z.to_nat (ip4_size pl)) pl)).
  { rewrite rdn_prefix by lia. unfold sub. by rewrite drop_0. }
  assert (Hts : ip4_size pl = zlen (take (Z.to_nat (ip4_size pl)) pl)) by (rewrite zlen_take; lia).
  assert (Hpay : rdn (pl ++ rest) (ip4_hl pl) (ip4_size pl - ip4_hl pl) = Ret (ip4_payload pl)).
  { pose proof (zlen_nonneg rest). rewrite rdn_ok by (rewrite ?zlen_app; lia). unfold ip4_payload, sub.
    rewrite drop_app_le, take_app_le by zl. done. }
  assert (Hpadd : rdn (padd (pl ++ rest) (ip4_hl pl)) 0 (ip4_size pl - ip4_hl pl) = Ret (ip4_payload pl)).
  { pose proof (zlen_nonneg rest). rewrite rdn_ok by (unfold padd; zl). unfold ip4_payload, sub, padd.
    rewrite drop_0, drop_app_le, take_app_le by zl. done. }
  destruct (orb _ _).
  - erewrite lift_bind by exact Hpay.
    assert (Hoff : 0 <= ip4_offset pl <= 65535).
    { unfold ip4_offset. pose proof (By 7%nat) as H7. unfold is_byte in H7.
      pose proof (Z.mod_pos_bound (nth 6 pl 0) 32). lia. }
    rewrite (Z.shiftr_div_pow2 (nth 6 pl 0)) by lia. change (2 ^ 5) with 32.
    destruct (store_fragment_ok junk now packets sid (ip4_offset pl) (nth 6 pl 0 / 32) (ip4_payload pl) Hwf Hoff ltac:(lia))
      as (packets' & o & Hst & Hwf' & Ho).
    exists packets', o. split; [done|]. split; [done|]. erewrite lift_bind by exact Hst. cbn [fst snd].
    destruct o as [p|]; [|done]. destruct Ho as [Ho Hmax].
    erewrite lift_bind.
    2: { eapply wrap_message_up_gen; [exact Hs|exact Hd|by apply rdn_all|exact Htk|done..]. }
    rewrite send_after; [done|]. cbn [with_id m_size].
    apply up_message_size. rewrite <- Hts. lia.
  - erewrite lift_bind.
    2: { eapply wrap_message_up_gen; [exact Hs|exact Hd|exact Hpadd|exact Htk|done..]. }
    rewrite send_after; [done|]. cbn [with_id m_size]. apply up_message_size. rewrite <- Hts. lia.
Qed.

End Ip4InLemmas.
