(* ===== verification/Reassembly.v ===== *)
(** * Reassembly of fragments: lemmas on the fragment store of [Ip4In]

    A packet cut into consecutive pieces is rebuilt from its pieces in any
    order of arrival.  The invariant of a partly received packet is stated
    against the list of the pieces received so far. *)

From S2P Require Import Prelude Net Ip4In.

(** ** Consecutive pieces *)

(** The pieces of a payload with their offsets. *)
Fixpoint pieces (off : Z) (ps : list (list Z)) : list (Z * list Z) :=
  match ps with
  | [] => []
  | p :: r => (off, p) :: pieces (off + zlen p) r
  end.

(** What the store keeps of a piece. *)
Definition hdr (x : Z * list Z) : Z * Z := (x.1, zlen x.2).

Definition nonempty_pieces (ps : list (list Z)) : Prop := Forall (fun p => 0 < zlen p) ps.

Lemma pieces_bounds off ps x :
  x ∈ pieces off ps -> off <= x.1 /\ x.1 + zlen x.2 <= off + zlen (concat ps) /\ x.2 ∈ ps.
Proof.
  revert off. induction ps as [|p ps IH]; intros off; cbn [pieces concat]; [by intros ?%elem_of_nil|].
  rewrite elem_of_cons, zlen_app. pose proof (zlen_nonneg p). pose proof (zlen_nonneg (concat ps)).
  intros [->|Hx]; cbn [fst snd].
  - split; [lia|]. split; [lia|by left].
  - destruct (IH _ Hx) as (? & ? & ?). split; [lia|]. split; [lia|by right].
Qed.

Lemma pieces_nonempty off ps x : nonempty_pieces ps -> x ∈ pieces off ps -> 0 < zlen x.2.
Proof. intros Hn Hx. eapply Forall_forall in Hn; [exact Hn|]. apply list_elem_of_In. by apply (pieces_bounds off). Qed.

Lemma pieces_disjoint off ps x y :
  x ∈ pieces off ps -> y ∈ pieces off ps -> x = y \/ x.1 + zlen x.2 <= y.1 \/ y.1 + zlen y.2 <= x.1.
Proof.
  revert off. induction ps as [|p ps IH]; intros off; cbn [pieces]; [by intros ?%elem_of_nil|].
  rewrite !elem_of_cons. intros [->|Hx] [->|Hy]; cbn [fst snd].
  - by left.
  - destruct (pieces_bounds _ _ _ Hy). lia.
  - destruct (pieces_bounds _ _ _ Hx). lia.
  - by apply (IH (off + zlen p)).
Qed.

(** Distinct pieces start at distinct offsets. *)
Lemma pieces_offset_inj off ps x y :
  nonempty_pieces ps -> x ∈ pieces off ps -> y ∈ pieces off ps -> x.1 = y.1 -> x = y.
Proof.
  intros Hn Hx Hy E. destruct (pieces_disjoint off ps x y Hx Hy) as [|Hd]; [done|].
  pose proof (pieces_nonempty off ps x Hn Hx). pose proof (pieces_nonempty off ps y Hn Hy). lia.
Qed.

Lemma pieces_NoDup off ps : nonempty_pieces ps -> NoDup (pieces off ps).
Proof.
  intros Hn. revert off. induction Hn as [|p ps Hp Hn IH]; intros off; cbn [pieces]; [constructor|].
  constructor; [|done]. intros Hin. destruct (pieces_bounds _ _ _ Hin). cbn in *. lia.
Qed.

(** Every byte of the payload lies in one piece. *)
Lemma pieces_cover off ps i b :
  0 <= off -> concat ps !! i = Some b ->
  exists x j, x ∈ pieces off ps /\ x.2 !! j = Some b /\ (Z.to_nat off + i = Z.to_nat x.1 + j)%nat.
Proof.
  revert off i. induction ps as [|p ps IH]; intros off i Ho; cbn [pieces concat]; [done|].
  intros [Hi|[Hle Hi]]%lookup_app_Some.
  - exists (off, p), i. split; [by left|done].
  - destruct (IH (off + zlen p) (i - length p)%nat) as (x & j & Hx & Hj & E); [unfold zlen; lia|done|].
    exists x, j. split; [by right|]. split; [done|]. unfold zlen in E. lia.
Qed.

(** ** [is_complete] *)

Lemma insert_fragment_perm f l : insert_fragment f l ≡ₚ f :: l.
Proof.
  induction l as [|g r IH]; cbn [insert_fragment]; [done|].
  destruct (f.1 <=? g.1); [done|]. rewrite IH. constructor.
Qed.

Lemma sort_fragments_perm l : sort_fragments l ≡ₚ l.
Proof. induction l as [|f l IH]; cbn; [done|]. by rewrite insert_fragment_perm, IH. Qed.

Lemma insert_fragment_comm f g l :
  f.1 <> g.1 -> insert_fragment f (insert_fragment g l) = insert_fragment g (insert_fragment f l).
Proof.
  intros Hne. induction l as [|h r IH]; cbn [insert_fragment].
  - destruct (Z.leb_spec f.1 g.1), (Z.leb_spec g.1 f.1); (done || lia).
  - destruct (Z.leb_spec g.1 h.1) as [E1|E1], (Z.leb_spec f.1 h.1) as [E2|E2]; cbn [insert_fragment].
    + destruct (Z.leb_spec f.1 g.1), (Z.leb_spec g.1 f.1); try lia;
        rewrite ?(proj2 (Z.leb_le _ _) E1), ?(proj2 (Z.leb_le _ _) E2); done.
    + destruct (Z.leb_spec f.1 g.1); [lia|]. rewrite (proj2 (Z.leb_gt _ _) E2).
      by rewrite (proj2 (Z.leb_le _ _) E1).
    + destruct (Z.leb_spec g.1 f.1); [lia|]. rewrite (proj2 (Z.leb_gt _ _) E1).
      by rewrite (proj2 (Z.leb_le _ _) E2).
    + rewrite (proj2 (Z.leb_gt _ _) E1), (proj2 (Z.leb_gt _ _) E2). by rewrite IH.
Qed.

(** With distinct offsets the sorted list only depends on the set. *)
Lemma sort_fragments_proper l k : l ≡ₚ k -> NoDup (map fst l) -> sort_fragments l = sort_fragments k.
Proof.
  unfold sort_fragments. induction 1 as [|x l k _ IH|x y l|l k h Hlk IH1 Hkh IH2]; intros Hn; cbn [foldr map] in *.
  - done.
  - apply list.NoDup_cons in Hn as [_ Hn]. by rewrite IH.
  - apply list.NoDup_cons in Hn as [Hx _]. apply not_elem_of_cons in Hx as [Hx _].
    by apply insert_fragment_comm.
  - rewrite IH1 by done. apply IH2. by rewrite <- Hlk.
Qed.

Lemma sort_pieces off ps :
  nonempty_pieces ps -> sort_fragments (map hdr (pieces off ps)) = map hdr (pieces off ps).
Proof.
  intros Hn. revert off. induction Hn as [|p ps Hp Hn IH]; intros off; cbn [pieces map]; [done|].
  change (insert_fragment (hdr (off, p)) (sort_fragments (map hdr (pieces (off + zlen p) ps))) =
          hdr (off, p) :: map hdr (pieces (off + zlen p) ps)).
  rewrite IH. destruct ps as [|q ps]; [done|]. cbn [pieces map insert_fragment hdr fst snd].
  by replace (off <=? off + zlen p) with true by lia.
Qed.

Lemma contiguous_pieces off ps :
  0 <= off -> off + zlen (concat ps) <= 65535 -> contiguous off (map hdr (pieces off ps)) = true.
Proof.
  revert off. induction ps as [|p ps IH]; intros off Ho Hb; cbn [pieces map contiguous hdr fst snd]; [done|].
  cbn [concat] in Hb. rewrite zlen_app in Hb. pose proof (zlen_nonneg p). pose proof (zlen_nonneg (concat ps)).
  rewrite Z.eqb_refl. cbn [negb]. rewrite wrap_small by (unfold is_u; lia). apply IH; lia.
Qed.

Lemma contiguous_ge off l f :
  contiguous off l = true -> Forall (fun g => 0 < g.2 /\ 0 <= g.1 /\ g.1 + g.2 <= 65535) l -> f ∈ l -> off <= f.1.
Proof.
  revert off. induction l as [|g r IH]; intros off; cbn [contiguous]; [by intros _ _ ?%elem_of_nil|].
  destruct (Z.eqb_spec g.1 off) as [E|]; [|done]. cbn [negb].
  intros Hc [Hg Hr]%Forall_cons_iff [->|Hf]%elem_of_cons; [lia|].
  rewrite wrap_small in Hc by (unfold is_u; lia). specialize (IH _ Hc Hr Hf). lia.
Qed.

Lemma concat_nonempty ps : nonempty_pieces ps -> zlen (concat ps) <= 0 -> ps = [].
Proof.
  destruct 1 as [|p ps Hp _]; [done|]. cbn [concat]. rewrite zlen_app. pose proof (zlen_nonneg (concat ps)). lia.
Qed.

(** A contiguous part of the pieces that reaches the end is all of them. *)
Lemma contiguous_all off ps l z :
  nonempty_pieces ps -> 0 <= off -> off + zlen (concat ps) <= 65535 ->
  (forall f, f ∈ l -> f ∈ map hdr (pieces off ps)) -> contiguous off l = true ->
  z ∈ l -> z.1 + z.2 = off + zlen (concat ps) -> l = map hdr (pieces off ps).
Proof.
  intros Hn. revert off l. induction Hn as [|p ps Hp Hn IH]; intros off l Ho Hb Hsub Hc Hzl Hz.
  { by apply Hsub, elem_of_nil in Hzl. }
  cbn [pieces map concat] in *. rewrite zlen_app in Hb. pose proof (zlen_nonneg (concat ps)).
  assert (Hok : Forall (fun g : Z * Z => 0 < g.2 /\ 0 <= g.1 /\ g.1 + g.2 <= 65535) l).
  { apply Forall_forall. intros g Hg%list_elem_of_In. apply Hsub in Hg as [->|Hg]%elem_of_cons; [cbn; lia|].
    apply list_elem_of_fmap in Hg as (y & -> & Hy). pose proof (pieces_nonempty _ _ _ Hn Hy).
    destruct (pieces_bounds _ _ _ Hy). cbn. lia. }
  destruct l as [|f r]; [by apply elem_of_nil in Hzl|]. cbn [contiguous] in Hc.
  destruct (Z.eqb_spec f.1 off) as [E|]; [|done]. cbn [negb] in Hc.
  assert (f = hdr (off, p)) as ->.
  { assert (Hf : f ∈ f :: r) by left. apply Hsub in Hf as [|Hf]%elem_of_cons; [done|].
    apply list_elem_of_fmap in Hf as (y & -> & Hy). destruct (pieces_bounds _ _ _ Hy). cbn in E. lia. }
  cbn [hdr fst snd] in Hc. rewrite wrap_small in Hc by (unfold is_u; lia).
  apply Forall_cons_iff in Hok as [_ Hok]. f_equal.
  assert (Hsub' : forall f, f ∈ r -> f ∈ map hdr (pieces (off + zlen p) ps)).
  { intros f Hf. assert (Hf' : f ∈ hdr (off, p) :: r) by (by right).
    apply Hsub in Hf' as [->|]%elem_of_cons; [|done].
    pose proof (contiguous_ge _ _ _ Hc Hok Hf). cbn in *. lia. }
  apply elem_of_cons in Hzl as [->|Hzr].
  - cbn in Hz. rewrite zlen_app in Hz. rewrite (concat_nonempty ps Hn) in Hsub' |- * by lia.
    destruct r as [|g r]; [done|]. exfalso. assert (Hg : g ∈ g :: r) by left. by apply Hsub', elem_of_nil in Hg.
  - rewrite zlen_app in Hz. apply IH; try done; lia.
Qed.

(** ** The store *)

(** [p] holds the pieces [R] of the payload [concat ps]. *)
Record partial (ps : list (list Z)) (R : list (Z * list Z)) (p : packet) : Prop := {
  pt_len : p_len p = zlen (p_data p);
  pt_max : p_len p <= zlen (concat ps);
  pt_fragments : p_fragments p ≡ₚ map hdr R;
  pt_known : p_full_size_known p = existsb (fun x => x.1 + zlen x.2 =? zlen (concat ps)) R;
  pt_end : forall x, x ∈ R -> x.1 + zlen x.2 <= p_len p;
  pt_data : forall x j b, x ∈ R -> x.2 !! j = Some b -> p_data p !! (Z.to_nat x.1 + j)%nat = Some b }.

Definition stored (ps : list (list Z)) (R : list (Z * list Z)) (packets : gmap Z packet) (sid : Z) : Prop :=
  match packets !! sid with
  | None => R = []
  | Some p => partial ps R p
  end.

Definition empty_packet : packet :=
  {| p_latest_ts := 0; p_data := []; p_len := 0; p_full_size_known := false; p_fragments := [] |}.

Lemma partial_empty ps : partial ps [] empty_packet.
Proof.
  constructor; cbn; try done; try apply zlen_nonneg; intros x; intros; exfalso; by eapply elem_of_nil.
Qed.

(** The packet after a further piece was copied in. *)
Lemma partial_add ps R p x junk now :
  nonempty_pieces ps -> partial ps R p -> x ∈ pieces 0 ps -> (forall y, y ∈ R -> y ∈ pieces 0 ps) -> x ∉ R ->
  let e := x.1 + zlen x.2 in
  let grown := e >? p_len p in
  let data := if grown then p_data p ++ fresh junk (e - zlen (p_data p)) else p_data p in
  zlen data = (if grown then e else p_len p) /\ 0 <= x.1 /\ e <= zlen data /\
  partial ps (x :: R)
    {| p_latest_ts := now; p_data := splice data x.1 x.2; p_len := if grown then e else p_len p;
       p_full_size_known := p_full_size_known p || (e =? zlen (concat ps));
       p_fragments := p_fragments p ++ [hdr x] |}.
Proof.
  intros Hn [Hlen Hmax Hfr Hknown Hend Hdata] Hx HR Hnew e grown data.
  destruct (pieces_bounds 0 ps x Hx) as (Hx0 & Hxe & _). pose proof (zlen_nonneg x.2).
  assert (Hdl : zlen data = (if grown then e else p_len p) /\ e <= zlen data).
  { unfold data, grown. destruct (Z.gtb_spec e (p_len p)); [rewrite zlen_app, zlen_fresh by lia|]; lia. }
  destruct Hdl as [Hdl He]. split; [done|]. split; [lia|]. split; [lia|].
  assert (Hpre : forall i b, p_data p !! i = Some b -> data !! i = Some b).
  { intros i b Hi. unfold data. destruct grown; [|done]. by apply lookup_app_l_Some. }
  constructor; cbn [p_len p_data p_fragments p_full_size_known].
  - rewrite zlen_splice by (unfold e in *; lia). by rewrite Hdl.
  - unfold grown. destruct (Z.gtb_spec e (p_len p)); unfold e; lia.
  - rewrite Hfr. cbn [map]. rewrite Permutation_app_comm. done.
  - rewrite Hknown. cbn [existsb]. apply orb_comm.
  - intros y [->|Hy]%elem_of_cons; [fold e; lia|]. specialize (Hend y Hy).
    unfold grown. destruct (Z.gtb_spec e (p_len p)); lia.
  - intros y j b Hy Hj. pose proof (lookup_lt_Some _ _ _ Hj) as Hlt.
    rewrite splice_lookup by (unfold e in *; lia).
    apply elem_of_cons in Hy as [->|Hy].
    + rewrite decide_False by lia. rewrite decide_True by (unfold zlen; lia).
      rewrite <- Hj. f_equal. lia.
    + specialize (HR y Hy). destruct (pieces_disjoint 0 ps x y Hx HR) as [->|Hd]; [done|].
      destruct (pieces_bounds 0 ps y HR) as (Hy0 & _). unfold zlen in Hd.
      specialize (Hpre _ _ (Hdata y j b Hy Hj)). unfold zlen.
      destruct Hd; [rewrite !decide_False by lia; done|rewrite decide_True by lia; done].
Qed.

(** A packet that holds all pieces holds the payload. *)
Lemma partial_all ps p :
  partial ps (pieces 0 ps) p -> nonempty_pieces ps -> ps <> [] -> p_data p = concat ps.
Proof.
  intros [Hlen Hmax _ _ Hend Hdata] Hn Hne.
  assert (Hge : zlen (concat ps) <= zlen (p_data p)).
  { destruct (decide (concat ps = [])) as [->|Hc]; [unfold zlen; cbn; lia|].
    destruct (lookup_lt_is_Some_2 (concat ps) (pred (length (concat ps)))) as [b Hb].
    { destruct (concat ps); [done|cbn; lia]. }
    destruct (pieces_cover 0 ps _ b ltac:(lia) Hb) as (x & j & Hx & Hj & E).
    specialize (Hdata x j b Hx Hj). apply lookup_lt_Some in Hdata.
    destruct (concat ps); [done|]. unfold zlen. cbn in *. lia. }
  apply list_eq_same_length with (n := length (concat ps)); [done|unfold zlen in *; lia|].
  intros i b1 b2 Hi H1 H2. destruct (pieces_cover 0 ps i b2 ltac:(lia) H2) as (x & j & Hx & Hj & E).
  specialize (Hdata x j b2 Hx Hj). rewrite <- E in Hdata. change (Z.to_nat 0 + i)%nat with i in Hdata. congruence.
Qed.

(** [is_complete] recognises exactly the packets all of whose pieces arrived. *)
Lemma is_complete_pieces ps R p :
  nonempty_pieces ps -> zlen (concat ps) <= 65535 -> ps <> [] -> NoDup R ->
  (forall y, y ∈ R -> y ∈ pieces 0 ps) -> partial ps R p ->
  ((is_complete p).1 = true <-> R ≡ₚ pieces 0 ps) /\ partial ps R (is_complete p).2.
Proof.
  intros Hn Hb Hne HR Hsub Hp. pose proof Hp as [Hlen Hmax Hfr Hknown Hend Hdata].
  assert (Hlast : R ≡ₚ pieces 0 ps -> p_full_size_known p = true).
  { intros E. rewrite Hknown. apply existsb_exists.
    destruct (decide (concat ps = [])) as [Hc|Hc].
    { exfalso. apply Hne, (concat_nonempty ps Hn). rewrite Hc. done. }
    destruct (lookup_lt_is_Some_2 (concat ps) (pred (length (concat ps)))) as [b Hbl].
    { destruct (concat ps); [done|cbn; lia]. }
    destruct (pieces_cover 0 ps _ b ltac:(lia) Hbl) as (x & j & Hx & Hj & Ex). exists x.
    split; [apply list_elem_of_In; by rewrite E|]. apply lookup_lt_Some in Hj.
    destruct (pieces_bounds 0 ps x Hx) as (? & ? & _). apply Z.eqb_eq.
    destruct (concat ps); [done|]. unfold zlen in *. cbn in *. lia. }
  unfold is_complete. destruct (p_full_size_known p) eqn:Ek; cbn [negb fst snd].
  2: { split; [|done]. split; [done|]. intros E. by apply Hlast in E. }
  split.
  - split.
    + intros Hc. assert (E : sort_fragments (p_fragments p) = map hdr (pieces 0 ps)).
      { symmetry in Hknown. apply existsb_exists in Hknown as (x & Hx%list_elem_of_In & Ex%Z.eqb_eq).
        apply (contiguous_all 0 ps _ (hdr x)); try done; try lia.
        - intros f Hf. rewrite (sort_fragments_perm (p_fragments p)), Hfr in Hf.
          apply list_elem_of_fmap in Hf as (y & -> & Hy). apply list_elem_of_fmap. eauto.
        - rewrite (sort_fragments_perm (p_fragments p)), Hfr. apply list_elem_of_fmap. eauto. }
      assert (Hperm : map hdr R ≡ₚ map hdr (pieces 0 ps)) by (by rewrite <- E, sort_fragments_perm, Hfr).
      apply NoDup_Permutation; [done|by apply pieces_NoDup|].
      intros y. split; [apply Hsub|]. intros Hy.
      assert (Hin : hdr y ∈ map hdr R) by (rewrite Hperm; apply list_elem_of_fmap; eauto).
      apply list_elem_of_fmap in Hin as (z & Ez & Hz).
      rewrite (pieces_offset_inj 0 ps y z); try done; [by apply Hsub|]. unfold hdr in Ez. congruence.
    + intros E. assert (Hs : sort_fragments (p_fragments p) = map hdr (pieces 0 ps)).
      { rewrite <- (sort_pieces 0 ps Hn). apply sort_fragments_proper.
        - rewrite Hfr, E. done.
        - rewrite Hfr, E, map_map. cbn [hdr fst]. apply NoDup_fmap_2_strong; [|by apply pieces_NoDup].
          intros y z Hy Hz. by apply (pieces_offset_inj 0 ps). }
      rewrite Hs. apply contiguous_pieces; lia.
  - constructor; cbn; try done. by rewrite sort_fragments_perm.
Qed.

(** One arriving piece. *)
Lemma store_fragment_step junk now packets sid ps R x flags :
  nonempty_pieces ps -> zlen (concat ps) <= 65535 -> ps <> [] ->
  x ∈ pieces 0 ps -> (forall y, y ∈ R -> y ∈ pieces 0 ps) -> NoDup (x :: R) ->
  (Z.land flags 1 =? 0) = (x.1 + zlen x.2 =? zlen (concat ps)) ->
  stored ps R packets sid ->
  exists packets' o, store_fragment junk now packets sid x.1 flags x.2 = Ret (packets', o) /\
    (forall k, k <> sid -> packets' !! k = packets !! k) /\
    ((x :: R ≡ₚ pieces 0 ps /\ packets' !! sid = None /\ exists p, o = Some p /\ p_data p = concat ps) \/
     (~ x :: R ≡ₚ pieces 0 ps /\ o = None /\ stored ps (x :: R) packets' sid)).
Proof.
  intros Hn Hb Hne Hx HR Hnd Hflag Hst.
  pose proof (NoDup_cons_1_1 _ _ Hnd) as Hnew. unfold store_fragment.
  set (it := match packets !! sid with Some p => p | None => _ end).
  assert (Hit : partial ps R it).
  { unfold it, stored in *. destruct (packets !! sid); [done|]. subst R. apply partial_empty. }
  clearbody it. destruct (partial_add ps R it x junk now Hn Hit Hx HR Hnew) as (Hdl & Hx0 & He & Hp).
  destruct (pieces_bounds 0 ps x Hx) as (_ & Hxe & _). pose proof (zlen_nonneg x.2).
  rewrite wr_ok by lia. mcbn. rewrite (wrap_small 16 (zlen x.2)) by (unfold is_u; lia). rewrite Hflag.
  fold (hdr x).
  match type of Hp with partial _ _ ?q => set (p := q) in * end.
  destruct (is_complete_pieces ps (x :: R) p Hn Hb Hne Hnd) as [Hiff Hp2]; [|done|].
  { intros y [->|Hy]%elem_of_cons; [done|by apply HR]. }
  fold (hdr x). change (x.1, zlen x.2) with (hdr x).
  destruct (is_complete p) as [complete q]. cbn [fst snd] in *.
  destruct complete.
  - eexists _, _. split; [done|]. split; [intros k Hk; by rewrite lookup_delete_ne|]. left.
    pose proof (proj1 Hiff eq_refl) as E. split; [done|]. split; [apply lookup_delete_eq|].
    exists q. split; [done|]. apply (partial_all ps q); [|done|done].
    destruct Hp2 as [? ? Hfr2 Hk2 He2 Hd2]. constructor; try done.
    + by rewrite Hfr2, E.
    + rewrite Hk2. apply eq_true_iff_eq. rewrite !existsb_exists.
      split; intros (y & Hy%list_elem_of_In & Ey); exists y; (split; [|done]); apply list_elem_of_In;
        [rewrite <- E|rewrite E]; done.
    + intros y Hy. apply He2. by rewrite E.
    + intros y j b Hy. apply Hd2. by rewrite E.
  - eexists _, _. split; [done|]. split; [intros k Hk; by rewrite lookup_insert_ne|]. right.
    split; [intros E; by apply Hiff in E|]. split; [done|]. unfold stored. by rewrite lookup_insert_eq.
Qed.
