(* ===== verification/Ip4Out.v ===== *)
(** * The IPv4 server, sending side: [src/ip4_server.cpp] [run_out], [run_meta]

    A packet to be sent waits in [pending_messages] until the MAC addresses
    for its source and its next hop are resolved.  The map holds two entries
    per packet that point to one heap object; the model keeps the heap
    ([o_heap]) and the pointers, so the sharing is explicit.  The main loop
    ([ip4_run_out]), the sender thread ([ip4_sender]) and the cleaner thread
    ([ip4_clean_pending]) hold [pending_messages_lock] for a whole round and
    are functions of that state. *)

From S2P Require Import Prelude Net Checksum Str Addr ShmMessage Transport Ip4In Reassembly.

(** ** Code *)

Definition arp_timeout : Z := 2500000.

(** The table [masks]: [masks[i]] has the [i] upper bits set. *)
Fixpoint masks_loop (n : nat) (mask_value : Z) : list Z :=
  match n with
  | O => []
  | S n' => mask_value :: masks_loop n' (Z.lor (Z.shiftr mask_value 1) 0x80000000)
  end.

Definition masks : list Z := masks_loop 32 0.

(** [(b[0] << 24) | (b[1] << 16) | (b[2] << 8) | b[3]] *)
Definition addr_word (b : list Z) : outcome Z :=
  b0 ← rd b 0; b1 ← rd b 1; b2 ← rd b 2; b3 ← rd b 3;
  Ret (u32 (Z.lor (Z.lor (Z.lor (Z.shiftl b0 24) (Z.shiftl b1 16)) (Z.shiftl b2 8)) b3)).

(** [listen_cidr_word] *)
Definition listen_cidr_word (listen_addr : addr * Z) : outcome Z :=
  w ← addr_word listen_addr.1;
  mask ← rd masks listen_addr.2;
  Ret (Z.land w mask).

(** The next hop for the destination address at [to]. *)
Definition ip4_route (listen_addr : addr * Z) (default_gw_addr : addr) (cidr_word : Z) (to : list Z) : outcome addr :=
  to_word ← addr_word to;
  via ← addr_of_data to 4;
  mask ← rd masks listen_addr.2;
  Ret (if negb (Z.land to_word mask =? cidr_word) then default_gw_addr else via).

(** [struct pending_msg], the heap of such objects, and [pending_messages]. *)
Record pending_msg := {
  pm_ts : Z;
  pm_queued_msg : message;
  pm_from_nr : Z;
  pm_from : option addr;
  pm_to_nr : Z;
  pm_to : option addr }.

Record ip4_out_state := {
  o_heap : gmap Z pending_msg;
  o_next : Z;
  o_pending : gmap Z Z }.

(** [*ptr] *)
Definition deref (st : ip4_out_state) (ptr : Z) : outcome pending_msg :=
  match o_heap st !! ptr with Some pm => Ret pm | None => Fault OutOfBounds end.

Definition set_heap (st : ip4_out_state) (ptr : Z) (pm : pending_msg) : ip4_out_state :=
  {| o_heap := <[ptr := pm]> (o_heap st); o_next := o_next st; o_pending := o_pending st |}.

(** [pending_messages.erase(it)] *)
Definition erase_pending (st : ip4_out_state) (nr : Z) : ip4_out_state :=
  {| o_heap := o_heap st; o_next := o_next st; o_pending := delete nr (o_pending st) |}.

(** [delete pending_msg_meta] *)
Definition free_pending (st : ip4_out_state) (ptr : Z) : ip4_out_state :=
  {| o_heap := delete ptr (o_heap st); o_next := o_next st; o_pending := o_pending st |}.

(** [map::insert]: keeps an existing entry. *)
Definition insert_pending (st : ip4_out_state) (nr ptr : Z) : ip4_out_state :=
  {| o_heap := o_heap st; o_next := o_next st;
     o_pending := match o_pending st !! nr with Some _ => o_pending st | None => <[nr := ptr]> (o_pending st) end |}.

(** One IP packet of the sender loop: header, copy of the fragment, checksum. *)
Definition ip4_fragment (packets_id protocol fragment_offset current_fragment_size pl_len : Z)
  (from to pl : list Z) : outcome (list Z) :=
  let complete_msg_size := current_fragment_size + 20 in
  let header := zeros complete_msg_size in
  header ← wr header 0 [Z.lor (Z.shiftl 4 4) 5];
  header ← wr header 2 [u8 (Z.shiftr complete_msg_size 8)];
  header ← wr header 3 [u8 complete_msg_size];
  header ← wr header 4 [u8 (Z.shiftr packets_id 8)];
  header ← wr header 5 [u8 packets_id];
  header ← wr header 6 [u8 (Z.shiftr fragment_offset (8 + 3))];
  header ← wr header 7 [u8 (Z.shiftr fragment_offset 3)];
  b6 ← rd header 6;
  header ← wr header 6 [u8 (Z.lor b6 (Z.shiftl (if fragment_offset + current_fragment_size <? pl_len then 1 else 0) 5))];
  header ← wr header 8 [63];
  header ← wr header 9 [u8 protocol];
  f ← rdn from 0 4;
  header ← wr header 12 f;
  t ← rdn to 0 4;
  header ← wr header 16 t;
  c ← rdn pl fragment_offset current_fragment_size;
  header ← wr header 20 c;
  checksum ← ip_checksum header 20;
  store16 header 10 checksum.

(** [(mtu_size - 20) & ~7] *)
Definition use_mtu_size (mtu_size : Z) : Z := Z.land (mtu_size - 20) (Z.lnot 7).

Section Ip4Out.
Context `{Transport W}.

(** The fragment loop; [false] when [fuel] rounds did not suffice. *)
Fixpoint ip4_fragment_loop (fuel : nat) (link_name : list Z) (mtu_size packets_id protocol pl_len : Z)
  (from to pl : list Z) (mac_from mac_to : addr) (fragment_offset : Z) : prog W bool :=
  match fuel with
  | O => mret false
  | S fuel' =>
    if fragment_offset <? pl_len then
      let current_fragment_size := Z.min (u64 (use_mtu_size mtu_size)) (pl_len - fragment_offset) in
      complete_msg ← lift (ip4_fragment packets_id protocol fragment_offset current_fragment_size pl_len from to pl);
      wrapped ← lift (wrap_message_down (zlen mac_from) mac_from (zlen mac_to) mac_to
                        (current_fragment_size + 20) complete_msg None);
      rc ← send link_name wrapped false;
      if (rc.1 : bool) then
        ip4_fragment_loop fuel' link_name mtu_size packets_id protocol pl_len from to pl mac_from mac_to
          (fragment_offset + current_fragment_size)
      else mret true
    else mret true
  end.

(** The encapsulation step of the sender: look up the protocol of the queued
    message's sender, unwrap, send the fragments. *)
Definition ip4_transmit (mappings_out : gmap (list Z) Z) (link_name : list Z) (mtu_size packets_id : Z)
  (queued_msg : message) (mac_from mac_to : addr) : prog W bool :=
  match mappings_out !! sender_of queued_msg with
  | None => mret true
  | Some protocol =>
    v ← lift (unwrap_message_down queued_msg);
    ip4_fragment_loop (S (Z.to_nat (d_pl_len v))) link_name mtu_size packets_id protocol (d_pl_len v)
      (d_from v) (d_to v) (d_pl v) mac_from mac_to 0
  end.

(** The address was filled in: wait for the other one, or transmit and
    release the packet. [None] when the fragment loop does not end. *)
Definition ip4_sender_filled (mappings_out : gmap (list Z) Z) (link_name : list Z) (mtu_size packets_id : Z)
  (nr ptr : Z) (pm : pending_msg) (from to : option addr) (st : ip4_out_state) : prog W (option ip4_out_state) :=
  let pm := {| pm_ts := pm_ts pm; pm_queued_msg := pm_queued_msg pm; pm_from_nr := pm_from_nr pm;
               pm_from := from; pm_to_nr := pm_to_nr pm; pm_to := to |} in
  match from, to with
  | Some mac_from, Some mac_to =>
    finished ← ip4_transmit mappings_out link_name mtu_size packets_id (pm_queued_msg pm) mac_from mac_to;
    mret (if (finished : bool) then Some (erase_pending (free_pending st ptr) nr) else None)
  | _, _ => mret (Some (erase_pending (set_heap st ptr pm) nr))
  end.

(** One round of the sender thread, for a reply of the resolver. *)
Definition ip4_sender (mappings_out : gmap (list Z) Z) (link_name : list Z) (mtu_size packets_id : Z)
  (junk : nat -> Z) (resolve_result : message) (st : ip4_out_state) : prog W (option ip4_out_state) :=
  let nr := m_msg_nr resolve_result in
  match o_pending st !! nr with
  | None => mret (Some st)
  | Some ptr =>
    resolve_result_str ← lift (rdn (m_data resolve_result) 0 (m_size resolve_result));
    match find_sub (str "=mac:") resolve_result_str with
    | None => mret (Some st)
    | Some is_mac =>
      resolve_result_addr ← lift (addr_of_string junk (drop (is_mac + 5) resolve_result_str) (str ":") true);
      pm ← lift (deref st ptr);
      if pm_from_nr pm =? nr then
        ip4_sender_filled mappings_out link_name mtu_size packets_id nr ptr pm
          (Some resolve_result_addr) (pm_to pm) st
      else if pm_to_nr pm =? nr then
        ip4_sender_filled mappings_out link_name mtu_size packets_id nr ptr pm
          (pm_from pm) (Some resolve_result_addr) st
      else mret (Some (erase_pending st nr))
    end
  end.

(** [start_resolve_by_ip4] *)
Definition start_resolve_by_ip4 (resolver_name : list Z) (a : addr) : prog W (option Z) :=
  let msg := str "search-mac=" ++ to_str 46 false a in
  let res_req_msg := fill_message (allocate_shm_message (zlen msg)) msg_new 0 msg in
  r ← send resolver_name res_req_msg false;
  mret (if (r.1 : bool) then Some r.2 else None).

(** Body of the main loop of [run_out]. *)
Definition ip4_run_out (listen_addr : addr * Z) (default_gw_addr : addr) (resolver_name : list Z) (now : Z)
  (m : message) (st : ip4_out_state) : prog W ip4_out_state :=
  v ← lift (unwrap_message_down m);
  if negb (d_from_len v =? 4) || negb (d_to_len v =? 4) then mret st else
  from ← lift (addr_of_data (d_from v) 4);
  from_msg_nr ← start_resolve_by_ip4 resolver_name from;
  cidr_word ← lift (listen_cidr_word listen_addr);
  via ← lift (ip4_route listen_addr default_gw_addr cidr_word (d_to v));
  to_msg_nr ← start_resolve_by_ip4 resolver_name via;
  match from_msg_nr, to_msg_nr with
  | Some from_nr, Some to_nr =>
    let pm := {| pm_ts := now; pm_queued_msg := m; pm_from_nr := from_nr; pm_from := None;
                 pm_to_nr := to_nr; pm_to := None |} in
    let ptr := o_next st in
    let st := {| o_heap := <[ptr := pm]> (o_heap st); o_next := ptr + 1; o_pending := o_pending st |} in
    mret (insert_pending (insert_pending st from_nr ptr) to_nr ptr)
  | _, _ => mret st
  end.

(** [push_meta_reply] and the body of [run_meta]. *)
Definition push_meta_reply (to reply : list Z) (msg_nr : Z) : prog W unit :=
  let m_reply := fill_message (allocate_shm_message (zlen reply)) msg_reply msg_nr reply in
  _ ← send to m_reply false;
  mret tt.

Definition ip4_run_meta (ip4 : addr) (m : message) : prog W unit :=
  kv ← lift (rdn (m_data m) 0 (m_size m));
  match split kv (str "=") with
  | [] => lift (Fault OutOfBounds)
  | command :: _ =>
    if beq command (str "get-ip4")
    then push_meta_reply (sender_of m) (str "ip4=" ++ to_str 46 false ip4) (m_msg_nr m)
    else mret tt
  end.

End Ip4Out.

(** One round of the cleaner thread: the keys to erase, collected in key
    order, then the erasure.  The object itself is not freed by the code. *)
Fixpoint expired_keys (now : Z) (st : ip4_out_state) (es : list (Z * Z)) (erase_keys : gset Z) : outcome (gset Z) :=
  match es with
  | [] => Ret erase_keys
  | (nr, ptr) :: r =>
    if decide (nr ∈ erase_keys) then expired_keys now st r erase_keys else
    pm ← deref st ptr;
    expired_keys now st r
      (if u64 (now - pm_ts pm) >=? arp_timeout then {[pm_from_nr pm; pm_to_nr pm]} ∪ erase_keys else erase_keys)
  end.

Definition ip4_clean_pending (now : Z) (st : ip4_out_state) : outcome ip4_out_state :=
  erase_keys ← expired_keys now st (entries (o_pending st)) ∅;
  Ret {| o_heap := o_heap st; o_next := o_next st;
         o_pending := filter (fun kv => kv.1 ∉ erase_keys) (o_pending st) |}.

(** ** Lemmas: fragments *)

(** [f] is an IPv4 packet without options that carries the piece [x] of a
    payload of [total] bytes. *)
Record ip4_frag (src dst : addr) (protocol id total : Z) (x : Z * list Z) (f : list Z) : Prop := {
  fr_bytes : bytes f;
  fr_len : zlen f = 20 + zlen x.2;
  fr_version : ip4_version f = 4;
  fr_hl : ip4_hl f = 20;
  fr_size : ip4_size f = zlen f;
  fr_id : ip4_id f = id;
  fr_offset : ip4_offset f = x.1;
  fr_flags : nth 6 f 0 / 32 = (if x.1 + zlen x.2 <? total then 1 else 0);
  fr_ttl : ip4_ttl f = 63;
  fr_protocol : ip4_protocol f = protocol;
  fr_src : ip4_src f = src;
  fr_dst : ip4_dst f = dst;
  fr_payload : ip4_payload f = x.2;
  fr_checksum : ip_checksum (take 20 f) 20 = Ret 0 }.

(** The header before its checksum is stored. *)
Definition ip4_header (packets_id protocol fo sz : Z) (more : bool) (src dst : addr) : list Z :=
  [0x45; 0; u8 (Z.shiftr sz 8); u8 sz; u8 (Z.shiftr packets_id 8); u8 packets_id;
   u8 (Z.lor (u8 (Z.shiftr fo (8 + 3))) (Z.shiftl (if more then 1 else 0) 5)); u8 (Z.shiftr fo 3); 63; u8 protocol; 0; 0]
  ++ src ++ dst.

Lemma wr_cell (a : list Z) x r i v : i = zlen a -> wr (a ++ x :: r) i [v] = Ret (a ++ v :: r).
Proof.
  intros ->. pose proof (zlen_nonneg a). pose proof (zlen_nonneg r).
  rewrite wr_ok; [|lia|autorewrite with zlen; change (zlen []) with 0; lia].
  by rewrite (splice_mid a [x] r [v]).
Qed.

Lemma list4' (l : list Z) : zlen l = 4 -> exists a b c d, l = [a; b; c; d].
Proof. destruct l as [|a [|b [|c [|d [|]]]]]; intros Hl; try solve [zl]. by exists a, b, c, d. Qed.

(** The builder writes header and piece, and then the header's checksum. *)
Lemma ip4_fragment_built packets_id protocol fo pl_len src dst from to pl bs :
  rdn from 0 4 = Ret src -> rdn to 0 4 = Ret dst -> zlen src = 4 -> zlen dst = 4 ->
  rdn pl fo (zlen bs) = Ret bs ->
  let h := ip4_header packets_id protocol fo (zlen bs + 20) (fo + zlen bs <? pl_len) src dst in
  ip4_fragment packets_id protocol fo (zlen bs) pl_len from to pl =
  (checksum ← ip_checksum (h ++ bs) 20; store16 (h ++ bs) 10 checksum).
Proof.
  intros Hf Ht Ls Ld Hc h. pose proof (zlen_nonneg bs) as Hn. unfold ip4_fragment. rewrite Hf, Ht, Hc.
  assert (Hz : zeros (zlen bs + 20) = repeat 0 20 ++ zeros (zlen bs)).
  { unfold zeros. rewrite Z.add_comm, Z2Nat.inj_add by lia. by rewrite replicate_add. }
  assert (Hzl : zlen (zeros (zlen bs)) = zlen bs) by (by apply zlen_zeros).
  rewrite Hz. cbn [repeat app]. set (z := zeros (zlen bs)) in *. clearbody z.
  destruct (list4' src Ls) as (s0 & s1 & s2 & s3 & ->). destruct (list4' dst Ld) as (d0 & d1 & d2 & d3 & ->).
  wr_cells. rewrite (rd_ok _ 6 (u8 (Z.shiftr fo (8 + 3)))) by done. mcbn. wr_cells.
  rewrite wr_ok by zlc. mcbn. rewrite wr_ok by zls. mcbn. rewrite wr_ok by zls. mcbn.
  match goal with |- context [splice ?x 20 bs] =>
    change x with (h ++ z);
    replace (splice (h ++ z) 20 bs) with (h ++ bs)
      by (rewrite <- (app_nil_r z), splice_mid by done; by rewrite app_nil_r)
  end.
  unfold h. destruct (fo + zlen bs <? pl_len); done.
Qed.

Lemma header_b6 fo (more : bool) :
  0 <= fo < 65536 ->
  u8 (Z.lor (u8 (Z.shiftr fo (8 + 3))) (Z.shiftl (if more then 1 else 0) 5)) = fo / 2048 + 32 * (if more then 1 else 0).
Proof.
  intros Hfo. rewrite Z.shiftr_div_pow2 by lia. change (2 ^ (8 + 3)) with 2048.
  assert (H11 : 0 <= fo / 2048 < 32) by (Z.div_mod_to_equations; lia).
  rewrite (wrap_small 8 (fo / 2048)) by (unfold is_u; lia).
  rewrite Z.lor_comm, shiftl_lor_add by (unfold is_u; lia). change (2 ^ 5) with 32.
  rewrite wrap_small by (unfold is_u; destruct more; lia). lia.
Qed.

Lemma ip4_fragment_spec packets_id protocol fo pl_len src dst from to pl bs :
  rdn from 0 4 = Ret src -> rdn to 0 4 = Ret dst -> zlen src = 4 -> zlen dst = 4 ->
  rdn pl fo (zlen bs) = Ret bs -> bytes src -> bytes dst -> bytes bs ->
  is_u 16 packets_id -> is_byte protocol -> 0 <= fo <= 65535 -> fo mod 8 = 0 -> zlen bs + 20 <= 65535 ->
  exists f, ip4_fragment packets_id protocol fo (zlen bs) pl_len from to pl = Ret f /\
    ip4_frag src dst protocol packets_id pl_len (fo, bs) f.
Proof.
  intros Hf Ht Ls Ld Hc Bs Bd Bb Hid Hpr Hfo H8 Hsz. pose proof (zlen_nonneg bs).
  rewrite (ip4_fragment_built packets_id protocol fo pl_len src dst from to pl bs) by done.
  set (more := fo + zlen bs <? pl_len). set (h := ip4_header _ _ _ _ _ _ _).
  assert (Hh : zlen h = 20) by (unfold h, ip4_header; autorewrite with zlen; change (zlen []) with 0; lia).
  assert (Hb6 : nth 6 h 0 = fo / 2048 + 32 * (if more then 1 else 0)) by (apply header_b6; lia).
  assert (H11 : 0 <= fo / 2048 < 32) by (Z.div_mod_to_equations; lia).
  assert (Bh : bytes h).
  { unfold h, ip4_header. rewrite !bytes_app. repeat split; try done.
    repeat constructor; try apply u8_byte; unfold is_byte; try lia; apply Z.mod_pos_bound; lia. }
  pose proof (ip_checksum_prefix h bs) as P. rewrite Hh in P. rewrite P.
  pose proof (ip_checksum_spec h Bh ltac:(lia)) as Hck. rewrite Hh in Hck. rewrite Hck. mcbn.
  set (c := 65535 - _) in *. clearbody c.
  rewrite store16_ok by (rewrite ?zlen_app; lia).
  set (h' := splice h 10 (be16 c)).
  assert (Hh' : zlen h' = 20) by (unfold h'; rewrite zlen_splice; rewrite ?zlen_be16; lia).
  assert (E : splice (h ++ bs) 10 (be16 c) = h' ++ bs).
  { unfold h', splice. rewrite be16_div. cbn [length]. unfold zlen in Hh.
    rewrite take_app_le, drop_app_le by lia. by rewrite <- !app_assoc. }
  rewrite E. eexists. split; [done|].
  assert (Bh' : bytes h') by (unfold h'; auto with myip).
  assert (Hnth : forall i, (i < 10)%nat -> nth i (h' ++ bs) 0 = nth i h 0).
  { intros i Hi. rewrite app_nth1 by (unfold zlen in Hh'; lia). unfold h', splice.
    rewrite app_nth1 by (rewrite length_take; unfold zlen in Hh; lia).
    rewrite <- (take_drop 10 h) at 2. rewrite app_nth1; [done|]. rewrite length_take. unfold zlen in Hh. lia. }
  assert (Ht20 : take 20 (h' ++ bs) = h') by (rewrite take_app_le by (unfold zlen in Hh'; lia); apply take_ge; unfold zlen in Hh'; lia).
  assert (Hsub4 : forall off, 12 <= off -> off + 4 <= 20 -> sub (h' ++ bs) off 4 = sub h off 4).
  { intros off Ho Ho2. unfold sub. rewrite drop_app_le, take_app_le by zl. unfold h', splice.
    rewrite be16_div. cbn [app length]. change (Z.to_nat 10 + 2)%nat with 12%nat.
    rewrite (drop_app_ge (take _ h)) by zl. rewrite length_take.
    replace (Z.to_nat off - Nat.min (Z.to_nat 10) (length h))%nat with (S (S (Z.to_nat off - 12)))
      by (unfold zlen in Hh; lia). cbn [drop]. rewrite drop_drop. do 3 f_equal. lia. }
  assert (Hsize : ip4_size (h' ++ bs) = zlen bs + 20).
  { unfold ip4_size. rewrite !Hnth by lia. apply (be16_u8 (zlen bs + 20)). unfold is_u. lia. }
  constructor; cbn [fst snd].
  - by rewrite bytes_app.
  - rewrite zlen_app. lia.
  - unfold ip4_version. by rewrite Hnth by lia.
  - unfold ip4_hl. by rewrite Hnth by lia.
  - rewrite Hsize, zlen_app. lia.
  - unfold ip4_id. rewrite !Hnth by lia. by apply (be16_u8 packets_id).
  - unfold ip4_offset. rewrite !Hnth, Hb6 by lia. unfold h, ip4_header. cbn [app nth].
    rewrite Z.shiftr_div_pow2 by lia. unfold wrap. change (2 ^ 3) with 8. change (2 ^ 8) with 256.
    destruct more; Z.div_mod_to_equations; lia.
  - rewrite Hnth, Hb6 by lia. unfold more. destruct (fo + zlen bs <? pl_len); Z.div_mod_to_equations; lia.
  - unfold ip4_ttl. by rewrite Hnth by lia.
  - unfold ip4_protocol. rewrite Hnth by lia. unfold h, ip4_header. cbn [app nth]. by apply is_byte_u8.
  - unfold ip4_src. rewrite Hsub4 by lia. by apply (sub_app_mid _ src dst).
  - unfold ip4_dst. rewrite Hsub4 by lia. unfold h, ip4_header. rewrite app_assoc, <- (app_nil_r dst) at 1.
    rewrite (sub_app_mid _ dst []); [done| |done]. autorewrite with zlen. change (zlen []) with 0. lia.
  - unfold ip4_payload. rewrite Hsize. unfold ip4_hl. rewrite Hnth by lia. change (nth 0 h 0 mod 16 * 4) with 20.
    rewrite <- (app_nil_r bs) at 1. apply sub_app_mid; lia.
  - rewrite Ht20. rewrite <- Hh. unfold h'. apply ip_checksum_fill_aux; try done; try lia.
    by rewrite Hh.
Qed.

(** ** Lemmas: the fragment loop *)

Lemma use_mtu_size_spec mtu :
  28 <= mtu <= 65535 ->
  8 <= use_mtu_size mtu <= mtu - 20 /\ use_mtu_size mtu mod 8 = 0 /\ u64 (use_mtu_size mtu) = use_mtu_size mtu.
Proof.
  intros Hm. assert (E : use_mtu_size mtu = 8 * ((mtu - 20) / 8)).
  { unfold use_mtu_size. change 7 with (Z.ones 3). rewrite <- Z.ldiff_land, Z.ldiff_ones_r by lia.
    rewrite Z.shiftl_mul_pow2, Z.shiftr_div_pow2 by lia. change (2 ^ 3) with 8. lia. }
  rewrite E. assert (8 <= 8 * ((mtu - 20) / 8) <= mtu - 20) by (Z.div_mod_to_equations; lia).
  split; [done|]. split; [rewrite Z.mul_comm; by apply Z.mod_mul|]. apply wrap_small. unfold is_u. lia.
Qed.

Section Ip4OutLemmas.
Context `{Transport W}.

Definition frame_message (mac_from mac_to : addr) (f : list Z) : message :=
  message_of (down_data mac_from mac_to f) None.

Lemma ip4_fragment_loop_spec fuel link_name mtu packets_id protocol src dst from to pl tail mac_from mac_to fo w :
  rdn from 0 4 = Ret src -> rdn to 0 4 = Ret dst -> zlen src = 4 -> zlen dst = 4 ->
  bytes src -> bytes dst -> bytes pl -> is_u 16 packets_id -> is_byte protocol ->
  28 <= mtu <= 65535 -> zlen pl <= 65535 -> zlen mac_from <= 255 -> zlen mac_to <= 255 ->
  0 <= fo <= zlen pl -> (fo mod 8 = 0 \/ zlen pl <= fo) -> zlen pl - fo < Z.of_nat fuel ->
  exists frames,
    Forall2 (ip4_frag src dst protocol packets_id (zlen pl))
      (pieces fo (chunks (use_mtu_size mtu) (drop (Z.to_nat fo) pl))) frames /\
    ip4_fragment_loop fuel link_name mtu packets_id protocol (zlen pl) from to (pl ++ tail) mac_from mac_to fo w =
    Ret (true, send_until link_name (map (frame_message mac_from mac_to) frames) w).
Proof.
  intros Hf Ht Ls Ld Bs Bd Bp Hid Hpr Hmtu Hpl Lmf Lmt.
  destruct (use_mtu_size_spec mtu Hmtu) as (Hu & Hu8 & Hu64). set (u := use_mtu_size mtu) in *.
  revert fo w. induction fuel as [|fuel IH]; intros fo w Hfo H8 Hfuel; cbn [ip4_fragment_loop].
  { lia. }
  destruct (Z.ltb_spec fo (zlen pl)) as [Hlt|Hge].
  2: { exists []. rewrite drop_ge by (unfold zlen in Hge; lia). split; [constructor|done]. }
  fold u. rewrite Hu64. set (cur := Z.min u (zlen pl - fo)).
  destruct H8 as [H8|]; [|lia].
  set (rest := drop (Z.to_nat fo) pl). assert (Hr : zlen rest = zlen pl - fo) by (unfold rest; rewrite zlen_drop; lia).
  set (bs := take (Z.to_nat u) rest).
  assert (Hbs : zlen bs = cur) by (unfold bs, cur; rewrite zlen_take; lia).
  assert (Hrd : rdn (pl ++ tail) fo (zlen bs) = Ret bs).
  { pose proof (zlen_nonneg tail). rewrite rdn_ok by (rewrite ?zlen_app; lia). f_equal. unfold sub.
    rewrite drop_app_le by (unfold zlen in Hlt; lia). fold rest.
    rewrite take_app_le by (unfold zlen in *; lia). rewrite Hbs. unfold bs, cur.
    destruct (Z.min_spec u (zlen pl - fo)) as [[? ->]|[? ->]]; [done|].
    rewrite !take_ge by (unfold zlen in *; lia). done. }
  assert (Bbs : bytes bs) by (apply Forall_take, Forall_drop; exact Bp).
  destruct (ip4_fragment_spec packets_id protocol fo (zlen pl) src dst from to (pl ++ tail) bs
              Hf Ht Ls Ld Hrd Bs Bd Bbs Hid Hpr ltac:(lia) H8 ltac:(lia)) as (f & Hfr & Hff).
  rewrite <- Hbs. erewrite lift_bind by exact Hfr. pose proof (fr_len _ _ _ _ _ _ _ Hff) as Hfl. cbn [snd] in Hfl.
  erewrite lift_bind.
  2: { eapply wrap_message_down_gen; [by apply rdn_all|by apply rdn_all|apply rdn_all; lia|done|done|lia]. }
  rewrite send_after by (apply down_message_size; lia).
  fold (frame_message mac_from mac_to f).
  destruct (IH (fo + zlen bs) (after_send link_name (frame_message mac_from mac_to f) w)) as (frames & Hall & Hrun).
  { lia. }
  { rewrite Hbs. unfold cur. destruct (Z.min_spec u (zlen pl - fo)) as [[? ->]|[? ->]]; [left|right; lia].
    rewrite Z.add_mod, H8, Hu8 by lia. done. }
  { lia. }
  exists (f :: frames). split.
  - assert (Hch : chunks u rest = bs :: chunks u (drop (Z.to_nat (fo + zlen bs)) pl)).
    { rewrite chunks_cons; [|lia|intros E; rewrite E in Hr; change (zlen []) with 0 in Hr; lia].
      fold bs. f_equal. f_equal. unfold rest. rewrite drop_drop, Hbs. unfold cur.
      destruct (Z.min_spec u (zlen pl - fo)) as [[? ->]|[? ->]]; [f_equal; lia|].
      rewrite !drop_ge by (unfold zlen in *; lia). done. }
    rewrite Hch. cbn [pieces]. constructor; [done|exact Hall].
  - cbn [map send_until]. fold (send_ok_b link_name (frame_message mac_from mac_to f) w).
    destruct (send_ok_b _ _ _); [exact Hrun|done].
Qed.

End Ip4OutLemmas.
