(* ===== verification/Ip4.v ===== *)
(** * The IPv4 server: properties of receiving, fragmentation and reassembly

    The theorems about [Ip4In] and [Ip4Out]: what the receive handler does
    with any packet, that fragments put together in any order give the
    payload back, and that the fragments the sender loop produces do so at
    another instance of the server. *)

From S2P Require Import Prelude Net Checksum Str Addr ShmMessage Transport Ip4In Reassembly Ip4Out.

Lemma Forall2_perm_r {A B} (R : A -> B -> Prop) l k k' :
  Forall2 R l k -> k' ≡ₚ k -> exists l', l' ≡ₚ l /\ Forall2 R l' k'.
Proof.
  intros Hf Hp. revert l Hf. symmetry in Hp. induction Hp as [|y k k' Hp IH|y z k|k1 k2 k3 H1 IH1 H2 IH2]; intros l Hf.
  - inversion Hf; subst. by exists [].
  - inversion Hf as [|x ? l0 ? Hxy Hr]; subst. destruct (IH _ Hr) as (l' & Hl & Hf').
    exists (x :: l'). split; [by rewrite Hl|by constructor].
  - inversion Hf as [|x1 ? l0 ? Hx1 Hr]; subst. inversion Hr as [|x2 ? l1 ? Hx2 Hr']; subst.
    exists (x2 :: x1 :: l1). split; [constructor|by repeat constructor].
  - destruct (IH1 _ Hf) as (l2 & Hl2 & Hf2). destruct (IH2 _ Hf2) as (l3 & Hl3 & Hf3).
    exists l3. split; [by rewrite Hl3|done].
Qed.

Section Ip4.
Context `{Transport W}.

(** The receive loop over a sequence of messages with their times. *)
Fixpoint ip4_run_in_seq (listen_addr : addr) (mappings_in : gmap Z (list Z)) (icmp_error_name : list Z)
  (junk : nat -> Z) (ms : list (Z * message)) (packets : gmap Z packet) : prog W (gmap Z packet) :=
  match ms with
  | [] => mret packets
  | (now, m) :: r =>
    packets ← ip4_run_in listen_addr mappings_in icmp_error_name junk now m packets;
    ip4_run_in_seq listen_addr mappings_in icmp_error_name junk r packets
  end.

(** [m] brings the packet [f] from the link layer. *)
Definition brings (f : list Z) (nm : Z * message) : Prop :=
  exists full from to pad, m_data nm.2 = up_data full from to f ++ pad /\
    zlen full <= 65535 /\ zlen from <= 255 /\ zlen to <= 255.

(** The delivery of a whole payload; [last_f] is the packet that completed it. *)
Definition ip4_delivered (upper : list Z) (sid : Z) (src dst last_f payload : list Z) (w : W) : W :=
  after_send upper (with_id (message_of (up_data last_f src dst payload) None) sid) w.

Lemma frag_accepted src dst protocol id total x f mappings_in upper :
  ip4_frag src dst protocol id total x f -> mappings_in !! protocol = Some upper ->
  ip4_judge dst mappings_in f = IAccept upper.
Proof.
  intros [B L V HL S I O M T P Sr D Pa C] Hu. unfold ip4_judge. pose proof (zlen_nonneg x.2).
  replace (zlen f <? 20) with false by lia. rewrite V, D, beq_refl, HL, S, T, P, Hu. cbn [Z.eqb negb Pos.eqb].
  replace ((zlen f <? 20) || (zlen f <? zlen f)) with false by lia. cbn [Z.eqb].
  change (Z.to_nat 20) with 20%nat. by rewrite bool_decide_eq_true_2.
Qed.

Lemma frag_facts src dst protocol id total x f :
  ip4_frag src dst protocol id total x f -> 0 <= x.1 ->
  (0 <? ip4_offset f) || ip4_more f = negb ((x.1 =? 0) && (total <=? x.1 + zlen x.2)) /\
  take (Z.to_nat (ip4_size f)) f = f.
Proof.
  intros [B L V HL S I O M T P Sr D Pa C] Hx. split.
  - unfold ip4_more. rewrite O, M. destruct (Z.ltb_spec (x.1 + zlen x.2) total); cbn [Z.odd]; lia.
  - rewrite S. apply take_ge. unfold zlen. lia.
Qed.

(** One fragment of a payload of several pieces. *)
Lemma ip4_run_in_fragment listen_addr mappings_in icmp_error_name junk now m packets w
  ps R x f src protocol id upper sid :
  nonempty_pieces ps -> 20 + zlen (concat ps) <= 65535 -> (2 <= length ps)%nat ->
  x ∈ pieces 0 ps -> (forall y, y ∈ R -> y ∈ pieces 0 ps) -> NoDup (x :: R) ->
  ip4_frag src listen_addr protocol id (zlen (concat ps)) x f -> brings f (now, m) ->
  zlen listen_addr = 4 -> mappings_in !! protocol = Some upper ->
  ip4_calc_session_id src listen_addr protocol id = Ret sid ->
  packets_wf packets -> stored ps R packets sid ->
  exists packets', packets_wf packets' /\ (forall k, k <> sid -> packets' !! k = packets !! k) /\
    ((x :: R ≡ₚ pieces 0 ps /\ packets' !! sid = None /\
      ip4_run_in listen_addr mappings_in icmp_error_name junk now m packets w =
        Ret (packets', ip4_delivered upper sid src listen_addr f (concat ps) w)) \/
     (~ x :: R ≡ₚ pieces 0 ps /\ stored ps (x :: R) packets' sid /\
      ip4_run_in listen_addr mappings_in icmp_error_name junk now m packets w = Ret (packets', w))).
Proof.
  intros Hn Htot H2 Hx HR Hnd Hf (full & from & to & pad & Hm & Lk & Lfr & Lto) Ll Hu Hsid Hwf Hst.
  destruct (pieces_bounds 0 ps x Hx) as (Hx0 & Hxe & _). pose proof (pieces_nonempty 0 ps x Hn Hx) as Hxl.
  destruct (frag_facts _ _ _ _ _ _ _ Hf ltac:(lia)) as [Hcond Htake].
  pose proof (frag_accepted _ _ _ _ _ _ _ _ _ Hf Hu) as Hj. pose proof Hf as [B L V HL S I O M T P Sr D Pa C].
  pose proof (ip4_run_in_aux listen_addr mappings_in icmp_error_name junk now m packets w full from to f pad
    Hm B Lk Lfr Lto ltac:(lia) Ll Hwf) as Hrun. cbn beta zeta in Hrun. rewrite Hj in Hrun.
  rewrite Sr, D, P, I in Hrun. destruct Hrun as (sid' & Hsid' & Hrun). rewrite Hsid in Hsid'. injection Hsid' as <-.
  rewrite Hcond in Hrun.
  assert (Hmulti : (x.1 =? 0) && (zlen (concat ps) <=? x.1 + zlen x.2) = false).
  { destruct ps as [|p [|q ps]]; [cbn in H2; lia|cbn in H2; lia|].
    apply list.Forall_cons in Hn as [Hp [Hq _]%list.Forall_cons].
    cbn [pieces concat] in Hx |- *. rewrite !zlen_app. pose proof (zlen_nonneg (concat ps)).
    apply elem_of_cons in Hx as [->|Hx]; [cbn; lia|].
    destruct (pieces_bounds (0 + zlen p) (q :: ps) x Hx). lia. }
  rewrite Hmulti in Hrun. cbn [negb] in Hrun. destruct Hrun as (packets' & o & Hstore & Hwf' & Hrun).
  rewrite O, Pa in Hstore.
  destruct (store_fragment_step junk now packets sid ps R x (nth 6 f 0 / 32) Hn ltac:(lia)) as
    (packets2 & o2 & Hst2 & Hother & Hcase); try done.
  { intros ->. cbn in H2. lia. }
  { rewrite M. destruct (Z.ltb_spec (x.1 + zlen x.2) (zlen (concat ps))).
    - change (Z.land 1 1 =? 0) with false. lia.
    - change (Z.land 0 1 =? 0) with true. lia. }
  rewrite Hstore in Hst2. injection Hst2 as <- <-.
  exists packets'. split; [done|]. split; [done|].
  destruct Hcase as [(Hall & Hnone & p & -> & Hp)|(Hnall & -> & Hst')].
  - left. split; [done|]. split; [done|]. rewrite Hrun. unfold ip4_deliver, ip4_delivered.
    by rewrite Htake, Sr, D, Hp.
  - by right.
Qed.

(** The remaining fragments, in any order. *)
Lemma ip4_run_in_fragments listen_addr mappings_in icmp_error_name junk ps src protocol id upper sid :
  nonempty_pieces ps -> 20 + zlen (concat ps) <= 65535 -> (2 <= length ps)%nat ->
  zlen listen_addr = 4 -> mappings_in !! protocol = Some upper ->
  ip4_calc_session_id src listen_addr protocol id = Ret sid ->
  forall qs R fs ms packets w, qs <> [] -> R ++ qs ≡ₚ pieces 0 ps ->
  Forall2 (ip4_frag src listen_addr protocol id (zlen (concat ps))) qs fs -> Forall2 brings fs ms ->
  packets_wf packets -> stored ps R packets sid ->
  exists packets' last_f, last_f ∈ fs /\
    ip4_run_in_seq listen_addr mappings_in icmp_error_name junk ms packets w =
      Ret (packets', ip4_delivered upper sid src listen_addr last_f (concat ps) w) /\
    packets' !! sid = None /\ (forall k, k <> sid -> packets' !! k = packets !! k).
Proof.
  intros Hn Htot H2 Ll Hu Hsid. induction qs as [|x qs IH]; intros R fs ms packets w Hne Hperm Hfs Hms Hwf Hst; [done|].
  inversion Hfs as [|? f ? fs' Hf Hfs']; subst. inversion Hms as [|? [now m] ? ms' Hb Hms']; subst.
  cbn [ip4_run_in_seq].
  assert (Hperm' : (x :: R) ++ qs ≡ₚ pieces 0 ps) by (rewrite <- Hperm; cbn; by rewrite Permutation_middle).
  assert (Hin : forall y, y ∈ x :: R -> y ∈ pieces 0 ps).
  { intros y Hy. rewrite <- Hperm'. apply elem_of_app. by left. }
  assert (Hnd : NoDup (x :: R)).
  { pose proof (pieces_NoDup 0 ps Hn) as Hnd. rewrite <- Hperm' in Hnd. by apply list.NoDup_app in Hnd as (? & _ & _). }
  destruct (ip4_run_in_fragment listen_addr mappings_in icmp_error_name junk now m packets w ps R x f src protocol id
    upper sid Hn Htot H2) as (packets' & Hwf' & Hother & Hcase); try done.
  { apply Hin. by left. }
  { intros y Hy. apply Hin. by right. }
  destruct Hcase as [(Hall & Hnone & Hrun)|(Hnall & Hst' & Hrun)].
  - assert (qs = []) as ->.
    { apply Permutation_length in Hperm'. apply Permutation_length in Hall. rewrite length_app in Hperm'.
      destruct qs; [done|cbn in *; lia]. }
    inversion Hfs'; subst. inversion Hms'; subst.
    exists packets', f. split; [by left|]. split; [|done].
    erewrite prog_bind_step by exact Hrun. done.
  - assert (Hqs : qs <> []).
    { intros ->. apply Hnall. by rewrite app_nil_r in Hperm'. }
    destruct (IH (x :: R) fs' ms' packets' w Hqs Hperm' Hfs' Hms' Hwf' Hst') as (packets2 & last_f & Hl & Hrun2 & Hn2 & Ho2).
    exists packets2, last_f. split; [by right|]. split.
    { erewrite prog_bind_step by exact Hrun. exact Hrun2. }
    split; [done|]. intros k Hk. by rewrite Ho2, Hother.
Qed.

(** Any number of fragments, one included. *)
Lemma ip4_reassembly_aux listen_addr mappings_in icmp_error_name junk ps src protocol id upper sid
  frames arrivals ms packets w :
  nonempty_pieces ps -> ps <> [] -> 20 + zlen (concat ps) <= 65535 ->
  zlen listen_addr = 4 -> mappings_in !! protocol = Some upper ->
  ip4_calc_session_id src listen_addr protocol id = Ret sid ->
  Forall2 (ip4_frag src listen_addr protocol id (zlen (concat ps))) (pieces 0 ps) frames ->
  arrivals ≡ₚ frames -> Forall2 brings arrivals ms -> packets_wf packets -> packets !! sid = None ->
  exists last_f, last_f ∈ arrivals /\
    ip4_run_in_seq listen_addr mappings_in icmp_error_name junk ms packets w =
      Ret (packets, ip4_delivered upper sid src listen_addr last_f (concat ps) w).
Proof.
  intros Hn Hne Htot Ll Hu Hsid Hfr Harr Hms Hwf Hnone.
  destruct (Forall2_perm_r _ _ _ _ Hfr Harr) as (qs & Hqs & Hfq).
  destruct ps as [|p [|q ps]]; [done| |].
  - (* not fragmented *)
    cbn [pieces] in *. apply Permutation_singleton_r in Hqs as ->.
    inversion Hfq as [|? f ? ? Hf Hnil]; subst. inversion Hnil; subst.
    inversion Hms as [|? [now m] ? ? (full & from & to & pad & Hm & Lk & Lfr & Lto) Hnil']; subst. inversion Hnil'; subst.
    exists f. split; [by left|]. cbn [ip4_run_in_seq concat] in *. rewrite app_nil_r in *.
    pose proof (zlen_nonneg p).
    destruct (frag_facts _ _ _ _ _ _ _ Hf ltac:(cbn; lia)) as [Hcond Htake].
    pose proof (frag_accepted _ _ _ _ _ _ _ _ _ Hf Hu) as Hj. pose proof Hf as [B L V HL S I O M T P Sr D Pa C].
    cbn [fst snd] in *.
    pose proof (ip4_run_in_aux listen_addr mappings_in icmp_error_name junk now m packets w full from to f pad
      Hm B Lk Lfr Lto ltac:(lia) Ll Hwf) as Hrun. cbn beta zeta in Hrun.
    rewrite Hj, Sr, D, P, I in Hrun. destruct Hrun as (sid' & Hsid' & Hrun).
    rewrite Hsid in Hsid'. injection Hsid' as <-. rewrite Hcond in Hrun.
    replace (zlen p <=? 0 + zlen p) with true in Hrun by lia. cbn [Z.eqb andb negb] in Hrun.
    erewrite prog_bind_step by exact Hrun. unfold ip4_deliver, ip4_delivered. by rewrite Htake, Sr, D, Pa.
  - destruct (ip4_run_in_fragments listen_addr mappings_in icmp_error_name junk (p :: q :: ps) src protocol id upper sid
      Hn Htot ltac:(cbn; lia) Ll Hu Hsid qs [] arrivals ms packets w) as (packets' & last_f & Hl & Hrun & Hn' & Ho); try done.
    { intros ->. by apply Permutation_nil_cons in Hqs. }
    { unfold stored. by rewrite Hnone. }
    exists last_f. split; [done|]. rewrite Hrun. do 2 f_equal. apply map_eq. intros k.
    destruct (decide (k = sid)) as [->|Hk]; [congruence|by apply Ho].
Qed.

End Ip4.

(** ** Lemmas: routing *)

Lemma masks_spec i : 0 <= i < 32 -> rd masks i = Ret (Z.shiftl (Z.ones i) (32 - i)).
Proof.
  intros Hi. apply rd_ok; [lia|].
  assert (E : masks = map (fun n => Z.shiftl (Z.ones (Z.of_nat n)) (32 - Z.of_nat n)) (seq 0 32)) by reflexivity.
  rewrite E, list_lookup_fmap, lookup_seq_lt by lia. cbn [fmap option_fmap option_map]. do 2 f_equal; f_equal; lia.
Qed.

Lemma masks_oob i : 32 <= i -> rd masks i = Fault OutOfBounds.
Proof. intros Hi. apply rd_oob. change (zlen masks) with 32. lia. Qed.

Lemma land_mask w i : is_u 32 w -> 0 <= i <= 32 -> Z.land w (Z.shiftl (Z.ones i) (32 - i)) = w / 2 ^ (32 - i) * 2 ^ (32 - i).
Proof.
  intros Hw Hi. rewrite <- Z.shiftr_div_pow2, <- Z.shiftl_mul_pow2 by lia. apply Z.bits_inj'. intros j Hj.
  rewrite Z.land_spec, !Z.shiftl_spec by lia. destruct (Z.ltb_spec j (32 - i)).
  - rewrite (Z.testbit_neg_r (Z.ones i)), (Z.testbit_neg_r (Z.shiftr w _)), andb_false_r by lia. done.
  - rewrite Z.shiftr_spec by lia. replace (j - (32 - i) + (32 - i)) with j by lia.
    destruct (Z.ltb_spec j 32).
    + rewrite Z.ones_spec_low, andb_true_r by lia. done.
    + rewrite Z.ones_spec_high, andb_false_r by lia. symmetry.
      unfold is_u in Hw. rewrite <- (Z.mod_small w (2 ^ 32)) by lia. by apply Z.mod_pow2_bits_high.
Qed.

(** An address as a number. *)
Definition addr_val (a : addr) : Z := foldl (fun acc b => 256 * acc + b) 0 a.

Lemma addr_word_val a rest : bytes a -> zlen a = 4 -> addr_word (a ++ rest) = Ret (addr_val a) /\ is_u 32 (addr_val a).
Proof.
  intros Hb Hl. destruct (list4' a Hl) as (b0 & b1 & b2 & b3 & ->).
  rewrite !bytes_cons in Hb. destruct Hb as (B0 & B1 & B2 & B3 & _).
  split; [|unfold is_u, is_byte in *; cbn; lia].
  change (addr_word ([b0; b1; b2; b3] ++ rest)) with (get_uint32 (b0 :: b1 :: b2 :: b3 :: rest)).
  by rewrite get_uint32_cons by done.
Qed.

(** ** Lemmas: pending packets *)

Lemma find_sub_first (pat pre post : list Z) c :
  c ∉ pre -> find_sub (c :: pat) (pre ++ c :: pat ++ post) = Some (length pre).
Proof.
  intros Hc. induction pre as [|x pre IH].
  - cbn [app length find_sub has_prefix]. rewrite Z.eqb_refl.
    by rewrite has_prefix_refl.
  - apply not_elem_of_cons in Hc as [Hx Hc]. cbn [app find_sub has_prefix length].
    replace (c =? x) with false by lia. cbn [andb]. by rewrite IH.
Qed.

Section Ip4Pending.
Context `{Transport W}.

Definition search_message (a : addr) : message :=
  let msg := str "search-mac=" ++ to_str 46 false a in
  fill_message (allocate_shm_message (zlen msg)) msg_new 0 msg.

Definition send_nr (dst : list Z) (m : message) (w : W) : Z := (t_send dst m false w).1.2.

Lemma start_resolve_spec resolver_name a w :
  bytes a -> zlen a <= 1000 ->
  start_resolve_by_ip4 resolver_name a w =
  Ret (if send_ok_b resolver_name (search_message a) w then Some (send_nr resolver_name (search_message a) w) else None,
       after_send resolver_name (search_message a) w).
Proof.
  intros Ha Hl. unfold start_resolve_by_ip4. fold (search_message a). rewrite send_after; [done|].
  unfold search_message. cbn [fill_message allocate_shm_message m_size].
  pose proof (zlen_to_str 46 false a Ha). pose proof (zlen_nonneg (to_str 46 false a)).
  rewrite zlen_app. change (zlen (str "search-mac=")) with 11.
  rewrite wrap_small by (unfold is_u; lia). lia.
Qed.

(** The next hop: the destination itself when it shares the upper [p] bits of
    the own address. *)
Definition ip4_via (listen_addr : addr * Z) (gw dst : addr) : addr :=
  let k := 2 ^ (32 - listen_addr.2) in
  if addr_val dst / k =? addr_val listen_addr.1 / k then dst else gw.

Lemma ip4_route_spec (listen_addr : addr * Z) (gw dst : addr) rest :
  bytes listen_addr.1 -> zlen listen_addr.1 = 4 -> bytes dst -> zlen dst = 4 -> 0 <= listen_addr.2 < 32 ->
  exists cidr, listen_cidr_word listen_addr = Ret cidr /\
    ip4_route listen_addr gw cidr (dst ++ rest) = Ret (ip4_via listen_addr gw dst).
Proof.
  intros Bl Ll Bd Ld Hp. unfold listen_cidr_word, ip4_route.
  destruct (addr_word_val listen_addr.1 [] Bl Ll) as [El Ul]. rewrite app_nil_r in El.
  rewrite El.
  rewrite masks_spec by done. mcbn. eexists. split; [done|].
  destruct (addr_word_val dst rest Bd Ld) as [Ed Ud]. rewrite Ed. mcbn.
  unfold addr_of_data. rewrite rdn_app_l by done. mcbn.
  rewrite !land_mask by (done || lia). unfold ip4_via. f_equal.
  set (k := 2 ^ (32 - listen_addr.2)). assert (0 < k) by (apply Z.pow_pos_nonneg; lia).
  destruct (Z.eqb_spec (addr_val dst / k) (addr_val listen_addr.1 / k)) as [->|Hne].
  - by rewrite Z.eqb_refl.
  - destruct (Z.eqb_spec (addr_val dst / k * k) (addr_val listen_addr.1 / k * k)); [nia|done].
Qed.

Definition new_pending (now : Z) (m : message) (n1 n2 : Z) : pending_msg :=
  {| pm_ts := now; pm_queued_msg := m; pm_from_nr := n1; pm_from := None; pm_to_nr := n2; pm_to := None |}.

Definition queue_pending (pm : pending_msg) (st : ip4_out_state) : ip4_out_state :=
  insert_pending (insert_pending
    {| o_heap := <[o_next st := pm]> (o_heap st); o_next := o_next st + 1; o_pending := o_pending st |}
    (pm_from_nr pm) (o_next st)) (pm_to_nr pm) (o_next st).

Lemma ip4_run_out_aux (listen_addr : addr * Z) (gw : addr) resolver_name now m st w src dst pl pad :
  m_data m = down_data src dst pl ++ pad -> bytes src -> zlen src = 4 -> bytes dst -> zlen dst = 4 -> zlen pl <= 65535 ->
  bytes listen_addr.1 -> zlen listen_addr.1 = 4 -> bytes gw -> zlen gw = 4 -> 0 <= listen_addr.2 < 32 ->
  let m1 := search_message src in
  let m2 := search_message (ip4_via listen_addr gw dst) in
  let w1 := after_send resolver_name m1 w in
  ip4_run_out listen_addr gw resolver_name now m st w =
  Ret (if send_ok_b resolver_name m1 w && send_ok_b resolver_name m2 w1
       then queue_pending (new_pending now m (send_nr resolver_name m1 w) (send_nr resolver_name m2 w1)) st
       else st, after_send resolver_name m2 w1).
Proof.
  intros Hm Bs Ls Bd Ld Lp Bl Ll Bg Lg Hp m1 m2 w1.
  assert (fits src /\ fits dst /\ fits pl) as (F1 & F2 & F3) by (unfold fits; lia).
  unfold ip4_run_out. erewrite lift_bind by (by eapply unwrap_message_down_data).
  cbn [d_from d_from_len d_to d_to_len d_pl d_pl_len]. rewrite Ls, Ld. cbn [Z.eqb negb orb Pos.eqb].
  unfold addr_of_data at 1. erewrite lift_bind by (by apply rdn_app_l).
  erewrite prog_bind_step by (apply start_resolve_spec; [done|lia]).
  destruct (ip4_route_spec listen_addr gw dst (pl ++ pad) Bl Ll Bd Ld Hp) as (cidr & Ec & Er).
  erewrite lift_bind by exact Ec. erewrite lift_bind by exact Er.
  assert (Hvia : bytes (ip4_via listen_addr gw dst) /\ zlen (ip4_via listen_addr gw dst) = 4).
  { unfold ip4_via. by destruct (_ =? _). }
  destruct Hvia as [Bv Lv].
  erewrite prog_bind_step by (apply start_resolve_spec; [done|lia]).
  fold m1. fold w1. fold m2. destruct (send_ok_b resolver_name m1 w); [|done].
  by destruct (send_ok_b resolver_name m2 w1).
Qed.

(** A reply of the resolver to the request [nr] with the address [mac]. *)
Definition resolver_reply (nr : Z) (mac : addr) (r : message) : Prop :=
  m_msg_nr r = nr /\ exists pre pad, (61 : Z) ∉ pre /\
    let text := pre ++ str "=mac:" ++ to_str 58 true mac in
    m_size r = zlen text /\ m_data r = text ++ pad.

Lemma ip4_sender_reply mappings_out link_name mtu_size packets_id junk r st nr mac ptr pm w :
  resolver_reply nr mac r -> bytes mac -> o_pending st !! nr = Some ptr -> o_heap st !! ptr = Some pm ->
  ip4_sender mappings_out link_name mtu_size packets_id junk r st w =
  (if pm_from_nr pm =? nr then
     ip4_sender_filled mappings_out link_name mtu_size packets_id nr ptr pm (Some mac) (pm_to pm) st
   else if pm_to_nr pm =? nr then
     ip4_sender_filled mappings_out link_name mtu_size packets_id nr ptr pm (pm_from pm) (Some mac) st
   else mret (Some (erase_pending st nr))) w.
Proof.
  intros (Hnr & pre & pad & Hpre & Hsz & Hd) Bm Hp Hh. unfold ip4_sender. rewrite Hnr, Hp, Hsz, Hd.
  erewrite lift_bind by (by apply rdn_app_l).
  change (str "=mac:" ++ to_str 58 true mac) with (61 :: [109; 97; 99; 58] ++ to_str 58 true mac).
  change (str "=mac:") with (61 :: [109; 97; 99; 58]). rewrite find_sub_first by done.
  assert (Hdrop : drop (length pre + 5) (pre ++ 61 :: [109; 97; 99; 58] ++ to_str 58 true mac) = to_str 58 true mac).
  { by rewrite drop_app_add. }
  rewrite Hdrop. erewrite lift_bind by apply (addr_of_to_str junk mac Bm).
  erewrite lift_bind by (unfold deref; by rewrite Hh). done.
Qed.

(** Transmission of a queued message. *)
Lemma ip4_transmit_aux mappings_out link_name mtu packets_id m mac_from mac_to w src dst pl pad protocol :
  m_data m = down_data src dst pl ++ pad -> mappings_out !! sender_of m = Some protocol ->
  bytes src -> zlen src = 4 -> bytes dst -> zlen dst = 4 -> bytes pl -> zlen pl <= 65535 ->
  is_u 16 packets_id -> is_byte protocol -> 28 <= mtu <= 65535 -> zlen mac_from <= 255 -> zlen mac_to <= 255 ->
  exists frames,
    Forall2 (ip4_frag src dst protocol packets_id (zlen pl)) (pieces 0 (chunks (use_mtu_size mtu) pl)) frames /\
    ip4_transmit mappings_out link_name mtu packets_id m mac_from mac_to w =
    Ret (true, send_until link_name (map (frame_message mac_from mac_to) frames) w).
Proof.
  intros Hm Hmap Bs Ls Bd Ld Bp Lp Hid Hpr Hmtu Lf Lt. pose proof (zlen_nonneg pl).
  assert (fits src /\ fits dst /\ fits pl) as (F1 & F2 & F3) by (unfold fits; lia).
  unfold ip4_transmit. rewrite Hmap. erewrite lift_bind by (by eapply unwrap_message_down_data).
  cbn [d_from d_from_len d_to d_to_len d_pl d_pl_len].
  destruct (ip4_fragment_loop_spec (S (Z.to_nat (zlen pl))) link_name mtu packets_id protocol src dst
    (src ++ dst ++ pl ++ pad) (dst ++ pl ++ pad) pl pad mac_from mac_to 0 w) as (frames & Hf & Hr);
    try done; try lia.
  - by apply rdn_app_l.
  - by apply rdn_app_l.
  - by left.
  - by exists frames.
Qed.

Lemma insert_pending_state (st : ip4_out_state) (pm : pending_msg) :
  let n1 := pm_from_nr pm in let n2 := pm_to_nr pm in
  n1 <> n2 -> o_pending st !! n1 = None -> o_pending st !! n2 = None ->
  queue_pending pm st =
  {| o_heap := <[o_next st := pm]> (o_heap st); o_next := o_next st + 1;
     o_pending := <[n2 := o_next st]> (<[n1 := o_next st]> (o_pending st)) |}.
Proof.
  intros n1 n2 Hne H1 H2. unfold queue_pending, insert_pending. cbn [o_pending o_heap o_next].
  fold n1 n2. rewrite H1. cbn [o_pending o_heap o_next]. by rewrite lookup_insert_ne, H2.
Qed.

(** The state when one of the two addresses is there. *)
Definition half_pending (first : bool) (now : Z) (m : message) (n1 n2 : Z) (mac : addr) (st : ip4_out_state) : ip4_out_state :=
  erase_pending (set_heap (queue_pending (new_pending now m n1 n2) st) (o_next st)
    {| pm_ts := now; pm_queued_msg := m; pm_from_nr := n1; pm_from := if first then Some mac else None;
       pm_to_nr := n2; pm_to := if first then None else Some mac |}) (if first then n1 else n2).

Lemma ip4_first_reply mappings_out link_name mtu packets_id junk ra (first : bool) m n1 n2 mac st now w :
  bytes mac -> n1 <> n2 -> o_pending st !! n1 = None -> o_pending st !! n2 = None ->
  resolver_reply (if first then n1 else n2) mac ra ->
  ip4_sender mappings_out link_name mtu packets_id junk ra (queue_pending (new_pending now m n1 n2) st) w =
    Ret (Some (half_pending first now m n1 n2 mac st), w).
Proof.
  intros Bm Hne P1 P2 Ha. unfold half_pending.
  rewrite (insert_pending_state st (new_pending now m n1 n2) Hne P1 P2). cbn [new_pending pm_from_nr pm_to_nr].
  set (st1 := {| o_heap := _ |}).
  assert (Hpa : o_pending st1 !! (if first then n1 else n2) = Some (o_next st)).
  { cbn. destruct first; [|by rewrite lookup_insert_eq]. by rewrite lookup_insert_ne, lookup_insert_eq. }
  assert (Hha : o_heap st1 !! o_next st = Some (new_pending now m n1 n2)) by (apply lookup_insert_eq).
  rewrite (ip4_sender_reply _ _ _ _ _ _ _ _ _ _ _ _ Ha Bm Hpa Hha). cbn [new_pending pm_from_nr pm_to_nr pm_from pm_to].
  destruct first; rewrite ?Z.eqb_refl; [done|]. by replace (n1 =? n2) with false by lia.
Qed.

(** The other reply transmits the packet and releases it. *)
Lemma ip4_second_reply mappings_out link_name mtu packets_id junk rb (first : bool) m n1 n2 mac1 mac2
  st now w src dst pl pad protocol :
  m_data m = down_data src dst pl ++ pad -> mappings_out !! sender_of m = Some protocol ->
  bytes src -> zlen src = 4 -> bytes dst -> zlen dst = 4 -> bytes pl -> zlen pl <= 65535 ->
  is_u 16 packets_id -> is_byte protocol -> 28 <= mtu <= 65535 ->
  bytes mac1 -> zlen mac1 <= 255 -> bytes mac2 -> zlen mac2 <= 255 ->
  n1 <> n2 -> o_pending st !! n1 = None -> o_pending st !! n2 = None -> o_heap st !! o_next st = None ->
  resolver_reply (if first then n2 else n1) (if first then mac2 else mac1) rb ->
  exists st3 frames,
    Forall2 (ip4_frag src dst protocol packets_id (zlen pl)) (pieces 0 (chunks (use_mtu_size mtu) pl)) frames /\
    ip4_sender mappings_out link_name mtu packets_id junk rb
        (half_pending first now m n1 n2 (if first then mac1 else mac2) st) w =
      Ret (Some st3, send_until link_name (map (frame_message mac1 mac2) frames) w) /\
    o_pending st3 = o_pending st /\ o_heap st3 = o_heap st /\ o_next st3 = o_next st + 1.
Proof.
  intros Hm Hmap Bs Ls Bd Ld Bp Lp Hid Hpr Hmtu B1 L1 B2 L2 Hne P1 P2 Hfresh Hb.
  destruct (ip4_transmit_aux mappings_out link_name mtu packets_id m mac1 mac2 w src dst pl pad protocol
    Hm Hmap Bs Ls Bd Ld Bp Lp Hid Hpr Hmtu L1 L2) as (frames & Hfr & Ht).
  unfold half_pending. rewrite (insert_pending_state st (new_pending now m n1 n2) Hne P1 P2).
  cbn [new_pending pm_from_nr pm_to_nr]. set (ptr := o_next st) in *.
  set (pm2 := {| pm_ts := now |}). set (st2 := erase_pending _ _).
  exists (erase_pending (free_pending st2 ptr) (if first then n2 else n1)), frames. split; [done|].
  assert (Bmb : bytes (if first then mac2 else mac1)) by (by destruct first).
  assert (Hpb : o_pending st2 !! (if first then n2 else n1) = Some ptr).
  { cbn. destruct first; rewrite lookup_delete_ne by done; [by rewrite lookup_insert_eq|].
    by rewrite lookup_insert_ne, lookup_insert_eq. }
  assert (Hhb : o_heap st2 !! ptr = Some pm2) by (apply lookup_insert_eq).
  rewrite (ip4_sender_reply _ _ _ _ _ _ _ _ _ _ _ _ Hb Bmb Hpb Hhb).
  assert (Hfill : ip4_sender_filled mappings_out link_name mtu packets_id (if first then n2 else n1) ptr pm2
      (Some mac1) (Some mac2) st2 w =
      Ret (Some (erase_pending (free_pending st2 ptr) (if first then n2 else n1)),
           send_until link_name (map (frame_message mac1 mac2) frames) w)).
  { unfold ip4_sender_filled. erewrite prog_bind_step by exact Ht. done. }
  split.
  { destruct first; cbn [pm2 pm_from_nr pm_to_nr pm_from pm_to].
    - replace (n1 =? n2) with false by lia. rewrite Z.eqb_refl. exact Hfill.
    - rewrite Z.eqb_refl. exact Hfill. }
  split; [|split; [|done]]; cbn.
  - apply map_eq. intros k. destruct (decide (k = n1)), (decide (k = n2)), first; subst;
      simplify_map_eq; congruence.
  - apply map_eq. intros k. destruct (decide (k = ptr)) as [->|]; by simplify_map_eq.
Qed.

(** The two replies, in the given order, transmit the packet and release it. *)
Lemma ip4_two_replies mappings_out link_name mtu packets_id junk ra rb (first : bool) m n1 n2 mac1 mac2
  st now wa wb src dst pl pad protocol :
  m_data m = down_data src dst pl ++ pad -> mappings_out !! sender_of m = Some protocol ->
  bytes src -> zlen src = 4 -> bytes dst -> zlen dst = 4 -> bytes pl -> zlen pl <= 65535 ->
  is_u 16 packets_id -> is_byte protocol -> 28 <= mtu <= 65535 ->
  bytes mac1 -> zlen mac1 <= 255 -> bytes mac2 -> zlen mac2 <= 255 ->
  n1 <> n2 -> o_pending st !! n1 = None -> o_pending st !! n2 = None -> o_heap st !! o_next st = None ->
  resolver_reply (if first then n1 else n2) (if first then mac1 else mac2) ra ->
  resolver_reply (if first then n2 else n1) (if first then mac2 else mac1) rb ->
  exists st2 st3 frames,
    ip4_sender mappings_out link_name mtu packets_id junk ra (queue_pending (new_pending now m n1 n2) st) wa =
      Ret (Some st2, wa) /\
    Forall2 (ip4_frag src dst protocol packets_id (zlen pl)) (pieces 0 (chunks (use_mtu_size mtu) pl)) frames /\
    ip4_sender mappings_out link_name mtu packets_id junk rb st2 wb =
      Ret (Some st3, send_until link_name (map (frame_message mac1 mac2) frames) wb) /\
    o_pending st3 = o_pending st /\ o_heap st3 = o_heap st.
Proof.
  intros Hm Hmap Bs Ls Bd Ld Bp Lp Hid Hpr Hmtu B1 L1 B2 L2 Hne P1 P2 Hfresh Ha Hb.
  destruct (ip4_second_reply mappings_out link_name mtu packets_id junk rb first m n1 n2 mac1 mac2 st now wb
    src dst pl pad protocol) as (st3 & frames & Hfr & Hrun & HP & HH & _); try done.
  eexists _, st3, frames. split; [|exact (conj Hfr (conj Hrun (conj HP HH)))].
  apply ip4_first_reply; [by destruct first|done..].
Qed.

End Ip4Pending.

(** ** Properties *)

(** The receive handler on any packet.  For every message carrying a
    packet [pl], however padded, the handler returns without fault, and what it
    does is [ip4_judge]'s verdict: packets that are short, not version 4, for
    another address or with a bad header checksum are dropped; inconsistent
    lengths, an expired TTL and an unknown protocol are reported to the ICMP
    server with types (12, 2), (11, 0) and (3, 2); an unfragmented packet is
    handed to the server of its protocol, payload without header, marked with
    its session id; a fragment goes to the fragment store, whose invariant is
    kept, and is followed by a delivery exactly when the store returns a
    complete packet. *)
Theorem ip4_run_in_spec `{Transport W} (listen_addr : addr) (mappings_in : gmap Z (list Z))
  (icmp_error_name : list Z) (junk : nat -> Z) (now : Z) (m : message) (packets : gmap Z packet) (w : W)
  (full from to pl pad : list Z)
  (Hm : m_data m = up_data full from to pl ++ pad) (Hb : bytes pl)
  (Hk : zlen full <= 65535) (Hf : zlen from <= 255) (Ht : zlen to <= 255) (Hp : zlen pl <= 65535)
  (Ll : zlen listen_addr = 4) (Hwf : packets_wf packets) :
  let run := ip4_run_in listen_addr mappings_in icmp_error_name junk now m packets w in
  match ip4_judge listen_addr mappings_in pl with
  | IDrop => run = Ret (packets, w)
  | IError type code =>
    run = Ret (packets, after_send icmp_error_name
                          (message_of (up_data pl (ip4_dst pl) (ip4_src pl) [type; code]) None) w)
  | IAccept upper =>
    exists sid, ip4_calc_session_id (ip4_src pl) (ip4_dst pl) (ip4_protocol pl) (ip4_id pl) = Ret sid /\
    if (0 <? ip4_offset pl) || ip4_more pl then
      exists packets' o,
        store_fragment junk now packets sid (ip4_offset pl) (nth 6 pl 0 / 32) (ip4_payload pl) = Ret (packets', o) /\
        packets_wf packets' /\
        run = Ret (packets', match o with Some p => ip4_deliver upper sid pl (p_data p) w | None => w end)
    else run = Ret (packets, ip4_deliver upper sid pl (ip4_payload pl) w)
  end.
Proof. by apply (ip4_run_in_aux listen_addr mappings_in icmp_error_name junk now m packets w full from to pl pad). Qed.

Definition ex_src : addr := [10; 0; 0; 1].
Definition ex_dst : addr := [10; 0; 0; 2].
(** A packet of protocol 17 with time to live 0. *)
Definition ex_expired : list Z := [0x45; 0; 0; 24; 0; 1; 0; 0; 0; 17; 0; 0] ++ ex_src ++ ex_dst ++ [1; 2; 3; 4].

Lemma ip4_run_in_spec_witness :
  ip4_run_in (W := oracle) ex_dst {[ 17 := str "udp" ]} (str "icmp") (fun _ => 0) 5
    (message_of (up_data [] [] [] ex_expired) None) ∅ oracle_ok =
  Ret (∅, after_send (str "icmp") (message_of (up_data ex_expired ex_dst ex_src [11; 0]) None) oracle_ok).
Proof.
  apply (ip4_run_in_spec (W := oracle) ex_dst {[ 17 := str "udp" ]} (str "icmp") (fun _ => 0) 5
    (message_of (up_data [] [] [] ex_expired) None) ∅ oracle_ok [] [] [] ex_expired []).
  all: first [concrete_bytes | by vm_compute | apply map_Forall_empty].
Defined.

(** Reassembly in any order of arrival.  A payload cut into non-empty
    consecutive pieces, each in a valid IPv4 packet to this host (checksum,
    offset and more-fragments flag set accordingly): whatever order the packets
    arrive in, at whatever times and with whatever link-level framing, the
    upper protocol gets exactly one message, at the last arrival, with exactly
    the payload, and afterwards the fragment store is what it was before. *)
Theorem ip4_reassembly `{Transport W} (listen_addr : addr) (mappings_in : gmap Z (list Z))
  (icmp_error_name : list Z) (junk : nat -> Z) (ps : list (list Z)) (src : addr) (protocol id : Z)
  (upper : list Z) (sid : Z) (frames arrivals : list (list Z)) (ms : list (Z * message))
  (packets : gmap Z packet) (w : W)
  (Hn : nonempty_pieces ps) (Hne : ps <> []) (Htot : 20 + zlen (concat ps) <= 65535)
  (Ll : zlen listen_addr = 4) (Hu : mappings_in !! protocol = Some upper)
  (Hsid : ip4_calc_session_id src listen_addr protocol id = Ret sid)
  (Hfr : Forall2 (ip4_frag src listen_addr protocol id (zlen (concat ps))) (pieces 0 ps) frames)
  (Harr : arrivals ≡ₚ frames) (Hms : Forall2 brings arrivals ms)
  (Hwf : packets_wf packets) (Hnone : packets !! sid = None) :
  exists last_f, last_f ∈ arrivals /\
    ip4_run_in_seq listen_addr mappings_in icmp_error_name junk ms packets w =
      Ret (packets, ip4_delivered upper sid src listen_addr last_f (concat ps) w).
Proof.
  by apply (ip4_reassembly_aux listen_addr mappings_in icmp_error_name junk ps src protocol id upper sid frames).
Qed.

(** The two fragments of a 12-byte payload. *)
Definition ex_frag (fo : Z) (more : bool) (bs : list Z) : list Z :=
  match ip4_fragment 7 17 fo (zlen bs) 12 ex_src ex_dst (zeros fo ++ bs) with Ret f => f | Fault _ => [] end.
Definition ex_piece1 : list Z := [1; 2; 3; 4; 5; 6; 7; 8].
Definition ex_piece2 : list Z := [9; 10; 11; 12].
Definition ex_frag1 : list Z := ex_frag 0 true ex_piece1.
Definition ex_frag2 : list Z := ex_frag 8 false ex_piece2.
Definition ex_sid : Z := match ip4_calc_session_id ex_src ex_dst 17 7 with Ret s => s | Fault _ => 0 end.

Lemma ip4_reassembly_witness :
  exists last_f, last_f ∈ [ex_frag2; ex_frag1] /\
    ip4_run_in_seq (W := oracle) ex_dst {[ 17 := str "udp" ]} (str "icmp") (fun _ => 0)
      [(1, message_of (up_data [] [] [] ex_frag2) None); (2, message_of (up_data [] [] [] ex_frag1) None)] ∅ oracle_ok =
      Ret (∅, ip4_delivered (str "udp") ex_sid ex_src ex_dst last_f [1; 2; 3; 4; 5; 6; 7; 8; 9; 10; 11; 12] oracle_ok).
Proof.
  apply (ip4_reassembly (W := oracle) ex_dst {[ 17 := str "udp" ]} (str "icmp") (fun _ => 0) [ex_piece1; ex_piece2]
    ex_src 17 7 (str "udp") ex_sid [ex_frag1; ex_frag2] [ex_frag2; ex_frag1]).
  - by repeat constructor.
  - done.
  - by vm_compute.
  - done.
  - by vm_compute.
  - by vm_compute.
  - repeat constructor; first [concrete_bytes | by vm_compute].
  - apply perm_swap.
  - repeat constructor; exists [], [], [], []; by repeat split.
  - apply map_Forall_empty.
  - by vm_compute.
Defined.

(** Fragmentation.  For every queued message with a payload of at most
    65535 bytes and every MTU of at least 28 the sender loop ends, and hands
    to the link (until a send fails) one frame per piece of the payload: each
    piece but the last is [(mtu - 20) & ~7] bytes, a multiple of 8, every
    packet fits the MTU, the pieces in order are the payload, and each frame
    is a well-formed IPv4 packet with the given addresses, protocol, id, offset
    and flag and with a valid header checksum. *)
Theorem ip4_transmit_fragments `{Transport W} (mappings_out : gmap (list Z) Z) (link_name : list Z) (mtu packets_id : Z)
  (m : message) (mac_from mac_to : addr) (w : W) (src dst pl pad : list Z) (protocol : Z)
  (Hm : m_data m = down_data src dst pl ++ pad) (Hmap : mappings_out !! sender_of m = Some protocol)
  (Bs : bytes src) (Ls : zlen src = 4) (Bd : bytes dst) (Ld : zlen dst = 4) (Bp : bytes pl) (Lp : zlen pl <= 65535)
  (Hid : is_u 16 packets_id) (Hpr : is_byte protocol) (Hmtu : 28 <= mtu <= 65535)
  (Lf : zlen mac_from <= 255) (Lt : zlen mac_to <= 255) :
  exists ps frames,
    concat ps = pl /\ Forall (fun p => 0 < zlen p <= use_mtu_size mtu) ps /\
    use_mtu_size mtu mod 8 = 0 /\ 20 + use_mtu_size mtu <= mtu /\
    Forall2 (ip4_frag src dst protocol packets_id (zlen pl)) (pieces 0 ps) frames /\
    ip4_transmit mappings_out link_name mtu packets_id m mac_from mac_to w =
      Ret (true, send_until link_name (map (frame_message mac_from mac_to) frames) w).
Proof.
  destruct (ip4_transmit_aux mappings_out link_name mtu packets_id m mac_from mac_to w src dst pl pad protocol)
    as (frames & Hf & Hr); try done.
  destruct (use_mtu_size_spec mtu Hmtu) as (Hu & Hu8 & _).
  exists (chunks (use_mtu_size mtu) pl), frames.
  split; [apply chunk_concat; lia|]. split.
  { eapply List.Forall_impl; [|apply (chunk_sizes (length pl) (Z.to_nat (use_mtu_size mtu)) pl); lia].
    cbn. lia. }
  split; [done|]. split; [lia|]. by split.
Qed.

Definition ex_queued : message :=
  {| m_id := 0; m_sent_at := 0; m_size := 48; m_type := msg_new; m_msg_nr := 1; m_sender := str "udp" ++ [0];
     m_data := down_data ex_src ex_dst (ex_piece1 ++ ex_piece2) |}.

Lemma ip4_transmit_fragments_witness :
  exists ps frames,
    concat ps = ex_piece1 ++ ex_piece2 /\ Forall (fun p => 0 < zlen p <= use_mtu_size 30) ps /\
    use_mtu_size 30 mod 8 = 0 /\ 20 + use_mtu_size 30 <= 30 /\
    Forall2 (ip4_frag ex_src ex_dst 17 7 12) (pieces 0 ps) frames /\
    ip4_transmit (W := oracle) {[ str "udp" := 17 ]} (str "eth") 30 7 ex_queued [1; 1; 1; 1; 1; 1] [2; 2; 2; 2; 2; 2] oracle_ok =
      Ret (true, send_until (str "eth") (map (frame_message [1; 1; 1; 1; 1; 1] [2; 2; 2; 2; 2; 2]) frames) oracle_ok).
Proof.
  apply (ip4_transmit_fragments (W := oracle) {[ str "udp" := 17 ]} (str "eth") 30 7 ex_queued
    [1; 1; 1; 1; 1; 1] [2; 2; 2; 2; 2; 2] oracle_ok ex_src ex_dst (ex_piece1 ++ ex_piece2) [] 17).
  all: first [concrete_bytes | by vm_compute | unfold is_u, is_byte; lia].
Defined.

(** C6: IPv4 end to end.  What one instance of the server transmits for a
    queued message with a non-empty payload, another instance with the
    destination's address delivers: whatever the MTU, the order of arrival,
    the framing and the state of other reassemblies, the upper protocol there
    gets exactly one message, from [src], with exactly the payload. *)
Theorem ip4_end_to_end `{Transport W} (mappings_out : gmap (list Z) Z) (link_name : list Z) (mtu packets_id : Z)
  (m : message) (mac_from mac_to : addr) (w : W) (src dst pl pad : list Z) (protocol : Z)
  (mappings_in : gmap Z (list Z)) (icmp_error_name upper : list Z) (junk : nat -> Z)
  (Hm : m_data m = down_data src dst pl ++ pad) (Hmap : mappings_out !! sender_of m = Some protocol)
  (Bs : bytes src) (Ls : zlen src = 4) (Bd : bytes dst) (Ld : zlen dst = 4) (Bp : bytes pl)
  (Lp : 0 < zlen pl <= 65515) (Hid : is_u 16 packets_id) (Hpr : is_byte protocol) (Hmtu : 28 <= mtu <= 65535)
  (Lf : zlen mac_from <= 255) (Lt : zlen mac_to <= 255) (Hu : mappings_in !! protocol = Some upper) :
  exists frames sid,
    ip4_transmit mappings_out link_name mtu packets_id m mac_from mac_to w =
      Ret (true, send_until link_name (map (frame_message mac_from mac_to) frames) w) /\
    forall arrivals ms packets w2,
      arrivals ≡ₚ frames -> Forall2 brings arrivals ms -> packets_wf packets -> packets !! sid = None ->
      exists last_f, last_f ∈ frames /\
        ip4_run_in_seq dst mappings_in icmp_error_name junk ms packets w2 =
          Ret (packets, ip4_delivered upper sid src dst last_f pl w2).
Proof.
  destruct (ip4_transmit_aux mappings_out link_name mtu packets_id m mac_from mac_to w src dst pl pad protocol)
    as (frames & Hf & Hr); try done; try lia.
  destruct (use_mtu_size_spec mtu Hmtu) as (Hus & Hu8 & _).
  set (ps := chunks (use_mtu_size mtu) pl) in *.
  assert (Hc : concat ps = pl) by (apply chunk_concat; lia).
  destruct (ip4_calc_session_id_ok src dst protocol packets_id Ls Ld) as (sid & Hsid).
  exists frames, sid. split; [done|]. intros arrivals ms packets w2 Harr Hms Hwf Hnone.
  destruct (ip4_reassembly_aux dst mappings_in icmp_error_name junk ps src protocol packets_id upper sid
    frames arrivals ms packets w2) as (last_f & Hl & Hrun); try done.
  - eapply List.Forall_impl; [|apply (chunk_sizes (length pl) (Z.to_nat (use_mtu_size mtu)) pl); lia].
    cbn. lia.
  - intros E. rewrite E in Hc. cbn in Hc. rewrite <- Hc in Lp. change (zlen []) with 0 in Lp. lia.
  - rewrite Hc. lia.
  - by rewrite Hc.
  - exists last_f. rewrite Hc in Hrun. split; [by rewrite <- Harr|done].
Qed.

Lemma ip4_end_to_end_witness :
  exists frames sid,
    ip4_transmit (W := oracle) {[ str "udp" := 17 ]} (str "eth") 30 7 ex_queued [1; 1; 1; 1; 1; 1] [2; 2; 2; 2; 2; 2] oracle_ok =
      Ret (true, send_until (str "eth") (map (frame_message [1; 1; 1; 1; 1; 1] [2; 2; 2; 2; 2; 2]) frames) oracle_ok) /\
    forall arrivals ms packets w2,
      arrivals ≡ₚ frames -> Forall2 brings arrivals ms -> packets_wf packets -> packets !! sid = None ->
      exists last_f, last_f ∈ frames /\
        ip4_run_in_seq (W := oracle) ex_dst {[ 17 := str "udp" ]} (str "icmp") (fun _ => 0) ms packets w2 =
          Ret (packets, ip4_delivered (str "udp") sid ex_src ex_dst last_f (ex_piece1 ++ ex_piece2) w2).
Proof.
  apply (ip4_end_to_end (W := oracle) {[ str "udp" := 17 ]} (str "eth") 30 7 ex_queued
    [1; 1; 1; 1; 1; 1] [2; 2; 2; 2; 2; 2] oracle_ok ex_src ex_dst (ex_piece1 ++ ex_piece2) [] 17).
  all: first [concrete_bytes | by vm_compute | unfold is_u, is_byte; lia].
Defined.

(** A packet on its way out.  [run_out] asks the resolver for the source
    and for the next hop (the destination on the own subnet, else the gateway)
    and, when both requests could be sent, queues the packet under both request
    numbers.  When the two replies come in, in either order, the first one
    sends nothing, the second one transmits all fragments between the two MAC
    addresses, and then the heap object and both entries are gone: no dangling
    entry, no leak, nothing used after it was freed. *)
Theorem ip4_pending_flow `{Transport W} (listen_addr : addr * Z) (gw : addr) (resolver_name link_name : list Z)
  (mappings_out : gmap (list Z) Z) (mtu packets_id now : Z) (junk : nat -> Z)
  (m ra rb : message) (first : bool) (st : ip4_out_state) (w wa wb : W)
  (src dst pl pad : list Z) (mac1 mac2 : addr) (protocol : Z)
  (Hm : m_data m = down_data src dst pl ++ pad) (Hmap : mappings_out !! sender_of m = Some protocol)
  (Bs : bytes src) (Ls : zlen src = 4) (Bd : bytes dst) (Ld : zlen dst = 4) (Bp : bytes pl) (Lp : zlen pl <= 65535)
  (Bl : bytes listen_addr.1) (Ll : zlen listen_addr.1 = 4) (Bg : bytes gw) (Lg : zlen gw = 4)
  (Hprefix : 0 <= listen_addr.2 < 32)
  (Hid : is_u 16 packets_id) (Hpr : is_byte protocol) (Hmtu : 28 <= mtu <= 65535)
  (B1 : bytes mac1) (L1 : zlen mac1 <= 255) (B2 : bytes mac2) (L2 : zlen mac2 <= 255) :
  let m1 := search_message src in
  let m2 := search_message (ip4_via listen_addr gw dst) in
  let w1 := after_send resolver_name m1 w in
  let n1 := send_nr resolver_name m1 w in
  let n2 := send_nr resolver_name m2 w1 in
  forall (Hok1 : send_ok_b resolver_name m1 w = true) (Hok2 : send_ok_b resolver_name m2 w1 = true) (Hnr : n1 <> n2)
    (P1 : o_pending st !! n1 = None) (P2 : o_pending st !! n2 = None) (Hfresh : o_heap st !! o_next st = None)
    (Ha : resolver_reply (if first then n1 else n2) (if first then mac1 else mac2) ra)
    (Hb : resolver_reply (if first then n2 else n1) (if first then mac2 else mac1) rb),
  exists st1 st2 st3 frames,
    ip4_run_out listen_addr gw resolver_name now m st w = Ret (st1, after_send resolver_name m2 w1) /\
    ip4_sender mappings_out link_name mtu packets_id junk ra st1 wa = Ret (Some st2, wa) /\
    Forall2 (ip4_frag src dst protocol packets_id (zlen pl)) (pieces 0 (chunks (use_mtu_size mtu) pl)) frames /\
    ip4_sender mappings_out link_name mtu packets_id junk rb st2 wb =
      Ret (Some st3, send_until link_name (map (frame_message mac1 mac2) frames) wb) /\
    o_pending st3 = o_pending st /\ o_heap st3 = o_heap st.
Proof.
  intros m1 m2 w1 n1 n2 Hok1 Hok2 Hnr P1 P2 Hfresh Ha Hb.
  pose proof (ip4_run_out_aux listen_addr gw resolver_name now m st w src dst pl pad Hm Bs Ls Bd Ld Lp Bl Ll Bg Lg Hprefix) as Hout.
  cbn zeta in Hout. fold m1 in Hout. fold m2 in Hout. fold w1 in Hout. rewrite Hok1, Hok2 in Hout. cbn [andb] in Hout.
  fold n1 in Hout. fold n2 in Hout.
  destruct (ip4_two_replies mappings_out link_name mtu packets_id junk ra rb first m n1 n2 mac1 mac2 st now wa wb
    src dst pl pad protocol) as (st2 & st3 & frames & H1 & H2 & H3 & H4 & H5); try done.
  eexists _, st2, st3, frames. split; [exact Hout|]. done.
Qed.

Definition ex_out_state : ip4_out_state := {| o_heap := ∅; o_next := 0; o_pending := ∅ |}.
Definition ex_mac1 : addr := [1; 1; 1; 1; 1; 1].
Definition ex_mac2 : addr := [2; 2; 2; 2; 2; 2].
Definition ex_reply (nr : Z) (mac : addr) : message :=
  let text := str "ip4:x" ++ str "=mac:" ++ to_str 58 true mac in
  fill_message (allocate_shm_message (zlen text)) msg_reply nr text.

Lemma ex_reply_ok nr mac : zlen mac = 6 -> bytes mac -> resolver_reply nr mac (ex_reply nr mac).
Proof.
  intros Lm Bm. split; [done|]. exists (str "ip4:x"), []. split; [refine (bool_decide_unpack _ _); by vm_compute|].
  cbn zeta. split; [|by rewrite app_nil_r]. unfold ex_reply. cbn [fill_message allocate_shm_message m_size].
  apply wrap_small. unfold is_u. rewrite !zlen_app. pose proof (zlen_to_str 58 true mac Bm).
  pose proof (zlen_nonneg (to_str 58 true mac)).
  change (zlen (str "ip4:x")) with 5. change (zlen (str "=mac:")) with 5. lia.
Qed.

Lemma ip4_pending_flow_witness :
  exists st1 st2 st3 frames,
    ip4_run_out (W := oracle) ([10; 0; 0; 1], 24) [10; 0; 0; 254] (str "arp") 5 ex_queued ex_out_state oracle_ok =
      Ret (st1, after_send (str "arp") (search_message ex_dst) (after_send (str "arp") (search_message ex_src) oracle_ok)) /\
    ip4_sender (W := oracle) {[ str "udp" := 17 ]} (str "eth") 30 7 (fun _ => 0) (ex_reply 2 ex_mac2) st1 oracle_ok =
      Ret (Some st2, oracle_ok) /\
    Forall2 (ip4_frag ex_src ex_dst 17 7 12) (pieces 0 (chunks (use_mtu_size 30) (ex_piece1 ++ ex_piece2))) frames /\
    ip4_sender (W := oracle) {[ str "udp" := 17 ]} (str "eth") 30 7 (fun _ => 0) (ex_reply 1 ex_mac1) st2 oracle_ok =
      Ret (Some st3, send_until (str "eth") (map (frame_message ex_mac1 ex_mac2) frames) oracle_ok) /\
    o_pending st3 = ∅ /\ o_heap st3 = ∅.
Proof.
  apply (ip4_pending_flow (W := oracle) ([10; 0; 0; 1], 24) [10; 0; 0; 254] (str "arp") (str "eth")
    {[ str "udp" := 17 ]} 30 7 5 (fun _ => 0) ex_queued (ex_reply 2 ex_mac2) (ex_reply 1 ex_mac1) false
    ex_out_state oracle_ok oracle_ok oracle_ok ex_src ex_dst (ex_piece1 ++ ex_piece2) [] ex_mac1 ex_mac2 17).
  all: first [concrete_bytes | by vm_compute | unfold is_u, is_byte; cbn; lia | apply ex_reply_ok; [done|concrete_bytes]].
Defined.

(** Routing.  For every prefix length below 32 the next hop is the
    destination itself exactly when it agrees with the own address on that
    many upper bits, and the gateway otherwise; for a host route (prefix length
    32, or more) the table [masks] is read beyond its end. *)
Theorem ip4_route_by_prefix (listen_addr : addr * Z) (gw dst : addr) (rest : list Z)
  (Bl : bytes listen_addr.1) (Ll : zlen listen_addr.1 = 4) (Bd : bytes dst) (Ld : zlen dst = 4)
  (Hp : 0 <= listen_addr.2) :
  if listen_addr.2 <? 32 then
    exists cidr, listen_cidr_word listen_addr = Ret cidr /\
      ip4_route listen_addr gw cidr (dst ++ rest) =
      Ret (if addr_val dst / 2 ^ (32 - listen_addr.2) =? addr_val listen_addr.1 / 2 ^ (32 - listen_addr.2)
           then dst else gw)
  else listen_cidr_word listen_addr = Fault OutOfBounds.
Proof.
  destruct (Z.ltb_spec listen_addr.2 32).
  - by apply ip4_route_spec.
  - unfold listen_cidr_word. destruct (addr_word_val listen_addr.1 [] Bl Ll) as [El _].
    rewrite app_nil_r in El. rewrite El. mcbn. by rewrite masks_oob.
Qed.

Lemma ip4_route_by_prefix_witness :
  exists cidr, listen_cidr_word ([192; 168; 3; 7], 22) = Ret cidr /\
    ip4_route ([192; 168; 3; 7], 22) [192; 168; 0; 1] cidr ([192; 168; 4; 9] ++ [1; 2]) = Ret [192; 168; 0; 1].
Proof.
  apply (ip4_route_by_prefix ([192; 168; 3; 7], 22) [192; 168; 0; 1] [192; 168; 4; 9] [1; 2]).
  all: first [concrete_bytes | by vm_compute].
Defined.
