(* ===== verification/TcpWire.v ===== *)
(** * TCP segments: the stateless part of [src/tcp_server.cpp]

    Session ids, SYN cookies, the MSS option of a SYN, and
    [send_tcp_packet], which cuts a payload into segments. *)

From S2P Require Import Prelude Net Checksum Str Addr SipHash ShmMessage Transport Ip4In.

(** ** Code *)

Definition FLAG_CWR : Z := 128.
Definition FLAG_ECE : Z := 64.
Definition FLAG_URG : Z := 32.
Definition FLAG_ACK : Z := 16.
Definition FLAG_PSH : Z := 8.
Definition FLAG_RST : Z := 4.
Definition FLAG_SYN : Z := 2.
Definition FLAG_FIN : Z := 1.

Definition INITIAL_LOCAL_WINDOW_SIZE : Z := 32768.
Definition MI_IP4_MIN_TCP_MTU : Z := 536.

Definition mss_ranges : list Z := [216; 536; 984; 1400; 1436; 1452; 1460; 1500].

(** [flags & FLAG] as a condition. *)
Definition has (flags flag : Z) : bool := negb (Z.land flags flag =? 0).

(** [flags_to_str(flags)]: names with a comma after each, the last one erased. *)
Definition flags_to_str (flags : Z) : list Z :=
  let name f s := if has flags f then str s else [] in
  let out := name FLAG_CWR "CWR,"%string ++ name FLAG_ECE "ECE,"%string ++ name FLAG_URG "URG,"%string
             ++ name FLAG_ACK "ACK,"%string ++ name FLAG_PSH "PSH,"%string ++ name FLAG_RST "RST,"%string
             ++ name FLAG_SYN "SYN,"%string ++ name FLAG_FIN "FIN,"%string in
  take (length out - 1) out.

(** [calc_session_id(src_port, dst_port, from, to)] *)
Definition tcp_calc_session_id (src_port dst_port : Z) (from to : addr) : outcome Z :=
  let from_len := zlen from in
  let session_id_buffer_len := 2 + 2 + from_len + zlen to in
  let session_id_buffer := zeros session_id_buffer_len in
  session_id_buffer ← wr session_id_buffer 0 (le_bytes 2 (u16 src_port));
  session_id_buffer ← wr session_id_buffer 2 (le_bytes 2 (u16 dst_port));
  session_id_buffer ← addr_get from session_id_buffer 4;
  session_id_buffer ← addr_get to session_id_buffer (4 + from_len);
  Ret (Z.lor (u64 (Z.shiftl (sip_out session_id_buffer session_id_salt 0) 32))
             (sip_out session_id_buffer session_id_salt 1)).

(** [my_syn_cookie(session_id, syn_cookie_salt, mss_index)] at [time(nullptr) = now]. *)
Definition my_syn_cookie (session_id : Z) (syn_cookie_salt : list Z) (mss_index now : Z) : outcome Z :=
  let t := Z.land (u32 (Z.shiftr now 6)) 31 in
  let buffer := le_bytes 8 session_id ++ [u8 t] in
  _ ← assertb ((mss_index >=? 0) && (mss_index <=? 7));
  let s := Z.lxor (sip_out buffer syn_cookie_salt 0) (sip_out buffer syn_cookie_salt 1) in
  Ret (Z.lor (Z.lor (Z.land s 0xFFFFFF00) (Z.shiftl t 3)) mss_index).

(** The inner loop over [mss_ranges]: the last range not above [mss]. *)
Fixpoint mss_index_of (ranges : list Z) (i mss mss_index : Z) : Z :=
  match ranges with
  | [] => mss_index
  | r :: rest => mss_index_of rest (i + 1) mss (if mss >=? r then i else mss_index)
  end.

(** The option loop of a SYN from offset [cur], with [header_size] bytes of
    header. One byte is consumed at least per turn, so [header_size] turns are
    enough ([tcp_options_spec] below). *)
Fixpoint tcp_options (fuel : nat) (pl : list Z) (header_size cur mss_index : Z) : outcome Z :=
  match fuel with
  | O => Fault Diverges
  | S f =>
    if header_size - 2 >=? cur then
      kind ← rd pl cur;
      len ← rd pl (cur + 1);
      mss_index ← (if (kind =? 2) && (len =? 4) && (header_size - 4 >=? cur) then
                     b2 ← rd pl (cur + 2);
                     b3 ← rd pl (cur + 3);
                     Ret (mss_index_of mss_ranges 0 (Z.lor (Z.shiftl b2 8) b3) mss_index)
                   else Ret mss_index);
      if (kind =? 0) || (kind =? 1) then tcp_options f pl header_size (cur + 1) mss_index
      else if len =? 0 then Ret mss_index
      else tcp_options f pl header_size (cur + len) mss_index
    else Ret mss_index
  end.

(** One segment of [send_tcp_packet] with the payload bytes [data]. *)
Definition tcp_packet (from to : addr) (src_port dst_port local_seq ack_nr flags window_size : Z)
  (data : list Z) : outcome (list Z) :=
  let packet_length := 20 + zlen data in
  let packet := zeros packet_length in
  packet ← put_uint16 packet 0 src_port;
  packet ← put_uint16 packet 2 dst_port;
  packet ← put_uint32 packet 4 local_seq;
  packet ← put_uint32 packet 8 ack_nr;
  packet ← wr packet 12 [u8 (Z.shiftl 5 4)];
  packet ← wr packet 13 [u8 flags];
  packet ← put_uint16 packet 14 window_size;
  packet ← wr packet 20 data;
  checksum ← tcp_udp_checksum from to packet packet_length 6;
  put_uint16 packet 16 checksum.

Section TcpWire.
Context `{Transport W}.

(** The [do]-[while] loop of [send_tcp_packet]; the result is its [ssize_t]. *)
Fixpoint send_tcp_loop (fuel : nat) (down : list Z) (from to : addr) (src_port dst_port ack_nr flags window_size mss : Z)
  (p : list Z) (len_in local_seq n_sent : Z) : prog W Z :=
  match fuel with
  | O => lift (Fault Diverges)
  | S f =>
    let use_n := Z.min len_in mss in
    data ← lift (rdn p 0 use_n);
    packet ← lift (tcp_packet from to src_port dst_port local_seq ack_nr flags window_size data);
    let p := padd p use_n in
    let local_seq := u32 (local_seq + use_n) in
    let len_in := len_in - use_n in
    let n_sent := n_sent + use_n in
    wrapped ← lift (wrap_message_down (zlen from) from (zlen to) to (20 + use_n) packet None);
    rc ← send down wrapped false;
    if negb (rc.1 : bool) then mret (if n_sent >? 0 then n_sent else -1)
    else if len_in >? 0 then
      send_tcp_loop f down from to src_port dst_port ack_nr flags window_size mss p len_in local_seq n_sent
    else mret n_sent
  end.

Definition send_tcp_packet (down : list Z) (from to : addr) (src_port dst_port seq_nr ack_nr flags window_size : Z)
  (payload : list Z) (payload_len mss : Z) : prog W Z :=
  send_tcp_loop (S (Z.to_nat payload_len)) down from to src_port dst_port ack_nr flags window_size mss
    payload payload_len seq_nr 0.

(** [send_syn_cookie] *)
Definition send_syn_cookie (out_name : list Z) (session_id : Z) (syn_cookie_salt : list Z) (mss_index : Z)
  (from : addr) (source_port : Z) (to : addr) (destination_port peer_seq_nr now : Z) : prog W unit :=
  syn_cookie ← lift (my_syn_cookie session_id syn_cookie_salt mss_index now);
  _ ← send_tcp_packet out_name to from destination_port source_port syn_cookie (u32 (peer_seq_nr + 1))
        (Z.lor FLAG_SYN FLAG_ACK) INITIAL_LOCAL_WINDOW_SIZE [] 0 MI_IP4_MIN_TCP_MTU;
  mret tt.

End TcpWire.

(** ** Lemmas: segments *)

Definition tcp_header (src_port dst_port seq ack flags window ck : Z) : list Z :=
  be16 (u16 src_port) ++ be16 (u16 dst_port) ++ be32 (u32 seq) ++ be32 (u32 ack) ++ [80; u8 flags]
  ++ be16 (u16 window) ++ be16 ck ++ [0; 0].

(** [s] is a segment with this header and payload whose checksum verifies. *)
Definition tcp_seg (from to : addr) (src_port dst_port seq ack flags window : Z) (data s : list Z) : Prop :=
  bytes s /\ (exists ck, s = tcp_header src_port dst_port seq ack flags window ck ++ data) /\
  tcp_udp_checksum from to s (zlen s) 6 = Ret 0.

Lemma zlen_tcp_header sp dp seq ack flags win ck : zlen (tcp_header sp dp seq ack flags win ck) = 20.
Proof. unfold tcp_header. autorewrite with zlen. change (zlen []) with 0. lia. Qed.

(** Evaluate a write into a buffer whose first bytes are listed. *)
Ltac wr_eval :=
  rewrite wr_ok by zlc; mcbn;
  match goal with |- context [splice ?l ?off ?bs] =>
    let r := eval cbv [splice firstn skipn app length Z.to_nat Pos.to_nat Pos.iter_op Nat.add be16 be32] in (splice l off bs) in
    change (splice l off bs) with r
  end.

Lemma tcp_packet_built from to sp dp seq ack flags win data :
  tcp_packet from to sp dp seq ack flags win data =
  (let p := tcp_header sp dp seq ack flags win 0 ++ data in
   checksum ← tcp_udp_checksum from to p (20 + zlen data) 6; put_uint16 p 16 checksum).
Proof.
  unfold tcp_packet, put_uint16, put_uint32. pose proof (zlen_nonneg data).
  assert (Hz : zeros (20 + zlen data) = repeat 0 20 ++ zeros (zlen data)).
  { unfold zeros. rewrite Z2Nat.inj_add by lia. by rewrite replicate_add. }
  assert (Hzl : zlen (zeros (zlen data)) = zlen data) by (by apply zlen_zeros).
  rewrite Hz. cbn [repeat app]. set (z := zeros (zlen data)) in *. clearbody z.
  do 7 wr_eval. rewrite wr_ok by zlc. mcbn. cbn zeta.
  match goal with |- context [splice ?x 20 data] =>
    change x with (tcp_header sp dp seq ack flags win 0 ++ z);
    replace (splice (tcp_header sp dp seq ack flags win 0 ++ z) 20 data)
      with (tcp_header sp dp seq ack flags win 0 ++ data)
      by (rewrite <- (app_nil_r z), splice_mid by done; by rewrite app_nil_r)
  end. done.
Qed.

Lemma bytes_tcp_header sp dp seq ack flags win ck : bytes (tcp_header sp dp seq ack flags win ck).
Proof.
  unfold tcp_header. rewrite !bytes_app. repeat split; auto with myip;
    repeat constructor; try apply u8_byte; unfold is_byte; lia.
Qed.

Lemma tcp_packet_spec from to sp dp seq ack flags win data :
  bytes from -> zlen from = 4 -> bytes to -> zlen to = 4 -> bytes data -> zlen data <= 65515 ->
  exists s, tcp_packet from to sp dp seq ack flags win data = Ret s /\
    tcp_seg from to sp dp seq ack flags win data s /\ zlen s = 20 + zlen data.
Proof.
  intros Bf Lf Bt Lt Bd Ld. rewrite tcp_packet_built. cbn zeta. pose proof (zlen_nonneg data).
  set (p := tcp_header sp dp seq ack flags win 0 ++ data).
  assert (Hp : zlen p = 20 + zlen data) by (unfold p; by rewrite zlen_app, zlen_tcp_header).
  assert (Bp : bytes p) by (unfold p; rewrite bytes_app; split; [apply bytes_tcp_header|done]).
  rewrite <- Hp. pose proof (tcp_udp_checksum_spec from to p 6 Bf Bt Bp ltac:(lia) ltac:(lia) ltac:(unfold is_byte; lia) ltac:(lia)) as Hc.
  rewrite Hc. mcbn. set (c := 65535 - _) in *.
  assert (Hcr : is_u 16 c).
  { unfold c, is_u. match goal with |- context [norm ?x] => pose proof (norm_range x) end.
    pose proof (pseudo_sum_bound from to (zlen p) 6 Bf Bt ltac:(unfold is_byte; lia) ltac:(lia)).
    pose proof (zsum_words16_nonneg p Bp). lia. }
  clearbody c. unfold put_uint16. rewrite (wrap_small 16 c) by done. rewrite wr_ok by (rewrite ?zlen_be16; lia).
  eexists. split; [done|].
  assert (Hz : zlen (splice p 16 (be16 c)) = zlen p) by (apply zlen_splice; rewrite ?zlen_be16; lia).
  split; [|by rewrite Hz].
  split; [auto with myip|]. split.
  - exists c. change p with ((be16 (u16 sp) ++ be16 (u16 dp) ++ be32 (u32 seq) ++ be32 (u32 ack) ++ [80; u8 flags]
      ++ be16 (u16 win)) ++ be16 0 ++ [0; 0] ++ data). by rewrite splice_mid.
  - rewrite Hz. apply tcp_udp_checksum_fill_aux; try done; try lia; unfold is_byte; lia.
Qed.

(** The payloads of the segments: chunks of [mss] bytes, one empty segment when
    there is nothing to send. *)
Definition tcp_chunks (mss : Z) (data : list Z) : list (list Z) :=
  match data with [] => [[]] | _ => chunks mss data end.

Lemma tcp_chunks_more mss data :
  0 < mss -> drop (Z.to_nat mss) data <> [] ->
  tcp_chunks mss data = take (Z.to_nat mss) data :: tcp_chunks mss (drop (Z.to_nat mss) data).
Proof.
  intros Hm Hd. assert (Hn : data <> []) by (intros ->; by rewrite drop_nil in Hd).
  assert (E : forall l, l <> [] -> tcp_chunks mss l = chunks mss l) by (intros []; done).
  by rewrite !E, chunks_cons by done.
Qed.

Lemma tcp_chunks_last mss data : 0 < mss -> drop (Z.to_nat mss) data = [] -> tcp_chunks mss data = [data].
Proof.
  intros Hm Hd. destruct (decide (data = [])) as [->|Hn]; [done|].
  assert (E : forall l, l <> [] -> tcp_chunks mss l = chunks mss l) by (intros []; done).
  rewrite E, chunks_cons, Hd by done. rewrite <- (take_drop (Z.to_nat mss) data) at 2. by rewrite Hd, app_nil_r.
Qed.

Section TcpSend.
Context `{Transport W}.

Definition seg_message (from to : addr) (s : list Z) : message := message_of (down_data from to s) None.

(** What [send_tcp_packet] returns: the bytes of all segments up to and
    including the one whose send failed, and -1 when that is none. *)
Fixpoint tcp_n_sent (down : list Z) (ms : list message) (ns : list Z) (acc : Z) (w : W) : Z :=
  match ms, ns with
  | m :: mr, n :: nr =>
    if send_ok_b down m w then tcp_n_sent down mr nr (acc + n) (after_send down m w)
    else if acc + n >? 0 then acc + n else -1
  | _, _ => acc
  end.

(** The segments carry the chunks at consecutive sequence numbers. *)
Fixpoint tcp_segs (from to : addr) (src_port dst_port seq ack flags window : Z) (cs ss : list (list Z)) : Prop :=
  match cs, ss with
  | [], [] => True
  | c :: cr, s :: sr =>
    tcp_seg from to src_port dst_port seq ack flags window c s /\
    tcp_segs from to src_port dst_port (u32 (seq + zlen c)) ack flags window cr sr
  | _, _ => False
  end.

Lemma send_tcp_loop_spec fuel down from to sp dp ack flags win mss data rest seq acc w :
  bytes from -> zlen from = 4 -> bytes to -> zlen to = 4 -> bytes data -> 0 < mss <= 65515 ->
  (length data < fuel)%nat -> 0 <= acc ->
  exists segs, tcp_segs from to sp dp seq ack flags win (tcp_chunks mss data) segs /\
    send_tcp_loop fuel down from to sp dp ack flags win mss (data ++ rest) (zlen data) seq acc w =
    Ret (tcp_n_sent down (map (seg_message from to) segs) (map zlen (tcp_chunks mss data)) acc w,
         send_until down (map (seg_message from to) segs) w).
Proof.
  intros Bf Lf Bt Lt. revert data seq acc w.
  induction fuel as [|fuel IH]; intros data seq acc w Bd Hm Hfuel Hacc; [lia|]. cbn [send_tcp_loop].
  pose proof (zlen_nonneg data) as Hd0.
  set (c := take (Z.to_nat mss) data).
  assert (Hc : zlen c = Z.min (zlen data) mss) by (unfold c; rewrite zlen_take; lia).
  assert (Hrd : rdn (data ++ rest) 0 (Z.min (zlen data) mss) = Ret c).
  { rewrite rdn_prefix by lia. unfold sub. rewrite drop_0. f_equal. unfold c.
    destruct (Z.min_spec (zlen data) mss) as [[? ->]|[? ->]]; [|done].
    rewrite !take_ge by (unfold zlen in *; lia). done. }
  erewrite lift_bind by exact Hrd.
  destruct (tcp_packet_spec from to sp dp seq ack flags win c Bf Lf Bt Lt (Forall_take _ _ _ Bd) ltac:(lia)) as (s & Hs & Hseg & Hsl).
  erewrite lift_bind by exact Hs. rewrite <- Hc.
  erewrite lift_bind.
  2: { eapply wrap_message_down_gen; [by apply rdn_all|by apply rdn_all|by apply rdn_all|done|done|lia]. }
  rewrite send_after by (apply down_message_size; lia). fold (seg_message from to s).
  fold (send_ok_b down (seg_message from to s) w). set (d' := drop (Z.to_nat mss) data).
  assert (Hsplit : data = c ++ d') by (symmetry; apply take_drop).
  assert (Hpadd : padd (data ++ rest) (zlen c) = d' ++ rest) by (rewrite Hsplit, <- app_assoc; by apply padd_app).
  assert (Hl' : zlen data - zlen c = zlen d') by (rewrite Hsplit at 1; rewrite zlen_app; lia).
  rewrite Hpadd, Hl'. pose proof (zlen_nonneg d').
  destruct (Z.gtb_spec (zlen d') 0) as [Hmore|Hdone].
  - assert (Hch : tcp_chunks mss data = c :: tcp_chunks mss d').
    { apply tcp_chunks_more; [lia|]. fold d'. intros E. rewrite E in Hmore. change (zlen []) with 0 in Hmore. lia. }
    destruct (IH d' (u32 (seq + zlen c)) (acc + zlen c) (after_send down (seg_message from to s) w)) as (segs & Hsegs & Hrun).
    { by apply Forall_drop. } { done. } { unfold d'. rewrite length_drop. unfold zlen in *. lia. } { lia. }
    exists (s :: segs). rewrite Hch. split; [by split|]. cbn [map send_until tcp_n_sent].
    destruct (send_ok_b down (seg_message from to s) w); cbn [negb]; [exact Hrun|done].
  - assert (Hch : tcp_chunks mss data = [c]).
    { assert (Hnil : d' = []) by (destruct d'; [done|rewrite zlen_cons in Hdone; pose proof (zlen_nonneg d'); lia]).
      rewrite tcp_chunks_last by (lia || exact Hnil). rewrite Hsplit at 1. by rewrite Hnil, app_nil_r. }
    exists [s]. rewrite Hch. split; [split; [exact Hseg|exact I]|]. cbn [map send_until tcp_n_sent].
    by destruct (send_ok_b down (seg_message from to s) w).
Qed.

(** The result of a send without payload is 0 or -1, and is 0 exactly when the
    segment was handed over. *)
Lemma send_tcp_empty down from to sp dp seq ack flags win mss w :
  bytes from -> zlen from = 4 -> bytes to -> zlen to = 4 -> 0 < mss <= 65515 ->
  exists s, tcp_seg from to sp dp seq ack flags win [] s /\
    send_tcp_packet down from to sp dp seq ack flags win [] 0 mss w =
    Ret (if send_ok_b down (seg_message from to s) w then 0 else -1, after_send down (seg_message from to s) w).
Proof.
  intros Bf Lf Bt Lt Hm. unfold send_tcp_packet.
  destruct (send_tcp_loop_spec (S (Z.to_nat 0)) down from to sp dp ack flags win mss [] [] seq 0 w) as (segs & Hs & Hr);
    try done; try lia; [constructor|cbn; lia|].
  destruct segs as [|s [|]]; cbn in Hs; try tauto. exists s. split; [tauto|].
  change ([] ++ []) with (@nil Z) in Hr. change (zlen []) with 0 in Hr. rewrite Hr. cbn [map send_until tcp_n_sent tcp_chunks].
  change (0 + zlen []) with 0. by destruct (send_ok_b _ _ _).
Qed.

End TcpSend.

(** ** Lemmas: session ids, cookies, options *)

Lemma tcp_calc_session_id_ok src_port dst_port from to :
  zlen from = 4 -> zlen to = 4 -> exists sid, tcp_calc_session_id src_port dst_port from to = Ret sid /\ is_u 64 sid.
Proof.
  intros Lf Lt. destruct (ip4_calc_session_id_ok from to src_port dst_port Lf Lt) as (sid & Hs).
  change (ip4_calc_session_id from to src_port dst_port) with (tcp_calc_session_id src_port dst_port from to) in Hs.
  exists sid. split; [done|]. exact (ip4_calc_session_id_u64 _ _ _ _ _ Hs).
Qed.

Lemma is_u_lor a b : is_u 32 a -> is_u 32 b -> is_u 32 (Z.lor a b).
Proof.
  intros Ha Hb. assert (E : Z.lor a b = Z.lor a b mod 2 ^ 32).
  { rewrite <- Z.land_ones, Z.land_lor_distr_l, !Z.land_ones, !Z.mod_small by (exact Ha || exact Hb || lia). done. }
  rewrite E. unfold is_u. apply Z.mod_pos_bound. lia.
Qed.

(** A cookie carries the index of the MSS range in its lowest three bits. *)
Lemma my_syn_cookie_spec sid salt idx now :
  0 <= idx <= 7 -> exists ck, my_syn_cookie sid salt idx now = Ret ck /\ is_u 32 ck /\ Z.land ck 7 = idx.
Proof.
  intros Hi. unfold my_syn_cookie. replace ((idx >=? 0) && (idx <=? 7)) with true by lia. cbn [assertb]. mcbn.
  set (t := Z.land (u32 (Z.shiftr now 6)) 31). set (x := Z.lxor _ _). eexists. split; [done|].
  assert (Ht : 0 <= t < 32).
  { unfold t. change 31 with (Z.ones 5). rewrite Z.land_ones by lia. apply Z.mod_pos_bound. lia. }
  assert (Hm : is_u 32 (Z.land x 0xFFFFFF00)).
  { assert (E : Z.land x 0xFFFFFF00 = Z.land x 0xFFFFFF00 mod 2 ^ 32).
    { rewrite <- Z.land_ones by lia. rewrite <- Z.land_assoc. done. }
    rewrite E. unfold is_u. apply Z.mod_pos_bound. lia. }
  assert (Hs : Z.shiftl t 3 = 8 * t) by (rewrite Z.shiftl_mul_pow2 by lia; change (2 ^ 3) with 8; lia).
  split.
  - apply is_u_lor; [apply is_u_lor; [done|]|]; unfold is_u; lia.
  - rewrite !Z.land_lor_distr_l, <- Z.land_assoc. change (Z.land 0xFFFFFF00 7) with 0. rewrite Z.land_0_r, Z.lor_0_l, Hs.
    change 7 with (Z.ones 3). rewrite !Z.land_ones by lia. change (2 ^ 3) with 8.
    rewrite (Z.mul_comm 8 t), Z.mod_mul, Z.lor_0_l by lia. apply Z.mod_small. lia.
Qed.

Lemma mss_index_of_range ranges i mss idx :
  0 <= i -> 0 <= idx <= 7 -> i + zlen ranges <= 8 -> 0 <= mss_index_of ranges i mss idx <= 7.
Proof.
  revert i idx. induction ranges as [|r ranges IH]; intros i idx Hi Hx Hl; cbn [mss_index_of]; [done|].
  rewrite zlen_cons in Hl. pose proof (zlen_nonneg ranges). apply IH; [lia| |lia]. destruct (mss >=? r); lia.
Qed.

(** The range chosen for an announced MSS: the largest one not above it, the
    default when there is none. *)
Lemma mss_index_of_spec mss idx :
  mss_index_of mss_ranges 0 mss idx =
  if mss <? 216 then idx else zlen (List.filter (fun r => r <=? mss) mss_ranges) - 1.
Proof.
  cbn [mss_index_of mss_ranges List.filter]. rewrite !Z.geb_leb.
  repeat match goal with |- context [?r <=? mss] => destruct (Z.leb_spec r mss) end;
    destruct (Z.ltb_spec mss 216); (lia || reflexivity).
Qed.

(** The option loop ends within [header_size] turns and yields an index of the
    table; it reads only the header. *)
Lemma tcp_options_spec fuel pl header_size cur idx :
  bytes (take (Z.to_nat header_size) pl) -> 0 <= cur -> header_size <= zlen pl -> 0 <= idx <= 7 ->
  Z.max 0 (header_size - cur) < Z.of_nat fuel ->
  exists i, tcp_options fuel pl header_size cur idx = Ret i /\ 0 <= i <= 7.
Proof.
  intros Hb. revert cur idx. induction fuel as [|fuel IH]; intros cur idx Hc Hh Hi Hf; cbn [tcp_options].
  { lia. }
  destruct (Z.geb_spec (header_size - 2) cur) as [Hle|]; [|by exists idx].
  destruct (rd_in pl cur) as (kind & Hk & Rk); [lia|]. destruct (rd_in pl (cur + 1)) as (len & Hl & Rl); [lia|].
  rewrite <- (lookup_take_lt pl (Z.to_nat header_size)) in Hk by lia. rewrite <- (lookup_take_lt pl (Z.to_nat header_size)) in Hl by lia.
  pose proof (bytes_lookup _ _ _ Hb Hk) as Bk. pose proof (bytes_lookup _ _ _ Hb Hl) as Bl.
  unfold is_byte in Bk, Bl. rewrite Rk, Rl. mcbn.
  assert (Hidx : exists i, (if (kind =? 2) && (len =? 4) && (header_size - 4 >=? cur) then
      b2 ← rd pl (cur + 2); b3 ← rd pl (cur + 3); Ret (mss_index_of mss_ranges 0 (Z.lor (Z.shiftl b2 8) b3) idx)
    else Ret idx) = Ret i /\ 0 <= i <= 7).
  { destruct ((kind =? 2) && (len =? 4) && (header_size - 4 >=? cur)) eqn:E; [|by exists idx].
    destruct (rd_in pl (cur + 2)) as (b2 & _ & ->); [lia|]. destruct (rd_in pl (cur + 3)) as (b3 & _ & ->); [lia|].
    mcbn. eexists. split; [done|]. by apply mss_index_of_range. }
  destruct Hidx as (i & -> & Hi'). mcbn.
  destruct ((kind =? 0) || (kind =? 1)); [apply IH; lia|].
  destruct (Z.eqb_spec len 0); [by exists i|]. apply IH; lia.
Qed.
