(* ===== verification/TcpData.v ===== *)
(** * TCP sessions: the data structures of [src/tcp_server.cpp]

    [tcp_data] is a byte buffer shared between the threads of the server;
    [session_t] the state of a connection.  The buffer is specified as a byte
    queue ([queue_rep]). *)

From S2P Require Import Prelude Addr ShmMessage.

(** ** Code: [struct tcp_data] *)

(** [d_p] is the allocation, of which the first [d_len] bytes are in use. *)
Record tcp_data := {
  d_sequence_nr : Z;
  d_ts : Z;
  d_p : list Z;
  d_len : Z }.

Definition tcp_data_init : tcp_data := {| d_sequence_nr := 0; d_ts := 0; d_p := []; d_len := 0 |}.

(** [peek]: the bytes copied out, and whether they are all there is. *)
Definition tcp_data_peek (d : tcp_data) (max_n_bytes : Z) : outcome (list Z * bool) :=
  let get_n := Z.min (d_len d) max_n_bytes in
  target ← (if get_n >? 0 then rdn (d_p d) 0 get_n else Ret []);
  Ret (target, d_len d =? get_n).

Definition tcp_data_forget (d : tcp_data) (n_bytes_in : Z) : outcome tcp_data :=
  let n_bytes := Z.min n_bytes_in (d_len d) in
  let n_left := d_len d - n_bytes in
  p ← (if n_left >? 0 then moved ← rdn (d_p d) n_bytes n_left; wr (d_p d) 0 moved else Ret (d_p d));
  Ret {| d_sequence_nr := u32 (d_sequence_nr d + n_bytes); d_ts := d_ts d; d_p := p; d_len := d_len d - n_bytes |}.

Definition tcp_data_forget_all (d : tcp_data) : tcp_data :=
  {| d_sequence_nr := 0; d_ts := d_ts d; d_p := d_p d; d_len := 0 |}.

(** [realloc(p, n)]; [junk] is what the added bytes hold. *)
Definition realloc (junk : nat -> Z) (p : list Z) (n : Z) : list Z :=
  take (Z.to_nat n) p ++ fresh junk (n - zlen p).

Definition tcp_data_add (junk : nat -> Z) (d : tcp_data) (what : list Z) : outcome tcp_data :=
  let n_bytes := zlen what in
  p ← wr (realloc junk (d_p d) (d_len d + n_bytes)) (d_len d) what;
  Ret {| d_sequence_nr := d_sequence_nr d; d_ts := d_ts d; d_p := p; d_len := d_len d + n_bytes |}.

(** ** Code: sessions *)

Inductive tcp_state_t : Set :=
| tcp_listen
| syn_sent
| syn_received
| established
| fin_wait_1
| fin_wait_2
| close_wait
| closing
| last_ack
| time_wait
| closed.

#[export] Instance tcp_state_eq_dec : EqDecision tcp_state_t.
Proof. solve_decision. Defined.

(** [struct session_t]; [s_shm_peer] is the character array. *)
Record session_t := {
  s_updated_ts : Z;
  s_is_client : bool;
  s_shm_peer : list Z;
  s_state : tcp_state_t;
  s_start_local_seq : Z;
  s_start_peer_seq : Z;
  s_mss : Z;
  s_local_seq : Z;
  s_peer_seq : Z;
  s_local_window_size : Z;
  s_peer_window_size : Z;
  s_local_addr : addr;
  s_local_port : Z;
  s_peer_addr : addr;
  s_peer_port : Z;
  s_half_closed : bool;
  s_tcp_to_l7 : tcp_data;
  s_l7_to_tcp : tcp_data;
  s_l7_send_fin : bool;
  s_fin_sent : bool;
  s_in_flight : Z }.

Definition touch (updated_ts_v : Z) (peer_window_size_v : Z) (s : session_t) : session_t :=
  {| s_updated_ts := updated_ts_v; s_is_client := s_is_client s; s_shm_peer := s_shm_peer s;
     s_state := s_state s; s_start_local_seq := s_start_local_seq s; s_start_peer_seq := s_start_peer_seq s;
     s_mss := s_mss s; s_local_seq := s_local_seq s; s_peer_seq := s_peer_seq s;
     s_local_window_size := s_local_window_size s; s_peer_window_size := peer_window_size_v;
     s_local_addr := s_local_addr s; s_local_port := s_local_port s; s_peer_addr := s_peer_addr s;
     s_peer_port := s_peer_port s; s_half_closed := s_half_closed s; s_tcp_to_l7 := s_tcp_to_l7 s;
     s_l7_to_tcp := s_l7_to_tcp s; s_l7_send_fin := s_l7_send_fin s; s_fin_sent := s_fin_sent s;
     s_in_flight := s_in_flight s |}.

Definition set_state (v : tcp_state_t) (s : session_t) : session_t :=
  {| s_updated_ts := s_updated_ts s; s_is_client := s_is_client s; s_shm_peer := s_shm_peer s; s_state := v;
     s_start_local_seq := s_start_local_seq s; s_start_peer_seq := s_start_peer_seq s; s_mss := s_mss s;
     s_local_seq := s_local_seq s; s_peer_seq := s_peer_seq s; s_local_window_size := s_local_window_size s;
     s_peer_window_size := s_peer_window_size s; s_local_addr := s_local_addr s;
     s_local_port := s_local_port s; s_peer_addr := s_peer_addr s; s_peer_port := s_peer_port s;
     s_half_closed := s_half_closed s; s_tcp_to_l7 := s_tcp_to_l7 s; s_l7_to_tcp := s_l7_to_tcp s;
     s_l7_send_fin := s_l7_send_fin s; s_fin_sent := s_fin_sent s; s_in_flight := s_in_flight s |}.

Definition set_local_seq (v : Z) (s : session_t) : session_t :=
  {| s_updated_ts := s_updated_ts s; s_is_client := s_is_client s; s_shm_peer := s_shm_peer s;
     s_state := s_state s; s_start_local_seq := s_start_local_seq s; s_start_peer_seq := s_start_peer_seq s;
     s_mss := s_mss s; s_local_seq := v; s_peer_seq := s_peer_seq s;
     s_local_window_size := s_local_window_size s; s_peer_window_size := s_peer_window_size s;
     s_local_addr := s_local_addr s; s_local_port := s_local_port s; s_peer_addr := s_peer_addr s;
     s_peer_port := s_peer_port s; s_half_closed := s_half_closed s; s_tcp_to_l7 := s_tcp_to_l7 s;
     s_l7_to_tcp := s_l7_to_tcp s; s_l7_send_fin := s_l7_send_fin s; s_fin_sent := s_fin_sent s;
     s_in_flight := s_in_flight s |}.

Definition set_peer_seq (v : Z) (s : session_t) : session_t :=
  {| s_updated_ts := s_updated_ts s; s_is_client := s_is_client s; s_shm_peer := s_shm_peer s;
     s_state := s_state s; s_start_local_seq := s_start_local_seq s; s_start_peer_seq := s_start_peer_seq s;
     s_mss := s_mss s; s_local_seq := s_local_seq s; s_peer_seq := v;
     s_local_window_size := s_local_window_size s; s_peer_window_size := s_peer_window_size s;
     s_local_addr := s_local_addr s; s_local_port := s_local_port s; s_peer_addr := s_peer_addr s;
     s_peer_port := s_peer_port s; s_half_closed := s_half_closed s; s_tcp_to_l7 := s_tcp_to_l7 s;
     s_l7_to_tcp := s_l7_to_tcp s; s_l7_send_fin := s_l7_send_fin s; s_fin_sent := s_fin_sent s;
     s_in_flight := s_in_flight s |}.

Definition set_start_peer_seq (v : Z) (s : session_t) : session_t :=
  {| s_updated_ts := s_updated_ts s; s_is_client := s_is_client s; s_shm_peer := s_shm_peer s;
     s_state := s_state s; s_start_local_seq := s_start_local_seq s; s_start_peer_seq := v; s_mss := s_mss s;
     s_local_seq := s_local_seq s; s_peer_seq := s_peer_seq s; s_local_window_size := s_local_window_size s;
     s_peer_window_size := s_peer_window_size s; s_local_addr := s_local_addr s;
     s_local_port := s_local_port s; s_peer_addr := s_peer_addr s; s_peer_port := s_peer_port s;
     s_half_closed := s_half_closed s; s_tcp_to_l7 := s_tcp_to_l7 s; s_l7_to_tcp := s_l7_to_tcp s;
     s_l7_send_fin := s_l7_send_fin s; s_fin_sent := s_fin_sent s; s_in_flight := s_in_flight s |}.

Definition set_half_closed (v : bool) (s : session_t) : session_t :=
  {| s_updated_ts := s_updated_ts s; s_is_client := s_is_client s; s_shm_peer := s_shm_peer s;
     s_state := s_state s; s_start_local_seq := s_start_local_seq s; s_start_peer_seq := s_start_peer_seq s;
     s_mss := s_mss s; s_local_seq := s_local_seq s; s_peer_seq := s_peer_seq s;
     s_local_window_size := s_local_window_size s; s_peer_window_size := s_peer_window_size s;
     s_local_addr := s_local_addr s; s_local_port := s_local_port s; s_peer_addr := s_peer_addr s;
     s_peer_port := s_peer_port s; s_half_closed := v; s_tcp_to_l7 := s_tcp_to_l7 s;
     s_l7_to_tcp := s_l7_to_tcp s; s_l7_send_fin := s_l7_send_fin s; s_fin_sent := s_fin_sent s;
     s_in_flight := s_in_flight s |}.

Definition set_tcp_to_l7 (v : tcp_data) (s : session_t) : session_t :=
  {| s_updated_ts := s_updated_ts s; s_is_client := s_is_client s; s_shm_peer := s_shm_peer s;
     s_state := s_state s; s_start_local_seq := s_start_local_seq s; s_start_peer_seq := s_start_peer_seq s;
     s_mss := s_mss s; s_local_seq := s_local_seq s; s_peer_seq := s_peer_seq s;
     s_local_window_size := s_local_window_size s; s_peer_window_size := s_peer_window_size s;
     s_local_addr := s_local_addr s; s_local_port := s_local_port s; s_peer_addr := s_peer_addr s;
     s_peer_port := s_peer_port s; s_half_closed := s_half_closed s; s_tcp_to_l7 := v;
     s_l7_to_tcp := s_l7_to_tcp s; s_l7_send_fin := s_l7_send_fin s; s_fin_sent := s_fin_sent s;
     s_in_flight := s_in_flight s |}.

Definition set_l7_to_tcp (v : tcp_data) (s : session_t) : session_t :=
  {| s_updated_ts := s_updated_ts s; s_is_client := s_is_client s; s_shm_peer := s_shm_peer s;
     s_state := s_state s; s_start_local_seq := s_start_local_seq s; s_start_peer_seq := s_start_peer_seq s;
     s_mss := s_mss s; s_local_seq := s_local_seq s; s_peer_seq := s_peer_seq s;
     s_local_window_size := s_local_window_size s; s_peer_window_size := s_peer_window_size s;
     s_local_addr := s_local_addr s; s_local_port := s_local_port s; s_peer_addr := s_peer_addr s;
     s_peer_port := s_peer_port s; s_half_closed := s_half_closed s; s_tcp_to_l7 := s_tcp_to_l7 s;
     s_l7_to_tcp := v; s_l7_send_fin := s_l7_send_fin s; s_fin_sent := s_fin_sent s;
     s_in_flight := s_in_flight s |}.

Definition set_l7_send_fin (v : bool) (s : session_t) : session_t :=
  {| s_updated_ts := s_updated_ts s; s_is_client := s_is_client s; s_shm_peer := s_shm_peer s;
     s_state := s_state s; s_start_local_seq := s_start_local_seq s; s_start_peer_seq := s_start_peer_seq s;
     s_mss := s_mss s; s_local_seq := s_local_seq s; s_peer_seq := s_peer_seq s;
     s_local_window_size := s_local_window_size s; s_peer_window_size := s_peer_window_size s;
     s_local_addr := s_local_addr s; s_local_port := s_local_port s; s_peer_addr := s_peer_addr s;
     s_peer_port := s_peer_port s; s_half_closed := s_half_closed s; s_tcp_to_l7 := s_tcp_to_l7 s;
     s_l7_to_tcp := s_l7_to_tcp s; s_l7_send_fin := v; s_fin_sent := s_fin_sent s;
     s_in_flight := s_in_flight s |}.

Definition set_fin_sent (v : bool) (s : session_t) : session_t :=
  {| s_updated_ts := s_updated_ts s; s_is_client := s_is_client s; s_shm_peer := s_shm_peer s;
     s_state := s_state s; s_start_local_seq := s_start_local_seq s; s_start_peer_seq := s_start_peer_seq s;
     s_mss := s_mss s; s_local_seq := s_local_seq s; s_peer_seq := s_peer_seq s;
     s_local_window_size := s_local_window_size s; s_peer_window_size := s_peer_window_size s;
     s_local_addr := s_local_addr s; s_local_port := s_local_port s; s_peer_addr := s_peer_addr s;
     s_peer_port := s_peer_port s; s_half_closed := s_half_closed s; s_tcp_to_l7 := s_tcp_to_l7 s;
     s_l7_to_tcp := s_l7_to_tcp s; s_l7_send_fin := s_l7_send_fin s; s_fin_sent := v;
     s_in_flight := s_in_flight s |}.

Definition set_in_flight (v : Z) (s : session_t) : session_t :=
  {| s_updated_ts := s_updated_ts s; s_is_client := s_is_client s; s_shm_peer := s_shm_peer s;
     s_state := s_state s; s_start_local_seq := s_start_local_seq s; s_start_peer_seq := s_start_peer_seq s;
     s_mss := s_mss s; s_local_seq := s_local_seq s; s_peer_seq := s_peer_seq s;
     s_local_window_size := s_local_window_size s; s_peer_window_size := s_peer_window_size s;
     s_local_addr := s_local_addr s; s_local_port := s_local_port s; s_peer_addr := s_peer_addr s;
     s_peer_port := s_peer_port s; s_half_closed := s_half_closed s; s_tcp_to_l7 := s_tcp_to_l7 s;
     s_l7_to_tcp := s_l7_to_tcp s; s_l7_send_fin := s_l7_send_fin s; s_fin_sent := s_fin_sent s;
     s_in_flight := v |}.

(** ** Lemmas: the buffer is a byte queue *)

Definition queue_rep (d : tcp_data) (q : list Z) : Prop :=
  d_len d = zlen q /\ exists free, d_p d = q ++ free.

Lemma queue_rep_init : queue_rep tcp_data_init [].
Proof. split; [done|by exists []]. Qed.

Lemma tcp_data_peek_spec d q n :
  queue_rep d q -> 0 <= n -> tcp_data_peek d n = Ret (take (Z.to_nat n) q, zlen q <=? n).
Proof.
  intros [Hl [free Hp]] Hn. unfold tcp_data_peek. rewrite Hl, Hp. pose proof (zlen_nonneg q).
  destruct (Z.gtb_spec (Z.min (zlen q) n) 0).
  - rewrite rdn_prefix by lia. mcbn. do 2 f_equal; [|lia]. unfold sub. rewrite drop_0.
    destruct (Z.min_spec (zlen q) n) as [[? ->]|[? ->]]; [|done]. by rewrite !take_ge by (unfold zlen in *; lia).
  - mcbn. do 2 f_equal; [|lia]. destruct q as [|x q]; [by rewrite take_nil|].
    rewrite zlen_cons in *. pose proof (zlen_nonneg q). by replace n with 0 by lia.
Qed.

Lemma tcp_data_forget_spec d q n :
  queue_rep d q -> 0 <= n -> exists d', tcp_data_forget d n = Ret d' /\ queue_rep d' (drop (Z.to_nat n) q).
Proof.
  intros [Hl [free Hp]] Hn. unfold tcp_data_forget. rewrite Hl, Hp. pose proof (zlen_nonneg q).
  set (k := Z.min n (zlen q)).
  assert (Hd : drop (Z.to_nat n) q = drop (Z.to_nat k) q).
  { unfold k. destruct (Z.min_spec n (zlen q)) as [[? ->]|[? ->]]; [done|]. by rewrite !drop_ge by (unfold zlen in *; lia). }
  rewrite Hd. assert (Hr : zlen (drop (Z.to_nat k) q) = zlen q - k) by (rewrite zlen_drop; lia).
  destruct (Z.gtb_spec (zlen q - k) 0).
  - assert (Hrd : rdn (q ++ free) k (zlen q - k) = Ret (drop (Z.to_nat k) q)).
    { rewrite <- (take_drop (Z.to_nat k) q) at 1. rewrite <- app_assoc. apply rdn_app_mid; [rewrite zlen_take; lia|lia]. }
    rewrite Hrd. mcbn. pose proof (zlen_nonneg free).
    rewrite wr_ok by (rewrite ?zlen_app; lia). mcbn. eexists. split; [done|].
    split; [cbn; lia|]. cbn [d_p]. unfold splice. eexists. cbn [Z.to_nat take app]. done.
  - mcbn. eexists. split; [done|]. split; [cbn; lia|]. cbn [d_p].
    exists (q ++ free). rewrite (nil_length_inv (drop (Z.to_nat k) q)) by (unfold zlen in *; lia). done.
Qed.

Lemma tcp_data_add_spec junk d q what :
  queue_rep d q -> exists d', tcp_data_add junk d what = Ret d' /\ queue_rep d' (q ++ what).
Proof.
  intros [Hl [free Hp]]. unfold tcp_data_add. rewrite Hl, Hp. pose proof (zlen_nonneg q). pose proof (zlen_nonneg what).
  set (r := realloc junk (q ++ free) (zlen q + zlen what)).
  assert (Hr : zlen r = zlen q + zlen what /\ exists tail, r = q ++ tail).
  { unfold r, realloc. pose proof (zlen_nonneg free). split.
    - destruct (Z.leb_spec (zlen what) (zlen free)).
      + assert (fresh junk (zlen q + zlen what - zlen (q ++ free)) = []) as ->.
        { unfold fresh. by replace (Z.to_nat _) with O by (rewrite zlen_app; lia). }
        rewrite app_nil_r, zlen_take, zlen_app. lia.
      + rewrite zlen_app, zlen_fresh, zlen_take, zlen_app by (rewrite zlen_app; lia). lia.
    - rewrite take_app_ge by (unfold zlen in *; lia). rewrite <- app_assoc. by eexists. }
  destruct Hr as [Hrl [tail Ht]]. rewrite wr_ok by lia. mcbn. eexists. split; [done|].
  split; [cbn; by rewrite zlen_app|]. cbn [d_p]. rewrite Ht in *. rewrite zlen_app in Hrl.
  exists []. rewrite app_nil_r. unfold splice. rewrite take_app_length' by (unfold zlen; lia).
  rewrite drop_ge; [by rewrite app_nil_r|]. rewrite length_app. unfold zlen in *. lia.
Qed.
