(* ===== verification/Tcp.v ===== *)
(** * The TCP server: the handlers of [src/tcp_server.cpp]

    [tcp_run_in] is the receive handler, cut at the code's own joints: parse
    ([tcp_parse]), SYN ([tcp_in_syn]), ACK ([tcp_in_ack]), new session
    ([tcp_in_open]), delivery ([tcp_in_deliver]), FIN ([tcp_in_fin]) and the
    [clean:] part ([tcp_in_clean]).  [tcp_run_out] and [tcp_sender] are the
    two loops of [run_out], [tcp_run_clean] the cleaner; [run_meta] and
    [cfg_runtime] are in [TcpMeta].  [sessions] is the map the threads share under
    [sessions_lock]; a handler is a function of it.  A [session_t *] always
    points to the entry of the session id at hand, so a handler carries the
    session and stores it back. *)

From S2P Require Import Prelude Net Checksum Str Addr SipHash ShmMessage Transport Ip4In TcpWire TcpData.

(** ** Code *)

Definition MI_TCP_FIN : Z := 1.
Definition MI_TCP_OPEN : Z := 2.
Definition MI_TCP_CLOSE : Z := 4.

(** What [run_in] reads from a segment before it looks at the sessions. *)
Record tcp_in := {
  k_from_len : Z; k_from : list Z;
  k_to_len : Z; k_to : list Z;
  k_a_from : addr; k_a_to : addr;
  k_source_port : Z; k_destination_port : Z;
  k_session_id : Z;
  k_header_size : Z;
  k_flags : Z;
  k_window_size : Z;
  k_peer_seq_nr : Z; k_ack_seq_nr : Z;
  k_pl : list Z;
  k_tcp_pl_size : Z;
  k_mss_index : Z }.

(** Lines 312 to 396; [None] where the code drops the message. *)
Definition tcp_parse (m : message) : outcome (option tcp_in) :=
  v ← unwrap_message_up m;
  let pl := u_pl v in
  let pl_len := u_pl_len v in
  if pl_len <? 20 then Ret None else
  a_from ← addr_of_data (u_from v) (u_from_len v);
  a_to ← addr_of_data (u_to v) (u_to_len v);
  checksum ← tcp_udp_checksum a_from a_to pl pl_len 6;
  if negb (checksum =? 0) then Ret None else
  source_port ← get_uint16 pl;
  destination_port ← get_uint16 (padd pl 2);
  session_id ← tcp_calc_session_id source_port destination_port a_from a_to;
  b12 ← rd pl 12;
  let header_size := Z.shiftr b12 4 * 4 in
  flags ← rd pl 13;
  window_size ← get_uint16 (padd pl 14);
  peer_seq_nr ← get_uint32 (padd pl 4);
  ack_seq_nr ← get_uint32 (padd pl 8);
  let tcp_pl_size := pl_len - header_size in
  if header_size <? 20 then Ret None else
  mss_index ← (if has flags FLAG_SYN && negb (has flags FLAG_ACK)
               then tcp_options (S (Z.to_nat header_size)) pl header_size 20 1 else Ret 1);
  if header_size >? pl_len then Ret None else
  Ret (Some {| k_from_len := u_from_len v; k_from := u_from v; k_to_len := u_to_len v; k_to := u_to v;
               k_a_from := a_from; k_a_to := a_to; k_source_port := source_port;
               k_destination_port := destination_port; k_session_id := session_id;
               k_header_size := header_size; k_flags := flags; k_window_size := window_size;
               k_peer_seq_nr := peer_seq_nr; k_ack_seq_nr := ack_seq_nr; k_pl := pl;
               k_tcp_pl_size := tcp_pl_size; k_mss_index := mss_index |}).

(** The local variables of the rest of the handler. *)
Record tcp_ctl := {
  c_session : option session_t;
  c_invalid : bool;
  c_invalid_w_rst : bool;
  c_invalid_inc_ack : bool;
  c_clean_session : bool;
  c_acked_packet : bool }.

Definition ctl_init (session : option session_t) : tcp_ctl :=
  {| c_session := session; c_invalid := false; c_invalid_w_rst := true; c_invalid_inc_ack := false;
     c_clean_session := false; c_acked_packet := false |}.

Definition ctl_session (s : session_t) (c : tcp_ctl) : tcp_ctl :=
  {| c_session := Some s; c_invalid := c_invalid c; c_invalid_w_rst := c_invalid_w_rst c;
     c_invalid_inc_ack := c_invalid_inc_ack c; c_clean_session := c_clean_session c; c_acked_packet := c_acked_packet c |}.
Definition ctl_no_session (c : tcp_ctl) : tcp_ctl :=
  {| c_session := None; c_invalid := c_invalid c; c_invalid_w_rst := c_invalid_w_rst c;
     c_invalid_inc_ack := c_invalid_inc_ack c; c_clean_session := c_clean_session c; c_acked_packet := c_acked_packet c |}.
Definition ctl_invalid (w_rst : bool) (c : tcp_ctl) : tcp_ctl :=
  {| c_session := c_session c; c_invalid := true; c_invalid_w_rst := w_rst;
     c_invalid_inc_ack := c_invalid_inc_ack c; c_clean_session := c_clean_session c; c_acked_packet := c_acked_packet c |}.
Definition ctl_inc_ack (c : tcp_ctl) : tcp_ctl :=
  {| c_session := c_session c; c_invalid := c_invalid c; c_invalid_w_rst := c_invalid_w_rst c;
     c_invalid_inc_ack := true; c_clean_session := c_clean_session c; c_acked_packet := c_acked_packet c |}.
Definition ctl_clean (c : tcp_ctl) : tcp_ctl :=
  {| c_session := c_session c; c_invalid := c_invalid c; c_invalid_w_rst := c_invalid_w_rst c;
     c_invalid_inc_ack := c_invalid_inc_ack c; c_clean_session := true; c_acked_packet := c_acked_packet c |}.
Definition ctl_acked (c : tcp_ctl) : tcp_ctl :=
  {| c_session := c_session c; c_invalid := c_invalid c; c_invalid_w_rst := c_invalid_w_rst c;
     c_invalid_inc_ack := c_invalid_inc_ack c; c_clean_session := c_clean_session c; c_acked_packet := true |}.

(** How a branch of the handler ends. *)
Inductive flow : Set :=
| FContinue   (* free(m); continue *)
| FClean      (* goto clean *)
| FNext.

Definition store_session (sid : Z) (c : tcp_ctl) (sessions : gmap Z session_t) : gmap Z session_t :=
  match c_session c with
  | Some s => <[sid := s]> sessions
  | None => sessions
  end.

(** ACK of pending data, lines 533 to 564. *)
Definition tcp_in_ack (ack_seq_nr : Z) (s : session_t) : outcome session_t :=
  let ack_n := u32 (ack_seq_nr - s_local_seq s) in
  if ack_seq_nr >=? s_local_seq s then
    if ack_n =? s_in_flight s then
      d ← tcp_data_forget (s_l7_to_tcp s) ack_n;
      Ret (set_in_flight (s_in_flight s - ack_n) (set_local_seq (u32 (s_local_seq s + ack_n)) (set_l7_to_tcp d s)))
    else if ack_n <? s_in_flight s then
      d ← tcp_data_forget (s_l7_to_tcp s) ack_n;
      Ret (set_in_flight 0 (set_local_seq (u32 (s_local_seq s + ack_n)) (set_l7_to_tcp d s)))
    else Ret s
  else Ret (set_in_flight 0 s).

(** [memset] and [memcpy] of a name into [shm_peer]. *)
Definition set_shm_peer (name : list Z) : outcome (list Z) := wr (zeros max_id_length) 0 name.

Section Tcp.
Context `{Transport W}.

(** A segment without payload back to the sender of [k]. *)
Definition tcp_reply (out_name : list Z) (k : tcp_in) (seq ack flags window mss : Z) : prog W Z :=
  send_tcp_packet out_name (k_a_to k) (k_a_from k) (k_destination_port k) (k_source_port k)
    seq ack flags window [] 0 mss.

(** A message for the application: [wrap_message_up_tcp] and [send_message]. *)
Definition tcp_up (dst : list Z) (k : tcp_in) (flags pl_len : Z) (pl : list Z) : prog W bool :=
  m_session ← lift (wrap_message_up_tcp (k_session_id k) (k_from_len k) (k_from k) (k_source_port k)
                      (k_to_len k) (k_to k) (k_destination_port k) flags pl_len pl);
  ok ← send dst m_session false;
  mret (ok.1 : bool).

(** Lines 448 to 529. *)
Definition tcp_in_syn (out_name : list Z) (mappings_in : gmap Z (list Z)) (syn_cookie_salt : list Z) (now_s : Z)
  (k : tcp_in) (c : tcp_ctl) (sessions : gmap Z session_t) : prog W (flow * tcp_ctl * gmap Z session_t) :=
  let sid := k_session_id k in
  let cookie := send_syn_cookie out_name sid syn_cookie_salt (k_mss_index k) (k_a_from k) (k_source_port k)
                  (k_a_to k) (k_destination_port k) (k_peer_seq_nr k) now_s in
  let c := ctl_inc_ack c in
  match c_session c with
  | Some s =>
    if s_is_client s then
      if negb (has (k_flags k) FLAG_ACK) then mret (FNext, ctl_invalid (c_invalid_w_rst c) c, sessions)
      else
        let s := if decide (s_state s = established) then s
                 else set_start_peer_seq (k_peer_seq_nr k) (set_peer_seq (k_peer_seq_nr k) (set_state established s)) in
        let s := set_peer_seq (u32 (s_peer_seq s + 1)) s in
        rc ← tcp_reply out_name k (s_local_seq s) (s_peer_seq s) FLAG_ACK (s_local_window_size s) (s_mss s);
        if rc =? -1 then mret (FClean, ctl_clean (ctl_session s c), sessions)
        else mret (FNext, ctl_session s c, sessions)
    else if negb (bool_decide (s_state s = established)) then
      _ ← cookie;
      mret (FContinue, c, sessions)
    else if negb (s_fin_sent s) || negb (s_half_closed s) then mret (FContinue, c, sessions)
    else mret (FContinue, ctl_no_session c, delete sid sessions)
  | None =>
    match mappings_in !! k_destination_port k with
    | None => mret (FNext, ctl_invalid (negb (has (k_flags k) FLAG_RST)) c, sessions)
    | Some _ =>
      if has (k_flags k) (Z.lor (Z.lor (Z.lor (Z.lor FLAG_FIN FLAG_RST) FLAG_PSH) FLAG_URG) FLAG_ACK)
      then mret (FNext, ctl_invalid (negb (has (k_flags k) FLAG_RST)) c, sessions)
      else _ ← cookie; mret (FNext, c, sessions)
    end
  end.

(** Start of a new session, lines 569 to 630. *)
Definition tcp_in_open (out_name : list Z) (mappings_in : gmap Z (list Z)) (syn_cookie_salt : list Z) (now_s : Z)
  (k : tcp_in) (c : tcp_ctl) (sessions : gmap Z session_t) : prog W (flow * tcp_ctl * gmap Z session_t) :=
  let sid := k_session_id k in
  let seq_before_syn := u32 (k_ack_seq_nr k - 1) in
  syn_cookie ← lift (my_syn_cookie sid syn_cookie_salt (Z.land seq_before_syn 7) now_s);
  if negb (syn_cookie =? seq_before_syn) then
    _ ← tcp_reply out_name k (u32 (syn_cookie + 1)) (k_peer_seq_nr k) FLAG_RST (k_window_size k) MI_IP4_MIN_TCP_MTU;
    mret (FNext, c, sessions)
  else
  match mappings_in !! k_destination_port k with
  | None => mret (FNext, c, sessions)
  | Some upper =>
    ok ← tcp_up upper k MI_TCP_OPEN 0 [];
    if (ok : bool) then
      mss ← lift (rd mss_ranges (Z.land (u32 (k_ack_seq_nr k - 1)) 7));
      peer ← lift (set_shm_peer upper);
      let new_session := {| s_updated_ts := 0; s_is_client := false; s_shm_peer := peer; s_state := established;
        s_start_local_seq := 0; s_start_peer_seq := 0; s_mss := mss; s_local_seq := k_ack_seq_nr k;
        s_peer_seq := k_peer_seq_nr k; s_local_window_size := INITIAL_LOCAL_WINDOW_SIZE; s_peer_window_size := 0;
        s_local_addr := k_a_to k; s_local_port := k_destination_port k; s_peer_addr := k_a_from k;
        s_peer_port := k_source_port k; s_half_closed := false; s_tcp_to_l7 := tcp_data_init;
        s_l7_to_tcp := tcp_data_init; s_l7_send_fin := false; s_fin_sent := false; s_in_flight := 0 |} in
      let sessions := match sessions !! sid with Some _ => sessions | None => <[sid := new_session]> sessions end in
      mret (FNext, match sessions !! sid with Some s => ctl_session s c | None => c end, sessions)
    else mret (FClean, ctl_clean (ctl_invalid (c_invalid_w_rst c) c), sessions)
  end.

(** The application gets the data, the peer the ACK: lines 639 to 709. *)
Definition tcp_in_deliver (out_name : list Z) (k : tcp_in) (c : tcp_ctl) : prog W tcp_ctl :=
  match c_session c with
  | Some s =>
    if c_invalid c then mret c
    else if k_peer_seq_nr k =? s_peer_seq s then
      ok ← (if k_tcp_pl_size k >? 0 then
              tcp_up (c_str (s_shm_peer s)) k (if s_half_closed s then MI_TCP_FIN else 0)
                (k_tcp_pl_size k) (padd (k_pl k) (k_header_size k))
            else mret true);
      if (ok : bool) then
        if negb (has (k_flags k) FLAG_ACK) || (k_tcp_pl_size k >? 0) then
          rc ← tcp_reply out_name k (s_local_seq s) (u32 (s_peer_seq s + k_tcp_pl_size k)) FLAG_ACK
                 (s_local_window_size s) (s_mss s);
          if rc =? 0
          then mret (ctl_acked (ctl_session (set_peer_seq (u32 (s_peer_seq s + k_tcp_pl_size k)) s) c))
          else mret (ctl_clean c)
        else mret c
      else mret c
    else
      (* a resent or an out of order packet: the two branches act alike *)
      rc ← tcp_reply out_name k (s_local_seq s) (s_peer_seq s) FLAG_ACK (s_local_window_size s) (s_mss s);
      mret (if rc =? -1 then ctl_clean c else c)
  | None => mret c
  end.

(** Lines 711 to 727. *)
Definition tcp_in_fin (out_name : list Z) (k : tcp_in) (c : tcp_ctl) : prog W tcp_ctl :=
  match c_session c with
  | Some s =>
    if has (k_flags k) FLAG_FIN then
      let s := if s_half_closed s then s else set_half_closed true (set_peer_seq (u32 (s_peer_seq s + 1)) s) in
      if c_acked_packet c then mret (ctl_session s c)
      else
        _ ← tcp_reply out_name k (s_local_seq s) (u32 (s_peer_seq s + k_tcp_pl_size k)) FLAG_ACK
              (s_local_window_size s) (s_mss s);
        mret (ctl_session s c)
    else mret c
  | None => mret c
  end.

(** The part behind [clean:]. *)
Definition tcp_in_clean (out_name : list Z) (k : tcp_in) (c : tcp_ctl) : prog W tcp_ctl :=
  if negb (c_invalid c || c_clean_session c) then mret c else
  c ← (if c_invalid c && c_invalid_w_rst c then
         _ ← tcp_reply out_name k
               (match c_session c with Some s => s_local_seq s | None => 0 end)
               (match c_session c with
                | Some _ => u32 (k_peer_seq_nr k + (if c_invalid_inc_ack c then 1 else 0))
                | None => 0
                end)
               FLAG_RST (k_window_size k) MI_IP4_MIN_TCP_MTU;
         mret (match c_session c with Some s => ctl_session (set_state closed s) c | None => c end)
       else mret c);
  match c_session c with
  | Some s =>
    let s := if c_invalid c
             then set_l7_to_tcp (tcp_data_forget_all (s_l7_to_tcp s))
                    (set_tcp_to_l7 (tcp_data_forget_all (s_tcp_to_l7 s)) s)
             else s in
    _ ← tcp_up (c_str (s_shm_peer s)) k MI_TCP_CLOSE 0 [];
    mret (ctl_session s c)
  | None => mret c
  end.

(** The part between the flag analysis and [clean:], and [clean:]. *)
Definition tcp_in_finish (out_name : list Z) (k : tcp_in) (r : flow * tcp_ctl * gmap Z session_t)
  : prog W (gmap Z session_t) :=
  let '(f, c, sessions) := r in
  match f with
  | FContinue => mret (store_session (k_session_id k) c sessions)
  | FClean =>
    c ← tcp_in_clean out_name k c;
    mret (store_session (k_session_id k) c sessions)
  | FNext =>
    c ← tcp_in_deliver out_name k c;
    c ← tcp_in_fin out_name k c;
    c ← tcp_in_clean out_name k c;
    mret (store_session (k_session_id k) c sessions)
  end.

(** The flag analysis, lines 434 to 636. *)
Definition tcp_in_flags (out_name : list Z) (mappings_in : gmap Z (list Z)) (syn_cookie_salt : list Z) (now_s : Z)
  (k : tcp_in) (c : tcp_ctl) (sessions : gmap Z session_t) : prog W (flow * tcp_ctl * gmap Z session_t) :=
  let flags := k_flags k in
  if match c_session c with Some s => bool_decide (s_state s = closed) | None => false end then
    mret (FClean, ctl_invalid true c, sessions)
  else if has flags FLAG_RST then
    let c := ctl_invalid false c in
    mret (FClean, match c_session c with Some s => ctl_session (set_state closed s) c | None => c end, sessions)
  else if has flags FLAG_SYN then
    tcp_in_syn out_name mappings_in syn_cookie_salt now_s k c sessions
  else if has flags FLAG_ACK then
    match c_session c with
    | Some s =>
      s ← lift (tcp_in_ack (k_ack_seq_nr k) s);
      mret (FNext, ctl_session s c, sessions)
    | None =>
      if negb (has flags FLAG_FIN)
      then tcp_in_open out_name mappings_in syn_cookie_salt now_s k c sessions
      else mret (FNext, c, sessions)
    end
  else if negb (has flags FLAG_FIN) then mret (FContinue, c, sessions)
  else mret (FNext, c, sessions).

(** Body of [run_in]: ip -> tcp, at [get_us() = now_us] and [time(nullptr) = now_s]. *)
Definition tcp_run_in (out_name : list Z) (mappings_in : gmap Z (list Z)) (syn_cookie_salt : list Z)
  (now_us now_s : Z) (m : message) (sessions : gmap Z session_t) : prog W (gmap Z session_t) :=
  p ← lift (tcp_parse m);
  match p with
  | None => mret sessions
  | Some k =>
    let session := touch now_us (k_window_size k) <$> sessions !! k_session_id k in
    r ← tcp_in_flags out_name mappings_in syn_cookie_salt now_s k (ctl_init session) sessions;
    tcp_in_finish out_name k r
  end.

(** *** [run_out] *)

(** The body of the main loop: data from the application. *)
Definition tcp_run_out (junk : nat -> Z) (m : message) (sessions : gmap Z session_t) : outcome (gmap Z session_t) :=
  if m_size m <? 12 then Ret sessions else
  session_id ← field (m_data m) 0 8;
  flags ← field (m_data m) 8 4;
  match sessions !! session_id with
  | Some s =>
    s ← (if m_size m >? 12 then
           what ← rdn (m_data m) 12 (m_size m - 12);
           d ← tcp_data_add junk (s_l7_to_tcp s) what;
           Ret (set_l7_to_tcp d s)
         else Ret s);
    let s := if has flags 1 then set_l7_send_fin true s else s in
    Ret (<[session_id := s]> sessions)
  | None => Ret sessions
  end.

(** One session of the sender thread's round; [None] is the [break]. *)
Definition tcp_sender_session (out_name : list Z) (s : session_t) : prog W (option session_t) :=
  if negb (s_in_flight s =? 0) || s_fin_sent s then mret (Some s) else
  let use_n := Z.min 65536 (s_mss s) in
  r ← lift (tcp_data_peek (s_l7_to_tcp s) use_n);
  let '(buffer, end_) := (r : list Z * bool) in
  let got_n := zlen buffer in
  let send_fin := if end_ then s_l7_send_fin s else false in
  if (got_n >? 0) || send_fin then
    sent_n ← send_tcp_packet out_name (s_local_addr s) (s_peer_addr s) (s_local_port s) (s_peer_port s)
               (s_local_seq s) (s_peer_seq s)
               (Z.lor (Z.lor (if send_fin then FLAG_FIN else 0) FLAG_ACK) FLAG_PSH)
               (s_local_window_size s) buffer got_n (s_mss s);
    if sent_n =? -1 then mret None else
    let set_fin_flag := if sent_n =? got_n then send_fin else false in
    let s := if set_fin_flag && negb (s_fin_sent s)
             then set_fin_sent true (set_local_seq (u32 (s_local_seq s + 1)) s) else s in
    mret (Some (set_in_flight sent_n s))
  else mret (Some s).

(** The [for] loop over the sessions. *)
Fixpoint tcp_sender_loop (out_name : list Z) (es : list (Z * session_t)) (sessions : gmap Z session_t)
  : prog W (gmap Z session_t) :=
  match es with
  | [] => mret sessions
  | (sid, s) :: rest =>
    r ← tcp_sender_session out_name s;
    match r with
    | None => mret sessions
    | Some s' => tcp_sender_loop out_name rest (<[sid := s']> sessions)
    end
  end.

Definition tcp_sender (out_name : list Z) (sessions : gmap Z session_t) : prog W (gmap Z session_t) :=
  tcp_sender_loop out_name (entries sessions) sessions.

End Tcp.

(** *** [run_clean] *)

Definition TCP_WAIT_FIN : Z := 30000.

Definition tcp_expired (now : Z) (s : session_t) : bool :=
  (u64 (now - s_updated_ts s) >? TCP_WAIT_FIN * 1000)
  && ((s_half_closed s && s_fin_sent s) || bool_decide (s_state s = closed)).

Definition tcp_run_clean (now : Z) (sessions : gmap Z session_t) : gmap Z session_t :=
  let clean_list := map fst (List.filter (fun kv => tcp_expired now kv.2) (entries sessions)) in
  foldr (fun sid m => delete sid m) sessions clean_list.
