(* ===== verification/TcpMeta.v ===== *)
(** * The TCP server: opening and closing of client sessions

    [run_meta] of [src/tcp_server.cpp] (the requests of programs that use TCP as
    a client), and [cfg_runtime], with which the server learns its address.
    [my_random] is an argument: the numbers it will return. *)

From S2P Require Import Prelude Net Checksum Str Addr SipHash ShmMessage Transport Ip4In TcpWire TcpData Tcp.

(** ** Code *)

(** The local variables the lines of a request fill in. *)
Record meta_request := {
  q_open : bool;
  q_session_id : option Z;
  q_dst_addr : option addr;
  q_dst_port : option Z;
  q_shm_data_address : option (list Z) }.

Definition meta_request_init : meta_request :=
  {| q_open := false; q_session_id := None; q_dst_addr := None; q_dst_port := None; q_shm_data_address := None |}.

(** One line; [None] is [invalid = true; break]. *)
Definition meta_line (junk : nat -> Z) (line : list Z) (q : meta_request) : outcome (option meta_request) :=
  match split line (str "=") with
  | [key; value] =>
    if beq key (str "action") then
      if beq value (str "open") then
        Ret (Some {| q_open := true; q_session_id := q_session_id q; q_dst_addr := q_dst_addr q;
                     q_dst_port := q_dst_port q; q_shm_data_address := q_shm_data_address q |})
      else if beq value (str "close") then
        Ret (Some {| q_open := false; q_session_id := q_session_id q; q_dst_addr := q_dst_addr q;
                     q_dst_port := q_dst_port q; q_shm_data_address := q_shm_data_address q |})
      else Ret None
    else if beq key (str "session-id") then
      n ← my_stoi_hex value;
      Ret (Some {| q_open := q_open q; q_session_id := u64 <$> (n : option Z); q_dst_addr := q_dst_addr q;
                   q_dst_port := q_dst_port q; q_shm_data_address := q_shm_data_address q |})
    else if beq key (str "dst-port") then
      n ← my_stoi_dec value;
      Ret (Some {| q_open := q_open q; q_session_id := q_session_id q; q_dst_addr := q_dst_addr q;
                   q_dst_port := u16 <$> (n : option Z); q_shm_data_address := q_shm_data_address q |})
    else if beq key (str "dst-addr-ip4") then
      a ← addr_of_string junk value (str ".") false;
      Ret (Some {| q_open := q_open q; q_session_id := q_session_id q; q_dst_addr := Some a;
                   q_dst_port := q_dst_port q; q_shm_data_address := q_shm_data_address q |})
    else if beq key (str "shm-data-address") then
      Ret (Some {| q_open := q_open q; q_session_id := q_session_id q; q_dst_addr := q_dst_addr q;
                   q_dst_port := q_dst_port q; q_shm_data_address := Some value |})
    else Ret None
  | _ => Ret None
  end.

Fixpoint meta_lines (junk : nat -> Z) (lines : list (list Z)) (q : meta_request) : outcome (option meta_request) :=
  match lines with
  | [] => Ret (Some q)
  | line :: rest =>
    r ← meta_line junk line q;
    match r with
    | Some q' => meta_lines junk rest q'
    | None => Ret None
    end
  end.

(** The sessions and [local_allocated_ports]. *)
Record meta_state := {
  ms_sessions : gmap Z session_t;
  ms_ports : gmap Z Z }.

(** The [do]-[while] loop: the first random port that is not in use. *)
Fixpoint pick_port (randoms : list Z) (ports : gmap Z Z) : outcome Z :=
  match randoms with
  | [] => Fault Diverges
  | p :: rest => match ports !! p with Some _ => pick_port rest ports | None => Ret p end
  end.

(** The session as it is when the SYN is sent. *)
Definition client_session (shm_peer : list Z) (local_seq : Z) (local_addr : addr) (local_port : Z)
  (peer_addr : addr) (peer_port : Z) : session_t :=
  {| s_updated_ts := 0; s_is_client := true; s_shm_peer := shm_peer; s_state := syn_sent;
     s_start_local_seq := local_seq; s_start_peer_seq := 0; s_mss := MI_IP4_MIN_TCP_MTU; s_local_seq := local_seq;
     s_peer_seq := 0; s_local_window_size := INITIAL_LOCAL_WINDOW_SIZE; s_peer_window_size := 0;
     s_local_addr := local_addr; s_local_port := local_port; s_peer_addr := peer_addr; s_peer_port := peer_port;
     s_half_closed := false; s_tcp_to_l7 := tcp_data_init; s_l7_to_tcp := tcp_data_init; s_l7_send_fin := false;
     s_fin_sent := false; s_in_flight := 0 |}.

Section TcpMeta.
Context `{Transport W}.

(** Lines 967 to 1032. *)
Definition meta_open (out_name : list Z) (from_addr : addr) (sender : list Z) (random_ports : list Z) (random_seq : Z)
  (q : meta_request) (st : meta_state) : prog W meta_state :=
  match q_dst_port q, q_dst_addr q, q_shm_data_address q with
  | Some dst_port, Some dst_addr, Some shm_data_address =>
    src_port ← lift (pick_port random_ports (ms_ports st));
    session_id ← lift (tcp_calc_session_id dst_port src_port dst_addr from_addr);
    peer ← lift (set_shm_peer shm_data_address);
    let new_session := client_session peer random_seq from_addr src_port dst_addr dst_port in
    rc ← send_tcp_packet out_name from_addr dst_addr src_port dst_port random_seq 0 FLAG_SYN
           INITIAL_LOCAL_WINDOW_SIZE [] 0 MI_IP4_MIN_TCP_MTU;
    if rc =? -1 then mret st
    else
      let reply := str "session-id=" ++ format_x session_id in
      ok ← send sender (fill_message (allocate_shm_message (zlen reply)) msg_reply 0 reply) false;
      if negb (ok.1 : bool) then mret st
      else
        let new_session := set_local_seq (u32 (s_local_seq new_session + 1)) new_session in
        mret {| ms_sessions := match ms_sessions st !! session_id with
                               | Some _ => ms_sessions st
                               | None => <[session_id := new_session]> (ms_sessions st)
                               end;
                ms_ports := <[src_port := session_id]> (ms_ports st) |}
  | _, _, _ => mret st
  end.

(** Lines 1034 to 1070.  [ports_it->second] is read without looking whether the
    port was found. *)
Definition meta_close (out_name : list Z) (q : meta_request) (st : meta_state) : prog W meta_state :=
  match q_session_id q with
  | Some session_id =>
    match ms_sessions st !! session_id with
    | Some s =>
      let sessions := delete session_id (ms_sessions st) in
      let local_seq := u32 (s_local_seq s + 1) in
      match ms_ports st !! s_local_port s with
      | None => lift (Fault OutOfBounds)
      | Some id =>
        let ports := if id =? session_id then delete (s_local_port s) (ms_ports st) else ms_ports st in
        _ ← send_tcp_packet out_name (s_local_addr s) (s_peer_addr s) (s_local_port s) (s_peer_port s)
              local_seq (s_peer_seq s) FLAG_FIN (s_local_window_size s) [] 0 MI_IP4_MIN_TCP_MTU;
        mret {| ms_sessions := sessions; ms_ports := ports |}
      end
    | None => mret st
    end
  | None => mret st
  end.

Definition tcp_run_meta (junk : nat -> Z) (out_name : list Z) (from_addr : addr) (random_ports : list Z) (random_seq : Z)
  (m : message) (st : meta_state) : prog W meta_state :=
  kv ← lift (rdn (m_data m) 0 (m_size m));
  let lines := split kv [10] in
  if zlen lines <? 2 then mret st
  else
    q ← lift (meta_lines junk lines meta_request_init);
    match q with
    | None => mret st
    | Some q =>
      if q_open q then meta_open out_name from_addr (sender_of m) random_ports random_seq q st
      else meta_close out_name q st
    end.

(** [send_meta_request]: the number of the request, if it was sent. *)
Definition tcp_send_meta_request (peer_name request : list Z) : prog W (option Z) :=
  r ← send peer_name (fill_message (allocate_shm_message (zlen request)) msg_new 0 request) false;
  mret (if (r.1 : bool) then Some r.2 else None).

(** What [cfg_runtime] takes from a reply. *)
Definition tcp_cfg_got (junk : nat -> Z) (r : message) : outcome (option addr) :=
  reply_str ← rdn (m_data r) 0 (m_size r);
  if beq (take 4 reply_str) (str "ip4=")
  then a ← addr_of_string junk (drop 4 reply_str) (str ".") false; Ret (Some a)
  else Ret None.

(** [cfg_runtime]: each round has the time and what [wait_for_message] returns;
    at the end of the list the server is stopped. *)
Fixpoint tcp_cfg_runtime (junk : nat -> Z) (meta_name_ip4_server : list Z) (rounds : list (Z * option message))
  (last_tx msg_nr : Z) : prog W addr :=
  match rounds with
  | [] => mret []
  | (now, reply) :: rest =>
    asked ← (if u64 (now - last_tx) >? 2000000 then
               temp ← tcp_send_meta_request meta_name_ip4_server (str "get-ip4");
               mret ((fun nr => (now, nr)) <$> (temp : option Z))
             else mret (Some (last_tx, msg_nr)));
    match asked with
    | None => tcp_cfg_runtime junk meta_name_ip4_server rest last_tx msg_nr
    | Some (last_tx, msg_nr) =>
      match reply with
      | Some r =>
        got ← lift (tcp_cfg_got junk r);
        match got with
        | Some a => mret a
        | None => tcp_cfg_runtime junk meta_name_ip4_server rest last_tx msg_nr
        end
      | None => tcp_cfg_runtime junk meta_name_ip4_server rest last_tx msg_nr
      end
    end
  end.

End TcpMeta.
