(* ===== verification/TcpSafe.v ===== *)
(** * TCP sessions: well-formedness and what a received segment can change

    The invariant of a session ([session_wf]) and, for every segment, the four
    things [tcp_run_in] can do to the table of sessions ([in_effect]). *)

From S2P Require Import Prelude Net Checksum Str Addr SipHash ShmMessage Transport Ip4In TcpWire TcpData Tcp.

(** ** Specification *)

(** The bytes of a [tcp_data] that are in use. *)
Definition queue_of (d : tcp_data) : list Z := take (Z.to_nat (d_len d)) (d_p d).

Record session_wf (s : session_t) : Prop := {
  wf_local_addr : bytes (s_local_addr s) /\ zlen (s_local_addr s) = 4;
  wf_peer_addr : bytes (s_peer_addr s) /\ zlen (s_peer_addr s) = 4;
  wf_mss : 0 < s_mss s <= 1500;
  wf_local_seq : is_u 32 (s_local_seq s);
  wf_peer_seq : is_u 32 (s_peer_seq s);
  wf_in_flight : 0 <= s_in_flight s;
  wf_queue : 0 <= d_len (s_l7_to_tcp s) <= zlen (d_p (s_l7_to_tcp s)) /\ bytes (queue_of (s_l7_to_tcp s));
  (* nothing is in flight that is not at the head of the queue *)
  wf_flight : s_state s <> closed -> s_in_flight s <= d_len (s_l7_to_tcp s) }.

Definition sessions_wf (sessions : gmap Z session_t) : Prop := map_Forall (fun _ s => session_wf s) sessions.

(** What a message of the IP layer is parsed to. *)
Record in_wf (k : tcp_in) : Prop := {
  kw_from : k_from_len k = 4 /\ rdn (k_from k) 0 4 = Ret (k_a_from k) /\ bytes (k_a_from k) /\ zlen (k_a_from k) = 4;
  kw_to : k_to_len k = 4 /\ rdn (k_to k) 0 4 = Ret (k_a_to k) /\ bytes (k_a_to k) /\ zlen (k_a_to k) = 4;
  kw_size : 20 <= k_header_size k <= 60 /\ 0 <= k_tcp_pl_size k <= 65535 /\
            k_header_size k + k_tcp_pl_size k <= zlen (k_pl k);
  kw_flags : is_byte (k_flags k);
  kw_seq : is_u 32 (k_peer_seq_nr k) /\ is_u 32 (k_ack_seq_nr k);
  kw_mss : 0 <= k_mss_index k <= 7;
  kw_bytes : bytes (take (Z.to_nat (k_header_size k + k_tcp_pl_size k)) (k_pl k));
  kw_sid : tcp_calc_session_id (k_source_port k) (k_destination_port k) (k_a_from k) (k_a_to k) = Ret (k_session_id k) }.

Definition payload (k : tcp_in) : list Z := sub (k_pl k) (k_header_size k) (k_tcp_pl_size k).

(** [m] is the segment [k], from and to an IPv4 address. *)
Definition tcp_message (m : message) (full from to pl pad : list Z) : Prop :=
  m_data m = up_data full from to pl ++ pad /\ bytes full /\ bytes from /\ zlen from = 4 /\ bytes to /\ zlen to = 4 /\
  bytes pl /\ zlen pl <= 65535 /\ zlen full <= 65535 /\ 60 <= zlen pl + zlen full.

(** The messages sent for a segment: replies without payload to the peer, and
    messages to the application, of which only the data message has a payload,
    the segment's. *)
Definition is_reply (out_name : list Z) (k : tcp_in) (x : sent) : Prop :=
  sent_to x = out_name /\ sent_type x = msg_new /\ exists seq ack flags window s,
    tcp_seg (k_a_to k) (k_a_from k) (k_destination_port k) (k_source_port k) seq ack flags window [] s /\
    sent_data x = down_data (k_a_to k) (k_a_from k) s.

Definition is_notice (k : tcp_in) (x : sent) : Prop :=
  sent_type x = 0 /\ exists flags pl,
    sent_data x = up_tcp_data (k_session_id k) (k_a_from k) (k_source_port k) (k_a_to k) (k_destination_port k) flags pl /\
    (pl = [] \/ pl = payload k /\ (flags = 0 \/ flags = MI_TCP_FIN)).

Definition is_output (out_name : list Z) (k : tcp_in) (x : sent) : Prop := is_reply out_name k x \/ is_notice k x.

(** What the sending side of the connection uses. *)
Definition send_view (s : session_t) :=
  (s_l7_to_tcp s, s_local_seq s, s_in_flight s, s_fin_sent s, s_l7_send_fin s, s_mss s,
   (s_local_addr s, s_peer_addr s, s_local_port s, s_peer_port s)).

(** [s'] is [s] after some steps that leave the sending side alone, or closed. *)
Definition later (s s' : session_t) : Prop :=
  session_wf s' /\ (s_state s' = closed \/ send_view s' = send_view s /\ s_state s <> closed).

(** The effect of the segment [k] on a session: its acknowledgement, at most. *)
Definition evolves (k : tcp_in) (s s' : session_t) : Prop :=
  later s s' \/ exists s1, has (k_flags k) FLAG_ACK = true /\ tcp_in_ack (k_ack_seq_nr k) s = Ret s1 /\ later s1 s'.

(** A session opened by [k]: the acknowledgement carries a valid cookie and an
    application listens on the port. *)
Record opened (mappings_in : gmap Z (list Z)) (syn_cookie_salt : list Z) (now_s : Z) (k : tcp_in) (s : session_t) : Prop := {
  op_mapped : is_Some (mappings_in !! k_destination_port k);
  op_cookie : let seq_before_syn := u32 (k_ack_seq_nr k - 1) in
    my_syn_cookie (k_session_id k) syn_cookie_salt (Z.land seq_before_syn 7) now_s = Ret seq_before_syn;
  op_flags : has (k_flags k) FLAG_ACK = true /\ has (k_flags k) FLAG_SYN = false /\
             has (k_flags k) FLAG_RST = false /\ has (k_flags k) FLAG_FIN = false;
  op_wf : session_wf s;
  op_state : s_state s = established;
  op_queue : queue_of (s_l7_to_tcp s) = [];
  op_seq : s_local_seq s = k_ack_seq_nr k;
  op_idle : s_in_flight s = 0 /\ s_fin_sent s = false /\ s_l7_send_fin s = false;
  op_mss : mss_ranges !! Z.to_nat (Z.land (u32 (k_ack_seq_nr k - 1)) 7) = Some (s_mss s) }.

Inductive in_effect (mappings_in : gmap Z (list Z)) (syn_cookie_salt : list Z) (now_us now_s : Z) (k : tcp_in)
  (sessions : gmap Z session_t) : gmap Z session_t -> Prop :=
| eff_none :
    in_effect mappings_in syn_cookie_salt now_us now_s k sessions sessions
| eff_release s :
    sessions !! k_session_id k = Some s -> s_is_client s = false -> s_state s = established ->
    s_fin_sent s = true -> s_half_closed s = true ->
    in_effect mappings_in syn_cookie_salt now_us now_s k sessions (delete (k_session_id k) sessions)
| eff_update s s' :
    sessions !! k_session_id k = Some s -> evolves k (touch now_us (k_window_size k) s) s' ->
    in_effect mappings_in syn_cookie_salt now_us now_s k sessions (<[k_session_id k := s']> sessions)
| eff_open s' :
    sessions !! k_session_id k = None -> opened mappings_in syn_cookie_salt now_s k s' ->
    in_effect mappings_in syn_cookie_salt now_us now_s k sessions (<[k_session_id k := s']> sessions).

(** ** Lemmas: parsing *)

Lemma header_size_range b : is_byte b -> 0 <= Z.shiftr b 4 * 4 <= 60.
Proof.
  intros Hb. unfold is_byte in Hb. rewrite Z.shiftr_div_pow2 by lia. change (2 ^ 4) with 16.
  pose proof (Z.div_pos b 16). pose proof (Z.div_lt_upper_bound b 16 16). lia.
Qed.

Lemma get_uint16_ok p off : 0 <= off -> off + 2 <= zlen p -> exists v, get_uint16 (padd p off) = Ret v.
Proof.
  intros H0 H1. unfold get_uint16.
  assert (Hz : 2 <= zlen (padd p off)) by (unfold padd; rewrite zlen_drop; lia).
  destruct (rd_in (padd p off) 0) as (a & _ & ->); [lia|]. destruct (rd_in (padd p off) 1) as (b & _ & ->); [lia|].
  mcbn. by eexists.
Qed.

Lemma get_uint32_ok p off : 0 <= off -> off + 4 <= zlen p -> exists v, get_uint32 (padd p off) = Ret v.
Proof.
  intros H0 H1. unfold get_uint32.
  assert (Hz : 4 <= zlen (padd p off)) by (unfold padd; rewrite zlen_drop; lia).
  destruct (rd_in (padd p off) 0) as (a & _ & ->); [lia|]. destruct (rd_in (padd p off) 1) as (b & _ & ->); [lia|].
  destruct (rd_in (padd p off) 2) as (c & _ & ->); [lia|]. destruct (rd_in (padd p off) 3) as (d & _ & ->); [lia|].
  mcbn. by eexists.
Qed.

(** Every message of the IP layer parses, to nothing or to a well-formed
    segment with the message's payload. *)
Lemma tcp_parse_wf m full from to pl pad :
  tcp_message m full from to pl pad ->
  exists p, tcp_parse m = Ret p /\
    match p with
    | Some k => in_wf k /\ k_a_from k = from /\ k_a_to k = to /\ k_pl k = pl ++ full ++ pad /\
                k_header_size k + k_tcp_pl_size k = zlen pl
    | None => True
    end.
Proof.
  intros (Hm & Bk & Bf & Lf & Bt & Lt & Bp & Lp & Lk & Lpk). unfold tcp_parse.
  erewrite unwrap_message_up_data by (exact Hm || (unfold fits; lia)). mcbn.
  cbn [u_pl u_pl_len u_from u_from_len u_to u_to_len].
  destruct (Z.ltb_spec (zlen pl) 20) as [|Hl]; [by exists None|].
  unfold addr_of_data. rewrite !rdn_app_l by done. mcbn.
  rewrite tcp_udp_checksum_prefix, (tcp_udp_checksum_spec from to pl 6) by (done || lia || (unfold is_byte; lia)). mcbn.
  match goal with |- context [negb ?b] => destruct b; cbn [negb]; [|by exists None] end.
  set (P := pl ++ full ++ pad).
  assert (BP : forall i : Z, 0 <= i <= zlen pl + zlen full -> bytes (take (Z.to_nat i) P)).
  { intros i Hi. unfold P. rewrite app_assoc, take_app_le by (rewrite length_app; unfold zlen in *; lia).
    apply Forall_take. by rewrite bytes_app. }
  assert (BL : forall i b, (i < 20)%nat -> P !! i = Some b -> is_byte b).
  { intros i b Hi Hb. apply (bytes_lookup _ i b (BP 20 ltac:(lia))). by rewrite lookup_take_lt by lia. }
  assert (LP : zlen pl + zlen full <= zlen P) by (unfold P; rewrite !zlen_app; pose proof (zlen_nonneg pad); lia).
  destruct (get_uint16_ok P 0) as (v0 & E0); [lia..|]. change (padd P 0) with P in E0. rewrite E0. mcbn.
  destruct (get_uint16_ok P 2) as (v2 & E2); [lia..|]. rewrite E2. mcbn.
  destruct (tcp_calc_session_id_ok v0 v2 from to Lf Lt) as (sid & Es & _). rewrite Es. mcbn.
  destruct (rd_in P 12) as (b12 & L12 & ->); [lia|]. mcbn. destruct (rd_in P 13) as (b13 & L13 & ->); [lia|]. mcbn.
  destruct (get_uint16_ok P 14) as (v14 & ->); [lia..|]. mcbn.
  destruct (get_uint32_ok P 4) as (v4 & E4); [lia..|]. rewrite E4. mcbn.
  destruct (get_uint32_ok P 8) as (v8 & E8); [lia..|]. rewrite E8. mcbn.
  pose proof (header_size_range b12 (BL 12%nat b12 ltac:(lia) L12)) as Hh. set (h := Z.shiftr b12 4 * 4) in *.
  destruct (Z.ltb_spec h 20); [by exists None|].
  match goal with |- context [if ?b then tcp_options _ _ _ _ _ else _] =>
    assert (Hidx : exists i, (if b then tcp_options (S (Z.to_nat h)) P h 20 1 else Ret 1) = Ret i /\ 0 <= i <= 7)
  end.
  { destruct (has b13 FLAG_SYN && negb (has b13 FLAG_ACK)); [|exists 1; split; [done|lia]].
    apply tcp_options_spec; (lia || apply BP; lia). }
  destruct Hidx as (i & -> & Hi). mcbn. rewrite Z.gtb_ltb.
  destruct (Z.ltb_spec (zlen pl) h); [by exists None|]. eexists. split; [reflexivity|]. cbn.
  split; [|repeat split; lia].
  constructor; cbn; rewrite ?rdn_app_l by done.
  - done.
  - done.
  - unfold P. rewrite !zlen_app. pose proof (zlen_nonneg full). pose proof (zlen_nonneg pad). lia.
  - apply (BL 13%nat b13); [lia|done].
  - split; by eapply get_uint32_range.
  - done.
  - apply BP. pose proof (zlen_nonneg full). lia.
  - done.
Qed.

(** ** Lemmas: sessions *)

Lemma session_wf_queue s : session_wf s -> queue_rep (s_l7_to_tcp s) (queue_of (s_l7_to_tcp s)).
Proof.
  intros [_ _ _ _ _ _ (Hl & _) _]. split.
  - unfold queue_of. rewrite zlen_take. lia.
  - eexists. symmetry. apply take_drop.
Qed.

Lemma queue_rep_of d q : queue_rep d q -> queue_of d = q.
Proof.
  intros [Hl [free Hp]]. unfold queue_of. rewrite Hl, Hp. unfold zlen. rewrite Nat2Z.id. apply take_app_length.
Qed.

(** Changes outside the sending side keep a session well-formed. *)
Lemma session_wf_view s s' :
  session_wf s -> send_view s' = send_view s -> is_u 32 (s_peer_seq s') ->
  (s_state s <> closed \/ s_state s' = closed) -> session_wf s'.
Proof.
  intros [W1 W2 W3 W4 W5 W6 W7 W8] [= E1 E2 E3 E4 E5 E6 E7 E8 E9 E10] Hp Hs.
  constructor; rewrite ?E1, ?E2, ?E3, ?E6, ?E7, ?E8; try done. intros Hc. apply W8. destruct Hs; congruence.
Qed.

Lemma later_refl s : session_wf s -> later s s.
Proof. intros Hs. split; [done|]. destruct (decide (s_state s = closed)); [by left|by right]. Qed.

Lemma later_trans s1 s2 s3 : later s1 s2 -> later s2 s3 -> later s1 s3.
Proof.
  intros [W2 H12] [W3 H23]. split; [done|]. destruct H23 as [|[E23 N2]]; [by left|].
  destruct H12 as [|[E12 N1]]; [done|]. right. split; [congruence|done].
Qed.

Lemma later_view s s' :
  session_wf s -> s_state s <> closed -> send_view s' = send_view s -> is_u 32 (s_peer_seq s') -> later s s'.
Proof. intros Hs Hn Hv Hp. split; [by eapply session_wf_view; eauto|by right]. Qed.

Lemma later_close s : session_wf s -> later s (set_state closed s).
Proof. intros Hs. split; [|by left]. eapply session_wf_view; [exact Hs|done|apply Hs|by right]. Qed.

Lemma touch_wf now win s : session_wf s -> session_wf (touch now win s).
Proof.
  intros Hs. eapply session_wf_view; [exact Hs|done|apply Hs|].
  destruct (decide (s_state s = closed)); [by right|by left].
Qed.

(** Dropping the queues of a closed session. *)
Lemma later_forget s :
  session_wf s -> s_state s = closed ->
  later s (set_l7_to_tcp (tcp_data_forget_all (s_l7_to_tcp s)) (set_tcp_to_l7 (tcp_data_forget_all (s_tcp_to_l7 s)) s)).
Proof.
  intros [W1 W2 W3 W4 W5 W6 [W7 W8] W9] Hc. split; [|by left].
  constructor; cbn; try done. split; [lia|constructor].
Qed.

(** The acknowledgement of pending data keeps a session well-formed, and moves
    the send position by the bytes taken from the queue. *)
Lemma tcp_in_ack_spec ack s :
  session_wf s -> s_state s <> closed ->
  exists n s1, tcp_in_ack ack s = Ret s1 /\ session_wf s1 /\ s_state s1 = s_state s /\ 0 <= n <= s_in_flight s /\
    queue_of (s_l7_to_tcp s1) = drop (Z.to_nat n) (queue_of (s_l7_to_tcp s)) /\
    s_local_seq s1 = u32 (s_local_seq s + n) /\ s_fin_sent s1 = s_fin_sent s /\ s_l7_send_fin s1 = s_l7_send_fin s /\
    (s_in_flight s1 = 0 \/ s_in_flight s1 = s_in_flight s /\ n = 0) /\
    n = (let ack_n := u32 (ack - s_local_seq s) in
         if (s_local_seq s <=? ack) && (ack_n <=? s_in_flight s) then ack_n else 0).
Proof.
  intros Hs Hc. pose proof (session_wf_queue s Hs) as Hq. pose proof Hs as [W1 W2 W3 W4 W5 W6 [W7 W8] W9].
  specialize (W9 Hc). unfold tcp_in_ack. rewrite Z.geb_leb. cbn zeta.
  pose proof (wrap_range 32 (ack - s_local_seq s) ltac:(lia)) as Hn. unfold is_u in Hn.
  set (n := u32 (ack - s_local_seq s)) in *.
  assert (H0 : session_wf (set_in_flight 0 s)) by (constructor; cbn; (done || lia)).
  assert (Hz : forall m, m = 0 -> queue_of (s_l7_to_tcp s) = drop (Z.to_nat m) (queue_of (s_l7_to_tcp s)) /\
    s_local_seq s = u32 (s_local_seq s + m)).
  { intros m ->. split; [done|]. rewrite Z.add_0_r. symmetry. by apply wrap_small. }
  destruct (Z.leb_spec (s_local_seq s) ack); cbn [andb].
  2: { exists 0, (set_in_flight 0 s). destruct (Hz 0 eq_refl) as [E1 E2]. split; [done|]. split; [done|].
       repeat (split; [done || lia|]). split; [|done]. by left. }
  assert (Hfg : forall fl, n <= s_in_flight s -> fl = 0 ->
    exists d, tcp_data_forget (s_l7_to_tcp s) n = Ret d /\
      let s1 := set_in_flight fl (set_local_seq (u32 (s_local_seq s + n)) (set_l7_to_tcp d s)) in
      session_wf s1 /\ queue_of (s_l7_to_tcp s1) = drop (Z.to_nat n) (queue_of (s_l7_to_tcp s))).
  { intros fl Hf ->. destruct (tcp_data_forget_spec _ _ n Hq) as (d & Hd & Hq'); [lia|]. exists d. split; [done|].
    cbn zeta. split; [|by apply queue_rep_of]. destruct Hq' as [Hl [free Hp]].
    constructor; cbn; try done.
    - apply wrap_range. lia.
    - rewrite (queue_rep_of d _ (conj Hl (ex_intro _ free Hp))), Hl, Hp, zlen_app. pose proof (zlen_nonneg free).
      pose proof (zlen_nonneg (drop (Z.to_nat n) (queue_of (s_l7_to_tcp s)))). split; [lia|by apply Forall_drop].
    - rewrite Hl. pose proof (zlen_nonneg (drop (Z.to_nat n) (queue_of (s_l7_to_tcp s)))). lia. }
  destruct (Z.eqb_spec n (s_in_flight s)) as [Heq|Hne].
  - destruct (Hfg (s_in_flight s - n)) as (d & -> & Hw & Hq1); [lia..|]. mcbn.
    replace (n <=? s_in_flight s) with true by lia. eexists n, _. split; [done|]. split; [exact Hw|].
    repeat (split; [done || lia|]). split; [|done]. left. cbn. lia.
  - destruct (Z.ltb_spec n (s_in_flight s)).
    + destruct (Hfg 0) as (d & -> & Hw & Hq1); [lia..|]. mcbn. replace (n <=? s_in_flight s) with true by lia.
      eexists n, _. split; [done|]. split; [exact Hw|]. repeat (split; [done || lia|]). split; [|done]. by left.
    + replace (n <=? s_in_flight s) with false by lia. destruct (Hz 0 eq_refl) as [E1 E2].
      exists 0, s. split; [done|]. split; [done|]. repeat (split; [done || lia|]). done.
Qed.

Lemma later_seq s s' :
  session_wf s -> send_view s' = send_view s -> is_u 32 (s_peer_seq s') -> s_state s' = s_state s -> later s s'.
Proof.
  intros Hs Hv Hp Hst. destruct (decide (s_state s = closed)).
  - split; [|left; congruence]. eapply session_wf_view; eauto. right. congruence.
  - by apply later_view.
Qed.

(** ** Lemmas: the parts of the handler *)

Definition ctl_wf (c : tcp_ctl) : Prop :=
  match c_session c with Some s => session_wf s | None => True end /\
  (c_invalid c = true -> c_invalid_w_rst c = true \/ match c_session c with Some s => s_state s = closed | None => True end).

(** [c'] is [c] after some steps that leave the sending side alone. *)
Definition ctl_later (c c' : tcp_ctl) : Prop :=
  c_invalid c' = c_invalid c /\ c_invalid_w_rst c' = c_invalid_w_rst c /\
  match c_session c, c_session c' with
  | Some s, Some s' => later s s' /\ (c_invalid c = false -> s_state s' = s_state s)
  | None, None => True
  | _, _ => False
  end.

Lemma ctl_later_refl c : ctl_wf c -> ctl_later c c.
Proof. intros [Hs _]. repeat split. destruct (c_session c); [split; [by apply later_refl|done]|done]. Qed.

Lemma ctl_later_trans c1 c2 c3 : ctl_later c1 c2 -> ctl_later c2 c3 -> ctl_later c1 c3.
Proof.
  intros (A1 & B1 & C1) (A2 & B2 & C2). repeat split; [congruence..|].
  destruct (c_session c1), (c_session c2), (c_session c3); try done.
  destruct C1 as [L1 S1], C2 as [L2 S2]. split; [by eapply later_trans|]. intros Hi. rewrite S2, S1; congruence.
Qed.

Lemma ctl_later_wf c c' : ctl_wf c -> ctl_later c c' -> ctl_wf c'.
Proof.
  intros [Hs Hi] (A & B & C). split.
  - destruct (c_session c), (c_session c'); try done. apply C.
  - rewrite A, B. intros Hinv. destruct (Hi Hinv) as [|Hc]; [by left|]. right.
    destruct (c_session c), (c_session c'); try done. destruct C as [[_ [|[_ ?]]] _]; [done|congruence].
Qed.

Lemma c_str_length l : zlen (c_str l) <= zlen l.
Proof. induction l as [|x l IH]; cbn; [lia|]. destruct (x =? 0); rewrite ?zlen_cons; change (zlen []) with 0; pose proof (zlen_nonneg l); lia. Qed.

Section Parts.
Context `{Transport W}.

Lemma runs_reply out_name k seq ack flags window mss :
  in_wf k -> 0 < mss <= 65515 ->
  runs (is_output out_name k) (tcp_reply out_name k seq ack flags window mss) (fun rc => rc = 0 \/ rc = -1).
Proof.
  intros K Hm w. destruct K as [(_ & _ & Bf & Lf) (_ & _ & Bt & Lt) _ _ _ _ _ _]. unfold tcp_reply.
  destruct (send_tcp_empty out_name (k_a_to k) (k_a_from k) (k_destination_port k) (k_source_port k) seq ack flags window mss w Bt Lt Bf Lf Hm)
    as (s & Hs & ->). set (msg := seg_message (k_a_to k) (k_a_from k) s).
  eexists _, _, _. split; [reflexivity|]. split; [apply after_send_log|]. split.
  - destruct (send_ok_b out_name msg w); [|constructor]. constructor; [|constructor]. left.
    split; [done|]. split; [done|]. by eexists _, _, _, _, s.
  - destruct (send_ok_b out_name msg w); auto.
Qed.

Lemma up_tcp_message_size sid (f : list Z) sp (t : list Z) dp flags pl :
  zlen f = 4 -> zlen t = 4 -> zlen pl <= 65535 ->
  0 < m_size (fill_message (allocate_shm_message (zlen (up_tcp_data sid f sp t dp flags pl))) 0 0
                (up_tcp_data sid f sp t dp flags pl)).
Proof.
  intros Hf Ht Hp. pose proof (zlen_nonneg pl). cbn [fill_message m_size allocate_shm_message].
  assert (E : zlen (up_tcp_data sid f sp t dp flags pl) = 52 + zlen pl).
  { unfold up_tcp_data, sz. autorewrite with zlen. lia. }
  rewrite E, wrap_small by (unfold is_u; lia). lia.
Qed.

Lemma runs_up out_name dst k flags pl_len pl p :
  in_wf k -> (pl_len = 0 /\ p = [] \/ 0 < pl_len <= 65535 /\ rdn pl 0 pl_len = Ret p /\ zlen p = pl_len) ->
  p = [] \/ p = payload k /\ (flags = 0 \/ flags = MI_TCP_FIN) ->
  runs (is_output out_name k) (tcp_up dst k flags pl_len pl) (fun _ => True).
Proof.
  intros K Hpl Hp. unfold tcp_up. pose proof K as [(F1 & F2 & F3 & F4) (T1 & T2 & T3 & T4) _ _ _ _ _ _].
  assert (Hz : zlen p = pl_len) by (destruct Hpl as [[-> ->]|?]; [done|tauto]).
  eapply runs_lift.
  - unfold wrap_message_up_tcp. rewrite F1, F2, T1, T2. mcbn.
    assert ((if pl_len =? 0 then Ret [] else rdn pl 0 pl_len) = Ret p) as ->.
    { destruct Hpl as [[-> ->]|(? & Hr & _)]; [done|]. by replace (pl_len =? 0) with false by lia. }
    mcbn. reflexivity.
  - match goal with |- context [fill_message (allocate_shm_message (zlen ?d)) 0 0 ?e] =>
      replace d with (up_tcp_data (k_session_id k) (k_a_from k) (k_source_port k) (k_a_to k) (k_destination_port k) flags p)
        by (unfold up_tcp_data; by rewrite F4, T4, Hz)
    end.
    eapply runs_bind with (P := fun _ => True).
    + apply runs_send; [apply up_tcp_message_size; (done || lia)| |done].
      right. split; [done|]. by exists flags, p.
    + intros r _. by apply runs_ret.
Qed.

Lemma runs_up_empty out_name dst k flags :
  in_wf k -> runs (is_output out_name k) (tcp_up dst k flags 0 []) (fun _ => True).
Proof. intros K. eapply runs_up; [done|by left|by left]. Qed.

Lemma mss_sendable s : session_wf s -> 0 < s_mss s <= 65515.
Proof. intros W0. pose proof (wf_mss s W0). lia. Qed.

Lemma peer_seq_later s v : session_wf s -> is_u 32 v -> later s (set_peer_seq v s).
Proof. intros Hs Hv. by apply later_seq. Qed.

Lemma ctl_later_session c s s' :
  c_session c = Some s -> later s s' -> (c_invalid c = false -> s_state s' = s_state s) -> ctl_later c (ctl_session s' c).
Proof. intros Hs Hl Hst. repeat split. by rewrite Hs. Qed.

Lemma runs_deliver out_name k c :
  in_wf k -> ctl_wf c -> runs (is_output out_name k) (tcp_in_deliver out_name k c) (ctl_later c).
Proof.
  intros K Hc. unfold tcp_in_deliver. pose proof (ctl_later_refl c Hc) as Hrefl. destruct Hc as [Hs _].
  destruct (c_session c) as [s|] eqn:Es; [|by apply runs_ret].
  destruct (c_invalid c) eqn:Ei; [by apply runs_ret|]. pose proof (kw_size k K) as (Hh & Hn & Hp).
  assert (Hclean : ctl_later c (ctl_clean c)) by exact Hrefl.
  destruct (_ =? _).
  - eapply runs_bind with (P := fun _ => True).
    { destruct (k_tcp_pl_size k >? 0) eqn:E; [|by apply runs_ret].
      apply runs_up with (p := payload k); [done| |].
      - right. split; [lia|]. unfold payload, padd. split.
        + rewrite rdn_ok by (rewrite ?zlen_drop; lia). unfold sub. by rewrite drop_drop, Nat.add_0_r.
        + apply zlen_sub; lia.
      - right. split; [done|]. destruct (s_half_closed s); auto. }
    intros ok _. destruct ok; [|by apply runs_ret]. destruct (_ || _); [|by apply runs_ret].
    eapply runs_bind; [apply runs_reply; [done|by apply mss_sendable]|]. intros rc _. destruct (rc =? 0); apply runs_ret; [|done].
    apply ctl_later_session with s; [done| |done]. apply peer_seq_later; [done|]. apply wrap_range. lia.
  - eapply runs_bind; [apply runs_reply; [done|by apply mss_sendable]|]. intros rc _. apply runs_ret. by destruct (rc =? -1).
Qed.

Lemma runs_fin out_name k c :
  in_wf k -> ctl_wf c -> runs (is_output out_name k) (tcp_in_fin out_name k c) (ctl_later c).
Proof.
  intros K Hc. unfold tcp_in_fin. pose proof (ctl_later_refl c Hc) as Hrefl. destruct Hc as [Hs _].
  destruct (c_session c) as [s|] eqn:Es; [|by apply runs_ret]. destruct (has _ _); [|by apply runs_ret].
  set (s' := if s_half_closed s then s else _).
  assert (Hl : later s s').
  { unfold s'. destruct (s_half_closed s); [by apply later_refl|]. apply later_seq; try done. apply wrap_range. lia. }
  assert (Hst : s_state s' = s_state s) by (unfold s'; by destruct (s_half_closed s)).
  destruct (c_acked_packet c).
  - apply runs_ret. by apply ctl_later_session with s.
  - eapply runs_bind; [apply runs_reply; [done|apply mss_sendable, Hl]|]. intros _ _. apply runs_ret.
    by apply ctl_later_session with s.
Qed.

Lemma runs_clean out_name k c :
  in_wf k -> ctl_wf c -> runs (is_output out_name k) (tcp_in_clean out_name k c) (ctl_later c).
Proof.
  intros K Hc. unfold tcp_in_clean. pose proof (ctl_later_refl c Hc) as Hrefl. pose proof Hc as [Hs Hi].
  destruct (negb _); [by apply runs_ret|].
  eapply runs_bind with (P := fun c' => ctl_later c c' /\
    (c_invalid c = true -> match c_session c' with Some s => s_state s = closed | None => True end)).
  { destruct (c_invalid c && c_invalid_w_rst c) eqn:E.
    - eapply runs_bind; [apply runs_reply; [done|unfold MI_IP4_MIN_TCP_MTU; lia]|]. intros _ _. apply runs_ret.
      destruct (c_session c) as [s|] eqn:Es; [|split; [done|by rewrite Es]].
      apply andb_true_iff in E as [E _].
      split; [|done]. apply ctl_later_session with s; [done|by apply later_close|congruence].
    - apply runs_ret. split; [done|]. intros Ei. rewrite Ei in E. cbn in E. destruct (Hi Ei); [congruence|done]. }
  intros c' [Hl Hcl]. pose proof (ctl_later_wf _ _ Hc Hl) as [Hs' _].
  destruct (c_session c') as [s|] eqn:Es; [|by apply runs_ret].
  assert (Hlater : later s (if c_invalid c'
             then set_l7_to_tcp (tcp_data_forget_all (s_l7_to_tcp s))
                    (set_tcp_to_l7 (tcp_data_forget_all (s_tcp_to_l7 s)) s) else s)).
  { destruct Hl as (-> & _ & _). destruct (c_invalid c); [|by apply later_refl]. apply later_forget; auto. }
  eapply runs_bind; [by apply runs_up_empty|]. intros _ _. apply runs_ret.
  eapply ctl_later_trans; [exact Hl|]. apply ctl_later_session with s; [done|done|]. by destruct (c_invalid c').
Qed.

(** What the flag analysis leaves to the rest of the handler. *)
Definition flags_post (mappings_in : gmap Z (list Z)) (syn_cookie_salt : list Z) (now_us now_s : Z) (k : tcp_in)
  (sessions : gmap Z session_t) (r : flow * tcp_ctl * gmap Z session_t) : Prop :=
  let '(f, c, sm) := r in
  ctl_wf c /\
  match sessions !! k_session_id k with
  | Some s =>
    (c_session c = None /\ f = FContinue /\ sm = delete (k_session_id k) sessions /\ s_is_client s = false /\
     s_state s = established /\ s_fin_sent s = true /\ s_half_closed s = true) \/
    (exists s', c_session c = Some s' /\ sm = sessions /\ evolves k (touch now_us (k_window_size k) s) s')
  | None =>
    (c_session c = None /\ sm = sessions) \/
    (exists s', c_session c = Some s' /\ c_invalid c = false /\ sm = <[k_session_id k := s']> sessions /\
       opened mappings_in syn_cookie_salt now_s k s')
  end.

Lemma opened_later mappings_in syn_cookie_salt now_s k s s' :
  opened mappings_in syn_cookie_salt now_s k s -> later s s' -> s_state s' = s_state s ->
  opened mappings_in syn_cookie_salt now_s k s'.
Proof.
  intros [O1 O2 O3 O4 O5 O6 O7 (O8 & O9 & O10) O11] [Hw Hl] Hst. destruct Hl as [|[[= E1 E2 E3 E4 E5 E6 E7 E8 E9 E10] _]]; [congruence|].
  constructor; rewrite ?E1, ?E2, ?E3, ?E4, ?E5, ?E6, ?Hst; done.
Qed.

Lemma evolves_later k s s1 s2 : evolves k s s1 -> later s1 s2 -> evolves k s s2.
Proof.
  intros [H1|(s0 & Hf & Ha & H1)] H2; [left|right; exists s0; do 2 (split; [done|])]; by eapply later_trans.
Qed.

Lemma runs_finish out_name mappings_in syn_cookie_salt now_us now_s k sessions r :
  in_wf k -> flags_post mappings_in syn_cookie_salt now_us now_s k sessions r ->
  runs (is_output out_name k) (tcp_in_finish out_name k r)
    (in_effect mappings_in syn_cookie_salt now_us now_s k sessions).
Proof.
  intros K. destruct r as [[f c] sm]. intros (Hc & Hpost). unfold tcp_in_finish.
  assert (Hend : forall c', ctl_later c c' ->
    in_effect mappings_in syn_cookie_salt now_us now_s k sessions (store_session (k_session_id k) c' sm)).
  { intros c' (_ & _ & Hl). unfold store_session. destruct (sessions !! k_session_id k) as [s|] eqn:Es.
    - destruct Hpost as [(Hn & _ & -> & H1 & H2 & H3 & H4)|(s1 & Hs1 & -> & Hev)].
      + rewrite Hn in Hl. destruct (c_session c'); [done|]. by eapply eff_release.
      + rewrite Hs1 in Hl. destruct (c_session c') as [s'|]; [|done]. destruct Hl as [Hl _].
        eapply eff_update; [done|]. by eapply evolves_later.
    - destruct Hpost as [(Hn & ->)|(s1 & Hs1 & Hi & -> & Hop)].
      + rewrite Hn in Hl. destruct (c_session c'); [done|]. apply eff_none.
      + rewrite Hs1 in Hl. destruct (c_session c') as [s'|]; [|done]. destruct Hl as [Hl Hst].
        rewrite insert_insert_eq. apply eff_open; [done|]. eapply opened_later; eauto. }
  destruct f.
  - apply runs_ret, Hend, ctl_later_refl, Hc.
  - eapply runs_bind; [by apply runs_clean|]. intros c' Hl. by apply runs_ret, Hend.
  - eapply runs_bind; [by apply runs_deliver|]. intros c1 H1. pose proof (ctl_later_wf _ _ Hc H1) as W1.
    eapply runs_bind; [by apply runs_fin|]. intros c2 H2. pose proof (ctl_later_wf _ _ W1 H2) as W2.
    eapply runs_bind; [by apply runs_clean|]. intros c3 H3. apply runs_ret, Hend.
    eapply ctl_later_trans; [exact H1|]. by eapply ctl_later_trans.
Qed.

Lemma runs_syn_cookie out_name salt now_s k :
  in_wf k -> runs (is_output out_name k)
    (send_syn_cookie out_name (k_session_id k) salt (k_mss_index k) (k_a_from k) (k_source_port k)
       (k_a_to k) (k_destination_port k) (k_peer_seq_nr k) now_s) (fun _ => True).
Proof.
  intros K. unfold send_syn_cookie.
  destruct (my_syn_cookie_spec (k_session_id k) salt (k_mss_index k) now_s (kw_mss k K)) as (ck & Hck & _).
  eapply runs_lift; [exact Hck|]. eapply runs_bind; [apply (runs_reply out_name k ck); [done|unfold MI_IP4_MIN_TCP_MTU; lia]|].
  intros _ _. by apply runs_ret.
Qed.

Lemma runs_syn out_name mappings_in salt now_us now_s k sessions :
  in_wf k -> sessions_wf sessions -> has (k_flags k) FLAG_RST = false ->
  (forall s, sessions !! k_session_id k = Some s -> s_state s <> closed) ->
  runs (is_output out_name k)
    (tcp_in_syn out_name mappings_in salt now_s k
       (ctl_init (touch now_us (k_window_size k) <$> sessions !! k_session_id k)) sessions)
    (flags_post mappings_in salt now_us now_s k sessions).
Proof.
  intros K Hss Hrst Hcl. unfold tcp_in_syn. pose proof (runs_syn_cookie out_name salt now_s k K) as Hcookie.
  unfold flags_post. destruct (sessions !! k_session_id k) as [s|] eqn:Es; cbn [fmap option_fmap option_map ctl_init ctl_inc_ack c_session].
  2: { rewrite Hrst. destruct (mappings_in !! _); [destruct (has (k_flags k) (Z.lor _ _))|].
       - apply runs_ret. split; [split; [done|by left]|by left].
       - eapply runs_bind; [exact Hcookie|]. intros _ _. apply runs_ret. split; [done|by left].
       - apply runs_ret. split; [split; [done|by left]|by left]. }
  pose proof (touch_wf now_us (k_window_size k) s (Hss _ _ Es)) as Hw. set (t := touch now_us (k_window_size k) s) in *.
  assert (Ht : s_state t <> closed) by (apply (Hcl s eq_refl)).
  destruct (s_is_client t) eqn:Ecl.
  - destruct (negb _).
    + apply runs_ret. split; [split; [exact Hw|by left]|]. right. exists t. repeat split. left. by apply later_refl.
    + set (s1 := if decide _ then t else _).
      assert (H1 : later t s1 /\ is_u 32 (s_peer_seq s1)).
      { unfold s1. destruct (decide _); [split; [by apply later_refl|apply Hw]|]. pose proof (kw_seq k K) as [Hp _].
        split; [|exact Hp]. by apply later_view. }
      assert (H2 : later t (set_peer_seq (u32 (s_peer_seq s1 + 1)) s1)).
      { eapply later_trans; [apply H1|]. apply peer_seq_later; [apply H1|apply wrap_range; lia]. }
      eapply runs_bind; [apply runs_reply; [done|apply mss_sendable, H2]|]. intros rc _.
      destruct (rc =? -1); apply runs_ret; (split; [split; [apply H2|done]|]); right; (eexists; repeat split; by left).
  - destruct (negb (bool_decide _)) eqn:Est.
    + eapply runs_bind; [exact Hcookie|]. intros _ _. apply runs_ret. split; [split; [exact Hw|done]|].
      right. exists t. repeat split. left. by apply later_refl.
    + apply negb_false_iff, bool_decide_eq_true in Est. destruct (negb (s_fin_sent t) || _) eqn:Ef.
      * apply runs_ret. split; [split; [exact Hw|done]|]. right. exists t. repeat split. left. by apply later_refl.
      * apply orb_false_iff in Ef as [Ef1%negb_false_iff Ef2%negb_false_iff]. apply runs_ret. split; [done|]. by left.
Qed.

Lemma land7_range z : 0 <= Z.land z 7 <= 7.
Proof.
  assert (Z.land z 7 = z mod 8) as -> by exact (Z.land_ones z 3 ltac:(lia)).
  pose proof (Z.mod_pos_bound z 8 ltac:(lia)). lia.
Qed.

Lemma mss_ranges_bounds i m : mss_ranges !! i = Some m -> 0 < m <= 1500.
Proof. do 8 (destruct i as [|i]; [intros [= <-]; lia|]). done. Qed.

Definition mappings_ok (mappings_in : gmap Z (list Z)) : Prop :=
  map_Forall (fun _ name => zlen name <= max_id_length) mappings_in.

Lemma runs_open out_name mappings_in salt now_us now_s k sessions :
  in_wf k -> mappings_ok mappings_in -> sessions !! k_session_id k = None ->
  has (k_flags k) FLAG_ACK = true -> has (k_flags k) FLAG_SYN = false ->
  has (k_flags k) FLAG_RST = false -> has (k_flags k) FLAG_FIN = false ->
  runs (is_output out_name k)
    (tcp_in_open out_name mappings_in salt now_s k (ctl_init None) sessions)
    (flags_post mappings_in salt now_us now_s k sessions).
Proof.
  intros K Hmap Es F1 F2 F3 F4. unfold tcp_in_open, flags_post. rewrite Es.
  set (seq := u32 (k_ack_seq_nr k - 1)). pose proof (land7_range seq) as H7.
  assert (Hnone : ctl_wf (ctl_init None)) by done.
  destruct (my_syn_cookie_spec (k_session_id k) salt (Z.land seq 7) now_s H7) as (ck & Hck & _).
  eapply runs_lift; [exact Hck|]. destruct (Z.eqb_spec ck seq) as [Heq|]; cbn [negb].
  2: { eapply runs_bind; [apply runs_reply; [done|unfold MI_IP4_MIN_TCP_MTU; lia]|]. intros _ _. apply runs_ret.
       split; [done|by left]. }
  destruct (mappings_in !! k_destination_port k) as [upper|] eqn:Em; [|apply runs_ret; split; [done|by left]].
  eapply runs_bind; [by apply runs_up_empty|]. intros [|] _.
  2: { apply runs_ret. split; [split; [done|by left]|by left]. }
  destruct (rd_in mss_ranges (Z.land seq 7)) as (mss & Lmss & Rmss); [change (zlen mss_ranges) with 8; lia|].
  eapply runs_lift; [exact Rmss|].
  assert (Hpeer : set_shm_peer upper = Ret (splice (zeros max_id_length) 0 upper)).
  { unfold set_shm_peer. apply wr_ok; [lia|]. rewrite zlen_zeros by (unfold max_id_length; lia). apply (Hmap _ _ Em). }
  eapply runs_lift; [exact Hpeer|]. rewrite lookup_insert_eq.
  match goal with |- context [<[_ := ?s]> _] => set (new_session := s) end. apply runs_ret.
  assert (Hw : session_wf new_session).
  { destruct K as [(_ & _ & B1 & L1) (_ & _ & B2 & L2) _ _ [S1 S2] _ _ _]. constructor; cbn; try done.
    - by apply mss_ranges_bounds in Lmss.
    - split; [done|constructor]. }
  split; [done|]. right. exists new_session. repeat (split; [done|]).
  constructor; try done.
  - cbn zeta. fold seq. rewrite Hck. by rewrite Heq.
Qed.

(** The flag analysis. *)
Lemma runs_flags out_name mappings_in salt now_us now_s k sessions :
  in_wf k -> mappings_ok mappings_in -> sessions_wf sessions ->
  runs (is_output out_name k)
    (tcp_in_flags out_name mappings_in salt now_s k
       (ctl_init (touch now_us (k_window_size k) <$> sessions !! k_session_id k)) sessions)
    (flags_post mappings_in salt now_us now_s k sessions).
Proof.
  intros K Hmap Hss. unfold tcp_in_flags.
  assert (Hbase : forall c, c_session c = touch now_us (k_window_size k) <$> sessions !! k_session_id k ->
    (c_invalid c = true -> c_invalid_w_rst c = true) -> forall f, flags_post mappings_in salt now_us now_s k sessions (f, c, sessions)).
  { intros c Hc Hi f. unfold flags_post, ctl_wf. rewrite Hc. destruct (sessions !! k_session_id k) as [s|] eqn:Es; cbn.
    - pose proof (touch_wf now_us (k_window_size k) s (Hss _ _ Es)) as Hw. split; [split; [done|by left; auto]|].
      right. eexists. repeat split. left. by apply later_refl.
    - split; [split; [done|by left; auto]|]. by left. }
  destruct (match c_session _ with Some s => _ | None => false end) eqn:Ecl.
  { apply runs_ret. by apply Hbase. }
  assert (Hopen : forall s, sessions !! k_session_id k = Some s -> s_state s <> closed).
  { intros s Es. rewrite Es in Ecl. cbn in Ecl. by apply bool_decide_eq_false in Ecl. }
  destruct (has (k_flags k) FLAG_RST) eqn:Frst.
  { apply runs_ret. destruct (sessions !! k_session_id k) as [s|] eqn:Es; unfold flags_post; rewrite Es; cbn.
    - pose proof (touch_wf now_us (k_window_size k) s (Hss _ _ Es)) as Hw. pose proof (later_close _ Hw) as Hl.
      split; [split; [apply Hl|by right]|]. right. eexists. repeat split. by left.
    - split; [split; [done|by right]|by left]. }
  destruct (has (k_flags k) FLAG_SYN) eqn:Fsyn; [by apply runs_syn|].
  destruct (has (k_flags k) FLAG_ACK) eqn:Fack.
  - destruct (sessions !! k_session_id k) as [s|] eqn:Es; cbn [fmap option_fmap option_map ctl_init c_session].
    + pose proof (touch_wf now_us (k_window_size k) s (Hss _ _ Es)) as Hw.
      destruct (tcp_in_ack_spec (k_ack_seq_nr k) _ Hw (Hopen s eq_refl)) as (n & s1 & Ha & W1 & _).
      eapply runs_lift; [exact Ha|]. apply runs_ret. unfold flags_post. rewrite Es. split; [split; [exact W1|done]|].
      right. exists s1. split; [done|]. split; [done|]. right. exists s1. split; [done|]. split; [done|]. by apply later_refl.
    + destruct (negb _) eqn:Ffin.
      * apply negb_true_iff in Ffin. by apply runs_open.
      * apply runs_ret. by apply Hbase.
  - destruct (negb _); apply runs_ret; by apply Hbase.
Qed.

Lemma tcp_run_in_aux out_name mappings_in salt now_us now_s m sessions full from to pl pad :
  tcp_message m full from to pl pad -> mappings_ok mappings_in -> sessions_wf sessions ->
  exists p, tcp_parse m = Ret p /\
    match p with
    | None => runs (fun _ => False) (tcp_run_in out_name mappings_in salt now_us now_s m sessions) (fun s => s = sessions)
    | Some k => in_wf k /\
      runs (is_output out_name k) (tcp_run_in out_name mappings_in salt now_us now_s m sessions)
        (in_effect mappings_in salt now_us now_s k sessions)
    end.
Proof.
  intros Hm Hmap Hss. destruct (tcp_parse_wf _ _ _ _ _ _ Hm) as (p & Hp & Hk). exists p. split; [done|].
  unfold tcp_run_in. destruct p as [k|].
  - destruct Hk as [K _]. split; [done|]. eapply runs_lift; [exact Hp|].
    eapply runs_bind; [by apply runs_flags|]. intros r Hr. by apply runs_finish.
  - eapply runs_lift; [exact Hp|]. by apply runs_ret.
Qed.

End Parts.

Lemma in_effect_wf mappings_in salt now_us now_s k sessions sessions' :
  sessions_wf sessions -> in_effect mappings_in salt now_us now_s k sessions sessions' -> sessions_wf sessions'.
Proof.
  intros Hs [|s|s s' _ He|s' _ Ho]; [done|by apply map_Forall_delete| |].
  - apply map_Forall_insert_2; [|done]. destruct He as [[? _]|(s1 & _ & _ & [? _])]; done.
  - apply map_Forall_insert_2; [|done]. apply Ho.
Qed.

(** A message of the IP layer with the segment [s] in an IP packet. *)
Definition ip_message (from to : addr) (s : list Z) : message :=
  message_of (up_data (0x45 :: zeros 19 ++ s) from to s) None.

Lemma tcp_message_ip from to s :
  bytes from -> zlen from = 4 -> bytes to -> zlen to = 4 -> bytes s -> 20 <= zlen s <= 65515 ->
  tcp_message (ip_message from to s) (0x45 :: zeros 19 ++ s) from to s [].
Proof.
  intros Bf Lf Bt Lt Bs Ls. unfold tcp_message, ip_message. rewrite m_data_message_of, app_nil_r.
  assert (Hz : zlen (0x45 :: zeros 19 ++ s) = 20 + zlen s) by (rewrite zlen_cons, zlen_app, zlen_zeros by lia; lia).
  rewrite Hz. split; [done|]. split.
  { apply bytes_cons. split; [unfold is_byte; lia|]. rewrite bytes_app. auto with myip. }
  repeat (split; [done || lia|]). lia.
Qed.

(** ** Properties *)

(** C4: the receive handler is safe and changes nothing but what the segment
    entitles it to.  For every message of the IP layer (any segment bytes, well
    formed or not, in an IPv4 packet of at least 40 bytes) and every table of
    well-formed sessions the handler returns - it neither leaves a buffer nor
    fails an assertion - and all sessions are well-formed afterwards.  It sends
    nothing for a segment that does not parse; for a segment it sends only
    replies without payload to the segment's source and messages about its
    session to an application, of which only one kind carries data, the
    segment's payload.  Other sessions are untouched; the segment's own may be
    acknowledged, closed, or released, and a session appears only if the segment
    acknowledges a valid SYN cookie and an application listens on its port. *)
Theorem tcp_run_in_safe `{Transport W} (out_name : list Z) (mappings_in : gmap Z (list Z)) (salt : list Z)
  (now_us now_s : Z) (m : message) (sessions : gmap Z session_t) (full from to pl pad : list Z) (w : W)
  (Hm : tcp_message m full from to pl pad) (Hmap : mappings_ok mappings_in) (Hss : sessions_wf sessions) :
  exists p sessions' w' l, tcp_parse m = Ret p /\
    tcp_run_in out_name mappings_in salt now_us now_s m sessions w = Ret (sessions', w') /\
    t_log w' = t_log w ++ l /\ sessions_wf sessions' /\
    match p with
    | None => l = [] /\ sessions' = sessions
    | Some k => Forall (is_output out_name k) l /\ in_effect mappings_in salt now_us now_s k sessions sessions'
    end.
Proof.
  destruct (tcp_run_in_aux out_name mappings_in salt now_us now_s m sessions full from to pl pad Hm Hmap Hss)
    as ([k|] & Hp & Hk).
  - destruct Hk as [_ Hk]. destruct (Hk w) as (sessions' & w' & l & Hr & Hl & Hf & He).
    exists (Some k), sessions', w', l. repeat (split; [done|]). split; [by eapply in_effect_wf|done].
  - destruct (Hk w) as (sessions' & w' & l & Hr & Hl & Hf & ->). exists None, sessions, w', l.
    repeat (split; [done|]). split; [|done]. destruct l; [done|]. by apply list.Forall_cons in Hf as [].
Qed.

Definition ex_peer : addr := [10; 0; 0; 9].
Definition ex_me : addr := [10; 0; 0; 1].
Definition ex_web : list Z := str "http".
Definition ex_tcp_maps : gmap Z (list Z) := {[ 80 := ex_web ]}.

(** A segment from port 1234 of [ex_peer] to port 80 of [ex_me]. *)
Definition ex_seg (seq ack flags : Z) (data : list Z) : list Z :=
  match tcp_packet ex_peer ex_me 1234 80 seq ack flags 1000 data with Ret s => s | Fault _ => [] end.

Lemma ex_ip_message (s : list Z) :
  forallb (fun b => (0 <=? b) && (b <? 256)) s && (20 <=? zlen s) && (zlen s <=? 65515) = true ->
  tcp_message (ip_message ex_peer ex_me s) (0x45 :: zeros 19 ++ s) ex_peer ex_me s [].
Proof.
  intros Hs. apply andb_true_iff in Hs as [Hs Hl]. apply andb_true_iff in Hs as [Hs Hl'].
  apply tcp_message_ip; try done; try concrete_bytes; [by apply bytes_bool|lia].
Qed.

Lemma tcp_run_in_safe_witness :
  exists p sessions' w' l,
    tcp_parse (ip_message ex_peer ex_me (ex_seg 7 0 FLAG_SYN [])) = Ret p /\
    tcp_run_in (str "ip4") ex_tcp_maps (repeat 1 16) 5 6 (ip_message ex_peer ex_me (ex_seg 7 0 FLAG_SYN []))
      ∅ oracle_ok = Ret (sessions', w') /\
    t_log w' = t_log oracle_ok ++ l /\ sessions_wf sessions' /\
    match p with
    | None => l = [] /\ sessions' = ∅
    | Some k => Forall (is_output (str "ip4") k) l /\ in_effect ex_tcp_maps (repeat 1 16) 5 6 k ∅ sessions'
    end.
Proof.
  eapply (tcp_run_in_safe (str "ip4") ex_tcp_maps (repeat 1 16) 5 6 _ ∅).
  - apply ex_ip_message. vm_compute. reflexivity.
  - apply map_Forall_singleton. vm_compute. discriminate.
  - apply map_Forall_empty.
Defined.
