(* ===== verification/TcpFlow.v ===== *)
(** * TCP sessions: the receiving side

    What [tcp_run_in] does for the segments of a connection: the handshake
    with SYN cookies, data, and the order in which the application sees it. *)

From S2P Require Import Prelude Net Checksum Str Addr SipHash ShmMessage Transport Ip4In TcpWire TcpData Tcp TcpSafe.

(** ** Specification *)

(** The reply segment to [k] with these fields, as a message for the IP layer. *)
Definition reply_seg (k : tcp_in) (seq ack flags window : Z) : list Z :=
  match tcp_packet (k_a_to k) (k_a_from k) (k_destination_port k) (k_source_port k) seq ack flags window [] with
  | Ret s => s
  | Fault _ => []
  end.

Definition reply_msg (k : tcp_in) (seq ack flags window : Z) : message :=
  seg_message (k_a_to k) (k_a_from k) (reply_seg k seq ack flags window).

(** The message about [k] for the application. *)
Definition notice (k : tcp_in) (flags : Z) (pl : list Z) : message :=
  let data := up_tcp_data (k_session_id k) (k_a_from k) (k_source_port k) (k_a_to k) (k_destination_port k) flags pl in
  fill_message (allocate_shm_message (zlen data)) 0 0 data.

(** A segment of an open connection: ACK set, SYN, RST and FIN not. *)
Definition data_flags (flags : Z) : Prop :=
  has flags FLAG_ACK = true /\ has flags FLAG_SYN = false /\ has flags FLAG_RST = false /\ has flags FLAG_FIN = false.

Section Flow.
Context `{Transport W}.

(** The effect of a data segment on the session [s] (the acknowledgement it
    carries already taken in) and on the world. *)
Definition data_effect (out_name : list Z) (k : tcp_in) (s : session_t) (w : W) : session_t * W :=
  let app := c_str (s_shm_peer s) in
  let ack seq := reply_msg k (s_local_seq s) seq FLAG_ACK (s_local_window_size s) in
  let close w := after_send app (notice k MI_TCP_CLOSE []) w in
  if k_peer_seq_nr k =? s_peer_seq s then
    if zlen (payload k) =? 0 then (s, w)
    else
      let data := notice k (if s_half_closed s then MI_TCP_FIN else 0) (payload k) in
      let next := u32 (s_peer_seq s + zlen (payload k)) in
      let w1 := after_send app data w in
      let w2 := after_send out_name (ack next) w1 in
      if send_ok_b app data w then
        if send_ok_b out_name (ack next) w1 then (set_peer_seq next s, w2) else (s, close w2)
      else (s, w1)
  else
    let w1 := after_send out_name (ack (s_peer_seq s)) w in
    if send_ok_b out_name (ack (s_peer_seq s)) w then (s, w1) else (s, close w1).

(** ** Lemmas *)

Lemma reply_seg_seg k seq ack flags window :
  in_wf k -> tcp_seg (k_a_to k) (k_a_from k) (k_destination_port k) (k_source_port k) seq ack flags window []
               (reply_seg k seq ack flags window).
Proof.
  intros [(_ & _ & Bf & Lf) (_ & _ & Bt & Lt) _ _ _ _ _ _]. unfold reply_seg.
  destruct (tcp_packet_spec (k_a_to k) (k_a_from k) (k_destination_port k) (k_source_port k) seq ack flags window [])
    as (s & -> & Hs & _); (done || constructor).
Qed.

Lemma tcp_reply_eq out_name k seq ack flags window mss w :
  in_wf k -> 0 < mss <= 65515 ->
  tcp_reply out_name k seq ack flags window mss w =
  Ret (if send_ok_b out_name (reply_msg k seq ack flags window) w then 0 else -1,
       after_send out_name (reply_msg k seq ack flags window) w).
Proof.
  intros [(_ & _ & Bf & Lf) (_ & _ & Bt & Lt) _ _ _ _ _ _] Hm. unfold tcp_reply, send_tcp_packet. cbn [Z.to_nat send_tcp_loop].
  replace (Z.min 0 mss) with 0 by lia. change (rdn [] 0 0) with (Ret (@nil Z)). unfold reply_msg, reply_seg, seg_message.
  destruct (tcp_packet_spec (k_a_to k) (k_a_from k) (k_destination_port k) (k_source_port k) seq ack flags window [])
    as (s & Hs & _ & Hl); try done; [constructor|]. change (zlen []) with 0 in Hl.
  erewrite lift_bind by reflexivity. erewrite lift_bind by exact Hs. rewrite Hs. erewrite lift_bind.
  2: { eapply wrap_message_down_gen; [by apply rdn_all|by apply rdn_all|apply rdn_all; lia|done|done|lia]. }
  rewrite send_after by (apply down_message_size; lia). unfold send_ok_b.
  destruct (t_send _ _ _ _) as [[[|] nr] w1]; reflexivity.
Qed.

Lemma tcp_up_eq dst k flags pl_len pl p w :
  in_wf k -> (pl_len = 0 /\ p = [] \/ 0 < pl_len <= 65535 /\ rdn pl 0 pl_len = Ret p /\ zlen p = pl_len) ->
  tcp_up dst k flags pl_len pl w = Ret (send_ok_b dst (notice k flags p) w, after_send dst (notice k flags p) w).
Proof.
  intros K Hpl. unfold tcp_up. pose proof K as [(F1 & F2 & F3 & F4) (T1 & T2 & T3 & T4) _ _ _ _ _ _].
  assert (Hz : zlen p = pl_len) by (destruct Hpl as [[-> ->]|?]; [done|tauto]).
  assert (Hr : (if pl_len =? 0 then Ret [] else rdn pl 0 pl_len) = Ret p).
  { destruct Hpl as [[-> ->]|(? & Hr & _)]; [done|]. by replace (pl_len =? 0) with false by lia. }
  erewrite lift_bind; [|unfold wrap_message_up_tcp; rewrite F1, F2, T1, T2; mcbn; rewrite Hr; mcbn; reflexivity].
  match goal with |- context [fill_message (allocate_shm_message (zlen ?d)) 0 0 ?e] =>
    replace d with (up_tcp_data (k_session_id k) (k_a_from k) (k_source_port k) (k_a_to k) (k_destination_port k) flags p)
      by (unfold up_tcp_data; by rewrite F4, T4, Hz)
  end.
  rewrite send_after; [reflexivity|]. apply up_tcp_message_size; (done || lia).
Qed.

Lemma payload_read k : in_wf k -> rdn (padd (k_pl k) (k_header_size k)) 0 (k_tcp_pl_size k) = Ret (payload k).
Proof.
  intros K. pose proof (kw_size k K) as (Hh & Hn & Hp). unfold payload, padd.
  rewrite rdn_ok by (rewrite ?zlen_drop; lia). unfold sub. by rewrite drop_drop, Nat.add_0_r.
Qed.

Lemma zlen_payload k : in_wf k -> zlen (payload k) = k_tcp_pl_size k.
Proof. intros K. pose proof (kw_size k K) as (Hh & Hn & Hp). apply zlen_sub; lia. Qed.

Lemma tcp_in_ack_peer ack s s1 :
  tcp_in_ack ack s = Ret s1 ->
  s_peer_seq s1 = s_peer_seq s /\ s_shm_peer s1 = s_shm_peer s /\ s_half_closed s1 = s_half_closed s /\
  s_state s1 = s_state s /\ s_local_window_size s1 = s_local_window_size s.
Proof.
  unfold tcp_in_ack. intros Ha. destruct (_ >=? _); [|by injection Ha as <-].
  destruct (_ =? _); [by apply bind_Ret_inv in Ha as (d & _ & [= <-])|].
  destruct (_ <? _); [by apply bind_Ret_inv in Ha as (d & _ & [= <-])|by injection Ha as <-].
Qed.

Lemma tcp_data_segment_aux out_name mappings_in salt now_us now_s m k sessions s s1 w :
  tcp_parse m = Ret (Some k) -> in_wf k -> data_flags (k_flags k) ->
  sessions !! k_session_id k = Some s -> s_state s <> closed ->
  tcp_in_ack (k_ack_seq_nr k) (touch now_us (k_window_size k) s) = Ret s1 -> session_wf s1 ->
  tcp_run_in out_name mappings_in salt now_us now_s m sessions w =
  Ret (let '(s2, w2) := data_effect out_name k s1 w in (<[k_session_id k := s2]> sessions, w2)).
Proof.
  intros Hp K (F1 & F2 & F3 & F4) Hs Hst Ha Hw. unfold tcp_run_in. erewrite lift_bind by exact Hp.
  cbv beta iota zeta. rewrite Hs. cbn [fmap option_fmap option_map]. unfold tcp_in_flags. cbn [ctl_init c_session].
  rewrite bool_decide_false by done. rewrite F1, F2, F3.
  rewrite (prog_bind_step _ _ w (FNext, ctl_session s1 (ctl_init (Some (touch now_us (k_window_size k) s))), sessions) w)
    by (unfold mbind, prog_bind, lift; by rewrite Ha).
  unfold tcp_in_finish, tcp_in_deliver. cbn [ctl_init ctl_session c_session c_invalid].
  assert (Hend : forall c w', c_session c <> None -> c_invalid c = false ->
    (c ← tcp_in_fin out_name k c; c ← tcp_in_clean out_name k c; mret (store_session (k_session_id k) c sessions)) w' =
    match c_session c with
    | Some s' => if c_clean_session c
                 then Ret (<[k_session_id k := s']> sessions, after_send (c_str (s_shm_peer s')) (notice k MI_TCP_CLOSE []) w')
                 else Ret (<[k_session_id k := s']> sessions, w')
    | None => Fault Diverges
    end).
  { intros c w' Hc Hi. destruct (c_session c) as [s'|] eqn:Es; [|done]. unfold tcp_in_fin. rewrite Es, F4.
    unfold mbind at 1, prog_bind at 1. cbn [mret prog_ret]. unfold tcp_in_clean. rewrite Hi. cbn [orb andb].
    destruct (c_clean_session c); cbn [negb].
    - unfold mbind, prog_bind. cbn [mret prog_ret]. rewrite Es.
      rewrite (tcp_up_eq _ k MI_TCP_CLOSE 0 [] []) by (done || by left). rewrite Hi. done.
    - unfold mbind, prog_bind. cbn [mret prog_ret]. unfold store_session. by rewrite Es. }
  unfold data_effect. rewrite (zlen_payload k K). pose proof (mss_sendable s1 Hw) as Hm. pose proof (kw_size k K) as (_ & Hn & _).
  destruct (k_peer_seq_nr k =? s_peer_seq s1).
  - destruct (Z.gtb_spec (k_tcp_pl_size k) 0).
    + replace (k_tcp_pl_size k =? 0) with false by lia. rewrite F1. cbn [negb orb].
      unfold mbind at 1, prog_bind at 1. unfold mbind at 1, prog_bind at 1.
      rewrite (tcp_up_eq _ k _ _ _ (payload k)) by (done || (right; split; [lia|split; [by apply payload_read|by apply zlen_payload]])).
      destruct (send_ok_b (c_str (s_shm_peer s1)) _ w).
      * unfold mbind at 1, prog_bind at 1. rewrite tcp_reply_eq by done.
        destruct (send_ok_b out_name _ _); cbn [Z.eqb mret prog_ret]; (rewrite Hend by done; done).
      * cbn [mret prog_ret]. rewrite Hend by done. done.
    + replace (k_tcp_pl_size k =? 0) with true by lia. rewrite F1. cbn [negb orb].
      unfold mbind at 1, prog_bind at 1. unfold mbind at 1, prog_bind at 1. cbn [mret prog_ret].
      rewrite Hend by done. done.
  - unfold mbind at 1, prog_bind at 1. unfold mbind at 1, prog_bind at 1. rewrite tcp_reply_eq by done.
    destruct (send_ok_b out_name _ _); cbn [Z.eqb mret prog_ret]; (rewrite Hend by done; done).
Qed.

(** *** The handshake *)

(** A SYN and nothing else that matters. *)
Definition syn_flags (flags : Z) : Prop :=
  has flags FLAG_SYN = true /\ has flags FLAG_RST = false /\
  has flags (Z.lor (Z.lor (Z.lor (Z.lor FLAG_FIN FLAG_RST) FLAG_PSH) FLAG_URG) FLAG_ACK) = false.

Lemma flags_fin flags : has flags (Z.lor (Z.lor (Z.lor (Z.lor FLAG_FIN FLAG_RST) FLAG_PSH) FLAG_URG) FLAG_ACK) = false ->
  has flags FLAG_FIN = false.
Proof.
  unfold has. rewrite !negb_false_iff, !Z.eqb_eq. intros Hl. apply Z.bits_inj'. intros i Hi. apply (f_equal (fun z => Z.testbit z i)) in Hl.
  rewrite !Z.land_spec, !Z.lor_spec, Z.bits_0 in *. destruct (Z.testbit flags i), (Z.testbit FLAG_FIN i); try done.
Qed.

Definition SYN_ACK : Z := Z.lor FLAG_SYN FLAG_ACK.

(** The SYN/ACK for [k] with this cookie. *)
Definition syn_ack (k : tcp_in) (cookie : Z) : message :=
  reply_msg k cookie (u32 (k_peer_seq_nr k + 1)) SYN_ACK INITIAL_LOCAL_WINDOW_SIZE.

Lemma tcp_syn_aux out_name mappings_in salt now_us now_s m k sessions upper cookie w :
  tcp_parse m = Ret (Some k) -> in_wf k -> syn_flags (k_flags k) ->
  sessions !! k_session_id k = None -> mappings_in !! k_destination_port k = Some upper ->
  my_syn_cookie (k_session_id k) salt (k_mss_index k) now_s = Ret cookie ->
  tcp_run_in out_name mappings_in salt now_us now_s m sessions w =
  Ret (sessions, after_send out_name (syn_ack k cookie) w).
Proof.
  intros Hp K (F1 & F2 & F3) Hs Hm Hck. unfold tcp_run_in. erewrite lift_bind by exact Hp. cbv beta iota zeta.
  rewrite Hs. cbn [fmap option_fmap option_map]. unfold tcp_in_flags. cbn [ctl_init c_session]. rewrite F1, F2.
  unfold tcp_in_syn. cbn [ctl_init ctl_inc_ack c_session]. rewrite Hm, F3.
  assert (Hcookie : send_syn_cookie out_name (k_session_id k) salt (k_mss_index k) (k_a_from k) (k_source_port k)
    (k_a_to k) (k_destination_port k) (k_peer_seq_nr k) now_s w = Ret (tt, after_send out_name (syn_ack k cookie) w)).
  { unfold send_syn_cookie. erewrite lift_bind by exact Hck. erewrite prog_bind_step; [reflexivity|].
    apply (tcp_reply_eq out_name k cookie); [done|unfold MI_IP4_MIN_TCP_MTU; lia]. }
  unfold mbind at 1, prog_bind at 1. unfold mbind at 1, prog_bind at 1. rewrite Hcookie. cbn [mret prog_ret].
  unfold tcp_in_finish, tcp_in_deliver, tcp_in_fin, tcp_in_clean. cbn. unfold mbind, prog_bind. cbn. done.
Qed.

(** ... to a port nobody listens on. *)
Lemma tcp_refuse_aux out_name mappings_in salt now_us now_s m k sessions w :
  tcp_parse m = Ret (Some k) -> in_wf k -> has (k_flags k) FLAG_SYN = true -> has (k_flags k) FLAG_RST = false ->
  sessions !! k_session_id k = None -> mappings_in !! k_destination_port k = None ->
  tcp_run_in out_name mappings_in salt now_us now_s m sessions w =
  Ret (sessions, after_send out_name (reply_msg k 0 0 FLAG_RST (k_window_size k)) w).
Proof.
  intros Hp K F1 F2 Hs Hm. unfold tcp_run_in. erewrite lift_bind by exact Hp. cbv beta iota zeta.
  rewrite Hs. cbn [fmap option_fmap option_map]. unfold tcp_in_flags. cbn [ctl_init c_session]. rewrite F1, F2.
  unfold tcp_in_syn. cbn [ctl_init ctl_inc_ack c_session]. rewrite Hm, F2. cbn [negb].
  unfold tcp_in_finish, tcp_in_deliver, tcp_in_fin, tcp_in_clean, mbind, prog_bind.
  cbn [mret prog_ret ctl_invalid ctl_inc_ack ctl_init c_session c_invalid c_invalid_w_rst c_invalid_inc_ack c_clean_session orb andb negb].
  rewrite tcp_reply_eq by (done || (unfold MI_IP4_MIN_TCP_MTU; lia)). done.
Qed.

(** ... on a connection there is a session of: one that is closed or a client's own is reset, and the application told to close; one that is
    not established yet gets another cookie; one that is established hears nothing, or, when both sides have closed, is removed. *)
Definition forget (s : session_t) : session_t :=
  set_l7_to_tcp (tcp_data_forget_all (s_l7_to_tcp s)) (set_tcp_to_l7 (tcp_data_forget_all (s_tcp_to_l7 s)) s).

Definition reset_for_syn (k : tcp_in) (s : session_t) : message :=
  reply_msg k (s_local_seq s) (u32 (k_peer_seq_nr k + if bool_decide (s_state s = closed) then 0 else 1)) FLAG_RST (k_window_size k).

Lemma flags_ack flags : has flags (Z.lor (Z.lor (Z.lor (Z.lor FLAG_FIN FLAG_RST) FLAG_PSH) FLAG_URG) FLAG_ACK) = false ->
  has flags FLAG_ACK = false.
Proof.
  unfold has. rewrite !negb_false_iff, !Z.eqb_eq. intros Hl. apply Z.bits_inj'. intros i Hi. apply (f_equal (fun z => Z.testbit z i)) in Hl.
  rewrite !Z.land_spec, !Z.lor_spec, Z.bits_0 in *. destruct (Z.testbit flags i), (Z.testbit FLAG_ACK i); try done. by rewrite orb_true_r in Hl.
Qed.

Lemma clean_reset out_name k s inc o w : in_wf k ->
  tcp_in_clean out_name k {| c_session := Some s; c_invalid := true; c_invalid_w_rst := true; c_invalid_inc_ack := inc; c_clean_session := false; c_acked_packet := o |} w =
  Ret ({| c_session := Some (forget (set_state closed s)); c_invalid := true; c_invalid_w_rst := true; c_invalid_inc_ack := inc; c_clean_session := false; c_acked_packet := o |},
    after_send (c_str (s_shm_peer s)) (notice k MI_TCP_CLOSE [])
      (after_send out_name (reply_msg k (s_local_seq s) (u32 (k_peer_seq_nr k + if inc then 1 else 0)) FLAG_RST (k_window_size k)) w)).
Proof.
  intros K. unfold tcp_in_clean. cbn [c_invalid c_clean_session c_invalid_w_rst c_session c_invalid_inc_ack orb andb negb].
  unfold mbind at 1, prog_bind at 1. unfold mbind at 1, prog_bind at 1. rewrite tcp_reply_eq by (done || (unfold MI_IP4_MIN_TCP_MTU; lia)).
  cbn [mret prog_ret ctl_session c_session c_invalid]. fold (forget (set_state closed s)). unfold mbind, prog_bind.
  change (s_shm_peer (forget (set_state closed s))) with (s_shm_peer s). by rewrite (tcp_up_eq _ k MI_TCP_CLOSE 0 [] []) by (done || by left).
Qed.

Lemma tcp_syn_known_aux out_name mappings_in salt now_us now_s m k sessions s cookie w :
  tcp_parse m = Ret (Some k) -> in_wf k -> syn_flags (k_flags k) -> sessions !! k_session_id k = Some s ->
  my_syn_cookie (k_session_id k) salt (k_mss_index k) now_s = Ret cookie ->
  let s' := touch now_us (k_window_size k) s in
  tcp_run_in out_name mappings_in salt now_us now_s m sessions w =
  Ret (if bool_decide (s_state s = closed) || s_is_client s then
         (<[k_session_id k := forget (set_state closed s')]> sessions,
          after_send (c_str (s_shm_peer s)) (notice k MI_TCP_CLOSE []) (after_send out_name (reset_for_syn k s) w))
       else if bool_decide (s_state s = established) then
         (if s_fin_sent s && s_half_closed s then delete (k_session_id k) sessions else <[k_session_id k := s']> sessions, w)
       else (<[k_session_id k := s']> sessions, after_send out_name (syn_ack k cookie) w)).
Proof.
  intros Hp K (F1 & F2 & F3) Hs Hck s'. unfold tcp_run_in. erewrite lift_bind by exact Hp. cbv beta iota zeta.
  rewrite Hs. cbn [fmap option_fmap option_map]. fold s'. unfold tcp_in_flags. cbn [ctl_init c_session]. unfold reset_for_syn.
  change (s_state s') with (s_state s). destruct (bool_decide (s_state s = closed)) eqn:Ecl; cbn [orb].
  { unfold mbind, prog_bind. cbn [mret prog_ret tcp_in_finish]. unfold mbind, prog_bind. unfold ctl_invalid, ctl_init.
    cbn [c_session c_invalid_inc_ack c_clean_session c_acked_packet]. by rewrite clean_reset. }
  rewrite F1, F2. unfold tcp_in_syn. cbn [ctl_init ctl_inc_ack c_session]. change (s_is_client s') with (s_is_client s).
  destruct (s_is_client s).
  { rewrite (flags_ack _ F3). cbn [negb]. unfold mbind, prog_bind. cbn [mret prog_ret tcp_in_finish]. unfold mbind, prog_bind.
    unfold tcp_in_deliver, tcp_in_fin. cbn [ctl_invalid c_session c_invalid mret prog_ret]. rewrite (flags_fin _ F3). cbn [mret prog_ret].
    cbn [ctl_init ctl_inc_ack ctl_invalid c_session c_invalid c_invalid_w_rst c_invalid_inc_ack c_clean_session c_acked_packet mret prog_ret].
    unfold ctl_invalid, ctl_inc_ack, ctl_init. cbn [c_session c_invalid_inc_ack c_clean_session c_acked_packet].
    by rewrite clean_reset. }
  change (s_state s') with (s_state s). change (s_fin_sent s') with (s_fin_sent s). change (s_half_closed s') with (s_half_closed s).
  destruct (bool_decide (s_state s = established)); cbn [negb].
  - unfold mbind, prog_bind. destruct (s_fin_sent s), (s_half_closed s); done.
  - assert (Hcookie : send_syn_cookie out_name (k_session_id k) salt (k_mss_index k) (k_a_from k) (k_source_port k)
      (k_a_to k) (k_destination_port k) (k_peer_seq_nr k) now_s w = Ret (tt, after_send out_name (syn_ack k cookie) w)).
    { unfold send_syn_cookie. erewrite lift_bind by exact Hck. erewrite prog_bind_step; [reflexivity|].
      apply (tcp_reply_eq out_name k cookie); [done|unfold MI_IP4_MIN_TCP_MTU; lia]. }
    unfold mbind, prog_bind. rewrite Hcookie. done.
Qed.

(** The session a server starts with. *)
Definition server_session (k : tcp_in) (shm_peer : list Z) (mss : Z) : session_t :=
  {| s_updated_ts := 0; s_is_client := false; s_shm_peer := shm_peer; s_state := established;
     s_start_local_seq := 0; s_start_peer_seq := 0; s_mss := mss; s_local_seq := k_ack_seq_nr k;
     s_peer_seq := k_peer_seq_nr k; s_local_window_size := INITIAL_LOCAL_WINDOW_SIZE; s_peer_window_size := 0;
     s_local_addr := k_a_to k; s_local_port := k_destination_port k; s_peer_addr := k_a_from k;
     s_peer_port := k_source_port k; s_half_closed := false; s_tcp_to_l7 := tcp_data_init;
     s_l7_to_tcp := tcp_data_init; s_l7_send_fin := false; s_fin_sent := false; s_in_flight := 0 |}.

Lemma my_syn_cookie_same sid salt idx now now' :
  Z.shiftr now 6 = Z.shiftr now' 6 -> my_syn_cookie sid salt idx now = my_syn_cookie sid salt idx now'.
Proof. intros E. unfold my_syn_cookie. by rewrite E. Qed.

Lemma u32_pred_succ z : is_u 32 z -> u32 (u32 (z + 1) - 1) = z.
Proof. intros Hz. rewrite wrap_sub_l. replace (z + 1 - 1) with z by lia. by apply wrap_small. Qed.

Lemma run_open_step out_name mappings_in salt now_us now_s m k sessions :
  tcp_parse m = Ret (Some k) -> data_flags (k_flags k) -> sessions !! k_session_id k = None ->
  tcp_run_in out_name mappings_in salt now_us now_s m sessions =
  fun w => (r ← tcp_in_open out_name mappings_in salt now_s k (ctl_init None) sessions; tcp_in_finish out_name k r) w.
Proof.
  intros Hp (F1 & F2 & F3 & F4) Hs. unfold tcp_run_in, lift, mbind, prog_bind. rewrite Hp. cbv beta iota zeta.
  rewrite Hs. cbn [fmap option_fmap option_map]. unfold tcp_in_flags. cbn [ctl_init c_session]. rewrite F1, F2, F3, F4. done.
Qed.

Lemma tcp_open_aux out_name mappings_in salt now_us now_s m k sessions upper w :
  tcp_parse m = Ret (Some k) -> in_wf k -> data_flags (k_flags k) -> payload k = [] ->
  sessions !! k_session_id k = None -> mappings_in !! k_destination_port k = Some upper -> zlen upper <= max_id_length ->
  let cookie := u32 (k_ack_seq_nr k - 1) in
  my_syn_cookie (k_session_id k) salt (Z.land cookie 7) now_s = Ret cookie ->
  send_ok_b upper (notice k MI_TCP_OPEN []) w = true ->
  exists mss, mss_ranges !! Z.to_nat (Z.land cookie 7) = Some mss /\
  tcp_run_in out_name mappings_in salt now_us now_s m sessions w =
  Ret (<[k_session_id k := server_session k (splice (zeros max_id_length) 0 upper) mss]> sessions,
       after_send upper (notice k MI_TCP_OPEN []) w).
Proof.
  intros Hp K Hf Hpl Hs Hm Hl cookie Hck Hok. rewrite (run_open_step _ _ _ _ _ _ _ _ Hp Hf Hs).
  pose proof (land7_range cookie) as H7.
  destruct (rd_in mss_ranges (Z.land cookie 7)) as (mss & Lmss & Rmss); [change (zlen mss_ranges) with 8; lia|].
  exists mss. split; [done|]. destruct Hf as (F1 & F2 & F3 & F4).
  assert (Hpeer : set_shm_peer upper = Ret (splice (zeros max_id_length) 0 upper)).
  { unfold set_shm_peer. apply wr_ok; [lia|]. rewrite zlen_zeros by (unfold max_id_length; lia). done. }
  unfold tcp_in_open. fold cookie. unfold lift, mbind, prog_bind. rewrite Hck, Z.eqb_refl. cbn [negb]. rewrite Hm.
  rewrite (tcp_up_eq _ k _ 0 [] []) by (done || by left). rewrite Hok, Rmss, Hpeer, Hs, lookup_insert_eq.
  cbn [mret prog_ret]. unfold tcp_in_finish, tcp_in_deliver. cbn [ctl_session ctl_init c_session c_invalid].
  pose proof (zlen_payload k K) as Hz. rewrite Hpl in Hz. change (zlen []) with 0 in Hz. rewrite <- Hz. cbn [Z.gtb Z.compare].
  rewrite F1. cbn [negb orb]. unfold mbind, prog_bind. cbn [s_peer_seq s_half_closed s_shm_peer]. rewrite Z.eqb_refl. cbn [mret prog_ret].
  unfold tcp_in_fin, tcp_in_clean, mbind, prog_bind. cbn [ctl_session ctl_init c_session c_invalid c_clean_session orb negb].
  rewrite F4. cbn. by rewrite insert_insert_eq.
Qed.

(** A wrong cookie is answered with a reset. *)
Lemma tcp_bad_cookie_aux out_name mappings_in salt now_us now_s m k sessions w cookie :
  tcp_parse m = Ret (Some k) -> in_wf k -> data_flags (k_flags k) -> sessions !! k_session_id k = None ->
  my_syn_cookie (k_session_id k) salt (Z.land (u32 (k_ack_seq_nr k - 1)) 7) now_s = Ret cookie ->
  cookie <> u32 (k_ack_seq_nr k - 1) ->
  tcp_run_in out_name mappings_in salt now_us now_s m sessions w =
  Ret (sessions, after_send out_name
    (reply_msg k (u32 (cookie + 1)) (k_peer_seq_nr k) FLAG_RST (k_window_size k)) w).
Proof.
  intros Hp K Hf Hs Hck Hne. rewrite (run_open_step _ _ _ _ _ _ _ _ Hp Hf Hs). destruct Hf as (F1 & F2 & F3 & F4).
  unfold tcp_in_open, lift, mbind, prog_bind. rewrite Hck. replace (cookie =? _) with false by lia. cbn [negb].
  rewrite tcp_reply_eq by (done || (unfold MI_IP4_MIN_TCP_MTU; lia)). cbn [mret prog_ret].
  unfold tcp_in_finish, tcp_in_deliver, tcp_in_fin, tcp_in_clean, mbind, prog_bind. done.
Qed.

End Flow.

(** *** The order of the data *)

(** The bytes a message to an application carries behind its header. *)
Definition app_data (x : sent) : list Z := if sent_type x =? 0 then drop 52 (sent_data x) else [].
Definition app_bytes (l : list sent) : list Z := concat (map app_data l).

(** A message to the application, if it is one, tells of data of the session [sid]. *)
Definition about_session (sid : Z) (x : sent) : Prop :=
  sent_type x = 0 -> exists k flags, in_wf k /\ k_session_id k = sid /\ (flags = 0 \/ flags = MI_TCP_FIN) /\
    sent_data x = m_data (notice k flags (payload k)).

(** The segment carries the bytes of the peer's stream that its sequence number says. *)
Definition carries (irs : Z) (stream : list Z) (k : tcp_in) : Prop :=
  exists off, 0 <= off /\ off + zlen (payload k) <= zlen stream /\
    k_peer_seq_nr k = u32 (irs + off) /\ payload k = sub stream off (zlen (payload k)).

Definition is_segment (m : message) (k : tcp_in) : Prop :=
  (exists full from to pl pad, tcp_message m full from to pl pad) /\ tcp_parse m = Ret (Some k).

Lemma is_segment_wf m k : is_segment m k -> in_wf k.
Proof.
  intros [(full & from & to & pl & pad & Hm) Hp]. destruct (tcp_parse_wf _ _ _ _ _ _ Hm) as (p & Hp' & Hk).
  rewrite Hp in Hp'. injection Hp' as <-. apply Hk.
Qed.

Lemma app_data_notice dst k flags pl : in_wf k -> app_data (sent_of dst (notice k flags pl)) = pl.
Proof.
  intros [(_ & _ & _ & Lf) (_ & _ & _ & Lt) _ _ _ _ _ _]. unfold app_data. cbn [sent_of notice fill_message m_type sent_type sent_data m_data Z.eqb].
  unfold up_tcp_data. rewrite !app_assoc. apply drop_app_length'. rewrite <- !app_assoc. unfold sz.
  rewrite !length_app, !length_le_bytes. unfold zlen in *. lia.
Qed.

Lemma app_data_reply dst k seq ack flags window : app_data (sent_of dst (reply_msg k seq ack flags window)) = [].
Proof. done. Qed.

Lemma u32_offsets irs a b n :
  0 <= a <= n -> 0 <= b <= n -> n < 2 ^ 32 -> u32 (irs + a) = u32 (irs + b) -> a = b.
Proof.
  intros Ha Hb Hn E. unfold wrap in E. 
  assert ((a - b) mod 2 ^ 32 = 0) as Hz.
  { replace (a - b) with ((irs + a) - (irs + b)) by lia. rewrite Zminus_mod, E, Z.sub_diag. done. }
  apply Z.mod_divide in Hz as [q Hq]; [|lia]. nia.
Qed.

Lemma sub_join (l : list Z) a d e : 0 <= a -> 0 <= d -> 0 <= e -> sub l a d ++ sub l (a + d) e = sub l a (d + e).
Proof.
  intros Ha Hd He. unfold sub. replace (Z.to_nat (a + d)) with (Z.to_nat a + Z.to_nat d)%nat by lia. rewrite <- drop_drop, take_take_drop. f_equal. lia.
Qed.

Section Order.
Context `{Transport W}.

(** The segments of a connection, one after the other, each with its time of arrival. *)
Fixpoint run_segments (out_name : list Z) (mappings_in : gmap Z (list Z)) (salt : list Z) (now_s : Z)
  (ms : list (Z * message)) (sessions : gmap Z session_t) : prog W (gmap Z session_t) :=
  match ms with
  | [] => mret sessions
  | (now_us, m) :: rest =>
    sessions ← tcp_run_in out_name mappings_in salt now_us now_s m sessions;
    run_segments out_name mappings_in salt now_s rest sessions
  end.

(** ACK is set, SYN and RST are not; FIN may be. *)
Definition ack_flags (flags : Z) : Prop :=
  has flags FLAG_ACK = true /\ has flags FLAG_SYN = false /\ has flags FLAG_RST = false.

(** The session [s] takes the data of [k]: they are the next ones, and the application accepts them. *)
Definition accepts (k : tcp_in) (s : session_t) (w : W) : bool :=
  (k_peer_seq_nr k =? s_peer_seq s) && negb (zlen (payload k) =? 0)
  && send_ok_b (c_str (s_shm_peer s)) (notice k (if s_half_closed s then MI_TCP_FIN else 0) (payload k)) w.

(** The session after a FIN. *)
Definition half_close (s : session_t) : session_t :=
  if s_half_closed s then s else set_half_closed true (set_peer_seq (u32 (s_peer_seq s + 1)) s).

Definition take_data (k : tcp_in) (s : session_t) (w : W) : session_t :=
  if accepts k s w then set_peer_seq (u32 (s_peer_seq s + zlen (payload k))) s else s.

(** What is sent for the data of [k], and for its FIN. *)
Definition data_sent (out_name : list Z) (k : tcp_in) (s : session_t) (w : W) : W :=
  let app := c_str (s_shm_peer s) in
  let ack seq := reply_msg k (s_local_seq s) seq FLAG_ACK (s_local_window_size s) in
  if k_peer_seq_nr k =? s_peer_seq s then
    if zlen (payload k) =? 0 then w
    else
      let w1 := after_send app (notice k (if s_half_closed s then MI_TCP_FIN else 0) (payload k)) w in
      if accepts k s w then after_send out_name (ack (u32 (s_peer_seq s + zlen (payload k)))) w1 else w1
  else after_send out_name (ack (s_peer_seq s)) w.

Definition fin_sent (out_name : list Z) (k : tcp_in) (s : session_t) (w : W) : W :=
  after_send out_name (reply_msg k (s_local_seq s) (u32 (s_peer_seq s + zlen (payload k))) FLAG_ACK (s_local_window_size s)) w.

(** The IP server accepts every segment. *)
Section Accepted.
Context (out_name : list Z) (Hok : forall m w, send_ok_b out_name m w = true).

Lemma reply_ok k seq ack flags window mss w : in_wf k -> 0 < mss <= 65515 ->
  tcp_reply out_name k seq ack flags window mss w = Ret (0, after_send out_name (reply_msg k seq ack flags window) w).
Proof. intros K Hm. by rewrite tcp_reply_eq, Hok. Qed.

Lemma deliver_ok k s o w : in_wf k -> session_wf s -> has (k_flags k) FLAG_ACK = true ->
  tcp_in_deliver out_name k (ctl_session s (ctl_init o)) w =
  Ret ((if accepts k s w then ctl_acked else fun c => c) (ctl_session (take_data k s w) (ctl_init o)), data_sent out_name k s w).
Proof.
  intros K Hw F1. unfold tcp_in_deliver, take_data, data_sent, accepts. cbn [ctl_session ctl_init c_session c_invalid].
  rewrite (zlen_payload k K), F1. pose proof (mss_sendable s Hw) as Hm. pose proof (kw_size k K) as (_ & Hn & _). cbn [negb orb].
  destruct (k_peer_seq_nr k =? s_peer_seq s); cbn [andb].
  - destruct (Z.gtb_spec (k_tcp_pl_size k) 0).
    + replace (k_tcp_pl_size k =? 0) with false by lia. cbn [negb andb]. unfold mbind at 1, prog_bind at 1.
      rewrite (tcp_up_eq _ k _ _ _ (payload k)) by (done || (right; split; [lia|split; [by apply payload_read|by apply zlen_payload]])).
      destruct (send_ok_b (c_str (s_shm_peer s)) _ w); [|done]. unfold mbind at 1, prog_bind at 1. rewrite reply_ok by done. done.
    + replace (k_tcp_pl_size k =? 0) with true by lia. cbn [negb andb]. unfold mbind, prog_bind. done.
  - unfold mbind, prog_bind. rewrite reply_ok by done. done.
Qed.

Lemma tcp_ack_segment_aux mappings_in salt now_us now_s m k sessions s s1 w :
  tcp_parse m = Ret (Some k) -> in_wf k -> ack_flags (k_flags k) ->
  sessions !! k_session_id k = Some s -> s_state s <> closed ->
  tcp_in_ack (k_ack_seq_nr k) (touch now_us (k_window_size k) s) = Ret s1 -> session_wf s1 ->
  tcp_run_in out_name mappings_in salt now_us now_s m sessions w =
  let w2 := data_sent out_name k s1 w in let s2 := take_data k s1 w in
  Ret (if has (k_flags k) FLAG_FIN
       then (<[k_session_id k := half_close s2]> sessions, if accepts k s1 w then w2 else fin_sent out_name k (half_close s2) w2)
       else (<[k_session_id k := s2]> sessions, w2)).
Proof.
  intros Hp K (F1 & F2 & F3) Hs Hst Ha Hw. unfold tcp_run_in. erewrite lift_bind by exact Hp.
  cbv beta iota zeta. rewrite Hs. cbn [fmap option_fmap option_map]. unfold tcp_in_flags. cbn [ctl_init c_session].
  rewrite bool_decide_false by done. rewrite F1, F2, F3.
  rewrite (prog_bind_step _ _ w (FNext, ctl_session s1 (ctl_init (Some (touch now_us (k_window_size k) s))), sessions) w)
    by (unfold mbind, prog_bind, lift; by rewrite Ha).
  unfold tcp_in_finish. erewrite prog_bind_step by (by apply deliver_ok).
  assert (Hm : 0 < s_mss (take_data k s1 w) <= 65515) by (unfold take_data; destruct (accepts k s1 w); exact (mss_sendable s1 Hw)).
  set (s2 := take_data k s1 w) in *. set (w2 := data_sent out_name k s1 w).
  assert (Hm3 : 0 < s_mss (half_close s2) <= 65515) by (unfold half_close; by destruct (s_half_closed s2)).
  unfold tcp_in_fin. replace (c_session _) with (Some s2) by (by destruct (accepts k s1 w)). change (if s_half_closed s2 then s2 else _) with (half_close s2).
  destruct (has (k_flags k) FLAG_FIN).
  - destruct (accepts k s1 w); [done|]. cbn [ctl_session ctl_init c_acked_packet]. unfold mbind at 1, prog_bind at 1. unfold mbind at 1, prog_bind at 1.
    rewrite reply_ok by done. cbn [mret prog_ret]. unfold fin_sent. by rewrite (zlen_payload k K).
  - unfold mbind, prog_bind. by destruct (accepts k s1 w).
Qed.


Lemma reply_log k dst seq ack flags window w : send_ok_b dst (reply_msg k seq ack flags window) w = true ->
  exists x, t_log (after_send dst (reply_msg k seq ack flags window) w) = t_log w ++ [x] /\ about_session (k_session_id k) x /\ app_data x = [].
Proof. intros E. rewrite after_send_log, E. eexists. split; [done|]. split; [done|apply app_data_reply]. Qed.

Lemma data_sent_log k s w : in_wf k ->
  exists l, t_log (data_sent out_name k s w) = t_log w ++ l /\ Forall (about_session (k_session_id k)) l /\
    app_bytes l = if accepts k s w then payload k else [].
Proof.
  intros K. unfold data_sent, accepts. destruct (k_peer_seq_nr k =? s_peer_seq s); cbn [andb].
  - destruct (zlen (payload k) =? 0); cbn [negb andb]; [exists []; by rewrite app_nil_r|].
    destruct (send_ok_b (c_str (s_shm_peer s)) _ w) eqn:E.
    + destruct (reply_log k out_name (s_local_seq s) (u32 (s_peer_seq s + zlen (payload k))) FLAG_ACK (s_local_window_size s)
        (after_send (c_str (s_shm_peer s)) (notice k (if s_half_closed s then MI_TCP_FIN else 0) (payload k)) w) (Hok _ _)) as (x & -> & Hx & Hd).
      rewrite after_send_log, E, <- app_assoc. eexists. split; [done|]. split.
      * constructor; [|by constructor]. intros _. eexists k, _. split; [done|]. split; [done|]. split; [|done]. destruct (s_half_closed s); auto.
      * unfold app_bytes. cbn [map app concat]. rewrite app_data_notice, Hd by done. by rewrite app_nil_r.
    + rewrite after_send_log, E. by exists [].
  - destruct (reply_log k out_name (s_local_seq s) (s_peer_seq s) FLAG_ACK (s_local_window_size s) w (Hok _ _)) as (x & -> & Hx & Hd).
    exists [x]. split; [done|]. split; [by constructor|]. unfold app_bytes. cbn [map concat]. by rewrite Hd.
Qed.

(** The segment is one of the connection and carries bytes of the peer's stream, if any. *)
Definition stream_segment (sid irs : Z) (stream : list Z) (m : message) (k : tcp_in) : Prop :=
  is_segment m k /\ k_session_id k = sid /\ ack_flags (k_flags k) /\ (payload k = [] \/ carries irs stream k).

(** The last number that belongs to what the peer said: a FIN has one. *)
Definition stream_end (stream : list Z) (s : session_t) : Z := zlen stream + if s_half_closed s then 1 else 0.

(** The data of a segment that the session takes are the next of the stream. *)
Lemma taken_data irs stream k s n w : zlen stream + 1 < 2 ^ 32 -> payload k = [] \/ carries irs stream k ->
  0 <= n <= stream_end stream s -> s_peer_seq s = u32 (irs + n) -> accepts k s w = true ->
  n + zlen (payload k) <= zlen stream /\ payload k = sub stream n (zlen (payload k)).
Proof.
  intros Hl Hc Hn Hseq Ha. unfold accepts in Ha. apply andb_true_iff in Ha as [[Hk Hz]%andb_true_iff _]. apply negb_true_iff in Hz.
  destruct Hc as [Hc|(off & Ho & Hb & Hs & Hp)]; [rewrite Hc in Hz; done|]. unfold stream_end in Hn.
  pose proof (zlen_nonneg (payload k)). assert (off = n) as ->; [|split; [lia|exact Hp]].
  apply Z.eqb_eq in Hk. destruct (s_half_closed s); (eapply (u32_offsets irs off n (zlen stream + 1)); try lia; congruence).
Qed.

(** One segment: where the session is in the stream, and what the application gets. *)
Lemma segment_step mappings_in salt now_us now_s sid irs stream m k sessions s n w :
  zlen stream + 1 < 2 ^ 32 -> stream_segment sid irs stream m k ->
  sessions !! sid = Some s -> session_wf s -> s_state s <> closed ->
  0 <= n <= stream_end stream s -> s_peer_seq s = u32 (irs + n) ->
  let taken := if accepts k s w then zlen (payload k) else 0 in
  let fin := has (k_flags k) FLAG_FIN && negb (s_half_closed s) in
  exists s' w' l, tcp_run_in out_name mappings_in salt now_us now_s m sessions w = Ret (<[sid := s']> sessions, w') /\
    n + taken <= stream_end stream s /\ s_peer_seq s' = u32 (irs + (n + taken + if fin then 1 else 0)) /\
    s_half_closed s' = s_half_closed s || fin /\ session_wf s' /\ s_state s' = s_state s /\ s_shm_peer s' = s_shm_peer s /\
    t_log w' = t_log w ++ l /\ app_bytes l = sub stream n taken /\ Forall (about_session sid) l.
Proof.
  intros Hl (Hm & <- & Hfl & Hc) Hs Hw Hst Hn Hseq taken fin. pose proof (is_segment_wf _ _ Hm) as K. destruct Hm as [_ Hp].
  destruct (tcp_in_ack_spec (k_ack_seq_nr k) (touch now_us (k_window_size k) s) (touch_wf _ _ _ Hw) Hst) as (n1 & s1 & Ha & W1 & _).
  destruct (tcp_in_ack_peer _ _ _ Ha) as (P1 & P2 & P3 & P4 & _). cbn in P1, P2, P3, P4.
  rewrite (tcp_ack_segment_aux mappings_in salt now_us now_s m k sessions s s1 w Hp K Hfl Hs Hst Ha W1). cbn zeta.
  assert (Hacc : accepts k s1 w = accepts k s w) by (unfold accepts; by rewrite P1, P2, P3).
  destruct (data_sent_log k s1 w K) as (l & Hlog & Hab & Hb). rewrite Hacc in Hb.
  assert (Htaken : n + taken <= stream_end stream s /\ (if accepts k s w then payload k else []) = sub stream n taken).
  { unfold taken. destruct (accepts k s w) eqn:Ea; [|split; [lia|done]]. destruct (taken_data irs stream k s n w Hl Hc Hn Hseq Ea) as [H1 H2].
    split; [unfold stream_end; destruct (s_half_closed s); lia|exact H2]. }
  destruct Htaken as [Ht1 Ht2]. rewrite Ht2 in Hb.
  assert (Hs2 : s_peer_seq (take_data k s1 w) = u32 (irs + (n + taken)) /\ s_half_closed (take_data k s1 w) = s_half_closed s /\
    session_wf (take_data k s1 w) /\ s_state (take_data k s1 w) = s_state s /\ s_shm_peer (take_data k s1 w) = s_shm_peer s).
  { unfold take_data, taken. rewrite Hacc. destruct (accepts k s w).
    - split; [cbn [set_peer_seq s_peer_seq]; rewrite P1, Hseq, wrap_add_l; f_equal; lia|]. split; [done|]. split; [|done]. apply (peer_seq_later s1); [done|]. apply wrap_range. lia.
    - rewrite Z.add_0_r, P1. done. }
  destruct Hs2 as (Q1 & Q2 & Q3 & Q4 & Q5). set (s2 := take_data k s1 w) in *. unfold fin. destruct (has (k_flags k) FLAG_FIN); cbn [andb].
  2: { exists s2, (data_sent out_name k s1 w), l. rewrite orb_false_r, Z.add_0_r. done. }
  assert (Hs3 : s_peer_seq (half_close s2) = u32 (irs + (n + taken + if negb (s_half_closed s) then 1 else 0)) /\ s_half_closed (half_close s2) = true /\
    session_wf (half_close s2) /\ s_state (half_close s2) = s_state s /\ s_shm_peer (half_close s2) = s_shm_peer s).
  { unfold half_close. rewrite Q2. destruct (s_half_closed s); cbn [negb]; [by rewrite Z.add_0_r|].
    split; [cbn; rewrite Q1, wrap_add_l; f_equal; lia|]. split; [done|]. split; [|done].
    assert (later s2 (set_half_closed true (set_peer_seq (u32 (s_peer_seq s2 + 1)) s2))) as [H3 _] by (apply later_seq; try done; apply wrap_range; lia). exact H3. }
  destruct Hs3 as (R1 & R2 & R3 & R4 & R5).
  assert (Hhc : s_half_closed s || negb (s_half_closed s) = true) by (by destruct (s_half_closed s)). rewrite Hhc.
  destruct (accepts k s1 w); [by eexists _, _, l|].
  destruct (reply_log k out_name (s_local_seq (half_close s2)) (u32 (s_peer_seq (half_close s2) + zlen (payload k))) FLAG_ACK (s_local_window_size (half_close s2))
    (data_sent out_name k s1 w) (Hok _ _)) as (x & Hx & Hab2 & Hd).
  eexists _, _, (l ++ [x]). split; [done|]. split; [done|]. split; [done|]. split; [done|]. split; [done|]. split; [done|]. split; [done|].
  split; [unfold fin_sent; by rewrite Hx, Hlog, app_assoc|]. split; [|apply Forall_app; split; [done|by constructor]].
  unfold app_bytes in *. rewrite map_app, concat_app, Hb. cbn. by rewrite Hd, !app_nil_r.
Qed.

End Accepted.

Lemma run_segments_app out_name mappings_in salt now_s ms1 ms2 sessions w :
  run_segments out_name mappings_in salt now_s (ms1 ++ ms2) sessions w =
  (sessions ← run_segments out_name mappings_in salt now_s ms1 sessions; run_segments out_name mappings_in salt now_s ms2 sessions) w.
Proof.
  revert sessions w. induction ms1 as [|[us m] ms1 IH]; intros sessions w; [done|]. cbn [app run_segments]. unfold mbind, prog_bind in *.
  destruct (tcp_run_in _ _ _ _ _ _ _ w) as [[sessions1 w1]|]; [|done]. apply IH.
Qed.

(** The message is a segment with FIN. *)
Definition has_fin (m : message) : bool := match tcp_parse m with Ret (Some k) => has (k_flags k) FLAG_FIN | _ => false end.

(** Segments of a connection whose FIN, if they have one, is not the first. *)
Lemma run_plain out_name mappings_in salt now_s sid irs stream ms sessions s n w :
  (forall m w, send_ok_b out_name m w = true) -> zlen stream + 1 < 2 ^ 32 ->
  Forall (fun x => exists k, stream_segment sid irs stream x.2 k) ms ->
  sessions !! sid = Some s -> session_wf s -> s_state s <> closed ->
  0 <= n <= stream_end stream s -> s_peer_seq s = u32 (irs + n) ->
  s_half_closed s = true \/ Forall (fun x => has_fin x.2 = false) ms ->
  exists n' s' w' l, run_segments out_name mappings_in salt now_s ms sessions w = Ret (<[sid := s']> sessions, w') /\
    n <= n' <= stream_end stream s /\ s_peer_seq s' = u32 (irs + n') /\ s_half_closed s' = s_half_closed s /\ session_wf s' /\ s_state s' = s_state s /\
    t_log w' = t_log w ++ l /\ app_bytes l = sub stream n (n' - n) /\ Forall (about_session sid) l.
Proof.
  intros Hok Hl. revert sessions s n w. induction ms as [|[now_us m] ms IH]; intros sessions s n w Hms Hs Hw Hst Hn Hseq Hfin.
  { exists n, s, w, []. rewrite insert_id by done. rewrite app_nil_r, Z.sub_diag. repeat (split; [done || lia|]). done. }
  apply list.Forall_cons in Hms as [(k & Hk) Hms]. cbn [run_segments snd] in *.
  destruct (segment_step out_name Hok mappings_in salt now_us now_s sid irs stream m k sessions s n w Hl Hk Hs Hw Hst Hn Hseq)
    as (s1 & w1 & l1 & R1 & Hb1 & Hseq1 & Hh1 & W1 & St1 & _ & L1 & B1 & A1).
  assert (Hnf : has (k_flags k) FLAG_FIN && negb (s_half_closed s) = false).
  { destruct Hfin as [->|Hf]; [apply andb_false_r|]. apply list.Forall_cons in Hf as [Hf _]. cbn in Hf. unfold has_fin in Hf. destruct Hk as ([_ Hp] & _). rewrite Hp in Hf. by rewrite Hf. }
  rewrite Hnf in Hseq1, Hh1. rewrite orb_false_r in Hh1. rewrite Z.add_0_r in Hseq1.
  set (taken := if accepts k s w then zlen (payload k) else 0) in *.
  assert (Ht : 0 <= taken) by (unfold taken; destruct (accepts k s w); [apply zlen_nonneg|lia]).
  assert (He : stream_end stream s1 = stream_end stream s) by (unfold stream_end; by rewrite Hh1).
  rewrite (prog_bind_step _ _ _ _ _ R1).
  destruct (IH (<[sid := s1]> sessions) s1 (n + taken) w1) as (n2 & s2 & w2 & l2 & R2 & Hn2 & Hseq2 & Hh2 & W2 & St2 & L2 & B2 & A2).
  { done. } { by rewrite lookup_insert_eq. } { done. } { congruence. } { rewrite He. lia. } { done. }
  { rewrite Hh1. destruct Hfin as [Hf|Hf]; [by left|right]. by apply list.Forall_cons in Hf as [_ Hf]. }
  exists n2, s2, w2, (l1 ++ l2). rewrite R2, insert_insert_eq. rewrite He in Hn2. split; [done|]. split; [lia|]. split; [done|]. split; [congruence|]. split; [done|].
  split; [congruence|]. split; [by rewrite L2, L1, app_assoc|]. split; [|by apply Forall_app].
  unfold app_bytes in *. rewrite map_app, concat_app, B1, B2, sub_join by lia. f_equal. lia.
Qed.

(** ... and with one: it steps over a number. *)
Lemma run_fin out_name mappings_in salt now_s sid irs stream ms1 now_us m k ms2 sessions s n w :
  (forall m w, send_ok_b out_name m w = true) -> zlen stream + 1 < 2 ^ 32 ->
  Forall (fun x => exists k, stream_segment sid irs stream x.2 k) (ms1 ++ ms2) -> stream_segment sid irs stream m k ->
  sessions !! sid = Some s -> session_wf s -> s_state s <> closed ->
  0 <= n <= zlen stream -> s_peer_seq s = u32 (irs + n) -> s_half_closed s = false ->
  Forall (fun x => has_fin x.2 = false) ms1 -> has (k_flags k) FLAG_FIN = true ->
  exists n1 s1 w1 n' s' w' l,
    run_segments out_name mappings_in salt now_s ms1 sessions w = Ret (<[sid := s1]> sessions, w1) /\ s_peer_seq s1 = u32 (irs + n1) /\
    run_segments out_name mappings_in salt now_s (ms1 ++ (now_us, m) :: ms2) sessions w = Ret (<[sid := s']> sessions, w') /\
    let n2 := n1 + if accepts k s1 w1 then zlen (payload k) else 0 in
    n <= n1 /\ n1 <= n2 <= zlen stream /\ n2 + 1 <= n' <= zlen stream + 1 /\ s_peer_seq s' = u32 (irs + n') /\ s_half_closed s' = true /\ session_wf s' /\ s_state s' = s_state s /\
    t_log w' = t_log w ++ l /\ app_bytes l = sub stream n (n2 - n) ++ sub stream (n2 + 1) (n' - (n2 + 1)) /\ Forall (about_session sid) l.
Proof.
  intros Hok Hl Hms Hk Hs Hw Hst Hn Hseq Hh Hno Hfin. apply list.Forall_app in Hms as [Hms1 Hms2].
  assert (He : stream_end stream s = zlen stream) by (unfold stream_end; rewrite Hh; lia).
  destruct (run_plain out_name mappings_in salt now_s sid irs stream ms1 sessions s n w Hok Hl Hms1 Hs Hw Hst ltac:(lia) Hseq (or_intror Hno))
    as (n1 & s1 & w1 & l1 & R1 & Hn1 & Hseq1 & Hh1 & W1 & St1 & L1 & B1 & A1).
  assert (He1 : stream_end stream s1 = zlen stream) by (unfold stream_end; rewrite Hh1, Hh; lia).
  destruct (segment_step out_name Hok mappings_in salt now_us now_s sid irs stream m k (<[sid := s1]> sessions) s1 n1 w1 Hl Hk)
    as (s2 & w2 & l2 & R2 & Hb2 & Hseq2 & Hh2 & W2 & St2 & _ & L2 & B2 & A2).
  { by rewrite lookup_insert_eq. } { done. } { congruence. } { lia. } { done. }
  rewrite Hh1, Hh, Hfin in Hseq2, Hh2. cbn in Hseq2, Hh2. rewrite insert_insert_eq in R2.
  set (taken := if accepts k s1 w1 then zlen (payload k) else 0) in *.
  assert (Ht : 0 <= taken) by (unfold taken; destruct (accepts k s1 w1); [apply zlen_nonneg|lia]).
  assert (He2 : stream_end stream s2 = zlen stream + 1) by (unfold stream_end; by rewrite Hh2).
  destruct (run_plain out_name mappings_in salt now_s sid irs stream ms2 (<[sid := s2]> sessions) s2 (n1 + taken + 1) w2 Hok Hl Hms2)
    as (n3 & s3 & w3 & l3 & R3 & Hn3 & Hseq3 & Hh3 & W3 & St3 & L3 & B3 & A3).
  { by rewrite lookup_insert_eq. } { done. } { congruence. } { lia. } { done. } { by left. }
  exists n1, s1, w1, n3, s3, w3, (l1 ++ l2 ++ l3). split; [done|]. split; [done|]. split.
  { rewrite run_segments_app, (prog_bind_step _ _ _ _ _ R1). cbn [run_segments]. rewrite (prog_bind_step _ _ _ _ _ R2), R3. by rewrite insert_insert_eq. }
  cbn zeta. split; [lia|]. split; [lia|]. split; [lia|]. split; [done|]. split; [congruence|]. split; [done|]. split; [congruence|].
  split; [by rewrite L3, L2, L1, <- !app_assoc|]. split; [|by repeat (apply Forall_app; split)].
  unfold app_bytes in *. rewrite !map_app, !concat_app, B1, B2, B3, app_assoc. f_equal.
  replace (sub stream n1 taken) with (sub stream (n + (n1 - n)) taken) by (f_equal; lia). rewrite sub_join by lia. f_equal. lia.
Qed.

(** Where the first FIN is. *)
Lemma fin_split (ms : list (Z * message)) : Forall (fun x => has_fin x.2 = false) ms \/
  exists ms1 us m ms2, ms = ms1 ++ (us, m) :: ms2 /\ Forall (fun x => has_fin x.2 = false) ms1 /\ has_fin m = true.
Proof.
  induction ms as [|[us m] ms IH]; [by left|]. destruct (has_fin m) eqn:E; [by right; exists [], us, m, ms|].
  destruct IH as [IH|(ms1 & us' & m' & ms2 & -> & H1 & H2)]; [left; by constructor|]. right. exists ((us, m) :: ms1), us', m', ms2. split; [done|]. split; [by constructor|done].
Qed.

(** What the application gets, as [bytes], for the segments [ms] when the session expected byte [n] and expects [n'] afterwards. *)
Definition received out_name mappings_in salt now_s (sid irs : Z) (stream : list Z) (ms : list (Z * message)) (sessions : gmap Z session_t)
  (s : session_t) (n : Z) (w : W) (s' : session_t) (n' : Z) (bytes : list Z) : Prop :=
  (* no FIN, or not the first *)
  (s_half_closed s = true \/ Forall (fun x => has_fin x.2 = false) ms) /\
    n <= n' <= stream_end stream s /\ s_half_closed s' = s_half_closed s /\ bytes = sub stream n (n' - n)
  \/
  (* the first FIN, in [m] *)
  s_half_closed s = false /\
  exists ms1 now_us m k ms2 n1 s1 w1, ms = ms1 ++ (now_us, m) :: ms2 /\ Forall (fun x => has_fin x.2 = false) ms1 /\
    tcp_parse m = Ret (Some k) /\ has (k_flags k) FLAG_FIN = true /\
    run_segments out_name mappings_in salt now_s ms1 sessions w = Ret (<[sid := s1]> sessions, w1) /\ s_peer_seq s1 = u32 (irs + n1) /\
    let n2 := n1 + if accepts k s1 w1 then zlen (payload k) else 0 in
    n <= n1 /\ n1 <= n2 <= zlen stream /\ n2 + 1 <= n' <= zlen stream + 1 /\ s_half_closed s' = true /\
    bytes = sub stream n (n2 - n) ++ sub stream (n2 + 1) (n' - (n2 + 1)).

Lemma run_received out_name mappings_in salt now_s sid irs stream ms sessions s n w :
  (forall m w, send_ok_b out_name m w = true) -> zlen stream + 1 < 2 ^ 32 ->
  Forall (fun x => exists k, stream_segment sid irs stream x.2 k) ms ->
  sessions !! sid = Some s -> session_wf s -> s_state s <> closed ->
  0 <= n <= stream_end stream s -> s_peer_seq s = u32 (irs + n) ->
  exists n' s' w' l, run_segments out_name mappings_in salt now_s ms sessions w = Ret (<[sid := s']> sessions, w') /\
    s_peer_seq s' = u32 (irs + n') /\ session_wf s' /\ t_log w' = t_log w ++ l /\ Forall (about_session sid) l /\
    received out_name mappings_in salt now_s sid irs stream ms sessions s n w s' n' (app_bytes l).
Proof.
  intros Hok Hstream Hms Hs Hw Hst Hn Hseq. unfold received.
  assert (Hcases : (s_half_closed s = true \/ Forall (fun x => has_fin x.2 = false) ms) \/ s_half_closed s = false /\
    exists ms1 us m ms2, ms = ms1 ++ (us, m) :: ms2 /\ Forall (fun x => has_fin x.2 = false) ms1 /\ has_fin m = true).
  { destruct (s_half_closed s); [by left; left|]. destruct (fin_split ms); [by left; right|by right]. }
  destruct Hcases as [Hno|(Hh & ms1 & us & m & ms2 & -> & H1 & Hfin)].
  - destruct (run_plain out_name mappings_in salt now_s sid irs stream ms sessions s n w Hok Hstream Hms Hs Hw Hst Hn Hseq Hno)
      as (n' & s' & w' & l & R & Hb & R2 & R3 & R4 & _ & R5 & R6 & R7).
    exists n', s', w', l. repeat (split; [done|]). by left.
  - apply list.Forall_app in Hms as [Hm1 [(k & Hk) Hm2]%list.Forall_cons]. cbn in Hk.
    assert (Hp : tcp_parse m = Ret (Some k)) by apply Hk. unfold has_fin in Hfin. rewrite Hp in Hfin.
    assert (Hn0 : 0 <= n <= zlen stream) by (unfold stream_end in Hn; rewrite Hh in Hn; lia).
    destruct (run_fin out_name mappings_in salt now_s sid irs stream ms1 us m k ms2 sessions s n w Hok Hstream) as
      (n1 & s1 & w1 & n' & s' & w' & l & R1 & R2 & R & Q1 & Q2 & Q3 & Q4 & Q5 & Q6 & _ & Q7 & Q8 & Q9); try done; [by apply list.Forall_app|].
    exists n', s', w', l. repeat (split; [done|]). right. split; [done|]. exists ms1, us, m, k, ms2, n1, s1, w1. by repeat (split; [done|]).
Qed.

End Order.

(** ** Properties *)

(** C5: the three-way handshake with SYN cookies.  A SYN to a port an
    application listens on leaves the table of sessions as it is; the server
    keeps nothing and answers with a SYN/ACK whose sequence number is the cookie.
    When the acknowledgement of that number arrives within the cookie's lifetime,
    from the same peer, the application is told and the session is opened, with
    the MSS the SYN announced.  An acknowledgement of another number with the
    same MSS index opens nothing and is answered with a reset. *)
Theorem tcp_handshake `{Transport W} (out_name : list Z) (mappings_in : gmap Z (list Z)) (salt : list Z)
  (us1 us2 now1 now2 : Z) (m1 m2 : message) (k1 k2 : tcp_in) (sessions : gmap Z session_t) (upper : list Z)
  (Hm1 : is_segment m1 k1) (Hm2 : is_segment m2 k2)
  (Hsyn : syn_flags (k_flags k1)) (Hack : data_flags (k_flags k2)) (Hpl : payload k2 = [])
  (Hsame : k_a_from k2 = k_a_from k1 /\ k_a_to k2 = k_a_to k1 /\
           k_source_port k2 = k_source_port k1 /\ k_destination_port k2 = k_destination_port k1)
  (Hnew : sessions !! k_session_id k1 = None)
  (Hmap : mappings_in !! k_destination_port k1 = Some upper) (Hup : zlen upper <= max_id_length)
  (Htime : Z.shiftr now1 6 = Z.shiftr now2 6) :
  exists cookie mss, is_u 32 cookie /\ mss_ranges !! Z.to_nat (k_mss_index k1) = Some mss /\
    (forall w, tcp_run_in out_name mappings_in salt us1 now1 m1 sessions w =
               Ret (sessions, after_send out_name (syn_ack k1 cookie) w)) /\
    (k_ack_seq_nr k2 = u32 (cookie + 1) ->
     forall w, send_ok_b upper (notice k2 MI_TCP_OPEN []) w = true ->
       tcp_run_in out_name mappings_in salt us2 now2 m2 sessions w =
       Ret (<[k_session_id k1 := server_session k2 (splice (zeros max_id_length) 0 upper) mss]> sessions,
            after_send upper (notice k2 MI_TCP_OPEN []) w)) /\
    (k_ack_seq_nr k2 <> u32 (cookie + 1) -> Z.land (u32 (k_ack_seq_nr k2 - 1)) 7 = k_mss_index k1 ->
     forall w, tcp_run_in out_name mappings_in salt us2 now2 m2 sessions w =
       Ret (sessions, after_send out_name
         (reply_msg k2 (u32 (cookie + 1)) (k_peer_seq_nr k2) FLAG_RST (k_window_size k2)) w)).
Proof.
  pose proof (is_segment_wf _ _ Hm1) as K1. pose proof (is_segment_wf _ _ Hm2) as K2.
  destruct Hm1 as [_ P1], Hm2 as [_ P2], Hsame as (S1 & S2 & S3 & S4).
  assert (Hid : k_session_id k2 = k_session_id k1).
  { pose proof (kw_sid k1 K1) as E1. pose proof (kw_sid k2 K2) as E2. rewrite S1, S2, S3, S4, E1 in E2. by injection E2 as <-. }
  destruct (my_syn_cookie_spec (k_session_id k1) salt (k_mss_index k1) now1 (kw_mss k1 K1)) as (cookie & Hck & Hr & Hi).
  pose proof (kw_mss k1 K1) as Hidx. pose proof (kw_seq k2 K2) as [_ Hseq].
  destruct (rd_in mss_ranges (k_mss_index k1)) as (mss & Lmss & _); [change (zlen mss_ranges) with 8; lia|].
  exists cookie, mss. split; [done|]. split; [done|]. rewrite (my_syn_cookie_same _ _ _ _ _ Htime), <- Hid in Hck.
  split; [|split].
  - intros w. eapply tcp_syn_aux; try done. by rewrite <- Hid, (my_syn_cookie_same _ _ _ _ _ Htime).
  - intros Eack w Hok. assert (Hc : u32 (k_ack_seq_nr k2 - 1) = cookie) by (rewrite Eack; by apply u32_pred_succ).
    destruct (tcp_open_aux out_name mappings_in salt us2 now2 m2 k2 sessions upper w) as (mss' & Lm & Hrun); try done.
    + by rewrite Hid.
    + by rewrite S4.
    + by rewrite Hc, Hi.
    + rewrite Hc, Hi in Lm. rewrite Lmss in Lm. injection Lm as <-. by rewrite <- Hid.
  - intros Eack Hix w. eapply tcp_bad_cookie_aux; try done; [by rewrite Hid|by rewrite Hix|].
    intros ->. apply Eack. rewrite wrap_add_l. replace (k_ack_seq_nr k2 - 1 + 1) with (k_ack_seq_nr k2) by lia.
    symmetry. by apply wrap_small.
Qed.

(** The segment a message is, for examples. *)
Definition seg_of (m : message) : tcp_in :=
  match tcp_parse m with
  | Ret (Some k) => k
  | _ => {| k_from_len := 0; k_from := []; k_to_len := 0; k_to := []; k_a_from := []; k_a_to := []; k_source_port := 0;
            k_destination_port := 0; k_session_id := 0; k_header_size := 0; k_flags := 0; k_window_size := 0;
            k_peer_seq_nr := 0; k_ack_seq_nr := 0; k_pl := []; k_tcp_pl_size := 0; k_mss_index := 0 |}
  end.

Definition ex_syn : message := ip_message ex_peer ex_me (ex_seg 7 0 FLAG_SYN []).
Definition ex_salt : list Z := repeat 1 16.
Definition ex_cookie : Z :=
  match my_syn_cookie (k_session_id (seg_of ex_syn)) ex_salt 1 100 with Ret c => c | Fault _ => 0 end.
Definition ex_ack (ack : Z) : message := ip_message ex_peer ex_me (ex_seg 8 ack FLAG_ACK []).

Lemma ex_is_segment (s : list Z) :
  forallb (fun b => (0 <=? b) && (b <? 256)) s && (20 <=? zlen s) && (zlen s <=? 65515) = true ->
  match tcp_parse (ip_message ex_peer ex_me s) with Ret (Some _) => true | _ => false end = true ->
  is_segment (ip_message ex_peer ex_me s) (seg_of (ip_message ex_peer ex_me s)).
Proof.
  intros Hs Hp. split; [eexists _, _, _, _, _; by apply ex_ip_message|]. unfold seg_of.
  destruct (tcp_parse _) as [[k|]|]; done.
Qed.

Lemma tcp_handshake_witness :
  exists cookie mss, is_u 32 cookie /\ mss_ranges !! Z.to_nat 1 = Some mss /\
    (forall w : oracle, tcp_run_in (str "ip4") ex_tcp_maps ex_salt 5 100 ex_syn ∅ w =
       Ret (∅, after_send (str "ip4") (syn_ack (seg_of ex_syn) cookie) w)) /\
    (k_ack_seq_nr (seg_of (ex_ack (ex_cookie + 1))) = u32 (cookie + 1) ->
     tcp_run_in (str "ip4") ex_tcp_maps ex_salt 6 101 (ex_ack (ex_cookie + 1)) ∅ oracle_ok =
       Ret (<[k_session_id (seg_of ex_syn) := server_session (seg_of (ex_ack (ex_cookie + 1)))
               (splice (zeros max_id_length) 0 ex_web) mss]> ∅,
            after_send ex_web (notice (seg_of (ex_ack (ex_cookie + 1))) MI_TCP_OPEN []) oracle_ok)).
Proof.
  destruct (tcp_handshake (W := oracle) (str "ip4") ex_tcp_maps ex_salt 5 6 100 101 ex_syn (ex_ack (ex_cookie + 1))
    (seg_of ex_syn) (seg_of (ex_ack (ex_cookie + 1))) ∅ ex_web) as (cookie & mss & H1 & H2 & H3 & H4 & _).
  - apply ex_is_segment; vm_compute; reflexivity.
  - apply ex_is_segment; vm_compute; reflexivity.
  - vm_compute. auto.
  - vm_compute. auto.
  - vm_compute. reflexivity.
  - vm_compute. auto.
  - reflexivity.
  - vm_compute. reflexivity.
  - vm_compute. discriminate.
  - reflexivity.
  - exists cookie, mss. split; [exact H1|]. split; [vm_cast_no_check H2|]. split; [exact H3|].
    intros E. apply H4; [exact E|]. vm_compute. reflexivity.
Defined.

(** A segment of an open connection (ACK set, no SYN, RST or FIN) first has
    its acknowledgement taken in, then: in order and with data, the application
    gets the payload, and if that succeeds the peer gets an ACK for it, and if
    that succeeds as well the expected sequence number advances by the payload's
    length; in order without data, nothing is sent; out of order, the expected
    sequence number is repeated to the peer and the application gets nothing.
    When an ACK cannot be handed over the application is told to close.  No
    other session changes. *)
Theorem tcp_data_segment `{Transport W} (out_name : list Z) (mappings_in : gmap Z (list Z)) (salt : list Z)
  (now_us now_s : Z) (m : message) (k : tcp_in) (sessions : gmap Z session_t) (s : session_t) (w : W)
  (Hm : is_segment m k) (Hfl : data_flags (k_flags k))
  (Hs : sessions !! k_session_id k = Some s) (Hw : session_wf s) (Hst : s_state s <> closed) :
  exists s1, tcp_in_ack (k_ack_seq_nr k) (touch now_us (k_window_size k) s) = Ret s1 /\
    s_peer_seq s1 = s_peer_seq s /\
    tcp_run_in out_name mappings_in salt now_us now_s m sessions w =
    let app := c_str (s_shm_peer s) in
    let ack seq := reply_msg k (s_local_seq s1) seq FLAG_ACK (s_local_window_size s) in
    let done s' w' := Ret (<[k_session_id k := s']> sessions, w') in
    let close w' := done s1 (after_send app (notice k MI_TCP_CLOSE []) w') in
    if k_peer_seq_nr k =? s_peer_seq s then
      if zlen (payload k) =? 0 then done s1 w
      else
        let data := notice k (if s_half_closed s then MI_TCP_FIN else 0) (payload k) in
        let next := u32 (s_peer_seq s + zlen (payload k)) in
        let w1 := after_send app data w in
        let w2 := after_send out_name (ack next) w1 in
        if send_ok_b app data w then
          if send_ok_b out_name (ack next) w1 then done (set_peer_seq next s1) w2 else close w2
        else done s1 w1
    else
      let w1 := after_send out_name (ack (s_peer_seq s)) w in
      if send_ok_b out_name (ack (s_peer_seq s)) w then done s1 w1 else close w1.
Proof.
  pose proof (is_segment_wf _ _ Hm) as K. destruct Hm as [_ Hp].
  destruct (tcp_in_ack_spec (k_ack_seq_nr k) _ (touch_wf now_us (k_window_size k) s Hw) Hst) as (n & s1 & Ha & W1 & _).
  exists s1. split; [done|]. destruct (tcp_in_ack_peer _ _ _ Ha) as (P1 & P2 & P3 & _ & P5). cbn in P1, P2, P3, P5.
  split; [done|]. rewrite (tcp_data_segment_aux _ _ _ _ _ _ _ _ _ _ w Hp K Hfl Hs Hst Ha W1).
  unfold data_effect. rewrite P1, P2, P3, P5. cbn zeta. destruct (_ =? _).
  - destruct (zlen _ =? 0); [done|]. destruct (send_ok_b (c_str _) _ w); [|done]. by destruct (send_ok_b out_name _ _).
  - by destruct (send_ok_b out_name _ _).
Qed.

(** The session of the examples, expecting byte 8 of the peer. *)
Definition ex_session : session_t := server_session (seg_of (ex_ack (ex_cookie + 1))) (splice (zeros max_id_length) 0 ex_web) 536.
Definition ex_data (seq : Z) (data : list Z) : message := ip_message ex_peer ex_me (ex_seg seq (ex_cookie + 1) (Z.lor FLAG_ACK FLAG_PSH) data).
Definition ex_sessions : gmap Z session_t := {[ k_session_id (seg_of ex_syn) := ex_session ]}.

Lemma ex_session_wf : session_wf ex_session.
Proof.
  constructor; try (split; [concrete_bytes|reflexivity]); try (vm_compute; split; [discriminate|reflexivity]);
    try (vm_compute; discriminate).
  - vm_compute. split; [reflexivity|discriminate].
  - split; [vm_compute; split; discriminate|constructor].
Qed.

Definition ex_data_seg : tcp_in := Eval vm_compute in seg_of (ex_data 8 [65; 66]).

Lemma ex_data_is_segment : is_segment (ex_data 8 [65; 66]) ex_data_seg.
Proof.
  replace ex_data_seg with (seg_of (ex_data 8 [65; 66])) by (vm_compute; reflexivity).
  apply ex_is_segment; vm_compute; reflexivity.
Qed.

(** Two bytes in order; all sends succeed. *)
Lemma tcp_data_segment_witness :
  exists s1, tcp_in_ack (k_ack_seq_nr ex_data_seg) (touch 9 (k_window_size ex_data_seg) ex_session) = Ret s1 /\
    tcp_run_in (str "ip4") ex_tcp_maps ex_salt 9 200 (ex_data 8 [65; 66]) ex_sessions oracle_ok =
    Ret (<[k_session_id ex_data_seg := set_peer_seq 10 s1]> ex_sessions,
         after_send (str "ip4") (reply_msg ex_data_seg (s_local_seq s1) 10 FLAG_ACK 32768)
           (after_send ex_web (notice ex_data_seg 0 [65; 66]) oracle_ok)).
Proof.
  destruct (tcp_data_segment (W := oracle) (str "ip4") ex_tcp_maps ex_salt 9 200 (ex_data 8 [65; 66]) ex_data_seg
    ex_sessions ex_session oracle_ok ex_data_is_segment) as (s1 & H1 & _ & H3).
  - vm_compute. auto.
  - vm_compute. reflexivity.
  - exact ex_session_wf.
  - discriminate.
  - exists s1. split; [exact H1|]. etransitivity; [exact H3|]. cbn zeta.
    replace (k_peer_seq_nr ex_data_seg =? s_peer_seq ex_session) with true by (vm_compute; reflexivity).
    replace (payload ex_data_seg) with [65; 66] by (vm_compute; reflexivity).
    replace (c_str (s_shm_peer ex_session)) with ex_web by (vm_compute; reflexivity). reflexivity.
Defined.

(** C2: the application sees the peer's stream in order, each byte once, but for what a FIN does to it.  Feed
    an open session any list of segments of the connection that have ACK and neither SYN nor RST - resent, overlapping
    and out of order ones included, with FIN or without -, each carrying the bytes of the peer's
    stream that its sequence number says, if it carries any (the stream and its FIN are shorter than the
    sequence space).  The IP server accepts every ACK; the application may refuse messages at any point.  While no segment has a FIN, or once the peer's side is closed, the bytes the
    application gets are the stream from byte [n], which the session expected, to some byte [n'], and [n'] is what the session
    expects afterwards.  The first FIN closes the peer's side and makes the session step over one number: whatever number
    the segment has, if [n2] was expected after its data, then [n2 + 1] is expected next.  If that segment was
    the last of the stream nothing is lost; if it came early, or the application refused its data, byte [n2] never reaches the application: it gets
    the bytes before it, and those behind it ([received]). *)
Theorem tcp_receive_in_order `{Transport W} (out_name : list Z) (mappings_in : gmap Z (list Z)) (salt : list Z) (now_s sid irs : Z)
  (stream : list Z) (ms : list (Z * message)) (sessions : gmap Z session_t) (s : session_t) (n : Z) (w : W)
  (Hok : forall m w, send_ok_b out_name m w = true) (Hstream : zlen stream + 1 < 2 ^ 32)
  (Hms : Forall (fun x => exists k, stream_segment sid irs stream x.2 k) ms)
  (Hs : sessions !! sid = Some s) (Hw : session_wf s) (Hst : s_state s <> closed)
  (Hn : 0 <= n <= stream_end stream s) (Hseq : s_peer_seq s = u32 (irs + n)) :
  exists n' s' w' l, run_segments out_name mappings_in salt now_s ms sessions w = Ret (<[sid := s']> sessions, w') /\
    s_peer_seq s' = u32 (irs + n') /\ session_wf s' /\ t_log w' = t_log w ++ l /\
    received out_name mappings_in salt now_s sid irs stream ms sessions s n w s' n' (app_bytes l).
Proof.
  destruct (run_received out_name mappings_in salt now_s sid irs stream ms sessions s n w Hok Hstream Hms Hs Hw Hst Hn Hseq)
    as (n' & s' & w' & l & R1 & R2 & R3 & R4 & _ & R6).
  exists n', s', w', l. by repeat (split; [done|]).
Qed.

(** A transport that loses nothing. *)
Record wire := { wire_log : list sent }.
Definition wire_send (dst : list Z) (m : message) (blocking : bool) (w : wire) : (bool * Z) * wire :=
  ((true, m_msg_nr m), {| wire_log := wire_log w ++ [sent_of dst m] |}).
#[export] Instance wire_transport : Transport wire := {|
  t_send := wire_send; t_log := wire_log; t_send_log := fun dst m blocking w => eq_refl |}.

(** The stream "ABC" from number 8: its first byte; the last one, too early and with the FIN; the last one again. *)
Definition ex_fin (seq : Z) (data : list Z) : message := ip_message ex_peer ex_me (ex_seg seq (ex_cookie + 1) (Z.lor FLAG_ACK FLAG_FIN) data).
Definition ex_stream : list (Z * message) := [(9, ex_data 8 [65]); (10, ex_fin 10 [67]); (11, ex_data 10 [67])].

Lemma ex_stream_segment off m :
  let k := seg_of m in
  is_segment m k -> bool_decide (0 <= off /\ off + zlen (payload k) <= 3 /\ k_peer_seq_nr k = u32 (8 + off) /\
    payload k = sub [65; 66; 67] off (zlen (payload k))) && (k_session_id k =? k_session_id (seg_of ex_syn)) &&
    has (k_flags k) FLAG_ACK && negb (has (k_flags k) FLAG_SYN) && negb (has (k_flags k) FLAG_RST) = true ->
  exists k, stream_segment (k_session_id (seg_of ex_syn)) 8 [65; 66; 67] m k.
Proof.
  intros k Hk Hb. apply andb_true_iff in Hb as [Hb F3%negb_true_iff].
  apply andb_true_iff in Hb as [Hb F2%negb_true_iff]. apply andb_true_iff in Hb as [Hb F1]. apply andb_true_iff in Hb as [Hb Hs].
  apply bool_decide_eq_true in Hb. exists k. split; [done|]. split; [lia|]. split; [done|]. right. by exists off.
Qed.

Lemma ex_stream_carried : Forall (fun x => exists k, stream_segment (k_session_id (seg_of ex_syn)) 8 [65; 66; 67] x.2 k) ex_stream.
Proof.
  constructor; [|constructor; [|constructor; [|constructor]]].
  - apply (ex_stream_segment 0); [apply ex_is_segment; vm_compute; reflexivity|vm_compute; reflexivity].
  - apply (ex_stream_segment 2); [apply ex_is_segment; vm_compute; reflexivity|vm_compute; reflexivity].
  - apply (ex_stream_segment 2); [apply ex_is_segment; vm_compute; reflexivity|vm_compute; reflexivity].
Qed.

(** The "B" is lost. *)
Lemma tcp_receive_in_order_witness :
  exists n' s' w', run_segments (str "ip4") ex_tcp_maps ex_salt 200 ex_stream ex_sessions {| wire_log := [] |} =
      Ret (<[k_session_id (seg_of ex_syn) := s']> ex_sessions, w') /\
    s_peer_seq s' = u32 (8 + n') /\ session_wf s' /\ app_bytes (wire_log w') = [65; 67].
Proof.
  destruct (tcp_receive_in_order (W := wire) (str "ip4") ex_tcp_maps ex_salt 200 (k_session_id (seg_of ex_syn)) 8 [65; 66; 67] ex_stream
    ex_sessions ex_session 0 {| wire_log := [] |}) as (n' & s' & w' & l & R & Hseq & Hw & _ & _).
  - reflexivity.
  - reflexivity.
  - exact ex_stream_carried.
  - vm_compute. reflexivity.
  - exact ex_session_wf.
  - discriminate.
  - split; [discriminate|vm_compute; discriminate].
  - vm_compute. reflexivity.
  - exists n', s', w'. split; [exact R|]. split; [exact Hseq|]. split; [exact Hw|].
    assert (E : match run_segments (str "ip4") ex_tcp_maps ex_salt 200 ex_stream ex_sessions {| wire_log := [] |} with
      | Ret (_, w) => app_bytes (wire_log w) | Fault _ => [] end = [65; 67]) by (vm_compute; reflexivity).
    rewrite R in E. exact E.
Defined.
