(* ===== verification/TcpClient.v ===== *)
(** * TCP sessions: clients

    The requests [action=open] and [action=close] of programs that use TCP as a
    client, from the text of the request to the segments on the wire. *)

From S2P Require Import Prelude Net Checksum Str Addr SipHash ShmMessage Transport Ip4In TcpWire TcpData Tcp TcpMeta TcpSafe TcpFlow.

(** ** Specification *)

(** The requests. *)
Definition open_text (port : Z) (a : addr) (shm : list Z) : list Z :=
  str "action=open" ++ 10 :: (str "dst-port=" ++ to_string port) ++ 10 ::
  (str "dst-addr-ip4=" ++ to_str 46 false a) ++ 10 :: (str "shm-data-address=" ++ shm).

Definition close_text (sid : Z) : list Z := str "action=close" ++ 10 :: (str "session-id=" ++ format_x sid).

(** A segment without payload of the session, as a message for the IP layer. *)
Definition session_msg (s : session_t) (seq ack flags : Z) : message :=
  seg_message (s_local_addr s) (s_peer_addr s)
    (match tcp_packet (s_local_addr s) (s_peer_addr s) (s_local_port s) (s_peer_port s) seq ack flags (s_local_window_size s) [] with
     | Ret x => x
     | Fault _ => []
     end).

(** ** Lemmas *)

Section Client.
Context `{Transport W}.

Lemma send_session_msg out_name s seq ack flags mss w :
  session_wf s -> 0 < mss <= 65515 ->
  send_tcp_packet out_name (s_local_addr s) (s_peer_addr s) (s_local_port s) (s_peer_port s) seq ack flags
    (s_local_window_size s) [] 0 mss w =
  Ret (if send_ok_b out_name (session_msg s seq ack flags) w then 0 else -1, after_send out_name (session_msg s seq ack flags) w).
Proof.
  intros [[B1 L1] [B2 L2] _ _ _ _ _ _] Hm. unfold send_tcp_packet. cbn [Z.to_nat send_tcp_loop].
  replace (Z.min 0 mss) with 0 by lia. change (rdn [] 0 0) with (Ret (@nil Z)). unfold session_msg, seg_message.
  destruct (tcp_packet_spec (s_local_addr s) (s_peer_addr s) (s_local_port s) (s_peer_port s) seq ack flags (s_local_window_size s) [])
    as (x & Hx & _ & Hl); try done; [constructor|]. change (zlen []) with 0 in Hl.
  erewrite lift_bind by reflexivity. erewrite lift_bind by exact Hx. rewrite Hx. erewrite lift_bind.
  2: { eapply wrap_message_down_gen; [by apply rdn_all|by apply rdn_all|apply rdn_all; lia|done|done|lia]. }
  rewrite send_after by (apply down_message_size; lia). unfold send_ok_b.
  destruct (t_send _ _ _ _) as [[[|] nr] w1]; reflexivity.
Qed.

(** A line [key=value] of a request. *)
Lemma split_line key (v : list Z) :
  forallb (fun x => negb (x =? 61)) (str key) = true -> (61 : Z) ∉ v -> split (str key ++ 61 :: v) (str "=") = [str key; v].
Proof. intros Hk Hv. change (str "=") with [61]. by apply split_pair; [apply str_no_char|]. Qed.

Lemma meta_line_session_id junk q sid : 0 <= sid ->
  meta_line junk (str "session-id=" ++ format_x sid) q =
  if 2 ^ 31 <=? sid then Fault UncaughtException
  else Ret (Some {| q_open := q_open q; q_session_id := Some sid; q_dst_addr := q_dst_addr q; q_dst_port := q_dst_port q;
                    q_shm_data_address := q_shm_data_address q |}).
Proof.
  intros Hs. unfold meta_line. change (str "session-id=" ++ format_x sid) with (str "session-id" ++ 61 :: format_x sid).
  rewrite split_line; [|done|]. 2: { apply to_base_no_char; [lia|]. intros d Hd. pose proof (digit_char_not_special d Hd). lia. }
  change (beq (str "session-id") (str "action")) with false. change (beq (str "session-id") (str "session-id")) with true.
  cbv iota. rewrite my_stoi_hex_session_id by done. destruct (Z.leb_spec (2 ^ 31) sid); [done|]. mcbn. cbn.
  rewrite wrap_small by (unfold is_u; lia). done.
Qed.

Lemma meta_line_dst_port junk q port : is_u 16 port ->
  meta_line junk (str "dst-port=" ++ to_string port) q =
  Ret (Some {| q_open := q_open q; q_session_id := q_session_id q; q_dst_addr := q_dst_addr q; q_dst_port := Some port;
               q_shm_data_address := q_shm_data_address q |}).
Proof.
  intros Hp. unfold meta_line. change (str "dst-port=" ++ to_string port) with (str "dst-port" ++ 61 :: to_string port).
  rewrite split_line; [|done|apply to_string_no_sep; lia].
  change (beq (str "dst-port") (str "action")) with false. change (beq (str "dst-port") (str "session-id")) with false.
  change (beq (str "dst-port") (str "dst-port")) with true. cbv iota.
  unfold is_u in Hp. destruct (number_roundtrip port 0) as [-> _]; [lia|unfold is_u; lia|]. mcbn. cbn.
  rewrite wrap_small by (unfold is_u; lia). done.
Qed.

Lemma meta_line_dst_addr junk q (a : addr) : bytes a -> zlen a = 4 ->
  meta_line junk (str "dst-addr-ip4=" ++ to_str 46 false a) q =
  Ret (Some {| q_open := q_open q; q_session_id := q_session_id q; q_dst_addr := Some a; q_dst_port := q_dst_port q;
               q_shm_data_address := q_shm_data_address q |}).
Proof.
  intros Ba La. unfold meta_line. change (str "dst-addr-ip4=" ++ to_str 46 false a) with (str "dst-addr-ip4" ++ 61 :: to_str 46 false a).
  rewrite split_line; [|done|apply to_str_no_char; lia].
  change (beq (str "dst-addr-ip4") (str "action")) with false. change (beq (str "dst-addr-ip4") (str "session-id")) with false.
  change (beq (str "dst-addr-ip4") (str "dst-port")) with false. change (beq (str "dst-addr-ip4") (str "dst-addr-ip4")) with true.
  cbv iota. destruct (addr_of_to_str junk a Ba) as [E _]. change (str ".") with [46]. rewrite E. done.
Qed.

Lemma meta_line_shm junk q (shm : list Z) : (61 : Z) ∉ shm ->
  meta_line junk (str "shm-data-address=" ++ shm) q =
  Ret (Some {| q_open := q_open q; q_session_id := q_session_id q; q_dst_addr := q_dst_addr q; q_dst_port := q_dst_port q;
               q_shm_data_address := Some shm |}).
Proof.
  intros Hs. unfold meta_line. change (str "shm-data-address=" ++ shm) with (str "shm-data-address" ++ 61 :: shm).
  by rewrite split_line.
Qed.

Lemma close_lines sid : split (close_text sid) [10] = [str "action=close"; str "session-id=" ++ format_x sid].
Proof.
  unfold close_text. apply split_pair; [by apply str_no_char|]. rewrite list.not_elem_of_app. split; [by apply str_no_char|].
  apply to_base_no_char; [lia|]. intros d Hd. pose proof (digit_char_not_special d Hd). lia.
Qed.

Lemma open_lines port a shm : (10 : Z) ∉ shm ->
  split (open_text port a shm) [10] = [str "action=open"; str "dst-port=" ++ to_string port;
    str "dst-addr-ip4=" ++ to_str 46 false a; str "shm-data-address=" ++ shm].
Proof.
  intros Hs. rewrite split_char by done. unfold open_text.
  rewrite split_ref_app by by apply str_no_char.
  rewrite split_ref_app by (rewrite list.not_elem_of_app; split; [by apply str_no_char|apply to_string_no_sep; lia]).
  rewrite split_ref_app by (rewrite list.not_elem_of_app; split; [by apply str_no_char|apply to_str_no_char; lia]).
  by rewrite split_ref_notin by (rewrite list.not_elem_of_app; split; [by apply str_no_char|done]).
Qed.

(** The SYN/ACK of a server, for a session that has sent its SYN. *)
Definition connected (now_us : Z) (k : tcp_in) (s : session_t) : session_t :=
  set_peer_seq (u32 (k_peer_seq_nr k + 1))
    (set_start_peer_seq (k_peer_seq_nr k) (set_peer_seq (k_peer_seq_nr k) (set_state established (touch now_us (k_window_size k) s)))).

Lemma tcp_syn_ack_aux out_name mappings_in salt now_us now_s m k sessions s w :
  (forall m w, send_ok_b out_name m w = true) ->
  tcp_parse m = Ret (Some k) -> in_wf k ->
  has (k_flags k) FLAG_SYN = true -> has (k_flags k) FLAG_ACK = true -> has (k_flags k) FLAG_RST = false -> has (k_flags k) FLAG_FIN = false ->
  sessions !! k_session_id k = Some s -> s_is_client s = true -> s_state s = syn_sent -> session_wf s ->
  let ack := reply_msg k (s_local_seq s) (u32 (k_peer_seq_nr k + 1)) FLAG_ACK (s_local_window_size s) in
  tcp_run_in out_name mappings_in salt now_us now_s m sessions w =
  Ret (<[k_session_id k := connected now_us k s]> sessions, after_send out_name ack (after_send out_name ack w)).
Proof.
  intros Hok Hp K F1 F2 F3 F4 Hs Hcl Hst Hw ack. unfold tcp_run_in. erewrite lift_bind by exact Hp. cbv beta iota zeta.
  rewrite Hs. cbn [fmap option_fmap option_map]. unfold tcp_in_flags. cbn [ctl_init c_session].
  assert (Ht : s_state (touch now_us (k_window_size k) s) = syn_sent) by done.
  assert (Hc : s_is_client (touch now_us (k_window_size k) s) = true) by done.
  rewrite Ht, bool_decide_false by done. rewrite F1, F3. unfold tcp_in_syn. cbn [ctl_init ctl_inc_ack c_session].
  rewrite Hc, F2. cbn [negb]. rewrite Ht, decide_False by done.
  pose proof (mss_sendable s Hw) as Hm. unfold mbind, prog_bind.
  rewrite tcp_reply_eq by done.
  match goal with |- context [reply_msg k ?a ?b FLAG_ACK ?c] => change (reply_msg k a b FLAG_ACK c) with ack end.
  rewrite Hok. cbn [Z.eqb mret prog_ret]. unfold tcp_in_finish, tcp_in_deliver. cbn [ctl_session ctl_inc_ack ctl_init c_session c_invalid].
  destruct (kw_seq k K) as [Hseq _].
  assert (Hne : (k_peer_seq_nr k =? u32 (k_peer_seq_nr k + 1)) = false).
  { apply Z.eqb_neq. unfold is_u in Hseq. unfold wrap. Z.div_mod_to_equations. lia. }
  cbn [set_peer_seq s_peer_seq set_start_peer_seq set_state]. rewrite Hne.
  unfold mbind, prog_bind. rewrite tcp_reply_eq by done.
  match goal with |- context [reply_msg k ?a ?b FLAG_ACK ?c] => change (reply_msg k a b FLAG_ACK c) with ack end.
  rewrite Hok. cbn [Z.eqb mret prog_ret]. unfold tcp_in_fin. cbn [ctl_session ctl_inc_ack ctl_init c_session]. rewrite F4.
  unfold tcp_in_clean, mbind, prog_bind. cbn. done.
Qed.

Lemma is_client_session peer seq a sp b port : s_is_client (client_session peer seq a sp b port) = true.
Proof. done. Qed.

Lemma client_session_wf peer seq a sp b port :
  bytes a -> zlen a = 4 -> bytes b -> zlen b = 4 -> is_u 32 seq -> session_wf (client_session peer seq a sp b port).
Proof.
  intros. constructor; cbn; try done; unfold MI_IP4_MIN_TCP_MTU, is_u; try lia. split; [unfold zlen; cbn; lia|constructor].
Qed.

Definition reply_id (sid : Z) : message :=
  let reply := str "session-id=" ++ format_x sid in fill_message (allocate_shm_message (zlen reply)) msg_reply 0 reply.

Lemma zlen_format_x sid : is_u 64 sid -> zlen (format_x sid) <= 65.
Proof.
  intros Hs. unfold is_u in Hs. unfold format_x, to_base.
  assert (Hl : forall fuel z acc, zlen (digits_of fuel 16 z acc) <= zlen acc + Z.of_nat fuel).
  { induction fuel as [|fuel IH]; intros z acc; cbn [digits_of]; [lia|]. destruct (_ =? 0).
    - rewrite zlen_cons. lia.
    - specialize (IH (z / 16) (digit_char (z mod 16) :: acc)). rewrite zlen_cons in IH. lia. }
  specialize (Hl (S (Z.to_nat (Z.log2 sid))) sid []). change (zlen []) with 0 in Hl.
  assert (Z.log2 sid <= 63).
  { destruct (Z.eq_dec sid 0) as [->|]; [done|]. assert (Z.log2 sid < 64) by (apply Z.log2_lt_pow2; lia). lia. }
  pose proof (Z.log2_nonneg sid). lia.
Qed.

Lemma tcp_open_request junk out_name from_addr ports sp seq m pad st w port (a : addr) shm :
  (forall dst m w, send_ok_b dst m w = true) ->
  m_data m = open_text port a shm ++ pad -> m_size m = zlen (open_text port a shm) ->
  is_u 16 port -> bytes a -> zlen a = 4 -> (61 : Z) ∉ shm -> (10 : Z) ∉ shm -> zlen shm <= max_id_length ->
  bytes from_addr -> zlen from_addr = 4 -> is_u 32 seq -> pick_port ports (ms_ports st) = Ret sp ->
  exists sid, tcp_calc_session_id port sp a from_addr = Ret sid /\
    let s := client_session (splice (zeros max_id_length) 0 shm) seq from_addr sp a port in
    tcp_run_meta junk out_name from_addr ports seq m st w =
    Ret ({| ms_sessions := match ms_sessions st !! sid with
                           | Some _ => ms_sessions st
                           | None => <[sid := set_local_seq (u32 (seq + 1)) s]> (ms_sessions st)
                           end;
            ms_ports := <[sp := sid]> (ms_ports st) |},
         after_send (sender_of m) (reply_id sid) (after_send out_name (session_msg s seq 0 FLAG_SYN) w)).
Proof.
  intros Hok Hd Hsz Hport Ba La H61 H10 Hshm Bf Lf Hseq Hpick.
  destruct (tcp_calc_session_id_ok port sp a from_addr La Lf) as (sid & Hsid & Usid). exists sid. split; [done|]. cbv zeta.
  unfold tcp_run_meta. erewrite lift_bind by (rewrite Hd, Hsz; by apply rdn_app_l). cbv zeta. rewrite open_lines by done.
  change (zlen _ <? 2) with false. cbv iota.
  assert (Hq : meta_lines junk [str "action=open"; str "dst-port=" ++ to_string port;
    str "dst-addr-ip4=" ++ to_str 46 false a; str "shm-data-address=" ++ shm] meta_request_init =
    Ret (Some {| q_open := true; q_session_id := None; q_dst_addr := Some a; q_dst_port := Some port; q_shm_data_address := Some shm |})).
  { cbn [meta_lines]. change (meta_line junk (str "action=open") meta_request_init) with
      (Ret (Some {| q_open := true; q_session_id := None; q_dst_addr := None; q_dst_port := None; q_shm_data_address := None |})).
    mcbn. rewrite meta_line_dst_port by done. mcbn. rewrite meta_line_dst_addr by done. mcbn. rewrite meta_line_shm by done. done. }
  erewrite lift_bind by exact Hq. cbn [q_open]. unfold meta_open. cbn [q_dst_port q_dst_addr q_shm_data_address].
  erewrite lift_bind by exact Hpick. erewrite lift_bind by exact Hsid.
  erewrite lift_bind by (unfold set_shm_peer; apply wr_ok; [lia|rewrite zlen_zeros by (unfold max_id_length; lia); done]).
  set (s := client_session _ seq from_addr sp a port).
  pose proof (client_session_wf (splice (zeros max_id_length) 0 shm) seq from_addr sp a port Bf Lf Ba La Hseq) as Hw. fold s in Hw.
  pose proof (send_session_msg out_name s seq 0 FLAG_SYN MI_IP4_MIN_TCP_MTU w Hw ltac:(unfold MI_IP4_MIN_TCP_MTU; lia)) as Hsend.
  rewrite Hok in Hsend. erewrite prog_bind_step by exact Hsend. cbn [Z.eqb].
  pose proof (zlen_format_x sid Usid) as Hf. pose proof (zlen_nonneg (format_x sid)).
  fold (reply_id sid). rewrite send_after.
  - specialize (Hok (sender_of m) (reply_id sid) (after_send out_name (session_msg s seq 0 FLAG_SYN) w)). unfold send_ok_b in Hok.
    rewrite Hok. done.
  - cbn [reply_id fill_message allocate_shm_message m_size]. rewrite zlen_app. change (zlen (str "session-id=")) with 11.
    rewrite wrap_small by (unfold is_u; lia). lia.
Qed.

End Client.

(** ** Properties *)

(** C33: a client connects.  The request "action=open" for a port and an IPv4
    address sends a SYN from an unused local port, tells the client the id of the
    session, and records it; when the server's SYN/ACK arrives, the receive
    handler finds that same session, marks it established, and acknowledges (the
    acknowledgement is sent twice: once for the SYN/ACK and once more because its
    number is below the one now expected).  All sends are assumed to succeed. *)
Theorem tcp_client_connect `{Transport W} (junk : nat -> Z) (out_name : list Z) (from_addr : addr) (ports : list Z) (sp seq : Z)
  (m : message) (pad : list Z) (st : meta_state) (w w2 : W) (port : Z) (a : addr) (shm : list Z)
  (mappings_in : gmap Z (list Z)) (salt : list Z) (us now : Z) (m2 : message) (k : tcp_in)
  (Hok : forall dst m w, send_ok_b dst m w = true)
  (Hm : m_data m = open_text port a shm ++ pad /\ m_size m = zlen (open_text port a shm))
  (Hdst : is_u 16 port /\ bytes a /\ zlen a = 4) (Hshm : (61 : Z) ∉ shm /\ (10 : Z) ∉ shm /\ zlen shm <= max_id_length)
  (Hfrom : bytes from_addr /\ zlen from_addr = 4) (Hseq : is_u 32 seq) (Hpick : pick_port ports (ms_ports st) = Ret sp)
  (Hnew : forall sid, tcp_calc_session_id port sp a from_addr = Ret sid -> ms_sessions st !! sid = None)
  (Hm2 : is_segment m2 k)
  (Hfl : has (k_flags k) FLAG_SYN = true /\ has (k_flags k) FLAG_ACK = true /\ has (k_flags k) FLAG_RST = false /\ has (k_flags k) FLAG_FIN = false)
  (Hends : k_a_from k = a /\ k_a_to k = from_addr /\ k_source_port k = port /\ k_destination_port k = sp) :
  exists sid st1,
    let s := client_session (splice (zeros max_id_length) 0 shm) seq from_addr sp a port in
    let s1 := set_local_seq (u32 (seq + 1)) s in
    tcp_run_meta junk out_name from_addr ports seq m st w =
      Ret (st1, after_send (sender_of m) (reply_id sid) (after_send out_name (session_msg s seq 0 FLAG_SYN) w)) /\
    ms_sessions st1 = <[sid := s1]> (ms_sessions st) /\ ms_ports st1 = <[sp := sid]> (ms_ports st) /\
    let ack := reply_msg k (u32 (seq + 1)) (u32 (k_peer_seq_nr k + 1)) FLAG_ACK INITIAL_LOCAL_WINDOW_SIZE in
    tcp_run_in out_name mappings_in salt us now m2 (ms_sessions st1) w2 =
      Ret (<[sid := connected us k s1]> (ms_sessions st), after_send out_name ack (after_send out_name ack w2)) /\
    s_state (connected us k s1) = established.
Proof.
  destruct Hm as [Hd Hsz], Hdst as (Hp & Ba & La), Hshm as (H61 & H10 & Hl), Hfrom as [Bf Lf], Hfl as (F1 & F2 & F3 & F4), Hends as (E1 & E2 & E3 & E4).
  destruct (tcp_open_request junk out_name from_addr ports sp seq m pad st w port a shm Hok Hd Hsz Hp Ba La H61 H10 Hl Bf Lf Hseq Hpick)
    as (sid & Hsid & Hrun). cbv zeta in Hrun. rewrite (Hnew sid Hsid) in Hrun.
  eexists sid, _. cbv zeta. split; [exact Hrun|]. cbn [ms_sessions ms_ports]. split; [done|]. split; [done|].
  pose proof (is_segment_wf _ _ Hm2) as K. destruct Hm2 as [_ Hp2].
  pose proof (kw_sid k K) as Hk. rewrite E1, E2, E3, E4, Hsid in Hk. injection Hk as Hk.
  split; [|done]. rewrite Hk.
  pose proof (client_session_wf (splice (zeros max_id_length) 0 shm) seq from_addr sp a port Bf Lf Ba La Hseq) as Hw.
  rewrite (tcp_syn_ack_aux out_name mappings_in salt us now m2 k _ (set_local_seq (u32 (seq + 1))
    (client_session (splice (zeros max_id_length) 0 shm) seq from_addr sp a port)) w2 (Hok out_name) Hp2 K F1 F2 F3 F4); try done.
  - by rewrite insert_insert_eq.
  - apply lookup_insert_eq.
  - destruct Hw. constructor; try done. apply wrap_range. lia.
Qed.

Definition ex_open_message : message :=
  let data := open_text 1234 ex_peer (str "web") in fill_message (allocate_shm_message (zlen data)) msg_new 0 data.

Lemma tcp_client_connect_witness :
  exists sid st1,
    tcp_run_meta (fun _ => 0) (str "ip4") ex_me [80] 7 ex_open_message {| ms_sessions := ∅; ms_ports := ∅ |} {| wire_log := [] |} =
      Ret (st1, after_send [] (reply_id sid) (after_send (str "ip4")
        (session_msg (client_session (splice (zeros max_id_length) 0 (str "web")) 7 ex_me 80 ex_peer 1234) 7 0 FLAG_SYN) {| wire_log := [] |})) /\
    ms_ports st1 = <[80 := sid]> ∅.
Proof.
  set (k := seg_of (ip_message ex_peer ex_me (ex_seg 99 8 SYN_ACK []))).
  destruct (tcp_client_connect (W := wire) (fun _ => 0) (str "ip4") ex_me [80] 80 7 ex_open_message []
    {| ms_sessions := ∅; ms_ports := ∅ |} {| wire_log := [] |} {| wire_log := [] |} 1234 ex_peer (str "web") ex_tcp_maps ex_salt 1 2
    (ip_message ex_peer ex_me (ex_seg 99 8 SYN_ACK [])) k) as (sid & st1 & H1 & _ & H3 & _).
  - reflexivity.
  - split; vm_compute; reflexivity.
  - split; [unfold is_u; lia|]. split; [concrete_bytes|reflexivity].
  - split; [by apply str_no_char|]. split; [by apply str_no_char|]. vm_compute. discriminate.
  - split; [concrete_bytes|reflexivity].
  - unfold is_u. lia.
  - reflexivity.
  - intros sid _. apply lookup_empty.
  - apply ex_is_segment; vm_compute; reflexivity.
  - vm_compute. auto.
  - vm_compute. auto.
  - exists sid, st1. split; [exact H1|exact H3].
Defined.

(** C34: what the request "action=close" does for the session id the server
    itself has given out.  For an id of 2^31 or more - that is, for practically
    all ids, which are 64-bit hashes - the conversion of the id throws and the
    server ends.  For a smaller id the session is removed, its port is freed and a
    FIN numbered one above the send position goes out; for a session that was not
    opened by a client, the server reads past the end of the port table; for an
    unknown id nothing happens. *)
Theorem tcp_client_close `{Transport W} (junk : nat -> Z) (out_name : list Z) (from_addr : addr) (ports : list Z) (seq : Z)
  (m : message) (pad : list Z) (st : meta_state) (w : W) (sid : Z)
  (Hm : m_data m = close_text sid ++ pad /\ m_size m = zlen (close_text sid)) (Hsid : is_u 64 sid)
  (Hwf : sessions_wf (ms_sessions st)) :
  tcp_run_meta junk out_name from_addr ports seq m st w =
  if 2 ^ 31 <=? sid then Fault UncaughtException
  else match ms_sessions st !! sid with
       | None => Ret (st, w)
       | Some s =>
         match ms_ports st !! s_local_port s with
         | None => Fault OutOfBounds
         | Some id => Ret ({| ms_sessions := delete sid (ms_sessions st);
                              ms_ports := if id =? sid then delete (s_local_port s) (ms_ports st) else ms_ports st |},
                           after_send out_name (session_msg s (u32 (s_local_seq s + 1)) (s_peer_seq s) FLAG_FIN) w)
         end
       end.
Proof.
  destruct Hm as [Hd Hsz]. unfold tcp_run_meta. erewrite lift_bind by (rewrite Hd, Hsz; by apply rdn_app_l). cbv zeta. rewrite close_lines.
  change (zlen _ <? 2) with false. cbv iota.
  assert (Hq : meta_lines junk [str "action=close"; str "session-id=" ++ format_x sid] meta_request_init =
    if 2 ^ 31 <=? sid then Fault UncaughtException
    else Ret (Some {| q_open := false; q_session_id := Some sid; q_dst_addr := None; q_dst_port := None; q_shm_data_address := None |})).
  { cbn [meta_lines]. change (meta_line junk (str "action=close") meta_request_init) with (Ret (Some meta_request_init)). mcbn.
    rewrite meta_line_session_id by apply Hsid. by destruct (2 ^ 31 <=? sid). }
  destruct (2 ^ 31 <=? sid); [by erewrite lift_bind_Fault by exact Hq|]. erewrite lift_bind by exact Hq. cbn [q_open].
  unfold meta_close. cbn [q_session_id]. destruct (ms_sessions st !! sid) as [s|] eqn:Es; [|done]. cbv zeta.
  destruct (ms_ports st !! s_local_port s) as [id|]; [|done].
  rewrite (prog_bind_step _ _ _ _ _ (send_session_msg out_name s (u32 (s_local_seq s + 1)) (s_peer_seq s) FLAG_FIN MI_IP4_MIN_TCP_MTU w
    (Hwf _ _ Es) ltac:(unfold MI_IP4_MIN_TCP_MTU; lia))). done.
Qed.

Definition ex_close_message (sid : Z) : message :=
  let data := close_text sid in fill_message (allocate_shm_message (zlen data)) msg_new 0 data.

Lemma tcp_client_close_witness :
  tcp_run_meta (fun _ => 0) (str "ip4") ex_me [] 0 (ex_close_message 0xdeadbeefcafe)
    {| ms_sessions := ∅; ms_ports := ∅ |} oracle_ok = Fault UncaughtException.
Proof.
  rewrite (tcp_client_close (W := oracle) (fun _ => 0) (str "ip4") ex_me [] 0 (ex_close_message 0xdeadbeefcafe) []
    {| ms_sessions := ∅; ms_ports := ∅ |} oracle_ok 0xdeadbeefcafe).
  - reflexivity.
  - split; vm_compute; reflexivity.
  - unfold is_u. lia.
  - apply map_Forall_empty.
Defined.
