(* ===== verification/Tests.v ===== *)
(** * The test programs: [src/src/tests]

    The unit tests as programs that end ([Ret]) when all their assertions hold; [shm_dump], which prints a
    queue; [arp_test] and [tcp_test], clients of the ARP and of the TCP server (of what they print only the
    reply of the ARP server is kept). *)

From S2P Require Import Prelude Net Checksum Str Addr SipHash ShmMessage Shm Transport Queues Arp TcpWire TcpData Tcp TcpMeta TcpSafe TcpFlow TcpClient.

(** ** Code: unit tests *)

(** [tests/addresses_test.cpp] *)
Definition addresses_test (junk : nat -> Z) : outcome unit :=
  a0 ← addr_of_string junk (str "1.2.3.3") (str ".") false;
  a1 ← addr_of_string junk (str "1.2.3.4") (str ".") false;
  a2 ← addr_of_string junk (str "1.2.33.4") (str ".") true;
  a3 ← addr_of_string junk (str "1.2.51.4") (str ".") false;
  a4 ← addr_of_string junk (str "1.2.3.5") (str ".") false;
  e12 ← addr_eq a1 a2; _ ← assertb (negb e12);
  e23 ← addr_eq a2 a3; _ ← assertb e23;
  m1 ← amap_insert [] a1 a1;
  f0 ← amap_find m1 a0; _ ← assertb (bool_decide (f0 = None));
  f4 ← amap_find m1 a4; _ ← assertb (bool_decide (f4 = None));
  m2 ← amap_insert [] a0 a0;
  m2 ← amap_insert m2 a1 a1;
  f0 ← amap_find m2 a0; _ ← assertb (negb (bool_decide (f0 = None)));
  f4 ← amap_find m2 a4; _ ← assertb (bool_decide (f4 = None));
  Ret tt.

(** [tests/checksum_tcp_udp_test.cpp]; [sizeof] counts the terminating 0. *)
Definition checksum_tcp_udp_test (junk : nat -> Z) : outcome unit :=
  from ← addr_of_string junk (str "192.168.1.9") (str ".") false;
  to ← addr_of_string junk (str "10.208.0.10") (str ".") false;
  let test_data := str "Dit is een test." ++ [0] in
  checksum ← tcp_udp_checksum from to test_data (zlen test_data) 42;
  assertb (checksum =? 0x9152).

(** [assert(memcmp(x, y, n) == 0)] *)
Definition assert_same (x y : list Z) (n : Z) : outcome unit :=
  a ← rdn x 0 n; b ← rdn y 0 n; assertb (beq a b).

(** [tests/shm_message_test.cpp] *)
Definition shm_message_test : outcome unit :=
  let full_pkt := [1; 2; 3; 4; 5; 6; 7; 8; 9; 10] in
  m ← wrap_message_up 10 full_pkt 3 full_pkt 1 (padd full_pkt 3) 6 (padd full_pkt 4) None;
  o ← unwrap_message_up m;
  _ ← assertb (u_full_pkt_len o =? 10);
  _ ← assertb (u_from_len o =? 3);
  _ ← assertb (u_to_len o =? 1);
  _ ← assertb (u_pl_len o =? 6);
  _ ← assert_same full_pkt (u_from o) (u_from_len o);
  _ ← assert_same (padd full_pkt 3) (u_to o) (u_to_len o);
  _ ← assert_same (padd full_pkt 4) (u_pl o) (u_pl_len o);
  let from := [1; 2; 3; 4] in
  let to := [5; 6] in
  let pl := [7] in
  m ← wrap_message_down 4 from 2 to 1 pl None;
  d ← unwrap_message_down m;
  _ ← assertb (d_from_len d =? 4);
  _ ← assertb (d_to_len d =? 2);
  _ ← assertb (d_pl_len d =? 1);
  _ ← assert_same from (d_from d) (d_from_len d);
  _ ← assert_same to (d_to d) (d_to_len d);
  assert_same pl (d_pl d) (d_pl_len d).

(** ** Code: [tests/shm_dump.cpp] *)

(** The word printed for a type. *)
Inductive type_word : Set := TyNew | TyReply | TyAny | TyUnknown (type : Z).

Definition word_of_type (type : Z) : type_word :=
  if type =? msg_new then TyNew else if type =? msg_reply then TyReply else if type =? msg_any then TyAny else TyUnknown type.

(** What is printed of a message; the texts end at a 0, as [printf] has it. *)
Record dump_entry := {
  de_msg_nr : Z;
  de_type : type_word;
  de_length : Z;
  de_sender : list Z;
  de_content : list Z }.

Fixpoint dump_loop (fuel : nat) (s : segment) (cur : Z) : outcome (list dump_entry) :=
  match fuel with
  | O => Ret []
  | S f =>
    if s_filled s - cur >=? sizeof_message then
      let m := padd (s_data s) cur in
      length ← field m 16 4;
      let total_length := PAD8 (sizeof_message + length) in
      cur_msg_nr ← field m 24 8;
      _ ← assertb (length >? 0);
      type ← field m 20 4;
      content ← rdn m 64 length;
      let e := {| de_msg_nr := cur_msg_nr; de_type := word_of_type type; de_length := length;
                  de_sender := c_str (padd m 32); de_content := c_str content |} in
      let cur := cur + total_length in
      _ ← assertb (Z.land cur 7 =? 0);
      rest ← dump_loop f s cur;
      Ret (e :: rest)
    else Ret []
  end.

(** [main] behind the system calls: [None] is the exit code 1 when one of them fails. *)
Definition shm_dump (s : option segment) : outcome (option (list dump_entry)) :=
  match s with
  | None => Ret None
  | Some s => es ← dump_loop (scan_fuel s) s 0; Ret (Some es)
  end.

(** ** Code: clients *)

Section Clients.
Context {W : Type} `{Transport W}.

(** [tests/arp_test.cpp] with its queue: the argument [ip_addr], and what [wait_for_message] returns; the reply printed. *)
Definition arp_test (arp_request_name ip_addr : list Z) (reply : option message) : prog W (option (list Z)) :=
  let msg := str "search-mac=" ++ ip_addr in
  let res_req_msg := fill_message (allocate_shm_message (zlen msg)) msg_new 0 msg in
  rc_send ← send arp_request_name res_req_msg true;
  _ ← lift (assertb rc_send.1);
  match reply with
  | Some reply_msg => reply_str ← lift (rdn (m_data reply_msg) 0 (m_size reply_msg)); mret (Some (c_str reply_str))
  | None => mret None
  end.

(** [tests/tcp_test.cpp]: the request at its start ... *)
Definition open_req : list Z :=
  str "action=open" ++ 10 :: str "dst-port=2500" ++ 10 :: str "dst-addr-ip4=192.168.1.1" ++ 10 :: str "shm-data-address=local-pl-tcp".

Definition tcp_test_open (tcp_meta : list Z) : prog W unit :=
  rc_send ← send tcp_meta (fill_message (allocate_shm_message (zlen open_req)) msg_new 0 open_req) true;
  lift (assertb rc_send.1).

(** ... and a turn of its loop. *)
Record tcp_test_state := {
  tt_session_id : Z;
  tt_i : Z;
  tt_nr : Z;
  tt_m_b_msg : list Z }.

Definition tcp_test_init : tcp_test_state := {| tt_session_id := 0; tt_i := 0; tt_nr := 0; tt_m_b_msg := [] |}.

(** [std::strtoull(.., nullptr, 16)]: 0 without a digit, the largest value when it does not fit. *)
Definition c_strtoull (s : list Z) : Z :=
  match stoull 16 s with
  | NVal v => v
  | NInvalid => 0
  | NRange => 2 ^ 64 - 1
  end.

(** The message from the meta queue: the number of the session. *)
Definition tcp_test_meta (m_a : option message) (st : tcp_test_state) : outcome tcp_test_state :=
  match m_a with
  | None => Ret st
  | Some m =>
    msg ← rdn (m_data m) 0 (m_size m);
    Ret (if beq (take 11 msg) (str "session-id=")
         then {| tt_session_id := c_strtoull (c_str (drop 11 msg)); tt_i := tt_i st; tt_nr := tt_nr st; tt_m_b_msg := tt_m_b_msg st |}
         else st)
  end.

(** The message with data: what is behind the number of the session. *)
Definition tcp_test_pl (m_b : option message) (st : tcp_test_state) : outcome tcp_test_state :=
  match m_b with
  | None => Ret st
  | Some m =>
    m_b_msg ← (if m_size m <? 8 then Fault UncaughtException else rdn (m_data m) 8 (m_size m - 8));
    Ret {| tt_session_id := tt_session_id st; tt_i := 9; tt_nr := tt_nr st; tt_m_b_msg := m_b_msg |}
  end.

Definition tcp_test_turn (tcp_upper : list Z) (m_a m_b : option message) (st : tcp_test_state) : prog W tcp_test_state :=
  st ← lift (tcp_test_meta m_a st);
  st ← lift (tcp_test_pl m_b st);
  let i := tt_i st + 1 in
  if i =? 10 then
    let nr := tt_nr st + 1 in
    let msg := str "Hello back! " ++ to_string nr ++ 32 :: tt_m_b_msg st ++ [10] in
    let complete_msg := le_bytes 8 (tt_session_id st) ++ msg in
    rc_send ← send tcp_upper (fill_message (allocate_shm_message (zlen complete_msg)) msg_new 0 complete_msg) true;
    _ ← lift (assertb rc_send.1);
    mret {| tt_session_id := tt_session_id st; tt_i := i; tt_nr := nr; tt_m_b_msg := tt_m_b_msg st |}
  else mret {| tt_session_id := tt_session_id st; tt_i := i; tt_nr := tt_nr st; tt_m_b_msg := tt_m_b_msg st |}.

End Clients.

(** ** Lemmas *)

(** The entry for a message. *)
Definition entry_of (m : message) : dump_entry :=
  {| de_msg_nr := m_msg_nr m; de_type := word_of_type (m_type m); de_length := m_size m; de_sender := sender_of m;
     de_content := c_str (take (Z.to_nat (m_size m)) (m_data m)) |}.

Lemma c_str_app_0 a b : 0 ∈ a -> c_str (a ++ b) = c_str a.
Proof.
  induction a as [|x a IH]; intros Ha; [by apply not_elem_of_nil in Ha|]. cbn. destruct (Z.eqb_spec x 0); [done|].
  f_equal. apply IH. by apply elem_of_cons in Ha as [|].
Qed.

(** The two texts of an encoded slot. *)
Lemma enc_texts m rest : slot m -> 0 ∈ m_sender m ->
  rdn (enc m ++ rest) 64 (m_size m) = Ret (take (Z.to_nat (m_size m)) (m_data m)) /\ c_str (padd (enc m ++ rest) 32) = sender_of m.
Proof.
  intros (Hid & Hsa & Hs & Ht & Hn & Hsn & Hd) H0. pose proof (PAD8_spec (sizeof_message + m_size m)) as [HP _]. split.
  - set (n := Z.to_nat (m_size m)). unfold enc. rewrite <- (take_drop n (m_data m)) at 1. rewrite <- !app_assoc.
    apply rdn_app_mid; [by rewrite zlen_header|]. unfold n. rewrite zlen_take; unfold sizeof_message in *; lia.
  - unfold enc, header_bytes. rewrite !app_assoc. rewrite <- (app_assoc _ (m_data m) rest), <- (app_assoc _ (m_sender m)).
    rewrite padd_app by (autorewrite with zlen; lia). by apply c_str_app_0.
Qed.

(** From behind a prefix, the loop prints the rest of the queue. *)
Lemma dump_loop_spec fuel s pre q free :
  s_data s = encs pre ++ encs q ++ free -> s_filled s = zlen (encs pre) + zlen (encs q) ->
  Forall slot pre -> Forall slot q -> Forall (fun m => 0 ∈ m_sender m) q -> (length q < fuel)%nat ->
  dump_loop fuel s (zlen (encs pre)) = Ret (map entry_of q).
Proof.
  revert pre q. induction fuel as [|f IH]; intros pre q Hdata Hfill Hpre Hq H0 Hf; [lia|]. cbn [dump_loop].
  destruct q as [|m q].
  { rewrite Hfill. by replace (zlen (encs pre) + zlen (encs []) - zlen (encs pre) >=? sizeof_message)
      with false by (change (zlen (encs [])) with 0; unfold sizeof_message; lia). }
  apply list.Forall_cons in Hq as [Hm Hq]. apply list.Forall_cons in H0 as [H0 H0q]. destruct (zlen_enc_bounds m Hm) as [Hlen Hal].
  rewrite encs_cons, zlen_app in Hfill. pose proof (zlen_nonneg (encs q)).
  replace (s_filled s - zlen (encs pre) >=? sizeof_message) with true by lia.
  assert (Hp : padd (s_data s) (zlen (encs pre)) = enc m ++ encs q ++ free) by (by rewrite Hdata, padd_app, encs_cons, app_assoc).
  rewrite Hp. destruct (enc_fields m (encs q ++ free) Hm) as (-> & -> & ->). mcbn.
  pose proof Hm as (_ & _ & Hs & _). replace (m_size m >? 0) with true by lia. mcbn.
  destruct (enc_texts m (encs q ++ free) Hm H0) as [-> ->]. mcbn. rewrite <- zlen_enc by done.
  replace (Z.land (zlen (encs pre) + zlen (enc m)) 7 =? 0) with true
    by (rewrite land7 in *; rewrite Z.add_mod, (encs_aligned pre), Hal by (done || lia); done).
  mcbn. specialize (IH (pre ++ [m]) q). rewrite encs_app, zlen_app in IH. change (encs [m]) with (enc m ++ []) in IH. rewrite app_nil_r in IH.
  cbn [length] in Hf. rewrite IH; [done| |lia| |done|done|lia].
  - by rewrite Hdata, encs_cons, <- !app_assoc.
  - apply list.Forall_app. split; [done|by constructor].
Qed.

(** The number of the session, from the server's text. *)
Lemma test_session_id sid pad (st : tcp_test_state) m : is_u 64 sid ->
  m_data m = str "session-id=" ++ format_x sid ++ pad -> m_size m = zlen (str "session-id=" ++ format_x sid) ->
  tcp_test_meta (Some m) st = Ret {| tt_session_id := sid; tt_i := tt_i st; tt_nr := tt_nr st; tt_m_b_msg := tt_m_b_msg st |}.
Proof.
  intros Hs Hd Hz. unfold tcp_test_meta. rewrite Hd, Hz, app_assoc, rdn_app_l by done. mcbn.
  change (take 11 (str "session-id=" ++ format_x sid)) with (str "session-id="). rewrite beq_refl.
  change (drop 11 (str "session-id=" ++ format_x sid)) with (format_x sid).
  assert (Hx : c_str (format_x sid) = format_x sid).
  { rewrite <- (app_nil_r (format_x sid)) at 1. rewrite c_str_app; [by rewrite app_nil_r|]. unfold format_x. apply to_base_no_char; [lia|].
    intros d Hdg. pose proof (digit_char_not_special d Hdg). unfold digit_char in *. destruct (d <? 10); lia. }
  rewrite Hx. unfold c_strtoull. destruct (number_roundtrip 0 sid ltac:(lia) Hs) as [_ Hn]. unfold my_stoull_hex in Hn.
  destruct (stoull 16 (format_x sid)); cbn [catch_invalid] in Hn; [by injection Hn as ->|done|done].
Qed.

(** What is sent back for data. *)
Definition hello (sid nr : Z) (data : list Z) : message :=
  let msg := str "Hello back! " ++ to_string nr ++ 32 :: data ++ [10] in
  fill_message (allocate_shm_message (zlen (le_bytes 8 sid ++ msg))) msg_new 0 (le_bytes 8 sid ++ msg).

Lemma test_answers `{Transport W} upper (sid nr i : Z) (old : list Z) m (data pad : list Z) (w w' : W) k :
  m_data m = le_bytes 8 sid ++ data ++ pad -> m_size m = 8 + zlen data -> send upper (hello sid (nr + 1) data) true w = Ret ((true, k), w') ->
  tcp_test_turn upper None (Some m) {| tt_session_id := sid; tt_i := i; tt_nr := nr; tt_m_b_msg := old |} w =
  Ret ({| tt_session_id := sid; tt_i := 10; tt_nr := nr + 1; tt_m_b_msg := data |}, w').
Proof.
  intros Hd Hz Hsend. pose proof (zlen_nonneg data). unfold tcp_test_turn. erewrite lift_bind by reflexivity.
  erewrite lift_bind.
  2: { unfold tcp_test_pl. rewrite Hz, Hd. replace (8 + zlen data <? 8) with false by lia. replace (8 + zlen data - 8) with (zlen data) by lia.
       rewrite rdn_app_mid by (autorewrite with zlen; lia). mcbn. reflexivity. }
  cbn [tt_i tt_nr tt_session_id tt_m_b_msg]. change (9 + 1 =? 10) with true. cbv iota. unfold hello in Hsend. cbv zeta in Hsend |- *.
  rewrite (prog_bind_step _ _ _ _ _ Hsend). by erewrite lift_bind by reflexivity.
Qed.

(** ** Properties *)

(** The unit tests of the repository hold of the model: every assertion of theirs. *)
Theorem unit_tests_pass (junk : nat -> Z) :
  addresses_test junk = Ret tt /\ checksum_tcp_udp_test junk = Ret tt /\ shm_message_test = Ret tt.
Proof. split; [vm_compute; reflexivity|]. split; vm_compute; reflexivity. Qed.

(** [shm_dump] prints a queue as it is: every message in order, nothing else, and none of its assertions fails. *)
Theorem shm_dump_prints (s : segment) (q : list message) (Hrep : seg_rep s q) (H0 : Forall (fun m => 0 ∈ m_sender m) q) :
  shm_dump (Some s) = Ret (Some (map entry_of q)).
Proof.
  destruct Hrep as (free & Hdata & Hfill & Htot & Hslots). unfold shm_dump. pose proof (length_encs q Hslots) as Hlen.
  change 0 with (zlen (encs [])). rewrite (dump_loop_spec (scan_fuel s) s [] q free); try done. unfold scan_fuel, sizeof_message. rewrite Hfill. Z.div_mod_to_equations. lia.
Qed.

(** A queue of two messages. *)
Definition ex_dumped : segment :=
  match send_message (str "a") 5 LockOk false [] (fill_message (allocate_shm_message 3) msg_new 0 (str "abc"))
    (Some {| s_total_size := 512; s_filled := 0; s_most_recent := 0; s_data := zeros 512; s_locked := false |}) with
  | Ret (_, _, Some s) => match send_message (str "bc") 6 LockOk false [] (fill_message (allocate_shm_message 9) msg_reply 77 (str "12345678 ")) (Some s) with
                          | Ret (_, _, Some s) => s | _ => s end
  | _ => {| s_total_size := 0; s_filled := 0; s_most_recent := 0; s_data := []; s_locked := false |}
  end.

(** [tcp_test] against the TCP server: its request opens a session, with a SYN to 192.168.1.1 port 2500; from the server's reply it has the
    number of this session, and data that come for the session are answered with a message for it. *)
Theorem tcp_test_session `{Transport W} (junk : nat -> Z) (out_name upper : list Z) (from_addr : addr) (ports : list Z) (sp seq : Z) (m : message)
  (pad : list Z) (st : meta_state) (w w1 w2 : W) (Hok : forall dst m w, send_ok_b dst m w = true)
  (Hm : m_data m = open_req ++ pad /\ m_size m = zlen open_req) (Hfrom : bytes from_addr /\ zlen from_addr = 4) (Hseq : is_u 32 seq)
  (Hpick : pick_port ports (ms_ports st) = Ret sp) :
  exists sid st',
    let s := client_session (splice (zeros max_id_length) 0 (str "local-pl-tcp")) seq from_addr sp [192; 168; 1; 1] 2500 in
    tcp_run_meta junk out_name from_addr ports seq m st w =
      Ret (st', after_send (sender_of m) (reply_id sid) (after_send out_name (session_msg s seq 0 FLAG_SYN) w)) /\
    ms_ports st' = <[sp := sid]> (ms_ports st) /\ is_Some (ms_sessions st' !! sid) /\
    forall r rpad d data dpad k, m_data r = m_data (reply_id sid) ++ rpad -> m_size r = m_size (reply_id sid) ->
      m_data d = le_bytes 8 sid ++ data ++ dpad -> m_size d = 8 + zlen data ->
      send upper (hello sid 1 data) true w1 = Ret ((true, k), w2) ->
      exists st1, tcp_test_turn upper (Some r) None tcp_test_init w1 = Ret (st1, w1) /\
        exists st2, tcp_test_turn upper None (Some d) st1 w1 = Ret (st2, w2).
Proof.
  destruct Hm as [Hd Hz], Hfrom as [Bf Lf].
  destruct (tcp_open_request junk out_name from_addr ports sp seq m pad st w 2500 [192; 168; 1; 1] (str "local-pl-tcp") Hok Hd Hz) as (sid & Hsid & Hrun);
    try done; try (unfold is_u; lia); try (by concrete_bytes); try (by apply str_no_char).
  assert (Us : is_u 64 sid) by (destruct (tcp_calc_session_id_ok 2500 sp [192; 168; 1; 1] from_addr eq_refl Lf) as (sid' & E & U); congruence).
  eexists sid, _. cbv zeta in Hrun |- *. split; [exact Hrun|]. cbn [ms_ports ms_sessions]. split; [done|]. split.
  { destruct (ms_sessions st !! sid) eqn:E; [by rewrite E|by rewrite lookup_insert_eq]. }
  intros r rpad d data dpad k Hr Hrs Hdd Hds Hsend. pose proof (zlen_format_x sid Us) as Hf. pose proof (zlen_nonneg (format_x sid)).
  assert (Hmeta : forall st, tcp_test_meta (Some r) st = Ret {| tt_session_id := sid; tt_i := tt_i st; tt_nr := tt_nr st; tt_m_b_msg := tt_m_b_msg st |}).
  { intros st'. apply (test_session_id sid rpad); [done|by rewrite Hr; unfold reply_id; cbn [fill_message m_data]; rewrite <- app_assoc|].
    rewrite Hrs. unfold reply_id. cbn [fill_message allocate_shm_message m_size]. apply wrap_small. rewrite zlen_app. change (zlen (str "session-id=")) with 11. unfold is_u; lia. }
  eexists. split; [unfold tcp_test_turn; erewrite lift_bind by apply Hmeta; erewrite lift_bind by reflexivity; reflexivity|].
  eexists. by apply (test_answers upper sid 0 1 [] d data dpad w1 w2 k).
Qed.

(** ** Witnesses *)

Lemma shm_dump_prints_witness : shm_dump (Some ex_dumped) = Ret (Some
  [{| de_msg_nr := 1; de_type := TyNew; de_length := 3; de_sender := str "a"; de_content := str "abc" |};
   {| de_msg_nr := 77; de_type := TyReply; de_length := 9; de_sender := str "bc"; de_content := str "12345678 " |}]).
Proof.
  pose (m1 := padded (stamp (str "a") 5 1 (fill_message (allocate_shm_message 3) msg_new 0 (str "abc"))) (zeros 5)).
  pose (m2 := padded (stamp (str "bc") 6 77 (fill_message (allocate_shm_message 9) msg_reply 77 (str "12345678 "))) (zeros 7)).
  refine (shm_dump_prints ex_dumped [m1; m2] _ _).
  - exists (zeros 360). split; [vm_compute; reflexivity|]. split; [vm_compute; reflexivity|]. split; [vm_compute; reflexivity|].
    do 2 (apply list.Forall_cons; split; [repeat split; vm_compute; congruence|]). constructor.
  - do 2 (apply list.Forall_cons; split; [refine (bool_decide_unpack _ _); by vm_compute|]). constructor.
Defined.

Definition ex_open_request : message := fill_message (allocate_shm_message (zlen open_req)) msg_new 0 open_req.

Lemma tcp_test_session_witness : exists sid st',
  tcp_run_meta (fun _ => 0) (str "ip4") ex_me [80] 7 ex_open_request {| ms_sessions := ∅; ms_ports := ∅ |} {| wire_log := [] |} =
    Ret (st', after_send [] (reply_id sid) (after_send (str "ip4")
      (session_msg (client_session (splice (zeros max_id_length) 0 (str "local-pl-tcp")) 7 ex_me 80 [192; 168; 1; 1] 2500) 7 0 FLAG_SYN) {| wire_log := [] |})) /\
  ms_ports st' = {[80 := sid]}.
Proof.
  destruct (tcp_test_session (W := wire) (fun _ => 0) (str "ip4") (str "up") ex_me [80] 80 7 ex_open_request [] {| ms_sessions := ∅; ms_ports := ∅ |}
    {| wire_log := [] |} {| wire_log := [] |} {| wire_log := [] |}) as (sid & st' & H1 & H2 & _).
  - reflexivity.
  - split; vm_compute; reflexivity.
  - split; [concrete_bytes|reflexivity].
  - unfold is_u. lia.
  - reflexivity.
  - exists sid, st'. split; [exact H1|exact H2].
Defined.
