(* ===== verification/TcpSegments.v ===== *)
(** * TCP segments: sending and parsing them back

    [send_tcp_packet] against its specification, and the receive handler's
    parser as the inverse of the packet builder. *)

From S2P Require Import Prelude Net Checksum Str Addr SipHash ShmMessage Transport Ip4In TcpWire TcpData Tcp TcpSafe.

(** ** Lemmas *)

(** What the receiver reads from a segment it was sent. *)
Record parsed_as (from to : addr) (sp dp seq ack flags win : Z) (data : list Z) (k : tcp_in) : Prop := {
  pa_from : k_a_from k = from;
  pa_to : k_a_to k = to;
  pa_ports : k_source_port k = u16 sp /\ k_destination_port k = u16 dp;
  pa_seq : k_peer_seq_nr k = u32 seq;
  pa_ack : k_ack_seq_nr k = u32 ack;
  pa_flags : k_flags k = u8 flags;
  pa_window : k_window_size k = u16 win;
  pa_payload : payload k = data }.

Lemma tcp_parse_seg_message m full pad from to sp dp seq ack flags win data s :
  tcp_message m full from to s pad -> tcp_seg from to sp dp seq ack flags win data s ->
  exists k, tcp_parse m = Ret (Some k) /\ parsed_as from to sp dp seq ack flags win data k /\ k_mss_index k = 1.
Proof.
  intros (Hm & Bk & Bf & Lf & Bt & Lt & _ & Lps & Lk & _) (Bs & (ck & Hs) & Hck). pose proof (zlen_nonneg data).
  assert (Ls : zlen s = 20 + zlen data) by (by rewrite Hs, zlen_app, zlen_tcp_header).
  unfold tcp_parse. erewrite unwrap_message_up_data by (exact Hm || (unfold fits; lia)). mcbn.
  cbn [u_pl u_pl_len u_from u_from_len u_to u_to_len].
  replace (zlen s <? 20) with false by lia. unfold addr_of_data. rewrite !rdn_app_l by done. mcbn.
  rewrite tcp_udp_checksum_prefix, Hck. mcbn. cbn [Z.eqb negb].
  set (P := s ++ full ++ pad).
  assert (HP : P = be16 (u16 sp) ++ be16 (u16 dp) ++ be32 (u32 seq) ++ be32 (u32 ack) ++ [80; u8 flags]
    ++ be16 (u16 win) ++ be16 ck ++ [0; 0] ++ data ++ full ++ pad).
  { unfold P. rewrite Hs. unfold tcp_header. by rewrite <- !app_assoc. }
  assert (E0 : get_uint16 P = Ret (u16 sp)) by (rewrite HP; apply get_put_uint16, wrap_range; lia).
  assert (E2 : get_uint16 (padd P 2) = Ret (u16 dp)) by (rewrite HP; apply get_put_uint16, wrap_range; lia).
  assert (E4 : get_uint32 (padd P 4) = Ret (u32 seq)) by (rewrite HP; apply get_put_uint32, wrap_range; lia).
  assert (E8 : get_uint32 (padd P 8) = Ret (u32 ack)) by (rewrite HP; apply get_put_uint32, wrap_range; lia).
  assert (E12 : rd P 12 = Ret 80) by (rewrite HP; by apply rd_ok).
  assert (E13 : rd P 13 = Ret (u8 flags)) by (rewrite HP; by apply rd_ok).
  assert (E14 : get_uint16 (padd P 14) = Ret (u16 win)) by (rewrite HP; apply get_put_uint16, wrap_range; lia).
  destruct (tcp_calc_session_id_ok (u16 sp) (u16 dp) from to Lf Lt) as (sid & Es & _).
  rewrite E0. mcbn. rewrite E2. mcbn. rewrite Es. mcbn. rewrite E12. mcbn. rewrite E13. mcbn. rewrite E14. mcbn.
  rewrite E4. mcbn. rewrite E8. mcbn. change (Z.shiftr 80 4 * 4) with 20. cbn [Z.ltb Z.compare Pos.compare Pos.compare_cont].
  match goal with |- context [if ?b then tcp_options ?f P 20 20 1 else Ret 1] =>
    replace (if b then tcp_options f P 20 20 1 else Ret 1) with (Ret 1 : outcome Z) by (by destruct b)
  end.
  mcbn. replace (20 >? zlen s) with false by lia. eexists. split; [reflexivity|]. split; [|done].
  constructor; cbn [k_a_from k_a_to k_source_port k_destination_port k_peer_seq_nr k_ack_seq_nr k_flags k_window_size]; try done.
  unfold payload. cbn [k_pl k_header_size k_tcp_pl_size]. unfold P. rewrite Hs, <- app_assoc.
  apply sub_app_mid; [by rewrite zlen_tcp_header|]. rewrite zlen_app, zlen_tcp_header. lia.
Qed.

(** *** Options *)

(** [s] is a segment without payload whose header has these options. *)
Definition tcp_header_opts (src_port dst_port seq ack flags window ck : Z) (opts : list Z) : list Z :=
  be16 (u16 src_port) ++ be16 (u16 dst_port) ++ be32 (u32 seq) ++ be32 (u32 ack) ++ [(5 + zlen opts / 4) * 16; u8 flags]
  ++ be16 (u16 window) ++ be16 ck ++ [0; 0] ++ opts.

Definition tcp_seg_opts (from to : addr) (src_port dst_port seq ack flags window : Z) (opts s : list Z) : Prop :=
  bytes s /\ zlen opts mod 4 = 0 /\ zlen opts <= 40 /\ (exists ck, s = tcp_header_opts src_port dst_port seq ack flags window ck opts) /\
  tcp_udp_checksum from to s (zlen s) 6 = Ret 0.

Lemma zlen_tcp_header_opts sp dp seq ack flags win ck opts : zlen (tcp_header_opts sp dp seq ack flags win ck opts) = 20 + zlen opts.
Proof. unfold tcp_header_opts. autorewrite with zlen. change (zlen []) with 0. lia. Qed.

(** The index the server codes in its cookie for a SYN with these options. *)
Definition syn_index (opts : list Z) : Z :=
  match tcp_options (S (Z.to_nat (20 + zlen opts))) (zeros 20 ++ opts) (20 + zlen opts) 20 1 with Ret i => i | Fault _ => 1 end.

(** The options alone decide it. *)
Lemma tcp_options_skip fuel pre opts rest cur idx : bytes opts -> 0 <= cur ->
  tcp_options fuel (pre ++ opts ++ rest) (zlen pre + zlen opts) (zlen pre + cur) idx = tcp_options fuel opts (zlen opts) cur idx.
Proof.
  intros Hb. revert cur idx. induction fuel as [|f IH]; intros cur idx Hc; [done|]. cbn [tcp_options]. pose proof (zlen_nonneg pre).
  assert (Hrd : forall i, 0 <= i < zlen opts -> rd (pre ++ opts ++ rest) (zlen pre + i) = rd opts i).
  { intros i Hi. destruct (rd_in opts i Hi) as (v & Hv & ->). apply rd_ok; [lia|]. unfold zlen in Hi |- *.
    rewrite lookup_app_r by lia. rewrite lookup_app_l by lia. by replace (Z.to_nat (Z.of_nat (length pre) + i) - length pre)%nat with (Z.to_nat i) by lia. }
  replace (zlen pre + zlen opts - 2 >=? zlen pre + cur) with (zlen opts - 2 >=? cur) by lia.
  replace (zlen pre + zlen opts - 4 >=? zlen pre + cur) with (zlen opts - 4 >=? cur) by lia.
  destruct (Z.geb_spec (zlen opts - 2) cur); [|done]. rewrite <- !Z.add_assoc, (Hrd cur), (Hrd (cur + 1)) by lia.
  destruct (rd_in opts cur) as (kind & _ & ->); [lia|]. mcbn. destruct (rd_in opts (cur + 1)) as (len & Hl & ->); [lia|]. mcbn.
  assert (Bl : is_byte len) by (by eapply bytes_lookup). unfold is_byte in Bl.
  assert (Hi : exists i, (if (kind =? 2) && (len =? 4) && (zlen opts - 4 >=? cur)
          then b2 ← rd (pre ++ opts ++ rest) (zlen pre + (cur + 2)); b3 ← rd (pre ++ opts ++ rest) (zlen pre + (cur + 3)); Ret (mss_index_of mss_ranges 0 (Z.lor (Z.shiftl b2 8) b3) idx)
          else Ret idx) = Ret i /\
      (if (kind =? 2) && (len =? 4) && (zlen opts - 4 >=? cur)
          then b2 ← rd opts (cur + 2); b3 ← rd opts (cur + 3); Ret (mss_index_of mss_ranges 0 (Z.lor (Z.shiftl b2 8) b3) idx)
          else Ret idx) = Ret i).
  { destruct (Z.geb_spec (zlen opts - 4) cur); [|rewrite andb_false_r; by exists idx]. rewrite andb_true_r. destruct (_ && _); [|by exists idx].
    rewrite !Hrd by lia. destruct (rd_in opts (cur + 2)) as (b2 & _ & ->); [lia|]. destruct (rd_in opts (cur + 3)) as (b3 & _ & ->); [lia|]. by eexists. }
  destruct Hi as (i & -> & ->). mcbn. rewrite <- !IH by lia.
  destruct (_ || _); [by rewrite Z.add_assoc|]. destruct (len =? 0); [done|]. by rewrite Z.add_assoc.
Qed.

Lemma tcp_options_index fuel pre opts rest : bytes opts -> zlen pre = 20 -> fuel = S (Z.to_nat (20 + zlen opts)) ->
  tcp_options fuel (pre ++ opts ++ rest) (20 + zlen opts) 20 1 = Ret (syn_index opts) /\ 0 <= syn_index opts <= 7.
Proof.
  intros Hb Hpre ->. unfold syn_index. pose proof (zlen_nonneg opts).
  assert (Hskip : forall pre rest, zlen pre = 20 -> tcp_options (S (Z.to_nat (20 + zlen opts))) (pre ++ opts ++ rest) (20 + zlen opts) 20 1 =
    tcp_options (S (Z.to_nat (20 + zlen opts))) opts (zlen opts) 0 1).
  { intros pre' rest' Hp. rewrite <- (tcp_options_skip _ pre' opts rest' 0 1) by done. by rewrite Hp. }
  rewrite (Hskip pre rest Hpre). pose proof (Hskip (zeros 20) [] eq_refl) as Hz. rewrite app_nil_r in Hz. rewrite Hz.
  destruct (tcp_options_spec (S (Z.to_nat (20 + zlen opts))) opts (zlen opts) 0 1) as (i & -> & Hi); [|lia..|done].
  by rewrite take_ge by (unfold zlen; lia).
Qed.

(** A SYN is parsed back. *)
Lemma tcp_parse_opts_message m full pad from to sp dp seq ack flags win opts s :
  tcp_message m full from to s pad -> tcp_seg_opts from to sp dp seq ack flags win opts s ->
  has (u8 flags) FLAG_SYN = true -> has (u8 flags) FLAG_ACK = false ->
  exists k, tcp_parse m = Ret (Some k) /\ parsed_as from to sp dp seq ack flags win [] k /\ k_mss_index k = syn_index opts.
Proof.
  intros (Hm & Bk & Bf & Lf & Bt & Lt & _ & Lps & Lk & _) (Bs & Ho4 & Ho40 & (ck & Hs) & Hck) F1 F2. pose proof (zlen_nonneg opts).
  assert (Ls : zlen s = 20 + zlen opts) by (by rewrite Hs, zlen_tcp_header_opts).
  unfold tcp_parse. erewrite unwrap_message_up_data by (exact Hm || (unfold fits; lia)). mcbn.
  cbn [u_pl u_pl_len u_from u_from_len u_to u_to_len].
  replace (zlen s <? 20) with false by lia. unfold addr_of_data. rewrite !rdn_app_l by done. mcbn.
  rewrite tcp_udp_checksum_prefix, Hck. mcbn. cbn [Z.eqb negb].
  set (P := s ++ full ++ pad). set (b12 := (5 + zlen opts / 4) * 16).
  assert (HP : P = be16 (u16 sp) ++ be16 (u16 dp) ++ be32 (u32 seq) ++ be32 (u32 ack) ++ [b12; u8 flags]
    ++ be16 (u16 win) ++ be16 ck ++ [0; 0] ++ opts ++ full ++ pad).
  { unfold P. rewrite Hs. unfold tcp_header_opts. fold b12. by rewrite <- !app_assoc. }
  assert (E0 : get_uint16 P = Ret (u16 sp)) by (rewrite HP; apply get_put_uint16, wrap_range; lia).
  assert (E2 : get_uint16 (padd P 2) = Ret (u16 dp)) by (rewrite HP; apply get_put_uint16, wrap_range; lia).
  assert (E4 : get_uint32 (padd P 4) = Ret (u32 seq)) by (rewrite HP; apply get_put_uint32, wrap_range; lia).
  assert (E8 : get_uint32 (padd P 8) = Ret (u32 ack)) by (rewrite HP; apply get_put_uint32, wrap_range; lia).
  assert (E12 : rd P 12 = Ret b12) by (rewrite HP; by apply rd_ok).
  assert (E13 : rd P 13 = Ret (u8 flags)) by (rewrite HP; by apply rd_ok).
  assert (E14 : get_uint16 (padd P 14) = Ret (u16 win)) by (rewrite HP; apply get_put_uint16, wrap_range; lia).
  assert (Hh : Z.shiftr b12 4 * 4 = 20 + zlen opts).
  { unfold b12. rewrite Z.shiftr_div_pow2 by lia. change (2 ^ 4) with 16. rewrite Z.div_mul by lia. Z.div_mod_to_equations. lia. }
  destruct (tcp_calc_session_id_ok (u16 sp) (u16 dp) from to Lf Lt) as (sid & Es & _).
  rewrite E0. mcbn. rewrite E2. mcbn. rewrite Es. mcbn. rewrite E12. mcbn. rewrite E13. mcbn. rewrite E14. mcbn.
  rewrite E4. mcbn. rewrite E8. mcbn. rewrite Hh, F1, F2. cbn [andb negb]. replace (20 + zlen opts <? 20) with false by lia.
  assert (Bo : bytes opts) by (rewrite Hs in Bs; unfold tcp_header_opts in Bs; rewrite !bytes_app in Bs; tauto).
  assert (Hopt : tcp_options (S (Z.to_nat (20 + zlen opts))) P (20 + zlen opts) 20 1 = Ret (syn_index opts)).
  { rewrite HP, !app_assoc. rewrite <- (app_assoc _ full pad), <- (app_assoc _ opts). apply tcp_options_index; [done| |done]. autorewrite with zlen. done. }
  rewrite Hopt. mcbn. replace (20 + zlen opts >? zlen s) with false by lia. eexists. split; [reflexivity|]. split; [|done].
  constructor; cbn [k_a_from k_a_to k_source_port k_destination_port k_peer_seq_nr k_ack_seq_nr k_flags k_window_size]; try done.
  unfold payload. cbn [k_pl k_header_size k_tcp_pl_size]. rewrite Ls, Z.sub_diag. done.
Qed.

(** What options mean to the server: the largest segment size that counts is the last one announced; all other options are skipped. *)
Inductive tcp_option :=
| Nop
| Mss (mss : Z)
| OtherOption (kind : Z) (body : list Z).

Definition option_bytes (o : tcp_option) : list Z :=
  match o with
  | Nop => [1]
  | Mss mss => [2; 4; mss / 256; mss mod 256]
  | OtherOption kind body => kind :: 2 + zlen body :: body
  end.

Definition option_ok (o : tcp_option) : Prop :=
  match o with
  | Nop => True
  | Mss mss => is_u 16 mss
  | OtherOption kind body => kind <> 0 /\ kind <> 1 /\ kind <> 2 /\ is_byte kind /\ bytes body /\ zlen body <= 38
  end.

Definition index_step (i : Z) (o : tcp_option) : Z := match o with Mss mss => mss_index_of mss_ranges 0 mss i | _ => i end.

Lemma rd_mid (pre l : list Z) i x : 0 <= i -> l !! Z.to_nat i = Some x -> rd (pre ++ l) (zlen pre + i) = Ret x.
Proof.
  intros Hi Hx. apply rd_ok; [pose proof (zlen_nonneg pre); lia|]. unfold zlen. rewrite lookup_app_r by lia.
  by replace (Z.to_nat (Z.of_nat (length pre) + i) - length pre)%nat with (Z.to_nat i) by lia.
Qed.

Lemma tcp_options_walk fuel pre os idx : Forall option_ok os -> zlen (concat (map option_bytes os)) < Z.of_nat fuel ->
  tcp_options fuel (pre ++ concat (map option_bytes os)) (zlen pre + zlen (concat (map option_bytes os))) (zlen pre) idx = Ret (foldl index_step idx os).
Proof.
  intros Hos. revert fuel pre idx. induction Hos as [|o os Ho _ IH]; intros fuel pre idx Hf; (destruct fuel as [|f]; [revert Hf; unfold zlen; lia|]).
  { cbn [map concat tcp_options]. change (zlen []) with 0. by replace (zlen pre + 0 - 2 >=? zlen pre) with false by lia. }
  cbn [map concat foldl] in *. set (rest := concat (map option_bytes os)) in *. pose proof (zlen_nonneg rest). cbn [tcp_options]. rewrite zlen_app in Hf |- *.
  assert (Hnext : forall i, tcp_options f (pre ++ option_bytes o ++ rest) (zlen pre + (zlen (option_bytes o) + zlen rest)) (zlen pre + zlen (option_bytes o)) i =
      Ret (foldl index_step i os)).
  { intros i. rewrite app_assoc, Z.add_assoc, <- (zlen_app pre (option_bytes o)). apply IH. destruct o; cbn [option_bytes] in Hf; rewrite ?zlen_cons in Hf; try pose proof (zlen_nonneg body); change (zlen (@nil Z)) with 0 in Hf; lia. }
  pose proof (fun i x => rd_mid pre (option_bytes o ++ rest) i x) as Hrd.
  assert (Hrd0 : forall x, (option_bytes o ++ rest) !! 0%nat = Some x -> rd (pre ++ option_bytes o ++ rest) (zlen pre) = Ret x)
    by (intros x Hx; rewrite <- (Hrd 0 x) by done; f_equal; lia).
  destruct o as [|mss|kind body]; cbn [option_bytes index_step option_ok] in *.
  - change (zlen [1]) with 1 in *. destruct rest as [|y rest'] eqn:Er.
    + change (zlen []) with 0. replace (zlen pre + (1 + 0) - 2 >=? zlen pre) with false by lia. destruct os as [|o os]; [done|].
      exfalso. apply (f_equal length) in Er. unfold rest in Er. cbn [map concat] in Er. rewrite length_app in Er. destruct o; cbn in Er; lia.
    + rewrite zlen_cons in *. pose proof (zlen_nonneg rest'). replace (zlen pre + (1 + (1 + zlen rest')) - 2 >=? zlen pre) with true by lia.
      rewrite (Hrd0 1), (Hrd 1 y) by done. mcbn. apply Hnext.
  - change (zlen [2; 4; mss / 256; mss mod 256]) with 4 in *. replace (zlen pre + (4 + zlen rest) - 2 >=? zlen pre) with true by lia.
    rewrite (Hrd0 2), (Hrd 1 4) by done. mcbn. replace (zlen pre + (4 + zlen rest) - 4 >=? zlen pre) with true by lia.
    change ((2 =? 2) && (4 =? 4) && true) with true. change ((2 =? 0) || (2 =? 1)) with false. change (4 =? 0) with false. cbn iota. rewrite (Hrd 2 (mss / 256)), (Hrd 3 (mss mod 256)) by done. mcbn. rewrite Hnext.
    assert (E : Z.lor (Z.shiftl (mss / 256) 8) (mss mod 256) = mss).
    { rewrite shiftl_lor_add by (lia || (unfold is_u; Z.div_mod_to_equations; lia)). Z.div_mod_to_equations. lia. }
    by rewrite E.
  - pose proof (zlen_nonneg body). destruct Ho as (K0 & K1 & K2 & Bk & Bb & Lb). rewrite !zlen_cons in *. replace (zlen pre + (1 + (1 + zlen body) + zlen rest) - 2 >=? zlen pre) with true by lia.
    rewrite (Hrd0 kind), (Hrd 1 (2 + zlen body)) by done. mcbn.
    replace (kind =? 2) with false by lia. replace (kind =? 0) with false by lia. replace (kind =? 1) with false by lia. cbn [andb orb]. mcbn.
    replace (2 + zlen body =? 0) with false by lia. replace (zlen pre + (2 + zlen body)) with (zlen pre + (1 + (1 + zlen body))) by lia. apply Hnext.
Qed.

(** A SYN's index by its options. *)
Lemma syn_index_options os : Forall option_ok os -> syn_index (concat (map option_bytes os)) = foldl index_step 1 os.
Proof.
  intros Hos. unfold syn_index. pose proof (tcp_options_walk (S (Z.to_nat (20 + zlen (concat (map option_bytes os))))) (zeros 20) os 1 Hos) as Hw.
  change (zlen (zeros 20)) with 20 in Hw. rewrite Hw; [done|]. pose proof (zlen_nonneg (concat (map option_bytes os))). lia.
Qed.

Lemma tcp_parse_seg from to sp dp seq ack flags win data s :
  bytes from -> zlen from = 4 -> bytes to -> zlen to = 4 -> zlen data <= 65495 ->
  tcp_seg from to sp dp seq ack flags win data s ->
  exists k, tcp_parse (ip_message from to s) = Ret (Some k) /\ parsed_as from to sp dp seq ack flags win data k.
Proof.
  intros Bf Lf Bt Lt Ld Hs. pose proof (zlen_nonneg data). pose proof Hs as (Bs & (ck & E) & _).
  assert (Ls : zlen s = 20 + zlen data) by (by rewrite E, zlen_app, zlen_tcp_header).
  destruct (tcp_parse_seg_message _ _ _ from to sp dp seq ack flags win data s (tcp_message_ip from to s Bf Lf Bt Lt Bs ltac:(lia)) Hs)
    as (k & Hk & Hpa & _). by exists k.
Qed.

(** Chunk [i] is sent at the sequence number of its first byte. *)
Lemma tcp_segs_lookup from to sp dp seq ack flags win cs ss i c s :
  tcp_segs from to sp dp seq ack flags win cs ss -> cs !! i = Some c -> ss !! i = Some s ->
  tcp_seg from to sp dp (seq + zlen (concat (take i cs))) ack flags win c s.
Proof.
  revert seq ss i. induction cs as [|c0 cs IH]; intros seq ss i Hs Hc Hss; [done|].
  destruct ss as [|s0 ss]; [done|]. destruct Hs as [Hs0 Hs]. destruct i as [|i]; cbn in Hc, Hss.
  - injection Hc as <-. injection Hss as <-. cbn. by rewrite Z.add_0_r.
  - cbn [take concat]. rewrite zlen_app. specialize (IH _ _ _ Hs Hc Hss). unfold tcp_seg, tcp_header in *.
    rewrite wrap_add_l in IH. by rewrite Z.add_assoc.
Qed.

Lemma tcp_segs_length from to sp dp seq ack flags win cs ss :
  tcp_segs from to sp dp seq ack flags win cs ss -> length ss = length cs.
Proof.
  revert seq ss. induction cs as [|c cs IH]; intros seq [|s ss] Hs; try done. cbn. f_equal. by eapply IH, Hs.
Qed.

Lemma tcp_chunks_concat mss data : 0 < mss -> concat (tcp_chunks mss data) = data.
Proof. intros Hm. destruct data as [|x data]; [done|]. apply chunk_concat; [done|lia]. Qed.

Lemma tcp_chunks_sizes mss data : 0 < mss -> Forall (fun c => zlen c <= mss) (tcp_chunks mss data).
Proof.
  intros Hm. destruct data as [|x data]; [constructor; [unfold zlen; cbn; lia|constructor]|]. eapply List.Forall_impl; [|apply chunk_sizes; lia].
  cbn. lia.
Qed.

(** ** Properties *)

(** C27: [send_tcp_packet] cuts a payload into segments that hold all of it, in
    order, at most [mss] bytes each (a single empty segment for an empty
    payload), and hands them over one by one until a send fails.  Segment [i] has
    the sequence number of its first byte and a valid checksum: put into an IP
    packet, the receiver's parser accepts it and reads back the very ports,
    numbers, flags, window and payload it was built from. *)
Theorem tcp_segmentation `{Transport W} (down : list Z) (from to : addr) (sp dp seq ack flags win mss : Z) (payload_in : list Z) (w : W)
  (Hf : bytes from /\ zlen from = 4) (Ht : bytes to /\ zlen to = 4) (Hp : bytes payload_in) (Hm : 0 < mss <= 65495) :
  exists chunks segs, concat chunks = payload_in /\ Forall (fun c => zlen c <= mss) chunks /\ length segs = length chunks /\
    send_tcp_packet down from to sp dp seq ack flags win payload_in (zlen payload_in) mss w =
    Ret (tcp_n_sent down (map (seg_message from to) segs) (map zlen chunks) 0 w,
         send_until down (map (seg_message from to) segs) w) /\
    forall i c s, chunks !! i = Some c -> segs !! i = Some s ->
      exists k, tcp_parse (ip_message from to s) = Ret (Some k) /\
        parsed_as from to sp dp (seq + zlen (concat (take i chunks))) ack flags win c k.
Proof.
  destruct Hf as [Bf Lf], Ht as [Bt Lt]. unfold send_tcp_packet.
  destruct (send_tcp_loop_spec (S (Z.to_nat (zlen payload_in))) down from to sp dp ack flags win mss payload_in [] seq 0 w Bf Lf Bt Lt Hp)
    as (segs & Hs & Hr); [lia|unfold zlen; lia|lia|]. rewrite app_nil_r in Hr.
  pose proof (tcp_chunks_sizes mss payload_in ltac:(lia)) as Hsz.
  exists (tcp_chunks mss payload_in), segs. split; [apply tcp_chunks_concat; lia|]. split; [done|].
  split; [by eapply tcp_segs_length|]. split; [exact Hr|]. intros i c s Hc Hss.
  apply tcp_parse_seg; try done.
  - rewrite List.Forall_forall in Hsz. specialize (Hsz c). apply list_elem_of_lookup_2 in Hc. apply list_elem_of_In in Hc.
    specialize (Hsz Hc). lia.
  - by eapply tcp_segs_lookup.
Qed.

Lemma tcp_segmentation_witness :
  exists chunks segs, concat chunks = [1; 2; 3; 4; 5] /\ Forall (fun c => zlen c <= 2) chunks /\ length segs = length chunks /\
    send_tcp_packet (str "ip4") ex_me ex_peer 80 1234 (2 ^ 32 - 2) 7 FLAG_ACK 1000 [1; 2; 3; 4; 5] 5 2 oracle_ok =
    Ret (tcp_n_sent (str "ip4") (map (seg_message ex_me ex_peer) segs) (map zlen chunks) 0 oracle_ok,
         send_until (str "ip4") (map (seg_message ex_me ex_peer) segs) oracle_ok) /\
    forall i c s, chunks !! i = Some c -> segs !! i = Some s ->
      exists k, tcp_parse (ip_message ex_me ex_peer s) = Ret (Some k) /\
        parsed_as ex_me ex_peer 80 1234 (2 ^ 32 - 2 + zlen (concat (take i chunks))) 7 FLAG_ACK 1000 c k.
Proof.
  apply (tcp_segmentation (W := oracle) (str "ip4") ex_me ex_peer 80 1234 (2 ^ 32 - 2) 7 FLAG_ACK 1000 2 [1; 2; 3; 4; 5] oracle_ok).
  - split; [concrete_bytes|reflexivity].
  - split; [concrete_bytes|reflexivity].
  - concrete_bytes.
  - lia.
Defined.
