(* ===== verification/TcpStream.v ===== *)
(** * TCP sessions: the sending side

    The server as a transition system: received segments, data from
    applications, rounds of the sender thread, the cleaner, and new client
    sessions, in any order.  A ghost component remembers what each application
    has handed over; the invariant ties sequence numbers to it. *)

From stdpp Require Import relations.
From S2P Require Import Prelude Net Checksum Str Addr SipHash ShmMessage Transport Ip4In TcpWire TcpData Tcp TcpMeta TcpSafe TcpFlow.
Open Scope Z_scope.

(** ** Specification *)

(** For each session: the number of the first byte and all bytes its
    application has handed over. *)
Abbreviation ghost := (gmap Z (Z * list Z)).

(** The send position of a session in its stream: everything before byte [k] is
    acknowledged, the queue holds the rest, and the sequence number says so (a
    FIN that was sent counts for one). *)
Definition stream_at (isn : Z) (stream : list Z) (k : Z) (s : session_t) : Prop :=
  0 <= k <= zlen stream /\ queue_of (s_l7_to_tcp s) = drop (Z.to_nat k) stream /\
  s_local_seq s = u32 (isn + k + (if s_fin_sent s then 1 else 0)).

Definition stream_inv (G : ghost) (sessions : gmap Z session_t) : Prop :=
  forall sid s, sessions !! sid = Some s -> session_wf s /\
    (s_state s <> closed -> exists isn stream k, G !! sid = Some (isn, stream) /\ stream_at isn stream k s).

(** After a change of the table of sessions: a session that appears starts a new
    stream, one that is gone has none. *)
Definition ghost_sync (sessions sessions' : gmap Z session_t) (G : gmap Z (Z * list Z)) : ghost :=
  map_imap (fun sid s => match sessions !! sid with
                         | None => Some (s_local_seq s, [])
                         | Some _ => G !! sid
                         end) sessions'.

(** Data from an application is appended to its stream. *)
Definition ghost_data (m : message) (G : gmap Z (Z * list Z)) : ghost :=
  match field (m_data m) 0 8, rdn (m_data m) 12 (m_size m - 12) with
  | Ret sid, Ret what => alter (fun g : Z * list Z => (g.1, g.2 ++ what)) sid G
  | _, _ => G
  end.

(** A segment the sender may emit for [s]: the head of the queue, at most one
    MSS of it, at the current send position. *)
Definition data_segment (s : session_t) (flags : Z) (seg : list Z) : Prop :=
  tcp_seg (s_local_addr s) (s_peer_addr s) (s_local_port s) (s_peer_port s) (s_local_seq s) (s_peer_seq s) flags
    (s_local_window_size s) (take (Z.to_nat (s_mss s)) (queue_of (s_l7_to_tcp s))) seg.

Definition sender_output (out_name : list Z) (s : session_t) (x : sent) : Prop :=
  s_in_flight s = 0 /\ s_fin_sent s = false /\ sent_to x = out_name /\
  exists (fin : bool) seg, data_segment s (Z.lor (Z.lor (if fin then FLAG_FIN else 0) FLAG_ACK) FLAG_PSH) seg /\
    (fin = true -> s_l7_send_fin s = true /\ zlen (queue_of (s_l7_to_tcp s)) <= s_mss s) /\
    sent_data x = down_data (s_local_addr s) (s_peer_addr s) seg.

(** What a round of the sender does to a session it sent for. *)
Definition sender_rel (s s' : session_t) : Prop :=
  s_in_flight s = 0 /\ s_fin_sent s = false /\
  let data := take (Z.to_nat (s_mss s)) (queue_of (s_l7_to_tcp s)) in
  let fin := s_l7_send_fin s && (zlen (queue_of (s_l7_to_tcp s)) <=? s_mss s) in
  s' = set_in_flight (zlen data)
         (if fin then set_fin_sent true (set_local_seq (u32 (s_local_seq s + 1)) s) else s).

(** ** Lemmas: the sender *)

Section Sender.
Context `{Transport W}.

(** What there is to send, and whether the FIN goes with it. *)
Definition next_data (s : session_t) : list Z := take (Z.to_nat (s_mss s)) (queue_of (s_l7_to_tcp s)).
Definition next_fin (s : session_t) : bool := s_l7_send_fin s && (zlen (queue_of (s_l7_to_tcp s)) <=? s_mss s).
Definition next_flags (s : session_t) : Z := Z.lor (Z.lor (if next_fin s then FLAG_FIN else 0) FLAG_ACK) FLAG_PSH.

(** The session behind that. *)
Definition sent_session (s : session_t) : session_t :=
  set_in_flight (zlen (next_data s)) (if next_fin s then set_fin_sent true (set_local_seq (u32 (s_local_seq s + 1)) s) else s).

(** The sender's turn for one session, when nothing is in flight. *)
Lemma sender_session_aux out_name s w : session_wf s -> s_in_flight s = 0 -> s_fin_sent s = false ->
  if (zlen (next_data s) >? 0) || next_fin s then
    exists seg, data_segment s (next_flags s) seg /\
      let msg := seg_message (s_local_addr s) (s_peer_addr s) seg in
      tcp_sender_session out_name s w =
      Ret (if send_ok_b out_name msg w || (zlen (next_data s) >? 0) then Some (sent_session s) else None, after_send out_name msg w)
  else tcp_sender_session out_name s w = Ret (Some s, w).
Proof.
  intros Hw Hif Hfin. unfold tcp_sender_session. rewrite Hif, Hfin. cbn [Z.eqb negb orb].
  pose proof (wf_mss s Hw) as Hmss. rewrite Z.min_r by lia. set (q := queue_of (s_l7_to_tcp s)).
  pose proof (tcp_data_peek_spec _ _ (s_mss s) (session_wf_queue s Hw) ltac:(lia)) as Hp. fold q in Hp.
  erewrite (lift_bind _ _ w _ Hp). cbv beta iota zeta. change (take (Z.to_nat (s_mss s)) q) with (next_data s). pose proof (zlen_nonneg (next_data s)) as Hd0.
  assert (Hbq : bytes (next_data s)) by (apply Forall_take, Hw).
  assert (Hdl : zlen (next_data s) <= s_mss s) by (unfold next_data; rewrite zlen_take; lia).
  replace (if zlen q <=? s_mss s then s_l7_send_fin s else false) with (next_fin s)
    by (unfold next_fin; fold q; by destruct (zlen q <=? s_mss s), (s_l7_send_fin s)).
  destruct ((zlen (next_data s) >? 0) || next_fin s) eqn:Ego; [|done]. fold (next_flags s).
  destruct (send_tcp_loop_spec (S (Z.to_nat (zlen (next_data s)))) out_name (s_local_addr s) (s_peer_addr s) (s_local_port s) (s_peer_port s)
    (s_peer_seq s) (next_flags s) (s_local_window_size s) (s_mss s) (next_data s) [] (s_local_seq s) 0 w) as (segs & Hsegs & Hrun);
    try apply Hw; try done; try lia; [unfold zlen; lia|].
  rewrite app_nil_r in Hrun.
  assert (Hch : tcp_chunks (s_mss s) (next_data s) = [next_data s]).
  { apply tcp_chunks_last; [lia|]. apply nil_length_inv. unfold next_data. rewrite length_drop, length_take. lia. }
  rewrite Hch in Hsegs, Hrun. destruct segs as [|seg [|]]; cbn [tcp_segs] in Hsegs; try tauto.
  destruct Hsegs as [Hseg _]. cbn [map tcp_n_sent send_until] in Hrun. exists seg. split; [exact Hseg|]. cbv zeta.
  set (msg := seg_message (s_local_addr s) (s_peer_addr s) seg) in *.
  unfold send_tcp_packet, mbind, prog_bind. change (0 + zlen (next_data s)) with (zlen (next_data s)) in Hrun. rewrite Hrun.
  assert (Hs' : set_in_flight (zlen (next_data s)) (if next_fin s && true
     then set_fin_sent true (set_local_seq (u32 (s_local_seq s + 1)) s) else s) = sent_session s) by (by rewrite andb_true_r).
  destruct (send_ok_b out_name msg w); [replace (zlen (next_data s) =? -1) with false by lia; rewrite Z.eqb_refl; by rewrite <- Hs'|].
  destruct (zlen (next_data s) >? 0) eqn:Ed; [|done]. replace (zlen (next_data s) =? -1) with false by lia. rewrite Z.eqb_refl. by rewrite <- Hs'.
Qed.

Lemma sent_session_rel s : s_in_flight s = 0 -> s_fin_sent s = false -> sender_rel s (sent_session s).
Proof. done. Qed.

Lemma runs_sender_session out_name s :
  session_wf s ->
  runs (sender_output out_name s) (tcp_sender_session out_name s)
    (fun r => match r with Some s' => s' = s \/ sender_rel s s' | None => True end).
Proof.
  intros Hw w. destruct (negb (s_in_flight s =? 0) || s_fin_sent s) eqn:Eg.
  { unfold tcp_sender_session. rewrite Eg. exists (Some s), w, []. rewrite app_nil_r. split; [done|]. split; [done|]. split; [constructor|by left]. }
  apply orb_false_iff in Eg as [Hif%negb_false_iff Hfin]. apply Z.eqb_eq in Hif. pose proof (sender_session_aux out_name s w Hw Hif Hfin) as Ho.
  destruct ((zlen (next_data s) >? 0) || next_fin s).
  - destruct Ho as (seg & Hseg & E). cbv zeta in E. set (msg := seg_message (s_local_addr s) (s_peer_addr s) seg) in *.
    eexists _, _, (if send_ok_b out_name msg w then [sent_of out_name msg] else []). split; [exact E|]. split; [apply after_send_log|]. split.
    + destruct (send_ok_b out_name msg w); [|constructor]. constructor; [|constructor]. split; [done|]. split; [done|]. split; [done|].
      exists (next_fin s), seg. split; [exact Hseg|]. split; [|done]. unfold next_fin. intros Hf. apply andb_true_iff in Hf as [Hf1 Hf2]. split; [done|lia].
    + destruct (send_ok_b out_name msg w || _); [|done]. right. by apply sent_session_rel.
  - exists (Some s), w, []. rewrite app_nil_r. split; [done|]. split; [done|]. split; [constructor|by left].
Qed.

Lemma runs_sender_loop out_name es sessions :
  Forall (fun e => sessions !! e.1 = Some e.2 /\ session_wf e.2) es -> NoDup (map fst es) ->
  runs (fun x => exists sid s, (sid, s) ∈ es /\ sender_output out_name s x) (tcp_sender_loop out_name es sessions)
    (fun sessions' => forall sid, (sid ∉ map fst es -> sessions' !! sid = sessions !! sid) /\
       (sessions' !! sid = sessions !! sid \/
        exists s s', sessions !! sid = Some s /\ sessions' !! sid = Some s' /\ sender_rel s s')).
Proof.
  revert sessions. induction es as [|[sid s] es IH]; intros sessions Hes Hnd; cbn [tcp_sender_loop].
  { apply runs_ret. split; [done|by left]. }
  apply list.Forall_cons in Hes as [[Hs Hw] Hes]. apply list.NoDup_cons in Hnd as [Hni Hnd]. cbn [fst snd] in *.
  eapply runs_bind.
  { eapply runs_mono; [|intros r Hr; exact Hr|by apply runs_sender_session]. intros x Hx. exists sid, s. split; [left|done]. }
  intros [s'|] Hs'; [|apply runs_ret; split; [done|by left]].
  eapply runs_mono; [| |apply (IH (<[sid := s']> sessions)); [|done]].
  - intros x (sid' & s0 & Hin & Hx). exists sid', s0. split; [by right|done].
  - intros m Hm sid'. specialize (Hm sid') as [Hm1 Hm2]. cbn [map fst]. rewrite list.not_elem_of_cons.
    destruct (decide (sid' = sid)) as [->|Hne].
    + rewrite (Hm1 Hni), lookup_insert_eq, Hs. split; [tauto|]. destruct Hs' as [->|Hr]; [by left|right; by exists s, s'].
    + rewrite lookup_insert_ne in Hm1, Hm2 by done. split; [intros [_ Hn]; by apply Hm1|done].
  - apply List.Forall_forall. intros [sid' s0] Hin. eapply List.Forall_forall in Hes; [|exact Hin]. cbn [fst snd] in *.
    rewrite lookup_insert_ne; [done|]. intros <-. apply Hni. apply list_elem_of_In, List.in_map_iff. by exists (sid, s0).
Qed.

Lemma runs_sender out_name sessions :
  sessions_wf sessions ->
  runs (fun x => exists sid s, sessions !! sid = Some s /\ sender_output out_name s x) (tcp_sender out_name sessions)
    (fun sessions' => forall sid, sessions' !! sid = sessions !! sid \/
       exists s s', sessions !! sid = Some s /\ sessions' !! sid = Some s' /\ sender_rel s s').
Proof.
  intros Hss. unfold tcp_sender. eapply runs_mono; [| |apply runs_sender_loop].
  - intros x (sid & s & Hin & Hx). apply elem_of_entries in Hin. by exists sid, s.
  - intros m Hm sid. apply Hm.
  - apply List.Forall_forall. intros [sid s] Hin. apply list_elem_of_In, elem_of_entries in Hin. split; [done|by eapply Hss].
  - apply NoDup_entries.
Qed.

End Sender.

(** ** Lemmas: the invariant *)

Lemma stream_at_view isn stream k s s' : send_view s' = send_view s -> stream_at isn stream k s -> stream_at isn stream k s'.
Proof. intros [= E1 E2 E3 E4 E5 E6 E7 E8 E9 E10] (H1 & H2 & H3). unfold stream_at. by rewrite E1, E2, E4. Qed.

Lemma zlen_queue s : session_wf s -> zlen (queue_of (s_l7_to_tcp s)) = d_len (s_l7_to_tcp s).
Proof. intros Hw. symmetry. apply (session_wf_queue s Hw). Qed.

(** An acknowledgement moves the position by the bytes it takes from the queue. *)
Lemma stream_at_ack isn stream k ack s s1 :
  session_wf s -> s_state s <> closed -> stream_at isn stream k s -> tcp_in_ack ack s = Ret s1 ->
  exists k1, stream_at isn stream k1 s1.
Proof.
  intros Hw Hc (Hk & Hq & Hl) Ha.
  destruct (tcp_in_ack_spec ack s Hw Hc) as (n & s1' & Ha' & W1 & _ & Hn & Q1 & L1 & F1 & _). rewrite Ha in Ha'. injection Ha' as <-.
  pose proof (wf_flight s Hw Hc) as Hf. rewrite <- (zlen_queue s Hw), Hq, zlen_drop in Hf.
  exists (k + n). split; [lia|]. split.
  - rewrite Q1, Hq, drop_drop. f_equal. lia.
  - rewrite L1, F1, Hl, wrap_add_l. f_equal. lia.
Qed.

Lemma stream_at_sender isn stream k s s' : stream_at isn stream k s -> sender_rel s s' -> stream_at isn stream k s'.
Proof.
  intros (Hk & Hq & Hl) (_ & Hfin & ->). cbn zeta. set (fin := _ && _). destruct fin; [|by split].
  split; [done|]. split; [done|]. cbn. rewrite Hl, Hfin, wrap_add_l. f_equal. lia.
Qed.

Lemma sender_rel_wf s s' : session_wf s -> sender_rel s s' -> session_wf s'.
Proof.
  intros Hw (_ & _ & ->). cbn zeta. pose proof (zlen_queue s Hw) as Hz. pose proof (wf_mss s Hw).
  set (data := take _ _). assert (Hd : 0 <= zlen data <= d_len (s_l7_to_tcp s)).
  { unfold data. rewrite zlen_take. pose proof (zlen_nonneg (queue_of (s_l7_to_tcp s))). lia. }
  destruct Hw as [W1 W2 W3 W4 W5 W6 W7 W8]. destruct (_ && _); constructor; cbn; try done; try lia. apply wrap_range. lia.
Qed.

Lemma ghost_sync_old sessions sessions' G sid s s' :
  sessions !! sid = Some s -> sessions' !! sid = Some s' -> ghost_sync sessions sessions' G !! sid = G !! sid.
Proof. intros Hs Hs'. unfold ghost_sync. rewrite map_lookup_imap, Hs'. cbn. by rewrite Hs. Qed.

Lemma ghost_sync_new sessions sessions' G sid s' :
  sessions !! sid = None -> sessions' !! sid = Some s' -> ghost_sync sessions sessions' G !! sid = Some (s_local_seq s', []).
Proof. intros Hs Hs'. unfold ghost_sync. rewrite map_lookup_imap, Hs'. cbn. by rewrite Hs. Qed.

(** A change of the table preserves the invariant when each session it leaves
    was there, with the same sending side up to an acknowledgement, or is fresh. *)
Definition fresh_session (s : session_t) : Prop :=
  session_wf s /\ queue_of (s_l7_to_tcp s) = [] /\ s_fin_sent s = false.

Lemma stream_inv_sync G sessions sessions' :
  stream_inv G sessions ->
  (forall sid s', sessions' !! sid = Some s' ->
     match sessions !! sid with
     | Some s => session_wf s' /\ (s_state s' <> closed -> s_state s <> closed /\
                   forall isn stream k, stream_at isn stream k s -> exists k', stream_at isn stream k' s')
     | None => fresh_session s'
     end) ->
  stream_inv (ghost_sync sessions sessions' G) sessions'.
Proof.
  intros HI Hch sid s' Hs'. specialize (Hch sid s' Hs'). destruct (sessions !! sid) as [s|] eqn:Hs.
  - destruct Hch as [Hw Hk]. split; [done|]. intros Hc. destruct (Hk Hc) as [Hc0 Hst].
    destruct (HI sid s Hs) as [_ HI']. destruct (HI' Hc0) as (isn & stream & k & HG & Hat).
    destruct (Hst _ _ _ Hat) as (k' & Hat'). exists isn, stream, k'. split; [|done]. by erewrite ghost_sync_old.
  - destruct Hch as (Hw & Hq & Hf). split; [done|]. intros _. exists (s_local_seq s'), [], 0.
    split; [by apply ghost_sync_new|]. split; [done|]. split; [done|]. rewrite Hf, !Z.add_0_r. symmetry. apply wrap_small, Hw.
Qed.

(** A table that only lost sessions or is unchanged. *)
Lemma sync_same G sessions sid s :
  stream_inv G sessions -> sessions !! sid = Some s ->
  session_wf s /\ (s_state s <> closed -> s_state s <> closed /\
    forall isn stream k, stream_at isn stream k s -> exists k', stream_at isn stream k' s).
Proof. intros HI Hs. destruct (HI sid s Hs) as [Hw _]. split; [done|]. intros Hc. split; [done|]. eauto. Qed.

Lemma stream_inv_sub G sessions sessions' : stream_inv G sessions -> sessions' ⊆ sessions ->
  stream_inv (ghost_sync sessions sessions' G) sessions'.
Proof.
  intros HI Hsub. apply stream_inv_sync; [done|]. intros sid s' Hs'. pose proof (lookup_weaken _ _ _ _ Hs' Hsub) as Hs.
  rewrite Hs. by eapply sync_same.
Qed.

Lemma stream_inv_segment G mappings_in salt now_us now_s k sessions sessions' :
  stream_inv G sessions -> in_effect mappings_in salt now_us now_s k sessions sessions' ->
  stream_inv (ghost_sync sessions sessions' G) sessions'.
Proof.
  intros HI He. destruct He as [|s Hs _ _ _ _|s s' Hs He|s' Hs Ho].
  - by apply stream_inv_sub.
  - apply stream_inv_sub; [done|]. apply delete_subseteq.
  - apply stream_inv_sync; [done|]. intros sid s0 Hs0. destruct (decide (sid = k_session_id k)) as [->|Hne].
    + rewrite lookup_insert_eq in Hs0. injection Hs0 as <-. rewrite Hs. destruct (HI _ _ Hs) as [Hw _].
      pose proof (touch_wf now_us (k_window_size k) s Hw) as Hwt.
      destruct He as [[Hw' Hl]|(s1 & _ & Ha & Hw' & Hl)]; (split; [done|]); intros Hc; (destruct Hl as [|[Hv Hc']]; [done|]).
      * split; [exact Hc'|]. intros isn stream j Hj. exists j. by eapply stream_at_view; [exact Hv|].
      * destruct (tcp_in_ack_peer _ _ _ Ha) as (_ & _ & _ & Est & _). assert (Hc0 : s_state s <> closed) by (intros E; apply Hc'; by rewrite Est).
        split; [done|]. intros isn stream j Hj. destruct (stream_at_ack isn stream j (k_ack_seq_nr k) _ s1 Hwt Hc0 Hj Ha) as (j' & Hj').
        exists j'. by eapply stream_at_view.
    + rewrite lookup_insert_ne in Hs0 by done. rewrite Hs0. by eapply sync_same.
  - apply stream_inv_sync; [done|]. intros sid s0 Hs0. destruct (decide (sid = k_session_id k)) as [->|Hne].
    + rewrite lookup_insert_eq in Hs0. injection Hs0 as <-. rewrite Hs. destruct Ho. unfold fresh_session. tauto.
    + rewrite lookup_insert_ne in Hs0 by done. rewrite Hs0. by eapply sync_same.
Qed.

Lemma stream_inv_sender G sessions sessions' :
  stream_inv G sessions ->
  (forall sid, sessions' !! sid = sessions !! sid \/
     exists s s', sessions !! sid = Some s /\ sessions' !! sid = Some s' /\ sender_rel s s') ->
  stream_inv (ghost_sync sessions sessions' G) sessions'.
Proof.
  intros HI Hch. apply stream_inv_sync; [done|]. intros sid s' Hs'. destruct (Hch sid) as [E|(s & s0 & Hs & Hs0 & Hr)].
  - rewrite E in Hs'. rewrite Hs'. by eapply sync_same.
  - rewrite Hs0 in Hs'. injection Hs' as ->. rewrite Hs. destruct (HI _ _ Hs) as [Hw _]. split; [by eapply sender_rel_wf|].
    intros Hc. split.
    + intros E. apply Hc. destruct Hr as (_ & _ & ->). cbn zeta. by destruct (_ && _).
    + intros isn stream k Hk. exists k. by eapply stream_at_sender.
Qed.

(** Data from an application: the session's queue and its stream grow alike. *)
Lemma tcp_run_out_spec junk m sessions sessions' :
  tcp_run_out junk m sessions = Ret sessions' -> sessions_wf sessions -> bytes (m_data m) ->
  (sessions' = sessions /\ (m_size m < 12 \/ exists sid, field (m_data m) 0 8 = Ret sid /\ sessions !! sid = None)) \/
  exists sid s s' what, field (m_data m) 0 8 = Ret sid /\ sessions !! sid = Some s /\ sessions' = <[sid := s']> sessions /\
    rdn (m_data m) 12 (m_size m - 12) = Ret what /\ bytes what /\
    session_wf s' /\ queue_of (s_l7_to_tcp s') = queue_of (s_l7_to_tcp s) ++ what /\
    s_local_seq s' = s_local_seq s /\ s_fin_sent s' = s_fin_sent s /\ s_state s' = s_state s.
Proof.
  intros Hr Hss Hb. unfold tcp_run_out in Hr. destruct (Z.ltb_spec (m_size m) 12); [left; split; [by injection Hr|by left]|].
  apply bind_Ret_inv in Hr as (sid & Hsid & Hr). apply bind_Ret_inv in Hr as (flags & Hflags & Hr).
  destruct (sessions !! sid) as [s|] eqn:Hs; [|left; split; [by injection Hr|right; by exists sid]]. right.
  apply bind_Ret_inv in Hr as (s1 & H1 & [= <-]). pose proof (Hss sid s Hs) as Hw.
  assert (Hstep : exists what, rdn (m_data m) 12 (m_size m - 12) = Ret what /\ bytes what /\ session_wf s1 /\
    queue_of (s_l7_to_tcp s1) = queue_of (s_l7_to_tcp s) ++ what /\ s_local_seq s1 = s_local_seq s /\
    s_fin_sent s1 = s_fin_sent s /\ s_state s1 = s_state s).
  { destruct (Z.gtb_spec (m_size m) 12).
    - apply bind_Ret_inv in H1 as (what & Hwhat & H1). apply bind_Ret_inv in H1 as (d & Hd & [= <-]).
      assert (Hbw : bytes what).
      { unfold rdn in Hwhat. destruct (_ && _) in Hwhat; [|done]. injection Hwhat as <-. by apply bytes_sub. }
      exists what. split; [done|]. split; [done|].
      destruct (tcp_data_add_spec junk _ _ what (session_wf_queue s Hw)) as (d' & Hd' & Hq). rewrite Hd in Hd'. injection Hd' as <-.
      pose proof (queue_rep_of _ _ Hq) as Hqd. destruct Hq as [Hlen [free Hp]]. rewrite zlen_app in Hlen. pose proof (zlen_nonneg what).
      pose proof (zlen_queue s Hw). destruct Hw as [W1 W2 W3 W4 W5 W6 [W7 W8] W9]. split; [|split; [exact Hqd|done]].
      constructor; cbn; try done.
      + rewrite Hqd, Hp, !zlen_app, bytes_app. pose proof (zlen_nonneg free). split; [lia|done].
      + intros Hc. specialize (W9 Hc). lia.
    - injection H1 as <-. exists []. rewrite app_nil_r. replace (m_size m - 12) with 0 by lia. split.
      + apply bind_Ret_inv in Hflags as (bs & Hbs & _). apply rdn_Ret_inv in Hbs as (_ & _ & Hl & _).
        by rewrite rdn_ok by lia.
      + split; [constructor|]. by repeat (split; [done|]). }
  destruct Hstep as (what & R1 & R2 & R3 & R4 & R5 & R6 & R7). exists sid, s.
  exists (if has flags 1 then set_l7_send_fin true s1 else s1), what. destruct (has flags 1).
  - repeat (split; [done|]). split; [by destruct R3|done].
  - by repeat (split; [done|]).
Qed.

Lemma stream_inv_data G junk m sessions sessions' :
  stream_inv G sessions -> tcp_run_out junk m sessions = Ret sessions' -> bytes (m_data m) ->
  stream_inv (ghost_sync sessions sessions' (ghost_data m G)) sessions'.
Proof.
  intros HI Hr Hb. assert (Hss : sessions_wf sessions) by (intros sid s Hs; apply (HI _ _ Hs)).
  destruct (tcp_run_out_spec _ _ _ _ Hr Hss Hb) as [[-> Hno]|(sid & s & s' & what & Hf & Hs & -> & Hw & Bw & W' & Q' & L' & F' & S')].
  - assert (HG : forall sid s, sessions !! sid = Some s -> ghost_data m G !! sid = G !! sid).
    { intros sid s Hs. unfold ghost_data. destruct Hno as [Hsz|(sid0 & -> & Hn)].
      - destruct (field _ _ _); [|done]. destruct (rdn _ 12 _) eqn:E; [|done]. apply rdn_Ret_inv in E. lia.
      - destruct (rdn _ _ _); [|done]. apply lookup_alter_ne. congruence. }
    intros sid s Hs. rewrite (ghost_sync_old _ _ _ _ _ _ Hs Hs), (HG sid s Hs). by apply HI.
  - assert (HG : ghost_data m G = alter (fun g : Z * list Z => (g.1, g.2 ++ what)) sid G) by (unfold ghost_data; by rewrite Hf, Hw).
    intros sid' s0 Hs0. rewrite HG. destruct (decide (sid' = sid)) as [->|Hne].
    + rewrite lookup_insert_eq in Hs0. injection Hs0 as <-. split; [done|]. rewrite S'. intros Hc.
      destruct (HI sid s Hs) as [_ Hi]. destruct (Hi Hc) as (isn & stream & k & Hg & Hk & Hq & Hl).
      exists isn, (stream ++ what), k. split.
      * rewrite (ghost_sync_old _ _ _ _ s s' Hs) by apply lookup_insert_eq. by rewrite lookup_alter_eq, Hg.
      * unfold stream_at. rewrite zlen_app. pose proof (zlen_nonneg what). split; [lia|]. split; [|by rewrite L', F'].
        rewrite Q', Hq. rewrite drop_app_le by (unfold zlen in *; lia). done.
    + rewrite lookup_insert_ne in Hs0 by done. rewrite (ghost_sync_old _ _ _ _ s0 s0 Hs0) by by rewrite lookup_insert_ne.
      rewrite lookup_alter_ne by done. by apply HI.
Qed.

(** Expired sessions are the only ones the cleaner removes. *)
Lemma tcp_run_clean_spec now sessions sid :
  tcp_run_clean now sessions !! sid =
  match sessions !! sid with
  | Some s => if tcp_expired now s then None else Some s
  | None => None
  end.
Proof.
  unfold tcp_run_clean. set (keys := map fst _).
  assert (Hk : sid ∈ keys <-> exists s, sessions !! sid = Some s /\ tcp_expired now s = true).
  { unfold keys. rewrite list_elem_of_In, in_map_iff. split.
    - intros ([sid' s] & <- & Hin). apply filter_In in Hin as [Hin He]. apply list_elem_of_In, elem_of_entries in Hin. by exists s.
    - intros (s & Hs & He). exists (sid, s). split; [done|]. apply filter_In. split; [|done]. by apply list_elem_of_In, elem_of_entries. }
  clearbody keys. assert (Hd : forall m : gmap Z session_t, foldr (fun sid m => delete sid m) m keys !! sid =
    if decide (sid ∈ keys) then None else m !! sid).
  { clear Hk. intros m. induction keys as [|x keys IH]; cbn [foldr]; [by rewrite decide_False by apply not_elem_of_nil|].
    destruct (decide (sid = x)) as [->|Hne].
    - rewrite lookup_delete_eq. by rewrite decide_True by left.
    - rewrite lookup_delete_ne, IH by done. destruct (decide (sid ∈ keys)).
      + by rewrite decide_True by by right.
      + rewrite decide_False; [done|]. by rewrite list.not_elem_of_cons. }
  rewrite Hd. destruct (decide (sid ∈ keys)) as [Hin|Hni].
  - apply Hk in Hin as (s & -> & ->). done.
  - destruct (sessions !! sid) as [s|] eqn:Es; [|done]. destruct (tcp_expired now s) eqn:Ee; [|done].
    exfalso. apply Hni, Hk. by exists s.
Qed.

(** A request of a client opens a fresh session, closes one, or does nothing. *)
Lemma tcp_run_meta_sessions `{Transport W} junk out_name from_addr ports seq m st st' (w w' : W) :
  tcp_run_meta junk out_name from_addr ports seq m st w = Ret (st', w') ->
  ms_sessions st' ⊆ ms_sessions st \/
  exists sid s, ms_sessions st !! sid = None /\ ms_sessions st' = <[sid := s]> (ms_sessions st) /\
    queue_of (s_l7_to_tcp s) = [] /\ s_fin_sent s = false.
Proof.
  intros Hr. unfold tcp_run_meta in Hr. apply prog_bind_Ret_inv in Hr as (kv & w1 & _ & Hr). cbv zeta in Hr.
  destruct (_ <? 2); [injection Hr as <- _; by left|]. apply prog_bind_Ret_inv in Hr as (q & w2 & _ & Hr).
  destruct q as [q|]; [|injection Hr as <- _; by left]. destruct (q_open q).
  - unfold meta_open in Hr. destruct (q_dst_port q) as [dp|]; [|injection Hr as <- _; by left].
    destruct (q_dst_addr q) as [da|]; [|injection Hr as <- _; by left].
    destruct (q_shm_data_address q) as [sh|]; [|injection Hr as <- _; by left].
    apply prog_bind_Ret_inv in Hr as (sp & w3 & _ & Hr). apply prog_bind_Ret_inv in Hr as (sid & w4 & _ & Hr).
    apply prog_bind_Ret_inv in Hr as (peer & w5 & _ & Hr). apply prog_bind_Ret_inv in Hr as (rc & w6 & _ & Hr).
    destruct (rc =? -1); [injection Hr as <- _; by left|]. apply prog_bind_Ret_inv in Hr as (ok & w7 & _ & Hr).
    destruct (negb _); [injection Hr as <- _; by left|]. injection Hr as <- _. cbn [ms_sessions].
    destruct (ms_sessions st !! sid) eqn:Es; [by left|]. right. by eexists sid, _.
  - unfold meta_close in Hr. destruct (q_session_id q) as [sid|]; [|injection Hr as <- _; by left].
    destruct (ms_sessions st !! sid) as [s|]; [|injection Hr as <- _; by left]. cbv zeta in Hr.
    destruct (ms_ports st !! _) as [id|]; [|done]. apply prog_bind_Ret_inv in Hr as (rc & w3 & _ & Hr).
    injection Hr as <- _. left. apply delete_subseteq.
Qed.

(** ** The server as a transition system *)

Definition with_sessions (st : meta_state) (sessions : gmap Z session_t) : meta_state :=
  {| ms_sessions := sessions; ms_ports := ms_ports st |}.

Section Steps.
Context `{Transport W}.
Variables (out_name : list Z) (mappings_in : gmap Z (list Z)) (salt : list Z) (from_addr : addr).

Definition server : Type := meta_state * gmap Z (Z * list Z) * W.

(** One turn of one of the server's threads.  A client's request is for an IPv4
    address (the sessions it leaves are well-formed). *)
Inductive server_step : server -> server -> Prop :=
| step_segment st G w now_us now_s m full from to pl pad sessions' w' :
    tcp_message m full from to pl pad ->
    tcp_run_in out_name mappings_in salt now_us now_s m (ms_sessions st) w = Ret (sessions', w') ->
    server_step (st, G, w) (with_sessions st sessions', ghost_sync (ms_sessions st) sessions' G, w')
| step_data st G w junk m sessions' :
    bytes (m_data m) ->
    tcp_run_out junk m (ms_sessions st) = Ret sessions' ->
    server_step (st, G, w) (with_sessions st sessions', ghost_sync (ms_sessions st) sessions' (ghost_data m G), w)
| step_sender st G w sessions' w' :
    tcp_sender out_name (ms_sessions st) w = Ret (sessions', w') ->
    server_step (st, G, w) (with_sessions st sessions', ghost_sync (ms_sessions st) sessions' G, w')
| step_clean st G w now :
    let sessions' := tcp_run_clean now (ms_sessions st) in
    server_step (st, G, w) (with_sessions st sessions', ghost_sync (ms_sessions st) sessions' G, w)
| step_meta st G w junk ports seq m st' w' :
    tcp_run_meta junk out_name from_addr ports seq m st w = Ret (st', w') -> sessions_wf (ms_sessions st') ->
    server_step (st, G, w) (st', ghost_sync (ms_sessions st) (ms_sessions st') G, w').

Definition server_init (w : W) : server := ({| ms_sessions := ∅; ms_ports := ∅ |}, ∅, w).

Definition server_inv (x : server) : Prop := let '(st, G, _) := x in stream_inv G (ms_sessions st).

Lemma stream_inv_wf G sessions : stream_inv G sessions -> sessions_wf sessions.
Proof. intros HI sid s Hs. apply (HI _ _ Hs). Qed.

Lemma server_step_inv (Hmap : mappings_ok mappings_in) x y : server_step x y -> server_inv x -> server_inv y.
Proof.
  intros Hxy. destruct Hxy as [st G w now_us now_s m full from to pl pad sessions' w' Hm Hr|st G w junk m sessions' Hb Hr
    |st G w sessions' w' Hr|st G w now sessions'|st G w junk ports seq m st' w' Hr Hwf]; unfold server_inv; cbn [with_sessions ms_sessions]; intros HI;
    pose proof (stream_inv_wf _ _ HI) as Hss.
  - destruct (tcp_run_in_aux out_name mappings_in salt now_us now_s m _ full from to pl pad Hm Hmap Hss) as ([k|] & _ & Hk).
    + destruct Hk as [_ Hk]. destruct (Hk w) as (s1 & w1 & l & Hr' & _ & _ & He). rewrite Hr in Hr'. injection Hr' as <- <-.
      by eapply stream_inv_segment.
    + destruct (Hk w) as (s1 & w1 & l & Hr' & _ & _ & ->). rewrite Hr in Hr'. injection Hr' as -> ->. by apply stream_inv_sub.
  - by eapply stream_inv_data.
  - destruct (runs_sender out_name _ Hss w) as (s1 & w1 & l & Hr' & _ & _ & Hch). rewrite Hr in Hr'. injection Hr' as <- <-.
    by apply stream_inv_sender.
  - apply stream_inv_sub; [done|]. apply map_subseteq_spec. intros sid s. unfold sessions'. rewrite tcp_run_clean_spec.
    destruct (ms_sessions st !! sid); [|done]. by destruct (tcp_expired _ _).
  - destruct (tcp_run_meta_sessions _ _ _ _ _ _ _ _ _ _ Hr) as [Hsub|(sid & s & Hn & E & Hq & Hf)]; [by apply stream_inv_sub|].
    apply stream_inv_sync; [done|]. intros sid' s' Hs'. rewrite E in Hs'. destruct (decide (sid' = sid)) as [->|Hne].
    + rewrite lookup_insert_eq in Hs'. injection Hs' as <-. rewrite Hn. repeat (split; [|done]). apply (Hwf sid). by rewrite E, lookup_insert_eq.
    + rewrite lookup_insert_ne in Hs' by done. rewrite Hs'. by eapply sync_same.
Qed.

Lemma server_reach_inv (Hmap : mappings_ok mappings_in) w x : rtc server_step (server_init w) x -> server_inv x.
Proof.
  intros Hr. assert (Hi : server_inv (server_init w)) by (intros sid s Hs; cbn in Hs; by rewrite lookup_empty in Hs).
  induction Hr as [|x y z Hxy _ IH]; [done|]. apply IH. by eapply server_step_inv.
Qed.

End Steps.

(** ** Properties *)

(** C1: whatever the order in which segments arrive, applications hand over
    data, the sender thread runs, the cleaner removes sessions and clients come
    and go, the sender's next round returns, and each segment it emits for a
    session that is not closed carries, at the sequence number of byte [k] of the
    stream the application has handed over, exactly the bytes of that stream from
    [k] on, at most one MSS of them: no byte is lost, repeated at another number
    or reordered on the wire, through any sequence of acknowledgements and
    retransmissions. *)
Theorem tcp_stream `{Transport W} (out_name : list Z) (mappings_in : gmap Z (list Z)) (salt : list Z) (from_addr : addr)
  (w0 w : W) (st : meta_state) (G : gmap Z (Z * list Z)) (Hmap : mappings_ok mappings_in)
  (Hr : rtc (server_step out_name mappings_in salt from_addr) (server_init w0) (st, G, w)) :
  exists sessions' w' l, tcp_sender out_name (ms_sessions st) w = Ret (sessions', w') /\ t_log w' = t_log w ++ l /\
    Forall (fun x => exists sid s, ms_sessions st !! sid = Some s /\ sent_to x = out_name /\
      (s_state s <> closed -> exists isn stream k flags seg,
        G !! sid = Some (isn, stream) /\ 0 <= k <= zlen stream /\
        tcp_seg (s_local_addr s) (s_peer_addr s) (s_local_port s) (s_peer_port s) (u32 (isn + k)) (s_peer_seq s) flags
          (s_local_window_size s) (sub stream k (s_mss s)) seg /\
        sent_data x = down_data (s_local_addr s) (s_peer_addr s) seg)) l.
Proof.
  pose proof (server_reach_inv _ _ _ _ Hmap _ _ Hr) as HI. cbn in HI. pose proof (stream_inv_wf _ _ HI) as Hss.
  destruct (runs_sender out_name _ Hss w) as (sessions' & w' & l & Hrun & Hl & Hf & _).
  exists sessions', w', l. split; [done|]. split; [done|]. eapply List.Forall_impl; [|exact Hf].
  intros x (sid & s & Hs & Hidle & Hfin & Hto & fin & seg & Hseg & _ & Hx). exists sid, s. split; [done|]. split; [done|].
  intros Hc. destruct (HI sid s Hs) as [_ Hi]. destruct (Hi Hc) as (isn & stream & k & HG & Hk & Hq & Hls).
  eexists isn, stream, k, _, seg. split; [done|]. split; [done|]. split; [|done].
  unfold data_segment in Hseg. rewrite Hls, Hfin, Z.add_0_r, Hq in Hseg. exact Hseg.
Qed.

(** A session is opened by a handshake, and its application hands over "Hi". *)
Definition ret_or {A} (d : A) (o : outcome A) : A := match o with Ret a => a | Fault _ => d end.

Definition ex_open : gmap Z session_t * oracle :=
  Eval vm_compute in
  ret_or (∅, oracle_ok) (tcp_run_in (W := oracle) (str "ip4") ex_tcp_maps ex_salt 6 101 (ex_ack (ex_cookie + 1)) ∅ oracle_ok).

Definition ex_app_message : message :=
  let data := le_bytes 8 (k_session_id (seg_of ex_syn)) ++ le_bytes 4 0 ++ str "Hi" in
  fill_message (allocate_shm_message (zlen data)) msg_new 0 data.

Definition ex_queued : gmap Z session_t :=
  Eval vm_compute in ret_or ∅ (tcp_run_out (fun _ => 0) ex_app_message (fst ex_open)).

Lemma tcp_stream_witness :
  exists sessions' w' l,
    tcp_sender (str "ip4") ex_queued (snd ex_open) = Ret (sessions', w') /\ t_log w' = t_log (snd ex_open) ++ l.
Proof.
  set (st0 := {| ms_sessions := ∅; ms_ports := ∅ |} : meta_state).
  destruct (tcp_stream (str "ip4") ex_tcp_maps ex_salt ex_me oracle_ok (snd ex_open)
    (with_sessions (with_sessions st0 (fst ex_open)) ex_queued)
    (ghost_sync (fst ex_open) ex_queued (ghost_data ex_app_message (ghost_sync ∅ (fst ex_open) ∅)))) as (s' & w' & l & H1 & H2 & _).
  - apply map_Forall_singleton. vm_compute. discriminate.
  - eapply rtc_l; [|apply rtc_once].
    + eapply step_segment with (sessions' := fst ex_open) (w' := snd ex_open) (now_us := 6) (now_s := 101) (m := ex_ack (ex_cookie + 1)).
      * apply ex_ip_message. vm_compute. reflexivity.
      * vm_compute. reflexivity.
    + eapply step_data with (junk := fun _ => 0) (m := ex_app_message) (sessions' := ex_queued).
      * concrete_bytes.
      * vm_compute. reflexivity.
  - exists s', w', l. split; [exact H1|exact H2].
Defined.

(** C28: an acknowledgement takes from the queue exactly the bytes it covers and
    advances the send position by as many, when its number is numerically not
    below the position and covers no more than what is in flight; otherwise it
    takes nothing.  Afterwards nothing is in flight, or all is as before.  The
    comparison is not one of sequence numbers: when the bytes in flight reach or
    cross number 2^32, the acknowledgement of all of them takes nothing and has
    them sent again. *)
Theorem tcp_ack_window (ack : Z) (s : session_t) (Hw : session_wf s) (Hc : s_state s <> closed) :
  (exists n s1, tcp_in_ack ack s = Ret s1 /\ session_wf s1 /\ 0 <= n <= s_in_flight s /\
    queue_of (s_l7_to_tcp s1) = drop (Z.to_nat n) (queue_of (s_l7_to_tcp s)) /\
    s_local_seq s1 = u32 (s_local_seq s + n) /\
    (s_in_flight s1 = 0 \/ s_in_flight s1 = s_in_flight s /\ n = 0) /\
    n = (let ack_n := u32 (ack - s_local_seq s) in
         if (s_local_seq s <=? ack) && (ack_n <=? s_in_flight s) then ack_n else 0)) /\
  (0 < s_in_flight s < 2 ^ 32 -> 2 ^ 32 <= s_local_seq s + s_in_flight s -> ack = u32 (s_local_seq s + s_in_flight s) ->
   tcp_in_ack ack s = Ret (set_in_flight 0 s)).
Proof.
  split.
  - destruct (tcp_in_ack_spec ack s Hw Hc) as (n & s1 & H1 & H2 & _ & H3 & H4 & H5 & _ & _ & H6 & H7).
    exists n, s1. by repeat (split; [done|]).
  - intros Hf Hov ->. pose proof (wf_local_seq s Hw) as Hs. unfold is_u in Hs. unfold tcp_in_ack.
    assert (E : u32 (s_local_seq s + s_in_flight s) = s_local_seq s + s_in_flight s - 2 ^ 32).
    { unfold wrap. symmetry. apply Z.mod_unique with 1; lia. }
    rewrite E, Z.geb_leb. by destruct (Z.leb_spec (s_local_seq s) (s_local_seq s + s_in_flight s - 2 ^ 32)); [lia|].
Qed.

Definition ex_wrap_session : session_t :=
  set_in_flight 2 (set_local_seq (2 ^ 32 - 2) (set_l7_to_tcp {| d_sequence_nr := 0; d_ts := 0; d_p := str "Hi"; d_len := 2 |} ex_session)).

Lemma tcp_ack_window_witness : tcp_in_ack 0 ex_wrap_session = Ret (set_in_flight 0 ex_wrap_session).
Proof.
  destruct (tcp_ack_window 0 ex_wrap_session) as [_ H].
  - destruct ex_session_wf as [W1 W2 W3 W4 W5 W6 W7 W8]. constructor.
    + exact W1.
    + exact W2.
    + exact W3.
    + vm_compute. split; [discriminate|reflexivity].
    + exact W5.
    + vm_compute. discriminate.
    + split; [vm_compute; split; discriminate|concrete_bytes].
    + intros _. vm_compute. discriminate.
  - discriminate.
  - apply H; vm_compute; auto; discriminate.
Defined.
