(* ===== verification/Link.v ===== *)
(** * The link layer: [src/tap_server.cpp] and [src/promisc_server.cpp]

    Two servers with the same handlers, between a network device and the
    message queues: frames in ([frame_in]), messages out ([frame_of]) and the
    MAC address on request.  What [read], [write] and [sendto] do is an input;
    opening and configuring the device is not modelled. *)

From S2P Require Import Prelude Net Checksum Str Addr ShmMessage Transport.

(** ** Code *)

Definition IFNAMSIZ : Z := 16.

(** [set_ifr_name] into the zeroed [ifr_name]. *)
Definition set_ifr_name (device_name : list Z) : outcome (list Z) :=
  let copy_name_n := Z.min IFNAMSIZ (zlen device_name) in
  name ← rdn device_name 0 copy_name_n;
  ifr_name ← wr (zeros IFNAMSIZ) 0 name;
  wr ifr_name copy_name_n [0].

(** The frame [run_out] builds for a message; [None] where it drops the message. *)
Definition frame_of (junk : nat -> Z) (mappings_out : gmap (list Z) Z) (m : message) : outcome (option (list Z)) :=
  v ← unwrap_message_down m;
  if negb (d_from_len v =? 6) || negb (d_to_len v =? 6) then Ret None else
  let pl_len := d_pl_len v in
  if pl_len =? 0 then Ret None else
  match mappings_out !! sender_of m with
  | None => Ret None
  | Some type =>
    let packet_length := 6 + 6 + 2 + pl_len in
    let packet := fresh junk packet_length in
    to ← rdn (d_to v) 0 6;
    packet ← wr packet 0 to;
    from ← rdn (d_from v) 0 6;
    packet ← wr packet 6 from;
    packet ← wr packet 12 [u8 (Z.shiftr type 8)];
    packet ← wr packet 13 [u8 type];
    pl ← rdn (d_pl v) 0 pl_len;
    packet ← wr packet 14 pl;
    Ret (Some packet)
  end.

(** Body of [run_out] of the tap server; [written] is the result of [write].
    When it is not the length of the frame, the message is freed there and again
    behind the [if]. *)
Definition tap_run_out (junk : nat -> Z) (mappings_out : gmap (list Z) Z) (written : list Z -> Z) (m : message)
  : outcome (option (list Z)) :=
  packet ← frame_of junk mappings_out m;
  match packet with
  | None => Ret None
  | Some packet => if negb (written packet =? zlen packet) then Fault DoubleFree else Ret (Some packet)
  end.

(** Body of [run_out] of the promiscuous mode server: a short [sendto] is logged only. *)
Definition promisc_run_out (junk : nat -> Z) (mappings_out : gmap (list Z) Z) (m : message) : outcome (option (list Z)) :=
  frame_of junk mappings_out m.

Section Link.
Context `{Transport W}.

(** Body of [run_in] for a frame that [read] returned. *)
Definition frame_in (mac_addr : addr) (mappings_in : gmap Z (list Z)) (buffer : list Z) : prog W unit :=
  let size := zlen buffer in
  if size <? 42 then mret tt else
  b0 ← lift (rd buffer 0);
  dst ← lift (rdn buffer 0 6);
  if (Z.land b0 1 =? 0) && negb (beq dst mac_addr) && negb (beq dst bc_addr) then mret tt else
  b12 ← lift (rd buffer 12);
  b13 ← lift (rd buffer 13);
  let type := u16 (Z.lor (Z.shiftl b12 8) b13) in
  match mappings_in !! type with
  | None => mret tt
  | Some name =>
    msg ← lift (wrap_message_up size buffer 6 (padd buffer 6) 6 buffer (size - 14) (padd buffer 14) None);
    _ ← send name msg false;
    mret tt
  end.

Definition tap_run_in := frame_in.
Definition promisc_run_in := frame_in.

Definition link_push_meta_reply (to reply : list Z) (msg_nr : Z) : prog W unit :=
  let m_reply := fill_message (allocate_shm_message (zlen reply)) msg_reply msg_nr reply in
  _ ← send to m_reply false;
  mret tt.

(** Body of [run_meta]. *)
Definition link_run_meta (mac : addr) (m : message) : prog W unit :=
  kv ← lift (rdn (m_data m) 0 (m_size m));
  match split kv (str "=") with
  | [] => lift (Fault OutOfBounds)
  | command :: _ =>
    if beq command (str "get-mac")
    then link_push_meta_reply (sender_of m) (str "mac=" ++ to_str 58 true mac) (m_msg_nr m)
    else mret tt
  end.

(** The promiscuous server has the same two functions. *)
Definition promisc_push_meta_reply := link_push_meta_reply.
Definition promisc_run_meta := link_run_meta.

End Link.

(** ** Lemmas *)

(** A device name of 16 characters or more is terminated outside the field. *)
Lemma set_ifr_name_spec device_name :
  set_ifr_name device_name =
  if zlen device_name <? IFNAMSIZ then Ret (device_name ++ zeros (IFNAMSIZ - zlen device_name)) else Fault OutOfBounds.
Proof.
  unfold set_ifr_name. pose proof (zlen_nonneg device_name) as H0. unfold IFNAMSIZ in *.
  rewrite rdn_ok by lia. mcbn. set (name := sub device_name 0 _).
  assert (Hn : zlen name = Z.min 16 (zlen device_name)) by (unfold name; apply zlen_sub; lia).
  rewrite wr_ok by (rewrite ?zlen_zeros; lia). mcbn. destruct (Z.ltb_spec (zlen device_name) 16).
  - assert (name = device_name) as -> by (unfold name; apply sub_all; lia). rewrite Z.min_r by lia.
    assert (E : splice (zeros 16) 0 device_name = device_name ++ zeros (16 - zlen device_name)).
    { assert (Hz : zeros 16 = zeros (zlen device_name) ++ zeros (16 - zlen device_name)).
      { unfold zeros. rewrite <- replicate_add. f_equal. lia. }
      rewrite Hz. apply (splice_mid [] _ _ device_name); [done|]. by rewrite zlen_zeros. }
    rewrite E, wr_ok by (rewrite ?zlen_app, ?zlen_zeros; unfold zlen in *; cbn [length]; lia). f_equal.
    set (k := 16 - zlen device_name). assert (Hk : zeros k = 0 :: zeros (k - 1)).
    { unfold zeros. replace (Z.to_nat k) with (S (Z.to_nat (k - 1))) by lia. done. }
    rewrite Hk. apply (splice_mid device_name [0] (zeros (k - 1)) [0]); done.
  - rewrite Z.min_l by lia. apply wr_oob. rewrite zlen_splice by (rewrite ?zlen_zeros; lia). rewrite zlen_zeros by lia.
    unfold zlen. cbn [length]. lia.
Qed.

(** An Ethernet frame. *)
Definition eth_frame (to from : addr) (type : Z) (pl : list Z) : list Z := to ++ from ++ be16 type ++ pl.

Lemma zlen_eth_frame to from type pl : zlen to = 6 -> zlen from = 6 -> zlen (eth_frame to from type pl) = 14 + zlen pl.
Proof. intros. unfold eth_frame. rewrite !zlen_app, zlen_be16. lia. Qed.

Lemma frame_of_spec junk mappings_out m from to pl pad :
  m_data m = down_data from to pl ++ pad -> zlen from <= 255 -> zlen to <= 255 -> zlen pl < 2 ^ 31 ->
  frame_of junk mappings_out m =
  Ret (if (zlen from =? 6) && (zlen to =? 6) && negb (zlen pl =? 0) then
         (fun type => eth_frame to from type pl) <$> mappings_out !! sender_of m
       else None).
Proof.
  intros Hm Hf Ht Hp. unfold frame_of. erewrite unwrap_message_down_data by (exact Hm || (unfold fits; lia)). mcbn.
  cbn [d_from_len d_to_len d_pl_len d_from d_to d_pl].
  destruct (Z.eqb_spec (zlen from) 6) as [Lf|]; [|done]. destruct (Z.eqb_spec (zlen to) 6) as [Lt|]; [|done]. cbn [negb orb andb].
  destruct (Z.eqb_spec (zlen pl) 0) as [|Hpl]; [done|]. cbn [negb]. destruct (mappings_out !! sender_of m) as [type|]; [|done].
  rewrite (rdn_app_l to) by done. mcbn. pose proof (zlen_nonneg pl).
  set (pk := fresh junk (6 + 6 + 2 + zlen pl)). assert (Hk : zlen pk = 14 + zlen pl) by (unfold pk; rewrite zlen_fresh; lia).
  clearbody pk. assert (Hsp : exists a b c d e, pk = a ++ b ++ [c] ++ [d] ++ e /\ zlen a = 6 /\ zlen b = 6 /\ zlen e = zlen pl).
  { exists (take 6 pk), (take 6 (drop 6 pk)), (nth 12 pk 0), (nth 13 pk 0), (drop 14 pk).
    split; [|rewrite !zlen_take, !zlen_drop; repeat split; lia].
    do 14 (destruct pk as [|? pk]; [unfold zlen in Hk; cbn [length] in Hk; lia|]). done. }
  destruct Hsp as (a & b & c & d & e & -> & La & Lb & Le). clear Hk.
  rewrite (wr_mid [] a (b ++ [c] ++ [d] ++ e) to) by (done || lia). mcbn. rewrite (rdn_app_l from) by done. mcbn. cbn [app].
  rewrite (wr_mid to b (c :: d :: e) from) by lia. mcbn.
  rewrite (app_assoc to from), (wr_mid (to ++ from) [c] (d :: e)) by (rewrite ?zlen_app; done || lia). mcbn.
  rewrite (app_assoc (to ++ from) [_]), (wr_mid ((to ++ from) ++ [_]) [d] e) by (rewrite ?zlen_app, ?zlen_cons; change (zlen (@nil Z)) with 0; done || lia).
  mcbn. rewrite (rdn_app_l pl) by done. mcbn. rewrite <- (app_nil_r e), (app_assoc ((to ++ from) ++ [_]) [_]).
  rewrite (wr_mid _ e [] pl) by (rewrite ?zlen_app, ?zlen_cons; change (zlen (@nil Z)) with 0; lia). mcbn.
  rewrite app_nil_r. unfold eth_frame. by rewrite <- !app_assoc.
Qed.

Lemma frame_in_spec `{Transport W} mac_addr mappings_in to from type pl w :
  bytes to -> zlen to = 6 -> zlen from = 6 -> is_u 16 type -> zlen pl <= 65535 ->
  let f := eth_frame to from type pl in
  frame_in mac_addr mappings_in f w =
  match mappings_in !! type with
  | Some name =>
    if (28 <=? zlen pl) && (negb (Z.land (nth 0 to 0) 1 =? 0) || beq to mac_addr || beq to bc_addr)
    then Ret (tt, after_send name (message_of (up_data f from to pl) None) w)
    else Ret (tt, w)
  | None => Ret (tt, w)
  end.
Proof.
  intros Bt Lt Lf Ht Lp f. pose proof (zlen_nonneg pl). assert (Hz : zlen f = 14 + zlen pl) by (by apply zlen_eth_frame).
  unfold frame_in. rewrite Hz. destruct (Z.ltb_spec (14 + zlen pl) 42).
  { replace (28 <=? zlen pl) with false by lia. cbn [andb]. by destruct (mappings_in !! type). }
  replace (28 <=? zlen pl) with true by lia. cbn [andb].
  assert (E0 : rd f 0 = Ret (nth 0 to 0)).
  { destruct to as [|t0 to]; [done|]. by apply rd_ok. }
  erewrite lift_bind by exact E0. erewrite lift_bind by (unfold f, eth_frame; by apply rdn_app_l).
  set (for_us := negb (Z.land _ 1 =? 0) || _ || _).
  assert (Hn : (Z.land (nth 0 to 0) 1 =? 0) && negb (beq to mac_addr) && negb (beq to bc_addr) = negb for_us).
  { unfold for_us. by rewrite !negb_orb, negb_involutive. }
  rewrite Hn. destruct for_us; cbn [negb]; [|by destruct (mappings_in !! type)].
  assert (Hf : f = (to ++ from) ++ u8 (Z.shiftr type 8) :: u8 type :: pl) by (unfold f, eth_frame; by rewrite <- app_assoc).
  assert (L12 : zlen (to ++ from) = 12) by (rewrite zlen_app; lia).
  assert (E12 : rd f 12 = Ret (u8 (Z.shiftr type 8))).
  { apply rd_ok; [lia|]. rewrite Hf, lookup_app_r by (unfold zlen in L12; lia).
    replace (Z.to_nat 12 - length (to ++ from))%nat with 0%nat by (unfold zlen in L12; lia). done. }
  assert (E13 : rd f 13 = Ret (u8 type)).
  { apply rd_ok; [lia|]. rewrite Hf, lookup_app_r by (unfold zlen in L12; lia).
    replace (Z.to_nat 13 - length (to ++ from))%nat with 1%nat by (unfold zlen in L12; lia). done. }
  erewrite lift_bind by exact E12. erewrite lift_bind by exact E13.
  rewrite be16_join, be16_u8 by (done || apply u8_byte). destruct (mappings_in !! type) as [name|]; [|done].
  erewrite lift_bind.
  2: { eapply wrap_message_up_gen with (f := from) (t := to) (p := pl) (k := f); try lia.
       - replace (padd f 6) with (from ++ be16 type ++ pl) by (unfold f, eth_frame; by rewrite padd_app). by apply rdn_app_l.
       - unfold f, eth_frame. by apply rdn_app_l.
       - replace (padd f 14) with pl; [apply rdn_all; lia|]. unfold f, eth_frame. rewrite (app_assoc to), (app_assoc (to ++ from)).
         rewrite padd_app; [done|]. rewrite !zlen_app, zlen_be16. lia.
       - apply rdn_all. lia. }
  rewrite send_after; [done|]. apply up_message_size. lia.
Qed.

(** ** Properties *)

(** A message for the link layer becomes one Ethernet frame - destination,
    source, the sender's protocol number, payload - and that frame, received by
    a host it is addressed to (its own address, broadcast or multicast) arrives at
    the server for the protocol with addresses and payload as they were, provided
    the payload has 28 bytes or more: shorter frames are dropped as truncated.
    (A last IP fragment of less than eight bytes makes such a frame.)  If [write]
    accepts less than the frame, the tap server frees the message twice. *)
Theorem link_end_to_end `{Transport W} (junk : nat -> Z) (mappings_out : gmap (list Z) Z) (mappings_in : gmap Z (list Z))
  (m : message) (from to mac_addr : addr) (pl pad : list Z) (type : Z) (name : list Z) (written : list Z -> Z) (w : W)
  (Hm : m_data m = down_data from to pl ++ pad) (Hfrom : bytes from /\ zlen from = 6) (Hto : bytes to /\ zlen to = 6)
  (Hpl : 0 < zlen pl <= 65535) (Hout : mappings_out !! sender_of m = Some type) (Ht : is_u 16 type)
  (Hin : mappings_in !! type = Some name) :
  let f := eth_frame to from type pl in
  promisc_run_out junk mappings_out m = Ret (Some f) /\
  tap_run_out junk mappings_out written m = (if written f =? zlen f then Ret (Some f) else Fault DoubleFree) /\
  frame_in mac_addr mappings_in f w =
    if (28 <=? zlen pl) && (negb (Z.land (nth 0 to 0) 1 =? 0) || beq to mac_addr || beq to bc_addr)
    then Ret (tt, after_send name (message_of (up_data f from to pl) None) w)
    else Ret (tt, w).
Proof.
  destruct Hfrom as [Bf Lf], Hto as [Bt Lt]. intros f.
  assert (Hfr : frame_of junk mappings_out m = Ret (Some f)).
  { rewrite (frame_of_spec junk mappings_out m from to pl pad) by (done || lia). rewrite Lf, Lt, Hout.
    replace (zlen pl =? 0) with false by lia. done. }
  split; [exact Hfr|]. split.
  - unfold tap_run_out. rewrite Hfr. mcbn. by destruct (written f =? zlen f).
  - unfold f. rewrite frame_in_spec by (done || lia). by rewrite Hin.
Qed.

Definition ex_down : message :=
  {| m_id := 0; m_sent_at := 0; m_size := 68; m_type := 1; m_msg_nr := 0; m_sender := str "ip4" ++ zeros 29;
     m_data := down_data [2; 0; 0; 0; 0; 1] [2; 0; 0; 0; 0; 2] (zeros 28) |}.

Lemma link_end_to_end_witness :
  tap_run_out (fun _ => 0) {[ str "ip4" := 0x0800 ]} (fun _ => 10) ex_down = Fault DoubleFree /\
  exists f, promisc_run_out (fun _ => 0) {[ str "ip4" := 0x0800 ]} ex_down = Ret (Some f) /\
    frame_in [2; 0; 0; 0; 0; 2] {[ 0x0800 := str "ip" ]} f oracle_ok =
    Ret (tt, after_send (str "ip") (message_of (up_data f [2; 0; 0; 0; 0; 1] [2; 0; 0; 0; 0; 2] (zeros 28)) None) oracle_ok).
Proof.
  destruct (link_end_to_end (W := oracle) (fun _ => 0) {[ str "ip4" := 0x0800 ]} {[ 0x0800 := str "ip" ]} ex_down
    [2; 0; 0; 0; 0; 1] [2; 0; 0; 0; 0; 2] [2; 0; 0; 0; 0; 2] (zeros 28) [] 0x0800 (str "ip") (fun _ => 10) oracle_ok) as (H1 & H2 & H3).
  - reflexivity.
  - split; [concrete_bytes|reflexivity].
  - split; [concrete_bytes|reflexivity].
  - vm_compute. split; [reflexivity|discriminate].
  - reflexivity.
  - unfold is_u. lia.
  - reflexivity.
  - split; [exact H2|]. eexists. split; [exact H1|exact H3].
Defined.
