(* ===== verification/Exchange.v ===== *)
(** * The exchange of addresses at the start

    Before the ARP and the TCP server run they ask for the addresses they need: [cfg_runtime] of
    [src/arp_server.cpp] asks the link server for the MAC address and the IPv4 server for the IP
    address, that of [src/tcp_server.cpp] the latter.  The [run_meta] threads of the two answer.  The four
    run side by side here, each at a place of its loop; a turn takes one of them to its next look at a
    queue.  Which is next, the clock and whether a wait runs out of time are arbitrary. *)

From S2P Require Import Prelude Net Str Addr SipHash ShmMessage Shm Transport Queues Arp Ip4In TcpWire TcpData Tcp TcpMeta Reassembly Ip4Out Link.

(** ** Code *)

Inductive role : Set := RLink | RIp4 | RArp | RTcp.

#[export] Instance role_eq_dec : EqDecision role.
Proof. solve_decision. Defined.

(** Where [cfg_runtime] of the ARP server is: about to ask, or waiting for the reply with a number. *)
Inductive arp_place : Set :=
| AMac
| AMacWait (msg_nr : Z)
| AIp4
| AIp4Wait (msg_nr : Z)
| ADone.

(** That of the TCP server. *)
Inductive tcp_place : Set :=
| TAsk (last_tx msg_nr : Z)
| TWait (last_tx msg_nr : Z)
| TDone.

Record exchange := {
  x_segs : gmap (list Z) segment;
  x_arp : arp_place; x_mac : option addr; x_ip4 : option addr;
  x_tcp : tcp_place; x_tcp_ip4 : option addr }.

(** The clock, whether a wait that finds nothing ends, and uninitialised memory. *)
Record xturn := { xe_now : Z; xe_timeout : bool; xe_junk : nat -> Z }.

Section Exchange.
Context (name : role -> list Z) (mac ip4 : addr).

Definition x_net (r : role) (e : xturn) (x : exchange) : net :=
  {| n_ident := fun _ => name r; n_now := xe_now e; n_segs := x_segs x; n_log := [] |}.

Definition x_set_segs (segs : gmap (list Z) segment) (x : exchange) : exchange :=
  {| x_segs := segs; x_arp := x_arp x; x_mac := x_mac x; x_ip4 := x_ip4 x; x_tcp := x_tcp x; x_tcp_ip4 := x_tcp_ip4 x |}.
Definition x_set_arp (p : arp_place) (x : exchange) : exchange :=
  {| x_segs := x_segs x; x_arp := p; x_mac := x_mac x; x_ip4 := x_ip4 x; x_tcp := x_tcp x; x_tcp_ip4 := x_tcp_ip4 x |}.
Definition x_set_mac (a : option addr) (x : exchange) : exchange :=
  {| x_segs := x_segs x; x_arp := x_arp x; x_mac := a; x_ip4 := x_ip4 x; x_tcp := x_tcp x; x_tcp_ip4 := x_tcp_ip4 x |}.
Definition x_set_ip4 (a : option addr) (x : exchange) : exchange :=
  {| x_segs := x_segs x; x_arp := x_arp x; x_mac := x_mac x; x_ip4 := a; x_tcp := x_tcp x; x_tcp_ip4 := x_tcp_ip4 x |}.
Definition x_set_tcp (p : tcp_place) (a : option addr) (x : exchange) : exchange :=
  {| x_segs := x_segs x; x_arp := x_arp x; x_mac := x_mac x; x_ip4 := x_ip4 x; x_tcp := p; x_tcp_ip4 := a |}.

(** [wait_for_message] on the queue of [r]. *)
Definition x_wait (r : role) (type : Z) (nr : option Z) (x : exchange) : outcome (wait_result * exchange) :=
  match x_segs x !! name r with
  | None => Ret (Blocked, x)
  | Some s =>
    w ← wait_for_message LockOk 100 type nr [TimedOut] s;
    Ret (w.1, x_set_segs (<[name r := w.2]> (x_segs x)) x)
  end.

(** [run_meta] of the link and of the IPv4 server; [None]: no request. *)
Definition x_serve (r : role) (e : xturn) (run_meta : message -> prog net unit) (x : exchange) : outcome (option exchange) :=
  w ← x_wait r msg_new None x;
  match w.1 with
  | Got m => u ← run_meta m (x_net r e w.2); Ret (Some (x_set_segs (n_segs u.2) w.2))
  | Null | Blocked => Ret None
  end.

(** A request; [None]: the queue is full, and a send that blocks goes on waiting. *)
Definition x_request (blocking : bool) (to request : list Z) : prog net (option Z) :=
  if blocking then send_meta_request to request else tcp_send_meta_request to request.
Definition x_full (to request : list Z) (x : exchange) : bool :=
  match x_segs x !! to with Some s => s_total_size s <? s_filled s + PAD8 (sizeof_message + zlen request) | None => false end.
Definition x_send (blocking : bool) (r : role) (e : xturn) (to request : list Z) (x : exchange) : outcome (option (option Z * exchange)) :=
  if blocking && x_full to request x then Ret None
  else u ← x_request blocking to request (x_net r e x); Ret (Some (u.1, x_set_segs (n_segs u.2) x)).

(** Behind the two questions. *)
Definition arp_next (x : exchange) : arp_place :=
  match x_mac x, x_ip4 x with Some _, Some _ => ADone | _, _ => AMac end.
Definition arp_end_round (x : exchange) : exchange := x_set_arp (arp_next x) x.

(** [cfg_runtime] of the ARP server, from one look at a queue to the next. *)
Definition x_arp_turn (e : xturn) (x : exchange) : outcome (option exchange) :=
  match x_arp x with
  | AMac =>
    match x_mac x with
    | Some _ => Ret (Some (x_set_arp AIp4 x))
    | None =>
      u ← x_send true RArp e (name RLink) (str "get-mac") x;
      Ret ((fun u => x_set_arp match u.1 : option Z with Some nr => AMacWait nr | None => AIp4 end u.2) <$> (u : option (option Z * exchange)))
    end
  | AMacWait nr =>
    w ← x_wait RArp msg_reply (Some nr) x;
    match w.1 with
    | Got m => a ← cfg_got (xe_junk e) (str "mac=") (str ":") true m; Ret (Some (x_set_arp AIp4 (x_set_mac a w.2)))
    | Null => if xe_timeout e then Ret (Some (x_set_arp AIp4 w.2)) else Ret None
    | Blocked => Ret None
    end
  | AIp4 =>
    match x_ip4 x with
    | Some _ => Ret (Some (arp_end_round x))
    | None =>
      u ← x_send true RArp e (name RIp4) (str "get-ip4") x;
      Ret ((fun u => match u.1 : option Z with Some nr => x_set_arp (AIp4Wait nr) u.2 | None => arp_end_round u.2 end)
        <$> (u : option (option Z * exchange)))
    end
  | AIp4Wait nr =>
    w ← x_wait RArp msg_reply (Some nr) x;
    match w.1 with
    | Got m => a ← cfg_got (xe_junk e) (str "ip4=") (str ".") false m; Ret (Some (arp_end_round (x_set_ip4 a w.2)))
    | Null => if xe_timeout e then Ret (Some (arp_end_round w.2)) else Ret None
    | Blocked => Ret None
    end
  | ADone => Ret None
  end.

(** ... and of the TCP server. *)
Definition x_tcp_turn (e : xturn) (x : exchange) : outcome (option exchange) :=
  match x_tcp x with
  | TAsk last_tx msg_nr =>
    if u64 (xe_now e - last_tx) >? 2000000 then
      u ← x_send false RTcp e (name RIp4) (str "get-ip4") x;
      Ret ((fun u => x_set_tcp match u.1 : option Z with Some nr => TWait (xe_now e) nr | None => TAsk last_tx msg_nr end None u.2)
        <$> (u : option (option Z * exchange)))
    else Ret (Some (x_set_tcp (TWait last_tx msg_nr) None x))
  | TWait last_tx msg_nr =>
    w ← x_wait RTcp msg_reply (Some msg_nr) x;
    match w.1 with
    | Got m =>
      a ← tcp_cfg_got (xe_junk e) m;
      Ret (Some (match a : option addr with Some a => x_set_tcp TDone (Some a) w.2 | None => x_set_tcp (TAsk last_tx msg_nr) None w.2 end))
    | Null => if xe_timeout e then Ret (Some (x_set_tcp (TAsk last_tx msg_nr) None w.2)) else Ret None
    | Blocked => Ret None
    end
  | TDone => Ret None
  end.

Definition x_turn (r : role) (e : xturn) (x : exchange) : outcome (option exchange) :=
  match r with
  | RLink => x_serve RLink e (link_run_meta mac) x
  | RIp4 => x_serve RIp4 e (ip4_run_meta ip4) x
  | RArp => x_arp_turn e x
  | RTcp => x_tcp_turn e x
  end.

Definition x_start (segs : gmap (list Z) segment) : exchange :=
  {| x_segs := segs; x_arp := AMac; x_mac := None; x_ip4 := None; x_tcp := TAsk 0 0; x_tcp_ip4 := None |}.

(** Some turns after the start. *)
Inductive x_reach (segs : gmap (list Z) segment) : exchange -> Prop :=
| reach_start : x_reach segs (x_start segs)
| reach_turn x r e x' : x_reach segs x -> is_u 64 (xe_now e) -> x_turn r e x = Ret (Some x') -> x_reach segs x'.

(** Every schedule without timeouts leads to [P]. *)
Inductive x_inevitably (P : exchange -> Prop) : exchange -> Prop :=
| xi_done x : P x -> x_inevitably P x
| xi_turn x :
    (exists r, forall e, is_u 64 (xe_now e) -> 2000000 < xe_now e -> xe_timeout e = false -> exists x', x_turn r e x = Ret (Some x')) ->
    (forall r e, is_u 64 (xe_now e) -> exists o, x_turn r e x = Ret o) ->
    (forall r e x', is_u 64 (xe_now e) -> 2000000 < xe_now e -> xe_timeout e = false -> x_turn r e x = Ret (Some x') -> x_inevitably P x') ->
    x_inevitably P x.

End Exchange.

(** ** Lemmas: the messages *)

(** A request from [sender], and a reply. *)
Record asks (request sender : list Z) (m : message) : Prop := {
  as_type : m_type m = msg_new;
  as_size : m_size m = zlen request;
  as_data : exists pad, m_data m = request ++ pad;
  as_sender : sender_of m = sender;
  as_nr : is_u 64 (m_msg_nr m) }.

Record answers (text : list Z) (m : message) : Prop := {
  an_type : m_type m = msg_reply;
  an_size : m_size m = zlen text;
  an_data : exists pad, m_data m = text ++ pad }.

Definition mac_text (mac : addr) : list Z := str "mac=" ++ to_str 58 true mac.
Definition ip4_text (ip4 : addr) : list Z := str "ip4=" ++ to_str 46 false ip4.

Lemma read_text text m : m_size m = zlen text -> (exists pad, m_data m = text ++ pad) -> rdn (m_data m) 0 (m_size m) = Ret text.
Proof. intros -> (pad & ->). by apply rdn_app_l. Qed.

Lemma text_size key sep hex (a : addr) : zlen key = 4 -> bytes a -> zlen a <= 6 -> 0 < zlen (key ++ to_str sep hex a) <= 70.
Proof. intros Hk Ba La. rewrite zlen_app, Hk. pose proof (zlen_nonneg (to_str sep hex a)). pose proof (zlen_to_str sep hex a Ba). lia. Qed.

Lemma link_serves `{Transport W} (mac : addr) m sender (w : W) : bytes mac -> zlen mac <= 6 -> asks (str "get-mac") sender m ->
  link_run_meta mac m w = Ret (tt, after_send sender (reply_message (mac_text mac) (m_msg_nr m)) w).
Proof.
  intros Bm Lm [_ Hs Hd <- _]. unfold link_run_meta. erewrite lift_bind by (by apply read_text).
  change (split (str "get-mac") (str "=")) with [str "get-mac"]. cbv beta iota. rewrite beq_refl. unfold link_push_meta_reply. fold (mac_text mac).
  pose proof (text_size (str "mac=") 58 true mac eq_refl Bm Lm) as Lt. fold (mac_text mac) in Lt.
  rewrite send_after; [done|]. rewrite fill_size by lia. lia.
Qed.

Lemma ip4_serves `{Transport W} (ip4 : addr) m sender (w : W) : bytes ip4 -> zlen ip4 <= 6 -> asks (str "get-ip4") sender m ->
  ip4_run_meta ip4 m w = Ret (tt, after_send sender (reply_message (ip4_text ip4) (m_msg_nr m)) w).
Proof.
  intros Bm Lm [_ Hs Hd <- _]. unfold ip4_run_meta. erewrite lift_bind by (by apply read_text).
  change (split (str "get-ip4") (str "=")) with [str "get-ip4"]. cbv beta iota. rewrite beq_refl. unfold push_meta_reply. fold (ip4_text ip4).
  pose proof (text_size (str "ip4=") 46 false ip4 eq_refl Bm Lm) as Lt. fold (ip4_text ip4) in Lt.
  rewrite send_after; [done|]. rewrite fill_size by lia. lia.
Qed.

(** What is taken from a reply of either kind. *)
Lemma got_mac junk (mac ip4 : addr) m : bytes mac -> answers (mac_text mac) m \/ answers (ip4_text ip4) m ->
  exists a, cfg_got junk (str "mac=") (str ":") true m = Ret a /\ (a = None \/ a = Some mac) /\ (answers (mac_text mac) m -> a = Some mac).
Proof.
  intros Bm Ha. unfold cfg_got. destruct (addr_of_to_str junk mac Bm) as [_ E].
  assert (Hmac : answers (mac_text mac) m -> (reply_str ← rdn (m_data m) 0 (m_size m);
    (if beq (take 4 reply_str) (str "mac=") then a ← addr_of_string junk (drop 4 reply_str) (str ":") true; Ret (Some a) else Ret None)) = Ret (Some mac)).
  { intros [_ Hs Hd]. rewrite (read_text _ m Hs Hd). mcbn. change (take 4 (mac_text mac)) with (str "mac="). rewrite beq_refl.
    change (drop 4 (mac_text mac)) with (to_str 58 true mac). change (str ":") with [58]. by rewrite E. }
  destruct Ha as [Ha|Ha]; [exists (Some mac); split; [by apply Hmac|auto]|].
  pose proof (read_text _ m (an_size _ _ Ha) (an_data _ _ Ha)) as E2. exists None. split; [by rewrite E2|]. split; [by left|].
  intros Ha'. apply Hmac in Ha'. by rewrite E2 in Ha'.
Qed.

Lemma got_ip4 junk (mac ip4 : addr) m : bytes ip4 -> answers (mac_text mac) m \/ answers (ip4_text ip4) m ->
  exists a, cfg_got junk (str "ip4=") (str ".") false m = Ret a /\ tcp_cfg_got junk m = Ret a /\ (a = None \/ a = Some ip4) /\
    (answers (ip4_text ip4) m -> a = Some ip4).
Proof.
  intros Bm Ha. unfold cfg_got, tcp_cfg_got. destruct (addr_of_to_str junk ip4 Bm) as [E _].
  assert (Hip : answers (ip4_text ip4) m -> (reply_str ← rdn (m_data m) 0 (m_size m);
    (if beq (take 4 reply_str) (str "ip4=") then a ← addr_of_string junk (drop 4 reply_str) (str ".") false; Ret (Some a) else Ret None)) = Ret (Some ip4)).
  { intros [_ Hs Hd]. rewrite (read_text _ m Hs Hd). mcbn. change (take 4 (ip4_text ip4)) with (str "ip4="). rewrite beq_refl.
    change (drop 4 (ip4_text ip4)) with (to_str 46 false ip4). change (str ".") with [46]. by rewrite E. }
  destruct Ha as [Ha|Ha]; [|exists (Some ip4); split; [by apply Hip|]; split; [by apply Hip|auto]].
  pose proof (read_text _ m (an_size _ _ Ha) (an_data _ _ Ha)) as E2. exists None. split; [by rewrite E2|]. split; [by rewrite E2|].
  split; [by left|]. intros Ha'. apply Hip in Ha'. by rewrite E2 in Ha'.
Qed.

(** *** The course without timeouts: what the two servers have still to do *)

(** ARP: nothing yet; the request for the MAC address under way, or its answer; half way; the same for the IP address; done. *)
Inductive arp_stage : Set := SA0 | SA1 (s : message) | SA2 (r : message) | SA3 | SA4 (s : message) | SA5 (r : message) | SA6.
Inductive tcp_stage : Set := ST0 | ST1 (s : message) | ST2 (r : message) | ST3.

Definition rank_a (a : arp_stage) : nat := match a with SA0 => 6 | SA1 _ => 5 | SA2 _ => 4 | SA3 => 3 | SA4 _ => 2 | SA5 _ => 1 | SA6 => 0 end.
Definition rank_t (t : tcp_stage) : nat := match t with ST0 => 3 | ST1 _ => 2 | ST2 _ => 1 | ST3 => 0 end.

Definition place_a (a : arp_stage) : arp_place :=
  match a with SA0 => AMac | SA1 m | SA2 m => AMacWait (m_msg_nr m) | SA3 => AIp4 | SA4 m | SA5 m => AIp4Wait (m_msg_nr m) | SA6 => ADone end.
Definition place_t (t : tcp_stage) (p : tcp_place) : Prop :=
  match t with ST0 => p = TAsk 0 0 | ST1 m | ST2 m => exists last, p = TWait last (m_msg_nr m) | ST3 => p = TDone end.

Definition link_box (a : arp_stage) : list message := match a with SA1 s => [s] | _ => [] end.
Definition arp_box (a : arp_stage) : list message := match a with SA2 r | SA5 r => [r] | _ => [] end.
Definition ip4_box_a (a : arp_stage) : list message := match a with SA4 s => [s] | _ => [] end.
Definition ip4_box_t (t : tcp_stage) : list message := match t with ST1 s => [s] | _ => [] end.
Definition tcp_box (t : tcp_stage) : list message := match t with ST2 r => [r] | _ => [] end.

(** ** Lemmas: queues *)

Section Proofs.
Context (name : role -> list Z) (Hn : names_good name) (mac ip4 : addr).
Context (Bm : bytes mac) (Lm : zlen mac = 6) (Bi : bytes ip4) (Li : zlen ip4 = 4) (cap : role -> Z).

Lemma take_first_inv P q m r : take_first P q = Some (m, r) -> P m = true /\ exists l1 l2, q = l1 ++ m :: l2 /\ r = l1 ++ l2.
Proof.
  revert r. induction q as [|x q IH]; intros r; cbn [take_first]; [done|]. destruct (P x) eqn:Ex.
  - intros [= <- <-]. split; [done|]. by exists [], q.
  - destruct (take_first P q) as [[y r']|]; [|done]. intros [= <- <-]. destruct (IH r' eq_refl) as (Hm & l1 & l2 & -> & ->).
    split; [done|]. by exists (x :: l1), l2.
Qed.

(** A look at a queue. *)
Lemma x_wait_spec r type nr x q : hold name cap q (x_segs x) ->
  match take_first (want type nr) (q r) with
  | Some (m, l) => exists segs, x_wait name r type nr x = Ret (Got m, x_set_segs segs x) /\ hold name cap (upd q r l) segs
  | None => exists segs, x_wait name r type nr x = Ret (Null, x_set_segs segs x) /\ hold name cap q segs
  end.
Proof.
  intros Hq. destruct (Hq r) as (s & Es & Hs & Ht). unfold x_wait. rewrite Es.
  pose proof (wait_for_message_spec s (q r) 100 type nr LockOk [TimedOut] Hs ltac:(done) ltac:(lia)) as Hw.
  destruct (take_first (want type nr) (q r)) as [[m l]|].
  - destruct Hw as (s' & -> & Hs' & _ & Ht' & _). mcbn. eexists. split; [reflexivity|]. apply hold_set; [done..|cbn; congruence].
  - rewrite Hw. mcbn. eexists. split; [reflexivity|].
    apply (hold_ext name cap (upd q r (q r))); [intros t; destruct (decide (t = r)) as [->|]; [by rewrite upd_eq|by rewrite upd_ne]|].
    apply hold_set; [done|done| |done]. by apply seg_rep_locked.
Qed.

Lemma x_net_good r e x q : is_u 64 (xe_now e) -> hold name cap q (x_segs x) -> net_good name cap q (x_net name r e x).
Proof. intros He Hq. split; [done|]. split; [|done]. intros dst. apply Hn. Qed.

(** A request: [None] when there is no room. *)
Lemma x_send_spec b r to e x q request : is_u 64 (xe_now e) -> hold name cap q (x_segs x) -> 0 < zlen request < 100 ->
  if zlen (encs (q to)) + PAD8 (sizeof_message + zlen request) <=? cap to then
    exists m segs, x_send name b r e (name to) request x = Ret (Some (Some (m_msg_nr m), x_set_segs segs x)) /\
      hold name cap (upd q to (q to ++ [m])) segs /\ asks request (name r) m
  else if b then x_send name b r e (name to) request x = Ret None
  else exists segs, x_send name b r e (name to) request x = Ret (Some (None, x_set_segs segs x)) /\ hold name cap q segs.
Proof.
  intros He Hq Hl. destruct (Hq to) as (s & Es & (fr & Hs1 & Hs2 & Hs3 & Hs4) & Ht). unfold x_send, x_full. rewrite Es, Hs2, Ht.
  set (m0 := fill_message (allocate_shm_message (zlen request)) msg_new 0 request).
  assert (Hz : m_size m0 = zlen request) by (apply fill_size; lia).
  assert (Hm0 : sendable m0) by (apply sendable_fill; [lia|unfold is_u, msg_new; lia|unfold is_u; lia]).
  destruct (net_send_turn name cap q (x_net name r e x) to m0 b (x_net_good r e x q He Hq) Hm0) as (s0 & Es0 & w' & E & I & _ & H).
  rewrite Hz in E, H.
  assert (Hsend : x_request b (name to) request (x_net name r e x) =
    Ret ((fun s : (bool * Z) * net => (if s.1.1 then Some s.1.2 else None, s.2)) (net_send (name to) m0 b (x_net name r e x)))).
  { pose proof (send_ok (name to) m0 b (x_net name r e x) ltac:(lia)) as Hok. cbn [t_send net_transport] in Hok.
    unfold x_request, send_meta_request, tcp_send_meta_request. fold m0. clear E. destruct (net_send _ _ _ _) as [[ok nr] w1].
    destruct b; by rewrite (prog_bind_step _ _ _ _ _ Hok). }
  rewrite Hsend, E. rewrite Z.ltb_antisym. destruct (_ <=? cap to); cbn [negb orb andb fst snd]; rewrite ?andb_false_r, ?andb_true_r; mcbn.
  - destruct H as (m & s' & (_ & _ & _ & Hq') & [A1 A2 A3 A4 A5] & Hnr & _).
    exists m, (n_segs w'). rewrite Hnr. split; [done|]. split; [exact Hq'|].
    split; [done|congruence|done|exact A1|]. rewrite Hnr. cbn [m0 fill_message m_type]. apply wrap_range. lia.
  - destruct b; [done|]. eexists. split; [reflexivity|]. apply H.
Qed.

(** An answer. *)
Lemma answered_send r t e x q text nr : is_u 64 (xe_now e) -> hold name cap q (x_segs x) -> 0 < zlen text <= 70 -> is_u 64 nr ->
  exists segs, n_segs (after_send (name t) (reply_message text nr) (x_net name r e x)) = segs /\
    if zlen (encs (q t)) + PAD8 (sizeof_message + zlen text) <=? cap t
    then exists m, hold name cap (upd q t (q t ++ [m])) segs /\ answers text m /\ m_msg_nr m = nr
    else hold name cap q segs.
Proof.
  intros He Hq Hl Hnr. set (m0 := reply_message text nr). assert (Hz : m_size m0 = zlen text) by (apply fill_size; lia).
  assert (Hm0 : sendable m0) by (apply sendable_fill; [lia|unfold is_u, msg_reply; lia|done]).
  destruct (net_send_turn name cap q (x_net name r e x) t m0 false (x_net_good r e x q He Hq) Hm0) as (s0 & Es0 & w' & E & I & _ & H).
  eexists. split; [reflexivity|]. unfold after_send. cbn [t_send net_transport]. rewrite E. cbn [snd]. clear E. rewrite Hz in H.
  destruct (_ <=? cap t); [|apply H]. destruct H as (m & s' & (_ & _ & _ & Hq') & [A1 A2 A3 A4 A5] & Hnr' & _).
  exists m. split; [exact Hq'|]. split; [|exact Hnr']. split; [done|congruence|done].
Qed.

(** *** Safety *)

(** What lies in a queue. *)
Definition in_box (r : role) (m : message) : Prop :=
  match r with
  | RLink => asks (str "get-mac") (name RArp) m
  | RIp4 => asks (str "get-ip4") (name RArp) m \/ asks (str "get-ip4") (name RTcp) m
  | RArp => answers (mac_text mac) m \/ answers (ip4_text ip4) m
  | RTcp => answers (ip4_text ip4) m
  end.

(** What is known is right. *)
Record known (x : exchange) : Prop := {
  kn_mac : x_mac x = None \/ x_mac x = Some mac;
  kn_ip4 : x_ip4 x = None \/ x_ip4 x = Some ip4;
  kn_arp : x_arp x = ADone -> x_mac x = Some mac /\ x_ip4 x = Some ip4;
  kn_tcp : x_tcp x = TDone -> x_tcp_ip4 x = Some ip4 }.

Definition sound (x : exchange) : Prop :=
  known x /\ exists q, hold name cap q (x_segs x) /\ forall r, Forall (in_box r) (q r).

(** A turn: no fault, and what it leads to is sound. *)
Definition sound_turn (o : outcome (option exchange)) : Prop := exists x', o = Ret x' /\ match x' with Some x' => sound x' | None => True end.

Lemma in_box_upd q t l : (forall r, Forall (in_box r) (q r)) -> Forall (in_box t) l -> forall r, Forall (in_box r) (upd q t l r).
Proof. intros Hq Hl r. destruct (decide (r = t)) as [->|]; [by rewrite upd_eq|by rewrite upd_ne]. Qed.

Lemma in_box_take q t m l : (forall r, Forall (in_box r) (q r)) -> take_first (want msg_new None) (q t) = Some (m, l) \/ (exists nr, take_first (want msg_reply (Some nr)) (q t) = Some (m, l)) ->
  in_box t m /\ forall r, Forall (in_box r) (upd q t l r).
Proof.
  intros Hq Ht. assert (H : exists l1 l2, q t = l1 ++ m :: l2 /\ l = l1 ++ l2).
  { destruct Ht as [Ht|(nr & Ht)]; by apply take_first_inv in Ht as [_ H]. }
  destruct H as (l1 & l2 & Eq & ->). pose proof (Hq t) as H. rewrite Eq in H. apply list.Forall_app in H as [H1 [Hm H2]%list.Forall_cons].
  split; [done|]. apply in_box_upd; [done|]. by apply list.Forall_app.
Qed.

(** An answer put into the box of [t], if there is room. *)
Lemma sound_answer r t e x text nr q : is_u 64 (xe_now e) -> known x -> hold name cap q (x_segs x) -> (forall r, Forall (in_box r) (q r)) ->
  0 < zlen text <= 70 -> is_u 64 nr -> (forall m, answers text m -> in_box t m) ->
  sound (x_set_segs (n_segs (after_send (name t) (reply_message text nr) (x_net name r e x))) x).
Proof.
  intros He Hk Hq Hb Hl Hnr Hin. destruct (answered_send r t e x q text nr He Hq Hl Hnr) as (segs & -> & H).
  split; [by destruct Hk|]. destruct (_ <=? cap t).
  - destruct H as (m & Hq' & Ha & _). exists (upd q t (q t ++ [m])). split; [exact Hq'|]. apply in_box_upd; [done|].
    apply list.Forall_app. split; [apply Hb|]. constructor; [by apply Hin|constructor].
  - by exists q.
Qed.

Lemma serve_sound r e x run_meta text : is_u 64 (xe_now e) -> sound x -> 0 < zlen text <= 70 ->
  (forall m (w : net), in_box r m -> exists t, run_meta m w = Ret (tt, after_send (name t) (reply_message text (m_msg_nr m)) w) /\
     is_u 64 (m_msg_nr m) /\ forall m', answers text m' -> in_box t m') ->
  sound_turn (x_serve name r e run_meta x).
Proof.
  intros He [Hk (q & Hq & Hb)] Hl Hrun. unfold x_serve. pose proof (x_wait_spec r msg_new None x q Hq) as Hw.
  destruct (take_first _ _) as [[m l]|] eqn:E; destruct Hw as (segs & -> & Hq'); mcbn; cbn [fst snd]; [|by exists None].
  destruct (in_box_take q r m l Hb (or_introl E)) as [Hm Hb'].
  destruct (Hrun m (x_net name r e (x_set_segs segs x)) Hm) as (t & -> & Hnr & Hin). mcbn. cbn [snd]. eexists. split; [reflexivity|]. cbv beta iota.
  apply (sound_answer r t e (x_set_segs segs x) text (m_msg_nr m) (upd q r l)); try done. by destruct Hk.
Qed.

(** A request put into the box of [t]. *)
Lemma send_sound b r t e x request : is_u 64 (xe_now e) -> sound x -> 0 < zlen request < 100 -> (forall m, asks request (name r) m -> in_box t m) ->
  exists o, x_send name b r e (name t) request x = Ret o /\
    match o with Some (_, x') => sound x' /\ exists segs, x' = x_set_segs segs x | None => True end.
Proof.
  intros He [Hk (q & Hq & Hb)] Hl Hin. pose proof (x_send_spec b r t e x q request He Hq Hl) as Hs. destruct (_ <=? cap t).
  - destruct Hs as (m & segs & E & Hq' & Ha). eexists. split; [exact E|]. split; [|by exists segs].
    split; [by destruct Hk|]. exists (upd q t (q t ++ [m])). split; [done|]. apply in_box_upd; [done|].
    apply list.Forall_app. split; [apply Hb|]. constructor; [by apply Hin|constructor].
  - destruct b; [by exists None|]. destruct Hs as (segs & E & Hq'). eexists. split; [exact E|]. split; [|by exists segs]. split; [by destruct Hk|]. by exists q.
Qed.

(** A look for the reply with a number. *)
Lemma wait_sound r nr x : sound x ->
  (exists segs, x_wait name r msg_reply (Some nr) x = Ret (Null, x_set_segs segs x) /\ sound (x_set_segs segs x)) \/
  (exists m segs, x_wait name r msg_reply (Some nr) x = Ret (Got m, x_set_segs segs x) /\ sound (x_set_segs segs x) /\ in_box r m).
Proof.
  intros [Hk (q & Hq & Hb)]. pose proof (x_wait_spec r msg_reply (Some nr) x q Hq) as Hw.
  destruct (take_first _ _) as [[m l]|] eqn:E; destruct Hw as (segs & Hw & Hq'); [right|left].
  - destruct (in_box_take q r m l Hb (or_intror (ex_intro _ nr E))) as [Hm Hb']. exists m, segs. split; [done|]. split; [|done].
    split; [by destruct Hk|]. by exists (upd q r l).
  - exists segs. split; [done|]. split; [by destruct Hk|]. by exists q.
Qed.

Lemma sound_places x x' : sound x -> x_segs x' = x_segs x -> known x' -> sound x'.
Proof. intros [_ (q & Hq & Hb)] E Hk. split; [done|]. exists q. by rewrite E. Qed.

Lemma known_end_round x : known x -> x_arp x <> ADone -> known (arp_end_round x).
Proof.
  intros [H1 H2 H3 H4] _. unfold arp_end_round. split; cbn [x_set_arp x_mac x_ip4 x_arp x_tcp x_tcp_ip4]; try done. unfold arp_next.
  destruct (x_mac x) as [a|]; [|done]. destruct (x_ip4 x) as [b|]; [|done]. intros _. destruct H1 as [|H1]; [done|]. destruct H2 as [|H2]; [done|]. done.
Qed.

Lemma arp_turn_sound e x : is_u 64 (xe_now e) -> sound x -> sound_turn (x_arp_turn name e x).
Proof.
  intros He Hx. pose proof Hx as [[K1 K2 K3 K4] _]. unfold x_arp_turn, sound_turn. destruct (x_arp x) as [|nr| |nr|] eqn:Ep.
  - destruct (x_mac x) as [a|] eqn:Em; [eexists; split; [reflexivity|]; apply (sound_places x); [done|done|split; cbn; try done; by rewrite Em]|].
    destruct (send_sound true RArp RLink e x (str "get-mac") He Hx ltac:(done) ltac:(done)) as ([[nr x']|] & -> & H); [destruct H as (Hx' & segs & ->)|by exists None].
    mcbn. eexists. split; [reflexivity|]. apply (sound_places _ _ Hx'); [done|]. split; cbn; try done; [rewrite Em; by left|by destruct nr].
  - destruct (wait_sound RArp nr x Hx) as [(segs & -> & Hx')|(m & segs & -> & Hx' & Hm)]; mcbn; cbn [fst snd].
    + destruct (xe_timeout e); (eexists; split; [reflexivity|]); [|done]. by apply (sound_places _ _ Hx').
    + destruct (got_mac (xe_junk e) mac ip4 m Bm Hm) as (a & -> & Ha & _). mcbn. eexists. split; [reflexivity|]. by apply (sound_places _ _ Hx').
  - destruct (x_ip4 x) as [b|] eqn:Eb.
    { eexists. split; [reflexivity|]. apply (sound_places x); [done|done|]. apply known_end_round; [apply Hx|by rewrite Ep]. }
    destruct (send_sound true RArp RIp4 e x (str "get-ip4") He Hx ltac:(done) ltac:(intros; by left)) as ([[nr x']|] & -> & H); [destruct H as (Hx' & segs & ->)|by exists None].
    mcbn. destruct nr as [nr|]; (eexists; split; [reflexivity|]); apply (sound_places _ _ Hx'); try done.
    + split; cbn; try done. rewrite Eb. by left.
    + apply known_end_round; [apply Hx'|cbn; by rewrite Ep].
  - destruct (wait_sound RArp nr x Hx) as [(segs & -> & Hx')|(m & segs & -> & Hx' & Hm)]; mcbn; cbn [fst snd].
    + destruct (xe_timeout e); (eexists; split; [reflexivity|]); [|done]. apply (sound_places _ _ Hx'); [done|]. apply known_end_round; [apply Hx'|cbn; by rewrite Ep].
    + destruct (got_ip4 (xe_junk e) mac ip4 m Bi Hm) as (a & -> & _ & Ha & _). mcbn. eexists. split; [reflexivity|].
      apply (sound_places _ _ Hx'); [done|]. apply known_end_round; [|cbn; by rewrite Ep]. split; cbn; try done. by rewrite Ep.
  - by exists None.
Qed.

Lemma tcp_turn_sound e x : is_u 64 (xe_now e) -> sound x -> sound_turn (x_tcp_turn name e x).
Proof.
  intros He Hx. pose proof Hx as [[K1 K2 K3 K4] _]. unfold x_tcp_turn, sound_turn. destruct (x_tcp x) as [last nr|last nr|].
  - destruct (_ >? 2000000); [|eexists; split; [reflexivity|]; by apply (sound_places x)].
    destruct (send_sound false RTcp RIp4 e x (str "get-ip4") He Hx ltac:(done) ltac:(intros; by right)) as ([[n x']|] & -> & H); [destruct H as (Hx' & segs & ->)|by exists None].
    mcbn. eexists. split; [reflexivity|]. apply (sound_places _ _ Hx'); [done|]. split; cbn; try done. by destruct n.
  - destruct (wait_sound RTcp nr x Hx) as [(segs & -> & Hx')|(m & segs & -> & Hx' & Hm)]; mcbn; cbn [fst snd].
    + destruct (xe_timeout e); (eexists; split; [reflexivity|]); [|done]. by apply (sound_places _ _ Hx').
    + destruct (got_ip4 (xe_junk e) mac ip4 m Bi (or_intror Hm)) as (a & _ & -> & _ & Ha). rewrite (Ha Hm). mcbn. eexists. split; [reflexivity|].
      by apply (sound_places _ _ Hx').
  - by exists None.
Qed.

Lemma turn_sound r e x : is_u 64 (xe_now e) -> sound x -> sound_turn (x_turn name mac ip4 r e x).
Proof.
  intros He Hx. destruct r; cbn [x_turn]; [| |by apply arp_turn_sound|by apply tcp_turn_sound].
  - apply (serve_sound RLink e x _ (mac_text mac) He Hx); [by apply text_size; try lia|]. intros m w Hm. exists RArp.
    split; [by apply link_serves; try lia|]. split; [apply Hm|]. intros m' Hm'. by left.
  - apply (serve_sound RIp4 e x _ (ip4_text ip4) He Hx); [by apply text_size; try lia|]. intros m w [Hm|Hm].
    + exists RArp. split; [by apply ip4_serves; try lia|]. split; [apply Hm|]. intros m' Hm'. by right.
    + exists RTcp. split; [by apply ip4_serves; try lia|]. split; [apply Hm|]. done.
Qed.

Lemma reach_sound segs x : hold name cap nothing segs -> x_reach name mac ip4 segs x -> sound x.
Proof.
  intros Hq. induction 1 as [|x r e x' _ IH He E].
  - split; [split; cbn; auto; done|]. exists nothing. split; [done|]. intros r. constructor.
  - destruct (turn_sound r e x He IH) as (o & Eo & Ho). rewrite E in Eo. by injection Eo as <-.
Qed.

(** *** Progress *)

Definition stage_ok (a : arp_stage) (t : tcp_stage) : Prop :=
  match a with
  | SA1 s => asks (str "get-mac") (name RArp) s
  | SA2 r => answers (mac_text mac) r
  | SA4 s => asks (str "get-ip4") (name RArp) s
  | SA5 r => answers (ip4_text ip4) r
  | _ => True
  end /\
  match t with
  | ST1 s => asks (str "get-ip4") (name RTcp) s
  | ST2 r => answers (ip4_text ip4) r
  | _ => True
  end.

Definition stage_known (a : arp_stage) (t : tcp_stage) (x : exchange) : Prop :=
  x_mac x = match a with SA0 | SA1 _ | SA2 _ => None | _ => Some mac end /\ x_ip4 x = match a with SA6 => Some ip4 | _ => None end /\
  x_tcp_ip4 x = match t with ST3 => Some ip4 | _ => None end.

Record at_stage (a : arp_stage) (t : tcp_stage) (q : role -> list message) (x : exchange) : Prop := {
  at_hold : hold name cap q (x_segs x);
  at_link : q RLink = link_box a;
  at_arp : q RArp = arp_box a;
  at_tcp : q RTcp = tcp_box t;
  at_ip4 : q RIp4 = ip4_box_a a ++ ip4_box_t t \/ q RIp4 = ip4_box_t t ++ ip4_box_a a;
  at_ok : stage_ok a t;
  at_place_a : x_arp x = place_a a;
  at_place_t : place_t t (x_tcp x);
  at_known : stage_known a t x }.

(** Who can take a turn. *)
Definition can (r : role) (a : arp_stage) (t : tcp_stage) : bool :=
  match r with
  | RLink => match a with SA1 _ => true | _ => false end
  | RIp4 => match a, t with SA4 _, _ | _, ST1 _ => true | _, _ => false end
  | RArp => match a with SA1 _ | SA4 _ | SA6 => false | _ => true end
  | RTcp => match t with ST1 _ | ST3 => false | _ => true end
  end.

Definition progress (r : role) (a : arp_stage) (t : tcp_stage) (o : outcome (option exchange)) : Prop :=
  exists x', o = Ret x' /\
    if can r a t then exists x1 a' t' q', x' = Some x1 /\ at_stage a' t' q' x1 /\ (rank_a a' + rank_t t' < rank_a a + rank_t t)%nat
    else x' = None.

Context (Hcap : forall r, 256 <= cap r).

Definition patient (e : xturn) : Prop := is_u 64 (xe_now e) /\ 2000000 < xe_now e /\ xe_timeout e = false.

Lemma ask_room q segs r request : hold name cap q segs -> q r = [] \/ (exists m sender, q r = [m] /\ asks request sender m) -> zlen request = 7 ->
  zlen (encs (q r)) + PAD8 (sizeof_message + 7) <= cap r.
Proof.
  intros Hq Hr Hl. specialize (Hcap r). pose proof (PAD8_le (sizeof_message + 7)) as HP. destruct Hr as [-> |(m & sender & E & Ha)].
  - change (zlen (encs [])) with 0. unfold sizeof_message in *. lia.
  - assert (Hs : slot m) by (apply (hold_slot name cap q segs r m Hq); rewrite E; by left). rewrite E, encs_cons, zlen_app. change (zlen (encs [])) with 0.
    rewrite (zlen_enc m Hs), (as_size _ _ _ Ha), Hl. unfold sizeof_message in *. lia.
Qed.

(** The one request in a queue is answered. *)
Lemma serve_progress r t e x run_meta text m l q : is_u 64 (xe_now e) -> hold name cap q (x_segs x) -> q r = m :: l -> q t = [] -> r <> t ->
  m_type m = msg_new -> is_u 64 (m_msg_nr m) -> 0 < zlen text <= 70 ->
  (forall w : net, run_meta m w = Ret (tt, after_send (name t) (reply_message text (m_msg_nr m)) w)) ->
  exists segs m', x_serve name r e run_meta x = Ret (Some (x_set_segs segs x)) /\ hold name cap (upd (upd q r l) t [m']) segs /\
    answers text m' /\ m_msg_nr m' = m_msg_nr m.
Proof.
  intros He Hq Er Et Hne Hty Hnr Hl Hrun. unfold x_serve. pose proof (x_wait_spec r msg_new None x q Hq) as Hw. rewrite Er in Hw. cbn [take_first] in Hw.
  replace (want msg_new None m) with true in Hw by (unfold want, wanted; by rewrite Hty). destruct Hw as (segs & -> & Hq'). mcbn. cbn [fst snd]. rewrite Hrun. mcbn. cbn [snd].
  destruct (answered_send r t e (x_set_segs segs x) (upd q r l) text (m_msg_nr m) He Hq' Hl Hnr) as (segs' & -> & H).
  rewrite upd_ne, Et in H by done. change (zlen (encs [])) with 0 in H. pose proof (PAD8_le (sizeof_message + zlen text)) as HP. specialize (Hcap t).
  replace (_ <=? cap t) with true in H by (unfold sizeof_message in *; lia). destruct H as (m' & H1 & H2 & H3). by exists segs', m'.
Qed.

(** The reply waits. *)
Lemma wait_progress r m x q : hold name cap q (x_segs x) -> q r = [m] -> m_type m = msg_reply ->
  exists segs, x_wait name r msg_reply (Some (m_msg_nr m)) x = Ret (Got m, x_set_segs segs x) /\ hold name cap (upd q r []) segs.
Proof.
  intros Hq Er Hty. pose proof (x_wait_spec r msg_reply (Some (m_msg_nr m)) x q Hq) as Hw. rewrite Er in Hw. cbn [take_first] in Hw.
  by replace (want msg_reply (Some (m_msg_nr m)) m) with true in Hw by (unfold want, wanted; by rewrite Hty, !Z.eqb_refl).
Qed.

Lemma wait_empty r nr x q : hold name cap q (x_segs x) -> q r = [] ->
  exists segs, x_wait name r msg_reply (Some nr) x = Ret (Null, x_set_segs segs x).
Proof.
  intros Hq Er. pose proof (x_wait_spec r msg_reply (Some nr) x q Hq) as Hw. rewrite Er in Hw. destruct Hw as (segs & Hw & _). by exists segs.
Qed.

Lemma serve_empty r e run_meta x q : hold name cap q (x_segs x) -> q r = [] -> x_serve name r e run_meta x = Ret None.
Proof. intros Hq Er. unfold x_serve. pose proof (x_wait_spec r msg_new None x q Hq) as Hw. rewrite Er in Hw. destruct Hw as (segs & -> & _). done. Qed.

(** The queue of a stage, box by box. *)
Ltac boxes := repeat first [rewrite upd_eq | rewrite upd_ne by done]; try done.

Lemma link_progress e a t q x : patient e -> at_stage a t q x -> progress RLink a t (x_turn name mac ip4 RLink e x).
Proof.
  intros (He & _ & _) [Hq H1 H2 H3 H4 Ho Pa Pt Kn]. unfold progress. destruct a as [|s|r| |s|r|];
    try (exists None; split; [by apply (serve_empty RLink e _ x q)|done]).
  destruct Ho as [Ha Ht]. destruct (serve_progress RLink RArp e x (link_run_meta mac) (mac_text mac) s [] q He Hq H1 H2) as (segs & m' & E & Hq' & Hm & En);
    [done|apply Ha|apply Ha|by apply text_size; try lia|intros w; by apply link_serves; try lia|].
  eexists. split; [exact E|]. cbn [can]. eexists _, (SA2 m'), t, _. split; [done|]. split; [|cbn; lia]. split; [exact Hq'|boxes|boxes|boxes|boxes|done| |done|done].
  cbn [x_set_segs x_arp place_a]. by rewrite Pa, En.
Qed.

Lemma ip4_progress e a t q x : patient e -> at_stage a t q x -> progress RIp4 a t (x_turn name mac ip4 RIp4 e x).
Proof.
  intros (He & _ & _) [Hq H1 H2 H3 H4 Ho Pa Pt Kn]. unfold progress. destruct Ho as [Oa Ot].
  assert (Hserve : forall m l t', q RIp4 = m :: l -> asks (str "get-ip4") (name t') m -> q t' = [] -> t' <> RIp4 ->
    exists segs m', x_serve name RIp4 e (ip4_run_meta ip4) x = Ret (Some (x_set_segs segs x)) /\ hold name cap (upd (upd q RIp4 l) t' [m']) segs /\
      answers (ip4_text ip4) m' /\ m_msg_nr m' = m_msg_nr m).
  { intros m l t' El Hm Et Hne. apply (serve_progress RIp4 t' e x (ip4_run_meta ip4) (ip4_text ip4) m l q He Hq El Et);
      [done|apply Hm|apply Hm|by apply text_size; try lia|intros w; by apply ip4_serves; try lia]. }
  assert (Harp : forall s l, a = SA4 s -> q RIp4 = s :: l -> l = ip4_box_t t -> exists x1 a' t' q', x_serve name RIp4 e (ip4_run_meta ip4) x = Ret (Some x1) /\
    at_stage a' t' q' x1 /\ (rank_a a' + rank_t t' < rank_a a + rank_t t)%nat).
  { intros s l -> El El'. destruct (Hserve s l RArp El Oa H2 ltac:(done)) as (segs & m' & E & Hq' & Hm & En). eexists _, (SA5 m'), t, _. split; [exact E|].
    split; [|cbn; lia]. split; [exact Hq'|boxes|boxes|boxes|left; boxes|done| |done|done]. cbn [x_set_segs x_arp place_a]. by rewrite Pa, En. }
  assert (Htcp : forall s l, t = ST1 s -> q RIp4 = s :: l -> l = ip4_box_a a -> exists x1 a' t' q', x_serve name RIp4 e (ip4_run_meta ip4) x = Ret (Some x1) /\
    at_stage a' t' q' x1 /\ (rank_a a' + rank_t t' < rank_a a + rank_t t)%nat).
  { intros s l -> El El'. destruct (Hserve s l RTcp El Ot H3 ltac:(done)) as (segs & m' & E & Hq' & Hm & En). eexists _, a, (ST2 m'), _. split; [exact E|].
    split; [|cbn; lia]. split; [exact Hq'|boxes|boxes|boxes|right; boxes|done|done| |done].
    destruct Pt as (last & Pt). exists last. cbn [x_set_segs x_tcp]. by rewrite Pt, En. }
  destruct (can RIp4 a t) eqn:Ec.
  - assert (H : exists x1 a' t' q', x_serve name RIp4 e (ip4_run_meta ip4) x = Ret (Some x1) /\ at_stage a' t' q' x1 /\ (rank_a a' + rank_t t' < rank_a a + rank_t t)%nat).
    { destruct H4 as [H4|H4]; destruct a, t; try discriminate Ec; cbn [ip4_box_a ip4_box_t app] in H4; first [by eapply Harp|by eapply Htcp]. }
    destruct H as (x1 & a' & t' & q' & E & Hat & Hr). exists (Some x1). split; [exact E|]. by exists x1, a', t', q'.
  - exists None. split; [|done]. apply (serve_empty RIp4 e _ x q Hq). destruct H4 as [-> | ->]; by destruct a, t.
Qed.

(** A request is sent. *)
Lemma send_progress b r to e x q request : is_u 64 (xe_now e) -> hold name cap q (x_segs x) -> zlen request = 7 ->
  q to = [] \/ (exists m sender, q to = [m] /\ asks request sender m) ->
  exists m segs, x_send name b r e (name to) request x = Ret (Some (Some (m_msg_nr m), x_set_segs segs x)) /\
    hold name cap (upd q to (q to ++ [m])) segs /\ asks request (name r) m.
Proof.
  intros He Hq Hl Hto. pose proof (x_send_spec b r to e x q request He Hq ltac:(lia)) as Hs. rewrite Hl in Hs.
  pose proof (ask_room q _ to request Hq Hto Hl) as Hroom.
  by replace (_ <=? cap to) with true in Hs by lia.
Qed.

Lemma ip4_queue a t q x : at_stage a t q x -> (forall s, a <> SA4 s) \/ (forall s, t <> ST1 s) ->
  q RIp4 = [] \/ exists m sender, q RIp4 = [m] /\ asks (str "get-ip4") sender m.
Proof.
  intros [_ _ _ _ H4 [Oa Ot] _ _ _] H. destruct a; (try (left; by destruct t, H4)); destruct t;
    destruct H4 as [-> | ->]; cbn [ip4_box_a ip4_box_t app]; try (by left); try (right; by eexists _, _).
  all: exfalso; destruct H as [H|H]; by eapply H.
Qed.

Lemma arp_asks_mac e t q x : patient e -> at_stage SA0 t q x -> progress RArp SA0 t (x_arp_turn name e x).
Proof.
  intros (He & _ & Ht) [Hq H1 H2 H3 H4 [Oa Ot] Pa Pt (K1 & K2 & K3)]. unfold progress, x_arp_turn. rewrite Pa, K1. cbn [place_a].
  destruct (send_progress true RArp RLink e x q (str "get-mac") He Hq eq_refl (or_introl H1)) as (m & segs & -> & Hq' & Hm). rewrite H1 in Hq'.
  mcbn. eexists. split; [reflexivity|]. cbn [can fmap option_fmap option_map fst snd]. eexists _, (SA1 m), t, _. split; [done|]. split; [|cbn; lia].
  split; [exact Hq'|boxes|boxes|boxes|boxes|done|done|done|done].
Qed.

Lemma arp_asks_ip4 e t q x : patient e -> at_stage SA3 t q x -> progress RArp SA3 t (x_arp_turn name e x).
Proof.
  intros (He & _ & Ht) Hat. pose proof (ip4_queue SA3 t q x Hat ltac:(by left)) as Hi.
  destruct Hat as [Hq H1 H2 H3 H4 [Oa Ot] Pa Pt (K1 & K2 & K3)]. unfold progress, x_arp_turn. rewrite Pa, K2. cbn [place_a].
  destruct (send_progress true RArp RIp4 e x q (str "get-ip4") He Hq eq_refl Hi) as (m & segs & -> & Hq' & Hm).
  mcbn. eexists. split; [reflexivity|]. cbn [can fmap option_fmap option_map fst snd]. eexists _, (SA4 m), t, _. split; [done|]. split; [|cbn; lia].
  split; [exact Hq'|boxes|boxes|boxes| |done|done|done|done].
  right. rewrite upd_eq. destruct H4 as [-> | ->]; cbn [ip4_box_a app]; by rewrite ?app_nil_r.
Qed.

Lemma arp_learns_mac e r t q x : patient e -> at_stage (SA2 r) t q x -> progress RArp (SA2 r) t (x_arp_turn name e x).
Proof.
  intros (He & _ & Ht) [Hq H1 H2 H3 H4 [Oa Ot] Pa Pt (K1 & K2 & K3)]. unfold progress, x_arp_turn. rewrite Pa. cbn [place_a].
  destruct (wait_progress RArp r x q Hq H2 (an_type _ _ Oa)) as (segs & -> & Hq'). mcbn. cbn [fst snd].
  destruct (got_mac (xe_junk e) mac ip4 r Bm (or_introl Oa)) as (a & -> & _ & Ha). rewrite (Ha Oa). mcbn.
  eexists. split; [reflexivity|]. cbn [can]. eexists _, SA3, t, _. split; [done|]. split; [|cbn; lia]. split; [exact Hq'|boxes|boxes|boxes|boxes|done|done|done|done].
Qed.

Lemma arp_learns_ip4 e r t q x : patient e -> at_stage (SA5 r) t q x -> progress RArp (SA5 r) t (x_arp_turn name e x).
Proof.
  intros (He & _ & Ht) [Hq H1 H2 H3 H4 [Oa Ot] Pa Pt (K1 & K2 & K3)]. unfold progress, x_arp_turn. rewrite Pa. cbn [place_a].
  destruct (wait_progress RArp r x q Hq H2 (an_type _ _ Oa)) as (segs & -> & Hq'). mcbn. cbn [fst snd].
  destruct (got_ip4 (xe_junk e) mac ip4 r Bi (or_intror Oa)) as (a & -> & _ & _ & Ha). rewrite (Ha Oa). mcbn.
  eexists. split; [reflexivity|]. cbn [can]. eexists _, SA6, t, _. split; [done|]. split; [|cbn; lia].
  unfold arp_end_round, arp_next. cbn [x_set_ip4 x_set_segs x_mac x_ip4]. rewrite K1. split; [exact Hq'|boxes|boxes|boxes|boxes|done|done|done|done].
Qed.

Lemma arp_progress e a t q x : patient e -> at_stage a t q x -> progress RArp a t (x_turn name mac ip4 RArp e x).
Proof.
  intros He Hat. cbn [x_turn]. destruct a as [|s|r| |s|r|];
    [by eapply arp_asks_mac| |by eapply arp_learns_mac|by eapply arp_asks_ip4| |by eapply arp_learns_ip4|];
    destruct Hat as [Hq H1 H2 H3 H4 _ Pa Pt _]; exists None; (split; [|done]); unfold x_arp_turn; rewrite Pa; cbn [place_a]; [| |done].
  all: destruct (wait_empty RArp (m_msg_nr s) x q Hq H2) as (segs & ->); mcbn; cbn [fst]; by rewrite (proj2 (proj2 He)).
Qed.

Lemma tcp_asks e a q x : patient e -> at_stage a ST0 q x -> progress RTcp a ST0 (x_tcp_turn name e x).
Proof.
  intros (He & Hnow & Ht) Hat. pose proof (ip4_queue a ST0 q x Hat ltac:(by right)) as Hi.
  destruct Hat as [Hq H1 H2 H3 H4 [Oa Ot] Pa Pt (K1 & K2 & K3)]. unfold progress, x_tcp_turn. rewrite Pt.
  replace (u64 (xe_now e - 0) >? 2000000) with true by (symmetry; rewrite wrap_small, Z.sub_0_r by (unfold is_u in *; lia); by apply Z.gtb_lt).
  destruct (send_progress false RTcp RIp4 e x q (str "get-ip4") He Hq eq_refl Hi) as (m & segs & -> & Hq' & Hm).
  mcbn. eexists. split; [reflexivity|]. cbn [can fmap option_fmap option_map fst snd]. eexists _, a, (ST1 m), _. split; [done|]. split; [|cbn; lia].
  split; [exact Hq'|boxes|boxes|boxes| |done|done|by exists (xe_now e)|done].
  left. rewrite upd_eq. destruct H4 as [-> | ->]; cbn [ip4_box_t app]; by rewrite ?app_nil_r.
Qed.

Lemma tcp_learns e a r q x : patient e -> at_stage a (ST2 r) q x -> progress RTcp a (ST2 r) (x_tcp_turn name e x).
Proof.
  intros (He & _ & Ht) [Hq H1 H2 H3 H4 [Oa Ot] Pa (last & Pt) (K1 & K2 & K3)]. unfold progress, x_tcp_turn. rewrite Pt.
  destruct (wait_progress RTcp r x q Hq H3 (an_type _ _ Ot)) as (segs & -> & Hq'). mcbn. cbn [fst snd].
  destruct (got_ip4 (xe_junk e) mac ip4 r Bi (or_intror Ot)) as (b & _ & -> & _ & Hb). rewrite (Hb Ot). mcbn.
  eexists. split; [reflexivity|]. cbn [can]. eexists _, a, ST3, _. split; [done|]. split; [|cbn; lia]. split; [exact Hq'|boxes|boxes|boxes|boxes|done|done|done|done].
Qed.

Lemma tcp_progress e a t q x : patient e -> at_stage a t q x -> progress RTcp a t (x_turn name mac ip4 RTcp e x).
Proof.
  intros He Hat. cbn [x_turn]. destruct t as [|s|r|]; [by eapply tcp_asks| |by eapply tcp_learns|];
    destruct Hat as [Hq H1 H2 H3 H4 _ Pa Pt _]; exists None; (split; [|done]); unfold x_tcp_turn; [|by rewrite Pt].
  destruct Pt as (last & ->). destruct (wait_empty RTcp (m_msg_nr s) x q Hq H3) as (segs & ->). mcbn. cbn [fst]. by rewrite (proj2 (proj2 He)).
Qed.

Lemma turn_progress r e a t q x : patient e -> at_stage a t q x -> progress r a t (x_turn name mac ip4 r e x).
Proof. intros He Hat. destruct r; [by eapply link_progress|by eapply ip4_progress|by eapply arp_progress|by eapply tcp_progress]. Qed.

(** Somebody can go on, until both are done. *)
Lemma someone a t : (rank_a a + rank_t t = 0)%nat \/ exists r, can r a t = true.
Proof. destruct a; try (right; by exists RArp); try (right; by exists RLink); try (right; by exists RIp4). destruct t; [right; by exists RTcp|right; by exists RIp4|right; by exists RTcp|by left]. Qed.

(** What everything leads to. *)
Definition exchanged (x : exchange) : Prop :=
  x_arp x = ADone /\ x_mac x = Some mac /\ x_ip4 x = Some ip4 /\ x_tcp x = TDone /\ x_tcp_ip4 x = Some ip4 /\ hold name cap nothing (x_segs x).

Lemma stage_end a t q x : at_stage a t q x -> (rank_a a + rank_t t = 0)%nat -> exchanged x.
Proof.
  intros [Hq H1 H2 H3 H4 _ Pa Pt (K1 & K2 & K3)] Hr. destruct a; try done; destruct t; try done.
  assert (H5 : q RIp4 = []) by (by destruct H4 as [-> | ->]).
  split; [done|]. repeat (split; [done|]). eapply hold_ext; [|exact Hq]. by intros [].
Qed.

Lemma stage_inevitable n : forall a t q x, (rank_a a + rank_t t < n)%nat -> at_stage a t q x -> sound x -> x_inevitably name mac ip4 exchanged x.
Proof.
  induction n as [|n IH]; intros a t q x Hn0 Hat Hs; [lia|]. destruct (someone a t) as [Hz|(r & Hr)]; [apply xi_done; by eapply stage_end|].
  apply xi_turn.
  - exists r. intros e H1 H2 H3. destruct (turn_progress r e a t q x (conj H1 (conj H2 H3)) Hat) as (x' & E & H). rewrite Hr in H.
    destruct H as (x1 & _ & _ & _ & -> & _). by exists x1.
  - intros r' e H1. destruct (turn_sound r' e x H1 Hs) as (o & E & _). by exists o.
  - intros r' e x' H1 H2 H3 E. destruct (turn_progress r' e a t q x (conj H1 (conj H2 H3)) Hat) as (x'' & E' & H). rewrite E in E'. injection E' as <-.
    destruct (can r' a t); [|done]. destruct H as (x1 & a' & t' & q' & [= <-] & Hat' & Hlt). apply (IH a' t' q' x'); [lia|done|].
    destruct (turn_sound r' e x H1 Hs) as (o & E2 & Ho). rewrite E in E2. injection E2 as <-. exact Ho.
Qed.

End Proofs.

(** ** Properties *)

(** C24: whatever the interleaving of the four servers, whatever their clocks, and however often a wait runs out of time: no turn faults, and
    an address that has been learned is the link server's MAC address, the IPv4 server's IP address; a server that goes on has what it
    asked for. *)
Theorem exchange_safe (name : role -> list Z) (mac ip4 : addr) (cap : role -> Z) (segs : gmap (list Z) segment) (x : exchange)
  (Hn : names_good name) (Bm : bytes mac) (Lm : zlen mac = 6) (Bi : bytes ip4) (Li : zlen ip4 = 4)
  (Hq : hold name cap nothing segs) (Hx : x_reach name mac ip4 segs x) :
  (forall r e, is_u 64 (xe_now e) -> exists o, x_turn name mac ip4 r e x = Ret o) /\
  (x_mac x = None \/ x_mac x = Some mac) /\ (x_ip4 x = None \/ x_ip4 x = Some ip4) /\
  (x_arp x = ADone -> x_mac x = Some mac /\ x_ip4 x = Some ip4) /\ (x_tcp x = TDone -> x_tcp_ip4 x = Some ip4).
Proof.
  pose proof (reach_sound name Hn mac ip4 Bm Lm Bi Li cap segs x Hq Hx) as Hs. split.
  - intros r e He. destruct (turn_sound name Hn mac ip4 Bm Lm Bi Li cap r e x He Hs) as (o & E & _). by exists o.
  - destruct Hs as [[H1 H2 H3 H4] _]. exact (conj H1 (conj H2 (conj H3 H4))).
Qed.

(** C23: when no wait runs out of time, every schedule of the four leads to the end of both exchanges: the ARP server has the link server's MAC
    address and the IPv4 server's IP address, the TCP server has the latter, and no message is left in a queue. *)
Theorem exchange_done (name : role -> list Z) (mac ip4 : addr) (cap : role -> Z) (segs : gmap (list Z) segment)
  (Hn : names_good name) (Bm : bytes mac) (Lm : zlen mac = 6) (Bi : bytes ip4) (Li : zlen ip4 = 4)
  (Hq : hold name cap nothing segs) (Hcap : forall r, 256 <= cap r) :
  x_inevitably name mac ip4 (fun x =>
    x_arp x = ADone /\ x_mac x = Some mac /\ x_ip4 x = Some ip4 /\ x_tcp x = TDone /\ x_tcp_ip4 x = Some ip4 /\
    hold name cap nothing (x_segs x)) (x_start segs).
Proof.
  apply (stage_inevitable name Hn mac ip4 Bm Lm Bi Li cap Hcap 10 SA0 ST0 nothing); [cbn; lia| |].
  - split; try done. by left.
  - by apply (reach_sound name Hn mac ip4 Bm Lm Bi Li cap segs); [|constructor].
Qed.

(** A machine of four. *)
Definition ex_role (r : role) : list Z := match r with RLink => str "tap-meta" | RIp4 => str "ip4-meta" | RArp => str "arp-meta" | RTcp => str "tcp-meta" end.
Definition ex_roles : list role := [RLink; RIp4; RArp; RTcp].
Definition ex_mac : addr := [2; 0; 0; 171; 205; 1].
Definition ex_ip4 : addr := [192; 168; 3; 2].
Definition ex_segs : gmap (list Z) segment := new_segs ex_role ex_roles (fun _ => 1024).
Definition ex_turn (now : Z) (timeout : bool) : xturn := {| xe_now := now; xe_timeout := timeout; xe_junk := fun _ => 0 |}.

(** Turns one after the other. *)
Fixpoint x_run (turns : list (role * xturn)) (x : exchange) : outcome (option exchange) :=
  match turns with
  | [] => Ret (Some x)
  | (r, e) :: rest => x' ← x_turn ex_role ex_mac ex_ip4 r e x; match x' with Some x' => x_run rest x' | None => Ret None end
  end.

Lemma x_run_reach segs turns x x' : forallb (fun t => (0 <=? xe_now t.2) && (xe_now t.2 <? 2 ^ 64)) turns = true ->
  x_reach ex_role ex_mac ex_ip4 segs x -> x_run turns x = Ret (Some x') -> x_reach ex_role ex_mac ex_ip4 segs x'.
Proof.
  revert x. induction turns as [|[r e] turns IH]; intros x; cbn [forallb x_run snd]; [by intros _ Hx [= <-]|].
  intros [He Ht]%andb_prop Hx E. destruct (x_turn _ _ _ r e x) as [[x1|]|] eqn:E1; [|done..]. apply (IH x1 Ht); [|exact E].
  eapply reach_turn; [exact Hx| |exact E1]. unfold is_u. lia.
Qed.

Lemma ex_roles_all r : r ∈ ex_roles.
Proof. destruct r; repeat (first [left|right]). Qed.

Lemma ex_role_good : names_good ex_role.
Proof. apply (names_good_bool ex_role ex_roles ex_roles_all); [refine (bool_decide_unpack _ _); by vm_compute|by vm_compute]. Qed.

Lemma ex_hold : hold ex_role (fun _ => 1024) nothing ex_segs.
Proof. apply new_hold; [apply ex_roles_all|refine (bool_decide_unpack _ _); by vm_compute|lia]. Qed.

(** Both ask; the first wait of the ARP server runs out of time, later the answers come. *)
Definition ex_turns : list (role * xturn) :=
  [(RArp, ex_turn 5 false); (RTcp, ex_turn 3000000 false); (RArp, ex_turn 6 true); (RLink, ex_turn 7 false); (RArp, ex_turn 8 false);
   (RIp4, ex_turn 9 false); (RTcp, ex_turn 10 false); (RIp4, ex_turn 11 false); (RArp, ex_turn 12 false); (RArp, ex_turn 13 false);
   (RLink, ex_turn 14 false); (RArp, ex_turn 15 false); (RArp, ex_turn 16 false)].

Lemma exchange_safe_witness : exists x, x_run ex_turns (x_start ex_segs) = Ret (Some x) /\ x_arp x = ADone /\ x_mac x = Some ex_mac.
Proof.
  destruct (x_run ex_turns (x_start ex_segs)) as [[x|]|] eqn:E; [|by vm_compute in E..].
  assert (Hd : x_arp x = ADone).
  { assert (H : match x_run ex_turns (x_start ex_segs) with Ret (Some x) => x_arp x = ADone | _ => False end) by (by vm_compute). by rewrite E in H. }
  exists x. split; [done|]. split; [done|].
  refine (proj1 (proj1 (proj2 (proj2 (proj2 (exchange_safe ex_role ex_mac ex_ip4 (fun _ => 1024) ex_segs x ex_role_good _ _ _ _ ex_hold _)))) Hd)).
  all: try reflexivity; try by concrete_bytes. eapply x_run_reach; [|apply reach_start|exact E]. reflexivity.
Defined.

Lemma exchange_done_witness : x_inevitably ex_role ex_mac ex_ip4 (fun x =>
  x_arp x = ADone /\ x_mac x = Some ex_mac /\ x_ip4 x = Some ex_ip4 /\ x_tcp x = TDone /\ x_tcp_ip4 x = Some ex_ip4 /\
  hold ex_role (fun _ => 1024) nothing (x_segs x)) (x_start ex_segs).
Proof.
  refine (exchange_done ex_role ex_mac ex_ip4 (fun _ => 1024) ex_segs ex_role_good _ _ _ _ ex_hold _).
  all: first [reflexivity|by concrete_bytes|lia].
Defined.
