(* ===== verification/Ntp.v ===== *)
(** * Time: [src/ntp_server.cpp] and [src/time_server.cpp]

    The NTP server answers requests delivered by the UDP server, the time server
    (RFC 868) messages of the TCP server.  The clock is an input. *)

From S2P Require Import Prelude Net Checksum Str Addr ShmMessage Transport.

(** ** Code *)

Definition NTP_EPOCH : Z := 86400 * (365 * 70 + 17).

Definition sizeof_sntp_datagram : Z := 48.

(** The [sntp_datagram] of a reply at [tv_sec], [tv_nsec], in the order of its
    fields: mode, version and leap indicator in the first byte, [stratum],
    [poll], [precision], the delays as the host stores them, the reference
    identifier, and the four time stamps.  [originate] is the eight bytes of the
    request's transmit time stamp. *)
Definition ntp_msgout (originate : list Z) (tv_sec tv_nsec : Z) : list Z :=
  let now_secs := htonl_bytes (tv_sec + NTP_EPOCH) in
  let now_fraq := htonl_bytes (tv_nsec / 1000 * 4295) in
  [Z.lor (Z.lor 4 (Z.shiftl 3 3)) (Z.shiftl 0 6); 1; 16; u8 (-18)]
  ++ le_bytes 4 369098752 ++ le_bytes 4 369098752 ++ str "LOCL"
  ++ now_secs ++ now_fraq ++ originate ++ now_secs ++ now_fraq ++ now_secs ++ now_fraq.

Section Ntp.
Context `{Transport W}.

(** Body of [run_in] of the NTP server. *)
Definition ntp_run_in (out_name : list Z) (tv_sec tv_nsec : Z) (m : message) : prog W unit :=
  v ← lift (unwrap_message_up m);
  let pl := u_pl v in
  if u_pl_len v <? 4 + 48 then mret tt else
  b ← lift (rd pl 4);
  if Z.land b 7 =? 3 then
    source_port ← lift (get_uint16 pl);
    destination_port ← lift (get_uint16 (padd pl 2));
    originate ← lift (rdn pl (4 + 40) 8);
    let msgout := ntp_msgout originate tv_sec tv_nsec in
    let udp_message_size := 4 + sizeof_sntp_datagram in
    m_out ← lift (put_uint16 (zeros udp_message_size) 0 destination_port);
    m_out ← lift (put_uint16 m_out 2 source_port);
    m_out ← lift (wr m_out 4 msgout);
    wrapped ← lift (wrap_message_down (u_to_len v) (u_to v) (u_from_len v) (u_from v) udp_message_size m_out None);
    _ ← send out_name wrapped false;
    mret tt
  else mret tt.

(** Body of [run_in] of the time server, at [time(nullptr) = time]. *)
Definition time_run_in (out_name : list Z) (time : Z) (m : message) : prog W unit :=
  v ← lift (unwrap_message_up_tcp m);
  let reply_msg := allocate_shm_message (12 + 4) in
  let now := u32 (time + 2208988800) in
  let data := le_bytes 8 (t_session_id v) ++ le_bytes 4 1 ++ htonl_bytes now in
  _ ← send out_name (fill_message reply_msg 0 0 data) true;
  mret tt.

End Ntp.

(** ** Lemmas *)

Lemma zlen_ntp_msgout originate s n : zlen originate = 8 -> zlen (ntp_msgout originate s n) = 48.
Proof. intros Ho. unfold ntp_msgout, htonl_bytes. autorewrite with zlen. rewrite Ho. reflexivity. Qed.

Lemma bytes_htonl x : bytes (htonl_bytes x).
Proof. unfold htonl_bytes, be32. rewrite !bytes_cons. repeat split; (apply u8_byte || constructor). Qed.

Lemma bytes_ntp_msgout originate s n : bytes originate -> bytes (ntp_msgout originate s n).
Proof.
  intros Ho. pose proof (bytes_htonl (s + NTP_EPOCH)). pose proof (bytes_htonl (n / 1000 * 4295)). unfold ntp_msgout.
  rewrite !bytes_app. repeat (split; auto with myip). concrete_bytes.
Qed.

(** The message with which the server answers a request [q] from port [sp] to port [dp]. *)
Definition ntp_answer (sp dp : Z) (q : list Z) (s n : Z) : list Z := be16 dp ++ be16 sp ++ ntp_msgout (sub q 40 8) s n.

Lemma ntp_run_in_aux `{Transport W} out_name s n m full from to sp dp q extra pad w :
  m_data m = up_data full from to (be16 sp ++ be16 dp ++ q ++ extra) ++ pad ->
  zlen full <= 65535 -> zlen from = 4 -> zlen to = 4 -> zlen q = 48 -> zlen extra <= 65000 -> is_u 16 sp -> is_u 16 dp ->
  ntp_run_in out_name s n m w =
  Ret (tt, if Z.land (nth 0 q 0) 7 =? 3
           then after_send out_name (message_of (down_data to from (ntp_answer sp dp q s n)) None) w else w).
Proof.
  intros Hm Lk Lf Lt Lq Le Us Ud. set (pl := be16 sp ++ be16 dp ++ q ++ extra) in *. pose proof (zlen_nonneg extra).
  assert (Lp : zlen pl = 52 + zlen extra) by (unfold pl; rewrite !zlen_app, !zlen_be16; lia).
  unfold ntp_run_in. erewrite lift_bind by (eapply unwrap_message_up_data; try exact Hm; unfold fits; lia).
  cbn [u_pl u_pl_len u_to u_to_len u_from u_from_len]. replace (zlen pl <? 4 + 48) with false by lia.
  destruct q as [|q0 q]; [done|]. erewrite lift_bind by (by apply rd_ok). cbn [nth].
  destruct (Z.land q0 7 =? 3); [|done]. set (Q := q0 :: q) in *.
  erewrite lift_bind by (unfold pl; rewrite <- app_assoc; by apply get_put_uint16).
  erewrite lift_bind.
  2: { unfold pl. replace (padd _ 2) with (be16 dp ++ (Q ++ extra) ++ full ++ pad) by (by rewrite <- !app_assoc). by apply get_put_uint16. }
  erewrite lift_bind.
  2: { assert (Hr : pl ++ full ++ pad = be16 sp ++ be16 dp ++ Q ++ extra ++ full ++ pad) by (unfold pl; by rewrite <- !app_assoc).
       rewrite rdn_ok by (rewrite ?zlen_app; pose proof (zlen_nonneg full); pose proof (zlen_nonneg pad); lia). rewrite Hr.
       change (sub (be16 sp ++ be16 dp ++ Q ++ extra ++ full ++ pad) (4 + 40) 8) with (sub (Q ++ extra ++ full ++ pad) 40 8).
       unfold sub. rewrite drop_app_le by (unfold zlen in Lq; lia).
       rewrite take_app_le by (rewrite length_drop; unfold zlen in Lq; lia). reflexivity. }
  set (org := sub Q 40 8). assert (Lo : zlen org = 8) by (apply zlen_sub; lia).
  pose proof (zlen_ntp_msgout org s n Lo) as Lm. set (mo := ntp_msgout org s n) in *.
  assert (Hz : zeros (4 + sizeof_sntp_datagram) = [0; 0] ++ [0; 0] ++ zeros 48) by done.
  rewrite Hz. erewrite lift_bind.
  2: { unfold put_uint16. rewrite (wrap_small 16) by done. by apply (wr_mid [] [0; 0] _ (be16 dp)). }
  erewrite lift_bind.
  2: { unfold put_uint16. rewrite (wrap_small 16) by done. by apply (wr_mid (be16 dp) [0; 0] _ (be16 sp)). }
  erewrite lift_bind.
  2: { rewrite (app_assoc (be16 dp)), <- (app_nil_r (zeros 48)). rewrite wr_mid by (done || by rewrite Lm).
       rewrite app_nil_r, <- app_assoc. reflexivity. }
  assert (La : zlen (ntp_answer sp dp Q s n) = 52) by (unfold ntp_answer; fold org; fold mo; rewrite !zlen_app, !zlen_be16; lia).
  erewrite lift_bind.
  2: { eapply wrap_message_down_gen with (p := ntp_answer sp dp Q s n); [by apply rdn_app_l|by apply rdn_app_l| |lia|lia|].
       - apply rdn_all. rewrite La. reflexivity.
       - rewrite La. reflexivity. }
  rewrite send_after; [done|]. apply down_message_size. lia.
Qed.

(** The fraction the server reports is about 4295 units per microsecond. *)
Lemma ntp_fraction_range n : 0 <= n < 10 ^ 9 ->
  u32 (n / 1000 * 4295) = (if n / 1000 <? 999993 then n / 1000 * 4295 else n / 1000 * 4295 - 2 ^ 32).
Proof.
  intros Hn. pose proof (Z.div_le_mono n 999999999 1000). pose proof (Z.div_pos n 1000).
  change (999999999 / 1000) with 999999 in *. unfold wrap. destruct (Z.ltb_spec (n / 1000) 999993).
  - apply Z.mod_small. lia.
  - replace (n / 1000 * 4295) with (n / 1000 * 4295 - 2 ^ 32 + 1 * 2 ^ 32) at 1 by lia.
    rewrite Z_mod_plus_full. apply Z.mod_small. lia.
Qed.

(** ** Properties *)

(** The NTP server answers a client request (mode 3) with one datagram from
    the port it was sent to, back to the sender: the answer's originate stamp is the request's
    transmit stamp, its transmit stamp is the clock, in seconds since 1900 modulo
    2^32 and a fraction within eight microseconds of the clock's.  In the last
    seven microseconds of each second the product exceeds 32 bits and the
    fraction starts again near zero: the time sent is a second early.
    Other modes are not answered. *)
Theorem ntp_run_in_answers `{Transport W} (out_name : list Z) (s n : Z) (m : message) (full from to q extra pad : list Z)
  (sp dp : Z) (w : W)
  (Hm : m_data m = up_data full from to (be16 sp ++ be16 dp ++ q ++ extra) ++ pad)
  (Hlen : zlen full <= 65535 /\ zlen from = 4 /\ zlen to = 4 /\ zlen q = 48 /\ zlen extra <= 65000)
  (Hports : is_u 16 sp /\ is_u 16 dp) (Hn : 0 <= n < 10 ^ 9) :
  let a := ntp_answer sp dp q s n in
  let fraction := (if n / 1000 <? 999993 then n / 1000 * 4295 else n / 1000 * 4295 - 2 ^ 32) in
  ntp_run_in out_name s n m w =
    Ret (tt, if Z.land (nth 0 q 0) 7 =? 3
             then after_send out_name (message_of (down_data to from a) None) w else w) /\
  get_uint16 a = Ret dp /\ get_uint16 (padd a 2) = Ret sp /\ rd a 4 = Ret 28 /\
  sub a (4 + 24) 8 = sub q 40 8 /\
  get_uint32 (padd a (4 + 40)) = Ret (u32 (s + NTP_EPOCH)) /\
  get_uint32 (padd a (4 + 44)) = Ret fraction /\
  (n / 1000 < 999993 -> 0 <= fraction * 10 ^ 6 - n / 1000 * 2 ^ 32 < 8 * 2 ^ 32) /\
  (999993 <= n / 1000 -> 0 <= fraction < 2 ^ 32 / 10 ^ 5).
Proof.
  destruct Hlen as (Lk & Lf & Lt & Lq & Le), Hports as [Us Ud]. intros a fraction.
  split; [by apply (ntp_run_in_aux out_name s n m full from to sp dp q extra pad w)|].
  assert (Lo : zlen (sub q 40 8) = 8) by (apply zlen_sub; lia).
  set (org := sub q 40 8) in *. set (sec := htonl_bytes (s + NTP_EPOCH)). set (fr := htonl_bytes (n / 1000 * 4295)).
  set (hd := [28; 1; 16; 238] ++ le_bytes 4 369098752 ++ le_bytes 4 369098752 ++ str "LOCL").
  assert (Ea : a = be16 dp ++ be16 sp ++ hd ++ sec ++ fr ++ org ++ sec ++ fr ++ sec ++ fr ++ []) by (by rewrite app_nil_r).
  assert (L4 : zlen (be16 dp ++ be16 sp ++ hd) = 20) by reflexivity.
  assert (Ls : zlen sec = 4) by apply zlen_be32. assert (Lr : zlen fr = 4) by apply zlen_be32.
  assert (U : forall x, is_u 32 (u32 x)) by (intros; apply wrap_range; lia).
  split; [rewrite Ea; by apply get_put_uint16|]. split.
  { rewrite Ea, padd_app by done. by apply get_put_uint16. }
  split; [rewrite Ea; apply rd_ok; [lia|reflexivity]|]. split.
  { replace a with ((be16 dp ++ be16 sp ++ hd ++ sec ++ fr) ++ org ++ sec ++ fr ++ sec ++ fr) by (rewrite Ea; rewrite <- !app_assoc; by rewrite app_nil_r).
    apply sub_app_mid; [|lia]. rewrite !app_assoc, !zlen_app, Ls, Lr. reflexivity. }
  set (pre := be16 dp ++ be16 sp ++ hd ++ sec ++ fr ++ org ++ sec ++ fr).
  assert (Lp : zlen pre = 44) by (unfold pre; rewrite !app_assoc, !zlen_app, Ls, Lr, Lo; reflexivity).
  pose proof (ntp_fraction_range n Hn) as Hf. fold fraction in Hf.
  assert (Eq : a = pre ++ sec ++ fr ++ []) by (rewrite Ea; unfold pre; by rewrite <- !app_assoc).
  split; [rewrite Eq, padd_app by lia; apply get_put_uint32, U|]. split.
  { rewrite Eq, (app_assoc pre sec), padd_app by (rewrite zlen_app; lia). rewrite <- Hf. apply get_put_uint32, U. }
  pose proof (Z.div_le_mono n 999999999 1000). pose proof (Z.div_pos n 1000). change (999999999 / 1000) with 999999 in *.
  split; intros Hb; unfold fraction; destruct (Z.ltb_spec (n / 1000) 999993); try lia.
  change (2 ^ 32 / 10 ^ 5) with 42949. lia.
Qed.

Definition ex_ntp_request : list Z := 27 :: zeros 39 ++ [1; 2; 3; 4; 5; 6; 7; 8].

Definition ex_ntp_message : message :=
  message_of (up_data [] [10; 0; 0; 9] [10; 0; 0; 1] (be16 40000 ++ be16 123 ++ ex_ntp_request)) None.

Lemma ntp_run_in_answers_witness :
  exists a, ntp_run_in (str "udp") 1700000000 999995000 ex_ntp_message oracle_ok =
    Ret (tt, after_send (str "udp") (message_of (down_data [10; 0; 0; 1] [10; 0; 0; 9] a) None) oracle_ok) /\
    sub a 28 8 = [1; 2; 3; 4; 5; 6; 7; 8] /\ get_uint32 (padd a 48) = Ret 11229.
Proof.
  destruct (ntp_run_in_answers (W := oracle) (str "udp") 1700000000 999995000 ex_ntp_message [] [10; 0; 0; 9] [10; 0; 0; 1]
    ex_ntp_request [] [] 40000 123 oracle_ok) as (H1 & H2 & H3 & H4 & H5 & H6 & H7 & H8).
  - reflexivity.
  - repeat split; vm_compute; discriminate.
  - unfold is_u. lia.
  - lia.
  - eexists. split; [exact H1|]. split; [exact H5|exact H7].
Defined.

(** The time server answers every message of a session - the announcement of
    a connection, data, the announcement of its end - with the seconds since
    1900 modulo 2^32 and the request to close it. *)
Theorem time_run_in_answers `{Transport W} (out_name : list Z) (time : Z) (m : message) (session_id flags from_port to_port : Z)
  (from to pl pad : list Z) (w : W)
  (Hm : m_data m = up_tcp_data session_id from from_port to to_port flags pl ++ pad)
  (Hf : fits from /\ fits to /\ fits pl)
  (Hu : is_u 64 session_id /\ is_u 16 from_port /\ is_u 16 to_port /\ is_u 32 flags) :
  let data := le_bytes 8 session_id ++ le_bytes 4 1 ++ be32 (u32 (time + 2208988800)) in
  time_run_in out_name time m w =
  Ret (tt, (t_send out_name (fill_message (allocate_shm_message 16) 0 0 data) true w).2).
Proof.
  destruct Hf as (Ff & Ft & Fp), Hu as (U1 & U2 & U3 & U4). intros data.
  unfold time_run_in. erewrite lift_bind by (by eapply unwrap_message_up_tcp_data). cbn [t_session_id].
  unfold htonl_bytes. rewrite (wrap_small 32 (u32 _)) by (apply wrap_range; lia).
  unfold mbind, prog_bind. rewrite send_ok by reflexivity.
  change (12 + 4) with 16. fold data. by destruct (t_send _ _ _ _).
Qed.

Lemma time_run_in_answers_witness :
  time_run_in (str "tcp") 1700000000 (message_of (up_tcp_data 7 [10; 0; 0; 9] 40000 [10; 0; 0; 1] 37 2 []) None) oracle_ok =
  Ret (tt, (t_send (str "tcp") (fill_message (allocate_shm_message 16) 0 0 [7; 0; 0; 0; 0; 0; 0; 0; 1; 0; 0; 0; 232; 254; 111; 128]) true oracle_ok).2).
Proof.
  etransitivity.
  - apply (time_run_in_answers (W := oracle) (str "tcp") 1700000000 _ 7 2 40000 37 [10; 0; 0; 9] [10; 0; 0; 1] [] [] oracle_ok).
    + reflexivity.
    + repeat split; vm_compute; reflexivity.
    + unfold is_u. lia.
  - vm_compute. reflexivity.
Defined.
