(* ===== verification/L7.v ===== *)
(** * Layer 7 sessions: [src/utils/queue.h] and [src/utils/tcp-helpers.cpp]

    The servers on top of TCP (HTTP, Gopher, VNC) run one thread per session.
    The thread takes the bytes of its peer from a queue that the server's
    receiving thread fills, and answers by messages to the TCP server.

    A thread's code is a [proc]: a tree of the operations of [tcp-helpers] and of
    the queue, with the rest of the code as a function of the result.
    [run_thread] runs it in an environment: [l_env] lists, for every moment at
    which the thread looks at shared state, what the other threads have done since
    the moment before.  When the list is used up nothing happens any more; a
    thread that then waits for data waits for good ([Waits]). *)

From S2P Require Import Prelude ShmMessage Transport.

(** ** Code *)

(** What other threads do to a session: [incoming.push], [session->stop_flag =
    true] and the process' [stop_flag = true]. *)
Inductive event : Type :=
| EvPush (chunk : list Z)
| EvClose
| EvStop.

Record l7 (W : Type) := L7 {
  l_incoming : list (list Z);
  l_stop : bool;
  l_gstop : bool;
  l_finished : bool;
  l_env : list (list event);
  l_world : W }.
Arguments L7 {W}.
Arguments l_incoming {W}.
Arguments l_stop {W}.
Arguments l_gstop {W}.
Arguments l_finished {W}.
Arguments l_env {W}.
Arguments l_world {W}.

(** How a thread ends: with a result, waiting for good, or in a fault. *)
Inductive tres (A : Type) : Type :=
| Done (a : A)
| Waits
| Crash (f : fault).
Arguments Done {A}.
Arguments Waits {A}.
Arguments Crash {A}.

Definition thread (W A : Type) : Type := l7 W -> tres A * l7 W.

#[global] Instance thread_ret {W} : MRet (thread W) := fun A a s => (Done a, s).
#[global] Instance thread_bind {W} : MBind (thread W) := fun A B f m s =>
  match m s with
  | (Done a, s') => f a s'
  | (Waits, s') => (Waits, s')
  | (Crash e, s') => (Crash e, s')
  end.

Definition tlift {W A} (m : outcome A) : thread W A := fun s =>
  match m with
  | Ret a => (Done a, s)
  | Fault e => (Crash e, s)
  end.

(** [queue<T>::push], [pop_front] and [unpop] on the deque. *)
Definition queue_push {A} (t : A) (q : list A) : list A := q ++ [t].
Definition queue_unpop {A} (t : A) (q : list A) : list A := t :: q.

Section L7.
Context {W : Type}.
Implicit Types s : l7 W.

Definition set_incoming (q : list (list Z)) s : l7 W := L7 q (l_stop s) (l_gstop s) (l_finished s) (l_env s) (l_world s).
Definition set_env (e : list (list event)) s : l7 W := L7 (l_incoming s) (l_stop s) (l_gstop s) (l_finished s) e (l_world s).
Definition set_world (w : W) s : l7 W := L7 (l_incoming s) (l_stop s) (l_gstop s) (l_finished s) (l_env s) w.

Definition apply_event s (e : event) : l7 W :=
  match e with
  | EvPush c => set_incoming (queue_push c (l_incoming s)) s
  | EvClose => L7 (l_incoming s) true (l_gstop s) (l_finished s) (l_env s) (l_world s)
  | EvStop => L7 (l_incoming s) (l_stop s) true (l_finished s) (l_env s) (l_world s)
  end.

(** What happened since the thread looked last. *)
Definition tick s : l7 W :=
  match l_env s with
  | [] => s
  | evs :: rest => foldl apply_event (set_env rest s) evs
  end.

(** [session->stop_flag || stop_flag] *)
Definition stopped : thread W bool := fun s =>
  let s := tick s in (Done (l_stop s || l_gstop s), s).

(** [queue<T>::pop()]: waits until there is an element. *)
Fixpoint pop_loop (turns : list (list event)) s : tres (list Z) * l7 W :=
  match l_incoming s with
  | c :: r => (Done c, set_incoming r s)
  | [] =>
    match turns with
    | [] => (Waits, s)
    | _ :: turns => pop_loop turns (tick s)
    end
  end.

Definition pop : thread W (list Z) := fun s => pop_loop (l_env s) s.

(** [queue<T>::pop(timeout)] *)
Definition pop_timeout : thread W (option (list Z)) := fun s =>
  let s := tick s in
  match l_incoming s with
  | c :: r => (Done (Some c), set_incoming r s)
  | [] => (Done None, s)
  end.

Definition unpop (c : list Z) : thread W unit := fun s => (Done tt, set_incoming (queue_unpop c (l_incoming s)) s).

(** A loop around a timeout that looks at the stop flags goes on for ever once
    nothing happens any more and no flag is set. *)
Definition idle : thread W unit := fun s =>
  match l_env s with
  | [] => if l_stop s || l_gstop s then (Done tt, s) else (Waits, s)
  | _ => (Done tt, s)
  end.

Fixpoint recv_loop (fuel : nat) (to : list Z) (todo done : Z) : thread W (Z * list Z) :=
  if negb (todo >? 0) then mret (done, to) else
  st ← stopped;
  if st : bool then mret (done, to) else
  match fuel with
  | O => tlift (Fault Diverges)
  | S f =>
    values ← pop_timeout;
    match values with
    | None => _ ← idle; recv_loop f to todo done
    | Some values =>
      let v_n := zlen values in
      chunk ← tlift (rdn values 0 (Z.min todo v_n));
      to ← tlift (wr to done chunk);
      if v_n >? todo then
        _ ← unpop (drop (Z.to_nat todo) values);
        recv_loop f to 0 (done + todo)
      else recv_loop f to (todo - v_n) (done + v_n)
    end
  end.

(** Elements queued or to be queued, and moments: no loop of a thread has more
    turns. *)
Definition l7_work s : nat := (length (l_incoming s) + length (l_env s) + length (concat (l_env s)))%nat.

Definition recv_func (to : list Z) (n : Z) : thread W (Z * list Z) := fun s =>
  if n =? 0 then (Done (0, to), s) else recv_loop (S (l7_work s)) to n 0 s.

Context `{Transport W}.

Definition l7_message (session_id flags : Z) (pl : list Z) : message :=
  fill_message (allocate_shm_message (12 + zlen pl)) 0 0 (le_bytes 8 session_id ++ le_bytes 4 flags ++ pl).

Definition tsend (dst : list Z) (m : message) (blocking : bool) : thread W bool := fun s =>
  match send dst m blocking (l_world s) with
  | Ret (r, w) => (Done r.1, set_world w s)
  | Fault e => (Crash e, s)
  end.

Definition send_func (session_id : Z) (out_name : list Z) (from : list Z) : thread W Z :=
  ok ← tsend out_name (l7_message session_id 0 from) true;
  mret (if ok : bool then zlen from else -1).

Definition fin_func (session_id : Z) (out_name : list Z) : thread W unit :=
  _ ← tsend out_name (l7_message session_id 1 []) true;
  mret tt.

Definition finish : thread W unit := fun s =>
  (Done tt, L7 (l_incoming s) (l_stop s) (l_gstop s) true (l_env s) (l_world s)).

End L7.

(** The code of a thread. *)
Inductive proc (A : Type) : Type :=
| PRet (a : A)
| PCrash (f : fault)
| PPop (k : list Z -> proc A)
| PRecv (to : list Z) (n : Z) (k : Z * list Z -> proc A)
| PSend (from : list Z) (k : Z -> proc A)
| PFin (k : unit -> proc A)
| PStopped (k : bool -> proc A)
| PFinish (k : unit -> proc A).
Arguments PRet {A}.
Arguments PCrash {A}.
Arguments PPop {A}.
Arguments PRecv {A}.
Arguments PSend {A}.
Arguments PFin {A}.
Arguments PStopped {A}.
Arguments PFinish {A}.

#[global] Instance proc_ret : MRet proc := fun A a => PRet a.
#[global] Instance proc_bind : MBind proc := fun A B f => fix go p :=
  match p with
  | PRet a => f a
  | PCrash e => PCrash e
  | PPop k => PPop (fun x => go (k x))
  | PRecv to n k => PRecv to n (fun x => go (k x))
  | PSend from k => PSend from (fun x => go (k x))
  | PFin k => PFin (fun x => go (k x))
  | PStopped k => PStopped (fun x => go (k x))
  | PFinish k => PFinish (fun x => go (k x))
  end.

Definition plift {A} (m : outcome A) : proc A := match m with Ret a => PRet a | Fault e => PCrash e end.
Definition ppop : proc (list Z) := PPop PRet.
Definition precv (to : list Z) (n : Z) : proc (Z * list Z) := PRecv to n PRet.
Definition psend (from : list Z) : proc Z := PSend from PRet.
Definition pfin : proc unit := PFin PRet.
Definition pstopped : proc bool := PStopped PRet.
Definition pfinish : proc unit := PFinish PRet.

(** Run the thread of session [session_id], whose server sends to [out_name]. *)
Fixpoint run_thread {W} `{Transport W} {A} (session_id : Z) (out_name : list Z) (p : proc A) : thread W A :=
  match p with
  | PRet a => mret a
  | PCrash e => tlift (Fault e)
  | PPop k => x ← pop; run_thread session_id out_name (k x)
  | PRecv to n k => x ← recv_func to n; run_thread session_id out_name (k x)
  | PSend from k => x ← send_func session_id out_name from; run_thread session_id out_name (k x)
  | PFin k => x ← fin_func session_id out_name; run_thread session_id out_name (k x)
  | PStopped k => x ← stopped; run_thread session_id out_name (k x)
  | PFinish k => x ← finish; run_thread session_id out_name (k x)
  end.

(** ** The bytes of a session *)

Definition event_chunk (e : event) : option (list Z) := match e with EvPush c => Some c | _ => None end.
Definition event_stops (e : event) : bool := match e with EvPush _ => false | _ => true end.

(** Chunks queued and chunks that will be, and their bytes. *)
Definition chunks {W} (s : l7 W) : list (list Z) := l_incoming s ++ omap event_chunk (concat (l_env s)).

Definition stream {W} (s : l7 W) : list Z := concat (chunks s).

(** A stop flag is set or will be. *)
Definition will_stop {W} (s : l7 W) : bool := l_stop s || l_gstop s || existsb event_stops (concat (l_env s)).

Definition flagged {W} (s : l7 W) : bool := l_stop s || l_gstop s.

(** [s'] is [s] some operations on the queue later. *)
Record later {W} (s s' : l7 W) : Prop := {
  lt_world : l_world s' = l_world s;
  lt_finished : l_finished s' = l_finished s;
  lt_will_stop : will_stop s' = will_stop s;
  lt_flagged : flagged s = true -> flagged s' = true;
  lt_work : (l7_work s' <= l7_work s)%nat }.

#[export] Instance later_preorder {W} : PreOrder (@later W).
Proof.
  split.
  - intros s. by split.
  - intros s1 s2 s3 [] []. split; try congruence; [auto|lia].
Qed.

Lemma apply_events {W} (evs : list event) (s : l7 W) :
  let s' := foldl apply_event s evs in
  l_incoming s' = l_incoming s ++ omap event_chunk evs /\
  flagged s' = flagged s || existsb event_stops evs /\
  l_env s' = l_env s /\ l_world s' = l_world s /\ l_finished s' = l_finished s /\
  (length (l_incoming s') <= length (l_incoming s) + length evs)%nat.
Proof.
  revert s. induction evs as [|e evs IH]; intros s; cbn.
  - rewrite app_nil_r, orb_false_r. repeat split; lia.
  - destruct (IH (apply_event s e)) as (H1 & H2 & H3 & H4 & H5 & H6). rewrite H1, H2, H3, H4, H5.
    assert (E : l_incoming (apply_event s e) ++ omap event_chunk evs = l_incoming s ++ omap event_chunk (e :: evs) /\
      flagged (apply_event s e) = flagged s || event_stops e /\
      (length (l_incoming (apply_event s e)) <= S (length (l_incoming s)))%nat).
    { unfold flagged. destruct e; cbn.
      - unfold queue_push. rewrite <- app_assoc, length_app, orb_false_r. cbn. repeat split; lia.
      - rewrite orb_true_r. repeat split; lia.
      - rewrite !orb_true_r. repeat split; lia. }
    destruct E as (E1 & E2 & E3). rewrite E2, <- orb_assoc.
    repeat split; [exact E1|by destruct e..|]. rewrite <- H1. lia.
Qed.

Lemma tick_later {W} (s : l7 W) :
  later s (tick s) /\ chunks (tick s) = chunks s /\ (l_env s <> [] -> (l7_work (tick s) < l7_work s)%nat) /\
  l_env (tick s) = tail (l_env s).
Proof.
  unfold tick. destruct (l_env s) as [|evs rest] eqn:E.
  - by repeat split.
  - destruct (apply_events evs (set_env rest s)) as (H1 & H2 & H3 & H4 & H5 & H6).
    set (s' := foldl _ _ _) in *. cbn in H3, H4, H5.
    assert (Hw : (l7_work s' < l7_work s)%nat).
    { unfold l7_work. rewrite E, H3. cbn in *. rewrite length_app. lia. }
    repeat split; try done.
    + change (flagged s' || existsb event_stops (concat (l_env s')) = flagged s || existsb event_stops (concat (l_env s))).
      rewrite H2, H3, E. cbn. by rewrite existsb_app, orb_assoc.
    + intros Hf. rewrite H2. unfold flagged in *. cbn. by rewrite Hf.
    + lia.
    + unfold chunks. rewrite H1, H3, E. cbn. by rewrite omap_app, app_assoc.
Qed.

Lemma stopped_spec {W} (s : l7 W) :
  stopped s = (Done (flagged (tick s)), tick s).
Proof. reflexivity. Qed.

(** What [pop] and [pop(timeout)] do. *)
Lemma take_front {W} (s : l7 W) c r : l_incoming s = c :: r ->
  later s (set_incoming r s) /\ chunks s = c :: chunks (set_incoming r s) /\
  (l7_work (set_incoming r s) < l7_work s)%nat.
Proof.
  intros E. unfold l7_work, chunks. cbn. rewrite E. cbn.
  repeat split; cbn; try lia; [done|]. unfold l7_work. cbn. rewrite E. cbn. lia.
Qed.

Lemma pop_timeout_spec {W} (s : l7 W) :
  match pop_timeout s with
  | (Done (Some c), s') => later s s' /\ chunks s = c :: chunks s' /\ (l7_work s' < l7_work s)%nat
  | (Done None, s') => s' = tick s /\ l_incoming s' = []
  | _ => False
  end.
Proof.
  unfold pop_timeout. destruct (tick_later s) as (L & Hs & _ & _). destruct (l_incoming (tick s)) as [|c r] eqn:E; [done|].
  destruct (take_front _ _ _ E) as (L2 & H2 & W2). split; [by transitivity (tick s)|]. split; [congruence|].
  pose proof (lt_work _ _ L). lia.
Qed.

Lemma pop_spec {W} (s : l7 W) :
  match pop s with
  | (Done c, s') => later s s' /\ chunks s = c :: chunks s' /\ (l7_work s' < l7_work s)%nat
  | (Waits, s') => later s s' /\ chunks s = [] /\ chunks s' = []
  | (Crash _, _) => False
  end.
Proof.
  unfold pop. remember (l_env s) as turns eqn:E. symmetry in E. revert s E.
  induction turns as [|evs turns IH]; intros s E; cbn.
  - destruct (l_incoming s) as [|c r] eqn:Ei; [|by apply take_front].
    split; [done|]. unfold chunks. by rewrite Ei, E.
  - destruct (l_incoming s) as [|c r] eqn:Ei; [|by apply take_front].
    destruct (tick_later s) as (L & Hs & Hw & He). rewrite E in He. cbn in He.
    specialize (IH (tick s) He). destruct (pop_loop turns (tick s)) as [[c| |] s']; [| |done].
    + destruct IH as (L2 & H2 & W2). split; [by transitivity (tick s)|]. split; [congruence|]. pose proof (lt_work _ _ L). lia.
    + destruct IH as (L2 & H2 & H3). split; [by transitivity (tick s)|]. split; [congruence|done].
Qed.

Lemma stream_cons {W} (s s' : l7 W) c : chunks s = c :: chunks s' -> stream s = c ++ stream s'.
Proof. unfold stream. by intros ->. Qed.

Lemma stream_eq {W} (s s' : l7 W) : chunks s' = chunks s -> stream s' = stream s.
Proof. unfold stream. by intros ->. Qed.

Lemma splice_app (to : list Z) off a b :
  0 <= off -> off + zlen a + zlen b <= zlen to -> splice (splice to off a) (off + zlen a) b = splice to off (a ++ b).
Proof.
  intros Ho Hl. pose proof (zlen_nonneg a). pose proof (zlen_nonneg b).
  assert (exists x y z t, to = x ++ y ++ z ++ t /\ zlen x = off /\ zlen y = zlen a /\ zlen z = zlen b) as (x & y & z & t & -> & Hx & Hy & Hz).
  { exists (take (Z.to_nat off) to), (take (length a) (drop (Z.to_nat off) to)),
      (take (length b) (drop (length a) (drop (Z.to_nat off) to))), (drop (length b) (drop (length a) (drop (Z.to_nat off) to))).
    rewrite !take_drop. split; [done|]. rewrite !zlen_take, !zlen_drop. unfold zlen in *. lia. }
  rewrite (splice_mid x y (z ++ t) a) by (unfold zlen in *; lia). rewrite (app_assoc x a), (splice_mid (x ++ a) z t b)
    by (rewrite ?zlen_app; unfold zlen in *; lia).
  rewrite (app_assoc y z), (splice_mid x (y ++ z) t (a ++ b)); [by rewrite <- !app_assoc|done|].
  rewrite !zlen_app. lia.
Qed.

Lemma splice_nil (to : list Z) off : 0 <= off <= zlen to -> splice to off [] = to.
Proof. intros H. unfold splice. cbn. rewrite Nat.add_0_r. apply take_drop. Qed.

(** ** Receiving *)

Lemma recv_loop_unfold {W} f to todo done (s : l7 W) : todo > 0 ->
  recv_loop (S f) to todo done s =
  if flagged (tick s) then (Done (done, to), tick s) else
  match pop_timeout (tick s) with
  | (Done None, s') =>
    match l_env s', flagged s' with
    | [], false => (Waits, s')
    | _, _ => recv_loop f to todo done s'
    end
  | (Done (Some values), s') =>
    match chunk ← rdn values 0 (Z.min todo (zlen values)); wr to done chunk with
    | Ret to' =>
      if zlen values >? todo
      then (Done (done + todo, to'), set_incoming (queue_unpop (drop (Z.to_nat todo) values) (l_incoming s')) s')
      else recv_loop f to' (todo - zlen values) (done + zlen values) s'
    | Fault e => (Crash e, s')
    end
  | (Waits, s') => (Waits, s')
  | (Crash e, s') => (Crash e, s')
  end.
Proof.
  intros Ht. cbn [recv_loop]. replace (negb (todo >? 0)) with false by lia. unfold mbind at 1, thread_bind.
  rewrite stopped_spec. destruct (flagged (tick s)); [done|].
  unfold mbind at 1, thread_bind. destruct (pop_timeout (tick s)) as [[[values|]| |] s']; [|by unfold mbind, thread_bind, idle, flagged; destruct (l_env s'), (l_stop s' || l_gstop s')|done|done].
  unfold mbind, thread_bind, outcome_bind, tlift.
  destruct (rdn values 0 (Z.min todo (zlen values))) as [chunk|e]; [|done]. destruct (wr to done chunk) as [to'|e]; [|done].
  destruct (zlen values >? todo); [|done]. unfold unpop. by destruct f.
Qed.

Lemma recv_loop_spec {W} fuel to todo done (s : l7 W) :
  0 <= todo -> 0 <= done -> done + todo <= zlen to -> (l7_work s < fuel)%nat ->
  match recv_loop fuel to todo done s with
  | (Done (rc, to'), s') => exists got, later s s' /\ stream s = got ++ stream s' /\
      rc = done + zlen got /\ zlen got <= todo /\ to' = splice to done got /\ (zlen got < todo -> flagged s' = true)
  | (Waits, s') => later s s' /\ will_stop s = false /\ zlen (stream s) < todo
  | (Crash _, _) => False
  end.
Proof.
  revert to todo done s. induction fuel as [|f IH]; intros to todo done s Ht Hd Hl Hf; [lia|].
  destruct (decide (todo > 0)) as [Hp|Hp].
  2: { cbn. replace (negb (todo >? 0)) with true by lia. exists []. cbn. rewrite splice_nil by lia.
       unfold zlen. cbn [length]. repeat split; (done || lia). }
  rewrite recv_loop_unfold by done. destruct (tick_later s) as (L & Hs & Hw & He). apply stream_eq in Hs.
  destruct (flagged (tick s)) eqn:Ef.
  { exists []. rewrite splice_nil by lia. split; [done|]. split; [done|]. unfold zlen. cbn [length]. repeat split; [lia|lia|done]. }
  pose proof (pop_timeout_spec (tick s)) as Hpop. destruct (pop_timeout (tick s)) as [[[values|]| |] s']; try done.
  - destruct Hpop as (L2 & H2%stream_cons & W2). pose proof (zlen_nonneg values) as Hv.
    assert (Ls : later s s') by (by transitivity (tick s)). pose proof (lt_work _ _ L) as W1.
    rewrite rdn_ok by lia. mcbn. set (chunk := sub values 0 _).
    assert (Lc : zlen chunk = Z.min todo (zlen values)) by (unfold chunk; apply zlen_sub; lia).
    rewrite wr_ok by lia. destruct (Z.gtb_spec (zlen values) todo).
    + exists chunk. split.
      { destruct Ls. split; try done. unfold l7_work. cbn. unfold l7_work in W2, W1. lia. }
      split.
      { rewrite <- Hs, H2. unfold stream, chunks. cbn. rewrite !app_assoc. f_equal. unfold chunk, sub.
        rewrite Z.min_l by lia. cbn [Z.to_nat drop]. by rewrite take_drop. }
      repeat split; lia.
    + assert (chunk = values) as Ec by (unfold chunk; rewrite Z.min_r by lia; apply sub_all; lia). rewrite Ec.
      specialize (IH (splice to done values) (todo - zlen values) (done + zlen values) s').
      rewrite zlen_splice in IH by lia. specialize (IH ltac:(lia) ltac:(lia) ltac:(lia) ltac:(lia)).
      destruct (recv_loop f _ _ _ s') as [[[rc to']| |] s2].
      * destruct IH as (got & L3 & H3 & -> & Hg & -> & Hx). exists (values ++ got).
        split; [by transitivity s'|]. split; [rewrite <- Hs, H2, H3; by rewrite app_assoc|]. rewrite zlen_app.
        repeat split; [lia|lia| |intros; apply Hx; lia]. rewrite splice_app; [done|lia|lia].
      * destruct IH as (L3 & Hq & Hz). split; [by transitivity s'|]. split; [rewrite <- (lt_will_stop _ _ Ls); done|].
        rewrite <- Hs, H2, zlen_app. lia.
      * done.
  - destruct Hpop as [-> Hi]. destruct (tick_later (tick s)) as (L2 & H2%stream_eq & W2 & E2). set (s2 := tick (tick s)) in *.
    assert (Ls : later s s2) by (by transitivity (tick s)). pose proof (lt_work _ _ L2).
    destruct (decide (l_env s2 = [] /\ flagged s2 = false)) as [[En Eg]|Hn].
    + rewrite En, Eg. split; [done|]. split.
      * rewrite <- (lt_will_stop _ _ Ls). unfold will_stop. fold (flagged s2). by rewrite Eg, En.
      * rewrite <- Hs, <- H2. unfold stream, chunks. rewrite Hi, En. unfold zlen. cbn. lia.
    + assert (Hgo : recv_loop f to todo done s2 =
        match l_env s2, flagged s2 with [], false => (Waits, s2) | _, _ => recv_loop f to todo done s2 end).
      { destruct (l_env s2), (flagged s2); try done. by destruct Hn. }
      rewrite <- Hgo. assert (Hdec : (l7_work s2 < l7_work s)%nat).
      { assert (l_env s <> [] \/ l_env (tick s) <> []) as [Hx|Hx].
        - destruct (l_env s) eqn:E0; [|by left]. exfalso. apply Hn. rewrite E2, He.
          split; [done|]. unfold s2. assert (tick s = s) as -> by (unfold tick; by rewrite E0).
          assert (tick s = s) as Et by (unfold tick; by rewrite E0). by rewrite Et in *.
        - pose proof (Hw Hx). lia.
        - pose proof (W2 Hx). pose proof (lt_work _ _ L). lia. }
      specialize (IH to todo done s2 Ht Hd Hl ltac:(lia)).
      destruct (recv_loop f to todo done s2) as [[[rc to']| |] s3].
      * destruct IH as (got & L3 & H3 & -> & Hg & -> & Hx). exists got. split; [by transitivity s2|].
        split; [congruence|]. done.
      * destruct IH as (L3 & Hq & Hz). split; [by transitivity s2|].
        split; [rewrite <- (lt_will_stop _ _ Ls); done|]. congruence.
      * done.
Qed.

Lemma recv_func_spec {W} to n (s : l7 W) : 0 <= n <= zlen to ->
  match recv_func to n s with
  | (Done (rc, to'), s') => exists got, later s s' /\ stream s = got ++ stream s' /\
      rc = zlen got /\ rc <= n /\ to' = splice to 0 got /\ (rc < n -> flagged s' = true)
  | (Waits, s') => later s s' /\ will_stop s = false /\ zlen (stream s) < n
  | (Crash _, _) => False
  end.
Proof.
  intros Hn. unfold recv_func. destruct (Z.eqb_spec n 0) as [->|].
  { exists []. rewrite splice_nil by lia. unfold zlen. cbn [length]. repeat split; (done || lia). }
  pose proof (recv_loop_spec (S (l7_work s)) to n 0 s ltac:(lia) ltac:(lia) ltac:(lia) ltac:(lia)) as H.
  destruct (recv_loop _ _ _ _ s) as [[[rc to']| |] s']; try done.
  destruct H as (got & L & Hs & -> & Hg & -> & Hx). exists got. split; [done|]. rewrite Z.add_0_l. done.
Qed.

(** Enough bytes and no stop: the whole of them is received. *)
Lemma recv_func_full {W} to n (s : l7 W) :
  0 <= n <= zlen to -> n <= zlen (stream s) -> will_stop s = false ->
  exists s', recv_func to n s = (Done (n, splice to 0 (take (Z.to_nat n) (stream s))), s') /\
    later s s' /\ stream s' = drop (Z.to_nat n) (stream s).
Proof.
  intros Hn Hl Hq. pose proof (recv_func_spec to n s Hn) as H. destruct (recv_func to n s) as [[[rc to']| |] s']; [| |done].
  - destruct H as (got & L & Hs & -> & Hg & -> & Hx). exists s'.
    assert (zlen got = n) as Eg.
    { destruct (decide (zlen got < n)) as [Hlt|]; [|lia]. specialize (Hx Hlt). pose proof (lt_will_stop _ _ L) as Hw.
      unfold will_stop in Hw at 1. fold (flagged s') in Hw. by rewrite Hx, Hq in Hw. }
    split; [|split; [done|]].
    + rewrite Hs, Eg. f_equal. do 2 f_equal. rewrite take_app_le by (unfold zlen in *; lia). rewrite take_ge; [done|unfold zlen in *; lia].
    + rewrite Hs. rewrite drop_app_ge by (unfold zlen in *; lia). unfold zlen in *.
      by replace (Z.to_nat n - length got)%nat with 0%nat by lia.
  - destruct H as (_ & _ & H). lia.
Qed.

(** ** Sending *)

(** What a session's thread hands over. *)
Definition l7_sent (out_name : list Z) (session_id flags : Z) (pl : list Z) : sent :=
  {| sent_to := out_name; sent_id := 0; sent_type := 0; sent_reply_nr := None;
     sent_data := le_bytes 8 session_id ++ le_bytes 4 flags ++ pl |}.

Lemma tsend_spec `{Transport W} out_name session_id flags pl (s : l7 W) : zlen pl < 2 ^ 31 ->
  exists ok w, tsend out_name (l7_message session_id flags pl) true s = (Done ok, set_world w s) /\
    t_send out_name (l7_message session_id flags pl) true (l_world s) = ((ok, (t_send out_name (l7_message session_id flags pl) true (l_world s)).1.2), w) /\
    t_log w = t_log (l_world s) ++ (if ok : bool then [l7_sent out_name session_id flags pl] else []).
Proof.
  intros Hl. pose proof (zlen_nonneg pl). unfold tsend. rewrite send_ok.
  - pose proof (t_send_log out_name (l7_message session_id flags pl) true (l_world s)) as Hlog.
    destruct (t_send out_name (l7_message session_id flags pl) true (l_world s)) as [[ok nr] w] eqn:E.
    exists ok, w. split; [done|]. split; [done|]. exact Hlog.
  - cbn. rewrite wrap_small; unfold is_u; lia.
Qed.

(** ** Threads and byte streams

    [run_stream] runs a thread's code on the bytes of its peer, however they
    were cut into chunks and whenever they came. *)
Fixpoint run_stream `{Transport W} {A} (session_id : Z) (out_name : list Z) (p : proc A) (i : list Z) (w : W)
  : tres A * list Z * W :=
  match p with
  | PRet a => (Done a, i, w)
  | PCrash e => (Crash e, i, w)
  | PPop k => (Waits, i, w)
  | PRecv to n k =>
    if n <=? zlen i then run_stream session_id out_name (k (n, splice to 0 (take (Z.to_nat n) i))) (drop (Z.to_nat n) i) w
    else (Waits, i, w)
  | PSend from k =>
    let r := t_send out_name (l7_message session_id 0 from) true w in
    run_stream session_id out_name (k (if r.1.1 then zlen from else -1)) i r.2
  | PFin k => run_stream session_id out_name (k tt) i (t_send out_name (l7_message session_id 1 []) true w).2
  | PStopped k => run_stream session_id out_name (k false) i w
  | PFinish k => run_stream session_id out_name (k tt) i w
  end.

(** Code that receives into buffers of the size it asks for, sends less than
    2^31 bytes at a time, does not look at the chunks, and returns what [Q] allows. *)
Fixpoint streaming {A} (Q : A -> Prop) (p : proc A) : Prop :=
  match p with
  | PRet a => Q a
  | PCrash _ => True
  | PPop _ => False
  | PRecv to n k => 0 <= n <= zlen to /\ bytes to /\ forall to', zlen to' = zlen to -> bytes to' -> streaming Q (k (n, to'))
  | PSend from k => zlen from < 2 ^ 31 /\ forall rc, streaming Q (k rc)
  | PFin k => streaming Q (k tt)
  | PStopped k => streaming Q (k false)
  | PFinish k => streaming Q (k tt)
  end.

Lemma streaming_bind {A B} (P : A -> Prop) (Q : B -> Prop) (p : proc A) (f : A -> proc B) :
  streaming P p -> (forall a, P a -> streaming Q (f a)) -> streaming Q (p ≫= f).
Proof. unfold mbind. intros Hp Hf. induction p; cbn in *; naive_solver. Qed.

Lemma run_stream_bind `{Transport W} {A B} session_id out_name (p : proc A) (f : A -> proc B) i w :
  run_stream session_id out_name (p ≫= f) i w =
  match run_stream session_id out_name p i w with
  | (Done a, i', w') => run_stream session_id out_name (f a) i' w'
  | (Waits, i', w') => (Waits, i', w')
  | (Crash e, i', w') => (Crash e, i', w')
  end.
Proof. unfold mbind. revert i w. induction p as [a|e|k IH|to n k IH|from k IH|k IH|k IH|k IH]; intros i w; cbn; auto. destruct (n <=? zlen i); auto. Qed.

Lemma run_thread_stream `{Transport W} {A} session_id out_name (p : proc A) (s : l7 W) :
  streaming (fun _ => True) p -> will_stop s = false -> bytes (stream s) ->
  let '(r, i, w) := run_stream session_id out_name p (stream s) (l_world s) in
  exists s', run_thread session_id out_name p s = (r, s') /\ l_world s' = w /\ will_stop s' = false /\
    (r <> Waits -> stream s' = i).
Proof.
  revert s. induction p as [a|e|k IH|to n k IH|from k IH|k IH|k IH|k IH]; intros s Hp Hq Hb; cbn [run_stream run_thread].
  - by exists s.
  - by exists s.
  - done.
  - destruct Hp as (Hn & Hbt & Hk). pose proof (recv_func_spec to n s Hn) as Hr. destruct (Z.leb_spec n (zlen (stream s))).
    + destruct (recv_func_full to n s) as (s' & E & L & Hs'); [done|lia|done|].
      assert (Hz : zlen (splice to 0 (take (Z.to_nat n) (stream s))) = zlen to).
      { apply zlen_splice; [lia|]. rewrite zlen_take. lia. }
      assert (Hbz : bytes (splice to 0 (take (Z.to_nat n) (stream s)))).
      { apply Forall_app. split; [by apply Forall_take|]. apply Forall_app. split; [by apply Forall_take|by apply Forall_drop]. }
      specialize (IH (n, splice to 0 (take (Z.to_nat n) (stream s))) s' (Hk _ Hz Hbz)).
      rewrite (lt_will_stop _ _ L) in IH. specialize (IH Hq). rewrite Hs', (lt_world _ _ L) in IH. specialize (IH ltac:(by apply Forall_drop)).
      unfold mbind, thread_bind. rewrite E. exact IH.
    + unfold mbind, thread_bind. destruct (recv_func to n s) as [[[rc to']| |] s']; [| |done].
      * destruct Hr as (got & L & Hs & -> & Hg & -> & Hx). exfalso. rewrite Hs, zlen_app in *.
        pose proof (zlen_nonneg (stream s')). specialize (Hx ltac:(lia)). pose proof (lt_will_stop _ _ L) as Hw.
        unfold will_stop in Hw at 1. fold (flagged s') in Hw. by rewrite Hx, Hq in Hw.
      * destruct Hr as (L & _ & _). exists s'. split; [done|]. split; [apply L|]. split; [|done]. by rewrite (lt_will_stop _ _ L).
  - destruct Hp as [Hl Hk]. destruct (tsend_spec out_name session_id 0 from s Hl) as (ok & w & E & Et & _).
    unfold mbind, thread_bind, send_func. rewrite Et. cbn [fst snd]. unfold mbind, thread_bind. rewrite E.
    specialize (IH (if ok then zlen from else -1) (set_world w s) (Hk _)).
    apply (IH Hq Hb).
  - destruct (tsend_spec out_name session_id 1 [] s) as (ok & w & E & Et & _); [done|].
    unfold mbind, thread_bind, fin_func. rewrite Et. cbn [fst snd]. unfold mbind, thread_bind. rewrite E.
    apply (IH tt (set_world w s) Hp Hq Hb).
  - unfold mbind, thread_bind. rewrite stopped_spec. destruct (tick_later s) as (L & Hs%stream_eq & _ & _).
    assert (Hw : will_stop (tick s) = false) by (by rewrite (lt_will_stop _ _ L)).
    assert (Ef : flagged (tick s) = false) by (unfold will_stop in Hw; fold (flagged (tick s)) in Hw; by destruct (flagged (tick s))).
    rewrite Ef. specialize (IH false (tick s) Hp Hw). rewrite Hs, (lt_world _ _ L) in IH. by apply IH.
  - unfold mbind, thread_bind, finish.
    apply (IH tt (L7 (l_incoming s) (l_stop s) (l_gstop s) true (l_env s) (l_world s)) Hp Hq Hb).
Qed.

(** A session that is stopped makes no code wait that takes no whole chunks. *)
Fixpoint no_pop {A} (p : proc A) : Prop :=
  match p with
  | PRet _ | PCrash _ => True
  | PPop _ => False
  | PRecv _ _ k => forall r, no_pop (k r)
  | PSend _ k => forall rc, no_pop (k rc)
  | PFin k => no_pop (k tt)
  | PStopped k => forall b, no_pop (k b)
  | PFinish k => no_pop (k tt)
  end.

Lemma no_pop_bind {A B} (p : proc A) (f : A -> proc B) : no_pop p -> (forall a, no_pop (f a)) -> no_pop (p ≫= f).
Proof. unfold mbind. intros Hp Hf. induction p; cbn in *; naive_solver. Qed.

(** [remains p q]: [q] is what [p] has still to run at some moment. *)
Inductive remains {A} : proc A -> proc A -> Prop :=
| rem_here p : remains p p
| rem_pop k c q : remains (k c) q -> remains (PPop k) q
| rem_recv to n k r q : remains (k r) q -> remains (PRecv to n k) q
| rem_send from k rc q : remains (k rc) q -> remains (PSend from k) q
| rem_fin k q : remains (k tt) q -> remains (PFin k) q
| rem_stopped k b q : remains (k b) q -> remains (PStopped k) q
| rem_finish k q : remains (k tt) q -> remains (PFinish k) q.

Lemma no_pop_remains {A} (p q : proc A) : remains p q -> no_pop p -> no_pop q.
Proof. induction 1; cbn; auto. done. Qed.

Lemma recv_func_flagged {W} to n (s : l7 W) : flagged s = true ->
  exists to' s', recv_func to n s = (Done (0, to'), s') /\ flagged s' = true.
Proof.
  intros Hf. unfold recv_func. destruct (n =? 0); [by eexists _, _|]. destruct (decide (n > 0)) as [Hn|Hn].
  - rewrite recv_loop_unfold by done. destruct (tick_later s) as (L & _). by rewrite (lt_flagged _ _ L Hf); eexists _, _; split; [|apply (lt_flagged _ _ L)].
  - cbn [recv_loop]. replace (negb (n >? 0)) with true by lia. by eexists _, _.
Qed.

Lemma run_thread_flagged `{Transport W} {A} session_id out_name (p : proc A) (s : l7 W) :
  no_pop p -> flagged s = true -> (run_thread session_id out_name p s).1 <> Waits.
Proof.
  revert s. induction p as [a|e|k IH|to n k IH|from k IH|k IH|k IH|k IH]; intros s Hp Hf; cbn [run_thread]; try done.
  all: unfold mbind at 1, thread_bind.
  - destruct (recv_func_flagged to n s Hf) as (to' & s' & E & Hf'). rewrite E. by apply IH.
  - unfold send_func, mbind, thread_bind, tsend. destruct (send _ _ _ _) as [[r w]|]; [|done]. by apply IH.
  - unfold fin_func, mbind, thread_bind, tsend. destruct (send _ _ _ _) as [[r w]|]; [|done]. by apply IH.
  - rewrite stopped_spec. destruct (tick_later s) as (L & _). apply IH; [done|]. by apply (lt_flagged _ _ L).
  - by apply IH.
Qed.

(** ** Properties *)

(** C26: however the peer's bytes are cut into chunks and whenever these arrive,
    [recv_func] takes bytes off the front of the stream, in order, none lost and
    none twice (the rest of a chunk goes back to the front of the queue), writes
    only the [n] bytes it was asked for, and returns fewer only when a stop flag
    is set.  It returns all [n] whenever so many arrive and nobody stops it; it
    waits for good only if fewer arrive and nobody ever stops it. *)
Theorem recv_func_stream {W} (to : list Z) (n : Z) (s : l7 W) (Hn : 0 <= n <= zlen to) :
  match recv_func to n s with
  | (Done (rc, to'), s') => exists got,
      stream s = got ++ stream s' /\ zlen got = rc /\ rc <= n /\ to' = got ++ drop (length got) to /\
      (rc < n -> l_stop s' || l_gstop s' = true) /\ l_world s' = l_world s
  | (Waits, s') => zlen (stream s) < n /\ will_stop s = false
  | (Crash _, _) => False
  end /\
  (n <= zlen (stream s) -> will_stop s = false ->
   exists s', recv_func to n s = (Done (n, take (Z.to_nat n) (stream s) ++ drop (Z.to_nat n) to), s') /\
              stream s' = drop (Z.to_nat n) (stream s)).
Proof.
  split.
  - pose proof (recv_func_spec to n s Hn) as H. destruct (recv_func to n s) as [[[rc to']| |] s']; [| |done].
    + destruct H as (got & L & Hs & -> & Hg & -> & Hx). exists got. repeat split; (done || apply L).
    + by destruct H as (L & Hq & Hz).
  - intros Hl Hq. destruct (recv_func_full to n s Hn Hl Hq) as (s' & E & _ & Hs'). exists s'. split; [|done].
    rewrite E. unfold splice. cbn [Z.to_nat take app Nat.add]. rewrite length_take. unfold zlen in Hl.
    by rewrite Nat.min_l by lia.
Qed.

(** Two chunks, the second of which arrives while the thread waits and has bytes to spare. *)
Definition ex_l7_session : l7 oracle :=
  L7 [[1; 2]; []] false false false [[]; [EvPush [3; 4; 5; 6]]; []; []; []; []] oracle_ok.

Lemma recv_func_stream_witness :
  exists s', recv_func [0; 0; 0; 0] 4 ex_l7_session = (Done (4, [1; 2; 3; 4]), s') /\ stream s' = [5; 6].
Proof.
  destruct (recv_func_stream [0; 0; 0; 0] 4 ex_l7_session) as [_ H].
  - vm_compute. split; discriminate.
  - apply H; [vm_compute; discriminate|reflexivity].
Defined.
