(* ===== verification/L7Safe.v ===== *)
(** * What the thread of a session may do

    [safe Q n ph p]: the code [p], started in phase [ph] of its session, does not
    end in a fault within [n] successful waits for data, sends no data after the
    request to close the session, and returns only what [Q] allows.  The code of
    the servers is checked against [safe]; [run_thread_safe] says what that means
    when a thread runs, in every environment and with every result of its sends. *)

From S2P Require Import Prelude ShmMessage Transport L7.

(** Before the request to close ([fin_func]), after it, and when [finished] is set. *)
Inductive phase : Set := Talking | Closed | Finished.

#[global] Instance phase_eq_dec : EqDecision phase.
Proof. solve_decision. Defined.

Fixpoint safe {A} (Q : A -> nat -> phase -> Prop) (n : nat) (ph : phase) (p : proc A) : Prop :=
  match p with
  | PRet a => Q a n ph
  | PCrash _ => False
  | PPop k => match n with O => True | S n' => forall c, bytes c -> safe Q n' ph (k c) end
  | PRecv to m k => 0 <= m <= zlen to /\ bytes to /\
      (forall rc to', 0 <= rc -> rc < m \/ m = 0 /\ rc = 0 -> zlen to' = zlen to -> bytes to' -> safe Q n ph (k (rc, to'))) /\
      match n with
      | O => True
      | S n' => forall to', 0 < m -> zlen to' = zlen to -> bytes to' -> safe Q n' ph (k (m, to'))
      end
  | PSend from k => ph = Talking /\ zlen from < 2 ^ 31 /\ forall rc, rc = zlen from \/ rc = -1 -> safe Q n ph (k rc)
  | PFin k => ph = Talking /\ safe Q n Closed (k tt)
  | PStopped k => forall b, safe Q n ph (k b)
  | PFinish k => ph = Closed /\ safe Q n Finished (k tt)
  end.

Lemma safe_mono {A} (Q Q' : A -> nat -> phase -> Prop) n ph p :
  (forall a m ph', (m <= n)%nat -> Q a m ph' -> Q' a m ph') -> safe Q n ph p -> safe Q' n ph p.
Proof.
  revert n ph. induction p as [a|e|k IH|to m k IH|from k IH|k IH|k IH|k IH]; intros n ph HQ; cbn.
  - intros H. by apply HQ.
  - done.
  - destruct n; [done|]. intros H c Hc. apply IH; [|auto]. intros. apply HQ; [lia|done].
  - intros (Hm & Hb & H1 & H2). split; [done|]. split; [done|]. split; [intros; apply IH; auto|].
    destruct n; [done|]. intros. apply IH; [|auto]. intros. apply HQ; [lia|done].
  - intros (-> & Hl & Hk). auto.
  - intros [-> Hk]. auto.
  - auto.
  - intros [-> Hk]. auto.
Qed.

Lemma safe_bind {A B} (Q : B -> nat -> phase -> Prop) n ph (p : proc A) (f : A -> proc B) :
  safe (fun a m ph' => safe Q m ph' (f a)) n ph p -> safe Q n ph (p ≫= f).
Proof.
  unfold mbind. revert n ph. induction p as [a|e|k IH|to m k IH|from k IH|k IH|k IH|k IH]; intros n ph; cbn.
  - done.
  - done.
  - destruct n; [done|]. intros H c Hc. apply IH. auto.
  - intros (Hm & Hb & H1 & H2). split; [done|]. split; [done|]. split; [intros; apply IH; auto|].
    destruct n; [done|]. intros. apply IH. auto.
  - intros (-> & Hl & Hk). auto.
  - intros [-> Hk]. auto.
  - auto.
  - intros [-> Hk]. auto.
Qed.

(** ** Running safe code *)

(** What a thread hands over while its session goes from one phase to another. *)
Definition session_log (out_name : list Z) (session_id : Z) (ph ph' : phase) (l : list sent) : Prop :=
  match ph, ph' with
  | Talking, Talking => exists data, l = l7_sent out_name session_id 0 <$> data
  | Talking, _ => exists data fin, l = (l7_sent out_name session_id 0 <$> data) ++ fin /\
                    (fin = [] \/ fin = [l7_sent out_name session_id 1 []])
  | _, Talking => False
  | _, _ => l = []
  end.

Lemma session_log_refl out_name session_id ph : session_log out_name session_id ph ph [].
Proof. destruct ph; cbn; try done. by exists []. Qed.

Lemma session_log_trans out_name session_id ph1 ph2 ph3 l1 l2 :
  session_log out_name session_id ph1 ph2 l1 -> session_log out_name session_id ph2 ph3 l2 ->
  session_log out_name session_id ph1 ph3 (l1 ++ l2).
Proof.
  intros H1 H2. assert (Hend : forall d1 d2 fin, (l7_sent out_name session_id 0 <$> d1) ++ (l7_sent out_name session_id 0 <$> d2) ++ fin =
    (l7_sent out_name session_id 0 <$> d1 ++ d2) ++ fin) by (intros; by rewrite fmap_app, app_assoc).
  destruct ph1; [|by destruct ph2, ph3; cbn in *; subst..].
  destruct ph2; [|destruct ph3; [done|cbn in *; subst; by rewrite app_nil_r..]..].
  destruct H1 as [d1 ->]. destruct ph3; cbn in *.
  - destruct H2 as [d2 ->]. exists (d1 ++ d2). by rewrite fmap_app.
  - destruct H2 as (d2 & fin & -> & Hf). exists (d1 ++ d2), fin. by rewrite Hend.
  - destruct H2 as (d2 & fin & -> & Hf). exists (d1 ++ d2), fin. by rewrite Hend.
Qed.

(** Waits for data that can succeed. *)
Definition budget {W} (s : l7 W) : nat := (l7_work s + length (stream s))%nat.

Definition in_phase {W} (ph : phase) (s : l7 W) : Prop := l_finished s = bool_decide (ph = Finished).

Lemma later_phase {W} ph (s s' : l7 W) : later s s' -> in_phase ph s -> in_phase ph s'.
Proof. intros L H. unfold in_phase. by rewrite (lt_finished _ _ L). Qed.

Theorem run_thread_safe `{Transport W} {A} (Q : A -> nat -> phase -> Prop) session_id out_name (p : proc A) n ph (s : l7 W) :
  safe Q n ph p -> in_phase ph s -> (budget s <= n)%nat -> bytes (stream s) ->
  let '(r, s') := run_thread session_id out_name p s in
  exists l m ph', t_log (l_world s') = t_log (l_world s) ++ l /\ session_log out_name session_id ph ph' l /\ in_phase ph' s' /\
    match r with
    | Done a => Q a m ph'
    | Waits => True
    | Crash _ => False
    end.
Proof.
  revert n ph s. induction p as [a|e|k IH|to m k IH|from k IH|k IH|k IH|k IH]; intros n ph s Hp Hph Hn Hb; cbn [run_thread].
  - exists [], n, ph. rewrite app_nil_r. split; [done|]. split; [apply session_log_refl|]. done.
  - done.
  - unfold mbind, thread_bind. pose proof (pop_spec s) as Hpop. destruct (pop s) as [[c| |] s1]; [| |done].
    + destruct Hpop as (L & Hs%stream_cons & Hw). assert (Hl : length (stream s) = (length c + length (stream s1))%nat) by (by rewrite Hs, length_app).
      rewrite Hs in Hb. apply bytes_app in Hb as [Hc Hb]. unfold budget in Hn. destruct n as [|n]; [lia|].
      specialize (IH c n ph s1 (Hp c Hc) (later_phase _ _ _ L Hph)). unfold budget in IH. specialize (IH ltac:(lia) Hb).
      rewrite (lt_world _ _ L) in IH. exact IH.
    + destruct Hpop as (L & _). exists [], 0%nat, ph. rewrite app_nil_r, (lt_world _ _ L).
      split; [done|]. split; [apply session_log_refl|]. split; [by eapply later_phase|done].
  - unfold mbind, thread_bind. destruct Hp as (Hm & Hbt & H1 & H2). pose proof (recv_func_spec to m s Hm) as Hr.
    destruct (recv_func to m s) as [[[rc to']| |] s1]; [| |done].
    + destruct Hr as (got & L & Hs & -> & Hg & Ht & Hx). assert (Hl : length (stream s) = (length got + length (stream s1))%nat) by (by rewrite Hs, length_app).
      rewrite Hs in Hb. apply bytes_app in Hb as [Hc Hb]. pose proof (lt_work _ _ L). pose proof (zlen_nonneg got).
      assert (Hz : zlen to' = zlen to) by (rewrite Ht; apply zlen_splice; lia).
      assert (Hbt' : bytes to').
      { rewrite Ht. unfold splice. apply bytes_app. split; [by apply Forall_take|]. apply bytes_app. split; [done|by apply Forall_drop]. }
      unfold budget in *. assert (Hgo : exists n', safe Q n' ph (k (zlen got, to')) /\ (l7_work s1 + length (stream s1) <= n')%nat).
      { destruct (decide (zlen got < m \/ m = 0 /\ zlen got = 0)) as [Hd|Hd].
        - exists n. split; [by apply H1|lia].
        - assert (zlen got = m) as E by lia. unfold zlen in *. destruct n as [|n]; [lia|]. exists n. rewrite E. split; [apply H2; (done || lia)|lia]. }
      destruct Hgo as (n' & Hk & Hn'). specialize (IH (zlen got, to') n' ph s1 Hk (later_phase _ _ _ L Hph)).
      unfold budget in IH. rewrite (lt_world _ _ L) in IH. by apply IH.
    + destruct Hr as (L & _). exists [], 0%nat, ph. rewrite app_nil_r, (lt_world _ _ L).
      split; [done|]. split; [apply session_log_refl|]. split; [by eapply later_phase|done].
  - destruct Hp as (-> & Hl & Hk). destruct (tsend_spec out_name session_id 0 from s Hl) as (ok & w & E & _ & Hlog).
    unfold mbind, thread_bind, send_func. unfold mbind, thread_bind. rewrite E.
    assert (Hrc : (if ok then zlen from else -1) = zlen from \/ (if ok then zlen from else -1) = -1) by (destruct ok; auto).
    specialize (IH _ n Talking (set_world w s) (Hk _ Hrc) Hph Hn Hb). cbn [mret thread_ret].
    destruct (run_thread _ _ _ _) as [r s']. destruct IH as (l & m & ph' & H1 & H2 & H3). cbn in H1.
    exists ((if ok : bool then [l7_sent out_name session_id 0 from] else []) ++ l), m, ph'. rewrite H1, Hlog, app_assoc.
    split; [done|]. split; [|done]. eapply session_log_trans; [|exact H2]. cbn. destruct ok; [by exists [from]|by exists []].
  - destruct Hp as (-> & Hk). destruct (tsend_spec out_name session_id 1 [] s) as (ok & w & E & _ & Hlog); [done|].
    unfold mbind, thread_bind, fin_func. unfold mbind, thread_bind. rewrite E.
    specialize (IH tt n Closed (set_world w s) Hk Hph Hn Hb). cbn [mret thread_ret].
    destruct (run_thread _ _ _ _) as [r s']. destruct IH as (l & m & ph' & H1 & H2 & H3). cbn in H1.
    exists ((if ok : bool then [l7_sent out_name session_id 1 []] else []) ++ l), m, ph'. rewrite H1, Hlog, app_assoc.
    split; [done|]. split; [|done]. eapply session_log_trans; [|exact H2]. cbn. exists [], (if ok then [l7_sent out_name session_id 1 []] else []).
    split; [done|]. destruct ok; auto.
  - unfold mbind, thread_bind. rewrite stopped_spec. destruct (tick_later s) as (L & Hs%stream_eq & _ & _).
    specialize (IH (flagged (tick s)) n ph (tick s) (Hp _) (later_phase _ _ _ L Hph)). pose proof (lt_work _ _ L).
    unfold budget in *. rewrite Hs, (lt_world _ _ L) in IH. apply IH; [lia|done].
  - destruct Hp as (-> & Hk). unfold mbind, thread_bind, finish.
    apply (IH tt n Finished (L7 (l_incoming s) (l_stop s) (l_gstop s) true (l_env s) (l_world s)) Hk eq_refl Hn Hb).
Qed.

(** The common contract: safe code that returns only with [finished] set. *)
Corollary run_thread_ends `{Transport W} (p : proc unit) (n : nat) session_id out_name (s : l7 W) :
  safe (fun _ _ ph => ph = Finished) n Talking p -> (budget s <= n)%nat -> bytes (stream s) -> l_finished s = false ->
  let '(r, s') := run_thread session_id out_name p s in
  exists data fin,
    t_log (l_world s') = t_log (l_world s) ++ (l7_sent out_name session_id 0 <$> data) ++ fin /\
    (fin = [] \/ fin = [l7_sent out_name session_id 1 []]) /\
    match r with
    | Done _ => l_finished s' = true
    | Waits => True
    | Crash _ => False
    end.
Proof.
  intros Hp Hn Hb Hf. pose proof (run_thread_safe _ session_id out_name p n Talking s Hp Hf Hn Hb) as Hr.
  destruct (run_thread _ _ _ s) as [r s']. destruct Hr as (l & m & ph & Hl & Hlog & Hph & Hres).
  assert (exists data fin, l = (l7_sent out_name session_id 0 <$> data) ++ fin /\ (fin = [] \/ fin = [l7_sent out_name session_id 1 []])) as (data & fin & -> & Hfin).
  { destruct ph; cbn in Hlog; [destruct Hlog as [data ->]; exists data, []; rewrite app_nil_r; auto|destruct Hlog as (data & fin & ? & ?); eauto..]. }
  exists data, fin. split; [done|]. split; [done|]. destruct r; [|done|done]. rewrite Hph. by subst.
Qed.

(** ** Code that takes whole chunks *)

Fixpoint run_chunks `{Transport W} {A} (session_id : Z) (out_name : list Z) (p : proc A) (i : list (list Z)) (w : W)
  : tres A * list (list Z) * W :=
  match p with
  | PRet a => (Done a, i, w)
  | PCrash e => (Crash e, i, w)
  | PPop k =>
    match i with
    | c :: i => run_chunks session_id out_name (k c) i w
    | [] => (Waits, [], w)
    end
  | PRecv to n k => (Waits, i, w)
  | PSend from k =>
    let r := t_send out_name (l7_message session_id 0 from) true w in
    run_chunks session_id out_name (k (if r.1.1 then zlen from else -1)) i r.2
  | PFin k => run_chunks session_id out_name (k tt) i (t_send out_name (l7_message session_id 1 []) true w).2
  | PStopped k => run_chunks session_id out_name (k false) i w
  | PFinish k => run_chunks session_id out_name (k tt) i w
  end.

Fixpoint chunking {A} (p : proc A) : Prop :=
  match p with
  | PRet _ | PCrash _ => True
  | PPop k => forall c, chunking (k c)
  | PRecv _ _ _ => False
  | PSend from k => zlen from < 2 ^ 31 /\ forall rc, chunking (k rc)
  | PFin k => chunking (k tt)
  | PStopped k => forall b, chunking (k b)
  | PFinish k => chunking (k tt)
  end.

Lemma chunking_bind {A B} (p : proc A) (f : A -> proc B) :
  chunking p -> (forall a, chunking (f a)) -> chunking (p ≫= f).
Proof. unfold mbind. intros Hp Hf. induction p; cbn in *; naive_solver. Qed.

Lemma run_chunks_bind `{Transport W} {A B} session_id out_name (p : proc A) (f : A -> proc B) i w :
  run_chunks session_id out_name (p ≫= f) i w =
  match run_chunks session_id out_name p i w with
  | (Done a, i', w') => run_chunks session_id out_name (f a) i' w'
  | (Waits, i', w') => (Waits, i', w')
  | (Crash e, i', w') => (Crash e, i', w')
  end.
Proof. unfold mbind. revert i w. induction p as [a|e|k IH|to m k IH|from k IH|k IH|k IH|k IH]; intros i w; cbn; auto. destruct i; auto. Qed.

Lemma run_thread_chunks `{Transport W} {A} session_id out_name (p : proc A) (s : l7 W) :
  chunking p -> will_stop s = false ->
  let '(r, i, w) := run_chunks session_id out_name p (chunks s) (l_world s) in
  exists s', run_thread session_id out_name p s = (r, s') /\ l_world s' = w /\ will_stop s' = false /\ chunks s' = i.
Proof.
  revert s. induction p as [a|e|k IH|to n k IH|from k IH|k IH|k IH|k IH]; intros s Hp Hq; cbn [run_chunks run_thread].
  - by exists s.
  - by exists s.
  - unfold mbind, thread_bind. pose proof (pop_spec s) as Hpop. destruct (pop s) as [[c| |] s1]; [| |done].
    + destruct Hpop as (L & Hs & _). rewrite Hs, <- (lt_world _ _ L). apply IH; [done|]. by rewrite (lt_will_stop _ _ L).
    + destruct Hpop as (L & Hs & Hn). rewrite Hs. exists s1. split; [done|]. by rewrite (lt_will_stop _ _ L), (lt_world _ _ L).
  - done.
  - destruct Hp as [Hl Hk]. destruct (tsend_spec out_name session_id 0 from s Hl) as (ok & w & E & Et & _).
    unfold mbind, thread_bind, send_func. rewrite Et. cbn [fst snd]. unfold mbind, thread_bind. rewrite E.
    apply (IH (if ok then zlen from else -1) (set_world w s) (Hk _) Hq).
  - destruct (tsend_spec out_name session_id 1 [] s) as (ok & w & E & Et & _); [done|].
    unfold mbind, thread_bind, fin_func. rewrite Et. cbn [fst snd]. unfold mbind, thread_bind. rewrite E.
    apply (IH tt (set_world w s) Hp Hq).
  - unfold mbind, thread_bind. rewrite stopped_spec. destruct (tick_later s) as (L & Hs & _ & _).
    assert (Hw : will_stop (tick s) = false) by (by rewrite (lt_will_stop _ _ L)).
    assert (Ef : flagged (tick s) = false) by (unfold will_stop in Hw; fold (flagged (tick s)) in Hw; by destruct (flagged (tick s))).
    rewrite Ef. specialize (IH false (tick s) (Hp _) Hw). by rewrite Hs, (lt_world _ _ L) in IH.
  - unfold mbind, thread_bind, finish.
    apply (IH tt (L7 (l_incoming s) (l_stop s) (l_gstop s) true (l_env s) (l_world s)) Hp Hq).
Qed.

(** A thread's code may be replaced by code that runs alike. *)
Lemma run_thread_bind_ext `{Transport W} {A B} session_id out_name (p : proc A) (f g : A -> proc B) (s : l7 W) :
  (forall a s, run_thread session_id out_name (f a) s = run_thread session_id out_name (g a) s) ->
  run_thread session_id out_name (p ≫= f) s = run_thread session_id out_name (p ≫= g) s.
Proof.
  intros Hfg. unfold mbind. revert s. induction p as [a|e|k IH|to n k IH|from k IH|k IH|k IH|k IH]; intros s; cbn; auto.
  all: unfold mbind, thread_bind; match goal with |- context [match ?m with _ => _ end] => destruct m as [[?| |] ?] end; auto.
Qed.

(** ** Files in pieces *)

(** [uint8_t buffer[4096]] *)
Definition sizeof_buffer : Z := 4096.

(** The pieces in which a file is sent. *)
Fixpoint cut_pieces (fuel : nat) (l : list Z) : list (list Z) :=
  match fuel, l with
  | S f, _ :: _ => take (Z.to_nat sizeof_buffer) l :: cut_pieces f (drop (Z.to_nat sizeof_buffer) l)
  | _, _ => []
  end.

Definition pieces (l : list Z) : list (list Z) := cut_pieces (length l) l.

Lemma pieces_concat l : concat (pieces l) = l.
Proof.
  unfold pieces. assert (G : forall f k, (length k <= f)%nat -> concat (cut_pieces f k) = k); [|by apply G].
  intros f. induction f as [|f IH]; intros [|x k] Hk; try done; [cbn in Hk; lia|].
  change (take (Z.to_nat sizeof_buffer) (x :: k) ++ concat (cut_pieces f (drop (Z.to_nat sizeof_buffer) (x :: k))) = x :: k).
  rewrite IH; [apply take_drop|]. rewrite length_drop. unfold sizeof_buffer. cbn [length] in *. lia.
Qed.

Lemma cut_pieces_fuel f g l : (length l <= f)%nat -> (length l <= g)%nat -> cut_pieces f l = cut_pieces g l.
Proof.
  revert g l. induction f as [|f IH]; intros [|g] [|x l] Hf Hg; try done; try (cbn in *; lia).
  change (take (Z.to_nat sizeof_buffer) (x :: l) :: cut_pieces f (drop (Z.to_nat sizeof_buffer) (x :: l)) = take (Z.to_nat sizeof_buffer) (x :: l) :: cut_pieces g (drop (Z.to_nat sizeof_buffer) (x :: l))).
  f_equal. apply IH; rewrite length_drop; unfold sizeof_buffer; cbn [length] in *; lia.
Qed.

Lemma pieces_cons l : l <> [] -> pieces l = take (Z.to_nat sizeof_buffer) l :: pieces (drop (Z.to_nat sizeof_buffer) l).
Proof.
  intros Hl. destruct l as [|x l]; [done|]. unfold pieces.
  change (take (Z.to_nat sizeof_buffer) (x :: l) :: cut_pieces (length l) (drop (Z.to_nat sizeof_buffer) (x :: l)) = take (Z.to_nat sizeof_buffer) (x :: l) :: cut_pieces (length (drop (Z.to_nat sizeof_buffer) (x :: l))) (drop (Z.to_nat sizeof_buffer) (x :: l))).
  f_equal. apply cut_pieces_fuel; rewrite length_drop; unfold sizeof_buffer; cbn [length]; lia.
Qed.

Lemma piece_cut (l : list Z) :
  take (Z.to_nat (Z.min (zlen l) sizeof_buffer)) l = take (Z.to_nat sizeof_buffer) l /\
  drop (Z.to_nat (Z.min (zlen l) sizeof_buffer)) l = drop (Z.to_nat sizeof_buffer) l.
Proof.
  generalize sizeof_buffer. intros b. destruct (Z.le_ge_cases (zlen l) b); [|by rewrite Z.min_r by lia].
  rewrite Z.min_l by lia. unfold zlen in *. by rewrite Nat2Z.id, !take_ge, !drop_ge by lia.
Qed.

(** Sends that succeed, in states [P]. *)
Definition sends_succeed `{Transport W} (P : W -> Prop) : Prop :=
  forall dst m blocking w, P w -> (t_send dst m blocking w).1.1 = true /\ P (t_send dst m blocking w).2.

Lemma l7_send_log `{Transport W} (P : W -> Prop) out_name session_id flags pl w :
  sends_succeed P -> P w ->
  let r := t_send out_name (l7_message session_id flags pl) true w in
  r.1.1 = true /\ P r.2 /\ t_log r.2 = t_log w ++ [l7_sent out_name session_id flags pl].
Proof.
  intros HP Hw r. destruct (HP out_name (l7_message session_id flags pl) true w Hw) as [H1 H2]. fold r in H1, H2.
  split; [done|]. split; [done|]. pose proof (t_send_log out_name (l7_message session_id flags pl) true w) as Hl. fold r in Hl.
  by rewrite H1 in Hl.
Qed.

Lemma oracle_succeeds : sends_succeed (fun w : oracle => o_script w = []).
Proof. intros dst m blocking w Hw. cbn. by rewrite Hw. Qed.
