(* ===== verification/L7Sessions.v ===== *)
(** * The sessions of a server on top of TCP: [run_in] and [run_meta]

    [src/http_server.cpp], [src/gopher_server.cpp] and [src/vnc_server.cpp] keep
    their sessions in the same way: [run_in] starts a session with its thread
    when the TCP server announces a connection and puts the data of later
    messages into the session's queue; [run_meta] closes a session on request.
    The three differ in whether an announced close sets the session's stop flag
    ([has_close]: HTTP and VNC, not Gopher). *)

From S2P Require Import Prelude Str Addr ShmMessage Transport Tcp L7 L7Safe.

(** ** Code *)

(** [tcp_l7_session_t], as the other threads see it. *)
Record l7_session := {
  ls_from : addr;
  ls_from_port : Z;
  ls_to : addr;
  ls_to_port : Z;
  ls_incoming : list (list Z);
  ls_stop : bool;
  ls_finished : bool }.

(** "finish_sessions" at the head of [run_in]: finished threads are joined. *)
Definition reap_sessions (sessions : gmap Z l7_session) : gmap Z l7_session :=
  filter (fun x => ls_finished x.2 = false) sessions.

(** The HTTP server stops itself there when it was asked to terminate. *)
Definition http_reap (please_terminate : bool) (sessions : gmap Z l7_session) : gmap Z l7_session * bool :=
  let sessions := reap_sessions sessions in
  (sessions, bool_decide (sessions = ∅) && please_terminate).

Definition l7_run_in (has_close : bool) (m : message) (sessions : gmap Z l7_session) : outcome (gmap Z l7_session) :=
  v ← unwrap_message_up_tcp m;
  let session_id := t_session_id v in
  hs ← match sessions !! session_id with
       | None =>
         if negb (Z.land (t_flags v) MI_TCP_OPEN =? 0) then
           from ← addr_of_data (t_from v) (t_from_len v);
           to ← addr_of_data (t_to v) (t_to_len v);
           Ret (Some {| ls_from := from; ls_from_port := t_from_port v; ls_to := to; ls_to_port := t_to_port v;
                        ls_incoming := []; ls_stop := false; ls_finished := false |})
         else Ret None
       | Some hs =>
         Ret (Some (if has_close && negb (Z.land (t_flags v) MI_TCP_CLOSE =? 0) then
                      {| ls_from := ls_from hs; ls_from_port := ls_from_port hs; ls_to := ls_to hs; ls_to_port := ls_to_port hs;
                         ls_incoming := ls_incoming hs; ls_stop := true; ls_finished := ls_finished hs |}
                    else hs))
       end;
  match hs with
  | None => Ret sessions
  | Some hs =>
    pl ← rdn (t_pl v) 0 (t_pl_len v);
    let hs := {| ls_from := ls_from hs; ls_from_port := ls_from_port hs; ls_to := ls_to hs; ls_to_port := ls_to_port hs;
                 ls_incoming := queue_push pl (ls_incoming hs); ls_stop := ls_stop hs; ls_finished := ls_finished hs |} in
    Ret (<[session_id := hs]> sessions)
  end.

(** A turn of [run_in] that receives [m]. *)
Definition l7_turn (has_close : bool) (m : message) (sessions : gmap Z l7_session) : outcome (gmap Z l7_session) :=
  l7_run_in has_close m (reap_sessions sessions).

(** The lines of a request to [run_meta]: the session, whether the action was
    invalid, and whether the message was freed inside the loop (where [continue] goes on with the
    next line). *)
Fixpoint l7_meta_lines (lines : list (list Z)) (session_id : option Z) (freed : bool) : outcome (option Z * bool * bool) :=
  match lines with
  | [] => Ret (session_id, false, freed)
  | line :: rest =>
    match split line (str "=") with
    | [] => Fault OutOfBounds
    | key :: values =>
      if beq key (str "action") then
        match values with
        | [] => Fault OutOfBounds
        | value :: _ => if beq value (str "close") then l7_meta_lines rest session_id freed else Ret (session_id, true, freed)
        end
      else if beq key (str "session-id") then
        match values with
        | [] => Fault OutOfBounds
        | value :: _ => v ← my_stoull_hex value; l7_meta_lines rest v freed
        end
      else if freed then Fault DoubleFree else l7_meta_lines rest session_id true
    end
  end.

Section Meta.
Context `{Transport W}.
Variable out_name : list Z.

(** The code that the threads have still to run. *)
Variable threads : Z -> proc unit.

(** Closing a session: the flag, the join, the erase.  [sessions_lock] is held,
    so [run_in] puts nothing into any queue meanwhile; if the thread does not end,
    neither does the join. *)
Definition l7_close (session_id : Z) (sessions : gmap Z l7_session) (w : W) : tres (gmap Z l7_session) * W :=
  match sessions !! session_id with
  | None => (Done sessions, w)
  | Some hs =>
    let '(r, s) := run_thread session_id out_name (threads session_id) (L7 (ls_incoming hs) true false (ls_finished hs) [] w) in
    match r with
    | Done _ => (Done (delete session_id sessions), l_world s)
    | Waits => (Waits, l_world s)
    | Crash e => (Crash e, l_world s)
    end
  end.

Definition l7_run_meta (m : message) (sessions : gmap Z l7_session) (w : W) : tres (gmap Z l7_session) * W :=
  match
    kv ← rdn (m_data m) 0 (m_size m);
    let lines := split kv [10] in
    if zlen lines <? 2 then Ret None else
    q ← l7_meta_lines lines None false;
    Ret (Some q)
  with
  | Fault e => (Crash e, w)
  | Ret None => (Done sessions, w)
  | Ret (Some (session_id, invalid, freed)) =>
    let done r := if freed : bool then match r with (Done _, w) => (Crash DoubleFree, w) | _ => r end else r in
    if invalid : bool then done (Done sessions, w) else
    match session_id with
    | None => (Crash UncaughtException, w)
    | Some session_id => done (l7_close session_id sessions w)
    end
  end.

End Meta.

(** ** Code: the three servers

    A turn of [run_in] of each, with what [wait_for_message] returned.  The HTTP server ends when it was asked to
    terminate and has no session left ([true]).  The Gopher server has no code for an announced close. *)

Definition http_run_in (please_terminate : bool) (m : option message) (sessions : gmap Z l7_session) : outcome (gmap Z l7_session * bool) :=
  let '(sessions, stop_flag) := http_reap please_terminate sessions in
  if stop_flag : bool then Ret (sessions, true)
  else match m with
       | None => Ret (sessions, false)
       | Some m => sessions ← l7_run_in true m sessions; Ret (sessions, false)
       end.

Definition gopher_run_in (m : option message) (sessions : gmap Z l7_session) : outcome (gmap Z l7_session) :=
  match m with None => Ret (reap_sessions sessions) | Some m => l7_turn false m sessions end.

Definition vnc_run_in (m : option message) (sessions : gmap Z l7_session) : outcome (gmap Z l7_session) :=
  match m with None => Ret (reap_sessions sessions) | Some m => l7_turn true m sessions end.

(** [run_meta] is the same text in the three files. *)
Definition http_run_meta `{Transport W} := l7_run_meta (W := W).
Definition gopher_run_meta `{Transport W} := l7_run_meta (W := W).
Definition vnc_run_meta `{Transport W} := l7_run_meta (W := W).

(** ** Lemmas *)

Lemma le_bytes_mod n v : le_bytes n (v mod 2 ^ (8 * Z.of_nat n)) = le_bytes n v.
Proof.
  revert v. induction n as [|n IH]; intros v; [done|]. cbn [le_bytes].
  replace (2 ^ (8 * Z.of_nat (S n))) with (256 * 2 ^ (8 * Z.of_nat n)) by (rewrite Nat2Z.inj_succ, Z.mul_succ_r, Z.pow_add_r by lia; lia).
  assert (0 < 2 ^ (8 * Z.of_nat n)) by (apply Z.pow_pos_nonneg; lia).
  rewrite Z.rem_mul_r by lia. rewrite (Z.mul_comm 256). f_equal.
  - rewrite Z_mod_plus_full. by apply Z.mod_mod.
  - rewrite <- (IH (v / 256)). f_equal. rewrite Z.div_add, Z.div_small by (try apply Z.mod_pos_bound; lia). lia.
Qed.

(** What the TCP server tells a layer 7 server about a connection. *)
Record announcement := {
  n_session_id : Z;
  n_from : addr;
  n_from_port : Z;
  n_to : addr;
  n_to_port : Z;
  n_flags : Z;
  n_pl : list Z }.

Definition announces (m : message) (n : announcement) : Prop :=
  exists pad, m_data m = up_tcp_data (n_session_id n) (n_from n) (n_from_port n) (n_to n) (n_to_port n) (n_flags n) (n_pl n) ++ pad /\
    fits (n_from n) /\ fits (n_to n) /\ fits (n_pl n) /\ is_u 64 (n_session_id n) /\ is_u 16 (n_from_port n) /\
    is_u 16 (n_to_port n) /\ is_u 32 (n_flags n).

Definition opens (n : announcement) : bool := negb (Z.land (n_flags n) MI_TCP_OPEN =? 0).
Definition closes (n : announcement) : bool := negb (Z.land (n_flags n) MI_TCP_CLOSE =? 0).

Definition new_session (n : announcement) : l7_session :=
  {| ls_from := n_from n; ls_from_port := n_from_port n; ls_to := n_to n; ls_to_port := n_to_port n;
     ls_incoming := [n_pl n]; ls_stop := false; ls_finished := false |}.

Definition old_session (has_close : bool) (n : announcement) (hs : l7_session) : l7_session :=
  {| ls_from := ls_from hs; ls_from_port := ls_from_port hs; ls_to := ls_to hs; ls_to_port := ls_to_port hs;
     ls_incoming := ls_incoming hs ++ [n_pl n]; ls_stop := has_close && closes n || ls_stop hs; ls_finished := ls_finished hs |}.

(** One message. *)
Lemma l7_run_in_spec has_close m n sessions : announces m n ->
  l7_run_in has_close m sessions =
  Ret (match sessions !! n_session_id n with
       | Some hs => <[n_session_id n := old_session has_close n hs]> sessions
       | None => if opens n then <[n_session_id n := new_session n]> sessions else sessions
       end).
Proof.
  intros (pad & Hm & Ff & Ft & Fp & Us & U1 & U2 & Uf). unfold l7_run_in.
  rewrite (unwrap_message_up_tcp_data m (n_session_id n) (n_from n) (n_from_port n) (n_to n) (n_to_port n) (n_flags n) (n_pl n) pad)
    by done. mcbn. cbn [t_session_id t_flags t_from t_from_len t_to t_to_len t_from_port t_to_port t_pl t_pl_len].
  destruct (sessions !! n_session_id n) as [hs|].
  - mcbn. rewrite rdn_app_l by done. mcbn. do 2 f_equal. unfold old_session, closes.
    by destruct has_close, (Z.land (n_flags n) MI_TCP_CLOSE =? 0); cbn.
  - unfold opens. destruct (Z.land (n_flags n) MI_TCP_OPEN =? 0); cbn [negb]; [done|].
    unfold addr_of_data. rewrite !rdn_app_l by done. done.
Qed.

(** Messages one after the other. *)
Fixpoint l7_turns (has_close : bool) (ms : list message) (sessions : gmap Z l7_session) : outcome (gmap Z l7_session) :=
  match ms with
  | [] => Ret sessions
  | m :: rest => sessions ← l7_turn has_close m sessions; l7_turns has_close rest sessions
  end.

Definition none_finished (sessions : gmap Z l7_session) : Prop := map_Forall (fun _ hs => ls_finished hs = false) sessions.

Lemma reap_none sessions : none_finished sessions -> reap_sessions sessions = sessions.
Proof. intros H. unfold reap_sessions. apply map_filter_id. intros i x Hi. by apply (H i x). Qed.

(** What the announcements about one session make of it. *)
Definition session_step (has_close : bool) (o : option l7_session) (n : announcement) : option l7_session :=
  match o with
  | Some hs => Some (old_session has_close n hs)
  | None => if opens n then Some (new_session n) else None
  end.

Lemma l7_turns_spec has_close ms ns sessions :
  Forall2 announces ms ns -> none_finished sessions ->
  exists sessions', l7_turns has_close ms sessions = Ret sessions' /\ none_finished sessions' /\
    forall id, sessions' !! id = foldl (session_step has_close) (sessions !! id) (filter (fun n => n_session_id n = id) ns).
Proof.
  intros Hms. revert sessions. induction Hms as [|m n ms ns Hm Hms IH]; intros sessions Hf; cbn [l7_turns].
  - by exists sessions.
  - unfold l7_turn. rewrite (reap_none sessions Hf), (l7_run_in_spec has_close m n sessions Hm). mcbn.
    set (sessions1 := match sessions !! n_session_id n with Some _ => _ | None => _ end).
    assert (H1 : forall id, sessions1 !! id = if decide (n_session_id n = id) then session_step has_close (sessions !! id) n else sessions !! id).
    { intros id. unfold sessions1, session_step. destruct (decide (n_session_id n = id)) as [<-|Hne].
      - destruct (sessions !! n_session_id n) eqn:E; [by rewrite lookup_insert_eq|]. destruct (opens n); [by rewrite lookup_insert_eq|done].
      - destruct (sessions !! n_session_id n); [by rewrite lookup_insert_ne|]. destruct (opens n); [by rewrite lookup_insert_ne|done]. }
    assert (Hf1 : none_finished sessions1).
    { intros id hs. rewrite H1. destruct (decide (n_session_id n = id)); [|apply Hf]. unfold session_step.
      destruct (sessions !! id) as [hs0|] eqn:E.
      - intros [= <-]. cbn. by apply (Hf id).
      - destruct (opens n); [by intros [= <-]|done]. }
    destruct (IH sessions1 Hf1) as (sessions' & E & Hf' & Hl). exists sessions'. split; [done|]. split; [done|]. intros id. rewrite Hl, H1, filter_cons.
    destruct (decide (n_session_id n = id)); [done|done].
Qed.

Lemma reap_lookup sessions id :
  reap_sessions sessions !! id = match sessions !! id with Some hs => if ls_finished hs then None else Some hs | None => None end.
Proof.
  unfold reap_sessions. rewrite map_lookup_filter. destruct (sessions !! id) as [hs|]; [|done]. cbn.
  destruct (ls_finished hs) eqn:E; case_guard; cbn in *; congruence.
Qed.

Lemma reap_finished sessions : none_finished (reap_sessions sessions).
Proof. intros id hs. unfold reap_sessions. rewrite map_lookup_filter_Some. by intros [_ Hf]. Qed.

(** ... some of them finished before: the first turn removes those. *)
Lemma l7_turns_reaped has_close ms ns sessions : Forall2 announces ms ns ->
  exists start sessions', (start = sessions \/ start = reap_sessions sessions) /\ l7_turns has_close ms sessions = Ret sessions' /\
    forall id, sessions' !! id = foldl (session_step has_close) (start !! id) (filter (fun n => n_session_id n = id) ns).
Proof.
  intros Hms. destruct ms as [|m ms].
  - inversion Hms; subst. exists sessions, sessions. split; [by left|]. done.
  - destruct (l7_turns_spec has_close (m :: ms) ns (reap_sessions sessions) Hms (reap_finished sessions)) as (sessions' & E & _ & Hl).
    exists (reap_sessions sessions), sessions'. split; [by right|]. split; [|done]. rewrite <- E. cbn [l7_turns]. unfold l7_turn.
    by rewrite (reap_none _ (reap_finished sessions)).
Qed.

Lemma session_steps_old has_close hs ns :
  foldl (session_step has_close) (Some hs) ns =
  Some {| ls_from := ls_from hs; ls_from_port := ls_from_port hs; ls_to := ls_to hs; ls_to_port := ls_to_port hs;
          ls_incoming := ls_incoming hs ++ map n_pl ns; ls_stop := has_close && existsb closes ns || ls_stop hs;
          ls_finished := ls_finished hs |}.
Proof.
  revert hs. induction ns as [|n ns IH]; intros hs.
  - cbn. rewrite app_nil_r, andb_false_r. by destruct hs.
  - cbn [foldl session_step map existsb]. rewrite IH. unfold old_session at 1 2 3 4 5 6 7. cbn. rewrite <- app_assoc. do 2 f_equal.
    destruct has_close; cbn; [|done]. by destruct (closes n), (existsb closes ns), (ls_stop hs).
Qed.

Lemma session_steps_new has_close ns1 n ns2 : Forall (fun n => opens n = false) ns1 -> opens n = true ->
  foldl (session_step has_close) None (ns1 ++ n :: ns2) =
  Some {| ls_from := n_from n; ls_from_port := n_from_port n; ls_to := n_to n; ls_to_port := n_to_port n;
          ls_incoming := map n_pl (n :: ns2); ls_stop := has_close && existsb closes ns2; ls_finished := false |}.
Proof.
  intros H1 Hn. induction H1 as [|n1 ns1 H1 _ IH]; cbn [app foldl session_step].
  - rewrite Hn, session_steps_old. cbn. by rewrite orb_false_r.
  - by rewrite H1.
Qed.

(** A request to close a session. *)
Definition close_request (session_id : Z) : list Z := str "action=close" ++ [10] ++ str "session-id=" ++ format_x session_id.

Lemma l7_meta_close `{Transport W} out_name threads m session_id sessions w :
  is_u 64 session_id -> rdn (m_data m) 0 (m_size m) = Ret (close_request session_id) ->
  l7_run_meta out_name threads m sessions w = l7_close out_name threads session_id sessions w.
Proof.
  intros Hu Hm. unfold l7_run_meta. rewrite Hm. mcbn. unfold close_request.
  assert (Hx : 10 ∉ format_x session_id /\ 61 ∉ format_x session_id).
  { split; apply to_base_no_char; try lia; intros d Hd; apply digit_char_not_special in Hd; tauto. }
  destruct Hx as [H10 H61]. change ([10] ++ str "session-id=" ++ format_x session_id) with (10 :: str "session-id=" ++ format_x session_id).
  rewrite (split_pair 10).
  2: { by apply str_no_char. }
  2: { rewrite elem_of_app. intros [Hx|Hx]; [by apply (str_no_char 10 "session-id=") in Hx|done]. }
  change (zlen _ <? 2) with false. mcbn. cbn [l7_meta_lines].
  change (str "action=close") with (str "action" ++ 61 :: str "close"). change (str "session-id=" ++ format_x session_id) with (str "session-id" ++ 61 :: format_x session_id).
  change (str "=") with [61]. rewrite (split_pair 61) by (by apply str_no_char). rewrite (split_pair 61) by (done || by apply str_no_char).
  change (beq (str "action") (str "action")) with true. change (beq (str "close") (str "close")) with true.
  change (beq (str "session-id") (str "action")) with false. change (beq (str "session-id") (str "session-id")) with true. cbn iota.
  destruct (number_roundtrip 0 session_id) as [_ E]; [lia|done|]. rewrite E. done.
Qed.

(** ** The life of sessions

    What happens in a server, one step at a time: a turn of [run_in] with the message it received, if any; a thread takes the
    first element of its queue, puts the last [n] bytes it took back ([unpop] in [recv_func]), or ends; [run_meta] erases a session whose thread
    it has joined ([l7_close]). *)

Inductive l7_server := HttpServer | GopherServer | VncServer.

Definition honours_close (srv : l7_server) : bool := match srv with GopherServer => false | _ => true end.

Inductive session_event :=
| ETurn (m : option (message * announcement))
| EPop (session_id : Z)
| EUnpop (session_id : Z) (n : nat)
| EFinish (session_id : Z)
| EErase (session_id : Z).

Definition event_ok (e : session_event) : Prop := match e with ETurn (Some (m, n)) => announces m n | _ => True end.

(** The HTTP server has not been asked to terminate. *)
Definition run_in_of (srv : l7_server) (m : option message) (sessions : gmap Z l7_session) : outcome (gmap Z l7_session) :=
  match srv with
  | HttpServer => r ← http_run_in false m sessions; Ret r.1
  | GopherServer => gopher_run_in m sessions
  | VncServer => vnc_run_in m sessions
  end.

Definition with_queue (q : list (list Z)) (hs : l7_session) : l7_session :=
  {| ls_from := ls_from hs; ls_from_port := ls_from_port hs; ls_to := ls_to hs; ls_to_port := ls_to_port hs;
     ls_incoming := q; ls_stop := ls_stop hs; ls_finished := ls_finished hs |}.

Definition with_finished (hs : l7_session) : l7_session :=
  {| ls_from := ls_from hs; ls_from_port := ls_from_port hs; ls_to := ls_to hs; ls_to_port := ls_to_port hs;
     ls_incoming := ls_incoming hs; ls_stop := ls_stop hs; ls_finished := true |}.

(** What a step of its thread does to a session and to the bytes the thread has taken. *)
Definition thread_step (e : session_event) (x : l7_session * list Z) : l7_session * list Z :=
  let '(hs, taken) := x in
  match e with
  | EPop _ => match ls_incoming hs with c :: q => (with_queue q hs, taken ++ c) | [] => x end
  | EUnpop _ n =>
    let k := (length taken - n)%nat in
    (with_queue (queue_unpop (drop k taken) (ls_incoming hs)) hs, take k taken)
  | EFinish _ => (with_finished hs, taken)
  | _ => x
  end.

(** The sessions, and what the thread of each has taken from its queue. *)
Definition table : Type := gmap Z l7_session * (Z -> list Z).

Definition table_step (srv : l7_server) (e : session_event) (t : table) : outcome table :=
  let '(sessions, taken) := t in
  match e with
  | ETurn m =>
    sessions' ← run_in_of srv (fst <$> m) sessions;
    Ret (sessions', fun id => match reap_sessions sessions !! id with Some _ => taken id | None => [] end)
  | EErase id => Ret (delete id sessions, taken)
  | EPop id | EUnpop id _ | EFinish id =>
    match sessions !! id with
    | None => Ret t
    | Some hs => let x := thread_step e (hs, taken id) in Ret (<[id := x.1]> sessions, fun i => if i =? id then x.2 else taken i)
    end
  end.

Fixpoint run_events (srv : l7_server) (es : list session_event) (t : table) : outcome table :=
  match es with
  | [] => Ret t
  | e :: es => t ← table_step srv e t; run_events srv es t
  end.

Definition no_sessions : table := (∅, fun _ => []).

(** What the TCP server said about a session. *)
Definition mine (id : Z) (e : session_event) : option announcement :=
  match e with ETurn (Some (_, n)) => if n_session_id n =? id then Some n else None | _ => None end.
Definition said (id : Z) (es : list session_event) : list announcement := omap (mine id) es.

Definition is_turn (e : session_event) : bool := match e with ETurn _ => true | _ => false end.

(** The thread of the session ends. *)
Definition ends (id : Z) (e : session_event) : bool := match e with EFinish i | EErase i => i =? id | _ => false end.

(** One session by itself. *)
Definition own_step (srv : l7_server) (id : Z) (e : session_event) (o : option (l7_session * list Z)) : option (l7_session * list Z) :=
  match e with
  | ETurn _ =>
    let o := match o with Some x => if ls_finished x.1 then None else Some x | None => None end in
    match mine id e, o with
    | None, _ => o
    | Some n, Some x => Some (old_session (honours_close srv) n x.1, x.2)
    | Some n, None => if opens n then Some (new_session n, []) else None
    end
  | EErase i => if i =? id then None else o
  | EPop i | EUnpop i _ | EFinish i => if i =? id then thread_step e <$> o else o
  end.

Definition view (id : Z) (t : table) : option (l7_session * list Z) := (fun hs => (hs, t.2 id)) <$> t.1 !! id.

Lemma run_in_of_spec srv m sessions :
  run_in_of srv m sessions = match m with None => Ret (reap_sessions sessions) | Some m => l7_run_in (honours_close srv) m (reap_sessions sessions) end.
Proof.
  destruct srv, m as [m|]; try done; unfold run_in_of, http_run_in, http_reap; rewrite andb_false_r; mcbn; [|done].
  by destruct (l7_run_in _ m _).
Qed.

Lemma thread_view (sessions : gmap Z l7_session) (taken : Z -> list Z) i (f : l7_session * list Z -> l7_session * list Z) :
  exists t', match sessions !! i with
             | None => Ret (sessions, taken)
             | Some hs => let x := f (hs, taken i) in Ret (<[i := x.1]> sessions, fun j => if j =? i then x.2 else taken j)
             end = Ret t' /\
    forall id, view id t' = if i =? id then f <$> view id (sessions, taken) else view id (sessions, taken).
Proof.
  unfold view. destruct (sessions !! i) as [hs|] eqn:Ei; eexists; (split; [done|]); intros id; cbn [fst snd]; destruct (Z.eqb_spec i id) as [<-|Hne].
  - rewrite lookup_insert_eq, Ei, Z.eqb_refl. cbn. by destruct (f _).
  - rewrite lookup_insert_ne by done. by replace (id =? i) with false by lia.
  - by rewrite Ei.
  - done.
Qed.

(** A step of the server is a step of each session by itself. *)
Lemma table_step_own srv e t : event_ok e ->
  exists t', table_step srv e t = Ret t' /\ forall id, view id t' = own_step srv id e (view id t).
Proof.
  destruct t as [sessions taken]. intros He. destruct e as [[[m n]|]|i|i k|i|i]; cbn [table_step fst snd event_ok fmap option_fmap option_map] in *.
  - rewrite run_in_of_spec, (l7_run_in_spec _ m n _ He). mcbn. eexists. split; [done|]. intros id. unfold view. cbn [fst snd own_step mine].
    pose proof (reap_lookup sessions id) as Hid. destruct (Z.eqb_spec (n_session_id n) id) as [->|Hne].
    + rewrite Hid. destruct (sessions !! id) as [hs|]; [|by destruct (opens n); rewrite ?lookup_insert_eq, ?Hid].
      cbn. destruct (ls_finished hs); [by destruct (opens n); rewrite ?lookup_insert_eq, ?Hid|by rewrite lookup_insert_eq].
    + destruct (reap_sessions sessions !! n_session_id n) eqn:En; [|destruct (opens n)]; rewrite ?lookup_insert_ne by done; rewrite Hid;
        (destruct (sessions !! id) as [hs|]; [|done]); cbn; by destruct (ls_finished hs).
  - rewrite run_in_of_spec. mcbn. eexists. split; [done|]. intros id. unfold view. cbn [fst snd own_step mine]. rewrite reap_lookup.
    destruct (sessions !! id) as [hs|]; [|done]. cbn. by destruct (ls_finished hs).
  - exact (thread_view sessions taken i (thread_step (EPop i))).
  - exact (thread_view sessions taken i (thread_step (EUnpop i k))).
  - exact (thread_view sessions taken i (thread_step (EFinish i))).
  - eexists. split; [done|]. intros id. unfold view. cbn [fst snd own_step]. destruct (Z.eqb_spec i id) as [->|Hne]; [by rewrite lookup_delete_eq|by rewrite lookup_delete_ne].
Qed.

Lemma run_events_own srv es t : Forall event_ok es ->
  exists t', run_events srv es t = Ret t' /\ forall id, view id t' = foldl (fun o e => own_step srv id e o) (view id t) es.
Proof.
  intros Hes. revert t. induction Hes as [|e es He _ IH]; intros t; cbn [run_events]; [by exists t|].
  destruct (table_step_own srv e t He) as (t1 & -> & H1). mcbn. destruct (IH t1) as (t' & E & H2). exists t'. split; [exact E|].
  intros id. cbn [foldl]. by rewrite H2, H1.
Qed.

Section Own.
Context (srv : l7_server) (id : Z).
Notation own es o := (foldl (fun x e => own_step srv id e x) o es).

(** Without an announcement nothing comes to be. *)
Lemma own_none es : Forall (fun n => opens n = false) (said id es) -> own es None = None.
Proof.
  induction es as [|e es IH]; [done|]. unfold said. cbn [omap list_omap foldl]. destruct e as [m|i|i k|i|i]; cbn [own_step mine].
  2-5: intros Hs; destruct (i =? id); by apply IH.
  destruct m as [[m n]|]; [|by apply IH]. destruct (n_session_id n =? id); [|by apply IH]. intros [Hn Hs]%list.Forall_cons. rewrite Hn. by apply IH.
Qed.

(** While its thread runs. *)
Lemma own_alive_step e hs taken : ls_finished hs = false -> ends id e = false ->
  exists hs1 taken1, own_step srv id e (Some (hs, taken)) = Some (hs1, taken1) /\ ls_finished hs1 = false /\
    ls_from hs1 = ls_from hs /\ ls_from_port hs1 = ls_from_port hs /\ ls_to hs1 = ls_to hs /\ ls_to_port hs1 = ls_to_port hs /\
    ls_stop hs1 = (match mine id e with Some n => honours_close srv && closes n | None => false end) || ls_stop hs /\
    taken1 ++ concat (ls_incoming hs1) = taken ++ concat (ls_incoming hs) ++ match mine id e with Some n => n_pl n | None => [] end.
Proof.
  intros Hf He. destruct e as [m|i|i k|i|i]; cbn [own_step ends mine fst] in *.
  - rewrite Hf. destruct m as [[m n]|]; [destruct (n_session_id n =? id)|].
    1: exists (old_session (honours_close srv) n hs), taken. 2-3: exists hs, taken; rewrite app_nil_r; done.
    cbn. rewrite concat_app. cbn. rewrite app_nil_r. done.
  - rewrite app_nil_r. destruct (i =? id); [|by exists hs, taken]. cbn. destruct (ls_incoming hs) as [|c q] eqn:E; [exists hs, taken; by rewrite E|].
    exists (with_queue q hs), (taken ++ c). cbn. by rewrite app_assoc.
  - rewrite app_nil_r. destruct (i =? id); [|by exists hs, taken]. cbn. do 2 eexists. split; [done|]. cbn.
    do 6 (split; [done|]). by rewrite app_assoc, take_drop.
  - rewrite He, app_nil_r. by exists hs, taken.
  - rewrite He, app_nil_r. by exists hs, taken.
Qed.

Lemma own_alive es hs taken : ls_finished hs = false -> Forall (fun e => ends id e = false) es ->
  exists q taken', own es (Some (hs, taken)) =
    Some ({| ls_from := ls_from hs; ls_from_port := ls_from_port hs; ls_to := ls_to hs; ls_to_port := ls_to_port hs; ls_incoming := q;
             ls_stop := honours_close srv && existsb closes (said id es) || ls_stop hs; ls_finished := false |}, taken') /\
    taken' ++ concat q = taken ++ concat (ls_incoming hs) ++ concat (map n_pl (said id es)).
Proof.
  revert hs taken. induction es as [|e es IH]; intros hs taken Hf Hes.
  { exists (ls_incoming hs), taken. cbn. rewrite andb_false_r, !app_nil_r. split; [|done]. destruct hs. cbn in *. by subst. }
  apply list.Forall_cons in Hes as [He Hes]. unfold said. cbn [omap list_omap foldl]. fold (said id es).
  destruct (own_alive_step e hs taken Hf He) as (hs1 & taken1 & -> & Hf1 & Hfrom & Hport & Hto & Htport & Hstop & Hbytes).
  destruct (IH hs1 taken1 Hf1 Hes) as (q & taken' & -> & Hq). exists q, taken'. rewrite Hq, app_assoc, Hbytes, Hfrom, Hport, Hto, Htport, Hstop.
  destruct (mine id e) as [n|]; cbn [map concat existsb].
  - split; [|by rewrite !app_assoc]. do 3 f_equal. by destruct (honours_close srv), (closes n), (existsb closes (said id es)), (ls_stop hs).
  - by rewrite app_nil_r, app_assoc.
Qed.

(** No session, or one whose thread has ended. *)
Definition dead (o : option (l7_session * list Z)) : Prop := forall x, o = Some x -> ls_finished x.1 = true.

Lemma own_open e m n o : e = ETurn (Some (m, n)) -> n_session_id n = id -> opens n = true -> dead o ->
  own_step srv id e o = Some (new_session n, []).
Proof.
  intros -> Hid Hn Ho. cbn [own_step mine]. rewrite Hid, Z.eqb_refl, Hn.
  destruct o as [x|]; [|done]. by rewrite (Ho x eq_refl).
Qed.

Lemma own_reaped es o : dead o -> existsb is_turn es = true -> Forall (fun n => opens n = false) (said id es) -> own es o = None.
Proof.
  revert o. induction es as [|e es IH]; intros o Ho Ht Hs; [done|]. destruct (is_turn e) eqn:Ee.
  - assert (Hd : own_step srv id e o = own_step srv id e None) by (destruct e as [m|?|? ?|?|?]; try done; cbn; destruct o as [x|]; [by rewrite (Ho x eq_refl)|done]).
    cbn [foldl]. rewrite Hd. exact (own_none (e :: es) Hs).
  - cbn [existsb] in Ht. rewrite Ee in Ht. cbn [foldl]. apply IH; [|done|].
    + intros x Hx. destruct e as [m|i|i k|i|i]; [done|..]; cbn [own_step] in Hx; destruct (i =? id); try done; try (by apply Ho).
      all: destruct o as [[hs t]|]; [|done]; specialize (Ho _ eq_refl); cbn in *; try (by injection Hx as <-).
      destruct (ls_incoming hs); by injection Hx as <-.
    + destruct e; done.
Qed.

(** Until [run_in] comes round a session whose thread has ended stays. *)
Lemma own_lingers es hs taken : ls_finished hs = true -> existsb is_turn es = false -> EErase id ∉ es ->
  exists hs' taken', own es (Some (hs, taken)) = Some (hs', taken') /\ ls_finished hs' = true.
Proof.
  revert hs taken. induction es as [|e es IH]; intros hs taken Hf Ht He; [by exists hs, taken|].
  cbn [existsb foldl] in *. apply orb_false_iff in Ht as [Ht1 Ht]. apply not_elem_of_cons in He as [He1 He].
  assert (exists hs1 taken1, own_step srv id e (Some (hs, taken)) = Some (hs1, taken1) /\ ls_finished hs1 = true) as (hs1 & taken1 & -> & Hf1); [|by apply IH].
  destruct e as [m|i|i k|i|i]; cbn [own_step] in *; [done|..]; destruct (Z.eqb_spec i id) as [->|Hne]; try (by exists hs, taken); try done; cbn.
  - destruct (ls_incoming hs); by do 2 eexists.
  - by do 2 eexists.
  - by do 2 eexists.
Qed.

End Own.

Lemma run_events_app srv es1 es2 t : run_events srv (es1 ++ es2) t = (t1 ← run_events srv es1 t; run_events srv es2 t1).
Proof.
  revert t. induction es1 as [|e es1 IH]; intros t; cbn [app run_events]; [done|]. destruct (table_step srv e t) as [t1|]; [|done]. mcbn. apply IH.
Qed.

(** ** Properties *)

(** C32: sessions do not mix, and go when they are done.  In a server on top of TCP let there be, in any
    order, turns of [run_in] with messages of the TCP server or without one, steps of the threads of the sessions (taking from their
    queues, putting bytes back, ending) and sessions erased by [run_meta].  Then, for each session: without an announced opening
    it does not exist.  From an announced opening, when there was no session of that id or one whose thread had ended, to the end of its
    thread it exists with the addresses of that announcement; what its thread has taken, followed by
    its queue, are the payloads of its own messages from that one on, in order and once; its stop flag is set exactly if the server honours closes and one
    was announced since.  A session whose thread has ended is still there until the next turn of [run_in], whatever the others do; with that turn, or when
    [run_meta] erased it, it is gone until a new opening is announced. *)
Theorem l7_sessions_separate (srv : l7_server) (es : list session_event) (Hes : Forall event_ok es) :
  exists sessions taken, run_events srv es no_sessions = Ret (sessions, taken) /\
    forall id,
      (Forall (fun n => opens n = false) (said id es) -> sessions !! id = None) /\
      (forall es1 m n es2 sessions1 taken1, es = es1 ++ ETurn (Some (m, n)) :: es2 -> n_session_id n = id -> opens n = true ->
        run_events srv es1 no_sessions = Ret (sessions1, taken1) -> (forall hs, sessions1 !! id = Some hs -> ls_finished hs = true) ->
        Forall (fun e => ends id e = false) es2 ->
        exists incoming, sessions !! id = Some
          {| ls_from := n_from n; ls_from_port := n_from_port n; ls_to := n_to n; ls_to_port := n_to_port n;
             ls_incoming := incoming; ls_stop := honours_close srv && existsb closes (said id es2); ls_finished := false |} /\
          taken id ++ concat incoming = concat (map n_pl (n :: said id es2))) /\
      (forall es1 es2 sessions1 taken1 hs, es = es1 ++ EFinish id :: es2 -> run_events srv es1 no_sessions = Ret (sessions1, taken1) ->
        sessions1 !! id = Some hs -> existsb is_turn es2 = false -> EErase id ∉ es2 ->
        exists hs', sessions !! id = Some hs' /\ ls_finished hs' = true) /\
      (forall es1 e es2, es = es1 ++ e :: es2 -> ends id e = true -> e = EErase id \/ existsb is_turn es2 = true ->
        Forall (fun n => opens n = false) (said id es2) -> sessions !! id = None).
Proof.
  destruct (run_events_own srv es no_sessions Hes) as ([sessions taken] & E & Hv). exists sessions, taken. split; [exact E|]. intros id.
  specialize (Hv id). change (view id no_sessions) with (@None (l7_session * list Z)) in Hv. unfold view in Hv. cbn [fst snd] in Hv.
  assert (Hpre : forall es1 es2, es = es1 ++ es2 -> exists t1, run_events srv es1 no_sessions = Ret t1 /\
      view id t1 = foldl (fun x e => own_step srv id e x) None es1).
  { intros es1 es2 ->. apply list.Forall_app in Hes as [H1 _]. destruct (run_events_own srv es1 no_sessions H1) as (t1 & E1 & Hv1). exists t1. split; [done|apply Hv1]. }
  split; [|split; [|split]].
  - intros Hno. rewrite own_none in Hv by done. by destruct (sessions !! id).
  - intros es1 m n es2 s1 t1 Hsplit Hid Hn E1 Hdead Hend. destruct (Hpre _ _ Hsplit) as (t1' & E1' & Hv1). rewrite E1 in E1'. injection E1' as <-.
    rewrite Hsplit, foldl_app in Hv. cbn [foldl] in Hv. rewrite (own_open srv id _ m n) in Hv by (done || (rewrite <- Hv1; unfold view, dead; cbn; intros x Hx; destruct (s1 !! id) as [hs|] eqn:Es; [|done]; injection Hx as <-; by apply Hdead)).
    destruct (own_alive srv id es2 (new_session n) [] eq_refl Hend) as (q & tk & Eq & Hq). rewrite Eq in Hv. destruct (sessions !! id) as [hs|]; [|done].
    injection Hv as -> Htk. exists q. cbn [new_session ls_from ls_from_port ls_to ls_to_port ls_stop]. rewrite orb_false_r. split; [done|]. rewrite Htk, Hq. cbn. by rewrite app_nil_r.
  - intros es1 es2 s1 t1 hs Hsplit E1 Hs Ht He. destruct (Hpre _ _ Hsplit) as (t1' & E1' & Hv1). rewrite E1 in E1'. injection E1' as <-.
    unfold view in Hv1. cbn [fst snd] in Hv1. rewrite Hs in Hv1. rewrite Hsplit, foldl_app, <- Hv1 in Hv. cbn [foldl own_step fmap option_fmap option_map thread_step] in Hv. rewrite Z.eqb_refl in Hv.
    destruct (own_lingers srv id es2 (with_finished hs) (t1 id) eq_refl Ht He) as (hs' & tk & E2 & Hf). rewrite E2 in Hv.
    destruct (sessions !! id) as [hs2|]; [|done]. injection Hv as -> _. by exists hs'.
  - intros es1 e es2 Hsplit He Hgone Hno. rewrite Hsplit, foldl_app in Hv. cbn [foldl] in Hv. set (o := foldl _ None es1) in Hv.
    assert (Hnone : foldl (fun x e => own_step srv id e x) (own_step srv id e o) es2 = None); [|rewrite Hnone in Hv; by destruct (sessions !! id)].
    destruct e as [m|i|i k|i|i]; cbn [ends] in He; try done; cbn [own_step]; rewrite He.
    + destruct Hgone as [|Ht]; [done|]. apply own_reaped; [|done|done]. intros x. destruct o as [[hs t]|]; [|done]. by intros [= <-].
    + by apply own_none.
Qed.

Definition ex_announcement (id flags : Z) (pl : list Z) : announcement :=
  {| n_session_id := id; n_from := [10; 0; 0; 9]; n_from_port := 40000; n_to := [10; 0; 0; 1]; n_to_port := 80; n_flags := flags; n_pl := pl |}.

Definition announcement_message (n : announcement) : message :=
  let data := up_tcp_data (n_session_id n) (n_from n) (n_from_port n) (n_to n) (n_to_port n) (n_flags n) (n_pl n) in
  fill_message (allocate_shm_message (zlen data)) 0 0 data.

Definition ex_turn (id flags : Z) (pl : list Z) : session_event :=
  let n := ex_announcement id flags pl in ETurn (Some (announcement_message n, n)).

(** The thread of session 7 takes a byte and leaves the next; that of session 5 ends. *)
Definition ex_events : list session_event :=
  [ex_turn 5 0 [9]; ex_turn 7 2 []; ex_turn 5 2 []; EPop 7; ex_turn 7 0 [1; 2]; EPop 7; EUnpop 7 1; ex_turn 5 4 []; EFinish 5; ETurn None; ex_turn 7 0 [3]].

Lemma l7_sessions_separate_witness :
  exists sessions taken, run_events HttpServer ex_events no_sessions = Ret (sessions, taken) /\ sessions !! 5 = None /\
    exists q, (ls_incoming <$> sessions !! 7) = Some q /\ taken 7 ++ concat q = [1; 2; 3].
Proof.
  destruct (l7_sessions_separate HttpServer ex_events) as (sessions & taken & E & Hl).
  - unfold ex_events. repeat constructor; exists []; (split; [reflexivity|]); unfold is_u; cbn; repeat split; (lia || (vm_compute; reflexivity)).
  - exists sessions, taken. split; [exact E|]. split.
    + destruct (Hl 5) as (_ & _ & _ & H5). apply (H5 (take 8 ex_events) (EFinish 5) (drop 9 ex_events)); [reflexivity|reflexivity|right; reflexivity|constructor].
    + destruct (Hl 7) as (_ & H7 & _). destruct (run_events HttpServer (take 1 ex_events) no_sessions) as [[s1 t1]|] eqn:E1; [|vm_compute in E1; discriminate].
      destruct (H7 (take 1 ex_events) (announcement_message (ex_announcement 7 2 [])) (ex_announcement 7 2 []) (drop 2 ex_events) s1 t1) as (q & Hq & Hbytes).
      * reflexivity.
      * reflexivity.
      * reflexivity.
      * exact E1.
      * vm_compute in E1. injection E1 as <- _. intros hs Hs. vm_compute in Hs. discriminate.
      * repeat constructor.
      * exists q. rewrite Hq. split; [reflexivity|]. exact Hbytes.
Defined.

(** The end of a connection, as the TCP server announces it, in the three servers: the HTTP and the VNC server tell the thread of the session to
    stop, the Gopher server does not; the data of the message are queued in all three. *)
Theorem announced_close (m : message) (n : announcement) (sessions : gmap Z l7_session) (hs : l7_session) (please_terminate : bool)
  (Hm : announces m n) (Hc : closes n = true) (Hs : sessions !! n_session_id n = Some hs) (Hnone : none_finished sessions) :
  let heard stop := <[n_session_id n :=
    {| ls_from := ls_from hs; ls_from_port := ls_from_port hs; ls_to := ls_to hs; ls_to_port := ls_to_port hs;
       ls_incoming := ls_incoming hs ++ [n_pl n]; ls_stop := stop; ls_finished := ls_finished hs |}]> sessions in
  http_run_in please_terminate (Some m) sessions = Ret (heard true, false) /\ vnc_run_in (Some m) sessions = Ret (heard true) /\
  gopher_run_in (Some m) sessions = Ret (heard (ls_stop hs)).
Proof.
  intros heard. unfold http_run_in, http_reap, vnc_run_in, gopher_run_in, l7_turn. rewrite (reap_none sessions Hnone).
  rewrite bool_decide_false by (intros ->; by rewrite lookup_empty in Hs). cbn [andb].
  pose proof (fun b => l7_run_in_spec b m n sessions Hm) as Hrun. rewrite Hs in Hrun. rewrite !Hrun. mcbn.
  unfold old_session. rewrite Hc. done.
Qed.
