(* ===== verification/L7Stream.v ===== *)
(** * From segments to the queue of a session

    The TCP server ([Tcp], [TcpFlow]) and the sessions of a server on top of it
    ([L7Sessions]) put together: what the one hands over, the other queues. *)

From S2P Require Import Prelude Net Checksum Str Addr ShmMessage Transport TcpWire TcpData Tcp TcpSafe TcpFlow L7 L7Safe L7Sessions.

(** A message as it arrives; the transport keeps its data. *)
Definition delivered (x : sent) : message := fill_message (allocate_shm_message (zlen (sent_data x))) (sent_type x) 0 (sent_data x).

(** The messages of a log that are for the application (those for the IP server have another type). *)
Definition app_messages (l : list sent) : list message := map delivered (filter (fun x => sent_type x = 0) l).

Definition announcement_of (k : tcp_in) (flags : Z) : announcement :=
  {| n_session_id := k_session_id k; n_from := k_a_from k; n_from_port := u16 (k_source_port k);
     n_to := k_a_to k; n_to_port := u16 (k_destination_port k); n_flags := flags; n_pl := payload k |}.

Lemma filter_all {A} (P : A -> Prop) `{!forall x, Decision (P x)} (l : list A) : Forall P l -> filter P l = l.
Proof. induction 1 as [|x l Hx _ IH]; [done|]. rewrite filter_cons, decide_True by done. by rewrite IH. Qed.

Lemma filter_no {A} (P : A -> Prop) `{!forall x, Decision (P x)} (l : list A) : Forall (fun x => ~ P x) l -> filter P l = [].
Proof. induction 1 as [|x l Hx _ IH]; [done|]. rewrite filter_cons, decide_False by done. by rewrite IH. Qed.

Lemma up_tcp_data_ports session_id from from_port to to_port flags pl :
  up_tcp_data session_id from from_port to to_port flags pl =
  up_tcp_data session_id from (u16 from_port) to (u16 to_port) flags pl.
Proof.
  unfold up_tcp_data, wrap. change 16 with (8 * Z.of_nat 2). by rewrite !le_bytes_mod.
Qed.

Lemma delivered_announces sid x : about_session sid x -> sent_type x = 0 ->
  exists n, announces (delivered x) n /\ n_session_id n = sid /\ closes n = false /\ n_pl n = app_data x.
Proof.
  intros Hx Ht. destruct (Hx Ht) as (k & flags & K & Hsid & Hfl & Hd). exists (announcement_of k flags).
  pose proof (zlen_payload k K) as Lp. assert (Hp : app_data x = payload k).
  { pose proof (app_data_notice [] k flags (payload k) K) as Ha. unfold app_data in *. rewrite Ht, Hd. exact Ha. }
  destruct K as [(_ & _ & _ & Lf) (_ & _ & _ & Lt) (_ & Hs & _) _ _ _ _ Hid].
  destruct (tcp_calc_session_id_ok (k_source_port k) (k_destination_port k) _ _ Lf Lt) as (sid' & E & Hu).
  rewrite Hid in E. injection E as <-. split; [|split; [done|split; [by destruct Hfl as [-> | ->]|done]]].
  exists []. rewrite app_nil_r. cbn [delivered fill_message m_data announcement_of n_session_id n_from n_from_port n_to n_to_port n_flags n_pl].
  rewrite Hd. cbn [notice fill_message m_data]. split; [apply up_tcp_data_ports|]. unfold fits.
  split; [lia|]. split; [lia|]. split; [lia|]. split; [done|]. split; [apply wrap_range; lia|]. split; [apply wrap_range; lia|].
  destruct Hfl as [-> | ->]; unfold is_u, MI_TCP_FIN; lia.
Qed.

Lemma log_announces sid l : Forall (about_session sid) l ->
  exists ns, Forall2 announces (app_messages l) ns /\ Forall (fun n => n_session_id n = sid) ns /\ existsb closes ns = false /\
    concat (map n_pl ns) = app_bytes l.
Proof.
  intros Hl. unfold app_messages, app_bytes. induction Hl as [|x l Hx _ (ns & H1 & H2 & H3 & H4)].
  - by exists [].
  - rewrite filter_cons. destruct (decide (sent_type x = 0)) as [Ht|Ht].
    + destruct (delivered_announces sid x Hx Ht) as (n & A1 & A2 & A3 & A4). exists (n :: ns). cbn [map concat existsb].
      split; [by constructor|]. split; [by constructor|]. rewrite A3, H3, A4, H4. done.
    + exists ns. cbn [map concat]. unfold app_data at 1. replace (sent_type x =? 0) with false by lia. done.
Qed.

(** ** Properties *)

(** C14: from the wire to the application's queue.  Any segments of an open
    connection that have ACK and neither SYN nor RST - resent, overlapping, out of order, with FIN or without - and carry bytes of the
    peer's stream make the server of the application queue, in the
    connection's session and in no other, exactly the bytes of the stream that the TCP server takes, in order and once: from the byte the connection
    expected to the one it expects afterwards, but for the number the first FIN steps over ([received]; when the FIN comes early that is
    a byte of the stream, which is lost).  The IP server accepts every ACK; the session's thread has
    not ended; the other sessions stay as they are, except that [run_in] removes those whose thread has ended. *)
Theorem tcp_feeds_session `{Transport W} (has_close : bool) (out_name : list Z) (mappings_in : gmap Z (list Z)) (salt : list Z)
  (now_s sid irs : Z) (stream : list Z) (ms : list (Z * message)) (sessions : gmap Z session_t) (s : session_t) (n : Z) (w : W)
  (apps : gmap Z l7_session) (hs : l7_session)
  (Hok : forall m w, send_ok_b out_name m w = true) (Hstream : zlen stream + 1 < 2 ^ 32)
  (Hms : Forall (fun x => exists k, stream_segment sid irs stream x.2 k) ms)
  (Hs : sessions !! sid = Some s) (Hw : session_wf s) (Hst : s_state s <> closed)
  (Hn : 0 <= n <= stream_end stream s) (Hseq : s_peer_seq s = u32 (irs + n))
  (Hhs : apps !! sid = Some hs) (Hunf : ls_finished hs = false) :
  exists n' s' w' l apps' hs', run_segments out_name mappings_in salt now_s ms sessions w = Ret (<[sid := s']> sessions, w') /\
    s_peer_seq s' = u32 (irs + n') /\
    t_log w' = t_log w ++ l /\ l7_turns has_close (app_messages l) apps = Ret apps' /\
    apps' !! sid = Some hs' /\
    (forall id, id <> sid -> apps' !! id = apps !! id \/ apps' !! id = None /\ exists x, apps !! id = Some x /\ ls_finished x = true) /\
    ls_stop hs' = ls_stop hs /\ ls_finished hs' = false /\
    exists new, ls_incoming hs' = ls_incoming hs ++ new /\
      received out_name mappings_in salt now_s sid irs stream ms sessions s n w s' n' (concat new).
Proof.
  destruct (run_received out_name mappings_in salt now_s sid irs stream ms sessions s n w Hok Hstream Hms Hs Hw Hst Hn Hseq)
    as (n' & s' & w' & l & R & R1 & _ & R2 & Ha & R3).
  destruct (log_announces sid l Ha) as (ns & Hns & Hid & Hcl & Hb).
  destruct (l7_turns_reaped has_close _ ns apps Hns) as (start & apps' & Hstart & E & Hl).
  assert (Hmine : filter (fun n => n_session_id n = sid) ns = ns) by (by apply filter_all).
  assert (Hsid0 : start !! sid = Some hs) by (destruct Hstart as [-> | ->]; [done|]; by rewrite reap_lookup, Hhs, Hunf).
  pose proof (Hl sid) as Hsid. rewrite Hmine, Hsid0, session_steps_old, Hcl, andb_false_r, Hunf in Hsid.
  eexists n', s', w', l, apps', _. split; [exact R|]. split; [done|]. split; [done|]. split; [exact E|]. split; [exact Hsid|]. split.
  - intros id Hne. rewrite Hl, filter_no; [|eapply Forall_impl; [|exact Hid]; cbn; congruence]. cbn [foldl]. destruct Hstart as [-> | ->]; [by left|].
    rewrite reap_lookup. destruct (apps !! id) as [x|]; [|by left]. destruct (ls_finished x) eqn:Ex; [right; split; [done|by exists x]|by left].
  - split; [done|]. split; [done|]. exists (map n_pl ns). split; [done|]. by rewrite Hb.
Qed.

Definition ex_sid : Z := Eval vm_compute in k_session_id (seg_of ex_syn).

Definition ex_app : l7_session :=
  {| ls_from := [10; 0; 0; 9]; ls_from_port := 40000; ls_to := [10; 0; 0; 1]; ls_to_port := 80;
     ls_incoming := [[]]; ls_stop := false; ls_finished := false |}.

Lemma ex_carried : Forall (fun x => exists k, stream_segment ex_sid 8 [65; 66; 67] x.2 k) ex_stream.
Proof. replace ex_sid with (k_session_id (seg_of ex_syn)) by (vm_compute; reflexivity). exact ex_stream_carried. Qed.

Lemma tcp_feeds_session_witness :
  exists s' w' l apps' hs', run_segments (str "ip4") ex_tcp_maps ex_salt 200 ex_stream ex_sessions {| wire_log := [] |} =
      Ret (<[ex_sid := s']> ex_sessions, w') /\
    wire_log w' = l /\ l7_turns true (app_messages l) {[ ex_sid := ex_app ]} = Ret apps' /\
    apps' !! ex_sid = Some hs' /\ concat (ls_incoming hs') = [65; 67].
Proof.
  destruct (tcp_feeds_session (W := wire) true (str "ip4") ex_tcp_maps ex_salt 200 ex_sid 8 [65; 66; 67] ex_stream
    ex_sessions ex_session 0 {| wire_log := [] |} {[ ex_sid := ex_app ]} ex_app) as (n' & s' & w' & l & apps' & hs' & R & _ & Hl & E & Hs & _).
  - reflexivity.
  - reflexivity.
  - exact ex_carried.
  - vm_compute. reflexivity.
  - exact ex_session_wf.
  - discriminate.
  - split; [discriminate|vm_compute; discriminate].
  - vm_compute. reflexivity.
  - vm_compute. reflexivity.
  - reflexivity.
  - cbn [wire_transport t_log wire_log app] in Hl. exists s', w', l, apps', hs'. split; [exact R|]. split; [exact Hl|]. split; [exact E|]. split; [exact Hs|].
    assert (C : match run_segments (str "ip4") ex_tcp_maps ex_salt 200 ex_stream ex_sessions {| wire_log := [] |} with
      | Ret (_, w) => match l7_turns true (app_messages (wire_log w)) {[ ex_sid := ex_app ]} with Ret a => (fun x => concat (ls_incoming x)) <$> a !! ex_sid | Fault _ => None end
      | Fault _ => None end = Some [65; 67]) by (vm_compute; reflexivity).
    rewrite R, Hl, E, Hs in C. injection C as C. exact C.
Defined.
