(* ===== verification/System.v ===== *)
(** * The servers of a host together

    The servers as processes on the segments of [Shm]: link, ARP, IPv4, ICMP, UDP, NTP, TCP with its
    sender, and the receiving thread of one server on top of it.  A thread of a server takes a message from the queue it reads ([wait_for_message]),
    runs the body of its loop, whose sends go into the segments of the other servers
    ([send_message]), and waits again.  [round] is one such turn; which thread is next, the clock,
    random numbers and uninitialised memory are arbitrary.  The threads that
    clean up by time, those that answer "get-mac" and "get-ip4" (see [Exchange]) and the threads
    of the sessions are not part of the host here.  [round] is for the threads that read queues, [full_round] has the
    sender as well; a session without anything to send is [tcp_idle]. *)

From S2P Require Import Prelude Net Checksum Str Addr ShmMessage Shm Transport Queues TcpData Tcp L7Sessions Icmp Udp Arp Ip4In Reassembly Ip4Out Ip4 Link Ntp.

(** ** Code *)

(** The threads, each the only reader of a queue. *)
Inductive thread : Set :=
| LinkOut | ArpIn | ArpResolver | Ip4InThread | Ip4OutThread | Ip4Sender | IcmpIn | IcmpErr | UdpIn | UdpOut | NtpIn | TcpIn | TcpOut | AppIn.

#[export] Instance thread_eq_dec : EqDecision thread.
Proof. solve_decision. Defined.

(** The arguments of the [run] functions: the names of the own queues, the names messages are
    sent to, tables and addresses. *)
Record config := {
  c_link : list Z; c_mac : addr; c_link_in : gmap Z (list Z); c_link_out : gmap (list Z) Z;
  c_arp : list Z; c_arp_resolver : list Z; c_arp_out : list Z; c_arp_mac : addr; c_arp_ip : addr;
  c_ip4_lower : list Z; c_ip4_upper : list Z; c_ip4_replies : list Z; c_ip4_out : list Z; c_ip4_resolver : list Z;
  c_ip4_error : list Z; c_listen : addr * Z; c_gw : addr; c_mtu : Z;
  c_proto_in : gmap Z (list Z); c_proto_out : gmap (list Z) Z;
  c_icmp : list Z; c_icmp_error : list Z; c_icmp_out : list Z;
  c_udp : list Z; c_udp_upper : list Z; c_udp_out : list Z; c_udp_error : list Z; c_ports : gmap Z (list Z);
  c_ntp : list Z; c_ntp_out : list Z;
  c_tcp : list Z; c_tcp_upper : list Z; c_tcp_out : list Z; c_tcp_ports : gmap Z (list Z); c_salt : list Z;
  c_app : list Z; c_app_closes : bool }.

(** The queue a thread reads. *)
Definition inbox (c : config) (t : thread) : list Z :=
  match t with
  | LinkOut => c_link c
  | ArpIn => c_arp c
  | ArpResolver => c_arp_resolver c
  | Ip4InThread => c_ip4_lower c
  | Ip4OutThread => c_ip4_upper c
  | Ip4Sender => c_ip4_replies c
  | IcmpIn => c_icmp c
  | IcmpErr => c_icmp_error c
  | UdpIn => c_udp c
  | UdpOut => c_udp_upper c
  | NtpIn => c_ntp c
  | TcpIn => c_tcp c
  | TcpOut => c_tcp_upper c
  | AppIn => c_app c
  end.

(** The type of messages it waits for. *)
Definition waits_for (t : thread) : Z :=
  match t with
  | LinkOut | Ip4InThread | Ip4OutThread | TcpOut | AppIn => msg_any
  | Ip4Sender => msg_reply
  | ArpIn | ArpResolver | IcmpIn | IcmpErr | UdpIn | UdpOut | NtpIn | TcpIn => msg_new
  end.

(** The queue object a thread sends to [dst] with: its name is the sender of the message.  The
    ARP server answers searches with [shm_resolver] and sends everything else with [shm]. *)
Definition identity (c : config) (t : thread) (dst : list Z) : list Z :=
  match t with
  | LinkOut => c_link c
  | ArpIn | ArpResolver => if beq dst (c_arp_out c) then c_arp c else c_arp_resolver c
  | Ip4InThread | Ip4Sender => c_ip4_lower c
  | Ip4OutThread => c_ip4_replies c
  | IcmpIn | IcmpErr => c_icmp c
  | UdpIn | UdpOut => c_udp c
  | NtpIn => c_ntp c
  | TcpIn | TcpOut => c_tcp c
  | AppIn => c_app c
  end.

(** The segments, the state of the servers, and the frames put on the wire. *)
Record host := {
  h_segs : gmap (list Z) segment;
  h_packets : gmap Z packet;
  h_out : ip4_out_state;
  h_arp : arp_state;
  h_tcp : gmap Z session_t;
  h_apps : gmap Z l7_session;
  h_wire : list (list Z) }.

(** What a turn finds: the time of day, uninitialised memory, random numbers. *)
Record turn := {
  e_now : Z;
  e_sec : Z;
  e_nsec : Z;
  e_junk : nat -> Z;
  e_packets_id : Z;
  e_msg_nr : Z }.

Definition turn_ok (e : turn) : Prop :=
  is_u 64 (e_now e) /\ 0 <= e_nsec e < 10 ^ 9 /\ (forall i, is_byte (e_junk e i)) /\ is_u 16 (e_packets_id e).

Definition turn_net (c : config) (e : turn) (t : thread) (segs : gmap (list Z) segment) : net :=
  {| n_ident := identity c t; n_now := e_now e; n_segs := segs; n_log := [] |}.

(** Run a handler of [t] on the segments. *)
Definition in_net {A} (c : config) (e : turn) (t : thread) (p : prog net A) (h : host) : outcome (A * host) :=
  r ← p (turn_net c e t (h_segs h));
  Ret (r.1, {| h_segs := n_segs r.2; h_packets := h_packets h; h_out := h_out h; h_arp := h_arp h; h_tcp := h_tcp h; h_apps := h_apps h; h_wire := h_wire h |}).

Definition set_segs (segs : gmap (list Z) segment) (h : host) : host :=
  {| h_segs := segs; h_packets := h_packets h; h_out := h_out h; h_arp := h_arp h; h_tcp := h_tcp h; h_apps := h_apps h; h_wire := h_wire h |}.
Definition set_packets (p : gmap Z packet) (h : host) : host :=
  {| h_segs := h_segs h; h_packets := p; h_out := h_out h; h_arp := h_arp h; h_tcp := h_tcp h; h_apps := h_apps h; h_wire := h_wire h |}.
Definition set_out (o : ip4_out_state) (h : host) : host :=
  {| h_segs := h_segs h; h_packets := h_packets h; h_out := o; h_arp := h_arp h; h_tcp := h_tcp h; h_apps := h_apps h; h_wire := h_wire h |}.
Definition set_arp (a : arp_state) (h : host) : host :=
  {| h_segs := h_segs h; h_packets := h_packets h; h_out := h_out h; h_arp := a; h_tcp := h_tcp h; h_apps := h_apps h; h_wire := h_wire h |}.
Definition set_tcp (s : gmap Z session_t) (h : host) : host :=
  {| h_segs := h_segs h; h_packets := h_packets h; h_out := h_out h; h_arp := h_arp h; h_tcp := s; h_apps := h_apps h; h_wire := h_wire h |}.
Definition set_apps (s : gmap Z l7_session) (h : host) : host :=
  {| h_segs := h_segs h; h_packets := h_packets h; h_out := h_out h; h_arp := h_arp h; h_tcp := h_tcp h; h_apps := s; h_wire := h_wire h |}.
Definition transmit (f : option (list Z)) (h : host) : host :=
  {| h_segs := h_segs h; h_packets := h_packets h; h_out := h_out h; h_arp := h_arp h; h_tcp := h_tcp h; h_apps := h_apps h;
     h_wire := h_wire h ++ match f with Some f => [f] | None => [] end |}.

(** The body of the loop of [t] for the message [m]. *)
Definition run_thread_body (c : config) (e : turn) (t : thread) (m : message) (h : host) : outcome host :=
  match t with
  | LinkOut => f ← tap_run_out (e_junk e) (c_link_out c) zlen m; Ret (transmit f h)
  | ArpIn => r ← in_net c e t (arp_run_in (c_arp_mac c) (c_arp_ip c) m (h_arp h)) h; Ret (set_arp r.1 r.2)
  | ArpResolver =>
    r ← in_net c e t (arp_run_resolver (c_arp_ip c) (c_arp_mac c) (c_arp_out c) (e_junk e) (e_msg_nr e) m (h_arp h)) h;
    Ret (set_arp r.1 r.2)
  | Ip4InThread =>
    r ← in_net c e t (ip4_run_in (c_listen c).1 (c_proto_in c) (c_ip4_error c) (e_junk e) (e_now e) m (h_packets h)) h;
    Ret (set_packets r.1 r.2)
  | Ip4OutThread =>
    r ← in_net c e t (ip4_run_out (c_listen c) (c_gw c) (c_ip4_resolver c) (e_now e) m (h_out h)) h;
    Ret (set_out r.1 r.2)
  | Ip4Sender =>
    r ← in_net c e t (ip4_sender (c_proto_out c) (c_ip4_out c) (c_mtu c) (e_packets_id e) (e_junk e) m (h_out h)) h;
    match r.1 with
    | Some o => Ret (set_out o r.2)
    | None => Fault Diverges
    end
  | IcmpIn => r ← in_net c e t (icmp_run_in (c_icmp_out c) m) h; Ret r.2
  | IcmpErr => r ← in_net c e t (icmp_run_err (c_icmp_out c) m) h; Ret r.2
  | UdpIn => r ← in_net c e t (udp_run_in (c_ports c) (c_udp_error c) m) h; Ret r.2
  | UdpOut => r ← in_net c e t (udp_run_out (e_junk e) (c_udp_out c) m) h; Ret r.2
  | NtpIn => r ← in_net c e t (ntp_run_in (c_ntp_out c) (e_sec e) (e_nsec e) m) h; Ret r.2
  | TcpIn =>
    r ← in_net c e t (tcp_run_in (c_tcp_out c) (c_tcp_ports c) (c_salt c) (e_now e) (e_sec e) m (h_tcp h)) h;
    Ret (set_tcp r.1 r.2)
  | TcpOut => sessions ← tcp_run_out (e_junk e) m (h_tcp h); Ret (set_tcp sessions h)
  | AppIn => apps ← l7_turn (c_app_closes c) m (h_apps h); Ret (set_apps apps h)
  end.

(** One turn of [t]; [None]: no message of the wanted type, it goes on waiting. *)
Definition round (c : config) (t : thread) (e : turn) (h : host) : outcome (option host) :=
  match h_segs h !! inbox c t with
  | None => Ret None
  | Some s =>
    r ← wait_for_message LockOk 100 (waits_for t) None [TimedOut] s;
    match r.1 with
    | Got m => h ← run_thread_body c e t m (set_segs (<[inbox c t := r.2]> (h_segs h)) h); Ret (Some h)
    | Null | Blocked => Ret None
    end
  end.

(** [read] of the link server returns the frame [f]. *)
Definition frame_arrives (c : config) (e : turn) (f : list Z) (h : host) : outcome host :=
  r ← in_net c e LinkOut (tap_run_in (c_mac c) (c_link_in c) f) h; Ret r.2.

(** The sender thread of TCP: a round over the sessions, unless none of them has anything to send, when it waits
    (the code makes the round then as well, and it changes nothing). *)
Definition tcp_idle (s : session_t) : bool :=
  negb (s_in_flight s =? 0) || s_fin_sent s || ((d_len (s_l7_to_tcp s) =? 0) && negb (s_l7_send_fin s)).

Definition all_idle (sessions : gmap Z session_t) : Prop := map_Forall (fun _ s => tcp_idle s = true) sessions.

#[export] Instance all_idle_dec sessions : Decision (all_idle sessions).
Proof. apply map_Forall_dec, _. Defined.

Definition sender_turn (c : config) (e : turn) (h : host) : outcome (option host) :=
  if bool_decide (all_idle (h_tcp h)) then Ret None
  else r ← in_net c e TcpOut (tcp_sender (c_tcp_out c) (h_tcp h)) h; Ret (Some (set_tcp r.1 r.2)).

(** Every schedule of the agents with the turns [step] leads to [P]: one of them has something to do, and whichever
    of those that have is next, its turn ends without a fault and the same holds after it. *)
Inductive inevitable {A} (step : A -> turn -> host -> outcome (option host)) (P : host -> Prop) : host -> Prop :=
| inev_done h : P h -> inevitable step P h
| inev_turn h :
    (exists a, forall e, turn_ok e -> exists h', step a e h = Ret (Some h')) ->
    (forall a e, turn_ok e -> exists o, step a e h = Ret o) ->
    (forall a e h', turn_ok e -> step a e h = Ret (Some h') -> inevitable step P h') ->
    inevitable step P h.

(** The threads that read a queue. *)
Notation inevitably c := (inevitable (round c)).

(** ... and with them the sender. *)
Definition full_round (c : config) (a : option thread) (e : turn) (h : host) : outcome (option host) :=
  match a with Some t => round c t e h | None => sender_turn c e h end.

(** Agents among which the readers are, and the others have nothing to do while the sessions of TCP are [quiet]. *)
Class Scheduler (c : config) {A} (step : A -> turn -> host -> outcome (option host)) (quiet : gmap Z session_t -> Prop) := {
  reader : thread -> A;
  reader_round : forall t e h, step (reader t) e h = round c t e h;
  others_wait : forall a e h, quiet (h_tcp h) -> (exists t, a = reader t) \/ step a e h = Ret None }.

#[export] Instance readers_only c : Scheduler c (round c) (fun _ => True).
Proof. refine {| reader := fun t => t |}; [done|]. intros t e h _. left. by exists t. Defined.

#[export] Instance readers_and_sender c : Scheduler c (full_round c) all_idle.
Proof.
  refine {| reader := Some |}; [done|]. intros [t|] e h Hi; [left; by exists t|right]. cbn [full_round]. unfold sender_turn.
  by rewrite bool_decide_true.
Defined.

(** ** Lemmas: schedules *)

Lemma inevitably_bind {A} (step : A -> turn -> host -> outcome (option host)) (P Q : host -> Prop) h :
  inevitable step P h -> (forall h', P h' -> inevitable step Q h') -> inevitable step Q h.
Proof. intros HP HQ. induction HP as [h HP|h H1 H2 _ IH]; [by apply HQ|by apply inev_turn]. Qed.

Lemma inevitably_mono {A} (step : A -> turn -> host -> outcome (option host)) (P Q : host -> Prop) h :
  inevitable step P h -> (forall h', P h' -> Q h') -> inevitable step Q h.
Proof. intros HP HQ. eapply inevitably_bind; [exact HP|]. intros h' H'. apply inev_done. auto. Qed.

(** ** Lemmas: the segments as queues, one per thread *)

Definition mailboxes : Type := thread -> list message.

Definition queues (c : config) (cap : thread -> Z) (q : mailboxes) (segs : gmap (list Z) segment) : Prop := hold (inbox c) cap q segs.

(** Names as [create_shm] accepts them, a queue for each thread. *)
Definition names_ok (c : config) : Prop := names_good (inbox c).

Lemma queues_ext c cap q q' segs : (forall t, q t = q' t) -> queues c cap q segs -> queues c cap q' segs.
Proof. apply hold_ext. Qed.

Lemma queues_set c cap q segs t s l :
  names_ok c -> queues c cap q segs -> seg_rep s l -> s_total_size s = cap t ->
  queues c cap (upd q t l) (<[inbox c t := s]> segs).
Proof. apply hold_set. Qed.

Lemma identity_inbox c t dst : exists t', identity c t dst = inbox c t'.
Proof.
  destruct t; cbn [identity]; try (destruct (beq dst (c_arp_out c)));
    first [by exists LinkOut|by exists ArpIn|by exists ArpResolver|by exists Ip4InThread|by exists Ip4Sender
          |by exists IcmpIn|by exists UdpIn|by exists NtpIn|by exists TcpIn|by exists AppIn].
Qed.

Lemma identity_ok c t dst : names_ok c -> zlen (identity c t dst) < max_id_length /\ 0 ∉ identity c t dst.
Proof. intros [_ Hn]. destruct (identity_inbox c t dst) as (t' & ->). apply Hn. Qed.

Lemma arrived_wanted id m0 m t : arrived id m0 m -> waits_for t = msg_any \/ m_type m0 = waits_for t ->
  want (waits_for t) None m = true.
Proof.
  intros Ha [E|E]; unfold want, wanted; [rewrite E|rewrite (ar_type _ _ _ Ha), E].
  - by rewrite orb_true_r.
  - by rewrite Z.eqb_refl.
Qed.

(** The worlds handlers run in. *)
Definition net_ok (c : config) (cap : thread -> Z) (q : mailboxes) (w : net) : Prop :=
  names_ok c /\ (exists t, n_ident w = identity c t) /\ is_u 64 (n_now w) /\ queues c cap q (n_segs w).

(** A send into a queue with room. *)
Lemma net_send_room c cap q w t m :
  net_ok c cap q w -> sendable m -> zlen (encs (q t)) + PAD8 (sizeof_message + m_size m) <= cap t ->
  exists m' s s', let w' := after_send (inbox c t) m w in
    send_ok_b (inbox c t) m w = true /\ net_ok c cap (upd q t (q t ++ [m'])) w' /\ n_ident w' = n_ident w /\
    arrived (n_ident w (inbox c t)) m m' /\ m_msg_nr m' = send_nr (inbox c t) m w /\ zlen (enc m') = PAD8 (sizeof_message + m_size m) /\
    n_segs w !! inbox c t = Some s /\ n_segs w' !! inbox c t = Some s' /\
    (m_type m <> msg_reply -> send_nr (inbox c t) m w = u64 (s_most_recent s + 1) /\ s_most_recent s' = u64 (s_most_recent s + 1)).
Proof.
  intros (Hn & (ti & Hid) & Hnow & Hq) Hm Hroom.
  destruct (net_send_turn (inbox c) cap q w t m false) as (s & Es & w' & E & I & _ & H); [|done|].
  { split; [done|]. split; [|done]. intros dst. rewrite Hid. by apply identity_ok. }
  replace (zlen (encs (q t)) + PAD8 (sizeof_message + m_size m) <=? cap t) with true in E, H by lia.
  destruct H as (m' & s' & (G1 & _ & G3 & G4) & Har & Hnr & Hl & Es' & Hmr).
  exists m', s, s'. unfold send_ok_b, after_send, send_nr. cbn [t_send net_transport]. rewrite E. cbn [fst snd].
  split; [done|]. split; [split; [done|]; split; [exists ti; congruence|done]|]. repeat (split; [done|]). intros Hne.
  rewrite (Hmr Hne). by replace (m_type m =? msg_reply) with false by lia.
Qed.

(** Receiving: the first message of a queue of wanted messages. *)
Lemma round_receives c cap q t m l h e :
  names_ok c -> queues c cap q (h_segs h) -> q t = m :: l -> want (waits_for t) None m = true ->
  exists segs1, queues c cap (upd q t l) segs1 /\
    round c t e h = (h' ← run_thread_body c e t m (set_segs segs1 h); Ret (Some h')).
Proof.
  intros Hn Hq Et Hw. destruct (Hq t) as (s & Es & Hs & Ht). rewrite Et in Hs. unfold round. rewrite Es.
  pose proof (wait_for_message_spec s (m :: l) 100 (waits_for t) None LockOk [TimedOut] Hs ltac:(done) ltac:(lia)) as Hr.
  cbn [take_first] in Hr. rewrite Hw in Hr. destruct Hr as (s' & -> & Hs' & _ & Ht' & _). mcbn. cbn [fst snd].
  eexists. split; [|reflexivity]. apply queues_set; [done..|congruence].
Qed.

Lemma round_idle c cap q t h e : queues c cap q (h_segs h) -> q t = [] -> round c t e h = Ret None.
Proof.
  intros Hq Et. destruct (Hq t) as (s & Es & Hs & Ht). rewrite Et in Hs. unfold round. rewrite Es.
  pose proof (wait_for_message_spec s [] 100 (waits_for t) None LockOk [TimedOut] Hs ltac:(done) ltac:(lia)) as Hr.
  cbn [take_first] in Hr. by rewrite Hr.
Qed.

(** When some message waits, and whichever is taken next leads to [P]. *)
Lemma inev_rounds_by {A} step quiet c `{Scheduler c A step quiet} cap q (P : host -> Prop) h t0 m0 l0 :
  names_ok c -> quiet (h_tcp h) -> queues c cap q (h_segs h) -> q t0 = m0 :: l0 ->
  (forall t m l, q t = m :: l -> want (waits_for t) None m = true /\
     forall e segs1, turn_ok e -> queues c cap (upd q t l) segs1 ->
       exists h', run_thread_body c e t m (set_segs segs1 h) = Ret h' /\ inevitable step P h') ->
  inevitable step P h.
Proof.
  intros Hn Hquiet Hq E0 Hall.
  assert (Hone : forall t m l e, turn_ok e -> q t = m :: l ->
    exists h', round c t e h = Ret (Some h') /\ inevitable step P h').
  { intros t m l e He Et. destruct (Hall t m l Et) as [Hw Hb].
    destruct (round_receives c cap q t m l h e Hn Hq Et Hw) as (segs1 & Hq1 & ->).
    destruct (Hb e segs1 He Hq1) as (h' & -> & Hi). by exists h'. }
  apply inev_turn.
  - exists (reader t0). intros e He. rewrite reader_round. destruct (Hone t0 m0 l0 e He E0) as (h' & -> & _). by exists h'.
  - intros a e He. destruct (others_wait a e h Hquiet) as [(t & ->)|E]; [|by exists None]. rewrite reader_round.
    destruct (q t) as [|m l] eqn:Et; [exists None; by eapply round_idle|].
    destruct (Hone t m l e He Et) as (h' & -> & _). by exists (Some h').
  - intros a e h' He Er. destruct (others_wait a e h Hquiet) as [(t & ->)|E]; [|by rewrite E in Er]. rewrite reader_round in Er.
    destruct (q t) as [|m l] eqn:Et; [by rewrite (round_idle c cap q t h e Hq Et) in Er|].
    destruct (Hone t m l e He Et) as (h'' & Er' & Hi). rewrite Er' in Er. by injection Er as ->.
Qed.

(** ... with one message in one queue. *)
Lemma inev_single_by {A} step quiet c `{Scheduler c A step quiet} cap (P : host -> Prop) h t m :
  names_ok c -> quiet (h_tcp h) -> queues c cap (upd nothing t [m]) (h_segs h) -> want (waits_for t) None m = true ->
  (forall e segs1, turn_ok e -> queues c cap nothing segs1 ->
     exists h', run_thread_body c e t m (set_segs segs1 h) = Ret h' /\ inevitable step P h') ->
  inevitable step P h.
Proof.
  intros Hn Hquiet Hq Hw Hb. apply (inev_rounds_by step quiet c cap _ P h t m [] Hn Hquiet Hq); [unfold upd; by rewrite decide_True|].
  intros t' m' l'. unfold upd at 1. destruct (decide (t' = t)) as [->|]; [|done]. intros [= <- <-]. split; [done|].
  intros e segs1 He Hq1. apply Hb; [done|]. refine (queues_ext c cap _ _ _ _ Hq1).
  intros t'. unfold upd. by destruct (decide (t' = t)).
Qed.

Lemma inev_single c cap (P : host -> Prop) h t m :
  names_ok c -> queues c cap (upd nothing t [m]) (h_segs h) -> want (waits_for t) None m = true ->
  (forall e segs1, turn_ok e -> queues c cap nothing segs1 ->
     exists h', run_thread_body c e t m (set_segs segs1 h) = Ret h' /\ inevitably c P h') ->
  inevitably c P h.
Proof. intros Hn. by apply (inev_single_by (round c) (fun _ => True) c cap P h t m Hn). Qed.

(** A handler that sends one message into the queue of [t2]. *)
Lemma in_net_one {A} c cap e t t2 (p : prog net A) a m h segs1 q :
  p (turn_net c e t segs1) = Ret (a, after_send (inbox c t2) m (turn_net c e t segs1)) ->
  names_ok c -> turn_ok e -> queues c cap q segs1 -> sendable m ->
  zlen (encs (q t2)) + PAD8 (sizeof_message + m_size m) <= cap t2 ->
  exists segs2 m', in_net c e t p (set_segs segs1 h) = Ret (a, set_segs segs2 h) /\
    queues c cap (upd q t2 (q t2 ++ [m'])) segs2 /\ arrived (identity c t (inbox c t2)) m m' /\
    zlen (enc m') = PAD8 (sizeof_message + m_size m).
Proof.
  intros Hp Hn He Hq Hm Hroom. unfold in_net. cbn [h_segs set_segs]. rewrite Hp. mcbn.
  destruct (net_send_room c cap q (turn_net c e t segs1) t2 m) as (m' & s & s' & _ & (_ & _ & _ & Hq2) & _ & Har & _ & Hl & _);
    [split; [done|]; split; [by exists t|]; split; [apply He|done]|done|done|].
  by exists (n_segs (after_send (inbox c t2) m (turn_net c e t segs1))), m'.
Qed.
