(* ===== verification/HostFlow.v ===== *)
(** * Packets through the servers of a host

    The paths through [System]: a frame up to the server of its protocol, and a packet of an
    upper protocol down to the wire with the searches for the two MAC addresses on the
    way, under every schedule of the threads; then the two together: the answer to a "ping",
    and to a request for the time. *)

From S2P Require Import Prelude Net Checksum Str Addr ShmMessage Shm Transport Queues TcpData Tcp L7Sessions Icmp Udp Arp Ip4In Reassembly Ip4Out Ip4 Link Ntp System.

(** ** Lemmas *)

(** The servers send to each other, and agree on the addresses. *)
Record wired (c : config) : Prop := {
  wi_names : names_ok c;
  wi_arp_out : c_arp_out c = c_link c;
  wi_ip4_out : c_ip4_out c = c_link c;
  wi_resolver : c_ip4_resolver c = c_arp_resolver c;
  wi_icmp_out : c_icmp_out c = c_ip4_upper c;
  wi_udp_out : c_udp_out c = c_ip4_upper c;
  wi_ntp_out : c_ntp_out c = c_udp_upper c;
  wi_tcp_out : c_tcp_out c = c_ip4_upper c;
  wi_link_in : c_link_in c !! 0x0800 = Some (c_ip4_lower c);
  wi_link_out : c_link_out c !! c_ip4_lower c = Some 0x0800;
  wi_arp_mac : c_arp_mac c = c_mac c;
  wi_arp_ip : c_arp_ip c = (c_listen c).1;
  wi_mac : bytes (c_mac c) /\ zlen (c_mac c) = 6;
  wi_listen : bytes (c_listen c).1 /\ zlen (c_listen c).1 = 4 /\ 0 <= (c_listen c).2 < 32;
  wi_gw : bytes (c_gw c) /\ zlen (c_gw c) = 4;
  wi_mtu : 28 <= c_mtu c <= 65000 }.

Lemma wired_mtu c : wired c ->
  8 <= use_mtu_size (c_mtu c) <= c_mtu c - 20 /\ use_mtu_size (c_mtu c) mod 8 = 0 /\ u64 (use_mtu_size (c_mtu c)) = use_mtu_size (c_mtu c).
Proof. intros Hc. apply use_mtu_size_spec. pose proof (wi_mtu c Hc). lia. Qed.

(** Room for a packet of [n] bytes, with the frame around it, in every queue, and for two
    searches or their answers in those of the resolver. *)
Definition roomy (cap : thread -> Z) (n : Z) : Prop :=
  forall t, match t with ArpResolver | Ip4Sender => 512 | _ => 2 * n + 256 end <= cap t.

Lemma roomy_empty cap n (q : mailboxes) t k : roomy cap n -> q t = [] -> t <> ArpResolver -> t <> Ip4Sender -> k <= 2 * n + 185 ->
  zlen (encs (q t)) + PAD8 (sizeof_message + k) <= cap t.
Proof.
  intros Hr Hq H1 H2 Hk. rewrite Hq. specialize (Hr t). pose proof (PAD8_le (sizeof_message + k)). unfold sizeof_message in *.
  change (zlen (encs [])) with 0. destruct t; (done || lia).
Qed.

Lemma roomy_one cap n t k : roomy cap n -> t <> ArpResolver -> t <> Ip4Sender -> k <= 2 * n + 185 ->
  zlen (encs (nothing t)) + PAD8 (sizeof_message + k) <= cap t.
Proof. intros Hr. by apply (roomy_empty cap n nothing). Qed.

(** What the resolver answers at once. *)
Definition mac_of (c : config) (arp : arp_state) (a : addr) : option addr :=
  if beq a (c_arp_ip c) then Some (c_arp_mac c) else amap_get (arp_cache arp) a.

Lemma mac_of_ok c arp a hw : wired c -> arp_wf arp -> mac_of c arp a = Some hw -> zlen hw = 6 /\ bytes hw.
Proof.
  intros Hc (_ & _ & Hv). unfold mac_of. destruct (beq a (c_arp_ip c)).
  - intros [= <-]. rewrite (wi_arp_mac c Hc). destruct (wi_mac c Hc). done.
  - induction (arp_cache arp) as [|[k v] r IH]; cbn [amap_get]; [done|]. apply Forall_cons_iff in Hv as [Hkv Hv].
    destruct (beq k a); [by intros [= <-]|by apply IH].
Qed.

Lemma set_segs_id h : set_segs (h_segs h) h = h.
Proof. by destruct h. Qed.

Lemma frag_whole src dst protocol id pl f : ip4_frag src dst protocol id (zlen pl) (0, pl) f ->
  zlen f = 20 + zlen pl /\ (0 <? ip4_offset f) || ip4_more f = false /\ take (Z.to_nat (ip4_size f)) f = f /\ ip4_payload f = pl.
Proof.
  intros Hf. destruct (frag_facts _ _ _ _ _ _ _ Hf ltac:(cbn; lia)) as [H1 H2]. pose proof Hf as [B L V HL S I O M T P Sr D Pa C].
  cbn [fst snd] in *. split; [done|]. split; [|done]. rewrite H1. replace (zlen pl <=? 0 + zlen pl) with true by lia. done.
Qed.

(** The receive handler of IPv4 for a packet in one piece. *)
Lemma ip4_run_in_whole listen mappings_in icmp_error_name junk now m packets full from to pad src protocol id pl f upper :
  m_data m = up_data full from to f ++ pad -> ip4_frag src listen protocol id (zlen pl) (0, pl) f ->
  zlen full <= 65535 -> zlen from <= 255 -> zlen to <= 255 -> zlen f <= 65535 -> zlen listen = 4 -> packets_wf packets ->
  mappings_in !! protocol = Some upper ->
  exists sid, is_u 64 sid /\ forall w : net,
    ip4_run_in listen mappings_in icmp_error_name junk now m packets w =
    Ret (packets, after_send upper (with_id (message_of (up_data f src listen pl) None) sid) w).
Proof.
  intros Hm Hf Lk Lfr Lto Lf Ll Hwf Hu. pose proof (frag_accepted _ _ _ _ _ _ _ _ _ Hf Hu) as Hj.
  destruct (frag_whole _ _ _ _ _ _ Hf) as (_ & Hc & Htk & Hpl). pose proof Hf as [B L V HL S I O M T P Sr D Pa C].
  assert (Hl : forall w : net, exists sid, is_u 64 sid /\ ip4_calc_session_id src listen protocol id = Ret sid /\
    ip4_run_in listen mappings_in icmp_error_name junk now m packets w =
    Ret (packets, after_send upper (with_id (message_of (up_data f src listen pl) None) sid) w)).
  { intros w. pose proof (ip4_run_in_aux listen mappings_in icmp_error_name junk now m packets w full from to f pad
      Hm B Lk Lfr Lto Lf Ll Hwf) as Hrun. cbn beta zeta in Hrun. rewrite Hj, Hc in Hrun.
    destruct Hrun as (sid & Hsid & Hrun). exists sid. rewrite Sr, D, P, I in Hsid.
    split; [by eapply ip4_calc_session_id_u64|]. split; [done|]. rewrite Hrun. unfold ip4_deliver. by rewrite Htk, Sr, D, Hpl. }
  destruct (Hl {| n_ident := fun _ => []; n_now := 0; n_segs := ∅; n_log := [] |}) as (sid & Hu64 & Hsid & _).
  exists sid. split; [done|]. intros w. destruct (Hl w) as (sid' & _ & Hsid' & ->). congruence.
Qed.

(** ** A frame on its way up *)

Lemma incoming_by {A} step quiet c `{Scheduler c A step quiet} cap h e from pkt src protocol id pl t :
  wired c -> quiet (h_tcp h) -> roomy cap (zlen pkt) -> turn_ok e -> queues c cap nothing (h_segs h) -> packets_wf (h_packets h) ->
  zlen from = 6 -> ip4_frag src (c_listen c).1 protocol id (zlen pl) (0, pl) pkt -> 28 <= zlen pkt <= 65000 -> zlen src = 4 ->
  c_proto_in c !! protocol = Some (inbox c t) -> t <> ArpResolver -> t <> Ip4Sender ->
  exists h1, frame_arrives c e (eth_frame (c_mac c) from 0x0800 pkt) h = Ret h1 /\
    inevitable step (fun h' => exists segs m m0, h' = set_segs segs h /\ queues c cap (upd nothing t [m]) segs /\
      arrived (c_ip4_lower c) m0 m /\ m_type m0 = msg_new /\ m_data m0 = up_data pkt src (c_listen c).1 pl) h1.
Proof.
  intros Hc Hquiet Hroom He Hq Hwf Lfrom Hf Lp Ls Hu Hnr Hns. pose proof (wi_names c Hc) as Hn.
  destruct (wi_mac c Hc) as [Bmac Lmac]. destruct (wi_listen c Hc) as (Bl & Ll & _).
  set (f := eth_frame (c_mac c) from 0x0800 pkt). assert (Lf : zlen f = 14 + zlen pkt) by (by apply zlen_eth_frame).
  set (d1 := up_data f from (c_mac c) pkt). assert (Ld1 : zlen d1 = 62 + 2 * zlen pkt) by (unfold d1; rewrite zlen_up_data; lia).
  assert (Hin : forall w : net, tap_run_in (c_mac c) (c_link_in c) f w = Ret (tt, after_send (inbox c Ip4InThread) (message_of d1 None) w)).
  { intros w. unfold tap_run_in, f. rewrite frame_in_spec by (done || lia || (unfold is_u; lia)). rewrite (wi_link_in c Hc), beq_refl.
    replace (28 <=? zlen pkt) with true by lia. rewrite orb_true_r. done. }
  destruct (in_net_one c cap e LinkOut Ip4InThread _ _ _ h (h_segs h) nothing (Hin _) Hn He Hq)
    as (segs1 & m1 & E1 & Hq1 & Har1 & _).
  { apply sendable_of; [lia|done]. }
  { rewrite message_of_size by lia. apply (roomy_one cap (zlen pkt)); (done || lia). }
  rewrite set_segs_id in E1. exists (set_segs segs1 h). split; [unfold frame_arrives; by rewrite E1|].
  apply (inev_single_by step quiet c cap _ (set_segs segs1 h) Ip4InThread m1 Hn Hquiet); [exact Hq1|by apply (arrived_wanted _ _ _ _ Har1); left|]. intros e2 segs2 He2 Hq2.
  destruct Har1 as [_ _ _ (pad & Hd) _]. rewrite m_data_message_of in Hd.
  destruct (ip4_run_in_whole (c_listen c).1 (c_proto_in c) (c_ip4_error c) (e_junk e2) (e_now e2) m1 (h_packets h)
    f from (c_mac c) pad src protocol id pl pkt (inbox c t) Hd Hf) as (sid & Hsid & Hrun); try done; try lia.
  destruct (frag_whole _ _ _ _ _ _ Hf) as (Lpkt & _).
  set (d2 := up_data pkt src (c_listen c).1 pl) in *. assert (Ld2 : zlen d2 = 44 + zlen pl + zlen pkt) by (unfold d2; rewrite zlen_up_data; lia).
  pose proof (zlen_nonneg pl).
  destruct (in_net_one c cap e2 Ip4InThread t _ _ _ (set_segs segs1 h) segs2 nothing (Hrun _) Hn He2 Hq2)
    as (segs3 & m2 & E2 & Hq3 & Har2 & _).
  { apply sendable_id; [|done]. apply sendable_of; [lia|done]. }
  { cbn [with_id m_size]. rewrite message_of_size by lia. apply (roomy_one cap (zlen pkt)); (done || lia). }
  eexists. split; [exact (f_equal (fun r => x ← r; Ret (set_packets x.1 x.2)) E2)|].
  apply inev_done. exists segs3, m2, (with_id (message_of d2 None) sid). split; [done|]. split; [exact Hq3|].
  split; [exact Har2|]. split; [done|]. cbn [with_id m_data]. apply m_data_message_of.
Qed.

Lemma incoming c cap h e from pkt src protocol id pl t :
  wired c -> roomy cap (zlen pkt) -> turn_ok e -> queues c cap nothing (h_segs h) -> packets_wf (h_packets h) ->
  zlen from = 6 -> ip4_frag src (c_listen c).1 protocol id (zlen pl) (0, pl) pkt -> 28 <= zlen pkt <= 65000 -> zlen src = 4 ->
  c_proto_in c !! protocol = Some (inbox c t) -> t <> ArpResolver -> t <> Ip4Sender ->
  exists h1, frame_arrives c e (eth_frame (c_mac c) from 0x0800 pkt) h = Ret h1 /\
    inevitably c (fun h' => exists segs m m0, h' = set_segs segs h /\ queues c cap (upd nothing t [m]) segs /\
      arrived (c_ip4_lower c) m0 m /\ m_type m0 = msg_new /\ m_data m0 = up_data pkt src (c_listen c).1 pl) h1.
Proof. intros Hc. by apply (incoming_by (round c) (fun _ => True) c cap h e from pkt src protocol id pl t Hc). Qed.

(** ** A packet on its way down *)

Lemma zlen_search a : bytes a -> zlen a = 4 -> 0 < zlen (search_mac a) <= 55.
Proof.
  intros Ba La. unfold search_mac. rewrite zlen_app, zlen_cons. change (zlen (str "search-mac")) with 10.
  pose proof (zlen_to_str 46 false a Ba). pose proof (zlen_nonneg (to_str 46 false a)). lia.
Qed.

Lemma sendable_search a : bytes a -> zlen a = 4 -> sendable (search_message a) /\ m_size (search_message a) = zlen (search_mac a).
Proof.
  intros Ba La. pose proof (zlen_search a Ba La). change (search_message a) with (fill_message (allocate_shm_message (zlen (search_mac a))) msg_new 0 (search_mac a)).
  split; [apply sendable_fill; [lia|unfold is_u, msg_new; lia|unfold is_u; lia]|apply fill_size; lia].
Qed.

Lemma zlen_answer a hw : bytes a -> zlen a = 4 -> bytes hw -> zlen hw = 6 -> 0 < zlen (mac_answer a hw) <= 119.
Proof.
  intros Ba La Bh Lh. destruct (zlen_mac_answer a hw Ba Bh La Lh) as [H _]. split; [done|]. unfold mac_answer. rewrite !zlen_app.
  change (zlen (str "ip4:")) with 4. change (zlen (str "=mac:")) with 5.
  pose proof (zlen_to_str 46 false a Ba). pose proof (zlen_to_str 58 true hw Bh). lia.
Qed.

Lemma answer_replies id a hw nr r : bytes a -> zlen a = 4 -> bytes hw -> zlen hw = 6 ->
  arrived id (reply_message (mac_answer a hw) nr) r -> resolver_reply nr hw r.
Proof.
  intros Ba La Bh Lh [_ _ Hs (pad & Hd) Hn]. pose proof (zlen_answer a hw Ba La Bh Lh). split; [by apply Hn|].
  exists (str "ip4:" ++ to_str 46 false a), pad. cbn zeta. rewrite <- app_assoc. split; [|split].
  - rewrite not_elem_of_app. split; [refine (bool_decide_unpack _ _); by vm_compute|apply to_str_no_char; lia].
  - rewrite Hs. unfold reply_message. rewrite fill_size by lia. reflexivity.
  - exact Hd.
Qed.

Section Outgoing.
Context (c : config) (cap : thread -> Z) (Hc : wired c).

(** The resolver has the answer. *)
Lemma resolver_step e segs1 h q m a hw n :
  roomy cap n -> turn_ok e -> queues c cap q segs1 -> arrived (c_ip4_replies c) (search_message a) m -> is_u 64 (m_msg_nr m) ->
  bytes a -> zlen a = 4 -> arp_wf (h_arp h) -> mac_of c (h_arp h) a = Some hw -> zlen (encs (q Ip4Sender)) <= 320 ->
  exists segs2 r, run_thread_body c e ArpResolver m (set_segs segs1 h) = Ret (set_segs segs2 h) /\
    queues c cap (upd q Ip4Sender (q Ip4Sender ++ [r])) segs2 /\ resolver_reply (m_msg_nr m) hw r /\
    m_type r = msg_reply /\ zlen (enc r) <= 190.
Proof.
  intros Hroom He Hq Har Hnr Ba La Hwf Hmac Hfill. destruct (mac_of_ok c _ _ _ Hc Hwf Hmac) as [Lh Bh].
  destruct (wi_mac c Hc) as [Bm Lm]. destruct (wi_listen c Hc) as (Bl & Ll & _).
  destruct (sendable_search a Ba La) as [_ Hsz]. pose proof (zlen_answer a hw Ba La Bh Lh).
  pose proof (ar_data _ _ _ Har) as (pad & Hd).
  assert (Hrun : forall w : net, arp_run_resolver (c_arp_ip c) (c_arp_mac c) (c_arp_out c) (e_junk e) (e_msg_nr e) m (h_arp h) w =
    Ret (h_arp h, after_send (inbox c Ip4Sender) (reply_message (mac_answer a hw) (m_msg_nr m)) w)).
  { intros w. rewrite (arp_run_resolver_aux (c_arp_ip c) (c_arp_mac c) (c_arp_out c) (e_junk e) (e_msg_nr e) m (h_arp h) w a pad); try done.
    - change (if beq a (c_arp_ip c) then _ else _) with (mac_of c (h_arp h) a). rewrite Hmac. by rewrite (ar_sender _ _ _ Har).
    - by rewrite (ar_size _ _ _ Har).
    - by rewrite (wi_arp_ip c Hc).
    - by rewrite (wi_arp_ip c Hc).
    - by rewrite (wi_arp_mac c Hc).
    - by rewrite (wi_arp_mac c Hc). }
  assert (Hrs : m_size (reply_message (mac_answer a hw) (m_msg_nr m)) = zlen (mac_answer a hw)) by (apply fill_size; lia).
  pose proof (PAD8_le (sizeof_message + zlen (mac_answer a hw))) as HP. unfold sizeof_message in HP.
  destruct (in_net_one c cap e ArpResolver Ip4Sender _ _ _ h segs1 q (Hrun _) (wi_names c Hc) He Hq) as (segs2 & r & E & Hq2 & Har2 & Hl).
  { apply sendable_fill; [lia|unfold is_u, msg_reply; lia|done]. }
  { rewrite Hrs. specialize (Hroom Ip4Sender). unfold sizeof_message. cbn beta iota in Hroom. lia. }
  exists segs2, r. split; [exact (f_equal (fun r => x ← r; Ret (set_arp x.1 x.2)) E)|]. split; [exact Hq2|].
  split; [exact (answer_replies _ a hw _ r Ba La Bh Lh Har2)|]. split; [exact (ar_type _ _ _ Har2)|]. rewrite Hl, Hrs. unfold sizeof_message. lia.
Qed.

(** The sender thread, for the first and for the second answer. *)
Lemma sender_first_step e segs1 h r now m n1 n2 mac :
  bytes mac -> n1 <> n2 -> o_pending (h_out h) !! n1 = None -> o_pending (h_out h) !! n2 = None -> resolver_reply n1 mac r ->
  run_thread_body c e Ip4Sender r (set_segs segs1 (set_out (queue_pending (new_pending now m n1 n2) (h_out h)) h)) =
  Ret (set_segs segs1 (set_out (half_pending true now m n1 n2 mac (h_out h)) h)).
Proof.
  intros Bm Hne P1 P2 Hr. cbn [run_thread_body]. unfold in_net. cbn [h_out set_out set_segs].
  rewrite (ip4_first_reply _ _ _ _ _ _ true m n1 n2 mac) by done. done.
Qed.

Lemma sender_second_step e segs1 h q r now m n1 n2 mac1 mac2 src dst pl pad protocol :
  roomy cap (20 + zlen pl) -> turn_ok e -> queues c cap q segs1 -> q LinkOut = [] ->
  m_data m = down_data src dst pl ++ pad -> c_proto_out c !! sender_of m = Some protocol ->
  bytes src -> zlen src = 4 -> bytes dst -> zlen dst = 4 -> bytes pl -> 0 < zlen pl <= use_mtu_size (c_mtu c) -> is_byte protocol ->
  bytes mac1 -> zlen mac1 = 6 -> bytes mac2 -> zlen mac2 = 6 ->
  n1 <> n2 -> o_pending (h_out h) = ∅ -> o_heap (h_out h) !! o_next (h_out h) = None -> resolver_reply n2 mac2 r ->
  exists segs2 m' o f, run_thread_body c e Ip4Sender r (set_segs segs1 (set_out (half_pending true now m n1 n2 mac1 (h_out h)) h)) =
      Ret (set_segs segs2 (set_out o h)) /\
    queues c cap (upd q LinkOut [m']) segs2 /\ arrived (c_ip4_lower c) (frame_message mac1 mac2 f) m' /\
    ip4_frag src dst protocol (e_packets_id e) (zlen pl) (0, pl) f /\
    o_pending o = ∅ /\ o_heap o = o_heap (h_out h) /\ o_next o = o_next (h_out h) + 1.
Proof.
  intros Hroom He Hq Hql Hm Hmap Bs Ls Bd Ld Bp Lp Hpr B1 L1 B2 L2 Hne P Hfresh Hr.
  destruct (wired_mtu c Hc) as (Hus & _). pose proof (wi_mtu c Hc).
  destruct He as (He1 & He2 & He3 & He4). set (w := turn_net c e Ip4Sender segs1).
  destruct (ip4_second_reply (W := net) (c_proto_out c) (c_ip4_out c) (c_mtu c) (e_packets_id e) (e_junk e) r true m n1 n2 mac1 mac2 (h_out h) now w
    src dst pl pad protocol) as (o & frames & Hfr & Hrun & HP & HH & HN); try done; try lia; try (by rewrite P).
  assert (Hch : chunks (use_mtu_size (c_mtu c)) pl = [pl]).
  { rewrite chunks_cons by (lia || (intros ->; unfold zlen in Lp; cbn [length] in Lp; lia)). by rewrite take_ge, drop_ge by (unfold zlen in Lp; lia). }
  rewrite Hch in Hfr. cbn [pieces] in Hfr. inversion Hfr as [|? f ? ? Hf Hnil]; subst. inversion Hnil; subst.
  destruct (frag_whole _ _ _ _ _ _ Hf) as (Lf & _).
  set (d := down_data mac1 mac2 f). assert (Ld1 : zlen d = 40 + zlen f) by (unfold d; rewrite zlen_down_data; lia).
  destruct (net_send_room c cap q w LinkOut (message_of d None)) as (m' & s & s' & _ & (_ & _ & _ & Hq2) & _ & Har & _).
  { split; [apply (wi_names c Hc)|]. split; [by exists Ip4Sender|]. split; [apply He1|done]. }
  { apply sendable_of; [lia|done]. }
  { rewrite message_of_size by lia. apply (roomy_empty cap (20 + zlen pl)); (done || lia). }
  rewrite Hql in Hq2. exists (n_segs (after_send (inbox c LinkOut) (message_of d None) w)), m', o, f.
  split; [|split; [exact Hq2|split; [exact Har|split; [exact Hf|split; [congruence|by split]]]]].
  cbn [run_thread_body]. unfold in_net. cbn [h_out set_out set_segs h_segs]. fold w. rewrite Hrun. mcbn. cbn [fst snd map send_until].
  rewrite (wi_ip4_out c Hc). change (frame_message mac1 mac2 f) with (message_of d None). change (c_link c) with (inbox c LinkOut).
  by destruct (send_ok_b _ _ w).
Qed.

(** The link server writes the frame. *)
Lemma link_step e segs1 h m mac1 mac2 f :
  arrived (c_ip4_lower c) (frame_message mac1 mac2 f) m -> zlen mac1 = 6 -> zlen mac2 = 6 -> 0 < zlen f <= 65535 ->
  run_thread_body c e LinkOut m (set_segs segs1 h) = Ret (transmit (Some (eth_frame mac2 mac1 0x0800 f)) (set_segs segs1 h)).
Proof.
  intros Har L1 L2 Lf. destruct (ar_data _ _ _ Har) as (pad & Hd). unfold frame_message in Hd. rewrite m_data_message_of in Hd. cbn [run_thread_body].
  unfold tap_run_out. rewrite (frame_of_spec _ _ m mac1 mac2 f pad Hd) by lia.
  rewrite (ar_sender _ _ _ Har), (wi_link_out c Hc), L1, L2. replace (zlen f =? 0) with false by lia.
  cbn [Z.eqb Pos.eqb negb andb fmap option_fmap option_map]. mcbn. by rewrite Z.eqb_refl.
Qed.

(** The searches for the two MAC addresses. *)
Lemma out_step e segs1 h q m src dst pl pad :
  512 <= cap ArpResolver -> turn_ok e -> queues c cap q segs1 -> q ArpResolver = [] ->
  m_data m = down_data src dst pl ++ pad -> bytes src -> zlen src = 4 -> bytes dst -> zlen dst = 4 -> zlen pl <= 65535 ->
  exists segs2 s1 s2, run_thread_body c e Ip4OutThread m (set_segs segs1 h) =
      Ret (set_segs segs2 (set_out (queue_pending (new_pending (e_now e) m (m_msg_nr s1) (m_msg_nr s2)) (h_out h)) h)) /\
    queues c cap (upd q ArpResolver [s1; s2]) segs2 /\
    arrived (c_ip4_replies c) (search_message src) s1 /\ arrived (c_ip4_replies c) (search_message (ip4_via (c_listen c) (c_gw c) dst)) s2 /\
    m_msg_nr s1 <> m_msg_nr s2 /\ is_u 64 (m_msg_nr s1) /\ is_u 64 (m_msg_nr s2).
Proof.
  intros Hcap He Hq Hqr Hm Bs Ls Bd Ld Lp. destruct (wi_listen c Hc) as (Bl & Ll & Hpre). destruct (wi_gw c Hc) as [Bg Lg].
  set (via := ip4_via (c_listen c) (c_gw c) dst).
  assert (Hvia : bytes via /\ zlen via = 4) by (unfold via, ip4_via; by destruct (_ =? _)). destruct Hvia as [Bv Lv].
  set (w := turn_net c e Ip4OutThread segs1).
  destruct (sendable_search src Bs Ls) as [S1 Z1]. destruct (sendable_search via Bv Lv) as [S2 Z2].
  pose proof (zlen_search src Bs Ls). pose proof (zlen_search via Bv Lv).
  pose proof (PAD8_le (sizeof_message + zlen (search_mac src))) as P1. pose proof (PAD8_le (sizeof_message + zlen (search_mac via))) as P2.
  unfold sizeof_message in P1, P2.
  assert (Hw : net_ok c cap q w) by (split; [apply (wi_names c Hc)|]; split; [by exists Ip4OutThread|]; split; [apply He|done]).
  destruct (net_send_room c cap q w ArpResolver (search_message src) Hw S1) as (s1 & g1 & g1' & Ok1 & Hw1 & I1 & A1 & N1 & L1 & _ & G1' & M1).
  { rewrite Z1, Hqr. change (zlen (encs [])) with 0. unfold sizeof_message. lia. }
  destruct (M1 ltac:(done)) as [M1a M1b]. set (w1 := after_send (inbox c ArpResolver) (search_message src) w) in *.
  destruct (net_send_room c cap _ w1 ArpResolver (search_message via) Hw1 S2) as (s2 & g2 & g2' & Ok2 & Hw2 & I2 & A2 & N2 & L2 & G2 & _ & M2).
  { unfold upd. rewrite decide_True by done. rewrite Hqr. cbn [app]. rewrite encs_cons, zlen_app, L1, Z1, Z2. change (zlen (encs [])) with 0.
    unfold sizeof_message. lia. }
  destruct (M2 ltac:(done)) as [M2a _]. rewrite G2 in G1'. injection G1' as ->. rewrite M1b in M2a.
  pose proof (ip4_run_out_aux (W := net) (c_listen c) (c_gw c) (c_ip4_resolver c) (e_now e) m (h_out h) w src dst pl pad
    Hm Bs Ls Bd Ld Lp Bl Ll Bg Lg Hpre) as Hrun. cbn zeta in Hrun. fold via in Hrun. rewrite (wi_resolver c Hc) in Hrun.
  change (c_arp_resolver c) with (inbox c ArpResolver) in Hrun. fold w1 in Hrun. rewrite Ok1, Ok2, <- N1, <- N2 in Hrun. cbn [andb] in Hrun.
  exists (n_segs (after_send (inbox c ArpResolver) (search_message via) w1)), s1, s2. split.
  { cbn [run_thread_body]. unfold in_net. cbn [h_out set_segs h_segs]. fold w.
    rewrite (wi_resolver c Hc). change (c_arp_resolver c) with (inbox c ArpResolver). by rewrite Hrun. }
  destruct Hw2 as (_ & _ & _ & Hq2). split.
  { refine (queues_ext c cap _ _ _ _ Hq2). intros t. unfold upd. rewrite Hqr. by destruct (decide (t = ArpResolver)). }
  split; [exact A1|]. split; [rewrite I1 in A2; exact A2|]. rewrite N1, N2, M1a, M2a.
  assert (Hu : forall x, is_u 64 (u64 x)) by (intros x; apply wrap_range; lia).
  split; [|by split]. set (x := s_most_recent g1 + 1). specialize (Hu x). unfold is_u, wrap in *.
  destruct (Z.eq_dec (x mod 2 ^ 64) (2 ^ 64 - 1)) as [E|E].
  - rewrite E. change ((2 ^ 64 - 1 + 1) mod 2 ^ 64) with 0. lia.
  - rewrite (Z.mod_small (x mod 2 ^ 64 + 1)) by lia. lia.
Qed.

(** On the wire: [pl] in one packet from [src] to [dst], in a frame to [mac2]; the queues are empty and
    nothing is pending, as before. *)
Definition sent_out (h0 : host) (src dst : addr) (protocol : Z) (mac2 : addr) (pl : list Z) (h : host) : Prop :=
  exists id f, is_u 16 id /\ ip4_frag src dst protocol id (zlen pl) (0, pl) f /\
    h_wire h = h_wire h0 ++ [eth_frame mac2 (c_mac c) 0x0800 f] /\ queues c cap nothing (h_segs h) /\
    h_packets h = h_packets h0 /\ h_arp h = h_arp h0 /\ h_tcp h = h_tcp h0 /\ h_apps h = h_apps h0 /\ o_pending (h_out h) = ∅ /\ o_heap (h_out h) = o_heap (h_out h0) /\ o_next (h_out h) = o_next (h_out h0) + 1.

(** A message for the server on top of TCP may be taken at any moment meanwhile: [l] is what waits for
    it, [apps] are its sessions, [apps'] those in the end. *)
Definition beside (l : list message) : mailboxes := upd nothing AppIn l.
Notation app_turns := (l7_turns (c_app_closes c)).

Context (apps' : gmap Z l7_session).
Context {A : Type} (step : A -> turn -> host -> outcome (option host)) (quiet : gmap Z session_t -> Prop) {Hsch : Scheduler c step quiet}.

Lemma inev_beside (P : host -> Prop) h l q t0 m0 l0 :
  quiet (h_tcp h) -> queues c cap q (h_segs h) -> q AppIn = l -> q t0 = m0 :: l0 -> app_turns l (h_apps h) = Ret apps' ->
  (forall t m r, t <> AppIn -> q t = m :: r -> want (waits_for t) None m = true /\
     forall e segs1, turn_ok e -> queues c cap (upd q t r) segs1 ->
       exists h', run_thread_body c e t m (set_segs segs1 h) = Ret h' /\ inevitable step P h') ->
  (forall d l' apps1 segs1, l = d :: l' -> app_turns l' apps1 = Ret apps' -> queues c cap (upd q AppIn l') segs1 ->
     inevitable step P (set_segs segs1 (set_apps apps1 h))) ->
  inevitable step P h.
Proof.
  intros Hqu Hq El E0 Hl Hown Hside. apply (inev_rounds_by step quiet c cap q P h t0 m0 l0 (wi_names c Hc) Hqu Hq E0). intros t m r Et.
  destruct (decide (t = AppIn)) as [->|Hna]; [|by apply Hown].
  split; [unfold want, wanted; cbn; by rewrite orb_true_r|]. intros e segs1 He Hq1.
  rewrite El in Et. rewrite Et in Hl, Hside. cbn [l7_turns] in Hl. destruct (l7_turn (c_app_closes c) m (h_apps h)) as [apps1|] eqn:E1; [|discriminate Hl].
  exists (set_segs segs1 (set_apps apps1 h)). split; [|by apply (Hside m r apps1 segs1)].
  cbn [run_thread_body]. change (h_apps (set_segs segs1 h)) with (h_apps h). by rewrite E1.
Qed.

(** Nothing is left but that. *)
Lemma drained (P : host -> Prop) l h segs :
  quiet (h_tcp h) -> queues c cap (beside l) segs -> app_turns l (h_apps h) = Ret apps' ->
  (forall segs', queues c cap nothing segs' -> P (set_segs segs' (set_apps apps' h))) -> inevitable step P (set_segs segs h).
Proof.
  revert h segs. induction l as [|d l IH]; intros h segs Hqu Hq Hl HP.
  - injection Hl as <-. apply inev_done. replace (set_segs segs h) with (set_segs segs (set_apps (h_apps h) h)) by (by destruct h).
    apply HP. refine (queues_ext c cap _ _ _ _ Hq). by intros [].
  - apply (inev_beside P (set_segs segs h) (d :: l) (beside (d :: l)) AppIn d l Hqu Hq eq_refl eq_refl Hl).
    + intros t m r Hne Et. by destruct t.
    + intros d' l' apps1 segs1 [= <- <-] Hl1 Hq1. apply (IH (set_apps apps1 h) segs1); [exact Hqu| |exact Hl1|exact HP].
      refine (queues_ext c cap _ _ _ _ Hq1). by intros [].
Qed.

(** The state of the way down: who holds what. *)
Context (h0 : host) (src dst : addr) (protocol : Z) (pl : list Z) (mac2 : addr).
Context (Hroom : roomy cap (20 + zlen pl)) (Hwf : arp_wf (h_arp h0)).
Context (Bs : bytes src) (Ls : zlen src = 4) (Bd : bytes dst) (Ld : zlen dst = 4) (Bp : bytes pl).
Context (Lp : 0 < zlen pl <= use_mtu_size (c_mtu c)) (Hpr : is_byte protocol).
Context (Hmac1 : mac_of c (h_arp h0) src = Some (c_mac c)).
Context (Hmac2 : mac_of c (h_arp h0) (ip4_via (c_listen c) (c_gw c) dst) = Some mac2).
Context (Hquiet : quiet (h_tcp h0)) (Hpend : o_pending (h_out h0) = ∅) (Hfresh : o_heap (h_out h0) !! o_next (h_out h0) = None).
Context (now : Z) (m : message) (pad : list Z) (n1 n2 : Z).
Context (Hm : m_data m = down_data src dst pl ++ pad) (Hmap : c_proto_out c !! sender_of m = Some protocol) (Hne : n1 <> n2).

Notation P := (sent_out (set_apps apps' h0) src dst protocol mac2 pl).
Notation half a := (set_out (half_pending true now m n1 n2 (c_mac c) (h_out h0)) (set_apps a h0)).
Notation asked a := (set_out (queue_pending (new_pending now m n1 n2) (h_out h0)) (set_apps a h0)).

Lemma via_ok : bytes (ip4_via (c_listen c) (c_gw c) dst) /\ zlen (ip4_via (c_listen c) (c_gw c) dst) = 4.
Proof. destruct (wi_gw c Hc). unfold ip4_via. by destruct (_ =? _). Qed.

(** The message for the other server is taken first. *)
Ltac app_first IH :=
  let E := fresh in intros d' l' apps1 segs1 E Hl1 Hq1; apply (IH l' ltac:(rewrite E; apply Nat.lt_succ_diag_r) apps1 segs1);
  [refine (queues_ext c cap _ _ _ _ Hq1); by intros []|exact Hl1].

(** The frame waits for the link server. *)
Lemma frame_waits l a segs o x id f :
  queues c cap (upd (beside l) LinkOut [x]) segs -> app_turns l a = Ret apps' ->
  arrived (c_ip4_lower c) (frame_message (c_mac c) mac2 f) x -> is_u 16 id -> ip4_frag src dst protocol id (zlen pl) (0, pl) f ->
  o_pending o = ∅ -> o_heap o = o_heap (h_out h0) -> o_next o = o_next (h_out h0) + 1 ->
  inevitable step P (set_segs segs (set_out o (set_apps a h0))).
Proof.
  intros Hq Hl Har Hid Hf HP HH HN. revert a segs Hq Hl. induction l as [l IH] using (induction_ltof1 _ (@length message)). intros a segs Hq Hl.
  destruct (wi_mac c Hc) as [Bm Lm]. destruct (mac_of_ok c _ _ _ Hc Hwf Hmac2) as [L2 B2].
  destruct (frag_whole _ _ _ _ _ _ Hf) as (Lf & _). destruct (wired_mtu c Hc) as (Hus & _). pose proof (wi_mtu c Hc).
  apply (inev_beside P (set_segs segs (set_out o (set_apps a h0))) l (upd (beside l) LinkOut [x]) LinkOut x [] Hquiet Hq eq_refl eq_refl Hl); [|app_first IH].
  intros t y r Hna Et. destruct t; try discriminate Et; try done. injection Et as <- <-.
  split; [by apply (arrived_wanted _ _ _ _ Har); left|]. intros e segs1 He Hq1.
  eexists. split; [apply (link_step e segs1 (set_out o (set_apps a h0)) x (c_mac c) mac2 f Har); lia|].
  change (transmit ?fr (set_segs segs1 ?h)) with (set_segs segs1 (transmit fr h)).
  apply (drained P l _ segs1); [exact Hquiet|refine (queues_ext c cap _ _ _ _ Hq1); by intros []|exact Hl|]. intros segs' Hq'. exists id, f. split; [done|].
  exact (conj Hf (conj eq_refl (conj Hq' (conj eq_refl (conj eq_refl (conj eq_refl (conj eq_refl (conj HP (conj HH HN))))))))).
Qed.

(** Both addresses known but the second one still in the queue of answers. *)
Lemma second_answer l a segs r2 :
  queues c cap (upd (beside l) Ip4Sender [r2]) segs -> app_turns l a = Ret apps' -> resolver_reply n2 mac2 r2 -> m_type r2 = msg_reply ->
  inevitable step P (set_segs segs (half a)).
Proof.
  intros Hq Hl Hr Ht. revert a segs Hq Hl. induction l as [l IH] using (induction_ltof1 _ (@length message)). intros a segs Hq Hl.
  destruct (wi_mac c Hc) as [Bm Lm]. destruct (mac_of_ok c _ _ _ Hc Hwf Hmac2) as [L2 B2].
  apply (inev_beside P (set_segs segs (half a)) l (upd (beside l) Ip4Sender [r2]) Ip4Sender r2 [] Hquiet Hq eq_refl eq_refl Hl); [|app_first IH].
  intros t y r Hna Et. destruct t; try discriminate Et; try done. injection Et as <- <-.
  split; [unfold want, wanted; by rewrite Ht|]. intros e segs1 He Hq1.
  destruct (sender_second_step e segs1 (set_apps a h0) (upd (upd (beside l) Ip4Sender [r2]) Ip4Sender []) r2 now m n1 n2 (c_mac c) mac2 src dst pl pad protocol)
    as (segs2 & m' & o & f & E & Hq2 & Har & Hf & HP & HH & HN); try done.
  eexists. split; [exact E|]. apply (frame_waits l a segs2 o m' (e_packets_id e) f); try done; [|apply He].
  refine (queues_ext c cap _ _ _ _ Hq2). by intros [].
Qed.

(** The first answer was used, the second search is still to be answered. *)
Lemma second_search l a segs s2 :
  queues c cap (upd (beside l) ArpResolver [s2]) segs -> app_turns l a = Ret apps' ->
  arrived (c_ip4_replies c) (search_message (ip4_via (c_listen c) (c_gw c) dst)) s2 -> m_msg_nr s2 = n2 -> is_u 64 n2 ->
  inevitable step P (set_segs segs (half a)).
Proof.
  intros Hq Hl Har En Hu. revert a segs Hq Hl. induction l as [l IH] using (induction_ltof1 _ (@length message)). intros a segs Hq Hl.
  destruct via_ok as [Bv Lv].
  apply (inev_beside P (set_segs segs (half a)) l (upd (beside l) ArpResolver [s2]) ArpResolver s2 [] Hquiet Hq eq_refl eq_refl Hl); [|app_first IH].
  intros t y r Hna Et. destruct t; try discriminate Et; try done. injection Et as <- <-.
  split; [by apply (arrived_wanted _ _ _ _ Har); right|]. intros e segs1 He Hq1.
  destruct (resolver_step e segs1 (half a) (upd (upd (beside l) ArpResolver [s2]) ArpResolver []) s2 _ mac2 _ Hroom He Hq1 Har)
    as (segs2 & rr & E & Hq2 & Hr & Ht & _); try done; [by rewrite En|].
  eexists. split; [exact E|]. rewrite En in Hr. apply (second_answer l a segs2 rr); try done.
  refine (queues_ext c cap _ _ _ _ Hq2). by intros [].
Qed.

(** Both answers wait. *)
Lemma both_answers l a segs r1 r2 :
  queues c cap (upd (beside l) Ip4Sender [r1; r2]) segs -> app_turns l a = Ret apps' ->
  resolver_reply n1 (c_mac c) r1 -> m_type r1 = msg_reply -> resolver_reply n2 mac2 r2 -> m_type r2 = msg_reply ->
  inevitable step P (set_segs segs (asked a)).
Proof.
  intros Hq Hl Hr1 T1 Hr2 T2. revert a segs Hq Hl. induction l as [l IH] using (induction_ltof1 _ (@length message)). intros a segs Hq Hl.
  destruct (wi_mac c Hc) as [Bm Lm].
  apply (inev_beside P (set_segs segs (asked a)) l (upd (beside l) Ip4Sender [r1; r2]) Ip4Sender r1 [r2] Hquiet Hq eq_refl eq_refl Hl); [|app_first IH].
  intros t y r Hna Et. destruct t; try discriminate Et; try done. injection Et as <- <-.
  split; [unfold want, wanted; by rewrite T1|]. intros e segs1 He Hq1.
  eexists. split; [apply (sender_first_step e segs1 (set_apps a h0) r1 now m n1 n2 (c_mac c)); try done; cbn [h_out set_apps]; by rewrite Hpend|].
  apply (second_answer l a segs1 r2); try done. refine (queues_ext c cap _ _ _ _ Hq1). by intros [].
Qed.

(** One answer waits, and the other search. *)
Lemma answer_and_search l a segs r1 s2 :
  queues c cap (upd (upd (beside l) ArpResolver [s2]) Ip4Sender [r1]) segs -> app_turns l a = Ret apps' ->
  resolver_reply n1 (c_mac c) r1 -> m_type r1 = msg_reply -> zlen (enc r1) <= 190 ->
  arrived (c_ip4_replies c) (search_message (ip4_via (c_listen c) (c_gw c) dst)) s2 -> m_msg_nr s2 = n2 -> is_u 64 n2 ->
  inevitable step P (set_segs segs (asked a)).
Proof.
  intros Hq Hl Hr1 T1 Z1 A2 E2 U2. revert a segs Hq Hl. induction l as [l IH] using (induction_ltof1 _ (@length message)). intros a segs Hq Hl.
  destruct (wi_mac c Hc) as [Bm Lm]. destruct via_ok as [Bv Lv]. set (q := upd (upd (beside l) ArpResolver [s2]) Ip4Sender [r1]) in *.
  apply (inev_beside P (set_segs segs (asked a)) l q ArpResolver s2 [] Hquiet Hq eq_refl eq_refl Hl); [|app_first IH].
  intros t y r Hna Et. destruct t; try discriminate Et; try done; injection Et as <- <-.
  - split; [by apply (arrived_wanted _ _ _ _ A2); right|]. intros e segs1 He Hq1.
    destruct (resolver_step e segs1 (asked a) _ s2 _ mac2 _ Hroom He Hq1 A2) as (segs2 & r2 & Er2 & Hq2 & Hr2 & T2 & _); try done.
    1: by rewrite E2.
    { change (upd _ _ _ _) with [r1]. rewrite encs_cons, zlen_app. change (zlen (encs [])) with 0. lia. }
    eexists. split; [exact Er2|]. rewrite E2 in Hr2. apply (both_answers l a segs2 r1 r2); try done.
    refine (queues_ext c cap _ _ _ _ Hq2). by intros [].
  - split; [unfold want, wanted; by rewrite T1|]. intros e segs1 He Hq1.
    eexists. split; [apply (sender_first_step e segs1 (set_apps a h0) r1 now m n1 n2 (c_mac c)); try done; cbn [h_out set_apps]; by rewrite Hpend|].
    apply (second_search l a segs1 s2); try done. refine (queues_ext c cap _ _ _ _ Hq1). by intros [].
Qed.

Lemma both_searches l a segs s1 s2 :
  queues c cap (upd (beside l) ArpResolver [s1; s2]) segs -> app_turns l a = Ret apps' ->
  arrived (c_ip4_replies c) (search_message src) s1 ->
  arrived (c_ip4_replies c) (search_message (ip4_via (c_listen c) (c_gw c) dst)) s2 ->
  m_msg_nr s1 = n1 -> m_msg_nr s2 = n2 -> is_u 64 n1 -> is_u 64 n2 -> inevitable step P (set_segs segs (asked a)).
Proof.
  intros Hq Hl A1 A2 E1 E2 U1 U2. revert a segs Hq Hl. induction l as [l IH] using (induction_ltof1 _ (@length message)). intros a segs Hq Hl.
  apply (inev_beside P (set_segs segs (asked a)) l (upd (beside l) ArpResolver [s1; s2]) ArpResolver s1 [s2] Hquiet Hq eq_refl eq_refl Hl); [|app_first IH].
  intros t y r Hna Et. destruct t; try discriminate Et; try done. injection Et as <- <-.
  split; [by apply (arrived_wanted _ _ _ _ A1); right|]. intros e segs1 He Hq1.
  destruct (resolver_step e segs1 (asked a) _ s1 src (c_mac c) _ Hroom He Hq1 A1) as (segs2 & r1 & Er1 & Hq2 & Hr1 & T1 & Z1); try done.
  1: by rewrite E1.
  eexists. split; [exact Er1|]. rewrite E1 in Hr1. apply (answer_and_search l a segs2 r1 s2); try done.
  refine (queues_ext c cap _ _ _ _ Hq2). by intros [].
Qed.

End Outgoing.

(** A packet handed to IPv4 goes out, under every schedule, whatever the server on top of TCP has to do meanwhile. *)
Lemma outgoing_beside_by {A} step quiet c `{Scheduler c A step quiet} cap h segs m src dst protocol pl mac2 pad l apps' :
  wired c -> quiet (h_tcp h) -> roomy cap (20 + zlen pl) -> arp_wf (h_arp h) -> queues c cap (upd (beside l) Ip4OutThread [m]) segs ->
  l7_turns (c_app_closes c) l (h_apps h) = Ret apps' ->
  m_data m = down_data src dst pl ++ pad -> c_proto_out c !! sender_of m = Some protocol ->
  bytes src -> zlen src = 4 -> bytes dst -> zlen dst = 4 -> bytes pl -> 0 < zlen pl <= use_mtu_size (c_mtu c) -> is_byte protocol ->
  mac_of c (h_arp h) src = Some (c_mac c) -> mac_of c (h_arp h) (ip4_via (c_listen c) (c_gw c) dst) = Some mac2 ->
  o_pending (h_out h) = ∅ -> o_heap (h_out h) !! o_next (h_out h) = None ->
  inevitable step (sent_out c cap (set_apps apps' h) src dst protocol mac2 pl) (set_segs segs h).
Proof.
  intros Hc Hquiet Hroom Hwf Hq Hl Hm Hmap Bs Ls Bd Ld Bp Lp Hpr Hm1 Hm2 Hpend Hfresh.
  destruct (wired_mtu c Hc) as (Hus & _). pose proof (wi_mtu c Hc).
  assert (Hw : want (waits_for Ip4OutThread) None m = true) by (unfold want, wanted; cbn; by rewrite orb_true_r).
  replace h with (set_apps (h_apps h) h) at 2 by (by destruct h). set (a := h_apps h) in *. clearbody a. revert a segs Hq Hl.
  induction l as [l IH] using (induction_ltof1 _ (@length message)). intros a segs Hq Hl.
  apply (inev_beside c cap Hc apps' step quiet _ (set_segs segs (set_apps a h)) l (upd (beside l) Ip4OutThread [m]) Ip4OutThread m [] Hquiet Hq eq_refl eq_refl Hl).
  - intros t y r Hna Et. destruct t; try discriminate Et; try done. injection Et as <- <-. split; [exact Hw|]. intros e segs1 He Hq1.
    destruct (out_step c cap Hc e segs1 (set_apps a h) (upd (upd (beside l) Ip4OutThread [m]) Ip4OutThread []) m src dst pl pad)
      as (segs2 & s1 & s2 & E & Hq2 & A1 & A2 & Hne & U1 & U2); try done; try lia.
    { exact (Hroom ArpResolver). }
    eexists. split; [exact E|].
    apply (both_searches c cap Hc apps' step quiet h src dst protocol pl mac2 Hroom Hwf Bs Ls Bd Ld Bp Lp Hpr Hm1 Hm2 Hquiet Hpend Hfresh (e_now e) m pad
      (m_msg_nr s1) (m_msg_nr s2) Hm Hmap Hne l a segs2 s1 s2); try done. refine (queues_ext c cap _ _ _ _ Hq2). by intros [].
  - intros d' l' apps1 segs1 E Hl1 Hq1. apply (IH l' ltac:(rewrite E; apply Nat.lt_succ_diag_r) apps1 segs1); [|exact Hl1].
    refine (queues_ext c cap _ _ _ _ Hq1). by intros [].
Qed.

Lemma outgoing_by {A} step quiet c `{Scheduler c A step quiet} cap h segs m src dst protocol pl mac2 pad :
  wired c -> quiet (h_tcp h) -> roomy cap (20 + zlen pl) -> arp_wf (h_arp h) -> queues c cap (upd nothing Ip4OutThread [m]) segs ->
  m_data m = down_data src dst pl ++ pad -> c_proto_out c !! sender_of m = Some protocol ->
  bytes src -> zlen src = 4 -> bytes dst -> zlen dst = 4 -> bytes pl -> 0 < zlen pl <= use_mtu_size (c_mtu c) -> is_byte protocol ->
  mac_of c (h_arp h) src = Some (c_mac c) -> mac_of c (h_arp h) (ip4_via (c_listen c) (c_gw c) dst) = Some mac2 ->
  o_pending (h_out h) = ∅ -> o_heap (h_out h) !! o_next (h_out h) = None ->
  inevitable step (sent_out c cap h src dst protocol mac2 pl) (set_segs segs h).
Proof.
  intros. replace h with (set_apps (h_apps h) h) at 1 by (by destruct h).
  apply (outgoing_beside_by step quiet c cap h segs m src dst protocol pl mac2 pad [] (h_apps h)); try done.
  eapply queues_ext; [|eassumption]. by intros [].
Qed.

(** The same for the threads that read queues. *)
Lemma outgoing_beside c cap h segs m src dst protocol pl mac2 pad l apps' :
  wired c -> roomy cap (20 + zlen pl) -> arp_wf (h_arp h) -> queues c cap (upd (beside l) Ip4OutThread [m]) segs ->
  l7_turns (c_app_closes c) l (h_apps h) = Ret apps' ->
  m_data m = down_data src dst pl ++ pad -> c_proto_out c !! sender_of m = Some protocol ->
  bytes src -> zlen src = 4 -> bytes dst -> zlen dst = 4 -> bytes pl -> 0 < zlen pl <= use_mtu_size (c_mtu c) -> is_byte protocol ->
  mac_of c (h_arp h) src = Some (c_mac c) -> mac_of c (h_arp h) (ip4_via (c_listen c) (c_gw c) dst) = Some mac2 ->
  o_pending (h_out h) = ∅ -> o_heap (h_out h) !! o_next (h_out h) = None ->
  inevitably c (sent_out c cap (set_apps apps' h) src dst protocol mac2 pl) (set_segs segs h).
Proof. intros Hc. by apply (outgoing_beside_by (round c) (fun _ => True) c cap h segs m src dst protocol pl mac2 pad l apps' Hc). Qed.

Lemma outgoing c cap h segs m src dst protocol pl mac2 pad :
  wired c -> roomy cap (20 + zlen pl) -> arp_wf (h_arp h) -> queues c cap (upd nothing Ip4OutThread [m]) segs ->
  m_data m = down_data src dst pl ++ pad -> c_proto_out c !! sender_of m = Some protocol ->
  bytes src -> zlen src = 4 -> bytes dst -> zlen dst = 4 -> bytes pl -> 0 < zlen pl <= use_mtu_size (c_mtu c) -> is_byte protocol ->
  mac_of c (h_arp h) src = Some (c_mac c) -> mac_of c (h_arp h) (ip4_via (c_listen c) (c_gw c) dst) = Some mac2 ->
  o_pending (h_out h) = ∅ -> o_heap (h_out h) !! o_next (h_out h) = None ->
  inevitably c (sent_out c cap h src dst protocol mac2 pl) (set_segs segs h).
Proof. intros Hc. by apply (outgoing_by (round c) (fun _ => True) c cap h segs m src dst protocol pl mac2 pad Hc). Qed.

(** ** A server between the two *)

(** Empty queues, and nothing pending. *)
Definition host_ready (c : config) (cap : thread -> Z) (h : host) : Prop :=
  queues c cap nothing (h_segs h) /\ packets_wf (h_packets h) /\ arp_wf (h_arp h) /\
  o_pending (h_out h) = ∅ /\ (forall p, o_next (h_out h) <= p -> o_heap (h_out h) !! p = None).

Lemma sent_out_ready c cap h0 src dst protocol mac2 pl h :
  host_ready c cap h0 -> sent_out c cap h0 src dst protocol mac2 pl h -> host_ready c cap h.
Proof.
  intros (_ & Hp & Ha & _ & Hfresh) (id & f & _ & _ & _ & Hq & Ep & Ea & _ & _ & Epend & Eh & En).
  split; [done|]. split; [by rewrite Ep|]. split; [by rewrite Ea|]. split; [done|]. intros p Hle. rewrite Eh. apply Hfresh. lia.
Qed.

(** A thread that takes the only message and sends one. *)
Lemma relay_gen {A} c cap (P : host -> Prop) h segs t t2 m (p : turn -> prog net A) (f : A -> host -> host) (d : turn -> A -> message -> Prop) :
  names_ok c -> queues c cap (upd nothing t [m]) segs -> want (waits_for t) None m = true ->
  (forall e segs1, run_thread_body c e t m (set_segs segs1 h) = (r ← in_net c e t (p e) (set_segs segs1 h); Ret (f r.1 r.2))) ->
  (forall e segs1, turn_ok e -> exists a y, p e (turn_net c e t segs1) = Ret (a, after_send (inbox c t2) y (turn_net c e t segs1)) /\
     sendable y /\ PAD8 (sizeof_message + m_size y) <= cap t2 /\ d e a y) ->
  (forall e a y segs2 m', turn_ok e -> d e a y -> queues c cap (upd nothing t2 [m']) segs2 -> arrived (identity c t (inbox c t2)) y m' ->
     inevitably c P (f a (set_segs segs2 h))) ->
  inevitably c P (set_segs segs h).
Proof.
  intros Hn Hq Hw Hbody Hp Hk. apply (inev_single c cap _ (set_segs segs h) t m Hn Hq Hw). intros e segs1 He Hq1.
  destruct (Hp e segs1 He) as (a & y & Hx & Hy & Hroom & Hd).
  destruct (in_net_one c cap e t t2 _ _ _ h segs1 nothing Hx Hn He Hq1 Hy Hroom) as (segs2 & m' & E & Hq2 & Har & _).
  exists (f a (set_segs segs2 h)). split; [|exact (Hk e a y segs2 m' He Hd Hq2 Har)].
  change (set_segs segs1 (set_segs segs h)) with (set_segs segs1 h). by rewrite Hbody, E.
Qed.

(** ... without a result. *)
Lemma relay c cap (P : host -> Prop) h segs t t2 m m0 (p : turn -> prog net unit) (d : turn -> list Z -> Prop) :
  wired c -> queues c cap (upd nothing t [m]) segs -> want (waits_for t) None m = true -> t2 <> ArpResolver -> t2 <> Ip4Sender ->
  roomy cap m0 -> (forall e h, run_thread_body c e t m h = (r ← in_net c e t (p e) h; Ret r.2)) ->
  (forall e segs1, turn_ok e -> exists x, p e (turn_net c e t segs1) = Ret (tt, after_send (inbox c t2) (message_of x None) (turn_net c e t segs1)) /\
     0 < zlen x <= 2 * m0 + 185 /\ zlen x < 2 ^ 32 /\ d e x) ->
  (forall e x segs2 m', turn_ok e -> d e x -> queues c cap (upd nothing t2 [m']) segs2 -> arrived (identity c t (inbox c t2)) (message_of x None) m' ->
     inevitably c P (set_segs segs2 h)) ->
  inevitably c P (set_segs segs h).
Proof.
  intros Hc Hq Hw Hn1 Hn2 Hroom Hbody Hp Hk.
  apply (relay_gen c cap P h segs t t2 m p (fun _ g => g) (fun e _ y => exists x, y = message_of x None /\ d e x) (wi_names c Hc) Hq Hw).
  - intros e segs1. apply Hbody.
  - intros e segs1 He. destruct (Hp e segs1 He) as (x & Hx & Lx & Lx2 & Hd). exists tt, (message_of x None). split; [exact Hx|].
    split; [apply sendable_of; [lia|done]|]. split; [|by exists x]. rewrite message_of_size by lia.
    pose proof (roomy_one cap m0 t2 (zlen x) Hroom Hn1 Hn2 ltac:(lia)) as HR. change (zlen (encs (nothing t2))) with 0 in HR. lia.
  - intros e [] y segs2 m' He (x & -> & Hd) Hq2 Har. exact (Hk e x segs2 m' He Hd Hq2 Har).
Qed.

(** ** Properties *)

(** C3: a "ping".  An echo request from another host, in one packet, arrives at a host with empty
    queues whose ARP cache knows the next hop back.  Then under every schedule of the servers'
    threads, and whatever the clock, the random numbers and the memory are, exactly one more frame is on
    the wire in the end: it goes from the host's MAC address to the next hop's, and holds an IPv4 packet
    from the pinged address to the sender, valid and unfragmented, with the echo reply: same length,
    type and code 0, identifier, sequence number and data of the request, valid checksum.  All
    messages on the way go through the bytes of the shared-memory segments, no server faults, and
    afterwards the host is as ready as before. *)
Theorem ping_answered (c : config) (cap : thread -> Z) (h : host) (e : turn) (from pkt src pl : list Z) (id : Z) (mac2 : addr)
  (Hc : wired c) (Hroom : roomy cap (zlen pkt)) (Hh : host_ready c cap h) (He : turn_ok e)
  (Hfrom : zlen from = 6) (Hpkt : ip4_frag src (c_listen c).1 1 id (zlen pl) (0, pl) pkt) (Hecho : echo_request pl = true)
  (Hlen : zlen pl <= use_mtu_size (c_mtu c)) (Bsrc : bytes src) (Lsrc : zlen src = 4) (Bpl : bytes pl)
  (Hin : c_proto_in c !! 1 = Some (c_icmp c)) (Hout : c_proto_out c !! c_icmp c = Some 1)
  (Hmac : mac_of c (h_arp h) (ip4_via (c_listen c) (c_gw c) src) = Some mac2) :
  exists h1, frame_arrives c e (eth_frame (c_mac c) from 0x0800 pkt) h = Ret h1 /\
    inevitably c (fun h' => host_ready c cap h' /\ h_arp h' = h_arp h /\
      exists id' f reply, h_wire h' = h_wire h ++ [eth_frame mac2 (c_mac c) 0x0800 f] /\
        ip4_frag (c_listen c).1 src 1 id' (zlen reply) (0, reply) f /\ zlen reply = zlen pl /\
        take 2 reply = [0; 0] /\ drop 4 reply = drop 4 pl /\ ip_checksum reply (zlen reply) = Ret 0) h1.
Proof.
  pose proof Hh as (Hq & Hpk & Harp & Hpend & Hfresh). destruct (wi_listen c Hc) as (Bl & Ll & _). destruct (wi_mac c Hc) as [Bm Lm].
  destruct (frag_whole _ _ _ _ _ _ Hpkt) as (Lpkt & _). destruct (wired_mtu c Hc) as (Hus & _). pose proof (wi_mtu c Hc).
  assert (Lpl : 8 <= zlen pl) by (unfold echo_request in Hecho; lia).
  destruct (incoming c cap h e from pkt src 1 id pl IcmpIn Hc Hroom He Hq Hpk Hfrom Hpkt) as (h1 & E & Hi); try done; try lia.
  exists h1. split; [exact E|]. eapply inevitably_bind; [exact Hi|]. intros h2 (segs & m & m0 & -> & Hq2 & Har & Ht & Hd).
  destruct (ar_data _ _ _ Har) as (pad & Hdm). rewrite Hd in Hdm.
  apply (relay c cap _ h segs IcmpIn Ip4OutThread m (zlen pkt) (fun _ => icmp_run_in (c_icmp_out c) m)
    (fun _ x => exists reply, x = down_data (c_listen c).1 src reply /\ bytes reply /\ zlen reply = zlen pl /\ take 2 reply = [0; 0] /\
       drop 4 reply = drop 4 pl /\ ip_checksum reply (zlen reply) = Ret 0)); try done.
  { apply (arrived_wanted _ _ _ _ Har). by right. }
  { intros e2 segs1 He2. pose proof (icmp_run_in_aux (W := net) (c_icmp_out c) m (turn_net c e2 IcmpIn segs1) pkt src (c_listen c).1 pl pad
      Hdm Bpl ltac:(lia) ltac:(lia) ltac:(lia) ltac:(lia)) as Hrun. rewrite Hecho in Hrun.
    destruct Hrun as (reply & Hrun & Br & L & H1 & H2 & H3). rewrite (wi_icmp_out c Hc) in *.
    exists (down_data (c_listen c).1 src reply). split; [exact Hrun|]. rewrite zlen_down_data.
    split; [lia|]. split; [lia|]. by exists reply. }
  intros e2 x segs2 m' He2 (reply & -> & Br & L & H1 & H2 & H3) Hq3 Har3.
  destruct (ar_data _ _ _ Har3) as (pad3 & Hd3). rewrite m_data_message_of in Hd3.
  eapply inevitably_mono.
  - apply (outgoing c cap h segs2 m' (c_listen c).1 src 1 reply mac2 pad3); try done; try lia.
    + by rewrite L, <- Lpkt.
    + by rewrite (ar_sender _ _ _ Har3).
    + unfold mac_of. rewrite (wi_arp_ip c Hc), beq_refl. by rewrite (wi_arp_mac c Hc).
    + apply Hfresh. lia.
  - intros h' Hs. split; [by eapply sent_out_ready|]. destruct Hs as (id' & f & _ & Hf & Hw & _ & _ & Ha & _).
    split; [exact Ha|]. by exists id', f, reply.
Qed.

Definition threads : list thread := [LinkOut; ArpIn; ArpResolver; Ip4InThread; Ip4OutThread; Ip4Sender; IcmpIn; IcmpErr; UdpIn; UdpOut; NtpIn; TcpIn; TcpOut; AppIn].

Lemma threads_all t : t ∈ threads.
Proof. destruct t; repeat (first [left|right]). Qed.

Lemma names_ok_bool c : NoDup (inbox c <$> threads) ->
  forallb (fun t => (zlen (inbox c t) <? max_id_length) && negb (bool_decide (0 ∈ inbox c t))) threads = true -> names_ok c.
Proof. apply names_good_bool, threads_all. Qed.

Definition fresh_segs (c : config) (cap : thread -> Z) : gmap (list Z) segment := new_segs (inbox c) threads cap.

Lemma fresh_queues c cap : NoDup (inbox c <$> threads) -> (forall t, 0 <= cap t) -> queues c cap nothing (fresh_segs c cap).
Proof. intros Hnd. apply new_hold; [apply threads_all|done]. Qed.

(** A small host. *)
Definition ex_config : config := {|
  c_link := str "tap"; c_mac := [2; 0; 0; 0; 0; 1]; c_link_in := {[ 0x0800 := str "ip"; 0x0806 := str "arp" ]};
  c_link_out := {[ str "ip" := 0x0800; str "arp" := 0x0806 ]};
  c_arp := str "arp"; c_arp_resolver := str "res"; c_arp_out := str "tap"; c_arp_mac := [2; 0; 0; 0; 0; 1]; c_arp_ip := ex_dst;
  c_ip4_lower := str "ip"; c_ip4_upper := str "ip-up"; c_ip4_replies := str "ip-res"; c_ip4_out := str "tap"; c_ip4_resolver := str "res";
  c_ip4_error := str "icmp-err"; c_listen := (ex_dst, 24); c_gw := [10; 0; 0; 254]; c_mtu := 1500;
  c_proto_in := {[ 1 := str "icmp"; 6 := str "tcp"; 17 := str "udp" ]}; c_proto_out := {[ str "icmp" := 1; str "tcp" := 6; str "udp" := 17 ]};
  c_icmp := str "icmp"; c_icmp_error := str "icmp-err"; c_icmp_out := str "ip-up";
  c_udp := str "udp"; c_udp_upper := str "udp-up"; c_udp_out := str "ip-up"; c_udp_error := str "icmp-err"; c_ports := {[ 123 := str "ntp" ]};
  c_ntp := str "ntp"; c_ntp_out := str "udp-up";
  c_tcp := str "tcp"; c_tcp_upper := str "tcp-up"; c_tcp_out := str "ip-up"; c_tcp_ports := {[ 80 := str "http" ]}; c_salt := repeat 1 16;
  c_app := str "http"; c_app_closes := true |}.

Definition ex_host : host :=
  {| h_segs := fresh_segs ex_config (fun _ => 2048); h_packets := ∅; h_out := ex_out_state;
     h_arp := {| requests := []; arp_cache := [(ex_src, ex_mac2)] |}; h_tcp := ∅; h_apps := ∅; h_wire := [] |}.

Definition ex_turn : turn := {| e_now := 5; e_sec := 7; e_nsec := 9; e_junk := fun _ => 0; e_packets_id := 3; e_msg_nr := 0 |}.

Lemma ex_turn_ok : turn_ok ex_turn.
Proof.
  split; [vm_compute; split; [discriminate|reflexivity]|]. split; [vm_compute; split; [discriminate|reflexivity]|].
  split; [intros i; unfold is_byte; cbn; lia|vm_compute; split; [discriminate|reflexivity]].
Qed.

Lemma ex_config_wired : wired ex_config.
Proof.
  split; try reflexivity.
  - apply names_ok_bool; [refine (bool_decide_unpack _ _); by vm_compute|by vm_compute].
  - split; [concrete_bytes|done].
  - split; [concrete_bytes|done].
  - split; [concrete_bytes|done].
  - cbn. lia.
Qed.

Lemma ex_host_ready : host_ready ex_config (fun _ => 2048) ex_host.
Proof.
  split; [apply fresh_queues; [refine (bool_decide_unpack _ _); by vm_compute|lia]|]. split; [apply map_Forall_empty|]. split; [|done].
  split; [constructor|]. split; [by repeat constructor|]. constructor; [split; [done|concrete_bytes]|constructor].
Qed.

Definition ex_ping : list Z := match ip4_fragment 7 1 0 10 10 ex_src ex_dst ex_echo with Ret f => f | Fault _ => [] end.

Lemma ping_answered_witness :
  exists h1, frame_arrives ex_config ex_turn (eth_frame [2; 0; 0; 0; 0; 1] ex_mac2 0x0800 ex_ping) ex_host = Ret h1 /\
    inevitably ex_config (fun h' => host_ready ex_config (fun _ => 2048) h' /\ h_arp h' = h_arp ex_host /\
      exists id' f reply, h_wire h' = [] ++ [eth_frame ex_mac2 [2; 0; 0; 0; 0; 1] 0x0800 f] /\
        ip4_frag ex_dst ex_src 1 id' (zlen reply) (0, reply) f /\ zlen reply = 10 /\
        take 2 reply = [0; 0] /\ drop 4 reply = drop 4 ex_echo /\ ip_checksum reply (zlen reply) = Ret 0) h1.
Proof.
  refine (ping_answered ex_config (fun _ => 2048) ex_host ex_turn ex_mac2 ex_ping ex_src ex_echo 7 ex_mac2
    ex_config_wired _ ex_host_ready ex_turn_ok _ _ _ _ _ _ _ _ _ _).
  all: try reflexivity.
  - intros t. destruct t; vm_compute; discriminate.
  - split; first [concrete_bytes|by vm_compute].
  - by vm_compute.
  - concrete_bytes.
  - concrete_bytes.
Defined.

Lemma roomy_mono cap n k : roomy cap n -> k <= n -> roomy cap k.
Proof. intros H Hk t. specialize (H t). destruct t; lia. Qed.

(** A UDP datagram. *)
Definition udp_packet (sp dp ck : Z) (data : list Z) : list Z := be16 sp ++ be16 dp ++ be16 (8 + zlen data) ++ be16 ck ++ data.

Lemma udp_packet_fields sp dp ck data full :
  is_u 16 dp -> 8 + zlen data <= 65535 -> 8 <= zlen full ->
  let p := udp_packet sp dp ck data in
  zlen p = 8 + zlen data /\ udp_dport p = dp /\ udp_length p = zlen p /\
  udp_delivered p full = be16 sp ++ be16 dp ++ data ++ take 8 full.
Proof.
  intros Hd Hl Hf p. pose proof (zlen_nonneg data).
  assert (Lp : zlen p = 8 + zlen data) by (unfold p, udp_packet; rewrite !zlen_app, !zlen_be16; lia).
  assert (Hdp : udp_dport p = dp) by (by apply be16_u8).
  assert (Hlen : udp_length p = 8 + zlen data) by (apply be16_u8; unfold is_u; lia).
  split; [done|]. split; [done|]. split; [lia|]. by rewrite udp_delivered_full by lia.
Qed.

Lemma use_mtu_60 mtu : 84 <= mtu -> 60 <= use_mtu_size mtu.
Proof.
  intros H. unfold use_mtu_size. change 7 with (Z.ones 3). rewrite <- Z.ldiff_land, Z.ldiff_ones_r by lia.
  rewrite Z.shiftl_mul_pow2, Z.shiftr_div_pow2 by lia. change (2 ^ 3) with 8. Z.div_mod_to_equations. lia.
Qed.

(** The UDP server hands ports and data to the server of the port. *)
Lemma udp_up_step c e segs m pkt src me sp dp ck q pad :
  m_data m = up_data pkt src me (udp_packet sp dp ck q) ++ pad -> bytes pkt -> bytes src -> bytes me -> bytes q ->
  zlen pkt = 76 -> zlen src = 4 -> zlen me = 4 -> zlen q = 48 -> is_u 16 dp ->
  tcp_udp_checksum src me (udp_packet sp dp ck q) 56 17 = Ret 0 -> c_ports c !! dp = Some (c_ntp c) ->
  exists x, udp_run_in (c_ports c) (c_udp_error c) m (turn_net c e UdpIn segs) =
      Ret (tt, after_send (inbox c NtpIn) (message_of x None) (turn_net c e UdpIn segs)) /\
    0 < zlen x <= 2 * 80 + 185 /\ zlen x < 2 ^ 32 /\ x = up_data pkt src me (be16 sp ++ be16 dp ++ q ++ take 8 pkt).
Proof.
  intros Hm Bk Bs Bm Bq Lk Ls Lm Lq Hdp Hv Hport. destruct (udp_packet_fields sp dp ck q pkt Hdp ltac:(lia) ltac:(lia)) as (Lu & Hud & Hul & Hudel).
  set (udp := udp_packet sp dp ck q) in *. rewrite Lq in Lu. change (8 + 48) with 56 in Lu.
  assert (Bu : bytes udp) by (unfold udp, udp_packet; rewrite !bytes_app; auto using be16_bytes).
  pose proof (udp_run_in_aux (W := net) (c_ports c) (c_udp_error c) m (turn_net c e UdpIn segs) pkt src me udp pad
    Hm Bk Bs Bm Bu ltac:(lia) ltac:(lia) ltac:(lia) ltac:(lia)) as Hrun.
  unfold udp_valid in Hrun. rewrite Hul, Lu, Hv, Hud, Hport, bool_decide_eq_true_2, Hudel in Hrun by done.
  eexists. split; [exact Hrun|]. rewrite zlen_up_data, !zlen_app, !zlen_be16, zlen_take. split; [lia|]. split; [lia|done].
Qed.

(** The answer of the NTP server. *)
Lemma ntp_step c e segs m pkt src me sp dp q extra pad :
  c_ntp_out c = c_udp_upper c ->
  m_data m = up_data pkt src me (be16 sp ++ be16 dp ++ q ++ extra) ++ pad -> zlen pkt = 76 -> zlen src = 4 -> zlen me = 4 -> zlen q = 48 ->
  zlen extra <= 8 -> is_u 16 sp -> is_u 16 dp -> Z.land (nth 0 q 0) 7 = 3 ->
  exists x, ntp_run_in (c_ntp_out c) (e_sec e) (e_nsec e) m (turn_net c e NtpIn segs) =
      Ret (tt, after_send (inbox c UdpOut) (message_of x None) (turn_net c e NtpIn segs)) /\
    0 < zlen x <= 2 * 80 + 185 /\ zlen x < 2 ^ 32 /\
    x = down_data me src ((be16 dp ++ be16 sp) ++ ntp_msgout (sub q 40 8) (e_sec e) (e_nsec e)).
Proof.
  intros Hout Hm Lk Ls Lm Lq Le Hsp Hdp Hmode.
  pose proof (ntp_run_in_aux (W := net) (c_ntp_out c) (e_sec e) (e_nsec e) m pkt src me sp dp q extra pad (turn_net c e NtpIn segs)
    Hm ltac:(lia) Ls Lm Lq ltac:(lia) Hsp Hdp) as Hrun. rewrite Hmode, Hout in Hrun. unfold ntp_answer in Hrun. rewrite app_assoc in Hrun.
  rewrite Hout. eexists. split; [exact Hrun|]. rewrite zlen_down_data, !zlen_app, !zlen_be16, zlen_ntp_msgout by (apply zlen_sub; lia).
  split; [lia|]. split; [lia|done].
Qed.

(** The datagram with it. *)
Lemma udp_down_step c e segs m me src ports data pad :
  c_udp_out c = c_ip4_upper c -> turn_ok e -> m_data m = down_data me src (ports ++ data) ++ pad ->
  bytes me -> bytes src -> bytes (ports ++ data) -> zlen me = 4 -> zlen src = 4 -> zlen ports = 4 -> zlen data = 48 ->
  exists x, udp_run_out (e_junk e) (c_udp_out c) m (turn_net c e UdpOut segs) =
      Ret (tt, after_send (inbox c Ip4OutThread) (message_of x None) (turn_net c e UdpOut segs)) /\
    0 < zlen x <= 2 * 80 + 185 /\ zlen x < 2 ^ 32 /\
    exists ck tail, let u := ports ++ be16 60 ++ be16 ck ++ data ++ tail in
      x = down_data me src u /\ zlen u = 60 /\ zlen tail = 4 /\ bytes u /\ tcp_udp_checksum me src u 60 17 = Ret 0.
Proof.
  intros Hout He Hm Bm Bs Bpd Lm Ls Lp Ld.
  destruct (udp_run_out_aux (W := net) (e_junk e) (c_udp_out c) m (turn_net c e UdpOut segs) me src ports data pad Hm)
    as (ck & tail & Hrun & L1 & L2 & L3 & L4); try done; try lia; [apply He|by rewrite Ld|].
  rewrite Ld in Hrun, L1, L3, L4. change (12 + 48) with 60 in Hrun, L1, L3, L4. rewrite Hout in *.
  eexists. split; [exact Hrun|]. rewrite zlen_down_data, L1. split; [lia|]. split; [lia|]. by exists ck, tail.
Qed.

(** C7: a request for the time.  An NTP request (mode 3) in a UDP datagram with a valid
    checksum arrives at a host with empty queues whose ARP cache knows the next hop back.  Under
    every schedule of the link, ARP, IPv4, UDP and NTP servers exactly one frame is on the wire in
    the end, with a UDP datagram back to the port the request came from, valid checksum, that
    carries the answer: the request's transmit stamp as the originate stamp and the clock of the moment the
    NTP server ran.  The datagram is four bytes longer than that, four bytes of uninitialised memory. *)
Theorem time_served (c : config) (cap : thread -> Z) (h : host) (e : turn) (from pkt src q : list Z) (id sp dp ck : Z) (mac2 : addr)
  (Hc : wired c) (Hroom : roomy cap 80) (Hh : host_ready c cap h) (He : turn_ok e) (Hfrom : zlen from = 6)
  (Hpkt : ip4_frag src (c_listen c).1 17 id 56 (0, udp_packet sp dp ck q) pkt) (Lq : zlen q = 48) (Bq : bytes q)
  (Hvalid : tcp_udp_checksum src (c_listen c).1 (udp_packet sp dp ck q) 56 17 = Ret 0) (Hmode : Z.land (nth 0 q 0) 7 = 3)
  (Hports : is_u 16 sp /\ is_u 16 dp) (Hmtu : 84 <= c_mtu c) (Bsrc : bytes src) (Lsrc : zlen src = 4)
  (Hin : c_proto_in c !! 17 = Some (c_udp c)) (Hout : c_proto_out c !! c_udp c = Some 17) (Hport : c_ports c !! dp = Some (c_ntp c))
  (Hmac : mac_of c (h_arp h) (ip4_via (c_listen c) (c_gw c) src) = Some mac2) :
  exists h1, frame_arrives c e (eth_frame (c_mac c) from 0x0800 pkt) h = Ret h1 /\
    inevitably c (fun h' => host_ready c cap h' /\ h_arp h' = h_arp h /\
      exists id' f e2 ck' tail, let answer := be16 dp ++ be16 sp ++ be16 60 ++ be16 ck' ++ ntp_msgout (sub q 40 8) (e_sec e2) (e_nsec e2) ++ tail in
        h_wire h' = h_wire h ++ [eth_frame mac2 (c_mac c) 0x0800 f] /\ turn_ok e2 /\
        ip4_frag (c_listen c).1 src 17 id' 60 (0, answer) f /\ zlen tail = 4 /\
        tcp_udp_checksum (c_listen c).1 src answer 60 17 = Ret 0) h1.
Proof.
  pose proof Hh as (Hq & Hpk & Harp & Hpend & Hfresh). destruct (wi_listen c Hc) as (Bl & Ll & _). destruct Hports as [Hsp Hdp].
  pose proof (wi_mtu c Hc). destruct (wired_mtu c Hc) as (Hus & _). set (me := (c_listen c).1) in *.
  assert (Lu : zlen (udp_packet sp dp ck q) = 56) by (unfold udp_packet; rewrite !zlen_app, !zlen_be16; lia).
  assert (Hpkt' := Hpkt). rewrite <- Lu in Hpkt'. destruct (frag_whole _ _ _ _ _ _ Hpkt') as (Lpkt & _). rewrite Lu in Lpkt.
  pose proof Hpkt as [Bpkt _ _ _ _ _ _ _ _ _ _ _ _ _].
  destruct (incoming c cap h e from pkt src 17 id (udp_packet sp dp ck q) UdpIn Hc (roomy_mono cap 80 (zlen pkt) Hroom ltac:(lia)) He Hq Hpk Hfrom Hpkt')
    as (h1 & E & Hi); try done; try lia.
  exists h1. split; [exact E|]. eapply inevitably_bind; [exact Hi|]. intros h2 (segs & m & m0 & -> & Hq2 & Har & Ht & Hd).
  destruct (ar_data _ _ _ Har) as (pad & Hdm). rewrite Hd in Hdm.
  eapply (relay c cap _ h segs UdpIn NtpIn m 80); try done; [by apply (arrived_wanted _ _ _ _ Har); right| |].
  { intros e2 segs1 _. by apply (udp_up_step c e2 segs1 m pkt src me sp dp ck q pad). }
  intros e2 x segs2 m2 He2 -> Hq3 Har2. destruct (ar_data _ _ _ Har2) as (pad2 & Hd2). rewrite m_data_message_of in Hd2.
  eapply (relay c cap _ h segs2 NtpIn UdpOut m2 80 (fun e => ntp_run_in (c_ntp_out c) (e_sec e) (e_nsec e) m2)); try done;
    [by apply (arrived_wanted _ _ _ _ Har2); right| |].
  { intros e3 segs3 _. apply (ntp_step c e3 segs3 m2 pkt src me sp dp q (take 8 pkt) pad2 (wi_ntp_out c Hc)); try done. rewrite zlen_take. lia. }
  intros e3 x segs3 m3 He3 Hx Hq4 Har3. destruct (ar_data _ _ _ Har3) as (pad3 & Hd3). rewrite m_data_message_of in Hd3. cbn beta in Hx. subst x.
  set (ports := be16 dp ++ be16 sp) in *. set (data := ntp_msgout (sub q 40 8) (e_sec e3) (e_nsec e3)) in *.
  eapply (relay c cap _ h segs3 UdpOut Ip4OutThread m3 80 (fun e => udp_run_out (e_junk e) (c_udp_out c) m3)); try done;
    [by apply (arrived_wanted _ _ _ _ Har3); right| |].
  { intros e4 segs4 He4. apply (udp_down_step c e4 segs4 m3 me src ports data pad3 (wi_udp_out c Hc)); try done.
    - unfold ports. rewrite !bytes_app. pose proof (bytes_ntp_msgout (sub q 40 8) (e_sec e3) (e_nsec e3)). auto using be16_bytes with myip.
    - apply zlen_ntp_msgout, zlen_sub; lia. }
  intros e4 x segs4 m4 He4 (ck' & tail & -> & L1 & L2 & L3 & L4) Hq5 Har4. destruct (ar_data _ _ _ Har4) as (pad4 & Hd4). rewrite m_data_message_of in Hd4.
  set (u := ports ++ be16 60 ++ be16 ck' ++ data ++ tail) in *. eapply inevitably_mono.
  - apply (outgoing c cap h segs4 m4 me src 17 u mac2 pad4); try done; try (rewrite L1).
    + exact Hroom.
    + by rewrite (ar_sender _ _ _ Har4).
    + split; [done|]. by apply use_mtu_60.
    + unfold mac_of. rewrite (wi_arp_ip c Hc), beq_refl. by rewrite (wi_arp_mac c Hc).
    + apply Hfresh. lia.
  - intros h' Hs. split; [by eapply sent_out_ready|]. destruct Hs as (id' & f & _ & Hf & Hw & _ & _ & Ha & _).
    split; [exact Ha|]. exists id', f, e3, ck', tail. assert (Eu : be16 dp ++ be16 sp ++ be16 60 ++ be16 ck' ++ data ++ tail = u).
    { unfold u, ports. by rewrite <- app_assoc. }
    cbn zeta. fold data. rewrite Eu. rewrite L1 in Hf. exact (conj Hw (conj He3 (conj Hf (conj L2 L4)))).
Qed.

Definition ex_request : list Z := 0x23 :: zeros 47.
Definition ex_ck : Z := match tcp_udp_checksum ex_src ex_dst (udp_packet 4000 123 0 ex_request) 56 17 with Ret k => k | Fault _ => 0 end.
Definition ex_query : list Z :=
  match ip4_fragment 8 17 0 56 56 ex_src ex_dst (udp_packet 4000 123 ex_ck ex_request) with Ret f => f | Fault _ => [] end.

Lemma time_served_witness :
  exists h1, frame_arrives ex_config ex_turn (eth_frame [2; 0; 0; 0; 0; 1] ex_mac2 0x0800 ex_query) ex_host = Ret h1 /\
    inevitably ex_config (fun h' => host_ready ex_config (fun _ => 2048) h' /\ h_arp h' = h_arp ex_host /\
      exists id' f e2 ck' tail, let answer := be16 123 ++ be16 4000 ++ be16 60 ++ be16 ck' ++ ntp_msgout (zeros 8) (e_sec e2) (e_nsec e2) ++ tail in
        h_wire h' = [] ++ [eth_frame ex_mac2 [2; 0; 0; 0; 0; 1] 0x0800 f] /\ turn_ok e2 /\
        ip4_frag ex_dst ex_src 17 id' 60 (0, answer) f /\ zlen tail = 4 /\ tcp_udp_checksum ex_dst ex_src answer 60 17 = Ret 0) h1.
Proof.
  refine (time_served ex_config (fun _ => 2048) ex_host ex_turn ex_mac2 ex_query ex_src ex_request 8 4000 123 ex_ck ex_mac2
    ex_config_wired _ ex_host_ready ex_turn_ok _ _ _ _ _ _ _ _ _ _ _ _ _ _).
  all: try reflexivity.
  - intros t. destruct t; vm_compute; discriminate.
  - split; first [concrete_bytes|by vm_compute].
  - concrete_bytes.
  - split; vm_compute; (split; [discriminate|reflexivity]).
  - vm_compute. discriminate.
  - concrete_bytes.
Defined.
