(* ===== verification/HostArp.v ===== *)
(** * ARP on a whole host

    A frame with an ARP packet through the servers of [System]: a request for the host's address
    is answered on the wire, a reply enters the cache that packets are sent by ([HostFlow]). *)

From S2P Require Import Prelude Net Checksum Str Addr ShmMessage Shm Transport Queues Icmp Udp Arp Ip4In Reassembly Ip4Out Ip4 Link Ntp System HostFlow.

(** ** Lemmas *)

Lemma queues_slot c cap q segs t m : queues c cap q segs -> m ∈ q t -> slot m.
Proof. intros Hq Hm. destruct (Hq t) as (s & _ & (fr & _ & _ & _ & Hs) & _). by eapply list.Forall_forall. Qed.

(** The tables of link and ARP server name each other. *)
Record arp_wired (c : config) : Prop := {
  aw_wired : wired c;
  aw_in : c_link_in c !! 0x0806 = Some (c_arp c);
  aw_out : c_link_out c !! c_arp c = Some 0x0806 }.

(** The parts of an ARP packet, with what fills up the frame. *)
Record arp_fields (sha spa tha tpa rest : list Z) : Prop := {
  af_sha : bytes sha /\ zlen sha = 6;
  af_spa : bytes spa /\ zlen spa = 4;
  af_tha : bytes tha /\ zlen tha = 6;
  af_tpa : bytes tpa /\ zlen tpa = 4;
  af_rest : bytes rest /\ zlen rest <= 1000 }.

Lemma arp_parse_packet op sha spa tha tpa rest : is_u 16 op -> arp_fields sha spa tha tpa rest ->
  arp_parse (arp_packet op sha spa tha tpa ++ rest) = Some (op, sha, spa, tha, tpa).
Proof.
  intros Hop [[B1 L1] [B2 L2] [B3 L3] [B4 L4] [B5 L5]].
  destruct (fields_of_arp_packet op sha spa tha tpa rest Hop L1 L2 L3 L4) as (E1 & E2 & E3 & E4 & E5).
  unfold arp_parse. rewrite zlen_app, zlen_arp_packet by done. pose proof (zlen_nonneg rest).
  replace (28 <=? 28 + zlen rest) with true by lia.
  change (take 6 (arp_packet op sha spa tha tpa ++ rest)) with [0; 1; 8; 0; 6; 4]. rewrite beq_refl. cbn [andb].
  assert (Hs : forall o n x, addr_of_data (padd (arp_packet op sha spa tha tpa ++ rest) o) n = Ret x -> sub (arp_packet op sha spa tha tpa ++ rest) o n = x).
  { intros o n x. unfold addr_of_data, rdn, sub, padd. destruct (_ && _); [|done]. by intros [= <-]. }
  rewrite (Hs _ _ _ E1), (Hs _ _ _ E2), (Hs _ _ _ E3), (Hs _ _ _ E4).
  change (256 * nth 6 (arp_packet op sha spa tha tpa ++ rest) 0 + nth 7 (arp_packet op sha spa tha tpa ++ rest) 0)
    with (256 * u8 (Z.shiftr op 8) + u8 op). by rewrite be16_u8.
Qed.

Section Host.
Context (c : config) (cap : thread -> Z) (Hc : arp_wired c).

(** A frame with an ARP packet, up to the ARP server. *)
Lemma arp_incoming e h from to op sha spa tha tpa rest : let pkt := arp_packet op sha spa tha tpa ++ rest in
  is_u 16 op -> arp_fields sha spa tha tpa rest -> roomy cap (zlen pkt) -> turn_ok e -> queues c cap nothing (h_segs h) ->
  zlen from = 6 -> to = c_mac c \/ to = bc_addr ->
  exists segs m m0, frame_arrives c e (eth_frame to from 0x0806 pkt) h = Ret (set_segs segs h) /\ queues c cap (upd nothing ArpIn [m]) segs /\
    arrived (c_link c) m0 m /\ m_type m0 = msg_new /\ m_data m0 = up_data (eth_frame to from 0x0806 pkt) from to pkt.
Proof.
  intros pkt Hop Hf Hroom He Hq Lfrom Hto. pose proof (aw_wired c Hc) as Hw. destruct (wi_mac c Hw) as [Bmac Lmac].
  destruct Hf as [[B1 L1] [B2 L2] [B3 L3] [B4 L4] [B5 L5]]. pose proof (zlen_nonneg rest).
  assert (Lp : zlen pkt = 28 + zlen rest) by (unfold pkt; rewrite zlen_app, zlen_arp_packet by done; done).
  assert (Hto' : bytes to /\ zlen to = 6) by (destruct Hto as [->| ->]; [done|split; [concrete_bytes|done]]). destruct Hto' as [Bto Lto].
  set (f := eth_frame to from 0x0806 pkt). assert (Lf : zlen f = 14 + zlen pkt) by (by apply zlen_eth_frame).
  set (d1 := up_data f from to pkt). assert (Ld1 : zlen d1 = 62 + 2 * zlen pkt) by (unfold d1; rewrite zlen_up_data; lia).
  assert (Hin : forall w : net, tap_run_in (c_mac c) (c_link_in c) f w = Ret (tt, after_send (inbox c ArpIn) (message_of d1 None) w)).
  { intros w. unfold tap_run_in, f. rewrite frame_in_spec by (done || lia || (unfold is_u; lia)). rewrite (aw_in c Hc).
    replace (28 <=? zlen pkt) with true by lia. destruct Hto as [->| ->]; rewrite beq_refl, ?orb_true_r; done. }
  destruct (in_net_one c cap e LinkOut ArpIn _ _ _ h (h_segs h) nothing (Hin _) (wi_names c Hw) He Hq)
    as (segs1 & m1 & E1 & Hq1 & Har1 & _).
  { apply sendable_of; [lia|done]. }
  { rewrite message_of_size by lia. apply (roomy_one cap (zlen pkt)); (done || lia). }
  rewrite set_segs_id in E1. exists segs1, m1, (message_of d1 None). split; [unfold frame_arrives; by rewrite E1|].
  split; [exact Hq1|]. split; [exact Har1|]. split; [done|]. apply m_data_message_of.
Qed.

(** The link server writes the answer. *)
Lemma link_arp_step e segs1 h m m0 from to pl :
  arrived (c_arp c) m0 m -> m_data m0 = down_data from to pl -> zlen from = 6 -> zlen to = 6 -> 0 < zlen pl <= 65535 ->
  run_thread_body c e LinkOut m (set_segs segs1 h) = Ret (transmit (Some (eth_frame to from 0x0806 pl)) (set_segs segs1 h)).
Proof.
  intros Har Hd0 L1 L2 Lp. destruct (ar_data _ _ _ Har) as (pad & Hd). rewrite Hd0 in Hd. cbn [run_thread_body]. unfold tap_run_out.
  rewrite (frame_of_spec (e_junk e) (c_link_out c) m from to pl pad) by (done || lia).
  rewrite (ar_sender _ _ _ Har), (aw_out c Hc), L1, L2. replace (zlen pl =? 0) with false by lia.
  cbn [Z.eqb Pos.eqb negb andb fmap option_fmap option_map]. mcbn. by rewrite Z.eqb_refl.
Qed.

Lemma link_arp_out (P : host -> Prop) h segs m m0 from to pl :
  queues c cap (upd nothing LinkOut [m]) segs -> arrived (c_arp c) m0 m -> m_data m0 = down_data from to pl ->
  zlen from = 6 -> zlen to = 6 -> 0 < zlen pl <= 65535 ->
  (forall segs', queues c cap nothing segs' -> P (transmit (Some (eth_frame to from 0x0806 pl)) (set_segs segs' h))) ->
  inevitably c P (set_segs segs h).
Proof.
  intros Hq Har Hd L1 L2 Lp HP. apply (inev_single c cap _ (set_segs segs h) LinkOut m (wi_names c (aw_wired c Hc)) Hq).
  { apply (arrived_wanted _ _ _ _ Har). by left. }
  intros e segs1 He Hq1. eexists. split; [exact (link_arp_step e segs1 h m m0 from to pl Har Hd L1 L2 Lp)|]. by apply inev_done, HP.
Qed.

End Host.

(** ** Properties *)

(** C8: ARP on a host with empty queues.  A frame to the host's MAC address or to all, with an ARP
    request for the host's IPv4 address by another, makes the host put exactly one more frame on the
    wire, under every schedule: to the asking station, the ARP reply with the host's two addresses.  A frame
    with an ARP reply puts nothing on the wire; afterwards the host has the MAC address for the
    IPv4 address in it, unless it knew one (or it is its own).  In both cases no server faults and
    the host is as ready as before. *)
Theorem arp_served (c : config) (cap : thread -> Z) (h : host) (e : turn) (from to sha spa tha tpa rest : list Z) (op : Z)
  (Hc : arp_wired c) (Hroom : roomy cap (28 + zlen rest)) (Hh : host_ready c cap h) (He : turn_ok e)
  (Hf : arp_fields sha spa tha tpa rest) (Hfrom : zlen from = 6) (Hto : to = c_mac c \/ to = bc_addr)
  (Hop : op = 1 /\ tpa = c_arp_ip c /\ spa <> tpa \/ op = 2 /\ requests (h_arp h) = []) :
  exists h1, frame_arrives c e (eth_frame to from 0x0806 (arp_packet op sha spa tha tpa ++ rest)) h = Ret h1 /\
    inevitably c (fun h' => host_ready c cap h' /\
      if op =? 1 then h_arp h' = h_arp h /\ h_wire h' = h_wire h ++ [eth_frame sha (c_mac c) 0x0806 (arp_packet 2 (c_mac c) (c_arp_ip c) sha spa)]
      else h_wire h' = h_wire h /\ requests (h_arp h') = [] /\
        forall a, mac_of c (h_arp h') a = match mac_of c (h_arp h) a with Some known => Some known | None => if beq spa a then Some sha else None end) h1.
Proof.
  pose proof Hh as (Hq & Hpk & Harp & Hpend & Hfresh). pose proof (aw_wired c Hc) as Hw. destruct (wi_mac c Hw) as [Bmac Lmac].
  destruct (wi_listen c Hw) as (Bl & Ll & _). pose proof (zlen_nonneg rest).
  assert (Hu : is_u 16 op) by (unfold is_u; destruct Hop as [[-> _]|[-> _]]; lia).
  pose proof (arp_parse_packet op sha spa tha tpa rest Hu Hf) as Hparse.
  assert (Lpkt : zlen (arp_packet op sha spa tha tpa ++ rest) = 28 + zlen rest).
  { destruct Hf as [[B1 L1] [B2 L2] [B3 L3] [B4 L4] [B5 L5]]. by rewrite zlen_app, zlen_arp_packet by done. }
  destruct (arp_incoming c cap Hc e h from to op sha spa tha tpa rest Hu Hf) as (segs & m & m0 & E & Hq1 & Har & Ht & Hd); [by rewrite Lpkt|done..|].
  eexists. split; [exact E|]. apply (inev_single c cap _ (set_segs segs h) ArpIn m (wi_names c Hw) Hq1).
  { apply (arrived_wanted _ _ _ _ Har). by right. }
  intros e2 segs2 He2 Hq2. change (set_segs segs2 (set_segs segs h)) with (set_segs segs2 h).
  destruct (ar_data _ _ _ Har) as (pad & Hdm). rewrite Hd in Hdm.
  destruct Hf as [[B1 L1] [B2 L2] [B3 L3] [B4 L4] [B5 L5]].
  assert (Bp : bytes (arp_packet op sha spa tha tpa ++ rest)).
  { unfold arp_packet. rewrite !bytes_app. repeat split; auto using be16_bytes. repeat constructor; unfold is_byte; lia. }
  assert (Lto : zlen to = 6) by (by destruct Hto as [->| ->]).
  assert (Lip : zlen (c_arp_ip c) = 4) by (by rewrite (wi_arp_ip c Hw)).
  pose proof (zlen_eth_frame to from 0x0806 (arp_packet op sha spa tha tpa ++ rest) Lto Hfrom) as Lframe.
  pose proof (arp_run_in_aux (c_arp_mac c) (c_arp_ip c) m (h_arp h) (turn_net c e2 ArpIn segs2) _ from to _ pad Hdm Bp
    ltac:(lia) ltac:(lia) ltac:(lia) ltac:(lia) ltac:(by rewrite (wi_arp_mac c Hw)) Lip Harp) as Hrun.
  rewrite Hfrom, Lto, Hparse in Hrun. cbn [Z.eqb Pos.eqb andb] in Hrun.
  destruct Hop as [(-> & -> & Hne)|(-> & Hreq)]; cbn [Z.eqb Pos.eqb andb] in *.
  - rewrite beq_refl in Hrun. replace (beq spa (c_arp_ip c)) with false in Hrun by (by destruct (beq_spec spa (c_arp_ip c))).
    rewrite (ar_sender _ _ _ Har), (wi_arp_mac c Hw) in Hrun. set (reply := arp_packet 2 _ _ _ _) in *.
    assert (Lr : zlen reply = 28) by (by apply zlen_arp_packet).
    assert (Ld : zlen (down_data (c_mac c) sha reply) = 68) by (rewrite zlen_down_data; lia).
    destruct (in_net_one c cap e2 ArpIn LinkOut _ _ _ h segs2 nothing Hrun (wi_names c Hw) He2 Hq2) as (segs3 & m3 & E3 & Hq3 & Har3 & _).
    { apply sendable_of; [lia|]. apply (queues_slot c cap _ _ ArpIn m Hq1). unfold upd. rewrite decide_True by done. by left. }
    { rewrite message_of_size by lia. apply (roomy_one cap (28 + zlen rest)); (done || lia). }
    eexists. split; [rewrite <- (wi_arp_mac c Hw) in E3; exact (f_equal (fun r => x ← r; Ret (set_arp x.1 x.2)) E3)|].
    cbn [fst snd]. replace (set_arp (h_arp h) (set_segs segs3 h)) with (set_segs segs3 h) by (by destruct h).
    assert (Hid : identity c ArpIn (inbox c LinkOut) = c_arp c) by (cbn [identity inbox]; by rewrite (wi_arp_out c Hw), beq_refl).
    rewrite Hid in Har3. apply (link_arp_out c cap Hc _ h segs3 m3 _ (c_mac c) sha reply Hq3 Har3); [apply m_data_message_of|done|done|lia|].
    intros segs4 Hq4. split; [by split_and!|]. by split.
  - destruct Hrun as (st' & Hrun & Hwf & Hr' & Hl). rewrite Hreq in Hrun, Hr'. cbn [answered] in Hrun.
    exists (set_arp st' (set_segs segs2 h)). split; [cbn [run_thread_body]; unfold in_net; cbn [h_segs h_arp set_segs]; by rewrite Hrun|].
    apply inev_done. split; [by split_and!|]. split; [done|]. split; [exact Hr'|]. intros a. cbn [h_arp set_arp]. unfold mac_of. rewrite (Hl a).
    destruct (beq a (c_arp_ip c)); [done|]. destruct (amap_get (arp_cache (h_arp h)) a); by destruct (beq spa a).
Qed.

Lemma arp_served_witness :
  exists h1, frame_arrives ex_config ex_turn (eth_frame bc_addr ex_mac2 0x0806 (arp_packet 1 ex_mac2 ex_src (zeros 6) ex_dst ++ zeros 18)) ex_host = Ret h1 /\
    inevitably ex_config (fun h' => host_ready ex_config (fun _ => 2048) h' /\ h_arp h' = h_arp ex_host /\
      h_wire h' = [] ++ [eth_frame ex_mac2 [2; 0; 0; 0; 0; 1] 0x0806 (arp_packet 2 [2; 0; 0; 0; 0; 1] ex_dst ex_mac2 ex_src)]) h1.
Proof.
  refine (arp_served ex_config (fun _ => 2048) ex_host ex_turn ex_mac2 bc_addr ex_mac2 ex_src (zeros 6) ex_dst (zeros 18) 1
    _ _ ex_host_ready ex_turn_ok _ _ _ _).
  - split; [exact ex_config_wired|reflexivity|reflexivity].
  - intros t. destruct t; vm_compute; discriminate.
  - split; split; (reflexivity || concrete_bytes || (vm_compute; discriminate)).
  - reflexivity.
  - by right.
  - left. split; [done|]. split; [done|discriminate].
Defined.
