(* ===== verification/HostTcp.v ===== *)
(** * TCP connections on a whole host

    The opening of a connection through the servers of [System]: a SYN in a frame is answered with
    a frame, and the acknowledgement of its cookie makes a session in the TCP server and one in the
    server that listens on the port. *)

From S2P Require Import Prelude Net Checksum Str Addr SipHash ShmMessage Shm Transport Queues Ip4In TcpWire TcpData Tcp TcpSafe TcpFlow TcpSegments L7 L7Safe L7Sessions L7Stream Icmp Udp Arp Reassembly Ip4Out Ip4 Link Ntp System HostFlow.

(** ** Lemmas *)

(** The id of the connection from [sp] at [src] to [dp] at [me]. *)
Definition connection_id (src me : addr) (sp dp : Z) : Z :=
  match tcp_calc_session_id (u16 sp) (u16 dp) src me with Ret sid => sid | Fault _ => 0 end.

(** A TCP segment that came up through the servers. *)
Lemma segment_arrived m pkt src me pad sp dp seq ack flags win d seg :
  m_data m = up_data pkt src me seg ++ pad -> bytes pkt -> zlen pkt <= 65535 -> 40 <= zlen pkt ->
  bytes src -> zlen src = 4 -> bytes me -> zlen me = 4 -> tcp_seg src me sp dp seq ack flags win d seg -> zlen d <= 65515 ->
  exists k, is_segment m k /\ parsed_as src me sp dp seq ack flags win d k /\ k_mss_index k = 1 /\
    k_session_id k = connection_id src me sp dp /\ in_wf k.
Proof.
  intros Hm Bk Lk Lk2 Bs Ls Bm Lm Hseg Ld. pose proof Hseg as (Bseg & (ck & E) & _). pose proof (zlen_nonneg d).
  assert (Lseg : zlen seg = 20 + zlen d) by (by rewrite E, zlen_app, zlen_tcp_header).
  assert (Ht : tcp_message m pkt src me seg pad) by (unfold tcp_message; repeat (split; [done || lia|]); lia).
  destruct (tcp_parse_seg_message m pkt pad src me sp dp seq ack flags win d seg Ht Hseg) as (k & Hk & Hpa & Hi).
  assert (Hsk : is_segment m k) by (split; [by exists pkt, src, me, seg, pad|done]).
  pose proof (is_segment_wf _ _ Hsk) as K. exists k. repeat (split; [done|]). split; [|done].
  pose proof (kw_sid k K) as Hid. destruct Hpa as [E1 E2 [E3 E4] _ _ _ _ _]. rewrite E1, E2, E3, E4 in Hid.
  unfold connection_id. by rewrite Hid.
Qed.

(** ... and a SYN. *)
Lemma syn_arrived m pkt src me pad sp dp seq ack flags win opts seg :
  m_data m = up_data pkt src me seg ++ pad -> bytes pkt -> zlen pkt <= 65535 -> 40 <= zlen pkt ->
  bytes src -> zlen src = 4 -> bytes me -> zlen me = 4 -> tcp_seg_opts src me sp dp seq ack flags win opts seg -> syn_flags (u8 flags) ->
  exists k, is_segment m k /\ parsed_as src me sp dp seq ack flags win [] k /\ k_mss_index k = syn_index opts /\
    k_session_id k = connection_id src me sp dp /\ in_wf k.
Proof.
  intros Hm Bk Lk Lk2 Bs Ls Bm Lm Hseg (F1 & _ & F3). pose proof Hseg as (Bseg & _ & Ho & (ck & E) & _). pose proof (zlen_nonneg opts).
  assert (Lseg : zlen seg = 20 + zlen opts) by (by rewrite E, zlen_tcp_header_opts).
  assert (Ht : tcp_message m pkt src me seg pad) by (unfold tcp_message; repeat (split; [done || lia|]); lia).
  destruct (tcp_parse_opts_message m pkt pad src me sp dp seq ack flags win opts seg Ht Hseg F1 (flags_ack _ F3)) as (k & Hk & Hpa & Hi).
  assert (Hsk : is_segment m k) by (split; [by exists pkt, src, me, seg, pad|done]).
  pose proof (is_segment_wf _ _ Hsk) as K. exists k. repeat (split; [done|]). split; [|done].
  pose proof (kw_sid k K) as Hid. destruct Hpa as [E1 E2 [E3 E4] _ _ _ _ _]. rewrite E1, E2, E3, E4 in Hid.
  unfold connection_id. by rewrite Hid.
Qed.

(** The reply to a segment, from the host's address. *)
Lemma reply_built k src me sp dp seq0 ack0 flags0 win0 d seq ack flags window :
  in_wf k -> parsed_as src me sp dp seq0 ack0 flags0 win0 d k ->
  exists seg, reply_msg k seq ack flags window = message_of (down_data me src seg) None /\
    tcp_seg me src (u16 dp) (u16 sp) seq ack flags window [] seg /\ zlen seg = 20 /\ bytes seg.
Proof.
  intros K [E1 E2 [E3 E4] _ _ _ _ _]. pose proof (reply_seg_seg k seq ack flags window K) as Hs.
  rewrite E1, E2, E3, E4 in Hs. exists (reply_seg k seq ack flags window). unfold reply_msg, seg_message. rewrite E1, E2.
  split; [done|]. split; [exact Hs|]. destruct Hs as (Bs & (ck & E) & _). split; [|done]. by rewrite E, zlen_app, zlen_tcp_header.
Qed.

Section Host.
Context (c : config) (cap : thread -> Z) (Hc : wired c) (Hroom : roomy cap 40).
Context (Hin : c_proto_in c !! 6 = Some (c_tcp c)) (Hout : c_proto_out c !! c_tcp c = Some 6) (Hmtu : 52 <= c_mtu c).
Context (src : addr) (Bsrc : bytes src) (Lsrc : zlen src = 4).

Notation me := ((c_listen c).1).

Lemma mtu_seg : 20 <= use_mtu_size (c_mtu c).
Proof.
  unfold use_mtu_size. change 7 with (Z.ones 3). rewrite <- Z.ldiff_land, Z.ldiff_ones_r by lia.
  rewrite Z.shiftl_mul_pow2, Z.shiftr_div_pow2 by lia. change (2 ^ 3) with 8. Z.div_mod_to_equations. lia.
Qed.

(** The TCP server's reply, down to the wire. *)
Lemma reply_sent_beside h segs m seg mac2 l apps' :
  host_ready c cap h -> mac_of c (h_arp h) (ip4_via (c_listen c) (c_gw c) src) = Some mac2 ->
  queues c cap (upd (beside l) Ip4OutThread [m]) segs -> l7_turns (c_app_closes c) l (h_apps h) = Ret apps' ->
  arrived (c_tcp c) (message_of (down_data me src seg) None) m -> bytes seg -> zlen seg = 20 ->
  inevitably c (sent_out c cap (set_apps apps' h) me src 6 mac2 seg) (set_segs segs h).
Proof.
  intros (Hq & Hpk & Harp & Hpend & Hfresh) Hmac Hqs Hl Har Bseg Lseg. destruct (wi_listen c Hc) as (Bl & Ll & _).
  destruct (ar_data _ _ _ Har) as (pad & Hd). rewrite m_data_message_of in Hd. pose proof mtu_seg.
  apply (outgoing_beside c cap h segs m me src 6 seg mac2 pad l apps'); try done; try (rewrite Lseg; lia).
  - by rewrite Lseg.
  - by rewrite (ar_sender _ _ _ Har).
  - unfold mac_of. rewrite (wi_arp_ip c Hc), beq_refl. by rewrite (wi_arp_mac c Hc).
  - apply Hfresh. lia.
Qed.

(** ... with what the host is afterwards. *)
Lemma reply_delivered h mac2 h0 segs m reply apps' l :
  mac_of c (h_arp h) (ip4_via (c_listen c) (c_gw c) src) = Some mac2 -> host_ready c cap h0 -> h_arp h0 = h_arp h ->
  queues c cap (upd (beside l) Ip4OutThread [m]) segs -> l7_turns (c_app_closes c) l (h_apps h0) = Ret apps' ->
  arrived (c_tcp c) (message_of (down_data me src reply) None) m -> zlen reply = 20 -> bytes reply ->
  inevitably c (fun h' => host_ready c cap h' /\ h_arp h' = h_arp h /\ h_tcp h' = h_tcp h0 /\ h_apps h' = apps' /\
    exists id' f, h_wire h' = h_wire h0 ++ [eth_frame mac2 (c_mac c) 0x0800 f] /\ ip4_frag me src 6 id' 20 (0, reply) f) (set_segs segs h0).
Proof.
  intros Hmac Hh0 Ha0 Hq2 Hl Har2 Lr Br. eapply inevitably_mono.
  - apply (reply_sent_beside h0 segs m reply mac2 l apps' Hh0); try done. by rewrite Ha0.
  - intros h' Hs. split; [by eapply (sent_out_ready c cap (set_apps apps' h0))|]. destruct Hs as (id' & f & _ & Hf & Hwire & _ & _ & Ha & Ht & Hap & _).
    rewrite Lr in Hf. split; [by rewrite Ha|]. split; [done|]. split; [done|]. by exists id', f.
Qed.

Lemma reply_sent h segs m seg mac2 :
  host_ready c cap h -> mac_of c (h_arp h) (ip4_via (c_listen c) (c_gw c) src) = Some mac2 ->
  queues c cap (upd nothing Ip4OutThread [m]) segs ->
  arrived (c_tcp c) (message_of (down_data me src seg) None) m -> bytes seg -> zlen seg = 20 ->
  inevitably c (sent_out c cap h me src 6 mac2 seg) (set_segs segs h).
Proof.
  intros Hh Hmac Hqs Har Bseg Lseg. replace h with (set_apps (h_apps h) h) at 1 by (by destruct h).
  apply (reply_sent_beside h segs m seg mac2 [] (h_apps h)); try done. refine (queues_ext c cap _ _ _ _ Hqs). by intros [].
Qed.

(** A frame with a segment, up to the TCP server. *)
Lemma segment_incoming_by {A} step quiet `{Scheduler c A step quiet} h e from pkt id sp dp seq ack flags win d seg :
  quiet (h_tcp h) -> roomy cap (40 + zlen d) -> zlen d <= 60000 ->
  host_ready c cap h -> turn_ok e -> zlen from = 6 -> ip4_frag src me 6 id (20 + zlen d) (0, seg) pkt ->
  tcp_seg src me sp dp seq ack flags win d seg ->
  exists h1, frame_arrives c e (eth_frame (c_mac c) from 0x0800 pkt) h = Ret h1 /\
    inevitable step (fun h' => exists segs m k, h' = set_segs segs h /\ queues c cap (upd nothing TcpIn [m]) segs /\
      want (waits_for TcpIn) None m = true /\ is_segment m k /\ parsed_as src me sp dp seq ack flags win d k /\ k_mss_index k = 1 /\
      k_session_id k = connection_id src me sp dp /\ in_wf k) h1.
Proof.
  intros Hquiet Hroomd Ld (Hq & Hpk & _) He Lfrom Hpkt Hseg. destruct (wi_listen c Hc) as (Bl & Ll & _). pose proof Hseg as (Bseg & (ck & Es) & _).
  pose proof (zlen_nonneg d). assert (Lseg : zlen seg = 20 + zlen d) by (by rewrite Es, zlen_app, zlen_tcp_header). rewrite <- Lseg in Hpkt.
  destruct (frag_whole _ _ _ _ _ _ Hpkt) as (Lpkt & _). pose proof Hpkt as [Bpkt _ _ _ _ _ _ _ _ _ _ _ _ _].
  destruct (incoming_by step quiet c cap h e from pkt src 6 id seg TcpIn Hc) as (h1 & E & Hi); try done; try lia.
  { apply (roomy_mono cap (40 + zlen d)); [done|lia]. }
  exists h1. split; [exact E|]. eapply inevitably_mono; [exact Hi|]. intros h' (segs & m & m0 & -> & Hq2 & Har & Ht & Hd).
  destruct (ar_data _ _ _ Har) as (pad & Hdm). rewrite Hd in Hdm.
  destruct (segment_arrived m pkt src me pad sp dp seq ack flags win d seg Hdm) as (k & Hk); try done; try lia.
  exists segs, m, k. split; [done|]. split; [done|]. split; [|exact Hk]. apply (arrived_wanted _ _ _ _ Har). by right.
Qed.

Lemma segment_incoming h e from pkt id sp dp seq ack flags win d seg :
  roomy cap (40 + zlen d) -> zlen d <= 60000 ->
  host_ready c cap h -> turn_ok e -> zlen from = 6 -> ip4_frag src me 6 id (20 + zlen d) (0, seg) pkt ->
  tcp_seg src me sp dp seq ack flags win d seg ->
  exists h1, frame_arrives c e (eth_frame (c_mac c) from 0x0800 pkt) h = Ret h1 /\
    inevitably c (fun h' => exists segs m k, h' = set_segs segs h /\ queues c cap (upd nothing TcpIn [m]) segs /\
      want (waits_for TcpIn) None m = true /\ is_segment m k /\ parsed_as src me sp dp seq ack flags win d k /\ k_mss_index k = 1 /\
      k_session_id k = connection_id src me sp dp /\ in_wf k) h1.
Proof. by apply (segment_incoming_by (round c) (fun _ => True)). Qed.

(** A frame with a SYN. *)
Lemma syn_incoming h e from pkt id sp dp seq ack flags win opts seg :
  roomy cap (40 + zlen opts) -> host_ready c cap h -> turn_ok e -> zlen from = 6 -> ip4_frag src me 6 id (20 + zlen opts) (0, seg) pkt ->
  tcp_seg_opts src me sp dp seq ack flags win opts seg -> syn_flags (u8 flags) ->
  exists h1, frame_arrives c e (eth_frame (c_mac c) from 0x0800 pkt) h = Ret h1 /\
    inevitably c (fun h' => exists segs m k, h' = set_segs segs h /\ queues c cap (upd nothing TcpIn [m]) segs /\
      want (waits_for TcpIn) None m = true /\ is_segment m k /\ parsed_as src me sp dp seq ack flags win [] k /\ k_mss_index k = syn_index opts /\
      k_session_id k = connection_id src me sp dp /\ in_wf k) h1.
Proof.
  intros Hroomd (Hq & Hpk & _) He Lfrom Hpkt Hseg Hfl. destruct (wi_listen c Hc) as (Bl & Ll & _). pose proof Hseg as (Bseg & _ & Ho & (ck & Es) & _).
  pose proof (zlen_nonneg opts). assert (Lseg : zlen seg = 20 + zlen opts) by (by rewrite Es, zlen_tcp_header_opts). rewrite <- Lseg in Hpkt.
  destruct (frag_whole _ _ _ _ _ _ Hpkt) as (Lpkt & _). pose proof Hpkt as [Bpkt _ _ _ _ _ _ _ _ _ _ _ _ _].
  destruct (incoming_by (round c) (fun _ => True) c cap h e from pkt src 6 id seg TcpIn Hc) as (h1 & E & Hi); try done; try lia.
  { apply (roomy_mono cap (40 + zlen opts)); [done|lia]. }
  exists h1. split; [exact E|]. eapply inevitably_mono; [exact Hi|]. intros h' (segs & m & m0 & -> & Hq2 & Har & Ht & Hd).
  destruct (ar_data _ _ _ Har) as (pad & Hdm). rewrite Hd in Hdm.
  destruct (syn_arrived m pkt src me pad sp dp seq ack flags win opts seg Hdm) as (k & Hk); try done; try lia.
  exists segs, m, k. split; [done|]. split; [done|]. split; [|exact Hk]. apply (arrived_wanted _ _ _ _ Har). by right.
Qed.

End Host.

(** The messages of the TCP server fit. *)
Lemma reply_fits cap (d : list Z) t : roomy cap 40 -> t <> ArpResolver -> t <> Ip4Sender -> 0 < zlen d <= 100 ->
  sendable (message_of d None) /\ PAD8 (sizeof_message + m_size (message_of d None)) <= cap t.
Proof.
  intros Hr H1 H2 Hd. split; [apply sendable_of; [lia|done]|]. rewrite message_of_size by lia.
  pose proof (roomy_one cap 40 t (zlen d) Hr H1 H2 ltac:(lia)) as HR. change (zlen (encs (nothing t))) with 0 in HR. lia.
Qed.

(** *** What becomes of a SYN

    [idx] is the index of the segment size its options announce, [e] the turn of the TCP server. *)

Section Outcome.
Context (c : config) (src : addr) (sp dp seq win idx : Z) (mac2 : addr).

Notation me := ((c_listen c).1).
Notation sid := (connection_id src me sp dp).

(** A SYN/ACK whose number is the cookie. *)
Definition cookie_reply (e : turn) (reply : list Z) : Prop :=
  exists cookie, my_syn_cookie sid (c_salt c) idx (e_sec e) = Ret cookie /\
    tcp_seg me src dp sp cookie (u32 (u32 seq + 1)) SYN_ACK INITIAL_LOCAL_WINDOW_SIZE [] reply.

(** Of a connection there is no session of. *)
Definition syn_reply (e : turn) (reply : list Z) : Prop :=
  match c_tcp_ports c !! dp with
  | Some _ => cookie_reply e reply
  | None => tcp_seg me src dp sp 0 0 FLAG_RST (u16 win) [] reply
  end.

(** One frame went out, to the sender, with such a segment. *)
Definition answered (h h' : host) (P : list Z -> Prop) : Prop :=
  exists id' f reply, h_wire h' = h_wire h ++ [eth_frame mac2 (c_mac c) 0x0800 f] /\ ip4_frag me src 6 id' 20 (0, reply) f /\ P reply.

(** The server on top is told to close. *)
Definition close_told (apps : gmap Z l7_session) : gmap Z l7_session :=
  let apps := reap_sessions apps in
  match apps !! sid with
  | Some hs => <[sid := {| ls_from := ls_from hs; ls_from_port := ls_from_port hs; ls_to := ls_to hs; ls_to_port := ls_to_port hs;
      ls_incoming := ls_incoming hs ++ [[]]; ls_stop := c_app_closes c || ls_stop hs; ls_finished := ls_finished hs |}]> apps
  | None => apps
  end.

Definition syn_outcome (h h' : host) (e : turn) : Prop :=
  match h_tcp h !! sid with
  | None => h_tcp h' = h_tcp h /\ h_apps h' = h_apps h /\ answered h h' (syn_reply e)
  | Some s =>
    let s' := touch (e_now e) (u16 win) s in
    if bool_decide (s_state s = closed) || s_is_client s then
      h_tcp h' = <[sid := forget (set_state closed s')]> (h_tcp h) /\ h_apps h' = close_told (h_apps h) /\
      answered h h' (tcp_seg me src dp sp (s_local_seq s) (u32 (u32 seq + if bool_decide (s_state s = closed) then 0 else 1)) FLAG_RST (u16 win) [])
    else if bool_decide (s_state s = established) then
      h_tcp h' = (if s_fin_sent s && s_half_closed s then delete sid (h_tcp h) else <[sid := s']> (h_tcp h)) /\
      h_apps h' = h_apps h /\ h_wire h' = h_wire h
    else h_tcp h' = <[sid := s']> (h_tcp h) /\ h_apps h' = h_apps h /\ answered h h' (cookie_reply e)
  end.

End Outcome.

Section Step.
Context (c : config) (cap : thread -> Z) (Hc : wired c) (Hroom : roomy cap 40).
Context (src : addr) (Lsrc : zlen src = 4) (sp dp : Z) (Hsp : is_u 16 sp) (Hdp : is_u 16 dp).
Context (m : message) (k : tcp_in) (K : in_wf k) (Hk : tcp_parse m = Ret (Some k)) (seq ack flags win : Z).
Context (Hpa : parsed_as src (c_listen c).1 sp dp seq ack flags win [] k) (Hsid : k_session_id k = connection_id src (c_listen c).1 sp dp).
Context (sessions : gmap Z session_t) (Hnew : sessions !! connection_id src (c_listen c).1 sp dp = None).

(** A reply, as a message that fits. *)
Lemma tcp_reply_fits seq' ack' flags' win' :
  exists reply, reply_msg k seq' ack' flags' win' = message_of (down_data (c_listen c).1 src reply) None /\
    tcp_seg (c_listen c).1 src dp sp seq' ack' flags' win' [] reply /\ zlen reply = 20 /\ bytes reply /\
    sendable (reply_msg k seq' ack' flags' win') /\ PAD8 (sizeof_message + m_size (reply_msg k seq' ack' flags' win')) <= cap Ip4OutThread.
Proof.
  destruct (wi_listen c Hc) as (Bl & Ll & _).
  destruct (reply_built k src (c_listen c).1 sp dp _ _ _ _ _ seq' ack' flags' win' K Hpa) as (reply & Er & Hs & Lr & Br).
  rewrite !wrap_small in Hs by done. exists reply. rewrite Er.
  split; [done|]. split; [exact Hs|]. split; [exact Lr|]. split; [exact Br|].
  apply (reply_fits cap _ Ip4OutThread Hroom); [done..|rewrite zlen_down_data; lia].
Qed.

(** The turn of the TCP server for a SYN: of a connection it does not know ... *)
Lemma syn_step e w : syn_flags (u8 flags) ->
  exists reply, tcp_run_in (W := net) (c_tcp_out c) (c_tcp_ports c) (c_salt c) (e_now e) (e_sec e) m sessions w =
      Ret (sessions, after_send (inbox c Ip4OutThread) (message_of (down_data (c_listen c).1 src reply) None) w) /\
    syn_reply c src sp dp seq win (k_mss_index k) e reply /\ zlen reply = 20 /\ bytes reply /\
    let y := message_of (down_data (c_listen c).1 src reply) None in sendable y /\ PAD8 (sizeof_message + m_size y) <= cap Ip4OutThread.
Proof.
  intros Hfl. rewrite (wi_tcp_out c Hc). change (inbox c Ip4OutThread) with (c_ip4_upper c). unfold syn_reply, cookie_reply.
  pose proof Hpa as [E1 E2 [E3 E4] E5 E6 E7 E8 E9]. rewrite (wrap_small 16 dp) in E4 by done. rewrite <- E7 in Hfl.
  destruct (c_tcp_ports c !! dp) as [upper|] eqn:Ep.
  - destruct (my_syn_cookie_spec (k_session_id k) (c_salt c) (k_mss_index k) (e_sec e) (kw_mss k K)) as (cookie & Hck & _).
    destruct (tcp_reply_fits cookie (u32 (k_peer_seq_nr k + 1)) SYN_ACK INITIAL_LOCAL_WINDOW_SIZE) as (reply & Er & Hs & Lr & Br & S1 & S2).
    rewrite Er in S1, S2. rewrite E5 in Hs. exists reply. split; [|refine (conj (ex_intro _ cookie (conj _ Hs)) (conj Lr (conj Br (conj S1 S2)))); by rewrite <- Hsid].
    erewrite (tcp_syn_aux _ _ _ _ _ m k _ upper cookie); [by rewrite <- Er|exact Hk|exact K|exact Hfl|by rewrite Hsid|by rewrite E4|exact Hck].
  - destruct (tcp_reply_fits 0 0 FLAG_RST (k_window_size k)) as (reply & Er & Hs & Lr & Br & S1 & S2).
    rewrite Er in S1, S2. rewrite E8 in Hs, Er. exists reply. split; [|exact (conj Hs (conj Lr (conj Br (conj S1 S2))))].
    rewrite (tcp_refuse_aux _ _ _ _ _ m k); [by rewrite E8, <- Er|exact Hk|exact K|apply Hfl|apply Hfl|by rewrite Hsid|by rewrite E4].
Qed.

(** The turn of the TCP server for the acknowledgement of a cookie: another one ... *)
Lemma bad_ack_step e w cookie : flags = FLAG_ACK ->
  my_syn_cookie (connection_id src (c_listen c).1 sp dp) (c_salt c) (Z.land (u32 (u32 ack - 1)) 7) (e_sec e) = Ret cookie ->
  cookie <> u32 (u32 ack - 1) ->
  exists reply, tcp_run_in (W := net) (c_tcp_out c) (c_tcp_ports c) (c_salt c) (e_now e) (e_sec e) m sessions w =
      Ret (sessions, after_send (inbox c Ip4OutThread) (message_of (down_data (c_listen c).1 src reply) None) w) /\
    tcp_seg (c_listen c).1 src dp sp (u32 (cookie + 1)) (u32 seq) FLAG_RST (u16 win) [] reply /\ zlen reply = 20 /\ bytes reply /\
    let y := message_of (down_data (c_listen c).1 src reply) None in sendable y /\ PAD8 (sizeof_message + m_size y) <= cap Ip4OutThread.
Proof.
  intros Hfl Hck Hne. rewrite (wi_tcp_out c Hc). change (inbox c Ip4OutThread) with (c_ip4_upper c).
  pose proof Hpa as [E1 E2 [E3 E4] E5 E6 E7 E8 E9]. rewrite Hfl in E7.
  destruct (tcp_reply_fits (u32 (cookie + 1)) (k_peer_seq_nr k) FLAG_RST (k_window_size k)) as (reply & Er & Hs & Lr & Br & S1 & S2).
  rewrite Er in S1, S2. rewrite E5, E8 in Hs. exists reply. split; [|exact (conj Hs (conj Lr (conj Br (conj S1 S2))))].
  rewrite (tcp_bad_cookie_aux _ _ _ _ _ m k _ _ cookie); [by rewrite Er|exact Hk|exact K|by rewrite E7|by rewrite Hsid|by rewrite Hsid, E6|by rewrite E6].
Qed.

(** ... or the right one. *)
Definition opened_session (mss : Z) : session_t :=
  {| s_updated_ts := 0; s_is_client := false; s_shm_peer := splice (zeros max_id_length) 0 (c_app c); s_state := established;
     s_start_local_seq := 0; s_start_peer_seq := 0; s_mss := mss; s_local_seq := u32 ack; s_peer_seq := u32 seq;
     s_local_window_size := INITIAL_LOCAL_WINDOW_SIZE; s_peer_window_size := 0; s_local_addr := (c_listen c).1; s_local_port := dp;
     s_peer_addr := src; s_peer_port := sp; s_half_closed := false; s_tcp_to_l7 := tcp_data_init; s_l7_to_tcp := tcp_data_init;
     s_l7_send_fin := false; s_fin_sent := false; s_in_flight := 0 |}.

Definition accepted_session : l7_session :=
  {| ls_from := src; ls_from_port := sp; ls_to := (c_listen c).1; ls_to_port := dp; ls_incoming := [[]]; ls_stop := false; ls_finished := false |}.

Lemma good_ack_step e w : flags = FLAG_ACK -> c_tcp_ports c !! dp = Some (c_app c) ->
  my_syn_cookie (connection_id src (c_listen c).1 sp dp) (c_salt c) (Z.land (u32 (u32 ack - 1)) 7) (e_sec e) = Ret (u32 (u32 ack - 1)) ->
  send_ok_b (c_app c) (notice k MI_TCP_OPEN []) w = true ->
  exists mss, mss_ranges !! Z.to_nat (Z.land (u32 (u32 ack - 1)) 7) = Some mss /\
    tcp_run_in (W := net) (c_tcp_out c) (c_tcp_ports c) (c_salt c) (e_now e) (e_sec e) m sessions w =
      Ret (<[connection_id src (c_listen c).1 sp dp := opened_session mss]> sessions, after_send (inbox c AppIn) (notice k MI_TCP_OPEN []) w).
Proof.
  intros Hfl Hport Hck Hok. pose proof Hpa as [E1 E2 [E3 E4] E5 E6 E7 E8 E9].
  rewrite (wrap_small 16 sp) in E3 by done. rewrite (wrap_small 16 dp) in E4 by done. rewrite Hfl in E7.
  destruct (tcp_open_aux (c_tcp_out c) (c_tcp_ports c) (c_salt c) (e_now e) (e_sec e) m k sessions (c_app c) w)
    as (mss & Lm & Hrun); [exact Hk|exact K|by rewrite E7|done|by rewrite Hsid|by rewrite E4| |by rewrite Hsid, E6|done|].
  { pose proof (wi_names c Hc) as [_ Hl]. pose proof (proj1 (Hl AppIn)) as Hl'. change (inbox c AppIn) with (c_app c) in Hl'. lia. }
  rewrite E6 in Lm. exists mss. split; [done|]. rewrite Hrun, Hsid. unfold server_session, opened_session. by rewrite E1, E2, E3, E4, E5, E6.
Qed.

(** The message about it. *)
Lemma notice_fits fl : sendable (notice k fl []) /\ PAD8 (sizeof_message + m_size (notice k fl [])) <= cap AppIn.
Proof.
  destruct (wi_listen c Hc) as (Bl & Ll & _). pose proof Hpa as [E1 E2 _ _ _ _ _ _]. unfold notice. set (data := up_tcp_data _ _ _ _ _ _ _).
  assert (Ld : zlen data = 52) by (unfold data, up_tcp_data, sz; autorewrite with zlen; rewrite E1, E2; change (zlen (@nil Z)) with 0; lia).
  split; [apply sendable_fill; [lia|unfold is_u; lia|unfold is_u; lia]|]. rewrite fill_size, Ld by lia.
  pose proof (roomy_one cap 40 AppIn 52 Hroom ltac:(done) ltac:(done) ltac:(lia)) as HR. change (zlen (encs (nothing AppIn))) with 0 in HR. lia.
Qed.

(** The turn of the server that listens. *)
Lemma open_announced m2 apps has_close : arrived (c_tcp c) (notice k MI_TCP_OPEN []) m2 -> apps !! connection_id src (c_listen c).1 sp dp = None ->
  l7_turn has_close m2 apps = Ret (<[connection_id src (c_listen c).1 sp dp := accepted_session]> (reap_sessions apps)).
Proof.
  intros Har Hno. pose proof Hpa as [E1 E2 [E3 E4] _ _ _ _ _]. rewrite (wrap_small 16 sp) in E3 by done. rewrite (wrap_small 16 dp) in E4 by done.
  destruct (wi_listen c Hc) as (Bl & Ll & _). destruct (ar_data _ _ _ Har) as (pad & Hd).
  set (n := {| n_session_id := connection_id src (c_listen c).1 sp dp; n_from := src; n_from_port := sp; n_to := (c_listen c).1; n_to_port := dp;
               n_flags := MI_TCP_OPEN; n_pl := [] |}).
  assert (Hn : announces m2 n).
  { exists pad. split; [rewrite Hd; cbn [notice fill_message m_data]; by rewrite E1, E2, E3, E4, Hsid|]. unfold fits. cbn [n n_from n_to n_pl n_session_id n_from_port n_to_port n_flags].
    change (zlen (@nil Z)) with 0. rewrite Lsrc, Ll. split; [lia|]. split; [lia|]. split; [lia|]. split; [|split; [done|split; [done|unfold is_u, MI_TCP_OPEN; lia]]].
    destruct (tcp_calc_session_id_ok (u16 sp) (u16 dp) src (c_listen c).1 Lsrc Ll) as (sid & Es & Hu). unfold connection_id. by rewrite Es. }
  unfold l7_turn. rewrite (l7_run_in_spec has_close m2 n _ Hn). cbn [n n_session_id].
  assert (Hr : reap_sessions apps !! connection_id src (c_listen c).1 sp dp = None) by (apply map_lookup_filter_None; by left).
  by rewrite Hr.
Qed.

(** ... is told to close. *)
Lemma close_announced m2 apps : arrived (c_tcp c) (notice k MI_TCP_CLOSE []) m2 ->
  l7_turn (c_app_closes c) m2 apps = Ret (close_told c src sp dp apps).
Proof.
  intros Har. pose proof Hpa as [E1 E2 [E3 E4] _ _ _ _ _]. rewrite (wrap_small 16 sp) in E3 by done. rewrite (wrap_small 16 dp) in E4 by done.
  destruct (wi_listen c Hc) as (Bl & Ll & _). destruct (ar_data _ _ _ Har) as (pad & Hd).
  set (n := {| n_session_id := connection_id src (c_listen c).1 sp dp; n_from := src; n_from_port := sp; n_to := (c_listen c).1; n_to_port := dp;
               n_flags := MI_TCP_CLOSE; n_pl := [] |}).
  assert (Hn : announces m2 n).
  { exists pad. split; [rewrite Hd; cbn [notice fill_message m_data]; by rewrite E1, E2, E3, E4, Hsid|]. unfold fits. cbn [n n_from n_to n_pl n_session_id n_from_port n_to_port n_flags].
    change (zlen (@nil Z)) with 0. rewrite Lsrc, Ll. split; [lia|]. split; [lia|]. split; [lia|]. split; [|split; [done|split; [done|unfold is_u, MI_TCP_CLOSE; lia]]].
    destruct (tcp_calc_session_id_ok (u16 sp) (u16 dp) src (c_listen c).1 Lsrc Ll) as (sid & Es & Hu). unfold connection_id. by rewrite Es. }
  unfold l7_turn. rewrite (l7_run_in_spec (c_app_closes c) m2 n _ Hn). cbn [n n_session_id]. unfold close_told.
  destruct (reap_sessions apps !! _) as [hs|]; [|done]. unfold old_session. change (closes n) with true. by rewrite andb_true_r.
Qed.

End Step.

(** A SYN of a connection there is a session of. *)
Section Known.
Context (c : config) (cap : thread -> Z) (Hc : wired c) (Hroom : roomy cap 40).
Context (src : addr) (Lsrc : zlen src = 4) (sp dp : Z) (Hsp : is_u 16 sp) (Hdp : is_u 16 dp).
Context (m : message) (k : tcp_in) (K : in_wf k) (Hk : tcp_parse m = Ret (Some k)) (seq ack flags win : Z) (Hfl : syn_flags (u8 flags)).
Context (Hpa : parsed_as src (c_listen c).1 sp dp seq ack flags win [] k) (Hsid : k_session_id k = connection_id src (c_listen c).1 sp dp).
Context (h : host) (s : session_t) (Hs : h_tcp h !! connection_id src (c_listen c).1 sp dp = Some s).

Notation sid := (connection_id src (c_listen c).1 sp dp).
Notation seen e := (touch (e_now e) (u16 win) s).

(** What the turn of the TCP server makes of it. *)
Lemma known_turn e w : exists cookie, my_syn_cookie sid (c_salt c) (k_mss_index k) (e_sec e) = Ret cookie /\
  tcp_run_in (W := net) (c_tcp_out c) (c_tcp_ports c) (c_salt c) (e_now e) (e_sec e) m (h_tcp h) w =
  Ret (if bool_decide (s_state s = closed) || s_is_client s then
         (<[sid := forget (set_state closed (seen e))]> (h_tcp h),
          after_send (c_str (s_shm_peer s)) (notice k MI_TCP_CLOSE []) (after_send (inbox c Ip4OutThread) (reset_for_syn k s) w))
       else if bool_decide (s_state s = established) then
         (if s_fin_sent s && s_half_closed s then delete sid (h_tcp h) else <[sid := seen e]> (h_tcp h), w)
       else (<[sid := seen e]> (h_tcp h), after_send (inbox c Ip4OutThread) (syn_ack k cookie) w)).
Proof.
  pose proof Hpa as [_ _ _ _ _ E7 E8 _]. destruct (my_syn_cookie_spec (k_session_id k) (c_salt c) (k_mss_index k) (e_sec e) (kw_mss k K)) as (cookie & Hck & _).
  rewrite (wi_tcp_out c Hc). change (inbox c Ip4OutThread) with (c_ip4_upper c). exists cookie. split; [by rewrite <- Hsid|].
  rewrite (tcp_syn_known_aux _ _ _ _ _ m k _ s cookie); [by rewrite Hsid, E8|exact Hk|exact K|by rewrite E7|by rewrite Hsid|exact Hck].
Qed.

(** The reset and the message for the server on top. *)
Lemma reset_step e segs1 : turn_ok e -> queues c cap nothing segs1 -> bool_decide (s_state s = closed) || s_is_client s = true -> c_str (s_shm_peer s) = c_app c ->
  exists segs2 m1 m2 reply,
    run_thread_body c e TcpIn m (set_segs segs1 h) = Ret (set_segs segs2 (set_tcp (<[sid := forget (set_state closed (seen e))]> (h_tcp h)) h)) /\
    queues c cap (upd (beside [m1]) Ip4OutThread [m2]) segs2 /\ arrived (c_tcp c) (notice k MI_TCP_CLOSE []) m1 /\
    arrived (c_tcp c) (message_of (down_data (c_listen c).1 src reply) None) m2 /\
    tcp_seg (c_listen c).1 src dp sp (s_local_seq s) (u32 (u32 seq + if bool_decide (s_state s = closed) then 0 else 1)) FLAG_RST (u16 win) [] reply /\
    zlen reply = 20 /\ bytes reply.
Proof.
  intros He Hq1 Hcase Happ. pose proof Hpa as [_ _ _ E5 _ _ E8 _]. destruct (known_turn e (turn_net c e TcpIn segs1)) as (cookie & _ & Hrun).
  rewrite Hcase, Happ in Hrun. set (w := turn_net c e TcpIn segs1) in *.
  destruct (tcp_reply_fits c cap Hc Hroom src Lsrc sp dp Hsp Hdp k K seq ack flags win Hpa (s_local_seq s)
    (u32 (k_peer_seq_nr k + if bool_decide (s_state s = closed) then 0 else 1)) FLAG_RST (k_window_size k)) as (reply & Er & Hr & Lr & Br & S1 & S2).
  fold (reset_for_syn k s) in Er, S1, S2. destruct (notice_fits c cap Hc Hroom src Lsrc sp dp k seq ack flags win Hpa MI_TCP_CLOSE) as [D1 D2].
  destruct (net_send_room c cap nothing w Ip4OutThread (reset_for_syn k s)) as (m2 & g & g' & _ & Hw1 & I1 & Har & _); [|exact S1|exact S2|].
  { split; [apply (wi_names c Hc)|]. split; [by exists TcpIn|]. split; [apply He|done]. }
  set (w1 := after_send (inbox c Ip4OutThread) (reset_for_syn k s) w) in *.
  destruct (net_send_room c cap _ w1 AppIn (notice k MI_TCP_CLOSE []) Hw1 D1 D2) as (m1 & g1 & g1' & _ & (_ & _ & _ & Hq2) & _ & Har1 & _).
  exists (n_segs (after_send (inbox c AppIn) (notice k MI_TCP_CLOSE []) w1)), m1, m2, reply. split.
  { cbn [run_thread_body]. unfold in_net. cbn [h_tcp h_segs set_segs]. fold w. rewrite Hrun. change (c_app c) with (inbox c AppIn). done. }
  rewrite Er in Har. rewrite I1 in Har1. rewrite E5, E8 in Hr. refine (conj _ (conj Har1 (conj Har (conj Hr (conj Lr Br))))).
  refine (queues_ext c cap _ _ _ _ Hq2). intros []; done.
Qed.

(** No answer. *)
Lemma silent_step e segs1 : bool_decide (s_state s = closed) || s_is_client s = false -> s_state s = established ->
  run_thread_body c e TcpIn m (set_segs segs1 h) =
  Ret (set_segs segs1 (set_tcp (if s_fin_sent s && s_half_closed s then delete sid (h_tcp h) else <[sid := seen e]> (h_tcp h)) h)).
Proof.
  intros Hcase Hst. destruct (known_turn e (turn_net c e TcpIn segs1)) as (cookie & _ & Hrun). rewrite Hcase, bool_decide_eq_true_2 in Hrun by done.
  cbn [run_thread_body]. unfold in_net. cbn [h_tcp h_segs set_segs]. rewrite Hrun. done.
Qed.

(** Another cookie. *)
Lemma again_step e segs1 : turn_ok e -> queues c cap nothing segs1 -> bool_decide (s_state s = closed) || s_is_client s = false -> s_state s <> established ->
  exists segs2 m2 reply, run_thread_body c e TcpIn m (set_segs segs1 h) = Ret (set_segs segs2 (set_tcp (<[sid := seen e]> (h_tcp h)) h)) /\
    queues c cap (upd nothing Ip4OutThread [m2]) segs2 /\ arrived (c_tcp c) (message_of (down_data (c_listen c).1 src reply) None) m2 /\
    cookie_reply c src sp dp seq (k_mss_index k) e reply /\ zlen reply = 20 /\ bytes reply.
Proof.
  intros He Hq1 Hcase Hst. pose proof Hpa as [_ _ _ E5 _ _ E8 _]. destruct (known_turn e (turn_net c e TcpIn segs1)) as (cookie & Hck & Hrun).
  rewrite Hcase, bool_decide_eq_false_2 in Hrun by done.
  destruct (tcp_reply_fits c cap Hc Hroom src Lsrc sp dp Hsp Hdp k K seq ack flags win Hpa cookie (u32 (k_peer_seq_nr k + 1)) SYN_ACK INITIAL_LOCAL_WINDOW_SIZE)
    as (reply & Er & Hr & Lr & Br & S1 & S2). fold (syn_ack k cookie) in Er, S1, S2. rewrite E5 in Hr.
  destruct (in_net_one c cap e TcpIn Ip4OutThread _ _ _ h segs1 nothing Hrun (wi_names c Hc) He Hq1 S1 S2) as (segs2 & m2 & E2 & Hq2 & Har2 & _).
  exists segs2, m2, reply. split; [exact (f_equal (fun r => x ← r; Ret (set_tcp x.1 x.2)) E2)|]. rewrite Er in Har2.
  refine (conj Hq2 (conj Har2 (conj _ (conj Lr Br)))). exists cookie. done.
Qed.

End Known.

(** A segment of an open connection. *)
Section Data.
Context (c : config) (cap : thread -> Z) (Hc : wired c) (src : addr) (Lsrc : zlen src = 4) (sp dp : Z) (Hsp : is_u 16 sp) (Hdp : is_u 16 dp).
Context (d : list Z) (Hd : 0 < zlen d <= 60000) (Hroom : roomy cap (40 + zlen d)).
Context (m : message) (k : tcp_in) (K : in_wf k) (Hk : tcp_parse m = Ret (Some k)) (seq ack flags win : Z) (Hfl : data_flags (u8 flags)).
Context (Hpa : parsed_as src (c_listen c).1 sp dp seq ack flags win d k) (Hsid : k_session_id k = connection_id src (c_listen c).1 sp dp).
Context (sessions : gmap Z session_t) (s : session_t) (Hs : sessions !! connection_id src (c_listen c).1 sp dp = Some s).
Context (Hw : session_wf s) (Hst : s_state s <> closed) (Happ : c_str (s_shm_peer s) = c_app c).

Notation sid := (connection_id src (c_listen c).1 sp dp).

(** What the segment acknowledges is taken from the session first, at the time of the turn [e]. *)
Lemma ack_taken e : exists s1, tcp_in_ack (u32 ack) (touch (e_now e) (u16 win) s) = Ret s1 /\ session_wf s1 /\
  s_peer_seq s1 = s_peer_seq s /\ c_str (s_shm_peer s1) = c_app c /\ s_half_closed s1 = s_half_closed s.
Proof.
  destruct (tcp_in_ack_spec (u32 ack) (touch (e_now e) (u16 win) s) (touch_wf _ _ _ Hw) Hst) as (n1 & s1 & Ha & W1 & _).
  destruct (tcp_in_ack_peer _ _ _ Ha) as (P1 & P2 & P3 & _). exists s1. rewrite P2. repeat (split; [done|]). done.
Qed.

(** What the application is told. *)
Definition data_notice : message := notice k (if s_half_closed s then MI_TCP_FIN else 0) d.

Lemma data_notice_fits : sendable data_notice /\ PAD8 (sizeof_message + m_size data_notice) <= cap AppIn.
Proof.
  destruct (wi_listen c Hc) as (Bl & Ll & _). pose proof Hpa as [E1 E2 _ _ _ _ _ _]. unfold data_notice, notice. set (data := up_tcp_data _ _ _ _ _ _ _).
  assert (Ld : zlen data = 52 + zlen d) by (unfold data, up_tcp_data, sz; autorewrite with zlen; rewrite E1, E2; lia).
  split; [apply sendable_fill; [lia|unfold is_u; lia|unfold is_u; lia]|]. rewrite fill_size, Ld by lia.
  pose proof (roomy_one cap (40 + zlen d) AppIn (52 + zlen d) Hroom ltac:(done) ltac:(done) ltac:(lia)) as HR.
  change (zlen (encs (nothing AppIn))) with 0 in HR. lia.
Qed.

Definition fed_session (hs : l7_session) : l7_session :=
  {| ls_from := ls_from hs; ls_from_port := ls_from_port hs; ls_to := ls_to hs; ls_to_port := ls_to_port hs;
     ls_incoming := ls_incoming hs ++ [d]; ls_stop := ls_stop hs; ls_finished := ls_finished hs |}.

Lemma data_announced m2 apps hs has_close : arrived (c_tcp c) data_notice m2 -> apps !! sid = Some hs -> ls_finished hs = false ->
  l7_turn has_close m2 apps = Ret (<[sid := fed_session hs]> (reap_sessions apps)).
Proof.
  intros Har Hhs Hfin. pose proof Hpa as [E1 E2 [E3 E4] _ _ _ _ _]. rewrite (wrap_small 16 sp) in E3 by done. rewrite (wrap_small 16 dp) in E4 by done.
  destruct (wi_listen c Hc) as (Bl & Ll & _). destruct (ar_data _ _ _ Har) as (pad & Hdat).
  set (fl := if s_half_closed s then MI_TCP_FIN else 0) in *. assert (Hf : fl = MI_TCP_FIN \/ fl = 0) by (unfold fl; destruct (s_half_closed s); auto).
  set (n := {| n_session_id := sid; n_from := src; n_from_port := sp; n_to := (c_listen c).1; n_to_port := dp; n_flags := fl; n_pl := d |}).
  assert (Hn : announces m2 n).
  { exists pad. split; [rewrite Hdat; unfold data_notice; cbn [notice fill_message m_data]; by rewrite E1, E2, E3, E4, Hsid|]. unfold fits.
    cbn [n n_from n_to n_pl n_session_id n_from_port n_to_port n_flags].
    rewrite Lsrc, Ll. split; [lia|]. split; [lia|]. split; [lia|]. split; [|split; [done|split; [done|destruct Hf as [-> | ->]; unfold is_u, MI_TCP_FIN; lia]]].
    destruct (tcp_calc_session_id_ok (u16 sp) (u16 dp) src (c_listen c).1 Lsrc Ll) as (id & Es & Hu). unfold connection_id. by rewrite Es. }
  unfold l7_turn. rewrite (l7_run_in_spec has_close m2 n _ Hn). cbn [n n_session_id].
  assert (Hr : reap_sessions apps !! sid = Some hs) by (by apply map_lookup_filter_Some).
  rewrite Hr. unfold old_session, fed_session. cbn [n_pl n]. assert (Hcl : closes n = false) by (unfold closes; cbn [n n_flags]; by destruct Hf as [-> | ->]).
  by rewrite Hcl, andb_false_r.
Qed.

(** The ACK that goes back. *)
Lemma data_ack s1 next : exists reply, reply_msg k (s_local_seq s1) next FLAG_ACK (s_local_window_size s1) = message_of (down_data (c_listen c).1 src reply) None /\
  tcp_seg (c_listen c).1 src dp sp (s_local_seq s1) next FLAG_ACK (s_local_window_size s1) [] reply /\ zlen reply = 20 /\ bytes reply /\
  sendable (reply_msg k (s_local_seq s1) next FLAG_ACK (s_local_window_size s1)) /\
  PAD8 (sizeof_message + m_size (reply_msg k (s_local_seq s1) next FLAG_ACK (s_local_window_size s1))) <= cap Ip4OutThread.
Proof.
  destruct (wi_listen c Hc) as (Bl & Ll & _).
  destruct (reply_built k src (c_listen c).1 sp dp _ _ _ _ _ (s_local_seq s1) next FLAG_ACK (s_local_window_size s1) K Hpa) as (reply & Er & Hs1 & Lr & Br).
  rewrite (wrap_small 16 sp), (wrap_small 16 dp) in Hs1 by done. exists reply. rewrite Er. split; [done|]. split; [exact Hs1|]. split; [exact Lr|]. split; [exact Br|].
  apply (reply_fits cap _ Ip4OutThread); [|done..|rewrite zlen_down_data; lia]. apply (roomy_mono cap (40 + zlen d)); [done|lia].
Qed.

(** The turn of the TCP server: data it did not expect ... *)
Lemma other_data_step e segs1 h : turn_ok e -> queues c cap nothing segs1 -> h_tcp h = sessions -> u32 seq <> s_peer_seq s ->
  exists s1 segs2 m2 reply, tcp_in_ack (u32 ack) (touch (e_now e) (u16 win) s) = Ret s1 /\
    run_thread_body c e TcpIn m (set_segs segs1 h) = Ret (set_segs segs2 (set_tcp (<[sid := s1]> sessions) h)) /\
    queues c cap (upd nothing Ip4OutThread [m2]) segs2 /\ arrived (c_tcp c) (message_of (down_data (c_listen c).1 src reply) None) m2 /\
    tcp_seg (c_listen c).1 src dp sp (s_local_seq s1) (s_peer_seq s) FLAG_ACK (s_local_window_size s1) [] reply /\ zlen reply = 20 /\ bytes reply.
Proof.
  intros He Hq1 Ht Hne. destruct (ack_taken e) as (s1 & Ha & W1 & P1 & P2 & P3). pose proof Hpa as [_ _ _ E5 E6 E7 E8 E9].
  destruct (data_ack s1 (s_peer_seq s)) as (reply & Er & Hr & Lr & Br & S1 & S2).
  set (w := turn_net c e TcpIn segs1).
  destruct (net_send_room c cap nothing w Ip4OutThread (reply_msg k (s_local_seq s1) (s_peer_seq s) FLAG_ACK (s_local_window_size s1)))
    as (m2 & g & g' & Hok & (_ & _ & _ & Hq2) & _ & Har & _); [|exact S1|exact S2|].
  { split; [apply (wi_names c Hc)|]. split; [by exists TcpIn|]. split; [apply He|done]. }
  exists s1, (n_segs (after_send (inbox c Ip4OutThread) (reply_msg k (s_local_seq s1) (s_peer_seq s) FLAG_ACK (s_local_window_size s1)) w)), m2, reply.
  split; [done|]. split; [|rewrite Er in Har; exact (conj Hq2 (conj Har (conj Hr (conj Lr Br))))].
  cbn [run_thread_body]. unfold in_net. cbn [h_tcp h_segs set_segs]. fold w. rewrite Ht.
  rewrite (tcp_data_segment_aux _ _ _ _ _ m k sessions s s1 w); [|exact Hk|exact K|by rewrite E7|by rewrite Hsid|done|by rewrite E6, E8|done].
  unfold data_effect. rewrite E5, P1. replace (u32 seq =? s_peer_seq s) with false by lia. rewrite (wi_tcp_out c Hc).
  change (c_ip4_upper c) with (inbox c Ip4OutThread). rewrite Hok, Hsid. done.
Qed.

(** ... and the data that is next. *)
Lemma next_data_step e segs1 h : turn_ok e -> queues c cap nothing segs1 -> h_tcp h = sessions -> u32 seq = s_peer_seq s ->
  exists s1 segs2 m1 m2 reply, let next := u32 (s_peer_seq s + zlen d) in tcp_in_ack (u32 ack) (touch (e_now e) (u16 win) s) = Ret s1 /\
    run_thread_body c e TcpIn m (set_segs segs1 h) = Ret (set_segs segs2 (set_tcp (<[sid := set_peer_seq next s1]> sessions) h)) /\
    queues c cap (upd (beside [m1]) Ip4OutThread [m2]) segs2 /\ arrived (c_tcp c) data_notice m1 /\
    arrived (c_tcp c) (message_of (down_data (c_listen c).1 src reply) None) m2 /\
    tcp_seg (c_listen c).1 src dp sp (s_local_seq s1) next FLAG_ACK (s_local_window_size s1) [] reply /\ zlen reply = 20 /\ bytes reply.
Proof.
  intros He Hq1 Ht Heq. destruct (ack_taken e) as (s1 & Ha & W1 & P1 & P2 & P3). pose proof Hpa as [_ _ _ E5 E6 E7 E8 E9].
  set (next := u32 (s_peer_seq s + zlen d)). destruct (data_ack s1 next) as (reply & Er & Hr & Lr & Br & S1 & S2).
  destruct data_notice_fits as [D1 D2]. set (w := turn_net c e TcpIn segs1). pose proof (zlen_nonneg d).
  destruct (net_send_room c cap nothing w AppIn data_notice) as (m1 & g1 & g1' & Hok1 & Hw1 & I1 & Har1 & _); [|exact D1|exact D2|].
  { split; [apply (wi_names c Hc)|]. split; [by exists TcpIn|]. split; [apply He|done]. }
  set (w1 := after_send (inbox c AppIn) data_notice w) in *.
  destruct (net_send_room c cap _ w1 Ip4OutThread (reply_msg k (s_local_seq s1) next FLAG_ACK (s_local_window_size s1)) Hw1 S1 S2)
    as (m2 & g & g' & Hok & (_ & _ & _ & Hq2) & _ & Har & _).
  exists s1, (n_segs (after_send (inbox c Ip4OutThread) (reply_msg k (s_local_seq s1) next FLAG_ACK (s_local_window_size s1)) w1)), m1, m2, reply.
  split; [done|]. split; [|rewrite Er, I1 in Har; exact (conj Hq2 (conj Har1 (conj Har (conj Hr (conj Lr Br)))))].
  cbn [run_thread_body]. unfold in_net. cbn [h_tcp h_segs set_segs]. fold w. rewrite Ht.
  rewrite (tcp_data_segment_aux _ _ _ _ _ m k sessions s s1 w); [|exact Hk|exact K|by rewrite E7|by rewrite Hsid|done|by rewrite E6, E8|done].
  unfold data_effect. rewrite E5, P1, P2, P3, E9, Heq, Z.eqb_refl. replace (zlen d =? 0) with false by lia. rewrite (wi_tcp_out c Hc).
  change (c_ip4_upper c) with (inbox c Ip4OutThread). change (c_app c) with (inbox c AppIn). fold data_notice w1 next. rewrite Hok1, Hok, Hsid. done.
Qed.

End Data.

(** ** Properties *)

(** C13: a SYN, with whatever options.  It arrives at a host with empty queues whose ARP cache knows the next hop back.
    Under every schedule of the servers, what becomes of it depends on the connection ([syn_outcome]).  When the TCP server has
    no session of it, exactly one frame goes out, to the sender of the SYN: if a
    server listens on the port, a SYN/ACK whose sequence number is the cookie of the connection and of the index of the segment size that the options
    announce ([syn_index_options]), at the moment the TCP server ran, and which acknowledges the SYN; otherwise a reset.  No
    session is made: the host keeps no state for half-open connections.  (The reset of a refused connection has
    neither an ACK flag nor an acknowledgement number, so that by RFC 793 the peer has to ignore it.)  When there is a session,
    it is noted that something was heard, and: a session that is closed, or that the host opened as a client, is reset, the server on top is told to close, and one frame with
    the reset goes out; an established one makes the SYN go unanswered, and is removed if both sides have closed; any other is answered with a cookie again.  Sessions here belong to the
    server on top of TCP. *)
Theorem syn_answered (c : config) (cap : thread -> Z) (h : host) (e : turn) (from pkt src seg opts : list Z) (id sp dp seq ack flags win : Z) (mac2 : addr)
  (Hc : wired c) (Hroom : roomy cap (40 + zlen opts)) (Hh : host_ready c cap h) (He : turn_ok e) (Hfrom : zlen from = 6)
  (Hpkt : ip4_frag src (c_listen c).1 6 id (20 + zlen opts) (0, seg) pkt) (Hseg : tcp_seg_opts src (c_listen c).1 sp dp seq ack flags win opts seg)
  (Hfl : syn_flags (u8 flags)) (Hports : is_u 16 sp /\ is_u 16 dp) (Hmtu : 52 <= c_mtu c) (Bsrc : bytes src) (Lsrc : zlen src = 4)
  (Hin : c_proto_in c !! 6 = Some (c_tcp c)) (Hout : c_proto_out c !! c_tcp c = Some 6)
  (Hmac : mac_of c (h_arp h) (ip4_via (c_listen c) (c_gw c) src) = Some mac2)
  (Happ : forall s, h_tcp h !! connection_id src (c_listen c).1 sp dp = Some s -> c_str (s_shm_peer s) = c_app c) :
  exists h1, frame_arrives c e (eth_frame (c_mac c) from 0x0800 pkt) h = Ret h1 /\
    inevitably c (fun h' => host_ready c cap h' /\ h_arp h' = h_arp h /\
      exists e2, turn_ok e2 /\ syn_outcome c src sp dp seq win (syn_index opts) mac2 h h' e2) h1.
Proof.
  assert (Hroom40 : roomy cap 40) by (apply (roomy_mono cap (40 + zlen opts)); [done|pose proof (zlen_nonneg opts); lia]).
  destruct (syn_incoming c cap Hc Hin src Bsrc Lsrc h e from pkt id sp dp seq ack flags win opts seg Hroom Hh He Hfrom Hpkt Hseg Hfl)
    as (h1 & E & Hi). destruct Hports as [Hsp Hdp]. pose proof (wi_names c Hc) as Hn.
  exists h1. split; [exact E|]. eapply inevitably_bind; [exact Hi|].
  intros h2 (segs & m & k & -> & Hq & Hw & [_ Hk] & Hpa & Hidx & Hsid & K).
  apply (inev_single c cap _ (set_segs segs h) TcpIn m Hn Hq Hw). intros e2 segs1 He2 Hq1. change (set_segs segs1 (set_segs segs h)) with (set_segs segs1 h).
  pose proof (fun h0 segs2 m2 reply apps' l => reply_delivered c cap Hc Hroom40 Hout Hmtu src Bsrc Lsrc h mac2 h0 segs2 m2 reply apps' l Hmac) as Hsent.
  destruct (h_tcp h !! connection_id src (c_listen c).1 sp dp) as [s|] eqn:Es.
  - destruct (bool_decide (s_state s = closed) || s_is_client s) eqn:Ecase; [|destruct (decide (s_state s = established)) as [Est|Est]].
    + destruct (reset_step c cap Hc Hroom40 src Lsrc sp dp Hsp Hdp m k K Hk seq ack flags win Hfl Hpa Hsid h s Es e2 segs1 He2 Hq1 Ecase (Happ s eq_refl))
        as (segs2 & m1 & m2 & reply & Hrun & Hq2 & Har1 & Har2 & Hr & Lr & Br).
      eexists. split; [exact Hrun|]. eapply inevitably_mono.
      * refine (Hsent (set_tcp _ h) segs2 m2 reply _ [m1] Hh eq_refl Hq2 _ Har2 Lr Br). cbn [l7_turns h_apps set_tcp].
        by rewrite (close_announced c Hc src Lsrc sp dp Hsp Hdp k seq ack flags win Hpa Hsid m1 (h_apps h) Har1).
      * intros h' (Hr1 & Ha1 & Ht1 & Hap1 & id' & f & Hwire & Hf). split; [exact Hr1|]. split; [exact Ha1|]. exists e2. split; [done|].
        unfold syn_outcome. rewrite Es, Ecase. cbn zeta. split; [exact Ht1|]. split; [exact Hap1|]. exists id', f, reply. exact (conj Hwire (conj Hf Hr)).
    + eexists. split; [exact (silent_step c Hc src sp dp m k K Hk seq ack flags win Hfl Hpa Hsid h s Es e2 segs1 Ecase Est)|].
      apply inev_done. destruct Hh as (_ & Hrest). split; [exact (conj Hq1 Hrest)|]. split; [done|]. exists e2. split; [done|].
      unfold syn_outcome. rewrite Es, Ecase, bool_decide_eq_true_2 by done. done.
    + destruct (again_step c cap Hc Hroom40 src Lsrc sp dp Hsp Hdp m k K Hk seq ack flags win Hfl Hpa Hsid h s Es e2 segs1 He2 Hq1 Ecase Est)
        as (segs2 & m2 & reply & Hrun & Hq2 & Har2 & Hr & Lr & Br). rewrite Hidx in Hr.
      eexists. split; [exact Hrun|]. eapply inevitably_mono.
      * refine (Hsent (set_tcp _ h) segs2 m2 reply (h_apps h) [] Hh eq_refl _ eq_refl Har2 Lr Br). refine (queues_ext c cap _ _ _ _ Hq2). by intros [].
      * intros h' (Hr1 & Ha1 & Ht1 & Hap1 & id' & f & Hwire & Hf). split; [exact Hr1|]. split; [exact Ha1|]. exists e2. split; [done|].
        unfold syn_outcome. rewrite Es, Ecase, bool_decide_eq_false_2 by done. split; [exact Ht1|]. split; [exact Hap1|]. exists id', f, reply. exact (conj Hwire (conj Hf Hr)).
  - destruct (syn_step c cap Hc Hroom40 src Lsrc sp dp Hsp Hdp m k K Hk seq ack flags win Hpa Hsid (h_tcp h) Es e2 (turn_net c e2 TcpIn segs1) Hfl)
      as (reply & Hrun & Hr & Lr & Br & S1 & S2). rewrite Hidx in Hr.
    destruct (in_net_one c cap e2 TcpIn Ip4OutThread _ _ _ h segs1 nothing Hrun Hn He2 Hq1 S1 S2) as (segs2 & m2 & E2 & Hq2 & Har2 & _).
    exists (set_segs segs2 h). split; [exact (f_equal (fun r => x ← r; Ret (set_tcp x.1 x.2)) E2)|]. eapply inevitably_mono.
    + refine (Hsent h segs2 m2 reply (h_apps h) [] Hh eq_refl _ eq_refl Har2 Lr Br). refine (queues_ext c cap _ _ _ _ Hq2). by intros [].
    + intros h' (Hr1 & Ha1 & Ht1 & Hap1 & id' & f & Hwire & Hf). split; [exact Hr1|]. split; [exact Ha1|]. exists e2. split; [done|].
      unfold syn_outcome. rewrite Es. split; [exact Ht1|]. split; [exact Hap1|]. exists id', f, reply. exact (conj Hwire (conj Hf Hr)).
Qed.

Definition ex_data_segment (ack flags : Z) (d : list Z) : list Z :=
  match tcp_packet ex_src ex_dst 40000 80 7 ack flags 1000 d with Ret s => s | Fault _ => [] end.
Definition ex_segment (ack flags : Z) : list Z := ex_data_segment ack flags [].

Definition ex_packet (seg : list Z) : list Z := match ip4_fragment 7 6 0 20 20 ex_src ex_dst seg with Ret f => f | Fault _ => [] end.

Lemma ex_data_segment_seg ack flags d : bytes d -> zlen d <= 65515 -> tcp_seg ex_src ex_dst 40000 80 7 ack flags 1000 d (ex_data_segment ack flags d).
Proof.
  intros Bd Ld. unfold ex_data_segment. destruct (tcp_packet_spec ex_src ex_dst 40000 80 7 ack flags 1000 d) as (s & E & Hs & _);
    [concrete_bytes|reflexivity|concrete_bytes|reflexivity|done|done|]. rewrite E. exact Hs.
Qed.

Lemma ex_segment_seg ack flags : tcp_seg ex_src ex_dst 40000 80 7 ack flags 1000 [] (ex_segment ack flags).
Proof. apply ex_data_segment_seg; [concrete_bytes|by vm_compute]. Qed.

Lemma ex_roomy : roomy (fun _ => 2048) 40.
Proof. intros t. destruct t; vm_compute; discriminate. Qed.

(** A SYN as clients send it: a segment size of 1460 bytes, two bytes of padding, "SACK permitted". *)
Definition ex_options : list Z := concat (map option_bytes [Mss 1460; Nop; Nop; OtherOption 4 []]).

Definition ex_syn_segment : list Z :=
  let s ck := tcp_header_opts 40000 80 7 0 FLAG_SYN 1000 ck ex_options in
  match tcp_udp_checksum ex_src ex_dst (s 0) 28 6 with Ret ck => s ck | Fault _ => [] end.

Lemma ex_syn_segment_seg : tcp_seg_opts ex_src ex_dst 40000 80 7 0 FLAG_SYN 1000 ex_options ex_syn_segment.
Proof.
  split; [concrete_bytes|]. split; [reflexivity|]. split; [vm_compute; discriminate|]. split; [|vm_compute; reflexivity].
  unfold ex_syn_segment. destruct (tcp_udp_checksum _ _ _ 28 6) as [ck|] eqn:E; [by exists ck|vm_compute in E; discriminate].
Qed.

Lemma syn_answered_witness :
  exists h1, frame_arrives ex_config ex_turn (eth_frame [2; 0; 0; 0; 0; 1] ex_mac2 0x0800
      match ip4_fragment 7 6 0 28 28 ex_src ex_dst ex_syn_segment with Ret f => f | Fault _ => [] end) ex_host = Ret h1 /\
    inevitably ex_config (fun h' => host_ready ex_config (fun _ => 2048) h' /\ h_arp h' = h_arp ex_host /\
      exists e2, turn_ok e2 /\ h_tcp h' = ∅ /\ h_apps h' = ∅ /\
        exists id' f reply, h_wire h' = [] ++ [eth_frame ex_mac2 [2; 0; 0; 0; 0; 1] 0x0800 f] /\ ip4_frag ex_dst ex_src 6 id' 20 (0, reply) f /\
          exists cookie, my_syn_cookie (connection_id ex_src ex_dst 40000 80) (repeat 1 16) (mss_index_of mss_ranges 0 1460 1) (e_sec e2) = Ret cookie /\
            tcp_seg ex_dst ex_src 80 40000 cookie (u32 (u32 7 + 1)) SYN_ACK INITIAL_LOCAL_WINDOW_SIZE [] reply) h1.
Proof.
  refine (syn_answered ex_config (fun _ => 2048) ex_host ex_turn ex_mac2 _ ex_src ex_syn_segment ex_options 7 40000 80 7 0 FLAG_SYN 1000 ex_mac2
    ex_config_wired _ ex_host_ready ex_turn_ok _ _ ex_syn_segment_seg _ _ _ _ _ _ _ _ _).
  all: try reflexivity.
  - intros t. destruct t; vm_compute; discriminate.
  - split; first [concrete_bytes|by vm_compute].
  - repeat split.
  - split; vm_compute; (split; [discriminate|reflexivity]).
  - vm_compute. discriminate.
  - concrete_bytes.
  - intros s Hs. vm_compute in Hs. discriminate.
Defined.

(** C9: the acknowledgement of a cookie.  An ACK without data for a connection the host knows nothing
    of, to the port of the server on top of TCP, arrives at a host with empty queues.  Under every
    schedule: when the number is that of the cookie at the moment the TCP server runs, both
    servers have a session of the connection in the end, with the addresses, ports and sequence numbers of
    the peer and the segment size the cookie codes, and nothing goes out; otherwise there is no session and exactly one frame goes
    out, with a reset for the peer.  Any other session of the two servers is as before, but for those of the upper server whose
    thread had finished: these are removed. *)
Theorem connection_opened (c : config) (cap : thread -> Z) (h : host) (e : turn) (from pkt src seg : list Z) (id sp dp seq ack win : Z) (mac2 : addr)
  (Hc : wired c) (Hroom : roomy cap 40) (Hh : host_ready c cap h) (He : turn_ok e) (Hfrom : zlen from = 6)
  (Hpkt : ip4_frag src (c_listen c).1 6 id 20 (0, seg) pkt) (Hseg : tcp_seg src (c_listen c).1 sp dp seq ack FLAG_ACK win [] seg)
  (Hports : is_u 16 sp /\ is_u 16 dp) (Hmtu : 52 <= c_mtu c) (Bsrc : bytes src) (Lsrc : zlen src = 4)
  (Hin : c_proto_in c !! 6 = Some (c_tcp c)) (Hout : c_proto_out c !! c_tcp c = Some 6)
  (Hmac : mac_of c (h_arp h) (ip4_via (c_listen c) (c_gw c) src) = Some mac2)
  (Hport : c_tcp_ports c !! dp = Some (c_app c))
  (Hnew : h_tcp h !! connection_id src (c_listen c).1 sp dp = None) (Hnew2 : h_apps h !! connection_id src (c_listen c).1 sp dp = None) :
  let sid := connection_id src (c_listen c).1 sp dp in let cookie0 := u32 (u32 ack - 1) in
  exists h1, frame_arrives c e (eth_frame (c_mac c) from 0x0800 pkt) h = Ret h1 /\
    inevitably c (fun h' => host_ready c cap h' /\ h_arp h' = h_arp h /\
      exists e2 cookie, turn_ok e2 /\ my_syn_cookie sid (c_salt c) (Z.land cookie0 7) (e_sec e2) = Ret cookie /\
        if cookie =? cookie0 then
          h_wire h' = h_wire h /\ h_apps h' = <[sid := accepted_session c src sp dp]> (reap_sessions (h_apps h)) /\
          exists mss, mss_ranges !! Z.to_nat (Z.land cookie0 7) = Some mss /\
            h_tcp h' = <[sid := opened_session c src sp dp seq ack mss]> (h_tcp h)
        else
          h_tcp h' = h_tcp h /\ h_apps h' = h_apps h /\
          exists id' f reply, h_wire h' = h_wire h ++ [eth_frame mac2 (c_mac c) 0x0800 f] /\
            ip4_frag (c_listen c).1 src 6 id' 20 (0, reply) f /\
            tcp_seg (c_listen c).1 src dp sp (u32 (cookie + 1)) (u32 seq) FLAG_RST (u16 win) [] reply) h1.
Proof.
  intros sid cookie0.
  destruct (segment_incoming c cap Hc Hin src Bsrc Lsrc h e from pkt id sp dp seq ack FLAG_ACK win [] seg Hroom ltac:(done) Hh He Hfrom Hpkt Hseg)
    as (h1 & E & Hi). destruct Hports as [Hsp Hdp]. pose proof (wi_names c Hc) as Hn.
  exists h1. split; [exact E|]. eapply inevitably_bind; [exact Hi|].
  intros h2 (segs & m & k & -> & Hq & Hw & [_ Hk] & Hpa & Hidx & Hsid & K).
  apply (inev_single c cap _ (set_segs segs h) TcpIn m Hn Hq Hw). intros e2 segs1 He2 Hq1.
  pose proof (land7_range cookie0) as H7. destruct (my_syn_cookie_spec sid (c_salt c) (Z.land cookie0 7) (e_sec e2)) as (cookie & Hck & _); [lia|].
  destruct (Z.eqb_spec cookie cookie0) as [->|Hne].
  - destruct (notice_fits c cap Hc Hroom src Lsrc sp dp k seq ack FLAG_ACK win Hpa MI_TCP_OPEN) as [S1 S2].
    destruct (net_send_room c cap nothing (turn_net c e2 TcpIn segs1) AppIn (notice k MI_TCP_OPEN [])) as (m' & s & s' & Hok & _); try done.
    { split; [done|]. split; [by exists TcpIn|]. split; [apply He2|done]. }
    destruct (good_ack_step c Hc src sp dp Hsp Hdp m k K Hk seq ack FLAG_ACK win Hpa Hsid (h_tcp h) Hnew e2 (turn_net c e2 TcpIn segs1) eq_refl Hport Hck Hok)
      as (mss & Lm & Hrun).
    destruct (in_net_one c cap e2 TcpIn AppIn _ _ _ h segs1 nothing Hrun Hn He2 Hq1 S1 S2) as (segs2 & m2 & E2 & Hq2 & Har2 & _).
    eexists. split; [exact (f_equal (fun r => x ← r; Ret (set_tcp x.1 x.2)) E2)|].
    eapply (inev_single c cap _ _ AppIn m2 Hn); [exact Hq2|by apply (arrived_wanted _ _ _ _ Har2); left|]. intros e3 segs3 He3 Hq3.
    eexists. split; [exact (f_equal (fun r => x ← r; Ret (set_apps x _))
      (open_announced c Hc src Lsrc sp dp Hsp Hdp k seq ack FLAG_ACK win Hpa Hsid m2 (h_apps h) (c_app_closes c) Har2 Hnew2))|].
    apply inev_done. destruct Hh as (_ & Hrest). split; [exact (conj Hq3 Hrest)|]. split; [done|]. exists e2, cookie0.
    split; [done|]. split; [done|]. rewrite Z.eqb_refl. split; [done|]. split; [done|]. by exists mss.
  - destruct (bad_ack_step c cap Hc Hroom src Lsrc sp dp Hsp Hdp m k K Hk seq ack FLAG_ACK win Hpa Hsid (h_tcp h) Hnew e2 (turn_net c e2 TcpIn segs1)
      cookie eq_refl Hck Hne) as (reply & Hrun & Hr & Lr & Br & S1 & S2).
    destruct (in_net_one c cap e2 TcpIn Ip4OutThread _ _ _ h segs1 nothing Hrun Hn He2 Hq1 S1 S2) as (segs2 & m2 & E2 & Hq2 & Har2 & _).
    exists (set_segs segs2 h). split; [exact (f_equal (fun r => x ← r; Ret (set_tcp x.1 x.2)) E2)|]. eapply inevitably_mono.
    + apply (reply_sent c cap Hc Hroom Hout Hmtu src Bsrc Lsrc h segs2 m2 reply mac2 Hh Hmac Hq2 Har2 Br Lr).
    + intros h' Hs. split; [by eapply sent_out_ready|]. destruct Hs as (id' & f & _ & Hf & Hwire & _ & _ & Ha & Ht & Hap & _).
      split; [done|]. exists e2, cookie. split; [done|]. split; [done|]. replace (cookie =? cookie0) with false by lia.
      split; [done|]. split; [done|]. exists id', f, reply. rewrite Lr in Hf. exact (conj Hwire (conj Hf Hr)).
Qed.

Definition ex_cookie_ack : Z :=
  match my_syn_cookie (connection_id ex_src ex_dst 40000 80) (repeat 1 16) 1 7 with Ret cookie => u32 (cookie + 1) | Fault _ => 0 end.

Lemma connection_opened_witness :
  let sid := connection_id ex_src ex_dst 40000 80 in let cookie0 := u32 (u32 ex_cookie_ack - 1) in
  exists h1, frame_arrives ex_config ex_turn (eth_frame [2; 0; 0; 0; 0; 1] ex_mac2 0x0800 (ex_packet (ex_segment ex_cookie_ack FLAG_ACK))) ex_host = Ret h1 /\
    inevitably ex_config (fun h' => host_ready ex_config (fun _ => 2048) h' /\ h_arp h' = h_arp ex_host /\
      exists e2 cookie, turn_ok e2 /\ my_syn_cookie sid (repeat 1 16) (Z.land cookie0 7) (e_sec e2) = Ret cookie /\
        if cookie =? cookie0 then
          h_wire h' = [] /\ h_apps h' = <[sid := accepted_session ex_config ex_src 40000 80]> (reap_sessions ∅) /\
          exists mss, mss_ranges !! Z.to_nat (Z.land cookie0 7) = Some mss /\
            h_tcp h' = <[sid := opened_session ex_config ex_src 40000 80 7 ex_cookie_ack mss]> ∅
        else
          h_tcp h' = ∅ /\ h_apps h' = ∅ /\
          exists id' f reply, h_wire h' = [] ++ [eth_frame ex_mac2 [2; 0; 0; 0; 0; 1] 0x0800 f] /\
            ip4_frag ex_dst ex_src 6 id' 20 (0, reply) f /\
            tcp_seg ex_dst ex_src 80 40000 (u32 (cookie + 1)) (u32 7) FLAG_RST (u16 1000) [] reply) h1.
Proof.
  refine (connection_opened ex_config (fun _ => 2048) ex_host ex_turn ex_mac2 (ex_packet (ex_segment ex_cookie_ack FLAG_ACK)) ex_src
    (ex_segment ex_cookie_ack FLAG_ACK) 7 40000 80 7 ex_cookie_ack 1000 ex_mac2
    ex_config_wired ex_roomy ex_host_ready ex_turn_ok _ _ (ex_segment_seg ex_cookie_ack FLAG_ACK) _ _ _ _ _ _ _ _ _ _).
  all: try reflexivity.
  - split; first [concrete_bytes|by vm_compute].
  - split; vm_compute; (split; [discriminate|reflexivity]).
  - vm_compute. discriminate.
  - concrete_bytes.
Defined.

(** C10: data on an open connection.  A segment with data for a connection of the server on
    top of TCP arrives at a host with empty queues.  Under every schedule exactly one frame goes out
    in the end, with an ACK: if the segment is the one expected, for the number behind its data, and the queue of
    the connection's session has got the data; otherwise - resent, or out of order -
    for the number expected, and the sessions of the server on top are as before.  In both cases what the segment acknowledges
    is taken from the session. *)
Theorem data_served (c : config) (cap : thread -> Z) (h : host) (e : turn) (from pkt src seg d : list Z) (id sp dp seq ack flags win : Z) (mac2 : addr)
  (s : session_t) (hs : l7_session)
  (Hc : wired c) (Hd : 0 < zlen d <= 60000) (Hroom : roomy cap (40 + zlen d)) (Hh : host_ready c cap h) (He : turn_ok e) (Hfrom : zlen from = 6)
  (Hpkt : ip4_frag src (c_listen c).1 6 id (20 + zlen d) (0, seg) pkt) (Hseg : tcp_seg src (c_listen c).1 sp dp seq ack flags win d seg)
  (Hfl : data_flags (u8 flags)) (Hports : is_u 16 sp /\ is_u 16 dp) (Hmtu : 52 <= c_mtu c) (Bsrc : bytes src) (Lsrc : zlen src = 4)
  (Hin : c_proto_in c !! 6 = Some (c_tcp c)) (Hout : c_proto_out c !! c_tcp c = Some 6)
  (Hmac : mac_of c (h_arp h) (ip4_via (c_listen c) (c_gw c) src) = Some mac2)
  (Hs : h_tcp h !! connection_id src (c_listen c).1 sp dp = Some s) (Hw : session_wf s) (Hst : s_state s <> closed)
  (Happ : c_str (s_shm_peer s) = c_app c) (Hhs : h_apps h !! connection_id src (c_listen c).1 sp dp = Some hs) (Hfin : ls_finished hs = false) :
  let sid := connection_id src (c_listen c).1 sp dp in let expected := u32 seq =? s_peer_seq s in
  let next := if expected then u32 (s_peer_seq s + zlen d) else s_peer_seq s in
  exists h1, frame_arrives c e (eth_frame (c_mac c) from 0x0800 pkt) h = Ret h1 /\
    inevitably c (fun h' => host_ready c cap h' /\ h_arp h' = h_arp h /\
      h_apps h' = (if expected then <[sid := fed_session d hs]> (reap_sessions (h_apps h)) else h_apps h) /\
      exists e2 s1 id' f reply, turn_ok e2 /\ tcp_in_ack (u32 ack) (touch (e_now e2) (u16 win) s) = Ret s1 /\
        h_tcp h' = <[sid := if expected then set_peer_seq next s1 else s1]> (h_tcp h) /\
        h_wire h' = h_wire h ++ [eth_frame mac2 (c_mac c) 0x0800 f] /\ ip4_frag (c_listen c).1 src 6 id' 20 (0, reply) f /\
        tcp_seg (c_listen c).1 src dp sp (s_local_seq s1) next FLAG_ACK (s_local_window_size s1) [] reply) h1.
Proof.
  intros sid expected next. pose proof (zlen_nonneg d).
  assert (Hroom40 : roomy cap 40) by (apply (roomy_mono cap (40 + zlen d)); [done|lia]).
  destruct (segment_incoming c cap Hc Hin src Bsrc Lsrc h e from pkt id sp dp seq ack flags win d seg Hroom ltac:(lia) Hh He Hfrom Hpkt Hseg)
    as (h1 & E & Hi). destruct Hports as [Hsp Hdp]. pose proof (wi_names c Hc) as Hn.
  exists h1. split; [exact E|]. eapply inevitably_bind; [exact Hi|].
  intros h2 (segs & m & k & -> & Hq & Hwant & [_ Hk] & Hpa & Hidx & Hsid & K).
  apply (inev_single c cap _ (set_segs segs h) TcpIn m Hn Hq Hwant). intros e2 segs1 He2 Hq1. unfold expected in *. clear expected.
  destruct (Z.eqb_spec (u32 seq) (s_peer_seq s)) as [Heq|Hne].
  - destruct (next_data_step c cap Hc src Lsrc sp dp Hsp Hdp d Hd Hroom m k K Hk seq ack flags win Hfl Hpa Hsid (h_tcp h) s Hs Hw Hst Happ
      e2 segs1 h He2 Hq1 eq_refl Heq) as (s1 & segs2 & m1 & m2 & reply & Ha & Hrun & Hq2 & Har1 & Har2 & Hr & Lr & Br).
    eexists. split; [exact Hrun|]. eapply inevitably_mono.
    + refine (reply_sent_beside c cap Hc Hroom40 Hout Hmtu src Bsrc Lsrc (set_tcp _ h) segs2 m2 reply mac2 [m1] _ Hh Hmac Hq2 _ Har2 Br Lr).
      cbn [l7_turns h_apps set_tcp]. by rewrite (data_announced c Hc src Lsrc sp dp Hsp Hdp d Hd k seq ack flags win Hpa Hsid s m1 (h_apps h) hs _ Har1 Hhs Hfin).
    + intros h' Hs'. split; [by eapply (sent_out_ready c cap (set_apps _ (set_tcp _ h)))|].
      destruct Hs' as (id' & f & _ & Hf & Hwire & _ & _ & Haa & Ht & Hap & _). split; [exact Haa|]. split; [exact Hap|].
      exists e2, s1, id', f, reply. rewrite Lr in Hf. exact (conj He2 (conj Ha (conj Ht (conj Hwire (conj Hf Hr))))).
  - destruct (other_data_step c cap Hc src Lsrc sp dp Hsp Hdp d Hd Hroom m k K Hk seq ack flags win Hfl Hpa Hsid (h_tcp h) s Hs Hw Hst Happ
      e2 segs1 h He2 Hq1 eq_refl Hne) as (s1 & segs2 & m2 & reply & Ha & Hrun & Hq2 & Har2 & Hr & Lr & Br).
    eexists. split; [exact Hrun|]. eapply inevitably_mono.
    + exact (reply_sent c cap Hc Hroom40 Hout Hmtu src Bsrc Lsrc (set_tcp _ h) segs2 m2 reply mac2 Hh Hmac Hq2 Har2 Br Lr).
    + intros h' Hs'. split; [by eapply (sent_out_ready c cap (set_tcp _ h))|].
      destruct Hs' as (id' & f & _ & Hf & Hwire & _ & _ & Haa & Ht & Hap & _). split; [exact Haa|]. split; [exact Hap|].
      exists e2, s1, id', f, reply. rewrite Lr in Hf. exact (conj He2 (conj Ha (conj Ht (conj Hwire (conj Hf Hr))))).
Qed.

(** A connection as the handshake leaves it. *)
Definition ex_open_host : host :=
  let sid := connection_id ex_src ex_dst 40000 80 in
  set_apps {[ sid := accepted_session ex_config ex_src 40000 80 ]} (set_tcp {[ sid := opened_session ex_config ex_src 40000 80 7 ex_cookie_ack 536 ]} ex_host).

Definition ex_get : list Z := ex_data_segment ex_cookie_ack (Z.lor FLAG_ACK FLAG_PSH) (str "GET / HTTP/1.0").

Definition ex_data_packet : list Z := match ip4_fragment 7 6 0 34 34 ex_src ex_dst ex_get with Ret f => f | Fault _ => [] end.

Lemma data_served_witness :
  let sid := connection_id ex_src ex_dst 40000 80 in
  exists h1, frame_arrives ex_config ex_turn (eth_frame [2; 0; 0; 0; 0; 1] ex_mac2 0x0800 ex_data_packet) ex_open_host = Ret h1 /\
    inevitably ex_config (fun h' => host_ready ex_config (fun _ => 2048) h' /\ h_arp h' = h_arp ex_host /\
      h_apps h' = <[sid := fed_session (str "GET / HTTP/1.0") (accepted_session ex_config ex_src 40000 80)]> (reap_sessions (h_apps ex_open_host)) /\
      exists e2 s1 id' f reply, turn_ok e2 /\
        tcp_in_ack (u32 ex_cookie_ack) (touch (e_now e2) (u16 1000) (opened_session ex_config ex_src 40000 80 7 ex_cookie_ack 536)) = Ret s1 /\
        h_tcp h' = <[sid := set_peer_seq 21 s1]> (h_tcp ex_open_host) /\
        h_wire h' = [] ++ [eth_frame ex_mac2 [2; 0; 0; 0; 0; 1] 0x0800 f] /\ ip4_frag ex_dst ex_src 6 id' 20 (0, reply) f /\
        tcp_seg ex_dst ex_src 80 40000 (s_local_seq s1) 21 FLAG_ACK (s_local_window_size s1) [] reply) h1.
Proof.
  refine (data_served ex_config (fun _ => 2048) ex_open_host ex_turn ex_mac2 ex_data_packet ex_src ex_get (str "GET / HTTP/1.0") 7 40000 80 7 ex_cookie_ack
    (Z.lor FLAG_ACK FLAG_PSH) 1000 ex_mac2 (opened_session ex_config ex_src 40000 80 7 ex_cookie_ack 536) (accepted_session ex_config ex_src 40000 80)
    ex_config_wired _ _ ex_host_ready ex_turn_ok _ _ _ _ _ _ _ _ _ _ _ _ _ _ _ _ _).
  all: try reflexivity.
  - by vm_compute.
  - intros t. destruct t; vm_compute; discriminate.
  - split; first [concrete_bytes|by vm_compute].
  - apply ex_data_segment_seg; [concrete_bytes|by vm_compute].
  - by vm_compute.
  - split; vm_compute; (split; [discriminate|reflexivity]).
  - vm_compute. discriminate.
  - concrete_bytes.
  - split; try (vm_compute; split; [discriminate|done]); try (split; [concrete_bytes|reflexivity]); try (by vm_compute).
  - discriminate.
Defined.
