(* ===== verification/HostSend.v ===== *)
(** * The sending side of TCP on a whole host

    What an application hands to the TCP server goes through the queue of its session; the sender
    thread takes it from there, a segment at a time, and the servers below put it on the wire. *)

From S2P Require Import Prelude Net Checksum Str Addr SipHash ShmMessage Shm Transport Queues Ip4In TcpWire TcpData Tcp TcpSafe TcpFlow TcpSegments TcpStream L7 L7Safe L7Sessions L7Stream Icmp Udp Arp Reassembly Ip4Out Ip4 Link Ntp System HostFlow HostTcp.

(** ** Lemmas: a round of the sender *)

Lemma tcp_idle_next s : session_wf s -> s_in_flight s = 0 -> s_fin_sent s = false ->
  tcp_idle s = negb ((zlen (next_data s) >? 0) || next_fin s).
Proof.
  intros Hw Hif Hfin. unfold tcp_idle, next_data, next_fin. rewrite Hif, Hfin, zlen_take, (zlen_queue s Hw). cbn [Z.eqb negb orb].
  destruct (wf_queue s Hw) as [Hq _]. pose proof (wf_mss s Hw). rewrite negb_orb. destruct (Z.eqb_spec (d_len (s_l7_to_tcp s)) 0) as [E|E].
  - replace (_ >? 0) with false by lia. replace (_ <=? _) with true by lia. by rewrite andb_true_r.
  - rewrite Z2Nat.id by lia. assert (0 < d_len (s_l7_to_tcp s)) by lia. by replace (_ >? 0) with true by lia.
Qed.

Lemma busy_inv s : tcp_idle s = false -> s_in_flight s = 0 /\ s_fin_sent s = false.
Proof. unfold tcp_idle. intros [[Hi%negb_false_iff Hf]%orb_false_iff _]%orb_false_iff. split; [lia|done]. Qed.

(** After its turn a session waits for an acknowledgement, or is done. *)
Lemma sent_idle s : session_wf s -> tcp_idle s = false -> tcp_idle (sent_session s) = true.
Proof.
  intros Hw Hi. destruct (busy_inv s Hi) as [Hif Hfin]. rewrite (tcp_idle_next s Hw Hif Hfin) in Hi. apply negb_false_iff, orb_true_iff in Hi.
  unfold tcp_idle, sent_session. destruct (next_fin s) eqn:E; cbn; [by rewrite orb_true_r|]. destruct Hi as [Hi|]; [|done].
  by replace (zlen (next_data s) =? 0) with false by lia.
Qed.

Section Sender.
Context `{Transport W}.

Lemma idle_session out_name s (w : W) : session_wf s -> tcp_idle s = true -> tcp_sender_session out_name s w = Ret (Some s, w).
Proof.
  intros Hw Hi. destruct (negb (s_in_flight s =? 0) || s_fin_sent s) eqn:Eg.
  - unfold tcp_sender_session. by rewrite Eg.
  - apply orb_false_iff in Eg as [Hif%negb_false_iff Hfin]. apply Z.eqb_eq in Hif.
    pose proof (sender_session_aux out_name s w Hw Hif Hfin) as Ho. rewrite (tcp_idle_next s Hw Hif Hfin) in Hi.
    apply negb_true_iff in Hi. by rewrite Hi in Ho.
Qed.

(** The loop passes by the sessions that have nothing to send. *)
Lemma loop_idle out_name es rest sessions (w : W) :
  Forall (fun e => sessions !! e.1 = Some e.2 /\ session_wf e.2 /\ tcp_idle e.2 = true) es ->
  tcp_sender_loop out_name (es ++ rest) sessions w = tcp_sender_loop out_name rest sessions w.
Proof.
  induction es as [|[sid s] es IH]; [done|]. intros [(Hs & Hw & Hi) Hes]%list.Forall_cons. cbn [fst snd] in *. cbn [app tcp_sender_loop].
  unfold mbind, prog_bind. rewrite (idle_session out_name s w Hw Hi). rewrite insert_id by done. by apply IH.
Qed.

(** One session has something to send. *)
Lemma sender_one out_name sessions sid s (w : W) :
  all_idle (delete sid sessions) -> sessions_wf sessions -> sessions !! sid = Some s -> tcp_idle s = false ->
  exists seg, data_segment s (next_flags s) seg /\
    let msg := seg_message (s_local_addr s) (s_peer_addr s) seg in
    send_ok_b out_name msg w = true ->
    tcp_sender out_name sessions w = Ret (<[sid := sent_session s]> sessions, after_send out_name msg w).
Proof.
  intros Hidle Hss Hs Hi. pose proof (Hss _ _ Hs) as Hw. destruct (busy_inv s Hi) as [Hif Hfin]. pose proof (sender_session_aux out_name s w Hw Hif Hfin) as Ho. rewrite (tcp_idle_next s Hw Hif Hfin) in Hi.
  apply negb_false_iff in Hi. rewrite Hi in Ho. destruct Ho as (seg & Hseg & Ho). exists seg. split; [exact Hseg|]. intros msg Hok. cbv zeta in Ho. fold msg in Ho.
  rewrite Hok in Ho. cbn [orb] in Ho. unfold tcp_sender. pose proof (NoDup_entries sessions) as Hnd.
  assert (Hin : (sid, s) ∈ entries sessions) by (by apply elem_of_entries). apply list_elem_of_split in Hin as (l1 & l2 & El).
  assert (Hall : forall sid' s', (sid', s') ∈ l1 ++ l2 -> sid' <> sid /\ sessions !! sid' = Some s' /\ session_wf s' /\ tcp_idle s' = true).
  { intros sid' s' Hin'. assert (Hin2 : (sid', s') ∈ entries sessions).
    { rewrite El. apply elem_of_app in Hin' as [?|?]; apply elem_of_app; [by left|right; by right]. }
    assert (Hne : sid' <> sid).
    { intros ->. rewrite El, map_app in Hnd. cbn [map fst] in Hnd. apply NoDup_ListNoDup, List.NoDup_remove_2 in Hnd. apply Hnd.
      rewrite <- map_app. apply List.in_map_iff. exists (sid, s'). split; [done|]. by apply list_elem_of_In. }
    apply elem_of_entries in Hin2. split; [done|]. split; [done|]. split; [by eapply Hss|]. apply (Hidle sid'). by rewrite lookup_delete_ne. }
  rewrite El, loop_idle.
  - cbn [tcp_sender_loop]. unfold mbind, prog_bind. rewrite Ho. rewrite <- (app_nil_r l2), loop_idle; [done|].
    apply list.Forall_forall. intros [sid' s'] Hin'. destruct (Hall sid' s') as (Hne & Hr); [apply elem_of_app; by right|].
    cbn [fst snd]. rewrite lookup_insert_ne by done. exact Hr.
  - apply list.Forall_forall. intros [sid' s'] Hin'. apply (Hall sid' s'). apply elem_of_app. by left.
Qed.

End Sender.

(** ** Lemmas: from the session to the wire *)

(** What a session with something to send leads to: a frame with its next segment, and the session behind
    that; [s1] is in the table of [h] in place of what was there. *)
Definition session_sends (c : config) (cap : thread -> Z) (h : host) (sid : Z) (s1 : session_t) (mac2 : addr) (h' : host) : Prop :=
  host_ready c cap h' /\ all_idle (h_tcp h') /\ h_arp h' = h_arp h /\ h_apps h' = h_apps h /\
  if tcp_idle s1 then h_wire h' = h_wire h /\ h_tcp h' = <[sid := s1]> (h_tcp h)
  else h_tcp h' = <[sid := sent_session s1]> (h_tcp h) /\
    exists id f seg, h_wire h' = h_wire h ++ [eth_frame mac2 (c_mac c) 0x0800 f] /\
      ip4_frag (s_local_addr s1) (s_peer_addr s1) 6 id (20 + zlen (next_data s1)) (0, seg) f /\ data_segment s1 (next_flags s1) seg.

Section Flow.
Context (c : config) (cap : thread -> Z) (Hc : wired c) (Hout : c_proto_out c !! c_tcp c = Some 6).
Context (h : host) (Hh : host_ready c cap h) (sid : Z) (s1 : session_t) (mac2 : addr) (Hw1 : session_wf s1).
Context (Hidle : all_idle (delete sid (h_tcp h))) (Hss : sessions_wf (h_tcp h)).
Context (Hroom : roomy cap (40 + s_mss s1)) (Hmtu : 20 + s_mss s1 <= use_mtu_size (c_mtu c)) (Haddr : s_local_addr s1 = (c_listen c).1).
Context (Hmac : mac_of c (h_arp h) (ip4_via (c_listen c) (c_gw c) (s_peer_addr s1)) = Some mac2).

Lemma idle_insert s : tcp_idle s = true -> all_idle (<[sid := s]> (h_tcp h)).
Proof.
  intros Hi sid' s'. destruct (decide (sid' = sid)) as [->|Hne].
  - rewrite lookup_insert_eq. by intros [= <-].
  - rewrite lookup_insert_ne by done. intros Hs'. apply (Hidle sid'). by rewrite lookup_delete_ne.
Qed.

(** The size of the segment. *)
Lemma zlen_data_segment seg flags : data_segment s1 flags seg -> zlen seg = 20 + zlen (next_data s1) /\ bytes seg /\ zlen (next_data s1) <= s_mss s1.
Proof.
  intros (Bs & (ck & E) & _). pose proof (wf_mss s1 Hw1). split; [|split; [exact Bs|unfold next_data; rewrite zlen_take; lia]].
  rewrite E, zlen_app, zlen_tcp_header. done.
Qed.

(** The turn of the sender. *)
Lemma sender_step e segs : turn_ok e -> queues c cap nothing segs -> tcp_idle s1 = false ->
  exists segs2 m seg, sender_turn c e (set_segs segs (set_tcp (<[sid := s1]> (h_tcp h)) h)) =
      Ret (Some (set_segs segs2 (set_tcp (<[sid := sent_session s1]> (h_tcp h)) h))) /\
    queues c cap (upd nothing Ip4OutThread [m]) segs2 /\ data_segment s1 (next_flags s1) seg /\
    arrived (c_tcp c) (message_of (down_data (s_local_addr s1) (s_peer_addr s1) seg) None) m.
Proof.
  intros He Hq Hi. set (w := turn_net c e TcpOut segs). set (sessions := <[sid := s1]> (h_tcp h)).
  assert (Hs : sessions !! sid = Some s1) by apply lookup_insert_eq.
  destruct (sender_one (c_ip4_upper c) sessions sid s1 w) as (seg & Hseg & Hrun); [|apply map_Forall_insert_2; done|exact Hs|exact Hi|].
  { intros sid' s'. unfold sessions. rewrite delete_insert_eq. apply Hidle. }
  destruct (zlen_data_segment seg _ Hseg) as (Lseg & Bseg & Ld). pose proof (wf_mss s1 Hw1) as Hmss. pose proof (zlen_nonneg (next_data s1)).
  destruct (wf_local_addr s1 Hw1) as [_ Ll]. destruct (wf_peer_addr s1 Hw1) as [_ Lp].
  set (msg := seg_message (s_local_addr s1) (s_peer_addr s1) seg) in *.
  assert (Ldown : zlen (down_data (s_local_addr s1) (s_peer_addr s1) seg) = 36 + zlen seg) by (rewrite zlen_down_data; lia).
  assert (Hm : sendable msg) by (apply sendable_of; [lia|done]).
  assert (Hfit : zlen (encs (nothing Ip4OutThread)) + PAD8 (sizeof_message + m_size msg) <= cap Ip4OutThread).
  { unfold msg, seg_message. rewrite message_of_size by lia. apply (roomy_one cap (40 + s_mss s1)); (done || lia). }
  destruct (net_send_room c cap nothing w Ip4OutThread msg) as (m' & g & g' & Hok & _); [|exact Hm|exact Hfit|].
  { split; [apply (wi_names c Hc)|]. split; [by exists TcpOut|]. split; [apply He|done]. }
  specialize (Hrun Hok). change (c_ip4_upper c) with (inbox c Ip4OutThread) in Hrun.
  destruct (in_net_one c cap e TcpOut Ip4OutThread _ _ _ (set_tcp sessions h) segs nothing Hrun (wi_names c Hc) He Hq Hm Hfit)
    as (segs2 & m & E & Hq2 & Har & _).
  exists segs2, m, seg. split; [|exact (conj Hq2 (conj Hseg Har))]. unfold sender_turn. rewrite bool_decide_false.
  - rewrite (wi_tcp_out c Hc). etransitivity; [exact (f_equal (fun r => x ← r; Ret (Some (set_tcp x.1 x.2))) E)|].
    mcbn. cbn [fst snd]. unfold sessions. by rewrite insert_insert_eq.
  - intros Hall. specialize (Hall sid s1 Hs). congruence.
Qed.

(** ... and what follows. *)
Lemma sender_flows segs : queues c cap nothing segs ->
  inevitable (full_round c) (session_sends c cap h sid s1 mac2) (set_segs segs (set_tcp (<[sid := s1]> (h_tcp h)) h)).
Proof.
  intros Hq. destruct Hh as (Hqh & Hpk & Harp & Hpend & Hfresh). destruct (wi_listen c Hc) as (Bl & Ll & _). pose proof (wf_mss s1 Hw1) as Hmss.
  assert (Hready : forall segs tcp, queues c cap nothing segs -> host_ready c cap (set_segs segs (set_tcp tcp h))) by (intros; repeat (split; [done|]); done).
  destruct (tcp_idle s1) eqn:Hi.
  { apply inev_done. unfold session_sends. rewrite Hi. split; [by apply Hready|]. split; [by apply idle_insert|]. done. }
  assert (Hgo : forall segs2 m seg, queues c cap (upd nothing Ip4OutThread [m]) segs2 -> data_segment s1 (next_flags s1) seg ->
    arrived (c_tcp c) (message_of (down_data (s_local_addr s1) (s_peer_addr s1) seg) None) m ->
    inevitable (full_round c) (session_sends c cap h sid s1 mac2) (set_segs segs2 (set_tcp (<[sid := sent_session s1]> (h_tcp h)) h))).
  { intros segs2 m seg Hq2 Hseg Har. destruct (zlen_data_segment seg _ Hseg) as (Lseg & Bseg & Ld). pose proof (zlen_nonneg (next_data s1)).
    destruct (ar_data _ _ _ Har) as (pad & Hd). rewrite m_data_message_of in Hd.
    assert (Hq3 : all_idle (<[sid := sent_session s1]> (h_tcp h))) by (by apply idle_insert, sent_idle).
    eapply inevitably_mono.
    - apply (outgoing_by (full_round c) all_idle c cap (set_tcp (<[sid := sent_session s1]> (h_tcp h)) h) segs2 m (s_local_addr s1) (s_peer_addr s1) 6 seg mac2 pad);
        try done; try apply (wf_local_addr s1 Hw1); try apply (wf_peer_addr s1 Hw1); try lia.
      + apply (roomy_mono cap (40 + s_mss s1)); [done|lia].
      + by rewrite (ar_sender _ _ _ Har).
      + unfold mac_of. by rewrite Haddr, (wi_arp_ip c Hc), beq_refl, (wi_arp_mac c Hc).
      + apply Hfresh. reflexivity.
    - intros h' Hs'. unfold session_sends. rewrite Hi. split; [eapply sent_out_ready; [by apply (Hready (h_segs h))|exact Hs']|].
      destruct Hs' as (id & f & _ & Hf & Hwire & _ & _ & Ha & Ht & Hap & _). cbn [h_tcp set_tcp] in Ht. rewrite Ht. split; [exact Hq3|]. split; [exact Ha|].
      split; [exact Hap|]. split; [done|]. exists id, f, seg. rewrite Lseg in Hf. exact (conj Hwire (conj Hf Hseg)). }
  apply inev_turn.
  - exists None. intros e He. destruct (sender_step e segs He Hq Hi) as (segs2 & m & seg & E & _). eexists. exact E.
  - intros [t|] e He; [exists None; by eapply round_idle|].
    destruct (sender_step e segs He Hq Hi) as (segs2 & m & seg & E & _). eexists. exact E.
  - intros [t|] e h' He E'; cbn [full_round] in E'.
    + pose proof (round_idle c cap nothing t (set_segs segs (set_tcp (<[sid := s1]> (h_tcp h)) h)) e Hq eq_refl) as E2. congruence.
    + destruct (sender_step e segs He Hq Hi) as (segs2 & m & seg & E & Hq2 & Hseg & Har). rewrite E in E'. injection E' as <-. by eapply Hgo.
Qed.

End Flow.

(** ** Lemmas: data from the application, and acknowledgements *)

(** A session with the bytes of a message added to its queue. *)
Definition stored_session (flags : Z) (q : tcp_data) (s : session_t) : session_t :=
  let s := set_l7_to_tcp q s in if has flags 1 then set_l7_send_fin true s else s.

Lemma stored_wf flags q s d : session_wf s -> bytes d -> queue_rep q (queue_of (s_l7_to_tcp s) ++ d) -> session_wf (stored_session flags q s).
Proof.
  intros Hw Bd Hq. pose proof (queue_rep_of _ _ Hq) as Hqd. pose proof (zlen_queue s Hw) as Hz. pose proof (zlen_nonneg d).
  destruct Hq as [Hlen [free Hp]]. rewrite zlen_app in Hlen. destruct Hw as [W1 W2 W3 W4 W5 W6 [W7 W8] W9].
  assert (Hw' : session_wf (set_l7_to_tcp q s)).
  { constructor; cbn; try done.
    - rewrite Hqd, Hp, !zlen_app, bytes_app. pose proof (zlen_nonneg free). split; [lia|done].
    - intros Hcl. specialize (W9 Hcl). lia. }
  unfold stored_session. cbv zeta. destruct (has flags 1); [|done]. by destruct Hw'.
Qed.

(** The body of [run_out] for a message of an application. *)
Lemma run_out_stores junk m id sid flags d s sessions :
  arrived id (l7_message sid flags d) m -> is_u 64 sid -> is_u 32 flags -> zlen d <= 65000 ->
  sessions !! sid = Some s -> session_wf s ->
  exists q, queue_rep q (queue_of (s_l7_to_tcp s) ++ d) /\ tcp_run_out junk m sessions = Ret (<[sid := stored_session flags q s]> sessions).
Proof.
  intros Har Hsid Hfl Ld Hs Hw. destruct (ar_data _ _ _ Har) as (pad & Hd). pose proof (zlen_nonneg d).
  unfold l7_message in Hd. cbn [fill_message m_data] in Hd. rewrite <- !app_assoc in Hd.
  assert (Hsz : m_size m = 12 + zlen d).
  { rewrite (ar_size _ _ _ Har). cbn [l7_message fill_message allocate_shm_message m_size]. apply wrap_small. unfold is_u. lia. }
  unfold is_u in Hsid, Hfl. unfold tcp_run_out. rewrite Hsz. replace (12 + zlen d <? 12) with false by lia. rewrite Hd.
  rewrite (field_hd 8 sid _ 0 8), Z.mod_small by (reflexivity || exact Hsid). mcbn.
  rewrite (field_skip 8 sid _ 8 4), (field_hd 4 flags _ _ 4), Z.mod_small by (reflexivity || exact Hfl || lia). mcbn. rewrite Hs.
  destruct (Z.gtb_spec (12 + zlen d) 12) as [Hpos|Hz].
  - destruct (tcp_data_add_spec junk _ _ d (session_wf_queue s Hw)) as (q & E & Hq). exists q. split; [exact Hq|].
    assert (Er : rdn (le_bytes 8 sid ++ le_bytes 4 flags ++ d ++ pad) 12 (12 + zlen d - 12) = Ret d).
    { rewrite app_assoc. apply rdn_app_mid; [rewrite zlen_app, !zlen_le_bytes|]; lia. }
    rewrite Er. mcbn. rewrite E. done.
  - assert (d = []) as -> by (destruct d; [done|rewrite zlen_cons in *; pose proof (zlen_nonneg d); lia]). exists (s_l7_to_tcp s). rewrite app_nil_r. split; [by apply session_wf_queue|].
    mcbn. unfold stored_session. by replace (set_l7_to_tcp (s_l7_to_tcp s) s) with s by (by destruct s).
Qed.

(** What an acknowledgement of [n] bytes in flight leaves of a session's sending side. *)
Record acked_session (n : Z) (s s1 : session_t) : Prop := {
  as_wf : session_wf s1;
  as_queue : queue_of (s_l7_to_tcp s1) = drop (Z.to_nat n) (queue_of (s_l7_to_tcp s));
  as_local_seq : s_local_seq s1 = u32 (s_local_seq s + n);
  as_flight : s_in_flight s1 = 0 \/ s_in_flight s1 = s_in_flight s /\ n = 0;
  as_fin : s_fin_sent s1 = s_fin_sent s /\ s_l7_send_fin s1 = s_l7_send_fin s;
  as_peer : s_peer_seq s1 = s_peer_seq s /\ s_state s1 = s_state s /\ s_mss s1 = s_mss s;
  as_addr : s_local_addr s1 = s_local_addr s /\ s_peer_addr s1 = s_peer_addr s }.

(** The bytes the number [ack] covers. *)
Definition acked (ack : Z) (s : session_t) : Z :=
  let ack_n := u32 (ack - s_local_seq s) in if (s_local_seq s <=? ack) && (ack_n <=? s_in_flight s) then ack_n else 0.

Lemma ack_same ack s s1 : tcp_in_ack ack s = Ret s1 -> s_mss s1 = s_mss s /\ s_local_addr s1 = s_local_addr s /\ s_peer_addr s1 = s_peer_addr s.
Proof.
  unfold tcp_in_ack. intros Ha. destruct (_ >=? _); [|by injection Ha as <-].
  destruct (_ =? _); [by apply bind_Ret_inv in Ha as (d & _ & [= <-])|].
  destruct (_ <? _); [by apply bind_Ret_inv in Ha as (d & _ & [= <-])|by injection Ha as <-].
Qed.

Lemma ack_acked now win ack s : session_wf s -> s_state s <> closed ->
  exists s1, tcp_in_ack ack (touch now win s) = Ret s1 /\ acked_session (acked ack s) s s1.
Proof.
  intros Hw Hst. destruct (tcp_in_ack_spec ack (touch now win s) (touch_wf _ _ _ Hw) Hst)
    as (n & s1 & Ha & W1 & _ & _ & Q1 & L1 & F1 & F2 & I1 & ->).
  destruct (tcp_in_ack_peer _ _ _ Ha) as (P1 & _ & _ & P2 & _). destruct (ack_same _ _ _ Ha) as (M1 & M2 & M3).
  exists s1. split; [done|]. by split.
Qed.

(** The turn of the TCP server for an acknowledgement without data, at the number expected. *)
Lemma ack_step (c : config) (src : addr) (sp dp seq ack flags win : Z) m k sessions s e (w : net) :
  in_wf k -> tcp_parse m = Ret (Some k) -> parsed_as src (c_listen c).1 sp dp seq ack flags win [] k ->
  k_session_id k = connection_id src (c_listen c).1 sp dp -> data_flags (u8 flags) ->
  sessions !! connection_id src (c_listen c).1 sp dp = Some s -> session_wf s -> s_state s <> closed -> u32 seq = s_peer_seq s ->
  exists s1, acked_session (acked (u32 ack) s) s s1 /\
    tcp_run_in (c_tcp_out c) (c_tcp_ports c) (c_salt c) (e_now e) (e_sec e) m sessions w =
    Ret (<[connection_id src (c_listen c).1 sp dp := s1]> sessions, w).
Proof.
  intros K Hk Hpa Hsid Hfl Hs Hw Hst Heq. pose proof Hpa as [_ _ _ E5 E6 E7 E8 E9].
  destruct (ack_acked (e_now e) (u16 win) (u32 ack) s Hw Hst) as (s1 & Ha & A1). exists s1. split; [exact A1|].
  destruct (as_peer _ _ _ A1) as (P1 & _).
  rewrite (tcp_data_segment_aux _ _ _ _ _ m k sessions s s1 w);
    [|exact Hk|exact K|by rewrite E7|by rewrite Hsid|done|by rewrite E6, E8|by eapply as_wf].
  unfold data_effect. rewrite E5, P1, Heq, Z.eqb_refl, E9. by rewrite Hsid.
Qed.

Lemma all_idle_delete sid sessions : all_idle sessions -> all_idle (delete sid sessions).
Proof. intros H. by apply map_Forall_delete. Qed.

(** ** Lemmas: acknowledgements through the host *)

(** A packet with an acknowledgement without data, for a session of the peer [src]. *)
Definition ack_packet (c : config) (src : addr) (sp dp seq ack win : Z) (pkt : list Z) : Prop :=
  exists id seg, ip4_frag src (c_listen c).1 6 id 20 (0, seg) pkt /\ tcp_seg src (c_listen c).1 sp dp seq ack FLAG_ACK win [] seg.

Section Acks.
Context (c : config) (cap : thread -> Z) (src : addr) (sp dp : Z) (mac2 : addr).
Context (Hc : wired c) (Bsrc : bytes src) (Lsrc : zlen src = 4).
Context (Hin : c_proto_in c !! 6 = Some (c_tcp c)) (Hout : c_proto_out c !! c_tcp c = Some 6).

Notation sid := (connection_id src (c_listen c).1 sp dp).

(** There is one for every number. *)
Lemma ack_packet_ex seq ack win : exists pkt, ack_packet c src sp dp seq ack win pkt.
Proof.
  destruct (wi_listen c Hc) as (Bl & Ll & _).
  destruct (tcp_packet_spec src (c_listen c).1 sp dp seq ack FLAG_ACK win []) as (seg & _ & Hseg & Lseg); [done|done|done|done|constructor|by vm_compute|].
  change (zlen (@nil Z)) with 0 in Lseg. pose proof Hseg as (Bseg & _).
  destruct (ip4_fragment_spec 0 6 0 (zlen seg) src (c_listen c).1 src (c_listen c).1 seg seg) as (pkt & _ & Hp);
    try done; try (apply rdn_all; lia); try (unfold is_u, is_byte; lia); try lia.
  exists pkt, 0, seg. rewrite Lseg in Hp. exact (conj Hp Hseg).
Qed.

(** What the sender needs of a host and the session. *)
Record sending (h : host) (s : session_t) : Prop := {
  sn_ready : host_ready c cap h;
  sn_idle : all_idle (h_tcp h);
  sn_wf : sessions_wf (h_tcp h);
  sn_mac : mac_of c (h_arp h) (ip4_via (c_listen c) (c_gw c) src) = Some mac2;
  sn_session : h_tcp h !! sid = Some s;
  sn_state : s_state s <> closed;
  sn_addr : s_local_addr s = (c_listen c).1 /\ s_peer_addr s = src;
  sn_room : roomy cap (40 + s_mss s) /\ 20 + s_mss s <= use_mtu_size (c_mtu c) }.

(** Whatever the acknowledgement covers goes out of the session, and the next segment follows. *)
Lemma ack_flows h s e from ack win pkt :
  sending h s -> turn_ok e -> zlen from = 6 -> ack_packet c src sp dp (s_peer_seq s) ack win pkt ->
  exists h1, frame_arrives c e (eth_frame (c_mac c) from 0x0800 pkt) h = Ret h1 /\
    inevitable (full_round c) (fun h' => exists s1, acked_session (acked (u32 ack) s) s s1 /\ session_sends c cap h sid s1 mac2 h') h1.
Proof.
  intros [Hh Hidle Hss Hmac Hs Hst [Ha1 Ha2] [Hroom Hmtu]] He Hfrom (id & seg & Hpkt & Hseg).
  pose proof (Hss _ _ Hs) as Hw. pose proof (wf_mss s Hw) as Hm. pose proof (wi_names c Hc) as Hnm.
  destruct (segment_incoming_by c cap Hc Hin src Bsrc Lsrc (full_round c) all_idle h e from pkt id sp dp (s_peer_seq s) ack FLAG_ACK win [] seg)
    as (h1 & E & Hi); try done; [apply (roomy_mono cap (40 + s_mss s)); [done|change (zlen (@nil Z)) with 0; lia]|].
  exists h1. split; [exact E|]. eapply inevitably_bind; [exact Hi|].
  intros h2 (segs & m & k & -> & Hq & Hwant & [_ Hk] & Hpa & Hidx & Hsid & K).
  apply (inev_single_by (full_round c) all_idle c cap _ (set_segs segs h) TcpIn m Hnm Hidle Hq Hwant). intros e2 segs1 He2 Hq1.
  destruct (ack_step c src sp dp (s_peer_seq s) ack FLAG_ACK win m k (h_tcp h) s e2 (turn_net c e2 TcpIn segs1) K Hk Hpa Hsid)
    as (s1 & A1 & Hrun); try done; [apply wrap_small, Hw|].
  exists (set_segs segs1 (set_tcp (<[sid := s1]> (h_tcp h)) h)). split.
  { cbn [run_thread_body]. unfold in_net. cbn [h_segs set_segs h_tcp]. by rewrite Hrun. }
  destruct (as_peer _ _ _ A1) as (_ & _ & M1). destruct (as_addr _ _ _ A1) as (M2 & M3).
  eapply inevitably_mono; [|intros h' Hs'; exists s1; exact (conj A1 Hs')].
  apply (sender_flows c cap Hc Hout h Hh sid s1 mac2); rewrite ?M1, ?M2, ?M3, ?Ha2; try done.
  - by eapply as_wf.
  - by apply all_idle_delete.
Qed.

End Acks.

(** ** Lemmas: a transfer *)

(** A session whose next segment is in flight, its number and those behind it below the largest. *)
Record in_transit (s : session_t) : Prop := {
  it_flight : s_in_flight s = zlen (next_data s);
  it_fin : s_fin_sent s = true -> zlen (queue_of (s_l7_to_tcp s)) <= s_mss s;
  it_end : queue_of (s_l7_to_tcp s) = [] -> s_l7_send_fin s = true -> s_fin_sent s = true;
  it_seq : s_local_seq s + zlen (queue_of (s_l7_to_tcp s)) + (if s_fin_sent s then 0 else 1) < 2 ^ 32 }.

(** The acknowledgement of what is in flight covers just that. *)
Lemma in_transit_acked s : session_wf s -> in_transit s -> acked (u32 (s_local_seq s + s_in_flight s)) s = s_in_flight s.
Proof.
  intros Hw [If _ _ Iq]. pose proof (wf_in_flight s Hw). pose proof (wf_local_seq s Hw) as Hl. unfold is_u in Hl.
  assert (Hle : s_in_flight s <= zlen (queue_of (s_l7_to_tcp s))) by (rewrite If; unfold next_data; rewrite zlen_take; lia).
  unfold acked. rewrite (wrap_small 32 (s_local_seq s + s_in_flight s)) by (unfold is_u; destruct (s_fin_sent s); lia).
  replace (s_local_seq s + s_in_flight s - s_local_seq s) with (s_in_flight s) by lia.
  rewrite wrap_small by (unfold is_u; destruct (s_fin_sent s); lia).
  by replace (_ && _) with true by lia.
Qed.

(** After it, the session is done ... *)
Lemma acked_done s s1 : session_wf s -> in_transit s -> 0 < s_in_flight s -> acked_session (s_in_flight s) s s1 -> tcp_idle s1 = true ->
  queue_of (s_l7_to_tcp s1) = [] /\ (s_l7_send_fin s1 = true -> s_fin_sent s1 = true).
Proof.
  intros Hw [If If2 _ _] Hpos [W1 Q1 _ I1 [F1 F2] _ _] Hi. pose proof (wf_mss s Hw) as Hm. destruct I1 as [I1|]; [|lia].
  unfold tcp_idle in Hi. rewrite I1 in Hi. cbn [Z.eqb negb orb] in Hi. destruct (s_fin_sent s1) eqn:Ef; cbn [orb] in Hi.
  - split; [|done]. rewrite Q1, If. unfold next_data. rewrite zlen_take. specialize (If2 (eq_sym F1)). apply drop_ge. unfold zlen in *. lia.
  - apply andb_true_iff in Hi as [Hl Hs%negb_true_iff]. rewrite Hs. split; [|done]. pose proof (zlen_queue s1 W1) as Hz.
    destruct (queue_of (s_l7_to_tcp s1)) as [|x l]; [done|]. rewrite zlen_cons in Hz. pose proof (zlen_nonneg l). lia.
Qed.

(** ... or its next segment is on the way. *)
Lemma acked_sent s s1 : session_wf s -> in_transit s -> 0 < s_in_flight s -> acked_session (s_in_flight s) s s1 -> tcp_idle s1 = false ->
  in_transit (sent_session s1) /\ session_wf (sent_session s1) /\
  queue_of (s_l7_to_tcp (sent_session s1)) = drop (Z.to_nat (s_in_flight s)) (queue_of (s_l7_to_tcp s)).
Proof.
  intros Hw [If If2 _ Iq] Hpos [W1 Q1 L1 I1 [F1 F2] (P1 & _ & M1) _] Hi. destruct (busy_inv s1 Hi) as [Hif Hfin].
  pose proof (wf_mss s Hw) as Hm. pose proof (wf_local_seq s Hw) as Hl. unfold is_u in Hl. rewrite Hfin in F1. rewrite <- F1 in Iq.
  assert (Hle : s_in_flight s <= zlen (queue_of (s_l7_to_tcp s))) by (rewrite If; unfold next_data; rewrite zlen_take; lia).
  assert (Hlen : zlen (queue_of (s_l7_to_tcp s1)) = zlen (queue_of (s_l7_to_tcp s)) - s_in_flight s) by (rewrite Q1, zlen_drop; lia).
  rewrite wrap_small in L1 by (unfold is_u; lia).
  assert (Hq : queue_of (s_l7_to_tcp (sent_session s1)) = queue_of (s_l7_to_tcp s1)) by (unfold sent_session; by destruct (next_fin s1)).
  assert (Hms : s_mss (sent_session s1) = s_mss s1) by (unfold sent_session; by destruct (next_fin s1)).
  split; [|split; [by eapply sender_rel_wf, sent_session_rel|by rewrite Hq]].
  split; unfold next_data; rewrite ?Hq, ?Hms.
  - unfold sent_session. by destruct (next_fin s1).
  - unfold sent_session. destruct (next_fin s1) eqn:En; cbn; [|congruence]. unfold next_fin in En. apply andb_true_iff in En as [_ En]. intros _. lia.
  - intros E Hs. assert (En : next_fin s1 = true).
    { unfold next_fin. rewrite E. apply andb_true_iff. split; [|rewrite M1; change (zlen (@nil Z)) with 0; lia]. revert Hs. unfold sent_session. by destruct (next_fin s1). }
    unfold sent_session. by rewrite En.
  - unfold sent_session. destruct (next_fin s1); cbn; [rewrite wrap_small by (unfold is_u; pose proof (zlen_nonneg (queue_of (s_l7_to_tcp s1))); lia)|rewrite Hfin]; lia.
Qed.

(** A transfer to the peer: whenever an acknowledgement of all that is in flight arrives - there are such packets -
    the next segment goes out, under every schedule, until there is no more. *)
Inductive transfers (c : config) (cap : thread -> Z) (src : addr) (sp dp : Z) (mac2 : addr) : host -> Prop :=
| transfer_done h s : let sid := connection_id src (c_listen c).1 sp dp in
    host_ready c cap h -> h_tcp h !! sid = Some s -> queue_of (s_l7_to_tcp s) = [] -> (s_l7_send_fin s = true -> s_fin_sent s = true) ->
    transfers c cap src sp dp mac2 h
| transfer_more h s : let sid := connection_id src (c_listen c).1 sp dp in let ack := s_local_seq s + s_in_flight s in
    h_tcp h !! sid = Some s -> 0 < s_in_flight s -> (exists pkt, ack_packet c src sp dp (s_peer_seq s) ack 1000 pkt) ->
    (forall e from win pkt, turn_ok e -> zlen from = 6 -> ack_packet c src sp dp (s_peer_seq s) ack win pkt ->
      exists h1, frame_arrives c e (eth_frame (c_mac c) from 0x0800 pkt) h = Ret h1 /\
        inevitable (full_round c) (fun h' => (exists s1, acked_session (s_in_flight s) s s1 /\ session_sends c cap h sid s1 mac2 h') /\
          transfers c cap src sp dp mac2 h') h1) ->
    transfers c cap src sp dp mac2 h.

(** ** Properties *)

(** C12: what an application sends.  The thread of a session hands data over (or, with flag 1 and no data, the end of them),
    at a host with empty queues whose sessions have nothing to send.  The hand-over succeeds, and under every
    schedule of the threads and TCP's sender the session has the data at the end of its queue; when it waits for an
    acknowledgement (or has sent its FIN) that is all, otherwise exactly one frame goes out, to the peer of the session, with the first bytes of the
    queue - one segment at most - at the session's sequence number, and a FIN when they are the last ones. *)
Theorem app_data_sent (c : config) (cap : thread -> Z) (h : host) (e : turn) (n sid flags : Z) (d : list Z) (s : session_t) (t : l7 net) (mac2 : addr)
  (Hc : wired c) (Hh : host_ready c cap h) (He : turn_ok e) (Hidle : all_idle (h_tcp h)) (Hss : sessions_wf (h_tcp h))
  (Ht : l_world t = turn_net c e AppIn (h_segs h)) (Hsid : is_u 64 sid) (Hfl : is_u 32 flags) (Bd : bytes d)
  (Hroom : roomy cap n) (Hn : 40 + s_mss s <= n /\ zlen d <= n) (Ld : zlen d <= 65000)
  (Hs : h_tcp h !! sid = Some s) (Haddr : s_local_addr s = (c_listen c).1) (Hmtu : 20 + s_mss s <= use_mtu_size (c_mtu c))
  (Hmac : mac_of c (h_arp h) (ip4_via (c_listen c) (c_gw c) (s_peer_addr s)) = Some mac2) (Hout : c_proto_out c !! c_tcp c = Some 6) :
  exists w, tsend (c_tcp_upper c) (l7_message sid flags d) true t = (Done true, set_world w t) /\
    inevitable (full_round c) (fun h' => exists q, queue_rep q (queue_of (s_l7_to_tcp s) ++ d) /\
      session_sends c cap h sid (stored_session flags q s) mac2 h') (set_segs (n_segs w) h).
Proof.
  pose proof (zlen_nonneg d). pose proof (wi_names c Hc) as Hnm. pose proof Hh as (Hq & _).
  set (x := l7_message sid flags d). change (c_tcp_upper c) with (inbox c TcpOut).
  assert (Hx : m_size x = 12 + zlen d) by (cbn; apply wrap_small; unfold is_u; lia).
  assert (Lx : zlen (le_bytes 8 sid ++ le_bytes 4 flags ++ d) = 12 + zlen d) by (rewrite !zlen_app, !zlen_le_bytes; lia).
  assert (Hsx : sendable x) by (unfold x, l7_message; rewrite <- Lx; apply sendable_fill; [lia|unfold is_u; lia|unfold is_u; lia]).
  destruct (net_send_turn (inbox c) cap nothing (turn_net c e AppIn (h_segs h)) TcpOut x true) as (g & _ & w & E & _ & _ & Hr); [|exact Hsx|].
  { split; [exact Hnm|]. split; [intros dst; by apply identity_ok|]. split; [apply He|exact Hq]. }
  pose proof (roomy_one cap n TcpOut (12 + zlen d) Hroom ltac:(done) ltac:(done) ltac:(lia)) as HR. rewrite Hx in E, Hr.
  replace (_ <=? cap TcpOut) with true in E, Hr by lia. destruct Hr as (m & g' & (_ & _ & _ & Hq1) & Har & _).
  exists w. split.
  { unfold tsend. rewrite Ht, send_ok by lia. cbn [t_send net_transport]. by rewrite E. }
  apply (inev_single_by (full_round c) all_idle c cap _ (set_segs (n_segs w) h) TcpOut m Hnm Hidle Hq1); [by apply (arrived_wanted _ _ _ _ Har); left|].
  intros e1 segs1 He1 Hq2. destruct (run_out_stores (e_junk e1) m _ sid flags d s (h_tcp h) Har Hsid Hfl Ld Hs (Hss _ _ Hs)) as (q & Hrep & Erun).
  exists (set_segs segs1 (set_tcp (<[sid := stored_session flags q s]> (h_tcp h)) h)). split.
  { exact (f_equal (fun r => x ← r; Ret (set_tcp x (set_segs segs1 h))) Erun). }
  assert (Hst : s_mss (stored_session flags q s) = s_mss s /\ s_local_addr (stored_session flags q s) = s_local_addr s /\
    s_peer_addr (stored_session flags q s) = s_peer_addr s) by (unfold stored_session; cbv zeta; by destruct (has flags 1)).
  destruct Hst as (M1 & M2 & M3). eapply inevitably_mono; [|intros h' Hs'; exists q; exact (conj Hrep Hs')].
  apply (sender_flows c cap Hc Hout h Hh sid (stored_session flags q s) mac2); rewrite ?M1, ?M2, ?M3; try done.
  - apply (stored_wf flags q s d); try done. by eapply Hss.
  - by apply all_idle_delete.
  - apply (roomy_mono cap n); [done|lia].
Qed.

(** A connection with a page to send, and what the peer has sent last. *)
Definition ex_page : list Z := str "HTTP/1.0 200 OK".
Definition ex_conn : session_t := opened_session ex_config ex_src 40000 80 7 1000 536.
Definition ex_flight : session_t :=
  set_in_flight 20 (set_l7_to_tcp {| d_sequence_nr := 0; d_ts := 0; d_p := ex_page ++ ex_page; d_len := 30 |}
    (opened_session ex_config ex_src 40000 80 7 1000 20)).
Definition ex_conn_host (s : session_t) : host :=
  set_apps {[ connection_id ex_src ex_dst 40000 80 := accepted_session ex_config ex_src 40000 80 ]}
    (set_tcp {[ connection_id ex_src ex_dst 40000 80 := s ]} ex_host).

Lemma ex_conn_wf : session_wf ex_conn /\ session_wf ex_flight.
Proof.
  split; (split; try (vm_compute; split; [discriminate|done]); try (split; [concrete_bytes|reflexivity]); try (by vm_compute)).
  - split; [vm_compute; split; discriminate|concrete_bytes].
Qed.

Lemma app_data_sent_witness :
  let sid := connection_id ex_src ex_dst 40000 80 in
  let t := L7 [] false false false [] (turn_net ex_config ex_turn AppIn (h_segs ex_host)) in
  exists w, tsend (c_tcp_upper ex_config) (l7_message sid 0 ex_page) true t = (Done true, set_world w t) /\
    inevitable (full_round ex_config) (fun h' => exists q, queue_rep q ([] ++ ex_page) /\
      session_sends ex_config (fun _ => 2048) (ex_conn_host ex_conn) sid (stored_session 0 q ex_conn) ex_mac2 h') (set_segs (n_segs w) (ex_conn_host ex_conn)).
Proof.
  intros sid t.
  refine (app_data_sent ex_config (fun _ => 2048) (ex_conn_host ex_conn) ex_turn 600 sid 0 ex_page ex_conn t ex_mac2
    ex_config_wired ex_host_ready ex_turn_ok _ _ _ _ _ _ _ _ _ _ _ _ _ _).
  all: try reflexivity.
  - apply map_Forall_singleton. reflexivity.
  - apply map_Forall_singleton, ex_conn_wf.
  - vm_compute. split; [discriminate|reflexivity].
  - vm_compute. split; [discriminate|reflexivity].
  - concrete_bytes.
  - intros t'. destruct t'; vm_compute; discriminate.
  - vm_compute. split; discriminate.
  - vm_compute. discriminate.
  - vm_compute. discriminate.
Defined.


(** C11: a transfer.  A session of a connection has its next segment in flight (as [app_data_sent] leaves it), at a host with empty queues whose
    sessions have nothing to send, and its numbers do not wrap before the end of what is queued.  Whenever the peer acknowledges what is in
    flight, the bytes acknowledged leave the queue and, under every schedule of the threads and TCP's sender, the next segment goes
    out; this ends with an empty queue, and the FIN sent if the application wants one. *)
Theorem data_transferred (c : config) (cap : thread -> Z) (src : addr) (sp dp : Z) (mac2 : addr) (h : host) (s : session_t)
  (Hc : wired c) (Bsrc : bytes src) (Lsrc : zlen src = 4)
  (Hin : c_proto_in c !! 6 = Some (c_tcp c)) (Hout : c_proto_out c !! c_tcp c = Some 6)
  (Hs : sending c cap src sp dp mac2 h s) (Ht : in_transit s) :
  transfers c cap src sp dp mac2 h.
Proof.
  assert (Hlen : exists n, (length (queue_of (s_l7_to_tcp s)) < n)%nat) by (eexists; apply Nat.lt_succ_diag_r). destruct Hlen as (n & Hlen).
  revert h s Hs Ht Hlen. induction n as [|n IH]; intros h s Hs Ht Hlen; [lia|]. pose proof Hs as [Hh Hidle Hss Hmac Hsess Hst Haddr Hr].
  pose proof (Hss _ _ Hsess) as Hw. pose proof (wf_mss s Hw) as Hm. destruct (decide (queue_of (s_l7_to_tcp s) = [])) as [E|Hne].
  { refine (transfer_done c cap src sp dp mac2 h s Hh Hsess E (it_end s Ht E)). }
  assert (Hpos : 0 < s_in_flight s).
  { rewrite (it_flight s Ht). unfold next_data. rewrite zlen_take. destruct (queue_of _); [done|]. rewrite zlen_cons. pose proof (zlen_nonneg l). lia. }
  apply (transfer_more c cap src sp dp mac2 h s Hsess Hpos); [by apply ack_packet_ex|]. intros e from win pkt He Hfrom Hpkt.
  destruct (ack_flows c cap src sp dp mac2 Hc Bsrc Lsrc Hin Hout h s e from _ win pkt Hs He Hfrom Hpkt) as (h1 & E & Hi).
  exists h1. split; [exact E|]. eapply inevitably_mono; [exact Hi|]. rewrite (in_transit_acked s Hw Ht).
  intros h' (s1 & A1 & Hsd). split; [by exists s1|]. destruct Hsd as (Hh' & Hidle' & Ha' & _ & Hsd).
  destruct (tcp_idle s1) eqn:Ei.
  - destruct Hsd as [_ Et]. destruct (acked_done s s1 Hw Ht Hpos A1 Ei) as [Q1 F1].
    refine (transfer_done c cap src sp dp mac2 h' s1 Hh' _ Q1 F1). rewrite Et. apply lookup_insert_eq.
  - destruct Hsd as [Et _]. destruct (acked_sent s s1 Hw Ht Hpos A1 Ei) as (Ht' & Hw' & Q'). apply (IH h' (sent_session s1)); [|exact Ht'|].
    + destruct A1 as [_ _ _ _ _ (_ & S1 & M1) (A1 & A2)]. destruct Haddr as [Hl Hp].
      split; [exact Hh'|exact Hidle'|rewrite Et; by apply map_Forall_insert_2|by rewrite Ha'|rewrite Et; apply lookup_insert_eq|..];
        unfold sent_session; destruct (next_fin s1); cbn; rewrite ?S1, ?M1, ?A1, ?A2; done.
    + rewrite Q', length_drop. destruct (queue_of (s_l7_to_tcp s)); [done|]. cbn in *. lia.
Qed.

Lemma data_transferred_witness : transfers ex_config (fun _ => 2048) ex_src 40000 80 ex_mac2 (ex_conn_host ex_flight).
Proof.
  refine (data_transferred ex_config (fun _ => 2048) ex_src 40000 80 ex_mac2 (ex_conn_host ex_flight) ex_flight ex_config_wired _ _ _ _ _ _).
  all: try reflexivity.
  - concrete_bytes.
  - split; try reflexivity.
    + exact ex_host_ready.
    + apply map_Forall_singleton. reflexivity.
    + apply map_Forall_singleton, ex_conn_wf.
    + discriminate.
    + by vm_compute.
    + split; [|by vm_compute]. intros t'. destruct t'; vm_compute; discriminate.
  - split; by vm_compute.
Defined.
