(* ===== verification/Http.v ===== *)
(** * HTTP: [src/http_server.cpp]

    The thread of a session without TLS ([session->ctx == nullptr], the default):
    read the request, answer it with a file below [http_base_path], close.  The
    file system is a parameter: what [open], [fstat] and [read] give for a path.
    The functions around a session ([run_in], [run_meta]) are in [L7Sessions]. *)

From S2P Require Import Prelude Str ShmMessage Transport L7 L7Safe L7Sessions.

(** ** Code *)

(** An open file: the size [fstat] reports ([None] when it fails) and the bytes
    [read] delivers. *)
Record file := { f_size : option Z; f_content : list Z }.

Definition http_base_path : list Z := str "./www".

Definition CRLF : list Z := [13; 10].

Definition http_header (which payload_size : Z) (message mime_type : list Z) : list Z :=
  str "HTTP/1.0 " ++ to_string which ++ str " " ++ message ++ CRLF
  ++ str "Server: MyIP-NG HTTPd" ++ CRLF
  ++ str "Content-Type: " ++ mime_type ++ CRLF
  ++ str "Content-Length: " ++ to_string payload_size ++ CRLF ++ CRLF.

Definition send_http_header (which payload_size : Z) (message mime_type : list Z) : proc bool :=
  let http_headers := http_header which payload_size message mime_type in
  done ← psend http_headers;
  mret (done =? zlen http_headers).

Definition end_session : proc unit :=
  _ ← pfin;
  pfinish.

Definition url_mime_type (url : list Z) : list Z :=
  match rfind 46 url with
  | None => str "text/plain"
  | Some dot =>
    let ext := drop (dot + 1) url in
    if beq ext (str "css") then str "text/css"
    else if beq ext (str "html") || beq ext (str "htm") then str "text/html"
    else if beq ext (str "ico") then str "image/vnd.microsoft.icon"
    else if beq ext (str "png") then str "image/png"
    else if beq ext (str "jpg") then str "image/jpeg"
    else if beq ext (str "svg") then str "image/svg+xml"
    else str "text/plain"
  end.

(** The loop that receives the request; [None]: the session was ended. *)
Fixpoint http_receive (fuel : nat) (recv_buffer : list Z) : proc (option (list Z)) :=
  if zlen recv_buffer >? 32768 then _ ← end_session; mret None else
  match fuel with
  | O => PCrash Diverges
  | S f =>
    incoming ← ppop;
    let recv_buffer := recv_buffer ++ incoming in
    match find_sub (CRLF ++ CRLF) recv_buffer with
    | None => http_receive f recv_buffer
    | Some _ => mret (Some recv_buffer)
    end
  end.

(** The URL of the first line; [None]: the session was ended.  [url] is empty
    when there is no line. *)
Definition http_request_line (lines : list (list Z)) : proc (option (list Z)) :=
  match lines with
  | [] => mret (Some [])
  | line :: _ =>
    let parts := split line (str " ") in
    if negb (zlen parts =? 3) then
      _ ← send_http_header 405 0 (str "Can't make cheese from your supposedly HTTP request") (str "text/html");
      _ ← end_session;
      mret None
    else if beq (nth 0 parts []) (str "GET") then
      if zlen line <? 4 then PCrash UncaughtException else
      let url := drop 4 line in
      match find_sub (str " ") url with
      | None => _ ← end_session; mret None
      | Some space => mret (Some (take space url))
      end
    else
      _ ← send_http_header 501 0 (str "Only GET please") (str "text/html");
      _ ← end_session;
      mret None
  end.

(** The loop that sends the file; [content] is what is left to read.  A turn
    sends 4096 bytes or the rest. *)
Fixpoint http_send_file (fuel : nat) (content : list Z) (length : Z) : proc unit :=
  if negb (length >? 0) then mret tt else
  st ← pstopped;
  if st : bool then mret tt else
  match fuel with
  | O => PCrash Diverges
  | S f =>
    let chunk_size := Z.min length sizeof_buffer in
    if zlen content <? chunk_size then mret tt else
    let n := Z.to_nat chunk_size in
    rc ← psend (take n content);
    if negb (rc =? chunk_size) then mret tt
    else http_send_file f (drop n content) (length - chunk_size)
  end.

Section Http.
Variable open_file : list Z -> option file.

Definition normalise_url (url : list Z) : list Z :=
  if beq url (str "/") then str "/index.html"
  else match url with
       | c :: _ => if negb (c =? 47) then 47 :: url else url
       | [] => url
       end.

(** From the check of the URL on. *)
Definition http_answer (url : list Z) : proc unit :=
  if zlen url =? 0 then
    _ ← send_http_header 405 0 (str "URL missing") (str "text/html");
    end_session
  else if contains (str "..") url || contains (str "~") url then
    _ ← send_http_header 500 0 (str "Invalid URL") (str "text/html");
    end_session
  else
    let url := normalise_url url in
    let local_file := http_base_path ++ url in
    match open_file (c_str local_file) with
    | None =>
      _ ← send_http_header 404 0 (str "Not found") (str "text/html");
      end_session
    | Some fd =>
      match f_size fd with
      | None =>
        _ ← send_http_header 500 0 (str "Unknown error") (str "text/html");
        end_session
      | Some st_size =>
        ok ← send_http_header 200 st_size (str "OK!") (url_mime_type url);
        _ ← (if ok : bool then http_send_file (S (Z.to_nat (st_size / sizeof_buffer))) (f_content fd) st_size
             else mret tt);
        end_session
      end
    end.

Definition process_http_request (fuel : nat) : proc unit :=
  request ← http_receive fuel [];
  match request with
  | None => mret tt
  | Some recv_buffer =>
    url ← http_request_line (split recv_buffer CRLF);
    match url with
    | None => mret tt
    | Some url => http_answer url
    end
  end.

End Http.

(** ** Lemmas *)

Lemma zlen_http_header which size message mime :
  0 <= which < 1000 -> 0 <= size < 2 ^ 63 -> zlen message <= 1000 -> zlen mime <= 1000 ->
  zlen (http_header which size message mime) < 2 ^ 31.
Proof.
  intros Hw Hs Hm Hi. unfold http_header. rewrite !zlen_app. pose proof (zlen_to_string which ltac:(lia)).
  pose proof (zlen_to_string size Hs).
  change (zlen (str "HTTP/1.0 ")) with 9. change (zlen (str " ")) with 1. change (zlen CRLF) with 2.
  change (zlen (str "Server: MyIP-NG HTTPd")) with 21. change (zlen (str "Content-Type: ")) with 14.
  change (zlen (str "Content-Length: ")) with 16. lia.
Qed.

Lemma zlen_mime_type url : zlen (url_mime_type url) <= 1000.
Proof.
  unfold url_mime_type. destruct (rfind 46 url); [|by vm_compute].
  repeat match goal with |- context [if ?b then _ else _] => destruct b end; by vm_compute.
Qed.

Lemma split_ref_parts c s : Forall (fun p => c ∉ p) (split_ref c s).
Proof.
  induction s as [|x s IH]; cbn [split_ref]; [by repeat constructor; apply not_elem_of_nil|].
  destruct (Z.eqb_spec x c) as [->|Hx]; [constructor; [apply not_elem_of_nil|done]|].
  destruct (split_ref c s) as [|h t]; [constructor; [|done]; apply not_elem_of_cons; split; [done|apply not_elem_of_nil]|].
  apply list.Forall_cons in IH as [Hh Ht]. constructor; [|done]. by apply not_elem_of_cons.
Qed.

(** A request line of three parts has two spaces. *)
Lemma split_three line a b c : split line (str " ") = [a; b; c] -> line = a ++ 32 :: b ++ 32 :: c.
Proof.
  intros H. assert (line <> []) by (by intros ->). change (str " ") with [32] in H. rewrite split_char in H by done.
  rewrite <- (join_split_ref 32 line), H. done.
Qed.

(** ** Safety of the thread's code *)

Definition ended {A} (r : option A) (ph : phase) : Prop :=
  match r with Some _ => ph = Talking | None => ph = Finished end.

Definition files_ok (open_file : list Z -> option file) : Prop :=
  forall path f z, open_file path = Some f -> f_size f = Some z -> 0 <= z < 2 ^ 63.

Lemma safe_send_header {A} (Q : A -> nat -> phase -> Prop) n which size message mime (k : bool -> proc A) :
  0 <= which < 1000 -> 0 <= size < 2 ^ 63 -> zlen message <= 1000 -> zlen mime <= 1000 ->
  (forall b, safe Q n Talking (k b)) -> safe Q n Talking (ok ← send_http_header which size message mime; k ok).
Proof.
  intros Hw Hs Hm Hi Hk. cbn. split; [done|]. split; [by apply zlen_http_header|]. intros rc _. apply Hk.
Qed.

Lemma safe_end_session {A} (Q : A -> nat -> phase -> Prop) n (k : unit -> proc A) :
  safe Q n Finished (k tt) -> safe Q n Talking (_ ← end_session; k tt).
Proof. intros Hk. cbn. done. Qed.

Lemma safe_end (Q : unit -> nat -> phase -> Prop) n : Q tt n Finished -> safe Q n Talking end_session.
Proof. intros HQ. cbn. done. Qed.

Lemma safe_receive fuel n buffer : (n < fuel)%nat ->
  safe (fun r _ ph => ended r ph) n Talking (http_receive fuel buffer).
Proof.
  revert n buffer. induction fuel as [|f IH]; intros n buffer Hn; [lia|]. cbn [http_receive].
  destruct (zlen buffer >? 32768); [by apply (safe_end_session _ _ (fun _ => mret None))|].
  cbn. destruct n as [|n]; [done|]. intros c _. destruct (find_sub _ _); [done|]. apply IH. lia.
Qed.

Ltac header_sizes := (done || lia || apply zlen_mime_type || (vm_compute; discriminate)).
Ltac send_header := apply safe_send_header; [header_sizes|header_sizes|header_sizes|header_sizes|].

Lemma safe_request_line n lines : safe (fun r _ ph => ended r ph) n Talking (http_request_line lines).
Proof.
  destruct lines as [|line lines]; [done|]. unfold http_request_line. destruct (Z.eqb_spec (zlen (split line (str " "))) 3) as [H3|].
  - cbn [negb]. destruct (beq _ _) eqn:Eg.
    + destruct (split line (str " ")) as [|a [|b [|c [|]]]] eqn:E; try (cbn in H3; unfold zlen in H3; cbn in H3; lia).
      apply split_three in E. replace (zlen line <? 4) with false.
      * destruct (find_sub _ _); [done|]. by apply (safe_end_session _ _ (fun _ => mret None)).
      * rewrite E. cbn [nth] in Eg. apply bool_decide_eq_true in Eg. rewrite Eg, zlen_app, zlen_cons.
        pose proof (zlen_nonneg (b ++ 32 :: c)). change (zlen (str "GET")) with 3. lia.
    + send_header. intros _. by apply (safe_end_session _ _ (fun _ => mret None)).
  - cbn [negb]. send_header. intros _. by apply (safe_end_session _ _ (fun _ => mret None)).
Qed.

Lemma safe_send_file fuel content size n : size <= 4096 * Z.of_nat fuel ->
  safe (fun _ _ ph => ph = Talking) n Talking (http_send_file fuel content size).
Proof.
  revert content size. induction fuel as [|f IH]; intros content size Hs; cbn [http_send_file].
  - by replace (negb (size >? 0)) with true by lia.
  - destruct (negb (size >? 0)) eqn:E0; [done|]. cbn. intros [|]; [done|]. unfold sizeof_buffer.
    destruct (Z.ltb_spec (zlen content) (Z.min size 4096)); [done|]. split; [done|].
    split; [rewrite zlen_take; lia|]. intros rc _. destruct (negb (rc =? Z.min size 4096)); [done|]. apply IH. lia.
Qed.

Lemma safe_answer open_file url n : files_ok open_file ->
  safe (fun _ _ ph => ph = Finished) n Talking (http_answer open_file url).
Proof.
  intros Hf. unfold http_answer. destruct (zlen url =? 0).
  { send_header. intros _. by apply safe_end. }
  destruct (_ || _).
  { send_header. intros _. by apply safe_end. }
  destruct (open_file _) as [fd|] eqn:Eo.
  2: { send_header. intros _. by apply safe_end. }
  destruct (f_size fd) as [size|] eqn:Es.
  2: { send_header. intros _. by apply safe_end. }
  pose proof (Hf _ _ _ Eo Es) as Hs. send_header. intros ok.
  apply safe_bind. destruct ok; [|done].
  eapply safe_mono; [|apply safe_send_file].
  - cbn. intros _ m ph' _ ->. done.
  - unfold sizeof_buffer. pose proof (Z_div_mod_eq_full size 4096). pose proof (Z.mod_pos_bound size 4096).
    assert (0 <= size / 4096) by (apply Z.div_pos; lia). lia.
Qed.

Lemma safe_process open_file fuel n : files_ok open_file -> (n < fuel)%nat ->
  safe (fun _ _ ph => ph = Finished) n Talking (process_http_request open_file fuel).
Proof.
  intros Hf Hn. unfold process_http_request. apply safe_bind. eapply safe_mono; [|by apply safe_receive].
  intros [buffer|] m ph _ Hr; cbn in Hr; subst; [|done]. apply safe_bind. eapply safe_mono; [|apply safe_request_line].
  intros [url|] m' ph _ Hr; cbn in Hr; subst; [|done]. by apply safe_answer.
Qed.

(** ** The answer to a complete request *)

Lemma split_loop_out fuel inp splitter out : exists l, split_loop fuel inp splitter out = out ++ l.
Proof.
  revert inp out. induction fuel as [|f IH]; intros inp out; cbn [split_loop].
  - exists []. by rewrite app_nil_r.
  - destruct (find_sub splitter inp) as [pos|].
    + destruct (_ =? 0); [exists [take pos inp; []]; by rewrite <- app_assoc|].
      destruct (IH (drop (pos + length splitter) inp) (out ++ [take pos inp])) as [l ->]. exists (take pos inp :: l). by rewrite <- app_assoc.
    + destruct (_ >? 0); [by exists [inp]|exists []; by rewrite app_nil_r].
Qed.

(** The first line of a request. *)
Definition first_line (request : list Z) : list Z := take (default 0%nat (find_sub CRLF request)) request.

Lemma split_first request : contains CRLF request = true -> exists l, split request CRLF = first_line request :: l.
Proof.
  unfold contains, first_line, split. cbn [split_loop]. destruct (find_sub CRLF request) as [pos|]; [|done]. intros _. cbn [default].
  destruct (_ =? 0); [by exists [[]]|].
  destruct (split_loop_out (length request) (drop (pos + length CRLF) request) CRLF ([] ++ [take pos request])) as [l ->].
  by exists l.
Qed.

Lemma split_first_line line rest : 13 ∉ line -> exists l, split (line ++ CRLF ++ rest) CRLF = line :: l.
Proof.
  intros Hl. assert (E : find_sub CRLF (line ++ CRLF ++ rest) = Some (length line)).
  { unfold CRLF at 1. rewrite find_sub_skip by done. change (find_sub [13; 10] (CRLF ++ rest)) with (Some 0%nat). cbn. by rewrite Nat.add_0_r. }
  destruct (split_first (line ++ CRLF ++ rest)) as [l El]; [unfold contains; by rewrite E|]. exists l.
  unfold first_line in El. rewrite E in El. change (default 0%nat (Some (length line))) with (length line) in El. by rewrite take_app_length in El.
Qed.

Lemma has_prefix_app_l pat more s : has_prefix (pat ++ more) s = true -> has_prefix pat s = true.
Proof.
  revert s. induction pat as [|x pat IH]; intros [|c s]; cbn [app has_prefix]; try done.
  intros [Hx Hp]%andb_true_iff. by rewrite Hx, (IH s Hp).
Qed.

(** A complete request has a line. *)
Lemma complete_line request : contains (CRLF ++ CRLF) request = true -> contains CRLF request = true.
Proof.
  unfold contains. induction request as [|c request IH]; [by vm_compute|]. cbn [find_sub].
  destruct (has_prefix (CRLF ++ CRLF) (c :: request)) eqn:E; [by rewrite (has_prefix_app_l _ _ _ E)|].
  destruct (has_prefix CRLF (c :: request)); [done|]. destruct (find_sub (CRLF ++ CRLF) request); [|done].
  intros _. specialize (IH eq_refl). by destruct (find_sub CRLF request).
Qed.

Lemma split_request_line url version :
  32 ∉ url -> 32 ∉ version -> split (str "GET " ++ url ++ str " " ++ version) (str " ") = [str "GET"; url; version].
Proof.
  intros Hu Hv. change (str " ") with [32]. rewrite split_char by done.
  change (str "GET " ++ url ++ [32] ++ version) with (join 32 [str "GET"; url; version]).
  apply split_ref_join; [done|]. constructor; [apply str_no_char; reflexivity|]. by repeat constructor.
Qed.

Section Answer.
Context `{Transport W} (P : W -> Prop) (HP : sends_succeed P) (session_id : Z) (out_name : list Z).

Notation data := (l7_sent out_name session_id 0).
Notation bye := (l7_sent out_name session_id 1 []).

Lemma run_send_header which size message mime cs w : P w ->
  exists w', run_chunks session_id out_name (send_http_header which size message mime) cs w = (Done true, cs, w') /\ P w' /\
    t_log w' = t_log w ++ [data (http_header which size message mime)].
Proof.
  intros Hw. unfold send_http_header. cbn [mbind proc_bind psend run_chunks].
  destruct (l7_send_log P out_name session_id 0 (http_header which size message mime) w HP Hw) as (H1 & H2 & H3).
  eexists. cbn [mret proc_ret run_chunks]. rewrite H1, Z.eqb_refl. done.
Qed.

Lemma run_end_session cs w : P w ->
  exists w', run_chunks session_id out_name end_session cs w = (Done tt, cs, w') /\ P w' /\ t_log w' = t_log w ++ [bye].
Proof.
  intros Hw. unfold end_session. cbn [mbind proc_bind pfin pfinish run_chunks].
  destruct (l7_send_log P out_name session_id 1 [] w HP Hw) as (H1 & H2 & H3). by eexists.
Qed.

Lemma run_send_file fuel content cs w : P w -> zlen content <= 4096 * Z.of_nat fuel ->
  exists w', run_chunks session_id out_name (http_send_file fuel content (zlen content)) cs w = (Done tt, cs, w') /\ P w' /\
    t_log w' = t_log w ++ (data <$> pieces content).
Proof.
  revert content w. induction fuel as [|f IH]; intros content w Hw Hl.
  - assert (content = []) as -> by (destruct content; [done|unfold zlen in Hl; cbn in Hl; lia]). exists w. by rewrite app_nil_r.
  - destruct content as [|x content]; [exists w; by rewrite app_nil_r|]. set (c := x :: content) in *.
    assert (Hc : 0 < zlen c) by (unfold zlen, c; cbn [length]; lia). cbn [http_send_file].
    replace (negb (zlen c >? 0)) with false by lia. cbn [mbind proc_bind pstopped run_chunks].
    replace (zlen c <? Z.min (zlen c) sizeof_buffer) with false by lia. cbn [mbind proc_bind psend run_chunks].
    set (n := Z.to_nat (Z.min (zlen c) sizeof_buffer)).
    assert (Hn : 0 <= Z.min (zlen c) sizeof_buffer) by (unfold sizeof_buffer; lia).
    destruct (l7_send_log P out_name session_id 0 (take n c) w HP Hw) as (H1 & H2 & H3).
    rewrite H1. assert (Ht : zlen (take n c) = Z.min (zlen c) sizeof_buffer) by (rewrite zlen_take; unfold n; lia). rewrite Ht, Z.eqb_refl. cbn [negb].
    assert (Hd : zlen (drop n c) = zlen c - Z.min (zlen c) sizeof_buffer) by (rewrite zlen_drop; unfold n; lia). rewrite <- Hd.
    destruct (IH (drop n c) _ H2 ltac:(unfold sizeof_buffer in *; lia)) as (w' & E & Hw' & Hlog). exists w'. split; [exact E|]. split; [done|].
    rewrite Hlog, H3, <- app_assoc. f_equal. rewrite (pieces_cons c) by done. cbn [fmap list_fmap app].
    destruct (piece_cut c) as [<- <-]. done.
Qed.

(** What the server sends for [url], before it closes. *)
Definition http_reply (open_file : list Z -> option file) (url : list Z) : list (list Z) :=
  let path := normalise_url url in
  match open_file (c_str (http_base_path ++ path)) with
  | None => [http_header 404 0 (str "Not found") (str "text/html")]
  | Some fd =>
    match f_size fd with
    | None => [http_header 500 0 (str "Unknown error") (str "text/html")]
    | Some size => http_header 200 size (str "OK!") (url_mime_type path) :: pieces (f_content fd)
    end
  end.

(** What it sends for any first line of a request. *)
Definition http_error (which : Z) (message : list Z) : list (list Z) := [http_header which 0 message (str "text/html")].

Definition http_response (open_file : list Z -> option file) (line : list Z) : list (list Z) :=
  match split_ref 32 line with
  | [method; url; _] =>
    if negb (beq method (str "GET")) then http_error 501 (str "Only GET please")
    else if beq url [] then http_error 405 (str "URL missing")
    else if contains (str "..") url || contains (str "~") url then http_error 500 (str "Invalid URL")
    else http_reply open_file url
  | _ => http_error 405 (str "Can't make cheese from your supposedly HTTP request")
  end.

Lemma run_error {A} which m (k : proc A) v cs w : P w -> k = mret v ->
  exists w', run_chunks session_id out_name (_ ← send_http_header which 0 m (str "text/html"); _ ← end_session; k) cs w = (Done v, cs, w') /\ P w' /\
    t_log w' = t_log w ++ (data <$> http_error which m) ++ [bye].
Proof.
  intros Hw ->. rewrite run_chunks_bind. destruct (run_send_header which 0 m (str "text/html") cs w Hw) as (w1 & -> & Hw1 & Hl1).
  rewrite run_chunks_bind. destruct (run_end_session cs w1 Hw1) as (w2 & -> & Hw2 & Hl2). exists w2. split; [done|]. split; [done|]. by rewrite Hl2, Hl1, <- app_assoc.
Qed.

Lemma run_error_end which m cs w : P w ->
  exists w', run_chunks session_id out_name (_ ← send_http_header which 0 m (str "text/html"); end_session) cs w = (Done tt, cs, w') /\ P w' /\
    t_log w' = t_log w ++ (data <$> http_error which m) ++ [bye].
Proof.
  intros Hw. rewrite run_chunks_bind. destruct (run_send_header which 0 m (str "text/html") cs w Hw) as (w1 & -> & Hw1 & Hl1).
  destruct (run_end_session cs w1 Hw1) as (w2 & -> & Hw2 & Hl2). exists w2. split; [done|]. split; [done|]. by rewrite Hl2, Hl1, <- app_assoc.
Qed.

Lemma run_answer open_file url cs w : P w -> url <> [] -> contains (str "..") url = false -> contains (str "~") url = false ->
  (forall path fd size, open_file path = Some fd -> f_size fd = Some size -> zlen (f_content fd) = size) ->
  exists w', run_chunks session_id out_name (http_answer open_file url) cs w = (Done tt, cs, w') /\ P w' /\
    t_log w' = t_log w ++ (data <$> http_reply open_file url) ++ [bye].
Proof.
  intros Hw Hu Hd Ht Hf. unfold http_answer, http_reply. replace (zlen url =? 0) with false by (destruct url; [done|rewrite zlen_cons; pose proof (zlen_nonneg url); lia]).
  rewrite Hd, Ht. cbn [orb].
  destruct (open_file _) as [fd|] eqn:Eo; [|by apply run_error_end]. destruct (f_size fd) as [size|] eqn:Es; [|by apply run_error_end].
  pose proof (Hf _ _ _ Eo Es) as Hs. rewrite run_chunks_bind.
  destruct (run_send_header 200 size (str "OK!") (url_mime_type (normalise_url url)) cs w Hw) as (w1 & -> & Hw1 & Hl1).
  rewrite run_chunks_bind, <- Hs. pose proof (zlen_nonneg (f_content fd)).
  destruct (run_send_file (S (Z.to_nat (zlen (f_content fd) / sizeof_buffer))) (f_content fd) cs w1 Hw1) as (w2 & -> & Hw2 & Hl2).
  { unfold sizeof_buffer. pose proof (Z_div_mod_eq_full (zlen (f_content fd)) 4096). pose proof (Z.mod_pos_bound (zlen (f_content fd)) 4096).
    assert (0 <= zlen (f_content fd) / 4096) by (apply Z.div_pos; lia). lia. }
  destruct (run_end_session cs w2 Hw2) as (w3 & -> & Hw3 & Hl3). exists w3. split; [done|]. split; [done|].
  rewrite Hl3, Hl2, Hl1, <- Hs, <- !app_assoc. done.
Qed.

(** From the first line on. *)
Lemma run_lines open_file line lines cs w : P w ->
  (forall path fd size, open_file path = Some fd -> f_size fd = Some size -> zlen (f_content fd) = size) ->
  exists w', run_chunks session_id out_name
      (url ← http_request_line (line :: lines); match url with None => mret tt | Some url => http_answer open_file url end) cs w = (Done tt, cs, w') /\ P w' /\
    t_log w' = t_log w ++ (data <$> http_response open_file line) ++ [bye].
Proof.
  intros Hw Hf. rewrite run_chunks_bind. unfold http_request_line, http_response.
  assert (Hcheese : exists w', run_chunks session_id out_name (_ ← send_http_header 405 0 (str "Can't make cheese from your supposedly HTTP request") (str "text/html");
      _ ← end_session; mret (@None (list Z))) cs w = (Done None, cs, w') /\ P w' /\
      t_log w' = t_log w ++ (data <$> http_error 405 (str "Can't make cheese from your supposedly HTTP request")) ++ [bye]) by (by apply run_error).
  assert (N3 : forall l : list (list Z), length l <> 3%nat -> negb (zlen l =? 3) = true) by (intros l H3; unfold zlen; lia).
  destruct (decide (line = [])) as [->|Hl].
  { change (negb (zlen (split [] (str " ")) =? 3)) with true. cbn iota. destruct Hcheese as (w' & -> & Hw' & Hlog). by exists w'. }
  change (str " ") with [32]. rewrite split_char by done.
  destruct (split_ref 32 line) as [|a [|b [|c [|d l]]]] eqn:E.
  1,2,3,5: rewrite N3 by (cbn; lia); destruct Hcheese as (w' & -> & Hw' & Hlog); by exists w'.
  change (negb (zlen [a; b; c] =? 3)) with false. cbn iota. cbn [nth]. destruct (beq a (str "GET")) eqn:Eg; cbn [negb].
  2: { destruct (run_error 501 (str "Only GET please") (mret (@None (list Z))) None cs w Hw eq_refl) as (w' & -> & Hw' & Hlog). by exists w'. }
  apply bool_decide_eq_true in Eg. subst a.
  assert (Hb : 32 ∉ b) by (pose proof (split_ref_parts 32 line) as Hp; rewrite E in Hp; by repeat apply list.Forall_cons in Hp as [? Hp]). rewrite <- split_char in E by done. apply split_three in E as ->.
  replace (zlen (str "GET" ++ 32 :: b ++ 32 :: c) <? 4) with false.
  2: { rewrite zlen_app, zlen_cons. pose proof (zlen_nonneg (b ++ 32 :: c)). change (zlen (str "GET")) with 3. lia. }
  change (drop 4 (str "GET" ++ 32 :: b ++ 32 :: c)) with (b ++ 32 :: c).
  rewrite find_char_app by done. change (mret (Some (take (length b) (b ++ 32 :: c)))) with (PRet (Some (take (length b) (b ++ 32 :: c)))). cbn [run_chunks].
  rewrite take_app_length. destruct (beq b []) eqn:Eb.
  { apply bool_decide_eq_true in Eb as ->. by apply run_error_end. }
  apply bool_decide_eq_false in Eb. destruct (contains (str "..") b) eqn:Ed; [|destruct (contains (str "~") b) eqn:Et; [|by apply run_answer]].
  all: cbn [orb]; unfold http_answer; replace (zlen b =? 0) with false by (destruct b; [done|rewrite zlen_cons; pose proof (zlen_nonneg b); lia]).
  all: rewrite Ed, ?Et; cbn [orb]; by apply run_error_end.
Qed.

(** A request that is complete with its last chunk. *)
Definition completes (cs : list (list Z)) : Prop :=
  contains (CRLF ++ CRLF) (concat cs) = true /\
  forall i, (i < length cs)%nat -> contains (CRLF ++ CRLF) (concat (take i cs)) = false /\ zlen (concat (take i cs)) <= 32768.

Lemma run_receive fuel before cs more w : (length cs <= fuel)%nat ->
  contains (CRLF ++ CRLF) (before ++ concat cs) = true -> cs <> [] ->
  (forall i, (i < length cs)%nat -> contains (CRLF ++ CRLF) (before ++ concat (take i cs)) = false /\ zlen (before ++ concat (take i cs)) <= 32768) ->
  run_chunks session_id out_name (http_receive fuel before) (cs ++ more) w = (Done (Some (before ++ concat cs)), more, w).
Proof.
  revert fuel before. induction cs as [|c cs IH]; intros [|f] before Hf Hc Hn Hi; try done; [cbn in Hf; lia|].
  cbn [http_receive]. destruct (Hi 0%nat) as [_ H0]; [cbn; lia|]. cbn in H0. rewrite app_nil_r in H0.
  replace (zlen before >? 32768) with false by lia. cbn [mbind proc_bind ppop run_chunks app].
  destruct cs as [|c2 cs].
  - cbn [concat] in Hc |- *. rewrite app_nil_r in Hc |- *. unfold contains in Hc. by destruct (find_sub _ (before ++ c)).
  - destruct (Hi 1%nat) as [H1 _]; [cbn; lia|]. cbn [take concat] in H1. rewrite app_nil_r in H1. unfold contains in H1.
    destruct (find_sub (CRLF ++ CRLF) (before ++ c)); [done|].
    specialize (IH f (before ++ c)). rewrite <- app_assoc in IH. cbn [concat]. apply IH; [cbn in *; lia|exact Hc|done|].
    intros i Hlt. specialize (Hi (S i)). cbn in Hi. rewrite <- app_assoc. apply Hi. cbn in *. lia.
Qed.

End Answer.

(** A well-formed request line. *)
Lemma request_line_get url version rest : 32 ∉ url -> 13 ∉ url -> 32 ∉ version -> 13 ∉ version ->
  http_request_line (split (str "GET " ++ url ++ str " " ++ version ++ CRLF ++ rest) CRLF) = mret (Some url).
Proof.
  intros Us Uc Vs Vc. set (line := str "GET " ++ url ++ str " " ++ version).
  assert (Hline : str "GET " ++ url ++ str " " ++ version ++ CRLF ++ rest = line ++ CRLF ++ rest) by (unfold line; by rewrite <- !app_assoc).
  assert (13 ∉ line) as Hn.
  { unfold line. rewrite !elem_of_app. intros [Hx|[Hx|[Hx|Hx]]]; try done; revert Hx; by apply str_no_char. }
  destruct (split_first_line line rest Hn) as [l Hl]. rewrite Hline, Hl. unfold http_request_line.
  unfold line at 1 2. rewrite split_request_line by done. change (beq (nth 0 _ _) _) with true.
  change (negb (zlen [str "GET"; url; version] =? 3)) with false. cbn iota.
  replace (zlen line <? 4) with false.
  2: { unfold line. rewrite zlen_app. change (zlen (str "GET ")) with 4. pose proof (zlen_nonneg (url ++ str " " ++ version)). lia. }
  change (drop 4 line) with (url ++ 32 :: version). change (str " ") with [32]. rewrite find_char_app by done. by rewrite take_app_length.
Qed.

(** The code takes whole chunks. *)
Lemma chunking_send_header {A} which size message mime (k : bool -> proc A) :
  0 <= which < 1000 -> 0 <= size < 2 ^ 63 -> zlen message <= 1000 -> zlen mime <= 1000 ->
  (forall b, chunking (k b)) -> chunking (ok ← send_http_header which size message mime; k ok).
Proof. intros Hw Hs Hm Hi Hk. split; [by apply zlen_http_header|]. intros rc. apply Hk. Qed.

Ltac chunk_header := apply chunking_send_header; [header_sizes|header_sizes|header_sizes|header_sizes|].

Lemma chunking_send_file fuel content size : chunking (http_send_file fuel content size).
Proof.
  revert content size. induction fuel as [|f IH]; intros content size; cbn [http_send_file]; destruct (negb (size >? 0)); try done; intros [|]; try done.
  cbn [mbind proc_bind pstopped]. destruct (zlen content <? _); [done|]. split; [rewrite zlen_take; unfold sizeof_buffer; lia|].
  intros rc. cbn [proc_bind]. destruct (negb (rc =? Z.min size sizeof_buffer)); [exact I|apply IH].
Qed.

Lemma chunking_answer open_file url : files_ok open_file -> chunking (http_answer open_file url).
Proof.
  intros Hf. unfold http_answer. destruct (zlen url =? 0); [by chunk_header|]. destruct (_ || _); [by chunk_header|].
  destruct (open_file _) as [fd|] eqn:Eo; [|by chunk_header]. destruct (f_size fd) as [size|] eqn:Es; [|by chunk_header].
  pose proof (Hf _ _ _ Eo Es) as Hs. chunk_header. intros [|]; [|done]. apply chunking_bind; [apply chunking_send_file|done].
Qed.

Lemma chunking_process open_file fuel : files_ok open_file -> chunking (process_http_request open_file fuel).
Proof.
  intros Hf. apply chunking_bind.
  - generalize (@nil Z). induction fuel as [|f IH]; intros buffer; cbn [http_receive]; (destruct (zlen buffer >? 32768); [done|]); [done|].
    intros c. cbn [mbind proc_bind]. by destruct (find_sub _ _).
  - intros [buffer|]; [|done]. apply chunking_bind; [|intros [url|]; [by apply chunking_answer|done]].
    destruct (split buffer CRLF) as [|line lines]; [done|]. unfold http_request_line.
    destruct (negb _); [by chunk_header|]. destruct (beq _ _); [|by chunk_header].
    destruct (zlen line <? 4); [done|]. by destruct (find_sub _ _).
Qed.

(** ** Confinement *)

(** A path below [http_base_path]. *)
Definition confined (path : list Z) : Prop :=
  exists u, path = http_base_path ++ str "/" ++ u /\ contains (str "..") u = false /\ contains (str "~") u = false /\ 0 ∉ u.

Lemma opened_confined url : url <> [] -> contains (str "..") url = false -> contains (str "~") url = false ->
  confined (c_str (http_base_path ++ normalise_url url)).
Proof.
  intros Hu Hd Ht. rewrite c_str_app by (apply str_no_char; reflexivity).
  assert (exists u, normalise_url url = 47 :: u /\ contains (str "..") u = false /\ contains (str "~") u = false) as (u & -> & Hud & Hut).
  { unfold normalise_url. destruct (beq url (str "/")); [by eexists|]. destruct url as [|c url]; [done|].
    destruct (Z.eqb_spec c 47) as [->|]; cbn [negb]; [|by eexists]. exists url. split; [done|].
    split; by eapply contains_cons_false. }
  cbn [c_str]. change (47 =? 0) with false. cbn iota. destruct (c_str_prefix u) as (r & E & Hn). exists (c_str u). split; [done|].
  rewrite E in Hud, Hut. apply contains_app_false in Hud, Hut. done.
Qed.

Lemma answer_confined open1 open2 url : (forall path, confined path -> open1 path = open2 path) ->
  http_answer open1 url = http_answer open2 url.
Proof.
  intros Ho. unfold http_answer. destruct (Z.eqb_spec (zlen url) 0) as [|Hz]; [done|]. destruct (contains (str "..") url) eqn:Hd; [done|].
  destruct (contains (str "~") url) eqn:Ht; [done|]. cbn [orb]. by rewrite Ho by (apply opened_confined; [by intros ->|done|done]).
Qed.

(** ** Properties *)

(** C16: every complete request, however it was cut into chunks, is answered by its first
    line alone ([http_response]), and then the request to close the session is sent.  A line that is not of three parts, and a GET without a URL,
    get a 405; another method than GET gets a 501; a URL with [..] or [~] in it gets a 500; any other URL gets
    the header for its file below [./www] and the contents of that file in pieces of 4096 bytes, or the header for 404 or 500
    when it cannot be opened or examined.  Bytes behind the request stay
    queued.  The session is one without TLS that nobody stops, a file has the size [fstat] reports, and the messages
    to the TCP server can be sent. *)
Theorem http_serves `{Transport W} (P : W -> Prop) (open_file : list Z -> option file) (session_id : Z) (out_name : list Z)
  (fuel : nat) (cs more : list (list Z)) (s : l7 W)
  (HP : sends_succeed P) (Hw : P (l_world s)) (Hf : files_ok open_file)
  (Hsize : forall path fd size, open_file path = Some fd -> f_size fd = Some size -> zlen (f_content fd) = size)
  (Hs : will_stop s = false) (Hcs : chunks s = cs ++ more) (Hc : completes cs) (Hfuel : (length cs <= fuel)%nat) :
  exists s', run_thread session_id out_name (process_http_request open_file fuel) s = (Done tt, s') /\
    chunks s' = more /\
    t_log (l_world s') = t_log (l_world s) ++ (l7_sent out_name session_id 0 <$> http_response open_file (first_line (concat cs)))
                           ++ [l7_sent out_name session_id 1 []] /\
    forall fd, concat (pieces (f_content fd)) = f_content fd.
Proof.
  destruct Hc as [Hc Hi]. assert (Hn : cs <> []) by (intros ->; by vm_compute in Hc).
  pose proof (run_thread_chunks session_id out_name (process_http_request open_file fuel) s (chunking_process open_file fuel Hf) Hs) as Hrun.
  rewrite Hcs in Hrun. unfold process_http_request in Hrun at 1. rewrite run_chunks_bind in Hrun.
  rewrite (run_receive session_id out_name fuel [] cs more) in Hrun by done. cbn [app] in Hrun.
  destruct (split_first (concat cs) (complete_line _ Hc)) as [lines El]. rewrite El in Hrun.
  destruct (run_lines P HP session_id out_name open_file (first_line (concat cs)) lines more (l_world s) Hw Hsize) as (w' & Er & _ & Hlog).
  rewrite Er in Hrun. destruct Hrun as (s' & E & Hw' & _ & Hm). exists s'. split; [done|]. split; [done|].
  rewrite Hw', Hlog. split; [done|]. intros fd. apply pieces_concat.
Qed.

(** C29: whatever the peer sends, however it is cut, whenever the session is
    stopped and whatever becomes of the messages sent: the thread of an HTTP session ends in no
    fault; what it sends is data of its session and then at most one request to
    close it, nothing after that; and when it ends, [finished] is set. *)
Theorem http_session_ends `{Transport W} (open_file : list Z -> option file) (session_id : Z) (out_name : list Z)
  (fuel : nat) (s : l7 W) (Hf : files_ok open_file) (Hfuel : (budget s < fuel)%nat) (Hb : bytes (stream s)) (Hn : l_finished s = false) :
  let '(r, s') := run_thread session_id out_name (process_http_request open_file fuel) s in
  exists data fin,
    t_log (l_world s') = t_log (l_world s) ++ (l7_sent out_name session_id 0 <$> data) ++ fin /\
    (fin = [] \/ fin = [l7_sent out_name session_id 1 []]) /\
    match r with
    | Done _ => l_finished s' = true
    | Waits => True
    | Crash _ => False
    end.
Proof.
  apply (run_thread_ends _ (budget s)); [by apply safe_process|done..].
Qed.

(** C31: the server opens nothing outside [./www]: two file systems that agree on
    the paths below it which contain neither [..] nor [~] cannot be told apart by any
    request. *)
Theorem http_confined `{Transport W} (open1 open2 : list Z -> option file) (session_id : Z) (out_name : list Z) (fuel : nat) (s : l7 W)
  (Ho : forall path, confined path -> open1 path = open2 path) :
  run_thread session_id out_name (process_http_request open1 fuel) s =
  run_thread session_id out_name (process_http_request open2 fuel) s.
Proof.
  unfold process_http_request. apply run_thread_bind_ext. intros [buffer|] s1; [|done].
  apply run_thread_bind_ext. intros [url|] s2; [|done]. by rewrite (answer_confined open1 open2 url Ho).
Qed.

Lemma receive_waits `{Transport W} session_id out_name fuel before (s : l7 W) :
  l_env s = [] -> contains (CRLF ++ CRLF) (before ++ concat (l_incoming s)) = false ->
  zlen (before ++ concat (l_incoming s)) <= 32768 -> (length (l_incoming s) < fuel)%nat ->
  (run_thread session_id out_name (http_receive fuel before) s).1 = Waits.
Proof.
  revert before s. induction fuel as [|f IH]; intros before s He Hc Hz Hf; [lia|]. cbn [http_receive].
  pose proof (zlen_nonneg (concat (l_incoming s))) as H0. rewrite zlen_app in Hz.
  replace (zlen before >? 32768) with false by lia. cbn [mbind proc_bind ppop run_thread]. unfold mbind, thread_bind, pop. rewrite He. cbn [pop_loop].
  destruct (l_incoming s) as [|c r] eqn:Ei; [done|]. cbn [concat] in *. rewrite app_assoc in Hc.
  pose proof (contains_app_false _ _ _ Hc) as Hc1. unfold contains in Hc1. destruct (find_sub (CRLF ++ CRLF) (before ++ c)); [done|].
  apply IH; [done|done| |cbn [l_incoming set_incoming length] in *; lia].
  cbn [l_incoming set_incoming]. rewrite !zlen_app in *. lia.
Qed.

Lemma run_thread_bind_waits `{Transport W} {A B} session_id out_name (p : proc A) (f : A -> proc B) (s : l7 W) :
  (run_thread session_id out_name p s).1 = Waits -> (run_thread session_id out_name (p ≫= f) s).1 = Waits.
Proof.
  unfold mbind. revert s. induction p as [a|e|k IH|to n k IH|from k IH|k IH|k IH|k IH]; intros s; cbn; try done.
  all: unfold mbind, thread_bind; match goal with |- context [match ?m with _ => _ end] => destruct m as [[?| |] ?] end; try done; auto.
Qed.

(** C35: closing an HTTP session whose request is not complete never ends.  Its
    thread waits in [queue::pop] without a timeout and does not look at the stop
    flag that [run_meta] sets; [run_meta] waits for the thread holding the lock on the
    sessions, without which [run_in] cannot put anything into its queue. *)
Theorem http_close_waits `{Transport W} (open_file : list Z -> option file) (out_name : list Z) (threads : Z -> proc unit)
  (fuel : nat) (m : message) (session_id : Z) (sessions : gmap Z l7_session) (hs : l7_session) (w : W)
  (Hid : is_u 64 session_id) (Hm : rdn (m_data m) 0 (m_size m) = Ret (close_request session_id))
  (Hs : sessions !! session_id = Some hs) (Ht : threads session_id = process_http_request open_file fuel)
  (Hc : contains (CRLF ++ CRLF) (concat (ls_incoming hs)) = false) (Hz : zlen (concat (ls_incoming hs)) <= 32768)
  (Hf : (length (ls_incoming hs) < fuel)%nat) :
  (l7_run_meta out_name threads m sessions w).1 = Waits.
Proof.
  rewrite (l7_meta_close out_name threads m session_id sessions w Hid Hm). unfold l7_close. rewrite Hs, Ht.
  set (s := L7 _ _ _ _ _ _). assert (E : (run_thread session_id out_name (process_http_request open_file fuel) s).1 = Waits).
  { apply run_thread_bind_waits. by apply receive_waits. }
  destruct (run_thread _ _ _ s) as [r s']. cbn in E. by rewrite E.
Qed.

(** ** Examples *)

Definition ex_files (path : list Z) : option file :=
  if beq path (str "./www/index.html") then Some {| f_size := Some 5; f_content := str "hello" |} else None.

Definition ex_request : list (list Z) :=
  [str "GET / HT"; []; str "TP/1.0" ++ CRLF ++ str "Host: x" ++ CRLF ++ [13]; [10; 7]].

Definition ex_http : l7 oracle :=
  L7 (take 2 ex_request) false false false [[]; map EvPush (drop 2 ex_request); [EvPush [1; 2; 3]]] oracle_ok.

Lemma ex_files_ok : files_ok ex_files.
Proof. intros path f z. unfold ex_files. destruct (beq _ _); [|done]. intros [= <-] [= <-]. lia. Qed.

Lemma http_serves_witness :
  exists s', run_thread 7 (str "tcp") (process_http_request ex_files 9) ex_http = (Done tt, s') /\
    t_log (l_world s') = [l7_sent (str "tcp") 7 0 (http_header 200 5 (str "OK!") (str "text/html")); l7_sent (str "tcp") 7 0 (str "hello");
                          l7_sent (str "tcp") 7 1 []].
Proof.
  destruct (http_serves (fun w : oracle => o_script w = []) ex_files 7 (str "tcp") 9 ex_request [[1; 2; 3]] ex_http) as (s' & E & _ & Hlog & _).
  - apply oracle_succeeds.
  - reflexivity.
  - apply ex_files_ok.
  - intros path fd size. unfold ex_files. destruct (beq _ _); [|discriminate]. intros [= <-] [= <-]. reflexivity.
  - reflexivity.
  - reflexivity.
  - split; [vm_compute; reflexivity|]. intros i Hi. do 4 (destruct i as [|i]; [vm_compute; split; [reflexivity|discriminate]|]). cbn in Hi. lia.
  - cbn. lia.
  - exists s'. split; [exact E|]. rewrite Hlog. reflexivity.
Defined.

(** First lines that are refused. *)
Example http_response_refused :
  map (http_response ex_files) [[]; str "GET /"; str "GET  HTTP/1.0"; str "HEAD / HTTP/1.0"; str "GET /../x HTTP/1.0"; str "GET /x HTTP/1.0"] =
  [http_error 405 (str "Can't make cheese from your supposedly HTTP request"); http_error 405 (str "Can't make cheese from your supposedly HTTP request");
   http_error 405 (str "URL missing"); http_error 501 (str "Only GET please"); http_error 500 (str "Invalid URL"); http_error 404 (str "Not found")].
Proof. vm_compute. reflexivity. Qed.

Lemma http_session_ends_witness :
  match run_thread 7 (str "tcp") (process_http_request ex_files 90) ex_http with
  | (Done _, s') => l_finished s' = true
  | _ => False
  end.
Proof.
  pose proof (http_session_ends ex_files 7 (str "tcp") 90 ex_http ex_files_ok) as H.
  assert (E : (run_thread 7 (str "tcp") (process_http_request ex_files 90) ex_http).1 = Done tt) by (vm_compute; reflexivity).
  destruct (run_thread 7 (str "tcp") (process_http_request ex_files 90) ex_http) as [r s']. cbn in E. subst r.
  destruct H as (data & fin & _ & _ & H).
  - vm_compute. lia.
  - concrete_bytes.
  - reflexivity.
  - exact H.
Defined.

Lemma http_confined_witness :
  run_thread 7 (str "tcp") (process_http_request ex_files 9) ex_http =
  run_thread 7 (str "tcp")
    (process_http_request (fun path => if beq path (str "/etc/passwd") then Some {| f_size := None; f_content := [] |} else ex_files path) 9) ex_http.
Proof.
  apply http_confined. intros path (u & -> & _). unfold beq. rewrite bool_decide_eq_false_2; [reflexivity|]. discriminate.
Defined.

Definition ex_http_session : l7_session :=
  {| ls_from := [10; 0; 0; 9]; ls_from_port := 40000; ls_to := [10; 0; 0; 1]; ls_to_port := 80;
     ls_incoming := [[]; str "GET / HT"]; ls_stop := false; ls_finished := false |}.

Lemma http_close_waits_witness :
  (l7_run_meta (str "tcp") (fun _ => process_http_request ex_files 9) (message_of (close_request 7) None) {[ 7 := ex_http_session ]} oracle_ok).1 = Waits.
Proof.
  apply (http_close_waits ex_files (str "tcp") (fun _ => process_http_request ex_files 9) 9 (message_of (close_request 7) None) 7
    {[ 7 := ex_http_session ]} ex_http_session oracle_ok).
  - unfold is_u. lia.
  - reflexivity.
  - reflexivity.
  - reflexivity.
  - reflexivity.
  - vm_compute. discriminate.
  - cbn. lia.
Defined.
