(* ===== verification/HttpTls.v ===== *)
(** * HTTP over TLS: the wolfSSL branches of [src/http_server.cpp]

    The thread of a session with TLS ([session->ctx != nullptr]).  It is the code of [Http] with
    [wolfSSL_write] for [send_func], and with a loop that reads the request byte by byte.  wolfSSL
    is a library the code calls: a class of its functions, each of which may call
    [my_wolfssl_receive] and [my_wolfssl_send], the code's own, and returns.  [wolfSSL_free], which
    [end_session] calls, calls nothing back and is left out. *)

From S2P Require Import Prelude Str ShmMessage Transport L7 L7Safe L7Sessions Http.

(** ** Code *)

(** A call of the library: the calls it makes back, with the buffers it passes. *)
Inductive io (A : Type) : Type :=
| IoRet (a : A)
| IoRecv (buf : list Z) (k : Z * list Z -> io A)
| IoSend (buf : list Z) (k : Z -> io A).
Arguments IoRet {A}.
Arguments IoRecv {A}.
Arguments IoSend {A}.

(** [wolfSSL_read(ssl, &c, 1)] with the byte read, and [wolfSSL_write]; the state is that of the [WOLFSSL] object. *)
Class WolfSSL (S : Type) := {
  wolfSSL_new : S;
  wolfSSL_read : S -> io (Z * Z * S);
  wolfSSL_write : S -> list Z -> io (Z * S) }.

Definition my_wolfssl_receive (buf : list Z) : proc (Z * list Z) :=
  r ← precv buf (zlen buf);
  if r.1 =? -1 then mret (0, r.2) else mret (zlen buf, r.2).

Definition my_wolfssl_send (buf : list Z) : proc Z :=
  rc ← psend buf;
  if rc =? -1 then mret 0 else mret (zlen buf).

Fixpoint run_io {A} (p : io A) : proc A :=
  match p with
  | IoRet a => mret a
  | IoRecv buf k => r ← my_wolfssl_receive buf; run_io (k r)
  | IoSend buf k => rc ← my_wolfssl_send buf; run_io (k rc)
  end.

Section Tls.
Context {S : Type} {HS : WolfSSL S}.

(** The code of [Http] in a session with TLS: [wolfSSL_write] takes the place of [send_func]. *)
Fixpoint over_tls {A} (ssl : S) (p : proc A) : proc (A * S) :=
  match p with
  | PRet a => mret (a, ssl)
  | PCrash e => PCrash e
  | PPop k => PPop (fun x => over_tls ssl (k x))
  | PRecv to n k => PRecv to n (fun x => over_tls ssl (k x))
  | PSend from k => r ← run_io (wolfSSL_write ssl from); over_tls r.2 (k r.1)
  | PFin k => PFin (fun x => over_tls ssl (k x))
  | PStopped k => PStopped (fun x => over_tls ssl (k x))
  | PFinish k => PFinish (fun x => over_tls ssl (k x))
  end.

(** The loop that receives the request. *)
Fixpoint https_receive (fuel : nat) (ssl : S) (recv_buffer : list Z) : proc (option (list Z) * S) :=
  if zlen recv_buffer >? 32768 then _ ← end_session; mret (None, ssl) else
  match fuel with
  | O => PCrash Diverges
  | Datatypes.S f =>
    r ← run_io (wolfSSL_read ssl);
    let '(rc, c, ssl) := r in
    if negb (rc =? 1) then _ ← end_session; mret (None, ssl) else
    let recv_buffer := recv_buffer ++ [c] in
    match find_sub (CRLF ++ CRLF) recv_buffer with
    | None => https_receive f ssl recv_buffer
    | Some _ => mret (Some recv_buffer, ssl)
    end
  end.

(** More than 32768 bytes end the session: the fuel is enough. *)
Definition https_fuel : nat := Z.to_nat 32769.

Definition process_https_request (open_file : list Z -> option file) : proc unit :=
  r ← https_receive https_fuel wolfSSL_new [];
  let '(request, ssl) := r in
  match request with
  | None => mret tt
  | Some recv_buffer =>
    r ← over_tls ssl (http_request_line (split recv_buffer CRLF));
    let '(url, ssl) := r in
    match url with
    | None => mret tt
    | Some url => _ ← over_tls ssl (http_answer open_file url); mret tt
    end
  end.

(** ** Safety *)

(** The library passes buffers that are not empty, of the size it says, and gives back bytes. *)
Fixpoint io_ok {A} (p : io A) : Prop :=
  match p with
  | IoRet _ => True
  | IoRecv buf k => 0 < zlen buf < 2 ^ 31 /\ bytes buf /\ forall rc buf', zlen buf' = zlen buf -> bytes buf' -> io_ok (k (rc, buf'))
  | IoSend buf k => zlen buf < 2 ^ 31 /\ forall rc, io_ok (k rc)
  end.

Definition wolf_ok : Prop := forall ssl : S,
  io_ok (wolfSSL_read ssl) /\ forall b, zlen b < 2 ^ 31 -> io_ok (wolfSSL_write ssl b).

Lemma safe_io {A} (Q : A -> nat -> phase -> Prop) n p :
  io_ok p -> (forall a m, Q a m Talking) -> safe Q n Talking (run_io p).
Proof.
  intros Hp HQ. revert n. induction p as [a|buf k IH|buf k IH]; intros n; cbn in *.
  - by apply HQ.
  - destruct Hp as (Hb & Bb & Hk). split; [lia|]. split; [done|].
    assert (Hr : forall m rc to', zlen to' = zlen buf -> bytes to' ->
      safe Q m Talking (r ← (if rc =? -1 then mret (0, to') else mret (zlen buf, to')); run_io (k r))).
    { intros m rc to' Hl Hb'. destruct (rc =? -1); by apply IH, Hk. }
    split; [intros rc to' _ _; apply Hr|]. destruct n; [done|]. intros to' _. apply Hr.
  - destruct Hp as [Hb Hk]. split; [done|]. split; [done|]. intros rc _. destruct (rc =? -1); by apply IH.
Qed.

(** Code that only talks, and takes a send that is not complete for one that failed. *)
Fixpoint talks {A} (p : proc A) : Prop :=
  match p with
  | PRet _ | PCrash _ => True
  | PPop _ | PRecv _ _ _ => False
  | PSend from k => zlen from < 2 ^ 31 /\ (forall rc, rc <> zlen from -> k rc = k (-1)) /\ talks (k (zlen from)) /\ talks (k (-1))
  | PFin k => talks (k tt)
  | PStopped k => forall b, talks (k b)
  | PFinish k => talks (k tt)
  end.

Lemma talks_send {A} from (k : bool -> proc A) (n : Z) : zlen from < 2 ^ 31 -> 0 <= n -> zlen from = n ->
  talks (k true) -> talks (k false) -> talks (PSend from (fun rc => k (rc =? n))).
Proof.
  intros Hl Hn E Ht Hf. split; [done|]. rewrite E. split.
  - intros rc Hrc. replace (rc =? n) with false by lia. by replace (-1 =? n) with false by lia.
  - rewrite Z.eqb_refl. by replace (-1 =? n) with false by lia.
Qed.

Lemma talks_header {A} which size message mime (k : bool -> proc A) :
  0 <= which < 1000 -> 0 <= size < 2 ^ 63 -> zlen message <= 1000 -> zlen mime <= 1000 ->
  (forall b, talks (k b)) -> talks (ok ← send_http_header which size message mime; k ok).
Proof. intros Hw Hs Hm Hi Hk. apply (talks_send _ k); [by apply zlen_http_header|apply zlen_nonneg|done|apply Hk|apply Hk]. Qed.

Lemma talks_bind {A B} (p : proc A) (f : A -> proc B) : talks p -> (forall a, talks (f a)) -> talks (p ≫= f).
Proof.
  unfold mbind. intros Hp Hf. induction p as [a|e|k IH|to n k IH|from k IH|k IH|k IH|k IH]; cbn in *; auto.
  destruct Hp as (Hl & He & H1 & H2). split; [done|]. split; [|by auto]. intros rc Hrc. by rewrite (He rc Hrc).
Qed.

Ltac header := apply talks_header; [lia|lia|by vm_compute|by vm_compute|].

Lemma talks_request_line lines : talks (http_request_line lines).
Proof.
  destruct lines as [|line lines]; [done|]. unfold http_request_line.
  destruct (negb _); [by header|]. destruct (beq _ _); [|by header]. destruct (zlen line <? 4); [done|]. by destruct (find_sub _ _).
Qed.

Lemma talks_send_file fuel content size : talks (http_send_file fuel content size).
Proof.
  revert content size. induction fuel as [|f IH]; intros content size; cbn [http_send_file]; destruct (negb (size >? 0)) eqn:E0; try done; intros [|]; try done.
  cbn [mbind proc_bind pstopped]. destruct (Z.ltb_spec (zlen content) (Z.min size sizeof_buffer)); [done|].
  assert (L : zlen (take (Z.to_nat (Z.min size sizeof_buffer)) content) = Z.min size sizeof_buffer) by (rewrite zlen_take; unfold sizeof_buffer in *; lia).
  apply (talks_send _ (fun b => if negb b then _ else _)); [unfold sizeof_buffer in *; lia|unfold sizeof_buffer; lia|exact L|apply IH|done].
Qed.

Lemma talks_answer open_file url : files_ok open_file -> talks (http_answer open_file url).
Proof.
  intros Hf. unfold http_answer. destruct (zlen url =? 0); [by header|]. destruct (_ || _); [by header|].
  destruct (open_file _) as [fd|] eqn:Eo; [|by header]. destruct (f_size fd) as [size|] eqn:Es; [|by header].
  pose proof (Hf _ _ _ Eo Es) as Hs. apply talks_header; [lia|done|by vm_compute|apply zlen_mime_type|].
  intros [|]; [|done]. apply talks_bind; [apply talks_send_file|done].
Qed.

Lemma safe_over_tls {A} (Q : A -> phase -> Prop) ssl n m ph (p : proc A) : wolf_ok -> talks p ->
  safe (fun a _ ph' => Q a ph') n ph p -> safe (fun r _ ph' => Q r.1 ph') m ph (over_tls ssl p).
Proof.
  intros Hw. revert ssl n m ph. induction p as [a|e|k IH|to l k IH|from k IH|k IH|k IH|k IH]; intros ssl n m ph Ht Hs; cbn in Ht, Hs |- *; try done; eauto.
  - destruct Ht as (Hl & He & H1 & H2), Hs as (-> & _ & Hs). apply safe_bind.
    eapply safe_io; [by apply Hw|]. intros [rc ssl'] m'. cbn [fst snd]. destruct (decide (rc = zlen from)) as [->|Hne].
    + apply (IH _ _ n); [done|]. apply Hs. by left.
    + rewrite (He rc Hne). apply (IH _ _ n); [done|]. apply Hs. by right.
  - destruct Hs as [-> Hs]. split; [done|]. by eapply IH.
  - destruct Hs as [-> Hs]. split; [done|]. by eapply IH.
Qed.

Lemma safe_https_receive fuel ssl n buffer : wolf_ok -> zlen buffer + Z.of_nat fuel = 32769 ->
  safe (fun r _ ph => ended r.1 ph) n Talking (https_receive fuel ssl buffer).
Proof.
  intros Hw. revert ssl n buffer. induction fuel as [|f IH]; intros ssl n buffer Hl; cbn [https_receive].
  - by replace (zlen buffer >? 32768) with true by lia.
  - destruct (zlen buffer >? 32768); [done|]. apply safe_bind. eapply safe_io; [by apply Hw|]. intros [[rc c] ssl'] m. cbn [fst snd].
    destruct (negb (rc =? 1)); [done|]. destruct (find_sub _ _); [done|]. apply IH.
    rewrite zlen_app. change (zlen [c]) with 1. lia.
Qed.

Lemma safe_process_https open_file n : wolf_ok -> files_ok open_file ->
  safe (fun _ _ ph => ph = Finished) n Talking (process_https_request open_file).
Proof.
  intros Hw Hf. unfold process_https_request. apply safe_bind. eapply safe_mono; [|by apply safe_https_receive].
  intros [[buffer|] ssl] m ph _ Hr; cbn in Hr; subst; [|done]. apply safe_bind.
  eapply safe_mono; [|apply (safe_over_tls ended ssl 0 m Talking _ Hw); [apply talks_request_line|apply safe_request_line]].
  intros [[url|] ssl2] m2 ph _ Hr; cbn in Hr; subst; [|done]. apply safe_bind.
  eapply safe_mono; [|apply (safe_over_tls (fun _ ph => ph = Finished) ssl2 0 m2 Talking _ Hw); [by apply talks_answer|by apply safe_answer]].
  done.
Qed.

(** The code does not look at the chunks of the peer's bytes. *)
Lemma streaming_io {A B} (p : io A) (k : A -> proc B) : io_ok p -> (forall a, streaming (fun _ => True) (k a)) -> streaming (fun _ => True) (run_io p ≫= k).
Proof.
  intros Hp Hk. apply (streaming_bind (fun _ => True)); [|auto]. clear Hk. induction p as [a|buf k' IH|buf k' IH]; cbn in *; [done| |].
  - destruct Hp as (Hb & Bb & Hp). split; [lia|]. split; [done|]. intros to' Hl Hb'. destruct (zlen buf =? -1); by apply IH, Hp.
  - destruct Hp as [Hb Hp]. split; [done|]. intros rc. destruct (rc =? -1); by apply IH.
Qed.

Lemma streaming_over_tls {A} ssl (p : proc A) : wolf_ok -> talks p -> streaming (fun _ => True) (over_tls ssl p).
Proof.
  intros Hw. revert ssl. induction p as [a|e|k IH|to l k IH|from k IH|k IH|k IH|k IH]; intros ssl Ht; cbn in Ht |- *; try done; auto.
  destruct Ht as (Hl & He & H1 & H2). apply streaming_io; [by apply Hw|]. intros [rc ssl']. cbn [fst snd].
  destruct (decide (rc = zlen from)) as [->|Hne]; [by apply IH|]. rewrite (He rc Hne). by apply IH.
Qed.

Lemma streaming_https open_file : wolf_ok -> files_ok open_file -> streaming (fun _ => True) (process_https_request open_file).
Proof.
  intros Hw Hf. unfold process_https_request. apply (streaming_bind (fun _ => True)).
  - generalize (@wolfSSL_new S HS), (@nil Z). induction https_fuel as [|f IH]; intros ssl buffer; cbn [https_receive]; (destruct (zlen buffer >? 32768); [done|]); [done|].
    apply streaming_io; [by apply Hw|]. intros [[rc c] ssl']. destruct (negb (rc =? 1)); [done|]. by destruct (find_sub _ _).
  - intros [[buffer|] ssl] _; [|done]. apply (streaming_bind (fun _ => True)); [apply streaming_over_tls; [done|apply talks_request_line]|].
    intros [[url|] ssl2] _; [|done]. apply (streaming_bind (fun _ => True)); [|done]. apply streaming_over_tls; [done|by apply talks_answer].
Qed.

End Tls.

(** ** What is said *)

(** What code that only talks hands to [send_func] when all is sent, and its result. *)
Fixpoint said {A} (p : proc A) : list (list Z) * tres A :=
  match p with
  | PRet a => ([], Done a)
  | PCrash e => ([], Crash e)
  | PPop _ | PRecv _ _ _ => ([], Waits)
  | PSend from k => (from :: (said (k (zlen from))).1, (said (k (zlen from))).2)
  | PFin k => said (k tt)
  | PStopped k => said (k false)
  | PFinish k => said (k tt)
  end.

(** The data in a message of a session, [None] for a request to close. *)
Definition data_of (m : sent) : option (list Z) :=
  if beq (take 4 (drop 8 (sent_data m))) (le_bytes 4 0) then Some (drop 12 (sent_data m)) else None.

Lemma data_of_data out_name session_id (data : list (list Z)) : omap data_of (l7_sent out_name session_id 0 <$> data) = data.
Proof. induction data as [|d data IH]; [done|]. cbn [fmap list_fmap omap list_omap]. change (data_of (l7_sent out_name session_id 0 d)) with (Some d). by rewrite IH. Qed.

Lemma run_chunks_said {A} session_id out_name (p : proc A) cs (w : oracle) : talks p -> o_script w = [] ->
  exists w', run_chunks session_id out_name p cs w = ((said p).2, cs, w') /\ omap data_of (o_log w') = omap data_of (o_log w) ++ (said p).1.
Proof.
  revert w. induction p as [a|e|k IH|to l k IH|from k IH|k IH|k IH|k IH]; intros w Ht Hw; cbn in Ht; try done; cbn [run_chunks said].
  - exists w. by rewrite app_nil_r.
  - exists w. by rewrite app_nil_r.
  - destruct Ht as (Hl & He & H1 & H2). destruct (l7_send_log (fun w : oracle => o_script w = []) out_name session_id 0 from w oracle_succeeds Hw) as (E1 & E2 & E3).
    rewrite E1. destruct (IH _ _ H1 E2) as (w' & -> & E). exists w'. split; [done|]. rewrite E. cbn [t_log oracle_transport] in E3. rewrite E3, omap_app, <- app_assoc.
    done.
  - destruct (l7_send_log (fun w : oracle => o_script w = []) out_name session_id 1 [] w oracle_succeeds Hw) as (E1 & E2 & E3).
    destruct (IH tt _ Ht E2) as (w' & -> & E). exists w'. split; [done|]. rewrite E. cbn [t_log oracle_transport] in E3. rewrite E3, omap_app.
    change (omap data_of [l7_sent out_name session_id 1 []]) with (@nil (list Z)). by rewrite app_nil_r.
  - by apply IH.
  - by apply IH.
Qed.

Lemma said_answer open_file url : files_ok open_file -> url <> [] -> contains (str "..") url = false -> contains (str "~") url = false ->
  (forall path fd size, open_file path = Some fd -> f_size fd = Some size -> zlen (f_content fd) = size) ->
  said (http_answer open_file url) = (http_reply open_file url, Done tt).
Proof.
  intros Hf Hu Hd Ht Hs. destruct (run_chunks_said 0 [] (http_answer open_file url) [] oracle_ok (talks_answer open_file url Hf) eq_refl) as (w1 & E1 & L1).
  destruct (run_answer (fun w : oracle => o_script w = []) oracle_succeeds 0 [] open_file url [] oracle_ok eq_refl Hu Hd Ht Hs) as (w2 & E2 & _ & L2).
  rewrite E1 in E2. injection E2 as E2 <-. cbn [t_log oracle_transport o_log oracle_ok app] in L2. rewrite L2 in L1. cbn [o_log oracle_ok omap list_omap app] in L1.
  rewrite omap_app, data_of_data in L1. change (omap data_of [l7_sent [] 0 1 []]) with (@nil (list Z)) in L1. rewrite app_nil_r in L1.
  rewrite L1, <- E2. by destruct (said _).
Qed.

(** ** A connection under TLS *)

Section Channel.
Context {W S : Type} {HT : Transport W} {HS : WolfSSL S} (session_id : Z) (out_name : list Z).

(** [R ssl i w plain out]: with the bytes [i] of the peer still to come, [plain] is what reading gives, and [out] is what was
    written so far. *)
Record tls_channel (R : S -> list Z -> W -> list Z -> list (list Z) -> Prop) : Prop := {
  ch_read : forall ssl i w c plain out, R ssl i w (c :: plain) out ->
    exists ssl' i' w', run_stream session_id out_name (run_io (wolfSSL_read ssl)) i w = (Done (1, c, ssl'), i', w') /\ R ssl' i' w' plain out;
  ch_write : forall ssl i w plain out b, R ssl i w plain out -> zlen b < 2 ^ 31 ->
    exists ssl' i' w', run_stream session_id out_name (run_io (wolfSSL_write ssl b)) i w = (Done (zlen b, ssl'), i', w') /\ R ssl' i' w' plain (out ++ [b]);
  ch_fin : forall ssl i w plain out, R ssl i w plain out -> R ssl i (t_send out_name (l7_message session_id 1 []) true w).2 plain out }.

Context (R : S -> list Z -> W -> list Z -> list (list Z) -> Prop) (HR : tls_channel R).

Lemma run_over_tls {A} (p : proc A) ssl i w plain out : talks p -> R ssl i w plain out ->
  exists ssl' i' w', run_stream session_id out_name (over_tls ssl p) i w =
    (match (said p).2 with Done a => Done (a, ssl') | Waits => Waits | Crash e => Crash e end, i', w') /\ R ssl' i' w' plain (out ++ (said p).1).
Proof.
  revert ssl i w out. induction p as [a|e|k IH|to l k IH|from k IH|k IH|k IH|k IH]; intros ssl i w out Ht H; cbn in Ht; try done; cbn [over_tls said run_stream].
  - exists ssl, i, w. by rewrite app_nil_r.
  - exists ssl, i, w. by rewrite app_nil_r.
  - destruct Ht as (Hl & He & H1 & H2). rewrite run_stream_bind. destruct (ch_write R HR ssl i w plain out from H Hl) as (ssl1 & i1 & w1 & -> & Hr).
    destruct (IH (zlen from) ssl1 i1 w1 (out ++ [from]) H1 Hr) as (ssl2 & i2 & w2 & E & Hr2). exists ssl2, i2, w2.
    cbn [fst snd]. rewrite <- app_assoc in Hr2. done.
  - apply IH; [done|]. by apply ch_fin.
  - by apply IH.
  - by apply IH.
Qed.

Lemma run_https_receive fuel ssl buffer rest more i w out : rest <> [] -> (length rest <= fuel)%nat -> zlen buffer + zlen rest <= 32769 ->
  contains (CRLF ++ CRLF) (buffer ++ rest) = true ->
  (forall n, (n < length rest)%nat -> contains (CRLF ++ CRLF) (buffer ++ take n rest) = false) -> R ssl i w (rest ++ more) out ->
  exists ssl' i' w', run_stream session_id out_name (https_receive fuel ssl buffer) i w = (Done (Some (buffer ++ rest), ssl'), i', w') /\ R ssl' i' w' more out.
Proof.
  revert fuel ssl buffer i w. induction rest as [|c rest IH]; intros [|f] ssl buffer i w Hn Hf Hl Hc Hi H; try done; [cbn in Hf; lia|].
  rewrite zlen_cons in Hl. pose proof (zlen_nonneg rest). cbn [https_receive]. replace (zlen buffer >? 32768) with false by lia. rewrite run_stream_bind.
  destruct (ch_read R HR ssl i w c (rest ++ more) out H) as (ssl1 & i1 & w1 & -> & H1). change (negb (1 =? 1)) with false. cbn iota beta.
  assert (Eb : buffer ++ c :: rest = (buffer ++ [c]) ++ rest) by (by rewrite <- app_assoc). destruct rest as [|c2 rest].
  - unfold contains in Hc. destruct (find_sub _ (buffer ++ [c])); [|done]. exists ssl1, i1, w1. done.
  - pose proof (Hi 1%nat ltac:(cbn; lia)) as H1c. cbn [take] in H1c. unfold contains in H1c. destruct (find_sub _ (buffer ++ [c])); [done|].
    rewrite Eb in *. apply IH; [done|cbn in *; lia|rewrite zlen_app; change (zlen [c]) with 1; lia|done| |exact H1].
    intros n Hlt. rewrite <- app_assoc. exact (Hi (Datatypes.S n) ltac:(cbn in *; lia)).
Qed.

End Channel.

(** When the session is stopped the library is told that its buffer was filled, with what was in it before. *)
Lemma tls_receive_stopped `{Transport W} session_id out_name (buf : list Z) (s : l7 W) : 0 < zlen buf -> flagged s = true ->
  run_thread session_id out_name (my_wolfssl_receive buf) s = (Done (zlen buf, buf), tick s).
Proof.
  intros Hl Hs. unfold my_wolfssl_receive, precv. cbn [mbind proc_bind run_thread]. unfold mbind, thread_bind, recv_func.
  replace (zlen buf =? 0) with false by lia. rewrite recv_loop_unfold by lia. destruct (tick_later s) as (L & _). rewrite (lt_flagged _ _ L Hs).
  cbn [fst snd]. done.
Qed.

(** ** Properties *)

(** Whatever wolfSSL does in its calls, and whatever the peer, the session's other threads and the queues do: the thread
    of an HTTPS session ends in no fault; what it sends is data of its session and then at most one request to close it,
    and when it ends, [finished] is set.  The loop over the request needs no bound from outside. *)
Theorem https_session_ends `{Transport W} {SSL} `{WolfSSL SSL} (open_file : list Z -> option file) (session_id : Z) (out_name : list Z) (s : l7 W)
  (Hw : wolf_ok (S := SSL)) (Hf : files_ok open_file) (Hb : bytes (stream s)) (Hn : l_finished s = false) :
  let '(r, s') := run_thread session_id out_name (process_https_request (S := SSL) open_file) s in
  exists data fin,
    t_log (l_world s') = t_log (l_world s) ++ (l7_sent out_name session_id 0 <$> data) ++ fin /\
    (fin = [] \/ fin = [l7_sent out_name session_id 1 []]) /\
    match r with
    | Done _ => l_finished s' = true
    | Waits => True
    | Crash _ => False
    end.
Proof.
  apply (run_thread_ends _ (budget s)); [by apply safe_process_https|done..].
Qed.

(** C30: through any TLS channel a complete GET request is answered with the same header and the same pieces of the file
    as without TLS, all of them written and nothing else, and what the peer sent behind the request stays unread. *)
Theorem https_serves `{Transport W} {SSL} `{WolfSSL SSL} (R : SSL -> list Z -> W -> list Z -> list (list Z) -> Prop)
  (open_file : list Z -> option file) (session_id : Z) (out_name : list Z) (url version rest more : list Z) (s : l7 W)
  (HR : tls_channel session_id out_name R) (Hwolf : wolf_ok (S := SSL)) (Hf : files_ok open_file)
  (Hsize : forall path fd size, open_file path = Some fd -> f_size fd = Some size -> zlen (f_content fd) = size)
  (Hs : will_stop s = false) (Hb : bytes (stream s)) :
  let request := str "GET " ++ url ++ str " " ++ version ++ CRLF ++ rest in
  zlen request <= 32769 -> contains (CRLF ++ CRLF) request = true ->
  (forall n, (n < length request)%nat -> contains (CRLF ++ CRLF) (take n request) = false) ->
  url <> [] /\ 32 ∉ url /\ 13 ∉ url /\ contains (str "..") url = false /\ contains (str "~") url = false ->
  32 ∉ version /\ 13 ∉ version ->
  R wolfSSL_new (stream s) (l_world s) (request ++ more) [] ->
  exists s' ssl, run_thread session_id out_name (process_https_request (S := SSL) open_file) s = (Done tt, s') /\
    R ssl (stream s') (l_world s') more (http_reply open_file url).
Proof.
  intros request Hl Hc Hi (Un & Us & Uc & Ud & Ut) [Vs Vc] HR0.
  pose proof (run_thread_stream session_id out_name (process_https_request (S := SSL) open_file) s (streaming_https open_file Hwolf Hf) Hs Hb) as Hrun.
  unfold process_https_request in Hrun at 1. rewrite run_stream_bind in Hrun.
  destruct (run_https_receive session_id out_name R HR https_fuel wolfSSL_new [] request more (stream s) (l_world s) []) as (ssl1 & i1 & w1 & E1 & R1); try done.
  { unfold https_fuel, zlen in *. lia. }
  rewrite E1 in Hrun. cbn [app] in Hrun. unfold request in Hrun at 1. rewrite request_line_get in Hrun by done.
  cbn [over_tls mret proc_ret mbind proc_bind] in Hrun. rewrite run_stream_bind in Hrun.
  destruct (run_over_tls session_id out_name R HR (http_answer open_file url) ssl1 i1 w1 more [] (talks_answer open_file url Hf) R1) as (ssl2 & i2 & w2 & E2 & R2).
  rewrite E2, (said_answer open_file url Hf Un Ud Ut Hsize) in Hrun. cbn [snd run_stream] in Hrun.
  rewrite (said_answer open_file url Hf Un Ud Ut Hsize) in R2. destruct Hrun as (s' & E & Ew & _ & Ei).
  exists s', ssl2. split; [exact E|]. rewrite Ew, Ei by done. exact R2.
Qed.

(** ** Examples *)

(** A toy for a library: a handshake before the first byte, and records of one byte with a bit flipped. *)
Definition flip : list Z -> list Z := map (fun b => Z.lxor b 1).

Lemma flip_flip l : flip (flip l) = l.
Proof. unfold flip. rewrite map_map. rewrite <- (map_id l) at 2. apply map_ext. intros b. by rewrite Z.lxor_assoc, Z.lxor_nilpotent, Z.lxor_0_r. Qed.

Lemma zlen_flip l : zlen (flip l) = zlen l.
Proof. unfold flip, zlen. by rewrite length_map. Qed.

Definition toy_get : io (Z * Z * bool) := IoRecv [0] (fun r => IoRet (r.1, Z.lxor (nth 0 r.2 0) 1, true)).
Definition toy_put (b : list Z) : io (Z * bool) := IoSend (flip b) (fun rc => IoRet (rc, true)).

#[local] Instance toy : WolfSSL bool := {|
  wolfSSL_new := false;
  wolfSSL_read := fun ssl => if ssl then toy_get else IoSend [22] (fun _ => toy_get);
  wolfSSL_write := fun ssl b => if ssl then toy_put b else IoSend [22] (fun _ => toy_put b) |}.

Definition toy_channel (ssl : bool) (i : list Z) (w : oracle) (plain : list Z) (out : list (list Z)) : Prop :=
  o_script w = [] /\ i = flip plain /\ omap data_of (o_log w) = (if ssl then [[22]] else []) ++ map flip out /\ (ssl = false -> out = []).

Lemma toy_ok : wolf_ok (S := bool).
Proof.
  assert (Hg : io_ok toy_get) by (split; [split; reflexivity|]; split; [constructor; [unfold is_byte; lia|constructor]|done]).
  intros ssl. split; [by destruct ssl|]. intros b Hb. assert (io_ok (toy_put b)) by (split; [by rewrite zlen_flip|done]). by destruct ssl.
Qed.

Lemma oracle_data session_id out_name flags pl (w : oracle) : o_script w = [] ->
  let r := t_send out_name (l7_message session_id flags pl) true w in
  r.1.1 = true /\ o_script r.2 = [] /\ o_log r.2 = o_log w ++ [l7_sent out_name session_id flags pl].
Proof. intros Hw. exact (l7_send_log (fun w : oracle => o_script w = []) out_name session_id flags pl w oracle_succeeds Hw). Qed.

(** A byte sent, and a byte received, by the library. *)
Lemma run_io_send {A} session_id out_name b (k : Z -> io A) i (w : oracle) : o_script w = [] ->
  run_stream session_id out_name (run_io (IoSend b k)) i w =
  run_stream session_id out_name (run_io (k (zlen b))) i (t_send out_name (l7_message session_id 0 b) true w).2.
Proof.
  intros Hw. destruct (oracle_data session_id out_name 0 b w Hw) as (E1 & _). cbn [run_io]. unfold my_wolfssl_send, psend.
  cbn [mbind proc_bind run_stream]. rewrite E1. pose proof (zlen_nonneg b). by replace (zlen b =? -1) with false by lia.
Qed.

Lemma toy_get_run session_id out_name c plain (w : oracle) :
  run_stream session_id out_name (run_io toy_get) (flip (c :: plain)) w = (Done (1, c, true), flip plain, w).
Proof.
  assert (Hc : Z.lxor (Z.lxor c 1) 1 = c) by (by rewrite Z.lxor_assoc, Z.lxor_nilpotent, Z.lxor_0_r).
  cbn [toy_get run_io]. unfold my_wolfssl_receive, precv. cbn [mbind proc_bind run_stream]. change (zlen [0]) with 1.
  change (flip (c :: plain)) with (Z.lxor c 1 :: flip plain). rewrite zlen_cons. pose proof (zlen_nonneg (flip plain)).
  replace (1 <=? 1 + zlen (flip plain)) with true by lia. change (splice [0] 0 (take (Z.to_nat 1) (Z.lxor c 1 :: flip plain))) with [Z.lxor c 1].
  cbn [fst snd nth]. change (1 =? -1) with false. cbn iota. cbn [mret proc_ret mbind proc_bind run_io run_stream fst snd nth]. by rewrite Hc.
Qed.

Lemma toy_is_channel session_id out_name : tls_channel session_id out_name toy_channel.
Proof.
  split.
  - intros ssl i w c plain out (Hw & -> & Hl & Ho). destruct ssl.
    + exists true, (flip plain), w. split; [apply toy_get_run|done].
    + destruct (oracle_data session_id out_name 0 [22] w Hw) as (_ & E2 & E3). exists true, (flip plain), (t_send out_name (l7_message session_id 0 [22]) true w).2.
      cbn [wolfSSL_read toy]. rewrite run_io_send by done. split; [apply toy_get_run|]. split; [exact E2|]. split; [done|]. split; [|done].
      rewrite E3, omap_app, Hl, (Ho eq_refl). done.
  - intros ssl i w plain out b (Hw & -> & Hl & Ho) Hb.
    assert (Hput : forall w : oracle, o_script w = [] -> run_stream session_id out_name (run_io (toy_put b)) (flip plain) w =
      (Done (zlen b, true), flip plain, (t_send out_name (l7_message session_id 0 (flip b)) true w).2)).
    { intros w' Hw'. unfold toy_put. rewrite run_io_send by done. by rewrite zlen_flip. }
    destruct ssl.
    + destruct (oracle_data session_id out_name 0 (flip b) w Hw) as (_ & E2 & E3). eexists true, (flip plain), _.
      split; [by apply Hput|]. split; [exact E2|]. split; [done|]. split; [|done]. rewrite E3, omap_app, Hl, map_app. done.
    + destruct (oracle_data session_id out_name 0 [22] w Hw) as (_ & E2 & E3).
      destruct (oracle_data session_id out_name 0 (flip b) _ E2) as (_ & E4 & E5). eexists true, (flip plain), _.
      cbn [wolfSSL_write toy]. rewrite run_io_send by done. split; [by apply Hput|]. split; [exact E4|]. split; [done|]. split; [|done].
      rewrite E5, E3, !omap_app, Hl, (Ho eq_refl). done.
  - intros ssl i w plain out (Hw & -> & Hl & Ho). destruct (oracle_data session_id out_name 1 [] w Hw) as (_ & E2 & E3).
    split; [exact E2|]. split; [done|]. split; [|done]. rewrite E3, omap_app, Hl. change (omap data_of _) with (@nil (list Z)) at 1. by rewrite app_nil_r.
Qed.

Definition ex_https_request : list Z := str "GET " ++ str "/" ++ str " " ++ str "HTTP/1.0" ++ CRLF ++ str "Host: x" ++ CRLF ++ CRLF.

(** The request in two chunks, and a byte behind it. *)
Definition ex_https : l7 oracle :=
  L7 [flip (take 20 ex_https_request)] false false false [[]; [EvPush (flip (drop 20 ex_https_request ++ [7]))]] oracle_ok.

Lemma https_serves_witness :
  exists s' ssl, run_thread 7 (str "tcp") (process_https_request (S := bool) ex_files) ex_https = (Done tt, s') /\
    toy_channel ssl (stream s') (l_world s') [7] [http_header 200 5 (str "OK!") (str "text/html"); str "hello"].
Proof.
  apply (https_serves toy_channel ex_files 7 (str "tcp") (str "/") (str "HTTP/1.0") (str "Host: x" ++ CRLF ++ CRLF) [7] ex_https (toy_is_channel _ _) toy_ok ex_files_ok).
  - intros path fd size. unfold ex_files. destruct (beq _ _); [|discriminate]. intros [= <-] [= <-]. reflexivity.
  - reflexivity.
  - concrete_bytes.
  - vm_compute. discriminate.
  - reflexivity.
  - intros n Hn. do 27 (destruct n as [|n]; [reflexivity|]). cbn in Hn. lia.
  - split; [discriminate|]. split; [by apply str_no_char|]. split; [by apply str_no_char|]. split; reflexivity.
  - split; by apply str_no_char.
  - split; [reflexivity|]. split; [reflexivity|]. split; reflexivity.
Defined.

Lemma https_session_ends_witness :
  match run_thread 7 (str "tcp") (process_https_request (S := bool) ex_files) ex_https with
  | (Done _, s') => l_finished s' = true
  | _ => False
  end.
Proof.
  pose proof (https_session_ends (SSL := bool) ex_files 7 (str "tcp") ex_https toy_ok ex_files_ok ltac:(concrete_bytes) eq_refl) as H.
  destruct (run_thread 7 (str "tcp") (process_https_request (S := bool) ex_files) ex_https) as [[u| |e] s'] eqn:E.
  - destruct H as (data & fin & _ & _ & H). exact H.
  - vm_compute in E. discriminate E.
  - destruct H as (data & fin & _ & _ & []).
Defined.
