(* ===== verification/Gopher.v ===== *)
(** * Gopher: [src/gopher_server.cpp]

    The thread of a session: one line names a file or directory below
    [base_path]; the file, or the menu of the directory, is the answer.  What
    [realpath], [stat], [open]/[read] and [opendir]/[readdir] give for a path is a
    parameter.  Sessions are in [L7Sessions]. *)

From S2P Require Import Prelude Str ShmMessage Transport L7 L7Safe.

(** ** Code *)

(** [d_type] of a directory entry. *)
Inductive d_type : Set := DT_DIR | DT_REG | DT_LNK | DT_OTHER.

Record dirent := { d_name : list Z; d_kind : d_type }.

Record stat_t := { st_mode : Z; st_size : Z }.

Definition S_IFDIR : Z := 0x4000.
Definition S_IFREG : Z := 0x8000.

Definition tab : list Z := [9].

(** The extension [send_menu] looks at, with its dot. *)
Definition menu_ext (name : list Z) : list Z :=
  if zlen name >=? 4 then
    match rfind 46 name with
    | Some dot => drop dot name
    | None => []
    end
  else [].

(** The part of the menu for one entry. *)
Definition menu_line (rel_path hostname : list Z) (allow_parent_dir : bool) (entry : dirent) : list Z :=
  let name := d_name entry in
  if (beq name (str ".") || beq name (str "..")) && negb allow_parent_dir then [] else
  let ext := menu_ext name in
  match d_kind entry with
  | DT_DIR => str "1" ++ rel_path ++ str "/" ++ name
  | DT_REG | DT_LNK =>
    let type :=
      if beq ext (str ".txt") || beq ext (str ".html") || beq ext (str ".htm") then 48
      else if beq ext (str ".png") || beq ext (str ".jpg") || beq ext (str ".jpeg") then 73
      else if beq ext (str ".gif") then 103
      else 57 in
    [type] ++ name ++ tab ++ rel_path ++ str "/" ++ name ++ tab ++ hostname ++ tab ++ str "70" ++ [13; 10]
  | DT_OTHER => []
  end.

(** The document [send_menu] sends; [dir] is [None] when [opendir] fails. *)
Definition menu_doc (dir : option (list dirent)) (rel_path hostname : list Z) (allow_parent_dir : bool) : list Z :=
  let doc := concat (map (menu_line rel_path hostname allow_parent_dir) (default [] dir)) in
  if zlen doc =? 0 then str "3666" ++ [13; 10] else doc.

Section Gopher.
Variable realpath : list Z -> option (list Z).
Variable stat : list Z -> option stat_t.
Variable open_file : list Z -> option (list Z).
Variable opendir : list Z -> option (list dirent).
Variables base_path hostname : list Z.

Definition send_menu (rel_path : list Z) (allow_parent_dir : bool) : proc unit :=
  _ ← psend (menu_doc (opendir (c_str (base_path ++ rel_path))) rel_path hostname allow_parent_dir);
  mret tt.

Fixpoint gopher_receive (fuel : nat) (recv_buffer : list Z) : proc (list Z) :=
  match fuel with
  | O => PCrash Diverges
  | S f =>
    incoming ← ppop;
    let recv_buffer := recv_buffer ++ incoming in
    if contains [13; 10] recv_buffer then mret recv_buffer else gopher_receive f recv_buffer
  end.

(** The loop that sends a file; it does not look at the stop flags. *)
Fixpoint gopher_send_file (fuel : nat) (content : list Z) (length : Z) : proc unit :=
  if negb (length >? 0) then mret tt else
  match fuel with
  | O => PCrash Diverges
  | S f =>
    let chunk_size := Z.min length sizeof_buffer in
    if zlen content <? chunk_size then mret tt else
    let n := Z.to_nat chunk_size in
    rc ← psend (take n content);
    if negb (rc =? chunk_size) then mret tt
    else gopher_send_file f (drop n content) (length - chunk_size)
  end.

(** The answer to the line [recv_buffer]. *)
Definition gopher_answer (recv_buffer : list Z) : proc unit :=
  if zlen recv_buffer =? 0 then send_menu [] false
  else
    let combined := base_path ++ str "/" ++ recv_buffer in
    let path := default [] (realpath (c_str combined)) in
    if negb (beq (take (length base_path) path) base_path) then mret tt
    else match stat path with
    | None => mret tt
    | Some st =>
      let sub_path := drop (length base_path) path in
      if negb (Z.land (st_mode st) S_IFDIR =? 0) then send_menu sub_path true
      else if negb (Z.land (st_mode st) S_IFREG =? 0) then
        match open_file path with
        | None => mret tt
        | Some content => gopher_send_file (S (Z.to_nat (st_size st / sizeof_buffer))) content (st_size st)
        end
      else mret tt
    end.

Definition process_gopher_request (fuel : nat) : proc unit :=
  recv_buffer ← gopher_receive fuel [];
  let size := length recv_buffer in
  _ ← gopher_answer (take (size - 2) recv_buffer);
  _ ← pfin;
  pfinish.

(** ** Lemmas *)

(** Documented behaviour of the file system: sizes are not negative, and no
    menu reaches 2^31 bytes. *)
Definition gopher_files_ok : Prop :=
  (forall path st, stat path = Some st -> 0 <= st_size st < 2 ^ 63) /\
  (forall path rel allow, zlen (menu_doc (opendir path) rel hostname allow) < 2 ^ 31).

Lemma gopher_safe_send_file fuel content size n : size <= 4096 * Z.of_nat fuel ->
  safe (fun _ _ ph => ph = Talking) n Talking (gopher_send_file fuel content size).
Proof.
  revert content size. induction fuel as [|f IH]; intros content size Hs; cbn [gopher_send_file].
  - by replace (negb (size >? 0)) with true by lia.
  - destruct (negb (size >? 0)) eqn:E0; [done|]. unfold sizeof_buffer.
    destruct (Z.ltb_spec (zlen content) (Z.min size 4096)); [done|]. split; [done|].
    split; [rewrite zlen_take; lia|]. intros rc _. cbn [proc_bind]. destruct (negb (rc =? Z.min size 4096)); [done|]. apply IH. lia.
Qed.

Lemma gopher_safe_answer line n : gopher_files_ok -> safe (fun _ _ ph => ph = Talking) n Talking (gopher_answer line).
Proof.
  intros [Hst Hm]. unfold gopher_answer. destruct (zlen line =? 0); [by repeat split|].
  destruct (negb _); [done|]. destruct (stat _) as [st|] eqn:Es; [|done]. destruct (negb _); [by repeat split|].
  destruct (negb _); [|done]. destruct (open_file _); [|done]. apply gopher_safe_send_file. pose proof (Hst _ _ Es).
  unfold sizeof_buffer. pose proof (Z_div_mod_eq_full (st_size st) 4096). pose proof (Z.mod_pos_bound (st_size st) 4096).
  assert (0 <= st_size st / 4096) by (apply Z.div_pos; lia). lia.
Qed.

Lemma gopher_safe_process fuel n : gopher_files_ok -> (n < fuel)%nat ->
  safe (fun _ _ ph => ph = Finished) n Talking (process_gopher_request fuel).
Proof.
  intros Hf Hn. unfold process_gopher_request. apply safe_bind. apply (safe_mono (fun _ _ ph => ph = Talking)).
  - intros buffer m ph _ ->. apply safe_bind. eapply safe_mono; [|by apply gopher_safe_answer]. intros [] m' ph _ ->. done.
  - generalize (@nil Z). revert n Hn. induction fuel as [|f IH]; intros n Hn buffer; [lia|]. cbn.
    destruct n as [|n]; [done|]. intros c _. destruct (contains _ _); [done|]. apply IH. lia.
Qed.

Lemma gopher_chunking fuel : gopher_files_ok -> chunking (process_gopher_request fuel).
Proof.
  intros [Hst Hm]. apply chunking_bind.
  - generalize (@nil Z). induction fuel as [|f IH]; intros buffer; cbn; [done|]. intros c. by destruct (contains _ _).
  - intros buffer. apply chunking_bind; [|done]. unfold gopher_answer. destruct (_ =? 0); [by split|]. destruct (negb _); [done|].
    destruct (stat _) as [st|]; [|done]. destruct (negb _); [by split|]. destruct (negb _); [|done]. destruct (open_file _) as [content|]; [|done].
    generalize (st_size st) (S (Z.to_nat (st_size st / sizeof_buffer))) content. clear. intros size fuel. revert size.
    induction fuel as [|f IH]; intros size content; cbn [gopher_send_file]; (destruct (negb (size >? 0)); [done|]); [done|].
    destruct (zlen content <? Z.min size sizeof_buffer); [done|]. split; [rewrite zlen_take; unfold sizeof_buffer; lia|].
    intros rc. cbn [proc_bind]. destruct (negb (rc =? Z.min size sizeof_buffer)); [exact I|apply IH].
Qed.

(** What is sent for a line. *)
Definition gopher_reply (line : list Z) : list (list Z) :=
  if zlen line =? 0 then [menu_doc (opendir (c_str base_path)) [] hostname false]
  else
    match realpath (c_str (base_path ++ str "/" ++ line)) with
    | Some path =>
      if has_prefix base_path path then
        match stat path with
        | None => []
        | Some st =>
          let sub_path := drop (length base_path) path in
          if negb (Z.land (st_mode st) S_IFDIR =? 0) then [menu_doc (opendir (c_str (base_path ++ sub_path))) sub_path hostname true]
          else if negb (Z.land (st_mode st) S_IFREG =? 0) then default [] (pieces <$> open_file path)
          else []
        end
      else []
    | None => []
    end.

End Gopher.

(** A request that is complete with its last chunk. *)
Definition line_in (line : list Z) (cs : list (list Z)) : Prop :=
  concat cs = line ++ [13; 10] /\ forall i, (i < length cs)%nat -> contains [13; 10] (concat (take i cs)) = false.

Lemma has_prefix_take pat s : has_prefix pat s = beq (take (length pat) s) pat.
Proof.
  revert s. induction pat as [|c pat IH]; intros [|x s]; try done. cbn [has_prefix length take]. rewrite IH. unfold beq.
  destruct (Z.eqb_spec c x) as [->|]; cbn [andb].
  - apply bool_decide_ext. split; [by intros ->|congruence].
  - symmetry. apply bool_decide_eq_false_2. congruence.
Qed.

Lemma contains_app_r pat p : contains pat (p ++ pat) = true.
Proof.
  unfold contains. induction p as [|x p IH].
  - cbn [app]. pose proof (has_prefix_refl pat []) as Hp. rewrite app_nil_r in Hp. destruct pat; [done|]. unfold find_sub. by rewrite Hp.
  - cbn [app find_sub]. destruct (has_prefix pat (x :: p ++ pat)); [done|]. by destruct (find_sub pat (p ++ pat)).
Qed.

Section Run.
Context `{Transport W} (P : W -> Prop) (HP : sends_succeed P) (session_id : Z) (out_name : list Z).

Notation data := (l7_sent out_name session_id 0).
Notation bye := (l7_sent out_name session_id 1 []).

Lemma gopher_run_send_file fuel content cs w : P w -> zlen content <= 4096 * Z.of_nat fuel ->
  exists w', run_chunks session_id out_name (gopher_send_file fuel content (zlen content)) cs w = (Done tt, cs, w') /\ P w' /\
    t_log w' = t_log w ++ (data <$> pieces content).
Proof.
  revert content w. induction fuel as [|f IH]; intros content w Hw Hl.
  - assert (content = []) as -> by (destruct content; [done|unfold zlen in Hl; cbn in Hl; lia]). exists w. by rewrite app_nil_r.
  - destruct content as [|x content]; [exists w; by rewrite app_nil_r|]. set (c := x :: content) in *.
    assert (Hc : 0 < zlen c) by (unfold zlen, c; cbn [length]; lia). cbn [gopher_send_file].
    replace (negb (zlen c >? 0)) with false by lia.
    replace (zlen c <? Z.min (zlen c) sizeof_buffer) with false by lia. cbn [mbind proc_bind psend run_chunks].
    set (n := Z.to_nat (Z.min (zlen c) sizeof_buffer)).
    assert (Hn : 0 <= Z.min (zlen c) sizeof_buffer) by (unfold sizeof_buffer; lia).
    destruct (l7_send_log P out_name session_id 0 (take n c) w HP Hw) as (H1 & H2 & H3).
    rewrite H1. assert (Ht : zlen (take n c) = Z.min (zlen c) sizeof_buffer) by (rewrite zlen_take; unfold n; lia). rewrite Ht, Z.eqb_refl. cbn [negb].
    assert (Hd : zlen (drop n c) = zlen c - Z.min (zlen c) sizeof_buffer) by (rewrite zlen_drop; unfold n; lia). rewrite <- Hd.
    destruct (IH (drop n c) _ H2 ltac:(unfold sizeof_buffer in *; lia)) as (w' & E & Hw' & Hlog). exists w'. split; [exact E|]. split; [done|].
    rewrite Hlog, H3, <- app_assoc. f_equal. rewrite (pieces_cons c) by done. cbn [fmap list_fmap app].
    destruct (piece_cut c) as [<- <-]. done.
Qed.

Lemma gopher_run_receive fuel before cs more w : (length cs <= fuel)%nat ->
  contains [13; 10] (before ++ concat cs) = true -> cs <> [] ->
  (forall i, (i < length cs)%nat -> contains [13; 10] (before ++ concat (take i cs)) = false) ->
  run_chunks session_id out_name (gopher_receive fuel before) (cs ++ more) w = (Done (before ++ concat cs), more, w).
Proof.
  revert fuel before. induction cs as [|c cs IH]; intros [|f] before Hf Hc Hn Hi; try done; [cbn in Hf; lia|].
  cbn [gopher_receive mbind proc_bind ppop run_chunks app].
  destruct cs as [|c2 cs].
  - cbn [concat] in Hc |- *. rewrite app_nil_r in Hc |- *. by rewrite Hc.
  - pose proof (Hi 1%nat ltac:(cbn; lia)) as H1. cbn [take concat] in H1. rewrite app_nil_r in H1. rewrite H1.
    specialize (IH f (before ++ c)). rewrite <- app_assoc in IH. cbn [concat]. apply IH; [cbn in *; lia|exact Hc|done|].
    intros i Hlt. specialize (Hi (S i)). cbn in Hi. rewrite <- app_assoc. apply Hi. cbn in *. lia.
Qed.

Variable realpath : list Z -> option (list Z).
Variable stat : list Z -> option stat_t.
Variable open_file : list Z -> option (list Z).
Variable opendir : list Z -> option (list dirent).
Variables base_path hostname : list Z.

Lemma gopher_run_answer line cs w : P w -> base_path <> [] ->
  (forall path st content, stat path = Some st -> open_file path = Some content -> zlen content = st_size st) ->
  exists w', run_chunks session_id out_name (gopher_answer realpath stat open_file opendir base_path hostname line) cs w = (Done tt, cs, w') /\
    P w' /\ t_log w' = t_log w ++ (data <$> gopher_reply realpath stat open_file opendir base_path hostname line).
Proof.
  intros Hw Hbase Hf. unfold gopher_answer, gopher_reply.
  assert (Hmenu : forall rel allow, exists w', run_chunks session_id out_name (send_menu opendir base_path hostname rel allow) cs w = (Done tt, cs, w') /\
    P w' /\ t_log w' = t_log w ++ [data (menu_doc (opendir (c_str (base_path ++ rel))) rel hostname allow)]).
  { intros rel allow. unfold send_menu. cbn [mbind proc_bind psend run_chunks].
    destruct (l7_send_log P out_name session_id 0 (menu_doc (opendir (c_str (base_path ++ rel))) rel hostname allow) w HP Hw) as (H1 & H2 & H3). by eexists. }
  assert (Hnone : exists w', run_chunks session_id out_name (mret tt) cs w = (Done tt, cs, w') /\ P w' /\ t_log w' = t_log w ++ (data <$> [])).
  { exists w. by rewrite app_nil_r. }
  destruct (zlen line =? 0); [specialize (Hmenu [] false); by rewrite app_nil_r in Hmenu|].
  rewrite <- has_prefix_take. destruct (realpath _) as [path|]; cbn [from_option]; unfold id.
  2: { replace (negb (has_prefix base_path [])) with true by (by destruct base_path). exact Hnone. }
  destruct (has_prefix base_path path); [|exact Hnone]. cbn [negb]. destruct (stat path) as [st|] eqn:Es; [|exact Hnone].
  destruct (negb (_ =? 0)); [apply Hmenu|]. destruct (negb (_ =? 0)); [|exact Hnone].
  destruct (open_file path) as [content|] eqn:Eo; [|exact Hnone]. cbn [fmap option_fmap option_map from_option]. rewrite <- (Hf _ _ _ Es Eo).
  pose proof (zlen_nonneg content). apply gopher_run_send_file; [done|].
  unfold sizeof_buffer. pose proof (Z_div_mod_eq_full (zlen content) 4096). pose proof (Z.mod_pos_bound (zlen content) 4096).
  assert (0 <= zlen content / 4096) by (apply Z.div_pos; lia). lia.
Qed.

End Run.

(** ** Properties *)

(** C38: a complete line, however it was cut into chunks, is answered with the menu
    of the directory or the contents of the file it names below [base_path],
    or with nothing (no such path, or none of the two), and then the session is closed.
    "Below" is a comparison of strings: a file in a directory whose name merely begins like
    [base_path] is served, too. *)
Theorem gopher_serves `{Transport W} (P : W -> Prop) (realpath : list Z -> option (list Z)) (stat : list Z -> option stat_t)
  (open_file : list Z -> option (list Z)) (opendir : list Z -> option (list dirent)) (base_path hostname : list Z)
  (session_id : Z) (out_name : list Z) (fuel : nat) (line : list Z) (cs more : list (list Z)) (s : l7 W)
  (HP : sends_succeed P) (Hw : P (l_world s)) (Hok : gopher_files_ok stat opendir hostname) (Hbase : base_path <> [])
  (Hsize : forall path st content, stat path = Some st -> open_file path = Some content -> zlen content = st_size st)
  (Hs : will_stop s = false) (Hcs : chunks s = cs ++ more) (Hline : line_in line cs) (Hfuel : (length cs <= fuel)%nat) :
  exists s', run_thread session_id out_name (process_gopher_request realpath stat open_file opendir base_path hostname fuel) s = (Done tt, s') /\
    chunks s' = more /\
    t_log (l_world s') = t_log (l_world s)
      ++ (l7_sent out_name session_id 0 <$> gopher_reply realpath stat open_file opendir base_path hostname line)
      ++ [l7_sent out_name session_id 1 []].
Proof.
  destruct Hline as [Hc Hi]. assert (Hn : cs <> []) by (intros ->; by destruct line).
  pose proof (run_thread_chunks session_id out_name _ s (gopher_chunking realpath stat open_file opendir base_path hostname fuel Hok) Hs) as Hrun.
  rewrite Hcs in Hrun. unfold process_gopher_request in Hrun at 1. rewrite run_chunks_bind in Hrun.
  rewrite (gopher_run_receive session_id out_name fuel [] cs more) in Hrun by (exact Hfuel || exact Hn || exact Hi || (cbn [app]; rewrite Hc; apply contains_app_r)).
  cbn [app] in Hrun. rewrite Hc in Hrun. assert (El : take (length (line ++ [13; 10]) - 2) (line ++ [13; 10]) = line).
  { rewrite length_app. cbn [length]. replace (length line + 2 - 2)%nat with (length line) by lia. apply take_app_length. }
  rewrite El, run_chunks_bind in Hrun.
  destruct (gopher_run_answer P HP session_id out_name realpath stat open_file opendir base_path hostname line more (l_world s) Hw Hbase Hsize)
    as (w1 & E1 & Hw1 & Hl1). rewrite E1 in Hrun. cbn [mbind proc_bind pfin pfinish run_chunks] in Hrun.
  destruct (l7_send_log P out_name session_id 1 [] w1 HP Hw1) as (_ & _ & Hl2).
  destruct Hrun as (s' & E & Hw' & _ & Hm). exists s'. split; [done|]. split; [done|]. by rewrite Hw', Hl2, Hl1, app_assoc.
Qed.

(** Whatever the peer sends and whatever becomes of the messages sent, the
    thread of a Gopher session ends in no fault; it sends data of its session, then
    at most one request to close it and nothing after that; when it ends, [finished] is set. *)
Theorem gopher_session_ends `{Transport W} (realpath : list Z -> option (list Z)) (stat : list Z -> option stat_t)
  (open_file : list Z -> option (list Z)) (opendir : list Z -> option (list dirent)) (base_path hostname : list Z)
  (session_id : Z) (out_name : list Z) (fuel : nat) (s : l7 W)
  (Hok : gopher_files_ok stat opendir hostname) (Hfuel : (budget s < fuel)%nat) (Hb : bytes (stream s)) (Hn : l_finished s = false) :
  let '(r, s') := run_thread session_id out_name (process_gopher_request realpath stat open_file opendir base_path hostname fuel) s in
  exists data fin,
    t_log (l_world s') = t_log (l_world s) ++ (l7_sent out_name session_id 0 <$> data) ++ fin /\
    (fin = [] \/ fin = [l7_sent out_name session_id 1 []]) /\
    match r with
    | Done _ => l_finished s' = true
    | Waits => True
    | Crash _ => False
    end.
Proof.
  apply (run_thread_ends _ (budget s)); [by apply gopher_safe_process|done..].
Qed.

(** The server examines, opens and lists nothing but paths that begin with the string
    [base_path]: file systems that agree on those cannot be told apart. *)
Theorem gopher_confined `{Transport W} (realpath : list Z -> option (list Z)) (stat1 stat2 : list Z -> option stat_t)
  (open1 open2 : list Z -> option (list Z)) (opendir1 opendir2 : list Z -> option (list dirent)) (base_path hostname : list Z)
  (session_id : Z) (out_name : list Z) (fuel : nat) (s : l7 W) (Hbase : 0 ∉ base_path)
  (Heq : forall path, has_prefix base_path path = true -> stat1 path = stat2 path /\ open1 path = open2 path /\ opendir1 path = opendir2 path) :
  run_thread session_id out_name (process_gopher_request realpath stat1 open1 opendir1 base_path hostname fuel) s =
  run_thread session_id out_name (process_gopher_request realpath stat2 open2 opendir2 base_path hostname fuel) s.
Proof.
  unfold process_gopher_request. apply run_thread_bind_ext. intros buffer s1. do 2 f_equal. generalize (take (length buffer - 2) buffer) as line. intros line.
  assert (Hmenu : forall rel allow, send_menu opendir1 base_path hostname rel allow = send_menu opendir2 base_path hostname rel allow).
  { intros rel allow. unfold send_menu. rewrite c_str_app by done. by destruct (Heq (base_path ++ c_str rel) (has_prefix_refl _ _)) as (_ & _ & ->). }
  unfold gopher_answer. destruct (zlen line =? 0); [apply Hmenu|]. destruct (beq _ base_path) eqn:Eb; [|done]. cbn [negb].
  rewrite <- has_prefix_take in Eb. destruct (Heq _ Eb) as (-> & -> & _). by rewrite Hmenu.
Qed.

(** ** Examples: [base_path] is [/srv/g]; [/srv/g2/key] is not in it. *)

Definition ex_realpath (path : list Z) : option (list Z) :=
  if beq path (str "/srv/g/../g2/key") then Some (str "/srv/g2/key") else None.

Definition ex_stat (path : list Z) : option stat_t :=
  if beq path (str "/srv/g2/key") then Some {| st_mode := 0x81a4; st_size := 6 |} else None.

Definition ex_open (path : list Z) : option (list Z) := if beq path (str "/srv/g2/key") then Some (str "secret") else None.

Definition ex_opendir (path : list Z) : option (list dirent) := None.

Definition ex_gopher : l7 oracle := L7 [[]; str "../g2/key" ++ [13; 10]] false false false [] oracle_ok.

Lemma ex_gopher_files : gopher_files_ok ex_stat ex_opendir (str "host").
Proof.
  split; [|intros; vm_compute; reflexivity]. intros path st. unfold ex_stat. destruct (beq _ _); [|done]. intros [= <-]. cbn. lia.
Qed.

Lemma gopher_serves_witness :
  exists s', run_thread 3 (str "tcp") (process_gopher_request ex_realpath ex_stat ex_open ex_opendir (str "/srv/g") (str "host") 5) ex_gopher = (Done tt, s') /\
    t_log (l_world s') = [l7_sent (str "tcp") 3 0 (str "secret"); l7_sent (str "tcp") 3 1 []].
Proof.
  destruct (gopher_serves (fun w : oracle => o_script w = []) ex_realpath ex_stat ex_open ex_opendir (str "/srv/g") (str "host") 3 (str "tcp") 5
    (str "../g2/key") [[]; str "../g2/key" ++ [13; 10]] [] ex_gopher) as (s' & E & _ & Hl).
  - apply oracle_succeeds.
  - reflexivity.
  - apply ex_gopher_files.
  - discriminate.
  - intros path st content. unfold ex_stat, ex_open. destruct (beq _ _); [|discriminate]. intros [= <-] [= <-]. reflexivity.
  - reflexivity.
  - reflexivity.
  - split; [reflexivity|]. intros [|[|i]] Hi; [reflexivity|reflexivity|cbn in Hi; lia].
  - cbn. lia.
  - exists s'. split; [exact E|]. rewrite Hl. reflexivity.
Defined.

Lemma gopher_session_ends_witness :
  match run_thread 3 (str "tcp") (process_gopher_request ex_realpath ex_stat ex_open ex_opendir (str "/srv/g") (str "host") 50) ex_gopher with
  | (Done _, s') => l_finished s' = true
  | _ => False
  end.
Proof.
  pose proof (gopher_session_ends ex_realpath ex_stat ex_open ex_opendir (str "/srv/g") (str "host") 3 (str "tcp") 50 ex_gopher ex_gopher_files) as H.
  assert (E : (run_thread 3 (str "tcp") (process_gopher_request ex_realpath ex_stat ex_open ex_opendir (str "/srv/g") (str "host") 50) ex_gopher).1 = Done tt)
    by (vm_compute; reflexivity).
  destruct (run_thread 3 (str "tcp") (process_gopher_request _ _ _ _ _ _ 50) ex_gopher) as [r s']. cbn in E. subst r.
  destruct H as (data & fin & _ & _ & H).
  - vm_compute. lia.
  - concrete_bytes.
  - reflexivity.
  - exact H.
Defined.

Lemma gopher_confined_witness :
  run_thread 3 (str "tcp") (process_gopher_request ex_realpath ex_stat ex_open ex_opendir (str "/srv/g") (str "host") 5) ex_gopher =
  run_thread 3 (str "tcp") (process_gopher_request ex_realpath ex_stat
    (fun path => if beq path (str "/etc/passwd") then Some [] else ex_open path) ex_opendir (str "/srv/g") (str "host") 5) ex_gopher.
Proof.
  apply gopher_confined.
  - by apply str_no_char.
  - intros path Hp. split; [reflexivity|]. split; [|reflexivity]. unfold beq at 1. rewrite bool_decide_eq_false_2; [reflexivity|].
    intros ->. vm_compute in Hp. discriminate.
Defined.
