(* ===== verification/Font.v ===== *)
(** * The font: [src/font.cpp]

    [font_8x8[c][cy][cx]]: 128 characters of eight rows of eight pixels.  The
    initialiser has 127 characters; the last one is zero. *)

From S2P Require Import Prelude.

Definition font_8x8 : list (list (list Z)) :=
  [[[0; 0; 0; 0; 0; 0; 0; 0]; [0; 0; 0; 0; 0; 0; 0; 0]; [0; 0; 0; 0; 0; 0; 0; 0]; [0; 0; 0; 0; 0; 0; 0; 0]; [0; 0; 0; 0; 0; 0; 0; 0]; [0; 0; 0; 0; 0; 0; 0; 0]; [0; 0; 0; 0; 0; 0; 0; 0]; [0; 0; 0; 0; 0; 0; 0; 0]];
   [[0; 0; 255; 255; 255; 255; 0; 0]; [0; 255; 0; 0; 0; 0; 255; 0]; [255; 0; 255; 0; 0; 255; 0; 255]; [255; 0; 0; 0; 0; 0; 0; 255]; [255; 0; 255; 0; 0; 255; 0; 255]; [255; 0; 0; 255; 255; 0; 0; 255]; [0; 255; 0; 0; 0; 0; 255; 0]; [0; 0; 255; 255; 255; 255; 0; 0]];
   [[0; 0; 255; 255; 255; 255; 0; 0]; [0; 255; 255; 255; 255; 255; 255; 0]; [255; 255; 0; 255; 255; 0; 255; 255]; [255; 255; 255; 255; 255; 255; 255; 255]; [255; 255; 255; 255; 255; 255; 255; 255]; [255; 255; 0; 255; 255; 0; 255; 255]; [0; 255; 255; 0; 0; 255; 255; 0]; [0; 0; 255; 255; 255; 255; 0; 0]];
   [[0; 255; 255; 0; 255; 255; 0; 0]; [255; 255; 255; 255; 255; 255; 255; 0]; [255; 255; 255; 255; 255; 255; 255; 0]; [255; 255; 255; 255; 255; 255; 255; 0]; [0; 255; 255; 255; 255; 255; 0; 0]; [0; 0; 255; 255; 255; 0; 0; 0]; [0; 0; 0; 255; 0; 0; 0; 0]; [0; 0; 0; 0; 0; 0; 0; 0]];
   [[0; 0; 0; 255; 0; 0; 0; 0]; [0; 0; 255; 255; 255; 0; 0; 0]; [0; 255; 255; 255; 255; 255; 0; 0]; [255; 255; 255; 255; 255; 255; 255; 0]; [0; 255; 255; 255; 255; 255; 0; 0]; [0; 0; 255; 255; 255; 0; 0; 0]; [0; 0; 0; 255; 0; 0; 0; 0]; [0; 0; 0; 0; 0; 0; 0; 0]];
   [[0; 0; 0; 255; 0; 0; 0; 0]; [0; 0; 255; 255; 255; 0; 0; 0]; [0; 255; 0; 255; 0; 255; 0; 0]; [255; 255; 255; 255; 255; 255; 255; 0]; [0; 255; 0; 255; 0; 255; 0; 0]; [0; 0; 0; 255; 0; 0; 0; 0]; [0; 0; 255; 255; 255; 0; 0; 0]; [0; 0; 0; 0; 0; 0; 0; 0]];
   [[0; 0; 0; 255; 0; 0; 0; 0]; [0; 0; 255; 255; 255; 0; 0; 0]; [0; 255; 255; 255; 255; 255; 0; 0]; [255; 255; 255; 255; 255; 255; 255; 0]; [255; 255; 255; 255; 255; 255; 255; 0]; [0; 0; 0; 255; 0; 0; 0; 0]; [0; 0; 255; 255; 255; 0; 0; 0]; [0; 0; 0; 0; 0; 0; 0; 0]];
   [[0; 0; 0; 0; 0; 0; 0; 0]; [0; 0; 0; 0; 0; 0; 0; 0]; [0; 0; 0; 0; 0; 0; 0; 0]; [0; 0; 255; 255; 0; 0; 0; 0]; [0; 0; 255; 255; 0; 0; 0; 0]; [0; 0; 0; 0; 0; 0; 0; 0]; [0; 0; 0; 0; 0; 0; 0; 0]; [0; 0; 0; 0; 0; 0; 0; 0]];
   [[255; 255; 255; 255; 255; 255; 255; 255]; [255; 255; 255; 255; 255; 255; 255; 255]; [255; 255; 255; 255; 255; 255; 255; 255]; [255; 255; 255; 0; 0; 255; 255; 255]; [255; 255; 255; 0; 0; 255; 255; 255]; [255; 255; 255; 255; 255; 255; 255; 255]; [255; 255; 255; 255; 255; 255; 255; 255]; [255; 255; 255; 255; 255; 255; 255; 255]];
   [[0; 0; 255; 255; 255; 0; 0; 0]; [0; 255; 0; 0; 0; 255; 0; 0]; [255; 0; 0; 0; 0; 0; 255; 0]; [255; 0; 0; 0; 0; 0; 255; 0]; [255; 0; 0; 0; 0; 0; 255; 0]; [0; 255; 0; 0; 0; 255; 0; 0]; [0; 0; 255; 255; 255; 0; 0; 0]; [0; 0; 0; 0; 0; 0; 0; 0]];
   [[255; 255; 0; 0; 0; 255; 255; 255]; [255; 0; 255; 255; 255; 0; 255; 255]; [0; 255; 255; 255; 255; 255; 0; 255]; [0; 255; 255; 255; 255; 255; 0; 255]; [0; 255; 255; 255; 255; 255; 0; 255]; [255; 0; 255; 255; 255; 0; 255; 255]; [255; 255; 0; 0; 0; 255; 255; 255]; [255; 255; 255; 255; 255; 255; 255; 255]];
   [[0; 0; 0; 0; 255; 255; 255; 255]; [0; 0; 0; 0; 0; 0; 255; 255]; [0; 0; 0; 0; 0; 255; 0; 255]; [0; 255; 255; 255; 255; 0; 0; 255]; [255; 0; 0; 0; 255; 0; 0; 0]; [255; 0; 0; 0; 255; 0; 0; 0]; [255; 0; 0; 0; 255; 0; 0; 0]; [0; 255; 255; 255; 0; 0; 0; 0]];
   [[0; 0; 255; 255; 255; 0; 0; 0]; [0; 255; 0; 0; 0; 255; 0; 0]; [0; 255; 0; 0; 0; 255; 0; 0]; [0; 255; 0; 0; 0; 255; 0; 0]; [0; 0; 255; 255; 255; 0; 0; 0]; [0; 0; 0; 255; 0; 0; 0; 0]; [0; 255; 255; 255; 255; 255; 0; 0]; [0; 0; 0; 255; 0; 0; 0; 0]];
   [[0; 0; 255; 255; 0; 0; 0; 0]; [0; 0; 255; 0; 255; 0; 0; 0]; [0; 0; 255; 0; 0; 255; 0; 0]; [0; 0; 255; 0; 0; 255; 0; 0]; [0; 0; 255; 0; 255; 0; 0; 0]; [0; 0; 255; 0; 0; 0; 0; 0]; [255; 255; 255; 0; 0; 0; 0; 0]; [255; 255; 0; 0; 0; 0; 0; 0]];
   [[0; 0; 255; 255; 255; 255; 0; 0]; [0; 0; 255; 0; 0; 255; 0; 0]; [0; 0; 255; 255; 255; 255; 0; 0]; [0; 0; 255; 0; 0; 255; 0; 0]; [0; 0; 255; 0; 0; 255; 0; 0]; [255; 255; 255; 0; 0; 255; 0; 0]; [255; 255; 0; 255; 255; 255; 0; 0]; [0; 0; 0; 255; 255; 0; 0; 0]];
   [[0; 0; 0; 255; 0; 0; 0; 0]; [0; 255; 0; 255; 0; 255; 0; 0]; [0; 0; 255; 255; 255; 0; 0; 0]; [255; 255; 255; 0; 255; 255; 255; 0]; [0; 0; 255; 255; 255; 0; 0; 0]; [0; 255; 0; 255; 0; 255; 0; 0]; [0; 0; 0; 255; 0; 0; 0; 0]; [0; 0; 0; 0; 0; 0; 0; 0]];
   [[0; 0; 0; 255; 0; 0; 0; 0]; [0; 0; 0; 255; 0; 0; 0; 0]; [0; 0; 0; 255; 0; 0; 0; 0]; [0; 255; 255; 255; 255; 255; 0; 0]; [0; 0; 0; 255; 0; 0; 0; 0]; [0; 0; 0; 255; 0; 0; 0; 0]; [0; 0; 0; 255; 0; 0; 0; 0]; [0; 0; 0; 255; 0; 0; 0; 0]];
   [[0; 0; 0; 255; 0; 0; 0; 0]; [0; 0; 0; 255; 0; 0; 0; 0]; [0; 0; 0; 255; 0; 0; 0; 0]; [255; 255; 255; 255; 255; 255; 255; 255]; [0; 0; 0; 0; 0; 0; 0; 0]; [0; 0; 0; 0; 0; 0; 0; 0]; [0; 0; 0; 0; 0; 0; 0; 0]; [0; 0; 0; 0; 0; 0; 0; 0]];
   [[0; 0; 0; 0; 0; 0; 0; 0]; [0; 0; 0; 0; 0; 0; 0; 0]; [0; 0; 0; 0; 0; 0; 0; 0]; [255; 255; 255; 255; 255; 255; 255; 255]; [0; 0; 0; 255; 0; 0; 0; 0]; [0; 0; 0; 255; 0; 0; 0; 0]; [0; 0; 0; 255; 0; 0; 0; 0]; [0; 0; 0; 255; 0; 0; 0; 0]];
   [[0; 0; 0; 255; 0; 0; 0; 0]; [0; 0; 0; 255; 0; 0; 0; 0]; [0; 0; 0; 255; 0; 0; 0; 0]; [255; 255; 255; 255; 0; 0; 0; 0]; [0; 0; 0; 255; 0; 0; 0; 0]; [0; 0; 0; 255; 0; 0; 0; 0]; [0; 0; 0; 255; 0; 0; 0; 0]; [0; 0; 0; 255; 0; 0; 0; 0]];
   [[0; 0; 0; 255; 0; 0; 0; 0]; [0; 0; 0; 255; 0; 0; 0; 0]; [0; 0; 0; 255; 0; 0; 0; 0]; [0; 0; 0; 255; 255; 255; 255; 255]; [0; 0; 0; 255; 0; 0; 0; 0]; [0; 0; 0; 255; 0; 0; 0; 0]; [0; 0; 0; 255; 0; 0; 0; 0]; [0; 0; 0; 255; 0; 0; 0; 0]];
   [[0; 0; 0; 255; 0; 0; 0; 0]; [0; 0; 0; 255; 0; 0; 0; 0]; [0; 0; 0; 255; 0; 0; 0; 0]; [255; 255; 255; 255; 255; 255; 255; 255]; [0; 0; 0; 255; 0; 0; 0; 0]; [0; 0; 0; 255; 0; 0; 0; 0]; [0; 0; 0; 255; 0; 0; 0; 0]; [0; 0; 0; 255; 0; 0; 0; 0]];
   [[0; 0; 0; 255; 0; 0; 0; 0]; [0; 0; 0; 255; 0; 0; 0; 0]; [0; 0; 0; 255; 0; 0; 0; 0]; [0; 0; 0; 255; 0; 0; 0; 0]; [0; 0; 0; 255; 0; 0; 0; 0]; [0; 0; 0; 255; 0; 0; 0; 0]; [0; 0; 0; 255; 0; 0; 0; 0]; [0; 0; 0; 255; 0; 0; 0; 0]];
   [[0; 0; 0; 0; 0; 0; 0; 0]; [0; 0; 0; 0; 0; 0; 0; 0]; [0; 0; 0; 0; 0; 0; 0; 0]; [255; 255; 255; 255; 255; 255; 255; 255]; [0; 0; 0; 0; 0; 0; 0; 0]; [0; 0; 0; 0; 0; 0; 0; 0]; [0; 0; 0; 0; 0; 0; 0; 0]; [0; 0; 0; 0; 0; 0; 0; 0]];
   [[0; 0; 0; 0; 0; 0; 0; 0]; [0; 0; 0; 0; 0; 0; 0; 0]; [0; 0; 0; 0; 0; 0; 0; 0]; [0; 0; 0; 255; 255; 255; 255; 255]; [0; 0; 0; 255; 0; 0; 0; 0]; [0; 0; 0; 255; 0; 0; 0; 0]; [0; 0; 0; 255; 0; 0; 0; 0]; [0; 0; 0; 255; 0; 0; 0; 0]];
   [[0; 0; 0; 0; 0; 0; 0; 0]; [0; 0; 0; 0; 0; 0; 0; 0]; [0; 0; 0; 0; 0; 0; 0; 0]; [255; 255; 255; 255; 0; 0; 0; 0]; [0; 0; 0; 255; 0; 0; 0; 0]; [0; 0; 0; 255; 0; 0; 0; 0]; [0; 0; 0; 255; 0; 0; 0; 0]; [0; 0; 0; 255; 0; 0; 0; 0]];
   [[0; 0; 0; 255; 0; 0; 0; 0]; [0; 0; 0; 255; 0; 0; 0; 0]; [0; 0; 0; 255; 0; 0; 0; 0]; [0; 0; 0; 255; 255; 255; 255; 255]; [0; 0; 0; 0; 0; 0; 0; 0]; [0; 0; 0; 0; 0; 0; 0; 0]; [0; 0; 0; 0; 0; 0; 0; 0]; [0; 0; 0; 0; 0; 0; 0; 0]];
   [[0; 0; 0; 255; 0; 0; 0; 0]; [0; 0; 0; 255; 0; 0; 0; 0]; [0; 0; 0; 255; 0; 0; 0; 0]; [255; 255; 255; 255; 0; 0; 0; 0]; [0; 0; 0; 0; 0; 0; 0; 0]; [0; 0; 0; 0; 0; 0; 0; 0]; [0; 0; 0; 0; 0; 0; 0; 0]; [0; 0; 0; 0; 0; 0; 0; 0]];
   [[255; 0; 0; 0; 0; 0; 0; 255]; [0; 255; 0; 0; 0; 0; 255; 0]; [0; 0; 255; 0; 0; 255; 0; 0]; [0; 0; 0; 255; 255; 0; 0; 0]; [0; 0; 0; 255; 255; 0; 0; 0]; [0; 0; 255; 0; 0; 255; 0; 0]; [0; 255; 0; 0; 0; 0; 255; 0]; [255; 0; 0; 0; 0; 0; 0; 255]];
   [[0; 0; 0; 0; 0; 0; 0; 255]; [0; 0; 0; 0; 0; 0; 255; 0]; [0; 0; 0; 0; 0; 255; 0; 0]; [0; 0; 0; 0; 255; 0; 0; 0]; [0; 0; 0; 255; 0; 0; 0; 0]; [0; 0; 255; 0; 0; 0; 0; 0]; [0; 255; 0; 0; 0; 0; 0; 0]; [255; 0; 0; 0; 0; 0; 0; 0]];
   [[255; 0; 0; 0; 0; 0; 0; 0]; [0; 255; 0; 0; 0; 0; 0; 0]; [0; 0; 255; 0; 0; 0; 0; 0]; [0; 0; 0; 255; 0; 0; 0; 0]; [0; 0; 0; 0; 255; 0; 0; 0]; [0; 0; 0; 0; 0; 255; 0; 0]; [0; 0; 0; 0; 0; 0; 255; 0]; [0; 0; 0; 0; 0; 0; 0; 255]];
   [[0; 0; 0; 0; 0; 0; 0; 0]; [0; 0; 0; 255; 0; 0; 0; 0]; [0; 0; 0; 255; 0; 0; 0; 0]; [255; 255; 255; 255; 255; 255; 255; 255]; [0; 0; 0; 255; 0; 0; 0; 0]; [0; 0; 0; 255; 0; 0; 0; 0]; [0; 0; 0; 0; 0; 0; 0; 0]; [0; 0; 0; 0; 0; 0; 0; 0]];
   [[0; 0; 0; 0; 0; 0; 0; 0]; [0; 0; 0; 0; 0; 0; 0; 0]; [0; 0; 0; 0; 0; 0; 0; 0]; [0; 0; 0; 0; 0; 0; 0; 0]; [0; 0; 0; 0; 0; 0; 0; 0]; [0; 0; 0; 0; 0; 0; 0; 0]; [0; 0; 0; 0; 0; 0; 0; 0]; [0; 0; 0; 0; 0; 0; 0; 0]];
   [[0; 0; 255; 0; 0; 0; 0; 0]; [0; 0; 255; 0; 0; 0; 0; 0]; [0; 0; 255; 0; 0; 0; 0; 0]; [0; 0; 255; 0; 0; 0; 0; 0]; [0; 0; 0; 0; 0; 0; 0; 0]; [0; 0; 0; 0; 0; 0; 0; 0]; [0; 0; 255; 0; 0; 0; 0; 0]; [0; 0; 0; 0; 0; 0; 0; 0]];
   [[0; 255; 0; 255; 0; 0; 0; 0]; [0; 255; 0; 255; 0; 0; 0; 0]; [0; 255; 0; 255; 0; 0; 0; 0]; [0; 0; 0; 0; 0; 0; 0; 0]; [0; 0; 0; 0; 0; 0; 0; 0]; [0; 0; 0; 0; 0; 0; 0; 0]; [0; 0; 0; 0; 0; 0; 0; 0]; [0; 0; 0; 0; 0; 0; 0; 0]];
   [[0; 255; 0; 255; 0; 0; 0; 0]; [0; 255; 0; 255; 0; 0; 0; 0]; [255; 255; 255; 255; 255; 0; 0; 0]; [0; 255; 0; 255; 0; 0; 0; 0]; [255; 255; 255; 255; 255; 0; 0; 0]; [0; 255; 0; 255; 0; 0; 0; 0]; [0; 255; 0; 255; 0; 0; 0; 0]; [0; 0; 0; 0; 0; 0; 0; 0]];
   [[0; 0; 255; 0; 0; 0; 0; 0]; [0; 255; 255; 255; 255; 0; 0; 0]; [255; 0; 255; 0; 0; 0; 0; 0]; [0; 255; 255; 255; 0; 0; 0; 0]; [0; 0; 255; 0; 255; 0; 0; 0]; [255; 255; 255; 255; 0; 0; 0; 0]; [0; 0; 255; 0; 0; 0; 0; 0]; [0; 0; 0; 0; 0; 0; 0; 0]];
   [[255; 255; 0; 0; 0; 0; 0; 0]; [255; 255; 0; 0; 255; 0; 0; 0]; [0; 0; 0; 255; 0; 0; 0; 0]; [0; 0; 255; 0; 0; 0; 0; 0]; [0; 255; 0; 0; 0; 0; 0; 0]; [255; 0; 0; 255; 255; 0; 0; 0]; [0; 0; 0; 255; 255; 0; 0; 0]; [0; 0; 0; 0; 0; 0; 0; 0]];
   [[0; 255; 0; 0; 0; 0; 0; 0]; [255; 0; 255; 0; 0; 0; 0; 0]; [0; 255; 0; 0; 0; 0; 0; 0]; [255; 0; 255; 0; 255; 0; 0; 0]; [255; 0; 0; 255; 0; 0; 0; 0]; [255; 0; 0; 255; 255; 0; 0; 0]; [0; 255; 255; 0; 0; 0; 0; 0]; [0; 0; 0; 0; 0; 0; 0; 0]];
   [[0; 0; 0; 255; 0; 0; 0; 0]; [0; 0; 255; 0; 0; 0; 0; 0]; [0; 255; 0; 0; 0; 0; 0; 0]; [0; 0; 0; 0; 0; 0; 0; 0]; [0; 0; 0; 0; 0; 0; 0; 0]; [0; 0; 0; 0; 0; 0; 0; 0]; [0; 0; 0; 0; 0; 0; 0; 0]; [0; 0; 0; 0; 0; 0; 0; 0]];
   [[0; 0; 0; 255; 0; 0; 0; 0]; [0; 0; 255; 0; 0; 0; 0; 0]; [0; 255; 0; 0; 0; 0; 0; 0]; [0; 255; 0; 0; 0; 0; 0; 0]; [0; 255; 0; 0; 0; 0; 0; 0]; [0; 0; 255; 0; 0; 0; 0; 0]; [0; 0; 0; 255; 0; 0; 0; 0]; [0; 0; 0; 0; 0; 0; 0; 0]];
   [[0; 255; 0; 0; 0; 0; 0; 0]; [0; 0; 255; 0; 0; 0; 0; 0]; [0; 0; 0; 255; 0; 0; 0; 0]; [0; 0; 0; 255; 0; 0; 0; 0]; [0; 0; 0; 255; 0; 0; 0; 0]; [0; 0; 255; 0; 0; 0; 0; 0]; [0; 255; 0; 0; 0; 0; 0; 0]; [0; 0; 0; 0; 0; 0; 0; 0]];
   [[0; 0; 255; 0; 0; 0; 0; 0]; [255; 0; 255; 0; 255; 0; 0; 0]; [0; 255; 255; 255; 0; 0; 0; 0]; [0; 0; 255; 0; 0; 0; 0; 0]; [0; 255; 255; 255; 0; 0; 0; 0]; [255; 0; 255; 0; 255; 0; 0; 0]; [0; 0; 255; 0; 0; 0; 0; 0]; [0; 0; 0; 0; 0; 0; 0; 0]];
   [[0; 0; 0; 0; 0; 0; 0; 0]; [0; 0; 255; 0; 0; 0; 0; 0]; [0; 0; 255; 0; 0; 0; 0; 0]; [255; 255; 255; 255; 255; 0; 0; 0]; [0; 0; 255; 0; 0; 0; 0; 0]; [0; 0; 255; 0; 0; 0; 0; 0]; [0; 0; 0; 0; 0; 0; 0; 0]; [0; 0; 0; 0; 0; 0; 0; 0]];
   [[0; 0; 0; 0; 0; 0; 0; 0]; [0; 0; 0; 0; 0; 0; 0; 0]; [0; 0; 0; 0; 0; 0; 0; 0]; [0; 0; 0; 0; 0; 0; 0; 0]; [0; 0; 0; 0; 0; 0; 0; 0]; [0; 0; 255; 0; 0; 0; 0; 0]; [0; 0; 255; 0; 0; 0; 0; 0]; [0; 255; 0; 0; 0; 0; 0; 0]];
   [[0; 0; 0; 0; 0; 0; 0; 0]; [0; 0; 0; 0; 0; 0; 0; 0]; [0; 0; 0; 0; 0; 0; 0; 0]; [0; 255; 255; 255; 255; 0; 0; 0]; [0; 0; 0; 0; 0; 0; 0; 0]; [0; 0; 0; 0; 0; 0; 0; 0]; [0; 0; 0; 0; 0; 0; 0; 0]; [0; 0; 0; 0; 0; 0; 0; 0]];
   [[0; 0; 0; 0; 0; 0; 0; 0]; [0; 0; 0; 0; 0; 0; 0; 0]; [0; 0; 0; 0; 0; 0; 0; 0]; [0; 0; 0; 0; 0; 0; 0; 0]; [0; 0; 0; 0; 0; 0; 0; 0]; [0; 255; 255; 0; 0; 0; 0; 0]; [0; 255; 255; 0; 0; 0; 0; 0]; [0; 0; 0; 0; 0; 0; 0; 0]];
   [[0; 0; 0; 0; 0; 0; 0; 0]; [0; 0; 0; 0; 0; 0; 0; 0]; [0; 0; 0; 0; 255; 0; 0; 0]; [0; 0; 0; 255; 0; 0; 0; 0]; [0; 0; 255; 0; 0; 0; 0; 0]; [0; 255; 0; 0; 0; 0; 0; 0]; [255; 0; 0; 0; 0; 0; 0; 0]; [0; 0; 0; 0; 0; 0; 0; 0]];
   [[0; 255; 255; 255; 0; 0; 0; 0]; [255; 0; 0; 0; 255; 0; 0; 0]; [255; 0; 0; 255; 255; 0; 0; 0]; [255; 0; 255; 0; 255; 0; 0; 0]; [255; 255; 0; 0; 255; 0; 0; 0]; [255; 0; 0; 0; 255; 0; 0; 0]; [0; 255; 255; 255; 0; 0; 0; 0]; [0; 0; 0; 0; 0; 0; 0; 0]];
   [[0; 0; 255; 0; 0; 0; 0; 0]; [0; 255; 255; 0; 0; 0; 0; 0]; [255; 0; 255; 0; 0; 0; 0; 0]; [0; 0; 255; 0; 0; 0; 0; 0]; [0; 0; 255; 0; 0; 0; 0; 0]; [0; 0; 255; 0; 0; 0; 0; 0]; [255; 255; 255; 255; 255; 0; 0; 0]; [0; 0; 0; 0; 0; 0; 0; 0]];
   [[0; 255; 255; 255; 0; 0; 0; 0]; [255; 0; 0; 0; 255; 0; 0; 0]; [0; 0; 0; 0; 255; 0; 0; 0]; [0; 0; 0; 255; 0; 0; 0; 0]; [0; 255; 255; 0; 0; 0; 0; 0]; [255; 0; 0; 0; 0; 0; 0; 0]; [255; 255; 255; 255; 255; 0; 0; 0]; [0; 0; 0; 0; 0; 0; 0; 0]];
   [[0; 255; 255; 255; 0; 0; 0; 0]; [255; 0; 0; 0; 255; 0; 0; 0]; [0; 0; 0; 0; 255; 0; 0; 0]; [0; 0; 255; 255; 0; 0; 0; 0]; [0; 0; 0; 0; 255; 0; 0; 0]; [255; 0; 0; 0; 255; 0; 0; 0]; [0; 255; 255; 255; 0; 0; 0; 0]; [0; 0; 0; 0; 0; 0; 0; 0]];
   [[0; 0; 0; 255; 0; 0; 0; 0]; [0; 0; 255; 255; 0; 0; 0; 0]; [0; 255; 0; 255; 0; 0; 0; 0]; [255; 0; 0; 255; 0; 0; 0; 0]; [255; 255; 255; 255; 255; 0; 0; 0]; [0; 0; 0; 255; 0; 0; 0; 0]; [0; 0; 0; 255; 0; 0; 0; 0]; [0; 0; 0; 0; 0; 0; 0; 0]];
   [[255; 255; 255; 255; 255; 0; 0; 0]; [255; 0; 0; 0; 0; 0; 0; 0]; [255; 255; 255; 0; 0; 0; 0; 0]; [0; 0; 0; 255; 0; 0; 0; 0]; [0; 0; 0; 0; 255; 0; 0; 0]; [0; 0; 0; 255; 0; 0; 0; 0]; [255; 255; 255; 0; 0; 0; 0; 0]; [0; 0; 0; 0; 0; 0; 0; 0]];
   [[0; 0; 255; 255; 0; 0; 0; 0]; [0; 255; 0; 0; 0; 0; 0; 0]; [255; 0; 0; 0; 0; 0; 0; 0]; [255; 255; 255; 255; 0; 0; 0; 0]; [255; 0; 0; 0; 255; 0; 0; 0]; [255; 0; 0; 0; 255; 0; 0; 0]; [0; 255; 255; 255; 0; 0; 0; 0]; [0; 0; 0; 0; 0; 0; 0; 0]];
   [[255; 255; 255; 255; 255; 0; 0; 0]; [255; 0; 0; 0; 255; 0; 0; 0]; [0; 0; 0; 255; 0; 0; 0; 0]; [0; 0; 255; 0; 0; 0; 0; 0]; [0; 0; 255; 0; 0; 0; 0; 0]; [0; 0; 255; 0; 0; 0; 0; 0]; [0; 0; 255; 0; 0; 0; 0; 0]; [0; 0; 0; 0; 0; 0; 0; 0]];
   [[0; 255; 255; 255; 0; 0; 0; 0]; [255; 0; 0; 0; 255; 0; 0; 0]; [255; 0; 0; 0; 255; 0; 0; 0]; [0; 255; 255; 255; 0; 0; 0; 0]; [255; 0; 0; 0; 255; 0; 0; 0]; [255; 0; 0; 0; 255; 0; 0; 0]; [0; 255; 255; 255; 0; 0; 0; 0]; [0; 0; 0; 0; 0; 0; 0; 0]];
   [[0; 255; 255; 255; 0; 0; 0; 0]; [255; 0; 0; 0; 255; 0; 0; 0]; [255; 0; 0; 0; 255; 0; 0; 0]; [0; 255; 255; 255; 255; 0; 0; 0]; [0; 0; 0; 0; 255; 0; 0; 0]; [0; 0; 0; 255; 0; 0; 0; 0]; [0; 255; 255; 0; 0; 0; 0; 0]; [0; 0; 0; 0; 0; 0; 0; 0]];
   [[0; 0; 0; 0; 0; 0; 0; 0]; [0; 0; 0; 0; 0; 0; 0; 0]; [0; 0; 255; 0; 0; 0; 0; 0]; [0; 0; 0; 0; 0; 0; 0; 0]; [0; 0; 0; 0; 0; 0; 0; 0]; [0; 0; 255; 0; 0; 0; 0; 0]; [0; 0; 0; 0; 0; 0; 0; 0]; [0; 0; 0; 0; 0; 0; 0; 0]];
   [[0; 0; 0; 0; 0; 0; 0; 0]; [0; 0; 0; 0; 0; 0; 0; 0]; [0; 0; 255; 0; 0; 0; 0; 0]; [0; 0; 0; 0; 0; 0; 0; 0]; [0; 0; 0; 0; 0; 0; 0; 0]; [0; 0; 255; 0; 0; 0; 0; 0]; [0; 0; 255; 0; 0; 0; 0; 0]; [0; 255; 0; 0; 0; 0; 0; 0]];
   [[0; 0; 0; 255; 255; 0; 0; 0]; [0; 0; 255; 255; 0; 0; 0; 0]; [0; 255; 255; 0; 0; 0; 0; 0]; [255; 255; 0; 0; 0; 0; 0; 0]; [0; 255; 255; 0; 0; 0; 0; 0]; [0; 0; 255; 255; 0; 0; 0; 0]; [0; 0; 0; 255; 255; 0; 0; 0]; [0; 0; 0; 0; 0; 0; 0; 0]];
   [[0; 0; 0; 0; 0; 0; 0; 0]; [0; 0; 0; 0; 0; 0; 0; 0]; [255; 255; 255; 255; 255; 0; 0; 0]; [0; 0; 0; 0; 0; 0; 0; 0]; [255; 255; 255; 255; 255; 0; 0; 0]; [0; 0; 0; 0; 0; 0; 0; 0]; [0; 0; 0; 0; 0; 0; 0; 0]; [0; 0; 0; 0; 0; 0; 0; 0]];
   [[255; 255; 0; 0; 0; 0; 0; 0]; [0; 255; 255; 0; 0; 0; 0; 0]; [0; 0; 255; 255; 0; 0; 0; 0]; [0; 0; 0; 255; 255; 0; 0; 0]; [0; 0; 255; 255; 0; 0; 0; 0]; [0; 255; 255; 0; 0; 0; 0; 0]; [255; 255; 0; 0; 0; 0; 0; 0]; [0; 0; 0; 0; 0; 0; 0; 0]];
   [[0; 255; 255; 255; 0; 0; 0; 0]; [255; 0; 0; 0; 255; 0; 0; 0]; [0; 0; 0; 0; 255; 0; 0; 0]; [0; 0; 0; 255; 0; 0; 0; 0]; [0; 0; 255; 0; 0; 0; 0; 0]; [0; 0; 0; 0; 0; 0; 0; 0]; [0; 0; 255; 0; 0; 0; 0; 0]; [0; 0; 0; 0; 0; 0; 0; 0]];
   [[0; 255; 255; 255; 0; 0; 0; 0]; [255; 0; 0; 0; 255; 0; 0; 0]; [0; 0; 0; 0; 255; 0; 0; 0]; [0; 255; 255; 0; 255; 0; 0; 0]; [255; 0; 255; 0; 255; 0; 0; 0]; [255; 0; 255; 0; 255; 0; 0; 0]; [0; 255; 255; 255; 0; 0; 0; 0]; [0; 0; 0; 0; 0; 0; 0; 0]];
   [[0; 0; 255; 0; 0; 0; 0; 0]; [0; 255; 0; 255; 0; 0; 0; 0]; [255; 0; 0; 0; 255; 0; 0; 0]; [255; 0; 0; 0; 255; 0; 0; 0]; [255; 255; 255; 255; 255; 0; 0; 0]; [255; 0; 0; 0; 255; 0; 0; 0]; [255; 0; 0; 0; 255; 0; 0; 0]; [0; 0; 0; 0; 0; 0; 0; 0]];
   [[255; 255; 255; 255; 0; 0; 0; 0]; [0; 255; 0; 0; 255; 0; 0; 0]; [0; 255; 0; 0; 255; 0; 0; 0]; [0; 255; 255; 255; 0; 0; 0; 0]; [0; 255; 0; 0; 255; 0; 0; 0]; [0; 255; 0; 0; 255; 0; 0; 0]; [255; 255; 255; 255; 0; 0; 0; 0]; [0; 0; 0; 0; 0; 0; 0; 0]];
   [[0; 0; 255; 255; 0; 0; 0; 0]; [0; 255; 0; 0; 255; 0; 0; 0]; [255; 0; 0; 0; 0; 0; 0; 0]; [255; 0; 0; 0; 0; 0; 0; 0]; [255; 0; 0; 0; 0; 0; 0; 0]; [0; 255; 0; 0; 255; 0; 0; 0]; [0; 0; 255; 255; 0; 0; 0; 0]; [0; 0; 0; 0; 0; 0; 0; 0]];
   [[255; 255; 255; 0; 0; 0; 0; 0]; [0; 255; 0; 255; 0; 0; 0; 0]; [0; 255; 0; 0; 255; 0; 0; 0]; [0; 255; 0; 0; 255; 0; 0; 0]; [0; 255; 0; 0; 255; 0; 0; 0]; [0; 255; 0; 255; 0; 0; 0; 0]; [255; 255; 255; 0; 0; 0; 0; 0]; [0; 0; 0; 0; 0; 0; 0; 0]];
   [[255; 255; 255; 255; 255; 0; 0; 0]; [255; 0; 0; 0; 0; 0; 0; 0]; [255; 0; 0; 0; 0; 0; 0; 0]; [255; 255; 255; 255; 0; 0; 0; 0]; [255; 0; 0; 0; 0; 0; 0; 0]; [255; 0; 0; 0; 0; 0; 0; 0]; [255; 255; 255; 255; 255; 0; 0; 0]; [0; 0; 0; 0; 0; 0; 0; 0]];
   [[255; 255; 255; 255; 255; 0; 0; 0]; [255; 0; 0; 0; 0; 0; 0; 0]; [255; 0; 0; 0; 0; 0; 0; 0]; [255; 255; 255; 255; 0; 0; 0; 0]; [255; 0; 0; 0; 0; 0; 0; 0]; [255; 0; 0; 0; 0; 0; 0; 0]; [255; 0; 0; 0; 0; 0; 0; 0]; [0; 0; 0; 0; 0; 0; 0; 0]];
   [[0; 255; 255; 255; 0; 0; 0; 0]; [255; 0; 0; 0; 255; 0; 0; 0]; [255; 0; 0; 0; 0; 0; 0; 0]; [255; 0; 255; 255; 255; 0; 0; 0]; [255; 0; 0; 0; 255; 0; 0; 0]; [255; 0; 0; 0; 255; 0; 0; 0]; [0; 255; 255; 255; 0; 0; 0; 0]; [0; 0; 0; 0; 0; 0; 0; 0]];
   [[255; 0; 0; 0; 255; 0; 0; 0]; [255; 0; 0; 0; 255; 0; 0; 0]; [255; 0; 0; 0; 255; 0; 0; 0]; [255; 255; 255; 255; 255; 0; 0; 0]; [255; 0; 0; 0; 255; 0; 0; 0]; [255; 0; 0; 0; 255; 0; 0; 0]; [255; 0; 0; 0; 255; 0; 0; 0]; [0; 0; 0; 0; 0; 0; 0; 0]];
   [[0; 255; 255; 255; 0; 0; 0; 0]; [0; 0; 255; 0; 0; 0; 0; 0]; [0; 0; 255; 0; 0; 0; 0; 0]; [0; 0; 255; 0; 0; 0; 0; 0]; [0; 0; 255; 0; 0; 0; 0; 0]; [0; 0; 255; 0; 0; 0; 0; 0]; [0; 255; 255; 255; 0; 0; 0; 0]; [0; 0; 0; 0; 0; 0; 0; 0]];
   [[0; 0; 255; 255; 255; 0; 0; 0]; [0; 0; 0; 255; 0; 0; 0; 0]; [0; 0; 0; 255; 0; 0; 0; 0]; [0; 0; 0; 255; 0; 0; 0; 0]; [255; 0; 0; 255; 0; 0; 0; 0]; [255; 0; 0; 255; 0; 0; 0; 0]; [0; 255; 255; 0; 0; 0; 0; 0]; [0; 0; 0; 0; 0; 0; 0; 0]];
   [[255; 0; 0; 0; 255; 0; 0; 0]; [255; 0; 0; 255; 0; 0; 0; 0]; [255; 0; 255; 0; 0; 0; 0; 0]; [255; 255; 0; 0; 0; 0; 0; 0]; [255; 0; 255; 0; 0; 0; 0; 0]; [255; 0; 0; 255; 0; 0; 0; 0]; [255; 0; 0; 0; 255; 0; 0; 0]; [0; 0; 0; 0; 0; 0; 0; 0]];
   [[255; 0; 0; 0; 0; 0; 0; 0]; [255; 0; 0; 0; 0; 0; 0; 0]; [255; 0; 0; 0; 0; 0; 0; 0]; [255; 0; 0; 0; 0; 0; 0; 0]; [255; 0; 0; 0; 0; 0; 0; 0]; [255; 0; 0; 0; 0; 0; 0; 0]; [255; 255; 255; 255; 255; 0; 0; 0]; [0; 0; 0; 0; 0; 0; 0; 0]];
   [[255; 0; 0; 0; 255; 0; 0; 0]; [255; 255; 0; 255; 255; 0; 0; 0]; [255; 0; 255; 0; 255; 0; 0; 0]; [255; 0; 255; 0; 255; 0; 0; 0]; [255; 0; 0; 0; 255; 0; 0; 0]; [255; 0; 0; 0; 255; 0; 0; 0]; [255; 0; 0; 0; 255; 0; 0; 0]; [0; 0; 0; 0; 0; 0; 0; 0]];
   [[255; 0; 0; 0; 255; 0; 0; 0]; [255; 255; 0; 0; 255; 0; 0; 0]; [255; 255; 0; 0; 255; 0; 0; 0]; [255; 0; 255; 0; 255; 0; 0; 0]; [255; 0; 0; 255; 255; 0; 0; 0]; [255; 0; 0; 255; 255; 0; 0; 0]; [255; 0; 0; 0; 255; 0; 0; 0]; [0; 0; 0; 0; 0; 0; 0; 0]];
   [[0; 255; 255; 255; 0; 0; 0; 0]; [255; 0; 0; 0; 255; 0; 0; 0]; [255; 0; 0; 0; 255; 0; 0; 0]; [255; 0; 0; 0; 255; 0; 0; 0]; [255; 0; 0; 0; 255; 0; 0; 0]; [255; 0; 0; 0; 255; 0; 0; 0]; [0; 255; 255; 255; 0; 0; 0; 0]; [0; 0; 0; 0; 0; 0; 0; 0]];
   [[255; 255; 255; 255; 0; 0; 0; 0]; [255; 0; 0; 0; 255; 0; 0; 0]; [255; 0; 0; 0; 255; 0; 0; 0]; [255; 255; 255; 255; 0; 0; 0; 0]; [255; 0; 0; 0; 0; 0; 0; 0]; [255; 0; 0; 0; 0; 0; 0; 0]; [255; 0; 0; 0; 0; 0; 0; 0]; [0; 0; 0; 0; 0; 0; 0; 0]];
   [[0; 255; 255; 255; 0; 0; 0; 0]; [255; 0; 0; 0; 255; 0; 0; 0]; [255; 0; 0; 0; 255; 0; 0; 0]; [255; 0; 0; 0; 255; 0; 0; 0]; [255; 0; 255; 0; 255; 0; 0; 0]; [255; 0; 0; 255; 0; 0; 0; 0]; [0; 255; 255; 0; 255; 0; 0; 0]; [0; 0; 0; 0; 0; 0; 0; 0]];
   [[255; 255; 255; 255; 0; 0; 0; 0]; [255; 0; 0; 0; 255; 0; 0; 0]; [255; 0; 0; 0; 255; 0; 0; 0]; [255; 255; 255; 255; 0; 0; 0; 0]; [255; 0; 255; 0; 0; 0; 0; 0]; [255; 0; 0; 255; 0; 0; 0; 0]; [255; 0; 0; 0; 255; 0; 0; 0]; [0; 0; 0; 0; 0; 0; 0; 0]];
   [[0; 255; 255; 255; 0; 0; 0; 0]; [255; 0; 0; 0; 255; 0; 0; 0]; [255; 0; 0; 0; 0; 0; 0; 0]; [0; 255; 255; 255; 0; 0; 0; 0]; [0; 0; 0; 0; 255; 0; 0; 0]; [255; 0; 0; 0; 255; 0; 0; 0]; [0; 255; 255; 255; 0; 0; 0; 0]; [0; 0; 0; 0; 0; 0; 0; 0]];
   [[255; 255; 255; 255; 255; 0; 0; 0]; [0; 0; 255; 0; 0; 0; 0; 0]; [0; 0; 255; 0; 0; 0; 0; 0]; [0; 0; 255; 0; 0; 0; 0; 0]; [0; 0; 255; 0; 0; 0; 0; 0]; [0; 0; 255; 0; 0; 0; 0; 0]; [0; 0; 255; 0; 0; 0; 0; 0]; [0; 0; 0; 0; 0; 0; 0; 0]];
   [[255; 0; 0; 0; 255; 0; 0; 0]; [255; 0; 0; 0; 255; 0; 0; 0]; [255; 0; 0; 0; 255; 0; 0; 0]; [255; 0; 0; 0; 255; 0; 0; 0]; [255; 0; 0; 0; 255; 0; 0; 0]; [255; 0; 0; 0; 255; 0; 0; 0]; [0; 255; 255; 255; 0; 0; 0; 0]; [0; 0; 0; 0; 0; 0; 0; 0]];
   [[255; 0; 0; 0; 255; 0; 0; 0]; [255; 0; 0; 0; 255; 0; 0; 0]; [255; 0; 0; 0; 255; 0; 0; 0]; [255; 0; 0; 0; 255; 0; 0; 0]; [0; 255; 0; 255; 0; 0; 0; 0]; [0; 255; 0; 255; 0; 0; 0; 0]; [0; 0; 255; 0; 0; 0; 0; 0]; [0; 0; 0; 0; 0; 0; 0; 0]];
   [[255; 0; 0; 0; 255; 0; 0; 0]; [255; 0; 0; 0; 255; 0; 0; 0]; [255; 0; 0; 0; 255; 0; 0; 0]; [255; 0; 255; 0; 255; 0; 0; 0]; [255; 0; 255; 0; 255; 0; 0; 0]; [255; 255; 0; 255; 255; 0; 0; 0]; [255; 0; 0; 0; 255; 0; 0; 0]; [0; 0; 0; 0; 0; 0; 0; 0]];
   [[255; 0; 0; 0; 255; 0; 0; 0]; [255; 0; 0; 0; 255; 0; 0; 0]; [0; 255; 0; 255; 0; 0; 0; 0]; [0; 0; 255; 0; 0; 0; 0; 0]; [0; 255; 0; 255; 0; 0; 0; 0]; [255; 0; 0; 0; 255; 0; 0; 0]; [255; 0; 0; 0; 255; 0; 0; 0]; [0; 0; 0; 0; 0; 0; 0; 0]];
   [[255; 0; 0; 0; 255; 0; 0; 0]; [255; 0; 0; 0; 255; 0; 0; 0]; [255; 0; 0; 0; 255; 0; 0; 0]; [0; 255; 255; 255; 0; 0; 0; 0]; [0; 0; 255; 0; 0; 0; 0; 0]; [0; 0; 255; 0; 0; 0; 0; 0]; [0; 0; 255; 0; 0; 0; 0; 0]; [0; 0; 0; 0; 0; 0; 0; 0]];
   [[255; 255; 255; 255; 255; 0; 0; 0]; [0; 0; 0; 0; 255; 0; 0; 0]; [0; 0; 0; 255; 0; 0; 0; 0]; [0; 0; 255; 0; 0; 0; 0; 0]; [0; 255; 0; 0; 0; 0; 0; 0]; [255; 0; 0; 0; 0; 0; 0; 0]; [255; 255; 255; 255; 255; 0; 0; 0]; [0; 0; 0; 0; 0; 0; 0; 0]];
   [[0; 255; 255; 255; 0; 0; 0; 0]; [0; 255; 0; 0; 0; 0; 0; 0]; [0; 255; 0; 0; 0; 0; 0; 0]; [0; 255; 0; 0; 0; 0; 0; 0]; [0; 255; 0; 0; 0; 0; 0; 0]; [0; 255; 0; 0; 0; 0; 0; 0]; [0; 255; 255; 255; 0; 0; 0; 0]; [0; 0; 0; 0; 0; 0; 0; 0]];
   [[0; 0; 0; 0; 0; 0; 0; 0]; [0; 0; 0; 0; 0; 0; 0; 0]; [255; 0; 0; 0; 0; 0; 0; 0]; [0; 255; 0; 0; 0; 0; 0; 0]; [0; 0; 255; 0; 0; 0; 0; 0]; [0; 0; 0; 255; 0; 0; 0; 0]; [0; 0; 0; 0; 255; 0; 0; 0]; [0; 0; 0; 0; 0; 0; 0; 0]];
   [[0; 255; 255; 255; 0; 0; 0; 0]; [0; 0; 0; 255; 0; 0; 0; 0]; [0; 0; 0; 255; 0; 0; 0; 0]; [0; 0; 0; 255; 0; 0; 0; 0]; [0; 0; 0; 255; 0; 0; 0; 0]; [0; 0; 0; 255; 0; 0; 0; 0]; [0; 255; 255; 255; 0; 0; 0; 0]; [0; 0; 0; 0; 0; 0; 0; 0]];
   [[0; 0; 255; 0; 0; 0; 0; 0]; [0; 255; 0; 255; 0; 0; 0; 0]; [255; 0; 0; 0; 255; 0; 0; 0]; [0; 0; 0; 0; 0; 0; 0; 0]; [0; 0; 0; 0; 0; 0; 0; 0]; [0; 0; 0; 0; 0; 0; 0; 0]; [0; 0; 0; 0; 0; 0; 0; 0]; [0; 0; 0; 0; 0; 0; 0; 0]];
   [[0; 0; 0; 0; 0; 0; 0; 0]; [0; 0; 0; 0; 0; 0; 0; 0]; [0; 0; 0; 0; 0; 0; 0; 0]; [0; 0; 0; 0; 0; 0; 0; 0]; [0; 0; 0; 0; 0; 0; 0; 0]; [0; 0; 0; 0; 0; 0; 0; 0]; [255; 255; 255; 255; 255; 0; 0; 0]; [0; 0; 0; 0; 0; 0; 0; 0]];
   [[0; 255; 0; 0; 0; 0; 0; 0]; [0; 0; 255; 0; 0; 0; 0; 0]; [0; 0; 0; 255; 0; 0; 0; 0]; [0; 0; 0; 0; 0; 0; 0; 0]; [0; 0; 0; 0; 0; 0; 0; 0]; [0; 0; 0; 0; 0; 0; 0; 0]; [0; 0; 0; 0; 0; 0; 0; 0]; [0; 0; 0; 0; 0; 0; 0; 0]];
   [[0; 0; 0; 0; 0; 0; 0; 0]; [0; 0; 0; 0; 0; 0; 0; 0]; [0; 255; 255; 255; 0; 0; 0; 0]; [0; 0; 0; 0; 255; 0; 0; 0]; [0; 255; 255; 255; 255; 0; 0; 0]; [255; 0; 0; 0; 255; 0; 0; 0]; [0; 255; 255; 255; 255; 0; 0; 0]; [0; 0; 0; 0; 0; 0; 0; 0]];
   [[255; 0; 0; 0; 0; 0; 0; 0]; [255; 0; 0; 0; 0; 0; 0; 0]; [255; 0; 255; 255; 0; 0; 0; 0]; [255; 255; 0; 0; 255; 0; 0; 0]; [255; 0; 0; 0; 255; 0; 0; 0]; [255; 255; 0; 0; 255; 0; 0; 0]; [255; 0; 255; 255; 0; 0; 0; 0]; [0; 0; 0; 0; 0; 0; 0; 0]];
   [[0; 0; 0; 0; 0; 0; 0; 0]; [0; 0; 0; 0; 0; 0; 0; 0]; [0; 255; 255; 255; 0; 0; 0; 0]; [255; 0; 0; 0; 255; 0; 0; 0]; [255; 0; 0; 0; 0; 0; 0; 0]; [255; 0; 0; 0; 255; 0; 0; 0]; [0; 255; 255; 255; 0; 0; 0; 0]; [0; 0; 0; 0; 0; 0; 0; 0]];
   [[0; 0; 0; 0; 255; 0; 0; 0]; [0; 0; 0; 0; 255; 0; 0; 0]; [0; 255; 255; 0; 255; 0; 0; 0]; [255; 0; 0; 255; 255; 0; 0; 0]; [255; 0; 0; 0; 255; 0; 0; 0]; [255; 0; 0; 255; 255; 0; 0; 0]; [0; 255; 255; 0; 255; 0; 0; 0]; [0; 0; 0; 0; 0; 0; 0; 0]];
   [[0; 0; 0; 0; 0; 0; 0; 0]; [0; 0; 0; 0; 0; 0; 0; 0]; [0; 255; 255; 255; 0; 0; 0; 0]; [255; 0; 0; 0; 255; 0; 0; 0]; [255; 255; 255; 255; 255; 0; 0; 0]; [255; 0; 0; 0; 0; 0; 0; 0]; [0; 255; 255; 255; 0; 0; 0; 0]; [0; 0; 0; 0; 0; 0; 0; 0]];
   [[0; 0; 0; 255; 0; 0; 0; 0]; [0; 0; 255; 0; 255; 0; 0; 0]; [0; 0; 255; 0; 0; 0; 0; 0]; [255; 255; 255; 255; 255; 0; 0; 0]; [0; 0; 255; 0; 0; 0; 0; 0]; [0; 0; 255; 0; 0; 0; 0; 0]; [0; 0; 255; 0; 0; 0; 0; 0]; [0; 0; 0; 0; 0; 0; 0; 0]];
   [[0; 0; 0; 0; 0; 0; 0; 0]; [0; 0; 0; 0; 0; 0; 0; 0]; [0; 255; 255; 0; 255; 0; 0; 0]; [255; 0; 0; 255; 255; 0; 0; 0]; [255; 0; 0; 255; 255; 0; 0; 0]; [0; 255; 255; 0; 255; 0; 0; 0]; [0; 0; 0; 0; 255; 0; 0; 0]; [0; 255; 255; 255; 0; 0; 0; 0]];
   [[255; 0; 0; 0; 0; 0; 0; 0]; [255; 0; 0; 0; 0; 0; 0; 0]; [255; 255; 255; 255; 0; 0; 0; 0]; [255; 0; 0; 0; 255; 0; 0; 0]; [255; 0; 0; 0; 255; 0; 0; 0]; [255; 0; 0; 0; 255; 0; 0; 0]; [255; 0; 0; 0; 255; 0; 0; 0]; [0; 0; 0; 0; 0; 0; 0; 0]];
   [[0; 0; 255; 0; 0; 0; 0; 0]; [0; 0; 0; 0; 0; 0; 0; 0]; [0; 255; 255; 0; 0; 0; 0; 0]; [0; 0; 255; 0; 0; 0; 0; 0]; [0; 0; 255; 0; 0; 0; 0; 0]; [0; 0; 255; 0; 0; 0; 0; 0]; [0; 255; 255; 255; 0; 0; 0; 0]; [0; 0; 0; 0; 0; 0; 0; 0]];
   [[0; 0; 0; 255; 0; 0; 0; 0]; [0; 0; 0; 0; 0; 0; 0; 0]; [0; 0; 255; 255; 0; 0; 0; 0]; [0; 0; 0; 255; 0; 0; 0; 0]; [0; 0; 0; 255; 0; 0; 0; 0]; [0; 0; 0; 255; 0; 0; 0; 0]; [255; 0; 0; 255; 0; 0; 0; 0]; [0; 255; 255; 0; 0; 0; 0; 0]];
   [[0; 255; 0; 0; 0; 0; 0; 0]; [0; 255; 0; 0; 0; 0; 0; 0]; [0; 255; 0; 0; 255; 0; 0; 0]; [0; 255; 0; 255; 0; 0; 0; 0]; [0; 255; 255; 0; 0; 0; 0; 0]; [0; 255; 0; 255; 0; 0; 0; 0]; [0; 255; 0; 0; 255; 0; 0; 0]; [0; 0; 0; 0; 0; 0; 0; 0]];
   [[0; 255; 255; 0; 0; 0; 0; 0]; [0; 0; 255; 0; 0; 0; 0; 0]; [0; 0; 255; 0; 0; 0; 0; 0]; [0; 0; 255; 0; 0; 0; 0; 0]; [0; 0; 255; 0; 0; 0; 0; 0]; [0; 0; 255; 0; 0; 0; 0; 0]; [0; 255; 255; 255; 0; 0; 0; 0]; [0; 0; 0; 0; 0; 0; 0; 0]];
   [[0; 0; 0; 0; 0; 0; 0; 0]; [0; 0; 0; 0; 0; 0; 0; 0]; [255; 255; 0; 255; 0; 0; 0; 0]; [255; 0; 255; 0; 255; 0; 0; 0]; [255; 0; 255; 0; 255; 0; 0; 0]; [255; 0; 255; 0; 255; 0; 0; 0]; [255; 0; 255; 0; 255; 0; 0; 0]; [0; 0; 0; 0; 0; 0; 0; 0]];
   [[0; 0; 0; 0; 0; 0; 0; 0]; [0; 0; 0; 0; 0; 0; 0; 0]; [255; 0; 255; 255; 0; 0; 0; 0]; [255; 255; 0; 0; 255; 0; 0; 0]; [255; 0; 0; 0; 255; 0; 0; 0]; [255; 0; 0; 0; 255; 0; 0; 0]; [255; 0; 0; 0; 255; 0; 0; 0]; [0; 0; 0; 0; 0; 0; 0; 0]];
   [[0; 0; 0; 0; 0; 0; 0; 0]; [0; 0; 0; 0; 0; 0; 0; 0]; [0; 255; 255; 255; 0; 0; 0; 0]; [255; 0; 0; 0; 255; 0; 0; 0]; [255; 0; 0; 0; 255; 0; 0; 0]; [255; 0; 0; 0; 255; 0; 0; 0]; [0; 255; 255; 255; 0; 0; 0; 0]; [0; 0; 0; 0; 0; 0; 0; 0]];
   [[0; 0; 0; 0; 0; 0; 0; 0]; [0; 0; 0; 0; 0; 0; 0; 0]; [255; 0; 255; 255; 0; 0; 0; 0]; [255; 255; 0; 0; 255; 0; 0; 0]; [255; 255; 0; 0; 255; 0; 0; 0]; [255; 0; 255; 255; 0; 0; 0; 0]; [255; 0; 0; 0; 0; 0; 0; 0]; [255; 0; 0; 0; 0; 0; 0; 0]];
   [[0; 0; 0; 0; 0; 0; 0; 0]; [0; 0; 0; 0; 0; 0; 0; 0]; [0; 255; 255; 0; 255; 0; 0; 0]; [255; 0; 0; 255; 255; 0; 0; 0]; [255; 0; 0; 255; 255; 0; 0; 0]; [0; 255; 255; 0; 255; 0; 0; 0]; [0; 0; 0; 0; 255; 0; 0; 0]; [0; 0; 0; 0; 255; 0; 0; 0]];
   [[0; 0; 0; 0; 0; 0; 0; 0]; [0; 0; 0; 0; 0; 0; 0; 0]; [255; 0; 255; 255; 0; 0; 0; 0]; [255; 255; 0; 0; 255; 0; 0; 0]; [255; 0; 0; 0; 0; 0; 0; 0]; [255; 0; 0; 0; 0; 0; 0; 0]; [255; 0; 0; 0; 0; 0; 0; 0]; [0; 0; 0; 0; 0; 0; 0; 0]];
   [[0; 0; 0; 0; 0; 0; 0; 0]; [0; 0; 0; 0; 0; 0; 0; 0]; [0; 255; 255; 255; 255; 0; 0; 0]; [255; 0; 0; 0; 0; 0; 0; 0]; [255; 255; 255; 255; 0; 0; 0; 0]; [0; 0; 0; 0; 255; 0; 0; 0]; [255; 255; 255; 255; 0; 0; 0; 0]; [0; 0; 0; 0; 0; 0; 0; 0]];
   [[0; 255; 0; 0; 0; 0; 0; 0]; [0; 255; 0; 0; 0; 0; 0; 0]; [255; 255; 255; 255; 0; 0; 0; 0]; [0; 255; 0; 0; 0; 0; 0; 0]; [0; 255; 0; 0; 0; 0; 0; 0]; [0; 255; 0; 0; 255; 0; 0; 0]; [0; 0; 255; 255; 0; 0; 0; 0]; [0; 0; 0; 0; 0; 0; 0; 0]];
   [[0; 0; 0; 0; 0; 0; 0; 0]; [0; 0; 0; 0; 0; 0; 0; 0]; [255; 0; 0; 255; 0; 0; 0; 0]; [255; 0; 0; 255; 0; 0; 0; 0]; [255; 0; 0; 255; 0; 0; 0; 0]; [255; 0; 0; 255; 0; 0; 0; 0]; [0; 255; 255; 0; 255; 0; 0; 0]; [0; 0; 0; 0; 0; 0; 0; 0]];
   [[0; 0; 0; 0; 0; 0; 0; 0]; [0; 0; 0; 0; 0; 0; 0; 0]; [255; 0; 0; 0; 255; 0; 0; 0]; [255; 0; 0; 0; 255; 0; 0; 0]; [255; 0; 0; 0; 255; 0; 0; 0]; [0; 255; 0; 255; 0; 0; 0; 0]; [0; 0; 255; 0; 0; 0; 0; 0]; [0; 0; 0; 0; 0; 0; 0; 0]];
   [[0; 0; 0; 0; 0; 0; 0; 0]; [0; 0; 0; 0; 0; 0; 0; 0]; [255; 0; 0; 0; 255; 0; 0; 0]; [255; 0; 255; 0; 255; 0; 0; 0]; [255; 0; 255; 0; 255; 0; 0; 0]; [255; 0; 255; 0; 255; 0; 0; 0]; [0; 255; 0; 255; 0; 0; 0; 0]; [0; 0; 0; 0; 0; 0; 0; 0]];
   [[0; 0; 0; 0; 0; 0; 0; 0]; [0; 0; 0; 0; 0; 0; 0; 0]; [255; 0; 0; 0; 255; 0; 0; 0]; [0; 255; 0; 255; 0; 0; 0; 0]; [0; 0; 255; 0; 0; 0; 0; 0]; [0; 255; 0; 255; 0; 0; 0; 0]; [255; 0; 0; 0; 255; 0; 0; 0]; [0; 0; 0; 0; 0; 0; 0; 0]];
   [[0; 0; 0; 0; 0; 0; 0; 0]; [0; 0; 0; 0; 0; 0; 0; 0]; [255; 0; 0; 0; 255; 0; 0; 0]; [255; 0; 0; 0; 255; 0; 0; 0]; [255; 0; 0; 255; 255; 0; 0; 0]; [0; 255; 255; 0; 255; 0; 0; 0]; [0; 0; 0; 0; 255; 0; 0; 0]; [0; 255; 255; 255; 0; 0; 0; 0]];
   [[0; 0; 0; 0; 0; 0; 0; 0]; [0; 0; 0; 0; 0; 0; 0; 0]; [255; 255; 255; 255; 255; 0; 0; 0]; [0; 0; 0; 255; 0; 0; 0; 0]; [0; 0; 255; 0; 0; 0; 0; 0]; [0; 255; 0; 0; 0; 0; 0; 0]; [255; 255; 255; 255; 255; 0; 0; 0]; [0; 0; 0; 0; 0; 0; 0; 0]];
   [[0; 0; 0; 255; 255; 0; 0; 0]; [0; 0; 255; 0; 0; 0; 0; 0]; [0; 0; 255; 0; 0; 0; 0; 0]; [0; 255; 0; 0; 0; 0; 0; 0]; [0; 0; 255; 0; 0; 0; 0; 0]; [0; 0; 255; 0; 0; 0; 0; 0]; [0; 0; 0; 255; 255; 0; 0; 0]; [0; 0; 0; 0; 0; 0; 0; 0]];
   [[0; 0; 255; 0; 0; 0; 0; 0]; [0; 0; 255; 0; 0; 0; 0; 0]; [0; 0; 255; 0; 0; 0; 0; 0]; [0; 0; 0; 0; 0; 0; 0; 0]; [0; 0; 255; 0; 0; 0; 0; 0]; [0; 0; 255; 0; 0; 0; 0; 0]; [0; 0; 255; 0; 0; 0; 0; 0]; [0; 0; 0; 0; 0; 0; 0; 0]];
   [[255; 255; 0; 0; 0; 0; 0; 0]; [0; 0; 255; 0; 0; 0; 0; 0]; [0; 0; 255; 0; 0; 0; 0; 0]; [0; 0; 0; 255; 0; 0; 0; 0]; [0; 0; 255; 0; 0; 0; 0; 0]; [0; 0; 255; 0; 0; 0; 0; 0]; [255; 255; 0; 0; 0; 0; 0; 0]; [0; 0; 0; 0; 0; 0; 0; 0]];
   [[0; 255; 0; 0; 0; 0; 0; 0]; [255; 0; 255; 0; 255; 0; 0; 0]; [0; 0; 0; 255; 0; 0; 0; 0]; [0; 0; 0; 0; 0; 0; 0; 0]; [0; 0; 0; 0; 0; 0; 0; 0]; [0; 0; 0; 0; 0; 0; 0; 0]; [0; 0; 0; 0; 0; 0; 0; 0]; [0; 0; 0; 0; 0; 0; 0; 0]]]
  ++ [replicate 8 (replicate 8 0)].

(** The table has the dimensions of its declaration. *)
Lemma font_dimensions :
  length font_8x8 = 128%nat /\ Forall (fun glyph => length glyph = 8%nat /\ Forall (fun row => length row = 8%nat /\ bytes row) glyph) font_8x8.
Proof.
  split; [reflexivity|]. assert (H : forallb (fun glyph => (length glyph =? 8)%nat && forallb (fun row => (length row =? 8)%nat &&
    forallb (fun b => (0 <=? b) && (b <? 256)) row) glyph) font_8x8 = true) by (vm_compute; reflexivity).
  apply List.Forall_forall. intros glyph Hg. apply (proj1 (forallb_forall _ _) H) in Hg as [H8 Hr]%andb_true_iff. split; [by apply Nat.eqb_eq|].
  apply List.Forall_forall. intros row Hrow. apply (proj1 (forallb_forall _ _) Hr) in Hrow as [Hl Hb]%andb_true_iff. split; [by apply Nat.eqb_eq|].
  apply List.Forall_forall. intros b Hin. apply (proj1 (forallb_forall _ _) Hb) in Hin. unfold is_byte. lia.
Qed.
