(* ===== verification/VncFb.v ===== *)
(** * VNC, the frame buffer: the first half of [src/vnc_server.cpp]

    What [run_fb] draws, and the messages [calculate_fb_update] makes of the
    frame buffer in the encodings raw, hextile, zlib and JPEG.  Buffers the code
    fills from front to back ([out[o++] = ...]) are the bytes written so far;
    their capacity is checked at every write. *)

From S2P Require Import Prelude ShmMessage Font.

(** ** Code *)

(** A loop whose body changes a state. *)
Fixpoint for_each {A S} (f : A -> S -> outcome S) (l : list A) (s : S) : outcome S :=
  match l with
  | [] => Ret s
  | a :: r => s ← f a s; for_each f r s
  end.

(** 0, ..., n-1 *)
Definition upto (n : Z) : list Z := map Z.of_nat (seq 0 (Z.to_nat n)).

Definition get_us (tv_sec tv_nsec : Z) : Z := u64 (tv_sec * 1000000 + tv_nsec / 1000).

Record frame_buffer := { fb_w : Z; fb_h : Z; fb_buffer : list Z }.

(** One row of a character, from column [cx] on; [break] ends the row. *)
Fixpoint draw_row (maxo o0 : Z) (r g b : Z) (pixels : list Z) (cx : Z) (buffer : list Z) : outcome (list Z) :=
  match pixels with
  | [] => Ret buffer
  | pixel_value :: pixels =>
    let o := o0 + cx * 3 in
    if o >=? maxo then Ret buffer else
    let on v := if pixel_value =? 0 then 0 else u8 v in
    buffer ← wr buffer o [on r; on g; on b];
    draw_row maxo o0 r g b pixels (cx + 1) buffer
  end.

Definition draw_char (w h x y i : Z) (r g b : Z) (c : Z) (buffer : list Z) : outcome (list Z) :=
  let glyph := nth (Z.to_nat (Z.land c 127)) font_8x8 [] in
  for_each (fun cy buffer => draw_row (w * h * 3) ((cy + y) * w * 3 + (x + i * 8) * 3) r g b (nth (Z.to_nat cy) glyph []) 0 buffer)
           (upto 8) buffer.

Definition draw_text (fb_in : frame_buffer) (x y : Z) (text : list Z) (r g b : Z) : outcome frame_buffer :=
  buffer ← for_each (fun i buffer => draw_char (fb_w fb_in) (fb_h fb_in) x y i r g b (nth (Z.to_nat i) text 0) buffer)
                    (upto (zlen text)) (fb_buffer fb_in);
  Ret {| fb_w := fb_w fb_in; fb_h := fb_h fb_in; fb_buffer := buffer |}.

(** The variables of [run_fb]. *)
Record fb_state := { f_x : Z; f_y : Z; f_dx : Z; f_dy : Z; f_latest_update : Z }.

Definition fb_init (fb : frame_buffer) : fb_state :=
  {| f_x := Z.quot (fb_w fb) 2; f_y := Z.quot (fb_h fb) 2; f_dx := 1; f_dy := 1; f_latest_update := 0 |}.

(** One coordinate of "bounce"; [r1] and [r2] are what [rand()] gives. *)
Definition bounce (x dx limit r1 r2 : Z) : Z * Z :=
  let x := x + dx in
  let '(x, dx) := if x >=? limit then (limit - 1, - (r1 mod 3 + 1)) else (x, dx) in
  if x <? 0 then (0, r2 mod 3 + 1) else (x, dx).

(** ["%02d"] for a number of at most two digits. *)
Definition format_02d (n : Z) : list Z := [48 + n / 10; 48 + n mod 10].

Definition clock_text (hour min sec : Z) : list Z :=
  format_02d hour ++ str ":" ++ format_02d min ++ str ":" ++ format_02d sec ++ str " - MyIP".

(** The pixel offsets of the two loops over the frame buffer. *)
Definition pixel_offsets (w h : Z) : list Z := concat (map (fun y => map (fun x => y * w * 3 + x * 3) (upto w)) (upto h)).

Definition fade_pixel (subn ox : Z) (buffer : list Z) : outcome (list Z) :=
  v ← rd buffer ox;
  if v >=? subn then wr buffer ox [v - subn] else Ret buffer.

(** A turn of [run_fb] at time [now], [hour]:[min]:[sec]; [r1] to [r5] are the
    results of [rand()].  The frame buffer's lock, unlocked at the end, was never
    locked; no other function uses it. *)
Definition run_fb_turn (now hour min sec r1 r2 r3 r4 r5 : Z) (st : fb_state) (fb_work : frame_buffer) : outcome (fb_state * frame_buffer) :=
  let '(x, dx) := bounce (f_x st) (f_dx st) (fb_w fb_work) r1 r3 in
  let '(y, dy) := bounce (f_y st) (f_dy st) (fb_h fb_work) r2 r4 in
  if u64 (now - f_latest_update st) >=? 999999 then
    let subn := r5 mod 5 + 1 in
    buffer ← for_each (fade_pixel subn) (pixel_offsets (fb_w fb_work) (fb_h fb_work)) (fb_buffer fb_work);
    fb ← draw_text {| fb_w := fb_w fb_work; fb_h := fb_h fb_work; fb_buffer := buffer |} x y (clock_text hour min sec) 255 255 255;
    Ret ({| f_x := x; f_y := y; f_dx := dx; f_dy := dy; f_latest_update := now |}, fb)
  else Ret ({| f_x := x; f_y := y; f_dx := dx; f_dy := dy; f_latest_update := f_latest_update st |}, fb_work).

(** [out[o++] = ...] into a buffer of [cap] bytes. *)
Definition put (cap : Z) (bs out : list Z) : outcome (list Z) :=
  if zlen out + zlen bs <=? cap then Ret (out ++ bs) else Fault OutOfBounds.

Definition rgb332 (r g b : Z) : Z := Z.lor (Z.lor (Z.land r 0xe0) (Z.land (Z.shiftr g 3) 0x1c)) (Z.shiftr b 6).

(** The bytes [encode_pixel] appends. *)
Definition encode_pixel (depth : Z) (p : Z * Z * Z) : list Z :=
  let '(r, g, b) := p in
  if (depth =? 32) || (depth =? 24) then [b; g; r; 255]
  else if depth =? 8 then [rgb332 r g b]
  else [].

Definition pixel_at (buffer : list Z) (o : Z) : outcome (Z * Z * Z) :=
  r ← rd buffer o;
  g ← rd buffer (o + 1);
  b ← rd buffer (o + 2);
  Ret (r, g, b).

(** The offsets of the pixels of the tile at [x], [y]. *)
Definition tile_offsets (w x y : Z) : list Z :=
  concat (map (fun ty => map (fun tx => (y + ty) * w * 3 + (x + tx) * 3) (upto 16)) (upto 16)).

(** The scan for a pixel of another colour, which ends at the first one. *)
Fixpoint scan_tile (buffer : list Z) (solid : Z * Z * Z) (offsets : list Z) : outcome bool :=
  match offsets with
  | [] => Ret false
  | o :: r =>
    p ← pixel_at buffer o;
    if negb (bool_decide (p = solid)) then Ret true else scan_tile buffer solid r
  end.

Definition hextile_tile (cap : Z) (buffer : list Z) (w depth : Z) (yx : Z * Z) (out : list Z) : outcome (list Z) :=
  let '(y, x) := yx in
  solid ← pixel_at buffer (y * w * 3 + x * 3);
  different ← scan_tile buffer solid (tile_offsets w x y);
  if different : bool then
    out ← put cap [1] out;
    for_each (fun o out => p ← pixel_at buffer o; put cap (encode_pixel depth p) out) (tile_offsets w x y) out
  else
    out ← put cap [2] out;
    put cap (encode_pixel depth solid) out.

(** 0, 16, 32, ... below [n] *)
Definition steps16 (n : Z) : list Z := map (fun i => i * 16) (upto ((n + 15) / 16)).

Definition tiles (w h : Z) : list (Z * Z) := concat (map (fun y => map (fun x => (y, x)) (steps16 w)) (steps16 h)).

Definition hextile (cap : Z) (buffer : list Z) (w h depth : Z) (out : list Z) : outcome (list Z) :=
  for_each (hextile_tile cap buffer w depth) (tiles w h) out.

(** The encoding chosen from the client's list. *)
Fixpoint choose_encoding (encodings : list Z) (ce : Z) : Z :=
  match encodings with
  | [] => ce
  | e :: rest => if e =? 6 then 6 else choose_encoding rest (if (e =? 5) || (e =? 21) then e else ce)
  end.

(** The offsets at which the pixels of a rectangle are read: the rows are taken to
    be [w] pixels apart, whatever the width of the frame buffer. *)
Definition rect_offsets (x y w h : Z) : list Z :=
  concat (map (fun yo => map (fun xo => (y + yo) * w * 3 + (x + xo) * 3) (upto w)) (upto h)).

(** One pixel at depth 1: bits shifted in, the number of bits, the bytes. *)
Definition depth1_pixel (cap : Z) (p : Z * Z * Z) (st : Z * Z * list Z) : outcome (Z * Z * list Z) :=
  let '(r, g, b) := p in
  let '(b_out, b_n, temp) := st in
  let bit := if (r + g + b) / 3 >=? 128 then 1 else 0 in
  let b_out := Z.lor (u8 (Z.shiftl b_out 1)) bit in
  let b_n := b_n + 1 in
  if b_n =? 8 then temp ← put cap [b_out] temp; Ret (b_out, 0, temp) else Ret (b_out, b_n, temp).

(** [temp] for the encodings raw and zlib: 24 bits are sent as 32. *)
Definition raw_pixels (cap : Z) (buffer : list Z) (depth : Z) (offsets : list Z) : outcome (list Z) :=
  if (depth =? 32) || (depth =? 24) || (depth =? 8) then
    for_each (fun o temp => p ← pixel_at buffer o; put cap (encode_pixel depth p) temp) offsets []
  else if depth =? 1 then
    st ← for_each (fun o st => p ← pixel_at buffer o; depth1_pixel cap p st) offsets (0, 0, []);
    Ret st.2
  else Ret [].

(** The 16 bytes in front: one rectangle. *)
Definition update_header (x y w h ce : Z) : list Z :=
  [0; 0; 0; 1; u8 (Z.shiftr x 8); Z.land x 255; u8 (Z.shiftr y 8); Z.land y 255;
   u8 (Z.shiftr w 8); Z.land w 255; u8 (Z.shiftr h 8); Z.land h 255;
   u8 (Z.shiftr ce 24); u8 (Z.shiftr ce 16); u8 (Z.shiftr ce 8); u8 ce].

(** zlib and libjpeg-turbo: [deflate] gives the bytes it writes for an input and
    the space it is told there is, and the stream afterwards; [tjCompress2] the
    image, or [None] when it fails. *)
Class Codecs := {
  z_stream : Type;
  strm_init : z_stream;
  deflate : z_stream -> list Z -> Z -> list Z * z_stream;
  total_out : z_stream -> Z;
  tjCompress2 : list Z -> Z -> Z -> option (list Z) }.

Section Update.
Context `{Codecs}.

(** [{ nullptr, 0 }] is [None]. *)
Definition calculate_fb_update (fb : frame_buffer) (encodings : list Z) (x y w h depth : Z) (prev_zsize : Z) (strm : z_stream)
  : outcome (option (list Z) * Z * z_stream) :=
  if (fb_w fb <? x + w) || (fb_h fb <? y + h) then Ret (None, prev_zsize, strm) else
  let ce := choose_encoding encodings 0 in
  let cap := 4 + 12 * 1 + w * h * 4 in
  message ← put cap (update_header x y w h ce) [];
  temp ← (if negb (ce =? 5) && negb (ce =? 21) then
            raw_pixels (w * h * 3 * 2) (fb_buffer fb) depth (rect_offsets x y w h)
          else Ret []);
  if ce =? 0 then
    message ← put cap temp message;
    Ret (Some message, prev_zsize, strm)
  else if ce =? 5 then
    message ← hextile cap (fb_buffer fb) w h depth message;
    Ret (Some message, prev_zsize, strm)
  else if ce =? 6 then
    let '(out, strm) := deflate strm temp (w * h * 3 * 2) in
    let size := u32 (total_out strm - prev_zsize) in
    message ← put cap [u8 (Z.shiftr size 24); u8 (Z.shiftr size 16); u8 (Z.shiftr size 8); u8 size] message;
    message ← put cap out message;
    Ret (Some message, u32 (total_out strm), strm)
  else
    match tjCompress2 (fb_buffer fb) w h with
    | None => Ret (Some message, prev_zsize, strm)
    | Some out => message ← put cap out message; Ret (Some message, prev_zsize, strm)
    end.

End Update.

(** ** Lemmas *)

Lemma for_each_inv {A S} (I : S -> Prop) (f : A -> S -> outcome S) (l : list A) (s : S) :
  (forall a s, a ∈ l -> I s -> exists s', f a s = Ret s' /\ I s') -> I s -> exists s', for_each f l s = Ret s' /\ I s'.
Proof.
  revert s. induction l as [|a l IH]; intros s Hf Hs; [by exists s|]. cbn [for_each].
  destruct (Hf a s) as (s1 & E & H1); [by left|done|]. rewrite E. mcbn. apply IH; [|done]. intros b t Hb. apply Hf. by right.
Qed.

Lemma for_each_step {A S} (f : A -> S -> outcome S) a l s s1 : f a s = Ret s1 -> for_each f (a :: l) s = for_each f l s1.
Proof. intros E. cbn [for_each]. by rewrite E. Qed.

Lemma for_each_fault {A S} (f : A -> S -> outcome S) a l s e : f a s = Fault e -> for_each f (a :: l) s = Fault e.
Proof. intros E. cbn [for_each]. by rewrite E. Qed.

Lemma elem_of_upto i n : i ∈ upto n <-> 0 <= i < n.
Proof.
  unfold upto. rewrite list_elem_of_In, in_map_iff. split.
  - intros (k & <- & Hk). apply in_seq in Hk. lia.
  - intros Hi. exists (Z.to_nat i). split; [lia|]. apply in_seq. lia.
Qed.

Lemma zlen_upto n : 0 <= n -> zlen (upto n) = n.
Proof. intros Hn. unfold zlen, upto. rewrite length_map, length_seq. lia. Qed.

Lemma elem_of_offsets (f : Z -> Z -> Z) a b o :
  o ∈ concat (map (fun y => map (f y) (upto a)) (upto b)) -> exists i j, 0 <= i < a /\ 0 <= j < b /\ o = f j i.
Proof.
  rewrite list_elem_of_In, in_concat. intros (l & Hl & Ho). apply in_map_iff in Hl as (j & <- & Hj).
  apply in_map_iff in Ho as (i & <- & Hi). apply list_elem_of_In, elem_of_upto in Hi, Hj. by exists i, j.
Qed.

Lemma zlen_offsets {A} (f : Z -> Z -> A) a b : 0 <= a -> 0 <= b ->
  zlen (concat (map (fun y => map (f y) (upto a)) (upto b))) = a * b.
Proof.
  intros Ha Hb. unfold zlen. rewrite length_concat, map_map.
  assert (Hm : map (fun y => length (map (f y) (upto a))) (upto b) = replicate (Z.to_nat b) (Z.to_nat a)).
  { unfold upto at 2. rewrite map_map. rewrite <- (length_seq (Z.to_nat b) 0) at 2. generalize (seq 0 (Z.to_nat b)). intros l.
    induction l as [|x l IH]; [done|]. cbn [map length replicate]. rewrite IH. f_equal. rewrite length_map. unfold upto. rewrite length_map, length_seq. done. }
  rewrite Hm. clear Hm. assert (E : forall k m, list_sum (replicate k m) = (k * m)%nat) by (induction k as [|k IH]; intros m; cbn; [done|by rewrite IH]).
  rewrite E. lia.
Qed.

(** A frame buffer of its size. *)
Definition fb_wf (fb : frame_buffer) : Prop :=
  0 < fb_w fb /\ 0 < fb_h fb /\ zlen (fb_buffer fb) = fb_w fb * fb_h fb * 3 /\ bytes (fb_buffer fb).

(** A buffer of [n] bytes. *)
Definition buf (n : Z) (l : list Z) : Prop := zlen l = n /\ bytes l.

Lemma wr_buf n l o bs : buf n l -> 0 <= o -> o + zlen bs <= n -> bytes bs -> exists l', wr l o bs = Ret l' /\ buf n l'.
Proof.
  intros [Hl Hb] Ho Hn Hbs. rewrite wr_ok by lia. eexists. split; [done|]. split; [rewrite zlen_splice; lia|].
  unfold splice. apply Forall_app. split; [by apply Forall_take|]. apply Forall_app. split; [done|by apply Forall_drop].
Qed.

Lemma draw_row_buf q k r g b pixels cx buffer : 0 <= k -> 0 <= cx -> buf (q * 3) buffer ->
  exists buffer', draw_row (q * 3) (k * 3) r g b pixels cx buffer = Ret buffer' /\ buf (q * 3) buffer'.
Proof.
  intros Hk. revert cx buffer. induction pixels as [|p pixels IH]; intros cx buffer Hc Hb; [by exists buffer|]. cbn [draw_row].
  destruct (Z.geb_spec (k * 3 + cx * 3) (q * 3)); [by exists buffer|].
  set (bs := [_; _; _]). destruct (wr_buf (q * 3) buffer (k * 3 + cx * 3) bs Hb) as (l & E & Hl); [lia|unfold zlen; cbn [bs length]; lia| |].
  { unfold bs. destruct (p =? 0); repeat constructor; (apply u8_byte || (unfold is_byte; lia)). }
  rewrite E. mcbn. apply IH; [lia|done].
Qed.

(** Drawing stays inside the frame buffer wherever the text begins. *)
Lemma draw_text_wf fb x y text r g b : fb_wf fb -> 0 <= x -> 0 <= y ->
  exists fb', draw_text fb x y text r g b = Ret fb' /\ fb_wf fb' /\ fb_w fb' = fb_w fb /\ fb_h fb' = fb_h fb.
Proof.
  intros (Hw & Hh & Hl & Hb) Hx Hy. unfold draw_text.
  destruct (for_each_inv (buf (fb_w fb * fb_h fb * 3))
    (fun i buffer => draw_char (fb_w fb) (fb_h fb) x y i r g b (nth (Z.to_nat i) text 0) buffer) (upto (zlen text)) (fb_buffer fb)) as (buffer & E & Hbuf & Hby); [|by split|].
  - intros i buffer Hi Hbuf. apply elem_of_upto in Hi. unfold draw_char. apply for_each_inv; [|done].
    intros cy bu Hcy Hbu. apply elem_of_upto in Hcy.
    replace ((cy + y) * fb_w fb * 3 + (x + i * 8) * 3) with (((cy + y) * fb_w fb + (x + i * 8)) * 3) by lia.
    apply draw_row_buf; [nia|lia|done].
  - rewrite E. mcbn. eexists. by repeat split.
Qed.

Lemma bounce_range x dx limit r1 r2 : 0 < limit -> 0 <= (bounce x dx limit r1 r2).1 < limit.
Proof.
  intros Hl. unfold bounce. destruct (Z.geb_spec (x + dx) limit); cbn [fst].
  - destruct (Z.ltb_spec (limit - 1) 0); cbn; lia.
  - destruct (Z.ltb_spec (x + dx) 0); cbn; lia.
Qed.

Lemma bounce_speed x dx limit r1 r2 : dx <> 0 /\ -3 <= dx <= 3 ->
  (bounce x dx limit r1 r2).2 <> 0 /\ -3 <= (bounce x dx limit r1 r2).2 <= 3.
Proof.
  intros Hd. unfold bounce. pose proof (Z.mod_pos_bound r1 3). pose proof (Z.mod_pos_bound r2 3).
  destruct (_ >=? _); destruct (_ <? _); cbn; lia.
Qed.

Lemma fade_wf w h subn buffer : 0 < w -> 0 < h -> 1 <= subn -> buf (w * h * 3) buffer ->
  exists buffer', for_each (fade_pixel subn) (pixel_offsets w h) buffer = Ret buffer' /\ buf (w * h * 3) buffer'.
Proof.
  intros Hw Hh Hs Hb. apply for_each_inv; [|done]. intros ox bu Ho Hbu. unfold pixel_offsets in Ho.
  apply (elem_of_offsets (fun y x => y * w * 3 + x * 3)) in Ho as (i & j & Hi & Hj & ->). destruct Hbu as [Hl Hby].
  assert (Ho : 0 <= j * w * 3 + i * 3 < zlen bu) by nia. destruct (rd_in bu _ Ho) as (v & Hv & E). unfold fade_pixel. rewrite E. mcbn.
  assert (is_byte v) as Hvb by (eapply Forall_lookup_1 in Hby; eauto). unfold is_byte in Hvb.
  destruct (Z.geb_spec v subn); [|by exists bu]. apply wr_buf; [done|lia|unfold zlen; cbn [length]; nia|].
  constructor; [unfold is_byte; lia|constructor].
Qed.

(** ** Pixels *)

Definition pixel (buffer : list Z) (o : Z) : Z * Z * Z :=
  (nth (Z.to_nat o) buffer 0, nth (Z.to_nat (o + 1)) buffer 0, nth (Z.to_nat (o + 2)) buffer 0).

Definition in_buffer (buffer : list Z) (o : Z) : Prop := 0 <= o /\ o + 3 <= zlen buffer.

Lemma rd_nth l i : 0 <= i < zlen l -> rd l i = Ret (nth (Z.to_nat i) l 0).
Proof. intros Hi. destruct (rd_in l i Hi) as (b & Hb & ->). by rewrite (nth_lookup_Some _ _ _ _ Hb). Qed.

Lemma pixel_at_ok buffer o : in_buffer buffer o -> pixel_at buffer o = Ret (pixel buffer o).
Proof. intros [H1 H2]. unfold pixel_at. rewrite !rd_nth by lia. done. Qed.

Definition encoded (buffer : list Z) (depth : Z) (offsets : list Z) : list Z :=
  concat (map (fun o => encode_pixel depth (pixel buffer o)) offsets).

Definition bytes_per_pixel (depth : Z) : Z := if (depth =? 32) || (depth =? 24) then 4 else if depth =? 8 then 1 else 0.

Lemma zlen_encode_pixel depth p : zlen (encode_pixel depth p) = bytes_per_pixel depth.
Proof. destruct p as [[r g] b]. unfold encode_pixel, bytes_per_pixel. destruct (_ || _); [done|]. by destruct (depth =? 8). Qed.

Lemma zlen_encoded buffer depth offsets : zlen (encoded buffer depth offsets) = zlen offsets * bytes_per_pixel depth.
Proof.
  unfold encoded. induction offsets as [|o offsets IH]; [done|]. cbn [map concat]. rewrite zlen_app, IH, zlen_encode_pixel, zlen_cons. lia.
Qed.

Lemma put_put cap a b out : (out ← put cap a out; put cap b out) = put cap (a ++ b) out.
Proof.
  unfold put. rewrite zlen_app. pose proof (zlen_nonneg b). destruct (Z.leb_spec (zlen out + zlen a) cap); mcbn.
  - rewrite zlen_app, app_assoc. by replace (zlen out + zlen a + zlen b) with (zlen out + (zlen a + zlen b)) by lia.
  - by replace (zlen out + (zlen a + zlen b) <=? cap) with false by lia.
Qed.

Lemma put_case cap b out : put cap b out = Ret (out ++ b) /\ zlen (out ++ b) <= cap \/ put cap b out = Fault OutOfBounds.
Proof. unfold put. rewrite zlen_app. destruct (Z.leb_spec (zlen out + zlen b) cap); auto. Qed.

Lemma put_nil cap out : zlen out <= cap -> put cap [] out = Ret out.
Proof. intros H. unfold put. change (@zlen Z []) with 0. rewrite app_nil_r. by replace (zlen out + 0 <=? cap) with true by lia. Qed.

(** A loop that appends succeeds exactly if all of it fits. *)
Lemma for_each_put {A} cap (f : A -> list Z -> outcome (list Z)) (g : A -> list Z) l out :
  (forall a out, a ∈ l -> zlen out <= cap -> f a out = put cap (g a) out) -> zlen out <= cap ->
  for_each f l out = put cap (concat (map g l)) out.
Proof.
  revert out. induction l as [|a l IH]; intros out Hf Hout; [by rewrite put_nil|].
  cbn [map concat]. rewrite <- put_put. cbn [for_each]. rewrite (Hf a out) by (by left || done).
  destruct (put_case cap (g a) out) as [[-> Hl]| ->]; [|done]. mcbn. apply IH; [|done]. intros b t Hb. apply Hf. by right.
Qed.

Lemma put_all cap buffer depth offsets out : Forall (in_buffer buffer) offsets -> zlen out <= cap ->
  for_each (fun o out => p ← pixel_at buffer o; put cap (encode_pixel depth p) out) offsets out =
  put cap (encoded buffer depth offsets) out.
Proof.
  intros Hin. apply (for_each_put cap _ (fun o => encode_pixel depth (pixel buffer o))). intros o t Ho _.
  apply (proj1 (list.Forall_forall _ _) Hin) in Ho. by rewrite (pixel_at_ok buffer o Ho).
Qed.

Lemma rect_in_buffer fb x y w h : fb_wf fb -> 0 <= x -> 0 <= y -> x + w <= fb_w fb -> y + h <= fb_h fb ->
  Forall (in_buffer (fb_buffer fb)) (rect_offsets x y w h).
Proof.
  intros (Hw & Hh & Hl & Hb) Hx Hy Hxw Hyh. apply list.Forall_forall. intros o Ho. unfold rect_offsets in Ho.
  apply (elem_of_offsets (fun yo xo => (y + yo) * w * 3 + (x + xo) * 3)) in Ho as (i & j & Hi & Hj & ->). unfold in_buffer. rewrite Hl.
  assert ((y + j) * w <= (y + j) * fb_w fb) by nia. assert ((y + j + 1) * fb_w fb <= fb_h fb * fb_w fb) by nia. nia.
Qed.

Lemma zlen_rect x y w h : 0 <= w -> 0 <= h -> zlen (rect_offsets x y w h) = w * h.
Proof. apply (zlen_offsets (fun yo xo => (y + yo) * w * 3 + (x + xo) * 3)). Qed.

(** Depth 1: eight pixels to a byte; an incomplete byte at the end is lost. *)
Lemma depth1_pixels cap buffer offsets b_out b_n temp : Forall (in_buffer buffer) offsets ->
  0 <= b_n < 8 -> 8 * zlen temp + b_n + zlen offsets <= 8 * cap ->
  exists b_out' b_n' temp', for_each (fun o st => p ← pixel_at buffer o; depth1_pixel cap p st) offsets (b_out, b_n, temp) = Ret (b_out', b_n', temp') /\
    0 <= b_n' < 8 /\ 8 * zlen temp' + b_n' = 8 * zlen temp + b_n + zlen offsets.
Proof.
  intros Hin. revert b_out b_n temp. induction Hin as [|o offsets Ho _ IH]; intros b_out b_n temp Hb Hc.
  - exists b_out, b_n, temp. change (@zlen Z []) with 0 in *. split; [done|]. lia.
  - set (f := fun o st => _). rewrite zlen_cons in *. pose proof (zlen_nonneg offsets).
    assert (Hf : f o (b_out, b_n, temp) = depth1_pixel cap (pixel buffer o) (b_out, b_n, temp)) by (unfold f; by rewrite (pixel_at_ok buffer o Ho)).
    unfold pixel in Hf. cbn [depth1_pixel] in Hf. destruct (Z.eqb_spec (b_n + 1) 8).
    + unfold put in Hf. change (zlen [_]) with 1 in Hf. replace (zlen temp + 1 <=? cap) with true in Hf by lia. cbn [mbind outcome_bind] in Hf.
      rewrite (for_each_step f o offsets _ _ Hf). set (bo := Z.lor _ _).
      destruct (IH bo 0 (temp ++ [bo])) as (b1 & b2 & t & E & H1 & H2); [lia|rewrite zlen_app; change (zlen [bo]) with 1; lia|].
      exists b1, b2, t. split; [exact E|]. rewrite zlen_app in H2. change (zlen [bo]) with 1 in H2. lia.
    + rewrite (for_each_step f o offsets _ _ Hf). set (bo := Z.lor _ _).
      destruct (IH bo (b_n + 1) temp) as (b1 & b2 & t & E & H1 & H2); [lia|lia|]. exists b1, b2, t. split; [exact E|]. lia.
Qed.

Lemma zlen_update_header x y w h ce : zlen (update_header x y w h ce) = 16.
Proof. done. Qed.

(** ** Hextile *)

(** The bytes of a tile: its colour, or all its pixels. *)
Definition tile_bytes (buffer : list Z) (w depth : Z) (yx : Z * Z) : list Z :=
  let '(y, x) := yx in
  let solid := pixel buffer (y * w * 3 + x * 3) in
  if forallb (fun o => bool_decide (pixel buffer o = solid)) (tile_offsets w x y)
  then [2] ++ encode_pixel depth solid
  else [1] ++ encoded buffer depth (tile_offsets w x y).

Definition mixed_tile (buffer : list Z) (w : Z) (yx : Z * Z) : bool :=
  negb (forallb (fun o => bool_decide (pixel buffer o = pixel buffer (yx.1 * w * 3 + yx.2 * 3))) (tile_offsets w yx.2 yx.1)).

Lemma scan_tile_spec buffer solid offsets : Forall (in_buffer buffer) offsets ->
  scan_tile buffer solid offsets = Ret (negb (forallb (fun o => bool_decide (pixel buffer o = solid)) offsets)).
Proof.
  induction 1 as [|o offsets Ho _ IH]; [done|]. cbn [scan_tile forallb]. rewrite (pixel_at_ok buffer o Ho). mcbn.
  destruct (bool_decide _); cbn [negb andb]; [exact IH|done].
Qed.

Lemma hextile_tile_spec cap buffer w depth y x out : zlen out <= cap ->
  in_buffer buffer (y * w * 3 + x * 3) -> Forall (in_buffer buffer) (tile_offsets w x y) ->
  hextile_tile cap buffer w depth (y, x) out = put cap (tile_bytes buffer w depth (y, x)) out.
Proof.
  intros Hc Hs Ht. unfold hextile_tile, tile_bytes. rewrite (pixel_at_ok _ _ Hs). cbn [mbind outcome_bind]. rewrite (scan_tile_spec _ _ _ Ht).
  cbn [mbind outcome_bind]. destruct (forallb _ _); cbn [negb]; [apply put_put|].
  rewrite <- put_put. destruct (put_case cap [1] out) as [[-> Hl]| ->]; [|done]. cbn [mbind outcome_bind]. by apply put_all.
Qed.

Lemma zlen_tile_offsets w x y : zlen (tile_offsets w x y) = 256.
Proof. exact (zlen_offsets (fun ty tx => (y + ty) * w * 3 + (x + tx) * 3) 16 16 ltac:(lia) ltac:(lia)). Qed.

Lemma zlen_tile_bytes buffer w depth yx :
  zlen (tile_bytes buffer w depth yx) = if mixed_tile buffer w yx then 1 + 256 * bytes_per_pixel depth else 1 + bytes_per_pixel depth.
Proof.
  destruct yx as [y x]. unfold tile_bytes, mixed_tile. cbn [fst snd]. destruct (forallb _ _); cbn [negb]; rewrite zlen_app.
  - by rewrite zlen_encode_pixel.
  - by rewrite zlen_encoded, zlen_tile_offsets.
Qed.

Lemma in_tiles a b yx : 0 <= a -> 0 <= b -> yx ∈ tiles (16 * a) (16 * b) -> exists i j, 0 <= i < a /\ 0 <= j < b /\ yx = (j * 16, i * 16).
Proof.
  intros Ha Hb. unfold tiles, steps16. replace ((16 * a + 15) / 16) with a by (apply (Z.div_unique _ 16 a 15); lia).
  replace ((16 * b + 15) / 16) with b by (apply (Z.div_unique _ 16 b 15); lia).
  rewrite list_elem_of_In, in_concat. intros (l & Hl & Ho). apply in_map_iff in Hl as (y & <- & Hy). apply in_map_iff in Ho as (x & <- & Hx).
  apply in_map_iff in Hy as (j & <- & Hj). apply in_map_iff in Hx as (i & <- & Hi). apply list_elem_of_In, elem_of_upto in Hi, Hj. by exists i, j.
Qed.

Lemma zlen_tiles a b : 0 <= a -> 0 <= b -> zlen (tiles (16 * a) (16 * b)) = a * b.
Proof.
  intros Ha Hb. unfold tiles, steps16. replace ((16 * a + 15) / 16) with a by (apply (Z.div_unique _ 16 a 15); lia).
  replace ((16 * b + 15) / 16) with b by (apply (Z.div_unique _ 16 b 15); lia).
  rewrite map_map. rewrite <- (zlen_offsets (fun j i => (j * 16, i * 16)) a b) by done. do 2 f_equal. apply map_ext. intros j. apply map_map.
Qed.

Lemma tile_in_buffer buffer a b i j : zlen buffer >= 16 * a * (16 * b) * 3 -> 0 <= i < a -> 0 <= j < b ->
  in_buffer buffer (j * 16 * (16 * a) * 3 + i * 16 * 3) /\ Forall (in_buffer buffer) (tile_offsets (16 * a) (i * 16) (j * 16)).
Proof.
  intros Hl Hi Hj. split; [unfold in_buffer; nia|]. apply list.Forall_forall. intros o Ho. unfold tile_offsets in Ho.
  apply (elem_of_offsets (fun ty tx => (j * 16 + ty) * (16 * a) * 3 + (i * 16 + tx) * 3)) in Ho as (tx & ty & Hx & Hy & ->).
  unfold in_buffer. assert (H1 : j * 16 + ty <= 16 * b - 1) by lia. assert (H2 : i * 16 + tx <= 16 * a - 1) by lia.
  split; [nia|]. nia.
Qed.

Definition hextile_bytes (buffer : list Z) (w h depth : Z) : list Z := concat (map (tile_bytes buffer w depth) (tiles w h)).

Lemma hextile_spec cap buffer a b depth out : 0 <= a -> 0 <= b -> zlen buffer >= 16 * a * (16 * b) * 3 -> zlen out <= cap ->
  hextile cap buffer (16 * a) (16 * b) depth out = put cap (hextile_bytes buffer (16 * a) (16 * b) depth) out.
Proof.
  intros Ha Hb Hl Hout. apply for_each_put; [|done]. intros yx t Hyx Ht. apply in_tiles in Hyx as (i & j & Hi & Hj & ->); [|done|done].
  destruct (tile_in_buffer buffer a b i j Hl Hi Hj). by apply hextile_tile_spec.
Qed.

(** ** The size of an update *)

Lemma for_each_keeps {A S} (I : S -> Prop) (f : A -> S -> outcome S) (l : list A) (s s' : S) :
  (forall a s s', f a s = Ret s' -> I s -> I s') -> for_each f l s = Ret s' -> I s -> I s'.
Proof.
  intros Hf. revert s. induction l as [|a l IH]; intros s; cbn [for_each]; [by intros [= <-]|].
  destruct (f a s) as [s1|e] eqn:E; [|done]. mcbn. intros E1 Hs. apply (IH s1 E1). by eapply Hf.
Qed.

Lemma put_le cap b out out' : put cap b out = Ret out' -> zlen out' <= cap.
Proof. destruct (put_case cap b out) as [[-> Hl]| ->]; [|done]. by intros [= <-]. Qed.

Lemma hextile_le cap buffer w h depth out out' :
  hextile cap buffer w h depth out = Ret out' -> zlen out <= cap -> zlen out' <= cap.
Proof.
  apply (for_each_keeps (fun out => zlen out <= cap)). intros [y x] o o'. unfold hextile_tile.
  destruct (pixel_at buffer (y * w * 3 + x * 3)) as [solid|]; mcbn; [|done]. destruct (scan_tile _ _ _) as [[]|]; mcbn; [| |done].
  - destruct (put cap [1] o) as [o1|] eqn:E1; [|done]. mcbn. intros E _. apply put_le in E1.
    revert E E1. apply (for_each_keeps (fun out => zlen out <= cap)). intros off a b. destruct (pixel_at buffer off) as [p|]; [|done].
    mcbn. intros E _. by apply put_le in E.
  - destruct (put cap [2] o) as [o1|]; [|done]. mcbn. intros E _. by apply put_le in E.
Qed.

Lemma update_le `{Codecs} fb encodings x y w h depth prev_zsize strm message prev strm' :
  calculate_fb_update fb encodings x y w h depth prev_zsize strm = Ret (Some message, prev, strm') ->
  zlen message <= 16 + w * h * 4 /\ x + w <= fb_w fb /\ y + h <= fb_h fb.
Proof.
  unfold calculate_fb_update. destruct (Z.ltb_spec (fb_w fb) (x + w)); [done|]. destruct (Z.ltb_spec (fb_h fb) (y + h)); [done|]. cbn [orb].
  set (cap := 4 + 12 * 1 + w * h * 4). change (16 + w * h * 4) with cap. set (ce := choose_encoding encodings 0).
  destruct (put cap _ []) as [m0|] eqn:E0; [|done]. apply put_le in E0. mcbn.
  destruct (if negb (ce =? 5) && negb (ce =? 21) then _ else _) as [temp|]; [|done]. mcbn.
  intros Hr. split; [|lia]. revert Hr. destruct (ce =? 0); [|destruct (ce =? 5); [|destruct (ce =? 6)]].
  - destruct (put cap temp m0) as [m1|] eqn:E1; [|done]. mcbn. intros [= <- _ _]. by apply put_le in E1.
  - destruct (hextile _ _ _ _ _ _) as [m1|] eqn:E1; [|done]. mcbn. intros [= <- _ _]. by eapply hextile_le.
  - destruct (deflate strm temp _) as [out strm1]. destruct (put cap _ m0) as [m1|]; [|done]. mcbn.
    destruct (put cap out m1) as [m2|] eqn:E2; [|done]. mcbn. intros [= <- _ _]. by apply put_le in E2.
  - destruct (tjCompress2 _ _ _) as [out|]; [|by intros [= <- _ _]]. destruct (put cap out m0) as [m1|] eqn:E1; [|done]. mcbn.
    intros [= <- _ _]. by apply put_le in E1.
Qed.

(** ** Properties *)

(** The drawing thread never writes outside the frame buffer: from the
    middle of a frame buffer of any size, every turn - whatever the clock and
    [rand] say - returns with the text's position inside it, a speed between one
    and three pixels, and the frame buffer of the same size. *)
Theorem run_fb_inside (turns : list (Z * (Z * Z * Z) * (Z * Z * Z * Z * Z))) (fb : frame_buffer) (Hfb : fb_wf fb) :
  exists st' fb',
    for_each (fun t s => let '(now, (hour, min, sec), (r1, r2, r3, r4, r5)) := t in run_fb_turn now hour min sec r1 r2 r3 r4 r5 s.1 s.2)
      turns (fb_init fb, fb) = Ret (st', fb') /\
    0 <= f_x st' < fb_w fb /\ 0 <= f_y st' < fb_h fb /\ f_dx st' <> 0 /\ -3 <= f_dx st' <= 3 /\ f_dy st' <> 0 /\ -3 <= f_dy st' <= 3 /\
    fb_w fb' = fb_w fb /\ fb_h fb' = fb_h fb /\ fb_wf fb'.
Proof.
  destruct (for_each_inv (fun s : fb_state * frame_buffer =>
    (0 <= f_x s.1 < fb_w fb /\ 0 <= f_y s.1 < fb_h fb) /\ (f_dx s.1 <> 0 /\ -3 <= f_dx s.1 <= 3) /\ (f_dy s.1 <> 0 /\ -3 <= f_dy s.1 <= 3) /\
    fb_w s.2 = fb_w fb /\ fb_h s.2 = fb_h fb /\ fb_wf s.2)
    (fun t s => let '(now, (hour, min, sec), (r1, r2, r3, r4, r5)) := t in run_fb_turn now hour min sec r1 r2 r3 r4 r5 s.1 s.2)
    turns (fb_init fb, fb)) as ([st' fb'] & E & (H1 & H2) & H3 & H4 & H5 & H6 & H7).
  - intros [[now [[hour min] sec]] [[[[r1 r2] r3] r4] r5]] [st fb1] _ (_ & Hdx & Hdy & Ew & Eh & Hwf). cbn [fst snd] in *. unfold run_fb_turn.
    destruct Hwf as (Hw & Hh & Hl & Hb).
    pose proof (bounce_range (f_x st) (f_dx st) (fb_w fb1) r1 r3 Hw) as Bx. pose proof (bounce_range (f_y st) (f_dy st) (fb_h fb1) r2 r4 Hh) as By.
    pose proof (bounce_speed (f_x st) (f_dx st) (fb_w fb1) r1 r3 Hdx) as Sx. pose proof (bounce_speed (f_y st) (f_dy st) (fb_h fb1) r2 r4 Hdy) as Sy.
    destruct (bounce (f_x st) (f_dx st) (fb_w fb1) r1 r3) as [x dx], (bounce (f_y st) (f_dy st) (fb_h fb1) r2 r4) as [y dy]. cbn [fst snd] in *.
    destruct (_ >=? 999999).
    + pose proof (Z.mod_pos_bound r5 5).
      destruct (fade_wf (fb_w fb1) (fb_h fb1) (r5 mod 5 + 1) (fb_buffer fb1) Hw Hh) as (bu & E & Hbl & Hbb); [lia|by split|].
      rewrite E. mcbn. destruct (draw_text_wf {| fb_w := fb_w fb1; fb_h := fb_h fb1; fb_buffer := bu |} x y (clock_text hour min sec) 255 255 255)
        as (fb2 & E2 & Hwf2 & Ew2 & Eh2); [by repeat split|lia|lia|].
      rewrite E2. mcbn. eexists. split; [done|]. cbn [fst snd f_x f_y f_dx f_dy fb_w fb_h] in *.
      split; [lia|]. split; [done|]. split; [done|]. split; [congruence|]. split; [congruence|done].
    + eexists. split; [done|]. cbn [fst snd f_x f_y f_dx f_dy]. split; [lia|]. split; [done|]. split; [done|]. by repeat split.
  - destruct Hfb as (Hw & Hh & Hl & Hb). cbn [fst snd fb_init f_x f_y f_dx f_dy]. rewrite !Z.quot_div_nonneg by lia.
    pose proof (Z.div_lt_upper_bound (fb_w fb) 2 (fb_w fb)). pose proof (Z.div_lt_upper_bound (fb_h fb) 2 (fb_h fb)).
    pose proof (Z.div_pos (fb_w fb) 2). pose proof (Z.div_pos (fb_h fb) 2).
    split; [lia|]. split; [lia|]. split; [lia|]. by repeat split.
  - exists st', fb'. split; [exact E|]. cbn [fst snd] in *. split; [lia|]. split; [lia|]. repeat split; (lia || apply H7).
Qed.

Definition ex_fb (w h : Z) : frame_buffer := {| fb_w := w; fb_h := h; fb_buffer := map (fun i => (i * 37) mod 256) (upto (w * h * 3)) |}.

Lemma ex_fb_wf w h : 0 < w -> 0 < h -> fb_wf (ex_fb w h).
Proof.
  intros Hw Hh. split; [done|]. split; [done|]. cbn [ex_fb fb_w fb_h fb_buffer]. split.
  - unfold zlen. rewrite length_map. fold (zlen (upto (w * h * 3))). rewrite zlen_upto by nia. done.
  - apply Forall_map, list.Forall_forall. intros i _. unfold is_byte. apply Z.mod_pos_bound. lia.
Qed.

Lemma run_fb_inside_witness :
  exists st' fb',
    for_each (fun t s => let '(now, (hour, min, sec), (r1, r2, r3, r4, r5)) := t in run_fb_turn now hour min sec r1 r2 r3 r4 r5 s.1 s.2)
      [(2000000, (12, 34, 56), (0, 1, 2, 3, 4)); (2500000, (12, 34, 56), (0, 1, 2, 3, 4)); (4000000, (12, 34, 58), (7, 8, 9, 10, 11))]
      (fb_init (ex_fb 4 3), ex_fb 4 3) = Ret (st', fb') /\ 0 <= f_x st' < 4 /\ 0 <= f_y st' < 3.
Proof.
  destruct (run_fb_inside [(2000000, (12, 34, 56), (0, 1, 2, 3, 4)); (2500000, (12, 34, 56), (0, 1, 2, 3, 4)); (4000000, (12, 34, 58), (7, 8, 9, 10, 11))]
    (ex_fb 4 3)) as (st' & fb' & E & H1 & H2 & _).
  - apply ex_fb_wf; lia.
  - exists st', fb'. split; [exact E|]. split; [exact H1|exact H2].
Defined.

(** The pixels of a rectangle of a frame buffer of width [fbw], row by row. *)
Definition rect_pixels (fbw x y w h : Z) : list Z :=
  concat (map (fun yo => map (fun xo => ((y + yo) * fbw + (x + xo)) * 3) (upto w)) (upto h)).

(** The offsets read are those of the rectangle if it is as wide as the frame buffer. *)
Lemma rect_offsets_full w x y h : rect_offsets x y w h = rect_pixels w x y w h.
Proof.
  unfold rect_offsets, rect_pixels. f_equal. apply map_ext. intros yo. apply map_ext. intros xo. lia.
Qed.

(** The client's list asks for neither hextile, zlib nor JPEG. *)
Definition asks_raw (encodings : list Z) : Prop := choose_encoding encodings 0 = 0.

Section Properties.
Context `{Codecs}.

(** C36: a raw update of a rectangle within the frame buffer is its header and
    as many pixels as the rectangle has, four bytes each at depths 24 and 32 and
    one at depth 8, an eighth of a byte at depth 1; it never exceeds the
    buffer it is built in, and reads nothing outside the frame buffer.  The pixels are those of the rectangle, row by
    row, if it is as wide as the frame buffer; the rows of a narrower one are taken to be
    as far apart as it is wide.  At any other depth the header announces pixels that do not
    follow.  A rectangle that leaves the frame buffer is not sent. *)
Theorem vnc_update_raw (fb : frame_buffer) (encodings : list Z) (x y w h depth prev_zsize : Z) (strm : z_stream)
  (Hfb : fb_wf fb) (Hx : 0 <= x) (Hy : 0 <= y) (Hw : 0 <= w) (Hh : 0 <= h) (Hraw : asks_raw encodings) :
  let offsets := rect_offsets x y w h in
  if (x + w <=? fb_w fb) && (y + h <=? fb_h fb) then
    exists body, calculate_fb_update fb encodings x y w h depth prev_zsize strm = Ret (Some (update_header x y w h 0 ++ body), prev_zsize, strm) /\
      zlen offsets = w * h /\
      (w = fb_w fb -> offsets = rect_pixels (fb_w fb) x y w h) /\
      ((depth = 8 \/ depth = 24 \/ depth = 32) ->
         body = encoded (fb_buffer fb) depth offsets /\ zlen body = w * h * (if depth =? 8 then 1 else 4)) /\
      (depth = 1 -> zlen body = w * h / 8) /\
      (depth <> 1 -> depth <> 8 -> depth <> 24 -> depth <> 32 -> body = [])
  else calculate_fb_update fb encodings x y w h depth prev_zsize strm = Ret (None, prev_zsize, strm).
Proof.
  intros offsets. unfold calculate_fb_update.
  destruct (Z.leb_spec (x + w) (fb_w fb)); cbn [andb]; [|by replace (fb_w fb <? x + w) with true by lia].
  destruct (Z.leb_spec (y + h) (fb_h fb)); cbn [andb]; [|by replace (fb_h fb <? y + h) with true by lia; rewrite orb_true_r].
  replace (fb_w fb <? x + w) with false by lia. replace (fb_h fb <? y + h) with false by lia. cbn [orb]. rewrite Hraw.
  change (negb (0 =? 5) && negb (0 =? 21)) with true. change (0 =? 0) with true. cbn iota.
  pose proof (rect_in_buffer fb x y w h Hfb Hx Hy ltac:(lia) ltac:(lia)) as Hin. pose proof (zlen_rect x y w h Hw Hh) as Hz.
  fold offsets in Hin, Hz |- *. pose proof (Z.mul_nonneg_nonneg w h Hw Hh) as Hwh.
  set (header := update_header x y w h 0). assert (Lh : zlen header = 16) by done.
  set (cap := 4 + 12 * 1 + w * h * 4). assert (Hput : put cap header [] = Ret header) by (unfold put; change (@zlen Z []) with 0; by replace (0 + zlen header <=? cap) with true by (unfold cap; lia)).
  rewrite Hput. cbn [mbind outcome_bind].
  assert (Hbody : exists body, raw_pixels (w * h * 3 * 2) (fb_buffer fb) depth offsets = Ret body /\ zlen body <= w * h * 4 /\
      ((depth = 8 \/ depth = 24 \/ depth = 32) -> body = encoded (fb_buffer fb) depth offsets /\ zlen body = w * h * (if depth =? 8 then 1 else 4)) /\
      (depth = 1 -> zlen body = w * h / 8) /\ (depth <> 1 -> depth <> 8 -> depth <> 24 -> depth <> 32 -> body = [])).
  { unfold raw_pixels. destruct ((depth =? 32) || (depth =? 24) || (depth =? 8)) eqn:Ed.
    - rewrite put_all by (done || change (@zlen Z []) with 0; lia). exists (encoded (fb_buffer fb) depth offsets).
      assert (Hle : zlen (encoded (fb_buffer fb) depth offsets) = w * h * (if depth =? 8 then 1 else 4)).
      { rewrite zlen_encoded, Hz. unfold bytes_per_pixel. destruct (Z.eqb_spec depth 32) as [->|]; [done|]. destruct (Z.eqb_spec depth 24) as [->|]; [done|].
        cbn [orb] in *. by rewrite Ed. }
      unfold put. change (@zlen Z []) with 0. rewrite Hle. split; [|split; [destruct (depth =? 8); lia|split; [done|lia]]].
      by replace (0 + _ <=? _) with true by (destruct (depth =? 8); lia).
    - destruct (Z.eqb_spec depth 1) as [->|].
      + destruct (depth1_pixels (w * h * 3 * 2) (fb_buffer fb) offsets 0 0 [] Hin) as (b1 & b2 & t & E & D1 & D2); [lia|change (@zlen Z []) with 0; lia|].
        rewrite E. cbn [mbind outcome_bind]. exists t. change (@zlen Z []) with 0 in D2. rewrite Hz in D2. cbn [snd].
        split; [done|]. split; [lia|]. split; [lia|]. split; [|lia]. intros _. apply (Z.div_unique _ 8 _ b2); lia.
      + exists []. split; [done|]. split; [change (@zlen Z []) with 0; lia|]. split; [lia|]. split; [lia|done]. }
  destruct Hbody as (body & -> & Hle & Hrest). cbn [mbind outcome_bind]. exists body.
  split; [|split; [done|split; [intros <-; apply rect_offsets_full|exact Hrest]]].
  unfold put. by replace (zlen header + zlen body <=? cap) with true by (unfold cap; lia).
Qed.

(** C37: the hextile encoding may exceed the buffer it is built in.  For a
    rectangle of whole tiles the update is the header and the tiles, and fits
    exactly if these take at most four bytes a pixel.  At depth 8 it
    always fits; at depths 24 and 32 every tile of several colours takes a byte more than four a
    pixel, so that an image of such tiles is written past the end.  A rectangle of a
    single pixel is encoded as a whole tile and never fits at depths 24 and 32. *)
Theorem vnc_update_hextile (fb : frame_buffer) (encodings : list Z) (x y a b depth prev_zsize : Z) (strm : z_stream)
  (Hfb : fb_wf fb) (Hx : 0 <= x) (Hy : 0 <= y) (Ha : 0 < a) (Hb : 0 < b) (Hxw : x + 16 * a <= fb_w fb) (Hyh : y + 16 * b <= fb_h fb)
  (Hce : choose_encoding encodings 0 = 5) :
  let w := 16 * a in
  let h := 16 * b in
  let body := hextile_bytes (fb_buffer fb) w h depth in
  calculate_fb_update fb encodings x y w h depth prev_zsize strm =
    (if zlen body <=? w * h * 4 then Ret (Some (update_header x y w h 5 ++ body), prev_zsize, strm) else Fault OutOfBounds) /\
  (depth = 8 -> zlen body <= w * h * 4) /\
  (depth = 24 \/ depth = 32 -> Forall (fun yx => mixed_tile (fb_buffer fb) w yx = true) (tiles w h) -> zlen body = w * h * 4 + a * b) /\
  (depth = 24 \/ depth = 32 -> calculate_fb_update fb encodings x y 1 1 depth prev_zsize strm = Fault OutOfBounds).
Proof.
  intros w h body. destruct Hfb as (Fw & Fh & Fl & Fb).
  assert (Hlb : zlen (fb_buffer fb) >= w * h * 3) by (rewrite Fl; unfold w, h; nia). assert (Hwh : 0 < w * h) by (unfold w, h; nia).
  assert (Hupd : forall x y w h, x + w <= fb_w fb -> y + h <= fb_h fb -> 0 <= w * h -> calculate_fb_update fb encodings x y w h depth prev_zsize strm =
    (message ← hextile (16 + w * h * 4) (fb_buffer fb) w h depth (update_header x y w h 5); Ret (Some message, prev_zsize, strm))).
  { intros x0 y0 w0 h0 K1 K2 K3. unfold calculate_fb_update. replace (fb_w fb <? x0 + w0) with false by lia. replace (fb_h fb <? y0 + h0) with false by lia.
    cbn [orb]. rewrite Hce. change (negb (5 =? 5) && negb (5 =? 21)) with false. change (5 =? 0) with false. change (5 =? 5) with true. cbn iota.
    set (header := update_header x0 y0 w0 h0 5). assert (Lh : zlen header = 16) by done. unfold put at 1. change (@zlen Z []) with 0. rewrite Lh.
    by replace (0 + 16 <=? 4 + 12 * 1 + w0 * h0 * 4) with true by lia. }
  assert (Hlen : zlen body = foldr (fun yx n => (if mixed_tile (fb_buffer fb) w yx then 1 + 256 * bytes_per_pixel depth else 1 + bytes_per_pixel depth) + n) 0 (tiles w h)).
  { unfold body, hextile_bytes. generalize (tiles w h). intros l. induction l as [|yx l IH]; [done|].
    cbn [map concat foldr]. by rewrite zlen_app, zlen_tile_bytes, IH. }
  assert (Hnt : zlen (tiles w h) = a * b) by (apply zlen_tiles; lia).
  split; [|split; [|split]].
  - rewrite Hupd by lia. unfold w, h. rewrite hextile_spec; [|lia|lia|exact Hlb|rewrite zlen_update_header; lia].
    fold w h body. set (header := update_header x y w h 5). assert (Lh : zlen header = 16) by done. unfold put. rewrite Lh.
    replace (16 + zlen body <=? 16 + w * h * 4) with (zlen body <=? w * h * 4) by lia. by destruct (zlen body <=? w * h * 4).
  - intros ->. rewrite Hlen. assert (Hle : forall l : list (Z * Z), foldr (fun yx n => (if mixed_tile (fb_buffer fb) w yx then 1 + 256 * bytes_per_pixel 8 else 1 + bytes_per_pixel 8) + n) 0 l <= 257 * zlen l).
    { induction l as [|yx l IH]; [done|]. cbn [foldr]. rewrite zlen_cons. change (bytes_per_pixel 8) with 1 in *. destruct (mixed_tile _ _ _); lia. }
    specialize (Hle (tiles w h)). rewrite Hnt in Hle. unfold w, h in *. nia.
  - intros Hd Hm. assert (Hbpp : bytes_per_pixel depth = 4) by (by destruct Hd as [-> | ->]). rewrite Hlen, Hbpp.
    assert (He : forall l, Forall (fun yx => mixed_tile (fb_buffer fb) w yx = true) l ->
      foldr (fun yx n => (if mixed_tile (fb_buffer fb) w yx then 1 + 256 * 4 else 1 + 4) + n) 0 l = 1025 * zlen l).
    { induction 1 as [|yx l Hyx _ IH]; [done|]. cbn [foldr]. rewrite zlen_cons, Hyx, IH. lia. }
    rewrite (He _ Hm), Hnt. unfold w, h. nia.
  - intros Hd. rewrite Hupd by nia. assert (Hbpp : bytes_per_pixel depth = 4) by (by destruct Hd as [-> | ->]).
    unfold hextile. change (tiles 1 1) with [(0, 0)]. cbn [for_each]. rewrite hextile_tile_spec.
    + unfold put. rewrite zlen_tile_bytes, Hbpp. set (header := update_header x y 1 1 5). assert (Lh : zlen header = 16) by done. rewrite Lh.
      replace (16 + (if mixed_tile (fb_buffer fb) 1 (0, 0) then 1 + 256 * 4 else 1 + 4) <=? 16 + 1 * 1 * 4) with false by (destruct (mixed_tile _ _ _); done). done.
    + change (zlen (update_header x y 1 1 5)) with 16. lia.
    + unfold in_buffer, w, h in *. nia.
    + apply list.Forall_forall. intros o Ho. unfold tile_offsets in Ho.
      apply (elem_of_offsets (fun ty tx => (0 + ty) * 1 * 3 + (0 + tx) * 3)) in Ho as (tx & ty & Htx & Hty & ->). unfold in_buffer, w, h in *. nia.
Qed.

End Properties.

(** A deflate that stores its input, for the examples. *)
Definition ex_codecs : Codecs :=
  {| z_stream := Z; strm_init := 0; deflate := fun n i space => (i, n + zlen i); total_out := fun n => n; tjCompress2 := fun _ _ _ => None |}.

(** Not the pixels of the rectangle, which is narrower than the frame buffer. *)
Lemma vnc_update_raw_witness :
  calculate_fb_update (H := ex_codecs) (ex_fb 4 3) [0; 1] 1 1 2 2 8 0 0 = Ret (Some (update_header 1 1 2 2 0 ++ [78; 188; 41; 151]), 0, 0) /\
  encoded (fb_buffer (ex_fb 4 3)) 8 (rect_pixels 4 1 1 2 2) = [41; 151; 224; 78].
Proof.
  split; [|vm_compute; reflexivity].
  destruct (vnc_update_raw (H := ex_codecs) (ex_fb 4 3) [0; 1] 1 1 2 2 8 0 0) as (body & E & _ & _ & H8 & _).
  - apply ex_fb_wf; lia.
  - lia.
  - lia.
  - lia.
  - lia.
  - reflexivity.
  - destruct H8 as [-> _]; [auto|]. rewrite E. vm_compute. reflexivity.
Defined.

Lemma vnc_update_hextile_witness :
  calculate_fb_update (H := ex_codecs) (ex_fb 16 16) [5] 0 0 16 16 32 0 0 = Fault OutOfBounds /\
  calculate_fb_update (H := ex_codecs) (ex_fb 16 16) [5] 0 0 1 1 32 0 0 = Fault OutOfBounds.
Proof.
  destruct (vnc_update_hextile (H := ex_codecs) (ex_fb 16 16) [5] 0 0 1 1 32 0 0) as (E & _ & H32 & H1).
  - apply ex_fb_wf; lia.
  - lia.
  - lia.
  - lia.
  - lia.
  - cbn. lia.
  - cbn. lia.
  - reflexivity.
  - split; [|apply H1; auto]. etransitivity; [exact E|]. vm_compute. reflexivity.
Defined.
