(* ===== verification/Vnc.v ===== *)
(** * VNC, the protocol: [process_vnc_request] of [src/vnc_server.cpp]

    The thread of a session: the handshake, then the commands of the client.  The
    thread reads the frame buffer while [run_fb] draws; [fb_at n] is what it
    holds at the [n]-th update.  The receive buffers are fresh ([junk]). *)

From S2P Require Import Prelude Net Str ShmMessage Transport L7 L7Safe L7Sessions VncFb.

(** ** Code *)

Inductive vnc_state_t : Set :=
| vs_initial_handshake_server_send
| vs_initial_handshake_client_resp
| vs_security_handshake_server
| vs_security_handshake_client_resp
| vs_client_init
| vs_server_init
| vs_running_waiting_cmd
| vs_running_waiting_data
| vs_running_waiting_data_extra
| vs_running_waiting_data_ignore
| vs_terminate.

#[global] Instance vnc_state_eq_dec : EqDecision vnc_state_t.
Proof. solve_decision. Defined.

Section Vnc.
Context `{Codecs}.

(** [vnc_session_t] and the local variables of the thread; [v_updates] counts
    the updates. *)
Record vnc := {
  v_state : vnc_state_t;
  v_prev_zsize : Z;
  v_strm : z_stream;
  v_depth : Z;
  v_encodings : list Z;
  v_n_encodings : Z;
  v_running_cmd : Z;
  v_ignore_data_n : Z;
  v_updates : nat }.

Definition vnc_init : vnc :=
  {| v_state := vs_initial_handshake_server_send; v_prev_zsize := 0; v_strm := strm_init; v_depth := 8; v_encodings := [];
     v_n_encodings := -1; v_running_cmd := -1; v_ignore_data_n := -1; v_updates := 0 |}.

Definition set_state (st : vnc_state_t) (v : vnc) : vnc :=
  {| v_state := st; v_prev_zsize := v_prev_zsize v; v_strm := v_strm v; v_depth := v_depth v; v_encodings := v_encodings v;
     v_n_encodings := v_n_encodings v; v_running_cmd := v_running_cmd v; v_ignore_data_n := v_ignore_data_n v; v_updates := v_updates v |}.

Definition set_cmd (cmd : Z) (v : vnc) : vnc :=
  {| v_state := v_state v; v_prev_zsize := v_prev_zsize v; v_strm := v_strm v; v_depth := v_depth v; v_encodings := v_encodings v;
     v_n_encodings := v_n_encodings v; v_running_cmd := cmd; v_ignore_data_n := v_ignore_data_n v; v_updates := v_updates v |}.

Definition set_depth (depth : Z) (v : vnc) : vnc :=
  {| v_state := v_state v; v_prev_zsize := v_prev_zsize v; v_strm := v_strm v; v_depth := depth; v_encodings := v_encodings v;
     v_n_encodings := v_n_encodings v; v_running_cmd := v_running_cmd v; v_ignore_data_n := v_ignore_data_n v; v_updates := v_updates v |}.

Definition set_ignore (n : Z) (v : vnc) : vnc :=
  {| v_state := v_state v; v_prev_zsize := v_prev_zsize v; v_strm := v_strm v; v_depth := v_depth v; v_encodings := v_encodings v;
     v_n_encodings := v_n_encodings v; v_running_cmd := v_running_cmd v; v_ignore_data_n := n; v_updates := v_updates v |}.

Definition set_encodings (encodings : list Z) (n : Z) (v : vnc) : vnc :=
  {| v_state := v_state v; v_prev_zsize := v_prev_zsize v; v_strm := v_strm v; v_depth := v_depth v; v_encodings := encodings;
     v_n_encodings := n; v_running_cmd := v_running_cmd v; v_ignore_data_n := v_ignore_data_n v; v_updates := v_updates v |}.

Definition set_zlib (prev : Z) (strm : z_stream) (v : vnc) : vnc :=
  {| v_state := v_state v; v_prev_zsize := prev; v_strm := strm; v_depth := v_depth v; v_encodings := v_encodings v;
     v_n_encodings := v_n_encodings v; v_running_cmd := v_running_cmd v; v_ignore_data_n := v_ignore_data_n v; v_updates := S (v_updates v) |}.

Variable junk : nat -> Z.
Variable fb_at : nat -> frame_buffer.

Definition recv_alloc (n : Z) : proc (option (list Z)) :=
  r ← precv (fresh junk n) n;
  mret (if r.1 =? n then Some r.2 else None).

(** [None]: the loop is left. *)
Definition obind {A B} (m : proc (option A)) (f : A -> proc (option B)) : proc (option B) :=
  r ← m;
  match r with
  | Some a => f a
  | None => mret None
  end.

Definition in_state (st : vnc_state_t) (v : vnc) : bool := bool_decide (v_state v = st).

Definition initial_message : list Z := str "RFB 003.008" ++ [10].

Definition vnc_handshake_send (v : vnc) : proc (option vnc) :=
  if in_state vs_initial_handshake_server_send v then
    rc ← psend initial_message;
    if rc =? -1 then mret None else mret (Some (set_state vs_initial_handshake_client_resp v))
  else mret (Some v).

Definition vnc_handshake_resp (v : vnc) : proc (option vnc) :=
  if in_state vs_initial_handshake_client_resp v then
    obind (recv_alloc 12) (fun handshake =>
    if beq (take 3 handshake) (str "RFB") then mret (Some (set_state vs_security_handshake_server v)) else mret None)
  else mret (Some v).

Definition vnc_security_send (v : vnc) : proc (option vnc) :=
  if in_state vs_security_handshake_server v then
    rc ← psend [1; 1];
    if rc =? -1 then mret None else mret (Some (set_state vs_security_handshake_client_resp v))
  else mret (Some v).

Definition vnc_security_resp (v : vnc) : proc (option vnc) :=
  if in_state vs_security_handshake_client_resp v then
    obind (recv_alloc 1) (fun chosen_sec =>
    if nth 0 chosen_sec 0 =? 1 then
      rc ← psend [0; 0; 0; 0];
      if rc =? -1 then mret None else mret (Some (set_state vs_client_init v))
    else
      _ ← psend [0; 0; 0; 1];
      mret None)
  else mret (Some v).

Definition vnc_client_init (v : vnc) : proc (option vnc) :=
  if in_state vs_client_init v then
    obind (recv_alloc 1) (fun _ => mret (Some (set_state vs_server_init v)))
  else mret (Some v).

Definition server_init_message (w h : Z) : list Z :=
  [u8 (Z.shiftr w 8); u8 (Z.land w 255); u8 (Z.shiftr h 8); u8 (Z.land h 255);
   32; 24; 1; 1; 0; 255; 0; 255; 0; 255; 16; 8; 0; 0; 0; 0; 0; 0; 0; 8] ++ str "MyIP(NG)".

Definition vnc_server_init (v : vnc) : proc (option vnc) :=
  if in_state vs_server_init v then
    rc ← psend (server_init_message (fb_w (fb_at (v_updates v))) (fb_h (fb_at (v_updates v))));
    if rc =? -1 then mret None else mret (Some (set_state vs_running_waiting_cmd v))
  else mret (Some v).

Definition vnc_cmd (v : vnc) : proc (option vnc) :=
  if in_state vs_running_waiting_cmd v then
    obind (recv_alloc 1) (fun cmd => mret (Some (set_state vs_running_waiting_data (set_cmd (nth 0 cmd 0) v))))
  else mret (Some v).

(** [(p[i] << 8) | p[i + 1]] *)
Definition be_u16 (p : list Z) (i : nat) : Z := Z.lor (Z.shiftl (nth i p 0) 8) (nth (S i) p 0).

(** The [int] of four bytes, the first of which is shifted by 24. *)
Definition be_s32 (a b c d : Z) : Z :=
  let x := u32 (Z.lor (Z.lor (Z.lor (Z.shiftl a 24) (Z.shiftl b 16)) (Z.shiftl c 8)) d) in
  if x <? 2 ^ 31 then x else x - 2 ^ 32.

(** [SetPixelFormat] *)
Definition vnc_set_pixel_format (v : vnc) : proc (option vnc) :=
  obind (recv_alloc 19) (fun pf => mret (Some (set_state vs_running_waiting_cmd (set_depth (nth 4 pf 0) v)))).

(** [SetEncodings] *)
Definition vnc_set_encodings (v : vnc) : proc (option vnc) :=
  obind (recv_alloc 3) (fun parameters =>
  mret (Some (set_state vs_running_waiting_data_extra (set_encodings (v_encodings v) (be_u16 parameters 1) v)))).

(** Behind a command whose parameters were received: [proceed]. *)
Definition proceed (v : vnc) : vnc := set_cmd (-1) (set_state vs_running_waiting_cmd v).

(** [FramebufferUpdateRequest] *)
Definition vnc_update_request (v : vnc) : proc (option vnc) :=
  obind (recv_alloc 9) (fun parameters =>
  let x := be_u16 parameters 1 in
  let y := be_u16 parameters 3 in
  let w := be_u16 parameters 5 in
  let h := be_u16 parameters 7 in
  u ← plift (calculate_fb_update (fb_at (v_updates v)) (v_encodings v) x y w h (v_depth v) (v_prev_zsize v) (v_strm v));
  let '(fb_message, prev_zsize, strm) := u in
  rc ← psend (default [] fb_message);
  if rc =? -1 then mret None else mret (Some (proceed (set_zlib prev_zsize strm v)))).

(** [KeyEvent] and [PointerEvent]: [n] bytes to ignore. *)
Definition vnc_ignore_event (n : Z) (v : vnc) : proc (option vnc) :=
  obind (recv_alloc n) (fun _ => mret (Some (proceed v))).

(** [ClientCutText] *)
Definition vnc_cut_text (v : vnc) : proc (option vnc) :=
  obind (recv_alloc 7) (fun p =>
  let ignore_data_n := be_s32 (nth 3 p 0) (nth 4 p 0) (nth 5 p 0) (nth 6 p 0) in
  mret (Some (set_state (if negb (ignore_data_n =? 0) then vs_running_waiting_data_ignore else vs_running_waiting_cmd)
                        (set_ignore ignore_data_n v)))).

Definition vnc_data (v : vnc) : proc (option vnc) :=
  if in_state vs_running_waiting_data v then
    let running_cmd := v_running_cmd v in
    if running_cmd =? 0 then vnc_set_pixel_format v
    else if running_cmd =? 2 then vnc_set_encodings v
    else if running_cmd =? 3 then vnc_update_request v
    else if running_cmd =? 4 then vnc_ignore_event 7 v
    else if running_cmd =? 5 then vnc_ignore_event 5 v
    else if running_cmd =? 6 then vnc_cut_text v
    else mret None
  else mret (Some v).

Definition vnc_data_ignore (v : vnc) : proc (option vnc) :=
  if in_state vs_running_waiting_data_ignore v then
    _ ← plift (assertb (v_ignore_data_n v >? 0));
    obind (recv_alloc (v_ignore_data_n v)) (fun _ => mret (Some (set_state vs_running_waiting_cmd (set_ignore (-1) v))))
  else mret (Some v).

(** The encodings in the list of the client, four bytes each. *)
Fixpoint parse_encodings (n : nat) (bin : list Z) : list Z :=
  match n with
  | O => []
  | S n => be_s32 (nth 0 bin 0) (nth 1 bin 0) (nth 2 bin 0) (Z.lor (nth 3 bin 0) (nth 3 bin 0)) :: parse_encodings n (drop 4 bin)
  end.

Definition vnc_data_extra (v : vnc) : proc (option vnc) :=
  if in_state vs_running_waiting_data_extra v then
    if v_running_cmd v =? 2 then
      obind (recv_alloc (v_n_encodings v * 4)) (fun encodings_bin =>
      mret (Some (set_state vs_running_waiting_cmd
        (set_encodings (parse_encodings (Z.to_nat (v_n_encodings v)) encodings_bin) (-1) v))))
    else mret None
  else mret (Some v).

(** One turn of the loop.  (The block for [cont_or_initial_upd_frame], which is
    never set, is left out.) *)
Definition vnc_turn (v : vnc) : proc (option vnc) :=
  obind (vnc_handshake_send v) (fun v =>
  obind (vnc_handshake_resp v) (fun v =>
  obind (vnc_security_send v) (fun v =>
  obind (vnc_security_resp v) (fun v =>
  obind (vnc_client_init v) (fun v =>
  obind (vnc_server_init v) (fun v =>
  obind (vnc_cmd v) (fun v =>
  obind (vnc_data v) (fun v =>
  obind (vnc_data_ignore v) vnc_data_extra)))))))).

Fixpoint vnc_loop (fuel : nat) (v : vnc) : proc unit :=
  st ← pstopped;
  if st : bool then mret tt else
  match fuel with
  | O => PCrash Diverges
  | S f =>
    r ← vnc_turn v;
    match r with
    | Some v => vnc_loop f v
    | None => mret tt
    end
  end.

Definition process_vnc_request (fuel : nat) : proc unit :=
  _ ← vnc_loop fuel vnc_init;
  _ ← pfin;
  pfinish.

End Vnc.

(** ** The client's side *)

(** The commands of RFC 6143, 7.5. *)
Inductive command : Type :=
| SetPixelFormat (padding format : list Z)
| SetEncodings (padding : Z) (encodings : list Z)
| UpdateRequest (incremental x y w h : Z)
| KeyEvent (parameters : list Z)
| PointerEvent (parameters : list Z)
| ClientCutText (padding text : list Z).

Definition command_bytes (c : command) : list Z :=
  match c with
  | SetPixelFormat padding format => [0] ++ padding ++ format
  | SetEncodings padding encodings => [2; padding] ++ be16 (zlen encodings) ++ concat (map be32 encodings)
  | UpdateRequest incremental x y w h => [3; incremental] ++ be16 x ++ be16 y ++ be16 w ++ be16 h
  | KeyEvent parameters => [4] ++ parameters
  | PointerEvent parameters => [5] ++ parameters
  | ClientCutText padding text => [6] ++ padding ++ be32 (zlen text) ++ text
  end.

Definition command_wf (c : command) : Prop :=
  match c with
  | SetPixelFormat padding format => zlen padding = 3 /\ zlen format = 16
  | SetEncodings _ encodings => zlen encodings < 2 ^ 16 /\ Forall (is_u 32) encodings
  | UpdateRequest _ x y w h => is_u 16 x /\ is_u 16 y /\ is_u 16 w /\ is_u 16 h
  | KeyEvent parameters => zlen parameters = 7
  | PointerEvent parameters => zlen parameters = 5
  | ClientCutText padding text => zlen padding = 3 /\ zlen text < 2 ^ 31
  end.

(** What the client says before its first command. *)
Definition client_hello (version : list Z) (shared : Z) : list Z := version ++ [1] ++ [shared].

Definition s32 (n : Z) : Z := if n <? 2 ^ 31 then n else n - 2 ^ 32.

Section Spec.
Context `{Codecs} (junk : nat -> Z) (fb_at : nat -> frame_buffer).

(** What a command does, and what is sent for it. *)
Definition command_effect (c : command) (v : vnc) : outcome (vnc * list (list Z)) :=
  match c with
  | SetPixelFormat _ format => Ret (set_depth (nth 1 format 0) (set_cmd 0 v), [])
  | SetEncodings _ encodings => Ret (set_encodings (map s32 encodings) (-1) (set_cmd 2 v), [])
  | UpdateRequest _ x y w h =>
    u ← calculate_fb_update (fb_at (v_updates v)) (v_encodings v) x y w h (v_depth v) (v_prev_zsize v) (v_strm v);
    let '(message, prev_zsize, strm) := u in
    Ret (set_cmd (-1) (set_zlib prev_zsize strm v), [default [] message])
  | KeyEvent _ | PointerEvent _ => Ret (set_cmd (-1) v, [])
  | ClientCutText _ text => Ret (set_ignore (if zlen text =? 0 then 0 else -1) (set_cmd 6 v), [])
  end.

Fixpoint commands_effect (cs : list command) (v : vnc) : outcome (vnc * list (list Z)) :=
  match cs with
  | [] => Ret (v, [])
  | c :: cs =>
    '(v, sends) ← command_effect c v;
    '(v, rest) ← commands_effect cs v;
    Ret (v, sends ++ rest)
  end.

(** ** Lemmas *)

Lemma be_u16_be16 x a r n : is_u 16 x -> zlen a = Z.of_nat n -> be_u16 (a ++ be16 x ++ r) n = x.
Proof.
  intros Hx Ha. unfold be_u16. assert (length a = n) as <- by (unfold zlen in Ha; lia).
  rewrite (app_nth2 a _ 0 (n := length a)), (app_nth2 a _ 0 (n := S (length a))) by lia.
  rewrite Nat.sub_diag. replace (S (length a) - length a)%nat with 1%nat by lia. cbn [be16 app nth].
  pose proof (u8_byte x) as Hb. unfold is_byte in Hb. rewrite shiftl_lor_add by (unfold is_u; lia). pose proof (be16_u8 x Hx). lia.
Qed.

Lemma be_s32_be32 n : is_u 32 n -> be_s32 (u8 (Z.shiftr n 24)) (u8 (Z.shiftr n 16)) (u8 (Z.shiftr n 8)) (u8 n) = s32 n.
Proof.
  intros Hn. pose proof (get_put_uint32 n [] Hn) as E. cbn in E. injection E as E. unfold be_s32. by rewrite E.
Qed.

Lemma parse_encodings_spec es rest : Forall (is_u 32) es ->
  parse_encodings (length es) (concat (map be32 es) ++ rest) = map s32 es.
Proof.
  induction 1 as [|e es He _ IH]; [done|]. cbn [length parse_encodings map concat]. rewrite <- app_assoc. cbn [be32 app nth drop]. rewrite drop_0, Z.lor_diag.
  rewrite be_s32_be32 by done. by rewrite IH.
Qed.

Lemma zlen_be32s es : zlen (concat (map be32 es)) = zlen es * 4.
Proof. induction es as [|e es IH]; [done|]. cbn [map concat]. rewrite zlen_app, IH, zlen_cons. change (zlen (be32 e)) with 4. lia. Qed.

Section Run.
Context `{Transport W} (P : W -> Prop) (HP : sends_succeed P) (session_id : Z) (out_name : list Z).

Notation data := (l7_sent out_name session_id 0).
Notation run := (run_stream session_id out_name).

Lemma run_recv {A} n (f : list Z -> proc (option A)) bs rest w : zlen bs = n ->
  run (obind (recv_alloc junk n) f) (bs ++ rest) w = run (f bs) rest w.
Proof.
  intros Hn. pose proof (zlen_nonneg bs). unfold obind, recv_alloc. cbn [mbind proc_bind precv run_stream].
  replace (n <=? zlen (bs ++ rest)) with true by (rewrite zlen_app; pose proof (zlen_nonneg rest); lia). cbn [mret proc_ret run_stream fst snd proc_bind].
  rewrite Z.eqb_refl. assert (length bs = Z.to_nat n) as Hl by (unfold zlen in Hn; lia).
  rewrite take_app_length', drop_app_length' by done. f_equal. f_equal. unfold splice. cbn [Z.to_nat take app Nat.add].
  rewrite drop_ge, app_nil_r; [done|]. unfold fresh. rewrite length_map, length_seq. lia.
Qed.

Lemma obind_some {A B} (a : A) (f : A -> proc (option B)) : obind (mret (Some a)) f = f a.
Proof. done. Qed.

Lemma in_state_ne v st st' : v_state v = st -> st' <> st -> in_state st' v = false.
Proof. intros Hv Hst. unfold in_state. rewrite Hv. apply bool_decide_eq_false_2. congruence. Qed.

Lemma in_state_eq v st : v_state v = st -> in_state st v = true.
Proof. intros Hv. by apply bool_decide_eq_true_2. Qed.

(** A turn in the state of waiting for a command. *)
Lemma turn_cmd v : v_state v = vs_running_waiting_cmd ->
  vnc_turn junk fb_at v = obind (vnc_cmd junk v) (fun v => obind (vnc_data junk fb_at v) (fun v => obind (vnc_data_ignore junk v) (vnc_data_extra junk))).
Proof.
  intros Hv. unfold vnc_turn.
  unfold vnc_handshake_send. rewrite (in_state_ne v _ _ Hv), obind_some by done. unfold vnc_handshake_resp. rewrite (in_state_ne v _ _ Hv), obind_some by done.
  unfold vnc_security_send. rewrite (in_state_ne v _ _ Hv), obind_some by done. unfold vnc_security_resp. rewrite (in_state_ne v _ _ Hv), obind_some by done.
  unfold vnc_client_init. rewrite (in_state_ne v _ _ Hv), obind_some by done. unfold vnc_server_init. by rewrite (in_state_ne v _ _ Hv), obind_some by done.
Qed.

Lemma run_cmd {A} v (f : vnc -> proc (option A)) cmd i w : v_state v = vs_running_waiting_cmd ->
  run (obind (vnc_cmd junk v) f) (cmd :: i) w = run (f (set_state vs_running_waiting_data (set_cmd cmd v))) i w.
Proof.
  intros Hv. unfold vnc_cmd, in_state. rewrite bool_decide_eq_true_2 by done.
  unfold obind at 1. rewrite run_stream_bind. change (cmd :: i) with ([cmd] ++ i). rewrite run_recv by done. done.
Qed.

Lemma run_obind {A B} (m : proc (option A)) (f : A -> proc (option B)) i w a i' w' :
  run m i w = (Done (Some a), i', w') -> run (obind m f) i w = run (f a) i' w'.
Proof. intros E. unfold obind. by rewrite run_stream_bind, E. Qed.

Lemma run_bind_crash {A B} (m : proc A) (f : A -> proc B) i w e :
  (run m i w).1.1 = Crash e -> (run (m ≫= f) i w).1.1 = Crash e.
Proof. rewrite run_stream_bind. destruct (run m i w) as [[r i'] w']. cbn. by intros ->. Qed.

(** The end of a turn that is back in the state of waiting for a command. *)
Lemma run_rest v i w : v_state v = vs_running_waiting_cmd ->
  run (obind (vnc_data_ignore junk v) (vnc_data_extra junk)) i w = (Done (Some v), i, w).
Proof. intros Hv. unfold vnc_data_ignore. rewrite (in_state_ne v _ _ Hv), obind_some by done. unfold vnc_data_extra. by rewrite (in_state_ne v _ _ Hv) by done. Qed.

(** A command whose data the state of waiting for data takes alone. *)
Lemma run_turn_data v v' cmd i rest w w' : v_state v = vs_running_waiting_cmd ->
  run (vnc_data junk fb_at (set_state vs_running_waiting_data (set_cmd cmd v))) i w = (Done (Some v'), rest, w') ->
  v_state v' = vs_running_waiting_cmd ->
  run (vnc_turn junk fb_at v) (cmd :: i) w = (Done (Some v'), rest, w').
Proof. intros Hv E Hv'. rewrite (turn_cmd v Hv), run_cmd by done. rewrite (run_obind _ _ _ _ _ _ _ E). by apply run_rest. Qed.

Lemma run_recv_ret {A} n (g : list Z -> A) bs rest w : zlen bs = n ->
  run (obind (recv_alloc junk n) (fun bs => mret (Some (g bs)))) (bs ++ rest) w = (Done (Some (g bs)), rest, w).
Proof. intros Hn. by rewrite run_recv. Qed.

(** What the parameters of an update request are read as. *)
Lemma run_update v x y w h incremental rest wd : is_u 16 x -> is_u 16 y -> is_u 16 w -> is_u 16 h -> P wd ->
  let r := run (vnc_update_request junk fb_at v) (([incremental] ++ be16 x ++ be16 y ++ be16 w ++ be16 h) ++ rest) wd in
  match calculate_fb_update (fb_at (v_updates v)) (v_encodings v) x y w h (v_depth v) (v_prev_zsize v) (v_strm v) with
  | Ret (message, prev, strm) => exists wd', r = (Done (Some (proceed (set_zlib prev strm v))), rest, wd') /\
      P wd' /\ t_log wd' = t_log wd ++ [data (default [] message)]
  | Fault e => r.1.1 = Crash e
  end.
Proof.
  intros Hx Hy Hw Hh HPw. unfold vnc_update_request. rewrite run_recv by done. cbn zeta.
  rewrite (be_u16_be16 x [incremental] _ 1 Hx) by done.
  rewrite (app_assoc [incremental]), (be_u16_be16 y ([incremental] ++ be16 x) _ 3 Hy) by done.
  rewrite (app_assoc ([incremental] ++ be16 x)), (be_u16_be16 w (([incremental] ++ be16 x) ++ be16 y) _ 5 Hw) by done.
  replace ((([incremental] ++ be16 x) ++ be16 y) ++ be16 w ++ be16 h) with (((([incremental] ++ be16 x) ++ be16 y) ++ be16 w) ++ be16 h ++ [])
    by (by rewrite app_nil_r, <- !app_assoc).
  rewrite (be_u16_be16 h _ [] 7 Hh) by done.
  destruct (calculate_fb_update _ _ _ _ _ _ _ _ _) as [[[message prev] strm]|e]; [|done]. cbn [plift mbind proc_bind psend run_stream].
  destruct (l7_send_log P out_name session_id 0 (default [] message) wd HP HPw) as (H1 & H2 & H3). rewrite H1.
  pose proof (zlen_nonneg (default [] message)). replace (zlen (default [] message) =? -1) with false by lia. by eexists.
Qed.

Lemma run_set_encodings v padding es rest w : v_state v = vs_running_waiting_cmd -> zlen es < 2 ^ 16 -> Forall (is_u 32) es ->
  run (vnc_turn junk fb_at v) ((2 :: padding :: be16 (zlen es) ++ concat (map be32 es)) ++ rest) w =
  (Done (Some (set_encodings (map s32 es) (-1) (set_cmd 2 v))), rest, w).
Proof.
  intros Hv Hn He. pose proof (zlen_nonneg es). rewrite (turn_cmd v Hv). change ((2 :: ?l) ++ rest) with (2 :: (l ++ rest)). rewrite run_cmd by done.
  set (v1 := set_state vs_running_waiting_data (set_cmd 2 v)).
  assert (E1 : run (vnc_data junk fb_at v1) ((padding :: be16 (zlen es) ++ concat (map be32 es)) ++ rest) w =
    (Done (Some (set_state vs_running_waiting_data_extra (set_encodings (v_encodings v1) (zlen es) v1))), concat (map be32 es) ++ rest, w)).
  { change (vnc_data junk fb_at v1) with (vnc_set_encodings junk v1). unfold vnc_set_encodings.
    change ((padding :: be16 (zlen es) ++ concat (map be32 es)) ++ rest) with (([padding] ++ be16 (zlen es)) ++ concat (map be32 es) ++ rest).
    rewrite run_recv_ret by done. do 6 f_equal. rewrite <- (app_nil_r (be16 (zlen es))). by apply be_u16_be16. }
  rewrite (run_obind _ _ _ _ _ _ _ E1). change (vnc_data_ignore junk ?x) with (mret (Some x) : proc (option vnc)). rewrite obind_some.
  unfold vnc_data_extra. rewrite in_state_eq by done. cbn [v_running_cmd set_state set_encodings v_n_encodings].
  change (v_running_cmd v1 =? 2) with true. cbn iota. rewrite run_recv_ret by (rewrite zlen_be32s; lia).
  replace (Z.to_nat (zlen es)) with (length es) by (unfold zlen; lia). pose proof (parse_encodings_spec es [] He) as Hp. rewrite app_nil_r in Hp. rewrite Hp.
  destruct v; cbn in *. by subst.
Qed.

Lemma run_cut_text v padding text rest w : v_state v = vs_running_waiting_cmd -> zlen padding = 3 -> zlen text < 2 ^ 31 ->
  run (vnc_turn junk fb_at v) ((6 :: padding ++ be32 (zlen text) ++ text) ++ rest) w =
  (Done (Some (set_ignore (if zlen text =? 0 then 0 else -1) (set_cmd 6 v))), rest, w).
Proof.
  intros Hv Hp Hn. pose proof (zlen_nonneg text). rewrite (turn_cmd v Hv). change ((6 :: ?l) ++ rest) with (6 :: (l ++ rest)). rewrite run_cmd by done.
  set (v1 := set_state vs_running_waiting_data (set_cmd 6 v)).
  set (v2 := set_state (if negb (zlen text =? 0) then vs_running_waiting_data_ignore else vs_running_waiting_cmd) (set_ignore (zlen text) v1)).
  assert (E1 : run (vnc_data junk fb_at v1) ((padding ++ be32 (zlen text) ++ text) ++ rest) w = (Done (Some v2), text ++ rest, w)).
  { change (vnc_data junk fb_at v1) with (vnc_cut_text junk v1). unfold vnc_cut_text. rewrite <- !app_assoc, (app_assoc padding).
    rewrite run_recv by (rewrite zlen_app; change (zlen (be32 _)) with 4; lia).
    destruct padding as [|p0 [|p1 [|p2 [|]]]]; try (unfold zlen in Hp; cbn [length] in Hp; lia). cbn [app be32 nth].
    rewrite be_s32_be32 by (unfold is_u; lia). unfold s32. by replace (zlen text <? 2 ^ 31) with true by lia. }
  rewrite (run_obind _ _ _ _ _ _ _ E1). unfold v2. destruct (Z.eqb_spec (zlen text) 0) as [E0|E0]; cbn [negb].
  - assert (text = []) as -> by (destruct text; [done|unfold zlen in E0; cbn [length] in E0; lia]).
    rewrite run_rest by done. destruct v; cbn in *. by subst.
  - unfold vnc_data_ignore. rewrite in_state_eq by done. cbn [v_ignore_data_n set_state set_ignore].
    replace (zlen text >? 0) with true by lia. cbn [assertb plift]. change (x ← PRet tt; ?m) with m.
    rewrite (run_obind _ _ _ _ _ _ _ (run_recv_ret (zlen text) (fun _ => set_state vs_running_waiting_cmd (set_ignore (-1) (set_state vs_running_waiting_data_ignore (set_ignore (zlen text) v1)))) text rest w eq_refl)).
    unfold vnc_data_extra. destruct v; cbn in *. by subst.
Qed.


(** A turn for a command. *)
Lemma run_command c v rest w : v_state v = vs_running_waiting_cmd -> command_wf c -> P w ->
  let r := run (vnc_turn junk fb_at v) (command_bytes c ++ rest) w in
  match command_effect c v with
  | Ret (v', sends) => exists w', r = (Done (Some v'), rest, w') /\ v_state v' = vs_running_waiting_cmd /\ P w' /\ t_log w' = t_log w ++ (data <$> sends)
  | Fault e => r.1.1 = Crash e
  end.
Proof.
  intros Hv Hc Hw. cbn zeta. assert (Hdone : forall v', v_state v' = vs_running_waiting_cmd ->
    run (vnc_turn junk fb_at v) (command_bytes c ++ rest) w = (Done (Some v'), rest, w) ->
    exists w', run (vnc_turn junk fb_at v) (command_bytes c ++ rest) w = (Done (Some v'), rest, w') /\
      v_state v' = vs_running_waiting_cmd /\ P w' /\ t_log w' = t_log w ++ (data <$> [])).
  { intros v' Hv' E. exists w. by rewrite app_nil_r. }
  destruct c as [padding format|padding es|incremental x y wx h|parameters|parameters|padding text]; cbn [command_bytes command_effect command_wf] in *.
  - destruct Hc as [Hp Hf]. apply Hdone; [done|]. rewrite <- (app_assoc [0]). apply run_turn_data; [done| |done].
    change (vnc_data junk fb_at ?x) with (vnc_set_pixel_format junk x). unfold vnc_set_pixel_format. rewrite run_recv_ret by (rewrite zlen_app; lia).
    destruct padding as [|p0 [|p1 [|p2 [|]]]]; try (unfold zlen in Hp; cbn [length] in Hp; lia). destruct v; cbn in *. by subst.
  - destruct Hc as [Hn He]. apply Hdone; [done|]. by apply run_set_encodings.
  - destruct Hc as (Hx & Hy & Hwx & Hh). pose proof (run_update (set_state vs_running_waiting_data (set_cmd 3 v)) x y wx h incremental rest w Hx Hy Hwx Hh Hw) as Hu.
    cbn [v_updates v_encodings v_depth v_prev_zsize v_strm set_state set_cmd] in Hu. cbn zeta in Hu.
    rewrite (turn_cmd v Hv). change ([3; incremental] ++ ?l) with (3 :: ([incremental] ++ l)). change ((3 :: ?l) ++ rest) with (3 :: (l ++ rest)).
    rewrite run_cmd by done. destruct (calculate_fb_update _ _ _ _ _ _ _ _ _) as [[[message prev] strm]|e]; mcbn.
    + destruct Hu as (w' & E & Hw' & Hl). exists w'. rewrite (run_obind _ _ _ _ _ _ _ E), run_rest by done. split; [|done].
      destruct v; cbn in *. by subst.
    + by apply run_bind_crash.
  - apply Hdone; [done|]. rewrite <- (app_assoc [4]). apply run_turn_data; [done| |done].
    change (vnc_data junk fb_at ?x) with (vnc_ignore_event junk 7 x). unfold vnc_ignore_event. rewrite run_recv_ret by done. destruct v; cbn in *. by subst.
  - apply Hdone; [done|]. rewrite <- (app_assoc [5]). apply run_turn_data; [done| |done].
    change (vnc_data junk fb_at ?x) with (vnc_ignore_event junk 5 x). unfold vnc_ignore_event. rewrite run_recv_ret by done. destruct v; cbn in *. by subst.
  - destruct Hc as [Hp Hn]. apply Hdone; [done|]. by apply run_cut_text.
Qed.

(** All of a client's commands. *)
Lemma run_commands cs fuel v rest w : v_state v = vs_running_waiting_cmd -> Forall command_wf cs -> P w ->
  let r := run (vnc_loop junk fb_at (length cs + fuel) v) (concat (map command_bytes cs) ++ rest) w in
  match commands_effect cs v with
  | Ret (v', sends) => exists w', r = run (vnc_loop junk fb_at fuel v') rest w' /\ v_state v' = vs_running_waiting_cmd /\ P w' /\
      t_log w' = t_log w ++ (data <$> sends)
  | Fault e => r.1.1 = Crash e
  end.
Proof.
  intros Hv Hcs. revert v w Hv. induction Hcs as [|c cs Hc _ IH]; intros v w Hv Hw; cbn zeta.
  - exists w. by rewrite app_nil_r.
  - cbn [map concat length commands_effect Nat.add vnc_loop]. rewrite <- app_assoc. cbn [mbind proc_bind pstopped run_stream].
    pose proof (run_command c v (concat (map command_bytes cs) ++ rest) w Hv Hc Hw) as H1. cbn zeta in H1.
    destruct (command_effect c v) as [[v1 sends1]|e]; mcbn.
    + rewrite run_stream_bind. destruct H1 as (w1 & -> & Hv1 & Hw1 & Hl1). specialize (IH v1 w1 Hv1 Hw1). cbn zeta in IH.
      destruct (commands_effect cs v1) as [[v2 sends2]|e]; mcbn; [|done]. destruct IH as (w2 & E & Hv2 & Hw2 & Hl2).
      exists w2. split; [done|]. split; [done|]. split; [done|]. by rewrite Hl2, Hl1, fmap_app, app_assoc.
    + by apply run_bind_crash.
Qed.

(** The state after the handshake, and what is sent before. *)
Definition vnc_ready : vnc := set_state vs_running_waiting_cmd vnc_init.

Definition vnc_greetings : list (list Z) :=
  [initial_message; [1; 1]; [0; 0; 0; 0]; server_init_message (fb_w (fb_at 0)) (fb_h (fb_at 0))].


(** A send that succeeds. *)
Lemma run_psend {A} bs (k : Z -> proc A) i w : P w ->
  exists w', run (rc ← psend bs; k rc) i w = run (k (zlen bs)) i w' /\ P w' /\ t_log w' = t_log w ++ [data bs].
Proof.
  intros Hw. destruct (l7_send_log P out_name session_id 0 bs w HP Hw) as (H1 & H2 & H3). cbn [mbind proc_bind psend run_stream]. rewrite H1. by eexists.
Qed.

(** The first turn: the handshake, and then the turn's code goes on with the first command. *)
Lemma run_handshake version shared i w : zlen version = 12 -> take 3 version = str "RFB" -> P w ->
  exists w', run (vnc_turn junk fb_at vnc_init) (client_hello version shared ++ i) w = run (vnc_turn junk fb_at vnc_ready) i w' /\
    P w' /\ t_log w' = t_log w ++ (data <$> vnc_greetings).
Proof.
  intros Hl Hv Hw. unfold client_hello. rewrite <- !app_assoc, (turn_cmd vnc_ready eq_refl). unfold vnc_turn.
  destruct (run_psend initial_message (fun rc => if rc =? -1 then mret None else mret (Some (set_state vs_initial_handshake_client_resp vnc_init)))
    (version ++ [1] ++ [shared] ++ i) w Hw) as (w1 & E1 & Hw1 & Hl1).
  rewrite (run_obind (vnc_handshake_send vnc_init) _ _ _ _ _ _ E1).
  assert (E2 : run (vnc_handshake_resp junk (set_state vs_initial_handshake_client_resp vnc_init)) (version ++ [1] ++ [shared] ++ i) w1 =
    (Done (Some (set_state vs_security_handshake_server vnc_init)), [1] ++ [shared] ++ i, w1)).
  { unfold vnc_handshake_resp. rewrite in_state_eq by done. rewrite run_recv by done. by rewrite Hv. }
  rewrite (run_obind _ _ _ _ _ _ _ E2).
  destruct (run_psend [1; 1] (fun rc => if rc =? -1 then mret None else mret (Some (set_state vs_security_handshake_client_resp vnc_init)))
    ([1] ++ [shared] ++ i) w1 Hw1) as (w2 & E3 & Hw2 & Hl2).
  rewrite (run_obind (vnc_security_send (set_state vs_security_handshake_server vnc_init)) _ _ _ _ _ _ E3).
  destruct (run_psend [0; 0; 0; 0] (fun rc => if rc =? -1 then mret None else mret (Some (set_state vs_client_init vnc_init)))
    ([shared] ++ i) w2 Hw2) as (w3 & E4 & Hw3 & Hl3).
  assert (E5 : run (vnc_security_resp junk (set_state vs_security_handshake_client_resp vnc_init)) ([1] ++ [shared] ++ i) w2 =
    (Done (Some (set_state vs_client_init vnc_init)), [shared] ++ i, w3)).
  { unfold vnc_security_resp. rewrite in_state_eq by done. rewrite run_recv by done. exact E4. }
  rewrite (run_obind _ _ _ _ _ _ _ E5).
  rewrite (run_obind (vnc_client_init junk (set_state vs_client_init vnc_init)) _ _ _ _ _ _ (run_recv_ret 1 (fun _ => set_state vs_server_init vnc_init) [shared] i w3 eq_refl)).
  destruct (run_psend (server_init_message (fb_w (fb_at 0)) (fb_h (fb_at 0))) (fun rc => if rc =? -1 then mret None else mret (Some vnc_ready))
    i w3 Hw3) as (w4 & E6 & Hw4 & Hl4).
  rewrite (run_obind (vnc_server_init fb_at (set_state vs_server_init vnc_init)) _ _ _ _ _ _ E6).
  exists w4. split; [done|]. split; [done|]. rewrite Hl4, Hl3, Hl2, Hl1. unfold vnc_greetings. cbn [fmap list_fmap]. by rewrite <- !app_assoc.
Qed.


(** From the start of the thread to where the commands are done. *)
Lemma run_start version shared cs rest fuel w :
  zlen version = 12 -> take 3 version = str "RFB" -> Forall command_wf cs -> (length cs < fuel)%nat -> P w ->
  let r := run (process_vnc_request junk fb_at fuel) (client_hello version shared ++ concat (map command_bytes cs) ++ rest) w in
  match commands_effect cs vnc_ready with
  | Ret (v, sends) => exists n w', r = run (_ ← vnc_loop junk fb_at (S n) v; _ ← pfin; pfinish) rest w' /\
      v_state v = vs_running_waiting_cmd /\ t_log w' = t_log w ++ (data <$> vnc_greetings ++ sends)
  | Fault e => r.1.1 = Crash e
  end.
Proof.
  intros Hl Hv Hcs Hfuel Hw. cbn zeta. unfold process_vnc_request.
  destruct (run_handshake version shared (concat (map command_bytes cs) ++ rest) w Hl Hv Hw) as (w1 & E1 & Hw1 & Hl1).
  assert (E : run (vnc_loop junk fb_at fuel vnc_init) (client_hello version shared ++ concat (map command_bytes cs) ++ rest) w =
              run (vnc_loop junk fb_at (length cs + (fuel - length cs)) vnc_ready) (concat (map command_bytes cs) ++ rest) w1).
  { replace (length cs + (fuel - length cs))%nat with fuel by lia. destruct fuel as [|f]; [lia|].
    cbn [vnc_loop mbind proc_bind pstopped run_stream]. by rewrite !run_stream_bind, E1. }
  pose proof (run_commands cs (fuel - length cs) vnc_ready rest w1 eq_refl Hcs Hw1) as H1. cbn zeta in H1. rewrite <- E in H1.
  destruct (commands_effect cs vnc_ready) as [[v sends]|e]; [|by apply run_bind_crash].
  destruct H1 as (w2 & E2 & Hv2 & Hw2 & Hl2). exists (fuel - length cs - 1)%nat, w2. split; [|split; [done|]].
  - rewrite !run_stream_bind, E2. by replace (S (fuel - length cs - 1)) with (fuel - length cs)%nat by lia.
  - by rewrite Hl2, Hl1, fmap_app, <- app_assoc.
Qed.

(** The next turn, without a command and with text of 2^31 bytes or more. *)
Lemma run_idle n v w {A} (k : unit -> proc A) : v_state v = vs_running_waiting_cmd ->
  run (x ← vnc_loop junk fb_at (S n) v; k x) [] w = (Waits, [], w).
Proof.
  intros Hv. rewrite run_stream_bind. cbn [vnc_loop mbind proc_bind pstopped run_stream]. rewrite run_stream_bind, (turn_cmd v Hv).
  unfold obind at 1. rewrite run_stream_bind. unfold vnc_cmd. by rewrite in_state_eq.
Qed.

Lemma run_cut_text_huge n v padding size rest w {A} (k : unit -> proc A) : v_state v = vs_running_waiting_cmd ->
  zlen padding = 3 -> 2 ^ 31 <= size < 2 ^ 32 ->
  (run (x ← vnc_loop junk fb_at (S n) v; k x) (([6] ++ padding ++ be32 size) ++ rest) w).1.1 = Crash AssertFailed.
Proof.
  intros Hv Hp Hn. apply run_bind_crash. cbn [vnc_loop mbind proc_bind pstopped run_stream]. apply run_bind_crash.
  rewrite (turn_cmd v Hv). change (([6] ++ ?l) ++ rest) with (6 :: (l ++ rest)). rewrite run_cmd by done.
  set (v1 := set_state vs_running_waiting_data (set_cmd 6 v)). assert (Hs : s32 size < 0) by (unfold s32; replace (size <? 2 ^ 31) with false by lia; lia).
  set (v2 := set_state vs_running_waiting_data_ignore (set_ignore (s32 size) v1)).
  assert (E1 : run (vnc_data junk fb_at v1) ((padding ++ be32 size) ++ rest) w = (Done (Some v2), rest, w)).
  { change (vnc_data junk fb_at v1) with (vnc_cut_text junk v1). unfold vnc_cut_text.
    rewrite run_recv by (rewrite zlen_app; change (zlen (be32 _)) with 4; lia).
    destruct padding as [|p0 [|p1 [|p2 [|]]]]; try (unfold zlen in Hp; cbn [length] in Hp; lia). cbn [app be32 nth].
    rewrite be_s32_be32 by (unfold is_u; lia). by replace (s32 size =? 0) with false by lia. }
  rewrite (run_obind _ _ _ _ _ _ _ E1). apply run_bind_crash. unfold vnc_data_ignore. rewrite in_state_eq by done.
  change (v_ignore_data_n v2) with (s32 size). by replace (s32 size >? 0) with false by lia.
Qed.

End Run.

(** *** Code that reads a stream of bytes *)

Definition fb_fits (fb : frame_buffer) : Prop := 0 <= fb_w fb /\ 0 <= fb_h fb /\ 16 + fb_w fb * fb_h fb * 4 < 2 ^ 31.

(** Between two blocks of a turn: the number of encodings to come is known. *)
Definition vnc_ok (v : vnc) : Prop := v_state v = vs_running_waiting_data_extra -> 0 <= v_n_encodings v.

Definition some_ok {A} (P : A -> Prop) (o : option A) : Prop := match o with Some a => P a | None => True end.

Context (Hjunk : forall i, is_byte (junk i)) (Hfb : forall n, fb_fits (fb_at n)).

Lemma streaming_recv {A} (Q : A -> Prop) n (f : list Z -> proc (option A)) : 0 <= n ->
  (forall bs, zlen bs = n -> bytes bs -> streaming (some_ok Q) (f bs)) -> streaming (some_ok Q) (obind (recv_alloc junk n) f).
Proof.
  intros Hn Hf. assert (Hz : zlen (fresh junk n) = n) by (unfold zlen, fresh; rewrite length_map, length_seq; lia).
  unfold obind, recv_alloc. cbn [mbind proc_bind precv streaming mret proc_ret fst snd]. rewrite Hz. split; [lia|]. split.
  - apply list.Forall_forall. intros x Hx. unfold fresh in Hx. apply list_elem_of_In, in_map_iff in Hx as (i & <- & _). apply Hjunk.
  - intros to' Ht Hb. rewrite Z.eqb_refl. apply Hf; [congruence|done].
Qed.

Lemma streaming_obind {A B} (P : A -> Prop) (Q : B -> Prop) (m : proc (option A)) (f : A -> proc (option B)) :
  streaming (some_ok P) m -> (forall a, P a -> streaming (some_ok Q) (f a)) -> streaming (some_ok Q) (obind m f).
Proof. intros Hm Hf. eapply streaming_bind; [exact Hm|]. intros [a|] Ha; [by apply Hf|done]. Qed.

Lemma streaming_send {A} (Q : A -> Prop) bs (a : A) : zlen bs < 2 ^ 31 -> Q a ->
  streaming (some_ok Q) (rc ← psend bs; if rc =? -1 then mret None else mret (Some a)).
Proof. intros Hl Ha. split; [done|]. intros rc. change (streaming (some_ok Q) (if rc =? -1 then mret None else mret (Some a))). by destruct (rc =? -1). Qed.

Lemma streaming_in_state (Q : vnc -> Prop) st v (m : proc (option vnc)) :
  (v_state v = st -> streaming (some_ok Q) m) -> Q v -> streaming (some_ok Q) (if in_state st v then m else mret (Some v)).
Proof. intros Hm Hv. unfold in_state. destruct (bool_decide_reflect (v_state v = st)); [by apply Hm|done]. Qed.

Lemma be_u16_bytes p i : bytes p -> (S i < length p)%nat -> 0 <= be_u16 p i < 65536.
Proof.
  intros Hp Hi. unfold be_u16. destruct (lookup_lt_is_Some_2 p i) as [a Ha]; [lia|]. destruct (lookup_lt_is_Some_2 p (S i)) as [b Hb]; [lia|].
  rewrite (nth_lookup_Some _ _ _ _ Ha), (nth_lookup_Some _ _ _ _ Hb).
  pose proof (Forall_lookup_1 _ _ _ _ Hp Ha) as Ba. pose proof (Forall_lookup_1 _ _ _ _ Hp Hb) as Bb. unfold is_byte in *.
  rewrite shiftl_lor_add by (unfold is_u; lia). lia.
Qed.

Lemma streaming_update v : streaming (some_ok vnc_ok) (vnc_update_request junk fb_at v).
Proof.
  apply streaming_recv; [lia|]. intros bs Hl Hb. cbn zeta.
  assert (Hr : forall i, (i < 8)%nat -> 0 <= be_u16 bs i < 65536) by (intros i Hi; apply be_u16_bytes; [done|unfold zlen in Hl; lia]).
  pose proof (Hr 1%nat ltac:(lia)) as H1. pose proof (Hr 3%nat ltac:(lia)) as H3. pose proof (Hr 5%nat ltac:(lia)) as H5. pose proof (Hr 7%nat ltac:(lia)) as H7.
  destruct (Hfb (v_updates v)) as (Fw & Fh & Fs).
  destruct (calculate_fb_update _ _ _ _ _ _ _ _ _) as [[[message prev] strm]|e] eqn:E; [|done].
  apply (streaming_send vnc_ok (default [] message)); [|done].
  destruct message as [message|]; [|done]. apply update_le in E as (Hm & Ew & Eh). cbn [default]. unfold id. nia.
Qed.

Lemma streaming_data v : vnc_ok v -> streaming (some_ok vnc_ok) (vnc_data junk fb_at v).
Proof.
  intros Hv. apply streaming_in_state; [|done]. intros _. cbn zeta.
  destruct (v_running_cmd v =? 0); [by apply streaming_recv|].
  destruct (v_running_cmd v =? 2).
  { apply streaming_recv; [lia|]. intros bs Hl Hb _. apply be_u16_bytes; [done|unfold zlen in Hl; lia]. }
  destruct (v_running_cmd v =? 3); [apply streaming_update|].
  destruct (v_running_cmd v =? 4); [by apply streaming_recv|].
  destruct (v_running_cmd v =? 5); [by apply streaming_recv|].
  destruct (v_running_cmd v =? 6); [|done].
  apply streaming_recv; [lia|]. intros bs _ _. cbn zeta. by destruct (negb _).
Qed.

Lemma streaming_turn v : vnc_ok v -> streaming (some_ok vnc_ok) (vnc_turn junk fb_at v).
Proof.
  intros Hv0. unfold vnc_turn. apply (streaming_obind vnc_ok).
  { apply streaming_in_state; [|done]. intros _. by apply streaming_send. }
  clear v Hv0. intros v Hv0. apply (streaming_obind vnc_ok).
  { apply streaming_in_state; [|done]. intros _. apply streaming_recv; [lia|]. intros bs _ _. by destruct (beq _ _). }
  clear v Hv0. intros v Hv0. apply (streaming_obind vnc_ok).
  { apply streaming_in_state; [|done]. intros _. by apply streaming_send. }
  clear v Hv0. intros v Hv0. apply (streaming_obind vnc_ok).
  { apply streaming_in_state; [|done]. intros _. apply streaming_recv; [lia|]. intros bs _ _. destruct (_ =? 1); [by apply streaming_send|done]. }
  clear v Hv0. intros v Hv0. apply (streaming_obind vnc_ok).
  { apply streaming_in_state; [|done]. intros _. by apply streaming_recv. }
  clear v Hv0. intros v Hv0. apply (streaming_obind vnc_ok).
  { apply streaming_in_state; [|done]. intros _. by apply streaming_send. }
  clear v Hv0. intros v Hv0. apply (streaming_obind vnc_ok).
  { apply streaming_in_state; [|done]. intros _. by apply streaming_recv. }
  clear v Hv0. intros v Hv0. apply (streaming_obind vnc_ok); [by apply streaming_data|].
  clear v Hv0. intros v Hv0. apply (streaming_obind vnc_ok).
  { apply streaming_in_state; [|done]. intros _. destruct (Z.gtb_spec (v_ignore_data_n v) 0); cbn [assertb plift]; [|done]. apply streaming_recv; [lia|done]. }
  clear v Hv0. intros v Hv0. apply streaming_in_state; [|done]. intros Est. destruct (v_running_cmd v =? 2); [|done].
  apply streaming_recv; [|done]. specialize (Hv0 Est). lia.
Qed.

Lemma streaming_loop fuel v : vnc_ok v -> streaming (fun _ => True) (vnc_loop junk fb_at fuel v).
Proof.
  revert v. induction fuel as [|f IH]; intros v Hv; [done|]. cbn [vnc_loop mbind proc_bind pstopped streaming].
  eapply (streaming_bind (some_ok vnc_ok)); [by apply streaming_turn|]. intros [v'|] Hv'; [by apply IH|done].
Qed.

Lemma streaming_vnc fuel : streaming (fun _ => True) (process_vnc_request junk fb_at fuel).
Proof. eapply streaming_bind; [by apply (streaming_loop fuel vnc_init)|]. done. Qed.

End Spec.

(** ** Closing *)

Lemma no_pop_obind {A B} (m : proc (option A)) (f : A -> proc (option B)) : no_pop m -> (forall a, no_pop (f a)) -> no_pop (obind m f).
Proof. intros Hm Hf. apply no_pop_bind; [done|]. by intros [a|]. Qed.

Lemma no_pop_turn `{Codecs} junk fb_at v : no_pop (vnc_turn junk fb_at v).
Proof.
  assert (Hr : forall A n (f : list Z -> proc (option A)), (forall bs, no_pop (f bs)) -> no_pop (obind (recv_alloc junk n) f)) by (intros A n f Hf; by apply no_pop_obind).
  assert (Hs : forall A bs (o : option A), no_pop (rc ← psend bs; if rc =? -1 then mret None else mret o)).
  { intros A bs o rc. change (no_pop (if rc =? -1 then mret None else mret o : proc (option A))). by destruct (rc =? -1). }
  assert (Hi : forall (st : vnc_state_t) (v : vnc) (m : proc (option vnc)), no_pop m -> no_pop (if in_state st v then m else mret (Some v))) by (intros st w m Hm; by destruct (in_state st w)).
  unfold vnc_turn. repeat (apply no_pop_obind; [|clear v; intros v]).
  - apply Hi, Hs.
  - apply Hi, Hr. intros bs. by destruct (beq _ _).
  - apply Hi, Hs.
  - apply Hi, Hr. intros bs. destruct (_ =? 1); [apply Hs|done].
  - by apply Hi, Hr.
  - apply Hi, Hs.
  - by apply Hi, Hr.
  - apply Hi. cbn zeta. repeat match goal with |- no_pop (if ?b then _ else _) => destruct b end; try done; try by apply Hr.
    apply Hr. intros bs. cbn zeta. destruct (calculate_fb_update _ _ _ _ _ _ _ _ _) as [[[message prev] strm]|e]; [apply Hs|done].
  - apply Hi. destruct (assertb _); [|done]. by apply Hr.
  - apply Hi. destruct (_ =? 2); [by apply Hr|done].
Qed.

Lemma no_pop_vnc `{Codecs} junk fb_at fuel : no_pop (process_vnc_request junk fb_at fuel).
Proof.
  apply no_pop_bind; [|done]. generalize vnc_init. induction fuel as [|f IH]; intros v [|]; try done.
  change (no_pop (r ← vnc_turn junk fb_at v; match r with Some v => vnc_loop junk fb_at f v | None => mret tt end)).
  apply no_pop_bind; [apply no_pop_turn|]. intros [v'|]; [apply IH|done].
Qed.

(** ** Properties *)

(** C15: a session from its start.  A client that shakes hands and then sends any
    commands, its bytes cut and delayed in any way, is sent the version of the server, the
    list of security types, the result and the description of the frame buffer, and then what its commands
    are answered with, in their order and nothing else; then the thread waits
    for the next command.  (A command whose answer does not fit into its buffer ends it, see [vnc_update_hextile].) *)
Theorem vnc_session `{Codecs} `{Transport W} (P : W -> Prop) (junk : nat -> Z) (fb_at : nat -> frame_buffer)
  (session_id : Z) (out_name : list Z) (fuel : nat) (version : list Z) (shared : Z) (cs : list command) (s : l7 W)
  (HP : sends_succeed P) (Hw : P (l_world s)) (Hjunk : forall i, is_byte (junk i)) (Hfb : forall n, fb_fits (fb_at n))
  (Hs : will_stop s = false) (Hb : bytes (stream s)) (Hin : stream s = client_hello version shared ++ concat (map command_bytes cs))
  (Hl : zlen version = 12) (Hv : take 3 version = str "RFB") (Hcs : Forall command_wf cs) (Hfuel : (length cs < fuel)%nat) :
  exists s', match commands_effect fb_at cs vnc_ready with
    | Ret (_, sends) => run_thread session_id out_name (process_vnc_request junk fb_at fuel) s = (Waits, s') /\
        t_log (l_world s') = t_log (l_world s) ++ (l7_sent out_name session_id 0 <$> vnc_greetings fb_at ++ sends)
    | Fault e => run_thread session_id out_name (process_vnc_request junk fb_at fuel) s = (Crash e, s')
    end.
Proof.
  pose proof (run_thread_stream session_id out_name _ s (streaming_vnc junk fb_at Hjunk Hfb fuel) Hs Hb) as Hrun.
  pose proof (run_start junk fb_at P HP session_id out_name version shared cs [] fuel (l_world s) Hl Hv Hcs Hfuel Hw) as H1. cbn zeta in H1.
  rewrite app_nil_r, <- Hin in H1. destruct (commands_effect fb_at cs vnc_ready) as [[v sends]|e].
  - destruct H1 as (n & w1 & E & Hst & Hlog). rewrite E, run_idle in Hrun by done. destruct Hrun as (s' & Er & Hw' & _). exists s'. by rewrite Hw'.
  - destruct (run_stream _ _ _ _ _) as [[r i] w']. cbn in H1. subst r. destruct Hrun as (s' & Er & _). by exists s'.
Qed.

(** Only the bytes count.  Two sessions that receive the same bytes, in whatever chunks and at
    whatever times, and whatever these bytes are, run alike: they end or wait alike and send the same messages. *)
Theorem vnc_chunks_irrelevant `{Codecs} `{Transport W} (junk : nat -> Z) (fb_at : nat -> frame_buffer)
  (session_id : Z) (out_name : list Z) (fuel : nat) (s1 s2 : l7 W)
  (Hjunk : forall i, is_byte (junk i)) (Hfb : forall n, fb_fits (fb_at n))
  (H1 : will_stop s1 = false) (H2 : will_stop s2 = false) (Hb : bytes (stream s1)) (Hs : stream s1 = stream s2) (Hw : l_world s1 = l_world s2) :
  let r1 := run_thread session_id out_name (process_vnc_request junk fb_at fuel) s1 in
  let r2 := run_thread session_id out_name (process_vnc_request junk fb_at fuel) s2 in
  r1.1 = r2.1 /\ l_world r1.2 = l_world r2.2 /\ (r1.1 <> Waits -> stream r1.2 = stream r2.2).
Proof.
  pose proof (run_thread_stream session_id out_name _ s1 (streaming_vnc junk fb_at Hjunk Hfb fuel) H1 Hb) as R1.
  rewrite Hs in Hb. pose proof (run_thread_stream session_id out_name _ s2 (streaming_vnc junk fb_at Hjunk Hfb fuel) H2 Hb) as R2.
  rewrite Hs, Hw in R1. destruct (run_stream _ _ _ _ _) as [[r i] w]. destruct R1 as (t1 & -> & E1 & _ & F1), R2 as (t2 & -> & E2 & _ & F2).
  cbn. split; [done|]. split; [congruence|]. intros Hr. by rewrite F1, F2.
Qed.

(** A client can end the server.  Whatever commands came before, the announcement of a clipboard
    text of 2^31 bytes or more (the length is taken as a signed number) fails an assertion, which aborts the process. *)
Theorem vnc_cut_text_aborts `{Codecs} `{Transport W} (P : W -> Prop) (junk : nat -> Z) (fb_at : nat -> frame_buffer)
  (session_id : Z) (out_name : list Z) (fuel : nat) (version : list Z) (shared : Z) (cs : list command) (padding : list Z) (size : Z) (rest : list Z)
  (r : vnc * list (list Z)) (s : l7 W)
  (HP : sends_succeed P) (Hw : P (l_world s)) (Hjunk : forall i, is_byte (junk i)) (Hfb : forall n, fb_fits (fb_at n))
  (Hs : will_stop s = false) (Hb : bytes (stream s))
  (Hin : stream s = client_hello version shared ++ concat (map command_bytes cs) ++ ([6] ++ padding ++ be32 size) ++ rest)
  (Hl : zlen version = 12) (Hv : take 3 version = str "RFB") (Hcs : Forall command_wf cs) (Hfuel : (length cs < fuel)%nat)
  (Hok : commands_effect fb_at cs vnc_ready = Ret r) (Hp : zlen padding = 3) (Hsize : 2 ^ 31 <= size < 2 ^ 32) :
  (run_thread session_id out_name (process_vnc_request junk fb_at fuel) s).1 = Crash AssertFailed.
Proof.
  pose proof (run_thread_stream session_id out_name _ s (streaming_vnc junk fb_at Hjunk Hfb fuel) Hs Hb) as Hrun.
  pose proof (run_start junk fb_at P HP session_id out_name version shared cs (([6] ++ padding ++ be32 size) ++ rest) fuel (l_world s) Hl Hv Hcs Hfuel Hw) as H1.
  cbn zeta in H1. rewrite <- Hin, Hok in H1. destruct r as [v sends], H1 as (n & w1 & E & Hst & _). rewrite E in Hrun.
  pose proof (run_cut_text_huge junk fb_at session_id out_name n v padding size rest w1 (fun _ => _ ← pfin; pfinish) Hst Hp Hsize) as Hc.
  destruct (run_stream _ _ _ _ _) as [[r i] w']. cbn in Hc. subst r. by destruct Hrun as (s' & -> & _).
Qed.

(** A request to close a session never waits for its thread for good, wherever in its code the thread is:
    the thread looks at the stop flag whenever it would wait (contrast [Http.http_close_waits]). *)
Theorem vnc_close_ends `{Codecs} `{Transport W} (junk : nat -> Z) (fb_at : nat -> frame_buffer) (out_name : list Z)
  (fuel : nat) (threads : Z -> proc unit) (m : message) (session_id : Z) (sessions : gmap Z l7_session) (w : W)
  (Hthreads : forall id, remains (process_vnc_request junk fb_at fuel) (threads id))
  (Hu : is_u 64 session_id) (Hm : rdn (m_data m) 0 (m_size m) = Ret (close_request session_id)) :
  (l7_run_meta out_name threads m sessions w).1 <> Waits.
Proof.
  rewrite (l7_meta_close out_name threads m session_id sessions w Hu Hm). unfold l7_close. destruct (sessions !! session_id) as [hs|]; [|done].
  pose proof (run_thread_flagged session_id out_name (threads session_id) (L7 (ls_incoming hs) true false (ls_finished hs) [] w)
    (no_pop_remains _ _ (Hthreads session_id) (no_pop_vnc junk fb_at fuel)) eq_refl) as Hr.
  by destruct (run_thread _ _ _ _) as [[[]| |] s'].
Qed.

(** ** Examples *)

Definition ex_version : list Z := str "RFB 003.008" ++ [10].

Definition ex_commands : list command :=
  [SetPixelFormat [0; 0; 0] [8; 8; 0; 1; 0; 7; 0; 7; 0; 3; 5; 2; 0; 0; 0; 0]; SetEncodings 0 [0; 1]; UpdateRequest 0 1 1 2 2;
   KeyEvent [1; 0; 0; 0; 0; 0; 65]; ClientCutText [0; 0; 0] [104; 105]].

Definition ex_bytes : list Z := client_hello ex_version 1 ++ concat (map command_bytes ex_commands).

(** The bytes in three chunks, the last of which comes later. *)
Definition ex_vnc : l7 oracle :=
  L7 [take 5 ex_bytes; drop 5 (take 40 ex_bytes)] false false false [[]; [EvPush (drop 40 ex_bytes)]] oracle_ok.

Lemma ex_fb_fits : fb_fits (ex_fb 4 3).
Proof. unfold fb_fits. cbn. lia. Qed.

Lemma ex_commands_wf : Forall command_wf ex_commands.
Proof. unfold ex_commands. repeat constructor; unfold is_u; cbn; lia. Qed.

Lemma vnc_session_witness :
  exists s', run_thread 3 (str "tcp") (process_vnc_request (H := ex_codecs) (fun _ => 170) (fun _ => ex_fb 4 3) 9) ex_vnc = (Waits, s') /\
    t_log (l_world s') = l7_sent (str "tcp") 3 0 <$>
      [initial_message; [1; 1]; [0; 0; 0; 0]; server_init_message 4 3; update_header 1 1 2 2 0 ++ [78; 188; 41; 151]].
Proof.
  destruct (vnc_session (H := ex_codecs) (fun w : oracle => o_script w = []) (fun _ => 170) (fun _ => ex_fb 4 3) 3 (str "tcp") 9 ex_version 1 ex_commands ex_vnc)
    as (s' & Hr).
  - apply oracle_succeeds.
  - reflexivity.
  - unfold is_byte. lia.
  - intros _. apply ex_fb_fits.
  - reflexivity.
  - concrete_bytes.
  - vm_compute. reflexivity.
  - reflexivity.
  - reflexivity.
  - apply ex_commands_wf.
  - cbn. lia.
  - exists s'. match type of Hr with match ?e with _ => _ end =>
      let E := fresh in assert (E : exists v, e = Ret (v, [update_header 1 1 2 2 0 ++ [78; 188; 41; 151]])) by (eexists; vm_compute; reflexivity);
      destruct E as [v E]; rewrite E in Hr end. destruct Hr as [Hr Hl]. split; [exact Hr|]. rewrite Hl. reflexivity.
Defined.

Lemma vnc_chunks_irrelevant_witness :
  (run_thread 3 (str "tcp") (process_vnc_request (H := ex_codecs) (fun _ => 170) (fun _ => ex_fb 4 3) 9) ex_vnc).1 =
  (run_thread 3 (str "tcp") (process_vnc_request (H := ex_codecs) (fun _ => 170) (fun _ => ex_fb 4 3) 9)
     (L7 [ex_bytes] false false false [] oracle_ok)).1.
Proof.
  refine (proj1 (vnc_chunks_irrelevant (H := ex_codecs) (fun _ => 170) (fun _ => ex_fb 4 3) 3 (str "tcp") 9 ex_vnc (L7 [ex_bytes] false false false [] oracle_ok) _ _ _ _ _ _ _)).
  - unfold is_byte. lia.
  - intros _. apply ex_fb_fits.
  - reflexivity.
  - reflexivity.
  - concrete_bytes.
  - vm_compute. reflexivity.
  - reflexivity.
Defined.

(** The length 2^31. *)
Definition ex_vnc_huge : l7 oracle :=
  L7 [ex_bytes; [6; 0; 0; 0; 128; 0; 0; 0; 1]] false false false [] oracle_ok.

Lemma vnc_cut_text_aborts_witness :
  (run_thread 3 (str "tcp") (process_vnc_request (H := ex_codecs) (fun _ => 170) (fun _ => ex_fb 4 3) 9) ex_vnc_huge).1 = Crash AssertFailed.
Proof.
  assert (E : exists r, commands_effect (H := ex_codecs) (fun _ => ex_fb 4 3) ex_commands (vnc_ready (H := ex_codecs)) = Ret r) by (eexists; vm_compute; reflexivity).
  destruct E as [r E].
  apply (vnc_cut_text_aborts (H := ex_codecs) (fun w : oracle => o_script w = []) _ _ 3 (str "tcp") 9 ex_version 1 ex_commands [0; 0; 0] (2 ^ 31) [1] r).
  - apply oracle_succeeds.
  - reflexivity.
  - unfold is_byte. lia.
  - intros _. apply ex_fb_fits.
  - reflexivity.
  - concrete_bytes.
  - vm_compute. reflexivity.
  - reflexivity.
  - reflexivity.
  - apply ex_commands_wf.
  - cbn. lia.
  - exact E.
  - reflexivity.
  - lia.
Defined.

(** A thread that waits for the client's version. *)
Definition ex_waiting : proc unit :=
  match process_vnc_request (H := ex_codecs) (fun _ => 170) (fun _ => ex_fb 4 3) 9 with
  | PStopped k => match k false with PSend from k => k 12 | p => p end
  | p => p
  end.

Definition ex_vnc_session : l7_session :=
  {| ls_from := repeat 1 4; ls_from_port := 40000; ls_to := repeat 2 4; ls_to_port := 5900; ls_incoming := []; ls_stop := false; ls_finished := false |}.

Lemma vnc_close_ends_witness :
  (l7_run_meta (str "tcp") (fun _ => ex_waiting) (message_of (close_request 3) None) {[3 := ex_vnc_session]} oracle_ok).1 <> Waits.
Proof.
  apply (vnc_close_ends (H := ex_codecs) (fun _ => 170) (fun _ => ex_fb 4 3) (str "tcp") 9 (fun _ => ex_waiting) _ 3).
  - intros _. unfold ex_waiting. eapply (rem_stopped _ false). eapply (rem_send _ _ 12). apply rem_here.
  - unfold is_u. lia.
  - vm_compute. reflexivity.
Defined.
