(* ===== verification/Log.v ===== *)
(** * Logging: [src/utils/log.cpp] and [src/utils/log.h]

    The log is written to a file and to the standard output; here both are the
    bytes written so far.  [vasprintf] and the printing of the clock and of a pointer belong to the
    C++ library: their results are arguments. *)

From S2P Require Import Prelude Str.

(** ** Code *)

Inductive loglevel_t : Set := ll_trace | ll_debug | ll_info | ll_warning | ll_error | ll_fatal.

#[export] Instance loglevel_eq_dec : EqDecision loglevel_t.
Proof. solve_decision. Defined.

(** The numbers of the enumeration. *)
Definition level_nr (ll : loglevel_t) : Z :=
  match ll with ll_trace => 0 | ll_debug => 1 | ll_info => 2 | ll_warning => 3 | ll_error => 4 | ll_fatal => 5 end.

Record logger := {
  ll : loglevel_t;
  log_file : list Z }.

Definition logger_init : logger := {| ll := ll_trace; log_file := str "logfile.txt" |}.

Definition set_loglevel (level : list Z) (l : logger) : logger :=
  let set v := {| ll := v; log_file := log_file l |} in
  if beq level (str "debug") then set ll_debug
  else if beq level (str "trace") then set ll_trace
  else if beq level (str "info") then set ll_info
  else if beq level (str "warning") then set ll_warning
  else if beq level (str "error") then set ll_error
  else if beq level (str "fatal") then set ll_fatal
  else l.

Definition set_logfile (file : list Z) (l : logger) : logger := {| ll := ll l; log_file := file |}.

Definition ll_str (level : loglevel_t) : list Z :=
  match level with
  | ll_trace => str "TRC" | ll_debug => str "DBG" | ll_info => str "INF"
  | ll_warning => str "WRN" | ll_error => str "ERR" | ll_fatal => str "FTL"
  end.

(** [strrchr(file, '/') + 1], or the whole name. *)
Definition base_name (file : list Z) : list Z :=
  match rfind 47 file with
  | Some i => drop (S i) file
  | None => file
  end.

(** The line [dolog] writes: [now] and [p] as printed, [log_buffer] of [vasprintf]. *)
Definition log_line (now : list Z) (level : loglevel_t) (file : list Z) (p : option (list Z)) (function log_buffer : list Z) : list Z :=
  let pointer := match p with Some p => str "[" ++ p ++ str "] " | None => [] end in
  now ++ str " " ++ ll_str level ++ str " " ++ base_name file ++ str " " ++ pointer ++ str "[" ++ function ++ str "] " ++ log_buffer ++ [10].

(** What is behind the log: the files and the standard output. *)
Record log_sinks := { files : gmap (list Z) (list Z); std_out : list Z }.

(** [vasprintf] failing ends the process: [None]. *)
Definition dolog (l : logger) (now : list Z) (level : loglevel_t) (file : list Z) (p : option (list Z)) (function : list Z)
  (log_buffer : option (list Z)) (s : log_sinks) : option log_sinks :=
  match log_buffer with
  | None => None
  | Some text =>
    let buffer := log_line now level file p function text in
    Some {| files := <[log_file l := default [] (files s !! log_file l) ++ buffer]> (files s); std_out := std_out s ++ buffer |}
  end.

(** The macro [DOLOG]. *)
Definition DOLOG (l : logger) (now : list Z) (level : loglevel_t) (file function : list Z) (log_buffer : option (list Z)) (s : log_sinks)
  : option log_sinks :=
  if level_nr level >=? level_nr (ll l) then dolog l now level file None function log_buffer s else Some s.

(** The name [pthread_setname_np] gets. *)
Definition set_thread_name (name : list Z) : list Z := if (15 <? zlen name) then take 15 name else name.

(** ** Lemmas *)

(** The six names of levels, and only these, change the level. *)
Lemma set_loglevel_spec level l :
  set_loglevel level l =
  match List.find (fun v => beq level v.1)
          [(str "trace", ll_trace); (str "debug", ll_debug); (str "info", ll_info); (str "warning", ll_warning);
           (str "error", ll_error); (str "fatal", ll_fatal)] with
  | Some v => {| ll := v.2; log_file := log_file l |}
  | None => l
  end.
Proof.
  unfold set_loglevel. cbn [List.find fst snd].
  destruct (bool_decide_reflect (level = str "debug")) as [->|Hne]; [done|].
  replace (beq level (str "debug")) with false by (symmetry; by apply bool_decide_eq_false_2). by repeat (destruct (beq level _); [done|]).
Qed.

(** A file name without a slash behind the last one. *)
Lemma base_name_spec dir file : 47 ∉ file -> base_name (dir ++ 47 :: file) = file.
Proof.
  intros Hf. unfold base_name. assert (E : rfind 47 (dir ++ 47 :: file) = Some (length dir)).
  { induction dir as [|x dir IH]; cbn [app length rfind].
    - assert (Hn : rfind 47 file = None).
      { induction file as [|y file IHf]; [done|]. apply not_elem_of_cons in Hf as [Hy Hf]. cbn [rfind]. rewrite IHf by done.
        by replace (y =? 47) with false by lia. }
      by rewrite Hn.
    - by rewrite IH. }
  rewrite E. rewrite drop_app_ge by lia. by replace (S (length dir) - length dir)%nat with 1%nat by lia.
Qed.

Lemma set_thread_name_short name : zlen (set_thread_name name) <= 15.
Proof. unfold set_thread_name. destruct (Z.ltb_spec 15 (zlen name)); [rewrite zlen_take; lia|lia]. Qed.
