(* ===== verification/Config.v ===== *)
(** * Starting a server: command line, configuration file, queues

    The common part of the [main] functions: options, sections and keys of the configuration,
    [create_shm].  A [main] is a program that can leave with an exit code at any moment
    ([Exit]); its state is the logger, the queues created so far and the world behind the message
    queues.  iniparser is a library the code calls: a class of functions on its dictionary.  Messages
    on standard error are left out. *)

From S2P Require Import Prelude Str ShmMessage Shm Startup Transport Log.

(** ** Code *)

(** The functions of iniparser that the servers use; keys are "section:key". *)
Class Iniparser (D : Type) := {
  iniparser_load : list Z -> D;
  iniparser_secnames : D -> list (list Z);
  iniparser_getstring : D -> list Z -> list Z -> list Z;
  iniparser_getint : D -> list Z -> Z -> Z;
  iniparser_getboolean : D -> list Z -> bool -> bool;
  iniparser_getseckeys : D -> list Z -> list (list Z) }.

Inductive main_result (A : Type) : Type :=
| Exit (code : Z)
| Go (a : A).
Arguments Exit {A} code.
Arguments Go {A} a.

(** A queue object: its name and its segment. *)
Definition queue : Type := list Z * segment.

Record process (W : Type) := {
  pr_log : logger;
  pr_created : list queue;
  pr_world : W }.
Arguments pr_log {W} _.
Arguments pr_created {W} _.
Arguments pr_world {W} _.

Definition start (W A : Type) : Type := process W -> outcome (main_result A * process W).

#[global] Instance start_ret {W} : MRet (start W) := fun A a s => Ret (Go a, s).
#[global] Instance start_bind {W} : MBind (start W) := fun A B k m s =>
  match m s with
  | Ret (Go a, s') => k a s'
  | Ret (Exit code, s') => Ret (Exit code, s')
  | Fault f => Fault f
  end.

Definition exit_with {W A} (code : Z) : start W A := fun s => Ret (Exit code, s).

(** Calls that do not touch the process, and handlers that send. *)
Definition compute {W A} (m : outcome A) : start W A := fun s =>
  match m with
  | Ret a => Ret (Go a, s)
  | Fault f => Fault f
  end.

Definition sends {W A} (m : prog W A) : start W A := fun s =>
  match m (pr_world s) with
  | Ret (a, w) => Ret (Go a, {| pr_log := pr_log s; pr_created := pr_created s; pr_world := w |})
  | Fault f => Fault f
  end.

(** What the system calls of [create_shm] return for a name, and the bytes of an object of that
    name that exists already. *)
Record shm_system := {
  shm_sys : list Z -> sys_results;
  shm_existing : list queue -> list Z -> list Z }.

Section Main.
Context {W D : Type} {HI : Iniparser D} (sys : shm_system).

(** The loop over [getopt]'s results: an option's letter and its argument. *)
Fixpoint read_options (options : list (Z * list Z)) (cfg_file : list Z) : start W (list Z) :=
  match options with
  | [] => mret cfg_file
  | (c, optarg) :: rest =>
    if c =? 99 then read_options rest optarg
    else if c =? 108 then fun s =>
      read_options rest cfg_file {| pr_log := set_loglevel optarg (pr_log s); pr_created := pr_created s; pr_world := pr_world s |}
    else read_options rest cfg_file
  end.

(** The loop over the section names. *)
Fixpoint check_sections (names allowed : list (list Z)) : start W unit :=
  match names with
  | [] => mret tt
  | section_name :: rest => if bool_decide (section_name ∈ allowed) then check_sections rest allowed else exit_with 1
  end.

(** The beginning of every [main]: the dictionary. *)
Definition open_configuration (options : list (Z * list Z)) (allowed : list (list Z)) : start W D :=
  cfg_file ← read_options options [];
  if zlen cfg_file =? 0 then exit_with 1 else
  let d := iniparser_load cfg_file in
  _ ← check_sections (iniparser_secnames d) allowed;
  mret d.

(** A key that must be there: empty counts as missing. *)
Definition require (d : D) (key : list Z) : start W (list Z) :=
  let v := iniparser_getstring d key [] in
  if zlen v =? 0 then exit_with 1 else mret v.

Definition msg_queue_size (d : D) : Z :=
  let n := iniparser_getint d (str "specific:msg-queue-size") 0 in
  if n =? 0 then 16384 else n.

(** [create_shm(name, size)] and the test of its result; the [int] becomes a [size_t]. *)
Definition create (name : list Z) (size : Z) : start W queue := fun s =>
  match create_shm name (u64 size) (shm_sys sys name) (shm_existing sys (pr_created s) name) with
  | Ret (Some seg) => Ret (Go (name, seg), {| pr_log := pr_log s; pr_created := pr_created s ++ [(name, seg)]; pr_world := pr_world s |})
  | Ret None => Ret (Exit 1, s)
  | Fault f => Fault f
  end.

(** The entries of the section "mappings" and the tables made of them. *)
Definition mapping_entries (d : D) : list (list Z * list Z) :=
  (fun key => (key, iniparser_getstring d key [])) <$> iniparser_getseckeys d (str "mappings").

Definition load_table {A} (load : list (list Z * list Z) -> outcome (option A)) (d : D) : start W A :=
  r ← compute (load (mapping_entries d));
  match r with
  | Some t => mret t
  | None => exit_with 1
  end.

End Main.
