(* ===== verification/Device.v ===== *)
(** * Network devices: opening and configuring

    [open_tap], [set_mtu_size] and [get_local_mac] of [src/tap_server.cpp] (for Linux) and
    [open_promiscuous_dev] of [src/promisc_server.cpp].  What the system calls return is an
    input.  Each function is modelled with the number of file descriptors it leaves open. *)

From S2P Require Import Prelude Net Checksum Str Addr ShmMessage Transport Link.

(** ** Code *)

(** The results of the calls of the tap server; the [ioctl]s get the interface name. *)
Record tap_sys := {
  ts_open_ok : bool;
  ts_fcntl_ok : bool;
  ts_tunsetiff_ok : list Z -> bool;
  ts_tunsetnocsum_ok : bool;
  ts_socket_ok : bool;
  ts_siocsifmtu_ok : list Z -> Z -> bool;
  ts_siocgifhwaddr : list Z -> option (list Z) }.

(** [None]: -1. *)
Definition open_tap (device_name : list Z) (mtu_size : Z) (sys : tap_sys) : outcome (bool * Z) :=
  if negb (ts_open_ok sys) then Ret (false, 0) else
  if negb (ts_fcntl_ok sys) then Ret (false, 1 - 1) else
  ifr_tap ← set_ifr_name device_name;
  if negb (ts_tunsetiff_ok sys ifr_tap) then Ret (false, 1 - 1) else
  if negb (ts_tunsetnocsum_ok sys) then Ret (false, 1 - 1) else
  Ret (true, 1).

(** When the [ioctl] fails the socket is not closed. *)
Definition set_mtu_size (device_name : list Z) (mtu_size : Z) (sys : tap_sys) : outcome (bool * Z) :=
  if negb (ts_socket_ok sys) then Ret (false, 0) else
  ifr_tap ← set_ifr_name device_name;
  if negb (ts_siocsifmtu_ok sys ifr_tap mtu_size) then Ret (false, 1) else
  Ret (true, 1 - 1).

(** The result, what is in [mac_addr] afterwards, the descriptors left open. *)
Definition get_local_mac (device_name mac_addr : list Z) (sys : tap_sys) : outcome (bool * list Z * Z) :=
  if negb (ts_socket_ok sys) then Ret (false, mac_addr, 0) else
  ifr_tap ← set_ifr_name device_name;
  match ts_siocgifhwaddr sys ifr_tap with
  | None => Ret (false, mac_addr, 1 - 1)
  | Some sa_data =>
    b ← rdn sa_data 0 6;
    mac_addr ← wr mac_addr 0 b;
    Ret (true, mac_addr, 1 - 1)
  end.

Record prom_handle := {
  ph_ifr_index : Z;
  ph_mtu_size : Z;
  ph_mac_addr : list Z }.

Record prom_sys := {
  ps_socket_ok : bool;
  ps_mtu : list Z -> option Z;
  ps_hwaddr : list Z -> option (list Z);
  ps_ifindex : list Z -> option Z;
  ps_bind_ok : Z -> bool;
  ps_setsockopt_ok : list Z -> bool }.

Definition open_promiscuous_dev (device_name : list Z) (sys : prom_sys) : outcome (option prom_handle * Z) :=
  let if_name_len := zlen device_name in
  if if_name_len >=? IFNAMSIZ then Ret (None, 0) else
  if negb (ps_socket_ok sys) then Ret (None, 0) else
  name ← rdn device_name 0 if_name_len;
  ifr_name ← wr (zeros IFNAMSIZ) 0 name;
  match ps_mtu sys ifr_name with
  | None => Ret (None, 1 - 1)
  | Some mtu =>
    match ps_hwaddr sys ifr_name with
    | None => Ret (None, 1 - 1)
    | Some sa_data =>
      mac ← rdn sa_data 0 6;
      match ps_ifindex sys ifr_name with
      | None => Ret (None, 1 - 1)
      | Some index =>
        if negb (ps_bind_ok sys index) then Ret (None, 1 - 1) else
        if negb (ps_setsockopt_ok sys device_name) then Ret (None, 1 - 1) else
        Ret (Some {| ph_ifr_index := index; ph_mtu_size := mtu; ph_mac_addr := mac |}, 1)
      end
    end
  end.

(** ** Lemmas *)

(** The kernel's [sa_data] has 14 bytes. *)
Definition hwaddr_ok (f : list Z -> option (list Z)) : Prop := forall name sa, f name = Some sa -> zlen sa = 14 /\ bytes sa.

(** The tap server: names of up to 15 characters are handled without a fault and nothing
    stays open after a failure, but for the socket of a failing [SIOCSIFMTU]. *)
Lemma open_tap_spec device_name mtu_size sys : zlen device_name < IFNAMSIZ ->
  open_tap device_name mtu_size sys =
  Ret (if ts_open_ok sys && ts_fcntl_ok sys && ts_tunsetiff_ok sys (device_name ++ zeros (IFNAMSIZ - zlen device_name)) && ts_tunsetnocsum_ok sys
       then (true, 1) else (false, 0)).
Proof.
  intros Hl. unfold open_tap. rewrite set_ifr_name_spec. replace (zlen device_name <? IFNAMSIZ) with true by lia.
  destruct (ts_open_ok sys); [|done]. destruct (ts_fcntl_ok sys); [|done]. mcbn. cbn [negb andb].
  destruct (ts_tunsetiff_ok sys _); [|done]. by destruct (ts_tunsetnocsum_ok sys).
Qed.

Lemma open_tap_long device_name mtu_size sys : IFNAMSIZ <= zlen device_name -> ts_open_ok sys = true -> ts_fcntl_ok sys = true ->
  open_tap device_name mtu_size sys = Fault OutOfBounds.
Proof.
  intros Hl H1 H2. unfold open_tap. rewrite H1, H2, set_ifr_name_spec. by replace (zlen device_name <? IFNAMSIZ) with false by lia.
Qed.

Lemma get_local_mac_spec device_name sys : zlen device_name < IFNAMSIZ -> hwaddr_ok (ts_siocgifhwaddr sys) ->
  exists ok mac, get_local_mac device_name (zeros 6) sys = Ret (ok, mac, 0) /\ zlen mac = 6 /\ bytes mac /\ (ok = false -> mac = zeros 6).
Proof.
  intros Hl Hh. unfold get_local_mac. destruct (ts_socket_ok sys); cbn [negb].
  2: { exists false, (zeros 6). split; [done|]. split; [done|]. split; [apply bytes_zeros|done]. }
  rewrite set_ifr_name_spec. replace (zlen device_name <? IFNAMSIZ) with true by lia. mcbn.
  destruct (ts_siocgifhwaddr sys _) as [sa|] eqn:E.
  2: { exists false, (zeros 6). split; [done|]. split; [done|]. split; [apply bytes_zeros|done]. }
  destruct (Hh _ _ E) as [Ls Bs]. rewrite rdn_ok by lia. mcbn. assert (L6 : zlen (sub sa 0 6) = 6) by (apply zlen_sub; lia).
  rewrite wr_ok by (rewrite ?L6; vm_compute; congruence). mcbn. exists true, (splice (zeros 6) 0 (sub sa 0 6)).
  split; [done|]. assert (E6 : splice (zeros 6) 0 (sub sa 0 6) = sub sa 0 6).
  { rewrite <- (app_nil_r (zeros 6)). change (zeros 6 ++ []) with ([] ++ zeros 6 ++ []). rewrite (splice_mid [] (zeros 6) [] (sub sa 0 6)) by done.
    apply app_nil_r. }
  rewrite E6. split; [done|]. split; [auto with myip|done].
Qed.

(** The promiscuous mode server refuses such names; whatever fails, nothing stays open. *)
Lemma open_promiscuous_dev_spec device_name sys : hwaddr_ok (ps_hwaddr sys) ->
  exists r n, open_promiscuous_dev device_name sys = Ret (r, n) /\
    match r with
    | Some ph => n = 1 /\ zlen (ph_mac_addr ph) = 6 /\ bytes (ph_mac_addr ph) /\ zlen device_name < IFNAMSIZ
    | None => n = 0
    end.
Proof.
  intros Hh. pose proof (zlen_nonneg device_name). unfold open_promiscuous_dev. destruct (Z.geb_spec (zlen device_name) IFNAMSIZ) as [|Hl]; [by eexists None, _|].
  destruct (ps_socket_ok sys); cbn [negb]; [|by eexists None, _]. rewrite rdn_all by done. mcbn.
  rewrite wr_ok by (rewrite ?zlen_zeros; unfold IFNAMSIZ in *; lia). mcbn. set (name := splice _ _ _).
  destruct (ps_mtu sys name) as [mtu|]; [|by eexists None, _]. destruct (ps_hwaddr sys name) as [sa|] eqn:E; [|by eexists None, _].
  destruct (Hh _ _ E) as [Ls Bs]. rewrite rdn_ok by lia. mcbn. destruct (ps_ifindex sys name) as [index|]; [|by eexists None, _].
  destruct (ps_bind_ok sys index); cbn [negb]; [|by eexists None, _]. destruct (ps_setsockopt_ok sys device_name); cbn [negb]; [|by eexists None, _].
  eexists (Some _), _. split; [done|]. cbn [ph_mac_addr]. split; [done|]. split; [apply zlen_sub; lia|]. split; [auto with myip|lia].
Qed.
