(* ===== verification/Mains.v ===== *)
(** * The [main] functions of the twelve servers

    Each definition is the [main] of a server up to its call of [run], whose arguments are the
    result; behind it [main] returns 0.  The tables, the queues and the settings it passes are what the
    handlers of the other files take.  Signal handlers and the threads that [run] starts are left out. *)

From S2P Require Import Prelude Str Addr ShmMessage Shm Startup Transport Arp TcpMeta Link VncFb Log Config Device.

(** ** Code *)

Record icmp_args := { ia_shm : queue; ia_out_name : list Z; ia_shm_error : queue }.
Record udp_args := { ua_shm : queue; ua_out_name : list Z; ua_mappings_in : gmap Z (list Z); ua_shm_upper : queue; ua_icmp_error_name : list Z }.
Record arp_args := { aa_shm : queue; aa_mac_addr : addr; aa_ip4_addr : addr; aa_shm_resolver : queue; aa_out_name : list Z }.
Record ip4_args := {
  pa_shm : queue; pa_listen_addr : addr * Z; pa_default_gw_addr : addr;
  pa_mappings_in : gmap Z (list Z); pa_mappings_out : gmap (list Z) Z;
  pa_icmp_error_name : list Z; pa_link_name : list Z; pa_shm_resolver_replies : queue; pa_resolver_name : list Z;
  pa_upper_in : queue; pa_mtu_size : Z; pa_shm_meta : queue }.
Record tcp_args := {
  ta_shm : queue; ta_out_name : list Z; ta_mappings_in : gmap Z (list Z); ta_shm_upper : queue; ta_icmp_error_name : list Z;
  ta_syn_cookie_salt : list Z; ta_shm_meta : queue; ta_local_addr : addr }.
(** NTP and time. *)
Record in_args := { na_shm : queue; na_out_name : list Z }.
Record http_args := { ha_shm : queue; ha_out_name : list Z; ha_shm_meta : queue; ha_tls : bool }.
Record gopher_args := { ga_shm : queue; ga_out_name : list Z; ga_shm_meta : queue; ga_base_path : list Z; ga_hostname : list Z }.
Record vnc_args := { va_shm : queue; va_out_name : list Z; va_shm_meta : queue; va_fb : frame_buffer }.
(** The link layer: the tap device or the promiscuous one. *)
Record link_args := {
  la_shm : queue; la_mac_addr : list Z; la_mappings_in : gmap Z (list Z); la_mappings_out : gmap (list Z) Z; la_shm_meta : queue }.

(** What else the system and the libraries return. *)
Record environment := {
  en_shm : shm_system;
  en_junk : nat -> Z;
  en_realpath : list Z -> option (list Z);
  en_setgid_ok : Z -> bool;
  en_setuid_ok : Z -> bool;
  en_tap : tap_sys;
  en_prom : prom_sys;
  en_certificate_ok : list Z -> bool;
  en_private_key_ok : list Z -> bool;
  en_getrandom : option (list Z);
  en_arp_rounds : list (option message * option message);
  en_tcp_rounds : list (Z * option message);
  en_stopped : bool }.

Section Mains.
Context {W D : Type} {HT : Transport W} {HI : Iniparser D} (en : environment) (options : list (Z * list Z)).

Notation create := (create (W := W) (en_shm en)).
Notation "'global'" := [str "global"; str "specific"] (only parsing).
Notation "'with_mappings'" := [str "global"; str "specific"; str "mappings"] (only parsing).

Definition META_SHM_SIZE : Z := 512.

Definition icmp_main : start W icmp_args :=
  d ← open_configuration (D := D) options global;
  name ← require d (str "global:lower-in-name");
  out_name ← require d (str "global:out-name");
  error_in_name ← require d (str "global:error-in-name");
  shm ← create name (msg_queue_size d);
  shm_error ← create error_in_name (msg_queue_size d);
  mret {| ia_shm := shm; ia_out_name := out_name; ia_shm_error := shm_error |}.

Definition udp_main : start W udp_args :=
  d ← open_configuration (D := D) options with_mappings;
  name ← require d (str "global:lower-in-name");
  name_upper ← require d (str "global:name-upper");
  out_name ← require d (str "global:out-name");
  icmp_error_name ← require d (str "specific:icmp-error-name");
  mappings_in ← load_table (fun es => load_mappings_single es ∅) d;
  shm ← create name (msg_queue_size d);
  shm_upper ← create name_upper (msg_queue_size d);
  mret {| ua_shm := shm; ua_out_name := out_name; ua_mappings_in := mappings_in; ua_shm_upper := shm_upper;
          ua_icmp_error_name := icmp_error_name |}.

(** The section "mappings" is accepted and not read. *)
Definition arp_main : start W arp_args :=
  d ← open_configuration (D := D) options with_mappings;
  name ← require d (str "global:name");
  out_name ← require d (str "global:out-name");
  resolver_name ← require d (str "global:resolver-name");
  meta_name ← require d (str "global:meta-name");
  ether_meta_name ← require d (str "global:ether-meta-name");
  ip4_meta_name ← require d (str "global:ip4-meta-name");
  let msg_queue_size_resolver := iniparser_getint d (str "specific:msg-queue-size-resolver") 2048 in
  shm ← create name (msg_queue_size d);
  shm_resolver ← create resolver_name msg_queue_size_resolver;
  shm_meta ← create meta_name META_SHM_SIZE;
  addresses ← sends (cfg_runtime (en_junk en) ether_meta_name ip4_meta_name (en_arp_rounds en) None None);
  let '(mac_addr, ip4_addr) := default ([], []) addresses in
  mret {| aa_shm := shm; aa_mac_addr := mac_addr; aa_ip4_addr := ip4_addr; aa_shm_resolver := shm_resolver; aa_out_name := out_name |}.

(** [listen-addr]: "address/prefix"; [None]: no slash or no number behind it. *)
Definition parse_cidr (listen_addr_str : list Z) : outcome (option (addr * Z)) :=
  match find_sub (str "/") listen_addr_str with
  | None => Ret None
  | Some slash =>
    cidr ← my_stoi_dec (drop (S slash) listen_addr_str);
    match cidr with
    | None => Ret None
    | Some cidr =>
      listen_addr ← addr_of_string (en_junk en) (take slash listen_addr_str) (str ".") false;
      Ret (Some (listen_addr, cidr))
    end
  end.

Definition ip4_main : start W ip4_args :=
  d ← open_configuration (D := D) options with_mappings;
  lower_in_name ← require d (str "global:lower-in-name");
  upper_in_name ← require d (str "global:upper-in-name");
  out_name ← require d (str "global:out-name");
  icmp_error_name ← require d (str "specific:icmp-error-name");
  resolver_name ← require d (str "specific:resolver-name");
  resolver_replies ← require d (str "specific:resolver-replies");
  let mtu_size := iniparser_getint d (str "specific:ip4-mtu-size") 1500 in
  let msg_queue_size_resolver := iniparser_getint d (str "specific:msg-queue-size-resolver") 2048 in
  listen_addr_str ← require d (str "specific:listen-addr");
  default_gw_addr_str ← require d (str "specific:default-gw");
  meta_name ← require d (str "global:meta-name");
  default_gw_addr ← compute (addr_of_string (en_junk en) default_gw_addr_str (str ".") false);
  listen ← compute (parse_cidr listen_addr_str);
  match listen with
  | None => exit_with 1
  | Some listen_addr =>
    mappings ← load_table load_mappings d;
    shm ← create lower_in_name (msg_queue_size d);
    shm_resolver_replies ← create resolver_replies msg_queue_size_resolver;
    shm_upper_in ← create upper_in_name (msg_queue_size d);
    shm_meta ← create meta_name META_SHM_SIZE;
    mret {| pa_shm := shm; pa_listen_addr := listen_addr; pa_default_gw_addr := default_gw_addr;
            pa_mappings_in := mappings.1; pa_mappings_out := mappings.2; pa_icmp_error_name := icmp_error_name;
            pa_link_name := out_name; pa_shm_resolver_replies := shm_resolver_replies; pa_resolver_name := resolver_name;
            pa_upper_in := shm_upper_in; pa_mtu_size := mtu_size; pa_shm_meta := shm_meta |}
  end.

(** [my_random]: a failing [getrandom] ends the process. *)
Definition my_random : start W (list Z) :=
  match en_getrandom en with
  | Some bs => mret bs
  | None => exit_with 1
  end.

Definition tcp_main : start W tcp_args :=
  d ← open_configuration (D := D) options with_mappings;
  name ← require d (str "global:lower-in-name");
  name_upper ← require d (str "global:name-upper");
  name_meta ← require d (str "global:name-meta");
  out_name ← require d (str "global:out-name");
  icmp_error_name ← require d (str "specific:icmp-error-name");
  ip4_meta_name ← require d (str "global:ip4-meta-name");
  let msg_queue_size_meta := iniparser_getint d (str "specific:meta-queue-size") 512 in
  mappings_in ← load_table (fun es => load_mappings_single es ∅) d;
  shm ← create name (msg_queue_size d);
  shm_upper ← create name_upper (msg_queue_size d);
  shm_meta ← create name_meta msg_queue_size_meta;
  syn_cookie_salt ← my_random;
  send_addr ← sends (tcp_cfg_runtime (en_junk en) ip4_meta_name (en_tcp_rounds en) 0 0);
  if en_stopped en then exit_with 1 else
  mret {| ta_shm := shm; ta_out_name := out_name; ta_mappings_in := mappings_in; ta_shm_upper := shm_upper;
          ta_icmp_error_name := icmp_error_name; ta_syn_cookie_salt := syn_cookie_salt; ta_shm_meta := shm_meta; ta_local_addr := send_addr |}.

(** Of the NTP and of the time server, which are the same. *)
Definition ntp_main : start W in_args :=
  d ← open_configuration (D := D) options global;
  name ← require d (str "global:lower-in-name");
  out_name ← require d (str "global:out-name");
  shm ← create name (msg_queue_size d);
  mret {| na_shm := shm; na_out_name := out_name |}.

Definition time_main : start W in_args :=
  d ← open_configuration (D := D) options global;
  name ← require d (str "global:lower-in-name");
  out_name ← require d (str "global:out-name");
  shm ← create name (msg_queue_size d);
  mret {| na_shm := shm; na_out_name := out_name |}.

Definition http_main : start W http_args :=
  d ← open_configuration (D := D) options global;
  name ← require d (str "global:lower-in-name");
  out_name ← require d (str "global:out-name");
  name_meta ← require d (str "global:name-meta");
  let msg_queue_size_meta := iniparser_getint d (str "specific:meta-queue-size") 512 in
  let is_tls := iniparser_getboolean d (str "specific:enable-tls") false in
  let https_certificate_file := iniparser_getstring d (str "specific:certificate-file") [] in
  let https_private_key_file := iniparser_getstring d (str "specific:private-key-file") [] in
  shm ← create name (msg_queue_size d);
  shm_meta ← create name_meta msg_queue_size_meta;
  if is_tls && negb (en_certificate_ok en https_certificate_file) then exit_with 1 else
  if is_tls && negb (en_private_key_ok en https_private_key_file) then exit_with 1 else
  mret {| ha_shm := shm; ha_out_name := out_name; ha_shm_meta := shm_meta; ha_tls := is_tls |}.

Definition gopher_main : start W gopher_args :=
  d ← open_configuration (D := D) options global;
  name ← require d (str "global:lower-in-name");
  out_name ← require d (str "global:out-name");
  name_meta ← require d (str "global:name-meta");
  let msg_queue_size_meta := iniparser_getint d (str "specific:meta-queue-size") 512 in
  base_path ← require d (str "specific:base-path");
  hostname ← require d (str "specific:hostname");
  match en_realpath en base_path with
  | None => exit_with 1
  | Some base_path =>
    shm ← create name (msg_queue_size d);
    shm_meta ← create name_meta msg_queue_size_meta;
    mret {| ga_shm := shm; ga_out_name := out_name; ga_shm_meta := shm_meta; ga_base_path := base_path; ga_hostname := hostname |}
  end.

Definition vnc_main : start W vnc_args :=
  d ← open_configuration (D := D) options global;
  name ← require d (str "global:lower-in-name");
  out_name ← require d (str "global:out-name");
  name_meta ← require d (str "global:name-meta");
  let msg_queue_size_meta := iniparser_getint d (str "specific:meta-queue-size") 512 in
  shm ← create name (msg_queue_size d);
  shm_meta ← create name_meta msg_queue_size_meta;
  mret {| va_shm := shm; va_out_name := out_name; va_shm_meta := shm_meta; va_fb := {| fb_w := 640; fb_h := 480; fb_buffer := zeros (640 * 480 * 3) |} |}.

(** [iniparser_getint(d, key, -1)] of a key that must be there. *)
Definition require_int (d : D) (key : list Z) : start W Z :=
  let v := iniparser_getint d key (-1) in
  if v =? -1 then exit_with 1 else mret v.

(** The part behind the device: give up the privileges, create the queues. *)
Definition link_start (d : D) (name meta_name mac_addr : list Z) (run_as run_group_as : Z)
  (mappings : gmap Z (list Z) * gmap (list Z) Z) : start W link_args :=
  if negb (en_setgid_ok en run_group_as) then exit_with 1 else
  if negb (en_setuid_ok en run_as) then exit_with 1 else
  shm ← create name (msg_queue_size d);
  shm_meta ← create meta_name META_SHM_SIZE;
  mret {| la_shm := shm; la_mac_addr := mac_addr; la_mappings_in := mappings.1; la_mappings_out := mappings.2; la_shm_meta := shm_meta |}.

(** Whether [get_local_mac] and [set_mtu_size] succeed is not looked at. *)
Definition tap_main : start W link_args :=
  d ← open_configuration (D := D) options with_mappings;
  name ← require d (str "global:name");
  device_name ← require d (str "specific:dev");
  meta_name ← require d (str "global:meta-name");
  let mtu_size := (let n := iniparser_getint d (str "specific:mtu-size") 0 in if n =? 0 then 1512 else n) in
  run_as ← require_int d (str "global:run-as");
  run_group_as ← require_int d (str "global:run-group-as");
  mappings ← load_table load_mappings_duo d;
  tap_fd ← compute (open_tap device_name mtu_size (en_tap en));
  if negb tap_fd.1 then exit_with 1 else
  mac ← compute (get_local_mac device_name (zeros 6) (en_tap en));
  _ ← compute (set_mtu_size device_name mtu_size (en_tap en));
  link_start d name meta_name mac.1.2 run_as run_group_as mappings.

(** [announce-mac-name] must be there and is not used. *)
Definition promisc_main : start W link_args :=
  d ← open_configuration (D := D) options with_mappings;
  name ← require d (str "global:name");
  device_name ← require d (str "specific:dev");
  meta_name ← require d (str "global:meta-name");
  announce_mac_name ← require d (str "specific:announce-mac-name");
  run_as ← require_int d (str "global:run-as");
  run_group_as ← require_int d (str "global:run-group-as");
  mappings ← load_table load_mappings_duo d;
  handle ← compute (open_promiscuous_dev device_name (en_prom en));
  match handle.1 with
  | None => exit_with 1
  | Some ph => link_start d name meta_name (ph_mac_addr ph) run_as run_group_as mappings
  end.

End Mains.
