(* ===== verification/Boot.v ===== *)
(** * What the [main] functions do

    A table of the servers (sections they accept, keys they require, queues they create) and the
    theorems that [main] follows it: a server with an incomplete configuration leaves with status 1
    before it created anything, one with a complete configuration starts with exactly the queues of the table,
    empty. *)

From S2P Require Import Prelude Net Checksum Str Addr ShmMessage Shm Startup Transport Arp TcpMeta Link VncFb Log Config Device Mains.

(** ** The table *)

Inductive server : Set := SIcmp | SUdp | SArp | SIp4 | STcp | SNtp | STime | SHttp | SGopher | SVnc | STap | SPromisc.

#[export] Instance server_eq_dec : EqDecision server.
Proof. solve_decision. Defined.

Section Table.
Context {W D : Type} {HT : Transport W} {HI : Iniparser D}.

(** [main], reduced to the queue objects and the names of the queues of others that it passes to [run]. *)
Definition server_main (s : server) (en : environment) (options : list (Z * list Z)) : start W (list queue * list (list Z)) :=
  match s with
  | SIcmp => a ← icmp_main (D := D) en options; mret ([ia_shm a; ia_shm_error a], [ia_out_name a])
  | SUdp => a ← udp_main (D := D) en options; mret ([ua_shm a; ua_shm_upper a], [ua_out_name a; ua_icmp_error_name a])
  | SArp => a ← arp_main (D := D) en options; mret ([aa_shm a; aa_shm_resolver a], [aa_out_name a])
  | SIp4 => a ← ip4_main (D := D) en options;
      mret ([pa_shm a; pa_shm_resolver_replies a; pa_upper_in a; pa_shm_meta a], [pa_link_name a; pa_icmp_error_name a; pa_resolver_name a])
  | STcp => a ← tcp_main (D := D) en options; mret ([ta_shm a; ta_shm_upper a; ta_shm_meta a], [ta_out_name a; ta_icmp_error_name a])
  | SNtp => a ← ntp_main (D := D) en options; mret ([na_shm a], [na_out_name a])
  | STime => a ← time_main (D := D) en options; mret ([na_shm a], [na_out_name a])
  | SHttp => a ← http_main (D := D) en options; mret ([ha_shm a; ha_shm_meta a], [ha_out_name a])
  | SGopher => a ← gopher_main (D := D) en options; mret ([ga_shm a; ga_shm_meta a], [ga_out_name a])
  | SVnc => a ← vnc_main (D := D) en options; mret ([va_shm a; va_shm_meta a], [va_out_name a])
  | STap => a ← tap_main (D := D) en options; mret ([la_shm a; la_shm_meta a], [])
  | SPromisc => a ← promisc_main (D := D) en options; mret ([la_shm a; la_shm_meta a], [])
  end.

Definition allowed (s : server) : list (list Z) :=
  [str "global"; str "specific"] ++
  match s with SUdp | SArp | SIp4 | STcp | STap | SPromisc => [str "mappings"] | _ => [] end.

(** The keys a server does not start without. *)
Definition required (s : server) : list (list Z) :=
  match s with
  | SIcmp => [str "global:lower-in-name"; str "global:out-name"; str "global:error-in-name"]
  | SUdp => [str "global:lower-in-name"; str "global:name-upper"; str "global:out-name"; str "specific:icmp-error-name"]
  | SArp => [str "global:name"; str "global:out-name"; str "global:resolver-name"; str "global:meta-name";
             str "global:ether-meta-name"; str "global:ip4-meta-name"]
  | SIp4 => [str "global:lower-in-name"; str "global:upper-in-name"; str "global:out-name"; str "specific:icmp-error-name";
             str "specific:resolver-name"; str "specific:resolver-replies"; str "specific:listen-addr"; str "specific:default-gw";
             str "global:meta-name"]
  | STcp => [str "global:lower-in-name"; str "global:name-upper"; str "global:name-meta"; str "global:out-name";
             str "specific:icmp-error-name"; str "global:ip4-meta-name"]
  | SNtp | STime => [str "global:lower-in-name"; str "global:out-name"]
  | SHttp | SVnc => [str "global:lower-in-name"; str "global:out-name"; str "global:name-meta"]
  | SGopher => [str "global:lower-in-name"; str "global:out-name"; str "global:name-meta"; str "specific:base-path"; str "specific:hostname"]
  | STap => [str "global:name"; str "specific:dev"; str "global:meta-name"]
  | SPromisc => [str "global:name"; str "specific:dev"; str "global:meta-name"; str "specific:announce-mac-name"]
  end.

(** ... and those that must be numbers. *)
Definition required_int (s : server) : list (list Z) :=
  match s with STap | SPromisc => [str "global:run-as"; str "global:run-group-as"] | _ => [] end.

(** The queues: the key of the name, and the size. *)
Definition queue_table (s : server) (d : D) : list (list Z * Z) :=
  let name key := iniparser_getstring d key [] in
  let lower := (name (str "global:lower-in-name"), msg_queue_size d) in
  let meta := (name (str "global:name-meta"), iniparser_getint d (str "specific:meta-queue-size") 512) in
  let resolver key := (name key, iniparser_getint d (str "specific:msg-queue-size-resolver") 2048) in
  match s with
  | SIcmp => [lower; (name (str "global:error-in-name"), msg_queue_size d)]
  | SUdp => [lower; (name (str "global:name-upper"), msg_queue_size d)]
  | SArp => [(name (str "global:name"), msg_queue_size d); resolver (str "global:resolver-name"); (name (str "global:meta-name"), META_SHM_SIZE)]
  | SIp4 => [lower; resolver (str "specific:resolver-replies"); (name (str "global:upper-in-name"), msg_queue_size d);
             (name (str "global:meta-name"), META_SHM_SIZE)]
  | STcp => [lower; (name (str "global:name-upper"), msg_queue_size d); meta]
  | SNtp | STime => [lower]
  | SHttp | SGopher | SVnc => [lower; meta]
  | STap | SPromisc => [(name (str "global:name"), msg_queue_size d); (name (str "global:meta-name"), META_SHM_SIZE)]
  end.

(** The queues that [run] gets: all but the ARP server's meta queue, which [main] deletes when it has the addresses. *)
Definition kept (s : server) (qs : list queue) : list queue := match s with SArp => take 2 qs | _ => qs end.

(** The keys of the queues it sends to, of other servers. *)
Definition targets (s : server) : list (list Z) :=
  match s with
  | SUdp | STcp => [str "global:out-name"; str "specific:icmp-error-name"]
  | SIp4 => [str "global:out-name"; str "specific:icmp-error-name"; str "specific:resolver-name"]
  | STap | SPromisc => []
  | _ => [str "global:out-name"]
  end.

(** The device can be opened. *)
Definition device_opens (s : server) (en : environment) (device_name : list Z) : Prop :=
  match s with
  | STap => zlen device_name < IFNAMSIZ /\ hwaddr_ok (ts_siocgifhwaddr (en_tap en)) /\
      (ts_open_ok (en_tap en) && ts_fcntl_ok (en_tap en) && ts_tunsetiff_ok (en_tap en) (device_name ++ zeros (IFNAMSIZ - zlen device_name)) &&
       ts_tunsetnocsum_ok (en_tap en)) = true
  | _ => exists ph n, open_promiscuous_dev device_name (en_prom en) = Ret (Some ph, n)
  end.

(** Creates queues in order; the first that fails ends the process. *)
Fixpoint create_all (sys : shm_system) (table : list (list Z * Z)) : start W (list queue) :=
  match table with
  | [] => mret []
  | (name, size) :: rest =>
    q ← create sys name size;
    qs ← create_all sys rest;
    mret (q :: qs)
  end.

(** [m], a server's [main], ends as the creation of the queues, [r], does. *)
Definition agrees (s : server) (d : D) (r : outcome (main_result (list queue) * process W))
  (m : outcome (main_result (list queue * list (list Z)) * process W)) : Prop :=
  match r with
  | Ret (Go qs, st) => exists w, m = Ret (Go (kept s qs, (fun key => iniparser_getstring d key []) <$> targets s),
      {| pr_log := pr_log st; pr_created := pr_created st; pr_world := w |})
  | Ret (Exit c, st) => m = Ret (Exit c, st)
  | Fault f => m = Fault f
  end.

(** What else has to work: tables and addresses that can be parsed, the device, the privileges, the
    files, the addresses the other servers report. *)
Definition ready (s : server) (en : environment) (d : D) : Prop :=
  match s with
  | SIcmp | SNtp | STime | SVnc => True
  | SUdp => exists m, load_mappings_single (mapping_entries d) ∅ = Ret (Some m)
  | SArp => forall w : W, exists r w', cfg_runtime (en_junk en) (iniparser_getstring d (str "global:ether-meta-name") [])
      (iniparser_getstring d (str "global:ip4-meta-name") []) (en_arp_rounds en) None None w = Ret (r, w')
  | SIp4 => (exists m, load_mappings (mapping_entries d) = Ret (Some m)) /\
      (exists a, addr_of_string (en_junk en) (iniparser_getstring d (str "specific:default-gw") []) (str ".") false = Ret a) /\
      (exists a, parse_cidr en (iniparser_getstring d (str "specific:listen-addr") []) = Ret (Some a))
  | STcp => (exists m, load_mappings_single (mapping_entries d) ∅ = Ret (Some m)) /\ en_getrandom en <> None /\ en_stopped en = false /\
      forall w : W, exists r w', tcp_cfg_runtime (en_junk en) (iniparser_getstring d (str "global:ip4-meta-name") []) (en_tcp_rounds en) 0 0 w = Ret (r, w')
  | SHttp => iniparser_getboolean d (str "specific:enable-tls") false = true ->
      en_certificate_ok en (iniparser_getstring d (str "specific:certificate-file") []) = true /\
      en_private_key_ok en (iniparser_getstring d (str "specific:private-key-file") []) = true
  | SGopher => en_realpath en (iniparser_getstring d (str "specific:base-path") []) <> None
  | STap | SPromisc => (exists m, load_mappings_duo (mapping_entries d) = Ret (Some m)) /\
      device_opens s en (iniparser_getstring d (str "specific:dev") []) /\
      en_setgid_ok en (iniparser_getint d (str "global:run-group-as") (-1)) = true /\
      en_setuid_ok en (iniparser_getint d (str "global:run-as") (-1)) = true
  end.

(** The last [-c], empty without one. *)
Fixpoint chosen (options : list (Z * list Z)) (cfg_file : list Z) : list Z :=
  match options with
  | [] => cfg_file
  | (c, optarg) :: rest => chosen rest (if c =? 99 then optarg else cfg_file)
  end.

(** ** Lemmas *)

Lemma start_step {A B} (m : start W A) (k : A -> start W B) s a s' : m s = Ret (Go a, s') -> (x ← m; k x) s = k a s'.
Proof. unfold mbind, start_bind. by intros ->. Qed.

Lemma start_exit {A B} (m : start W A) (k : A -> start W B) s c s' : m s = Ret (Exit c, s') -> (x ← m; k x) s = Ret (Exit c, s').
Proof. unfold mbind, start_bind. by intros ->. Qed.

Lemma compute_step {A B} (m : outcome A) (k : A -> start W B) s a : m = Ret a -> (x ← compute m; k x) s = k a s.
Proof. by intros ->. Qed.

(** The same process with another logger. *)
Definition relogged (l : logger) (s : process W) : process W := {| pr_log := l; pr_created := pr_created s; pr_world := pr_world s |}.

Lemma read_options_spec options cfg s : exists l, read_options options cfg s = Ret (Go (chosen options cfg), relogged l s).
Proof.
  revert cfg s. induction options as [|[c optarg] rest IH]; intros cfg s; cbn [read_options chosen].
  - exists (pr_log s). by destruct s.
  - destruct (Z.eqb_spec c 99); [apply IH|]. destruct (c =? 108); [|apply IH].
    destruct (IH cfg (relogged (set_loglevel optarg (pr_log s)) s)) as (l & E). exists l. exact E.
Qed.

Lemma check_sections_spec names al s :
  check_sections (W := W) names al s = Ret (if bool_decide (Forall (fun n => n ∈ al) names) then Go tt else Exit 1, s).
Proof.
  induction names as [|n names IH]; cbn [check_sections]; [done|]. destruct (bool_decide_reflect (n ∈ al)) as [Hin|Hin].
  - rewrite IH. do 3 f_equal. rewrite (bool_decide_ext _ (Forall (fun n => n ∈ al) (n :: names))); [done|]. rewrite list.Forall_cons. tauto.
  - rewrite bool_decide_eq_false_2; [done|]. by intros [Hn _]%list.Forall_cons.
Qed.

(** The dictionary, or status 1. *)
Lemma open_configuration_spec options al s :
  exists l, let cfg := chosen options [] in let d := iniparser_load cfg in
  open_configuration (D := D) options al s =
  Ret (if bool_decide (cfg = []) then Exit 1 else if bool_decide (Forall (fun n => n ∈ al) (iniparser_secnames d)) then Go d else Exit 1, relogged l s).
Proof.
  destruct (read_options_spec options [] s) as (l & E). exists l. cbn zeta. unfold open_configuration. rewrite (start_step _ _ _ _ _ E).
  destruct (chosen options []) as [|c cfg]; [done|]. rewrite bool_decide_eq_false_2 by done.
  replace (zlen (c :: cfg) =? 0) with false by (rewrite zlen_cons; pose proof (zlen_nonneg cfg); lia).
  unfold mbind, start_bind. rewrite check_sections_spec. by destruct (bool_decide (Forall _ _)).
Qed.

Lemma require_ok d key s : iniparser_getstring d key [] <> [] -> require (W := W) d key s = Ret (Go (iniparser_getstring d key []), s).
Proof.
  intros H. unfold require. destruct (iniparser_getstring d key []) as [|x v]; [done|].
  replace (zlen (x :: v) =? 0) with false by (rewrite zlen_cons; pose proof (zlen_nonneg v); lia). done.
Qed.

Lemma require_missing d key s : iniparser_getstring d key [] = [] -> require (W := W) d key s = Ret (Exit 1, s).
Proof. intros H. unfold require. by rewrite H. Qed.

Lemma bind_ret {A} (m : start W A) (k : A -> list queue * list (list Z)) s :
  (x ← m; mret (k x)) s = match m s with Ret (Go a, s') => Ret (Go (k a), s') | Ret (Exit c, s') => Ret (Exit c, s') | Fault f => Fault f end.
Proof. done. Qed.

Lemma require_int_ok d key s : iniparser_getint d key (-1) <> -1 -> require_int (W := W) d key s = Ret (Go (iniparser_getint d key (-1)), s).
Proof. intros H. unfold require_int. by replace (iniparser_getint d key (-1) =? -1) with false by lia. Qed.

Lemma require_int_missing d key s : iniparser_getint d key (-1) = -1 -> require_int (W := W) d key s = Ret (Exit 1, s).
Proof. intros H. unfold require_int. by rewrite H. Qed.

Lemma load_table_ok {A} (load : list (list Z * list Z) -> outcome (option A)) d t s :
  load (mapping_entries d) = Ret (Some t) -> load_table (W := W) load d s = Ret (Go t, s).
Proof. intros H. unfold load_table, mbind, start_bind, compute. by rewrite H. Qed.

Definition complete (s : server) (options : list (Z * list Z)) (d : D) : Prop :=
  chosen options [] <> [] /\ Forall (fun n => n ∈ allowed s) (iniparser_secnames d) /\
  Forall (fun key => iniparser_getstring d key [] <> []) (required s) /\ Forall (fun key => iniparser_getint d key (-1) <> -1) (required_int s).

#[global] Instance complete_dec s options d : Decision (complete s options d).
Proof. unfold complete. apply _. Defined.

(** Walks through the keys a [main] requires: a missing one ends it. *)
Ltac keys :=
  lazymatch goal with
  | |- mbind _ (require ?d ?k) ?st = _ =>
    let H := fresh "Hk" in destruct (decide (iniparser_getstring d k [] = [])) as [H|H];
    [by apply start_exit, require_missing|etransitivity; [by eapply start_step, require_ok|]; cbv beta; keys]
  | |- mbind _ (require_int ?d ?k) ?st = _ =>
    let H := fresh "Hk" in destruct (decide (iniparser_getint d k (-1) = -1)) as [H|H];
    [by apply start_exit, require_int_missing|etransitivity; [by eapply start_step, require_int_ok|]; cbv beta; keys]
  | |- _ => idtac
  end.

(** Walks to the creation of the queues. *)
Ltac walk :=
  lazymatch goal with
  | H : ?o = Some _ |- match ?o with _ => _ end _ = _ => rewrite H; cbv beta iota; walk
  | |- (if negb (fst (true, _)) then _ else _) _ = _ => cbn [fst negb]; cbv beta iota; walk
  | |- match fst (Some _, _) with _ => _ end _ = _ => cbn [fst]; cbv beta iota; walk
  | |- match Some _ with _ => _ end _ = _ => cbv beta iota; walk
  | |- mbind _ (require _ _) _ = _ => etransitivity; [by eapply start_step, require_ok|]; cbv beta; walk
  | |- mbind _ (require_int _ _) _ = _ => etransitivity; [by eapply start_step, require_int_ok|]; cbv beta; walk
  | |- mbind _ (load_table _ _) _ = _ => etransitivity; [by eapply start_step, load_table_ok|]; cbv beta; walk
  | |- mbind _ (compute _) _ = _ => etransitivity; [by eapply compute_step|]; cbv beta; walk
  | |- _ => idtac
  end.

Lemma same_process {A} (a : A) (p : process W) :
  exists w, Ret (Go a, p) = Ret (Go a, {| pr_log := pr_log p; pr_created := pr_created p; pr_world := w |}).
Proof. exists (pr_world p). by destruct p. Qed.

Lemma set_mtu_size_returns device_name mtu sys : zlen device_name < IFNAMSIZ -> exists r, set_mtu_size device_name mtu sys = Ret r.
Proof.
  intros Hl. unfold set_mtu_size. destruct (ts_socket_ok sys); [|by eexists]. cbn [negb]. rewrite set_ifr_name_spec.
  replace (zlen device_name <? IFNAMSIZ) with true by lia. mcbn. destruct (ts_siocsifmtu_ok sys _ _); by eexists.
Qed.

Ltac opening E := (etransitivity; [eapply start_step; exact E|]); cbv beta zeta; walk.

(** Both sides create the same queues. *)
Ltac creating :=
  repeat match goal with |- context [create ?a ?b ?c ?e] => destruct (create a b c e) as [[[?|?] ?]|?]; [done| |done]; cbv beta iota end.

Ltac main f E :=
  let Em := fresh in eassert (Em : f = _) by (opening E; reflexivity);
  rewrite bind_ret, Em; clear Em; unfold link_start, agrees, mbind, start_bind;
  repeat match goal with H : ?b = true |- context [negb ?b] => rewrite H; cbn [negb] end; creating.

Lemma starts_aux s en options st : let d := iniparser_load (chosen options []) in
  complete s options d -> ready s en d ->
  exists l, agrees s d (create_all (en_shm en) (queue_table s d) (relogged l st)) (server_main s en options st).
Proof.
  cbn zeta. intros (Hc & Hs & Hk & Hi) Hr. destruct (open_configuration_spec options (allowed s) st) as (l & E). exists l. cbn zeta in E.
  rewrite bool_decide_eq_false_2 in E by done. rewrite bool_decide_eq_true_2 in E by done.
  set (d := iniparser_load _) in *. destruct s; cbn [required required_int ready device_opens server_main queue_table create_all kept targets] in *;
    repeat match goal with
    | H : Forall _ (_ :: _) |- _ => apply Forall_cons_1 in H as [? H]
    | H : Forall _ [] |- _ => clear H
    | H : _ /\ _ |- _ => destruct H
    | H : exists _, _ |- _ => destruct H
    end.
  - main (icmp_main (D := D) en options st) E. apply same_process.
  - main (udp_main (D := D) en options st) E. apply same_process.
  - main (arp_main (D := D) en options st) E. unfold sends.
    match goal with |- context [cfg_runtime _ _ _ _ _ _ ?w] => destruct (Hr w) as (r & w' & ->) end. cbv beta iota.
    destruct (default ([], []) r). by eexists.
  - main (ip4_main (D := D) en options st) E. apply same_process.
  - main (tcp_main (D := D) en options st) E. unfold my_random, sends. destruct (en_getrandom en) as [salt|]; [|done]. cbv beta iota. unfold mret, start_ret.
    match goal with Hw : forall w : W, _ |- context [tcp_cfg_runtime _ _ _ _ _ ?w] => destruct (Hw w) as (r & w' & ->) end. cbv beta iota.
    replace (en_stopped en) with false by done. by eexists.
  - main (ntp_main (D := D) en options st) E. apply same_process.
  - main (time_main (D := D) en options st) E. apply same_process.
  - main (http_main (D := D) en options st) E.
    destruct (iniparser_getboolean _ _ _) eqn:Et; cbn [andb]; [destruct (Hr eq_refl) as [-> ->]|]; apply same_process.
  - destruct (en_realpath en _) as [base_path|] eqn:Er; [|done]. main (gopher_main (D := D) en options st) E. apply same_process.
  - main (vnc_main (D := D) en options st) E. apply same_process.
  - match goal with H : zlen ?dev < IFNAMSIZ |- _ =>
      pose proof (open_tap_spec dev (let n := iniparser_getint d (str "specific:mtu-size") 0 in if n =? 0 then 1512 else n) (en_tap en) H) as Ho;
      destruct (get_local_mac_spec dev (en_tap en) H) as (ok & mac & Em & _); [done|];
      destruct (set_mtu_size_returns dev (let n := iniparser_getint d (str "specific:mtu-size") 0 in if n =? 0 then 1512 else n) (en_tap en) H) as (r & Es)
    end.
    replace (_ && _) with true in Ho by done. main (tap_main (D := D) en options st) E. apply same_process.
  - main (promisc_main (D := D) en options st) E. apply same_process.
Qed.

(** *** The queues *)

Definition system_ok (sys : sys_results) : Prop :=
  shm_open_ok sys = true /\ fstat_ok sys = true /\ ftruncate_ok sys = true /\ mmap_ok sys = true /\ lock_rc sys <> LockError.

Definition good_queue (sys : shm_system) (t : list Z * Z) : Prop :=
  zlen t.1 < max_id_length /\ sizeof_message <= t.2 < 2 ^ 31 /\ system_ok (shm_sys sys t.1).

Definition bad_queue (sys : shm_system) (t : list Z * Z) : Prop :=
  max_id_length <= zlen t.1 \/ 0 <= t.2 < sizeof_message \/ shm_open_ok (shm_sys sys t.1) = false \/
  fstat_ok (shm_sys sys t.1) = false \/ mmap_ok (shm_sys sys t.1) = false \/ lock_rc (shm_sys sys t.1) = LockError.

(** A queue as the table wants it, empty. *)
Definition empty_queue (t : list Z * Z) (q : queue) : Prop :=
  q.1 = t.1 /\ s_total_size q.2 = t.2 /\ s_locked q.2 = false /\ seg_rep q.2 [].

Definition with_queues (st : process W) (qs : list queue) : process W :=
  {| pr_log := pr_log st; pr_created := pr_created st ++ qs; pr_world := pr_world st |}.

Lemma create_good sys t st : good_queue sys t -> exists q, empty_queue t q /\ create (W := W) sys t.1 t.2 st = Ret (Go q, with_queues st [q]).
Proof.
  destruct t as [name size]. intros (Hn & Hs & H1 & H2 & H3 & H4 & H5). cbn [fst snd] in *. unfold sizeof_message, max_id_length in *.
  destruct (begin_ok size (shm_sys sys name) (shm_existing sys (pr_created st) name)) as (seg & E & Hr & Ht & Hl & _); try done; [lia|unfold sizeof_shared_memory; lia|].
  exists (name, seg). split; [by repeat split|]. unfold create, create_shm. rewrite wrap_small by (unfold is_u; lia). unfold max_id_length, sizeof_message.
  replace (zlen name >=? 32) with false by lia. replace (size <? 64) with false by lia. replace (zlen name <? 32) with true by lia.
  mcbn. by rewrite E.
Qed.

Lemma create_bad sys t st : bad_queue sys t -> create (W := W) sys t.1 t.2 st = Ret (Exit 1, st).
Proof.
  destruct t as [name size]. unfold bad_queue, create, create_shm. cbn [fst snd]. intros Hb.
  destruct (Z.geb_spec (zlen name) max_id_length) as [|Hl]; [done|]. destruct (Z.ltb_spec (u64 size) sizeof_message) as [|Hu]; [done|].
  replace (zlen name <? max_id_length) with true by lia. mcbn. unfold begin_.
  assert (~ 0 <= size < sizeof_message) by (intros ?; rewrite wrap_small in Hu; unfold is_u, sizeof_message in *; lia).
  destruct (shm_open_ok _); [|done]. destruct (fstat_ok _); [|done]. cbn [negb]. destruct (_ && negb (ftruncate_ok _)); [done|].
  destruct (mmap_ok _); [|done]. cbn [negb]. destruct (lock_rc _); [| |done].
  all: exfalso; intuition (try congruence; lia).
Qed.

Lemma create_all_good sys table st : Forall (good_queue sys) table ->
  exists qs, Forall2 empty_queue table qs /\ create_all sys table st = Ret (Go qs, with_queues st qs).
Proof.
  intros Ht. revert st. induction Ht as [|[name size] table Hg _ IH]; intros st.
  - exists []. split; [constructor|]. destruct st. unfold with_queues. cbn. by rewrite app_nil_r.
  - destruct (create_good _ _ st Hg) as (q & Hq & E). destruct (IH (with_queues st [q])) as (qs & Hqs & E').
    exists (q :: qs). split; [by constructor|]. cbn [create_all]. rewrite (start_step _ _ _ _ _ E), (start_step _ _ _ _ _ E').
    unfold with_queues. cbn. by rewrite <- app_assoc.
Qed.

Lemma create_all_bad sys pre t post st : Forall (good_queue sys) pre -> bad_queue sys t ->
  exists qs, Forall2 empty_queue pre qs /\ create_all sys (pre ++ t :: post) st = Ret (Exit 1, with_queues st qs).
Proof.
  intros Hp Hb. revert st. induction Hp as [|[name size] pre Hg _ IH]; intros st.
  - exists []. split; [constructor|]. destruct t as [name size]. cbn [app create_all].
    rewrite (start_exit _ _ _ _ _ (create_bad _ _ st Hb)). destruct st. unfold with_queues. cbn. by rewrite app_nil_r.
  - destruct (create_good _ _ st Hg) as (q & Hq & E). destruct (IH (with_queues st [q])) as (qs & Hqs & E').
    exists (q :: qs). split; [by constructor|]. cbn [app create_all]. rewrite (start_step _ _ _ _ _ E), (start_exit _ _ _ _ _ E').
    unfold with_queues. cbn. by rewrite <- app_assoc.
Qed.

(** A message for a queue that says it has room and has none. *)
Lemma put_loop_no_data blocking wakes m s : s_data s = [] -> s_filled s = 0 -> PAD8 (sizeof_message + m_size m) <= s_total_size s ->
  0 < m_size m -> zlen (m_sender m) = 32 -> zlen (m_data m) = m_size m -> put_loop blocking wakes m s = Fault OutOfBounds.
Proof.
  intros Hd Hf Ht Hm Hs Hl. rewrite put_loop_eq, Hf, Hd. replace (s_total_size s >=? _) with true by lia.
  assert (Henc : zlen (enc m) = sizeof_message + m_size m) by (unfold enc; rewrite zlen_app, zlen_header by done; unfold sizeof_message; lia).
  rewrite rdn_ok by (unfold sizeof_message in *; lia). mcbn. unfold wr. rewrite zlen_sub by (unfold sizeof_message in *; lia). change (zlen []) with 0.
  replace (0 + _ <=? 0) with false by (unfold sizeof_message; lia). done.
Qed.

(** ** Theorems *)

(** C21: a [main] whose configuration is incomplete (no [-c], a section it does not know, a required
    key that is missing or empty, a user or group that is missing) returns 1; it has created no queue
    and sent nothing. *)
Theorem mains_refuse s en options st : ~ complete s options (iniparser_load (chosen options [])) ->
  exists l, server_main s en options st = Ret (Exit 1, relogged l st).
Proof.
  intros Hn. destruct (open_configuration_spec options (allowed s) st) as (l & E). exists l. cbn zeta in E.
  destruct (bool_decide_reflect (chosen options [] = [])) as [|Hc];
    [|destruct (bool_decide_reflect (Forall (fun n => n ∈ allowed s) (iniparser_secnames (iniparser_load (chosen options []))))) as [Hs|]].
  1, 3: destruct s; apply start_exit; by apply start_exit.
  destruct s; apply start_exit; (etransitivity; [eapply start_step; exact E|]); cbv beta zeta; keys.
  all: exfalso; apply Hn; split; [done|]; split; [done|]; split; repeat (constructor; [assumption|]); constructor.
Qed.

(** C20: with a complete configuration, and the tables, addresses, devices and files it names in order,
    the [main] of each of the twelve servers creates the queues of the table, in order.  When each can be
    created it calls [run] with these, of the sizes configured, empty and not locked, and with the
    names of the other servers' queues; at the first that cannot it returns 1, behind the queues
    created before. *)
Theorem mains_start s en options st : let d := iniparser_load (chosen options []) in let sys := en_shm en in
  complete s options d -> ready s en d ->
  (Forall (good_queue sys) (queue_table s d) ->
   exists l w qs, Forall2 empty_queue (queue_table s d) qs /\ server_main s en options st =
     Ret (Go (kept s qs, (fun key => iniparser_getstring d key []) <$> targets s),
          {| pr_log := l; pr_created := pr_created st ++ qs; pr_world := w |})) /\
  (forall pre t post, queue_table s d = pre ++ t :: post -> Forall (good_queue sys) pre -> bad_queue sys t ->
   exists l qs, Forall2 empty_queue pre qs /\ server_main s en options st = Ret (Exit 1, with_queues (relogged l st) qs)).
Proof.
  cbn zeta. intros Hc Hr. destruct (starts_aux s en options st Hc Hr) as (l & Ha). split.
  - intros Hg. destruct (create_all_good _ _ (relogged l st) Hg) as (qs & Hqs & E). rewrite E in Ha. destruct Ha as (w & Ha).
    by exists l, w, qs.
  - intros pre t post Ht Hp Hb. destruct (create_all_bad _ _ _ post (relogged l st) Hp Hb) as (qs & Hqs & E). rewrite Ht, E in Ha.
    by exists l, qs.
Qed.

End Table.

(** A negative queue size of up to 160 bytes is accepted: the segment claims to have almost 2^64 bytes
    and has none, and the first message is written outside of it. *)
Theorem negative_queue name n sys existing id now lock m :
  - sizeof_shared_memory <= n < 0 -> zlen name < max_id_length -> system_ok sys -> sendable m -> zlen id < max_id_length -> lock <> LockError ->
  exists seg, create_shm name (u64 n) sys existing = Ret (Some seg) /\ s_total_size seg = 2 ^ 64 + n /\ s_data seg = [] /\
    send_message id now lock false [] m (Some seg) = Fault OutOfBounds.
Proof.
  intros Hn Hl (H1 & H2 & H3 & H4 & H5) (_ & Hm & _ & _ & Hd) Hid Hlock. unfold sizeof_shared_memory, max_id_length in *.
  assert (Eu : u64 n = 2 ^ 64 + n) by (symmetry; apply (Z.mod_unique_pos _ _ (-1)); lia).
  assert (Et : u64 (2 ^ 64 + n + 160) = n + 160) by (symmetry; apply (Z.mod_unique_pos _ _ 1); lia).
  unfold create_shm, max_id_length, sizeof_message. rewrite Eu. replace (zlen name >=? 32) with false by lia.
  replace (2 ^ 64 + n <? 64) with false by lia. replace (zlen name <? 32) with true by lia. mcbn.
  unfold begin_. change sizeof_shared_memory with 160. rewrite H1, H2, H3, H4, Et. cbn [negb]. rewrite andb_false_r.
  set (bytes := if negb (zlen existing =? _) then _ else _).
  assert (Hb : padd bytes 160 = []).
  { apply length_zero_iff_nil. enough (zlen (padd bytes 160) = 0) by (unfold zlen in *; lia). assert (zlen bytes = n + 160) as Hb.
    { unfold bytes. destruct (Z.eqb_spec (zlen existing) (n + 160)); cbn [negb]; [done|]. apply zlen_ftruncate. lia. }
    unfold padd, zlen in *. rewrite length_drop. lia. }
  eexists. split; [by destruct (lock_rc sys)|]. cbn [s_total_size s_data]. split; [done|]. split; [exact Hb|].
  unfold send_message. replace (m_size m >? 0) with true by lia. mcbn.
  assert (PAD8 (sizeof_message + m_size m) <= 2 ^ 64 + n) by (pose proof (PAD8_spec (sizeof_message + m_size m)); unfold sizeof_message in *; lia).
  destruct lock; [| |done]; rewrite put_loop_no_data; first [done|apply zlen_stamp_sender; done|cbn [stamp m_size]; lia].
Qed.

(** ** The configurations of src/examples *)

(** iniparser on files that are lists of sections; the numbers are decimal. *)
Definition ini_file : Type := list (string * list (string * string)).

Definition ini_keys (d : ini_file) : list (list Z * list Z) :=
  concat (map (fun sec => map (fun kv => (str sec.1 ++ str ":" ++ str kv.1, str kv.2)) sec.2) d).

Definition ini_find (d : ini_file) (key : list Z) : option (list Z) := snd <$> List.find (fun kv => beq kv.1 key) (ini_keys d).

Definition ini_arp : ini_file :=
  [("global", [("name", "arp-lan1"); ("cfg-name", "arp-lan1-cfg"); ("out-name", "tap-test-lan1"); ("resolver-name", "arp-lan1-resolver"); ("meta-name", "arp-enp1s0-meta"); ("ether-meta-name", "promisc-enp1s0-meta"); ("ip4-meta-name", "ip4-enp1s0-meta")]);
   ("specific", [("msg-queue-size", "16384"); ("mtu-size", "1500")]);
   ("mappings", [])].

Definition ini_gopher : ini_file :=
  [("global", [("lower-in-name", "gopher-lan1-lower"); ("name-meta", "gopher-lan1-meta"); ("out-name", "tcp-lan1-upper")]);
   ("specific", [("msg-queue-size", "8192"); ("base-path", "./gopher"); ("hostname", "192.168.1.2")])].

Definition ini_http : ini_file :=
  [("global", [("lower-in-name", "http-lan1-lower"); ("name-meta", "http-lan1-meta"); ("out-name", "tcp-lan1-upper")]);
   ("specific", [("msg-queue-size", "8192")])].

Definition ini_https : ini_file :=
  [("global", [("lower-in-name", "https-lan1-lower"); ("name-meta", "https-lan1-meta"); ("out-name", "tcp-lan1-upper")]);
   ("specific", [("msg-queue-size", "8192"); ("enable-tls", "true"); ("certificate-file", "cert.pem"); ("private-key-file", "key.pem")])].

Definition ini_icmp : ini_file :=
  [("global", [("lower-in-name", "icmp-lan1-lower"); ("out-name", "ip4-lan1-upper"); ("error-in-name", "icmp-lan1-error")]);
   ("specific", [("msg-queue-size", "151000")])].

Definition ini_ip4 : ini_file :=
  [("global", [("lower-in-name", "ip4-lan1-lower"); ("cfg-name", "arp-lan1-cfg"); ("out-name", "tap-test-lan1"); ("upper-in-name", "ip4-lan1-upper"); ("meta-name", "ip4-lan1-meta")]);
   ("specific", [("msg-queue-size", "151000"); ("ip4-mtu-size", "1450"); ("announce-ip4-addr", "arp-lan1-cfg"); ("listen-addr", "192.168.1.2/24"); ("default-gw", "192.168.1.1"); ("icmp-name", "icmp-lan1-lower"); ("resolver-replies", "ip4-lan1-resrepl"); ("msg-queue-size-resolver", "32768"); ("resolver-name", "arp-lan1-resolver")]);
   ("mappings", [("1", "icmp-lan1-lower"); ("6", "tcp-lan1-lower"); ("17", "udp-lan1-lower")])].

Definition ini_ntp : ini_file :=
  [("global", [("lower-in-name", "ntp-lan1-lower"); ("out-name", "udp-lan1-upper")]);
   ("specific", [("msg-queue-size", "4096")])].

Definition ini_promisc : ini_file :=
  [("global", [("name", "promisc-test-lan1"); ("run-as", "1000"); ("run-group-as", "1000"); ("meta-name", "promisc-test-lan1-meta")]);
   ("specific", [("dev", "enx00e04cfa0e77"); ("msg-queue-size", "16384"); ("mtu-size", "1500"); ("announce-mac-name", "arp-lan1-cfg")]);
   ("mappings", [("0x0806", "arp-lan1"); ("0x0800", "ip4-lan1-lower")])].

Definition ini_tap : ini_file :=
  [("global", [("name", "tap-test-lan1"); ("meta-name", "tap-test-lan1-meta"); ("run-as", "1000"); ("run-group-as", "1000")]);
   ("specific", [("dev", "test"); ("msg-queue-size", "16384"); ("mtu-size", "1500")]);
   ("mappings", [("0x0806", "arp-lan1"); ("0x0800", "ip4-lan1-lower")])].

Definition ini_tcp : ini_file :=
  [("global", [("lower-in-name", "tcp-lan1-lower"); ("out-name", "ip4-lan1-upper"); ("name-upper", "tcp-lan1-upper"); ("name-meta", "tcp-lan1-meta"); ("ip4-meta-name", "ip4-lan1-meta")]);
   ("specific", [("msg-queue-size", "151000"); ("icmp-error-name", "icmp-lan1-error")]);
   ("mappings", [("80", "http-lan1-lower,http-lan1-meta")])].

Definition ini_time : ini_file :=
  [("global", [("lower-in-name", "time-lan1-lower"); ("out-name", "tcp-lan1-upper")]);
   ("specific", [("msg-queue-size", "4096")])].

Definition ini_udp : ini_file :=
  [("global", [("lower-in-name", "udp-lan1-lower"); ("out-name", "ip4-lan1-upper"); ("name-upper", "udp-lan1-upper")]);
   ("specific", [("msg-queue-size", "151000"); ("icmp-error-name", "icmp-lan1-error")]);
   ("mappings", [("123", "ntp-lan1-lower")])].

Definition ini_vnc : ini_file :=
  [("global", [("lower-in-name", "vnc-lan1-lower"); ("name-meta", "vnc-lan1-meta"); ("out-name", "tcp-lan1-upper")]);
   ("specific", [("msg-queue-size", "8192")])].

Definition ini_files : list (string * ini_file) :=
  [("arp-lan1.ini", ini_arp);
   ("gopher-test-lan1.ini", ini_gopher);
   ("http-test-lan1.ini", ini_http);
   ("https-test-lan1.ini", ini_https);
   ("icmp-test-lan1.ini", ini_icmp);
   ("ip4-test-lan1.ini", ini_ip4);
   ("ntp-test-lan1.ini", ini_ntp);
   ("promisc-test-lan1.ini", ini_promisc);
   ("tap-test-lan1.ini", ini_tap);
   ("tcp-test-lan1.ini", ini_tcp);
   ("time-test-lan1.ini", ini_time);
   ("udp-test-lan1.ini", ini_udp);
   ("vnc-test-lan1.ini", ini_vnc)].

Definition ini_iniparser (files : list (string * ini_file)) : Iniparser ini_file := {|
  iniparser_load := fun name => default [] (snd <$> List.find (fun f => beq (str f.1) name) files);
  iniparser_secnames := map (fun sec => str sec.1);
  iniparser_getstring := fun d key def => default def (ini_find d key);
  iniparser_getint := fun d key def =>
    match ini_find d key with Some v => match my_stoi_dec v with Ret (Some n) => n | _ => 0 end | None => def end;
  iniparser_getboolean := fun d key def =>
    match ini_find d key with Some (c :: _) => bool_decide (c ∈ str "tTyY1") | _ => def end;
  iniparser_getseckeys := fun d name =>
    concat (map (fun sec => map (fun kv => str sec.1 ++ str ":" ++ str kv.1) sec.2) (List.filter (fun sec => beq (str sec.1) name) d)) |}.

#[local] Instance ini_examples : Iniparser ini_file := ini_iniparser ini_files.

(** A system on which everything works, and a host whose other servers answer the ARP and TCP servers. *)
Definition ex_environment : environment := {|
  en_shm := {| shm_sys := fun _ => ex_sys; shm_existing := fun _ _ => [] |};
  en_junk := fun _ => 0;
  en_realpath := fun p => Some p;
  en_setgid_ok := fun _ => true;
  en_setuid_ok := fun _ => true;
  en_tap := {| ts_open_ok := true; ts_fcntl_ok := true; ts_tunsetiff_ok := fun _ => true; ts_tunsetnocsum_ok := true; ts_socket_ok := true;
               ts_siocsifmtu_ok := fun _ _ => true; ts_siocgifhwaddr := fun _ => Some ([2; 0; 0; 0; 0; 1] ++ zeros 8) |};
  en_prom := {| ps_socket_ok := true; ps_mtu := fun _ => Some 1500; ps_hwaddr := fun _ => Some (zeros 14); ps_ifindex := fun _ => Some 2;
                ps_bind_ok := fun _ => true; ps_setsockopt_ok := fun _ => true |};
  en_certificate_ok := fun _ => true;
  en_private_key_ok := fun _ => true;
  en_getrandom := Some (zeros 16);
  en_arp_rounds := [(Some (reply_message (str "mac=02:00:00:00:00:01") 1), Some (reply_message (str "ip4=192.168.1.2") 1))];
  en_tcp_rounds := [];
  en_stopped := false |}.

Definition ex_process : process oracle :=
  {| pr_log := logger_init; pr_created := []; pr_world := oracle_ok |}.

Definition ex_options (file : string) : list (Z * list Z) := [(99, str file)].

(** The IPv4 server does not start with its example: it has [icmp-name] for [icmp-error-name]. *)
Lemma mains_refuse_witness :
  exists l, server_main (D := ini_file) SIp4 ex_environment (ex_options "ip4-test-lan1.ini") ex_process = Ret (Exit 1, relogged l ex_process).
Proof. apply (mains_refuse (D := ini_file)). apply (bool_decide_eq_false _). vm_compute. reflexivity. Defined.

Definition example_servers : list (server * string) :=
  [(STap, "tap-test-lan1.ini"); (SPromisc, "promisc-test-lan1.ini"); (SArp, "arp-lan1.ini"); (SIp4, "ip4-test-lan1.ini"); (SIcmp, "icmp-test-lan1.ini");
   (SUdp, "udp-test-lan1.ini"); (STcp, "tcp-test-lan1.ini"); (SNtp, "ntp-test-lan1.ini"); (STime, "time-test-lan1.ini"); (SHttp, "http-test-lan1.ini");
   (SHttp, "https-test-lan1.ini"); (SGopher, "gopher-test-lan1.ini"); (SVnc, "vnc-test-lan1.ini")].

(** The names of the queues the examples create. *)
Definition example_queues : list (list Z) :=
  concat (map (fun e => map fst (queue_table (D := ini_file) e.1 (iniparser_load (str e.2)))) example_servers).

(** The names a server sends to: its targets, its mappings, the queues it asks for addresses. *)
Definition example_targets (e : server * string) : list (list Z) :=
  let d : ini_file := iniparser_load (str e.2) in
  let name key := iniparser_getstring d key [] in
  map name (targets e.1) ++ map snd (mapping_entries d) ++
  match e.1 with
  | SArp => [name (str "global:ether-meta-name"); name (str "global:ip4-meta-name")]
  | STcp => [name (str "global:ip4-meta-name")]
  | _ => []
  end.

Definition unwired (e : server * string) : list (list Z) := List.filter (fun n => negb (bool_decide (n ∈ example_queues))) (example_targets e).

(** The wiring of the examples: each is complete for its server but for that of IPv4, and the names they send to are
    created by one of them, but for those that the ARP server asks for its addresses, the error queue of
    IPv4, and the mapping of port 80, which has two names. *)
Lemma examples_wired :
  map (fun e => (e.2, bool_decide (complete (D := ini_file) e.1 (ex_options e.2) (iniparser_load (str e.2))), unwired e))
    (List.filter (fun e => negb (bool_decide (complete (D := ini_file) e.1 (ex_options e.2) (iniparser_load (str e.2)))) ||
                           negb (bool_decide (unwired e = []))) example_servers) =
  [("arp-lan1.ini", true, [str "promisc-enp1s0-meta"; str "ip4-enp1s0-meta"]);
   ("ip4-test-lan1.ini", false, [[]]);
   ("tcp-test-lan1.ini", true, [str "http-lan1-lower,http-lan1-meta"])].
Proof. vm_compute. reflexivity. Qed.

Lemma mains_start_witness :
  exists l w qs, map fst qs = [str "udp-lan1-lower"; str "udp-lan1-upper"] /\ map (fun q => s_total_size q.2) qs = [151000; 151000] /\
    server_main (D := ini_file) SUdp ex_environment (ex_options "udp-test-lan1.ini") ex_process =
    Ret (Go (qs, [str "ip4-lan1-upper"; str "icmp-lan1-error"]), {| pr_log := l; pr_created := qs; pr_world := w |}).
Proof.
  destruct (mains_start (D := ini_file) SUdp ex_environment (ex_options "udp-test-lan1.ini") ex_process) as [H _].
  - apply (bool_decide_eq_true _). vm_compute. reflexivity.
  - eexists. vm_compute. reflexivity.
  - assert (Et : queue_table (D := ini_file) SUdp (iniparser_load (chosen (ex_options "udp-test-lan1.ini") [])) =
      [(str "udp-lan1-lower", 151000); (str "udp-lan1-upper", 151000)]) by (vm_compute; reflexivity).
    rewrite Et in H. destruct H as (l & w & qs & Hq & E).
    + repeat constructor; try discriminate; reflexivity.
    + exists l, w, qs. inversion Hq as [|? q1 ? qs1 (E1 & T1 & _) Hq1]; subst. inversion Hq1 as [|? q2 ? qs2 (E2 & T2 & _) Hq2]; subst.
      inversion Hq2; subst. cbn [fst snd map] in *. rewrite E1, E2, T1, T2. split; [done|]. split; [done|]. exact E.
Defined.

(** A queue of -100 bytes. *)
Lemma negative_queue_witness :
  exists seg, create_shm (str "udp-lan1-lower") (u64 (-100)) ex_sys [] = Ret (Some seg) /\ s_total_size seg = 2 ^ 64 - 100 /\
    send_message (str "ip4") 1 LockOk false [] (ex_message 0) (Some seg) = Fault OutOfBounds.
Proof.
  assert (system_ok ex_sys) as Hsys by (repeat split; discriminate).
  assert (- sizeof_shared_memory <= -100 < 0) as Hn by (unfold sizeof_shared_memory; lia).
  destruct (negative_queue (str "udp-lan1-lower") (-100) ex_sys [] (str "ip4") 1 LockOk (ex_message 0) Hn eq_refl Hsys (ex_message_sendable 0 ltac:(done)) eq_refl ltac:(discriminate))
    as (seg & E & T & _ & F).
  exists seg. split; [exact E|]. split; [exact T|exact F].
Defined.
