(* ===== verification/HostBoot.v ===== *)
(** * From the configuration files to a running host

    What the [main] functions of the servers hand to their [run] is the configuration of
    a host ([System]), and the queues they made are its segments: the host is ready for
    the theorems of [HostFlow] and [HostArp]. *)

From S2P Require Import Prelude Net Checksum Str Addr ShmMessage Shm Startup Transport Queues Icmp Udp Arp Ip4In Reassembly Ip4Out Ip4 TcpMeta Link Exchange Ntp VncFb System HostFlow HostArp Log Config Device Mains Boot.

(** ** Code: the calls of [run] together *)

Record stack := {
  k_link : link_args;
  k_arp : arp_args;
  k_ip4 : ip4_args;
  k_icmp : icmp_args;
  k_udp : udp_args;
  k_ntp : in_args;
  k_tcp : tcp_args;
  k_http : http_args }.

Definition config_of (k : stack) : config := {|
  c_link := (la_shm (k_link k)).1; c_mac := la_mac_addr (k_link k); c_link_in := la_mappings_in (k_link k); c_link_out := la_mappings_out (k_link k);
  c_arp := (aa_shm (k_arp k)).1; c_arp_resolver := (aa_shm_resolver (k_arp k)).1; c_arp_out := aa_out_name (k_arp k);
  c_arp_mac := aa_mac_addr (k_arp k); c_arp_ip := aa_ip4_addr (k_arp k);
  c_ip4_lower := (pa_shm (k_ip4 k)).1; c_ip4_upper := (pa_upper_in (k_ip4 k)).1; c_ip4_replies := (pa_shm_resolver_replies (k_ip4 k)).1;
  c_ip4_out := pa_link_name (k_ip4 k); c_ip4_resolver := pa_resolver_name (k_ip4 k); c_ip4_error := pa_icmp_error_name (k_ip4 k);
  c_listen := pa_listen_addr (k_ip4 k); c_gw := pa_default_gw_addr (k_ip4 k); c_mtu := pa_mtu_size (k_ip4 k);
  c_proto_in := pa_mappings_in (k_ip4 k); c_proto_out := pa_mappings_out (k_ip4 k);
  c_icmp := (ia_shm (k_icmp k)).1; c_icmp_error := (ia_shm_error (k_icmp k)).1; c_icmp_out := ia_out_name (k_icmp k);
  c_udp := (ua_shm (k_udp k)).1; c_udp_upper := (ua_shm_upper (k_udp k)).1; c_udp_out := ua_out_name (k_udp k);
  c_udp_error := ua_icmp_error_name (k_udp k); c_ports := ua_mappings_in (k_udp k);
  c_ntp := (na_shm (k_ntp k)).1; c_ntp_out := na_out_name (k_ntp k);
  c_tcp := (ta_shm (k_tcp k)).1; c_tcp_upper := (ta_shm_upper (k_tcp k)).1; c_tcp_out := ta_out_name (k_tcp k); c_tcp_ports := ta_mappings_in (k_tcp k);
  c_salt := ta_syn_cookie_salt (k_tcp k); c_app := (ha_shm (k_http k)).1; c_app_closes := true |}.

(** The queue object a thread waits on. *)
Definition queue_of (k : stack) (t : thread) : queue :=
  match t with
  | LinkOut => la_shm (k_link k)
  | ArpIn => aa_shm (k_arp k)
  | ArpResolver => aa_shm_resolver (k_arp k)
  | Ip4InThread => pa_shm (k_ip4 k)
  | Ip4OutThread => pa_upper_in (k_ip4 k)
  | Ip4Sender => pa_shm_resolver_replies (k_ip4 k)
  | IcmpIn => ia_shm (k_icmp k)
  | IcmpErr => ia_shm_error (k_icmp k)
  | UdpIn => ua_shm (k_udp k)
  | UdpOut => ua_shm_upper (k_udp k)
  | NtpIn => na_shm (k_ntp k)
  | TcpIn => ta_shm (k_tcp k)
  | TcpOut => ta_shm_upper (k_tcp k)
  | AppIn => ha_shm (k_http k)
  end.

(** When the threads start: no fragments, nothing pending, an empty ARP cache, no sessions. *)
Definition host_of (k : stack) : host := {|
  h_segs := list_to_map (queue_of k <$> threads);
  h_packets := ∅;
  h_out := {| o_heap := ∅; o_next := 0; o_pending := ∅ |};
  h_arp := {| requests := []; arp_cache := [] |};
  h_tcp := ∅; h_apps := ∅;
  h_wire := [] |}.

(** The server a thread belongs to, and the row of the server's table of queues ([queue_table]) with the queue the thread reads. *)
Definition server_of (t : thread) : server * nat :=
  match t with
  | LinkOut => (STap, 0%nat)
  | ArpIn => (SArp, 0%nat)
  | ArpResolver => (SArp, 1%nat)
  | Ip4InThread => (SIp4, 0%nat)
  | Ip4Sender => (SIp4, 1%nat)
  | Ip4OutThread => (SIp4, 2%nat)
  | IcmpIn => (SIcmp, 0%nat)
  | IcmpErr => (SIcmp, 1%nat)
  | UdpIn => (SUdp, 0%nat)
  | UdpOut => (SUdp, 1%nat)
  | NtpIn => (SNtp, 0%nat)
  | TcpIn => (STcp, 0%nat)
  | TcpOut => (STcp, 1%nat)
  | AppIn => (SHttp, 0%nat)
  end.

(** What the configuration files ask for: the name and the size of a thread's queue. *)
Section Asked.
Context {D : Type} {HI : Iniparser D} (options : server -> list (Z * list Z)).

Definition loaded (s : server) : D := iniparser_load (chosen (options s) []).

Definition asked (t : thread) : list Z * Z := nth (server_of t).2 (queue_table (server_of t).1 (loaded (server_of t).1)) ([], 0).

Definition cap_of (t : thread) : Z := u64 (asked t).2.

End Asked.

(** ** Lemmas: what a program of [main] returns, if it returns *)

Section Yields.
Context {W D : Type} {HT : Transport W} {HI : Iniparser D}.

Definition yields {A} (P : A -> Prop) (m : start W A) : Prop := forall s a s', m s = Ret (Go a, s') -> P a.

Lemma yields_bind {A B} (P : A -> Prop) (Q : B -> Prop) (m : start W A) (k : A -> start W B) :
  yields P m -> (forall a, P a -> yields Q (k a)) -> yields Q (m ≫= k).
Proof.
  intros Hm Hk s b s'. unfold mbind, start_bind. destruct (m s) as [[[c|a] s1]|f] eqn:E; [done| |done]. exact (Hk a (Hm _ _ _ E) s1 b s').
Qed.

Lemma yields_ret {A} (P : A -> Prop) a : P a -> yields P (mret (M := start W) a).
Proof. intros H s b s'. by intros [= <- _]. Qed.

Lemma yields_any {A} (m : start W A) : yields (fun _ => True) m.
Proof. done. Qed.

Lemma yields_exit {A} (P : A -> Prop) c : yields P (exit_with (W := W) c).
Proof. done. Qed.

(** A queue as asked for: the name, the size, and empty unless the size is negative. *)
Definition made (ask : list Z * Z) (q : queue) : Prop :=
  q.1 = ask.1 /\ s_total_size q.2 = u64 ask.2 /\ (u64 ask.2 < 2 ^ 63 -> seg_rep q.2 []).

Lemma yields_create sys name size : yields (made (name, size)) (create (W := W) sys name size).
Proof.
  intros s q s'. unfold create, create_shm. destruct (zlen name >=? max_id_length); [done|].
  destruct (Z.ltb_spec (u64 size) sizeof_message) as [|Hs]; [done|]. unfold assertb. destruct (zlen name <? max_id_length); [|done]. mcbn.
  destruct (begin_ _ _ _) as [seg|] eqn:E; [|done]. intros [= <- _]. unfold made. cbn [fst snd].
  set (sr := shm_sys sys name) in *. set (ex := shm_existing _ _ _) in *.
  set (all := {| shm_open_ok := true; fstat_ok := true; ftruncate_ok := true; mmap_ok := true; lock_rc := LockOk |}).
  assert (Hb : begin_ (u64 size) all ex = Some seg /\ s_total_size seg = u64 size).
  { revert E. unfold begin_. destruct (shm_open_ok sr); [|done]. destruct (fstat_ok sr); [|done]. cbn [negb all shm_open_ok fstat_ok mmap_ok ftruncate_ok lock_rc].
    rewrite andb_false_r. destruct (_ && negb _); [done|]. destruct (mmap_ok sr); [|done]. cbn [negb]. by destruct (lock_rc sr); [intros [= <-]..|]. }
  destruct Hb as [Hb H5]. split; [done|]. split; [exact H5|]. intros Ht. unfold sizeof_message in Hs.
  destruct (begin_ok (u64 size) all ex) as (seg' & Hb' & Hr & _); try done; [lia|unfold sizeof_shared_memory; lia|].
  rewrite Hb in Hb'. by injection Hb' as <-.
Qed.

(** What a [main] reads is what the files say. *)
Lemma yields_open options al : yields (fun d => d = iniparser_load (chosen options [])) (open_configuration (W := W) (D := D) options al).
Proof.
  intros s d s'. destruct (open_configuration_spec (W := W) (D := D) options al s) as (l & ->).
  destruct (bool_decide _); [done|]. destruct (bool_decide _); [|done]. by intros [= <- _].
Qed.

Lemma yields_require d key : yields (fun v => v = iniparser_getstring d key []) (require (W := W) (D := D) d key).
Proof. intros s v s'. unfold require. destruct (zlen _ =? 0); [done|]. by intros [= <- _]. Qed.

(** Through a [main] to its result. *)
Ltac yielding :=
  repeat first
    [ apply yields_exit
    | lazymatch goal with
      | |- yields _ (mbind _ (create _ _ _)) => eapply yields_bind; [apply yields_create|intros ? ?]
      | |- yields _ (mbind _ (open_configuration _ _)) => eapply yields_bind; [apply yields_open|intros ? ->]
      | |- yields _ (mbind _ (require _ _)) => eapply yields_bind; [apply yields_require|intros ? ->]
      | |- yields _ (mbind _ _) => eapply yields_bind; [apply yields_any|intros ? _]
      | |- yields _ (match ?x with _ => _ end) => destruct x
      | |- yields _ (let _ := _ in _) => cbv zeta
      end
    | apply yields_ret ].

(** The queues of the rows of a server's table. *)
Definition rows (s : server) (options : list (Z * list Z)) (qs : list queue) : Prop :=
  Forall2 made (take (length qs) (queue_table s (iniparser_load (D := D) (chosen options [])))) qs.

Ltac in_rows := unfold rows; cbn [length take queue_table]; repeat (constructor; [assumption|]); constructor.

Lemma tap_yields en options : yields (fun a => rows STap options [la_shm a]) (tap_main (W := W) (D := D) en options).
Proof. unfold tap_main, link_start. yielding. in_rows. Qed.

Lemma arp_yields en options : yields (fun a => rows SArp options [aa_shm a; aa_shm_resolver a]) (arp_main (W := W) (D := D) en options).
Proof. unfold arp_main. yielding. in_rows. Qed.

Lemma ip4_yields en options :
  yields (fun a => rows SIp4 options [pa_shm a; pa_shm_resolver_replies a; pa_upper_in a]) (ip4_main (W := W) (D := D) en options).
Proof. unfold ip4_main. yielding. in_rows. Qed.

Lemma icmp_yields en options : yields (fun a => rows SIcmp options [ia_shm a; ia_shm_error a]) (icmp_main (W := W) (D := D) en options).
Proof. unfold icmp_main. yielding. in_rows. Qed.

Lemma udp_yields en options : yields (fun a => rows SUdp options [ua_shm a; ua_shm_upper a]) (udp_main (W := W) (D := D) en options).
Proof. unfold udp_main. yielding. in_rows. Qed.

Lemma ntp_yields en options : yields (fun a => rows SNtp options [na_shm a]) (ntp_main (W := W) (D := D) en options).
Proof. unfold ntp_main. yielding. in_rows. Qed.

Lemma tcp_yields en options : yields (fun a => rows STcp options [ta_shm a; ta_shm_upper a]) (tcp_main (W := W) (D := D) en options).
Proof. unfold tcp_main. yielding. in_rows. Qed.

Lemma http_yields en options : yields (fun a => rows SHttp options [ha_shm a]) (http_main (W := W) (D := D) en options).
Proof. unfold http_main. yielding. all: in_rows. Qed.

Lemma yields_sends {A} (P : A -> Prop) (p : prog W A) : (forall w a w', p w = Ret (a, w') -> P a) -> yields P (sends p).
Proof.
  intros Hp s a s'. unfold sends. destruct (p (pr_world s)) as [[b w]|] eqn:E; mcbn; [|done]. intros [= <- _]. by apply (Hp _ _ _ E).
Qed.

(** To the exchange of addresses. *)
Ltac to_sends :=
  repeat lazymatch goal with
    | |- yields _ (mbind _ (sends _)) => fail
    | |- yields _ (mbind _ _) => eapply yields_bind; [apply yields_any|intros ? _; cbv zeta]
    end.

(** [cfg_runtime] with replies of the two servers, as in [Exchange]: it learns their addresses. *)
Section Learns.
Context (mac ip4 : addr) (Bm : bytes mac) (Bi : bytes ip4).

Definition of_servers (r : option message) : Prop :=
  match r with Some m => answers (mac_text mac) m \/ answers (ip4_text ip4) m | None => True end.

Lemma cfg_ask_learns junk meta request key sep hex reply known (right : addr) (w w' : W) a :
  (forall m, reply = Some m -> exists b, cfg_got junk key sep hex m = Ret b /\ (b = None \/ b = Some right)) ->
  known = None \/ known = Some right -> cfg_ask junk meta request key sep hex reply known w = Ret (a, w') -> a = None \/ a = Some right.
Proof.
  intros Hgot Hk. unfold cfg_ask. destruct known as [b|]; [intros [= <- _]; exact Hk|].
  unfold mbind, prog_bind. destruct (send_meta_request _ _ w) as [[[nr|] w1]|]; [|intros [= <- _]; by left|done].
  destruct reply as [m|]; [|intros [= <- _]; by left]. unfold lift. destruct (Hgot m eq_refl) as (b & -> & Hb). mcbn. by intros [= <- _].
Qed.

Lemma cfg_runtime_learns junk m1 m2 rounds : forall known1 known2 (w w' : W) r,
  Forall (fun rr => of_servers rr.1 /\ of_servers rr.2) rounds ->
  known1 = None \/ known1 = Some mac -> known2 = None \/ known2 = Some ip4 ->
  cfg_runtime junk m1 m2 rounds known1 known2 w = Ret (r, w') -> r = None \/ r = Some (mac, ip4).
Proof.
  induction rounds as [|[r1 r2] rounds IH]; intros k1 k2 w w' r Hr H1 H2; cbn [cfg_runtime]; [intros [= <- _]; by left|].
  apply list.Forall_cons in Hr as [[Hr1 Hr2] Hr]. cbn [fst snd] in Hr1, Hr2. unfold mbind, prog_bind.
  destruct (cfg_ask junk m1 _ _ _ _ r1 k1 w) as [[a w1]|] eqn:E1; [|done].
  destruct (cfg_ask junk m2 _ _ _ _ r2 k2 w1) as [[b w2]|] eqn:E2; [|done].
  apply (cfg_ask_learns _ _ _ _ _ _ _ _ mac) in E1; [|intros m ->; destruct (got_mac junk mac ip4 m Bm Hr1) as (x & ? & ? & _); by exists x|done].
  apply (cfg_ask_learns _ _ _ _ _ _ _ _ ip4) in E2; [|intros m ->; destruct (got_ip4 junk mac ip4 m Bi Hr2) as (x & ? & _ & ? & _); by exists x|done].
  destruct E1 as [-> | ->]; [by apply IH; auto|]. destruct E2 as [-> | ->]; [by apply IH; auto|]. intros [= <- _]. by right.
Qed.

Lemma tcp_cfg_learns junk meta rounds : forall last nr (w w' : W) a, Forall (fun r => of_servers r.2) rounds ->
  tcp_cfg_runtime junk meta rounds last nr w = Ret (a, w') -> a = [] \/ a = ip4.
Proof.
  induction rounds as [|[now reply] rounds IH]; intros last nr w w' a Hr; cbn [tcp_cfg_runtime]; [intros [= <- _]; by left|].
  apply list.Forall_cons in Hr as [Hr0 Hr]. cbn [snd] in Hr0. unfold mbind at 1, prog_bind at 1.
  destruct (if u64 (now - last) >? 2000000 then _ else _) as [[[[l n]|] w1]|]; [|by apply IH|done].
  destruct reply as [m|]; [|by apply IH]. destruct (got_ip4 junk mac ip4 m Bi Hr0) as (x & _ & E & Hx & _).
  rewrite (lift_bind _ _ _ _ E). destruct Hx as [-> | ->]; [by apply IH|]. intros [= <- _]. by right.
Qed.

Lemma arp_learns en options : Forall (fun rr => of_servers rr.1 /\ of_servers rr.2) (en_arp_rounds en) ->
  yields (fun a => (aa_mac_addr a = [] /\ aa_ip4_addr a = []) \/ (aa_mac_addr a = mac /\ aa_ip4_addr a = ip4)) (arp_main (W := W) (D := D) en options).
Proof.
  intros Hr. unfold arp_main. to_sends. eapply yields_bind; [apply (yields_sends (fun r => r = None \/ r = Some (mac, ip4)))|].
  - intros w r w'. apply cfg_runtime_learns; auto.
  - intros r [-> | ->]; apply yields_ret; [by left|by right].
Qed.

Lemma tcp_learns_address en options : Forall (fun r => of_servers r.2) (en_tcp_rounds en) ->
  yields (fun a => ta_local_addr a = [] \/ ta_local_addr a = ip4) (tcp_main (W := W) (D := D) en options).
Proof.
  intros Hr. unfold tcp_main. to_sends. eapply yields_bind; [apply (yields_sends (fun a => a = [] \/ a = ip4))|].
  - intros w r w'. by apply tcp_cfg_learns.
  - intros r H. destruct (en_stopped en); [apply yields_exit|by apply yields_ret].
Qed.

End Learns.

End Yields.

(** ** Properties *)

(** C22: whatever the configuration files say and the systems calls return: when the [main] functions of the
    servers come to their [run], with names that are different and sizes that are not
    negative, each thread of the host reads a queue of the name and the size (in bytes, as a [size_t]) that its server's file asks for, and with these
    queues, empty, the host is ready: no packets, sessions or cached addresses yet. *)
Theorem booted_ready {W D} `{Transport W} `{Iniparser D} (en : server -> environment) (options : server -> list (Z * list Z))
  (st st' : server -> process W) (k : stack)
  (Hlink : tap_main (D := D) (en STap) (options STap) (st STap) = Ret (Go (k_link k), st' STap))
  (Harp : arp_main (D := D) (en SArp) (options SArp) (st SArp) = Ret (Go (k_arp k), st' SArp))
  (Hip4 : ip4_main (D := D) (en SIp4) (options SIp4) (st SIp4) = Ret (Go (k_ip4 k), st' SIp4))
  (Hicmp : icmp_main (D := D) (en SIcmp) (options SIcmp) (st SIcmp) = Ret (Go (k_icmp k), st' SIcmp))
  (Hudp : udp_main (D := D) (en SUdp) (options SUdp) (st SUdp) = Ret (Go (k_udp k), st' SUdp))
  (Hntp : ntp_main (D := D) (en SNtp) (options SNtp) (st SNtp) = Ret (Go (k_ntp k), st' SNtp))
  (Htcp : tcp_main (D := D) (en STcp) (options STcp) (st STcp) = Ret (Go (k_tcp k), st' STcp))
  (Hhttp : http_main (D := D) (en SHttp) (options SHttp) (st SHttp) = Ret (Go (k_http k), st' SHttp))
  (Hnames : NoDup ((fun t => (asked (D := D) options t).1) <$> threads)) (Hsizes : forall t, cap_of (D := D) options t < 2 ^ 63) :
  (forall t, inbox (config_of k) t = (asked (D := D) options t).1) /\
  host_ready (config_of k) (cap_of (D := D) options) (host_of k) /\ h_wire (host_of k) = [] /\ (forall a, mac_of (config_of k) (h_arp (host_of k)) a =
    if beq a (c_arp_ip (config_of k)) then Some (c_arp_mac (config_of k)) else None).
Proof.
  pose proof (tap_yields _ _ _ _ _ Hlink) as Y1. pose proof (arp_yields _ _ _ _ _ Harp) as Y2. pose proof (ip4_yields _ _ _ _ _ Hip4) as Y3.
  pose proof (icmp_yields _ _ _ _ _ Hicmp) as Y4. pose proof (udp_yields _ _ _ _ _ Hudp) as Y5. pose proof (ntp_yields _ _ _ _ _ Hntp) as Y6.
  pose proof (tcp_yields _ _ _ _ _ Htcp) as Y7. pose proof (http_yields _ _ _ _ _ Hhttp) as Y8.
  assert (Hmade : forall t, made (asked (D := D) options t) (queue_of k t)).
  { unfold rows in *. cbn [length take queue_table] in *.
    repeat match goal with H : Forall2 _ _ _ |- _ => inversion H; clear H; subst end. by intros []. }
  clear Y1 Y2 Y3 Y4 Y5 Y6 Y7 Y8. assert (Hin : forall t, inbox (config_of k) t = (asked (D := D) options t).1).
  { intros t. destruct (Hmade t) as [<- _]. by destruct t. }
  split; [exact Hin|]. split; [|done]. split; [|split; [apply map_Forall_empty|split; [by repeat constructor|done]]].
  intros t. rewrite Hin. exists (queue_of k t).2. destruct (Hmade t) as (Hn & Hs & He). split; [|split; [by apply He, Hsizes|exact Hs]].
  cbn [host_of h_segs]. rewrite <- Hn. apply elem_of_list_to_map.
  - rewrite <- list_fmap_compose. erewrite list_fmap_ext; [exact Hnames|]. intros i t' _. exact (proj1 (Hmade t')).
  - apply list_elem_of_fmap. exists t. split; [by destruct (queue_of k t)|]. destruct t; repeat (first [left|right]).
Qed.

(** When the replies a start gets are answers of the link server with [mac] and of the IPv4 server with [ip4] - as [exchange_safe] of
    [Exchange] has it - in any order, late or missing: the ARP server and the TCP server that come to their [run] have these addresses, or
    were stopped before both had come. *)
Theorem booted_addresses {W D} `{Transport W} `{Iniparser D} (mac ip4 : addr) (en_arp en_tcp : environment) (options_arp options_tcp : list (Z * list Z))
  (st_arp st_arp' st_tcp st_tcp' : process W) (arp : arp_args) (tcp : tcp_args) (Bm : bytes mac) (Bi : bytes ip4)
  (Hra : Forall (fun rr => of_servers mac ip4 rr.1 /\ of_servers mac ip4 rr.2) (en_arp_rounds en_arp))
  (Hrt : Forall (fun r => of_servers mac ip4 r.2) (en_tcp_rounds en_tcp))
  (Harp : arp_main (D := D) en_arp options_arp st_arp = Ret (Go arp, st_arp'))
  (Htcp : tcp_main (D := D) en_tcp options_tcp st_tcp = Ret (Go tcp, st_tcp')) :
  ((aa_mac_addr arp = [] /\ aa_ip4_addr arp = []) \/ (aa_mac_addr arp = mac /\ aa_ip4_addr arp = ip4)) /\
  (ta_local_addr tcp = [] \/ ta_local_addr tcp = ip4).
Proof.
  split; [exact (arp_learns mac ip4 Bm Bi en_arp options_arp Hra _ _ _ Harp)|exact (tcp_learns_address mac ip4 Bi en_tcp options_tcp Hrt _ _ _ Htcp)].
Qed.

(** The examples with their two mistakes mended. *)
Definition ini_arp_mended : ini_file :=
  [("global", [("name", "arp-lan1"); ("out-name", "tap-test-lan1"); ("resolver-name", "arp-lan1-resolver"); ("meta-name", "arp-lan1-meta");
     ("ether-meta-name", "tap-test-lan1-meta"); ("ip4-meta-name", "ip4-lan1-meta")]); ("specific", [("msg-queue-size", "16384")]); ("mappings", [])].

Definition ini_ip4_mended : ini_file :=
  map (fun sec => (sec.1, map (fun kv => if decide (kv.1 = "icmp-name") then ("icmp-error-name", "icmp-lan1-error") else kv) sec.2)) ini_ip4.

#[local] Instance ini_mended : Iniparser ini_file :=
  ini_iniparser (("arp-lan1.ini", ini_arp_mended) :: ("ip4-test-lan1.ini", ini_ip4_mended) :: ini_files).

Definition go {A} (m : outcome (main_result A * process oracle)) : option A :=
  match m with Ret (Go a, _) => Some a | _ => None end.

Definition file_of (s : server) : list (Z * list Z) := ex_options (default "" (snd <$> List.find (fun e => bool_decide (e.1 = s)) example_servers)).

Definition ex_stack : option stack :=
  a ← go (tap_main (D := ini_file) ex_environment (file_of STap) ex_process);
  b ← go (arp_main (D := ini_file) ex_environment (file_of SArp) ex_process);
  c ← go (ip4_main (D := ini_file) ex_environment (file_of SIp4) ex_process);
  d ← go (icmp_main (D := ini_file) ex_environment (file_of SIcmp) ex_process);
  e ← go (udp_main (D := ini_file) ex_environment (file_of SUdp) ex_process);
  f ← go (ntp_main (D := ini_file) ex_environment (file_of SNtp) ex_process);
  g ← go (tcp_main (D := ini_file) ex_environment (file_of STcp) ex_process);
  h ← go (http_main (D := ini_file) ex_environment (file_of SHttp) ex_process);
  Some {| k_link := a; k_arp := b; k_ip4 := c; k_icmp := d; k_udp := e; k_ntp := f; k_tcp := g; k_http := h |}.

(** The conditions of [HostFlow] and [HostArp] as a check. *)
Definition wired_check (c : config) : bool :=
  bool_decide (NoDup (inbox c <$> threads)) &&
  forallb (fun t => (zlen (inbox c t) <? max_id_length) && negb (bool_decide (0 ∈ inbox c t))) threads &&
  bool_decide ([c_arp_out c; c_ip4_out c; c_ip4_resolver c; c_icmp_out c; c_udp_out c; c_ntp_out c; c_tcp_out c; c_arp_mac c; c_arp_ip c] =
    [c_link c; c_link c; c_arp_resolver c; c_ip4_upper c; c_ip4_upper c; c_udp_upper c; c_ip4_upper c; c_mac c; (c_listen c).1]) &&
  bool_decide (c_link_in c !! 0x0800 = Some (c_ip4_lower c)) && bool_decide (c_link_out c !! c_ip4_lower c = Some 0x0800) &&
  bool_decide (c_link_in c !! 0x0806 = Some (c_arp c)) && bool_decide (c_link_out c !! c_arp c = Some 0x0806) &&
  forallb (fun b => (0 <=? b) && (b <? 256)) (c_mac c ++ (c_listen c).1 ++ c_gw c) &&
  (zlen (c_mac c) =? 6) && (zlen (c_listen c).1 =? 4) && (zlen (c_gw c) =? 4) &&
  (0 <=? (c_listen c).2) && ((c_listen c).2 <? 32) && (28 <=? c_mtu c) && (c_mtu c <=? 65000).

Lemma wired_check_ok c : wired_check c = true -> arp_wired c.
Proof.
  unfold wired_check. intros H. repeat (apply andb_prop in H as [H ?]). rewrite ?bool_decide_eq_true in *.
  match goal with E : [_; _; _; _; _; _; _; _; _] = _ |- _ => injection E as ? ? ? ? ? ? ? ? ? end.
  match goal with E : forallb (fun b => (0 <=? b) && _) _ = true |- _ => assert (Hb : bytes (c_mac c ++ (c_listen c).1 ++ c_gw c)) by
    (apply list.Forall_forall; intros b Hin; rewrite forallb_forall in E; specialize (E b (proj1 (list_elem_of_In _ _) Hin)); unfold is_byte; lia) end.
  apply bytes_app in Hb as [B1 [B2 B3]%bytes_app].
  split; [|done|done]. split; try done; try (split; (done || lia)); try lia. by apply names_ok_bool.
Qed.

(** The mended examples make a host as the theorems on whole hosts ask for. *)
Lemma booted_ready_witness :
  exists k, ex_stack = Some k /\ arp_wired (config_of k) /\ host_ready (config_of k) (cap_of (D := ini_file) file_of) (host_of k).
Proof.
  assert (Hchk : match ex_stack with Some k => wired_check (config_of k) && forallb (fun t => cap_of (D := ini_file) file_of t <? 2 ^ 63) threads | None => false end = true)
    by (vm_compute; reflexivity).
  unfold ex_stack in *.
  destruct (tap_main _ _ _) as [[[|a] pa]|] eqn:Ea; [done| |done]. cbn [go] in *.
  destruct (arp_main _ _ _) as [[[|b] pb]|] eqn:Eb; [done| |done]. cbn [go] in *.
  destruct (ip4_main _ _ _) as [[[|x] px]|] eqn:Ex; [done| |done]. cbn [go] in *.
  destruct (icmp_main _ _ _) as [[[|y] py]|] eqn:Ey; [done| |done]. cbn [go] in *.
  destruct (udp_main _ _ _) as [[[|z] pz]|] eqn:Ez; [done| |done]. cbn [go] in *.
  destruct (ntp_main _ _ _) as [[[|n] pn]|] eqn:En; [done| |done]. cbn [go] in *.
  destruct (tcp_main _ _ _) as [[[|tc] pt]|] eqn:Et; [done| |done]. cbn [go] in *.
  destruct (http_main _ _ _) as [[[|hc] pw]|] eqn:Ew; [done| |done]. cbn [go] in *.
  unfold mbind, option_bind in *. cbn beta iota in *. eexists. split; [done|]. set (k := {| k_link := a |}) in *.
  apply andb_prop in Hchk as [H1 H2]. pose proof (wired_check_ok _ H1) as Hw. split; [exact Hw|].
  assert (Hin : forall t, t ∈ threads) by (intros t; destruct t; repeat (first [left|right])).
  refine (proj1 (proj2 (booted_ready (D := ini_file) (fun _ => ex_environment) file_of (fun _ => ex_process)
    (fun s => match s with STap => pa | SArp => pb | SIp4 => px | SIcmp => py | SUdp => pz | STcp => pt | SHttp => pw | _ => pn end) k
    Ea Eb Ex Ey Ez En Et Ew _ _))).
  - refine (bool_decide_unpack _ _). by vm_compute.
  - intros t. rewrite forallb_forall in H2. specialize (H2 t (proj1 (list_elem_of_In _ _) (Hin t))). lia.
Defined.

(** Another course of the questions. *)
Definition with_rounds (arp : list (option message * option message)) (tcp : list (Z * option message)) (en : environment) : environment := {|
  en_junk := en_junk en; en_shm := en_shm en; en_realpath := en_realpath en; en_setgid_ok := en_setgid_ok en; en_setuid_ok := en_setuid_ok en; en_tap := en_tap en; en_prom := en_prom en;
  en_certificate_ok := en_certificate_ok en; en_private_key_ok := en_private_key_ok en; en_getrandom := en_getrandom en;
  en_arp_rounds := arp; en_tcp_rounds := tcp; en_stopped := en_stopped en |}.

Definition boot_mac : addr := [2; 0; 0; 171; 205; 1].
Definition boot_ip4 : addr := [192; 168; 1; 2].
Definition mac_reply : message := reply_message (mac_text boot_mac) 7.
Definition ip4_reply : message := reply_message (ip4_text boot_ip4) 8.

(** First no MAC address, then an answer to the wrong question, at last the right one; the TCP server's answer comes late. *)
Definition slow_environment : environment :=
  with_rounds [(None, Some ip4_reply); (Some ip4_reply, None); (Some mac_reply, None)] [(3000000, None); (3100000, Some ip4_reply)] ex_environment.

Lemma booted_addresses_witness : exists arp tcp st_arp st_tcp,
  arp_main (D := ini_file) slow_environment (file_of SArp) ex_process = Ret (Go arp, st_arp) /\
  tcp_main (D := ini_file) slow_environment (file_of STcp) ex_process = Ret (Go tcp, st_tcp) /\
  aa_mac_addr arp = boot_mac /\ aa_ip4_addr arp = boot_ip4 /\ ta_local_addr tcp = boot_ip4.
Proof.
  assert (Hchk : match go (arp_main (D := ini_file) slow_environment (file_of SArp) ex_process), go (tcp_main (D := ini_file) slow_environment (file_of STcp) ex_process) with
    | Some a, Some t => negb (beq (aa_mac_addr a) []) && negb (beq (ta_local_addr t) []) | _, _ => false end = true) by (vm_compute; reflexivity).
  destruct (arp_main _ _ _) as [[[|a] pa]|] eqn:Ea; [done| |done]. cbn [go] in Hchk.
  destruct (tcp_main _ _ _) as [[[|t] pt]|] eqn:Et; [done| |done]. cbn [go] in Hchk. apply andb_prop in Hchk as [H1 H2].
  exists a, t, pa, pt. split; [done|]. split; [done|].
  assert (Am : answers (mac_text boot_mac) mac_reply) by (split; [reflexivity|reflexivity|by exists []]).
  assert (Ai : answers (ip4_text boot_ip4) ip4_reply) by (split; [reflexivity|reflexivity|by exists []]).
  assert (Bm : bytes boot_mac) by (by concrete_bytes). assert (Bi : bytes boot_ip4) by (by concrete_bytes).
  destruct (booted_addresses (D := ini_file) boot_mac boot_ip4 slow_environment slow_environment (file_of SArp) (file_of STcp) ex_process pa ex_process pt a t
    Bm Bi) as [Ha Ht]; [| |exact Ea|exact Et|].
  - apply list.Forall_cons. split; [split; [exact I|by right]|]. apply list.Forall_cons. split; [split; [by right|exact I]|].
    apply list.Forall_cons. split; [split; [by left|exact I]|constructor].
  - apply list.Forall_cons. split; [exact I|]. apply list.Forall_cons. split; [by right|constructor].
  - clear Ea Et. destruct Ha as [[E1 _]|[E1 E2]]; [by rewrite E1 in H1|]. destruct Ht as [E3|E3]; [by rewrite E3 in H2|]. exact (conj E1 (conj E2 E3)).
Defined.
